(* ===== verification/_CoqProject ===== *)
-Q . S2P
Prelude.v
Calendar.v
TimeParse.v
Format.v
PragueTime.v
Models.v
TimeIntervals.v
Breaks.v
TimeMetrics.v
Locks.v
EmploymentAccess.v
DayStatus.v
AttendanceEvents.v
MonthSummary.v
AttendanceApi.v
SystemInvariant.v
Period.v
AdminAttendanceApi.v
LocksApi.v
Groups.v
AdminEmployments.v
EmploymentRows.v
EmploymentSafety.v
RateLimit.v
Lockout.v
Accounts.v
Sessions.v
Login.v
LoginSafety.v
AdminUsers.v
PasswordReset.v
Instances.v
References.v
AccountsSafety.v
AccountsHandlers.v
Reminders.v
AttendanceSafety.v
ShiftPlanApi.v
PlanSafety.v
System.v
PortalSystem.v
ResetLinks.v
RequestAuth.v
UsersSpec.v
IpAddress.v
IntegrationClients.v
Cursors.v
IntegrationCatalog.v
IntegrationAdmin.v
IntegrationOptions.v
IntegrationApi.v
IntegrationSafety.v
IntegrationPages.v
GatewaySystem.v
IntegrationAccess.v
UrlText.v
ExternalProviders.v
ExternalAuth.v
ExternalSafety.v
FederationSystem.v
ExternalLogin.v
IsoText.v
MonthViews.v
MonthSheets.v
PlanViews.v
PlanSheets.v
CsvExport.v
ExportSafety.v
Report.v
ReportSafety.v
CmlWeb.v
CmlSafety.v
Examples.v
SystemExamples.v
EmploymentExamples.v
AccountsExamples.v
IntegrationExamples.v
ExternalExamples.v
ViewsExamples.v
CmlExamples.v
