(* ===== verification/Prelude.v ===== *)
(** * KajovoDagmar: a verification library for the attendance back end

    The program is a FastAPI service over PostgreSQL in which the employees of
    a company record arrivals and departures and plan their shifts, and an
    administration manages employments, locks months and computes hours.  This
    library models its Python code under src/app as executable functions and
    proves what the code promises about the data it keeps.

    ** The parts, and the code they model

    - [Prelude]: results and errors ([raise_api_error] of api/errors.py),
      tables as lists of rows, sorting, the tactics and hints of the library.
    - [Calendar], [TimeParse], [PragueTime]: proleptic Gregorian dates as day
      ordinals, services/czech_holidays.py, utils/timeparse.py and
      services/prague_time.py.
    - [Models]: the tables of db/models.py as records and the database [DB] as
      a record of tables; primary keys come from one counter.
    - [TimeIntervals], [Breaks], [TimeMetrics]: services/time_intervals.py and
      services/time_metrics.py: pairing, splitting by day, automatic and
      missing breaks, hours and their rounding.
    - [Locks], [EmploymentAccess], [DayStatus], [AttendanceEvents],
      [MonthSummary]: the services of the same names, with
      attendance_mutations.py and daily_metrics.py.
    - [AttendanceApi], [AdminAttendanceApi], [ShiftPlanApi], [LocksApi],
      [Groups]: the mutating endpoints of api/v1/attendance.py,
      admin_attendance.py, shift_plan.py, admin_shift_plan.py, admin_locks.py
      and admin_employment_groups.py, the services they call and the monthly
      job services/shift_plan_auto_lock.py.
    - [Format], [AdminEmployments]: api/v1/admin_employments.py with its
      validators, conflict summaries and deletions.
    - [Reminders]: services/attendance_reminders.py.
    - [IsoText], [MonthViews], [PlanViews]: the text of a date-time, and the
      month views of attendance.py, admin_attendance.py, shift_plan.py and
      admin_shift_plan.py.
    - [CsvExport]: api/v1/admin_export.py with its files and archives,
      utils/slugify.py, and the format of CSV with a reader of it.
    - [Report]: the report of services/shift_plan_reports.py with its payload
      and labels, and services/print_locales.py.
    - [CmlWeb]: the boundary to KajovoCML: security/cml_assertion.py and
      cml_web.py, services/cml_identity.py and cml_profiles.py.
    - [RateLimit], [Lockout], [Login]: security/integration_rate_limit.py,
      security/lockout.py, security/passwords.py and the logins of
      api/v1/portal_auth.py and admin_auth.py.
    - [Accounts], [Sessions], [AdminUsers], [PasswordReset], [Instances]: the
      tables of accounts and services/portal_credentials.py;
      security/sessions.py and csrf.py; api/v1/admin_users.py; its reset links
      with the reset of portal_auth.py; security/tokens.py, the endpoints of
      instances and the dependencies of api/deps.py.
    - [IpAddress], [IntegrationClients], [IntegrationCatalog],
      [IntegrationAdmin], [IntegrationOptions]: the clients of the integration
      API: their tables, security/integration_tokens.py,
      services/integration_scope.py and integration_admin.py,
      [require_integration_auth] of api/deps.py and
      api/v1/admin_integrations.py.
    - [Cursors], [IntegrationApi]: api/integration_common.py,
      api/v1/integration.py and the middleware of main.py around its requests.
    - [UrlText], [ExternalProviders], [ExternalAuth]: optional sign-in with
      Google and Apple: urllib.parse and the allow-list of config.py, the
      conversation with the providers and its caches
      (services/external_auth.py), security/crypto.py, the external tables
      and api/v1/external_auth.py.
    - [SystemInvariant], [Period], [EmploymentRows], [EmploymentSafety],
      [AttendanceSafety], [PlanSafety], [LoginSafety], [References],
      [AccountsSafety], [AccountsHandlers]: the invariants, and that each
      handler keeps them; [IntegrationSafety] and [IntegrationPages] say the
      same of a partner's requests and [ExternalSafety] of external sign-in.
      [System], [PortalSystem], [GatewaySystem] and [FederationSystem] put the
      handlers together: on the time data, with the accounts and the
      authentication of each request, with the integration clients, and with
      external sign-in; [ExternalLogin], [IntegrationAccess], [ResetLinks],
      [RequestAuth] and [UsersSpec] say what tokens, links, sessions and the
      administration of users do.  [Examples], [SystemExamples], [EmploymentExamples],
      [AccountsExamples], [IntegrationExamples], [ExternalExamples],
      [ViewsExamples] and [CmlExamples] run it all on one company in the zone
      of 2026.
    - [MonthSheets], [PlanSheets], [ExportSafety] and [ReportSafety] say what
      the month views, the exports and the report show, and to whom;
      [CmlSafety] what KajovoCML can make the application do.

    ** How state and operations are represented

    A mutating endpoint is a function from the database, the signed-in user,
    the instant of the request and the body to the database it commits or to
    the HTTP error it raises; an error leaves the database as it was, since
    the session is closed without a commit.  A request is one transaction that
    takes the row lock of its employment, so requests are modelled as steps of
    a sequence, in any order.  A handler that commits and then raises (a
    failed login) returns both.  Instants are microseconds; a date-time of the
    Prague zone keeps its wall clock and its instant, and [commit] reads every
    event back from the stored instant.  The zone is a class [PragueZone] with
    its laws ([PragueZoneLaws], [PragueGap]), and [PragueTime.Prague2026] is
    an instance that satisfies them.  Days are ordinals without a last one;
    where the code takes a day or a month it does not bound itself, the end of
    the calendar is modelled ([day_after], [checked_month_range]), and
    elsewhere the years 1 to 9999 are understood.  A string is a sequence of
    characters, and [String.length] is compared with the length of a column
    where a longer text fails the insert.  A mail sender is an argument that may
    fail at any e-mail.  Argon2, bcrypt and SHA-256 are the class [Crypto];
    base64, JSON and the keyed hash of the cookies the class [Signing]; JSON
    and the text of a date-time in a cursor the class [Interchange], while the
    base64 of cursors and the parsing of IP addresses are modelled.  The
    state of the accounts is [Portal], which contains the database, and that
    of the service [Gateway], which contains the portal, the integration
    clients, their audit and the buckets of the rate limiter, inside
    [Federation], which adds the external identities, the OAuth transactions
    and the cached documents of the providers; sending a reset link is two
    steps of the machine, since the code commits before and after the e-mail.
    The answers of Google and Apple and the two clocks are the argument
    [World] of a request, what [secrets] draws is [Randoms], PyJWT is the
    class [Jwt] and Fernet the class [Sealing]; JSON octets
    and Ed25519 are the class [CmlLibrary].  That the zone is less
    than a day from Greenwich, which the text of a date-time relies on, is the
    class [PragueOffsets]; removing diacritics, the lower case of a name and the collation of
    group names are arguments of the functions that use them.

    ** What the theorems show

    - [FederationSystem], on [GatewaySystem], [PortalSystem] and [System]:
      any sequence of requests, of employees, administrators, partners and
      anybody, callbacks of Google and Apple included, keeps the time data,
      the accounts, the integration clients and the external identities well
      formed.  A locked month keeps its facts as long as no request unlocks it
      or deletes the data of the employment on purpose, and metrics that are
      those of a recomputation stay so as long as no request sends a wall
      clock the spring change skips.  Groups keep two members as long as no
      user with a grouped employment is deleted: that deletion does not
      dissolve groups, and nothing else depends on it.  The state of a sign-in
      is used once, and an account without an external identity gets one only
      by a link confirmed with its password in the browser that saw the
      provider's answer.
    - [ExternalLogin]: exactly when a callback signs somebody in, what the
      provider's claims rest on, that the login reaches its browser once, that
      the browser is sent only to the provider and back, and what unlinking
      leaves.
    - [IntegrationPages], [IntegrationAccess]: a partner reads and writes only
      inside its scope, and its lists, followed by their cursors, are
      complete; who is let in; a replaced token is dead for good; every
      request whose texts fit the columns of the audit leaves its row, and one
      that does not fit ends in an error after its write was committed.
    - [EmploymentSafety]: the administration of employments refines an
      abstract step, deletes only what it counted and was confirmed, and
      never crashes.
    - [RequestAuth], [ResetLinks], [UsersSpec]: when a session is accepted,
      what an account that was blocked or deactivated can no longer do, a
      reset link works once; creating and deleting users on every branch.
    - [AttendanceSafety], [PlanSafety]: what each successful request of the
      portal does and what it leaves alone; [LocksApi], [Groups]: the exact
      effect of the administration's requests and of the monthly job.
    - [MonthSheets], [PlanSheets]: a month sheet shows every event of its
      month once, offers for deletion exactly what the deletion accepts, and
      is the same for the employee and the administration; a group plan is
      shown to its members only, and both plan views agree.
    - [ExportSafety], [ReportSafety]: a CSV file reads back cell by cell and
      loses no event, an export holds the employments it should under names
      that are safe but for the text of the month; a report holds every selected employment once.
    - [CmlSafety]: an assertion of KajovoCML is admitted once and for one
      request, what is forwarded, as whom, and which credentials the request
      brings itself still count, and an operation on profiles
      creates one account, on every branch.  The boundary has its own state,
      [CmlState], in front of the portal, and the requests it forwards meet the
      dependencies of [Instances]; between them the application may do
      anything.
    - [DayStatus], [AttendanceEvents], [MonthSummary]: the services on every
      branch, persisted and recomputed summaries agree.
    - [TimeIntervals], [Breaks], [TimeMetrics]: pairs are chronological and
      disjoint, parts partition an interval, breaks conserve the time worked,
      rounding and bounds of hours.
    - [Reminders]: each due reminder is recorded exactly once, whatever
      e-mails fail.  [RateLimit], [Lockout], [LoginSafety]: no client exceeds
      its rate in one process, and at most five guesses an hour at the login
      of an account are checked while nothing clears its lock-out.

    ** Fuel

    [split_loop] and [find_breaks] take fuel: the number of
    days the interval touches and the number of possible breaks.
    The theorems about them show that the callers' fuel is enough.  [walk],
    which follows the cursors of a list, takes one unit for each page;
    [enough] is the number of pages.

    ** Not modelled

    Drawing the PDF of a report, SMTP, configuration and process start-up.
    Character case and white space follow ASCII.  The text of error messages
    is left out: an error is its status and its code. *)

From Stdlib Require Export ZArith Lia Bool Ascii String Sorting.Permutation Sorting.Sorted.
From stdpp Require Export base tactics list numbers strings sets.

#[global] Open Scope Z_scope.

(** ** Tactics *)

(** [lia] after turning [/] and [mod] into their defining equations. *)
Ltac zdiv := Z.div_mod_to_equations; lia.

(** Split every boolean connective and comparison in the hypotheses. *)
Ltac bool_hyps :=
  repeat match goal with
    | H : _ && _ = true |- _ => apply andb_true_iff in H; destruct H
    | H : _ || _ = false |- _ => apply orb_false_iff in H; destruct H
    | H : negb _ = true |- _ => apply negb_true_iff in H
    | H : negb _ = false |- _ => apply negb_false_iff in H
    | H : (_ <=? _) = true |- _ => apply Z.leb_le in H
    | H : (_ <=? _) = false |- _ => apply Z.leb_gt in H
    | H : (_ <? _) = true |- _ => apply Z.ltb_lt in H
    | H : (_ <? _) = false |- _ => apply Z.ltb_ge in H
    | H : (_ =? _) = true |- _ => apply Z.eqb_eq in H
    | H : (_ =? _) = false |- _ => apply Z.eqb_neq in H
    end.

(** Case analysis on the scrutinee of the first [match] of the goal. *)
Ltac case_goal :=
  match goal with
  | |- context [match ?x with _ => _ end] => destruct x eqn:?
  end.

(** The same in a hypothesis, closing the impossible branches. *)
Ltac case_hyp H :=
  match type of H with
  | context [match ?x with _ => _ end] => destruct x eqn:?
  end; try discriminate H.

(** ** Results: a value or the HTTP error raised by a handler

    [raise_api_error status code message] of app/api/errors.py; the message
    is a fixed Czech text per code and is not modelled.  [Conflict] is a 409
    that also carries counts and a range of days; [Crash] stands for an
    exception no handler turns into an HTTP error (a 500). *)
Inductive api_error :=
  | ApiError (status : Z) (code : string)
  | Conflict (code : string) (counts : list Z) (range : option Z * option Z)
  | Crash (what : string).

Inductive result (A : Type) :=
  | Ok (a : A)
  | Err (e : api_error).
Arguments Ok {A} a.
Arguments Err {A} e.

#[global] Instance api_error_eq_dec : EqDecision api_error.
Proof. solve_decision. Defined.

Definition raise_api_error {A} (status : Z) (code : string) : result A :=
  Err (ApiError status code).

Definition rbind {A B} (m : result A) (k : A → result B) : result B :=
  match m with Ok a => k a | Err e => Err e end.

Declare Scope dagmar_scope.
Delimit Scope dagmar_scope with dagmar.
Notation "'let?' x ':=' m 'in' k" := (rbind m (λ x, k))
  (at level 200, x strict pattern, m at level 100, k at level 200) : dagmar_scope.
Notation "m '?;;' k" := (rbind m (λ _ : unit, k))
  (at level 100, right associativity) : dagmar_scope.
#[global] Open Scope dagmar_scope.

(** [if cond: raise ...] as a statement. *)
Definition guard (cond : bool) (e : api_error) : result unit :=
  if cond then Err e else Ok tt.

Lemma rbind_ok {A B} (m : result A) (k : A → result B) b :
  rbind m k = Ok b ↔ ∃ a, m = Ok a ∧ k a = Ok b.
Proof.
  destruct m; simpl; split; [eauto | by intros (? & [= ->] & ?) | done | by intros (? & ? & _)].
Qed.

Lemma guard_ok c e u : guard c e = Ok u ↔ c = false.
Proof. unfold guard. destruct c, u; split; congruence. Qed.

Lemma guard_bind_ok {B} c e (k : unit → result B) b :
  rbind (guard c e) k = Ok b ↔ c = false ∧ k tt = Ok b.
Proof. unfold guard. destruct c; simpl; split; [done | by intros [? _] | done | by intros [_ ?]]. Qed.

(** Errors a composition cannot raise. *)
Lemma rbind_not_err {A B} (m : result A) (k : A → result B) err :
  m ≠ Err err → (∀ a, m = Ok a → k a ≠ Err err) → rbind m k ≠ Err err.
Proof. destruct m; simpl; [auto|congruence]. Qed.

Lemma guard_not_err c e err : e ≠ err → guard c e ≠ Err err.
Proof. unfold guard. destruct c; congruence. Qed.

(** Unfold a successful run of a handler into the facts of its steps. *)
Ltac ok_inv H :=
  repeat match type of H with
    | rbind (guard _ _) _ = Ok _ =>
        let E := fresh "Hguard" in apply guard_bind_ok in H as [E H]
    | rbind _ _ = Ok _ =>
        let x := fresh "v" in let E := fresh "Hstep" in
        apply rbind_ok in H as (x & E & H)
    | (if ?c then Err _ else _) = Ok _ => destruct c eqn:?; [discriminate H|]
    end.

(** [for x in l: f(x)] where the body may raise. *)
Fixpoint for_each {A} (f : A → result unit) (l : list A) : result unit :=
  match l with
  | [] => Ok tt
  | x :: l' => f x ?;; for_each f l'
  end.

Lemma for_each_ok {A} (f : A → result unit) l u :
  for_each f l = Ok u ↔ Forall (λ x, f x = Ok tt) l.
Proof.
  destruct u. induction l as [|x l IH]; simpl.
  - split; [constructor | done].
  - rewrite rbind_ok, Forall_cons, <- IH. split.
    + intros ([] & Hx & Hl). done.
    + intros [Hx Hl]. exists tt. done.
Qed.

Lemma for_each_not_err {A} (f : A → result unit) l err :
  (∀ x, f x ≠ Err err) → for_each f l ≠ Err err.
Proof. intros H. induction l as [|x l IH]; simpl; [done|]. by apply rbind_not_err. Qed.

(** [[f(x) for x in l]] where [f] may raise. *)
Fixpoint map_result {A B} (f : A → result B) (l : list A) : result (list B) :=
  match l with
  | [] => Ok []
  | x :: l' => let? y := f x in let? ys := map_result f l' in Ok (y :: ys)
  end.

Lemma map_result_fmap {A B} (f : A → result B) (g : A → B) l :
  (∀ x, x ∈ l → f x = Ok (g x)) → map_result f l = Ok (g <$> l).
Proof.
  induction l as [|x l IH]; intros H; [done|]. simpl.
  rewrite H by left. simpl. rewrite IH; [done|]. intros y Hy. apply H. by right.
Qed.

Lemma map_result_ext {A B} (f g : A → result B) l :
  (∀ x, x ∈ l → f x = g x) → map_result f l = map_result g l.
Proof.
  induction l as [|x l IH]; intros H; [done|]. simpl.
  rewrite H by left. rewrite IH; [done|]. intros y Hy. apply H. by right.
Qed.

(** ** Sorting

    Python's [sorted(l, key=...)] is stable; insertion sort with a [<=] test
    on keys gives the same list.  [leb] is the (total) order on elements
    induced by the key. *)
Section Sorting.
Context {A : Type} (leb : A → A → bool).

Fixpoint insert_sorted (x : A) (l : list A) : list A :=
  match l with
  | [] => [x]
  | y :: l' => if leb x y then x :: y :: l' else y :: insert_sorted x l'
  end.

Definition sorted_by (l : list A) : list A := foldr insert_sorted [] l.

Lemma insert_sorted_perm x l : insert_sorted x l ≡ₚ x :: l.
Proof.
  induction l as [|y l IH]; simpl; [done|].
  case_goal; [done|]. rewrite IH. apply perm_swap.
Qed.

Lemma sorted_by_perm l : sorted_by l ≡ₚ l.
Proof.
  induction l as [|x l IH]; simpl; [done|]. by rewrite insert_sorted_perm, IH.
Qed.

Lemma elem_of_sorted_by x l : x ∈ sorted_by l ↔ x ∈ l.
Proof. by rewrite sorted_by_perm. Qed.

Lemma length_sorted_by l : length (sorted_by l) = length l.
Proof. apply Permutation_length, sorted_by_perm. Qed.

Definition le_rel (x y : A) : Prop := leb x y = true.

Lemma insert_sorted_sorted
  (total : ∀ x y, leb x y = false → leb y x = true)
  (trans : ∀ x y z, leb x y = true → leb y z = true → leb x z = true) x l :
  StronglySorted le_rel l → StronglySorted le_rel (insert_sorted x l).
Proof.
  induction 1 as [|y l Hs IH Hall]; simpl; [by repeat constructor|].
  destruct (leb x y) eqn:E.
  - constructor; [by constructor|]. constructor; [done|].
    eapply Forall_impl; [done|]. intros z Hz. by eapply trans.
  - constructor; [done|]. rewrite insert_sorted_perm.
    constructor; [by apply total | done].
Qed.

Lemma sorted_by_sorted
  (total : ∀ x y, leb x y = false → leb y x = true)
  (trans : ∀ x y z, leb x y = true → leb y z = true → leb x z = true) l :
  StronglySorted le_rel (sorted_by l).
Proof.
  induction l as [|x l IH]; simpl; [constructor|]. by apply insert_sorted_sorted.
Qed.
End Sorting.

(** The first and the last element of a sorted list bound every element. *)
Lemma sorted_head_last {A} (R : A → A → Prop) (l : list A) x :
  (∀ y, R y y) → StronglySorted R l → x ∈ l →
  ∃ a b, head l = Some a ∧ last l = Some b ∧ R a x ∧ R x b.
Proof.
  intros Hrefl Hs. induction Hs as [|y k Hs IH Hall]; intros Hx; [by apply elem_of_nil in Hx|].
  rewrite Forall_forall in Hall. destruct k as [|z k].
  - apply list_elem_of_singleton in Hx as ->. by exists y, y.
  - rewrite last_cons_cons. destruct (last (z :: k)) as [b|] eqn:Hb; [|by apply last_None in Hb].
    exists y, b. split_and!; [done|done|..].
    + apply elem_of_cons in Hx as [->|Hx]; [done|by apply Hall].
    + apply elem_of_cons in Hx as [->|Hx].
      * apply last_Some in Hb as (k' & Hk). apply Hall. rewrite Hk. apply elem_of_app. right. left.
      * destruct (IH Hx) as (a & b' & _ & Hb' & _ & H). congruence.
Qed.

(** Two sorted permutations of the same list are equal when the order is
    antisymmetric on its elements. *)
Lemma sorted_perm_unique {A} (R : A → A → Prop) (l1 l2 : list A) :
  (∀ x y, x ∈ l1 → y ∈ l1 → R x y → R y x → x = y) →
  StronglySorted R l1 → StronglySorted R l2 → l1 ≡ₚ l2 → l1 = l2.
Proof.
  intros Hanti Hs1. revert l2 Hanti.
  induction Hs1 as [|x l1 Hs1 IH Hx]; intros l2 Hanti Hs2 Hp.
  - by apply Permutation_nil_l in Hp as ->.
  - destruct Hs2 as [|y l2 Hs2 Hy].
    { by symmetry in Hp; apply Permutation_nil_cons in Hp. }
    assert (x = y) as ->.
    { assert (Hyin : y ∈ x :: l1) by (rewrite Hp; left).
      assert (Hxin : x ∈ y :: l2) by (rewrite <- Hp; left).
      apply elem_of_cons in Hyin as [|Hyin]; [done|].
      apply elem_of_cons in Hxin as [|Hxin]; [done|].
      rewrite Forall_forall in Hx, Hy.
      apply Hanti; [left | by right | by apply Hx | by apply Hy]. }
    f_equal. apply IH; [|done|by apply Permutation_cons_inv in Hp].
    intros a b Ha Hb. apply Hanti; by right.
Qed.

Lemma StronglySorted_app {A} (R : A → A → Prop) (l1 l2 : list A) :
  (∀ x y, x ∈ l1 → y ∈ l2 → R x y) →
  StronglySorted R l1 → StronglySorted R l2 → StronglySorted R (l1 ++ l2).
Proof.
  intros HR Hs1 Hs2. induction Hs1 as [|x l1 Hs1 IH Hx]; simpl; [done|]. constructor.
  - apply IH. intros a b Ha. apply HR. by right.
  - apply Forall_app. split; [done|]. apply Forall_forall. intros y Hy. apply HR; [left|done].
Qed.

Lemma StronglySorted_fmap {A B} (R : A → A → Prop) (S : B → B → Prop) (f : A → B) l :
  (∀ x y, x ∈ l → y ∈ l → R x y → S (f x) (f y)) →
  StronglySorted R l → StronglySorted S (f <$> l).
Proof.
  intros HRS Hs. induction Hs as [|x l Hs IH Hx]; csimpl; constructor.
  - apply IH. intros a b Ha Hb. apply HRS; by right.
  - rewrite Forall_fmap. rewrite Forall_forall in Hx |- *. intros y Hy.
    apply HRS; [left | by right | by apply Hx].
Qed.

(** ** Sums *)
Fixpoint sum_Z (l : list Z) : Z :=
  match l with [] => 0 | x :: l' => x + sum_Z l' end.

Lemma sum_Z_app l1 l2 : sum_Z (l1 ++ l2) = sum_Z l1 + sum_Z l2.
Proof. induction l1 as [|x l1 IH]; simpl; lia. Qed.

Lemma sum_Z_nonneg l : Forall (λ x, 0 <= x) l → 0 <= sum_Z l.
Proof. induction 1; simpl; lia. Qed.

Lemma sum_Z_le {A} (f g : A → Z) l :
  (∀ x, x ∈ l → f x <= g x) → sum_Z (f <$> l) <= sum_Z (g <$> l).
Proof.
  induction l as [|x l IH]; intros H; csimpl; [lia|].
  pose proof (H x ltac:(left)).
  enough (sum_Z (f <$> l) <= sum_Z (g <$> l)) by lia.
  apply IH. intros y Hy. apply H. by right.
Qed.

Lemma sum_Z_add {A} (f g : A → Z) l :
  sum_Z ((λ x, f x + g x) <$> l) = sum_Z (f <$> l) + sum_Z (g <$> l).
Proof. induction l as [|x l IH]; csimpl; lia. Qed.

(** ** Lists as the rows of a SQL table

    A query is [filter]; an update is [map]; a delete is the filter of the
    negated condition. *)
Definition where_ {A} (p : A → bool) (l : list A) : list A := List.filter p l.
Definition delete_where {A} (p : A → bool) (l : list A) : list A :=
  List.filter (λ x, negb (p x)) l.
Definition update_where {A} (p : A → bool) (f : A → A) (l : list A) : list A :=
  (λ x, if p x then f x else x) <$> l.

Lemma elem_of_where {A} (p : A → bool) (l : list A) x :
  x ∈ where_ p l ↔ x ∈ l ∧ p x = true.
Proof. unfold where_. by rewrite !list_elem_of_In, filter_In. Qed.

Lemma elem_of_delete_where {A} (p : A → bool) (l : list A) x :
  x ∈ delete_where p l ↔ x ∈ l ∧ p x = false.
Proof.
  unfold delete_where. rewrite !list_elem_of_In, filter_In, negb_true_iff. done.
Qed.

Lemma elem_of_update_where {A} (p : A → bool) f (l : list A) x :
  x ∈ update_where p f l ↔ ∃ y, y ∈ l ∧ x = if p y then f y else y.
Proof.
  unfold update_where. rewrite list_elem_of_fmap. split; intros (y & ? & ?); by exists y.
Qed.

Lemma delete_where_ext {A} (p q : A → bool) (l : list A) :
  (∀ x, x ∈ l → p x = q x) → delete_where p l = delete_where q l.
Proof.
  intros H. unfold delete_where. apply filter_ext_in. intros x Hx%list_elem_of_In. by rewrite H.
Qed.

Lemma length_where_fmap {A B} (p : B → bool) (f : A → B) (l : list A) :
  length (where_ p (f <$> l)) = length (where_ (λ x, p (f x)) l).
Proof.
  unfold where_. induction l as [|x l IH]; [done|]. rewrite fmap_cons. simpl.
  destruct (p (f x)); simpl; by rewrite IH.
Qed.

Lemma where_nil_iff {A} (p : A → bool) (l : list A) :
  where_ p l = [] ↔ ∀ x, x ∈ l → p x = false.
Proof.
  unfold where_. induction l as [|y l IH]; simpl.
  - split; [intros _ x Hx; by apply elem_of_nil in Hx | done].
  - destruct (p y) eqn:E.
    + split; [done|]. intros H. specialize (H y ltac:(left)). congruence.
    + rewrite IH. split.
      * intros H x [->|Hx]%elem_of_cons; auto.
      * intros H x Hx. apply H. by right.
Qed.

Lemma where_app {A} (p : A → bool) (l1 l2 : list A) :
  where_ p (l1 ++ l2) = where_ p l1 ++ where_ p l2.
Proof. apply List.filter_app. Qed.

Lemma where_ext {A} (p q : A → bool) (l : list A) :
  (∀ x, x ∈ l → p x = q x) → where_ p l = where_ q l.
Proof.
  intros H. unfold where_. apply filter_ext_in. intros x Hx. apply H.
  by apply list_elem_of_In.
Qed.

Lemma where_fmap {A B} (p : B → bool) (f : A → B) (l : list A) :
  where_ p (f <$> l) = f <$> where_ (λ x, p (f x)) l.
Proof.
  unfold where_. induction l as [|x l IH]; [done|]. rewrite fmap_cons. simpl.
  destruct (p (f x)); [rewrite fmap_cons|]; by rewrite IH.
Qed.

Lemma where_where {A} (p q : A → bool) (l : list A) :
  where_ p (where_ q l) = where_ (λ x, q x && p x) l.
Proof.
  unfold where_. induction l as [|x l IH]; simpl; [done|].
  destruct (q x); simpl; [|done]. destruct (p x); by rewrite IH.
Qed.

Lemma where_perm {A} (p : A → bool) (l1 l2 : list A) :
  l1 ≡ₚ l2 → where_ p l1 ≡ₚ where_ p l2.
Proof.
  unfold where_. induction 1; simpl.
  - done.
  - destruct (p x); [by constructor | done].
  - destruct (p x), (p y); [apply perm_swap | done..].
  - by etrans.
Qed.

#[global] Instance where_proper {A} (p : A → bool) :
  Proper ((≡ₚ) ==> (≡ₚ)) (where_ p).
Proof. intros l1 l2 H. by apply where_perm. Qed.
#[global] Instance delete_where_proper {A} (p : A → bool) :
  Proper ((≡ₚ) ==> (≡ₚ)) (delete_where p).
Proof. intros l1 l2 H. by apply (where_perm (λ x, negb (p x))). Qed.

Lemma where_all {A} (p : A → bool) (l : list A) :
  (∀ x, x ∈ l → p x = true) → where_ p l = l.
Proof.
  induction l as [|x l IH]; intros H; [done|]. unfold where_ in *; simpl.
  rewrite (H x) by left. f_equal. apply IH. intros y Hy. apply H. by right.
Qed.

Lemma StronglySorted_where {A} (R : A → A → Prop) (p : A → bool) (l : list A) :
  StronglySorted R l → StronglySorted R (where_ p l).
Proof.
  intros Hs. unfold where_. induction Hs as [|x l Hs IH Hx]; simpl; [constructor|].
  destruct (p x); [|done]. constructor; [done|]. rewrite Forall_forall in Hx |- *.
  intros y [Hy _]%(elem_of_where p). by apply Hx.
Qed.

(** Sorting the selected rows is selecting from the sorted rows. *)
Lemma where_sorted_by {A} (leb : A → A → bool) (p : A → bool)
  (total : ∀ x y, leb x y = false → leb y x = true)
  (trans : ∀ x y z, leb x y = true → leb y z = true → leb x z = true) l :
  where_ p (sorted_by leb l) = sorted_by leb (where_ p l).
Proof.
  assert (Hins : ∀ x k, StronglySorted (le_rel leb) k →
    where_ p (insert_sorted leb x k) =
      if p x then insert_sorted leb x (where_ p k) else where_ p k).
  { intros x k Hs. unfold where_. induction Hs as [|y k Hs IH Hy]; simpl; [by destruct (p x)|].
    destruct (leb x y) eqn:E; simpl.
    - destruct (p y) eqn:Ey; simpl; rewrite ?E; [done|]. destruct (p x); [|done].
      rewrite Forall_forall in Hy. destruct (List.filter p k) as [|z k'] eqn:Ek; [done|]. simpl.
      assert (leb x z = true) as ->; [|done]. apply (trans _ y); [done|]. apply Hy.
      assert (Hz : z ∈ where_ p k) by (unfold where_; rewrite Ek; left).
      by apply elem_of_where in Hz as [Hz _].
    - rewrite IH. destruct (p y) eqn:Ey, (p x); simpl; rewrite ?E; done. }
  induction l as [|x l IH]; [done|]. simpl. rewrite Hins by by apply sorted_by_sorted.
  rewrite IH. unfold where_. simpl. by destruct (p x).
Qed.

Lemma where_delete_where_disjoint {A} (p q : A → bool) (l : list A) :
  (∀ x, p x = true → q x = false) → where_ p (delete_where q l) = where_ p l.
Proof.
  intros H. unfold where_, delete_where.
  induction l as [|x l IH]; simpl; [done|].
  destruct (q x) eqn:Eq; simpl; destruct (p x) eqn:Ep; rewrite ?IH; try done.
  by apply H in Ep; congruence.
Qed.

Lemma where_delete_comm {A} (p q : A → bool) (l : list A) :
  where_ p (delete_where q l) = delete_where q (where_ p l).
Proof.
  unfold where_, delete_where. induction l as [|x l IH]; simpl; [done|].
  destruct (q x) eqn:Eq, (p x) eqn:Ep; simpl; rewrite ?Eq, ?Ep; simpl; by rewrite IH.
Qed.

Lemma where_update_comm {A} (p q : A → bool) f (l : list A) :
  (∀ x, p (f x) = p x) → where_ p (update_where q f l) = update_where q f (where_ p l).
Proof.
  intros Hf. unfold where_, update_where. induction l as [|x l IH]; [done|].
  rewrite fmap_cons. cbn [List.filter]. rewrite IH.
  destruct (q x) eqn:Eq; rewrite ?Hf; destruct (p x); [|done| |done];
    by rewrite fmap_cons, Eq.
Qed.

Lemma where_update_in {A} (p q : A → bool) f (l : list A) :
  (∀ x, x ∈ l → q x = true → p (f x) = p x) →
  where_ p (update_where q f l) = update_where q f (where_ p l).
Proof.
  unfold where_, update_where. induction l as [|x l IH]; intros Hf; [done|].
  rewrite fmap_cons. cbn [List.filter]. rewrite IH by (intros y Hy; apply Hf; by right).
  pose proof (Hf x) as Hx. destruct (q x) eqn:Eq; [rewrite Hx by (done || left)|];
    destruct (p x); rewrite ?fmap_cons, ?Eq; done.
Qed.

Lemma delete_where_none {A} (q : A → bool) (l : list A) :
  (∀ x, x ∈ l → q x = false) → delete_where q l = l.
Proof. intros H. apply (where_all (λ x, negb (q x))). intros x Hx. by rewrite H. Qed.

Lemma where_update_none {A} (p q : A → bool) f (l : list A) :
  (∀ x, q x = true → p x = false ∧ p (f x) = false) →
  where_ p (update_where q f l) = where_ p l.
Proof.
  intros H. unfold where_, update_where. induction l as [|x l IH]; [done|].
  rewrite fmap_cons. cbn [List.filter]. rewrite IH.
  destruct (q x) eqn:Eq; [|done]. by destruct (H x Eq) as [-> ->].
Qed.

Lemma update_where_none {A} (q : A → bool) f (l : list A) :
  (∀ x, x ∈ l → q x = false) → update_where q f l = l.
Proof.
  unfold update_where. induction l as [|x l IH]; intros H; [done|].
  rewrite fmap_cons, (H x), IH; [done | intros y Hy; apply H; by right | left].
Qed.

(** A unique key selects at most one row. *)
Lemma where_key_unique {A K} `{EqDecision K} (key : A → K) (k : K) (p : A → bool) (l : list A) :
  NoDup (key <$> l) → (∀ x, p x = true ↔ key x = k) →
  where_ p l = match head (where_ p l) with Some x => [x] | None => [] end.
Proof.
  intros Hnd Hp. unfold where_. induction l as [|x l IH]; [done|].
  rewrite fmap_cons in Hnd. apply NoDup_cons in Hnd as [Hx Hnd]. cbn [List.filter].
  destruct (p x) eqn:E; [|by apply IH]. simpl. f_equal.
  apply (where_nil_iff p). intros y Hy. destruct (p y) eqn:Ey; [|done].
  exfalso. apply Hx. apply Hp in E, Ey. rewrite E, <- Ey. by apply list_elem_of_fmap_2.
Qed.

(** [scalar_one_or_none] of a query known to match at most one row. *)
Definition one_or_none {A} (l : list A) : option A := head l.

Lemma NoDup_fmap_where {A B} (f : A → B) (p : A → bool) l :
  NoDup (f <$> l) → NoDup (f <$> List.filter p l).
Proof.
  induction l as [|x l IH]; [done|]. cbn [List.filter]. rewrite fmap_cons.
  intros [Hx Hnd]%NoDup_cons.
  destruct (p x); [|auto]. rewrite fmap_cons. constructor; [|auto].
  intros (y & Hxy & Hy)%list_elem_of_fmap. apply Hx. rewrite Hxy.
  apply (elem_of_where p) in Hy as [Hy _]. by apply list_elem_of_fmap_2.
Qed.

Lemma NoDup_where {A} (p : A → bool) (l : list A) : NoDup l → NoDup (where_ p l).
Proof. intros H. rewrite <- (list_fmap_id (where_ p l)). apply NoDup_fmap_where. by rewrite list_fmap_id. Qed.

(** ** Tables with a primary key and one unique key

    [p k] is the boolean test of the unique key.  Deleting or updating the
    row found by its primary key, or adding a row whose key is free, changes
    the selection of that key and of no other. *)
(** Rows with the same unique key are the same row. *)
Lemma NoDup_fmap_eq {A K} (f : A → K) (l : list A) x y :
  NoDup (f <$> l) → x ∈ l → y ∈ l → f y = f x → y = x.
Proof.
  induction l as [|z l IH]; intros Hnd Hx Hy Hid; [by apply elem_of_nil in Hx|].
  rewrite fmap_cons in Hnd. apply NoDup_cons in Hnd as [Hz Hnd].
  apply elem_of_cons in Hx as [->|Hx]; apply elem_of_cons in Hy as [->|Hy]; auto.
  - exfalso. apply Hz. rewrite <- Hid. by apply list_elem_of_fmap_2.
  - exfalso. apply Hz. rewrite Hid. by apply list_elem_of_fmap_2.
Qed.

Section Table.
Context {A K : Type} `{EqDecision K} (id : A → Z) (key : A → K) (p : K → A → bool).
Hypothesis p_spec : ∀ k x, p k x = true ↔ key x = k.

Lemma table_found k l x : head (where_ (p k) l) = Some x → x ∈ l ∧ key x = k.
Proof.
  intros H. assert (x ∈ where_ (p k) l) as Hx.
  { destruct (where_ (p k) l); [done|]. injection H as ->. left. }
  apply elem_of_where in Hx as [Hx Hk]. by apply p_spec in Hk.
Qed.

Lemma table_same_id l x y :
  NoDup (id <$> l) → x ∈ l → y ∈ l → id y = id x → y = x.
Proof. apply NoDup_fmap_eq. Qed.

Lemma table_single k l x :
  NoDup (key <$> l) → head (where_ (p k) l) = Some x → where_ (p k) l = [x].
Proof.
  intros Hk Hx. pose proof (where_key_unique key k (p k) l Hk (p_spec k)) as H.
  by rewrite Hx in H.
Qed.

Lemma table_delete k l x k' :
  NoDup (id <$> l) → NoDup (key <$> l) → head (where_ (p k) l) = Some x →
  where_ (p k') (delete_where (λ y, id y =? id x) l) =
    if decide (k' = k) then [] else where_ (p k') l.
Proof.
  intros Hid Hkey Hx. rewrite where_delete_comm. destruct (decide (k' = k)) as [->|Hne].
  - rewrite (table_single k l x) by done. unfold delete_where. simpl. by rewrite Z.eqb_refl.
  - unfold delete_where. apply where_all. intros y Hy. apply negb_true_iff, Z.eqb_neq.
    intros Heq. destruct (table_found _ _ _ Hx) as [Hxl Hxk].
    apply elem_of_where in Hy as [Hyl Hyk]. apply p_spec in Hyk.
    rewrite (table_same_id l x y) in Hyk by done. congruence.
Qed.

Lemma table_update k l x f k' :
  NoDup (id <$> l) → NoDup (key <$> l) → (∀ y, key (f y) = key y) →
  head (where_ (p k) l) = Some x →
  where_ (p k') (update_where (λ y, id y =? id x) f l) =
    if decide (k' = k) then [f x] else where_ (p k') l.
Proof.
  intros Hid Hkey Hf Hx.
  assert (Hpf : ∀ y, p k' (f y) = p k' y).
  { intros y. apply eq_true_iff_eq. by rewrite !p_spec, Hf. }
  rewrite where_update_comm by done. destruct (decide (k' = k)) as [->|Hne].
  - rewrite (table_single k l x) by done. unfold update_where. csimpl. by rewrite Z.eqb_refl.
  - apply update_where_none. intros y Hy. apply Z.eqb_neq.
    intros Heq. destruct (table_found _ _ _ Hx) as [Hxl Hxk].
    apply elem_of_where in Hy as [Hyl Hyk]. apply p_spec in Hyk.
    rewrite (table_same_id l x y) in Hyk by done. congruence.
Qed.

Lemma table_add k l x k' :
  head (where_ (p k) l) = None → key x = k →
  where_ (p k') (l ++ [x]) = if decide (k' = k) then [x] else where_ (p k') l.
Proof.
  intros Hn Hk. rewrite where_app. unfold where_ at 2. simpl.
  destruct (decide (k' = k)) as [->|Hne].
  - rewrite (proj2 (p_spec k x) Hk). by destruct (where_ (p k) l).
  - destruct (p k' x) eqn:E; [apply p_spec in E; congruence|]. apply app_nil_r.
Qed.
End Table.

(** A table whose primary keys are unique and below the counter, and whose
    unique key has no duplicate. *)
Record keyed {A K} (id : A → Z) (key : A → K) (bound : Z) (l : list A) : Prop := {
  keyed_id : NoDup (id <$> l);
  keyed_key : NoDup (key <$> l);
  keyed_fresh : Forall (λ x, id x < bound) l;
}.

Lemma update_where_fmap {A B} (g : A → B) (q : A → bool) (f : A → A) (l : list A) :
  (∀ x, g (f x) = g x) → g <$> update_where q f l = g <$> l.
Proof.
  intros Hf. unfold update_where. rewrite <- list_fmap_compose. apply list_fmap_ext.
  intros _ x _. simpl. destruct (q x); [apply Hf | done].
Qed.

Section Keyed.
Context {A K : Type} (id : A → Z) (key : A → K).

Lemma keyed_delete b q l : keyed id key b l → keyed id key b (delete_where q l).
Proof.
  intros [Hi Hk Hf]. constructor; [by apply NoDup_fmap_where..|].
  rewrite Forall_forall in Hf |- *. intros x [Hx _]%elem_of_delete_where. auto.
Qed.

Lemma keyed_update b q f l :
  (∀ x, id (f x) = id x) → (∀ x, key (f x) = key x) →
  keyed id key b l → keyed id key b (update_where q f l).
Proof.
  intros Hfi Hfk [Hi Hk Hf].
  constructor; [by rewrite update_where_fmap..|].
  rewrite Forall_forall in Hf |- *. intros x (y & Hy & ->)%elem_of_update_where.
  destruct (q y); rewrite ?Hfi; auto.
Qed.

Lemma keyed_mono b b' l : b <= b' → keyed id key b l → keyed id key b' l.
Proof.
  intros Hb [Hi Hk Hf]. constructor; [done..|].
  eapply Forall_impl; [done|]. simpl. lia.
Qed.

Lemma keyed_add b x l :
  id x = b → key x ∉ key <$> l → keyed id key b l → keyed id key (b + 1) (l ++ [x]).
Proof.
  intros Hx Hn [Hi Hk Hf]. constructor; rewrite ?fmap_app; csimpl.
  - apply NoDup_app. split_and!; [done| |apply NoDup_singleton].
    intros i (y & -> & Hy)%list_elem_of_fmap Hb%list_elem_of_singleton.
    rewrite Forall_forall in Hf. specialize (Hf _ Hy). lia.
  - apply NoDup_app. split_and!; [done| |apply NoDup_singleton].
    intros k Hk' ->%list_elem_of_singleton. done.
  - apply Forall_app. split; [eapply Forall_impl; [done|]; simpl; lia|].
    repeat constructor. lia.
Qed.
End Keyed.

(** [x in list] for a decidable type, as a boolean. *)
Definition mem {A} `{EqDecision A} (x : A) (l : list A) : bool := bool_decide (x ∈ l).

Lemma mem_true {A} `{EqDecision A} (x : A) l : mem x l = true ↔ x ∈ l.
Proof. apply bool_decide_eq_true. Qed.

Lemma mem_false {A} `{EqDecision A} (x : A) l : mem x l = false ↔ x ∉ l.
Proof. apply bool_decide_eq_false. Qed.

Lemma existsb_elem {A} (p : A → bool) (l : list A) :
  existsb p l = true ↔ ∃ x, x ∈ l ∧ p x = true.
Proof. rewrite existsb_exists. setoid_rewrite list_elem_of_In. done. Qed.

Lemma existsb_false_elem {A} (p : A → bool) (l : list A) :
  existsb p l = false ↔ ∀ x, x ∈ l → p x = false.
Proof.
  rewrite <- not_true_iff_false, existsb_elem. setoid_rewrite <- not_true_iff_false. naive_solver.
Qed.

Lemma forallb_elem {A} (p : A → bool) (l : list A) :
  forallb p l = true ↔ ∀ x, x ∈ l → p x = true.
Proof. rewrite forallb_forall. setoid_rewrite list_elem_of_In. done. Qed.

(** [list(dict.fromkeys(l))]: the first occurrence of every element. *)
Fixpoint dedup_from {A} `{EqDecision A} (seen l : list A) : list A :=
  match l with
  | [] => []
  | x :: l' => if mem x seen then dedup_from seen l' else x :: dedup_from (x :: seen) l'
  end.
Definition dedup {A} `{EqDecision A} (l : list A) : list A := dedup_from [] l.

Lemma elem_of_dedup_from {A} `{EqDecision A} (l seen : list A) x :
  x ∈ dedup_from seen l ↔ x ∈ l ∧ x ∉ seen.
Proof.
  revert seen. induction l as [|y l IH]; intros seen; simpl.
  - set_solver.
  - destruct (mem y seen) eqn:E; [apply mem_true in E | apply mem_false in E];
      rewrite ?elem_of_cons, IH, ?elem_of_cons; [set_solver|].
    destruct (decide (x = y)) as [->|]; set_solver.
Qed.

Lemma elem_of_dedup {A} `{EqDecision A} (l : list A) x : x ∈ dedup l ↔ x ∈ l.
Proof. unfold dedup. rewrite elem_of_dedup_from. set_solver. Qed.

Lemma NoDup_dedup {A} `{EqDecision A} (l : list A) : NoDup (dedup l).
Proof.
  unfold dedup. generalize (@nil A) as seen.
  induction l as [|y l IH]; intros seen; simpl; [constructor|].
  case_goal; [done|]. constructor; [|done].
  rewrite elem_of_dedup_from. set_solver.
Qed.

Lemma dedup_from_id {A} `{EqDecision A} (seen l : list A) :
  NoDup l → (∀ x, x ∈ l → x ∉ seen) → dedup_from seen l = l.
Proof.
  intros Hn. revert seen. induction Hn as [|x l Hx Hn IH]; intros seen Hs; [done|]. simpl.
  rewrite (proj2 (mem_false x seen)) by (apply Hs; left). f_equal. apply IH.
  intros y Hy. rewrite elem_of_cons. intros [->|Hin]; [done|]. apply (Hs y); [by right|done].
Qed.

Lemma dedup_id {A} `{EqDecision A} (l : list A) : NoDup l → dedup l = l.
Proof. intros Hn. apply dedup_from_id; [done|]. intros x _. apply not_elem_of_nil. Qed.

(** Adding elements that are there already changes nothing. *)
Lemma dedup_app_in {A} `{EqDecision A} (l1 l2 : list A) :
  NoDup l1 → (∀ x, x ∈ l2 → x ∈ l1) → dedup (l1 ++ l2) = l1.
Proof.
  unfold dedup. intros Hn Hin.
  assert (H : ∀ seen, (∀ x, x ∈ l1 → x ∉ seen) → (∀ x, x ∈ l2 → x ∈ l1 ∨ x ∈ seen) →
    dedup_from seen (l1 ++ l2) = l1).
  { clear Hin. induction Hn as [|x l1 Hx Hn IH]; intros seen Hs H2; simpl.
    - induction l2 as [|y l2 IH2]; [done|]. simpl.
      destruct (H2 y ltac:(left)) as [Hy|Hy]; [by apply elem_of_nil in Hy|].
      rewrite (proj2 (mem_true y seen)) by done. apply IH2. intros z Hz. apply H2. by right.
    - rewrite (proj2 (mem_false x seen)) by (apply Hs; left). f_equal. apply IH.
      + intros y Hy. rewrite elem_of_cons. intros [->|Hs']; [done|]. apply (Hs y); [by right|done].
      + intros y Hy. rewrite elem_of_cons. destruct (H2 y Hy) as [[->|]%elem_of_cons|]; auto. }
  apply H; [intros x _; apply not_elem_of_nil|]. auto.
Qed.

(** The integers [lo, lo+1, ..., lo+n-1]: Python's [range]. *)
Fixpoint zrange (lo : Z) (n : nat) : list Z :=
  match n with O => [] | S n' => lo :: zrange (lo + 1) n' end.

Lemma elem_of_zrange lo n x : x ∈ zrange lo n ↔ lo <= x < lo + Z.of_nat n.
Proof.
  revert lo. induction n as [|n IH]; intros lo; simpl.
  - rewrite elem_of_nil. lia.
  - rewrite elem_of_cons, IH. lia.
Qed.

Lemma NoDup_zrange lo n : NoDup (zrange lo n).
Proof.
  revert lo. induction n as [|n IH]; intros lo; simpl; [constructor|].
  constructor; [rewrite elem_of_zrange; lia | done].
Qed.

(** A boolean test checked on every integer of a range. *)
Lemma forallb_zrange p lo n x :
  forallb p (zrange lo n) = true → lo <= x < lo + Z.of_nat n → p x = true.
Proof. rewrite forallb_elem. intros H Hx. apply H. by apply elem_of_zrange. Qed.

Create HintDb dagmar.
#[export] Hint Resolve elem_of_sorted_by sorted_by_perm NoDup_dedup : dagmar.
#[export] Hint Rewrite @elem_of_where @elem_of_delete_where @elem_of_update_where
  @elem_of_dedup @elem_of_zrange : dagmar.
