(* ===== verification/Calendar.v ===== *)
(** * Python's [datetime.date] and the Czech public holidays

    A [date] is its proleptic Gregorian ordinal ([date.toordinal()], day 1 is
    0001-01-01), so [+ timedelta(days=k)], [<] and [(a - b).days] are the
    operations of [Z].  [ord2ymd] and [ymd2ord] are the two conversions of the
    standard library; [is_czech_public_holiday] and the rest of
    app/services/czech_holidays.py, and the month arithmetic every component
    repeats ([_month_range], [days_in_month]), are defined over them.  Years
    run over all of [Z]; Python's range is 1..9999, and the code that leaves
    it raises ([day_after], [checked_month_range]). *)

From S2P Require Import Prelude.

Abbreviation date := Z (only parsing).

Definition is_leap (y : Z) : bool :=
  (y mod 4 =? 0) && (negb (y mod 100 =? 0) || (y mod 400 =? 0)).

Definition days_before_year (y : Z) : Z :=
  let y := y - 1 in y * 365 + y / 4 - y / 100 + y / 400.

(** [_DAYS_BEFORE_MONTH] of the standard library, in a non-leap year. *)
Definition days_before_month_plain (m : Z) : Z :=
  match m with
  | 1 => 0 | 2 => 31 | 3 => 59 | 4 => 90 | 5 => 120 | 6 => 151
  | 7 => 181 | 8 => 212 | 9 => 243 | 10 => 273 | 11 => 304 | 12 => 334
  | _ => 365
  end.

Definition leap_day (y m : Z) : Z := if (2 <? m) && is_leap y then 1 else 0.
Definition days_before_month (y m : Z) : Z := days_before_month_plain m + leap_day y m.

(** [date(y, m, d)]. *)
Definition mk_date (y m d : Z) : date := days_before_year y + days_before_month y m + d.

(** [date.max]. *)
Definition LAST_DATE : date := mk_date 9999 12 31.

(** [day + timedelta(days=1)]. *)
Definition day_after (d : date) : result date :=
  if d <? LAST_DATE then Ok (d + 1) else Err (Crash "OverflowError").

(** [(date.year, date.month, date.day)]. *)
Definition ord2ymd (n : date) : Z * Z * Z :=
  let n := n - 1 in
  let n400 := n / 146097 in let n := n mod 146097 in
  let year := n400 * 400 + 1 in
  let n100 := n / 36524 in let n := n mod 36524 in
  let n4 := n / 1461 in let n := n mod 1461 in
  let n1 := n / 365 in let n := n mod 365 in
  let year := year + n100 * 100 + n4 * 4 + n1 in
  if (n1 =? 4) || (n100 =? 4) then (year - 1, 12, 31)
  else
    let leapyear := (n1 =? 3) && (negb (n4 =? 24) || (n100 =? 3)) in
    let before m :=
      days_before_month_plain m + (if (2 <? m) && leapyear then 1 else 0) in
    let month := (n + 50) / 32 in
    if n <? before month
    then (year, month - 1, n - before (month - 1) + 1)
    else (year, month, n - before month + 1).

Definition year_of (d : date) : Z := (ord2ymd d).1.1.
Definition month_of (d : date) : Z := (ord2ymd d).1.2.
Definition day_of (d : date) : Z := (ord2ymd d).2.

(** [(date.year, date.month)]. *)
Definition ym_of (d : date) : Z * Z := (year_of d, month_of d).

(** [date.weekday()]: Monday is 0. *)
Definition weekday (d : date) : Z := (d + 6) mod 7.

(** The first day of the month after [(y, m)]:
    [date(y + (m == 12), 1 if m == 12 else m + 1, 1)]. *)
Definition next_month (y m : Z) : date :=
  if m =? 12 then mk_date (y + 1) 1 1 else mk_date y (m + 1) 1.

(** [_month_range]: the half-open range of days of a month. *)
Definition month_range (y m : Z) : date * date := (mk_date y m 1, next_month y m).

(** The months both of whose bounds are dates: [date] knows the years 1 to
    9999, so the month after December 9999 does not exist. *)
Definition month_exists (y m : Z) : bool :=
  (1 <=? y) && (y <=? 9999) && (1 <=? m) && (m <=? 12) && negb ((y =? 9999) && (m =? 12)).
Definition checked_month_range (y m : Z) : result (date * date) :=
  guard (negb (month_exists y m)) (Crash "ValueError") ?;; Ok (month_range y m).

(** [days_in_month] of app/utils/timeparse.py, and [calendar.monthrange]. *)
Definition days_in_month (y m : Z) : Z := next_month y m - mk_date y m 1.

(** ** czech_holidays.py *)

Definition FIXED_HOLIDAY_LABELS (month day : Z) : option string :=
  match month, day with
  | 1, 1 => Some "Nový rok / Den obnovy samostatného českého státu"%string
  | 5, 1 => Some "Svátek práce"%string
  | 5, 8 => Some "Den vítězství"%string
  | 7, 5 => Some "Den slovanských věrozvěstů Cyrila a Metoděje"%string
  | 7, 6 => Some "Den upálení mistra Jana Husa"%string
  | 9, 28 => Some "Den české státnosti"%string
  | 10, 28 => Some "Den vzniku samostatného československého státu"%string
  | 11, 17 => Some "Den boje za svobodu a demokracii a Mezinárodní den studentstva"%string
  | 12, 24 => Some "Štědrý den"%string
  | 12, 25 => Some "1. svátek vánoční"%string
  | 12, 26 => Some "2. svátek vánoční"%string
  | _, _ => None
  end.

Definition easter_sunday (year : Z) : date :=
  let a := year mod 19 in
  let b := year / 100 in
  let c := year mod 100 in
  let d := b / 4 in
  let e := b mod 4 in
  let f := (b + 8) / 25 in
  let g := (b - f + 1) / 3 in
  let h := (19 * a + b - d - g + 15) mod 30 in
  let i := c / 4 in
  let k := c mod 4 in
  let m := (a + 11 * h + 22 * ((32 + 2 * e + 2 * i - h - k) mod 7)) / 451 in
  let month := (h + ((32 + 2 * e + 2 * i - h - k) mod 7) - 7 * m + 114) / 31 in
  mk_date year month
    ((h + ((32 + 2 * e + 2 * i - h - k) mod 7) - 7 * m + 114) mod 31 + 1).

Definition czech_public_holiday_label (day : date) : option string :=
  match FIXED_HOLIDAY_LABELS (month_of day) (day_of day) with
  | Some fixed => Some fixed
  | None =>
      let easter := easter_sunday (year_of day) in
      if day =? easter - 2 then Some "Velký pátek"%string
      else if day =? easter + 1 then Some "Velikonoční pondělí"%string
      else None
  end.

Definition is_czech_public_holiday (day : date) : bool :=
  match czech_public_holiday_label day with Some _ => true | None => false end.

(** ** Conversions between ordinals and (year, month, day) *)

(** The month and day of a day number within a year, as [ord2ymd] finds them. *)
Definition doy2md (leapyear : bool) (n : Z) : Z * Z :=
  let before m :=
    days_before_month_plain m + (if (2 <? m) && leapyear then 1 else 0) in
  let month := (n + 50) / 32 in
  if n <? before month then (month - 1, n - before (month - 1) + 1)
  else (month, n - before month + 1).

Definition month_length (leapyear : bool) (m : Z) : Z :=
  days_before_month_plain (m + 1) - days_before_month_plain m +
  (if (m =? 2) && leapyear then 1 else 0).

Definition doy_ok (leapyear : bool) (n : Z) : bool :=
  let '(m, d) := doy2md leapyear n in
  (1 <=? m) && (m <=? 12) && (1 <=? d) && (d <=? month_length leapyear m) &&
  (days_before_month_plain m + (if (2 <? m) && leapyear then 1 else 0) + d =? n + 1).

(** Both kinds of year, evaluated day by day. *)
Lemma doy_ok_plain : forallb (doy_ok false) (zrange 0 (Z.to_nat 365)) = true.
Proof. vm_compute. reflexivity. Qed.

Lemma doy_ok_leap : forallb (doy_ok true) (zrange 0 (Z.to_nat 366)) = true.
Proof. vm_compute. reflexivity. Qed.

Lemma doy_ok_all (leapyear : bool) (n : Z) :
  0 <= n < 365 + (if leapyear then 1 else 0) → doy_ok leapyear n = true.
Proof.
  intros Hn. destruct leapyear.
  - apply (forallb_zrange _ _ _ _ doy_ok_leap). lia.
  - apply (forallb_zrange _ _ _ _ doy_ok_plain). lia.
Qed.

Lemma days_before_year_succ y :
  days_before_year (y + 1) = days_before_year y + 365 + (if is_leap y then 1 else 0).
Proof.
  unfold days_before_year, is_leap.
  destruct (y mod 4 =? 0) eqn:E4; destruct (y mod 100 =? 0) eqn:E1;
    destruct (y mod 400 =? 0) eqn:E5; simpl; bool_hyps; zdiv.
Qed.

Lemma month_cases (m : Z) : 1 <= m <= 12 →
  m = 1 ∨ m = 2 ∨ m = 3 ∨ m = 4 ∨ m = 5 ∨ m = 6 ∨ m = 7 ∨ m = 8 ∨ m = 9 ∨
  m = 10 ∨ m = 11 ∨ m = 12.
Proof. lia. Qed.

Lemma days_in_month_length y m :
  1 <= m <= 12 → days_in_month y m = month_length (is_leap y) m.
Proof.
  intros Hm. unfold days_in_month, next_month, mk_date, month_length.
  rewrite days_before_year_succ. unfold days_before_month, leap_day.
  apply month_cases in Hm.
  repeat destruct Hm as [->|Hm]; subst; simpl; destruct (is_leap y); simpl; lia.
Qed.

(** The day count of a year written as 400, 100, 4 and 1-year cycles. *)
Lemma days_before_year_cycles q c k r :
  0 <= c <= 3 → 0 <= k <= 24 → 0 <= r <= 3 →
  days_before_year (q * 400 + 1 + c * 100 + k * 4 + r) =
  q * 146097 + c * 36524 + k * 1461 + r * 365.
Proof.
  intros Hc Hk Hr. unfold days_before_year.
  set (y := q * 400 + 1 + c * 100 + k * 4 + r - 1).
  assert (y / 4 = q * 100 + c * 25 + k) as -> by (unfold y; zdiv).
  assert (y / 100 = q * 4 + c) as -> by (unfold y; zdiv).
  assert (y / 400 = q) as -> by (unfold y; zdiv).
  unfold y. lia.
Qed.

Lemma is_leap_cycles q c k r :
  0 <= c <= 3 → 0 <= k <= 24 → 0 <= r <= 3 →
  is_leap (q * 400 + 1 + c * 100 + k * 4 + r) =
  (r =? 3) && (negb (k =? 24) || (c =? 3)).
Proof.
  intros Hc Hk Hr. unfold is_leap. set (y := q * 400 + 1 + c * 100 + k * 4 + r).
  assert (y mod 4 = (r + 1) mod 4) as -> by (unfold y; zdiv).
  assert (y mod 100 = (k * 4 + r + 1) mod 100) as -> by (unfold y; zdiv).
  assert (y mod 400 = (c * 100 + k * 4 + r + 1) mod 400) as -> by (unfold y; zdiv).
  apply eq_true_iff_eq.
  rewrite !andb_true_iff, !orb_true_iff, !negb_true_iff, !Z.eqb_eq, !Z.eqb_neq. zdiv.
Qed.

(** [ord2ymd] splits the ordinal into cycles and a day of the year. *)
Lemma ord2ymd_cycles n :
  (∃ q c k r d : Z, n = q * 146097 + c * 36524 + k * 1461 + r * 365 + d + 1 ∧
     0 <= c <= 3 ∧ 0 <= k <= 24 ∧ 0 <= r <= 3 ∧
     let y := q * 400 + 1 + c * 100 + k * 4 + r in
     0 <= d < 365 + (if is_leap y then 1 else 0) ∧
     ord2ymd n = (let '(m, dd) := doy2md (is_leap y) d in (y, m, dd))) ∨
  (∃ y : Z, n = days_before_year (y + 1) ∧ is_leap y = true ∧ ord2ymd n = (y, 12, 31)).
Proof.
  unfold ord2ymd.
  set (q := (n - 1) / 146097). set (n1 := (n - 1) mod 146097).
  set (c := n1 / 36524). set (n2 := n1 mod 36524).
  set (k := n2 / 1461). set (n3 := n2 mod 1461).
  set (r := n3 / 365). set (d := n3 mod 365).
  assert (Hq : n - 1 = 146097 * q + n1 ∧ 0 <= n1 < 146097) by (unfold q, n1; zdiv).
  assert (Hc : n1 = 36524 * c + n2 ∧ 0 <= n2 < 36524) by (unfold c, n2; zdiv).
  assert (Hk : n2 = 1461 * k + n3 ∧ 0 <= n3 < 1461) by (unfold k, n3; zdiv).
  assert (Hr : n3 = 365 * r + d ∧ 0 <= d < 365) by (unfold r, d; zdiv).
  clearbody q n1 c n2 k n3 r d.
  destruct ((r =? 4) || (c =? 4)) eqn:E.
  - right. apply orb_true_iff in E. rewrite !Z.eqb_eq in E.
    exists (q * 400 + 1 + c * 100 + k * 4 + r - 1).
    destruct (decide (c = 4)) as [->|Hne].
    + assert (k = 0 ∧ r = 0 ∧ d = 0) as (-> & -> & ->) by lia.
      replace (q * 400 + 1 + 4 * 100 + 0 * 4 + 0 - 1)
        with (q * 400 + 1 + 3 * 100 + 24 * 4 + 3) by lia.
      rewrite days_before_year_succ, is_leap_cycles, days_before_year_cycles by lia.
      simpl. split_and!; [lia | done | done].
    + assert (r = 4) as -> by lia.
      replace (q * 400 + 1 + c * 100 + k * 4 + 4 - 1)
        with (q * 400 + 1 + c * 100 + k * 4 + 3) by lia.
      rewrite days_before_year_succ, is_leap_cycles, days_before_year_cycles by lia.
      assert (d = 0) as -> by lia.
      destruct ((3 =? 3) && (negb (k =? 24) || (c =? 3))) eqn:El;
        [split_and!; [lia | done | done]|].
      simpl in El. bool_hyps. lia.
  - left. bool_hyps. exists q, c, k, r, d.
    rewrite is_leap_cycles by lia.
    split_and!; try lia.
    + destruct ((r =? 3) && _) eqn:El; lia.
    + unfold doy2md. by destruct (d <? _).
Qed.

Lemma ymd_spec n :
  1 <= month_of n <= 12 ∧ 1 <= day_of n <= days_in_month (year_of n) (month_of n) ∧
  mk_date (year_of n) (month_of n) (day_of n) = n.
Proof.
  unfold month_of, day_of, year_of.
  destruct (ord2ymd_cycles n) as
    [(q & c & k & r & d & Hn & Hc & Hk & Hr & Hd & ->) | (y & -> & Hl & ->)].
  - set (y := q * 400 + 1 + c * 100 + k * 4 + r) in *.
    pose proof (doy_ok_all _ _ Hd) as Hok. unfold doy_ok in Hok.
    destruct (doy2md (is_leap y) d) as [m dd]; simpl. bool_hyps.
    rewrite days_in_month_length by lia. unfold mk_date, days_before_month, leap_day.
    pose proof (days_before_year_cycles q c k r Hc Hk Hr) as Hy. fold y in Hy. lia.
  - simpl. rewrite days_in_month_length, days_before_year_succ, Hl by lia.
    unfold mk_date, days_before_month, leap_day. rewrite Hl.
    change (month_length true 12) with 31. simpl. lia.
Qed.

Lemma days_in_month_bounds y m : 1 <= m <= 12 → 28 <= days_in_month y m <= 31.
Proof.
  intros Hm. rewrite days_in_month_length by done. unfold month_length.
  apply month_cases in Hm.
  repeat destruct Hm as [->|Hm]; subst; simpl; destruct (is_leap y); simpl; lia.
Qed.

(** Months in chronological order: month [k] starts before month [k + 1]. *)
Definition month_start (k : Z) : date := mk_date (k / 12) (k mod 12 + 1) 1.

Lemma month_start_ym y m : 1 <= m <= 12 → month_start (12 * y + m - 1) = mk_date y m 1.
Proof. intros Hm. unfold month_start. f_equal; zdiv. Qed.

Lemma month_start_succ y m :
  1 <= m <= 12 → month_start (12 * y + m - 1 + 1) = next_month y m.
Proof.
  intros Hm. unfold month_start, next_month.
  destruct (m =? 12) eqn:E; bool_hyps; f_equal; zdiv.
Qed.

Lemma month_start_lt_succ k : month_start k < month_start (k + 1).
Proof.
  pose proof (days_in_month_bounds (k / 12) (k mod 12 + 1) ltac:(zdiv)) as H.
  unfold days_in_month in H. rewrite <- month_start_succ, <- month_start_ym in H by zdiv.
  replace (12 * (k / 12) + (k mod 12 + 1) - 1) with k in H by zdiv. lia.
Qed.

Lemma month_start_mono j k : j <= k → month_start j <= month_start k.
Proof.
  intros H. replace k with (j + Z.of_nat (Z.to_nat (k - j))) by lia.
  induction (Z.to_nat (k - j)) as [|n IH]; [rewrite Z.add_0_r; lia|].
  pose proof (month_start_lt_succ (j + Z.of_nat n)) as Hlt.
  replace (j + Z.of_nat (S n)) with (j + Z.of_nat n + 1) by lia. lia.
Qed.

(** A day lies in the range of its own month ... *)
Lemma month_range_self d :
  mk_date (year_of d) (month_of d) 1 <= d < next_month (year_of d) (month_of d).
Proof.
  destruct (ymd_spec d) as (Hm & Hd & Heq). unfold days_in_month in Hd.
  unfold mk_date in *. lia.
Qed.

(** ... and in no other: a day is in [month_range y m] exactly when its
    year and month are [y] and [m]. *)
Lemma month_range_spec y m d :
  1 <= m <= 12 → (mk_date y m 1 <= d < next_month y m ↔ ym_of d = (y, m)).
Proof.
  intros Hm. unfold ym_of. split.
  - intros Hd. pose proof (month_range_self d) as Hs.
    destruct (ymd_spec d) as (Hm' & _ & _).
    rewrite <- month_start_succ, <- month_start_ym in Hd, Hs by done.
    set (k := 12 * y + m - 1) in *.
    set (k' := 12 * year_of d + month_of d - 1) in *.
    assert (k = k').
    { destruct (Z.lt_trichotomy k k') as [Hlt|[|Hlt]]; [exfalso | done | exfalso].
      - pose proof (month_start_mono (k + 1) k' ltac:(lia)). lia.
      - pose proof (month_start_mono (k' + 1) k ltac:(lia)). lia. }
    f_equal; lia.
  - intros [= <- <-]. apply month_range_self.
Qed.

Lemma month_range_lt y m : 1 <= m <= 12 → mk_date y m 1 < next_month y m.
Proof.
  intros Hm. pose proof (days_in_month_bounds y m Hm). unfold days_in_month in *. lia.
Qed.

Lemma month_of_bounds d : 1 <= month_of d <= 12.
Proof. apply ymd_spec. Qed.

#[export] Hint Resolve month_of_bounds month_range_self month_range_lt : dagmar.

(** ** Properties *)

(** Easter Sunday, checked year by year. *)
Definition easter_ok (y : Z) : bool :=
  (weekday (easter_sunday y) =? 6) &&
  (mk_date y 3 22 <=? easter_sunday y) && (easter_sunday y <=? mk_date y 4 25).

Lemma easter_ok_all : forallb easter_ok (zrange 1583 (Z.to_nat 1000)) = true.
Proof. vm_compute. reflexivity. Qed.

(** the computed Easter is a Sunday between 22 March and 25 April. *)
Theorem easter_sunday_is_sunday y :
  1583 <= y < 2583 →
  weekday (easter_sunday y) = 6 ∧
  mk_date y 3 22 <= easter_sunday y <= mk_date y 4 25.
Proof.
  intros Hy. pose proof (forallb_zrange _ _ _ y easter_ok_all ltac:(lia)) as H.
  unfold easter_ok in H. bool_hyps. lia.
Qed.
