(* ===== verification/TimeParse.v ===== *)
(** * Strings and app/utils/timeparse.py

    Python [str] values are modelled by ASCII [string]s: [strip], [upper],
    [lower], [split] and [int] are the standard-library methods on ASCII
    text, and [\d] of the two regular expressions is a digit 0-9. *)

From S2P Require Import Prelude Calendar.

Abbreviation chars := (list ascii) (only parsing).

Definition code (c : ascii) : Z := Z.of_N (N_of_ascii c).
Definition newline : ascii := ascii_of_N 10.
Definition colon : ascii := ":"%char.

Definition is_digit (c : ascii) : bool := (48 <=? code c) && (code c <=? 57).
Definition digit_value (c : ascii) : Z := code c - 48.

(** ASCII white space of [str.strip] and [str.split]. *)
Definition is_space (c : ascii) : bool :=
  ((9 <=? code c) && (code c <=? 13)) || ((28 <=? code c) && (code c <=? 32)).

Fixpoint drop_spaces (l : chars) : chars :=
  match l with c :: l' => if is_space c then drop_spaces l' else l | [] => [] end.

Definition strip_chars (l : chars) : chars := rev (drop_spaces (rev (drop_spaces l))).
Definition strip (s : string) : string :=
  string_of_list_ascii (strip_chars (list_ascii_of_string s)).

Definition upper_char (c : ascii) : ascii :=
  if (97 <=? code c) && (code c <=? 122) then ascii_of_N (N_of_ascii c - 32) else c.
Definition lower_char (c : ascii) : ascii :=
  if (65 <=? code c) && (code c <=? 90) then ascii_of_N (N_of_ascii c + 32) else c.
Definition upper (s : string) : string :=
  string_of_list_ascii (upper_char <$> list_ascii_of_string s).
Definition lower (s : string) : string :=
  string_of_list_ascii (lower_char <$> list_ascii_of_string s).

(** [bool(s)] for an optional string: [None] and [''] are falsy. *)
Definition truthy (s : option string) : bool :=
  match s with Some EmptyString | None => false | Some _ => true end.

(** [s.split(':')]. *)
Fixpoint split_colon (l cur : chars) : list chars :=
  match l with
  | [] => [rev cur]
  | c :: l' => if Ascii.eqb c colon then rev cur :: split_colon l' [] else split_colon l' (c :: cur)
  end.

(** Digits of [int(...)]; one underscore may separate two digits. *)
Fixpoint int_digits (l : chars) (acc : Z) (after_digit : bool) : option Z :=
  match l with
  | [] => if after_digit then Some acc else None
  | c :: l' =>
      if is_digit c then int_digits l' (10 * acc + digit_value c) true
      else if Ascii.eqb c "_" && after_digit then int_digits l' acc false
      else None
  end.

(** [int(s)]; [None] stands for [ValueError]. *)
Definition py_int (l : chars) : option Z :=
  match strip_chars l with
  | c :: l' =>
      if Ascii.eqb c "-" then Z.opp <$> int_digits l' 0 false
      else if Ascii.eqb c "+" then int_digits l' 0 false
      else int_digits (c :: l') 0 false
  | [] => None
  end.

(** [hour, minute = (int(value) for value in s.split(':'))]. *)
Definition hhmm_parts (s : string) : result (Z * Z) :=
  match split_colon (list_ascii_of_string s) [] with
  | [h; m] =>
      match py_int h, py_int m with
      | Some hour, Some minute => Ok (hour, minute)
      | _, _ => Err (Crash "ValueError")
      end
  | _ => Err (Crash "ValueError")
  end.

(** [^(?:[01]\d|2[0-3]):[0-5]\d$] with [re.match]: [$] also matches before
    one trailing newline. *)
Definition hour_pair (a b : ascii) : bool :=
  (((code a =? 48) || (code a =? 49)) && is_digit b) ||
  ((code a =? 50) && (48 <=? code b) && (code b <=? 51)).

Definition minute_pair (a b : ascii) : bool :=
  (48 <=? code a) && (code a <=? 53) && is_digit b.

Definition time_re (l : chars) : bool :=
  match l with
  | a :: b :: c :: d :: e :: rest =>
      hour_pair a b && Ascii.eqb c colon && minute_pair d e &&
      match rest with
      | [] => true
      | [f] => Ascii.eqb f newline
      | _ => false
      end
  | _ => false
  end.

Definition is_valid_hhmm (value : option string) : bool :=
  match value with None => true | Some s => time_re (list_ascii_of_string s) end.

(** [normalize_hhmm_or_none]: [TimeParseError] is a [ValueError]. *)
Definition normalize_hhmm_or_none (value : option string) : option (option string) :=
  match value with
  | None => Some None
  | Some s =>
      if String.eqb (strip s) "" then Some None
      else if negb (is_valid_hhmm value) then None
      else Some value
  end.

Definition parse_hhmm_or_none (value : option string) : option (option string) :=
  normalize_hhmm_or_none value.

(** [^\d{4}-\d{2}-\d{2}$], then [strptime], which refuses a trailing newline,
    a month or day out of range and the year 0. *)
Definition digits_value (l : chars) : Z :=
  fold_left (λ acc c, 10 * acc + digit_value c) l 0.

Definition date_re (l : chars) : option (Z * Z * Z * chars) :=
  match l with
  | y1 :: y2 :: y3 :: y4 :: s1 :: m1 :: m2 :: s2 :: d1 :: d2 :: rest =>
      if forallb is_digit [y1; y2; y3; y4; m1; m2; d1; d2] &&
         Ascii.eqb s1 "-" && Ascii.eqb s2 "-"
      then Some (digits_value [y1; y2; y3; y4], digits_value [m1; m2],
                 digits_value [d1; d2], rest)
      else None
  | _ => None
  end.

Definition parse_yyyy_mm_dd (value : string) : option date :=
  match date_re (list_ascii_of_string value) with
  | Some (y, m, d, []) =>
      if (1 <=? y) && (1 <=? m) && (m <=? 12) && (1 <=? d) && (d <=? days_in_month y m)
      then Some (mk_date y m d) else None
  | _ => None
  end.

(** [date.fromisoformat] (Python 3.11 and later): a calendar date or an ISO
    week date, in the extended or the basic format. *)
Definition ymd_date (y m d : Z) : option date :=
  if (1 <=? y) && (1 <=? m) && (m <=? 12) && (1 <=? d) && (d <=? days_in_month y m)
  then Some (mk_date y m d) else None.

Definition isoweek1monday (y : Z) : date :=
  let firstday := mk_date y 1 1 in
  let firstweekday := weekday firstday in
  firstday - firstweekday + (if 3 <? firstweekday then 7 else 0).

Definition isoweek_date (y w d : Z) : option date :=
  let long_year :=
    (weekday (mk_date y 1 1) =? 3) || ((weekday (mk_date y 1 1) =? 2) && is_leap y) in
  if (1 <=? y) && (1 <=? w) && ((w <=? 52) || ((w =? 53) && long_year)) &&
     (1 <=? d) && (d <=? 7)
  then Some (isoweek1monday y + (w - 1) * 7 + (d - 1)) else None.

Definition date_fromisoformat (value : string) : option date :=
  let n l := digits_value l in
  let ok l := forallb is_digit l in
  match list_ascii_of_string value with
  | [y1; y2; y3; y4; "-"; m1; m2; "-"; d1; d2]%char =>
      if (ok [y1; y2; y3; y4; m1; m2; d1; d2])
      then ymd_date (n [y1; y2; y3; y4]) (n [m1; m2]) (n [d1; d2])
      else None
  | [y1; y2; y3; y4; "-"; "W"; w1; w2; "-"; d]%char =>
      if ok [y1; y2; y3; y4; w1; w2; d]
      then isoweek_date (n [y1; y2; y3; y4]) (n [w1; w2]) (n [d]) else None
  | [y1; y2; y3; y4; "-"; "W"; w1; w2]%char =>
      if ok [y1; y2; y3; y4; w1; w2]
      then isoweek_date (n [y1; y2; y3; y4]) (n [w1; w2]) 1 else None
  | [y1; y2; y3; y4; "W"; w1; w2; d]%char =>
      if ok [y1; y2; y3; y4; w1; w2; d]
      then isoweek_date (n [y1; y2; y3; y4]) (n [w1; w2]) (n [d]) else None
  | [y1; y2; y3; y4; "W"; w1; w2]%char =>
      if ok [y1; y2; y3; y4; w1; w2]
      then isoweek_date (n [y1; y2; y3; y4]) (n [w1; w2]) 1 else None
  | [y1; y2; y3; y4; m1; m2; d1; d2] =>
      if ok [y1; y2; y3; y4; m1; m2; d1; d2]
      then ymd_date (n [y1; y2; y3; y4]) (n [m1; m2]) (n [d1; d2]) else None
  | _ => None
  end.

Example date_fromisoformat_examples :
  date_fromisoformat "2026-07-04" = Some (mk_date 2026 7 4) ∧
  date_fromisoformat "20260704" = Some (mk_date 2026 7 4) ∧
  date_fromisoformat "2026-W01-1" = Some (mk_date 2025 12 29) ∧
  date_fromisoformat "2026W53" = Some (mk_date 2026 12 28) ∧
  date_fromisoformat "2025-W53-1" = None ∧
  date_fromisoformat "2026-02-29" = None.
Proof. split_and!; vm_compute; reflexivity. Qed.

(** [YearMonth.parse] on integers. *)
Record YearMonth := { ym_year : Z; ym_month : Z }.

Definition YearMonth_parse (y m : Z) : option YearMonth :=
  if (y <? 1970) || (2100 <? y) then None
  else if (m <? 1) || (12 <? m) then None
  else Some {| ym_year := y; ym_month := m |}.

(** ** Lemmas *)

Lemma code_bounds c : 0 <= code c < 256.
Proof. unfold code. pose proof (N_ascii_bounded c). lia. Qed.

Lemma ascii_of_code c : ascii_of_N (Z.to_N (code c)) = c.
Proof. unfold code. rewrite N2Z.id. apply ascii_N_embedding. Qed.

(** A digit is none of the characters [int] treats specially. *)
Lemma digit_not_special c :
  is_digit c = true →
  is_space c = false ∧ Ascii.eqb c "-" = false ∧ Ascii.eqb c "+" = false ∧
  Ascii.eqb c colon = false ∧ Ascii.eqb c "_" = false.
Proof.
  intros H. rewrite <- (ascii_of_code c). pose proof (code_bounds c).
  unfold is_digit in H. bool_hyps.
  assert (code c = 48 ∨ code c = 49 ∨ code c = 50 ∨ code c = 51 ∨ code c = 52 ∨
    code c = 53 ∨ code c = 54 ∨ code c = 55 ∨ code c = 56 ∨ code c = 57) as Hc by lia.
  repeat destruct Hc as [->|Hc]; try rewrite Hc; vm_compute; done.
Qed.

Lemma int_two_digits a b rest :
  is_digit a = true → is_digit b = true →
  rest = [] ∨ rest = [newline] →
  py_int (a :: b :: rest) = Some (10 * digit_value a + digit_value b).
Proof.
  intros Ha Hb Hrest. unfold py_int, strip_chars.
  destruct (digit_not_special a Ha) as (Hsa & Hm & Hp & _ & Hu).
  destruct (digit_not_special b Hb) as (Hsb & _).
  assert (rev (drop_spaces (rev (drop_spaces (a :: b :: rest)))) = [a; b]) as ->.
  { simpl drop_spaces at 2. rewrite Hsa.
    destruct Hrest as [->| ->]; simpl; by rewrite Hsb. }
  rewrite Hm, Hp. simpl. by rewrite Ha, Hb.
Qed.

Lemma hour_pair_digits a b :
  hour_pair a b = true →
  is_digit a = true ∧ is_digit b = true ∧ 0 <= 10 * digit_value a + digit_value b <= 23.
Proof.
  unfold hour_pair, is_digit, digit_value. intros H.
  apply orb_true_iff in H as [H|H]; bool_hyps.
  - apply orb_true_iff in H as [H|H]; bool_hyps; rewrite !andb_true_iff, !Z.leb_le; lia.
  - rewrite !andb_true_iff, !Z.leb_le; lia.
Qed.

Lemma minute_pair_digits a b :
  minute_pair a b = true →
  is_digit a = true ∧ is_digit b = true ∧ 0 <= 10 * digit_value a + digit_value b <= 59.
Proof.
  unfold minute_pair, is_digit, digit_value. intros H. bool_hyps.
  rewrite !andb_true_iff, !Z.leb_le; lia.
Qed.

(** Every accepted time parses, without an exception, to an hour and a minute
    of the day. *)
Lemma valid_hhmm_parts s :
  is_valid_hhmm (Some s) = true →
  ∃ h m, hhmm_parts s = Ok (h, m) ∧ 0 <= h <= 23 ∧ 0 <= m <= 59.
Proof.
  unfold is_valid_hhmm, hhmm_parts, time_re.
  destruct (list_ascii_of_string s) as [|a [|b [|c [|d [|e rest]]]]]; try done.
  intros H. bool_hyps. apply Ascii.eqb_eq in H2 as ->.
  apply hour_pair_digits in H as (Ha & Hb & Hh).
  apply minute_pair_digits in H1 as (Hd & He & Hm).
  destruct (digit_not_special a Ha) as (_ & _ & _ & Hca & _).
  destruct (digit_not_special b Hb) as (_ & _ & _ & Hcb & _).
  destruct (digit_not_special d Hd) as (_ & _ & _ & Hcd & _).
  destruct (digit_not_special e He) as (_ & _ & _ & Hce & _).
  assert (Hrest : rest = [] ∨ rest = [newline]).
  { destruct rest as [|f [|]]; [by left | right | done].
    by apply Ascii.eqb_eq in H0 as ->. }
  exists (10 * digit_value a + digit_value b), (10 * digit_value d + digit_value e).
  cbn [split_colon]. rewrite Hca, Hcb. cbn [Ascii.eqb split_colon].
  rewrite Ascii.eqb_refl. cbn [split_colon]. rewrite Hcd, Hce.
  assert (split_colon rest [e; d] = [d :: e :: rest]) as ->.
  { by destruct Hrest as [->| ->]. }
  cbn [rev app]. rewrite (int_two_digits a b []) by auto.
  rewrite (int_two_digits d e rest) by auto. done.
Qed.

Lemma days_in_month_py y m :
  1 <= m <= 12 →
  days_in_month y m =
    match m with
    | 2 => if is_leap y then 29 else 28
    | 4 | 6 | 9 | 11 => 30
    | _ => 31
    end.
Proof.
  intros Hm. rewrite days_in_month_length by done. apply month_cases in Hm.
  repeat destruct Hm as [->|Hm]; subst; try done; by destruct (is_leap y).
Qed.
