(* ===== verification/Format.v ===== *)
(** * Text the API sends: dates, times of day and decimals

    [date.isoformat()], [f"{hour:02d}:{minute:02d}"] and [f"{value:.3f}"],
    with their inverses: what a response prints, a request can send back. *)

From S2P Require Import Prelude Calendar TimeParse.
From Stdlib Require Import QArith Qround.
#[local] Open Scope Z_scope.

Definition digit_of (n : Z) : ascii := ascii_of_N (Z.to_N (48 + n)).

(** The last [w] decimal digits of a number: [f"{n:0{w}d}"] when it fits. *)
Fixpoint fixed_digits (w : nat) (n : Z) : list ascii :=
  match w with
  | O => []
  | S w' => fixed_digits w' (n / 10) ++ [digit_of (n mod 10)]
  end.

Definition isoformat (d : date) : string :=
  string_of_list_ascii (fixed_digits 4 (year_of d) ++ "-"%char :: fixed_digits 2 (month_of d) ++
    "-"%char :: fixed_digits 2 (day_of d)).

Definition format_hhmm (hour minute : Z) : string :=
  string_of_list_ascii (fixed_digits 2 hour ++ colon :: fixed_digits 2 minute).

(** A Numeric(4,3) column: rounded half up to thousandths (the values are
    positive). *)
Definition thousandths (q : Q) : Z := Qfloor (q * 1000 + (1 # 2)).
Definition numeric_4_3 (q : Q) : Q := thousandths q # 1000.

Definition format_3 (q : Q) : string :=
  string_of_list_ascii (fixed_digits 1 (thousandths q / 1000) ++ "."%char ::
    fixed_digits 3 (thousandths q mod 1000)).

(** ** Reading back *)

Lemma code_digit_of n : 0 <= n <= 9 → code (digit_of n) = 48 + n.
Proof.
  intros H. unfold code, digit_of. rewrite N_ascii_embedding by lia. lia.
Qed.

Lemma digit_of_is_digit n : 0 <= n <= 9 → is_digit (digit_of n) = true.
Proof. intros H. unfold is_digit. rewrite code_digit_of by done. lia. Qed.

Lemma digit_of_value n : 0 <= n <= 9 → digit_value (digit_of n) = n.
Proof. intros H. unfold digit_value. rewrite code_digit_of by done. lia. Qed.

Lemma fixed_digits_digit w n c : c ∈ fixed_digits w n → is_digit c = true.
Proof.
  revert n. induction w as [|w IH]; intros n; simpl; [by intros ?%elem_of_nil|].
  intros [Hc| ->%list_elem_of_singleton]%elem_of_app; [by apply (IH (n / 10))|].
  apply digit_of_is_digit. pose proof (Z.mod_pos_bound n 10). lia.
Qed.

Lemma digits_value_app l c : digits_value (l ++ [c]) = 10 * digits_value l + digit_value c.
Proof. unfold digits_value. by rewrite fold_left_app. Qed.

Lemma fixed_digits_value w n :
  0 <= n < 10 ^ Z.of_nat w → digits_value (fixed_digits w n) = n.
Proof.
  revert n. induction w as [|w IH]; intros n Hn; [simpl in *; cbn; lia|].
  cbn [fixed_digits]. pose proof (Z.mod_pos_bound n 10).
  rewrite digits_value_app, digit_of_value, IH by
    first [lia | rewrite Nat2Z.inj_succ, Z.pow_succ_r in Hn by lia;
     split; [apply Z.div_pos; lia|apply Z.div_lt_upper_bound; lia]].
  pose proof (Z.div_mod n 10). lia.
Qed.

Lemma digit_cases c :
  is_digit c = true → c ∈ ["0"; "1"; "2"; "3"; "4"; "5"; "6"; "7"; "8"; "9"]%char.
Proof.
  intros H. rewrite <- (ascii_of_code c). unfold is_digit in H. bool_hyps.
  assert (code c = 48 ∨ code c = 49 ∨ code c = 50 ∨ code c = 51 ∨ code c = 52 ∨
    code c = 53 ∨ code c = 54 ∨ code c = 55 ∨ code c = 56 ∨ code c = 57) as Hc by lia.
  repeat destruct Hc as [->|Hc]; try rewrite Hc; apply mem_true; reflexivity.
Qed.

Lemma fixed_digits_length w n : length (fixed_digits w n) = w.
Proof. revert n. induction w as [|w IH]; intros n; simpl; [done|]. rewrite length_app, IH. simpl. lia. Qed.

Lemma fixed_digits_all w n : forallb is_digit (fixed_digits w n) = true.
Proof. apply forallb_elem. apply fixed_digits_digit. Qed.

(** The extended calendar format is read digit by digit. *)
Lemma fromisoformat_digits y1 y2 y3 y4 m1 m2 d1 d2 :
  forallb is_digit [y1; y2; y3; y4; m1; m2; d1; d2] = true →
  date_fromisoformat (string_of_list_ascii [y1; y2; y3; y4; "-"; m1; m2; "-"; d1; d2]%char) =
    ymd_date (digits_value [y1; y2; y3; y4]) (digits_value [m1; m2]) (digits_value [d1; d2]).
Proof.
  intros H. unfold date_fromisoformat. rewrite list_ascii_of_string_of_list_ascii.
  assert (Hm : is_digit m1 = true) by (rewrite forallb_elem in H; apply H; do 4 right; left).
  apply digit_cases in Hm. rewrite H.
  repeat (apply elem_of_cons in Hm as [->|Hm]; [reflexivity|]). by apply elem_of_nil in Hm.
Qed.

(** A day of the years 1 to 9999 survives printing and parsing. *)
Lemma isoformat_round_trip d :
  1 <= year_of d <= 9999 → date_fromisoformat (isoformat d) = Some d.
Proof.
  intros Hy. destruct (ymd_spec d) as (Hm & Hd & Heq).
  pose proof (days_in_month_bounds (year_of d) (month_of d) Hm) as Hb. unfold isoformat.
  pose proof (fixed_digits_value 4 (year_of d) ltac:(simpl; lia)) as Vy.
  pose proof (fixed_digits_value 2 (month_of d) ltac:(simpl; lia)) as Vm.
  pose proof (fixed_digits_value 2 (day_of d) ltac:(simpl; lia)) as Vd.
  pose proof (fixed_digits_all 4 (year_of d)) as Dy.
  pose proof (fixed_digits_all 2 (month_of d)) as Dm.
  pose proof (fixed_digits_all 2 (day_of d)) as Dd.
  pose proof (fixed_digits_length 4 (year_of d)) as Ly.
  pose proof (fixed_digits_length 2 (month_of d)) as Lm.
  pose proof (fixed_digits_length 2 (day_of d)) as Ld.
  destruct (fixed_digits 4 (year_of d)) as [|y1 [|y2 [|y3 [|y4 [|]]]]]; try discriminate Ly.
  destruct (fixed_digits 2 (month_of d)) as [|m1 [|m2 [|]]]; try discriminate Lm.
  destruct (fixed_digits 2 (day_of d)) as [|d1 [|d2 [|]]]; try discriminate Ld.
  cbn [app]. rewrite fromisoformat_digits, Vy, Vm, Vd.
  - unfold ymd_date. rewrite (proj2 (Z.leb_le 1 _)) by lia.
    rewrite (proj2 (Z.leb_le 1 (month_of d))), (proj2 (Z.leb_le (month_of d) 12)) by lia.
    rewrite (proj2 (Z.leb_le 1 (day_of d))), (proj2 (Z.leb_le (day_of d) _)) by lia.
    simpl. by rewrite Heq.
  - change [y1; y2; y3; y4; m1; m2; d1; d2] with ([y1; y2; y3; y4] ++ [m1; m2] ++ [d1; d2]).
    by rewrite !forallb_app, Dy, Dm, Dd.
Qed.

(** A time of day survives printing and parsing. *)
Lemma format_hhmm_round_trip h m :
  0 <= h <= 23 → 0 <= m <= 59 → hhmm_parts (format_hhmm h m) = Ok (h, m).
Proof.
  intros Hh Hm. unfold hhmm_parts, format_hhmm. rewrite list_ascii_of_string_of_list_ascii.
  pose proof (fixed_digits_value 2 h ltac:(simpl; lia)) as Vh.
  pose proof (fixed_digits_value 2 m ltac:(simpl; lia)) as Vm.
  pose proof (fixed_digits_digit 2 h) as Dh. pose proof (fixed_digits_digit 2 m) as Dm.
  pose proof (fixed_digits_length 2 h) as Lh. pose proof (fixed_digits_length 2 m) as Lm.
  destruct (fixed_digits 2 h) as [|h1 [|h2 [|]]]; try discriminate Lh.
  destruct (fixed_digits 2 m) as [|m1 [|m2 [|]]]; try discriminate Lm.
  assert (D1 := Dh h1 ltac:(left)). assert (D2 := Dh h2 ltac:(right; left)).
  assert (D3 := Dm m1 ltac:(left)). assert (D4 := Dm m2 ltac:(right; left)).
  destruct (digit_not_special h1 D1) as (_ & _ & _ & N1 & _).
  destruct (digit_not_special h2 D2) as (_ & _ & _ & N2 & _).
  destruct (digit_not_special m1 D3) as (_ & _ & _ & N3 & _).
  destruct (digit_not_special m2 D4) as (_ & _ & _ & N4 & _).
  cbn [app split_colon]. rewrite N1, N2, Ascii.eqb_refl. cbn [split_colon]. rewrite N3, N4.
  cbn [split_colon rev app].
  rewrite (int_two_digits h1 h2 []), (int_two_digits m1 m2 []) by auto.
  unfold digits_value in Vh, Vm. simpl in Vh, Vm. do 2 f_equal; lia.
Qed.

Example format_examples :
  isoformat (mk_date 2026 3 9) = "2026-03-09"%string ∧ format_hhmm 7 5 = "07:05"%string ∧
  format_3 (3 # 4) = "0.750"%string ∧ format_3 1 = "1.000"%string ∧
  numeric_4_3 (9996 # 10000) = (1000 # 1000)%Q ∧ numeric_4_3 (14 # 10000) = (1 # 1000)%Q.
Proof. split_and!; vm_compute; reflexivity. Qed.

(** Rounding stays in the range the columns accept. *)
Lemma numeric_4_3_range q :
  (1 # 1000 <= q)%Q → (q <= 1)%Q → (0 < numeric_4_3 q)%Q ∧ (numeric_4_3 q <= 1)%Q.
Proof.
  intros H1 H2. unfold numeric_4_3, thousandths.
  assert (Hmono : ∀ a b, (a <= b)%Q → Qfloor (a * 1000 + (1 # 2)) <= Qfloor (b * 1000 + (1 # 2))).
  { intros a b Hab. apply Qfloor_resp_le, Qplus_le_compat; [by apply Qmult_le_compat_r|apply Qle_refl]. }
  pose proof (Hmono _ _ H1) as Hlo. pose proof (Hmono _ _ H2) as Hhi.
  change (Qfloor ((1 # 1000) * 1000 + (1 # 2))) with 1 in Hlo.
  change (Qfloor (1 * 1000 + (1 # 2))) with 1000 in Hhi.
  revert Hlo Hhi. generalize (Qfloor (q * 1000 + (1 # 2))). intros z ? ?.
  unfold Qlt, Qle. simpl. lia.
Qed.
