(* ===== verification/PragueTime.v ===== *)
(** * app/services/prague_time.py: date-times in Europe/Prague

    A wall-clock time is an integer number of microseconds counted so that
    midnight of the day with ordinal [d] is [d * us_per_day]; a UTC instant is
    counted on the same scale.  Python compares and subtracts two date-times
    with the same [tzinfo] by their wall-clock fields, so every computation of
    the services is arithmetic on [wall]; only SQL compares instants.

    The time-zone database is the class [PragueZone]; [PragueZoneLaws] is the
    one fact about Europe/Prague the code relies on: no transition of the zone
    moves an instant across a local midnight, in either direction of the
    conversion. *)

From S2P Require Import Prelude Calendar TimeParse.

Definition us_per_minute : Z := 60000000.
Definition us_per_day : Z := 86400000000.
Definition minutes_per_day : Z := 1440.

Lemma us_per_day_minutes : us_per_day = minutes_per_day * us_per_minute.
Proof. done. Qed.

Class PragueZone := {
  utc_to_wall : Z → Z;
  wall_to_utc : Z → Z;
}.

Class PragueZoneLaws (zone : PragueZone) := {
  midnight_utc day t :
    wall_to_utc (day * us_per_day) <= t ↔ day * us_per_day <= utc_to_wall t;
  midnight_wall day w :
    day * us_per_day <= w ↔ wall_to_utc (day * us_per_day) <= wall_to_utc w;
}.

(** Every local time outside the hour from 02:00 to 03:00 exists: the summer
    time of Europe/Prague starts at 01:00 UTC. *)
Class PragueGap (zone : PragueZone) := {
  real_outside_gap w :
    ¬ 120 * us_per_minute <= w mod us_per_day < 180 * us_per_minute →
    utc_to_wall (wall_to_utc w) = w;
}.

(** A date-time whose [tzinfo] is [PRAGUE_TIMEZONE]: its wall clock and the
    instant PostgreSQL stores for it. *)
Record aware := mk_aware { wall : Z; utc : Z }.

#[global] Instance aware_eq_dec : EqDecision aware.
Proof. solve_decision. Defined.

(** A [datetime] as a client sends it: without a zone, or an instant. *)
Inductive py_datetime :=
  | Naive (w : Z)
  | Zoned (t : Z).

Section Prague.
Context `{zone : PragueZone}.

(** [prague_now]: [replace(tzinfo=...)] or [astimezone(...)]. *)
Definition prague_now (now : py_datetime) : aware :=
  match now with
  | Naive w => mk_aware w (wall_to_utc w)
  | Zoned t => mk_aware (utc_to_wall t) t
  end.

(** A Prague date-time obtained by arithmetic on the wall clock. *)
Definition at_wall (w : Z) : aware := mk_aware w (wall_to_utc w).

(** What a row read back from the database holds for a stored instant. *)
Definition reload (a : aware) : aware := prague_now (Zoned (utc a)).

Definition date_of_wall (w : Z) : date := w / us_per_day.
Definition date_of (a : aware) : date := date_of_wall (wall a).
Definition midnight (d : date) : Z := d * us_per_day.

Definition prague_today (now : py_datetime) : date := date_of (prague_now now).

Definition minute_of_wall (w : Z) : Z := (w mod us_per_day) / us_per_minute.
Definition prague_minutes_since_midnight (now : py_datetime) : Z :=
  minute_of_wall (wall (prague_now now)).

(** [datetime.combine(day, time(hour, minute), tzinfo=PRAGUE_TIMEZONE)]. *)
Definition combine_prague (day : date) (hour minute : Z) : aware :=
  at_wall (midnight day + (hour * 60 + minute) * us_per_minute).

(** [time(hour=..., minute=...)] raises when a field is out of range. *)
Definition combine_prague_hhmm (day : date) (hhmm : string) : result aware :=
  match hhmm_parts hhmm with
  | Ok (hour, minute) =>
      if (0 <=? hour) && (hour <=? 23) && (0 <=? minute) && (minute <=? 59)
      then Ok (combine_prague day hour minute) else Err (Crash "ValueError")
  | Err e => Err e
  end.

Lemma date_of_midnight d : date_of_wall (midnight d) = d.
Proof. unfold date_of_wall, midnight, us_per_day. zdiv. Qed.

(** The days of a wall-clock time are the half-open ranges between midnights. *)
Lemma date_of_wall_spec w d :
  date_of_wall w = d ↔ midnight d <= w < midnight (d + 1).
Proof. unfold date_of_wall, midnight, us_per_day. zdiv. Qed.

Lemma date_of_wall_le w w' : w <= w' → date_of_wall w <= date_of_wall w'.
Proof. unfold date_of_wall, us_per_day. zdiv. Qed.

(** The SQL range of a local day selects exactly its events. *)
Lemma sql_day_range `{!PragueZoneLaws zone} a d1 d2 :
  reload a = a →
  ((utc (at_wall (midnight d1)) <=? utc a) && (utc a <? utc (at_wall (midnight d2))) = true
   ↔ d1 <= date_of a < d2).
Proof.
  intros Hr. destruct a as [w t]. unfold reload in Hr. injection Hr as Hw. simpl.
  rewrite andb_true_iff, Z.leb_le, Z.ltb_lt. unfold midnight.
  rewrite midnight_utc. pose proof (midnight_utc d2 t) as H2.
  unfold date_of, date_of_wall; simpl. subst w. unfold us_per_day in *. split.
  - intros [H1 Hlt]. split; [zdiv|].
    assert (~ d2 * 86400000000 <= utc_to_wall t) by (rewrite <- H2; lia). zdiv.
  - intros [H1 Hlt]. split; [zdiv|].
    assert (~ wall_to_utc (d2 * 86400000000) <= t); [rewrite H2; zdiv | lia].
Qed.

(** Date-times the program builds: from a wall clock or from an instant. *)
Definition from_zone (a : aware) : Prop :=
  utc a = wall_to_utc (wall a) ∨ wall a = utc_to_wall (utc a).

Lemma from_zone_prague_now x : from_zone (prague_now x).
Proof. destruct x; [left | right]; done. Qed.

Lemma from_zone_at_wall w : from_zone (at_wall w).
Proof. by left. Qed.

Lemma reload_idem a : reload (reload a) = reload a.
Proof. done. Qed.

(** Storing a date-time and reading it back keeps its local day. *)
Lemma date_of_reload `{!PragueZoneLaws zone} a :
  from_zone a → date_of (reload a) = date_of a.
Proof.
  destruct a as [w t]. unfold date_of, reload, from_zone. simpl. intros [-> | ->]; [|done].
  apply date_of_wall_spec. unfold midnight.
  pose proof (proj1 (date_of_wall_spec w _) eq_refl) as [H1 H2]. unfold midnight in *.
  rewrite midnight_wall in H1. apply Z.lt_nge in H2. rewrite midnight_wall in H2.
  rewrite <- midnight_utc. split; [done|]. apply Z.lt_nge. by rewrite <- midnight_utc.
Qed.
End Prague.

(** ** A concrete zone: Central European time with the summer time of 2026

    +1 h, and +2 h between the last Sundays of March and October 2026, both
    01:00 UTC; a wall-clock time in the gap or the overlap is read with the
    offset before the transition ([fold=0]). *)
Module Prague2026.
Definition hour : Z := 60 * us_per_minute.
Definition summer_start : Z := mk_date 2026 3 29 * us_per_day + hour.
Definition summer_end : Z := mk_date 2026 10 25 * us_per_day + hour.

#[global] Instance zone : PragueZone := {
  utc_to_wall t :=
    if (summer_start <=? t) && (t <? summer_end) then t + 2 * hour else t + hour;
  wall_to_utc w :=
    if (summer_start + 2 * hour <=? w) && (w <? summer_end + 2 * hour)
    then w - 2 * hour else w - hour;
}.

#[global] Instance zone_laws : PragueZoneLaws zone.
Proof.
  assert (Hs : summer_start = 63910429200000000) by (vm_compute; done).
  assert (He : summer_end = 63928573200000000) by (vm_compute; done).
  constructor; intros day t; simpl; rewrite Hs, He;
    change hour with 3600000000; change us_per_day with 86400000000;
    repeat match goal with |- context [if ?c then _ else _] => destruct c eqn:? end;
    rewrite ?andb_true_iff, ?andb_false_iff, ?Z.leb_le, ?Z.ltb_lt, ?Z.leb_gt, ?Z.ltb_ge in *;
    lia.
Qed.

#[global] Instance zone_gap : PragueGap zone.
Proof.
  assert (Hs : summer_start = 63910429200000000) by (vm_compute; done).
  assert (He : summer_end = 63928573200000000) by (vm_compute; done).
  constructor; intros w Hw; simpl; rewrite Hs, He.
  change hour with 3600000000. change us_per_day with 86400000000 in Hw.
  change us_per_minute with 60000000 in Hw.
  repeat match goal with |- context [if ?c then _ else _] => destruct c eqn:? end;
    rewrite ?andb_true_iff, ?andb_false_iff, ?Z.leb_le, ?Z.ltb_lt, ?Z.leb_gt, ?Z.ltb_ge in *;
    try lia; zdiv.
Qed.
End Prague2026.
