(* ===== verification/Models.v ===== *)
(** * app/db/models.py: the tables and the database state

    One Record per mapped class and one list of rows per table, in insertion
    order.  Audit columns ([created_at], [updated_at], [locked_at],
    [executed_at]) are written by the server clock, read by no modelled
    operation, and left out.  Primary keys come from one counter, which gives
    them the two properties the code uses: fresh and increasing. *)

From S2P Require Import Prelude Calendar PragueTime.
From Stdlib Require Import QArith.
Open Scope Z_scope.

Inductive EmploymentType := WORK_CONTRACT | DPP_DPC | TASK_SHIFT_BASED | EXTERNAL_HOURLY.
Inductive DailyMetricSource := SRC_ATTENDANCE | SRC_SHIFT_PLAN.

#[global] Instance EmploymentType_eq_dec : EqDecision EmploymentType.
Proof. solve_decision. Defined.
#[global] Instance DailyMetricSource_eq_dec : EqDecision DailyMetricSource.
Proof. solve_decision. Defined.

Record PortalUser := mk_user {
  pu_id : Z;
  pu_email : string;
  pu_name : string;
  pu_password_hash : option string;
  pu_is_active : bool;
  pu_is_blocked : bool;
  pu_instance_id : option string;
  pu_phone : option string;
}.

Record Employment := mk_employment {
  em_id : Z;
  em_user_id : Z;
  em_title : string;
  em_employment_type : EmploymentType;
  em_workload_fraction : option Q;
  em_total_hours_enabled : bool;
  em_automatic_breaks_enabled : bool;
  em_afternoon_hours_enabled : bool;
  em_afternoon_start_minutes : option Z;
  em_night_hours_enabled : bool;
  em_weekend_hours_enabled : bool;
  em_public_holiday_hours_enabled : bool;
  em_start_date : date;
  em_end_date : option date;
}.

Record EmploymentGroup := mk_group { eg_id : Z; eg_name : string }.
Record EmploymentGroupMember := mk_member { gm_group_id : Z; gm_employment_id : Z }.

Record Attendance := mk_attendance {
  at_id : Z;
  at_employment_id : Z;
  at_instance_id : option string;
  at_date : date;
  at_status : option string;
}.

Record AttendanceEvent := mk_event {
  ev_id : Z;
  ev_employment_id : Z;
  ev_occurred_at : aware;
}.

Record EmploymentDailyTimeMetric := mk_metric {
  dm_employment_id : Z;
  dm_metric_date : date;
  dm_source : DailyMetricSource;
  dm_total_minutes : Z;
  dm_total_tenths : Z;
  dm_afternoon_minutes : option Z;
  dm_afternoon_tenths : option Z;
  dm_night_minutes : option Z;
  dm_night_tenths : option Z;
  dm_weekend_minutes : option Z;
  dm_weekend_tenths : option Z;
  dm_public_holiday_minutes : option Z;
  dm_public_holiday_tenths : option Z;
  dm_calculation_revision : Z;
}.

Record ShiftPlan := mk_plan {
  sp_id : Z;
  sp_employment_id : Z;
  sp_instance_id : option string;
  sp_date : date;
  sp_arrival_time : option string;
  sp_departure_time : option string;
  sp_status : option string;
}.

Record ShiftPlanMonthInstance := mk_month_instance {
  mi_id : Z;
  mi_year : Z;
  mi_month : Z;
  mi_employment_id : Z;
}.

(** [AttendanceLock] and [ShiftPlanLock] have the same columns. *)
Record MonthLock := mk_lock {
  lk_id : Z;
  lk_employment_id : Z;
  lk_instance_id : option string;
  lk_year : Z;
  lk_month : Z;
  lk_locked_by : option string;
}.

Record ShiftPlanAutoLockRun := mk_run {
  ar_id : Z;
  ar_year : Z;
  ar_month : Z;
  ar_locked_count : Z;
}.

Record AttendanceReminderEvent := mk_reminder {
  rm_id : Z;
  rm_employment_id : Z;
  rm_instance_id : option string;
  rm_attendance_date : date;
  rm_reminder_type : string;
  rm_sequence_no : Z;
  rm_sent_to : string;
}.

#[global] Instance aware_eq_dec' : EqDecision aware := aware_eq_dec.
#[global] Instance AttendanceEvent_eq_dec : EqDecision AttendanceEvent.
Proof. solve_decision. Defined.
#[global] Instance Attendance_eq_dec : EqDecision Attendance.
Proof. solve_decision. Defined.
#[global] Instance ShiftPlan_eq_dec : EqDecision ShiftPlan.
Proof. solve_decision. Defined.
#[global] Instance MonthLock_eq_dec : EqDecision MonthLock.
Proof. solve_decision. Defined.
#[global] Instance EmploymentGroupMember_eq_dec : EqDecision EmploymentGroupMember.
Proof. solve_decision. Defined.

(** The database as one session sees it.  The production session factory has
    [autoflush=False]; wherever the code queries a table between a pending
    change and its flush, the query reads rows the pending change does not
    touch, or its result is discarded, so applying every change at once gives
    the same run. *)
Record DB := mk_db {
  users : list PortalUser;
  employments : list Employment;
  groups : list EmploymentGroup;
  members : list EmploymentGroupMember;
  attendance : list Attendance;
  events : list AttendanceEvent;
  metrics : list EmploymentDailyTimeMetric;
  plans : list ShiftPlan;
  month_instances : list ShiftPlanMonthInstance;
  attendance_locks : list MonthLock;
  shift_plan_locks : list MonthLock;
  auto_lock_runs : list ShiftPlanAutoLockRun;
  reminders : list AttendanceReminderEvent;
  next_id : Z;
}.

Definition empty_db : DB := mk_db [] [] [] [] [] [] [] [] [] [] [] [] [] 1.

(** Writing one table. *)
Definition set_users (x : list PortalUser) (db : DB) : DB :=
  mk_db x (employments db) (groups db) (members db) (attendance db) (events db)
    (metrics db) (plans db) (month_instances db) (attendance_locks db)
    (shift_plan_locks db) (auto_lock_runs db) (reminders db) (next_id db).
Definition set_employments (x : list Employment) (db : DB) : DB :=
  mk_db (users db) x (groups db) (members db) (attendance db) (events db)
    (metrics db) (plans db) (month_instances db) (attendance_locks db)
    (shift_plan_locks db) (auto_lock_runs db) (reminders db) (next_id db).
Definition set_groups (x : list EmploymentGroup) (db : DB) : DB :=
  mk_db (users db) (employments db) x (members db) (attendance db) (events db)
    (metrics db) (plans db) (month_instances db) (attendance_locks db)
    (shift_plan_locks db) (auto_lock_runs db) (reminders db) (next_id db).
Definition set_members (x : list EmploymentGroupMember) (db : DB) : DB :=
  mk_db (users db) (employments db) (groups db) x (attendance db) (events db)
    (metrics db) (plans db) (month_instances db) (attendance_locks db)
    (shift_plan_locks db) (auto_lock_runs db) (reminders db) (next_id db).
Definition set_attendance (x : list Attendance) (db : DB) : DB :=
  mk_db (users db) (employments db) (groups db) (members db) x (events db)
    (metrics db) (plans db) (month_instances db) (attendance_locks db)
    (shift_plan_locks db) (auto_lock_runs db) (reminders db) (next_id db).
Definition set_events (x : list AttendanceEvent) (db : DB) : DB :=
  mk_db (users db) (employments db) (groups db) (members db) (attendance db) x
    (metrics db) (plans db) (month_instances db) (attendance_locks db)
    (shift_plan_locks db) (auto_lock_runs db) (reminders db) (next_id db).
Definition set_metrics (x : list EmploymentDailyTimeMetric) (db : DB) : DB :=
  mk_db (users db) (employments db) (groups db) (members db) (attendance db)
    (events db) x (plans db) (month_instances db) (attendance_locks db)
    (shift_plan_locks db) (auto_lock_runs db) (reminders db) (next_id db).
Definition set_plans (x : list ShiftPlan) (db : DB) : DB :=
  mk_db (users db) (employments db) (groups db) (members db) (attendance db)
    (events db) (metrics db) x (month_instances db) (attendance_locks db)
    (shift_plan_locks db) (auto_lock_runs db) (reminders db) (next_id db).
Definition set_month_instances (x : list ShiftPlanMonthInstance) (db : DB) : DB :=
  mk_db (users db) (employments db) (groups db) (members db) (attendance db)
    (events db) (metrics db) (plans db) x (attendance_locks db)
    (shift_plan_locks db) (auto_lock_runs db) (reminders db) (next_id db).
Definition set_attendance_locks (x : list MonthLock) (db : DB) : DB :=
  mk_db (users db) (employments db) (groups db) (members db) (attendance db)
    (events db) (metrics db) (plans db) (month_instances db) x
    (shift_plan_locks db) (auto_lock_runs db) (reminders db) (next_id db).
Definition set_shift_plan_locks (x : list MonthLock) (db : DB) : DB :=
  mk_db (users db) (employments db) (groups db) (members db) (attendance db)
    (events db) (metrics db) (plans db) (month_instances db) (attendance_locks db)
    x (auto_lock_runs db) (reminders db) (next_id db).
Definition set_auto_lock_runs (x : list ShiftPlanAutoLockRun) (db : DB) : DB :=
  mk_db (users db) (employments db) (groups db) (members db) (attendance db)
    (events db) (metrics db) (plans db) (month_instances db) (attendance_locks db)
    (shift_plan_locks db) x (reminders db) (next_id db).
Definition set_reminders (x : list AttendanceReminderEvent) (db : DB) : DB :=
  mk_db (users db) (employments db) (groups db) (members db) (attendance db)
    (events db) (metrics db) (plans db) (month_instances db) (attendance_locks db)
    (shift_plan_locks db) (auto_lock_runs db) x (next_id db).
Definition set_next_id (x : Z) (db : DB) : DB :=
  mk_db (users db) (employments db) (groups db) (members db) (attendance db)
    (events db) (metrics db) (plans db) (month_instances db) (attendance_locks db)
    (shift_plan_locks db) (auto_lock_runs db) (reminders db) x.

(** Taking a primary key. *)
Definition bump_id (db : DB) : DB := set_next_id (next_id db + 1) db.

(** The relationship [employment.user]. *)
Definition user_of (db : DB) (e : Employment) : option PortalUser :=
  one_or_none (where_ (λ u, pu_id u =? em_user_id e) (users db)).

(** [db.get(Employment, employment_id)]. *)
Definition get_employment (db : DB) (employment_id : Z) : option Employment :=
  one_or_none (where_ (λ e, em_id e =? employment_id) (employments db)).

(** The CHECK constraints of [employments]. *)
Definition ck_employment_workload_fraction (e : Employment) : bool :=
  match em_employment_type e, em_workload_fraction e with
  | WORK_CONTRACT, Some w => negb (Qle_bool w 0) && Qle_bool w 1
  | WORK_CONTRACT, None => false
  | _, w => match w with None => true | Some _ => false end
  end.
Definition ck_employment_afternoon_start (e : Employment) : bool :=
  match em_afternoon_start_minutes e with
  | None => true
  | Some m => (0 <=? m) && (m <=? 1319)
  end.
Definition ck_employment_afternoon_required (e : Employment) : bool :=
  negb (em_afternoon_hours_enabled e) ||
  match em_afternoon_start_minutes e with Some _ => true | None => false end.
Definition ck_employment_task_profile (e : Employment) : bool :=
  negb (bool_decide (em_employment_type e = TASK_SHIFT_BASED)) ||
  (negb (em_total_hours_enabled e) && negb (em_automatic_breaks_enabled e) &&
   negb (em_afternoon_hours_enabled e) &&
   match em_afternoon_start_minutes e with None => true | Some _ => false end &&
   negb (em_night_hours_enabled e) && negb (em_weekend_hours_enabled e) &&
   negb (em_public_holiday_hours_enabled e)).
Definition ck_employment_work_contract_profile (e : Employment) : bool :=
  negb (bool_decide (em_employment_type e = WORK_CONTRACT)) ||
  (em_total_hours_enabled e && em_night_hours_enabled e).

Definition employment_row_ok (e : Employment) : bool :=
  ck_employment_workload_fraction e && ck_employment_afternoon_start e &&
  ck_employment_afternoon_required e && ck_employment_task_profile e &&
  ck_employment_work_contract_profile e.

(** The UNIQUE constraints used below, as properties of a table. *)
Definition uq_shift_plan_employment_date (t : list ShiftPlan) : Prop :=
  NoDup ((λ p, (sp_employment_id p, sp_date p)) <$> t).
Definition uq_attendance_employment_date (t : list Attendance) : Prop :=
  NoDup ((λ a, (at_employment_id a, at_date a)) <$> t).
Definition uq_attendance_event_employment_timestamp (t : list AttendanceEvent) : Prop :=
  NoDup ((λ e, (ev_employment_id e, utc (ev_occurred_at e))) <$> t).
Definition lock_key (k : MonthLock) : Z * Z * Z := (lk_employment_id k, lk_year k, lk_month k).
Definition uq_lock_employment_month (t : list MonthLock) : Prop := NoDup (lock_key <$> t).

(** ** Well-formed databases

    The UNIQUE constraints and the primary keys of the tables the operations
    write row by row. *)
Definition plan_key (p : ShiftPlan) : Z * date := (sp_employment_id p, sp_date p).
Definition attendance_key (a : Attendance) : Z * date := (at_employment_id a, at_date a).
Definition event_key (e : AttendanceEvent) : Z * Z :=
  (ev_employment_id e, utc (ev_occurred_at e)).

Record db_wf (db : DB) : Prop := {
  wf_plans : keyed sp_id plan_key (next_id db) (plans db);
  wf_attendance : keyed at_id attendance_key (next_id db) (attendance db);
  wf_events : keyed ev_id event_key (next_id db) (events db);
}.

(** The tables no plan, attendance or event write touches. *)
Definition same_other_tables (a b : DB) : Prop :=
  users b = users a ∧ employments b = employments a ∧ groups b = groups a ∧
  members b = members a ∧ metrics b = metrics a ∧ month_instances b = month_instances a ∧
  attendance_locks b = attendance_locks a ∧ shift_plan_locks b = shift_plan_locks a ∧
  auto_lock_runs b = auto_lock_runs a ∧ reminders b = reminders a.

#[global] Instance same_other_tables_equiv : Equivalence same_other_tables.
Proof.
  unfold same_other_tables. split.
  - intros a. split_and!; done.
  - intros a b. naive_solver congruence.
  - intros a b c. intros Hab Hbc. destruct_and?. split_and!; congruence.
Qed.
