(* ===== verification/TimeIntervals.v ===== *)
(** * app/services/time_intervals.py: pairing of stored times

    Intervals are pairs of wall-clock times (see PragueTime.v).  This file
    models shift-plan intervals, the day-local pairing of attendance events,
    the split of an interval at midnights and the overlap with a window; the
    break planning of the same source file is in Breaks.v. *)

From S2P Require Import Prelude Calendar TimeParse PragueTime Models.

Record WorkInterval := mk_interval { wi_start : Z; wi_end : Z }.

#[global] Instance WorkInterval_eq_dec : EqDecision WorkInterval.
Proof. solve_decision. Defined.

(** [int((end - start).total_seconds() // 60)]. *)
Definition whole_minutes (us : Z) : Z := us / us_per_minute.
Definition minutes (i : WorkInterval) : Z := whole_minutes (wi_end i - wi_start i).

(** ** Shift plans *)

Definition shift_plan_interval (plan : ShiftPlan) : result (option WorkInterval) :=
  match sp_arrival_time plan, sp_departure_time plan with
  | Some arrival, Some departure =>
      if negb (truthy (Some arrival)) || negb (truthy (Some departure)) then Ok None
      else
        let? (start_hour, start_minute) := hhmm_parts arrival in
        let? (end_hour, end_minute) := hhmm_parts departure in
        let start := midnight (sp_date plan) + (start_hour * 60 + start_minute) * us_per_minute in
        let stop := midnight (sp_date plan) + (end_hour * 60 + end_minute) * us_per_minute in
        if stop <=? start then Ok None else Ok (Some (mk_interval start stop))
  | _, _ => Ok None
  end.

Fixpoint shift_plan_intervals (plans : list ShiftPlan) : result (list WorkInterval) :=
  match plans with
  | [] => Ok []
  | plan :: rest =>
      let? interval := shift_plan_interval plan in
      let? others := shift_plan_intervals rest in
      Ok (match interval with Some i => i :: others | None => others end)
  end.

Definition shift_plan_months (plan : option ShiftPlan) : list (Z * Z) :=
  match plan with None => [] | Some p => [ym_of (sp_date p)] end.

Definition shift_plan_days (plan : option ShiftPlan) : list date :=
  match plan with None => [] | Some p => [sp_date p] end.

Definition intervals_overlap (l r : WorkInterval) : bool :=
  (wi_start l <? wi_end r) && (wi_start r <? wi_end l).

Definition shift_plans_overlap (left right : option ShiftPlan) : result bool :=
  let? left_interval := match left with Some p => shift_plan_interval p | None => Ok None end in
  let? right_interval := match right with Some p => shift_plan_interval p | None => Ok None end in
  Ok match left_interval, right_interval with
     | Some l, Some r => intervals_overlap l r
     | _, _ => false
     end.

(** ** Pairing of attendance events *)

Definition ev_wall (e : AttendanceEvent) : Z := wall (ev_occurred_at e).
Definition ev_day (e : AttendanceEvent) : date := date_of (ev_occurred_at e).

Definition event_leb (a b : AttendanceEvent) : bool :=
  (ev_wall a <? ev_wall b) || ((ev_wall a =? ev_wall b) && (ev_id a <=? ev_id b)).

Definition ordered_events (l : list AttendanceEvent) : list AttendanceEvent :=
  sorted_by event_leb l.

(** [by_day.setdefault(day, []).append(event)]; a dict keeps the order in
    which its keys were first inserted. *)
Fixpoint add_to_day (d : date) (e : AttendanceEvent)
    (m : list (date * list AttendanceEvent)) : list (date * list AttendanceEvent) :=
  match m with
  | [] => [(d, [e])]
  | (d', es) :: m' => if d' =? d then (d', es ++ [e]) :: m' else (d', es) :: add_to_day d e m'
  end.

Definition by_day (ordered : list AttendanceEvent) : list (date * list AttendanceEvent) :=
  fold_left (λ m e, add_to_day (ev_day e) e m) ordered [].

(** The loop over [range(0, closed_count, 2)]: consecutive disjoint pairs, an
    odd last event left alone. *)
Fixpoint day_pairs (l : list AttendanceEvent) : list (AttendanceEvent * AttendanceEvent) :=
  match l with
  | s :: e :: rest =>
      let d := ev_wall e - ev_wall s in
      if (0 <? d) && (d <? us_per_day) then (s, e) :: day_pairs rest else day_pairs rest
  | _ => []
  end.

Definition pair_event_rows (l : list AttendanceEvent) : list (AttendanceEvent * AttendanceEvent) :=
  mjoin ((λ g, day_pairs g.2) <$> by_day (ordered_events l)).

Definition paired_event_ids (l : list AttendanceEvent) : list Z :=
  mjoin ((λ p, [ev_id p.1; ev_id p.2]) <$> pair_event_rows l).

Definition pair_interval (p : AttendanceEvent * AttendanceEvent) : WorkInterval :=
  mk_interval (ev_wall p.1) (ev_wall p.2).

Definition pair_events (l : list AttendanceEvent) : list WorkInterval :=
  pair_interval <$> pair_event_rows l.

(** ** Splitting at midnights *)

Fixpoint split_loop (fuel : nat) (cursor stop : Z) : list (date * WorkInterval) :=
  match fuel with
  | O => []
  | S fuel' =>
      if date_of_wall cursor <? date_of_wall stop then
        let boundary := midnight (date_of_wall cursor + 1) in
        (date_of_wall cursor, mk_interval cursor boundary) :: split_loop fuel' boundary stop
      else [(date_of_wall cursor, mk_interval cursor stop)]
  end.

(** One iteration per calendar day is enough. *)
Definition split_fuel (i : WorkInterval) : nat :=
  S (Z.to_nat (date_of_wall (wi_end i) - date_of_wall (wi_start i))).

Definition split_by_day (i : WorkInterval) : list (date * WorkInterval) :=
  where_ (λ p, wi_start p.2 <? wi_end p.2) (split_loop (split_fuel i) (wi_start i) (wi_end i)).

Definition overlap_minutes (i : WorkInterval) (start stop : Z) : Z :=
  Z.max 0 (whole_minutes (Z.min (wi_end i) stop - Z.max (wi_start i) start)).

(** ** Order of events *)

Lemma event_leb_total a b : event_leb a b = false → event_leb b a = true.
Proof. unfold event_leb. intros H. bool_hyps. apply andb_false_iff in H0. lia. Qed.

Lemma event_leb_trans a b c :
  event_leb a b = true → event_leb b c = true → event_leb a c = true.
Proof. unfold event_leb. rewrite !orb_true_iff, !andb_true_iff, !Z.ltb_lt, !Z.eqb_eq, !Z.leb_le. lia. Qed.

Lemma event_leb_wall a b : event_leb a b = true → ev_wall a <= ev_wall b.
Proof. unfold event_leb. rewrite orb_true_iff, andb_true_iff, Z.ltb_lt, Z.eqb_eq. lia. Qed.

Lemma event_leb_antisym a b :
  event_leb a b = true → event_leb b a = true → ev_id a = ev_id b.
Proof. unfold event_leb. rewrite !orb_true_iff, !andb_true_iff, !Z.ltb_lt, !Z.eqb_eq, !Z.leb_le. lia. Qed.

Lemma ordered_events_sorted l : StronglySorted (le_rel event_leb) (ordered_events l).
Proof. apply sorted_by_sorted; [apply event_leb_total | apply event_leb_trans]. Qed.

Lemma ordered_events_perm l : ordered_events l ≡ₚ l.
Proof. apply sorted_by_perm. Qed.

Lemma elem_of_ordered_events l e : e ∈ ordered_events l ↔ e ∈ l.
Proof. apply elem_of_sorted_by. Qed.

(** Distinct primary keys. *)
Definition ids_unique (l : list AttendanceEvent) : Prop := NoDup (ev_id <$> l).

Lemma ids_unique_eq l a b : ids_unique l → a ∈ l → b ∈ l → ev_id a = ev_id b → a = b.
Proof.
  unfold ids_unique. induction l as [|x l IH]; intros Hnd Ha Hb Hid.
  - by apply elem_of_nil in Ha.
  - rewrite fmap_cons in Hnd. apply NoDup_cons in Hnd as [Hx Hnd].
    apply elem_of_cons in Ha as [->|Ha]; apply elem_of_cons in Hb as [->|Hb]; auto.
    + exfalso. apply Hx. rewrite Hid. by apply list_elem_of_fmap_2.
    + exfalso. apply Hx. rewrite <- Hid. by apply list_elem_of_fmap_2.
Qed.

Lemma ordered_events_canonical l1 l2 :
  ids_unique l1 → l1 ≡ₚ l2 → ordered_events l1 = ordered_events l2.
Proof.
  intros Hu Hp. eapply sorted_perm_unique; [|apply ordered_events_sorted..|].
  - intros a b Ha Hb Hab Hba. rewrite elem_of_ordered_events in Ha, Hb.
    apply (ids_unique_eq l1); auto. by apply event_leb_antisym.
  - by rewrite !ordered_events_perm.
Qed.

(** ** The grouping by day *)

Lemma add_to_day_spec l e (ds : list date) :
  NoDup ds →
  add_to_day (ev_day e) e ((λ d, (d, where_ (λ x, ev_day x =? d) l)) <$> ds) =
  ((λ d, (d, where_ (λ x, ev_day x =? d) l ++ (if ev_day e =? d then [e] else []))) <$> ds)
  ++ (if mem (ev_day e) ds then [] else [(ev_day e, [e])]).
Proof.
  induction 1 as [|d ds Hd Hnd IH]; [done|]. csimpl.
  destruct (d =? ev_day e) eqn:E; bool_hyps.
  - subst d. assert (mem (ev_day e) (ev_day e :: ds) = true) as -> by (apply mem_true; left).
    rewrite Z.eqb_refl, app_nil_r. f_equal.
    apply list_fmap_ext. intros i d Hi. f_equal.
    destruct (ev_day e =? d) eqn:E2; [|by rewrite app_nil_r].
    bool_hyps. subst d. apply list_elem_of_lookup_2 in Hi. done.
  - rewrite IH. assert (ev_day e =? d = false) as -> by lia. rewrite app_nil_r.
    assert (mem (ev_day e) (d :: ds) = mem (ev_day e) ds) as ->; [|done].
    apply bool_decide_ext. rewrite elem_of_cons. naive_solver lia.
Qed.

Lemma dedup_from_snoc {A} `{EqDecision A} (l seen : list A) x :
  dedup_from seen (l ++ [x]) =
  dedup_from seen l ++ (if mem x (seen ++ l) then [] else [x]).
Proof.
  revert seen. induction l as [|y l IH]; intros seen; simpl.
  - rewrite app_nil_r. by destruct (mem x seen).
  - destruct (mem y seen) eqn:E; rewrite IH.
    + assert (mem x (seen ++ l) = mem x (seen ++ y :: l)) as ->; [|done].
      apply mem_true in E. apply bool_decide_ext. set_solver.
    + assert (mem x ((y :: seen) ++ l) = mem x (seen ++ y :: l)) as ->; [|done].
      apply bool_decide_ext. set_solver.
Qed.

(** [by_day] lists the days in order of first appearance, each with its own
    events in order. *)
Lemma by_day_spec l :
  by_day l = (λ d, (d, where_ (λ x, ev_day x =? d) l)) <$> dedup (ev_day <$> l).
Proof.
  unfold by_day. induction l as [|e l IH] using rev_ind; [done|].
  rewrite fold_left_app, IH. cbn [fold_left].
  rewrite add_to_day_spec by apply NoDup_dedup.
  rewrite fmap_app. unfold dedup at 3. csimpl. rewrite dedup_from_snoc, fmap_app. f_equal.
  - apply list_fmap_ext. intros i d _. rewrite where_app. by do 2 f_equal.
  - change ([] ++ (ev_day <$> l)) with (ev_day <$> l).
    assert (mem (ev_day e) (dedup (ev_day <$> l)) = mem (ev_day e) (ev_day <$> l)) as ->.
    { apply bool_decide_ext, elem_of_dedup. }
    destruct (mem (ev_day e) (ev_day <$> l)) eqn:E; [done|]. csimpl.
    rewrite where_app, (where_all _ [e]).
    2:{ intros x ->%list_elem_of_singleton. apply Z.eqb_refl. }
    assert (where_ (λ x, ev_day x =? ev_day e) l = []) as ->; [|done].
    apply where_nil_iff. intros x Hx. apply mem_false in E.
    apply Z.eqb_neq. intros Heq. apply E. rewrite <- Heq. by apply list_elem_of_fmap_2.
Qed.

Definition day_events (d : date) (l : list AttendanceEvent) : list AttendanceEvent :=
  where_ (λ x, ev_day x =? d) l.

Lemma pair_event_rows_days l :
  pair_event_rows l =
  mjoin ((λ d, day_pairs (day_events d (ordered_events l))) <$> dedup (ev_day <$> ordered_events l)).
Proof. unfold pair_event_rows. by rewrite by_day_spec, <- list_fmap_compose. Qed.

Lemma elem_of_mjoin_fmap {A B} (f : A → list B) l b :
  b ∈ mjoin (f <$> l) ↔ ∃ a, a ∈ l ∧ b ∈ f a.
Proof.
  rewrite list_elem_of_join. setoid_rewrite list_elem_of_fmap. split.
  - intros (? & Hb & a & -> & Ha). eauto.
  - intros (a & Ha & Hb). eauto 6.
Qed.

Lemma day_pairs_elem l s e :
  (s, e) ∈ day_pairs l → s ∈ l ∧ e ∈ l ∧ 0 < ev_wall e - ev_wall s < us_per_day.
Proof.
  assert (∀ n l, (length l <= n)%nat → (s, e) ∈ day_pairs l →
    s ∈ l ∧ e ∈ l ∧ 0 < ev_wall e - ev_wall s < us_per_day) as H; [|by apply (H (length l))].
  induction n as [|n IH]; intros [|a [|b l']] Hn Hin; simpl in *; try by apply elem_of_nil in Hin.
  { lia. }
  destruct ((0 <? _) && _) eqn:E; bool_hyps.
  - apply elem_of_cons in Hin as [[= -> ->]|Hin]; [set_solver|].
    apply IH in Hin; [set_solver | lia].
  - apply IH in Hin; [set_solver | lia].
Qed.

Lemma day_events_elem d l e : e ∈ day_events d l ↔ e ∈ l ∧ ev_day e = d.
Proof. unfold day_events. by rewrite elem_of_where, Z.eqb_eq. Qed.

(** ** What pairing guarantees *)

Lemma day_events_sorted d l :
  StronglySorted (le_rel event_leb) l → StronglySorted (le_rel event_leb) (day_events d l).
Proof.
  unfold day_events, where_. induction 1 as [|x l Hs IH Hx]; simpl; [constructor|].
  destruct (ev_day x =? d); [|done]. constructor; [done|].
  rewrite Forall_forall in Hx |- *. intros y Hy. apply Hx.
  apply (elem_of_where (λ x, ev_day x =? d)) in Hy. tauto.
Qed.

Lemma pair_event_rows_elem l s e :
  (s, e) ∈ pair_event_rows l →
  s ∈ l ∧ e ∈ l ∧ ev_day s = ev_day e ∧ 0 < ev_wall e - ev_wall s < us_per_day.
Proof.
  rewrite pair_event_rows_days, elem_of_mjoin_fmap.
  intros (d & Hd & (Hs & He & Hdur)%day_pairs_elem).
  rewrite day_events_elem, elem_of_ordered_events in Hs, He. destruct Hs, He.
  split_and!; [done | done | congruence | lia..].
Qed.

Lemma where_mjoin_single {A} (p : A → bool) (f : date → list A) ds d :
  NoDup ds → d ∈ ds →
  (∀ d' x, x ∈ f d' → p x = true ↔ d' = d) →
  where_ p (mjoin (f <$> ds)) = f d.
Proof.
  intros Hnd Hin Hp. induction Hnd as [|d' ds Hd' Hnd IH]; [by apply elem_of_nil in Hin|].
  rewrite fmap_cons. simpl. rewrite where_app.
  destruct (decide (d' = d)) as [->|Hne].
  - rewrite where_all by (intros x Hx; by apply (Hp d)).
    assert (where_ p (mjoin (f <$> ds)) = []) as ->; [|by rewrite app_nil_r].
    apply where_nil_iff. intros x (d'' & Hd'' & Hx)%elem_of_mjoin_fmap.
    destruct (p x) eqn:E; [|done]. apply (Hp d'') in E; [subst; done | done].
  - apply elem_of_cons in Hin as [->|Hin]; [done|].
    assert (where_ p (f d') = []) as ->; [|by apply IH].
    apply where_nil_iff. intros x Hx. destruct (p x) eqn:E; [|done].
    by apply (Hp d') in E.
Qed.

(** The intervals of one day are the pairing of that day's events alone. *)
Lemma pair_event_rows_of_day l d :
  where_ (λ p, ev_day p.1 =? d) (pair_event_rows l) = day_pairs (day_events d (ordered_events l)).
Proof.
  rewrite pair_event_rows_days.
  set (f := λ d, day_pairs (day_events d (ordered_events l))).
  assert (Hf : ∀ d' x, x ∈ f d' → (ev_day x.1 =? d) = true ↔ d' = d).
  { intros d' [s e] (Hs & _ & _)%day_pairs_elem. apply day_events_elem in Hs as [_ <-].
    apply Z.eqb_eq. }
  destruct (decide (d ∈ dedup (ev_day <$> ordered_events l))) as [Hin|Hnin].
  - apply (where_mjoin_single _ f); [apply NoDup_dedup | done | done].
  - assert (day_events d (ordered_events l) = []) as ->.
    { apply where_nil_iff. intros x Hx. apply Z.eqb_neq. intros <-. apply Hnin.
      apply elem_of_dedup. by apply list_elem_of_fmap_2. }
    apply where_nil_iff. intros x (d' & Hd' & Hx)%elem_of_mjoin_fmap.
    destruct (ev_day x.1 =? d) eqn:E; [|done]. apply (Hf d') in E as ->; done.
Qed.

(** Two sets of events with the same events on a day have the same intervals
    on that day. *)
Lemma pairs_of_day_ext l1 l2 d :
  ids_unique l1 → day_events d l1 ≡ₚ day_events d l2 →
  where_ (λ p, ev_day p.1 =? d) (pair_event_rows l1) =
  where_ (λ p, ev_day p.1 =? d) (pair_event_rows l2).
Proof.
  intros Hu Hp. rewrite !pair_event_rows_of_day. f_equal.
  eapply sorted_perm_unique; [| apply day_events_sorted, ordered_events_sorted..|].
  - intros a b. rewrite !day_events_elem, !elem_of_ordered_events.
    intros [Ha _] [Hb _] Hab Hba. apply (ids_unique_eq l1); auto. by apply event_leb_antisym.
  - unfold day_events in *.
    by rewrite (where_perm _ _ _ (ordered_events_perm l1)),
      (where_perm _ _ _ (ordered_events_perm l2)).
Qed.

(** *** Chronological order *)

Definition before (i j : WorkInterval) : Prop := wi_end i <= wi_start j.
Definition chronological (l : list WorkInterval) : Prop :=
  StronglySorted before l ∧ Forall (λ i, wi_start i < wi_end i) l.

Lemma StronglySorted_mjoin {A B} (R : A → A → Prop) (f : B → list A) (S : B → B → Prop) ds :
  StronglySorted S ds →
  (∀ d, d ∈ ds → StronglySorted R (f d)) →
  (∀ d d' x y, d ∈ ds → d' ∈ ds → S d d' → x ∈ f d → y ∈ f d' → R x y) →
  StronglySorted R (mjoin (f <$> ds)).
Proof.
  intros Hs Hf HR. induction Hs as [|d ds Hs IH Hd]; [constructor|].
  rewrite fmap_cons. simpl. apply StronglySorted_app.
  - intros x y Hx (d' & Hd' & Hy)%elem_of_mjoin_fmap. rewrite Forall_forall in Hd.
    apply (HR d d'); [left | by right | by apply Hd | done | done].
  - apply Hf. left.
  - apply IH; [|intros d1 d2 x y H1 H2; apply HR; by right]. intros d' Hd'. apply Hf. by right.
Qed.

Lemma dedup_from_sorted l seen :
  StronglySorted Z.le l → StronglySorted Z.lt (dedup_from seen l).
Proof.
  intros Hs. revert seen. induction Hs as [|x l Hs IH Hx]; intros seen; simpl; [constructor|].
  destruct (mem x seen) eqn:E; [done|]. constructor; [done|].
  rewrite Forall_forall in Hx |- *. intros y [Hy Hn]%elem_of_dedup_from.
  specialize (Hx y Hy). rewrite elem_of_cons in Hn. lia.
Qed.

Lemma ev_days_sorted l :
  StronglySorted Z.lt (dedup (ev_day <$> ordered_events l)).
Proof.
  apply dedup_from_sorted. eapply StronglySorted_fmap; [|apply ordered_events_sorted].
  intros a b _ _ Hab%event_leb_wall. by apply date_of_wall_le.
Qed.

Lemma day_pairs_sorted l :
  StronglySorted (le_rel event_leb) l →
  StronglySorted (λ p q, ev_wall p.2 <= ev_wall q.1) (day_pairs l).
Proof.
  assert (∀ n l, (length l <= n)%nat → StronglySorted (le_rel event_leb) l →
    StronglySorted (λ p q, ev_wall p.2 <= ev_wall q.1) (day_pairs l)) as H;
    [|by apply (H (length l))].
  induction n as [|n IH]; intros [|a [|b l']] Hn Hs; simpl in *; try constructor; [lia|].
  apply StronglySorted_inv in Hs as [[Hs2 Hb]%StronglySorted_inv _].
  destruct ((0 <? _) && _); [|apply IH; [lia|done]].
  constructor; [apply IH; [lia|done]|].
  apply Forall_forall. intros [s e] (Hsl & _)%day_pairs_elem. simpl.
  apply event_leb_wall. by apply (proj1 (Forall_forall _ _) Hb).
Qed.

Lemma pair_events_chronological l : chronological (pair_events l).
Proof.
  split.
  - unfold pair_events. eapply StronglySorted_fmap with (R := λ p q, ev_wall p.2 <= ev_wall q.1).
    { done. }
    rewrite pair_event_rows_days. eapply StronglySorted_mjoin; [apply ev_days_sorted|..].
    + intros d _. apply day_pairs_sorted, day_events_sorted, ordered_events_sorted.
    + intros d d' [s e] [s' e'] _ _ Hlt (_ & He & _)%day_pairs_elem (Hs' & _)%day_pairs_elem. simpl.
      apply day_events_elem in He as [_ He], Hs' as [_ Hs'].
      unfold ev_day, date_of in He, Hs'. apply date_of_wall_spec in He, Hs'.
      unfold ev_wall, midnight, us_per_day in *. lia.
  - apply Forall_forall. intros i ([s e] & -> & Hin)%list_elem_of_fmap.
    apply pair_event_rows_elem in Hin. simpl. lia.
Qed.

(** ** Splitting an interval at midnights *)

Lemma split_loop_unfold fuel cursor stop :
  (Z.to_nat (date_of_wall stop - date_of_wall cursor) < fuel)%nat →
  split_loop fuel cursor stop =
    if date_of_wall cursor <? date_of_wall stop then
      let boundary := midnight (date_of_wall cursor + 1) in
      (date_of_wall cursor, mk_interval cursor boundary) :: split_loop (pred fuel) boundary stop
    else [(date_of_wall cursor, mk_interval cursor stop)].
Proof. destruct fuel; [lia|done]. Qed.

(** The parts of the loop: adjacent, each inside its day, from cursor to stop. *)
Inductive day_parts : Z → Z → list (date * WorkInterval) → Prop :=
  | parts_last a b :
      date_of_wall a = date_of_wall b → day_parts a b [(date_of_wall a, mk_interval a b)]
  | parts_cons a b rest :
      date_of_wall a < date_of_wall b →
      day_parts (midnight (date_of_wall a + 1)) b rest →
      day_parts a b ((date_of_wall a, mk_interval a (midnight (date_of_wall a + 1))) :: rest).

Lemma split_loop_parts fuel cursor stop :
  cursor <= stop →
  (Z.to_nat (date_of_wall stop - date_of_wall cursor) < fuel)%nat →
  day_parts cursor stop (split_loop fuel cursor stop).
Proof.
  revert cursor. induction fuel as [|fuel IH]; intros cursor Hle Hf; [lia|].
  pose proof (date_of_wall_le _ _ Hle) as Hd. simpl.
  destruct (date_of_wall cursor <? date_of_wall stop) eqn:E; bool_hyps.
  - constructor; [done|]. apply IH; rewrite ?date_of_midnight; [|lia].
    unfold date_of_wall, midnight, us_per_day in *. zdiv.
  - constructor. lia.
Qed.

Lemma split_fuel_enough i :
  wi_start i <= wi_end i →
  day_parts (wi_start i) (wi_end i) (split_loop (split_fuel i) (wi_start i) (wi_end i)).
Proof. intros H. apply split_loop_parts; [done|]. unfold split_fuel. lia. Qed.

Definition duration (i : WorkInterval) : Z := wi_end i - wi_start i.

Lemma day_parts_spec a b l :
  day_parts a b l → a <= b →
  sum_Z ((λ p, duration p.2) <$> l) = b - a ∧
  Forall (λ p, midnight p.1 <= wi_start p.2 ∧ wi_start p.2 <= wi_end p.2 ∧
    wi_end p.2 <= midnight (p.1 + 1) ∧ a <= wi_start p.2 ∧ wi_end p.2 <= b ∧ date_of_wall a <= p.1) l ∧
  StronglySorted (λ p q, p.1 < q.1) l.
Proof.
  induction 1 as [a b Heq | a b rest Hlt _ IH]; intros Hab; csimpl.
  - split_and!; [unfold duration; simpl; lia | | by repeat constructor].
    constructor; [|done]. simpl. pose proof (proj1 (date_of_wall_spec a _) eq_refl).
    pose proof (proj1 (date_of_wall_spec b _) eq_refl). rewrite <- Heq in *. lia.
  - pose proof (proj1 (date_of_wall_spec a _) eq_refl).
    assert (midnight (date_of_wall a + 1) <= b) as Hm.
    { unfold date_of_wall, midnight, us_per_day in *. zdiv. }
    destruct (IH Hm) as (Hsum & Hall & Hsort). split_and!.
    + unfold duration in *. simpl in *. lia.
    + constructor; [simpl; lia|]. eapply Forall_impl; [done|].
      rewrite date_of_midnight. simpl. lia.
    + constructor; [done|]. eapply Forall_impl; [done|].
      rewrite date_of_midnight. simpl. lia.
Qed.

Lemma sum_Z_where_zero {A} (f : A → Z) (p : A → bool) l :
  (∀ x, x ∈ l → p x = false → f x = 0) → sum_Z (f <$> where_ p l) = sum_Z (f <$> l).
Proof.
  unfold where_. induction l as [|x l IH]; intros H; [done|]. cbn [List.filter].
  assert (sum_Z (f <$> List.filter p l) = sum_Z (f <$> l)) as Heq.
  { apply IH. intros y Hy. apply H. by right. }
  rewrite fmap_cons. destruct (p x) eqn:E; rewrite ?fmap_cons; simpl; rewrite Heq; [done|].
  rewrite (H x); [done | left | done].
Qed.

Lemma split_by_day_elem i d part :
  wi_start i <= wi_end i → (d, part) ∈ split_by_day i →
  midnight d <= wi_start part < wi_end part ∧ wi_end part <= midnight (d + 1) ∧
  wi_start i <= wi_start part ∧ wi_end part <= wi_end i.
Proof.
  intros Hi. unfold split_by_day. rewrite elem_of_where. simpl. rewrite Z.ltb_lt.
  intros [Hin Hlt]. destruct (day_parts_spec _ _ _ (split_fuel_enough i Hi) Hi) as (_ & Hall & _).
  rewrite Forall_forall in Hall. specialize (Hall _ Hin). simpl in *. lia.
Qed.

(** An interval within one day is its own only part. *)
Lemma split_by_day_single i :
  wi_start i < wi_end i → date_of_wall (wi_start i) = date_of_wall (wi_end i) →
  split_by_day i = [(date_of_wall (wi_start i), i)].
Proof.
  intros Hlt Heq. unfold split_by_day, split_fuel. rewrite <- Heq, Z.sub_diag. simpl.
  rewrite Heq, Z.ltb_irrefl. unfold where_. simpl.
  assert (wi_start i <? wi_end i = true) as -> by lia. by destruct i.
Qed.

Lemma split_pair_event l p :
  p ∈ pair_event_rows l → split_by_day (pair_interval p) = [(ev_day p.1, pair_interval p)].
Proof.
  destruct p as [s e]. intros (Hs & He & Hd & Hdur)%pair_event_rows_elem.
  apply split_by_day_single; simpl; [lia | done].
Qed.

(** ** Overlap with a window *)

Lemma whole_minutes_mono a b : a <= b → whole_minutes a <= whole_minutes b.
Proof. unfold whole_minutes, us_per_minute. zdiv. Qed.

Lemma whole_minutes_nonneg a : 0 <= a → 0 <= whole_minutes a.
Proof. unfold whole_minutes, us_per_minute. zdiv. Qed.

(** Two disjoint windows count no minute twice. *)
Lemma overlap_minutes_add i a b c d :
  wi_start i <= wi_end i → a <= b → b <= c → c <= d →
  overlap_minutes i a b + overlap_minutes i c d <= minutes i.
Proof.
  intros Hi Hab Hbc Hcd. unfold overlap_minutes, minutes, whole_minutes, us_per_minute. zdiv.
Qed.

Lemma overlap_minutes_bounds i a b :
  wi_start i <= wi_end i → 0 <= overlap_minutes i a b <= minutes i.
Proof.
  intros Hi. unfold overlap_minutes, minutes.
  pose proof (whole_minutes_nonneg (wi_end i - wi_start i) ltac:(lia)).
  pose proof (whole_minutes_mono (Z.min (wi_end i) b - Z.max (wi_start i) a)
    (wi_end i - wi_start i) ltac:(lia)). lia.
Qed.

(** ** Shift-plan intervals *)

Definition plan_times_valid (p : ShiftPlan) : bool :=
  is_valid_hhmm (sp_arrival_time p) && is_valid_hhmm (sp_departure_time p).

(** A stored plan with valid times has an interval inside its own day. *)
Lemma shift_plan_interval_valid p :
  plan_times_valid p = true →
  ∃ r, shift_plan_interval p = Ok r ∧
    ∀ i, r = Some i →
      midnight (sp_date p) <= wi_start i < wi_end i ∧ wi_end i < midnight (sp_date p + 1).
Proof.
  unfold plan_times_valid, shift_plan_interval. intros H. bool_hyps.
  destruct (sp_arrival_time p) as [a|]; [|by eexists].
  destruct (sp_departure_time p) as [b|]; [|by eexists].
  destruct (negb _ || _); [by eexists|].
  apply valid_hhmm_parts in H as (h1 & m1 & -> & Hh1 & Hm1).
  apply valid_hhmm_parts in H0 as (h2 & m2 & -> & Hh2 & Hm2). simpl.
  destruct (_ <=? _) eqn:E; eexists; (split; [done|]); intros i [= <-]; simpl.
  bool_hyps. unfold midnight, us_per_day, us_per_minute in *. lia.
Qed.

Lemma intervals_overlap_sym l r : intervals_overlap l r = intervals_overlap r l.
Proof. unfold intervals_overlap. apply andb_comm. Qed.

(** Plans of different days never overlap. *)
Lemma shift_plans_disjoint_days p q :
  plan_times_valid p = true → plan_times_valid q = true → sp_date p ≠ sp_date q →
  shift_plans_overlap (Some p) (Some q) = Ok false.
Proof.
  intros Hp Hq Hne. unfold shift_plans_overlap.
  destruct (shift_plan_interval_valid p Hp) as (rp & -> & Hrp).
  destruct (shift_plan_interval_valid q Hq) as (rq & -> & Hrq). simpl.
  destruct rp as [i|], rq as [j|]; try done.
  specialize (Hrp i eq_refl). specialize (Hrq j eq_refl). do 2 f_equal.
  unfold intervals_overlap, midnight, us_per_day in *.
  destruct (wi_start i <? wi_end j) eqn:E1; [|done].
  destruct (wi_start j <? wi_end i) eqn:E2; [|done]. bool_hyps.
  exfalso. apply Hne. lia.
Qed.

#[export] Hint Resolve overlap_minutes_bounds pair_events_chronological : dagmar.

(** ** Properties *)

(** every closed interval joins two stored events of one local day, ends
    after it starts and lasts less than a day; the intervals of an employment
    are listed in chronological order without overlap. *)
Theorem pair_events_sound l :
  chronological (pair_events l) ∧
  ∀ i, i ∈ pair_events l →
    ∃ s e, s ∈ l ∧ e ∈ l ∧ i = mk_interval (ev_wall s) (ev_wall e) ∧
      ev_day s = ev_day e ∧ 0 < duration i < us_per_day.
Proof.
  split; [apply pair_events_chronological|].
  intros i ([s e] & -> & Hin)%list_elem_of_fmap.
  apply pair_event_rows_elem in Hin as (Hs & He & Hd & Hdur). by exists s, e.
Qed.

(** an orphaned event cannot shift the intervals of another day: the
    intervals of a day depend only on the events of that day, and not on the
    order in which the rows were read. *)
Theorem pair_event_rows_day_local l1 l2 d :
  ids_unique l1 → day_events d l1 ≡ₚ day_events d l2 →
  where_ (λ p, ev_day p.1 =? d) (pair_event_rows l1) =
  where_ (λ p, ev_day p.1 =? d) (pair_event_rows l2).
Proof. apply pairs_of_day_ext. Qed.

(** The events a day's pairing uses: all of them, less an odd last one. *)
Fixpoint evens {A} (l : list A) : list A :=
  match l with a :: b :: l' => a :: b :: evens l' | _ => [] end.

Lemma day_pairs_evens l d :
  StronglySorted (λ a b, ev_wall a < ev_wall b) l → Forall (λ e, ev_day e = d) l →
  mjoin ((λ p, [p.1; p.2]) <$> day_pairs l) = evens l.
Proof.
  assert (∀ n l, (length l <= n)%nat →
    StronglySorted (λ a b, ev_wall a < ev_wall b) l → Forall (λ e, ev_day e = d) l →
    mjoin ((λ p, [p.1; p.2]) <$> day_pairs l) = evens l) as H; [|by apply (H (length l))].
  induction n as [|n IH]; intros [|a [|b l']] Hn Hs Hd; simpl in *; try done; [lia|].
  apply StronglySorted_inv in Hs as [Hs Hab]. apply StronglySorted_inv in Hs as [Hs _].
  apply Forall_cons in Hab as [Hab _]. apply Forall_cons in Hd as [Ha Hd].
  apply Forall_cons in Hd as [Hb Hd].
  assert ((0 <? ev_wall b - ev_wall a) && (ev_wall b - ev_wall a <? us_per_day) = true) as ->.
  { unfold ev_day, date_of in Ha, Hb. apply date_of_wall_spec in Ha, Hb.
    unfold ev_wall, midnight, us_per_day in *. apply andb_true_iff. split; lia. }
  csimpl. rewrite IH; [done | lia | done | done].
Qed.

Lemma evens_length {A} (l : list A) : ∃ n, length (evens l) = (2 * n)%nat ∧ (2 * n <= length l <= 2 * n + 1)%nat.
Proof.
  assert (∀ k (l : list A), (length l <= k)%nat →
    ∃ n, length (evens l) = (2 * n)%nat ∧ (2 * n <= length l <= 2 * n + 1)%nat) as H;
    [|by apply (H (length l))].
  induction k as [|k IH]; intros [|a [|b l']] Hk; simpl in *; try (exists 0%nat; simpl; lia).
  destruct (IH l' ltac:(lia)) as (n & Hn & Hl). exists (S n). lia.
Qed.

Lemma evens_all {A} (l : list A) :
  NoDup l → (∀ x, x ∈ l → x ∈ evens l) ↔ Nat.Even (length l).
Proof.
  intros Hnd. destruct (evens_length l) as (n & Hn & Hl). split.
  - intros Hsub. exists n.
    pose proof (NoDup_submseteq l (evens l) Hnd Hsub) as Hle%submseteq_length. lia.
  - intros [m Hm]. assert (evens l = l) as ->; [|done].
    clear Hnd Hn Hl n. revert l Hm. induction m as [|m IH]; intros [|a [|b l]] Hm; simpl in *; try done; try lia.
    rewrite IH; [done | lia].
Qed.

(** the day state the month view reports: when the events of a day have
    distinct wall-clock times, all of them belong to closed intervals exactly
    when their number is even. *)
Theorem day_closed_iff_even l d :
  ids_unique l → NoDup (ev_wall <$> day_events d l) →
  (∀ e, e ∈ day_events d l → ev_id e ∈ paired_event_ids l) ↔
  Nat.Even (length (day_events d l)).
Proof.
  intros Hu Hw. set (o := day_events d (ordered_events l)).
  assert (Hp : o ≡ₚ day_events d l) by apply where_perm, ordered_events_perm.
  assert (Hnd : NoDup o) by (rewrite Hp; by eapply NoDup_fmap_1).
  assert (Hs : StronglySorted (λ a b, ev_wall a < ev_wall b) o).
  { assert (Hwo : NoDup (ev_wall <$> o)) by by rewrite Hp.
    pose proof (day_events_sorted d _ (ordered_events_sorted l)) as Hso. fold o in Hso.
    clear -Hso Hwo. induction Hso as [|x o' Hs IH Hx]; constructor.
    - apply IH. rewrite fmap_cons in Hwo. by apply NoDup_cons in Hwo as [_ ?].
    - rewrite fmap_cons in Hwo. apply NoDup_cons in Hwo as [Hn _].
      rewrite Forall_forall in Hx |- *. intros y Hy. specialize (Hx y Hy).
      apply event_leb_wall in Hx. assert (ev_wall x ≠ ev_wall y); [|lia].
      intros Heq. apply Hn. rewrite Heq. by apply list_elem_of_fmap_2. }
  assert (Hin : ∀ e, e ∈ o → ev_id e ∈ paired_event_ids l ↔ e ∈ evens o).
  { intros e He. rewrite <- (day_pairs_evens o d Hs).
    2:{ apply Forall_forall. intros x. unfold o. rewrite day_events_elem. tauto. }
    unfold paired_event_ids. rewrite !elem_of_mjoin_fmap.
    assert (Hel : e ∈ l ∧ ev_day e = d).
    { unfold o in He. by rewrite day_events_elem, elem_of_ordered_events in He. }
    split.
    - intros ([a b] & Hab & Hid). exists (a, b).
      destruct (pair_event_rows_elem _ _ _ Hab) as (Ha & Hb & Hd & _).
      assert (e = a ∨ e = b) as Heab.
      { simpl in Hid. rewrite !elem_of_cons, elem_of_nil in Hid.
        destruct Hel as [Hel _].
        destruct Hid as [Hid|[Hid|[]]]; [left|right]; apply (ids_unique_eq l); done. }
      split; [|set_solver]. unfold o. rewrite <- pair_event_rows_of_day, elem_of_where.
      split; [done|]. simpl. apply Z.eqb_eq. destruct Hel as [_ Hel].
      destruct Heab as [->| ->]; simpl in *; congruence.
    - intros ([a b] & Hab & Heab). exists (a, b). split; [|set_solver].
      unfold o in Hab. rewrite <- pair_event_rows_of_day, elem_of_where in Hab. tauto. }
  rewrite <- (Permutation_length Hp), <- (evens_all o Hnd).
  split; intros H e He; [rewrite <- Hin by done; apply H; by rewrite <- Hp|].
  rewrite <- Hp in He. apply Hin; auto.
Qed.

(** C40: the parts of an interval split at midnights each lie inside their own
    day and inside the interval, come in strictly increasing day order, and
    their durations add up to the whole: no minute is lost or counted
    twice. *)
Theorem split_by_day_partition i :
  wi_start i <= wi_end i →
  sum_Z ((λ p, duration p.2) <$> split_by_day i) = duration i ∧
  (∀ d part, (d, part) ∈ split_by_day i →
     midnight d <= wi_start part < wi_end part ∧ wi_end part <= midnight (d + 1) ∧
     wi_start i <= wi_start part ∧ wi_end part <= wi_end i) ∧
  StronglySorted (λ p q, p.1 < q.1) (split_loop (split_fuel i) (wi_start i) (wi_end i)).
Proof.
  intros Hi. destruct (day_parts_spec _ _ _ (split_fuel_enough i Hi) Hi) as (Hsum & Hall & Hs).
  split_and!; [| by intros; apply split_by_day_elem | done].
  unfold split_by_day. rewrite sum_Z_where_zero; [done|].
  intros [d part] Hin Hp. simpl in *. bool_hyps. rewrite Forall_forall in Hall.
  specialize (Hall _ Hin). simpl in Hall. unfold duration. lia.
Qed.

(** two valid plans of different days never overlap, so with one plan
    per employment and day the overlap check of the plan handlers cannot
    fire. *)
Theorem shift_plan_overlap_only_same_day p q :
  plan_times_valid p = true → plan_times_valid q = true →
  shift_plans_overlap (Some p) (Some q) = Ok true → sp_date p = sp_date q.
Proof.
  intros Hp Hq Ho. destruct (decide (sp_date p = sp_date q)) as [|Hne]; [done|].
  rewrite shift_plans_disjoint_days in Ho; done.
Qed.
