(* ===== verification/Breaks.v ===== *)
(** * app/services/time_intervals.py: automatic breaks

    [break_segments] splits a worked duration (in whole minutes) into segments
    of at most six hours with half-hour breaks between them;
    [automatic_break_events] gives the boundary times of those breaks, and
    [missing_break_event_groups] the breaks still missing from recorded
    intervals. *)

From S2P Require Import Prelude Calendar TimeParse PragueTime Models TimeIntervals.

(** ** Definitions *)

(** The [while True] loop; [fuel] bounds the number of breaks tried. *)
Fixpoint find_breaks (fuel : nat) (duration_minutes breaks : Z) : Z :=
  match fuel with
  | O => breaks
  | S fuel' =>
      let work_minutes := duration_minutes - breaks * 30 in
      if (breaks + 1 <=? work_minutes) && (work_minutes <=? (breaks + 1) * 360)
      then breaks
      else find_breaks fuel' duration_minutes (breaks + 1)
  end.

(** [while remaining_segments: ...]. *)
Fixpoint segment_loop (remaining_segments : nat) (remaining_work : Z) : list Z :=
  match remaining_segments with
  | O => []
  | S n =>
      let segment := Z.min 360 (remaining_work - Z.of_nat n) in
      segment :: segment_loop n (remaining_work - segment)
  end.

Definition break_segments (duration_minutes : Z) : list Z * Z :=
  if duration_minutes <=? 360 then ([duration_minutes], 0)
  else
    let breaks := find_breaks (Z.to_nat duration_minutes) duration_minutes 0 in
    let work_minutes := duration_minutes - breaks * 30 in
    (segment_loop (Z.to_nat (breaks + 1)) work_minutes, breaks).

(** The loop over [segments[:-1]]. *)
Fixpoint break_boundaries (cursor : Z) (segments : list Z) : list Z :=
  match segments with
  | [] => []
  | segment :: rest =>
      match rest with
      | [] => []
      | _ :: _ =>
          let out := cursor + segment * us_per_minute in
          let back := out + 30 * us_per_minute in
          out :: back :: break_boundaries back rest
      end
  end.

Definition automatic_break_events (start stop : Z) : list Z :=
  let '(segments, breaks) := break_segments (whole_minutes (stop - start)) in
  if breaks =? 0 then [] else break_boundaries start segments.

(** ** Missing breaks *)

Definition interval_leb (a b : WorkInterval) : bool :=
  (wi_start a <? wi_start b) || ((wi_start a =? wi_start b) && (wi_end a <=? wi_end b)).

(** A session is a non-empty list; [sessions[-1][-1].end] is the end of the
    last interval added.  Sessions and intervals are kept in order. *)
Fixpoint last_interval (i : WorkInterval) (l : list WorkInterval) : WorkInterval :=
  match l with [] => i | j :: l' => last_interval j l' end.

Definition session := (WorkInterval * list WorkInterval)%type.
Definition session_end (s : session) : Z := wi_end (last_interval s.1 s.2).
Definition session_intervals (s : session) : list WorkInterval := s.1 :: s.2.

Fixpoint add_interval (i : WorkInterval) (sessions : list session) : list session :=
  match sessions with
  | [] => [(i, [])]
  | [s] =>
      if 30 * us_per_minute <=? wi_start i - session_end s then [s; (i, [])]
      else [(s.1, s.2 ++ [i])]
  | s :: rest => s :: add_interval i rest
  end.

Definition build_sessions (ordered : list WorkInterval) : list session :=
  fold_left (λ sessions i, add_interval i sessions) ordered [].

Fixpoint gap_minutes (l : list WorkInterval) : Z :=
  match l with
  | [] => 0
  | a :: rest =>
      match rest with
      | [] => 0
      | b :: _ =>
          Z.max 0 (whole_minutes (wi_start b - wi_end a)) + gap_minutes rest
      end
  end.

(** The inner loop over the intervals of a session: the last feasible
    placement, or the first interval that holds the target itself. *)
Fixpoint place (target duration : Z) (l : list WorkInterval) (placement : option Z) : option Z :=
  match l with
  | [] => placement
  | i :: rest =>
      let earliest := wi_start i + us_per_minute in
      let latest := wi_end i - (duration + 1) * us_per_minute in
      if earliest <=? latest then
        let placement := Z.min (Z.max target earliest) latest in
        if (earliest <=? target) && (target <=? latest) then Some placement
        else place target duration rest (Some placement)
      else place target duration rest placement
  end.

(** [for break_index in range(required_breaks)]: the additions so far and the
    minutes still missing. *)
Fixpoint place_breaks (n : nat) (break_index : Z) (intervals : list WorkInterval)
    (session_start remaining : Z) : list Z * Z :=
  match n with
  | O => ([], remaining)
  | S n' =>
      let duration := Z.min 30 remaining in
      if duration <=? 0 then ([], remaining)
      else
        let target := session_start + 360 * (break_index + 1) * us_per_minute in
        match place target duration intervals None with
        | None => ([], remaining)
        | Some placement =>
            let '(additions, rest) :=
              place_breaks n' (break_index + 1) intervals session_start (remaining - duration) in
            (placement :: placement + duration * us_per_minute :: additions, rest)
        end
  end.

Definition session_additions (range_start range_end : Z) (s : session) : option (list Z) :=
  let session_start := wi_start s.1 in
  if (session_end s <=? range_start) || (range_end <=? session_start) then None
  else
    let gross_minutes := whole_minutes (session_end s - session_start) in
    let required_breaks := (break_segments gross_minutes).2 in
    let existing_break_minutes := gap_minutes (session_intervals s) in
    let missing_minutes := Z.max 0 (required_breaks * 30 - existing_break_minutes) in
    if missing_minutes =? 0 then None
    else
      let '(additions, remaining) :=
        place_breaks (Z.to_nat required_breaks) 0 (session_intervals s) session_start
          missing_minutes in
      if remaining =? 0 then Some additions else None.

Definition missing_break_event_groups (intervals : list WorkInterval)
    (range_start range_end : Z) : list (list Z) :=
  omap (session_additions range_start range_end)
    (build_sessions (sorted_by interval_leb intervals)).

(** ** Lemmas: the search for the number of breaks *)

(** The least number of breaks, in closed form. *)
Definition least_breaks (d : Z) : Z := (d + 29) / 390.

Lemma find_breaks_spec fuel d b :
  360 < d → 0 <= b <= least_breaks d →
  (Z.to_nat (least_breaks d - b) < fuel)%nat →
  find_breaks fuel d b = least_breaks d.
Proof.
  unfold least_breaks. revert b.
  induction fuel as [|fuel IH]; intros b Hd Hb Hf; simpl; [lia|].
  destruct ((b + 1 <=? d - b * 30) && _) eqn:E; bool_hyps.
  - zdiv.
  - apply andb_false_iff in E. rewrite !Z.leb_gt in E.
    apply IH; [done | zdiv | zdiv].
Qed.

Lemma break_segments_breaks d : 0 <= d → (break_segments d).2 = least_breaks d.
Proof.
  intros Hd. unfold break_segments. destruct (d <=? 360) eqn:E; bool_hyps; simpl.
  - unfold least_breaks. zdiv.
  - apply find_breaks_spec; [done | unfold least_breaks; zdiv | unfold least_breaks; zdiv].
Qed.

(** The exit test of the loop holds for the result: the fuel suffices. *)
Lemma break_segments_exit d :
  360 < d →
  let breaks := (break_segments d).2 in
  1 <= breaks ∧ breaks + 1 <= d - breaks * 30 <= (breaks + 1) * 360.
Proof. intros Hd. rewrite break_segments_breaks by lia. unfold least_breaks. zdiv. Qed.

Lemma segment_loop_spec n work :
  Z.of_nat n <= work <= Z.of_nat n * 360 →
  sum_Z (segment_loop n work) = work ∧ length (segment_loop n work) = n ∧
  Forall (λ s, 1 <= s <= 360) (segment_loop n work).
Proof.
  revert work. induction n as [|n IH]; intros work H; simpl; [split_and!; [lia|done|done]|].
  destruct (IH (work - Z.min 360 (work - Z.of_nat n)) ltac:(lia)) as (Hs & Hl & Hf).
  split_and!; [lia | by rewrite Hl | constructor; [lia|done]].
Qed.

Lemma break_segments_spec d :
  360 < d →
  let '(segments, breaks) := break_segments d in
  sum_Z segments + 30 * breaks = d ∧ Z.of_nat (length segments) = breaks + 1 ∧
  Forall (λ s, 1 <= s <= 360) segments.
Proof.
  intros Hd. pose proof (break_segments_exit d Hd) as He. unfold break_segments in *.
  destruct (d <=? 360) eqn:E; bool_hyps; [lia|]. simpl in He.
  set (b := find_breaks _ _ _) in *. clearbody b.
  destruct (segment_loop_spec (Z.to_nat (b + 1)) (d - b * 30) ltac:(lia)) as (Hs & Hl & Hf).
  rewrite Hs, Hl. split_and!; [lia | lia | done].
Qed.

(** ** Lemmas: the boundary times *)

Lemma break_boundaries_cons cursor s s' rest :
  break_boundaries cursor (s :: s' :: rest) =
    cursor + s * us_per_minute :: cursor + s * us_per_minute + 30 * us_per_minute ::
    break_boundaries (cursor + s * us_per_minute + 30 * us_per_minute) (s' :: rest).
Proof. done. Qed.

Lemma length_break_boundaries cursor segments :
  length (break_boundaries cursor segments) = (2 * pred (length segments))%nat.
Proof.
  revert cursor. induction segments as [|s [|s' rest] IH]; intros cursor; [done..|].
  rewrite break_boundaries_cons. cbn [length]. rewrite IH. cbn [length]. lia.
Qed.

(** Total length of the day's timeline: the segments and the breaks. *)
Lemma break_boundaries_spec cursor segments stop :
  Forall (λ s, 1 <= s <= 360) segments → (segments ≠ []) →
  cursor + (sum_Z segments + 30 * (Z.of_nat (length segments) - 1)) * us_per_minute <= stop →
  StronglySorted Z.lt (cursor :: break_boundaries cursor segments ++ [stop]).
Proof.
  revert cursor. induction segments as [|s [|s' rest] IH]; intros cursor Hf Hne Hstop; [done|..].
  - apply Forall_cons in Hf as [Hs _]. simpl in *.
    unfold us_per_minute in *. constructor; [by repeat constructor|]. constructor; [lia|done].
  - apply Forall_cons in Hf as [Hs Hf]. rewrite break_boundaries_cons.
    set (out := cursor + s * us_per_minute). set (back := out + 30 * us_per_minute).
    specialize (IH back Hf ltac:(done)).
    assert (Hsorted : StronglySorted Z.lt (back :: break_boundaries back (s' :: rest) ++ [stop])).
    { apply IH. cbn [length sum_Z] in *. unfold back, out, us_per_minute in *. lia. }
    assert (Hlt1 : cursor < out) by (unfold out, us_per_minute; lia).
    assert (Hlt2 : out < back) by (unfold back, us_per_minute; lia).
    pose proof (StronglySorted_inv Hsorted) as [_ Hall].
    change ((out :: back :: break_boundaries back (s' :: rest)) ++ [stop])
      with (out :: back :: break_boundaries back (s' :: rest) ++ [stop]).
    constructor; [constructor; [done|]|]; repeat (constructor; [lia|]);
      (eapply Forall_impl; [done|]); simpl; lia.
Qed.

(** The events of a day whose times are [cursor], the break boundaries and
    [stop] pair into intervals of exactly the segments' minutes. *)
Lemma break_pairs_minutes cursor segments stop evs :
  Forall (λ s, 0 <= s <= 360) segments → segments ≠ [] →
  0 <= stop - (cursor + (sum_Z segments + 30 * (Z.of_nat (length segments) - 1)) * us_per_minute)
    < us_per_minute →
  StronglySorted Z.lt (cursor :: break_boundaries cursor segments ++ [stop]) →
  ev_wall <$> evs = cursor :: break_boundaries cursor segments ++ [stop] →
  minutes <$> (pair_interval <$> day_pairs evs) = segments.
Proof.
  revert cursor evs. induction segments as [|s [|s' rest] IH];
    intros cursor evs Hf Hne Hstop Hs Hevs; [done|..].
  - apply Forall_cons in Hf as [Hseg _].
    destruct evs as [|a [|b [|c l]]]; try discriminate Hevs.
    injection Hevs as Ha Hb. apply StronglySorted_inv in Hs as [_ Hlt].
    apply Forall_cons in Hlt as [Hlt _]. simpl in *.
    assert ((0 <? ev_wall b - ev_wall a) && (ev_wall b - ev_wall a <? us_per_day) = true) as ->.
    { unfold us_per_day, us_per_minute in *. apply andb_true_iff. split; lia. }
    csimpl. f_equal. unfold minutes, whole_minutes, us_per_minute in *. simpl. zdiv.
  - apply Forall_cons in Hf as [Hseg Hf]. rewrite break_boundaries_cons in Hs, Hevs.
    set (out := cursor + s * us_per_minute) in *. set (back := out + 30 * us_per_minute) in *.
    destruct evs as [|a [|b l]]; try discriminate Hevs.
    cbn [app] in Hs, Hevs. rewrite !fmap_cons in Hevs.
    injection Hevs as Ha Hb Hevs.
    apply StronglySorted_inv in Hs as [Hs Hlt]. apply StronglySorted_inv in Hs as [Hs _].
    apply Forall_cons in Hlt as [Hlt _].
    cbn [day_pairs].
    assert ((0 <? ev_wall b - ev_wall a) && (ev_wall b - ev_wall a <? us_per_day) = true) as ->.
    { unfold us_per_day, out, us_per_minute in *. apply andb_true_iff. split; lia. }
    rewrite !fmap_cons. f_equal.
    + unfold minutes, whole_minutes, out, us_per_minute in *. simpl. zdiv.
    + apply (IH back); [done | done | | done | done].
      cbn [length sum_Z] in *. unfold back, out, us_per_minute in *. lia.
Qed.

Lemma automatic_break_events_boundaries start stop :
  start <= stop →
  automatic_break_events start stop =
    break_boundaries start (break_segments (whole_minutes (stop - start))).1.
Proof.
  intros Hle. unfold automatic_break_events.
  pose proof (whole_minutes_nonneg (stop - start) ltac:(lia)) as Hd.
  set (d := whole_minutes (stop - start)) in *. clearbody d.
  destruct (decide (360 < d)) as [Hgt|Hle'].
  - pose proof (break_segments_exit d Hgt) as He. destruct (break_segments d) as [segs b].
    simpl in *. assert (b =? 0 = false) as -> by lia. done.
  - unfold break_segments. assert (d <=? 360 = true) as -> by lia. done.
Qed.

Lemma segments_stop start stop :
  start < stop →
  let segments := (break_segments (whole_minutes (stop - start))).1 in
  Forall (λ s, 0 <= s <= 360) segments ∧ segments ≠ [] ∧
  0 <= stop - (start + (sum_Z segments + 30 * (Z.of_nat (length segments) - 1)) * us_per_minute)
    < us_per_minute.
Proof.
  intros Hlt. set (d := whole_minutes (stop - start)).
  assert (Hd : 0 <= stop - start - d * us_per_minute < us_per_minute ∧ 0 <= d).
  { unfold d, whole_minutes, us_per_minute. zdiv. }
  clearbody d. destruct (decide (360 < d)) as [Hgt|Hle].
  - pose proof (break_segments_spec d Hgt) as Hspec. pose proof (break_segments_exit d Hgt) as He.
    destruct (break_segments d) as [segs b]. simpl in *. destruct Hspec as (Hsum & Hlen & Hf).
    split_and!.
    + eapply Forall_impl; [done|]. simpl. lia.
    + intros ->. simpl in Hlen. lia.
    + lia.
    + lia.
  - unfold break_segments. assert (d <=? 360 = true) as -> by lia. simpl.
    split_and!; [constructor; [lia|done] | done | lia | lia].
Qed.

Lemma automatic_break_events_sorted start stop :
  start < stop → StronglySorted Z.lt (start :: automatic_break_events start stop ++ [stop]).
Proof.
  intros Hlt. rewrite automatic_break_events_boundaries by lia.
  destruct (segments_stop start stop Hlt) as (Hf & Hne & Hs).
  set (d := whole_minutes (stop - start)) in *.
  destruct (decide (360 < d)) as [Hgt|Hle].
  - pose proof (break_segments_spec d Hgt) as Hspec. destruct (break_segments d) as [segs b].
    simpl in *. destruct Hspec as (_ & _ & Hf1). apply break_boundaries_spec; [done|done|lia].
  - unfold break_segments. assert (d <=? 360 = true) as -> by lia. simpl.
    constructor; [by repeat constructor|]. by constructor.
Qed.

(** ** Lemmas: placement of the missing breaks *)

(** A pause of [d] minutes from [p], as the two events it adds. *)
Definition pause_events (x : Z * Z) : list Z := [x.1; x.1 + x.2 * us_per_minute].

Definition pause_inside (intervals : list WorkInterval) (x : Z * Z) : Prop :=
  1 <= x.2 <= 30 ∧
  ∃ i, i ∈ intervals ∧ wi_start i + us_per_minute <= x.1 ∧
    x.1 + x.2 * us_per_minute <= wi_end i - us_per_minute.

Lemma place_spec target duration l p0 p :
  place target duration l p0 = Some p →
  p0 = Some p ∨ ∃ i, i ∈ l ∧ wi_start i + us_per_minute <= p ∧
    p + duration * us_per_minute <= wi_end i - us_per_minute.
Proof.
  revert p0. induction l as [|i l IH]; intros p0; simpl; [by left|].
  destruct (_ <=? _) eqn:E; bool_hyps.
  - set (q := Z.min (Z.max target _) _).
    assert (Hq : wi_start i + us_per_minute <= q ∧
      q + duration * us_per_minute <= wi_end i - us_per_minute).
    { unfold q, us_per_minute in *. lia. }
    destruct (_ && _).
    + intros [= <-]. right. exists i. split; [left|done].
    + intros [[= <-]|(j & Hj & Hp)]%IH; right; [exists i | exists j]; (split; [|done]).
      * left.
      * by right.
  - intros [->|(j & Hj & Hp)]%IH; [by left|]. right. exists j. split; [by right|done].
Qed.

Lemma place_breaks_spec n idx intervals start remaining :
  0 <= remaining →
  let '(additions, rest) := place_breaks n idx intervals start remaining in
  ∃ pauses, additions = mjoin (pause_events <$> pauses) ∧
    Forall (pause_inside intervals) pauses ∧
    sum_Z (snd <$> pauses) + rest = remaining ∧ 0 <= rest.
Proof.
  revert idx remaining. induction n as [|n IH]; intros idx remaining Hr; simpl.
  - by exists []; split_and!.
  - destruct (_ <=? 0) eqn:E; bool_hyps; [by exists []; split_and!|].
    destruct (place _ _ _ None) as [p|] eqn:Ep; [|by exists []; split_and!].
    apply place_spec in Ep as [|(i & Hi & Hp)]; [done|].
    specialize (IH (idx + 1) (remaining - Z.min 30 remaining) ltac:(lia)).
    destruct (place_breaks _ _ _ _ _) as [additions rest].
    destruct IH as (pauses & -> & Hf & Hsum & Hrest).
    exists ((p, Z.min 30 remaining) :: pauses). csimpl. split_and!; [done | | lia | done].
    constructor; [|done]. split; [simpl; lia|]. exists i. done.
Qed.

Lemma mjoin_fmap_cons {A B} (f : A → list B) x l :
  mjoin (f <$> x :: l) = f x ++ mjoin (f <$> l).
Proof. done. Qed.

(** Sessions partition the intervals. *)
Lemma add_interval_elem i sessions x :
  x ∈ mjoin (session_intervals <$> add_interval i sessions) ↔
  x = i ∨ x ∈ mjoin (session_intervals <$> sessions).
Proof.
  induction sessions as [|[j js] [|t ts] IH].
  - simpl. set_solver.
  - simpl. destruct (_ <=? _); simpl; set_solver.
  - change (add_interval i ((j, js) :: t :: ts)) with ((j, js) :: add_interval i (t :: ts)).
    rewrite !(mjoin_fmap_cons _ (j, js)), !elem_of_app, IH. tauto.
Qed.

Lemma build_sessions_elem l x :
  x ∈ mjoin (session_intervals <$> build_sessions l) ↔ x ∈ l.
Proof.
  unfold build_sessions. induction l as [|i l IH] using rev_ind; [done|].
  rewrite fold_left_app. cbn [fold_left]. rewrite add_interval_elem, IH. set_solver.
Qed.

Lemma missing_break_groups_inside intervals range_start range_end g :
  g ∈ missing_break_event_groups intervals range_start range_end →
  ∃ pauses, g = mjoin (pause_events <$> pauses) ∧ Forall (pause_inside intervals) pauses ∧
    ∃ s, s ∈ build_sessions (sorted_by interval_leb intervals) ∧
      sum_Z (snd <$> pauses) =
        (break_segments (whole_minutes (session_end s - wi_start s.1))).2 * 30
        - gap_minutes (session_intervals s).
Proof.
  unfold missing_break_event_groups. rewrite list_elem_of_omap.
  intros (s & Hs & Hg). unfold session_additions in Hg.
  destruct (_ || _); [done|]. destruct (_ =? 0) eqn:Em; [done|]. bool_hyps.
  set (missing := Z.max 0 _) in *.
  pose proof (place_breaks_spec
    (Z.to_nat (break_segments (whole_minutes (session_end s - wi_start s.1))).2) 0
    (session_intervals s) (wi_start s.1) missing ltac:(lia)) as Hp.
  destruct (place_breaks _ _ _ _ _) as [additions rest].
  destruct (rest =? 0) eqn:Er; [|done]. injection Hg as <-. bool_hyps. subst rest.
  destruct Hp as (pauses & -> & Hf & Hsum & _). exists pauses. split_and!; [done | |].
  - eapply Forall_impl; [done|]. intros x (Hx & i & Hi & Hr). split; [done|]. exists i.
    split; [|done]. apply (elem_of_sorted_by interval_leb), build_sessions_elem.
    apply elem_of_mjoin_fmap. by exists s.
  - exists s. split; [done|]. unfold missing in *. lia.
Qed.

(** Every added time lies strictly inside a recorded interval. *)
Lemma missing_breaks_strictly_inside intervals range_start range_end g w :
  g ∈ missing_break_event_groups intervals range_start range_end → w ∈ g →
  ∃ i, i ∈ intervals ∧ wi_start i < w < wi_end i.
Proof.
  intros (pauses & -> & Hall & _)%missing_break_groups_inside Hw.
  apply elem_of_mjoin_fmap in Hw as (p & Hp & Hw).
  rewrite Forall_forall in Hall. specialize (Hall p Hp). unfold pause_inside in Hall.
  destruct Hall as (Hdur & i & Hi & H1 & H2). exists i. split; [done|].
  unfold pause_events in Hw. rewrite !elem_of_cons, elem_of_nil in Hw. unfold us_per_minute in *.
  destruct Hw as [->|[->|[]]]; lia.
Qed.

(** ** Properties *)

(** a duration above six hours is split with the least number of half-hour
    breaks that leaves segments of at most six hours; the segments and breaks
    add up to the duration, and every segment has at least one minute.  The
    bounded search for the number of breaks always finds it. *)
Theorem break_segments_correct d :
  360 < d →
  let '(segments, breaks) := break_segments d in
  breaks = (d + 29) / 390 ∧ Z.of_nat (length segments) = breaks + 1 ∧
  sum_Z segments + 30 * breaks = d ∧ Forall (λ s, 1 <= s <= 360) segments ∧
  ∀ fewer, 0 <= fewer < breaks → (fewer + 1) * 360 < d - fewer * 30.
Proof.
  intros Hd. pose proof (break_segments_spec d Hd) as Hs.
  pose proof (break_segments_breaks d ltac:(lia)) as Hb.
  destruct (break_segments d) as [segments breaks]. simpl in *.
  destruct Hs as (Hsum & Hlen & Hf). split_and!; [done | done | done | done|].
  intros fewer Hw. unfold least_breaks in Hb. zdiv.
Qed.

Example break_segments_correct_witness :
  break_segments 800 = ([360; 360; 20], 2) ∧ (800 + 29) / 390 = 2.
Proof.
  pose proof (break_segments_correct 800 ltac:(lia)) as H.
  split; [reflexivity|]. change (break_segments 800) with ([360; 360; 20], 2) in H.
  destruct H as [H _]. symmetry. exact H.
Defined.

(** automatic breaks fall strictly between arrival and departure in
    strictly increasing order, and the events of the day then pair into
    worked intervals of exactly the planned segments, none above six hours. *)
Theorem automatic_breaks_pairing start stop evs :
  start < stop →
  ev_wall <$> evs = start :: automatic_break_events start stop ++ [stop] →
  StronglySorted Z.lt (ev_wall <$> evs) ∧
  minutes <$> (pair_interval <$> day_pairs evs) =
    (break_segments (whole_minutes (stop - start))).1 ∧
  Forall (λ i, minutes i <= 360) (pair_interval <$> day_pairs evs).
Proof.
  intros Hlt Hevs. pose proof (automatic_break_events_sorted start stop Hlt) as Hs.
  destruct (segments_stop start stop Hlt) as (Hf & Hne & Hstop).
  assert (Hm : minutes <$> (pair_interval <$> day_pairs evs) =
    (break_segments (whole_minutes (stop - start))).1).
  { rewrite automatic_break_events_boundaries in Hevs, Hs by lia.
    by apply (break_pairs_minutes start _ stop). }
  rewrite <- Hevs in Hs. split_and!; [done | done|].
  apply Forall_forall. intros i Hi.
  assert (minutes i ∈ (break_segments (whole_minutes (stop - start))).1) as Hin.
  { rewrite <- Hm. by apply (list_elem_of_fmap_2 minutes). }
  by apply (proj1 (Forall_forall _ _) Hf) in Hin as [_ ?].
Qed.

(** every missing break that is added is a pause of 1 to 30 minutes lying
    inside one recorded interval, at least a minute away from its ends. *)
Theorem missing_breaks_inside intervals range_start range_end g :
  g ∈ missing_break_event_groups intervals range_start range_end →
  ∃ pauses, g = mjoin (pause_events <$> pauses) ∧ Forall (pause_inside intervals) pauses ∧
    ∃ s, s ∈ build_sessions (sorted_by interval_leb intervals) ∧
      sum_Z (snd <$> pauses) =
        (break_segments (whole_minutes (session_end s - wi_start s.1))).2 * 30
        - gap_minutes (session_intervals s).
Proof. apply missing_break_groups_inside. Qed.

(** A day's timeline: events with consecutive ids at the given minutes. *)
Definition stamp (employment_id first_id day : Z) (mins : list Z) : list AttendanceEvent :=
  (λ x, mk_event (first_id + x.1) employment_id
     (mk_aware (midnight day + x.2 * us_per_minute) (midnight day + x.2 * us_per_minute)))
  <$> combine (zrange 0 (length mins)) mins.

(** Finding: the action is documented as idempotent, but inserting a half-hour
    pause splits a session, and the shorter pause already recorded no longer
    counts for the second half.  Work 6:00-7:40 and 8:00-19:20: the first run
    adds 12:00-12:30 and 18:00-18:10, the second run adds twenty more
    minutes. *)
Definition repeat_day : list AttendanceEvent := stamp 1 1 100 [360; 460; 480; 1160].
Definition repeat_run (l : list AttendanceEvent) : list (list Z) :=
  missing_break_event_groups (pair_events l) (midnight 100) (midnight 101).
Definition as_minutes (g : list Z) : list Z := (λ w, (w - midnight 100) / us_per_minute) <$> g.

(** Computing the missing breaks of a day, recording them and computing again
    finds further missing breaks: the operation is not idempotent. *)
Theorem missing_breaks_not_idempotent :
  as_minutes <$> repeat_run repeat_day = [[720; 750; 1080; 1090]] ∧
  as_minutes <$> repeat_run (repeat_day ++ stamp 1 5 100 [720; 750; 1080; 1090]) = [[1110; 1130]].
Proof. split; vm_compute; reflexivity. Qed.

(** For one recorded interval the action is complete: after its pauses
    are inserted every session is a single interval of at most six hours. *)
Example missing_breaks_single :
  as_minutes <$> repeat_run (stamp 1 1 100 [360; 1160]) = [[720; 750; 1080; 1110]] ∧
  repeat_run (stamp 1 1 100 [360; 720; 750; 1080; 1110; 1160]) = [].
Proof. split; vm_compute; reflexivity. Qed.
