(* ===== verification/TimeMetrics.v ===== *)
(** * app/services/time_metrics.py: minutes, tenths and daily metrics

    The metrics of one day and one employment from its closed intervals, and
    their monthly sums.  [round_minutes_to_tenths] raises on a negative
    argument; the theorems show that no caller can reach that branch. *)

From S2P Require Import Prelude Calendar PragueTime Models TimeIntervals.

Record MetricValue := mk_mv { mv_minutes : Z; mv_tenths : Z }.

Record DailyMetrics := mk_dmx {
  dx_total : MetricValue;
  dx_afternoon : option MetricValue;
  dx_night : option MetricValue;
  dx_weekend : option MetricValue;
  dx_public_holiday : option MetricValue;
}.

Record DayStatusMetrics := mk_dsm {
  ds_holiday : option MetricValue;
  ds_sickness : option MetricValue;
  ds_paragraph : option MetricValue;
}.

#[global] Instance MetricValue_eq_dec : EqDecision MetricValue.
Proof. solve_decision. Defined.
#[global] Instance DailyMetrics_eq_dec : EqDecision DailyMetrics.
Proof. solve_decision. Defined.

(** The constants of app/services/day_status.py. *)
Definition DAY_STATUS_HOLIDAY : string := "HOLIDAY".
Definition DAY_STATUS_OFF : string := "OFF".
Definition DAY_STATUS_SICKNESS : string := "SICKNESS".
Definition DAY_STATUS_PARAGRAPH : string := "PARAGRAPH".
Definition FULL_DAY_STATUS_MINUTES : Z := 8 * 60.

(** [getattr(metrics, key)] for the metric keys. *)
Inductive metric_key := K_total | K_afternoon | K_night | K_weekend | K_public_holiday.
Definition metric_keys : list metric_key :=
  [K_total; K_afternoon; K_night; K_weekend; K_public_holiday].

Definition get_metric (m : DailyMetrics) (key : metric_key) : option MetricValue :=
  match key with
  | K_total => Some (dx_total m)
  | K_afternoon => dx_afternoon m
  | K_night => dx_night m
  | K_weekend => dx_weekend m
  | K_public_holiday => dx_public_holiday m
  end.

Definition round_minutes_to_tenths (mins : Z) : result Z :=
  if mins <? 0 then Err (Crash "ValueError") else Ok ((mins + 3) / 6).

Definition metric_value (mins : Z) : result MetricValue :=
  let? tenths := round_minutes_to_tenths mins in Ok (mk_mv mins tenths).

(** [metric_value(x) if x is not None else None]. *)
Definition metric_value_opt (mins : option Z) : result (option MetricValue) :=
  match mins with
  | None => Ok None
  | Some x => let? v := metric_value x in Ok (Some v)
  end.

Definition is_task_shift_based (e : Employment) : bool :=
  bool_decide (em_employment_type e = TASK_SHIFT_BASED).

Definition empty_daily_metrics (e : Employment) : result (option DailyMetrics) :=
  if is_task_shift_based e then Ok None
  else
    let? zero := metric_value 0 in
    let only_if (enabled : bool) := if enabled then Some zero else None in
    Ok (Some (mk_dmx zero
      (only_if (em_afternoon_hours_enabled e))
      (only_if (em_night_hours_enabled e))
      (only_if (em_weekend_hours_enabled e))
      (only_if (em_public_holiday_hours_enabled e)))).

Definition status_is (status : option string) (value : string) : bool :=
  bool_decide (status = Some value).

Definition calculate_day_status_metrics (e : Employment) (status : option string)
    : result DayStatusMetrics :=
  let? value :=
    (if is_task_shift_based e then Ok None
     else if status_is status DAY_STATUS_HOLIDAY || status_is status DAY_STATUS_SICKNESS ||
             status_is status DAY_STATUS_PARAGRAPH
     then let? v := metric_value FULL_DAY_STATUS_MINUTES in Ok (Some v)
     else Ok None) in
  Ok (mk_dsm
    (if status_is status DAY_STATUS_HOLIDAY then value else None)
    (if status_is status DAY_STATUS_SICKNESS then value else None)
    (if status_is status DAY_STATUS_PARAGRAPH then value else None)).

(** [_window]. *)
Definition window (day : date) (start stop : Z) : Z * Z :=
  (midnight day + start * us_per_minute, midnight day + stop * us_per_minute).

Definition overlap_window (i : WorkInterval) (w : Z * Z) : Z := overlap_minutes i w.1 w.2.

(** [[part for interval in intervals for item_day, part in
    split_by_day(interval) if item_day == day]]. *)
Definition day_intervals (day : date) (intervals : list WorkInterval) : list WorkInterval :=
  mjoin ((λ i, snd <$> where_ (λ p, p.1 =? day) (split_by_day i)) <$> intervals).

Definition afternoon_window (e : Employment) (day : date) : Z * Z :=
  window day (default 0 (em_afternoon_start_minutes e)) (22 * 60).

Definition night_minutes (day : date) (i : WorkInterval) : Z :=
  overlap_window i (window day 0 (6 * 60)) + overlap_window i (window day (22 * 60) (24 * 60)).

Definition calculate_daily_metrics (e : Employment) (day : date) (intervals : list WorkInterval)
    : result (option DailyMetrics) :=
  if is_task_shift_based e then Ok None
  else
    let items := day_intervals day intervals in
    let total := sum_Z (minutes <$> items) in
    let afternoon :=
      if em_afternoon_hours_enabled e
      then Some (sum_Z ((λ i, overlap_window i (afternoon_window e day)) <$> items)) else None in
    let night :=
      if em_night_hours_enabled e then Some (sum_Z (night_minutes day <$> items)) else None in
    let weekend :=
      if em_weekend_hours_enabled e && (5 <=? weekday day) then Some total
      else if em_weekend_hours_enabled e then Some 0 else None in
    let public_holiday :=
      if em_public_holiday_hours_enabled e && is_czech_public_holiday day then Some total
      else if em_public_holiday_hours_enabled e then Some 0 else None in
    let? total_v := metric_value total in
    let? afternoon_v := metric_value_opt afternoon in
    let? night_v := metric_value_opt night in
    let? weekend_v := metric_value_opt weekend in
    let? holiday_v := metric_value_opt public_holiday in
    Ok (Some (mk_dmx total_v afternoon_v night_v weekend_v holiday_v)).

(** [_sum] / [_sum_status] of month_summary.py and [monthly_sum]: [None] when
    no day has the metric. *)
Definition sum_values (items : list MetricValue) : option MetricValue :=
  match items with
  | [] => None
  | _ => Some (mk_mv (sum_Z (mv_minutes <$> items)) (sum_Z (mv_tenths <$> items)))
  end.

Definition monthly_sum (daily : list (option DailyMetrics)) (field : metric_key)
    : option MetricValue :=
  sum_values (omap (λ d, m ← d; get_metric m field) daily).

(** ** Lemmas *)

Lemma metric_value_ok m : 0 <= m → metric_value m = Ok (mk_mv m ((m + 3) / 6)).
Proof.
  intros Hm. unfold metric_value, round_minutes_to_tenths.
  assert (m <? 0 = false) as -> by lia. done.
Qed.

Lemma metric_value_opt_ok m :
  (∀ x, m = Some x → 0 <= x) →
  metric_value_opt m = Ok ((λ x, mk_mv x ((x + 3) / 6)) <$> m).
Proof. intros H. destruct m as [x|]; [|done]. simpl. rewrite metric_value_ok; auto. Qed.

(** The intervals of a day inside the day, and chronological. *)
Lemma day_intervals_elem day intervals part :
  Forall (λ i, wi_start i < wi_end i) intervals → part ∈ day_intervals day intervals →
  midnight day <= wi_start part < wi_end part ∧ wi_end part <= midnight (day + 1) ∧
  ∃ i, i ∈ intervals ∧ wi_start i <= wi_start part ∧ wi_end part <= wi_end i.
Proof.
  intros Hall. unfold day_intervals. rewrite elem_of_mjoin_fmap.
  intros (i & Hi & ([d p] & -> & Hp)%list_elem_of_fmap).
  rewrite elem_of_where in Hp. simpl in Hp. destruct Hp as [Hp Hd%Z.eqb_eq]. subst d. simpl.
  rewrite Forall_forall in Hall. specialize (Hall i Hi).
  apply split_by_day_elem in Hp as (H1 & H2 & H3 & H4); [|lia]. split_and!; [lia..|].
  by exists i.
Qed.

Lemma where_day_sorted (R : WorkInterval → WorkInterval → Prop) day (l : list (date * WorkInterval)) :
  StronglySorted (λ p q, p.1 < q.1) l →
  StronglySorted R (snd <$> where_ (λ p, p.1 =? day) l).
Proof.
  unfold where_. induction 1 as [|[d i] l Hs IH Hx]; simpl; [constructor|].
  destruct (d =? day) eqn:E; [|done]. bool_hyps. subst d.
  assert (where_ (λ p, p.1 =? day) l = []) as Hnil.
  { apply where_nil_iff. intros [dq q] Hq. apply (proj1 (Forall_forall _ _) Hx) in Hq.
    simpl in *. apply Z.eqb_neq. lia. }
  unfold where_ in Hnil. rewrite Hnil. by repeat constructor.
Qed.

Lemma split_by_day_sorted i :
  wi_start i <= wi_end i → StronglySorted (λ p q, p.1 < q.1) (split_by_day i).
Proof.
  intros Hi. apply StronglySorted_where.
  by apply (day_parts_spec _ _ _ (split_fuel_enough i Hi) Hi).
Qed.

Lemma day_intervals_chronological day intervals :
  chronological intervals → chronological (day_intervals day intervals).
Proof.
  intros [Hs Hall]. split.
  2:{ apply Forall_forall. intros p Hp. by apply day_intervals_elem in Hp as ([_ ?] & _). }
  pose proof (proj1 (Forall_forall _ _) Hall) as Hlt. clear Hall.
  eapply StronglySorted_mjoin; [exact Hs|..].
  - intros i Hi%Hlt. apply where_day_sorted, split_by_day_sorted. lia.
  - intros i j x y Hi%Hlt Hj%Hlt Hij ([d p] & -> & Hp)%list_elem_of_fmap
      ([d' q] & -> & Hq)%list_elem_of_fmap.
    rewrite elem_of_where in Hp, Hq. destruct Hp as [Hp _], Hq as [Hq _].
    apply split_by_day_elem in Hp; [|lia]. apply split_by_day_elem in Hq; [|lia].
    unfold before in *. simpl. lia.
Qed.

Lemma chronological_sum_le l a b :
  a <= b → chronological l → Forall (λ i, a <= wi_start i ∧ wi_end i <= b) l →
  sum_Z (duration <$> l) <= b - a.
Proof.
  intros Hab [Hs Hpos] Hin. revert a Hab Hin.
  induction Hs as [|i l Hs IH Hi]; intros a Hab Hin; csimpl; [lia|].
  apply Forall_cons in Hpos as [Hp Hpos]. apply Forall_cons in Hin as [[Ha Hb] Hin].
  enough (sum_Z (duration <$> l) <= b - wi_end i) by (unfold duration in *; lia).
  apply IH; [done | lia|]. apply Forall_forall. intros j Hj.
  pose proof (proj1 (Forall_forall _ _) Hi j Hj) as Hij.
  pose proof (proj1 (Forall_forall _ _) Hin j Hj) as Hjb. unfold before in Hij.
  simpl in *. lia.
Qed.

Lemma sum_minutes_le l :
  Forall (λ i, wi_start i < wi_end i) l →
  0 <= sum_Z (minutes <$> l) ∧ sum_Z (minutes <$> l) * us_per_minute <= sum_Z (duration <$> l).
Proof.
  induction 1 as [|i l Hi Hall IH]; csimpl; [lia|].
  unfold minutes, whole_minutes, duration, us_per_minute in *. zdiv.
Qed.

(** At most 1440 minutes in a day. *)
Lemma day_total_bound day intervals :
  chronological intervals →
  0 <= sum_Z (minutes <$> day_intervals day intervals) <= minutes_per_day.
Proof.
  intros Hc. pose proof (day_intervals_chronological day _ Hc) as Hdc.
  destruct (sum_minutes_le _ (proj2 Hdc)) as [Hnn Hle].
  pose proof (chronological_sum_le _ (midnight day) (midnight (day + 1))
    ltac:(unfold midnight, us_per_day; lia) Hdc) as Hsum.
  unfold midnight, us_per_day, us_per_minute, minutes_per_day in *.
  enough (sum_Z (duration <$> day_intervals day intervals) <= 86400000000) by lia.
  eapply Z.le_trans; [apply Hsum|lia].
  apply Forall_forall. intros p Hp. apply day_intervals_elem in Hp; [|apply Hc].
  unfold midnight, us_per_day in Hp. lia.
Qed.

(** A sum over the day's parts of a per-part count bounded by its minutes. *)
Lemma day_intervals_positive day intervals :
  Forall (λ i, wi_start i < wi_end i) intervals →
  Forall (λ i, wi_start i < wi_end i) (day_intervals day intervals).
Proof. intros H. apply Forall_forall. intros p Hp. by apply day_intervals_elem in Hp as ([_ ?] & _). Qed.

Lemma day_sum_bound (f : WorkInterval → Z) day intervals :
  Forall (λ i, wi_start i < wi_end i) intervals →
  (∀ i, wi_start i <= wi_end i → 0 <= f i <= minutes i) →
  0 <= sum_Z (f <$> day_intervals day intervals) <= sum_Z (minutes <$> day_intervals day intervals).
Proof.
  intros Hc Hf. pose proof (day_intervals_positive day _ Hc) as Hpos.
  pose proof (proj1 (Forall_forall _ _) Hpos) as Hlt. split.
  - apply sum_Z_nonneg, Forall_fmap, Forall_forall. intros i Hi%Hlt. apply Hf. lia.
  - apply sum_Z_le. intros i Hi%Hlt. apply Hf. lia.
Qed.

Lemma overlap_window_bounds i w :
  wi_start i <= wi_end i → 0 <= overlap_window i w <= minutes i.
Proof. apply overlap_minutes_bounds. Qed.

Lemma night_minutes_bounds day i :
  wi_start i <= wi_end i → 0 <= night_minutes day i <= minutes i.
Proof.
  intros Hi. unfold night_minutes, overlap_window, window. simpl. split.
  - unfold overlap_minutes. lia.
  - apply overlap_minutes_add; [done|..]; unfold us_per_minute; lia.
Qed.

(** Afternoon and night never count a minute twice when the afternoon starts
    at six or later. *)
Lemma afternoon_night_bounds e day i :
  wi_start i <= wi_end i → 360 <= default 0 (em_afternoon_start_minutes e) <= 1320 →
  0 <= overlap_window i (afternoon_window e day) + night_minutes day i <= minutes i.
Proof.
  intros Hi Ha. unfold night_minutes, afternoon_window, overlap_window, window. simpl.
  set (s := default 0 (em_afternoon_start_minutes e)) in *. clearbody s. split.
  - unfold overlap_minutes. lia.
  - unfold overlap_minutes, minutes, whole_minutes, us_per_minute. zdiv.
Qed.

Lemma calculate_daily_metrics_ok e day intervals :
  Forall (λ i, wi_start i < wi_end i) intervals → is_task_shift_based e = false →
  let items := day_intervals day intervals in
  let v x := mk_mv x ((x + 3) / 6) in
  let total := sum_Z (minutes <$> items) in
  calculate_daily_metrics e day intervals = Ok (Some (mk_dmx (v total)
    (if em_afternoon_hours_enabled e
     then Some (v (sum_Z ((λ i, overlap_window i (afternoon_window e day)) <$> items))) else None)
    (if em_night_hours_enabled e then Some (v (sum_Z (night_minutes day <$> items))) else None)
    (if em_weekend_hours_enabled e
     then Some (v (if 5 <=? weekday day then total else 0)) else None)
    (if em_public_holiday_hours_enabled e
     then Some (v (if is_czech_public_holiday day then total else 0)) else None))).
Proof.
  intros Hc Ht items v total. unfold calculate_daily_metrics. rewrite Ht.
  fold items. fold total.
  pose proof (proj1 (sum_minutes_le _ (day_intervals_positive day _ Hc))) as Htot.
  fold items total in Htot.
  pose proof (day_sum_bound (λ i, overlap_window i (afternoon_window e day)) day _ Hc
    (λ i Hi, overlap_window_bounds i _ Hi)) as Ha. fold items in Ha.
  pose proof (day_sum_bound (night_minutes day) day _ Hc (night_minutes_bounds day)) as Hn.
  fold items in Hn.
  rewrite metric_value_ok by lia. simpl.
  destruct (em_afternoon_hours_enabled e), (em_night_hours_enabled e),
    (em_weekend_hours_enabled e), (em_public_holiday_hours_enabled e),
    (5 <=? weekday day), (is_czech_public_holiday day);
    cbn [andb]; rewrite ?metric_value_opt_ok by (intros ? [= <-]; lia); done.
Qed.

(** A metric whose tenths are its minutes rounded to the nearest tenth of an
    hour, halves up. *)
Definition well_rounded (v : MetricValue) : Prop :=
  0 <= mv_minutes v ∧ 6 * mv_tenths v - 3 <= mv_minutes v < 6 * mv_tenths v + 3.

Lemma rounded_ok m : 0 <= m → well_rounded (mk_mv m ((m + 3) / 6)).
Proof. intros Hm. unfold well_rounded. simpl. zdiv. Qed.

Definition metrics_consistent (e : Employment) (day : date) (m : DailyMetrics) : Prop :=
  mv_minutes (dx_total m) <= minutes_per_day ∧
  (∀ key v, get_metric m key = Some v →
     well_rounded v ∧ mv_minutes v <= mv_minutes (dx_total m)) ∧
  (∀ a n, dx_afternoon m = Some a → dx_night m = Some n →
     360 <= default 0 (em_afternoon_start_minutes e) <= 1320 →
     mv_minutes a + mv_minutes n <= mv_minutes (dx_total m)) ∧
  (∀ w, dx_weekend m = Some w → mv_minutes w = 0 ∨ 5 <= weekday day) ∧
  (∀ h, dx_public_holiday m = Some h → mv_minutes h = 0 ∨ is_czech_public_holiday day = true).

Lemma calculate_daily_metrics_consistent e day intervals :
  chronological intervals →
  ∃ r, calculate_daily_metrics e day intervals = Ok r ∧
    (r = None ↔ em_employment_type e = TASK_SHIFT_BASED) ∧
    ∀ m, r = Some m → metrics_consistent e day m.
Proof.
  intros Hc. destruct (is_task_shift_based e) eqn:Et.
  { exists None. unfold calculate_daily_metrics. rewrite Et. split_and!; [done| |done].
    unfold is_task_shift_based in Et. apply bool_decide_eq_true in Et. tauto. }
  rewrite calculate_daily_metrics_ok by (done || apply Hc). eexists. split; [done|]. split.
  { unfold is_task_shift_based in Et. apply bool_decide_eq_false in Et. naive_solver. }
  pose proof (day_total_bound day _ Hc) as Htot.
  pose proof (day_sum_bound (λ i, overlap_window i (afternoon_window e day)) day _ (proj2 Hc)
    (λ i Hi, overlap_window_bounds i _ Hi)) as Ha.
  pose proof (day_sum_bound (night_minutes day) day _ (proj2 Hc) (night_minutes_bounds day)) as Hn.
  intros m [= <-]. unfold metrics_consistent. simpl. split_and!; [lia|..].
  - intros [] v; simpl; repeat case_match; intros [= <-];
      (split; [apply rounded_ok; lia | simpl; lia]).
  - intros a n. repeat case_match; intros [= <-] [= <-] Hs. simpl.
    pose proof (day_sum_bound
      (λ i, overlap_window i (afternoon_window e day) + night_minutes day i) day _ (proj2 Hc)
      (λ i Hi, afternoon_night_bounds e day i Hi Hs)) as Hb.
    rewrite sum_Z_add in Hb. lia.
  - intros w. repeat case_match; intros [= <-]; simpl; [right|left]; bool_hyps; lia.
  - intros h. repeat case_match; intros [= <-]; simpl; auto.
Qed.

(** ** Properties *)

(** minutes are rounded to the nearest tenth of an hour, halves up; a
    negative count is refused. *)
Theorem round_minutes_to_tenths_spec m t :
  round_minutes_to_tenths m = Ok t ↔ 0 <= m ∧ 6 * t - 3 <= m < 6 * t + 3.
Proof.
  unfold round_minutes_to_tenths. destruct (m <? 0) eqn:E; bool_hyps.
  - split; [done | lia].
  - split; [intros [= <-]; zdiv | intros H; f_equal; zdiv].
Qed.

(** for the closed intervals of any set of events the daily metrics are
    computed without an exception; a task-based employment has none, and
    otherwise the total is at most 1440 minutes, every metric is rounded
    correctly and bounded by the total, an afternoon from six o'clock on and
    the night share no minute, and weekend and holiday hours appear only on
    such days. *)
Theorem daily_metrics_consistent e day l :
  ∃ r, calculate_daily_metrics e day (pair_events l) = Ok r ∧
    (r = None ↔ em_employment_type e = TASK_SHIFT_BASED) ∧
    ∀ m, r = Some m → metrics_consistent e day m.
Proof. apply calculate_daily_metrics_consistent, pair_events_chronological. Qed.

Lemma sum_well_rounded items :
  Forall well_rounded items →
  Z.abs (6 * sum_Z (mv_tenths <$> items) - sum_Z (mv_minutes <$> items)) <= 3 * Z.of_nat (length items).
Proof. induction 1 as [|v items [_ Hv] _ IH]; csimpl; lia. Qed.

(** a monthly metric exists exactly when some day has it; it adds up the
    minutes and the daily tenths, and differs from the exact hours by at most
    half a tenth per day. *)
Theorem monthly_sum_spec daily field :
  let items := omap (λ d, m ← d; get_metric m field) daily in
  (monthly_sum daily field = None ↔ items = []) ∧
  ∀ v, monthly_sum daily field = Some v →
    mv_minutes v = sum_Z (mv_minutes <$> items) ∧
    mv_tenths v = sum_Z (mv_tenths <$> items) ∧
    (Forall well_rounded items →
     Z.abs (6 * mv_tenths v - mv_minutes v) <= 3 * Z.of_nat (length items)).
Proof.
  intros items. unfold monthly_sum. fold items. clearbody items.
  split; [by destruct items|]. destruct items as [|x items]; [done|]. intros v [= <-].
  split_and!; [done | done|]. apply sum_well_rounded.
Qed.

(** a full day of leave, sickness or care leave is credited 8:00 under its
    own key on an hourly employment; a day off, an empty status and a
    task-based employment have no credit. *)
Theorem day_status_metrics_spec e status :
  let credit value :=
    if negb (is_task_shift_based e) && status_is status value
    then Some (mk_mv 480 80) else None in
  calculate_day_status_metrics e status =
    Ok (mk_dsm (credit DAY_STATUS_HOLIDAY) (credit DAY_STATUS_SICKNESS)
          (credit DAY_STATUS_PARAGRAPH)).
Proof.
  unfold calculate_day_status_metrics.
  destruct (is_task_shift_based e); simpl; [by repeat case_goal|].
  destruct (status_is status DAY_STATUS_HOLIDAY), (status_is status DAY_STATUS_SICKNESS),
    (status_is status DAY_STATUS_PARAGRAPH); done.
Qed.
