(* ===== verification/Locks.v ===== *)
(** * app/services/locks.py: month locks

    Attendance and shift plans have separate lock tables with one row per
    locked employment and month. *)

From S2P Require Import Prelude Calendar PragueTime Models.

Inductive LockType := LOCK_ATTENDANCE | LOCK_SHIFT_PLAN.
#[global] Instance LockType_eq_dec : EqDecision LockType.
Proof. solve_decision. Defined.

(** [get_lock_model]: the table of a lock type. *)
Definition lock_table (lock_type : LockType) (db : DB) : list MonthLock :=
  match lock_type with
  | LOCK_ATTENDANCE => attendance_locks db
  | LOCK_SHIFT_PLAN => shift_plan_locks db
  end.

Definition set_lock_table (lock_type : LockType) (t : list MonthLock) (db : DB) : DB :=
  match lock_type with
  | LOCK_ATTENDANCE => set_attendance_locks t db
  | LOCK_SHIFT_PLAN => set_shift_plan_locks t db
  end.

(** [LOCK_ERROR_BY_TYPE]. *)
Definition lock_error (lock_type : LockType) : string :=
  match lock_type with
  | LOCK_ATTENDANCE => "attendance_month_locked"
  | LOCK_SHIFT_PLAN => "shift_plan_month_locked"
  end.

(** [employment_id == e AND year == y AND month == m]. *)
Definition lock_at (employment_id year month : Z) (k : MonthLock) : bool :=
  (lk_employment_id k =? employment_id) && (lk_year k =? year) && (lk_month k =? month).

Definition is_month_locked (db : DB) (lock_type : LockType) (employment_id year month : Z) : bool :=
  match one_or_none (where_ (lock_at employment_id year month) (lock_table lock_type db)) with
  | Some _ => true
  | None => false
  end.

Definition ensure_month_unlocked (db : DB) (lock_type : LockType)
    (employment_id year month : Z) : result unit :=
  guard (is_month_locked db lock_type employment_id year month)
    (ApiError 423 (lock_error lock_type)).

Definition load_locked_employment_ids (db : DB) (lock_type : LockType)
    (employment_ids : list Z) (year month : Z) : list Z :=
  match employment_ids with
  | [] => []
  | _ =>
      lk_employment_id <$>
        where_ (λ k, mem (lk_employment_id k) employment_ids && (lk_year k =? year) &&
                     (lk_month k =? month)) (lock_table lock_type db)
  end.

(** [existing.instance_id = ...; existing.locked_by = ...]. *)
Definition relock (instance_id locked_by : option string) (k : MonthLock) : MonthLock :=
  mk_lock (lk_id k) (lk_employment_id k) instance_id (lk_year k) (lk_month k) locked_by.

Definition add_lock (lock_type : LockType) (employment_id : Z) (instance_id : option string)
    (year month : Z) (locked_by : option string) (db : DB) : DB :=
  bump_id (set_lock_table lock_type
    (lock_table lock_type db ++
       [mk_lock (next_id db) employment_id instance_id year month locked_by]) db).

Definition set_month_lock_state (db : DB) (lock_type : LockType) (employment_id : Z)
    (instance_id : option string) (year month : Z) (locked : bool)
    (locked_by : option string) : DB :=
  let table := lock_table lock_type db in
  let existing := one_or_none (where_ (lock_at employment_id year month) table) in
  if locked then
    match existing with
    | None => add_lock lock_type employment_id instance_id year month locked_by db
    | Some _ =>
        set_lock_table lock_type
          (update_where (lock_at employment_id year month) (relock instance_id locked_by) table) db
    end
  else
    match existing with
    | None => db
    | Some _ => set_lock_table lock_type (delete_where (lock_at employment_id year month) table) db
    end.

(** One iteration of the loop of [set_month_lock_state_bulk]; [existing] is
    the dictionary read before the loop. *)
Definition bulk_lock_step (lock_type : LockType) (existing : Z → bool) (year month : Z)
    (locked_by : option string) (db : DB) (row : Z * option string) : DB :=
  let '(employment_id, instance_id) := row in
  if existing employment_id then
    set_lock_table lock_type
      (update_where (lock_at employment_id year month) (relock instance_id locked_by)
         (lock_table lock_type db)) db
  else add_lock lock_type employment_id instance_id year month locked_by db.

Definition set_month_lock_state_bulk (db : DB) (lock_type : LockType)
    (employment_rows : list (Z * option string)) (year month : Z) (locked : bool)
    (locked_by : option string) : DB :=
  let employment_ids := fst <$> employment_rows in
  match employment_ids with
  | [] => db
  | _ =>
      if locked then
        fold_left
          (bulk_lock_step lock_type (λ e, is_month_locked db lock_type e year month)
             year month locked_by) employment_rows db
      else
        set_lock_table lock_type
          (delete_where (λ k, mem (lk_employment_id k) employment_ids && (lk_year k =? year) &&
                              (lk_month k =? month)) (lock_table lock_type db)) db
  end.

(** ** Lemmas *)

Lemma lock_table_set lt lt' t db :
  lock_table lt (set_lock_table lt' t db) = if decide (lt = lt') then t else lock_table lt db.
Proof. by destruct lt, lt'. Qed.

Lemma lock_table_bump lt db : lock_table lt (bump_id db) = lock_table lt db.
Proof. by destruct lt. Qed.

Lemma lock_at_true e y m k :
  lock_at e y m k = true ↔ lk_employment_id k = e ∧ lk_year k = y ∧ lk_month k = m.
Proof. unfold lock_at. rewrite !andb_true_iff, !Z.eqb_eq. tauto. Qed.

Lemma is_month_locked_true db lt e y m :
  is_month_locked db lt e y m = true ↔
  ∃ k, k ∈ lock_table lt db ∧ lk_employment_id k = e ∧ lk_year k = y ∧ lk_month k = m.
Proof.
  unfold is_month_locked. setoid_rewrite <- lock_at_true.
  setoid_rewrite <- elem_of_where.
  destruct (where_ _ _) as [|k l]; simpl; split; try done.
  - by intros (k & Hk%elem_of_nil).
  - intros _. exists k. left.
Qed.

Lemma is_month_locked_ext db db' lt lt' e y m e' y' m' :
  (is_month_locked db lt e y m = true ↔ is_month_locked db' lt' e' y' m' = true) →
  is_month_locked db lt e y m = is_month_locked db' lt' e' y' m'.
Proof. intros H. apply eq_true_iff_eq, H. Qed.

Lemma is_month_locked_add lt e i y m by_ db lt' e' y' m' :
  is_month_locked (add_lock lt e i y m by_ db) lt' e' y' m' = true ↔
  is_month_locked db lt' e' y' m' = true ∨ (lt' = lt ∧ e' = e ∧ y' = y ∧ m' = m).
Proof.
  rewrite !is_month_locked_true. unfold add_lock. rewrite lock_table_bump, lock_table_set.
  destruct (decide (lt' = lt)) as [->|Hne]; [|naive_solver].
  setoid_rewrite elem_of_app. setoid_rewrite list_elem_of_singleton. split.
  - intros (k & [Hk| ->] & H); [left; eauto | right; simpl in H; naive_solver].
  - intros [(k & Hk & H)|(_ & -> & -> & ->)]; [eauto|].
    eexists. split; [by right|]. done.
Qed.

Lemma is_month_locked_relock lt e i y m by_ db lt' e' y' m' :
  is_month_locked (set_lock_table lt (update_where (lock_at e y m) (relock i by_)
    (lock_table lt db)) db) lt' e' y' m' = is_month_locked db lt' e' y' m'.
Proof.
  apply is_month_locked_ext. rewrite !is_month_locked_true, lock_table_set.
  destruct (decide (lt' = lt)) as [->|]; [|done].
  setoid_rewrite elem_of_update_where. split.
  - intros (k & (k' & Hk' & ->) & H). exists k'. split; [done|]. by destruct (lock_at _ _ _ k').
  - intros (k & Hk & H). exists (if lock_at e y m k then relock i by_ k else k).
    split; [by exists k|]. by destruct (lock_at _ _ _ k).
Qed.

Lemma bulk_step_locked lt ex y m by_ db row lt' e' y' m' :
  (∀ e, ex e = true → is_month_locked db lt e y m = true) →
  is_month_locked (bulk_lock_step lt ex y m by_ db row) lt' e' y' m' = true ↔
  is_month_locked db lt' e' y' m' = true ∨ (lt' = lt ∧ e' = row.1 ∧ y' = y ∧ m' = m).
Proof.
  intros Hex. destruct row as [e i]. simpl. destruct (ex e) eqn:E.
  - rewrite is_month_locked_relock. apply Hex in E. naive_solver.
  - apply is_month_locked_add.
Qed.

Lemma bulk_fold_locked lt ex y m by_ rows db lt' e' y' m' :
  (∀ e, ex e = true → is_month_locked db lt e y m = true) →
  is_month_locked (fold_left (bulk_lock_step lt ex y m by_) rows db) lt' e' y' m' = true ↔
  is_month_locked db lt' e' y' m' = true ∨ (lt' = lt ∧ e' ∈ rows.*1 ∧ y' = y ∧ m' = m).
Proof.
  revert db. induction rows as [|row rows IH]; intros db Hex; simpl.
  - rewrite elem_of_nil. tauto.
  - rewrite IH, bulk_step_locked by (try done; intros e He; apply bulk_step_locked; auto).
    rewrite elem_of_cons. tauto.
Qed.

Lemma mem_lock_in ids y m k :
  mem (lk_employment_id k) ids && (lk_year k =? y) && (lk_month k =? m) = true ↔
  lk_employment_id k ∈ ids ∧ lk_year k = y ∧ lk_month k = m.
Proof. rewrite !andb_true_iff, mem_true, !Z.eqb_eq. tauto. Qed.

(** The effect of the bulk operation on every lock. *)
Lemma bulk_lock_spec db lt rows y m locked by_ lt' e' y' m' :
  is_month_locked (set_month_lock_state_bulk db lt rows y m locked by_) lt' e' y' m' =
  if decide (lt' = lt ∧ e' ∈ rows.*1 ∧ y' = y ∧ m' = m) then locked
  else is_month_locked db lt' e' y' m'.
Proof.
  unfold set_month_lock_state_bulk.
  destruct rows as [|row rows].
  { simpl. destruct (decide _) as [(_ & H & _)|]; [by apply elem_of_nil in H | done]. }
  change (match _ with [] => db | _ => ?x end) with x.
  set (ids := fst <$> row :: rows). destruct locked.
  - apply eq_true_iff_eq. rewrite bulk_fold_locked by done. fold ids.
    destruct (decide _); naive_solver.
  - apply eq_true_iff_eq. rewrite is_month_locked_true, lock_table_set.
    destruct (decide (lt' = lt)) as [->|Hne].
    2:{ rewrite <- is_month_locked_true. destruct (decide _); naive_solver. }
    setoid_rewrite elem_of_delete_where. destruct (decide _) as [(_ & Hin & -> & ->)|Hnot].
    + split; [|done]. intros (k & [Hk Hf] & He & Hy & Hm).
      assert (mem (lk_employment_id k) ids && (lk_year k =? y) && (lk_month k =? m) = true);
        [|congruence]. rewrite mem_lock_in. naive_solver.
    + rewrite is_month_locked_true. split; [naive_solver|].
      intros (k & Hk & He & Hy & Hm). exists k. split_and!; [done | | done..].
      apply not_true_is_false. rewrite mem_lock_in. naive_solver.
Qed.

(** *** One row per employment and month *)

Lemma update_relock_keys e y m i by_ t :
  lock_key <$> update_where (lock_at e y m) (relock i by_) t = lock_key <$> t.
Proof.
  unfold update_where. rewrite <- list_fmap_compose. apply list_fmap_ext.
  intros _ k _. simpl. by destruct (lock_at e y m k).
Qed.

Lemma uq_add_lock lt e i y m by_ db :
  uq_lock_employment_month (lock_table lt db) → is_month_locked db lt e y m = false →
  uq_lock_employment_month (lock_table lt (add_lock lt e i y m by_ db)).
Proof.
  unfold uq_lock_employment_month. intros Hu Hl.
  unfold add_lock. rewrite lock_table_bump, lock_table_set, decide_True by done.
  rewrite fmap_app. apply NoDup_app. split_and!; [done| |apply NoDup_singleton].
  intros x (k & -> & Hk)%list_elem_of_fmap Hx%list_elem_of_singleton.
  injection Hx as He Hy Hm.
  assert (is_month_locked db lt e y m = true); [|congruence].
  apply is_month_locked_true. by exists k.
Qed.

#[export] Hint Resolve uq_add_lock : dagmar.

(** ** Properties *)

(** locking or unlocking a month takes effect on exactly that lock type,
    employment and month, keeps every other lock as it was, and keeps one row
    per employment and month. *)
Theorem set_month_lock_state_spec db lt e i y m locked by_ :
  let db' := set_month_lock_state db lt e i y m locked by_ in
  (∀ lt' e' y' m', is_month_locked db' lt' e' y' m' =
     if decide (lt' = lt ∧ e' = e ∧ y' = y ∧ m' = m) then locked
     else is_month_locked db lt' e' y' m') ∧
  (uq_lock_employment_month (lock_table lt db) →
   uq_lock_employment_month (lock_table lt db')).
Proof.
  intros db'. unfold db', set_month_lock_state.
  assert (Hex : is_month_locked db lt e y m =
    match one_or_none (where_ (lock_at e y m) (lock_table lt db)) with
    | Some _ => true | None => false end) by done.
  destruct locked.
  - destruct (one_or_none _) as [k|].
    + split.
      * intros lt' e' y' m'. rewrite is_month_locked_relock.
        destruct (decide _) as [(-> & -> & -> & ->)|]; done.
      * rewrite lock_table_set, decide_True by done. unfold uq_lock_employment_month.
        by rewrite (update_relock_keys e y m i by_ (lock_table lt db)).
    + split; [|intros Hu; by apply uq_add_lock].
      intros lt' e' y' m'. apply eq_true_iff_eq. rewrite is_month_locked_add.
      destruct (decide _); naive_solver.
  - destruct (one_or_none _) as [k|].
    + split.
      * intros lt' e' y' m'. apply eq_true_iff_eq. rewrite is_month_locked_true, lock_table_set.
        destruct (decide (lt' = lt)) as [->|Hne].
        2:{ rewrite <- is_month_locked_true. destruct (decide _); naive_solver. }
        setoid_rewrite elem_of_delete_where.
        destruct (decide _) as [(_ & -> & -> & ->)|Hnot].
        -- split; [|done]. intros (k' & [_ Hf] & H). apply lock_at_true in H. congruence.
        -- rewrite is_month_locked_true. split; [naive_solver|].
           intros (k' & Hk' & H). exists k'. split_and!; [done | | apply H..].
           apply not_true_is_false. rewrite lock_at_true. naive_solver.
      * rewrite lock_table_set, decide_True by done. by apply NoDup_fmap_where.
    + split; [|done]. intros lt' e' y' m'.
      destruct (decide _) as [(-> & -> & -> & ->)|]; done.
Qed.

(** the bulk operation locks or unlocks exactly the given employments for
    the given month of the given lock type and changes no other lock. *)
Theorem set_month_lock_state_bulk_spec db lt rows y m locked by_ lt' e' y' m' :
  is_month_locked (set_month_lock_state_bulk db lt rows y m locked by_) lt' e' y' m' =
  if decide (lt' = lt ∧ e' ∈ rows.*1 ∧ y' = y ∧ m' = m) then locked
  else is_month_locked db lt' e' y' m'.
Proof. apply bulk_lock_spec. Qed.
