(* ===== verification/EmploymentAccess.v ===== *)
(** * app/services/employment_access.py: validity, profile and login windows *)

From S2P Require Import Prelude Calendar TimeParse PragueTime Models.
From Stdlib Require Import QArith.
Open Scope Z_scope.

Definition LOGIN_WINDOW_MONTHS : Z := 1.

(** [add_calendar_months]; the day is clamped to the length of the month. *)
Definition add_calendar_months (value : date) (months : Z) : date :=
  let month_index := month_of value - 1 + months in
  let year := year_of value + month_index / 12 in
  let month := month_index mod 12 + 1 in
  mk_date year month (Z.min (day_of value) (days_in_month year month)).

Definition parse_employment_type (value : string) : option EmploymentType :=
  if String.eqb value "WORK_CONTRACT" then Some WORK_CONTRACT
  else if String.eqb value "DPP_DPC" then Some DPP_DPC
  else if String.eqb value "TASK_SHIFT_BASED" then Some TASK_SHIFT_BASED
  else if String.eqb value "EXTERNAL_HOURLY" then Some EXTERNAL_HOURLY
  else None.

Definition employment_type_value (t : EmploymentType) : string :=
  match t with
  | WORK_CONTRACT => "WORK_CONTRACT"
  | DPP_DPC => "DPP_DPC"
  | TASK_SHIFT_BASED => "TASK_SHIFT_BASED"
  | EXTERNAL_HOURLY => "EXTERNAL_HOURLY"
  end.

Definition employment_type_is_valid (value : string) : bool :=
  match parse_employment_type value with Some _ => true | None => false end.

(** The [ValueError]s of [validate_time_profile], in order. *)
Inductive ProfileError :=
  | InvalidType | InvalidWorkload | WorkContractMetrics | WorkloadNotAllowed
  | TaskHasMetrics | AfternoonStartRange | AfternoonStartUnexpected.

Definition validate_time_profile (employment_type : string) (workload_fraction : option Q)
    (total_hours_enabled automatic_breaks_enabled afternoon_hours_enabled : bool)
    (afternoon_start_minutes : option Z)
    (night_hours_enabled weekend_hours_enabled public_holiday_hours_enabled : bool)
    : option ProfileError :=
  if negb (employment_type_is_valid employment_type) then Some InvalidType
  else if String.eqb employment_type "WORK_CONTRACT" &&
    match workload_fraction with
    | None => true
    | Some w => negb (negb (Qle_bool w 0) && Qle_bool w 1)
    end then Some InvalidWorkload
  else if String.eqb employment_type "WORK_CONTRACT" &&
    (negb total_hours_enabled || negb night_hours_enabled) then Some WorkContractMetrics
  else if negb (String.eqb employment_type "WORK_CONTRACT") &&
    match workload_fraction with Some _ => true | None => false end then Some WorkloadNotAllowed
  else if String.eqb employment_type "TASK_SHIFT_BASED" &&
    (total_hours_enabled || automatic_breaks_enabled || afternoon_hours_enabled ||
     night_hours_enabled || weekend_hours_enabled || public_holiday_hours_enabled)
  then Some TaskHasMetrics
  else if afternoon_hours_enabled &&
    match afternoon_start_minutes with
    | None => true
    | Some m => negb ((0 <=? m) && (m <=? 1319))
    end then Some AfternoonStartRange
  else if negb afternoon_hours_enabled &&
    match afternoon_start_minutes with Some _ => true | None => false end
  then Some AfternoonStartUnexpected
  else None.

Definition employment_is_valid_on_day (e : Employment) (day : date) : bool :=
  if day <? em_start_date e then false
  else match em_end_date e with
       | Some end_date => negb (end_date <? day)
       | None => true
       end.

Definition employment_is_within_login_window (e : Employment) (day : date) : bool :=
  let allowed_from := add_calendar_months (em_start_date e) (- LOGIN_WINDOW_MONTHS) in
  if day <? allowed_from then false
  else match em_end_date e with
       | None => true
       | Some end_date => day <=? add_calendar_months end_date LOGIN_WINDOW_MONTHS
       end.

Definition employment_overlaps_month (e : Employment) (month_start month_end : date) : bool :=
  if month_end <=? em_start_date e then false
  else match em_end_date e with
       | Some end_date => negb (end_date <? month_start)
       | None => true
       end.

(** [employment_is_currently_valid], with the local day as an argument. *)
Definition employment_is_currently_valid (e : Employment) (today : date) : bool :=
  employment_is_valid_on_day e today.

(** [lock_employment_for_time_mutation]: [SELECT ... FOR UPDATE] re-reads the
    row; [scalar_one] raises when it is gone. *)
Definition lock_employment_for_time_mutation (db : DB) (employment_id : Z) : result Employment :=
  match get_employment db employment_id with
  | Some e => Ok e
  | None => Err (Crash "NoResultFound")
  end.

Definition locked_employment_has_active_user (db : DB) (e : Employment) (today : date) : bool :=
  employment_is_valid_on_day e today &&
  match user_of db e with Some u => pu_is_active u | None => false end.

Definition type_label (t : EmploymentType) : string :=
  match t with
  | WORK_CONTRACT => "Pracovní smlouva"
  | DPP_DPC => "DPP/DPČ"
  | TASK_SHIFT_BASED => "Úkolová / směnová odměna"
  | EXTERNAL_HOURLY => "Externí hodinová fakturace"
  end.

(** [employment_label]: [user_name] when given, else the name of the user. *)
Definition employment_label (db : DB) (e : Employment) (user_name : option string) : string :=
  let resolved := match user_name with
    | Some n => Some n
    | None => pu_name <$> user_of db e
    end in
  let base := strip (default EmptyString resolved) in
  let title := match strip (em_title e) with
    | EmptyString => "Bez názvu úvazku"%string
    | t => t
    end in
  match base with
  | EmptyString => (type_label (em_employment_type e) +:+ " - " +:+ title)%string
  | _ => (base +:+ " - " +:+ type_label (em_employment_type e) +:+ " - " +:+ title)%string
  end.

Definition display_metrics_for_employment (e : Employment) : list string :=
  if bool_decide (em_employment_type e = TASK_SHIFT_BASED) then []
  else
    (if em_total_hours_enabled e then ["total"%string] else []) ++
    (if em_afternoon_hours_enabled e then ["afternoon"%string] else []) ++
    (if em_night_hours_enabled e then ["night"%string] else []) ++
    (if em_weekend_hours_enabled e then ["weekend"%string] else []) ++
    (if em_public_holiday_hours_enabled e then ["public_holiday"%string] else []).

Record LoginEmploymentSelection := mk_selection {
  available : list Employment;
  default_employment : option Employment;
}.

Definition by_start (a b : Employment) : bool :=
  (em_start_date a <? em_start_date b) ||
  ((em_start_date a =? em_start_date b) && (em_id a <=? em_id b)).

(** [(_safe_end_date(item) or today, item.id)], largest first. *)
Definition by_end_desc (today : date) (a b : Employment) : bool :=
  let ea := default today (em_end_date a) in
  let eb := default today (em_end_date b) in
  (eb <? ea) || ((ea =? eb) && (em_id b <=? em_id a)).

Definition ended_before (today : date) (e : Employment) : bool :=
  match em_end_date e with Some d => d <? today | None => false end.

Definition select_login_employments (user_employments : list Employment) (today : date)
    : LoginEmploymentSelection :=
  let eligible := sorted_by by_start
    (where_ (λ e, employment_is_within_login_window e today) user_employments) in
  let current := sorted_by by_start (where_ (λ e, employment_is_valid_on_day e today) eligible) in
  match current with
  | c :: _ => mk_selection eligible (Some c)
  | [] =>
      let upcoming := sorted_by by_start (where_ (λ e, today <? em_start_date e) eligible) in
      match upcoming with
      | u :: _ => mk_selection eligible (Some u)
      | [] =>
          let recent := sorted_by (by_end_desc today) (where_ (ended_before today) eligible) in
          mk_selection eligible (head recent)
      end
  end.

(** ** Lemmas *)

Lemma valid_on_day_iff e d :
  employment_is_valid_on_day e d = true ↔
  em_start_date e <= d ∧ ∀ x, em_end_date e = Some x → d <= x.
Proof.
  unfold employment_is_valid_on_day. destruct (d <? em_start_date e) eqn:E; bool_hyps.
  - split; [done | lia].
  - destruct (em_end_date e) as [x|].
    + rewrite negb_true_iff, Z.ltb_ge. split; [intros H; split; [lia | by intros ? [= <-]]|].
      intros [_ H]. by apply H.
    + split; [done|done].
Qed.

(** The month number of a date, counted over the years. *)
Definition month_index (d : date) : Z := 12 * year_of d + month_of d - 1.

Lemma ym_of_mk_date y m d :
  1 <= m <= 12 → 1 <= d <= days_in_month y m → ym_of (mk_date y m d) = (y, m).
Proof.
  intros Hm Hd. apply month_range_spec; [done|]. unfold days_in_month in Hd.
  unfold mk_date in *. lia.
Qed.

Lemma add_calendar_months_index d k :
  month_index (add_calendar_months d k) = month_index d + k.
Proof.
  destruct (ymd_spec d) as (Hm & Hd & _). unfold add_calendar_months.
  set (y := year_of d + _). set (m := _ mod 12 + 1).
  assert (Hm' : 1 <= m <= 12) by (unfold m; zdiv).
  pose proof (days_in_month_bounds y m Hm') as Hdim.
  pose proof (ym_of_mk_date y m (Z.min (day_of d) (days_in_month y m)) Hm' ltac:(lia)) as H.
  unfold ym_of in H. injection H as Hy Hmo. unfold month_index. rewrite Hy, Hmo.
  unfold y, m. zdiv.
Qed.

Lemma month_index_bounds d :
  month_start (month_index d) <= d < month_start (month_index d + 1).
Proof.
  unfold month_index. rewrite month_start_succ, month_start_ym by apply month_of_bounds.
  apply month_range_self.
Qed.

Lemma month_index_lt a b : month_index a < month_index b → a < b.
Proof.
  intros H. pose proof (month_index_bounds a). pose proof (month_index_bounds b).
  pose proof (month_start_mono (month_index a + 1) (month_index b) ltac:(lia)). lia.
Qed.

(** The login window contains the validity period. *)
Lemma valid_within_window e d :
  employment_is_valid_on_day e d = true → employment_is_within_login_window e d = true.
Proof.
  rewrite valid_on_day_iff. intros [Hs He]. unfold employment_is_within_login_window.
  pose proof (add_calendar_months_index (em_start_date e) (- LOGIN_WINDOW_MONTHS)) as Hi.
  assert (add_calendar_months (em_start_date e) (- LOGIN_WINDOW_MONTHS) < em_start_date e).
  { apply month_index_lt. unfold LOGIN_WINDOW_MONTHS in *. lia. }
  destruct (d <? _) eqn:E; bool_hyps; [lia|].
  destruct (em_end_date e) as [x|]; [|done]. specialize (He x eq_refl).
  assert (x < add_calendar_months x LOGIN_WINDOW_MONTHS).
  { apply month_index_lt. rewrite add_calendar_months_index. unfold LOGIN_WINDOW_MONTHS. lia. }
  apply Z.leb_le. lia.
Qed.

Lemma head_sorted_elem {A} (leb : A → A → bool) l x : head (sorted_by leb l) = Some x → x ∈ l.
Proof.
  intros H. apply (elem_of_sorted_by leb). destruct (sorted_by leb l); [done|].
  injection H as ->. left.
Qed.

Lemma sorted_by_nil {A} (leb : A → A → bool) l : sorted_by leb l = [] ↔ l = [].
Proof.
  split; [|by intros ->]. intros H. pose proof (length_sorted_by leb l) as Hl.
  rewrite H in Hl. by destruct l.
Qed.

Lemma head_sorted_least {A} (leb : A → A → bool) l x y :
  (∀ a b, leb a b = false → leb b a = true) →
  (∀ a b c, leb a b = true → leb b c = true → leb a c = true) →
  head (sorted_by leb l) = Some x → y ∈ l → y = x ∨ leb x y = true.
Proof.
  intros Htot Htr Hx Hy. pose proof (sorted_by_sorted leb Htot Htr l) as Hs.
  apply (elem_of_sorted_by leb) in Hy. destruct (sorted_by leb l) as [|z l']; [done|].
  injection Hx as ->. apply StronglySorted_inv in Hs as [_ Hall].
  apply elem_of_cons in Hy as [->|Hy]; [by left|right].
  by apply (proj1 (Forall_forall _ _) Hall).
Qed.

Lemma by_start_total a b : by_start a b = false → by_start b a = true.
Proof. unfold by_start. intros H. bool_hyps. apply andb_false_iff in H0. lia. Qed.

Lemma by_start_trans a b c : by_start a b = true → by_start b c = true → by_start a c = true.
Proof. unfold by_start. rewrite !orb_true_iff, !andb_true_iff, !Z.ltb_lt, !Z.eqb_eq, !Z.leb_le. lia. Qed.

(** Every eligible employment is current, upcoming or recent. *)
Lemma eligible_cases e today :
  employment_is_valid_on_day e today = true ∨ (today <? em_start_date e) = true ∨
  ended_before today e = true.
Proof.
  unfold employment_is_valid_on_day, ended_before.
  destruct (today <? em_start_date e); [by right; left|].
  destruct (em_end_date e) as [x|]; [|by left]. destruct (x <? today); simpl; auto.
Qed.

Lemma available_eq es today :
  available (select_login_employments es today) =
  sorted_by by_start (where_ (λ e, employment_is_within_login_window e today) es).
Proof.
  unfold select_login_employments.
  destruct (sorted_by by_start (where_ (λ e, employment_is_valid_on_day e today) _)); [|done].
  by destruct (sorted_by by_start (where_ (λ e, today <? em_start_date e) _)).
Qed.

(** ** Properties *)

(** a profile the validator accepts satisfies every CHECK constraint of
    the employments table, so it cannot fail at the database. *)
Theorem validate_time_profile_row_ok id uid title t w tot br af start ni we ph sd ed :
  validate_time_profile (employment_type_value t) w tot br af start ni we ph = None →
  employment_row_ok (mk_employment id uid title t w tot br af start ni we ph sd ed) = true.
Proof.
  unfold validate_time_profile, employment_row_ok, ck_employment_workload_fraction,
    ck_employment_afternoon_start, ck_employment_afternoon_required,
    ck_employment_task_profile, ck_employment_work_contract_profile. simpl.
  intros H.
  destruct t, w as [q|], start as [m|], af; simpl in *; try discriminate H;
    destruct tot, br, ni, we, ph; simpl in *; try discriminate H; try done;
    repeat match goal with
      | _ : context [(0 <=? ?m) && (?m <=? 1319)] |- _ =>
          destruct ((0 <=? m) && (m <=? 1319)); simpl in *; try discriminate H
      | _ : context [negb (Qle_bool ?q 0) && Qle_bool ?q 1] |- _ =>
          destruct (negb (Qle_bool q 0) && Qle_bool q 1); simpl in *; try discriminate H
      end; done.
Qed.

(** an employment overlaps a period exactly when it is valid on some day
    of the period. *)
Theorem employment_overlaps_month_iff e month_start month_end :
  month_start < month_end →
  (∀ x, em_end_date e = Some x → em_start_date e <= x) →
  employment_overlaps_month e month_start month_end = true ↔
  ∃ day, month_start <= day < month_end ∧ employment_is_valid_on_day e day = true.
Proof.
  intros Hlt Hwf. setoid_rewrite valid_on_day_iff. unfold employment_overlaps_month.
  destruct (month_end <=? em_start_date e) eqn:E; bool_hyps.
  { split; [done|]. intros (day & Hd & Hs & _). lia. }
  destruct (em_end_date e) as [x|].
  - specialize (Hwf x eq_refl). rewrite negb_true_iff, Z.ltb_ge. split.
    + intros Hx. exists (Z.max month_start (em_start_date e)). split; [lia|].
      split; [lia|]. intros ? [= <-]. lia.
    + intros (day & Hd & Hs & He). specialize (He x eq_refl). lia.
  - split; [|done]. intros _. exists (Z.max month_start (em_start_date e)).
    split; [lia|]. split; [lia|done].
Qed.

(** the login selection offers exactly the employments in their login
    window, prefers the earliest current one, then the earliest upcoming one,
    and has a default whenever it offers anything. *)
Theorem select_login_employments_spec es today :
  let s := select_login_employments es today in
  (∀ e, e ∈ available s ↔ e ∈ es ∧ employment_is_within_login_window e today = true) ∧
  (default_employment s = None ↔ available s = []) ∧
  (∀ e, default_employment s = Some e → e ∈ available s) ∧
  (∀ e c, default_employment s = Some e → c ∈ es →
     employment_is_valid_on_day c today = true →
     employment_is_valid_on_day e today = true ∧ (c = e ∨ by_start e c = true)).
Proof.
  intros s. unfold s, select_login_employments.
  set (eligible := sorted_by by_start
    (where_ (λ e, employment_is_within_login_window e today) es)).
  assert (Hel : ∀ e, e ∈ eligible ↔ e ∈ es ∧ employment_is_within_login_window e today = true).
  { intros e. unfold eligible. by rewrite elem_of_sorted_by, elem_of_where. }
  assert (Hcur : ∀ c, c ∈ es → employment_is_valid_on_day c today = true →
    c ∈ where_ (λ e, employment_is_valid_on_day e today) eligible).
  { intros c Hc Hv. rewrite elem_of_where, Hel. auto using valid_within_window. }
  set (cl := where_ (λ e, employment_is_valid_on_day e today) eligible) in *.
  set (ul := where_ (λ e, today <? em_start_date e) eligible).
  set (rl := where_ (ended_before today) eligible).
  assert (Hsub : ∀ e, e ∈ cl ∨ e ∈ ul ∨ e ∈ rl → e ∈ eligible).
  { intros e. unfold cl, ul, rl. rewrite !elem_of_where. tauto. }
  destruct (sorted_by by_start cl) as [|c l] eqn:Ec.
  - apply sorted_by_nil in Ec.
    assert (Hnocur : ∀ c, c ∈ es → employment_is_valid_on_day c today = true → False).
    { intros c Hc Hv. specialize (Hcur c Hc Hv). rewrite Ec in Hcur. by apply elem_of_nil in Hcur. }
    destruct (sorted_by by_start ul) as [|u l] eqn:Eu; simpl.
    + apply sorted_by_nil in Eu. split_and!; [done | | |naive_solver].
      * split; [|intros ->; done]. intros Hh.
        assert (rl = []) as Er.
        { apply (sorted_by_nil (by_end_desc today)).
          destruct (sorted_by (by_end_desc today) rl); [done | discriminate Hh]. }
        destruct eligible as [|e l]; [done|]. exfalso.
        destruct (eligible_cases e today) as [Hv|[Hv|Hv]].
        -- assert (e ∈ cl) as He by (apply elem_of_where; split; [left|done]).
           rewrite Ec in He. by apply not_elem_of_nil in He.
        -- assert (e ∈ ul) as He by (apply elem_of_where; split; [left|done]).
           rewrite Eu in He. by apply not_elem_of_nil in He.
        -- assert (e ∈ rl) as He by (apply elem_of_where; split; [left|done]).
           rewrite Er in He. by apply not_elem_of_nil in He.
      * intros e He%head_sorted_elem. auto.
    + assert (Hu : u ∈ ul) by (apply (head_sorted_elem by_start); by rewrite Eu).
      split_and!; [done | | intros e [= <-]; auto | naive_solver].
      split; [done|]. intros Hnil. exfalso. apply (not_elem_of_nil u). rewrite <- Hnil. auto.
  - simpl. assert (Hc : c ∈ cl) by (apply (head_sorted_elem by_start); by rewrite Ec).
    split_and!; [done | | intros e [= <-]; auto|].
    { split; [done|]. intros Hnil. exfalso. apply (not_elem_of_nil c). rewrite <- Hnil. auto. }
    intros e d [= <-] Hd Hv. split; [unfold cl in Hc; rewrite elem_of_where in Hc; tauto|].
    apply (head_sorted_least by_start cl);
      [apply by_start_total | apply by_start_trans | by rewrite Ec | auto].
Qed.
