(* ===== verification/DayStatus.v ===== *)
(** * app/services/day_status.py: full-day statuses

    A day of an employment has a full-day status either on its attendance row
    or on its shift-plan row.  [replace_day_status] sets any of them and
    removes the facts that conflict with it. *)

From S2P Require Import Prelude Calendar TimeParse PragueTime Models TimeIntervals TimeMetrics.

Record DayStatusConflicts := mk_conflicts {
  attendance_exists : bool;
  shift_plan_exists : bool;
}.

Definition has_conflicts (c : DayStatusConflicts) : bool :=
  attendance_exists c || shift_plan_exists c.

Definition DAY_STATUS_VALUES : list string :=
  [DAY_STATUS_HOLIDAY; DAY_STATUS_OFF; DAY_STATUS_SICKNESS; DAY_STATUS_PARAGRAPH].

(** [None] as a result stands for [ValueError]. *)
Definition normalize_day_status (value : option string) : option (option string) :=
  match value with
  | None => Some None
  | Some v =>
      let normalized := upper (strip v) in
      if mem normalized DAY_STATUS_VALUES then Some (Some normalized) else None
  end.

Definition day_status_label (status : option string) : option string :=
  if status_is status DAY_STATUS_HOLIDAY then Some "DOVOLENÁ"%string
  else if status_is status DAY_STATUS_OFF then Some "VOLNO"%string
  else if status_is status DAY_STATUS_SICKNESS then Some "NEMOC"%string
  else if status_is status DAY_STATUS_PARAGRAPH then Some "PARAGRAF"%string
  else None.

(** ** Rows of one employment and day *)

Definition plan_at (employment_id : Z) (day : date) (p : ShiftPlan) : bool :=
  (sp_employment_id p =? employment_id) && (sp_date p =? day).
Definition attendance_at (employment_id : Z) (day : date) (a : Attendance) : bool :=
  (at_employment_id a =? employment_id) && (at_date a =? day).

Definition get_shift_plan_day (db : DB) (employment_id : Z) (day : date) : option ShiftPlan :=
  one_or_none (where_ (plan_at employment_id day) (plans db)).
Definition get_attendance_day (db : DB) (employment_id : Z) (day : date) : option Attendance :=
  one_or_none (where_ (attendance_at employment_id day) (attendance db)).

Definition get_day_status (db : DB) (employment_id : Z) (day : date) : option string :=
  let from_plan :=
    match get_shift_plan_day db employment_id day with
    | None => None
    | Some row => sp_status row
    end in
  match get_attendance_day db employment_id day with
  | Some a => if truthy (at_status a) then at_status a else from_plan
  | None => from_plan
  end.

Definition events_of (db : DB) (employment_id : Z) : list AttendanceEvent :=
  where_ (λ e, ev_employment_id e =? employment_id) (events db).

(** [ORDER BY occurred_at, id]. *)
Definition sql_event_leb (a b : AttendanceEvent) : bool :=
  (utc (ev_occurred_at a) <? utc (ev_occurred_at b)) ||
  ((utc (ev_occurred_at a) =? utc (ev_occurred_at b)) && (ev_id a <=? ev_id b)).
Definition events_by_time (l : list AttendanceEvent) : list AttendanceEvent :=
  sorted_by sql_event_leb l.

Definition conflicting_shift_plans (db : DB) (employment_id : Z) (day : date) : list ShiftPlan :=
  where_ (plan_at employment_id day) (plans db).

Definition conflicting_shift_plan_months (db : DB) (employment_id : Z) (day : date)
    : list (Z * Z) :=
  dedup (mjoin ((λ p, shift_plan_months (Some p)) <$> conflicting_shift_plans db employment_id day)).

(** [conflicting[event.id] = event] on an insertion-ordered dict. *)
Definition dict_put (l : list AttendanceEvent) (e : AttendanceEvent) : list AttendanceEvent :=
  if mem (ev_id e) (ev_id <$> l) then l else l ++ [e].

(** The events that touch the time from [day_start] to [day_end]. *)
Definition touching_events (db : DB) (employment_id day_start day_end : Z) : list AttendanceEvent :=
  let evs := events_by_time (events_of db employment_id) in
  let inside := where_ (λ e, (day_start <=? ev_wall e) && (ev_wall e <? day_end)) evs in
  fold_left
    (λ conflicting p,
       if (ev_wall p.1 <? day_end) && (day_start <? ev_wall p.2)
       then dict_put (dict_put conflicting p.1) p.2 else conflicting)
    (pair_event_rows evs) inside.

(** The end of the last day a [date] can name is no [datetime]. *)
Definition conflicting_attendance_events (db : DB) (employment_id : Z) (day : date)
    : result (list AttendanceEvent) :=
  let? following := day_after day in
  Ok (touching_events db employment_id (midnight day) (midnight following)).

Definition nonempty {A} (l : list A) : bool := match l with [] => false | _ => true end.

(** [or] does not look for events when the attendance row has a status. *)
Definition collect_day_status_conflicts (db : DB) (employment_id : Z) (day : date)
    : result DayStatusConflicts :=
  let? attendance_exists :=
    if match get_attendance_day db employment_id day with
       | Some a => truthy (at_status a)
       | None => false
       end
    then Ok true
    else let? evs := conflicting_attendance_events db employment_id day in Ok (nonempty evs) in
  Ok (mk_conflicts attendance_exists (nonempty (conflicting_shift_plans db employment_id day))).

(** ** Writing plans and attendance rows *)

Definition delete_plan (p : ShiftPlan) (db : DB) : DB :=
  set_plans (delete_where (λ q, sp_id q =? sp_id p) (plans db)) db.
Definition update_plan (p : ShiftPlan) (f : ShiftPlan → ShiftPlan) (db : DB) : DB :=
  set_plans (update_where (λ q, sp_id q =? sp_id p) f (plans db)) db.
Definition add_plan (employment_id : Z) (instance_id : option string) (day : date)
    (arrival departure status : option string) (db : DB) : DB :=
  bump_id (set_plans (plans db ++
    [mk_plan (next_id db) employment_id instance_id day arrival departure status]) db).
Definition plan_values (instance_id arrival departure status : option string) (p : ShiftPlan)
    : ShiftPlan :=
  mk_plan (sp_id p) (sp_employment_id p) instance_id (sp_date p) arrival departure status.

Definition delete_attendance (a : Attendance) (db : DB) : DB :=
  set_attendance (delete_where (λ b, at_id b =? at_id a) (attendance db)) db.
Definition update_attendance (a : Attendance) (f : Attendance → Attendance) (db : DB) : DB :=
  set_attendance (update_where (λ b, at_id b =? at_id a) f (attendance db)) db.
Definition add_attendance (employment_id : Z) (instance_id : option string) (day : date)
    (status : option string) (db : DB) : DB :=
  bump_id (set_attendance (attendance db ++
    [mk_attendance (next_id db) employment_id instance_id day status]) db).
Definition attendance_values (instance_id status : option string) (a : Attendance) : Attendance :=
  mk_attendance (at_id a) (at_employment_id a) instance_id (at_date a) status.

Definition delete_events (evs : list AttendanceEvent) (db : DB) : DB :=
  set_events (delete_where (λ e, mem (ev_id e) (ev_id <$> evs)) (events db)) db.

(** ** Setting a status *)

Section DayStatus.
Context `{zone : PragueZone}.

Definition set_shift_plan_status (db : DB) (employment_id : Z) (day : date)
    (status : option string) (confirm_reset_existing_plan : bool)
    (instance_id : option string) : result (DB * DayStatusConflicts) :=
  match normalize_day_status status with
  | None => Err (Crash "invalid_day_status")
  | Some normalized =>
      if negb (mem normalized [None; Some DAY_STATUS_HOLIDAY; Some DAY_STATUS_OFF])
      then Err (Crash "invalid_shift_plan_status")
      else
        let? conflicts := collect_day_status_conflicts db employment_id day in
        if bool_decide (normalized ≠ None) && shift_plan_exists conflicts &&
           negb confirm_reset_existing_plan
        then Ok (db, conflicts)
        else
          let plan := get_shift_plan_day db employment_id day in
          match normalized, plan with
          | None, Some p =>
              if negb (truthy (sp_arrival_time p)) && negb (truthy (sp_departure_time p))
              then Ok (delete_plan p db, conflicts)
              else Ok (update_plan p
                (λ q, plan_values instance_id (sp_arrival_time q) (sp_departure_time q) None q)
                db, conflicts)
          | None, None => Ok (db, conflicts)
          | Some _, None =>
              Ok (add_plan employment_id instance_id day None None normalized db, conflicts)
          | Some _, Some p =>
              Ok (update_plan p (plan_values instance_id None None normalized) db, conflicts)
          end
  end.

(** [select(AttendanceEvent.id).where(... occurred_at in the day ...).first()]. *)
Definition event_in_sql_day (employment_id : Z) (day following : date) (e : AttendanceEvent) : bool :=
  (ev_employment_id e =? employment_id) &&
  ((utc (at_wall (midnight day)) <=? utc (ev_occurred_at e)) &&
   (utc (ev_occurred_at e) <? utc (at_wall (midnight following)))).

Definition set_attendance_status (db : DB) (employment_id : Z) (day : date)
    (status : option string) (confirm_reset_existing_attendance : bool)
    (instance_id : option string) : result (DB * DayStatusConflicts) :=
  match normalize_day_status status with
  | None => Err (Crash "invalid_day_status")
  | Some normalized =>
      if negb (mem normalized [None; Some DAY_STATUS_SICKNESS; Some DAY_STATUS_PARAGRAPH])
      then Err (Crash "invalid_attendance_status")
      else
        let? conflicts := collect_day_status_conflicts db employment_id day in
        if bool_decide (normalized ≠ None) && attendance_exists conflicts &&
           negb confirm_reset_existing_attendance
        then Ok (db, conflicts)
        else
          let row := get_attendance_day db employment_id day in
          match normalized, row with
          | None, Some a =>
              let? following := day_after day in
              if nonempty (where_ (event_in_sql_day employment_id day following) (events db))
              then Ok (update_attendance a (attendance_values instance_id None) db, conflicts)
              else Ok (delete_attendance a db, conflicts)
          | None, None => Ok (db, conflicts)
          | Some _, None =>
              Ok (add_attendance employment_id instance_id day normalized db, conflicts)
          | Some _, Some a =>
              Ok (update_attendance a (attendance_values instance_id normalized) db, conflicts)
          end
  end.

Definition is_plan_status (s : option string) : bool :=
  status_is s DAY_STATUS_HOLIDAY || status_is s DAY_STATUS_OFF.
Definition is_attendance_status (s : option string) : bool :=
  status_is s DAY_STATUS_SICKNESS || status_is s DAY_STATUS_PARAGRAPH.

Definition replace_day_status (db : DB) (employment_id : Z) (day : date)
    (status : option string) (confirm_delete_conflicts : bool)
    (instance_id : option string) : result (DB * DayStatusConflicts) :=
  match normalize_day_status status with
  | None => Err (Crash "invalid_day_status")
  | Some normalized =>
      let? conflicts := collect_day_status_conflicts db employment_id day in
      let current_status := get_day_status db employment_id day in
      let changing_status := bool_decide (normalized ≠ current_status) in
      if bool_decide (normalized ≠ None) && changing_status && has_conflicts conflicts &&
         negb confirm_delete_conflicts
      then Ok (db, conflicts)
      else
        let row := get_attendance_day db employment_id day in
        let plan := get_shift_plan_day db employment_id day in
        let conflicting_plans := conflicting_shift_plans db employment_id day in
        match normalized with
        | None =>
            let? r := set_attendance_status db employment_id day None true instance_id in
            let? r' := set_shift_plan_status r.1 employment_id day None true instance_id in
            Ok (r'.1, conflicts)
        | Some _ =>
            let? conflicting := conflicting_attendance_events db employment_id day in
            let db1 := delete_events conflicting db in
            let db2 := fold_left
              (λ d p, if negb (sp_date p =? day) || is_attendance_status normalized
                      then delete_plan p d else d) conflicting_plans db1 in
            if is_plan_status normalized then
              let db3 := match row with Some a => delete_attendance a db2 | None => db2 end in
              let? r := set_shift_plan_status db3 employment_id day normalized true instance_id in
              Ok (r.1, conflicts)
            else
              let db3 := match plan with
                | Some p => if mem p conflicting_plans then db2 else delete_plan p db2
                | None => db2
                end in
              let? r := set_attendance_status db3 employment_id day normalized true instance_id in
              Ok (r.1, conflicts)
        end
  end.
End DayStatus.

(** ** Lemmas *)

(** *** Days that have a day after *)

Definition conflicting_events (db : DB) (e : Z) (d : date) : list AttendanceEvent :=
  touching_events db e (midnight d) (midnight (d + 1)).

Definition conflicts_of (db : DB) (e : Z) (d : date) : DayStatusConflicts :=
  mk_conflicts
    (match get_attendance_day db e d with Some a => truthy (at_status a) | None => false end ||
     nonempty (conflicting_events db e d))
    (nonempty (conflicting_shift_plans db e d)).

Lemma day_after_ok d d' : day_after d = Ok d' ↔ d < LAST_DATE ∧ d' = d + 1.
Proof. unfold day_after. destruct (Z.ltb_spec d LAST_DATE); naive_solver lia. Qed.

Lemma day_after_last d : LAST_DATE <= d → day_after d = Err (Crash "OverflowError").
Proof. unfold day_after. intros H. by rewrite (proj2 (Z.ltb_ge _ _) H). Qed.

Lemma conflicting_ok db e d l :
  conflicting_attendance_events db e d = Ok l ↔ d < LAST_DATE ∧ l = conflicting_events db e d.
Proof.
  unfold conflicting_attendance_events. split.
  - intros H. ok_inv H. injection H as <-. by apply day_after_ok in Hstep as [? ->].
  - intros [H ->]. by rewrite (proj2 (day_after_ok d (d + 1)) (conj H eq_refl)).
Qed.

(** What the attendance row alone tells. *)
Definition has_attendance_status (db : DB) (e : Z) (d : date) : bool :=
  match get_attendance_day db e d with Some a => truthy (at_status a) | None => false end.

Lemma collect_eq db e d :
  collect_day_status_conflicts db e d =
    if has_attendance_status db e d || (d <? LAST_DATE) then Ok (conflicts_of db e d)
    else Err (Crash "OverflowError").
Proof.
  unfold collect_day_status_conflicts, conflicts_of, has_attendance_status, conflicting_attendance_events, day_after.
  destruct (get_attendance_day db e d) as [a|]; [destruct (truthy (at_status a)); [done|]|];
    by destruct (d <? LAST_DATE).
Qed.

Lemma collect_ok db e d c : collect_day_status_conflicts db e d = Ok c → c = conflicts_of db e d.
Proof. rewrite collect_eq. destruct (_ || _); congruence. Qed.

Lemma collect_before db e d :
  d < LAST_DATE → collect_day_status_conflicts db e d = Ok (conflicts_of db e d).
Proof. intros H. by rewrite collect_eq, (proj2 (Z.ltb_lt _ _) H), orb_true_r. Qed.

(** *** The order of a query *)

Lemma sql_leb_iff a b : sql_event_leb a b = true ↔
  utc (ev_occurred_at a) < utc (ev_occurred_at b) ∨
  (utc (ev_occurred_at a) = utc (ev_occurred_at b) ∧ ev_id a <= ev_id b).
Proof. unfold sql_event_leb. by rewrite orb_true_iff, andb_true_iff, Z.ltb_lt, Z.eqb_eq, Z.leb_le. Qed.

Lemma sql_leb_total a b : sql_event_leb a b = false → sql_event_leb b a = true.
Proof. rewrite <- not_true_iff_false, !sql_leb_iff. lia. Qed.

Lemma sql_leb_trans a b d :
  sql_event_leb a b = true → sql_event_leb b d = true → sql_event_leb a d = true.
Proof. rewrite !sql_leb_iff. lia. Qed.

Lemma where_events_by_time p l : where_ p (events_by_time l) = events_by_time (where_ p l).
Proof. apply where_sorted_by; [apply sql_leb_total|apply sql_leb_trans]. Qed.

Definition plan_at' (k : Z * date) : ShiftPlan → bool := plan_at k.1 k.2.
Definition attendance_at' (k : Z * date) : Attendance → bool := attendance_at k.1 k.2.

Lemma plan_at_spec k p : plan_at' k p = true ↔ plan_key p = k.
Proof.
  destruct k as [e d]. unfold plan_at', plan_at, plan_key. simpl.
  rewrite andb_true_iff, !Z.eqb_eq. split; [intros [-> ->]; done | by intros [= -> ->]].
Qed.

Lemma attendance_at_spec k a : attendance_at' k a = true ↔ attendance_key a = k.
Proof.
  destruct k as [e d]. unfold attendance_at', attendance_at, attendance_key. simpl.
  rewrite andb_true_iff, !Z.eqb_eq. split; [intros [-> ->]; done | by intros [= -> ->]].
Qed.

(** The plan and attendance rows of a key. *)
Definition plan_rows (db : DB) (k : Z * date) : list ShiftPlan := where_ (plan_at' k) (plans db).
Definition attendance_rows (db : DB) (k : Z * date) : list Attendance :=
  where_ (attendance_at' k) (attendance db).

Lemma day_status_rows db e d :
  get_day_status db e d =
    match head (attendance_rows db (e, d)) with
    | Some a => if truthy (at_status a) then at_status a
                else match head (plan_rows db (e, d)) with Some p => sp_status p | None => None end
    | None => match head (plan_rows db (e, d)) with Some p => sp_status p | None => None end
    end.
Proof. done. Qed.

Lemma normalize_values v n :
  normalize_day_status v = Some n →
  n = None ∨ ∃ s, n = Some s ∧ s ∈ DAY_STATUS_VALUES.
Proof.
  unfold normalize_day_status. destruct v as [s|]; [|by intros [= <-]; left].
  destruct (mem _ _) eqn:E; [|done]. intros [= <-]. right. apply mem_true in E. eauto.
Qed.

(** A normalized status normalizes to itself. *)
Lemma normalize_idem v n : normalize_day_status v = Some n → normalize_day_status n = Some n.
Proof.
  intros [->|(s & -> & Hs)]%normalize_values; [done|].
  unfold DAY_STATUS_VALUES in Hs. rewrite !elem_of_cons, elem_of_nil in Hs.
  destruct Hs as [->|[->|[->|[->|[]]]]]; vm_compute; reflexivity.
Qed.

Lemma status_cases s :
  s ∈ DAY_STATUS_VALUES →
  (is_plan_status (Some s) = true ∧ is_attendance_status (Some s) = false) ∨
  (is_plan_status (Some s) = false ∧ is_attendance_status (Some s) = true).
Proof.
  unfold DAY_STATUS_VALUES. rewrite !elem_of_cons, elem_of_nil.
  intros [->|[->|[->|[->|[]]]]]; vm_compute; auto.
Qed.

Lemma status_truthy s : s ∈ DAY_STATUS_VALUES → truthy (Some s) = true.
Proof.
  unfold DAY_STATUS_VALUES. rewrite !elem_of_cons, elem_of_nil.
  intros [->|[->|[->|[->|[]]]]]; done.
Qed.

(** The conflicting events of a day are the employment's events of that day:
    an interval never leaves the day of its events. *)
Lemma conflicting_events_inside db e d :
  conflicting_events db e d =
    where_ (λ x, (midnight d <=? ev_wall x) && (ev_wall x <? midnight (d + 1)))
      (events_by_time (events_of db e)).
Proof.
  unfold conflicting_events, touching_events. set (evs := events_by_time _).
  set (inside := where_ _ evs).
  assert (Hin : ∀ x, x ∈ evs → ev_day x = d → ev_id x ∈ ev_id <$> inside).
  { intros x Hx Hd. apply list_elem_of_fmap_2. unfold inside. apply elem_of_where.
    split; [done|]. unfold ev_day, date_of in Hd. apply date_of_wall_spec in Hd.
    unfold ev_wall. rewrite andb_true_iff, Z.leb_le, Z.ltb_lt. done. }
  assert (Hput : ∀ x, x ∈ evs → ev_day x = d → dict_put inside x = inside).
  { intros x Hx Hd. unfold dict_put. by rewrite (proj2 (mem_true _ _) (Hin x Hx Hd)). }
  assert (Hp : Forall (λ p, p ∈ pair_event_rows evs) (pair_event_rows evs)) by by apply Forall_forall.
  revert Hp. generalize (pair_event_rows evs) at 2 3 as l.
  induction 1 as [|[s t] l Hst _ IH]; [done|]. simpl.
  destruct (_ && _) eqn:E; [|done]. bool_hyps.
  apply pair_event_rows_elem in Hst as (Hs & Ht & Hd & Hdur).
  assert (Hsd : ev_day s = d).
  { unfold ev_day, date_of in Hd |- *. unfold ev_wall in *.
    pose proof (proj1 (date_of_wall_spec (wall (ev_occurred_at s)) _) eq_refl) as H1.
    pose proof (proj1 (date_of_wall_spec (wall (ev_occurred_at t)) _) eq_refl) as H2.
    rewrite <- Hd in H2. unfold midnight, us_per_day in *. lia. }
  by rewrite (Hput s), (Hput t) by congruence.
Qed.

Lemma conflicting_events_elem db e d x :
  x ∈ conflicting_events db e d ↔
  x ∈ events db ∧ ev_employment_id x = e ∧ ev_day x = d.
Proof.
  rewrite conflicting_events_inside, elem_of_where. unfold events_by_time.
  rewrite elem_of_sorted_by. unfold events_of. rewrite elem_of_where, Z.eqb_eq.
  rewrite andb_true_iff, Z.leb_le, Z.ltb_lt. unfold ev_day, date_of.
  rewrite date_of_wall_spec. unfold ev_wall. tauto.
Qed.

Lemma delete_conflicting_events db e d x :
  ids_unique (events db) →
  x ∈ events (delete_events (conflicting_events db e d) db) ↔
  x ∈ events db ∧ ¬ (ev_employment_id x = e ∧ ev_day x = d).
Proof.
  intros Hu. unfold delete_events. simpl. rewrite elem_of_delete_where, mem_false. split.
  - intros [Hx Hn]. split; [done|]. intros [He Hd]. apply Hn, list_elem_of_fmap_2.
    by apply conflicting_events_elem.
  - intros [Hx Hn]. split; [done|]. intros (y & Hid & Hy)%list_elem_of_fmap.
    apply conflicting_events_elem in Hy as (Hy & He & Hd). apply Hn.
    by rewrite (ids_unique_eq (events db) x y).
Qed.

(** *** One plan or attendance row written *)

Section RowWrites.
Variables (db : DB) (wf : db_wf db).

Lemma delete_plan_rows k p k' :
  head (plan_rows db k) = Some p →
  plan_rows (delete_plan p db) k' = if decide (k' = k) then [] else plan_rows db k'.
Proof. apply table_delete with (key := plan_key); [apply plan_at_spec | apply (wf_plans db wf)..]. Qed.

Lemma update_plan_rows k p f k' :
  (∀ q, plan_key (f q) = plan_key q) → head (plan_rows db k) = Some p →
  plan_rows (update_plan p f db) k' = if decide (k' = k) then [f p] else plan_rows db k'.
Proof.
  intros Hf Hp. apply table_update with (key := plan_key);
    [apply plan_at_spec | apply (wf_plans db wf).. | done | done].
Qed.

Lemma add_plan_rows e i d a b s k' :
  head (plan_rows db (e, d)) = None →
  plan_rows (add_plan e i d a b s db) k' =
    if decide (k' = (e, d)) then [mk_plan (next_id db) e i d a b s] else plan_rows db k'.
Proof. intros H. apply table_add with (key := plan_key); [apply plan_at_spec | done | done]. Qed.

Lemma delete_attendance_rows k a k' :
  head (attendance_rows db k) = Some a →
  attendance_rows (delete_attendance a db) k' =
    if decide (k' = k) then [] else attendance_rows db k'.
Proof. apply table_delete with (key := attendance_key); [apply attendance_at_spec | apply (wf_attendance db wf)..]. Qed.

Lemma update_attendance_rows k a f k' :
  (∀ q, attendance_key (f q) = attendance_key q) → head (attendance_rows db k) = Some a →
  attendance_rows (update_attendance a f db) k' =
    if decide (k' = k) then [f a] else attendance_rows db k'.
Proof.
  intros Hf Ha. apply table_update with (key := attendance_key);
    [apply attendance_at_spec | apply (wf_attendance db wf).. | done | done].
Qed.

Lemma add_attendance_rows e i d s k' :
  head (attendance_rows db (e, d)) = None →
  attendance_rows (add_attendance e i d s db) k' =
    if decide (k' = (e, d)) then [mk_attendance (next_id db) e i d s]
    else attendance_rows db k'.
Proof.
  intros H. apply table_add with (key := attendance_key); [apply attendance_at_spec | done | done].
Qed.
End RowWrites.

(** *** Effect of the writes on one day *)

Definition plan_status (db : DB) (k : Z * date) : option string :=
  match head (plan_rows db k) with Some p => sp_status p | None => None end.
Definition attendance_status (db : DB) (k : Z * date) : option string :=
  match head (attendance_rows db k) with Some a => at_status a | None => None end.

Lemma get_day_status_eq db e d :
  get_day_status db e d =
    if truthy (attendance_status db (e, d)) then attendance_status db (e, d)
    else plan_status db (e, d).
Proof.
  rewrite day_status_rows. unfold attendance_status, plan_status.
  by destruct (head (attendance_rows db (e, d))).
Qed.

(** Nothing changed but rows and events of employment [k.1] on day [k.2]. *)
Record day_frame (k : Z * date) (db db' : DB) : Prop := {
  frame_tables : same_other_tables db db';
  frame_plans : ∀ k', k' ≠ k → plan_rows db' k' = plan_rows db k';
  frame_attendance : ∀ k', k' ≠ k → attendance_rows db' k' = attendance_rows db k';
  frame_events : ∀ x, (ev_employment_id x, ev_day x) ≠ k → x ∈ events db' ↔ x ∈ events db;
}.

#[global] Instance day_frame_preorder k : PreOrder (day_frame k).
Proof.
  split.
  - intros a. by constructor.
  - intros a b c [T1 P1 A1 E1] [T2 P2 A2 E2]. constructor.
    + by transitivity b.
    + intros k' Hk. by rewrite P2, P1.
    + intros k' Hk. by rewrite A2, A1.
    + intros x Hx. by rewrite E2, E1.
Qed.

(** Values a write may not spoil: the times of plans, the status names, the
    primary-key counter. *)
Definition plans_valid (db : DB) : Prop := ∀ p, p ∈ plans db → plan_times_valid p = true.

Definition status_valid (s : option string) : Prop := ∀ v, s = Some v → v ∈ DAY_STATUS_VALUES.

Definition statuses_valid (db : DB) : Prop :=
  (∀ p, p ∈ plans db → status_valid (sp_status p)) ∧
  (∀ a, a ∈ attendance db → status_valid (at_status a)).

Record kept (db db' : DB) : Prop := {
  kept_next : next_id db <= next_id db';
  kept_plans : plans_valid db → plans_valid db';
  kept_statuses : statuses_valid db → statuses_valid db';
}.

#[global] Instance kept_preorder : PreOrder kept.
Proof.
  split.
  - intros a. by constructor.
  - intros a b c [N1 P1 S1] [N2 P2 S2]. constructor; [lia|auto|auto].
Qed.

Ltac other_tables := unfold same_other_tables; simpl; split_and!; reflexivity.
Ltac frame_rows lemma :=
  let k' := fresh in let Hk := fresh in
  intros k' Hk; erewrite lemma by (eassumption || done); by rewrite decide_False.

Section Effects.
Variables (db : DB) (wf : db_wf db).

Lemma wf_delete_plan p : db_wf (delete_plan p db).
Proof. destruct wf. constructor; [by apply keyed_delete | done | done]. Qed.
Lemma wf_update_plan p i a b s : db_wf (update_plan p (plan_values i a b s) db).
Proof. destruct wf. constructor; [by apply keyed_update | done | done]. Qed.
Lemma wf_add_plan e i d a b s :
  head (plan_rows db (e, d)) = None → db_wf (add_plan e i d a b s db).
Proof.
  intros Hn. destruct wf. constructor; simpl;
    [|eapply keyed_mono; [|done]; lia..].
  apply keyed_add; [done| |done]. intros (q & Hq & Hin)%list_elem_of_fmap.
  unfold plan_rows in Hn. apply (where_nil_iff (plan_at' (e, d)) (plans db)) with q in Hin.
  - symmetry in Hq. apply plan_at_spec in Hq. change (plan_at' (e, d) q = true) in Hq. congruence.
  - by destruct (where_ _ _).
Qed.

Lemma wf_delete_attendance a : db_wf (delete_attendance a db).
Proof. destruct wf. constructor; [done | by apply keyed_delete | done]. Qed.
Lemma wf_update_attendance a i s : db_wf (update_attendance a (attendance_values i s) db).
Proof. destruct wf. constructor; [done | by apply keyed_update | done]. Qed.
Lemma wf_add_attendance e i d s :
  head (attendance_rows db (e, d)) = None → db_wf (add_attendance e i d s db).
Proof.
  intros Hn. destruct wf. constructor; simpl;
    [eapply keyed_mono; [|done]; lia | | eapply keyed_mono; [|done]; lia].
  apply keyed_add; [done| |done]. intros (q & Hq & Hin)%list_elem_of_fmap.
  unfold attendance_rows in Hn.
  apply (where_nil_iff (attendance_at' (e, d)) (attendance db)) with q in Hin.
  - symmetry in Hq. apply attendance_at_spec in Hq.
    change (attendance_at' (e, d) q = true) in Hq. congruence.
  - by destruct (where_ _ _).
Qed.

Lemma kept_delete_plan p : kept db (delete_plan p db).
Proof.
  constructor; [done|..].
  - intros H q [Hq _]%elem_of_delete_where. by apply H.
  - intros [H1 H2]. split; [|done]. intros q [Hq _]%elem_of_delete_where. by apply H1.
Qed.
Lemma kept_update_plan p i a b s :
  (plans_valid db → plan_times_valid (plan_values i a b s p) = true) →
  status_valid s → p ∈ plans db →
  kept db (update_plan p (plan_values i a b s) db).
Proof.
  intros Ht Hs Hp. constructor; [done|..].
  - intros H q (r & Hr & ->)%elem_of_update_where.
    destruct (sp_id r =? sp_id p) eqn:E; [|by apply H]. by apply Ht in H.
  - intros [H1 H2]. split; [|done]. intros q (r & Hr & ->)%elem_of_update_where.
    destruct (sp_id r =? sp_id p); [done|by apply H1].
Qed.
Lemma kept_add_plan e i d a b s :
  plan_times_valid (mk_plan (next_id db) e i d a b s) = true → status_valid s →
  kept db (add_plan e i d a b s db).
Proof.
  intros Ht Hs. constructor; [simpl; lia|..].
  - intros H q [Hq| ->%list_elem_of_singleton]%elem_of_app; [by apply H|done].
  - intros [H1 H2]. split; [|done].
    intros q [Hq| ->%list_elem_of_singleton]%elem_of_app; [by apply H1|done].
Qed.
Lemma kept_delete_attendance a : kept db (delete_attendance a db).
Proof.
  constructor; [done|done|].
  intros [H1 H2]. split; [done|]. intros q [Hq _]%elem_of_delete_where. by apply H2.
Qed.
Lemma kept_update_attendance a i s :
  status_valid s → kept db (update_attendance a (attendance_values i s) db).
Proof.
  intros Hs. constructor; [done|done|]. intros [H1 H2]. split; [done|].
  intros q (r & Hr & ->)%elem_of_update_where. destruct (at_id r =? at_id a); [done|by apply H2].
Qed.
Lemma kept_add_attendance e i d s : status_valid s → kept db (add_attendance e i d s db).
Proof.
  intros Hs. constructor; [simpl; lia|done|]. intros [H1 H2]. split; [done|].
  intros q [Hq| ->%list_elem_of_singleton]%elem_of_app; [by apply H2|done].
Qed.
Lemma kept_delete_events l : kept db (delete_events l db).
Proof. by constructor. Qed.

Lemma wf_delete_events l : db_wf (delete_events l db).
Proof. destruct wf. constructor; [done | done | by apply keyed_delete]. Qed.

Lemma frame_delete_plan k p :
  head (plan_rows db k) = Some p → day_frame k db (delete_plan p db).
Proof.
  intros H. constructor; [other_tables | frame_rows delete_plan_rows | done | done].
Qed.
Lemma frame_update_plan k p i a b s :
  head (plan_rows db k) = Some p →
  day_frame k db (update_plan p (plan_values i a b s) db).
Proof.
  intros H. constructor; [other_tables | frame_rows update_plan_rows | done | done].
Qed.
Lemma frame_add_plan e i d a b s :
  head (plan_rows db (e, d)) = None → day_frame (e, d) db (add_plan e i d a b s db).
Proof. intros H. constructor; [other_tables | frame_rows add_plan_rows | done | done]. Qed.
Lemma frame_delete_attendance k a :
  head (attendance_rows db k) = Some a → day_frame k db (delete_attendance a db).
Proof.
  intros H. constructor; [other_tables | done | frame_rows delete_attendance_rows | done].
Qed.
Lemma frame_update_attendance k a i s :
  head (attendance_rows db k) = Some a →
  day_frame k db (update_attendance a (attendance_values i s) db).
Proof.
  intros H. constructor; [other_tables | done | frame_rows update_attendance_rows | done].
Qed.
Lemma frame_add_attendance e i d s :
  head (attendance_rows db (e, d)) = None →
  day_frame (e, d) db (add_attendance e i d s db).
Proof.
  intros H. constructor; [other_tables | done | frame_rows add_attendance_rows | done].
Qed.
Lemma frame_delete_events e d :
  day_frame (e, d) db (delete_events (conflicting_events db e d) db).
Proof.
  constructor; [other_tables | done | done |]. intros x Hx.
  rewrite delete_conflicting_events by apply (wf_events db wf). naive_solver congruence.
Qed.
End Effects.

(** *** The two setters, once their confirmation is given *)

Section Setters.
Context `{zone : PragueZone}.

Lemma kept_clear_plan db p i :
  kept db (update_plan p
    (λ q, plan_values i (sp_arrival_time q) (sp_departure_time q) None q) db).
Proof.
  constructor; [done|..].
  - intros H q (r & Hr & ->)%elem_of_update_where.
    destruct (sp_id r =? sp_id p); [|by apply H]. exact (H r Hr).
  - intros [H1 H2]. split; [|done]. intros q (r & Hr & ->)%elem_of_update_where.
    destruct (sp_id r =? sp_id p); [done|by apply H1].
Qed.

Lemma plan_row_in db k p : head (plan_rows db k) = Some p → p ∈ plans db.
Proof. intros H. by apply (table_found plan_key plan_at' plan_at_spec) in H as [? _]. Qed.

Lemma status_valid_normalized st n : normalize_day_status st = Some n → status_valid n.
Proof. intros [->|(s & -> & Hs)]%normalize_values v; [done|]. by intros [= <-]. Qed.

(** A setter returns wherever its conflicts can be collected. *)
Lemma set_shift_plan_status_total db e d st i n :
  normalize_day_status st = Some n → n ∈ [None; Some DAY_STATUS_HOLIDAY; Some DAY_STATUS_OFF] →
  d < LAST_DATE → ∃ db' c, set_shift_plan_status db e d st true i = Ok (db', c).
Proof.
  intros Hn Hin Hd. unfold set_shift_plan_status.
  rewrite Hn, (proj2 (mem_true _ _) Hin), collect_before by done.
  cbn [negb rbind]. rewrite andb_false_r.
  destruct n, (get_shift_plan_day db e d); [..|case_goal|]; by eexists _, _.
Qed.

Lemma set_attendance_status_total db e d st i n :
  normalize_day_status st = Some n → n ∈ [None; Some DAY_STATUS_SICKNESS; Some DAY_STATUS_PARAGRAPH] →
  d < LAST_DATE → ∃ db' c, set_attendance_status db e d st true i = Ok (db', c).
Proof.
  intros Hn Hin Hd. unfold set_attendance_status.
  rewrite Hn, (proj2 (mem_true _ _) Hin), collect_before by done.
  cbn [negb rbind]. rewrite andb_false_r.
  destruct n, (get_attendance_day db e d); try (by eexists _, _).
  rewrite (proj2 (day_after_ok d (d + 1))) by done. cbn [rbind]. case_goal; by eexists _, _.
Qed.

Lemma set_shift_plan_status_ok db e d st i n db' c :
  db_wf db → normalize_day_status st = Some n →
  n ∈ [None; Some DAY_STATUS_HOLIDAY; Some DAY_STATUS_OFF] →
  set_shift_plan_status db e d st true i = Ok (db', c) →
  db_wf db' ∧ day_frame (e, d) db db' ∧ events db' = events db ∧
  attendance db' = attendance db ∧ plan_status db' (e, d) = n ∧ kept db db' ∧
  (n = None → plan_rows db (e, d) = [] → db' = db).
Proof.
  intros wf Hn Hin H. pose proof (status_valid_normalized _ _ Hn) as Hsv.
  unfold set_shift_plan_status in H. rewrite Hn, (proj2 (mem_true _ _) Hin) in H.
  cbn [negb] in H. ok_inv H. clear Hstep. rewrite andb_false_r in H.
  change (get_shift_plan_day db e d) with (head (plan_rows db (e, d))) in H.
  destruct n as [s|], (head (plan_rows db (e, d))) as [p|] eqn:Hp.
  - injection H as <- _. split_and!; try done.
    + by apply wf_update_plan.
    + by apply frame_update_plan.
    + unfold plan_status. erewrite update_plan_rows by done. by rewrite decide_True.
    + apply kept_update_plan; [done|done|by eapply plan_row_in].
  - injection H as <- _. split_and!; try done.
    + by apply wf_add_plan.
    + by apply frame_add_plan.
    + unfold plan_status. rewrite add_plan_rows by done. by rewrite decide_True.
    + by apply kept_add_plan.
  - destruct (_ && _); injection H as <- _; split_and!; try done.
    + by apply wf_delete_plan.
    + by apply frame_delete_plan.
    + unfold plan_status. erewrite delete_plan_rows by done. by rewrite decide_True.
    + apply kept_delete_plan.
    + intros _ Hr. by rewrite Hr in Hp.
    + destruct wf. constructor; [by apply keyed_update | done | done].
    + constructor; [other_tables | frame_rows update_plan_rows | done | done].
    + unfold plan_status. erewrite update_plan_rows by done. by rewrite decide_True.
    + apply kept_clear_plan.
    + intros _ Hr. by rewrite Hr in Hp.
  - injection H as <- _. split_and!; try done. unfold plan_status. by rewrite Hp.
Qed.

Lemma set_attendance_status_ok db e d st i n db' c :
  db_wf db → normalize_day_status st = Some n →
  n ∈ [None; Some DAY_STATUS_SICKNESS; Some DAY_STATUS_PARAGRAPH] →
  set_attendance_status db e d st true i = Ok (db', c) →
  db_wf db' ∧ day_frame (e, d) db db' ∧ events db' = events db ∧
  plans db' = plans db ∧ attendance_status db' (e, d) = n ∧ kept db db'.
Proof.
  intros wf Hn Hin H. pose proof (status_valid_normalized _ _ Hn) as Hsv.
  unfold set_attendance_status in H. rewrite Hn, (proj2 (mem_true _ _) Hin) in H.
  cbn [negb] in H. ok_inv H. clear Hstep. rewrite andb_false_r in H.
  change (get_attendance_day db e d) with (head (attendance_rows db (e, d))) in H.
  destruct n as [s|], (head (attendance_rows db (e, d))) as [a|] eqn:Ha.
  - injection H as <- _. split_and!; try done.
    + by apply wf_update_attendance.
    + by apply frame_update_attendance.
    + unfold attendance_status. erewrite update_attendance_rows by done. by rewrite decide_True.
    + by apply kept_update_attendance.
  - injection H as <- _. split_and!; try done.
    + by apply wf_add_attendance.
    + by apply frame_add_attendance.
    + unfold attendance_status. rewrite add_attendance_rows by done. by rewrite decide_True.
    + by apply kept_add_attendance.
  - ok_inv H. destruct (nonempty _); injection H as <- _; split_and!; try done.
    + by apply wf_update_attendance.
    + by apply frame_update_attendance.
    + unfold attendance_status. erewrite update_attendance_rows by done. by rewrite decide_True.
    + by apply kept_update_attendance.
    + by apply wf_delete_attendance.
    + by apply frame_delete_attendance.
    + unfold attendance_status. erewrite delete_attendance_rows by done. by rewrite decide_True.
    + apply kept_delete_attendance.
  - injection H as <- _. split_and!; try done. unfold attendance_status. by rewrite Ha.
Qed.

(** The loop of [replace_day_status] over the conflicting plans is one
    deletion when the status replaces the plan, and nothing otherwise. *)
Lemma delete_plan_loop db e d n :
  db_wf db →
  let step := λ d0 p, if negb (sp_date p =? d) || is_attendance_status n
                      then delete_plan p d0 else d0 in
  let db' := fold_left step (conflicting_shift_plans db e d) db in
  db_wf db' ∧ day_frame (e, d) db db' ∧ events db' = events db ∧
  attendance db' = attendance db ∧
  (is_attendance_status n = true → plan_rows db' (e, d) = []) ∧ kept db db'.
Proof.
  intros wf step. unfold step. clear step.
  change (conflicting_shift_plans db e d) with (plan_rows db (e, d)).
  destruct (head (plan_rows db (e, d))) as [p|] eqn:Hp.
  - assert (Hrows : plan_rows db (e, d) = [p]).
    { apply (table_single plan_key plan_at' plan_at_spec); [apply wf_plans, wf | done]. }
    rewrite Hrows. simpl.
    assert (Hd : sp_date p = d).
    { destruct (table_found plan_key plan_at' plan_at_spec (e, d) _ _ Hp) as [_ [= _ Hk]]. done. }
    rewrite Hd, Z.eqb_refl. simpl. destruct (is_attendance_status n) eqn:En.
    + split_and!; [by apply wf_delete_plan | by apply frame_delete_plan | done | done | |].
      * intros _. erewrite delete_plan_rows by done. by rewrite decide_True.
      * apply kept_delete_plan.
    + split_and!; done.
  - destruct (plan_rows db (e, d)) eqn:Hrows; [|done]. simpl. by split_and!.
Qed.
End Setters.

(** What a confirmed (or conflict-free) replacement does. *)
Record replaced (db db' : DB) (e : Z) (d : date) (n : option string) : Prop := {
  replaced_wf : db_wf db';
  replaced_frame : day_frame (e, d) db db';
  replaced_status : get_day_status db' e d = n;
  replaced_events : if bool_decide (n = None) then events db' = events db
                    else conflicting_events db' e d = [];
  replaced_plan : is_attendance_status n = true → plan_rows db' (e, d) = [];
  replaced_attendance : is_plan_status n = true → attendance_rows db' (e, d) = [];
  replaced_none : n = None →
    attendance_status db' (e, d) = None ∧ plan_status db' (e, d) = None;
  replaced_plan_rows : plan_rows db (e, d) = [] → is_plan_status n = false →
    plan_rows db' (e, d) = [];
  replaced_attendance_status : is_attendance_status n = false →
    attendance_status db' (e, d) = None;
  replaced_kept : kept db db';
}.

Section Replace.
Context `{zone : PragueZone}.

Lemma no_conflicting_events db e d :
  (∀ x, x ∈ events db → ¬ (ev_employment_id x = e ∧ ev_day x = d)) →
  conflicting_events db e d = [].
Proof.
  intros H. destruct (conflicting_events db e d) as [|x l] eqn:E; [done|].
  assert (Hx : x ∈ conflicting_events db e d) by (rewrite E; left).
  apply conflicting_events_elem in Hx as [Hx Hk]. by apply H in Hx.
Qed.

Lemma events_cleared db db' e d :
  ids_unique (events db) →
  events db' = events (delete_events (conflicting_events db e d) db) →
  conflicting_events db' e d = [].
Proof.
  intros Hu Hev. apply no_conflicting_events. rewrite Hev. intros x Hx.
  by apply delete_conflicting_events in Hx as [_ Hx].
Qed.

Lemma replace_clears db e d i :
  db_wf db → d < LAST_DATE →
  ∃ db', (let? r := set_attendance_status db e d None true i in
          let? r' := set_shift_plan_status r.1 e d None true i in
          Ok (r'.1, conflicts_of db e d)) =
    Ok (db', conflicts_of db e d) ∧ replaced db db' e d None.
Proof.
  intros wf Hd.
  destruct (set_attendance_status_total db e d None i None) as (db1 & c1 & Hs1); [done|left|done|].
  destruct (set_attendance_status_ok db e d None i None db1 c1)
    as (wf1 & F1 & E1 & P1 & S1 & K1); [done|done|left|done|].
  destruct (set_shift_plan_status_total db1 e d None i None) as (db2 & c2 & Hs2); [done|left|done|].
  destruct (set_shift_plan_status_ok db1 e d None i None db2 c2)
    as (wf2 & F2 & E2 & A2 & S2 & K2 & N2); [done|done|left|done|].
  rewrite Hs1. simpl. rewrite Hs2. simpl. eexists. split; [reflexivity|].
  assert (Hatt : attendance_status db2 (e, d) = None).
  { unfold attendance_status, attendance_rows in *. by rewrite A2. }
  constructor; try done; [by transitivity db1 | | by rewrite E2 | | by transitivity db1].
  - by rewrite get_day_status_eq, Hatt.
  - intros Hp _. assert (plan_rows db1 (e, d) = []) as Hp1.
    { unfold plan_rows in *. by rewrite P1. }
    by rewrite (N2 eq_refl Hp1).
Qed.

Lemma replace_with_plan_status db e d i n (c : DayStatusConflicts) :
  db_wf db → d < LAST_DATE → normalize_day_status n = Some n → is_plan_status n = true →
  is_attendance_status n = false →
  let db1 := delete_events (conflicting_events db e d) db in
  let db2 := fold_left (λ d0 p, if negb (sp_date p =? d) || is_attendance_status n
               then delete_plan p d0 else d0) (conflicting_shift_plans db e d) db1 in
  let db3 := match get_attendance_day db e d with
             | Some a => delete_attendance a db2 | None => db2 end in
  ∃ db', (let? r := set_shift_plan_status db3 e d n true i in Ok (r.1, c)) = Ok (db', c) ∧
    replaced db db' e d n.
Proof.
  intros wf Hd Hn Hp Ha db1 db2 db3.
  assert (wf1 : db_wf db1) by by apply wf_delete_events.
  destruct (delete_plan_loop db1 e d n wf1) as (wf2 & F2 & E2 & A2 & _ & K2).
  fold db2 in wf2, F2, E2, A2, K2. change (conflicting_shift_plans db1 e d)
    with (conflicting_shift_plans db e d) in *. fold db2 in wf2, F2, E2, A2, K2.
  assert (H3 : db_wf db3 ∧ day_frame (e, d) db2 db3 ∧ events db3 = events db1 ∧
               attendance_rows db3 (e, d) = [] ∧ kept db2 db3).
  { unfold db3. change (get_attendance_day db e d) with (head (attendance_rows db (e, d))).
    assert (Hr : attendance_rows db2 (e, d) = attendance_rows db (e, d)).
    { unfold attendance_rows. by rewrite A2. }
    rewrite <- Hr. destruct (head (attendance_rows db2 (e, d))) as [a|] eqn:Hh.
    - split_and!; [by apply wf_delete_attendance | by apply frame_delete_attendance | done | |].
      + erewrite delete_attendance_rows by done. by rewrite decide_True.
      + apply kept_delete_attendance.
    - split_and!; [done | done | done | | done]. by destruct (attendance_rows db2 (e, d)). }
  destruct H3 as (wf3 & F3 & E3 & A3 & K3).
  assert (Hin : n ∈ [None; Some DAY_STATUS_HOLIDAY; Some DAY_STATUS_OFF]).
  { unfold is_plan_status, status_is in Hp. rewrite orb_true_iff in Hp.
    destruct n as [s|]; [|by destruct Hp].
    rewrite !bool_decide_eq_true in Hp. set_solver. }
  destruct (set_shift_plan_status_total db3 e d n i n Hn Hin Hd) as (db4 & c4 & Hs).
  destruct (set_shift_plan_status_ok db3 e d n i n db4 c4 wf3 Hn Hin Hs)
    as (wf4 & F4 & E4 & A4 & S4 & K4 & _).
  exists db4. rewrite Hs. split; [reflexivity|].
  assert (Hrows : attendance_rows db4 (e, d) = []).
  { unfold attendance_rows in *. by rewrite A4. }
  constructor; try done; try (intros; congruence).
  - transitivity db1; [by apply frame_delete_events|]. by do 2 (etransitivity; [done|]).
  - rewrite get_day_status_eq. unfold attendance_status. by rewrite Hrows.
  - rewrite bool_decide_eq_false_2 by (intros ->; done).
    apply (events_cleared db); [apply (wf_events db wf)|]. by rewrite E4, E3.
  - by intros ->.
  - intros _. unfold attendance_status. by rewrite Hrows.
  - transitivity db1; [by apply kept_delete_events|]. by do 2 (etransitivity; [done|]).
Qed.

Lemma replace_with_attendance_status db e d i n (c : DayStatusConflicts) :
  db_wf db → d < LAST_DATE → normalize_day_status n = Some n → is_plan_status n = false →
  is_attendance_status n = true →
  let db1 := delete_events (conflicting_events db e d) db in
  let plans0 := conflicting_shift_plans db e d in
  let db2 := fold_left (λ d0 p, if negb (sp_date p =? d) || is_attendance_status n
               then delete_plan p d0 else d0) plans0 db1 in
  let db3 := match get_shift_plan_day db e d with
             | Some p => if mem p plans0 then db2 else delete_plan p db2 | None => db2 end in
  ∃ db', (let? r := set_attendance_status db3 e d n true i in Ok (r.1, c)) = Ok (db', c) ∧
    replaced db db' e d n.
Proof.
  intros wf Hd Hn Hp Ha db1 plans0 db2 db3.
  assert (wf1 : db_wf db1) by by apply wf_delete_events.
  destruct (delete_plan_loop db1 e d n wf1) as (wf2 & F2 & E2 & A2 & P2 & K2).
  change (conflicting_shift_plans db1 e d) with plans0 in *. fold db2 in wf2, F2, E2, A2, P2, K2.
  assert (Hdb3 : db3 = db2).
  { unfold db3. destruct (get_shift_plan_day db e d) as [p|] eqn:Hg; [|done].
    rewrite (proj2 (mem_true p plans0)); [done|]. unfold get_shift_plan_day in Hg.
    unfold plans0, conflicting_shift_plans.
    destruct (where_ _ _); [done|]. injection Hg as ->. left. }
  rewrite Hdb3.
  assert (Hin : n ∈ [None; Some DAY_STATUS_SICKNESS; Some DAY_STATUS_PARAGRAPH]).
  { unfold is_attendance_status, status_is in Ha. rewrite orb_true_iff in Ha.
    destruct n as [s|]; [|by destruct Ha].
    rewrite !bool_decide_eq_true in Ha. set_solver. }
  destruct (set_attendance_status_total db2 e d n i n Hn Hin Hd) as (db4 & c4 & Hs).
  destruct (set_attendance_status_ok db2 e d n i n db4 c4 wf2 Hn Hin Hs)
    as (wf4 & F4 & E4 & P4 & S4 & K4).
  rewrite Hs.
  assert (Hrows : plan_rows db4 (e, d) = []).
  { unfold plan_rows in *. rewrite P4. by apply P2. }
  exists db4. split; [reflexivity|].
  constructor; try done; try (intros; congruence).
  - transitivity db1; [by apply frame_delete_events|]. by transitivity db2.
  - rewrite get_day_status_eq, S4. destruct (truthy n) eqn:Et; [done|].
    unfold plan_status. rewrite Hrows. simpl.
    destruct (normalize_values _ _ Hn) as [->|(s & -> & Hv)]; [done|].
    by rewrite status_truthy in Et.
  - rewrite bool_decide_eq_false_2 by (intros ->; done).
    apply (events_cleared db); [apply (wf_events db wf)|]. by rewrite E4, E2.
  - by intros ->.
  - transitivity db1; [by apply kept_delete_events|]. by transitivity db2.
Qed.

(** The change that is refused until it is confirmed. *)
Definition needs_confirmation (db : DB) (e : Z) (d : date) (n : option string) (confirm : bool) : bool :=
  bool_decide (n ≠ None) && bool_decide (n ≠ get_day_status db e d) &&
  has_conflicts (conflicts_of db e d) && negb confirm.

Lemma replace_before db e d st confirm i n :
  db_wf db → normalize_day_status st = Some n → d < LAST_DATE →
  ∃ db', replace_day_status db e d st confirm i = Ok (db', conflicts_of db e d) ∧
    (if needs_confirmation db e d n confirm then db' = db else replaced db db' e d n).
Proof.
  intros wf Hst Hd. pose proof (normalize_idem _ _ Hst) as Hn. unfold needs_confirmation.
  unfold replace_day_status. rewrite Hst, collect_before by done. cbn [rbind]. cbn zeta.
  destruct (_ && negb confirm) eqn:Ec.
  { eexists. split; reflexivity. }
  destruct (normalize_values _ _ Hst) as [->|(s & -> & Hs)]; [by apply replace_clears|].
  rewrite (proj2 (conflicting_ok db e d _) (conj Hd eq_refl)). cbn [rbind].
  destruct (status_cases s Hs) as [[Hp Ha]|[Hp Ha]]; rewrite Hp.
  - by apply replace_with_plan_status.
  - by apply replace_with_attendance_status.
Qed.

(** On the last day a date can name nothing is done: the end of the day is
    computed first, unless the row alone shows a conflict to confirm. *)
Lemma replace_last db e d st confirm i n :
  normalize_day_status st = Some n → LAST_DATE <= d →
  replace_day_status db e d st confirm i =
    if has_attendance_status db e d && needs_confirmation db e d n confirm
    then Ok (db, conflicts_of db e d) else Err (Crash "OverflowError").
Proof.
  intros Hst Hd. pose proof (normalize_idem _ _ Hst) as Hn.
  assert (Hl : (d <? LAST_DATE) = false) by by apply Z.ltb_ge.
  assert (Hev : conflicting_attendance_events db e d = Err (Crash "OverflowError")).
  { unfold conflicting_attendance_events. by rewrite day_after_last. }
  unfold replace_day_status, needs_confirmation. rewrite Hst, collect_eq, Hl, orb_false_r.
  destruct (has_attendance_status db e d) eqn:Ha; [|done]. cbn [rbind andb].
  destruct (_ && negb confirm) eqn:Ec; [done|]. destruct n as [s|].
  - by rewrite Hev.
  - unfold set_attendance_status. rewrite collect_eq, Ha, Hl. simpl.
    unfold has_attendance_status in Ha. destruct (get_attendance_day db e d); [|done].
    by rewrite day_after_last.
Qed.

Lemma replace_day_status_ok db e d st confirm i n db' c :
  db_wf db → normalize_day_status st = Some n →
  replace_day_status db e d st confirm i = Ok (db', c) →
  c = conflicts_of db e d ∧
  (if needs_confirmation db e d n confirm then db' = db else replaced db db' e d n).
Proof.
  intros wf Hst H. destruct (Z_lt_le_dec d LAST_DATE) as [Hd|Hd].
  - destruct (replace_before db e d st confirm i n wf Hst Hd) as (db1 & Hr & Hc).
    rewrite Hr in H. by injection H as <- <-.
  - rewrite (replace_last db e d st confirm i n Hst Hd) in H.
    destruct (has_attendance_status db e d); [|done]. cbn [andb] in H.
    destruct (needs_confirmation _ _ _ _ _); [|done]. by injection H as <- <-.
Qed.
End Replace.

(** ** Properties *)

Section Properties.
Context `{zone : PragueZone}.


(** the events a status change must delete are exactly the events of
    that employment on that day: pairing them into intervals never pulls an
    event of another day into the conflict. *)
Theorem conflicting_events_exact db e d x :
  x ∈ conflicting_events db e d ↔
  x ∈ events db ∧ ev_employment_id x = e ∧ ev_day x = d.
Proof. apply conflicting_events_elem. Qed.
End Properties.

(** A day with a shift plan and a worked interval becomes a day of sickness
    once confirmed. *)
Definition example_day_db : DB :=
  set_next_id 10 (set_plans [mk_plan 1 7 None 9 (Some "08:00") (Some "16:00") None]
    (set_events [mk_event 2 7 (mk_aware (midnight 9 + 100) (midnight 9 + 100));
                 mk_event 3 7 (mk_aware (midnight 9 + 200) (midnight 9 + 200))] empty_db))%string.

Lemma example_day_wf : db_wf example_day_db.
Proof.
  constructor; constructor;
    first [by apply (bool_decide_unpack _); vm_compute | repeat constructor; simpl; lia].
Qed.

