(* ===== verification/AttendanceEvents.v ===== *)
(** * app/services/attendance_events.py and attendance_mutations.py

    Adding attendance events with their automatic breaks, and the detection
    of the days a mutation of events changes.  A set of days or of interval
    signatures is a list without regard to order or repetition: the code only
    tests membership, or iterates where the order cannot be observed. *)

From S2P Require Import Prelude Calendar TimeParse PragueTime Models TimeIntervals Breaks.
From S2P Require Import TimeMetrics DayStatus.

(** [except ValueError: raise_api_error(...)]: in the [try] blocks modelled
    below the only exception that is not an HTTP error is [ValueError]. *)
Definition except_value_error {A} (m : result A) (e : api_error) : result A :=
  match m with
  | Err (Crash _) => Err e
  | _ => m
  end.

Definition add_event (employment_id : Z) (db : DB) (occurred_at : aware) : DB :=
  bump_id (set_events (events db ++ [mk_event (next_id db) employment_id occurred_at]) db).

(** [db.add_all(additions)]: primary keys are given in the order of the list. *)
Definition add_events (employment_id : Z) (times : list aware) (db : DB) : DB :=
  fold_left (add_event employment_id) times db.

Section AttendanceEvents.
Context `{zone : PragueZone}.

Definition closed_interval_times (e : Employment) (started_at ended_at : aware)
    : result (list aware) :=
  if negb (date_of ended_at =? date_of started_at) then Err (Crash "ValueError: day")
  else if wall ended_at <=? wall started_at then Err (Crash "ValueError: order")
  else Ok ([started_at] ++
           (if em_automatic_breaks_enabled e
            then at_wall <$> automatic_break_events (wall started_at) (wall ended_at) else []) ++
           [ended_at]).

Definition add_closed_interval_with_breaks (db : DB) (e : Employment)
    (started_at ended_at : aware) : result DB :=
  let? additions := closed_interval_times e started_at ended_at in
  Ok (add_events (em_id e) additions db).

(** [ordered_day.index(event)]. *)
Fixpoint index_of (x : AttendanceEvent) (l : list AttendanceEvent) : nat :=
  match l with
  | [] => O
  | y :: l' => if decide (y = x) then O else S (index_of x l')
  end.

(** The event not yet added has no primary key: [item.id or 0]. *)
Definition pending_event (employment_id : Z) (occurred_at : aware) : AttendanceEvent :=
  mk_event 0 employment_id occurred_at.

Definition previous_event (db : DB) (employment_id : Z) (occurred_at : aware)
    : option AttendanceEvent :=
  let event := pending_event employment_id occurred_at in
  let existing := events_by_time (events_of db employment_id) in
  let same_day := where_ (λ x, ev_day x =? date_of occurred_at) existing in
  let ordered_day := ordered_events (same_day ++ [event]) in
  let event_index := index_of event ordered_day in
  if Nat.odd event_index then ordered_day !! pred event_index else None.

Definition event_times (db : DB) (e : Employment) (occurred_at : aware) : list aware :=
  match previous_event db (em_id e) occurred_at with
  | Some previous =>
      if em_automatic_breaks_enabled e
      then occurred_at ::
        (at_wall <$> automatic_break_events (ev_wall previous) (wall occurred_at))
      else [occurred_at]
  | None => [occurred_at]
  end.

Definition add_event_with_breaks (db : DB) (e : Employment) (occurred_at : aware) : DB :=
  add_events (em_id e) (event_times db e occurred_at) db.
End AttendanceEvents.

(** ** attendance_mutations.py *)

Definition interval_signatures (evs : list AttendanceEvent) : list (Z * Z) :=
  (λ i, (wi_start i, wi_end i)) <$> pair_events evs.

Definition symmetric_difference (before after : list (Z * Z)) : list (Z * Z) :=
  where_ (λ x, negb (mem x after)) before ++ where_ (λ x, negb (mem x before)) after.

Definition changed_event_days (before after : list (Z * Z)) (timestamps : list aware)
    : list date :=
  (date_of <$> timestamps) ++
  mjoin ((λ p, fst <$> split_by_day (mk_interval p.1 p.2)) <$> symmetric_difference before after).

Definition months_for_days (days : list date) : list (Z * Z) := dedup (ym_of <$> days).

Definition is_some {A} (o : option A) : bool := match o with Some _ => true | None => false end.

Definition ensure_days_have_no_status (db : DB) (employment_id : Z) (days : list date)
    : result unit :=
  match days with
  | [] => Ok tt
  | _ =>
      let attendance_status := where_ (λ a, (at_employment_id a =? employment_id) &&
        mem (at_date a) days && is_some (at_status a)) (attendance db) in
      let plan_status := where_ (λ p, (sp_employment_id p =? employment_id) &&
        mem (sp_date p) days && is_some (sp_status p)) (plans db) in
      guard (nonempty attendance_status || nonempty plan_status)
        (Crash "attendance_day_status_conflict")
  end.

Definition days_between (start stop : date) : list date :=
  zrange start (Z.to_nat (stop - start + 1)).

(** ** Lemmas: adding events *)

(** The rows [add_events] appends. *)
Fixpoint new_events (employment_id first_id : Z) (times : list aware) : list AttendanceEvent :=
  match times with
  | [] => []
  | t :: rest => mk_event first_id employment_id t :: new_events employment_id (first_id + 1) rest
  end.

Lemma add_events_events e times db :
  events (add_events e times db) = events db ++ new_events e (next_id db) times ∧
  next_id (add_events e times db) = next_id db + Z.of_nat (length times).
Proof.
  unfold add_events. revert db. induction times as [|t times IH]; intros db; simpl.
  - rewrite app_nil_r. split; [done|lia].
  - destruct (IH (add_event e db t)) as [-> ->]. simpl. rewrite <- app_assoc. split; [done|lia].
Qed.

Lemma new_events_elem e i times x :
  x ∈ new_events e i times →
  ev_employment_id x = e ∧ ev_occurred_at x ∈ times ∧
  i <= ev_id x < i + Z.of_nat (length times).
Proof.
  revert i. induction times as [|t times IH]; intros i; simpl; [by intros ?%elem_of_nil|].
  intros [->|Hx]%elem_of_cons; simpl.
  - split_and!; [done | left | lia | lia].
  - destruct (IH _ Hx) as (-> & Ht & Hid). split_and!; [done | by right | lia | lia].
Qed.

Lemma new_events_walls e i times : ev_wall <$> new_events e i times = wall <$> times.
Proof. revert i. induction times as [|t times IH]; intros i; csimpl; [done|]. by rewrite IH. Qed.

Lemma new_events_ids e i times : ev_id <$> new_events e i times = zrange i (length times).
Proof. revert i. induction times as [|t times IH]; intros i; csimpl; [done|]. by rewrite IH. Qed.

(** Every other table is left alone. *)
Lemma add_events_frame e times db :
  let db' := add_events e times db in
  same_other_tables db db' ∧ plans db' = plans db ∧ attendance db' = attendance db.
Proof.
  unfold add_events. revert db. induction times as [|t times IH]; intros db; simpl; [by split_and!|].
  destruct (IH (add_event e db t)) as (H1 & -> & ->). split_and!; [|done|done].
  etransitivity; [|exact H1]. unfold same_other_tables. simpl. by split_and!.
Qed.

(** ** Lemmas: the breaks stay on the day of the interval *)

Lemma sorted_between start stop l x :
  StronglySorted Z.lt (start :: l ++ [stop]) → x ∈ l → start < x < stop.
Proof.
  intros Hs Hx. apply StronglySorted_inv in Hs as [Hs Hall].
  rewrite Forall_forall in Hall. split; [apply Hall, elem_of_app; by left|].
  clear Hall. induction l as [|y l IH]; [by apply elem_of_nil in Hx|].
  simpl in Hs. apply StronglySorted_inv in Hs as [Hs Hall]. apply elem_of_cons in Hx as [->|Hx].
  - rewrite Forall_forall in Hall. apply Hall, elem_of_app. right. by left.
  - by apply IH.
Qed.

Lemma automatic_breaks_between start stop x :
  start < stop → x ∈ automatic_break_events start stop → start < x < stop.
Proof.
  intros Hlt Hx. eapply sorted_between; [by apply automatic_break_events_sorted | done].
Qed.

Lemma date_of_wall_between a b x :
  a <= x <= b → date_of_wall a = date_of_wall b → date_of_wall x = date_of_wall a.
Proof.
  intros [H1 H2] Hab. apply date_of_wall_le in H1, H2. lia.
Qed.

Lemma automatic_breaks_day start stop x :
  start <= stop → date_of_wall start = date_of_wall stop →
  x ∈ automatic_break_events start stop → date_of_wall x = date_of_wall start.
Proof.
  intros Hle Hd Hx. destruct (decide (start = stop)) as [->|Hne].
  - unfold automatic_break_events in Hx. rewrite Z.sub_diag in Hx. simpl in Hx.
    by apply elem_of_nil in Hx.
  - apply automatic_breaks_between in Hx; [|lia]. apply (date_of_wall_between start stop); [lia|done].
Qed.

(** The first break comes late: more than five hours after the arrival. *)
Lemma first_segment d s rest :
  360 < d → (break_segments d).1 = s :: rest → 329 <= s.
Proof.
  intros Hd. unfold break_segments. assert (d <=? 360 = false) as -> by lia. cbv zeta. cbn [fst].
  pose proof (find_breaks_spec (Z.to_nat d) d 0 Hd) as Hf. unfold least_breaks in Hf.
  rewrite Hf by zdiv. clear Hf.
  set (b := (d + 29) / 390). assert (Hb : 390 * b <= d + 29 < 390 * b + 390) by (unfold b; zdiv).
  clearbody b. destruct (Z.to_nat (b + 1)) as [|n] eqn:En; [done|].
  simpl. intros [= <- _]. assert (Z.of_nat n = b) by lia. lia.
Qed.

Lemma break_boundaries_late cursor segments s rest x :
  segments = s :: rest → Forall (λ y, 0 <= y) segments → x ∈ break_boundaries cursor segments →
  cursor + s * us_per_minute <= x.
Proof.
  revert cursor s rest. induction segments as [|s0 segments IH]; intros cursor s rest; [done|].
  intros [= -> ->] Hf Hx. simpl in Hx. destruct rest as [|s1 rest]; [by apply elem_of_nil in Hx|].
  apply Forall_cons in Hf as [Hs Hf].
  apply elem_of_cons in Hx as [->|Hx]; [lia|].
  apply elem_of_cons in Hx as [->|Hx]; [unfold us_per_minute in *; lia|].
  apply (IH _ s1 rest) in Hx; [|done|done]. apply Forall_cons in Hf as [Hs1 _].
  unfold us_per_minute in *. lia.
Qed.

Lemma automatic_breaks_late start stop x :
  start <= stop → x ∈ automatic_break_events start stop → start + 329 * us_per_minute <= x.
Proof.
  intros Hle. rewrite automatic_break_events_boundaries by done.
  pose proof (whole_minutes_nonneg (stop - start) ltac:(lia)) as Hd.
  set (d := whole_minutes (stop - start)) in *. clearbody d. intros Hx.
  destruct (decide (360 < d)) as [Hgt|Hle'].
  - pose proof (break_segments_spec d Hgt) as Hspec. pose proof (first_segment d) as Hfirst.
    destruct (break_segments d) as [[|s rest] b]; [by apply elem_of_nil in Hx|]. cbn [fst snd] in *.
    destruct Hspec as (_ & _ & Hf). specialize (Hfirst s rest Hgt eq_refl).
    eapply break_boundaries_late in Hx; [|reflexivity|].
    + unfold us_per_minute in *. lia.
    + eapply Forall_impl; [exact Hf|]. simpl. lia.
  - unfold break_segments in Hx. assert (d <=? 360 = true) as Hb by lia. rewrite Hb in Hx.
    simpl in Hx. by apply elem_of_nil in Hx.
Qed.

(** So an automatic break never falls into the hour the zone may skip. *)
Lemma automatic_breaks_real `{zone : PragueZone} `{!PragueGap zone} start stop x :
  start <= stop → date_of_wall start = date_of_wall stop →
  x ∈ automatic_break_events start stop → reload (at_wall x) = at_wall x.
Proof.
  intros Hle Hd Hx. unfold reload, at_wall, prague_now. simpl. f_equal.
  apply real_outside_gap. intros [_ Hlt].
  pose proof (automatic_breaks_late start stop x Hle Hx) as Hlate.
  pose proof (automatic_breaks_day start stop x Hle Hd Hx) as Hday.
  unfold date_of_wall, us_per_minute, us_per_day in *. zdiv.
Qed.

(** ** Lemmas: the preceding event *)

Lemma index_of_lookup x l : x ∈ l → l !! index_of x l = Some x.
Proof.
  induction l as [|y l IH]; intros Hx; [by apply elem_of_nil in Hx|]. simpl.
  destruct (decide (y = x)) as [->|Hne]; [done|]. simpl. apply IH.
  apply elem_of_cons in Hx as [->|]; done.
Qed.

Lemma StronglySorted_lookup {A} (R : A → A → Prop) l i j x y :
  StronglySorted R l → l !! i = Some x → l !! j = Some y → (i < j)%nat → R x y.
Proof.
  intros Hs. revert i j. induction Hs as [|z l Hs IH Hz]; intros i j Hi Hj Hij; [done|].
  destruct j as [|j]; [lia|]. simpl in Hj. destruct i as [|i].
  - injection Hi as ->. rewrite Forall_forall in Hz. apply Hz. by eapply list_elem_of_lookup_2.
  - simpl in Hi. apply (IH i j); [done|done|lia].
Qed.

Section Previous.
Context `{zone : PragueZone}.

Lemma previous_event_spec db e t p :
  (∀ x, x ∈ events db → 0 < ev_id x) → previous_event db e t = Some p →
  p ∈ events_of db e ∧ ev_day p = date_of t ∧ ev_wall p < wall t.
Proof.
  unfold previous_event. set (event := pending_event e t).
  set (same_day := where_ _ (events_by_time (events_of db e))).
  intros Hid. destruct (Nat.odd _) eqn:Hodd; [|done]. intros Hp.
  assert (Hin : event ∈ ordered_events (same_day ++ [event])).
  { apply elem_of_ordered_events, elem_of_app. right. by left. }
  apply index_of_lookup in Hin. set (i := index_of event _) in *.
  assert (Hi : (pred i < i)%nat) by (destruct i; [done|simpl; lia]).
  pose proof (StronglySorted_lookup _ _ _ _ _ _ (ordered_events_sorted _) Hp Hin Hi) as Hle.
  assert (Hne : p ≠ event).
  { intros ->. assert (Hleast : ∀ l j, l !! j = Some event → (index_of event l <= j)%nat).
    { clear. induction l as [|y l IH]; intros j Hj; [done|]. simpl.
      destruct (decide (y = event)); [lia|]. destruct j as [|j]; simpl in Hj; [congruence|].
      apply IH in Hj. lia. }
    apply Hleast in Hp. unfold i in Hi. lia. }
  assert (Hpin : p ∈ same_day).
  { apply list_elem_of_lookup_2, elem_of_ordered_events, elem_of_app in Hp as [Hp|Hp]; [done|].
    by apply list_elem_of_singleton in Hp. }
  unfold same_day in Hpin. rewrite elem_of_where, Z.eqb_eq in Hpin.
  destruct Hpin as [Hpin Hday]. apply elem_of_sorted_by in Hpin.
  split_and!; [done|done|]. unfold le_rel, event_leb in Hle.
  rewrite orb_true_iff, andb_true_iff, Z.ltb_lt, Z.eqb_eq, Z.leb_le in Hle.
  destruct Hle as [Hle|[Hw Hle]]; [done|]. simpl in Hle.
  unfold events_of in Hpin. apply elem_of_where in Hpin as [Hpin _].
  specialize (Hid _ Hpin). lia.
Qed.

(** Every added time lies on the day of the request. *)
Lemma event_times_spec db e t x :
  (∀ y, y ∈ events db → 0 < ev_id y) → from_zone t → x ∈ event_times db e t →
  from_zone x ∧ date_of x = date_of t.
Proof.
  intros Hid Hz. unfold event_times.
  destruct (previous_event db (em_id e) t) as [p|] eqn:Hp;
    [destruct (em_automatic_breaks_enabled e)|]; rewrite ?list_elem_of_singleton, ?elem_of_cons;
    try by intros ->.
  intros [->|Hx]; [done|]. apply list_elem_of_fmap in Hx as (w & -> & Hw).
  split; [apply from_zone_at_wall|].
  apply previous_event_spec in Hp as (_ & Hd & Hlt); [|done].
  unfold date_of at 1. simpl. rewrite <- Hd. unfold ev_day, date_of.
  apply automatic_breaks_day with (stop := wall t); [unfold ev_wall in *; lia| |done].
  done.
Qed.

Lemma closed_interval_times_spec e a b times x :
  closed_interval_times e a b = Ok times → from_zone a → from_zone b → x ∈ times →
  from_zone x ∧ date_of x = date_of a.
Proof.
  unfold closed_interval_times. intros H Ha Hb Hx.
  destruct (negb _) eqn:E1; [done|]. destruct (wall b <=? wall a) eqn:E2; [done|].
  injection H as <-. bool_hyps.
  apply elem_of_cons in Hx as [->|Hx]; [done|].
  apply elem_of_app in Hx as [Hx|Hx]; [|by apply list_elem_of_singleton in Hx as ->].
  destruct (em_automatic_breaks_enabled e); [|by apply elem_of_nil in Hx].
  apply list_elem_of_fmap in Hx as (w & -> & Hw). split; [apply from_zone_at_wall|].
  unfold date_of in *. simpl. apply automatic_breaks_day in Hw; [done | lia | done].
Qed.
End Previous.

(** ** Lemmas: closing an open interval *)

Lemma day_pairs_app l1 l2 :
  Nat.Even (length l1) → day_pairs (l1 ++ l2) = day_pairs l1 ++ day_pairs l2.
Proof.
  intros [n Hn]. revert l1 Hn. induction n as [|n IH]; intros [|a [|b l1]] Hn; simpl in *;
    try done; try lia.
  rewrite IH by lia. by destruct (_ && _).
Qed.

Lemma day_pairs_snoc_even l p :
  Nat.Even (length l) → day_pairs (l ++ [p]) = day_pairs l.
Proof. intros H. rewrite day_pairs_app by done. simpl. by rewrite app_nil_r. Qed.

Lemma closed_pairs_minutes start stop evs :
  start < stop →
  ev_wall <$> evs = start :: automatic_break_events start stop ++ [stop] →
  minutes <$> (pair_interval <$> day_pairs evs) = (break_segments (whole_minutes (stop - start))).1.
Proof.
  intros Hlt Hevs. destruct (segments_stop start stop Hlt) as (Hf & Hne & Hstop).
  pose proof (automatic_break_events_sorted start stop Hlt) as Hs.
  rewrite automatic_break_events_boundaries in Hevs, Hs by lia.
  by apply (break_pairs_minutes start _ stop).
Qed.

(** Strictly increasing times have one order. *)
Lemma sorted_by_strict l :
  StronglySorted (λ a b, ev_wall a < ev_wall b) l → StronglySorted (le_rel event_leb) l.
Proof.
  intros Hs. rewrite <- (list_fmap_id l). eapply StronglySorted_fmap; [|exact Hs].
  intros a b _ _ Hab. unfold le_rel, event_leb. simpl. apply Z.ltb_lt in Hab. by rewrite Hab.
Qed.

Lemma StronglySorted_of_fmap {A B} (R : B → B → Prop) (f : A → B) l :
  StronglySorted R (f <$> l) → StronglySorted (λ x y, R (f x) (f y)) l.
Proof.
  induction l as [|x l IH]; [constructor|]. rewrite fmap_cons.
  intros [Hs Hall]%StronglySorted_inv. constructor; [auto|].
  by rewrite Forall_fmap in Hall.
Qed.

(** The ordered list of a day with the closing event and its breaks. *)
Lemma ordered_day_closed day p t rest last :
  StronglySorted (λ a b, ev_wall a < ev_wall b) (day ++ [p]) →
  ev_wall p < wall t → ev_occurred_at last = t →
  ev_wall <$> rest = automatic_break_events (ev_wall p) (wall t) →
  StronglySorted (λ a b, ev_wall a < ev_wall b) ((day ++ [p]) ++ rest ++ [last]).
Proof.
  intros Hs Hlt Hlast Hrest. apply StronglySorted_app; [|done|].
  - intros x y Hx Hy.
    assert (Hxp : ev_wall x <= ev_wall p).
    { apply elem_of_app in Hx as [Hx|Hx%list_elem_of_singleton]; [|subst x; lia].
      apply list_elem_of_lookup in Hx as [i Hi].
      pose proof (StronglySorted_lookup _ _ i (length day) x p Hs) as Hxp.
      enough (ev_wall x < ev_wall p) by lia. apply Hxp.
      - rewrite lookup_app_l; [done|]. by eapply lookup_lt_Some.
      - by rewrite list_lookup_middle.
      - by eapply lookup_lt_Some. }
    enough (ev_wall p < ev_wall y) by lia.
    apply elem_of_app in Hy as [Hy|Hy%list_elem_of_singleton].
    + apply (list_elem_of_fmap_2 ev_wall) in Hy. rewrite Hrest in Hy.
      by apply automatic_breaks_between in Hy as [? _].
    + subst y. unfold ev_wall at 2. by rewrite Hlast.
  - apply StronglySorted_of_fmap with (R := Z.lt). rewrite fmap_app, Hrest. simpl.
    assert (ev_wall last = wall t) as -> by (unfold ev_wall; by rewrite Hlast).
    by apply StronglySorted_inv with (a := ev_wall p), automatic_break_events_sorted.
Qed.

Lemma new_events_day e i times d :
  Forall (λ t, date_of t = d) times → day_events d (new_events e i times) = new_events e i times.
Proof.
  intros H. unfold day_events. apply where_all. intros x Hx.
  apply new_events_elem in Hx as (_ & Ht & _). rewrite Forall_forall in H.
  unfold ev_day. rewrite (H _ Ht). apply Z.eqb_refl.
Qed.

Lemma events_of_add_events db e times :
  events_of (add_events e times db) e = events_of db e ++ new_events e (next_id db) times.
Proof.
  unfold events_of. rewrite (proj1 (add_events_events e times db)), where_app. f_equal.
  apply where_all. intros x Hx. apply new_events_elem in Hx as (-> & _). apply Z.eqb_refl.
Qed.

(** A strictly sorted permutation is the ordering. *)
Lemma ordered_events_strict l l' :
  StronglySorted (λ a b, ev_wall a < ev_wall b) l' → l' ≡ₚ l → ordered_events l = l'.
Proof.
  intros Hs Hp. apply (sorted_perm_unique (le_rel event_leb)).
  - intros a b Ha Hb Hab Hba. rewrite elem_of_ordered_events, <- Hp in Ha, Hb.
    apply event_leb_wall in Hab, Hba.
    apply list_elem_of_lookup in Ha as [i Hi], Hb as [j Hj].
    destruct (lt_eq_lt_dec i j) as [[Hlt| ->]|Hlt]; [|congruence|].
    + pose proof (StronglySorted_lookup _ _ _ _ _ _ Hs Hi Hj Hlt) as H. simpl in H. lia.
    + pose proof (StronglySorted_lookup _ _ _ _ _ _ Hs Hj Hi Hlt) as H. simpl in H. lia.
  - apply ordered_events_sorted.
  - by apply sorted_by_strict.
  - by rewrite ordered_events_perm, Hp.
Qed.

Lemma day_events_app d l1 l2 : day_events d (l1 ++ l2) = day_events d l1 ++ day_events d l2.
Proof. apply where_app. Qed.

Section Close.
Context `{zone : PragueZone}.

Lemma previous_event_last db e t day p :
  ordered_events (day_events (date_of t) (events_of db e)) = day ++ [p] →
  StronglySorted (λ a b, ev_wall a < ev_wall b) (day ++ [p]) →
  Nat.Even (length day) → ev_wall p < wall t →
  previous_event db e t = Some p.
Proof.
  intros Hord Hs Heven Hlt. unfold previous_event. set (event := pending_event e t).
  assert (Hs' : StronglySorted (λ a b, ev_wall a < ev_wall b) ((day ++ [p]) ++ [event])).
  { apply StronglySorted_app; [|done|repeat constructor].
    intros x y Hx ->%list_elem_of_singleton. change (ev_wall event) with (wall t).
    apply list_elem_of_lookup in Hx as [i Hi].
    assert (i <= length day)%nat as [Hi'| ->]%le_lt_eq_dec.
    { apply lookup_lt_Some in Hi. rewrite length_app in Hi. simpl in Hi. lia. }
    - pose proof (StronglySorted_lookup _ _ i (length day) x p Hs Hi) as H.
      rewrite list_lookup_middle in H by done. specialize (H eq_refl Hi'). simpl in H. lia.
    - rewrite list_lookup_middle in Hi by done. by injection Hi as <-. }
  set (same_day := where_ _ (events_by_time _)).
  rewrite (ordered_events_strict (same_day ++ [event]) ((day ++ [p]) ++ [event]) Hs').
  2:{ rewrite <- Hord, ordered_events_perm. apply Permutation_app_tail.
      unfold same_day, day_events. apply where_perm. symmetry. apply sorted_by_perm. }
  assert (Hidx : index_of event ((day ++ [p]) ++ [event]) = S (length day)).
  { revert Hs'. clear. rewrite <- app_assoc.
    replace (S (length day)) with (length (day ++ [p])) by (rewrite length_app; simpl; lia).
    rewrite app_assoc. generalize (day ++ [p]) as l. induction l as [|x l IH]; simpl.
    - intros _. by rewrite decide_True.
    - intros [Hs Hall]%StronglySorted_inv. rewrite IH by done.
      destruct (decide (x = event)) as [->|]; [|done].
      rewrite Forall_forall in Hall. specialize (Hall event).
      rewrite elem_of_app, list_elem_of_singleton in Hall. specialize (Hall (or_intror eq_refl)). lia. }
  rewrite Hidx, Nat.odd_succ, (proj2 (Nat.even_spec _) Heven). simpl.
  rewrite <- app_assoc. rewrite (list_lookup_middle day [event] p); [done|done].
Qed.

(** recording a departure after an open arrival, with automatic breaks
    on, closes the interval into the break segments: the earlier pairs of
    the day keep their minutes and the new ones are exactly
    [break_segments] of the worked span. *)
Theorem add_event_closes_interval db emp t day p
    (Hday : ordered_events (day_events (date_of t) (events_of db (em_id emp))) = day ++ [p])
    (Hsorted : StronglySorted (λ a b, ev_wall a < ev_wall b) (day ++ [p]))
    (Heven : Nat.Even (length day)) (Hlt : ev_wall p < wall t) (Hp : ev_day p = date_of t)
    (Hon : em_automatic_breaks_enabled emp = true) :
  let db' := add_event_with_breaks db emp t in
  let day' := day_events (date_of t) (events_of db' (em_id emp)) in
  minutes <$> (pair_interval <$> day_pairs (ordered_events day')) =
    (minutes <$> (pair_interval <$> day_pairs day)) ++
    (break_segments (whole_minutes (wall t - ev_wall p))).1.
Proof.
  cbv zeta. unfold add_event_with_breaks, event_times.
  rewrite (previous_event_last db (em_id emp) t day p), Hon, events_of_add_events by done.
  cbn [new_events]. set (last := mk_event (next_id db) (em_id emp) t).
  set (rest := new_events _ _ _).
  assert (Hrest : ev_wall <$> rest = automatic_break_events (ev_wall p) (wall t)).
  { unfold rest. rewrite new_events_walls, <- list_fmap_compose. apply list_fmap_id. }
  assert (Hd : day_events (date_of t) (last :: rest) = last :: rest).
  { apply (new_events_day (em_id emp) (next_id db)
      (t :: (at_wall <$> automatic_break_events (ev_wall p) (wall t)))).
    constructor; [done|]. rewrite Forall_fmap. apply Forall_forall. intros w Hw.
    unfold ev_day, date_of in Hp |- *. simpl. rewrite <- Hp.
    apply automatic_breaks_day in Hw; [done | unfold ev_wall in *; lia | done]. }
  pose proof (ordered_day_closed day p t rest last Hsorted Hlt eq_refl Hrest) as Hs.
  rewrite day_events_app, Hd.
  rewrite (ordered_events_strict _ ((day ++ [p]) ++ rest ++ [last]) Hs).
  2:{ rewrite <- Hday, ordered_events_perm. apply Permutation_app_head.
      by rewrite Permutation_app_comm. }
  rewrite <- app_assoc, day_pairs_app, !fmap_app by done. f_equal.
  apply closed_pairs_minutes; [done|]. csimpl. by rewrite fmap_app, Hrest.
Qed.
End Close.
