(* ===== verification/MonthSummary.v ===== *)
(** * app/services/month_summary.py and daily_metrics.py

    The summary of one employment and month, computed from the stored facts or
    read from the persisted daily metrics, and the synchronisation that writes
    those metrics.  A dict built from rows keeps the last row of a key. *)

From S2P Require Import Prelude Calendar TimeParse PragueTime Models TimeIntervals TimeMetrics.
From S2P Require Import DayStatus AttendanceEvents.

Record DaySummary := mk_day {
  dy_date : date;
  dy_attendance : option Attendance;
  dy_plan : option ShiftPlan;
  dy_effective_status : option string;
  dy_worked : option DailyMetrics;
  dy_planned : option DailyMetrics;
  dy_worked_state : string;
  dy_planned_state : string;
  dy_status_metrics : DayStatusMetrics;
}.

Definition planned_minutes_of_day (d : DaySummary) : result Z :=
  match dy_plan d with
  | None => Ok 0
  | Some p =>
      let? interval := shift_plan_interval p in
      Ok (match interval with Some i => minutes i | None => 0 end)
  end.

Inductive status_metric_key := SK_holiday | SK_sickness | SK_paragraph.
Definition STATUS_METRIC_KEYS : list status_metric_key := [SK_holiday; SK_sickness; SK_paragraph].

Definition get_status_metric (m : DayStatusMetrics) (key : status_metric_key)
    : option MetricValue :=
  match key with
  | SK_holiday => ds_holiday m
  | SK_sickness => ds_sickness m
  | SK_paragraph => ds_paragraph m
  end.

Record MonthSummary := mk_summary {
  ms_day_summaries : list DaySummary;
  ms_worked : option (list (metric_key * option MetricValue));
  ms_planned : option (list (metric_key * option MetricValue));
  ms_status_metrics : list (status_metric_key * option MetricValue);
}.

Definition planned_minutes (s : MonthSummary) : result Z :=
  let? days := map_result planned_minutes_of_day (ms_day_summaries s) in Ok (sum_Z days).

(** [MonthSummary.planned_hours] in tenths: the code divides by ten last. *)
Definition planned_tenths (s : MonthSummary) : result Z :=
  let? days := map_result (λ d, let? m := planned_minutes_of_day d in metric_value m)
    (ms_day_summaries s) in
  Ok (sum_Z (mv_tenths <$> days)).

Definition sum_of (values : list DailyMetrics) (key : metric_key) : option MetricValue :=
  sum_values (omap (λ v, get_metric v key) values).
Definition sum_status (values : list DayStatusMetrics) (key : status_metric_key)
    : option MetricValue :=
  sum_values (omap (λ v, get_status_metric v key) values).

Definition stored_value (mins tenths : option Z) : option MetricValue :=
  match mins, tenths with
  | Some m, Some t => Some (mk_mv m t)
  | _, _ => None
  end.

Definition stored_metrics (row : option EmploymentDailyTimeMetric) (e : Employment)
    : result (option DailyMetrics) :=
  match row with
  | None => empty_daily_metrics e
  | Some r =>
      Ok (Some (mk_dmx (mk_mv (dm_total_minutes r) (dm_total_tenths r))
        (stored_value (dm_afternoon_minutes r) (dm_afternoon_tenths r))
        (stored_value (dm_night_minutes r) (dm_night_tenths r))
        (stored_value (dm_weekend_minutes r) (dm_weekend_tenths r))
        (stored_value (dm_public_holiday_minutes r) (dm_public_holiday_tenths r))))
  end.

Definition in_range (start stop d : date) : bool := (start <=? d) && (d <? stop).

(** The rows of one employment inside a range of days. *)
Definition attendance_in (db : DB) (employment_id : Z) (start stop : date) : list Attendance :=
  where_ (λ a, (at_employment_id a =? employment_id) && in_range start stop (at_date a))
    (attendance db).
Definition plans_in (db : DB) (employment_id : Z) (start stop : date) : list ShiftPlan :=
  where_ (λ p, (sp_employment_id p =? employment_id) && in_range start stop (sp_date p)) (plans db).
Definition metric_in (employment_id : Z) (start stop : date) (r : EmploymentDailyTimeMetric) : bool :=
  (dm_employment_id r =? employment_id) && in_range start stop (dm_metric_date r).
Definition metrics_in (db : DB) (employment_id : Z) (start stop : date)
    : list EmploymentDailyTimeMetric :=
  where_ (metric_in employment_id start stop) (metrics db).

(** [stored.get((day, source))]. *)
Definition stored_row (rows : list EmploymentDailyTimeMetric) (day : date)
    (source : DailyMetricSource) : option EmploymentDailyTimeMetric :=
  last (where_ (λ r, (dm_metric_date r =? day) && bool_decide (dm_source r = source)) rows).

Definition worked_state (day_events : list AttendanceEvent) (closed_event_ids : list Z) : string :=
  match day_events with
  | [] => "empty"
  | _ => if forallb (λ x, mem (ev_id x) closed_event_ids) day_events
         then "complete" else "incomplete"
  end.

Definition planned_state (planned : option DailyMetrics) : string :=
  match planned with
  | Some m => if mv_minutes (dx_total m) =? 0 then "empty" else "complete"
  | None => "empty"
  end.

Definition effective_status (attendance_row : option Attendance) (plan_row : option ShiftPlan)
    : option string :=
  let from_plan := match plan_row with Some p => sp_status p | None => None end in
  match attendance_row with
  | Some a => if truthy (at_status a) then at_status a else from_plan
  | None => from_plan
  end.

(** The body of the loop over the days of the month. *)
Definition build_day (db : DB) (e : Employment) (start stop : date) (use_persisted : bool)
    (evs : list AttendanceEvent) (planned_intervals : list WorkInterval) (day : date)
    : result DaySummary :=
  let attendance_row := last (where_ (λ a, at_date a =? day) (attendance_in db (em_id e) start stop)) in
  let plan_row := last (where_ (λ p, sp_date p =? day) (plans_in db (em_id e) start stop)) in
  let status := effective_status attendance_row plan_row in
  let stored := metrics_in db (em_id e) start stop in
  let? day_status_metrics := calculate_day_status_metrics e status in
  let? worked :=
    (if use_persisted then stored_metrics (stored_row stored day SRC_ATTENDANCE) e
     else calculate_daily_metrics e day (pair_events evs)) in
  let? planned :=
    (if use_persisted then stored_metrics (stored_row stored day SRC_SHIFT_PLAN) e
     else calculate_daily_metrics e day planned_intervals) in
  Ok (mk_day day attendance_row plan_row status worked planned
    (worked_state (day_events day evs) (paired_event_ids evs))
    (planned_state planned) day_status_metrics).

Definition metrics_dict (values : list DailyMetrics)
    : option (list (metric_key * option MetricValue)) :=
  match values with
  | [] => None
  | _ => Some ((λ key, (key, sum_of values key)) <$> metric_keys)
  end.

Definition month_days (start stop : date) : list date := zrange start (Z.to_nat (stop - start)).

Definition build_employment_summary (db : DB) (e : Employment) (year month : Z)
    (use_persisted : bool) : result MonthSummary :=
  let '(start, stop) := month_range year month in
  let evs := events_by_time (events_of db (em_id e)) in
  let? planned_intervals := shift_plan_intervals (plans_in db (em_id e) start stop) in
  let? days := map_result (build_day db e start stop use_persisted evs planned_intervals)
    (month_days start stop) in
  Ok (mk_summary days
    (metrics_dict (omap dy_worked days))
    (metrics_dict (omap dy_planned days))
    ((λ key, (key, sum_status (dy_status_metrics <$> days) key)) <$> STATUS_METRIC_KEYS)).

(** The result dict, with the employments in order. *)
Definition build_month_summaries (db : DB) (es : list Employment) (year month : Z)
    (use_persisted : bool) : result (list (Z * MonthSummary)) :=
  map_result (λ e, let? s := build_employment_summary db e year month use_persisted in
                   Ok (em_id e, s)) es.

Definition build_month_summary (db : DB) (e : Employment) (year month : Z)
    (use_persisted : bool) : result MonthSummary :=
  let? summaries := build_month_summaries db [e] year month use_persisted in
  match where_ (λ p, p.1 =? em_id e) summaries with
  | p :: _ => Ok p.2
  | [] => Err (Crash "KeyError")
  end.

(** ** daily_metrics.py *)

Definition CALCULATION_REVISION : Z := 2.

Definition positive_total (m : option DailyMetrics) : bool :=
  match m with Some x => 0 <? mv_minutes (dx_total x) | None => false end.

Definition month_summary_source_presence (s : MonthSummary) : bool * bool :=
  (existsb (λ d, is_some (dy_attendance d) || negb (String.eqb (dy_worked_state d) "empty") ||
                 positive_total (dy_worked d)) (ms_day_summaries s),
   existsb (λ d, is_some (dy_plan d) || negb (String.eqb (dy_planned_state d) "empty") ||
                 positive_total (dy_planned d)) (ms_day_summaries s)).

(** [_row]. *)
Definition metric_row (employment_id : Z) (metric_date : date) (source : DailyMetricSource)
    (m : DailyMetrics) : EmploymentDailyTimeMetric :=
  mk_metric employment_id metric_date source
    (mv_minutes (dx_total m)) (mv_tenths (dx_total m))
    (mv_minutes <$> dx_afternoon m) (mv_tenths <$> dx_afternoon m)
    (mv_minutes <$> dx_night m) (mv_tenths <$> dx_night m)
    (mv_minutes <$> dx_weekend m) (mv_tenths <$> dx_weekend m)
    (mv_minutes <$> dx_public_holiday m) (mv_tenths <$> dx_public_holiday m)
    CALCULATION_REVISION.

(** The rows added for one day. *)
Definition day_metric_rows (employment_id : Z) (attendance_present plan_present : bool)
    (d : DaySummary) : list EmploymentDailyTimeMetric :=
  (if attendance_present
   then match dy_worked d with
        | Some m => [metric_row employment_id (dy_date d) SRC_ATTENDANCE m]
        | None => []
        end else []) ++
  (if plan_present
   then match dy_planned d with
        | Some m => [metric_row employment_id (dy_date d) SRC_SHIFT_PLAN m]
        | None => []
        end else []).

Definition sync_employment_month_metrics (db : DB) (e : Employment) (year month : Z) : result DB :=
  let '(start, stop) := month_range year month in
  let db1 := set_metrics (delete_where (metric_in (em_id e) start stop) (metrics db)) db in
  let? summary := build_month_summary db1 e year month false in
  let '(attendance_present, plan_present) := month_summary_source_presence summary in
  Ok (fold_left
    (λ d day, set_metrics
       (metrics d ++ day_metric_rows (em_id e) attendance_present plan_present day) d)
    (ms_day_summaries summary) db1).

Definition month_leb (a b : Z * Z) : bool :=
  (a.1 <? b.1) || ((a.1 =? b.1) && (a.2 <=? b.2)).

Fixpoint fold_result {A S} (f : S → A → result S) (l : list A) (s : S) : result S :=
  match l with
  | [] => Ok s
  | x :: l' => let? s' := f s x in fold_result f l' s'
  end.

Definition sync_employment_metric_months (db : DB) (e : Employment) (months : list (Z * Z))
    : result DB :=
  fold_result (λ d m, sync_employment_month_metrics d e m.1 m.2) (sorted_by month_leb months) db.

Definition sync_employment_metrics (db : DB) (e : Employment) : result DB :=
  let evs := events_of db (em_id e) in
  let event_dates := ev_day <$> evs in
  let interval_dates := mjoin ((λ i, fst <$> split_by_day i) <$> pair_events evs) in
  let attendance_dates := at_date <$> where_ (λ a, at_employment_id a =? em_id e) (attendance db) in
  let plan_list := where_ (λ p, sp_employment_id p =? em_id e) (plans db) in
  let? plan_intervals := shift_plan_intervals plan_list in
  let plan_interval_dates := mjoin ((λ i, fst <$> split_by_day i) <$> plan_intervals) in
  let months := dedup (ym_of <$> (event_dates ++ interval_dates ++ attendance_dates ++
    (sp_date <$> plan_list) ++ plan_interval_dates)) in
  let db1 := set_metrics (delete_where (λ r, (dm_employment_id r =? em_id e) &&
    negb (mem (ym_of (dm_metric_date r)) months)) (metrics db)) db in
  sync_employment_metric_months db1 e months.

(** ** Lemmas *)

Lemma build_month_summary_single db e y m p :
  build_month_summary db e y m p = build_employment_summary db e y m p.
Proof.
  unfold build_month_summary, build_month_summaries. simpl.
  destruct (build_employment_summary db e y m p) as [s|]; [|done]. simpl. by rewrite Z.eqb_refl.
Qed.

(** *** What one month's synchronisation writes *)

Definition summary_rows (employment_id : Z) (s : MonthSummary) : list EmploymentDailyTimeMetric :=
  let '(a, p) := month_summary_source_presence s in
  mjoin (day_metric_rows employment_id a p <$> ms_day_summaries s).

Definition month_metric_rows (db : DB) (e : Employment) (year month : Z)
    : result (list EmploymentDailyTimeMetric) :=
  let? s := build_employment_summary db e year month false in Ok (summary_rows (em_id e) s).

Definition month_rows (db : DB) (employment_id year month : Z) : list EmploymentDailyTimeMetric :=
  let '(start, stop) := month_range year month in metrics_in db employment_id start stop.

Lemma append_metrics_loop (f : DaySummary → list EmploymentDailyTimeMetric) days db :
  fold_left (λ d day, set_metrics (metrics d ++ f day) d) days db =
  set_metrics (metrics db ++ mjoin (f <$> days)) db.
Proof.
  revert db. induction days as [|d days IH]; intros db; simpl.
  - rewrite app_nil_r. by destruct db.
  - rewrite IH. simpl. by rewrite <- app_assoc.
Qed.

Lemma summary_ignores_metrics x db e y m :
  build_employment_summary (set_metrics x db) e y m false = build_employment_summary db e y m false.
Proof. reflexivity. Qed.

Lemma sync_month_eq db e y m :
  sync_employment_month_metrics db e y m =
    let '(start, stop) := month_range y m in
    let? rows := month_metric_rows db e y m in
    Ok (set_metrics (delete_where (metric_in (em_id e) start stop) (metrics db) ++ rows) db).
Proof.
  unfold sync_employment_month_metrics, month_metric_rows, month_range.
  rewrite build_month_summary_single, summary_ignores_metrics.
  destruct (build_employment_summary db e y m false) as [s|]; [|done].
  cbn [rbind]. unfold summary_rows.
  destruct (month_summary_source_presence s) as [a p]. by rewrite append_metrics_loop.
Qed.

(** *** The summary of a month depends on the facts of that month only *)

Lemma day_intervals_pairs d l :
  day_intervals d (pair_events l) =
    pair_interval <$> where_ (λ p, ev_day p.1 =? d) (pair_event_rows l).
Proof.
  unfold pair_events, day_intervals.
  assert (H : Forall (λ p, p ∈ pair_event_rows l) (pair_event_rows l)) by by apply Forall_forall.
  revert H. generalize (pair_event_rows l) at 2 3 4 as rows.
  induction 1 as [|p rows Hp _ IH]; [done|]. csimpl. rewrite IH.
  rewrite (split_pair_event l p Hp). unfold where_. simpl. by destruct (ev_day p.1 =? d).
Qed.

Lemma calculate_daily_metrics_ext e d i j :
  day_intervals d i = day_intervals d j →
  calculate_daily_metrics e d i = calculate_daily_metrics e d j.
Proof. intros H. unfold calculate_daily_metrics. by rewrite H. Qed.

Lemma closed_of_day l d x :
  ids_unique l → x ∈ day_events d l →
  ev_id x ∈ paired_event_ids l ↔
  ev_id x ∈ mjoin ((λ p, [ev_id p.1; ev_id p.2]) <$>
                   where_ (λ p, ev_day p.1 =? d) (pair_event_rows l)).
Proof.
  intros Hu [Hx Hd]%day_events_elem. unfold paired_event_ids.
  rewrite !elem_of_mjoin_fmap. split.
  - intros ([s t] & Hp & Hid). exists (s, t). split; [|done]. apply elem_of_where.
    split; [done|]. apply pair_event_rows_elem in Hp as (Hs & Ht & Hst & _).
    simpl in *. apply Z.eqb_eq. rewrite !elem_of_cons, elem_of_nil in Hid.
    destruct Hid as [Hid|[Hid|[]]]; apply (ids_unique_eq l) in Hid; try done; congruence.
  - intros (p & [Hp _]%elem_of_where & Hid). eauto.
Qed.

Lemma worked_state_ext a b c1 c2 :
  a ≡ₚ b → (∀ x, x ∈ a → ev_id x ∈ c1 ↔ ev_id x ∈ c2) →
  worked_state a c1 = worked_state b c2.
Proof.
  intros Hp Hc.
  assert (Hall : forallb (λ x, mem (ev_id x) c1) a = forallb (λ x, mem (ev_id x) c2) b).
  { apply eq_true_iff_eq. rewrite !forallb_elem. setoid_rewrite mem_true. split.
    - intros H x Hx. rewrite <- Hp in Hx. apply Hc; auto.
    - intros H x Hx. apply Hc; [done|]. apply H. by rewrite <- Hp. }
  unfold worked_state. rewrite Hall. destruct a, b; try done.
  - by apply Permutation_nil_cons in Hp.
  - symmetry in Hp. by apply Permutation_nil_cons in Hp.
Qed.

(** *** The computation never raises *)

Lemma map_result_total {A B} (f : A → result B) l :
  (∀ x, x ∈ l → ∃ y, f x = Ok y) → ∃ ys, map_result f l = Ok ys.
Proof.
  induction l as [|x l IH]; intros H; [by eexists|]. simpl.
  destruct (H x ltac:(left)) as [y ->]. simpl.
  destruct IH as [ys ->]; [|by eexists]. intros z Hz. apply H. by right.
Qed.

Lemma map_result_elem {A B} (f : A → result B) l ys :
  map_result f l = Ok ys → ∀ y, y ∈ ys → ∃ x, x ∈ l ∧ f x = Ok y.
Proof.
  revert ys. induction l as [|x l IH]; intros ys; simpl; [by intros [= <-] y ?%elem_of_nil|].
  intros (y & Hy & (ys' & Hys & [= <-])%rbind_ok)%rbind_ok z.
  intros [->|Hz]%elem_of_cons; [exists x; split; [left|done]|].
  destruct (IH _ Hys z Hz) as (x' & Hx' & ?). exists x'. split; [by right|done].
Qed.

Lemma map_result_key {A B K} (f : A → result B) (ka : A → K) (kb : B → K) l ys :
  (∀ x y, f x = Ok y → kb y = ka x) → map_result f l = Ok ys → kb <$> ys = ka <$> l.
Proof.
  intros Hk. revert ys. induction l as [|x l IH]; intros ys; simpl; [by intros [= <-]|].
  intros (y & Hy & (ys' & Hys & [= <-])%rbind_ok)%rbind_ok. csimpl.
  by rewrite (Hk _ _ Hy), (IH _ Hys).
Qed.

Lemma shift_plan_intervals_ok l :
  (∀ p, p ∈ l → plan_times_valid p = true) →
  ∃ ints, shift_plan_intervals l = Ok ints ∧ Forall (λ i, wi_start i < wi_end i) ints.
Proof.
  induction l as [|p l IH]; intros H; simpl; [by eexists|].
  destruct (shift_plan_interval_valid p) as (r & -> & Hr); [apply H; left|].
  destruct IH as (ints & -> & His); [intros q Hq; apply H; by right|]. simpl.
  eexists. split; [done|]. destruct r as [i|]; [|done]. constructor; [|done].
  destruct (Hr i eq_refl). lia.
Qed.

Lemma plans_in_valid db e start stop p :
  plans_valid db → p ∈ plans_in db e start stop → plan_times_valid p = true.
Proof. intros H [Hp _]%elem_of_where. by apply H. Qed.

Lemma calculate_daily_metrics_total e d i :
  Forall (λ i, wi_start i < wi_end i) i → ∃ w, calculate_daily_metrics e d i = Ok w.
Proof.
  intros Hi. destruct (is_task_shift_based e) eqn:Et.
  - exists None. unfold calculate_daily_metrics. by rewrite Et.
  - rewrite calculate_daily_metrics_ok by done. by eexists.
Qed.

(** No minute worked: the metrics of an empty day. *)
Lemma calculate_zero e d i w :
  Forall (λ i, wi_start i < wi_end i) i →
  calculate_daily_metrics e d i = Ok w → positive_total w = false → empty_daily_metrics e = Ok w.
Proof.
  intros Hi. unfold empty_daily_metrics. destruct (is_task_shift_based e) eqn:Et.
  { unfold calculate_daily_metrics. rewrite Et. by intros [= <-]. }
  rewrite calculate_daily_metrics_ok by done. intros [= <-] Hz.
  unfold positive_total in Hz. cbn [dx_total mv_minutes] in Hz. bool_hyps.
  pose proof (day_sum_bound (λ x, overlap_window x (afternoon_window e d)) d i Hi
    (λ x Hx, overlap_window_bounds x _ Hx)) as Ha.
  pose proof (day_sum_bound (night_minutes d) d i Hi (night_minutes_bounds d)) as Hn.
  pose proof (proj1 (sum_minutes_le _ (day_intervals_positive d i Hi))) as Ht.
  set (total := sum_Z (minutes <$> day_intervals d i)) in *.
  set (an := sum_Z ((λ x, overlap_window x (afternoon_window e d)) <$> day_intervals d i)) in *.
  set (nn := sum_Z (night_minutes d <$> day_intervals d i)) in *.
  assert (total = 0) as -> by lia. assert (an = 0) as -> by lia. assert (nn = 0) as -> by lia.
  by destruct (5 <=? weekday d), (is_czech_public_holiday d).
Qed.

Lemma pair_events_positive l : Forall (λ i, wi_start i < wi_end i) (pair_events l).
Proof. apply pair_events_chronological. Qed.

Lemma day_status_metrics_total e s : ∃ m, calculate_day_status_metrics e s = Ok m.
Proof.
  unfold calculate_day_status_metrics.
  destruct (is_task_shift_based e); [by eexists|]. destruct (_ || _); by eexists.
Qed.

Lemma build_summary_total db e y m :
  plans_valid db → ∃ s, build_employment_summary db e y m false = Ok s.
Proof.
  intros Hv. unfold build_employment_summary, month_range.
  destruct (shift_plan_intervals_ok (plans_in db (em_id e) (mk_date y m 1) (next_month y m)))
    as (pi & -> & Hpi); [intros p; by apply plans_in_valid|]. cbn [rbind].
  edestruct (map_result_total (build_day db e (mk_date y m 1) (next_month y m) false
    (events_by_time (events_of db (em_id e))) pi)) as [days ->]; [|by eexists].
  intros d _. unfold build_day.
  set (st := effective_status _ _). destruct (day_status_metrics_total e st) as [sm ->].
  destruct (calculate_daily_metrics_total e d
    (pair_events (events_by_time (events_of db (em_id e)))) (pair_events_positive _)) as [w Hw].
  destruct (calculate_daily_metrics_total e d pi Hpi) as [pl Hpl].
  cbn [rbind]. rewrite Hw. cbn [rbind]. rewrite Hpl. by eexists.
Qed.

(** *** Locality: what one month depends on *)

(** The rows of a day, selected from the rows of its month. *)
Lemma attendance_in_day db e start stop d :
  start <= d < stop →
  where_ (λ a, at_date a =? d) (attendance_in db e start stop) = attendance_rows db (e, d).
Proof.
  intros Hd. unfold attendance_in, attendance_rows. rewrite where_where. apply where_ext.
  intros a _. unfold attendance_at', attendance_at, in_range. simpl.
  destruct (at_date a =? d) eqn:E; rewrite ?andb_false_r, ?andb_true_r; [|done]. bool_hyps.
  assert (start <=? at_date a = true) as -> by lia.
  assert (at_date a <? stop = true) as -> by lia. by rewrite andb_true_r.
Qed.

Lemma plans_in_day db e start stop d :
  start <= d < stop →
  where_ (λ p, sp_date p =? d) (plans_in db e start stop) = plan_rows db (e, d).
Proof.
  intros Hd. unfold plans_in, plan_rows. rewrite where_where. apply where_ext.
  intros p _. unfold plan_at', plan_at, in_range. simpl.
  destruct (sp_date p =? d) eqn:E; rewrite ?andb_false_r, ?andb_true_r; [|done]. bool_hyps.
  assert (start <=? sp_date p = true) as -> by lia.
  assert (sp_date p <? stop = true) as -> by lia. by rewrite andb_true_r.
Qed.

(** A day's planned intervals come from the plans of that day. *)
Lemma plan_day_intervals l ints d :
  (∀ p, p ∈ l → plan_times_valid p = true) → shift_plan_intervals l = Ok ints →
  ∃ ints', shift_plan_intervals (where_ (λ p, sp_date p =? d) l) = Ok ints' ∧
    day_intervals d ints = day_intervals d ints'.
Proof.
  revert ints. induction l as [|p l IH]; intros ints Hv; simpl; [intros [= <-]; by exists []|].
  destruct (shift_plan_interval_valid p) as (r & Hr & Hin); [apply Hv; left|].
  rewrite Hr. simpl. intros (others & Ho & [= <-])%rbind_ok.
  destruct (IH others) as (ints' & Hi & Heq); [intros q Hq; apply Hv; by right|done|].
  unfold where_ in Hi |- *. simpl. destruct (sp_date p =? d) eqn:E; bool_hyps.
  - simpl. rewrite Hr. simpl. rewrite Hi. simpl. eexists. split; [done|].
    destruct r as [i|]; [|done]. unfold day_intervals in Heq |- *. csimpl. by rewrite Heq.
  - exists ints'. split; [done|]. rewrite <- Heq. destruct r as [i|]; [|done].
    destruct (Hin i eq_refl) as [Hs He].
    unfold day_intervals. csimpl. rewrite split_by_day_single; [|lia|].
    + assert (date_of_wall (wi_start i) = sp_date p) as -> by (apply date_of_wall_spec; lia).
      unfold where_. simpl. by rewrite (proj2 (Z.eqb_neq _ _) E).
    + transitivity (sp_date p); [|symmetry]; apply date_of_wall_spec; lia.
Qed.

(** The facts of one employment inside a range of days. *)
Record same_facts (e : Z) (start stop : date) (db db' : DB) : Prop := {
  same_attendance : ∀ d, start <= d < stop → attendance_rows db' (e, d) = attendance_rows db (e, d);
  same_plans : ∀ d, start <= d < stop → plan_rows db' (e, d) = plan_rows db (e, d);
  same_events : ∀ d, start <= d < stop →
    day_events d (events_of db' e) ≡ₚ day_events d (events_of db e);
}.

Lemma events_by_time_perm l : events_by_time l ≡ₚ l.
Proof. apply sorted_by_perm. Qed.

Lemma ids_unique_perm l l' : l ≡ₚ l' → ids_unique l → ids_unique l'.
Proof. intros Hp Hu. unfold ids_unique. by rewrite <- Hp. Qed.

Lemma ids_unique_events_of db e : ids_unique (events db) → ids_unique (events_by_time (events_of db e)).
Proof.
  intros Hu. eapply ids_unique_perm; [symmetry; apply events_by_time_perm|].
  by apply NoDup_fmap_where.
Qed.

Lemma build_day_local db db' e start stop d pi pi' :
  ids_unique (events db) → ids_unique (events db') → plans_valid db → plans_valid db' →
  same_facts (em_id e) start stop db db' → start <= d < stop →
  shift_plan_intervals (plans_in db (em_id e) start stop) = Ok pi →
  shift_plan_intervals (plans_in db' (em_id e) start stop) = Ok pi' →
  build_day db' e start stop false (events_by_time (events_of db' (em_id e))) pi' d =
  build_day db e start stop false (events_by_time (events_of db (em_id e))) pi d.
Proof.
  intros Hu Hu' Hv Hv' [Ha Hp He] Hd Hpi Hpi'. unfold build_day.
  rewrite !attendance_in_day, !plans_in_day, Ha, Hp by done.
  set (l := events_by_time (events_of db (em_id e))).
  set (l' := events_by_time (events_of db' (em_id e))).
  assert (Hul : ids_unique l) by by apply ids_unique_events_of.
  assert (Hul' : ids_unique l') by by apply ids_unique_events_of.
  assert (Hdp : day_events d l' ≡ₚ day_events d l).
  { unfold l, l', day_events. rewrite !(where_perm _ _ _ (events_by_time_perm _)). by apply He. }
  pose proof (pairs_of_day_ext l' l d Hul' Hdp) as Hpairs.
  rewrite (calculate_daily_metrics_ext e d (pair_events l') (pair_events l))
    by by rewrite !day_intervals_pairs, Hpairs.
  rewrite (calculate_daily_metrics_ext e d pi' pi).
  2:{ destruct (plan_day_intervals _ _ d (λ p, plans_in_valid db _ _ _ p Hv) Hpi) as (i & Hi & ->).
      destruct (plan_day_intervals _ _ d (λ p, plans_in_valid db' _ _ _ p Hv') Hpi') as (i' & Hi' & ->).
      rewrite plans_in_day in Hi, Hi' by done. rewrite Hp in Hi' by done. congruence. }
  rewrite (worked_state_ext (day_events d l') (day_events d l) (paired_event_ids l') (paired_event_ids l));
    [done|done|].
  intros x Hx. rewrite (closed_of_day l' d), Hpairs, <- (closed_of_day l d); [done|done| |done|done].
  by rewrite <- Hdp.
Qed.

Lemma build_summary_local db db' e y m :
  ids_unique (events db) → ids_unique (events db') → plans_valid db → plans_valid db' →
  same_facts (em_id e) (mk_date y m 1) (next_month y m) db db' →
  build_employment_summary db' e y m false = build_employment_summary db e y m false.
Proof.
  intros Hu Hu' Hv Hv' Hs. unfold build_employment_summary, month_range.
  set (start := mk_date y m 1) in *. set (stop := next_month y m) in *.
  destruct (shift_plan_intervals_ok (plans_in db (em_id e) start stop)) as (pi & Hpi & _);
    [intros p; by apply plans_in_valid|].
  destruct (shift_plan_intervals_ok (plans_in db' (em_id e) start stop)) as (pi' & Hpi' & _);
    [intros p; by apply plans_in_valid|].
  rewrite Hpi, Hpi'. cbn [rbind].
  rewrite (map_result_ext _
    (build_day db e start stop false (events_by_time (events_of db (em_id e))) pi)); [done|].
  intros d Hd. unfold month_days in Hd. apply elem_of_zrange in Hd.
  apply build_day_local; try done. lia.
Qed.

(** *** The rows written for a month *)

Lemma build_day_date db e start stop p evs pi d x :
  build_day db e start stop p evs pi d = Ok x → dy_date x = d.
Proof.
  unfold build_day. intros (sm & _ & H)%rbind_ok. apply rbind_ok in H as (w & _ & H).
  apply rbind_ok in H as (pl & _ & H). by injection H as <-.
Qed.

Lemma summary_days db e y m p s :
  build_employment_summary db e y m p = Ok s →
  dy_date <$> ms_day_summaries s = month_days (mk_date y m 1) (next_month y m).
Proof.
  unfold build_employment_summary, month_range.
  intros (pi & _ & (days & Hd & H)%rbind_ok)%rbind_ok. injection H as <-. simpl.
  rewrite <- (list_fmap_id (month_days _ _)).
  eapply map_result_key; [|exact Hd]. intros x z Hz. by apply build_day_date in Hz.
Qed.

Lemma day_metric_rows_elem e a p d r :
  r ∈ day_metric_rows e a p d → dm_employment_id r = e ∧ dm_metric_date r = dy_date d.
Proof.
  unfold day_metric_rows. rewrite elem_of_app.
  destruct a, (dy_worked d), p, (dy_planned d);
    rewrite ?elem_of_nil, ?list_elem_of_singleton; intros [H|H]; try done; by rewrite H.
Qed.

Lemma summary_rows_elem db e y m s r :
  build_employment_summary db e y m false = Ok s → r ∈ summary_rows (em_id e) s →
  dm_employment_id r = em_id e ∧ mk_date y m 1 <= dm_metric_date r < next_month y m.
Proof.
  intros Hs. unfold summary_rows. destruct (month_summary_source_presence s) as [a p].
  rewrite elem_of_mjoin_fmap. intros (d & Hd & [He Hdate]%day_metric_rows_elem).
  split; [done|]. rewrite Hdate. apply (list_elem_of_fmap_2 dy_date) in Hd.
  rewrite (summary_days _ _ _ _ _ _ Hs) in Hd. unfold month_days in Hd.
  apply elem_of_zrange in Hd. lia.
Qed.

Lemma in_range_month y m d :
  1 <= m <= 12 → in_range (mk_date y m 1) (next_month y m) d = true ↔ ym_of d = (y, m).
Proof.
  intros Hm. unfold in_range. rewrite andb_true_iff, Z.leb_le, Z.ltb_lt.
  by apply month_range_spec.
Qed.

Lemma metric_in_month i y m r :
  1 <= m <= 12 →
  metric_in i (mk_date y m 1) (next_month y m) r = true ↔
  dm_employment_id r = i ∧ ym_of (dm_metric_date r) = (y, m).
Proof. intros Hm. unfold metric_in. by rewrite andb_true_iff, Z.eqb_eq, in_range_month. Qed.

(** The persisted rows of a month are those a recomputation gives. *)
Definition month_fresh (db : DB) (e : Employment) (y m : Z) : Prop :=
  month_metric_rows db e y m = Ok (month_rows db (em_id e) y m).

Definition metrics_fresh (db : DB) (e : Employment) : Prop :=
  ∀ y m, 1 <= m <= 12 → month_fresh db e y m.

Lemma where_delete_self {A} (p : A → bool) l : where_ p (delete_where p l) = [].
Proof. apply where_nil_iff. intros x [_ Hx]%elem_of_delete_where. done. Qed.

Lemma sync_month_ok db e y m :
  plans_valid db → 1 <= m <= 12 →
  ∃ x, sync_employment_month_metrics db e y m = Ok (set_metrics x db) ∧
    month_fresh (set_metrics x db) e y m ∧
    ∀ i y' m', 1 <= m' <= 12 → (i, y', m') ≠ (em_id e, y, m) →
      month_rows (set_metrics x db) i y' m' = month_rows db i y' m'.
Proof.
  intros Hv Hm. rewrite sync_month_eq. unfold month_range.
  destruct (build_summary_total db e y m Hv) as [s Hs].
  unfold month_metric_rows. rewrite Hs. cbn [rbind].
  set (rows := summary_rows (em_id e) s).
  assert (Hrows : ∀ r, r ∈ rows →
    metric_in (em_id e) (mk_date y m 1) (next_month y m) r = true).
  { intros r Hr. apply metric_in_month; [done|].
    apply (summary_rows_elem _ _ _ _ _ _ Hs) in Hr as [He Hd]. split; [done|].
    by apply month_range_spec. }
  eexists. split; [reflexivity|]. split.
  - unfold month_fresh, month_metric_rows, month_rows, month_range, metrics_in.
    rewrite summary_ignores_metrics, Hs. simpl. f_equal.
    rewrite where_app, where_delete_self, where_all; [done|exact Hrows].
  - intros i y' m' Hm' Hne. unfold month_rows, month_range, metrics_in. simpl.
    assert (Hdisj : ∀ r, metric_in i (mk_date y' m' 1) (next_month y' m') r = true →
      metric_in (em_id e) (mk_date y m 1) (next_month y m) r = false).
    { intros r Hr. apply not_true_is_false. rewrite metric_in_month in Hr |- * by done.
      intros [H1 H2]. destruct Hr. congruence. }
    assert (Hnil : where_ (metric_in i (mk_date y' m' 1) (next_month y' m')) rows = []).
    { apply where_nil_iff. intros r Hr%Hrows. apply not_true_is_false.
      intros Hr'%Hdisj. congruence. }
    by rewrite where_app, where_delete_where_disjoint, Hnil, app_nil_r by exact Hdisj.
Qed.

(** *** Several months *)

Lemma month_fresh_metrics db x e y m :
  month_rows (set_metrics x db) (em_id e) y m = month_rows db (em_id e) y m →
  month_fresh db e y m → month_fresh (set_metrics x db) e y m.
Proof.
  unfold month_fresh. intros ->. unfold month_metric_rows. by rewrite summary_ignores_metrics.
Qed.

Lemma set_metrics_twice x y db : set_metrics x (set_metrics y db) = set_metrics x db.
Proof. done. Qed.

Lemma sync_list_ok db e l :
  plans_valid db → Forall (λ m, 1 <= m.2 <= 12) l →
  ∃ x, fold_result (λ d m, sync_employment_month_metrics d e m.1 m.2) l db
      = Ok (set_metrics x db) ∧
    (∀ y m, 1 <= m <= 12 → (y, m) ∈ l ∨ month_fresh db e y m → month_fresh (set_metrics x db) e y m) ∧
    ∀ i y m, 1 <= m <= 12 → i ≠ em_id e ∨ (y, m) ∉ l →
      month_rows (set_metrics x db) i y m = month_rows db i y m.
Proof.
  intros Hv Hl. revert db Hv. induction Hl as [|[y0 m0] l Hm0 _ IH]; intros db Hv; simpl.
  - exists (metrics db). destruct db. split_and!; [done| |done].
    intros y m _ [H%elem_of_nil|H]; done.
  - destruct (sync_month_ok db e y0 m0 Hv Hm0) as (x & -> & Hfresh & Hother). simpl.
    destruct (IH (set_metrics x db) Hv) as (x' & -> & Hfresh' & Hother').
    exists x'. rewrite set_metrics_twice in *. split_and!; [done|..].
    + intros y m Hm Hin. apply Hfresh'; [done|].
      destruct (decide ((y, m) = (y0, m0))) as [[= -> ->]|Hne]; [by right|].
      destruct Hin as [[?|?]%elem_of_cons|Hin]; [done|by left|]. right.
      apply month_fresh_metrics; [|done]. apply Hother; [done|congruence].
    + intros i y m Hm Hor. transitivity (month_rows (set_metrics x db) i y m).
      * apply Hother'; [done|]. destruct Hor as [|Hn]; [by left|]. right. set_solver.
      * apply Hother; [done|]. intros [= -> -> ->]. destruct Hor as [|Hn]; [done|].
        apply Hn. left.
Qed.

Lemma sync_months_ok db e months :
  plans_valid db → Forall (λ m, 1 <= m.2 <= 12) months →
  ∃ x, sync_employment_metric_months db e months = Ok (set_metrics x db) ∧
    (∀ y m, 1 <= m <= 12 → (y, m) ∈ months ∨ month_fresh db e y m →
       month_fresh (set_metrics x db) e y m) ∧
    ∀ i y m, 1 <= m <= 12 → i ≠ em_id e ∨ (y, m) ∉ months →
      month_rows (set_metrics x db) i y m = month_rows db i y m.
Proof.
  intros Hv Hm. unfold sync_employment_metric_months.
  destruct (sync_list_ok db e (sorted_by month_leb months) Hv) as (x & Hx & H1 & H2).
  { apply Forall_forall. intros k Hk%elem_of_sorted_by. by apply (proj1 (Forall_forall _ _) Hm). }
  setoid_rewrite elem_of_sorted_by in H1. setoid_rewrite elem_of_sorted_by in H2. eauto.
Qed.

Lemma months_for_days_valid days : Forall (λ m, 1 <= m.2 <= 12) (months_for_days days).
Proof.
  apply Forall_forall. intros k Hk. unfold months_for_days in Hk. rewrite elem_of_dedup in Hk.
  apply list_elem_of_fmap in Hk as (d & -> & _). apply month_of_bounds.
Qed.

(** *** A month without facts has no rows *)

Lemma calculate_no_intervals e d i w :
  Forall (λ i, wi_start i < wi_end i) i → day_intervals d i = [] →
  calculate_daily_metrics e d i = Ok w → positive_total w = false.
Proof.
  intros Hi Hn. destruct (is_task_shift_based e) eqn:Et.
  - unfold calculate_daily_metrics. rewrite Et. by intros [= <-].
  - rewrite calculate_daily_metrics_ok by done. intros [= <-].
    unfold positive_total. cbn [dx_total mv_minutes]. by rewrite Hn.
Qed.

Lemma planned_state_zero pl : positive_total pl = false → (∀ m, pl = Some m → 0 <= mv_minutes (dx_total m)) →
  planned_state pl = "empty"%string.
Proof.
  unfold positive_total, planned_state. destruct pl as [m|]; [|done]. intros H Hm. bool_hyps.
  specialize (Hm m eq_refl). assert (mv_minutes (dx_total m) =? 0 = true) as -> by lia. done.
Qed.

Lemma calculate_total_nonneg e d i w m :
  Forall (λ i, wi_start i < wi_end i) i → calculate_daily_metrics e d i = Ok w → w = Some m →
  0 <= mv_minutes (dx_total m).
Proof.
  intros Hi. destruct (is_task_shift_based e) eqn:Et.
  - unfold calculate_daily_metrics. rewrite Et. by intros [= <-].
  - rewrite calculate_daily_metrics_ok by done. intros [= <-] [= <-].
    apply (sum_minutes_le _ (day_intervals_positive d i Hi)).
Qed.

Lemma existsb_none {A} (p : A → bool) l : (∀ x, x ∈ l → p x = false) → existsb p l = false.
Proof.
  intros H. apply not_true_is_false. rewrite existsb_elem. intros (x & Hx & Hp).
  by rewrite H in Hp.
Qed.

Record no_facts (db : DB) (e : Z) (start stop : date) : Prop := {
  no_attendance : attendance_in db e start stop = [];
  no_plans : plans_in db e start stop = [];
  no_events : ∀ d, start <= d < stop → day_events d (events_of db e) = [];
}.

Lemma no_facts_day db e start stop d x :
  no_facts db (em_id e) start stop → start <= d < stop →
  build_day db e start stop false (events_by_time (events_of db (em_id e))) [] d = Ok x →
  dy_attendance x = None ∧ dy_plan x = None ∧ dy_worked_state x = "empty"%string ∧
  positive_total (dy_worked x) = false ∧ dy_planned_state x = "empty"%string ∧
  positive_total (dy_planned x) = false.
Proof.
  intros [Ha Hp He] Hd. set (l := events_by_time (events_of db (em_id e))).
  assert (Hday : day_events d l = []).
  { apply Permutation_nil_r. unfold l, day_events. rewrite where_perm by apply events_by_time_perm.
    unfold day_events in He. by rewrite He. }
  assert (Hint : day_intervals d (pair_events l) = []).
  { rewrite day_intervals_pairs. enough (where_ (λ p, ev_day p.1 =? d) (pair_event_rows l) = []) as -> by done.
    apply where_nil_iff. intros [s t] (Hs & _)%pair_event_rows_elem. apply Z.eqb_neq. intros Hsd.
    assert (s ∈ day_events d l) by by apply day_events_elem. rewrite Hday in H. by apply elem_of_nil in H. }
  unfold build_day. rewrite Ha, Hp. simpl.
  intros (sm & _ & H)%rbind_ok. apply rbind_ok in H as (w & Hw & H).
  apply rbind_ok in H as (pl & Hpl & H). injection H as <-. simpl.
  pose proof (calculate_no_intervals _ _ _ _ (pair_events_positive l) Hint Hw) as Hwz.
  pose proof (calculate_no_intervals e d [] pl (Forall_nil_2 _) eq_refl Hpl) as Hplz.
  split_and!; try done.
  - by rewrite Hday.
  - apply planned_state_zero; [done|]. intros m Hm.
    by eapply calculate_total_nonneg.
Qed.

Lemma month_rows_no_facts db e y m :
  plans_valid db → no_facts db (em_id e) (mk_date y m 1) (next_month y m) →
  month_metric_rows db e y m = Ok [].
Proof.
  intros Hv Hn. unfold month_metric_rows. destruct (build_summary_total db e y m Hv) as [s Hs].
  rewrite Hs. simpl. f_equal. unfold build_employment_summary, month_range in Hs.
  rewrite (no_plans _ _ _ _ Hn) in Hs. simpl in Hs.
  apply rbind_ok in Hs as (days & Hdays & [= <-]). unfold summary_rows, month_summary_source_presence.
  cbn [ms_day_summaries].
  assert (Hall : ∀ x, x ∈ days → dy_attendance x = None ∧ dy_plan x = None ∧
    dy_worked_state x = "empty"%string ∧ positive_total (dy_worked x) = false ∧
    dy_planned_state x = "empty"%string ∧ positive_total (dy_planned x) = false).
  { intros x Hx. destruct (map_result_elem _ _ _ Hdays x Hx) as (d & Hd & Hb).
    apply elem_of_zrange in Hd. eapply no_facts_day; [done| |done]. lia. }
  rewrite !existsb_none.
  - clear. induction days; [done|]. by csimpl.
  - intros x (_ & Hb & _ & _ & Hs & Ht)%Hall. by rewrite Hb, Hs, Ht.
  - intros x (Hb & _ & Hs & Ht & _)%Hall. by rewrite Hb, Hs, Ht.
Qed.

(** *** A full rebuild *)

Lemma set_metrics_plans_valid x db : plans_valid db → plans_valid (set_metrics x db).
Proof. done. Qed.

Lemma where_key_nil {A} (key : A → date) (own : A → bool) start stop (l : list A) :
  (∀ x, x ∈ l → own x = true → in_range start stop (key x) = false) →
  where_ (λ x, own x && in_range start stop (key x)) l = [].
Proof.
  intros H. apply where_nil_iff. intros x Hx. destruct (own x) eqn:E; [|done]. simpl. auto.
Qed.

Lemma absent_month_no_facts db e y m (months : list (Z * Z)) :
  1 <= m <= 12 → (y, m) ∉ months →
  (∀ x, x ∈ events_of db e → ym_of (ev_day x) ∈ months) →
  (∀ a, a ∈ attendance db → at_employment_id a = e → ym_of (at_date a) ∈ months) →
  (∀ p, p ∈ plans db → sp_employment_id p = e → ym_of (sp_date p) ∈ months) →
  no_facts db e (mk_date y m 1) (next_month y m).
Proof.
  intros Hm Hn Hev Hat Hpl.
  assert (Hout : ∀ d, ym_of d ∈ months → in_range (mk_date y m 1) (next_month y m) d = false).
  { intros d Hd. apply not_true_is_false. rewrite in_range_month by done. congruence. }
  constructor.
  - apply where_key_nil. intros a Ha Hk%Z.eqb_eq. auto.
  - apply where_key_nil. intros p Hp Hk%Z.eqb_eq. auto.
  - intros d Hd. apply where_nil_iff. intros x Hx%Hev. apply Z.eqb_neq. intros <-.
    apply Hn. by rewrite <- (proj1 (month_range_spec y m (ev_day x) Hm) Hd).
Qed.

Lemma sync_all_ok db e :
  plans_valid db →
  ∃ x, sync_employment_metrics db e = Ok (set_metrics x db) ∧
    metrics_fresh (set_metrics x db) e ∧
    ∀ i y m, 1 <= m <= 12 → i ≠ em_id e → month_rows (set_metrics x db) i y m = month_rows db i y m.
Proof.
  intros Hv. unfold sync_employment_metrics.
  set (plan_list := where_ _ (plans db)).
  destruct (shift_plan_intervals_ok plan_list) as (pi & -> & _).
  { intros p [Hp _]%elem_of_where. by apply Hv. }
  cbn [rbind]. set (dates := _ ++ _). set (months := dedup (ym_of <$> dates)).
  set (keep := delete_where _ (metrics db)). set (db1 := set_metrics keep db).
  assert (Hmonths : Forall (λ k, 1 <= k.2 <= 12) months) by apply months_for_days_valid.
  assert (Hin : ∀ d, d ∈ dates → ym_of d ∈ months).
  { intros d Hd. apply elem_of_dedup. by apply list_elem_of_fmap_2. }
  destruct (sync_months_ok db1 e months Hv Hmonths) as (x & Hx & Hf & Ho).
  exists x. split; [exact Hx|]. split.
  - intros y m Hm. apply Hf; [done|]. destruct (decide ((y, m) ∈ months)) as [|Hn]; [by left|].
    right. unfold month_fresh. rewrite month_rows_no_facts; [|done|].
    + f_equal. symmetry. unfold month_rows, month_range, metrics_in. apply where_nil_iff.
      intros r [_ Hr]%elem_of_delete_where. apply not_true_is_false.
      intros [He Hd]%(metric_in_month _ _ _ _ Hm). rewrite He, Z.eqb_refl, Hd in Hr.
      apply negb_false_iff, mem_true in Hr. done.
    + apply (absent_month_no_facts db1 (em_id e) y m months Hm Hn).
      * intros z Hz. apply Hin. unfold dates. rewrite !elem_of_app. left. by apply list_elem_of_fmap_2.
      * intros a Ha Hk. apply Hin. unfold dates. rewrite !elem_of_app. right. right. left.
        apply list_elem_of_fmap_2, elem_of_where. by rewrite Hk, Z.eqb_refl.
      * intros p Hp Hk. apply Hin. unfold dates. rewrite !elem_of_app. right. right. right. left.
        apply list_elem_of_fmap_2, elem_of_where. by rewrite Hk, Z.eqb_refl.
  - intros i y m Hm Hne. transitivity (month_rows db1 i y m); [apply Ho; [done|by left]|].
    unfold month_rows, month_range, metrics_in. simpl. apply where_delete_where_disjoint.
    intros r [He _]%(metric_in_month _ _ _ _ Hm).
    assert (dm_employment_id r =? em_id e = false) as -> by (apply Z.eqb_neq; congruence). done.
Qed.

(** *** Reading the persisted metrics back *)

Lemma where_mjoin_key {A B} (key : A → date) (f : A → list B) p l a :
  NoDup (key <$> l) → a ∈ l →
  (∀ a' x, a' ∈ l → x ∈ f a' → p x = true → key a' = key a) →
  where_ p (mjoin (f <$> l)) = where_ p (f a).
Proof.
  induction l as [|b l IH]; intros Hnd Ha Hp; [by apply elem_of_nil in Ha|].
  rewrite fmap_cons in Hnd. apply NoDup_cons in Hnd as [Hb Hnd].
  rewrite fmap_cons. simpl. rewrite where_app.
  destruct (decide (key b = key a)) as [Hk|Hk].
  - assert (a = b) as ->.
    { apply elem_of_cons in Ha as [|Ha]; [done|]. exfalso. apply Hb. rewrite Hk.
      by apply list_elem_of_fmap_2. }
    enough (where_ p (mjoin (f <$> l)) = []) as -> by apply app_nil_r.
    apply where_nil_iff. intros x (b' & Hb' & Hx)%elem_of_mjoin_fmap.
    apply not_true_is_false. intros Hpx. apply Hb.
    rewrite <- (Hp b' x) by (done || by right). by apply list_elem_of_fmap_2.
  - enough (where_ p (f b) = []) as ->.
    { apply elem_of_cons in Ha as [->|Ha]; [done|]. apply IH; [done|done|].
      intros a' x Ha'. apply Hp. by right. }
    apply where_nil_iff. intros x Hx. apply not_true_is_false. intros Hpx.
    apply Hk. eapply Hp; [by left|done|done].
Qed.

Lemma map_result_elem_2 {A B} (f : A → result B) l ys x :
  map_result f l = Ok ys → x ∈ l → ∃ y, y ∈ ys ∧ f x = Ok y.
Proof.
  revert ys. induction l as [|z l IH]; intros ys; simpl; [by intros _ ?%elem_of_nil|].
  intros (y & Hy & (ys' & Hys & [= <-])%rbind_ok)%rbind_ok [->|Hx]%elem_of_cons.
  - exists y. split; [left|done].
  - destruct (IH _ Hys Hx) as (y' & ? & ?). exists y'. split; [by right|done].
Qed.

Definition optional_row (present : bool) (e : Z) (d : date) (src : DailyMetricSource)
    (w : option DailyMetrics) : list EmploymentDailyTimeMetric :=
  if present then match w with Some m => [metric_row e d src m] | None => [] end else [].

Lemma day_metric_rows_source e a p x src d :
  dy_date x = d →
  where_ (λ r, (dm_metric_date r =? d) && bool_decide (dm_source r = src)) (day_metric_rows e a p x) =
    match src with
    | SRC_ATTENDANCE => optional_row a e d src (dy_worked x)
    | SRC_SHIFT_PLAN => optional_row p e d src (dy_planned x)
    end.
Proof.
  intros <-. unfold day_metric_rows, optional_row.
  destruct src, a, (dy_worked x), p, (dy_planned x);
    unfold where_; cbn [List.filter app metric_row dm_metric_date dm_source];
    rewrite ?Z.eqb_refl; reflexivity.
Qed.

Lemma stored_metrics_round_trip e i d present src w intervals :
  Forall (λ j, wi_start j < wi_end j) intervals →
  calculate_daily_metrics e d intervals = Ok w →
  (present = false → positive_total w = false) →
  stored_metrics (last (optional_row present i d src w)) e = Ok w.
Proof.
  intros Hi Hw Hp. unfold optional_row. destruct present, w as [m|]; simpl.
  - destruct m as [[tm tt] [[]|] [[]|] [[]|] [[]|]]; reflexivity.
  - by apply (calculate_zero e d intervals).
  - apply (calculate_zero e d intervals); auto.
  - by apply (calculate_zero e d intervals).
Qed.

Lemma persisted_day db e y m s x d pi :
  build_employment_summary db e y m false = Ok s →
  month_fresh db e y m → x ∈ ms_day_summaries s →
  Forall (λ j, wi_start j < wi_end j) pi →
  build_day db e (mk_date y m 1) (next_month y m) false
    (events_by_time (events_of db (em_id e))) pi d = Ok x →
  build_day db e (mk_date y m 1) (next_month y m) true
    (events_by_time (events_of db (em_id e))) pi d = Ok x.
Proof.
  intros Hs Hf Hx Hpi Hb. pose proof (build_day_date _ _ _ _ _ _ _ _ _ Hb) as Hd.
  unfold month_fresh, month_metric_rows, month_rows, month_range in Hf. rewrite Hs in Hf.
  injection Hf as Hrows. unfold summary_rows in Hrows.
  destruct (month_summary_source_presence s) as [a p] eqn:Epres.
  assert (Hsel : ∀ src, where_ (λ r, (dm_metric_date r =? d) && bool_decide (dm_source r = src))
      (metrics_in db (em_id e) (mk_date y m 1) (next_month y m)) =
    match src with
    | SRC_ATTENDANCE => optional_row a (em_id e) d src (dy_worked x)
    | SRC_SHIFT_PLAN => optional_row p (em_id e) d src (dy_planned x)
    end).
  { intros src. rewrite <- Hrows, <- (day_metric_rows_source _ a p x src d Hd).
    apply where_mjoin_key with (key := dy_date); [|done|].
    - rewrite (summary_days _ _ _ _ _ _ Hs). unfold month_days. apply NoDup_zrange.
    - intros b r _ [_ Hr]%day_metric_rows_elem Ht. bool_hyps. congruence. }
  unfold month_summary_source_presence in Epres. injection Epres as Ha Hp.
  unfold build_day in Hb |- *.
  apply rbind_ok in Hb as (sm & -> & Hb). apply rbind_ok in Hb as (w & Hw & Hb).
  apply rbind_ok in Hb as (pl & Hpl & [= Hx']). cbn [rbind]. unfold stored_row. rewrite !Hsel.
  assert (dy_worked x = w) as -> by by rewrite <- Hx'.
  assert (dy_planned x = pl) as -> by by rewrite <- Hx'.
  rewrite (stored_metrics_round_trip e (em_id e) d a SRC_ATTENDANCE w _ (pair_events_positive _) Hw).
  2:{ intros ->.
      destruct (positive_total w) eqn:E; [|done]. rewrite <- Ha. symmetry. apply existsb_elem.
      exists x. split; [done|]. rewrite <- Hx'. cbn [dy_worked]. rewrite E. by rewrite orb_true_r. }
  cbn [rbind].
  rewrite (stored_metrics_round_trip e (em_id e) d p SRC_SHIFT_PLAN pl _ Hpi Hpl).
  2:{ intros ->. destruct (positive_total pl) eqn:E; [|done]. rewrite <- Hp. symmetry.
      apply existsb_elem. exists x. split; [done|]. rewrite <- Hx'. cbn [dy_planned]. rewrite E.
      by rewrite orb_true_r. }
  cbn [rbind]. by rewrite <- Hx'.
Qed.

Lemma persisted_summary_eq db e y m :
  plans_valid db → month_fresh db e y m →
  build_employment_summary db e y m true = build_employment_summary db e y m false.
Proof.
  intros Hv Hf. destruct (build_summary_total db e y m Hv) as [s Hs]. pose proof Hs as Hs'.
  unfold build_employment_summary, month_range in Hs' |- *.
  destruct (shift_plan_intervals_ok (plans_in db (em_id e) (mk_date y m 1) (next_month y m)))
    as (pi & Hpi & Hpos); [intros p; by apply plans_in_valid|].
  rewrite Hpi in Hs' |- *. cbn [rbind] in Hs' |- *.
  apply rbind_ok in Hs' as (days & Hdays & [= Heq]).
  rewrite (map_result_ext _ (build_day db e (mk_date y m 1) (next_month y m) false
    (events_by_time (events_of db (em_id e))) pi)); [done|].
  intros d Hd. destruct (map_result_elem_2 _ _ _ _ Hdays Hd) as (x & Hx & Hb).
  rewrite Hb. apply (persisted_day db e y m s); try done. by rewrite <- Heq.
Qed.

(** ** Properties *)

(** after the metrics of a month are synchronised, reading the persisted
    metrics gives exactly the month summary that a full computation from the
    raw facts gives: storing and loading loses nothing, and the rows that are
    skipped for a month without facts read back as zero. *)
Theorem persisted_summary_round_trip db e y m (Hv : plans_valid db) (Hm : 1 <= m <= 12) :
  ∃ db', sync_employment_month_metrics db e y m = Ok db' ∧
    build_month_summary db' e y m true = build_month_summary db' e y m false.
Proof.
  destruct (sync_month_ok db e y m Hv Hm) as (x & Hx & Hf & _).
  exists (set_metrics x db). split; [done|].
  rewrite !build_month_summary_single. by apply persisted_summary_eq.
Qed.

(** [sync_employment_metric_months] never raises on valid plans, changes
    the metrics table only, leaves every listed month equal to a
    recomputation from the facts, and touches neither another month nor
    another employment. *)
Theorem sync_metric_months_spec db e days (Hv : plans_valid db) :
  ∃ x, sync_employment_metric_months db e (months_for_days days) = Ok (set_metrics x db) ∧
    (∀ d, d ∈ days → month_fresh (set_metrics x db) e (year_of d) (month_of d)) ∧
    ∀ i y m, 1 <= m <= 12 → i ≠ em_id e ∨ (∀ d, d ∈ days → ym_of d ≠ (y, m)) →
      month_rows (set_metrics x db) i y m = month_rows db i y m.
Proof.
  destruct (sync_months_ok db e (months_for_days days) Hv (months_for_days_valid days))
    as (x & Hx & Hf & Ho).
  exists x. split_and!; [done|..].
  - intros d Hd. apply Hf; [apply month_of_bounds|]. left. unfold months_for_days.
    rewrite elem_of_dedup. by apply (list_elem_of_fmap_2 ym_of).
  - intros i y m Hm Hor. apply Ho; [done|]. destruct Hor as [|Hn]; [by left|]. right.
    unfold months_for_days. rewrite elem_of_dedup. intros (d & Heq & Hd)%list_elem_of_fmap.
    by apply (Hn d Hd).
Qed.

(** [sync_employment_metrics] (a profile change) leaves the persisted rows
    of every month of the employment equal to a recomputation; months that no
    longer have facts lose their rows, and no other employment is touched. *)
Theorem sync_employment_metrics_spec db e (Hv : plans_valid db) :
  ∃ x, sync_employment_metrics db e = Ok (set_metrics x db) ∧
    metrics_fresh (set_metrics x db) e ∧
    ∀ i y m, 1 <= m <= 12 → i ≠ em_id e →
      month_rows (set_metrics x db) i y m = month_rows db i y m.
Proof. by apply sync_all_ok. Qed.

(** the computed summary of a month depends only on the plans, attendance
    rows and events of that employment in that month: facts of neighbouring
    months never leak into it. *)
Theorem month_summary_local db db' e y m
    (Hu : ids_unique (events db)) (Hu' : ids_unique (events db'))
    (Hv : plans_valid db) (Hv' : plans_valid db')
    (Hsame : same_facts (em_id e) (mk_date y m 1) (next_month y m) db db') :
  build_month_summary db' e y m false = build_month_summary db e y m false.
Proof. rewrite !build_month_summary_single. by apply build_summary_local. Qed.
