(* ===== verification/AttendanceApi.v ===== *)
(** * app/api/v1/attendance.py: the portal's attendance endpoints

    Each mutating endpoint is a function from the database, the signed-in
    user, the current instant and the request body to the database it commits
    or the HTTP error it raises.  An error leaves the database as it was: the
    session is rolled back or closed without a commit.  A request is one
    transaction that holds the row lock of its employment, so the handlers of
    one employment run one after another. *)

From S2P Require Import Prelude Calendar TimeParse PragueTime Models TimeIntervals Breaks.
From S2P Require Import TimeMetrics Locks EmploymentAccess DayStatus AttendanceEvents.
From S2P Require Import MonthSummary.

(** [PortalUserAuth] of app/api/deps.py: the signed-in user and the instance,
    which is always present. *)
Record PortalUserAuth := mk_auth { auth_user : PortalUser; auth_instance_id : string }.

(** [db.flush()] of new or moved events: the unique constraint
    [uq_attendance_event_employment_timestamp] raises [IntegrityError]. *)
Definition flush_events (db : DB) : result unit :=
  guard (negb (bool_decide (NoDup (event_key <$> events db))))
    (ApiError 409 "attendance_event_conflict").

Definition get_event (db : DB) (event_id : Z) : option AttendanceEvent :=
  one_or_none (where_ (λ x, ev_id x =? event_id) (events db)).

Definition or_raise {A} (o : option A) (e : api_error) : result A :=
  match o with Some a => Ok a | None => Err e end.

Definition event_not_found : api_error := ApiError 404 "attendance_event_not_found".

(** [day < start_date or (end_date is not None and day > end_date)]. *)
Definition outside_period (e : Employment) (day : date) : bool :=
  (day <? em_start_date e) ||
  match em_end_date e with Some last => last <? day | None => false end.

Section AttendanceApi.
Context `{zone : PragueZone}.

(** After [db.commit()] the rows are read back from PostgreSQL. *)
Definition reload_event (x : AttendanceEvent) : AttendanceEvent :=
  mk_event (ev_id x) (ev_employment_id x) (reload (ev_occurred_at x)).
Definition commit (db : DB) : DB := set_events (reload_event <$> events db) db.

Record AttendanceEventIn := mk_event_in {
  in_employment_id : Z;
  in_occurred_at : py_datetime;
  in_paired_occurred_at : option py_datetime;
}.

(** The validator [require_timezone] of the body. *)
Definition require_timezone (value : py_datetime) : aware := prague_now value.

(** [_employment] / [_require_accessible_employment]. *)
Definition accessible_employment (db : DB) (auth : PortalUserAuth) (employment_id : Z)
    : result Employment :=
  let? e := or_raise (get_employment db employment_id) (ApiError 404 "employment_not_found") in
  guard (negb (em_user_id e =? pu_id (auth_user auth)) || negb (pu_is_active (auth_user auth)))
    (ApiError 404 "employment_not_found") ?;;
  Ok e.

Definition require_locked_active_employment (db : DB) (e : Employment) (auth : PortalUserAuth)
    (today : date) : result unit :=
  guard (negb (em_user_id e =? pu_id (auth_user auth)) ||
         negb (locked_employment_has_active_user db e today))
    (ApiError 409 "employment_not_active").

(** The locked employment of a request. *)
Definition locked_employment (db : DB) (auth : PortalUserAuth) (employment_id : Z) (now : Z)
    : result Employment :=
  let? e0 := accessible_employment db auth employment_id in
  let? e := lock_employment_for_time_mutation db (em_id e0) in
  require_locked_active_employment db e auth (prague_today (Zoned now)) ?;;
  Ok e.

Definition ensure_months_unlocked (db : DB) (lock_type : LockType) (employment_id : Z)
    (months : list (Z * Z)) : result unit :=
  for_each (λ m, ensure_month_unlocked db lock_type employment_id m.1 m.2) months.

Definition day_status_conflict : api_error := ApiError 409 "attendance_day_status_conflict".

(** The end of the event endpoints, from [changed_event_days] on: status and
    lock checks of every changed day, metrics, commit. *)
Definition finish_event_mutation (db : DB) (e : Employment) (changed_days : list date)
    : result DB :=
  except_value_error (ensure_days_have_no_status db (em_id e) changed_days)
    day_status_conflict ?;;
  let affected_months := months_for_days changed_days in
  ensure_months_unlocked db LOCK_ATTENDANCE (em_id e) affected_months ?;;
  let? db' := sync_employment_metric_months db e affected_months in
  Ok (commit db').

Definition refresh (db : DB) (event_id : Z) : result AttendanceEvent :=
  or_raise (get_event db event_id) (Crash "InvalidRequestError").

(** Adding the event of a request, alone or as a closed pair. *)
Definition add_request_events (db : DB) (e : Employment) (occurred_at : aware)
    (paired : option aware) : result DB :=
  match paired with
  | Some p =>
      except_value_error (add_closed_interval_with_breaks db e occurred_at p)
        (ApiError 409 "attendance_event_alternation_conflict")
  | None => Ok (add_event_with_breaks db e occurred_at)
  end.

Definition option_list {A} (o : option A) : list A :=
  match o with Some a => [a] | None => [] end.

Definition future (now : Z) (t : aware) : bool := wall (prague_now (Zoned now)) <? wall t.

Definition create_attendance_event (db : DB) (auth : PortalUserAuth) (now : Z)
    (body : AttendanceEventIn) : result (DB * AttendanceEvent) :=
  let occurred_at := require_timezone (in_occurred_at body) in
  let paired_occurred_at := require_timezone <$> in_paired_occurred_at body in
  let? e := locked_employment db auth (in_employment_id body) now in
  guard (future now occurred_at) (ApiError 400 "attendance_future_entry_forbidden") ?;;
  guard (existsb (future now) (option_list paired_occurred_at))
    (ApiError 400 "attendance_future_entry_forbidden") ?;;
  let mutation_dates := date_of <$> occurred_at :: option_list paired_occurred_at in
  guard (existsb (outside_period e) mutation_dates)
    (ApiError 409 "employment_period_mismatch") ?;;
  let before_intervals := interval_signatures (events_of db (em_id e)) in
  let event_id := next_id db in
  let? db1 := add_request_events db e occurred_at paired_occurred_at in
  flush_events db1 ?;;
  let changed_days := changed_event_days before_intervals
    (interval_signatures (events_of db1 (em_id e)))
    (occurred_at :: option_list paired_occurred_at) in
  let? db2 := finish_event_mutation db1 e changed_days in
  let? event := refresh db2 event_id in
  Ok (db2, event).

(** [event.occurred_at = occurred_at]. *)
Definition move_event (event_id : Z) (t : aware) (db : DB) : DB :=
  set_events (update_where (λ x, ev_id x =? event_id)
    (λ x, mk_event (ev_id x) (ev_employment_id x) t) (events db)) db.

(** The other events of the employment, and the moved event among them. *)
Definition other_events (db : DB) (employment_id event_id : Z) : list AttendanceEvent :=
  events_by_time (where_ (λ x, (ev_employment_id x =? employment_id) &&
                               negb (ev_id x =? event_id)) (events db)).

Definition move_changed_days (db : DB) (e : Employment) (event : AttendanceEvent) (t : aware)
    : list date :=
  let evs := other_events db (em_id e) (ev_id event) in
  let before_intervals := interval_signatures (evs ++ [event]) in
  let ordered := ordered_events
    (evs ++ [mk_event (ev_id event) (ev_employment_id event) t]) in
  changed_event_days before_intervals (interval_signatures ordered) [ev_occurred_at event; t].

Definition update_attendance_event (db : DB) (auth : PortalUserAuth) (now : Z) (event_id : Z)
    (body : AttendanceEventIn) : result (DB * AttendanceEvent) :=
  let occurred_at := require_timezone (in_occurred_at body) in
  guard (is_some (in_paired_occurred_at body))
    (ApiError 400 "attendance_event_pair_update_forbidden") ?;;
  let? event0 := or_raise (get_event db event_id) event_not_found in
  let? e := locked_employment db auth (ev_employment_id event0) now in
  let? event := or_raise (get_event db event_id) event_not_found in
  guard (negb (in_employment_id body =? ev_employment_id event))
    (ApiError 400 "attendance_event_employment_immutable") ?;;
  guard (future now occurred_at) (ApiError 400 "attendance_future_entry_forbidden") ?;;
  guard (outside_period e (date_of occurred_at)) (ApiError 409 "employment_period_mismatch") ?;;
  let changed_days := move_changed_days db e event occurred_at in
  let db1 := move_event event_id occurred_at db in
  flush_events db1 ?;;
  let? db2 := finish_event_mutation db1 e changed_days in
  let? event := refresh db2 event_id in
  Ok (db2, event).

(** The event deleted together with the first one; [missing] is the error of
    an unknown partner. *)
Definition paired_deletion (missing : api_error) (evs : list AttendanceEvent) (e : Employment)
    (event : AttendanceEvent) (paired_event_id : option Z) : result (list AttendanceEvent) :=
  match paired_event_id with
  | None => Ok [event]
  | Some pid =>
      let? paired := or_raise (head (where_ (λ x, ev_id x =? pid) evs)) missing in
      guard (negb (ev_employment_id paired =? em_id e) || (ev_id paired =? ev_id event))
        missing ?;;
      Ok [event; paired]
  end.

(** The common end of the delete endpoints. *)
Definition delete_and_sync (missing : api_error) (db : DB) (e : Employment) (event : AttendanceEvent)
    (paired_event_id : option Z) : result DB :=
  let evs := events_of db (em_id e) in
  let before_intervals := interval_signatures evs in
  let? deleted := paired_deletion missing evs e event paired_event_id in
  let remaining_events := where_ (λ x, negb (mem (ev_id x) (ev_id <$> deleted))) evs in
  let changed_days := changed_event_days before_intervals
    (interval_signatures remaining_events) (ev_occurred_at <$> deleted) in
  let affected_months := months_for_days changed_days in
  ensure_months_unlocked db LOCK_ATTENDANCE (em_id e) affected_months ?;;
  let db1 := delete_events deleted db in
  let? db2 := sync_employment_metric_months db1 e affected_months in
  Ok (commit db2).

Definition delete_attendance_event (db : DB) (auth : PortalUserAuth) (now : Z) (event_id : Z)
    (paired_event_id : option Z) : result DB :=
  let? event0 := or_raise (get_event db event_id) event_not_found in
  let? e := locked_employment db auth (ev_employment_id event0) now in
  let? event := or_raise (get_event db event_id) event_not_found in
  delete_and_sync event_not_found db e event paired_event_id.

(** *** Full-day statuses *)

(** The set [lock_types]; the order in which the code visits it only picks
    which of two lock errors is reported. *)
Definition status_lock_types (status current_status : option string)
    (conflicts : DayStatusConflicts) : list LockType :=
  (if is_attendance_status status || is_attendance_status current_status ||
      attendance_exists conflicts then [LOCK_ATTENDANCE] else []) ++
  (if is_plan_status status || is_plan_status current_status ||
      shift_plan_exists conflicts then [LOCK_SHIFT_PLAN] else []).

Definition lock_types_or_both (l : list LockType) : list LockType :=
  match l with [] => [LOCK_ATTENDANCE; LOCK_SHIFT_PLAN] | _ => l end.

(** The part the portal and the administration share, from the current
    status of the day to the commit; [needs_confirmation] is the 409 error. *)
Definition change_day_status (db : DB) (e : Employment) (day : date) (status : option string)
    (confirm_delete_conflicts : bool) (instance_id : option string)
    (needs_confirmation : api_error) : result DB :=
  let current_status := get_day_status db (em_id e) day in
  let? conflicts := collect_day_status_conflicts db (em_id e) day in
  let conflict_plan_months := conflicting_shift_plan_months db (em_id e) day in
  let lock_types := status_lock_types status current_status conflicts in
  for_each (λ lock_type, ensure_months_unlocked db lock_type (em_id e)
    (ym_of day :: match lock_type with
                  | LOCK_SHIFT_PLAN => conflict_plan_months
                  | LOCK_ATTENDANCE => []
                  end)) (lock_types_or_both lock_types) ?;;
  let before_intervals := interval_signatures (events_of db (em_id e)) in
  let? (db1, conflicts') := replace_day_status db (em_id e) day status
    confirm_delete_conflicts instance_id in
  guard (bool_decide (status ≠ None) && has_conflicts conflicts' &&
         negb confirm_delete_conflicts) needs_confirmation ?;;
  let changed_days := day :: changed_event_days before_intervals
    (interval_signatures (events_of db1 (em_id e))) [] in
  let attendance_affected_months := months_for_days changed_days in
  let affected_months := dedup (attendance_affected_months ++ conflict_plan_months) in
  (if mem LOCK_ATTENDANCE lock_types
   then ensure_months_unlocked db1 LOCK_ATTENDANCE (em_id e) attendance_affected_months
   else Ok tt) ?;;
  let? db2 := sync_employment_metric_months db1 e affected_months in
  Ok (commit db2).

Record AttendanceStatusUpsertIn := mk_status_in {
  st_employment_id : Z;
  st_date : string;
  st_status : option string;
  st_confirm_delete_conflicts : bool;
}.

(** [employment.user.instance_id]. *)
Definition user_instance_id (db : DB) (e : Employment) : option string :=
  u ← user_of db e; pu_instance_id u.

(** The [pattern] of a body's status: one of the names, or empty, or null. *)
Definition status_pattern (names : list string) (status : option string) : bool :=
  mem status (None :: Some ""%string :: (Some <$> names)).

Definition validation_error : api_error := ApiError 422 "validation_error".

Definition upsert_attendance_status (db : DB) (auth : PortalUserAuth) (now : Z)
    (body : AttendanceStatusUpsertIn) : result DB :=
  guard (negb (status_pattern DAY_STATUS_VALUES (st_status body))) validation_error ?;;
  let? e := locked_employment db auth (st_employment_id body) now in
  let? day := or_raise (date_fromisoformat (st_date body)) (ApiError 400 "invalid_date_format") in
  guard (negb (mem (st_status body) (None :: (Some <$> DAY_STATUS_VALUES))))
    (ApiError 400 "invalid_day_status") ?;;
  guard (outside_period e day) (ApiError 409 "employment_period_mismatch") ?;;
  change_day_status db e day (st_status body) (st_confirm_delete_conflicts body)
    (Some (auth_instance_id auth))
    (ApiError 409 "day_status_conflict").
End AttendanceApi.
