(* ===== verification/SystemInvariant.v ===== *)
(** * What every committed mutation keeps

    [inv] is the well-formedness of the database between requests: table
    keys, stored date-times, valid plans, and no attendance event on a day
    with a full-day status.  [all_fresh] says the persisted metrics of every
    month are those a recomputation gives.  A [mutated] database is one in
    the middle of a request, before its metrics are synchronised; committing
    it re-establishes both. *)

From S2P Require Import Prelude Calendar TimeParse PragueTime Models TimeIntervals Breaks.
From S2P Require Import TimeMetrics Locks EmploymentAccess DayStatus AttendanceEvents.
From S2P Require Import MonthSummary AttendanceApi.

(** ** Reading the steps of a handler *)

Lemma or_raise_ok {A} (o : option A) e a : or_raise o e = Ok a ↔ o = Some a.
Proof. destruct o; simpl; split; congruence. Qed.

Lemma get_employment_ok db i e : get_employment db i = Some e → e ∈ employments db ∧ em_id e = i.
Proof.
  unfold get_employment, one_or_none. intros Hh.
  assert (e ∈ where_ (λ x, em_id x =? i) (employments db)) as [H1 H2%Z.eqb_eq]%elem_of_where.
  { destruct (where_ _ _); [done|]. injection Hh as ->. left. }
  done.
Qed.

Lemma lock_employment_ok db i e :
  lock_employment_for_time_mutation db i = Ok e → e ∈ employments db ∧ em_id e = i.
Proof.
  unfold lock_employment_for_time_mutation.
  destruct (get_employment db i) as [e'|] eqn:Hg; [|done]. intros [= <-].
  by apply get_employment_ok.
Qed.

(** ** The invariant *)

Definition no_status (db : DB) (e : Z) (d : date) : Prop :=
  attendance_status db (e, d) = None ∧ plan_status db (e, d) = None.

(** Tables untouched by a time mutation, the metrics aside. *)
Definition same_but_metrics (a b : DB) : Prop :=
  same_other_tables (set_metrics [] a) (set_metrics [] b).

#[global] Instance same_but_metrics_equiv : Equivalence same_but_metrics.
Proof.
  unfold same_but_metrics. split.
  - intros a. reflexivity.
  - intros a b H. by symmetry.
  - intros a b c H1 H2. by transitivity (set_metrics [] b).
Qed.

Lemma same_other_but_metrics a b : same_other_tables a b → same_but_metrics a b.
Proof. unfold same_but_metrics, same_other_tables. simpl. tauto. Qed.

(** The facts changed are those of employment [e] on the days [D]. *)
Record days_frame (e : Z) (D : list date) (db db' : DB) : Prop := {
  df_next : next_id db <= next_id db';
  df_tables : same_but_metrics db db';
  df_metrics : ∀ r, r ∈ metrics db' → r ∈ metrics db ∨ dm_employment_id r = e;
  df_plans : ∀ k, ¬ (k.1 = e ∧ k.2 ∈ D) → plan_rows db' k = plan_rows db k;
  df_attendance : ∀ k, ¬ (k.1 = e ∧ k.2 ∈ D) → attendance_rows db' k = attendance_rows db k;
  df_events : ∀ x, ¬ (ev_employment_id x = e ∧ ev_day x ∈ D) → x ∈ events db' ↔ x ∈ events db;
}.

Lemma day_frame_days e d db db' : day_frame (e, d) db db' → next_id db <= next_id db' → days_frame e [d] db db'.
Proof.
  intros [T P A E] N. constructor; [done|..].
  - by apply same_other_but_metrics.
  - intros r Hr. left. by destruct T as (_ & _ & _ & _ & <- & _).
  - intros [e' d'] Hk. apply P. intros [= -> ->]. apply Hk. split; [done|left].
  - intros [e' d'] Hk. apply A. intros [= -> ->]. apply Hk. split; [done|left].
  - intros x Hx. apply E. intros [= He Hd]. apply Hx. rewrite He, Hd. split; [done|left].
Qed.

Lemma days_frame_weaken e D D' db db' :
  (∀ d, d ∈ D → d ∈ D') → days_frame e D db db' → days_frame e D' db db'.
Proof. intros Hsub [N T M P A E]. constructor; [done|done|done|..]; naive_solver. Qed.

Lemma days_frame_trans e D a b c :
  days_frame e D a b → days_frame e D b c → days_frame e D a c.
Proof.
  intros [N1 T1 M1 P1 A1 E1] [N2 T2 M2 P2 A2 E2]. constructor.
  - lia.
  - by transitivity b.
  - intros r [Hr|Hr]%M2; [by apply M1|by right].
  - intros k Hk. by rewrite P2, P1.
  - intros k Hk. by rewrite A2, A1.
  - intros x Hx. by rewrite E2, E1.
Qed.

Lemma days_frame_refl e D db : days_frame e D db db.
Proof. constructor; try done. by left. Qed.

(** New metric rows of the employment [e] only. *)
Definition metrics_of_only (e : Z) (x : list EmploymentDailyTimeMetric) (db : DB) : Prop :=
  ∀ r, r ∈ x → r ∈ metrics db ∨ dm_employment_id r = e.

Lemma days_frame_metrics e D x db :
  metrics_of_only e x db → days_frame e D db (set_metrics x db).
Proof. intros Hx. constructor; [by simpl| |done..]. apply (reflexivity (R := same_other_tables)). Qed.

Section Invariant.
Context `{zone : PragueZone} `{!PragueZoneLaws zone}.

Record inv (db : DB) : Prop := {
  inv_wf : db_wf db;
  inv_employments : NoDup (em_id <$> employments db);
  inv_next : 0 < next_id db;
  inv_ids : ∀ x, x ∈ events db → 0 < ev_id x;
  inv_stored : ∀ x, x ∈ events db → reload (ev_occurred_at x) = ev_occurred_at x;
  inv_plans : plans_valid db;
  inv_statuses : statuses_valid db;
  inv_status : ∀ x, x ∈ events db → no_status db (ev_employment_id x) (ev_day x);
}.

Definition all_fresh (db : DB) : Prop := ∀ e, e ∈ employments db → metrics_fresh db e.

(** In the middle of a request, the facts of [e] on the days [D] changed. *)
Record mutated (db : DB) (e : Z) (D : list date) (db1 : DB) : Prop := {
  mu_wf : db_wf db1;
  mu_ids : ∀ x, x ∈ events db1 → 0 < ev_id x;
  mu_zone : ∀ x, x ∈ events db1 → from_zone (ev_occurred_at x);
  mu_plans : plans_valid db1;
  mu_statuses : statuses_valid db1;
  mu_frame : days_frame e D db db1;
  mu_status : ∀ x, x ∈ events db1 → ev_employment_id x = e → ev_day x ∈ D →
    no_status db1 e (ev_day x);
}.

Lemma stored_from_zone a : reload a = a → from_zone a.
Proof. destruct a as [w t]. intros [= Hw]. by right. Qed.

Lemma reload_event_day x : from_zone (ev_occurred_at x) → ev_day (reload_event x) = ev_day x.
Proof. apply date_of_reload. Qed.

Lemma reload_event_stored x : reload (ev_occurred_at x) = ev_occurred_at x → reload_event x = x.
Proof. destruct x as [i e a]. unfold reload_event. simpl. by intros ->. Qed.

Lemma commit_stored db : inv db → commit db = db.
Proof.
  intros Hi. unfold commit. rewrite (list_fmap_ext reload_event id), list_fmap_id.
  - by destruct db.
  - intros i z Hz. apply reload_event_stored, (inv_stored _ Hi). by eapply list_elem_of_lookup_2.
Qed.

(** The tables the invariant and the metrics read. *)
Definition same_time_tables (a b : DB) : Prop :=
  plans b = plans a ∧ attendance b = attendance a ∧ events b = events a ∧
  metrics b = metrics a ∧ employments b = employments a.

(** The tables of the locks and of the sent reminders. *)
Definition same_lock_tables (a b : DB) : Prop :=
  attendance_locks b = attendance_locks a ∧ shift_plan_locks b = shift_plan_locks a ∧
  reminders b = reminders a.

(** Writes of other tables keep the invariant. *)
Lemma inv_same_time db db' :
  same_time_tables db db' → next_id db <= next_id db' → inv db → inv db'.
Proof.
  intros (Hp & Ha & He & Hm & Hem) Hn [[P A E] N X I Z V W S]. constructor; try congruence.
  - constructor; rewrite ?Hp, ?Ha, ?He; by eapply keyed_mono.
  - lia.
  - intros x Hx. rewrite He in Hx. by apply I.
  - intros x Hx. rewrite He in Hx. by apply Z.
  - intros p Hpl. rewrite Hp in Hpl. by apply V.
  - destruct W as [W1 W2]. split; [intros p; rewrite Hp; apply W1|intros a; rewrite Ha; apply W2].
  - intros x Hx. rewrite He in Hx. apply S in Hx as [S1 S2].
    unfold no_status, attendance_status, plan_status, attendance_rows, plan_rows in *.
    by rewrite Hp, Ha.
Qed.

(** Writes of other tables keep the freshness of the metrics. *)
Lemma fresh_same_time db db' : same_time_tables db db' → all_fresh db → all_fresh db'.
Proof.
  intros (Hp & Ha & He & Hm & Hem) H e Hin y m Hy. rewrite Hem in Hin.
  specialize (H e Hin y m Hy). unfold month_fresh in *.
  assert (month_rows db' (em_id e) y m = month_rows db (em_id e) y m) as ->.
  { unfold month_rows, month_range, metrics_in. by rewrite Hm. }
  rewrite <- H. clear -Hp Ha He Hm. destruct db, db'. simpl in *. by subst.
Qed.

Lemma commit_elem db x : x ∈ events (commit db) ↔ ∃ z, x = reload_event z ∧ z ∈ events db.
Proof. apply list_elem_of_fmap. Qed.

Lemma commit_wf db : db_wf db → db_wf (commit db).
Proof.
  intros [P A [I K F]]. constructor; [done|done|]. constructor; simpl.
  - by rewrite <- list_fmap_compose.
  - by rewrite <- list_fmap_compose.
  - by rewrite Forall_fmap.
Qed.

(** A row keeps its statuses under a frame that does not contain its day. *)
Lemma no_status_frame e D db db' k :
  days_frame e D db db' → ¬ (k.1 = e ∧ k.2 ∈ D) →
  no_status db k.1 k.2 → no_status db' k.1 k.2.
Proof.
  intros F Hk [Ha Hp]. unfold no_status, attendance_status, plan_status in *.
  destruct k as [e' d']. simpl in *.
  by rewrite (df_attendance _ _ _ _ F (e', d') Hk), (df_plans _ _ _ _ F (e', d') Hk).
Qed.

Lemma commit_frame e D db db1 :
  inv db → mutated db e D db1 → days_frame e D db (commit db1).
Proof.
  intros Hi M. apply days_frame_trans with db1; [by apply M|].
  constructor; [by simpl|by unfold same_but_metrics, same_other_tables; split_and!|by left|done|done|].
  intros x Hx. rewrite commit_elem. split.
  - intros (z & -> & Hz). pose proof (mu_zone _ _ _ _ M z Hz) as Hzone.
    rewrite reload_event_day in Hx by done.
    assert (z ∈ events db) as Hz' by by apply (df_events _ _ _ _ (mu_frame _ _ _ _ M)).
    rewrite reload_event_stored by by apply (inv_stored _ Hi). done.
  - intros Hx'. assert (x ∈ events db) as Hxd by by apply (df_events _ _ _ _ (mu_frame _ _ _ _ M)).
    exists x. split; [|done]. symmetry. by apply reload_event_stored, (inv_stored _ Hi).
Qed.

(** Committing a mutated database restores the invariant. *)
Lemma commit_inv e D db db1 : inv db → mutated db e D db1 → inv (commit db1).
Proof.
  intros Hi M. pose proof (mu_frame _ _ _ _ M) as F. constructor.
  - by apply commit_wf, M.
  - destruct (df_tables _ _ _ _ F) as (_ & He & _). simpl in *. rewrite He. apply Hi.
  - pose proof (df_next _ _ _ _ F). pose proof (inv_next _ Hi). simpl. lia.
  - intros x (z & -> & Hz)%commit_elem. exact (mu_ids _ _ _ _ M z Hz).
  - intros x (z & -> & _)%commit_elem. done.
  - apply M.
  - exact (mu_statuses _ _ _ _ M).
  - intros x (z & -> & Hz)%commit_elem. rewrite reload_event_day by by apply (mu_zone _ _ _ _ M).
    change (ev_employment_id (reload_event z)) with (ev_employment_id z).
    change (no_status db1 (ev_employment_id z) (ev_day z)).
    destruct (decide (ev_employment_id z = e ∧ ev_day z ∈ D)) as [[He Hd]|Hn].
    + rewrite He. by apply (mu_status _ _ _ _ M).
    + apply (no_status_frame e D db db1 (ev_employment_id z, ev_day z) F Hn).
      apply (inv_status _ Hi). by apply (df_events _ _ _ _ F).
Qed.

Lemma mutated_metrics db e D db1 x :
  metrics_of_only e x db1 → mutated db e D db1 → mutated db e D (set_metrics x db1).
Proof.
  intros Hx [[P A E] I Z V W F S]. constructor; try done.
  apply days_frame_trans with db1; [done|by apply days_frame_metrics].
Qed.

(** ** Fresh metrics *)

(** The rows of a month follow its facts. *)
Lemma month_rows_frame e D db db' e' y m :
  inv db → inv db' → days_frame e D db db' → 1 <= m <= 12 →
  em_id e' ≠ e ∨ (∀ d, d ∈ D → ym_of d ≠ (y, m)) →
  month_metric_rows db' e' y m = month_metric_rows db e' y m.
Proof.
  intros Hi Hi' F Hm Hout. unfold month_metric_rows.
  assert (Hn : ∀ d, mk_date y m 1 <= d < next_month y m → ¬ (em_id e' = e ∧ d ∈ D)).
  { intros d Hd [He HdD]. destruct Hout as [|Hout]; [done|].
    apply (Hout d HdD). by apply month_range_spec. }
  rewrite (build_summary_local db db'); [done|..].
  - apply (inv_wf _ Hi).
  - apply (inv_wf _ Hi').
  - apply Hi.
  - apply Hi'.
  - constructor.
    + intros d Hd. apply (df_attendance _ _ _ _ F). by apply Hn.
    + intros d Hd. apply (df_plans _ _ _ _ F). by apply Hn.
    + intros d Hd. apply NoDup_Permutation.
      * apply (NoDup_fmap_1 ev_id), NoDup_fmap_where, NoDup_fmap_where, (inv_wf _ Hi').
      * apply (NoDup_fmap_1 ev_id), NoDup_fmap_where, NoDup_fmap_where, (inv_wf _ Hi).
      * intros x. unfold day_events, events_of. rewrite !elem_of_where, !Z.eqb_eq.
        split; intros [[Hx He] Hday]; (split; [split|]); try done;
          apply (df_events _ _ _ _ F x) in Hx; try done; rewrite He, Hday; by apply Hn.
Qed.

Lemma employment_by_id db a b :
  inv db → a ∈ employments db → b ∈ employments db → em_id a = em_id b → a = b.
Proof.
  intros Hi Ha Hb Hid. apply (table_same_id em_id (employments db)); try done. apply Hi.
Qed.

(** Synchronising the months of the changed days and committing keeps every
    month of every employment fresh, when the committed events keep the
    wall clocks the metrics were computed from. *)
Lemma sync_commit_fresh e D db db1 (months : list (Z * Z)) x :
  inv db → all_fresh db → e ∈ employments db → mutated db (em_id e) D db1 →
  metrics db1 = metrics db →
  (∀ z, z ∈ events db1 → reload_event z = z) →
  (∀ d, d ∈ D → ym_of d ∈ months) →
  (∀ y m, 1 <= m <= 12 → (y, m) ∈ months ∨ month_fresh db1 e y m →
     month_fresh (set_metrics x db1) e y m) →
  (∀ i y m, 1 <= m <= 12 → i ≠ em_id e ∨ (y, m) ∉ months →
     month_rows (set_metrics x db1) i y m = month_rows db1 i y m) →
  all_fresh (commit (set_metrics x db1)).
Proof.
  intros Hi Hfr He M Hmet Hreal HD Hs Ho.
  assert (Hc : commit (set_metrics x db1) = set_metrics x db1).
  { unfold commit. rewrite (list_fmap_ext reload_event id), list_fmap_id.
    - by destruct db1.
    - intros i z Hz. apply Hreal. by eapply list_elem_of_lookup_2. }
  assert (Hi1 : inv db1).
  { assert (db1 = commit db1) as ->; [|by eapply commit_inv].
    unfold commit. rewrite (list_fmap_ext reload_event id), list_fmap_id.
    - by destruct db1.
    - intros i z Hz. apply Hreal. by eapply list_elem_of_lookup_2. }
  pose proof (mu_frame _ _ _ _ M) as F.
  rewrite Hc. intros e' He' y m Hm.
  assert (He'' : e' ∈ employments db).
  { destruct (df_tables _ _ _ _ F) as (_ & Hemp & _). simpl in *. by rewrite <- Hemp. }
  assert (Hrows : month_rows db1 (em_id e') y m = month_rows db (em_id e') y m).
  { unfold month_rows, month_range, metrics_in. by rewrite Hmet. }
  destruct (decide (em_id e' = em_id e)) as [Heq|Hne].
  - apply (employment_by_id db) in Heq as ->; [|done..]. apply Hs; [done|].
    destruct (decide ((y, m) ∈ months)) as [|Hnot]; [by left|]. right.
    unfold month_fresh. rewrite Hrows, (month_rows_frame (em_id e) D db db1); try done.
    + by apply Hfr.
    + right. intros d Hd Hym. apply Hnot. rewrite <- Hym. by apply HD.
  - apply month_fresh_metrics; [apply Ho; [done|by left]|].
    unfold month_fresh. rewrite Hrows, (month_rows_frame (em_id e) D db db1); try done.
    + by apply Hfr.
    + by left.
Qed.

(** Rows written for a month have the employment of the month. *)
Lemma months_of_only db e (months : list (Z * Z)) x :
  (∀ i y m, 1 <= m <= 12 → i ≠ em_id e ∨ (y, m) ∉ months →
     month_rows (set_metrics x db) i y m = month_rows db i y m) →
  metrics_of_only (em_id e) x db.
Proof.
  intros Ho r Hr. destruct (decide (dm_employment_id r = em_id e)) as [|Hne]; [by right|left].
  set (d := dm_metric_date r). pose proof (month_of_bounds d) as Hm.
  assert (Hin : r ∈ month_rows (set_metrics x db) (dm_employment_id r) (year_of d) (month_of d)).
  { unfold month_rows, month_range, metrics_in. apply elem_of_where. split; [done|].
    apply metric_in_month; [done|]. by split. }
  rewrite Ho in Hin by auto. unfold month_rows, month_range, metrics_in in Hin.
  by apply elem_of_where in Hin as [? _].
Qed.

(** The request is about days of one employment that lie in its period, or
    that have its events already. *)
Definition in_scope (db db' : DB) : Prop :=
  ∃ e D, e ∈ employments db ∧ days_frame (em_id e) D db db' ∧
    ∀ d, d ∈ D → outside_period e d = false ∨
      ∃ x, x ∈ events db ∧ ev_employment_id x = em_id e ∧ ev_day x = d.

(** The common end of every mutation. *)
Lemma sync_commit_ok e D db db1 months db2 :
  inv db → e ∈ employments db → mutated db (em_id e) D db1 → metrics db1 = metrics db →
  (∀ d, d ∈ D → ym_of d ∈ months) → Forall (λ k, 1 <= k.2 <= 12) months →
  sync_employment_metric_months db1 e months = Ok db2 →
  inv (commit db2) ∧ days_frame (em_id e) D db (commit db2) ∧
  (all_fresh db → (∀ z, z ∈ events db1 → reload_event z = z) → all_fresh (commit db2)).
Proof.
  intros Hi He M Hmet HD Hmonths Hsync.
  destruct (sync_months_ok db1 e months (mu_plans _ _ _ _ M) Hmonths) as (x & Hx & Hs & Ho).
  rewrite Hx in Hsync. injection Hsync as <-.
  pose proof (mutated_metrics _ _ _ _ x (months_of_only db1 e months x Ho) M) as M'. split_and!.
  - by eapply commit_inv.
  - by apply commit_frame.
  - intros Hfr Hreal. by eapply sync_commit_fresh.
Qed.
End Invariant.
