(* ===== verification/Period.v ===== *)
(** * Rows belong to employments and lie in their periods

    The foreign keys to [employments] and the rule every time mutation checks:
    an event, a plan or a full-day status of an employment lies in the period
    of that employment. *)

From S2P Require Import Prelude Calendar TimeParse PragueTime Models TimeIntervals Breaks.
From S2P Require Import TimeMetrics Locks EmploymentAccess DayStatus AttendanceEvents.
From S2P Require Import MonthSummary AttendanceApi SystemInvariant.
#[local] Open Scope Z_scope.

(** The day belongs to an employment whose period contains it. *)
Definition in_period (db : DB) (i : Z) (d : date) : Prop :=
  ∃ e, e ∈ employments db ∧ em_id e = i ∧ outside_period e d = false.

Record period_inv (db : DB) : Prop := {
  pe_ids : ∀ e, e ∈ employments db → em_id e < next_id db;
  pe_events : ∀ x, x ∈ events db → in_period db (ev_employment_id x) (ev_day x);
  pe_plans : ∀ p, p ∈ plans db → in_period db (sp_employment_id p) (sp_date p);
  pe_attendance : ∀ a, a ∈ attendance db → in_period db (at_employment_id a) (at_date a);
  pe_metrics : ∀ r, r ∈ metrics db → dm_employment_id r ∈ em_id <$> employments db;
}.

Lemma in_period_same db db' i d :
  employments db' = employments db → in_period db i d → in_period db' i d.
Proof. intros He (e & H). exists e. by rewrite He. Qed.

Lemma in_period_self db e d :
  e ∈ employments db → outside_period e d = false → in_period db (em_id e) d.
Proof. intros He Ho. by exists e. Qed.

Lemma frame_employments e D db db' :
  days_frame e D db db' → employments db' = employments db.
Proof. intros F. by destruct (df_tables _ _ _ _ F) as (_ & He & _). Qed.

(** Rows found by their primary keys: the locks and the month selections. *)
Record side_ids (db : DB) : Prop := {
  sx_locks : ∀ lt, keyed lk_id lk_id (next_id db) (lock_table lt db);
  sx_selections : keyed mi_id mi_id (next_id db) (month_instances db);
}.

Lemma side_ids_same db db' :
  (∀ lt, lock_table lt db' = lock_table lt db) → month_instances db' = month_instances db →
  next_id db <= next_id db' → side_ids db → side_ids db'.
Proof.
  intros Hl Hm Hn [L S]. constructor.
  - intros lt. rewrite Hl. by eapply keyed_mono.
  - rewrite Hm. by eapply keyed_mono.
Qed.

Section Period.
Context `{zone : PragueZone} `{!PragueZoneLaws zone}.

Lemma elem_of_plan_rows p db k : p ∈ plan_rows db k ↔ p ∈ plans db ∧ plan_key p = k.
Proof. unfold plan_rows. by rewrite elem_of_where, plan_at_spec. Qed.

Lemma elem_of_attendance_rows a db k :
  a ∈ attendance_rows db k ↔ a ∈ attendance db ∧ attendance_key a = k.
Proof. unfold attendance_rows. by rewrite elem_of_where, attendance_at_spec. Qed.

(** A request within its scope keeps every row in its period. *)
Lemma scope_period db db' : in_scope db db' → period_inv db → period_inv db'.
Proof.
  intros (e & D & He & F & HD) [I X P A M]. pose proof (frame_employments _ _ _ _ F) as Hem.
  assert (Hin : ∀ k : Z * date, (k.1 = em_id e ∧ k.2 ∈ D) → in_period db' k.1 k.2).
  { intros [i d] [-> Hd]. apply (in_period_same db); [done|].
    destruct (HD d Hd) as [Ho|(x & Hx & Hxe & Hxd)]; [by apply in_period_self|].
    simpl. rewrite <- Hxe, <- Hxd. by apply X. }
  constructor.
  - intros e' He'. rewrite Hem in He'. pose proof (df_next _ _ _ _ F). specialize (I e' He'). lia.
  - intros x Hx. destruct (decide (ev_employment_id x = em_id e ∧ ev_day x ∈ D)) as [Hk|Hk].
    { by apply (Hin (ev_employment_id x, ev_day x)). }
    apply (df_events _ _ _ _ F x Hk) in Hx. apply (in_period_same db); auto.
  - intros p Hp. destruct (decide (sp_employment_id p = em_id e ∧ sp_date p ∈ D)) as [Hk|Hk].
    { by apply (Hin (sp_employment_id p, sp_date p)). }
    assert (p ∈ plan_rows db' (plan_key p)) as Hr by by apply elem_of_plan_rows.
    rewrite (df_plans _ _ _ _ F (plan_key p) Hk) in Hr. apply elem_of_plan_rows in Hr as [Hr _].
    apply (in_period_same db); auto.
  - intros a Ha. destruct (decide (at_employment_id a = em_id e ∧ at_date a ∈ D)) as [Hk|Hk].
    { by apply (Hin (at_employment_id a, at_date a)). }
    assert (a ∈ attendance_rows db' (attendance_key a)) as Hr by by apply elem_of_attendance_rows.
    rewrite (df_attendance _ _ _ _ F (attendance_key a) Hk) in Hr.
    apply elem_of_attendance_rows in Hr as [Hr _]. apply (in_period_same db); auto.
  - intros r Hr. rewrite Hem. destruct (df_metrics _ _ _ _ F r Hr) as [Hr'| ->]; [by apply M|].
    by apply list_elem_of_fmap_2.
Qed.

Lemma period_same_time db db' :
  same_time_tables db db' → next_id db <= next_id db' → period_inv db → period_inv db'.
Proof.
  intros (Hp & Ha & He & Hm & Hem) Hn [I X P A M].
  constructor; rewrite ?Hp, ?Ha, ?He, ?Hm, ?Hem.
  - intros e Hin. specialize (I e Hin). lia.
  - intros x Hx. apply (in_period_same db); auto.
  - intros p Hx. apply (in_period_same db); auto.
  - intros a Hx. apply (in_period_same db); auto.
  - done.
Qed.

(** The scope of a request about one day in the period of its employment. *)
Lemma scope_day e d db db' :
  e ∈ employments db → outside_period e d = false → days_frame (em_id e) [d] db db' →
  in_scope db db'.
Proof.
  intros He Ho F. exists e, [d]. split_and!; [done|done|].
  intros d' ->%list_elem_of_singleton. by left.
Qed.
End Period.
