(* ===== verification/AdminAttendanceApi.v ===== *)
(** * app/api/v1/admin_attendance.py: the administration's attendance endpoints

    The administrator may record future events and add missing breaks; the
    status and lock checks are those of the portal. *)

From S2P Require Import Prelude Calendar TimeParse PragueTime Models TimeIntervals Breaks.
From S2P Require Import TimeMetrics Locks EmploymentAccess DayStatus AttendanceEvents.
From S2P Require Import MonthSummary AttendanceApi.

Section AdminAttendanceApi.
Context `{zone : PragueZone}.

(** [_employment]. *)
Definition admin_employment (db : DB) (employment_id : Z) : result Employment :=
  let? e := or_raise (get_employment db employment_id) (ApiError 404 "employment_not_found") in
  let? u := or_raise (user_of db e) (ApiError 404 "employment_not_found") in
  guard (negb (pu_is_active u)) (ApiError 404 "employment_not_found") ?;;
  Ok e.

(** [lock_employment_for_time_mutation] and [_require_locked_active_employment]. *)
Definition lock_active (db : DB) (employment_id : Z) (now : Z) : result Employment :=
  let? e := lock_employment_for_time_mutation db employment_id in
  guard (negb (locked_employment_has_active_user db e (prague_today (Zoned now))))
    (ApiError 409 "employment_not_active") ?;;
  Ok e.

Definition admin_create_event (db : DB) (now : Z) (body : AttendanceEventIn)
    : result (DB * AttendanceEvent) :=
  let? e0 := admin_employment db (in_employment_id body) in
  let? e := lock_active db (em_id e0) now in
  let occurred_at := prague_now (in_occurred_at body) in
  let paired_occurred_at := prague_now <$> in_paired_occurred_at body in
  let mutation_dates := date_of <$> occurred_at :: option_list paired_occurred_at in
  guard (existsb (outside_period e) mutation_dates)
    (ApiError 409 "employment_period_mismatch") ?;;
  let before_intervals := interval_signatures (events_of db (em_id e)) in
  let event_id := next_id db in
  let? db1 := add_request_events db e occurred_at paired_occurred_at in
  flush_events db1 ?;;
  let changed_days := changed_event_days before_intervals
    (interval_signatures (events_of db1 (em_id e)))
    (occurred_at :: option_list paired_occurred_at) in
  let? db2 := finish_event_mutation db1 e changed_days in
  let? event := refresh db2 event_id in
  Ok (db2, event).

(** [not employment_is_currently_valid(employment) or not user.is_active]. *)
Definition require_current (db : DB) (e : Employment) (now : Z) : result unit :=
  guard (negb (employment_is_currently_valid e (prague_today (Zoned now))) ||
         match user_of db e with Some u => negb (pu_is_active u) | None => true end)
    (ApiError 404 "employment_not_found").

(** [event.employment]. *)
Definition employment_of_event (db : DB) (event : AttendanceEvent) : result Employment :=
  or_raise (get_employment db (ev_employment_id event)) (Crash "AttributeError").

Definition admin_update_event (db : DB) (now : Z) (event_id : Z) (body : AttendanceEventIn)
    : result (DB * AttendanceEvent) :=
  guard (is_some (in_paired_occurred_at body))
    (ApiError 400 "attendance_event_pair_update_forbidden") ?;;
  let? event0 := or_raise (get_event db event_id) event_not_found in
  guard (negb (in_employment_id body =? ev_employment_id event0))
    (ApiError 400 "attendance_event_employment_immutable") ?;;
  let? e0 := employment_of_event db event0 in
  let? e := lock_active db (em_id e0) now in
  let? event := or_raise (get_event db event_id) event_not_found in
  require_current db e now ?;;
  let next_occurred_at := prague_now (in_occurred_at body) in
  guard (outside_period e (date_of next_occurred_at))
    (ApiError 409 "employment_period_mismatch") ?;;
  let changed_days := move_changed_days db e event next_occurred_at in
  let db1 := move_event event_id next_occurred_at db in
  flush_events db1 ?;;
  let? db2 := finish_event_mutation db1 e changed_days in
  let? event := refresh db2 event_id in
  Ok (db2, event).

Definition admin_delete_event (db : DB) (now : Z) (event_id : Z) (paired_event_id : option Z)
    : result DB :=
  let? event0 := or_raise (get_event db event_id) event_not_found in
  let? e0 := employment_of_event db event0 in
  let? e := lock_active db (em_id e0) now in
  let? event := or_raise (get_event db event_id) event_not_found in
  require_current db e now ?;;
  delete_and_sync event_not_found db e event paired_event_id.

(** ** Missing breaks *)

Record AddBreaksIn := mk_breaks_in {
  br_employment_id : Z;
  br_year : Z;
  br_month : Z;
  br_confirmed : bool;
}.

Record AddBreaksOut := mk_breaks_out {
  affected_intervals : Z;
  inserted_pairs : Z;
  inserted_events : Z;
}.

(** [additions[index : index + 2]] for even indices, full pairs only. *)
Fixpoint pairs_of (l : list Z) : list (Z * Z) :=
  match l with
  | a :: b :: rest => (a, b) :: pairs_of rest
  | _ => []
  end.

(** The counters, [existing_times] and the rows added so far. *)
Record breaks_state := mk_breaks_state {
  bs_existing : list Z;
  bs_added : list Z;
  bs_out : AddBreaksOut;
}.

Definition add_break_group (db : DB) (e : Employment) (s : breaks_state) (additions : list Z)
    : result breaks_state :=
  let pairs := where_ (λ p, negb (mem p.1 (bs_existing s)) && negb (mem p.2 (bs_existing s)))
    (pairs_of additions) in
  match pairs with
  | [] => Ok s
  | _ =>
      let times := mjoin ((λ p, [p.1; p.2]) <$> pairs) in
      for_each (λ w, ensure_month_unlocked db LOCK_ATTENDANCE (em_id e)
        (ym_of (date_of_wall w)).1 (ym_of (date_of_wall w)).2) times ?;;
      Ok (mk_breaks_state (bs_existing s ++ times) (bs_added s ++ times)
        (mk_breaks_out (affected_intervals (bs_out s) + 1)
           (inserted_pairs (bs_out s) + Z.of_nat (length pairs))
           (inserted_events (bs_out s) + Z.of_nat (length times))))
  end.

Definition break_groups (db : DB) (e : Employment) (year month : Z) : list (list Z) :=
  let '(start, stop) := month_range year month in
  missing_break_event_groups (pair_events (events_by_time (events_of db (em_id e))))
    (midnight start) (midnight stop).

Definition add_missing_breaks (db : DB) (now : Z) (body : AddBreaksIn)
    : result (DB * AddBreaksOut) :=
  guard (negb (br_confirmed body)) (ApiError 409 "attendance_breaks_confirmation_required") ?;;
  let? e0 := admin_employment db (br_employment_id body) in
  let? e := lock_active db (em_id e0) now in
  ensure_month_unlocked db LOCK_ATTENDANCE (em_id e) (br_year body) (br_month body) ?;;
  let evs := events_by_time (events_of db (em_id e)) in
  let before_intervals := interval_signatures evs in
  let? s := fold_result (add_break_group db e)
    (break_groups db e (br_year body) (br_month body))
    (mk_breaks_state (ev_wall <$> evs) [] (mk_breaks_out 0 0 0)) in
  let db1 := add_events (em_id e) (at_wall <$> bs_added s) db in
  guard (negb (bool_decide (NoDup (event_key <$> events db1)))) (Crash "IntegrityError") ?;;
  let changed_days := changed_event_days before_intervals
    (interval_signatures (events_of db1 (em_id e))) [] in
  let? db2 := finish_event_mutation db1 e changed_days in
  Ok (db2, bs_out s).
End AdminAttendanceApi.
