(* ===== verification/LocksApi.v ===== *)
(** * app/api/v1/admin_locks.py and app/services/shift_plan_auto_lock.py

    The administration locks and unlocks months of chosen employments; a job
    locks the shift plans of the current month once. *)

From S2P Require Import Prelude Calendar TimeParse PragueTime Models TimeIntervals Breaks.
From S2P Require Import TimeMetrics Locks EmploymentAccess DayStatus AttendanceEvents.
From S2P Require Import MonthSummary AttendanceApi SystemInvariant.

Definition AUTO_LOCKED_BY : string := "system:shift-plan-month-autolock".

(** [LockMonthIn] is a pair of a year and a month. *)
Record AdminLockSetIn := mk_lock_in {
  li_lock_type : LockType;
  li_year : option Z;
  li_month : option Z;
  li_months : list (Z * Z);
  li_locked : bool;
  li_employment_ids : list Z;
}.

Record AdminLockSetOut := mk_lock_out {
  lo_updated_count : Z;
  lo_month_count : Z;
  lo_months : list (Z * Z);
}.

(** The [ge]/[le] bounds of the body. *)
Definition lock_month_valid (k : Z * Z) : bool :=
  (2000 <=? k.1) && (k.1 <=? 2100) && (1 <=? k.2) && (k.2 <=? 12).
Definition lock_body_valid (body : AdminLockSetIn) : bool :=
  forallb lock_month_valid (li_months body) &&
  match li_year body with Some y => (2000 <=? y) && (y <=? 2100) | None => true end &&
  match li_month body with Some m => (1 <=? m) && (m <=? 12) | None => true end.

Definition normalize_months (body : AdminLockSetIn) : result (list (Z * Z)) :=
  let? requested := match li_year body, li_month body with
    | None, None => Ok (li_months body)
    | Some y, Some m => Ok (li_months body ++ [(y, m)])
    | _, _ => Err (ApiError 400 "invalid_lock_months")
    end in
  match dedup requested with
  | [] => Err (ApiError 400 "lock_months_required")
  | uniq => Ok uniq
  end.

(** The employments of [uniq_ids] that overlap a month, with the instance of
    their user. *)
Definition lock_rows (db : DB) (uniq_ids : list Z) (month : Z * Z) : list (Z * option string) :=
  let '(month_start, month_end) := month_range month.1 month.2 in
  omap (λ i, e ← get_employment db i;
    if employment_overlaps_month e month_start month_end
    then Some (em_id e, u ← user_of db e; pu_instance_id u) else None) uniq_ids.

Definition target_rows_by_month (db : DB) (uniq_ids : list Z) (months : list (Z * Z))
    : list ((Z * Z) * list (Z * option string)) :=
  where_ (λ p, nonempty p.2) ((λ m, (m, lock_rows db uniq_ids m)) <$> months).

Definition set_lock_rows (lock_type : LockType) (locked : bool) (locked_by : option string)
    (db : DB) (target : (Z * Z) * list (Z * option string)) : DB :=
  set_month_lock_state_bulk db lock_type target.2 target.1.1 target.1.2 locked locked_by.

Section LocksApi.
Context `{zone : PragueZone}.

Definition admin_set_locks (db : DB) (admin_username : option string) (body : AdminLockSetIn)
    : result (DB * AdminLockSetOut) :=
  guard (negb (lock_body_valid body)) validation_error ?;;
  let uniq_ids := dedup (li_employment_ids body) in
  let? months := normalize_months body in
  guard (negb (nonempty uniq_ids)) (ApiError 400 "employment_ids_required") ?;;
  guard (existsb (λ i, negb (is_some (get_employment db i))) uniq_ids)
    (ApiError 404 "employment_not_found") ?;;
  let targets := target_rows_by_month db uniq_ids months in
  guard (negb (nonempty targets)) (ApiError 409 "employment_period_mismatch") ?;;
  let db' := fold_left (set_lock_rows (li_lock_type body) (li_locked body) admin_username)
    targets db in
  Ok (commit db',
      mk_lock_out (sum_Z ((λ t, Z.of_nat (length t.2)) <$> targets))
        (Z.of_nat (length months)) months).

(** ** The monthly job *)

Record ShiftPlanAutoLockResult := mk_auto_result {
  al_year : Z;
  al_month : Z;
  al_already_processed : bool;
  al_locked_count : Z;
}.

Definition find_auto_lock_run (db : DB) (year month : Z) : option ShiftPlanAutoLockRun :=
  one_or_none (where_ (λ r, (ar_year r =? year) && (ar_month r =? month)) (auto_lock_runs db)).

Definition by_employment_id (a b : Employment) : bool := em_id a <=? em_id b.

(** [employment_is_currently_valid] reads the clock itself: its [today] is an
    argument of its own. *)
Definition auto_lock_rows (db : DB) (today : date) (year month : Z) : list (Z * option string) :=
  let '(month_start, month_end) := month_range year month in
  omap (λ e,
    if employment_is_currently_valid e today &&
       match user_of db e with Some u => pu_is_active u | None => false end &&
       employment_overlaps_month e month_start month_end
    then Some (em_id e, u ← user_of db e; pu_instance_id u) else None)
    (sorted_by by_employment_id (employments db)).

Definition add_auto_lock_run (year month locked_count : Z) (db : DB) : DB :=
  bump_id (set_auto_lock_runs
    (auto_lock_runs db ++ [mk_run (next_id db) year month locked_count]) db).

Definition auto_lock_current_shift_plan_month (db : DB) (now : py_datetime) (today : date)
    : DB * ShiftPlanAutoLockResult :=
  let '(year, month) := ym_of (date_of (prague_now now)) in
  match find_auto_lock_run db year month with
  | Some run => (db, mk_auto_result year month true (ar_locked_count run))
  | None =>
      let active_rows := auto_lock_rows db today year month in
      let locked_count := Z.of_nat (length active_rows) in
      let db1 := set_month_lock_state_bulk db LOCK_SHIFT_PLAN active_rows year month true
        (Some AUTO_LOCKED_BY) in
      (commit (add_auto_lock_run year month locked_count db1),
       mk_auto_result year month false locked_count)
  end.
End LocksApi.

(** ** Lemmas *)

(** A write of the lock tables: nothing else changes, keys are only taken. *)
Record lock_write (db db' : DB) : Prop := {
  lw_tables : users db' = users db ∧ employments db' = employments db ∧ groups db' = groups db ∧
    members db' = members db ∧ attendance db' = attendance db ∧ events db' = events db ∧
    metrics db' = metrics db ∧ plans db' = plans db ∧ month_instances db' = month_instances db ∧
    auto_lock_runs db' = auto_lock_runs db ∧ reminders db' = reminders db;
  lw_next : next_id db <= next_id db';
  lw_ids : ∀ lt, keyed lk_id lk_id (next_id db) (lock_table lt db) →
    keyed lk_id lk_id (next_id db') (lock_table lt db');
}.

#[global] Instance lock_write_preorder : PreOrder lock_write.
Proof.
  split.
  - intros a. constructor; [by split_and!|lia|done].
  - intros a b c [Tab Nab Iab] [Tbc Nbc Ibc]. constructor; [|lia|auto].
    destruct_and!. split_and!; congruence.
Qed.

Lemma lock_write_set lt t db :
  (keyed lk_id lk_id (next_id db) (lock_table lt db) → keyed lk_id lk_id (next_id db) t) →
  lock_write db (set_lock_table lt t db).
Proof.
  intros Ht. constructor; [by destruct lt; split_and!|by destruct lt; simpl; lia|].
  intros lt' Hk. rewrite lock_table_set.
  assert (next_id (set_lock_table lt t db) = next_id db) as -> by by destruct lt.
  destruct (decide (lt' = lt)) as [->|]; auto.
Qed.

Lemma lock_write_update lt p f db :
  (∀ k, lk_id (f k) = lk_id k) →
  lock_write db (set_lock_table lt (update_where p f (lock_table lt db)) db).
Proof. intros Hf. apply lock_write_set. by apply keyed_update. Qed.

Lemma lock_write_delete lt p db :
  lock_write db (set_lock_table lt (delete_where p (lock_table lt db)) db).
Proof. apply lock_write_set. apply keyed_delete. Qed.

Lemma lock_write_add lt e i y m by_ db : lock_write db (add_lock lt e i y m by_ db).
Proof.
  constructor; [by destruct lt; split_and!|by destruct lt; simpl; lia|].
  intros lt' Hk. unfold add_lock. rewrite lock_table_bump, lock_table_set.
  assert (next_id (bump_id (set_lock_table lt (lock_table lt db ++
    [mk_lock (next_id db) e i y m by_]) db)) = next_id db + 1) as -> by by destruct lt.
  destruct (decide (lt' = lt)) as [->|]; [|by eapply keyed_mono; [|exact Hk]; lia].
  apply keyed_add; [done| |done]. intros (k & Hid & Hin)%list_elem_of_fmap.
  pose proof (keyed_fresh _ _ _ _ Hk) as Hf. rewrite Forall_forall in Hf. specialize (Hf k Hin).
  simpl in Hid. lia.
Qed.

Lemma lock_write_fold {A} (f : DB → A → DB) l db :
  (∀ db x, lock_write db (f db x)) → lock_write db (fold_left f l db).
Proof.
  intros Hf. revert db. induction l as [|x l IH]; intros db; simpl; [reflexivity|].
  transitivity (f db x); auto.
Qed.

Lemma lock_write_bulk db lt rows y m locked by_ :
  lock_write db (set_month_lock_state_bulk db lt rows y m locked by_).
Proof.
  unfold set_month_lock_state_bulk. destruct (fst <$> rows); [reflexivity|].
  destruct locked; [|apply lock_write_delete]. apply lock_write_fold. intros db' [e i]. simpl.
  destruct (is_month_locked _ _ _ _ _); [by apply lock_write_update|apply lock_write_add].
Qed.

Section Invariance.
Context `{zone : PragueZone}.

Lemma lock_write_same_time db db' : lock_write db db' → same_time_tables db db'.
Proof. intros [T _ _]. destruct_and!. by split_and!. Qed.

Lemma lock_write_inv db db' : lock_write db db' → inv db → inv db'.
Proof.
  intros W. apply inv_same_time; [by apply lock_write_same_time|]. apply W.
Qed.
End Invariance.

(** *** The months and rows of a request *)

Definition overlaps (e : Employment) (month : Z * Z) : bool :=
  employment_overlaps_month e (month_range month.1 month.2).1 (month_range month.1 month.2).2.

Lemma lock_rows_elem db ids month i :
  i ∈ (lock_rows db ids month).*1 ↔
  i ∈ ids ∧ ∃ e, get_employment db i = Some e ∧ overlaps e month = true.
Proof.
  unfold lock_rows, overlaps. destruct (month_range _ _) as [a b]. simpl.
  rewrite list_elem_of_fmap. setoid_rewrite list_elem_of_omap. split.
  - intros ([i' o] & -> & j & Hj & Hrow). simpl.
    destruct (get_employment db j) as [e|] eqn:He; [|done]. simpl in Hrow.
    destruct (employment_overlaps_month e a b) eqn:Ho; [|done]. injection Hrow as <- _.
    pose proof (get_employment_ok _ _ _ He) as [_ ->]. eauto.
  - intros [Hi (e & He & Ho)]. exists (i, u ← user_of db e; pu_instance_id u).
    split; [done|]. exists i. split; [done|]. rewrite He. simpl. rewrite Ho.
    by rewrite (proj2 (get_employment_ok _ _ _ He)).
Qed.

Lemma lock_rows_NoDup db ids month : NoDup ids → NoDup (lock_rows db ids month).*1.
Proof.
  unfold lock_rows. destruct (month_range _ _) as [a b]. intros Hn.
  induction Hn as [|i ids Hi Hn IH]; simpl; [constructor|].
  destruct (get_employment db i) as [e|] eqn:He; simpl; [|done].
  destruct (employment_overlaps_month e a b); simpl; [|done]. constructor; [|done].
  rewrite (proj2 (get_employment_ok _ _ _ He)).
  intros ([i' o] & -> & (j & Hj & Hrow)%list_elem_of_omap)%list_elem_of_fmap.
  destruct (get_employment db j) as [e'|] eqn:He'; [|done]. simpl in Hrow.
  destruct (employment_overlaps_month e' a b); [|done]. injection Hrow as <- _. simpl in Hi.
  by rewrite (proj2 (get_employment_ok _ _ _ He')) in Hi.
Qed.

(** *** The bulk operation keeps one row per employment and month *)

Lemma uq_bulk_step lt ex y m by_ db row :
  uq_lock_employment_month (lock_table lt db) →
  (ex row.1 = false → is_month_locked db lt row.1 y m = false) →
  uq_lock_employment_month (lock_table lt (bulk_lock_step lt ex y m by_ db row)).
Proof.
  intros Hu Hex. destruct row as [e i]. simpl in *. destruct (ex e).
  - rewrite lock_table_set, decide_True by done. unfold uq_lock_employment_month.
    by rewrite (update_relock_keys e y m i by_ (lock_table lt db)).
  - by apply uq_add_lock, Hex.
Qed.

Lemma uq_bulk_fold lt ex y m by_ rows db :
  NoDup rows.*1 → uq_lock_employment_month (lock_table lt db) →
  (∀ e, ex e = true → is_month_locked db lt e y m = true) →
  (∀ e, e ∈ rows.*1 → ex e = false → is_month_locked db lt e y m = false) →
  uq_lock_employment_month (lock_table lt (fold_left (bulk_lock_step lt ex y m by_) rows db)).
Proof.
  revert db. induction rows as [|row rows IH]; intros db Hn Hu Hin Hout; simpl; [done|].
  apply NoDup_cons in Hn as [Hr Hn]. apply IH; [done|..].
  - apply uq_bulk_step; [done|]. apply Hout. left.
  - intros e He. apply bulk_step_locked; auto.
  - intros e He Hf. apply not_true_is_false.
    intros [H|(_ & -> & _)]%bulk_step_locked; [|done|done].
    rewrite Hout in H; [done| |done]. by right.
Qed.

Lemma uq_lock_bulk db lt rows y m locked by_ :
  NoDup rows.*1 → uq_lock_employment_month (lock_table lt db) →
  uq_lock_employment_month (lock_table lt (set_month_lock_state_bulk db lt rows y m locked by_)).
Proof.
  intros Hn Hu. unfold set_month_lock_state_bulk. destruct rows as [|row rows]; [done|].
  change (match _ with [] => db | _ => ?x end) with x. destruct locked.
  - by apply uq_bulk_fold.
  - rewrite lock_table_set, decide_True by done. by apply NoDup_fmap_where.
Qed.

Lemma lock_table_other db lt lt' rows y m locked by_ :
  lt' ≠ lt → lock_table lt' (set_month_lock_state_bulk db lt rows y m locked by_) = lock_table lt' db.
Proof.
  intros Hne. unfold set_month_lock_state_bulk. destruct rows as [|row rows]; [done|].
  change (match _ with [] => db | _ => ?x end) with x. destruct locked.
  - generalize (λ e, is_month_locked db lt e y m) as ex. intros ex.
    generalize (row :: rows). clear rows. intros rows. revert db.
    induction rows as [|[e i] rows IH]; intros db; simpl; [done|]. rewrite IH.
    destruct (ex e); [by rewrite lock_table_set, decide_False|].
    unfold add_lock. by rewrite lock_table_bump, lock_table_set, decide_False.
  - by rewrite lock_table_set, decide_False.
Qed.

(** *** All the months of a request *)

Definition targeted (targets : list ((Z * Z) * list (Z * option string))) (e y m : Z) : Prop :=
  ∃ rows, ((y, m), rows) ∈ targets ∧ e ∈ rows.*1.

Lemma fold_lock_spec lt locked by_ targets db lt' e y m :
  (lt' = lt ∧ targeted targets e y m →
   is_month_locked (fold_left (set_lock_rows lt locked by_) targets db) lt' e y m = locked) ∧
  (¬ (lt' = lt ∧ targeted targets e y m) →
   is_month_locked (fold_left (set_lock_rows lt locked by_) targets db) lt' e y m =
   is_month_locked db lt' e y m).
Proof.
  revert db. induction targets as [|[[y0 m0] rows] targets IH]; intros db; simpl.
  - split; [|done]. intros (_ & rows & H & _). by apply elem_of_nil in H.
  - specialize (IH (set_lock_rows lt locked by_ db ((y0, m0), rows))) as [IH1 IH2].
    assert (Hhead : is_month_locked (set_lock_rows lt locked by_ db ((y0, m0), rows)) lt' e y m =
      if decide (lt' = lt ∧ e ∈ rows.*1 ∧ y = y0 ∧ m = m0) then locked
      else is_month_locked db lt' e y m) by apply bulk_lock_spec.
    assert (Hdec : (lt' = lt ∧ targeted targets e y m) ∨ ¬ (lt' = lt ∧ targeted targets e y m)).
    { destruct (decide (lt' = lt)); [|naive_solver].
      destruct (decide (Exists (λ t, t.1 = (y, m) ∧ e ∈ t.2.*1) targets)) as [H|H].
      - left. split; [done|]. apply Exists_exists in H as ([k r] & Hin & Hk & He).
        simpl in *. subst k. by exists r.
      - right. intros [_ (r & Hin & He)]. apply H, Exists_exists. by exists ((y, m), r). }
    unfold targeted in *. setoid_rewrite elem_of_cons. split.
    + intros (-> & r & [[= <- <- <-]|Hin] & He); [|apply IH1; eauto].
      destruct Hdec as [Hd|Hd]; [by apply IH1|]. rewrite IH2, Hhead by done.
      by rewrite decide_True.
    + intros Hn. rewrite IH2, Hhead by naive_solver. rewrite decide_False; [done|].
      intros (-> & He & -> & ->). apply Hn. split; [done|]. exists rows. auto.
Qed.

Lemma target_elem db ids months k rows :
  (k, rows) ∈ target_rows_by_month db ids months ↔
  k ∈ months ∧ rows = lock_rows db ids k ∧ nonempty rows = true.
Proof.
  unfold target_rows_by_month. rewrite elem_of_where, list_elem_of_fmap. naive_solver.
Qed.

Lemma targets_spec db ids months e y m :
  targeted (target_rows_by_month db ids months) e y m ↔
  e ∈ ids ∧ (y, m) ∈ months ∧ ∃ x, get_employment db e = Some x ∧ overlaps x (y, m) = true.
Proof.
  unfold targeted. setoid_rewrite target_elem. split.
  - intros (rows & (Hk & -> & _) & He). apply lock_rows_elem in He as [Hi Hx]. auto.
  - intros (Hi & Hk & Hx). exists (lock_rows db ids (y, m)).
    assert (He : e ∈ (lock_rows db ids (y, m)).*1) by by apply lock_rows_elem.
    split_and!; [done..| |done]. destruct (lock_rows db ids (y, m)); [by apply elem_of_nil in He|done].
Qed.

Lemma normalize_months_ok body months y m :
  normalize_months body = Ok months →
  (y, m) ∈ months ↔ (y, m) ∈ li_months body ∨ (li_year body = Some y ∧ li_month body = Some m).
Proof.
  unfold normalize_months. intros H. ok_inv H.
  assert (months = dedup v) as ->.
  { destruct (dedup v) eqn:E; congruence. }
  rewrite elem_of_dedup.
  destruct (li_year body) as [y0|], (li_month body) as [m0|]; try discriminate;
    injection Hstep as <-.
  - rewrite elem_of_app, list_elem_of_singleton. naive_solver.
  - naive_solver.
Qed.

Lemma uq_fold_locks lt lt' locked by_ targets db :
  Forall (λ t, NoDup (snd t).*1) targets → uq_lock_employment_month (lock_table lt' db) →
  uq_lock_employment_month
    (lock_table lt' (fold_left (set_lock_rows lt locked by_) targets db)).
Proof.
  intros Ht. revert db. induction Ht as [|[k rows] targets Hr Ht IH]; intros db Hu; simpl; [done|].
  apply IH. unfold set_lock_rows. destruct (decide (lt' = lt)) as [->|Hne].
  - by apply uq_lock_bulk.
  - by rewrite lock_table_other.
Qed.

Lemma targets_NoDup db ids months :
  NoDup ids → Forall (λ t, NoDup (snd t).*1) (target_rows_by_month db ids months).
Proof.
  intros Hn. apply Forall_forall. intros [k rows].
  intros (_ & -> & _)%target_elem. by apply lock_rows_NoDup.
Qed.

(** ** The monthly job *)

Definition auto_lock_active (db : DB) (today : date) (year month : Z) (e : Z) : Prop :=
  ∃ x u, x ∈ employments db ∧ em_id x = e ∧ employment_is_valid_on_day x today = true ∧
    user_of db x = Some u ∧ pu_is_active u = true ∧ overlaps x (year, month) = true.

Lemma auto_lock_rows_elem db today year month e :
  e ∈ (auto_lock_rows db today year month).*1 ↔ auto_lock_active db today year month e.
Proof.
  unfold auto_lock_rows, auto_lock_active, overlaps. simpl.
  rewrite list_elem_of_fmap. setoid_rewrite list_elem_of_omap.
  unfold employment_is_currently_valid. split.
  - intros ([i o] & -> & x & Hx & Hrow). simpl in *. rewrite elem_of_sorted_by in Hx.
    destruct (employment_is_valid_on_day x today) eqn:Hv; [|done].
    destruct (user_of db x) as [u|] eqn:Hu; [|done].
    destruct (pu_is_active u) eqn:Ha; [|done].
    destruct (employment_overlaps_month x _ _) eqn:Ho; [|done]. injection Hrow as <- _.
    by exists x, u.
  - intros (x & u & Hx & <- & Hv & Hu & Ha & Ho).
    exists (em_id x, u ← user_of db x; pu_instance_id u). split; [done|]. exists x.
    split; [by apply elem_of_sorted_by|]. by rewrite Hv, Hu, Ha, Ho.
Qed.

Lemma omap_fst_NoDup {A B} (key : A → Z) (f : A → option (Z * B)) l :
  (∀ x r, f x = Some r → r.1 = key x) → NoDup (key <$> l) → NoDup (omap f l).*1.
Proof.
  intros Hf. induction l as [|x l IH]; csimpl; [constructor|]. intros [Hx Hl]%NoDup_cons.
  destruct (f x) as [r|] eqn:Hr; [|by apply IH]. csimpl. constructor; [|by apply IH].
  rewrite (Hf _ _ Hr). intros (r' & Hk & (z & Hz & Hfz)%list_elem_of_omap)%list_elem_of_fmap.
  apply Hx. rewrite Hk, (Hf _ _ Hfz). by apply list_elem_of_fmap_2.
Qed.

Lemma auto_lock_rows_NoDup db today year month :
  NoDup (em_id <$> employments db) → NoDup (auto_lock_rows db today year month).*1.
Proof.
  intros Hn. unfold auto_lock_rows. simpl. apply (omap_fst_NoDup em_id).
  - intros e r. destruct (_ && _ && _); [|done]. by intros [= <-].
  - by rewrite (sorted_by_perm by_employment_id (employments db)).
Qed.

Lemma find_run_added db y m n :
  find_auto_lock_run db y m = None →
  find_auto_lock_run (add_auto_lock_run y m n db) y m = Some (mk_run (next_id db) y m n).
Proof.
  unfold find_auto_lock_run, add_auto_lock_run. simpl. rewrite where_app.
  destruct (where_ _ (auto_lock_runs db)); [|done]. intros _. unfold where_. simpl.
  by rewrite !Z.eqb_refl.
Qed.

Section Properties.
Context `{zone : PragueZone} `{!PragueZoneLaws zone}.

Lemma admin_set_locks_ok db by_ body db' out
    (Hi : inv db) (H : admin_set_locks db by_ body = Ok (db', out)) :
  inv db' ∧ (all_fresh db → all_fresh db') ∧ lock_write db db' ∧
  (∀ i, i ∈ li_employment_ids body → ∃ e, get_employment db i = Some e) ∧
  (∀ y m, (y, m) ∈ lo_months out ↔
     (y, m) ∈ li_months body ∨ (li_year body = Some y ∧ li_month body = Some m)) ∧
  (∀ lt e y m,
     let requested := lt = li_lock_type body ∧ e ∈ li_employment_ids body ∧
       (y, m) ∈ lo_months out ∧ ∃ x, get_employment db e = Some x ∧ overlaps x (y, m) = true in
     (requested → is_month_locked db' lt e y m = li_locked body) ∧
     (¬ requested → is_month_locked db' lt e y m = is_month_locked db lt e y m)) ∧
  (∀ lt, uq_lock_employment_month (lock_table lt db) →
     uq_lock_employment_month (lock_table lt db')).
Proof.
  unfold admin_set_locks in H. ok_inv H. injection H as <- <-. simpl.
  set (uniq := dedup (li_employment_ids body)) in *.
  set (db1 := fold_left _ _ _).
  assert (W : lock_write db db1) by (apply lock_write_fold; intros; apply lock_write_bulk).
  pose proof (lock_write_inv _ _ W Hi) as Hi1. rewrite (commit_stored db1 Hi1). split_and!.
  - done.
  - by apply fresh_same_time, lock_write_same_time.
  - done.
  - intros i Hin. apply elem_of_dedup in Hin. rewrite existsb_false_elem in Hguard1.
    specialize (Hguard1 i Hin). destruct (get_employment db i) as [e|]; [by exists e|done].
  - intros y m. by apply normalize_months_ok.
  - intros lt e y m. unfold db1.
    pose proof (fold_lock_spec (li_lock_type body) (li_locked body) by_
      (target_rows_by_month db uniq v) db lt e y m) as [H1 H2].
    rewrite targets_spec in H1, H2. unfold uniq in H1, H2. rewrite elem_of_dedup in H1, H2. done.
  - intros lt Hu. by apply uq_fold_locks; [apply targets_NoDup, NoDup_dedup|].
Qed.

Lemma auto_lock_ok db now today (Hi : inv db) :
  let '(year, month) := ym_of (date_of (prague_now now)) in
  let '(db', r) := auto_lock_current_shift_plan_month db now today in
  (if al_already_processed r then db' = db
   else inv db' ∧ (all_fresh db → all_fresh db') ∧
     (∀ lt e y m, is_month_locked db' lt e y m = true ↔
       is_month_locked db lt e y m = true ∨
       (lt = LOCK_SHIFT_PLAN ∧ (y, m) = (year, month) ∧ auto_lock_active db today year month e)) ∧
     (∀ lt, uq_lock_employment_month (lock_table lt db) →
       uq_lock_employment_month (lock_table lt db'))) ∧
  ∀ db2 now2 today2, auto_lock_runs db2 = auto_lock_runs db' →
    ym_of (date_of (prague_now now2)) = (year, month) →
    auto_lock_current_shift_plan_month db2 now2 today2 =
      (db2, mk_auto_result year month true (al_locked_count r)).
Proof.
  destruct (ym_of (date_of (prague_now now))) as [year month] eqn:Hym.
  unfold auto_lock_current_shift_plan_month. rewrite Hym.
  destruct (find_auto_lock_run db year month) as [run|] eqn:Hrun;
    cbn [al_already_processed al_locked_count].
  - split; [done|]. intros db2 now2 today2 Hr ->.
    unfold find_auto_lock_run in *. by rewrite Hr, Hrun.
  - set (rows := auto_lock_rows db today year month).
    set (db1 := set_month_lock_state_bulk _ _ _ _ _ _ _).
    assert (W : lock_write db db1) by apply lock_write_bulk.
    assert (T : same_time_tables db (add_auto_lock_run year month (Z.of_nat (length rows)) db1)).
    { exact (lock_write_same_time _ _ W). }
    assert (Hi1 : inv (add_auto_lock_run year month (Z.of_nat (length rows)) db1)).
    { apply (inv_same_time _ _ T); [|done]. simpl. pose proof (lw_next _ _ W). lia. }
    rewrite (commit_stored _ Hi1). split.
    + split_and!; [done|by apply fresh_same_time| |]; intros lt.
      * intros e y m. transitivity (is_month_locked db1 lt e y m = true); [by destruct lt|].
        unfold db1. rewrite bulk_lock_spec. unfold rows.
        destruct (decide _) as [(-> & He & -> & ->)|Hn].
        -- apply auto_lock_rows_elem in He. naive_solver.
        -- rewrite auto_lock_rows_elem in Hn. naive_solver.
      * intros Hu. cut (uq_lock_employment_month (lock_table lt db1)); [by destruct lt|].
        destruct (decide (lt = LOCK_SHIFT_PLAN)) as [->|Hne].
        -- apply uq_lock_bulk; [by apply auto_lock_rows_NoDup, (inv_employments _ Hi)|done].
        -- unfold db1. by rewrite lock_table_other.
    + intros db2 now2 today2 Hr Hym2. rewrite Hym2.
      assert (Hf : find_auto_lock_run db2 year month =
        find_auto_lock_run (add_auto_lock_run year month (Z.of_nat (length rows)) db1) year month).
      { unfold find_auto_lock_run. by rewrite Hr. }
      rewrite Hf, find_run_added; [done|]. unfold find_auto_lock_run in *.
      destruct (lw_tables _ _ W) as (_ & _ & _ & _ & _ & _ & _ & _ & _ & Hruns & _).
      by rewrite Hruns.
Qed.
(** The tables the job leaves alone. *)
Lemma auto_lock_frame db now today :
  inv db →
  let db' := (auto_lock_current_shift_plan_month db now today).1 in
  lock_write db (set_auto_lock_runs (auto_lock_runs db) db').
Proof.
  intros Hi. unfold auto_lock_current_shift_plan_month.
  destruct (ym_of _) as [year month]. destruct (find_auto_lock_run db year month); simpl.
  - by constructor.
  - set (db1 := set_month_lock_state_bulk _ _ _ _ _ _ _).
    assert (W : lock_write db db1) by apply lock_write_bulk.
    rewrite <- (commit_stored _ (lock_write_inv _ _ W Hi)) in W.
    destruct W as [T N I]. constructor; [|simpl in *; lia|].
    + simpl in *. naive_solver.
    + intros lt Hk. apply (keyed_mono _ _ (next_id db1)); [simpl; lia|].
      specialize (I lt Hk). by destruct lt.
Qed.

(** C37: a successful [PUT /admin/locks] locks or unlocks, for the requested
    lock type, exactly the requested employments in exactly the requested
    months their period overlaps; every other lock and every other table is as
    before, each lock table keeps one row per employment and month, and the
    invariant and the metrics are preserved. *)
Theorem admin_set_locks_spec db by_ body db' out
    (Hi : inv db) (H : admin_set_locks db by_ body = Ok (db', out)) :
  inv db' ∧ (all_fresh db → all_fresh db') ∧ lock_write db db' ∧
  (∀ i, i ∈ li_employment_ids body → ∃ e, get_employment db i = Some e) ∧
  (∀ y m, (y, m) ∈ lo_months out ↔
     (y, m) ∈ li_months body ∨ (li_year body = Some y ∧ li_month body = Some m)) ∧
  (∀ lt e y m,
     let requested := lt = li_lock_type body ∧ e ∈ li_employment_ids body ∧
       (y, m) ∈ lo_months out ∧ ∃ x, get_employment db e = Some x ∧ overlaps x (y, m) = true in
     (requested → is_month_locked db' lt e y m = li_locked body) ∧
     (¬ requested → is_month_locked db' lt e y m = is_month_locked db lt e y m)) ∧
  (∀ lt, uq_lock_employment_month (lock_table lt db) →
     uq_lock_employment_month (lock_table lt db')).
Proof. exact (admin_set_locks_ok db by_ body db' out Hi H). Qed.

(** C38: the monthly job locks, in the shift plan of the current month, exactly
    the employments valid today whose user is active, records one run, and
    from then on does nothing in that month, whatever was unlocked since. *)
Theorem auto_lock_spec db now today (Hi : inv db) :
  let '(year, month) := ym_of (date_of (prague_now now)) in
  let '(db', r) := auto_lock_current_shift_plan_month db now today in
  (if al_already_processed r then db' = db
   else inv db' ∧ (all_fresh db → all_fresh db') ∧
     (∀ lt e y m, is_month_locked db' lt e y m = true ↔
       is_month_locked db lt e y m = true ∨
       (lt = LOCK_SHIFT_PLAN ∧ (y, m) = (year, month) ∧ auto_lock_active db today year month e)) ∧
     (∀ lt, uq_lock_employment_month (lock_table lt db) →
       uq_lock_employment_month (lock_table lt db'))) ∧
  ∀ db2 now2 today2, auto_lock_runs db2 = auto_lock_runs db' →
    ym_of (date_of (prague_now now2)) = (year, month) →
    auto_lock_current_shift_plan_month db2 now2 today2 =
      (db2, mk_auto_result year month true (al_locked_count r)).
Proof. exact (auto_lock_ok db now today Hi). Qed.
End Properties.
