(* ===== verification/Groups.v ===== *)
(** * app/services/employment_groups.py and api/v1/admin_employment_groups.py

    Groups of employments that share their shift plans.  A service raises an
    [EmploymentGroupError] with a code; the endpoints roll back and answer with
    the status [_error] gives that code. *)

From stdpp Require Import relations.
From S2P Require Import Prelude Calendar TimeParse PragueTime Models TimeIntervals Breaks.
From S2P Require Import TimeMetrics Locks EmploymentAccess DayStatus AttendanceEvents.
From S2P Require Import MonthSummary AttendanceApi SystemInvariant.

#[local] Open Scope Z_scope.

(** [code_to_status] of [_error]. *)
Definition group_error_status (code : string) : Z :=
  if mem code ["group_not_found"; "employment_not_found"; "group_member_not_found"]%string then 404
  else if mem code ["duplicate_group_name"; "duplicate_group_member"]%string then 409
  else 400.
Definition group_error (code : string) : api_error := ApiError (group_error_status code) code.

(** [value.split()]: the maximal runs without white space. *)
Fixpoint split_words (l cur : list ascii) : list (list ascii) :=
  match l with
  | [] => match cur with [] => [] | _ => [rev cur] end
  | c :: l' =>
      if is_space c then match cur with [] => split_words l' [] | _ => rev cur :: split_words l' [] end
      else split_words l' (c :: cur)
  end.

(** [' '.join(words)]. *)
Fixpoint join_words (words : list (list ascii)) : list ascii :=
  match words with
  | [] => []
  | [w] => w
  | w :: rest => w ++ " "%char :: join_words rest
  end.

Definition squeeze (value : string) : string :=
  string_of_list_ascii (join_words (split_words (list_ascii_of_string value) [])).

Definition normalize_group_name (value : string) : result string :=
  match squeeze value with
  | EmptyString => Err (group_error "invalid_group_name")
  | normalized => Ok normalized
  end.

Definition normalize_member_ids (values : list Z) : result (list Z) :=
  guard (Z.of_nat (length values) <? 2) (group_error "group_requires_two_members") ?;;
  guard (negb (Nat.eqb (length (dedup values)) (length values)))
    (group_error "duplicate_group_member") ?;;
  Ok values.

(** [_load_employments]: as many employments as ids. *)
Definition load_employments (db : DB) (member_ids : list Z) : result (list Employment) :=
  let rows := where_ (λ e, mem (em_id e) member_ids) (employments db) in
  guard (negb (Nat.eqb (length rows) (length member_ids))) (group_error "employment_not_found") ?;;
  Ok rows.

Definition get_group (db : DB) (group_id : Z) : option EmploymentGroup :=
  one_or_none (where_ (λ g, eg_id g =? group_id) (groups db)).

(** [group.members], as employment ids. *)
Definition group_members (db : DB) (group_id : Z) : list Z :=
  gm_employment_id <$> where_ (λ m, gm_group_id m =? group_id) (members db).

(** [_ensure_unique_name]. *)
Definition ensure_unique_name (db : DB) (name : string) (excluding_id : option Z) : result unit :=
  guard (existsb (λ g, String.eqb (lower (eg_name g)) (lower name) &&
      match excluding_id with Some i => negb (eg_id g =? i) | None => true end) (groups db))
    (group_error "duplicate_group_name").

Definition add_members (group_id : Z) (ids : list Z) (db : DB) : DB :=
  set_members (members db ++ (mk_member group_id <$> ids)) db.

Definition delete_members (p : EmploymentGroupMember → bool) (db : DB) : DB :=
  set_members (delete_where p (members db)) db.

(** [db.delete(group)]: the members go with it. *)
Definition delete_group (group_id : Z) (db : DB) : DB :=
  set_groups (delete_where (λ g, eg_id g =? group_id) (groups db))
    (delete_members (λ m, gm_group_id m =? group_id) db).

Definition create_group (db : DB) (name : string) (member_ids : list Z)
    : result (DB * EmploymentGroup) :=
  let? name := normalize_group_name name in
  let? ids := normalize_member_ids member_ids in
  ensure_unique_name db name None ?;;
  let? _ := load_employments db ids in
  let group := mk_group (next_id db) name in
  Ok (add_members (eg_id group) ids (bump_id (set_groups (groups db ++ [group]) db)), group).

Definition require_group (db : DB) (group_id : Z) : result EmploymentGroup :=
  or_raise (get_group db group_id) (group_error "group_not_found").

Definition replace_members (db : DB) (group_id : Z) (member_ids : list Z) : result DB :=
  let? ids := normalize_member_ids member_ids in
  let? group := require_group db group_id in
  let? _ := load_employments db ids in
  Ok (add_members (eg_id group) ids (delete_members (λ m, gm_group_id m =? eg_id group) db)).

Definition rename_group (db : DB) (group_id : Z) (name : string) : result DB :=
  let? group := require_group db group_id in
  let? normalized := normalize_group_name name in
  ensure_unique_name db normalized (Some (eg_id group)) ?;;
  Ok (set_groups (update_where (λ g, eg_id g =? eg_id group)
    (λ g, mk_group (eg_id g) normalized) (groups db)) db).

(** Whether the group had to be deleted. *)
Definition remove_members (db : DB) (group_id : Z) (member_ids : list Z) : result (DB * bool) :=
  let? group := require_group db group_id in
  guard (negb (forallb (λ i, mem i (group_members db (eg_id group))) member_ids))
    (group_error "group_member_not_found") ?;;
  let db1 := delete_members
    (λ m, (gm_group_id m =? eg_id group) && mem (gm_employment_id m) member_ids) db in
  let remaining := Z.of_nat (length (group_members db1 (eg_id group))) in
  if remaining <? 2 then Ok (delete_group (eg_id group) db1, true) else Ok (db1, false).

(** The groups are read before the loop. *)
Definition remove_groups_for_employment (db : DB) (employment_id : Z) : result DB :=
  fold_result (λ db group_id, let? (db', _) := remove_members db group_id [employment_id] in Ok db')
    (gm_group_id <$> where_ (λ m, gm_employment_id m =? employment_id) (members db)) db.

(** ** The endpoints *)

Section Endpoints.
Context `{zone : PragueZone}.

Definition name_too_long (name : string) : bool := 160 <? Z.of_nat (String.length name).

Definition admin_create_employment_group (db : DB) (name : string) (employment_ids : list Z)
    : result (DB * EmploymentGroup) :=
  guard (name_too_long name || (Z.of_nat (length employment_ids) <? 2)) validation_error ?;;
  let? (db', group) := create_group db (squeeze name) employment_ids in
  Ok (commit db', group).

Definition admin_update_employment_group (db : DB) (group_id : Z) (name : string) : result DB :=
  guard (name_too_long name) validation_error ?;;
  let? db' := rename_group db group_id name in Ok (commit db').

Definition admin_replace_employment_group_members (db : DB) (group_id : Z)
    (employment_ids : list Z) : result DB :=
  guard (Z.of_nat (length employment_ids) <? 1) validation_error ?;;
  let? db' := replace_members db group_id employment_ids in Ok (commit db').

Definition admin_remove_employment_group_members (db : DB) (group_id : Z)
    (employment_ids : list Z) : result (DB * bool) :=
  guard (Z.of_nat (length employment_ids) <? 1) validation_error ?;;
  let? (db', group_deleted) := remove_members db group_id employment_ids in
  Ok (commit db', group_deleted).

Definition admin_delete_employment_group (db : DB) (group_id : Z) : result DB :=
  let? group := require_group db group_id in Ok (commit (delete_group (eg_id group) db)).
End Endpoints.

(** ** Well-formed groups

    Names are unique without regard to case, members exist and are distinct. *)
Definition group_name_key (g : EmploymentGroup) : string := lower (eg_name g).

Record groups_wf (db : DB) : Prop := {
  gw_groups : keyed eg_id group_name_key (next_id db) (groups db);
  gw_named : ∀ g, g ∈ groups db → eg_name g ≠ ""%string;
  gw_distinct : NoDup (members db);
  gw_group : ∀ m, m ∈ members db → gm_group_id m ∈ eg_id <$> groups db;
  gw_employment : ∀ m, m ∈ members db → gm_employment_id m ∈ em_id <$> employments db;
}.

(** No group has fewer than two members.  Every operation here keeps it; the
    deletion of a user does not, so it is no part of [groups_wf]. *)
Definition groups_sized (db : DB) : Prop :=
  ∀ g, g ∈ groups db → (2 <= length (group_members db (eg_id g)))%nat.

(** *** Members of a group after a write *)

Lemma group_members_elem db i e :
  e ∈ group_members db i ↔ mk_member i e ∈ members db.
Proof.
  unfold group_members. rewrite list_elem_of_fmap. setoid_rewrite elem_of_where.
  setoid_rewrite Z.eqb_eq. split.
  - intros ([i' e'] & -> & Hin & <-). exact Hin.
  - intros H. by exists (mk_member i e).
Qed.

Lemma group_members_add db i ids j :
  group_members (add_members i ids db) j = group_members db j ++ (if j =? i then ids else []).
Proof.
  unfold group_members, add_members. simpl. rewrite where_app, fmap_app. f_equal.
  destruct (j =? i) eqn:E; bool_hyps.
  - subst. rewrite where_all.
    + rewrite <- list_fmap_compose. apply list_fmap_id.
    + intros m (e & -> & _)%list_elem_of_fmap. apply Z.eqb_refl.
  - rewrite (proj2 (where_nil_iff _ _)); [done|].
    intros m (e & -> & _)%list_elem_of_fmap. simpl. apply Z.eqb_neq. done.
Qed.

Lemma group_members_clear db i j :
  group_members (delete_members (λ m, gm_group_id m =? i) db) j =
  if j =? i then [] else group_members db j.
Proof.
  unfold group_members, delete_members. simpl. destruct (j =? i) eqn:E; bool_hyps.
  - subst. by rewrite where_delete_self.
  - f_equal. apply where_delete_where_disjoint. intros m Hm. bool_hyps. apply Z.eqb_neq. congruence.
Qed.

Lemma group_members_remove db i ids j :
  group_members (delete_members (λ m, (gm_group_id m =? i) && mem (gm_employment_id m) ids) db) j =
  if j =? i then where_ (λ e, negb (mem e ids)) (group_members db i) else group_members db j.
Proof.
  unfold group_members, delete_members. simpl. destruct (j =? i) eqn:E; bool_hyps.
  - subst. rewrite where_fmap, where_delete_comm. f_equal. apply where_ext.
    intros m [_ Hm]%elem_of_where. by rewrite Hm.
  - f_equal. apply where_delete_where_disjoint. intros m Hm. bool_hyps.
    apply andb_false_iff. left. apply Z.eqb_neq. congruence.
Qed.

(** *** Checks *)

Lemma member_ids_ok ids l :
  normalize_member_ids ids = Ok l → l = ids ∧ (2 <= length ids)%nat ∧ NoDup ids.
Proof.
  unfold normalize_member_ids. intros H. ok_inv H. injection H as <-. bool_hyps.
  apply Nat.eqb_eq in Hguard0. split_and!; [done|lia|].
  assert (dedup ids ≡ₚ ids) as <-; [|apply NoDup_dedup].
  apply submseteq_length_Permutation; [|by rewrite Hguard0].
  apply NoDup_submseteq; [apply NoDup_dedup|]. intros x. apply elem_of_dedup.
Qed.

Lemma load_employments_ok db ids rows :
  NoDup (em_id <$> employments db) → NoDup ids → load_employments db ids = Ok rows →
  ∀ i, i ∈ ids → i ∈ em_id <$> employments db.
Proof.
  unfold load_employments. intros He Hn H. ok_inv H. bool_hyps. apply Nat.eqb_eq in Hguard.
  assert (Hperm : em_id <$> where_ (λ e, mem (em_id e) ids) (employments db) ≡ₚ ids).
  { apply submseteq_length_Permutation; [|by rewrite length_fmap, Hguard].
    apply NoDup_submseteq; [by apply NoDup_fmap_where|].
    intros x (e & -> & [_ Hm]%elem_of_where)%list_elem_of_fmap. by apply mem_true in Hm. }
  intros i Hi. rewrite <- Hperm in Hi. apply list_elem_of_fmap in Hi as (e & -> & [Hin _]%elem_of_where).
  by apply list_elem_of_fmap_2.
Qed.

Lemma get_group_some db i g : get_group db i = Some g → g ∈ groups db ∧ eg_id g = i.
Proof.
  unfold get_group. intros H.
  assert (Hin : g ∈ where_ (λ g, eg_id g =? i) (groups db)).
  { destruct (where_ _ _) as [|x l]; [done|]. injection H as ->. left. }
  apply elem_of_where in Hin as [Hin Hid]. by apply Z.eqb_eq in Hid.
Qed.

Lemma require_group_ok db i g : require_group db i = Ok g → g ∈ groups db ∧ eg_id g = i.
Proof.
  unfold require_group. destruct (get_group db i) eqn:E; [|done]. intros [= <-].
  by apply get_group_some.
Qed.

Lemma unique_name_ok db name o u :
  ensure_unique_name db name o = Ok u →
  ∀ g, g ∈ groups db → Some (eg_id g) ≠ o → group_name_key g ≠ lower name.
Proof.
  unfold ensure_unique_name. rewrite guard_ok, existsb_false_elem. intros H g Hg Ho Hk.
  specialize (H g Hg). simpl in H. unfold group_name_key in Hk. rewrite Hk, String.eqb_refl in H.
  destruct o as [i|]; [|done]. simpl in H. bool_hyps. congruence.
Qed.

Lemma group_name_ok name n : normalize_group_name name = Ok n → n = squeeze name ∧ n ≠ ""%string.
Proof.
  unfold normalize_group_name. destruct (squeeze name) eqn:E; [done|]. by intros [= <-].
Qed.

(** *** Every write keeps the groups well formed *)

Lemma add_members_wf i ids db :
  NoDup ids → (∀ e, e ∈ ids → e ∈ em_id <$> employments db) →
  NoDup (members db) → group_members db i = [] → i ∈ eg_id <$> groups db →
  (∀ m, m ∈ members db → gm_group_id m ∈ eg_id <$> groups db) →
  (∀ m, m ∈ members db → gm_employment_id m ∈ em_id <$> employments db) →
  let db' := add_members i ids db in
  NoDup (members db') ∧ (∀ m, m ∈ members db' → gm_group_id m ∈ eg_id <$> groups db) ∧
  (∀ m, m ∈ members db' → gm_employment_id m ∈ em_id <$> employments db).
Proof.
  intros Hn He Hm Hnil Hi Hg Hem. simpl. split_and!.
  - apply NoDup_app. split_and!; [done| |].
    + intros m Hin (e & -> & _)%list_elem_of_fmap.
      apply group_members_elem in Hin. rewrite Hnil in Hin. by apply elem_of_nil in Hin.
    + apply (NoDup_fmap_2_strong _ ids); [|done]. by intros ?? _ _ [= ->].
  - intros m [Hin|(e & -> & _)%list_elem_of_fmap]%elem_of_app; auto.
  - intros m [Hin|(e & -> & Hin)%list_elem_of_fmap]%elem_of_app; auto.
Qed.

Lemma no_members db i :
  groups_wf db → i ∉ eg_id <$> groups db → group_members db i = [].
Proof.
  intros W Hi. destruct (group_members db i) as [|e l] eqn:E; [done|].
  assert (He : e ∈ group_members db i) by (rewrite E; left).
  apply group_members_elem, (gw_group _ W) in He. done.
Qed.

Lemma create_group_wf db name ids db' g :
  NoDup (em_id <$> employments db) → groups_wf db → create_group db name ids = Ok (db', g) →
  groups_wf db'.
Proof.
  intros Hem W H. unfold create_group in H. ok_inv H. injection H as <- <-.
  apply group_name_ok in Hstep as [_ Hne]. apply member_ids_ok in Hstep0 as (-> & Htwo & Hn).
  pose proof (load_employments_ok _ _ _ Hem Hn Hstep2) as Hload.
  set (new := mk_group (next_id db) v).
  set (db1 := bump_id (set_groups (groups db ++ [new]) db)).
  pose proof (gw_groups _ W) as K.
  assert (Hfresh : next_id db ∉ eg_id <$> groups db).
  { intros (x & Hx & Hin)%list_elem_of_fmap.
    pose proof (proj1 (Forall_forall _ _) (keyed_fresh _ _ _ _ K) x Hin) as Hlt. simpl in Hlt. lia. }
  destruct (add_members_wf (next_id db) ids db1) as (M1 & M2 & M3); try done.
  - apply W.
  - by apply (no_members db).
  - simpl. rewrite fmap_app. apply elem_of_app. right. left.
  - intros m Hin. simpl. rewrite fmap_app. apply elem_of_app. left. by apply (gw_group _ W).
  - apply W.
  - constructor; try done.
    + apply (keyed_add eg_id group_name_key); [done| |exact K].
      intros (x & Hk & Hx)%list_elem_of_fmap.
      by apply (unique_name_ok _ _ _ _ Hstep1 x).
    + intros g [Hg| ->%list_elem_of_singleton]%elem_of_app; [by apply (gw_named _ W)|done].
Qed.

Lemma create_group_sized db name ids db' g :
  groups_sized db → create_group db name ids = Ok (db', g) → groups_sized db'.
Proof.
  intros W H x Hx. unfold create_group in H. ok_inv H. injection H as <- <-.
  apply member_ids_ok in Hstep0 as (-> & Htwo & _). rewrite group_members_add, length_app.
  apply elem_of_app in Hx as [Hx| ->%list_elem_of_singleton].
  - pose proof (W x Hx) as H2. unfold group_members in *. simpl. lia.
  - simpl. rewrite Z.eqb_refl. lia.
Qed.

Lemma replace_members_wf db i ids db' :
  NoDup (em_id <$> employments db) → groups_wf db → replace_members db i ids = Ok db' →
  groups_wf db'.
Proof.
  intros Hem W H. unfold replace_members in H. ok_inv H. injection H as <-.
  apply member_ids_ok in Hstep as (-> & Htwo & Hn).
  apply require_group_ok in Hstep0 as [Hg Hid].
  pose proof (load_employments_ok _ _ _ Hem Hn Hstep1) as Hload.
  set (db1 := delete_members (λ m, gm_group_id m =? eg_id v0) db).
  destruct (add_members_wf (eg_id v0) ids db1) as (M1 & M2 & M3); try done.
  - apply NoDup_where, W.
  - unfold db1. by rewrite group_members_clear, Z.eqb_refl.
  - by apply list_elem_of_fmap_2.
  - intros m [Hin _]%elem_of_delete_where. by apply (gw_group _ W).
  - intros m [Hin _]%elem_of_delete_where. by apply (gw_employment _ W).
  - constructor; try done; apply W.
Qed.

Lemma replace_members_sized db i ids db' :
  groups_sized db → replace_members db i ids = Ok db' → groups_sized db'.
Proof.
  intros W H g Hg. unfold replace_members in H. ok_inv H. injection H as <-.
  apply member_ids_ok in Hstep as (-> & Htwo & _). rewrite group_members_add, group_members_clear.
  destruct (_ =? _); [simpl; lia|]. rewrite app_nil_r. by apply W.
Qed.

Lemma rename_group_wf db i name db' :
  groups_wf db → rename_group db i name = Ok db' → groups_wf db'.
Proof.
  intros W H. unfold rename_group in H. ok_inv H. injection H as <-.
  apply require_group_ok in Hstep as [Hg Hid]. apply group_name_ok in Hstep0 as [_ Hne].
  pose proof (unique_name_ok _ _ _ _ Hstep1) as Hu. pose proof (gw_groups _ W) as [Ki Kn Kf].
  set (f := λ g, mk_group (eg_id g) v0).
  assert (Hids : eg_id <$> update_where (λ g, eg_id g =? eg_id v) f (groups db) = eg_id <$> groups db)
    by by apply update_where_fmap.
  constructor; simpl; try done.
  - constructor; [by rewrite Hids| |].
    + unfold update_where. rewrite <- list_fmap_compose.
      apply (NoDup_fmap_2_strong _ (groups db)); [|by apply NoDup_fmap_1 in Ki].
      intros x y Hx Hy. simpl.
      pose proof (NoDup_fmap_eq eg_id _ x y Ki Hx Hy) as Hi.
      destruct (eg_id x =? eg_id v) eqn:Ex, (eg_id y =? eg_id v) eqn:Ey; bool_hyps; intros Hk.
      * symmetry. apply Hi. congruence.
      * exfalso. apply (Hu y); [done|congruence|done].
      * exfalso. apply (Hu x); [done|congruence|done].
      * symmetry. by apply (NoDup_fmap_eq group_name_key (groups db)).
    + rewrite Forall_forall in Kf |- *. intros g (g' & Hg' & ->)%elem_of_update_where.
      specialize (Kf g' Hg'). by destruct (_ =? _).
  - intros g (g' & Hg' & ->)%elem_of_update_where.
    destruct (_ =? _); [done|by apply (gw_named _ W)].
  - apply W.
  - intros m Hm. rewrite Hids. by apply (gw_group _ W).
  - apply W.
Qed.

Lemma rename_group_sized db i name db' :
  groups_sized db → rename_group db i name = Ok db' → groups_sized db'.
Proof.
  intros W H g Hg. unfold rename_group in H. ok_inv H. injection H as <-.
  apply elem_of_update_where in Hg as (g' & Hg' & ->). pose proof (W g' Hg'). by destruct (_ =? _).
Qed.

Lemma group_members_delete_group db i j :
  group_members (delete_group i db) j = if j =? i then [] else group_members db j.
Proof. apply group_members_clear. Qed.

(** Deleting a group restores the invariant after some of its members went. *)
Lemma delete_group_wf db q i :
  groups_wf db →
  (∀ j, j ≠ i → group_members (delete_members q db) j = group_members db j) →
  groups_wf (delete_group i (delete_members q db)).
Proof.
  intros W Hm. assert (Hsub : ∀ m, m ∈ members (delete_group i (delete_members q db)) →
    m ∈ members db ∧ gm_group_id m ≠ i).
  { intros m [[Hin _]%elem_of_delete_where Hf]%elem_of_delete_where. by bool_hyps. }
  constructor; simpl.
  - apply keyed_delete, W.
  - intros g [Hg _]%elem_of_delete_where. by apply (gw_named _ W).
  - apply NoDup_where, NoDup_where, W.
  - intros m Hin. apply Hsub in Hin as [Hin Hi].
    apply (gw_group _ W) in Hin as (g & Heq & Hg)%list_elem_of_fmap. rewrite Heq.
    apply list_elem_of_fmap_2, elem_of_delete_where. split; [done|]. apply Z.eqb_neq. congruence.
  - intros m Hin. apply Hsub in Hin as [Hin _]. by apply (gw_employment _ W).
Qed.

Lemma delete_group_sized db q i :
  groups_sized db →
  (∀ j, j ≠ i → group_members (delete_members q db) j = group_members db j) →
  groups_sized (delete_group i (delete_members q db)).
Proof.
  intros W Hm g [Hg Hi]%elem_of_delete_where. bool_hyps. rewrite group_members_delete_group.
  rewrite (proj2 (Z.eqb_neq _ _)) by done. rewrite Hm by done. by apply W.
Qed.

Lemma remove_members_sized db i ids db' deleted :
  groups_sized db → remove_members db i ids = Ok (db', deleted) → groups_sized db'.
Proof.
  intros W H. unfold remove_members in H. ok_inv H. apply require_group_ok in Hstep as [_ Hid].
  rewrite Hid in H. set (q := λ m, (gm_group_id m =? i) && mem (gm_employment_id m) ids) in *.
  assert (Hother : ∀ j, j ≠ i → group_members (delete_members q db) j = group_members db j).
  { intros j Hj. unfold q. by rewrite group_members_remove, (proj2 (Z.eqb_neq _ _)). }
  destruct (_ <? 2) eqn:E; injection H as <- _; [by apply delete_group_sized|].
  intros g Hg. destruct (decide (eg_id g = i)) as [->|Hne]; [bool_hyps; lia|].
  rewrite Hother by done. by apply W.
Qed.

Lemma remove_groups_sized db e db' :
  groups_sized db → remove_groups_for_employment db e = Ok db' → groups_sized db'.
Proof.
  unfold remove_groups_for_employment. generalize (gm_group_id <$> where_ (λ m, gm_employment_id m =? e) (members db)).
  intros l. revert db. induction l as [|i l IH]; intros db W; simpl; [by intros [= <-]|].
  intros (db1 & H1 & H2)%rbind_ok. apply rbind_ok in H1 as ([db2 b] & H1 & [= <-]).
  apply (IH db2); [|done]. by eapply remove_members_sized.
Qed.

(** Both outcomes of [remove_members]. *)
Lemma remove_members_ok db i ids db' deleted :
  groups_wf db → remove_members db i ids = Ok (db', deleted) →
  groups_wf db' ∧ i ∈ eg_id <$> groups db ∧ (∀ e, e ∈ ids → e ∈ group_members db i) ∧
  let remaining := where_ (λ e, negb (mem e ids)) (group_members db i) in
  deleted = bool_decide (length remaining < 2)%nat ∧
  groups db' = (if deleted then delete_where (λ g, eg_id g =? i) (groups db) else groups db) ∧
  (∀ j, group_members db' j =
     if j =? i then (if deleted then [] else remaining) else group_members db j) ∧
  ∃ x y, db' = set_groups x (set_members y db).
Proof.
  intros W H. unfold remove_members in H. ok_inv H.
  apply require_group_ok in Hstep as [Hg Hid]. rewrite Hid in *. bool_hyps.
  rewrite forallb_elem in Hguard. setoid_rewrite mem_true in Hguard.
  set (q := λ m, (gm_group_id m =? i) && mem (gm_employment_id m) ids) in *.
  assert (Hi : i ∈ eg_id <$> groups db) by (rewrite <- Hid; by apply list_elem_of_fmap_2).
  pose proof (group_members_remove db i ids) as Hm. fold q in Hm.
  assert (Hother : ∀ j, j ≠ i → group_members (delete_members q db) j = group_members db j).
  { intros j Hj. by rewrite Hm, (proj2 (Z.eqb_neq _ _)). }
  rewrite (Hm i), Z.eqb_refl in H.
  set (remaining := where_ _ (group_members db i)) in *. cbn zeta.
  destruct (Z.of_nat (length remaining) <? 2) eqn:E; injection H as <- <-; bool_hyps.
  - split_and!; try done.
    + by apply delete_group_wf.
    + symmetry. apply bool_decide_eq_true. lia.
    + intros j. rewrite group_members_delete_group. destruct (j =? i) eqn:Ej; [done|].
      bool_hyps. by apply Hother.
    + by do 2 eexists.
  - split_and!; try done.
    + constructor; simpl; try apply W.
      * apply NoDup_where, W.
      * intros m [Hin _]%elem_of_delete_where. by apply (gw_group _ W).
      * intros m [Hin _]%elem_of_delete_where. by apply (gw_employment _ W).
    + symmetry. apply bool_decide_eq_false. lia.
    + exists (groups db), (members (delete_members q db)). by destruct db.
Qed.

Lemma delete_members_nothing db : delete_members (λ _, false) db = db.
Proof.
  unfold delete_members. assert (delete_where (λ _, false) (members db) = members db) as ->;
    [by apply (where_all (λ _, true))|by destruct db].
Qed.

Lemma delete_whole_group_wf db i : groups_wf db → groups_wf (delete_group i db).
Proof.
  intros W. rewrite <- (delete_members_nothing db). apply delete_group_wf; [done|].
  intros j _. by rewrite delete_members_nothing.
Qed.

(** ** Properties *)

(** A write that leaves the time data, the locks and the reminders alone. *)
Definition same_side_tables (a b : DB) : Prop :=
  users b = users a ∧ month_instances b = month_instances a ∧ auto_lock_runs b = auto_lock_runs a.

Definition group_write (db db' : DB) : Prop :=
  same_time_tables db db' ∧ next_id db <= next_id db' ∧ same_lock_tables db db' ∧
  same_side_tables db db'.

#[global] Instance group_write_preorder : PreOrder group_write.
Proof.
  split; [intros a; split_and!; [by split_and!|lia|by split_and!..]|].
  intros a b c (T1 & N1 & L1 & S1) (T2 & N2 & L2 & S2).
  unfold same_time_tables, same_lock_tables, same_side_tables in *. destruct_and!.
  unfold group_write, same_time_tables, same_lock_tables, same_side_tables.
  split_and!; first [congruence | lia].
Qed.

Lemma create_group_write db name ids db' g :
  create_group db name ids = Ok (db', g) → group_write db db'.
Proof.
  unfold create_group. intros H. ok_inv H. injection H as <- _.
  split_and!; [by split_and!|simpl; lia|by split_and!..].
Qed.

Lemma replace_members_write db i ids db' : replace_members db i ids = Ok db' → group_write db db'.
Proof.
  unfold replace_members. intros H. ok_inv H. injection H as <-. split_and!; [by split_and!|simpl; lia|by split_and!..].
Qed.

Lemma rename_group_write db i name db' : rename_group db i name = Ok db' → group_write db db'.
Proof.
  unfold rename_group. intros H. ok_inv H. injection H as <-. split_and!; [by split_and!|simpl; lia|by split_and!..].
Qed.

Lemma remove_members_write db i ids db' b : remove_members db i ids = Ok (db', b) → group_write db db'.
Proof.
  unfold remove_members. intros H. ok_inv H. destruct (_ <? 2); injection H as <- _;
    (split_and!; [by split_and!|simpl; lia|by split_and!..]).
Qed.

Lemma remove_groups_write db e db' :
  remove_groups_for_employment db e = Ok db' → group_write db db'.
Proof.
  unfold remove_groups_for_employment. generalize (gm_group_id <$> where_ (λ m, gm_employment_id m =? e) (members db)).
  intros l. revert db. induction l as [|i l IH]; intros db; simpl; [by intros [= <-]|].
  intros (db1 & H1 & H2)%rbind_ok. apply rbind_ok in H1 as ([db2 b] & H1 & [= <-]).
  transitivity db2; [by eapply remove_members_write|by apply IH].
Qed.

Section Reachability.
Context `{zone : PragueZone} `{!PragueZoneLaws zone}.

(** One successful request of the administration. *)
Inductive group_step (db : DB) : DB → Prop :=
  | step_create name ids db' g :
      admin_create_employment_group db name ids = Ok (db', g) → group_step db db'
  | step_rename i name db' :
      admin_update_employment_group db i name = Ok db' → group_step db db'
  | step_replace i ids db' :
      admin_replace_employment_group_members db i ids = Ok db' → group_step db db'
  | step_remove i ids db' b :
      admin_remove_employment_group_members db i ids = Ok (db', b) → group_step db db'
  | step_delete i db' :
      admin_delete_employment_group db i = Ok db' → group_step db db'.

Lemma commit_groups_wf db : groups_wf db → groups_wf (commit db).
Proof. intros [K A B C D]. by constructor. Qed.

Lemma group_step_ok db db' :
  inv db → groups_wf db → group_step db db' →
  groups_wf db' ∧ ∃ db1, db' = commit db1 ∧ group_write db db1.
Proof.
  intros Hi W S.
  destruct S as [name ids db' g H|i name db' H|i ids db' H|i ids db' b H|i db' H].
  - unfold admin_create_employment_group in H. ok_inv H. destruct v as [db1 g1]. injection H as <- <-.
    split; [|by exists db1; eauto using create_group_write].
    apply commit_groups_wf. by eapply create_group_wf; [apply Hi| |].
  - unfold admin_update_employment_group in H. ok_inv H. injection H as <-.
    split; [|by eexists; eauto using rename_group_write].
    apply commit_groups_wf. by eapply rename_group_wf.
  - unfold admin_replace_employment_group_members in H. ok_inv H. injection H as <-.
    split; [|by eexists; eauto using replace_members_write].
    apply commit_groups_wf. by eapply replace_members_wf; [apply Hi| |].
  - unfold admin_remove_employment_group_members in H. ok_inv H. destruct v as [db1 b1].
    injection H as <- <-. split; [|by exists db1; eauto using remove_members_write].
    apply commit_groups_wf. by eapply remove_members_ok.
  - unfold admin_delete_employment_group in H. ok_inv H. injection H as <-.
    split; [apply commit_groups_wf; by apply delete_whole_group_wf|].
    eexists. split; [done|]. split_and!; [by split_and!|simpl; lia|by split_and!..].
Qed.

Lemma group_step_sized db db' : groups_sized db → group_step db db' → groups_sized db'.
Proof.
  intros W S. destruct S as [name ids db' g H|i name db' H|i ids db' H|i ids db' b H|i db' H].
  - unfold admin_create_employment_group in H. ok_inv H. destruct v as [db1 g1]. injection H as <- _.
    by apply (create_group_sized _ _ _ _ _ W Hstep).
  - unfold admin_update_employment_group in H. ok_inv H. injection H as <-.
    by apply (rename_group_sized _ _ _ _ W Hstep).
  - unfold admin_replace_employment_group_members in H. ok_inv H. injection H as <-.
    by apply (replace_members_sized _ _ _ _ W Hstep).
  - unfold admin_remove_employment_group_members in H. ok_inv H. destruct v as [db1 b1].
    injection H as <- _. by apply (remove_members_sized _ _ _ _ _ W Hstep).
  - unfold admin_delete_employment_group in H. ok_inv H. injection H as <-.
    rewrite <- (delete_members_nothing db). apply (delete_group_sized db _ _ W).
    intros j _. by rewrite delete_members_nothing.
Qed.

(** through any sequence of group requests of the administration the
    groups stay well formed (names unique without regard to case, at least
    two distinct existing members each) and the attendance data, its
    invariant and its metrics are untouched. *)
Theorem groups_reachable_wf db db' (Hi : inv db) (W : groups_wf db) (S : rtc group_step db db') :
  inv db' ∧ groups_wf db' ∧ (groups_sized db → groups_sized db') ∧ same_time_tables db db'.
Proof.
  induction S as [db|db db1 db' Hstep _ IH]; [by split_and!|].
  pose proof (λ W, group_step_sized _ _ W Hstep) as Hsized.
  destruct (group_step_ok _ _ Hi W Hstep) as (W1 & db0 & -> & T & N & _).
  pose proof (inv_same_time _ _ T N Hi) as Hi0. rewrite (commit_stored _ Hi0) in *.
  destruct (IH Hi0 W1) as (Hi' & W' & Ws & T'). split_and!; [done|done|by auto|].
  destruct T as (T1 & T2 & T3 & T4 & T5), T' as (T1' & T2' & T3' & T4' & T5').
  split_and!; congruence.
Qed.
End Reachability.

(** *** Deleting an employment *)

(** The groups a deletion of [e] leaves, with their members. *)
Definition survives (db : DB) (e : Z) (g : EmploymentGroup) : Prop :=
  g ∈ groups db ∧ (e ∈ group_members db (eg_id g) → (3 <= length (group_members db (eg_id g)))%nat).

Lemma where_one_out (l : list Z) e :
  NoDup l → e ∈ l → S (length (where_ (λ x, negb (mem x [e])) l)) = length l.
Proof.
  induction l as [|x l IH]; intros Hn He; [by apply elem_of_nil in He|].
  apply NoDup_cons in Hn as [Hx Hn]. unfold where_ in *. simpl.
  destruct (mem x [e]) eqn:E.
  - apply mem_true, list_elem_of_singleton in E as ->. simpl. f_equal.
    assert (List.filter (λ y, negb (mem y [e])) l = l) as ->; [|done].
    apply (where_all (λ y, negb (mem y [e]))). intros y Hy.
    apply negb_true_iff, mem_false. rewrite list_elem_of_singleton. by intros ->.
  - simpl. f_equal. apply IH; [done|]. apply elem_of_cons in He as [->|He]; [|done].
    apply mem_false in E. rewrite list_elem_of_singleton in E. done.
Qed.

Lemma group_members_NoDup db i : groups_wf db → NoDup (group_members db i).
Proof.
  intros W. unfold group_members. apply NoDup_fmap_2_strong; [|apply NoDup_where, W].
  intros [a b] [c d] [_ Ha]%elem_of_where [_ Hc]%elem_of_where. simpl. bool_hyps. simpl in *.
  intros ->. by subst.
Qed.

(** One group of the loop. *)
Lemma remove_one db e i :
  groups_wf db → e ∈ group_members db i →
  ∃ db', (let? (db', _) := remove_members db i [e] in Ok db') = Ok db' ∧ groups_wf db' ∧
    group_members db' i = (if decide (3 <= length (group_members db i))%nat
      then where_ (λ x, negb (mem x [e])) (group_members db i) else []) ∧
    (∀ j, j ≠ i → group_members db' j = group_members db j) ∧
    (∀ g, g ∈ groups db' ↔ g ∈ groups db ∧
       (eg_id g = i → (3 <= length (group_members db i))%nat)).
Proof.
  intros W He. pose proof (where_one_out _ e (group_members_NoDup db i W) He) as Hlen.
  assert (Hi : i ∈ eg_id <$> groups db) by exact (gw_group _ W _ (proj1 (group_members_elem _ _ _) He)).
  assert (∃ r, remove_members db i [e] = Ok r) as [[db' b] Hr].
  { unfold remove_members, require_group, get_group.
    apply list_elem_of_fmap in Hi as (g & -> & Hg).
    destruct (where_ (λ x, eg_id x =? eg_id g) (groups db)) as [|g' l] eqn:Ew.
    { rewrite where_nil_iff in Ew. specialize (Ew g Hg). simpl in Ew. bool_hyps. done. }
    assert (Hg' : g' ∈ where_ (λ x, eg_id x =? eg_id g) (groups db)) by (rewrite Ew; left).
    apply elem_of_where in Hg' as [_ Hg']. bool_hyps. simpl. rewrite Hg'.
    rewrite (proj2 (mem_true _ _) He). simpl. destruct (_ <? 2); by eexists. }
  exists db'. rewrite Hr. split; [done|].
  destruct (remove_members_ok _ _ _ _ _ W Hr) as (W' & _ & _ & Hb & Hgr & Hm & _).
  split_and!; [done| | |].
  - rewrite Hm, Z.eqb_refl, Hb. case_bool_decide; case_decide; try lia; done.
  - intros j Hj. by rewrite Hm, (proj2 (Z.eqb_neq _ _)).
  - intros g. rewrite Hgr, Hb. case_bool_decide.
    + rewrite elem_of_delete_where, Z.eqb_neq. split; [intros [? ?]|intros [? Hx]]; (split; [done|]).
      * done.
      * intros Hg. specialize (Hx Hg). lia.
    + split; [|tauto]. intros Hg. split; [done|]. lia.
Qed.

Lemma remove_loop db e L :
  groups_wf db → NoDup L → (∀ i, i ∈ L → e ∈ group_members db i) →
  ∃ db', fold_result (λ db i, let? (db', _) := remove_members db i [e] in Ok db') L db = Ok db' ∧
    groups_wf db' ∧
    (∀ j, group_members db' j =
       if decide (j ∈ L) then
         (if decide (3 <= length (group_members db j))%nat
          then where_ (λ x, negb (mem x [e])) (group_members db j) else [])
       else group_members db j) ∧
    (∀ g, g ∈ groups db' ↔ g ∈ groups db ∧
       (eg_id g ∈ L → (3 <= length (group_members db (eg_id g)))%nat)).
Proof.
  intros W Hn. revert db W. induction Hn as [|i L Hi Hn IH]; intros db W HL.
  - exists db. split_and!; [done|done| |].
    + intros j. rewrite decide_False; [done|]. by intros ?%elem_of_nil.
    + intros g. split; [|tauto]. intros Hg. split; [done|]. by intros ?%elem_of_nil.
  - destruct (remove_one db e i W) as (db1 & Hr & W1 & Hmi & Hmo & Hg1); [apply HL; left|].
    destruct (IH db1 W1) as (db' & Hf & W' & Hm & Hg).
    { intros j Hj. rewrite Hmo by (by intros ->). apply HL. by right. }
    exists db'. simpl. rewrite Hr. simpl. split_and!; [done|done| |].
    + intros j. rewrite Hm. destruct (decide (j = i)) as [->|Hj].
      * rewrite decide_False by done. rewrite Hmi.
        by rewrite (decide_True (P := i ∈ i :: L)) by left.
      * rewrite !Hmo by done. destruct (decide (j ∈ L)) as [HjL|HjL].
        -- by rewrite (decide_True (P := j ∈ i :: L)) by by right.
        -- rewrite (decide_False (P := j ∈ i :: L)); [done|]. by intros [?|?]%elem_of_cons.
    + intros g. rewrite Hg, Hg1. destruct (decide (eg_id g = i)) as [He|He].
      * rewrite He. split; [intros [[? H3] _]|intros [? H3]].
        -- split; [done|]. intros _. by apply H3.
        -- split; [|done]. split; [done|]. intros _. apply H3. left.
      * rewrite Hmo by done. rewrite elem_of_cons. naive_solver.
Qed.

(** *** Removing an employment from its groups *)
Lemma remove_groups_ok db e (W : groups_wf db) :
  ∃ db', remove_groups_for_employment db e = Ok db' ∧ groups_wf db' ∧
    (∀ m, m ∈ members db' → gm_employment_id m ≠ e) ∧
    (∀ g, g ∈ groups db' ↔ survives db e g) ∧
    (∀ g x, g ∈ groups db' →
       x ∈ group_members db' (eg_id g) ↔ x ∈ group_members db (eg_id g) ∧ x ≠ e).
Proof.
  set (L := gm_group_id <$> where_ (λ m, gm_employment_id m =? e) (members db)).
  assert (HL : ∀ i, i ∈ L ↔ e ∈ group_members db i).
  { intros i. rewrite group_members_elem. unfold L. rewrite list_elem_of_fmap.
    setoid_rewrite elem_of_where. setoid_rewrite Z.eqb_eq. split.
    - by intros ([i' e'] & -> & Hin & <-).
    - intros Hin. by exists (mk_member i e). }
  assert (Hn : NoDup L).
  { apply NoDup_fmap_2_strong; [|apply NoDup_where, W].
    intros [a b] [c d] [_ Hb]%elem_of_where [_ Hd]%elem_of_where. simpl. bool_hyps. simpl in *.
    intros ->. by subst. }
  destruct (remove_loop db e L W Hn) as (db' & Hf & W' & Hm & Hg); [by intros i ?%HL|].
  assert (Hmem : ∀ j x, x ∈ group_members db' j → x ∈ group_members db j ∧ x ≠ e).
  { intros j x. rewrite Hm. destruct (decide (j ∈ L)) as [Hj|Hj].
    - destruct (decide _); [|by intros ?%elem_of_nil].
      rewrite elem_of_where, negb_true_iff, mem_false, list_elem_of_singleton. done.
    - intros Hx. split; [done|]. intros ->. by apply Hj, HL. }
  exists db'. split_and!; [exact Hf|done| | |].
  - intros [i x] Hin. apply group_members_elem, Hmem in Hin. apply Hin.
  - intros g. unfold survives. by rewrite Hg, HL.
  - intros g x [Hg' H3]%Hg. split; [apply Hmem|]. intros [Hx Hne]. rewrite Hm.
    destruct (decide (eg_id g ∈ L)) as [Hin|]; [|done]. rewrite decide_True by auto.
    rewrite elem_of_where, negb_true_iff, mem_false, list_elem_of_singleton. done.
Qed.

(** deleting an employment first removes it from every group: this never
    fails, no membership of the employment is left, a group keeps exactly its
    other members, and a group is dropped exactly when fewer than two members
    would be left. *)
Theorem remove_groups_for_employment_spec db e (W : groups_wf db) :
  ∃ db', remove_groups_for_employment db e = Ok db' ∧ groups_wf db' ∧
    (∀ m, m ∈ members db' → gm_employment_id m ≠ e) ∧
    (∀ g, g ∈ groups db' ↔ survives db e g) ∧
    (∀ g x, g ∈ groups db' →
       x ∈ group_members db' (eg_id g) ↔ x ∈ group_members db (eg_id g) ∧ x ≠ e).
Proof. by apply remove_groups_ok. Qed.

(** [create_group] succeeds exactly for a non-empty name no group has yet
    (without regard to case and extra white space) and at least two distinct
    existing employments; the new group then has exactly these members and no
    other group changes. *)
Theorem create_group_spec db name ids
    (Hem : NoDup (em_id <$> employments db)) (W : groups_wf db) :
  ((∃ db' g, create_group db name ids = Ok (db', g)) ↔
   squeeze name ≠ ""%string ∧ (2 <= length ids)%nat ∧ NoDup ids ∧
   (∀ g, g ∈ groups db → lower (eg_name g) ≠ lower (squeeze name)) ∧
   (∀ i, i ∈ ids → i ∈ em_id <$> employments db)) ∧
  ∀ db' g, create_group db name ids = Ok (db', g) →
    groups_wf db' ∧ groups db' = groups db ++ [g] ∧ eg_name g = squeeze name ∧
    group_members db' (eg_id g) = ids ∧
    ∀ j, j ≠ eg_id g → group_members db' j = group_members db j.
Proof.
  split; [split|].
  - intros (db' & g & H). unfold create_group in H. ok_inv H.
    apply group_name_ok in Hstep as [-> Hne]. apply member_ids_ok in Hstep0 as (-> & Htwo & Hn).
    split_and!; [done|done|done| |].
    + intros g' Hg'. by apply (unique_name_ok _ _ _ _ Hstep1).
    + by eapply load_employments_ok.
  - intros (Hne & Htwo & Hn & Hu & Hl). unfold create_group, normalize_group_name.
    destruct (squeeze name) as [|c s] eqn:Hs; [done|]. cbn [rbind].
    assert (normalize_member_ids ids = Ok ids) as ->.
    { unfold normalize_member_ids, guard. rewrite (proj2 (Z.ltb_ge _ _)) by lia. simpl.
      assert (dedup ids ≡ₚ ids) as Hp.
      { apply NoDup_Permutation; [apply NoDup_dedup|done|]. intros x. apply elem_of_dedup. }
      by rewrite Hp, Nat.eqb_refl. }
    cbn [rbind]. unfold ensure_unique_name, guard.
    rewrite (proj2 (existsb_false_elem _ _)).
    2:{ intros g Hg. apply andb_false_iff. left. apply String.eqb_neq. by apply Hu. }
    cbn [rbind]. unfold load_employments, guard.
    assert (em_id <$> where_ (λ e, mem (em_id e) ids) (employments db) ≡ₚ ids) as Hp.
    { apply NoDup_Permutation; [by apply NoDup_fmap_where|done|]. intros x.
      rewrite list_elem_of_fmap. setoid_rewrite elem_of_where. setoid_rewrite mem_true. split.
      - by intros (e & -> & _ & He).
      - intros Hx. destruct (proj1 (list_elem_of_fmap _ _ _) (Hl x Hx)) as (e & -> & He). eauto. }
    apply Permutation_length in Hp. rewrite length_fmap in Hp.
    rewrite Hp, Nat.eqb_refl. simpl. by do 2 eexists.
  - intros db' g H. split; [by eapply create_group_wf|].
    unfold create_group in H. ok_inv H. injection H as <- <-.
    apply group_name_ok in Hstep as [-> _]. apply member_ids_ok in Hstep0 as (-> & _ & _).
    assert (Hfresh : next_id db ∉ eg_id <$> groups db).
    { intros (x & Hx & Hin)%list_elem_of_fmap.
      pose proof (proj1 (Forall_forall _ _) (keyed_fresh _ _ _ _ (gw_groups _ W)) x Hin) as Hlt.
      simpl in Hlt. lia. }
    split_and!; [done|done| |].
    + rewrite group_members_add. simpl. rewrite Z.eqb_refl.
      change (group_members (bump_id _) (next_id db)) with (group_members db (next_id db)).
      by rewrite (no_members db).
    + intros j Hj. rewrite group_members_add, (proj2 (Z.eqb_neq _ _)) by done. by rewrite app_nil_r.
Qed.
