(* ===== verification/AdminEmployments.v ===== *)
(** * app/api/v1/admin_employments.py: the administration of employments

    Creating, changing and deleting an employment.  A change of the period
    that leaves rows outside it is refused with their numbers, and deletes
    them when confirmed.  A field of an update that may be absent or null is
    an [option (option T)]: [None] when it is not in [model_fields_set]. *)

From stdpp Require Import relations.
From S2P Require Import Prelude Calendar TimeParse Format PragueTime Models TimeIntervals Breaks.
From S2P Require Import TimeMetrics Locks EmploymentAccess DayStatus AttendanceEvents.
From S2P Require Import MonthSummary AttendanceApi Groups.
From Stdlib Require Import QArith.
#[local] Open Scope Z_scope.

(** ** The employment of a response ([_to_employment_out] of admin_users.py) *)

Record EmploymentOut := mk_employment_out {
  eo_id : Z;
  eo_user_id : Z;
  eo_title : string;
  eo_employment_type : string;
  eo_start_date : string;
  eo_end_date : option string;
  eo_is_active : bool;
  eo_label : string;
  eo_workload_fraction : option string;
  eo_automatic_breaks_enabled : bool;
  eo_total : bool * bool;
  eo_afternoon : bool * bool * option string;
  eo_night : bool * bool;
  eo_weekend : bool * bool;
  eo_public_holiday : bool * bool;
}.

(** A metric of [time_profile] is its [enabled] and [mandatory]. *)
Definition to_employment_out (db : DB) (today : date) (e : Employment) : EmploymentOut :=
  let employment_type := employment_type_value (em_employment_type e) in
  let contract := String.eqb employment_type "WORK_CONTRACT" in
  mk_employment_out (em_id e) (em_user_id e)
    (match strip (em_title e) with EmptyString => "Bez názvu úvazku"%string | t => t end)
    employment_type (isoformat (em_start_date e)) (isoformat <$> em_end_date e)
    (employment_is_currently_valid e today)
    (employment_label db e (pu_name <$> user_of db e))
    (format_3 <$> em_workload_fraction e)
    (em_automatic_breaks_enabled e)
    (em_total_hours_enabled e, contract)
    (em_afternoon_hours_enabled e, false,
     (λ m, format_hhmm (m / 60) (m mod 60)) <$> em_afternoon_start_minutes e)
    (em_night_hours_enabled e, contract)
    (em_weekend_hours_enabled e, false)
    (em_public_holiday_hours_enabled e, false).

(** ** The time profile *)

(** [profile_values]. *)
Record TimeProfile := mk_profile {
  tp_workload_fraction : option Q;
  tp_total_hours_enabled : bool;
  tp_automatic_breaks_enabled : bool;
  tp_afternoon_hours_enabled : bool;
  tp_afternoon_start_minutes : option Z;
  tp_night_hours_enabled : bool;
  tp_weekend_hours_enabled : bool;
  tp_public_holiday_hours_enabled : bool;
}.

Definition profile_of (e : Employment) : TimeProfile :=
  mk_profile (em_workload_fraction e) (em_total_hours_enabled e) (em_automatic_breaks_enabled e)
    (em_afternoon_hours_enabled e) (em_afternoon_start_minutes e) (em_night_hours_enabled e)
    (em_weekend_hours_enabled e) (em_public_holiday_hours_enabled e).

Definition validate_profile (employment_type : string) (p : TimeProfile) : option ProfileError :=
  validate_time_profile employment_type (tp_workload_fraction p) (tp_total_hours_enabled p)
    (tp_automatic_breaks_enabled p) (tp_afternoon_hours_enabled p)
    (tp_afternoon_start_minutes p) (tp_night_hours_enabled p)
    (tp_weekend_hours_enabled p) (tp_public_holiday_hours_enabled p).

(** [value or Decimal("1.000")]: a zero is falsy. *)
Definition or_one (w : option Q) : option Q :=
  match w with
  | Some q => if Qeq_bool q 0 then Some (1000 # 1000)%Q else Some q
  | None => Some (1000 # 1000)%Q
  end.

Definition contract_profile (p : TimeProfile) : TimeProfile :=
  mk_profile (or_one (tp_workload_fraction p)) true (tp_automatic_breaks_enabled p)
    (tp_afternoon_hours_enabled p) (tp_afternoon_start_minutes p) true
    (tp_weekend_hours_enabled p) (tp_public_holiday_hours_enabled p).

Definition task_profile (p : TimeProfile) : TimeProfile :=
  mk_profile (tp_workload_fraction p) false false false None false false false.

Definition without_workload (p : TimeProfile) : TimeProfile :=
  mk_profile None (tp_total_hours_enabled p) (tp_automatic_breaks_enabled p)
    (tp_afternoon_hours_enabled p) (tp_afternoon_start_minutes p) (tp_night_hours_enabled p)
    (tp_weekend_hours_enabled p) (tp_public_holiday_hours_enabled p).

Definition normalize_profile_for_type (employment_type : string) (p : TimeProfile)
    (type_changed : bool) : TimeProfile :=
  let normalized :=
    if type_changed && negb (String.eqb employment_type "WORK_CONTRACT")
    then without_workload p else p in
  if String.eqb employment_type "WORK_CONTRACT" then contract_profile normalized
  else if type_changed && String.eqb employment_type "TASK_SHIFT_BASED"
  then task_profile normalized
  else normalized.

(** ** Request bodies *)

Record EmploymentCreateIn := mk_create_in {
  cr_title : string;
  cr_employment_type : string;
  cr_start_date : string;
  cr_end_date : option string;
  cr_profile : TimeProfile;
  cr_afternoon_start_time : option string;
}.

Definition length_between (lo hi : Z) (s : string) : bool :=
  (lo <=? Z.of_nat (String.length s)) && (Z.of_nat (String.length s) <=? hi).

Definition opt_all {A} (p : A → bool) (x : option A) : bool :=
  match x with Some v => p v | None => true end.

Definition workload_bounds (w : Q) : bool := Qle_bool (1 # 1000) w && Qle_bool w 1.
Definition start_minutes_bounds (m : Z) : bool := (0 <=? m) && (m <=? 1319).

(** [^(?:[01]\d|2[0-1]):[0-5]\d$]. *)
Definition afternoon_re (s : string) : bool :=
  match list_ascii_of_string s with
  | [a; b; c; d; e] =>
      ((((code a =? 48) || (code a =? 49)) && is_digit b) ||
       ((code a =? 50) && (48 <=? code b) && (code b <=? 49))) &&
      Ascii.eqb c colon && minute_pair d e
  | _ => false
  end.

(** [hour * 60 + minute] of the parts of the text. *)
Definition afternoon_minutes (s : string) : result Z :=
  let? (hour, minute) := hhmm_parts s in Ok (hour * 60 + minute).

Definition validate_title (value : string) : result string :=
  match strip value with
  | EmptyString => Err validation_error
  | normalized => Ok normalized
  end.

Definition with_start_minutes (m : option Z) (p : TimeProfile) : TimeProfile :=
  mk_profile (tp_workload_fraction p) (tp_total_hours_enabled p) (tp_automatic_breaks_enabled p)
    (tp_afternoon_hours_enabled p) m (tp_night_hours_enabled p)
    (tp_weekend_hours_enabled p) (tp_public_holiday_hours_enabled p).

(** The fields, then the model validator [validate_profile]. *)
Definition validate_create_in (body : EmploymentCreateIn) : result EmploymentCreateIn :=
  guard (negb (length_between 1 160 (cr_title body) && length_between 3 16 (cr_employment_type body) &&
    opt_all workload_bounds (tp_workload_fraction (cr_profile body)) &&
    opt_all start_minutes_bounds (tp_afternoon_start_minutes (cr_profile body)) &&
    opt_all afternoon_re (cr_afternoon_start_time body))) validation_error ?;;
  let? title := validate_title (cr_title body) in
  let? p := match cr_afternoon_start_time body with
    | Some s => let? m := afternoon_minutes s in Ok (with_start_minutes (Some m) (cr_profile body))
    | None => Ok (cr_profile body)
    end in
  let p := if String.eqb (cr_employment_type body) "WORK_CONTRACT" then contract_profile p
           else if String.eqb (cr_employment_type body) "TASK_SHIFT_BASED" then task_profile p
           else p in
  guard (is_some (validate_profile (cr_employment_type body) p)) validation_error ?;;
  Ok (mk_create_in title (cr_employment_type body) (cr_start_date body) (cr_end_date body) p
        (cr_afternoon_start_time body)).

Record EmploymentUpdateIn := mk_update_in {
  ui_title : option string;
  ui_employment_type : option string;
  ui_start_date : option string;
  ui_end_date : option (option string);
  ui_confirm_delete_out_of_range : bool;
  ui_workload_fraction : option (option Q);
  ui_total_hours_enabled : option bool;
  ui_automatic_breaks_enabled : option bool;
  ui_afternoon_hours_enabled : option bool;
  ui_afternoon_start_minutes : option (option Z);
  ui_afternoon_start_time : option (option string);
  ui_night_hours_enabled : option bool;
  ui_weekend_hours_enabled : option bool;
  ui_public_holiday_hours_enabled : option bool;
}.

(** The validated title replaces the sent one. *)
Definition validate_update_in (body : EmploymentUpdateIn) : result (option string) :=
  guard (negb (opt_all (length_between 1 160) (ui_title body) &&
    opt_all (length_between 3 16) (ui_employment_type body) &&
    opt_all (opt_all workload_bounds) (ui_workload_fraction body) &&
    opt_all (opt_all start_minutes_bounds) (ui_afternoon_start_minutes body) &&
    opt_all (opt_all afternoon_re) (ui_afternoon_start_time body))) validation_error ?;;
  match ui_title body with
  | None => Ok None
  | Some value => let? title := validate_title value in Ok (Some title)
  end.

(** ** Dates and months outside a period *)

Definition parse_date (value : option string) (field_name : string) : result (option date) :=
  match value with
  | None => Ok None
  | Some v =>
      match date_fromisoformat v with
      | Some d => Ok (Some d)
      | None => Err (ApiError 400
          ("Pole " +:+ field_name +:+ " musí být v backendovém formátu YYYY-MM-DD."))
      end
  end.

Definition validate_period (start_date : date) (end_date : option date) : result unit :=
  guard (match end_date with Some last => last <? start_date | None => false end)
    (ApiError 400 "Datum ukončení nesmí být dříve než datum začátku.").

Definition is_date_out_of_range (start_date : date) (end_date : option date) (day : date) : bool :=
  if day <? start_date then true
  else match end_date with Some last => last <? day | None => false end.

Definition month_bounds (year month : Z) : date * date :=
  (mk_date year month 1, mk_date year month (days_in_month year month)).

Definition month_record_out_of_range (start_date : date) (end_date : option date)
    (k : Z * Z) : bool :=
  let '(month_start, month_end) := month_bounds k.1 k.2 in
  if month_end <? start_date then true
  else match end_date with Some last => last <? month_start | None => false end.

(** [ids.update((arrival.id, departure.id))] for the pairs that meet [ids]. *)
Definition close_pair (ids : list Z) (p : AttendanceEvent * AttendanceEvent) : list Z :=
  if mem (ev_id p.1) ids || mem (ev_id p.2) ids
  then dedup (ids ++ [ev_id p.1; ev_id p.2]) else ids.

Definition out_of_range_event_ids (evs : list AttendanceEvent) (start_date : date)
    (end_date : option date) : list Z :=
  fold_left close_pair (pair_event_rows evs)
    (dedup (ev_id <$> where_ (λ x, is_date_out_of_range start_date end_date (ev_day x)) evs)).

(** ** What a change or a deletion would remove *)

Record RangeConflictSummary := mk_range_summary {
  rs_attendance_count : Z;
  rs_shift_plan_count : Z;
  rs_attendance_lock_count : Z;
  rs_shift_plan_lock_count : Z;
  rs_shift_plan_selection_count : Z;
  rs_reminder_count : Z;
  rs_range : option date * option date;
}.

Definition rs_counts (s : RangeConflictSummary) : list Z :=
  [rs_attendance_count s; rs_shift_plan_count s; rs_attendance_lock_count s;
   rs_shift_plan_lock_count s; rs_shift_plan_selection_count s; rs_reminder_count s].

(** [touch], on [(min_date, max_date)]. *)
Definition touch (range : option date * option date) (candidate_min candidate_max : option date)
    : option date * option date :=
  (match candidate_min, range.1 with
   | Some c, Some m => if c <? m then Some c else Some m
   | Some c, None => Some c
   | None, r => r
   end,
   match candidate_max, range.2 with
   | Some c, Some m => if m <? c then Some c else Some m
   | Some c, None => Some c
   | None, r => r
   end).

(** [summary.touch(days[0], days[-1])] when there are days. *)
Definition touch_days (days : list date) (range : option date * option date)
    : option date * option date := touch range (head days) (last days).

Definition touch_months (months : list (Z * Z)) (range : option date * option date)
    : option date * option date :=
  touch range ((λ k, (month_bounds k.1 k.2).1) <$> head months)
    ((λ k, (month_bounds k.1 k.2).2) <$> last months).

Definition count_of {A} (l : list A) : Z := Z.of_nat (length l).

(** The columns of an employment's rows, in the order of the queries. *)
Definition attendance_dates (db : DB) (i : Z) : list date :=
  sorted_by Z.leb (at_date <$> where_ (λ a, at_employment_id a =? i) (attendance db)).
Definition plans_of (db : DB) (i : Z) : list ShiftPlan :=
  where_ (λ p, sp_employment_id p =? i) (plans db).
Definition plan_date_leb (a b : ShiftPlan) : bool := sp_date a <=? sp_date b.
Definition lock_months (db : DB) (lt : LockType) (i : Z) : list (Z * Z) :=
  sorted_by month_leb ((λ k, (lk_year k, lk_month k)) <$>
    where_ (λ k, lk_employment_id k =? i) (lock_table lt db)).
Definition selection_months (db : DB) (i : Z) : list (Z * Z) :=
  sorted_by month_leb ((λ k, (mi_year k, mi_month k)) <$>
    where_ (λ k, mi_employment_id k =? i) (month_instances db)).
Definition reminder_dates (db : DB) (i : Z) : list date :=
  sorted_by Z.leb (rm_attendance_date <$> where_ (λ r, rm_employment_id r =? i) (reminders db)).

Definition plan_out_of_range (start_date : date) (end_date : option date) (p : ShiftPlan) : bool :=
  existsb (is_date_out_of_range start_date end_date) (shift_plan_days (Some p)).

Definition collect_range_conflicts (db : DB) (employment_id : Z) (start_date : date)
    (end_date : option date) : RangeConflictSummary :=
  let out := is_date_out_of_range start_date end_date in
  let month_out := month_record_out_of_range start_date end_date in
  let offending_attendance := where_ out (attendance_dates db employment_id) in
  let evs := events_of db employment_id in
  let offending_event_ids := out_of_range_event_ids evs start_date end_date in
  let offending_event_dates :=
    sorted_by Z.leb (ev_day <$> where_ (λ x, mem (ev_id x) offending_event_ids) evs) in
  let offending_shift := sp_date <$> where_ (plan_out_of_range start_date end_date)
    (sorted_by plan_date_leb (plans_of db employment_id)) in
  let offending_locks := where_ month_out (lock_months db LOCK_ATTENDANCE employment_id) in
  let offending_plan_locks := where_ month_out (lock_months db LOCK_SHIFT_PLAN employment_id) in
  let offending_selections := where_ month_out (selection_months db employment_id) in
  let offending_reminders := where_ out (reminder_dates db employment_id) in
  mk_range_summary
    (count_of offending_attendance +
       (if nonempty offending_event_dates then count_of offending_event_ids else 0))
    (count_of offending_shift) (count_of offending_locks) (count_of offending_plan_locks)
    (count_of offending_selections) (count_of offending_reminders)
    (touch_days offending_reminders (touch_months offending_selections
      (touch_months offending_plan_locks (touch_months offending_locks
        (touch_days offending_shift (touch_days offending_event_dates
          (touch_days offending_attendance (None, None)))))))).

Definition collect_related_data_summary (db : DB) (employment_id : Z) : RangeConflictSummary :=
  let attendance_days := attendance_dates db employment_id in
  let event_dates := sorted_by Z.leb (ev_day <$> events_of db employment_id) in
  let shift_dates := sorted_by Z.leb (sp_date <$> plans_of db employment_id) in
  let locks := lock_months db LOCK_ATTENDANCE employment_id in
  let plan_locks := lock_months db LOCK_SHIFT_PLAN employment_id in
  let selections := selection_months db employment_id in
  let reminder_days := reminder_dates db employment_id in
  mk_range_summary
    (count_of attendance_days + count_of event_dates)
    (count_of shift_dates) (count_of locks) (count_of plan_locks)
    (count_of selections) (count_of reminder_days)
    (touch_days reminder_days (touch_months selections (touch_months plan_locks
      (touch_months locks (touch_days shift_dates (touch_days event_dates
        (touch_days attendance_days (None, None)))))))).

Definition any_count (s : RangeConflictSummary) : bool :=
  existsb (λ n, negb (n =? 0)) (rs_counts s).

Definition range_conflict (s : RangeConflictSummary) : api_error :=
  Conflict "employment_period_conflict" (rs_counts s) (rs_range s).
Definition delete_conflict (s : RangeConflictSummary) : api_error :=
  Conflict "employment_delete_conflict" (rs_counts s) (rs_range s).

(** ** Deleting rows *)

Record EmploymentDeleteOut := mk_delete_out {
  deleted_attendance_count : Z;
  deleted_shift_plan_count : Z;
  deleted_attendance_lock_count : Z;
  deleted_shift_plan_lock_count : Z;
  deleted_shift_plan_selection_count : Z;
  deleted_reminder_count : Z;
}.

Definition nothing_deleted : EmploymentDeleteOut := mk_delete_out 0 0 0 0 0 0.

(** The conditions of the seven DELETE statements. *)
Record doomed := mk_doomed {
  dd_attendance : Attendance → bool;
  dd_event : AttendanceEvent → bool;
  dd_plan : ShiftPlan → bool;
  dd_lock : LockType → MonthLock → bool;
  dd_selection : ShiftPlanMonthInstance → bool;
  dd_reminder : AttendanceReminderEvent → bool;
}.

Definition delete_doomed (c : doomed) (db : DB) : DB :=
  set_reminders (delete_where (dd_reminder c) (reminders db))
  (set_month_instances (delete_where (dd_selection c) (month_instances db))
  (set_shift_plan_locks (delete_where (dd_lock c LOCK_SHIFT_PLAN) (shift_plan_locks db))
  (set_attendance_locks (delete_where (dd_lock c LOCK_ATTENDANCE) (attendance_locks db))
  (set_plans (delete_where (dd_plan c) (plans db))
  (set_events (delete_where (dd_event c) (events db))
  (set_attendance (delete_where (dd_attendance c) (attendance db)) db)))))).

(** [_delete_row_count] of each statement. *)
Definition doomed_counts (c : doomed) (db : DB) : EmploymentDeleteOut :=
  mk_delete_out
    (count_of (where_ (dd_attendance c) (attendance db)) + count_of (where_ (dd_event c) (events db)))
    (count_of (where_ (dd_plan c) (plans db)))
    (count_of (where_ (dd_lock c LOCK_ATTENDANCE) (attendance_locks db)))
    (count_of (where_ (dd_lock c LOCK_SHIFT_PLAN) (shift_plan_locks db)))
    (count_of (where_ (dd_selection c) (month_instances db)))
    (count_of (where_ (dd_reminder c) (reminders db))).

(** [_out_of_range_clause]. *)
Definition out_of_range_clause (start_date : date) (end_date : option date) (column : date) : bool :=
  match end_date with
  | None => column <? start_date
  | Some last => (column <? start_date) || (last <? column)
  end.

Definition out_of_range_rows (db : DB) (employment_id : Z) (start_date : date)
    (end_date : option date) : doomed :=
  let month_out := month_record_out_of_range start_date end_date in
  let event_ids := out_of_range_event_ids (events_of db employment_id) start_date end_date in
  let shift_plan_ids := sp_id <$> where_ (plan_out_of_range start_date end_date)
    (plans_of db employment_id) in
  let lock_ids lt := lk_id <$> where_ (λ k, month_out (lk_year k, lk_month k))
    (where_ (λ k, lk_employment_id k =? employment_id) (lock_table lt db)) in
  let selection_ids := mi_id <$> where_ (λ k, month_out (mi_year k, mi_month k))
    (where_ (λ k, mi_employment_id k =? employment_id) (month_instances db)) in
  mk_doomed
    (λ a, (at_employment_id a =? employment_id) &&
          out_of_range_clause start_date end_date (at_date a))
    (λ x, mem (ev_id x) event_ids)
    (λ p, mem (sp_id p) shift_plan_ids)
    (λ lt k, mem (lk_id k) (lock_ids lt))
    (λ k, mem (mi_id k) selection_ids)
    (λ r, (rm_employment_id r =? employment_id) &&
          out_of_range_clause start_date end_date (rm_attendance_date r)).

Definition delete_out_of_range_records (db : DB) (employment_id : Z) (start_date : date)
    (end_date : option date) : DB * EmploymentDeleteOut :=
  let rows := out_of_range_rows db employment_id start_date end_date in
  (delete_doomed rows db, doomed_counts rows db).

(** Every row of the employments whose identity is [gone]. *)
Definition rows_of (gone : Z → bool) : doomed :=
  mk_doomed
    (λ a, gone (at_employment_id a))
    (λ x, gone (ev_employment_id x))
    (λ p, gone (sp_employment_id p))
    (λ _ k, gone (lk_employment_id k))
    (λ k, gone (mi_employment_id k))
    (λ r, gone (rm_employment_id r)).

Definition related_rows (employment_id : Z) : doomed := rows_of (λ i, i =? employment_id).

Definition delete_all_related_records (db : DB) (employment_id : Z) : DB * EmploymentDeleteOut :=
  (delete_doomed (related_rows employment_id) db, doomed_counts (related_rows employment_id) db).

(** ** The endpoints *)

(** What a flush stores of the session's object: the workload is rounded by
    its column; the CHECK constraints of the table apply. *)
Definition stored_employment (e : Employment) : Employment :=
  mk_employment (em_id e) (em_user_id e) (em_title e) (em_employment_type e)
    (numeric_4_3 <$> em_workload_fraction e) (em_total_hours_enabled e)
    (em_automatic_breaks_enabled e) (em_afternoon_hours_enabled e)
    (em_afternoon_start_minutes e) (em_night_hours_enabled e) (em_weekend_hours_enabled e)
    (em_public_holiday_hours_enabled e) (em_start_date e) (em_end_date e).

Definition flush_employment (e : Employment) : result Employment :=
  guard (negb (employment_row_ok (stored_employment e))) (Crash "IntegrityError") ?;;
  Ok (stored_employment e).

Definition employment_with (e : Employment) (title : string) (t : EmploymentType)
    (start_date : date) (end_date : option date) (p : TimeProfile) : Employment :=
  mk_employment (em_id e) (em_user_id e) title t (tp_workload_fraction p)
    (tp_total_hours_enabled p) (tp_automatic_breaks_enabled p) (tp_afternoon_hours_enabled p)
    (tp_afternoon_start_minutes p) (tp_night_hours_enabled p) (tp_weekend_hours_enabled p)
    (tp_public_holiday_hours_enabled p) start_date end_date.

(** A row with an identity of its own and nothing else yet. *)
Definition new_employment (id user_id : Z) : Employment :=
  mk_employment id user_id "" DPP_DPC None true false false None false false false 0 None.

Definition get_user (db : DB) (user_id : Z) : option PortalUser :=
  one_or_none (where_ (λ u, pu_id u =? user_id) (users db)).

(** [metric_profile_keys]. *)
Definition metric_profile (p : TimeProfile) : bool * bool * option Z * bool * bool * bool :=
  (tp_total_hours_enabled p, tp_afternoon_hours_enabled p, tp_afternoon_start_minutes p,
   tp_night_hours_enabled p, tp_weekend_hours_enabled p, tp_public_holiday_hours_enabled p).

Section Endpoints.
Context `{zone : PragueZone}.

Definition create_employment (db : DB) (now : Z) (user_id : Z) (body : EmploymentCreateIn)
    : result (DB * EmploymentOut) :=
  let? payload := validate_create_in body in
  let? user := or_raise (get_user db user_id) (ApiError 404 "user_not_found") in
  let? t := or_raise (parse_employment_type (cr_employment_type payload))
    (ApiError 400 "invalid_employment_type") in
  let? start_date := parse_date (Some (cr_start_date payload)) "start_date" in
  let? end_date := parse_date (cr_end_date payload) "end_date" in
  let? start_date := or_raise start_date (ApiError 400 "invalid_employment_start_date") in
  validate_period start_date end_date ?;;
  let employment := employment_with (new_employment (next_id db) (pu_id user))
    (strip (cr_title payload)) t start_date end_date (cr_profile payload) in
  let? row := flush_employment employment in
  let db' := commit (bump_id (set_employments (employments db ++ [row]) db)) in
  Ok (db', to_employment_out db' (prague_today (Zoned now)) row).

(** [requested_afternoon_minutes]. *)
Definition requested_afternoon_minutes (payload : EmploymentUpdateIn) (e : Employment)
    : result (option Z) :=
  match ui_afternoon_start_time payload with
  | Some (Some s) => let? m := afternoon_minutes s in Ok (Some m)
  | Some None => Ok None
  | None => Ok (default (em_afternoon_start_minutes e) (ui_afternoon_start_minutes payload))
  end.

Definition requested_profile (payload : EmploymentUpdateIn) (e : Employment) (start : option Z)
    : TimeProfile :=
  mk_profile (default (em_workload_fraction e) (ui_workload_fraction payload))
    (default (em_total_hours_enabled e) (ui_total_hours_enabled payload))
    (default (em_automatic_breaks_enabled e) (ui_automatic_breaks_enabled payload))
    (default (em_afternoon_hours_enabled e) (ui_afternoon_hours_enabled payload))
    start
    (default (em_night_hours_enabled e) (ui_night_hours_enabled payload))
    (default (em_weekend_hours_enabled e) (ui_weekend_hours_enabled payload))
    (default (em_public_holiday_hours_enabled e) (ui_public_holiday_hours_enabled payload)).

Definition update_employment (db : DB) (now : Z) (employment_id : Z) (payload : EmploymentUpdateIn)
    : result (DB * (EmploymentDeleteOut + EmploymentOut)) :=
  let? title := validate_update_in payload in
  let? e0 := or_raise (get_employment db employment_id) (ApiError 404 "employment_not_found") in
  let? e := lock_employment_for_time_mutation db (em_id e0) in
  let next_title := match title with Some t => strip t | None => em_title e end in
  let current_type_value := employment_type_value (em_employment_type e) in
  let next_type_value := default current_type_value (ui_employment_type payload) in
  let? next_type := or_raise (parse_employment_type next_type_value)
    (ApiError 400 "invalid_employment_type") in
  let? next_start_date := match ui_start_date payload with
    | Some v => parse_date (Some v) "start_date"
    | None => Ok (Some (em_start_date e))
    end in
  let? next_end_date := match ui_end_date payload with
    | Some v => parse_date v "end_date"
    | None => Ok (em_end_date e)
    end in
  let? next_start_date := or_raise next_start_date
    (ApiError 400 "invalid_employment_start_date") in
  validate_period next_start_date next_end_date ?;;
  let period_changed := negb (next_start_date =? em_start_date e) ||
    negb (bool_decide (next_end_date = em_end_date e)) in
  let summary := collect_range_conflicts db (em_id e) next_start_date next_end_date in
  let has_conflicts := any_count summary in
  guard (has_conflicts && negb (ui_confirm_delete_out_of_range payload)) (range_conflict summary) ?;;
  let '(db1, delete_summary) :=
    if has_conflicts && ui_confirm_delete_out_of_range payload
    then let '(db1, out) := delete_out_of_range_records db (em_id e) next_start_date next_end_date in
         (db1, Some out)
    else (db, None) in
  let? start := requested_afternoon_minutes payload e in
  let type_changed := negb (String.eqb next_type_value current_type_value) in
  let profile_values := normalize_profile_for_type next_type_value
    (requested_profile payload e start) type_changed in
  let metric_profile_changed := type_changed ||
    negb (bool_decide (metric_profile (profile_of e) = metric_profile profile_values)) in
  guard (is_some (validate_profile next_type_value profile_values))
    (ApiError 400 "invalid_time_profile") ?;;
  let employment := employment_with e next_title next_type next_start_date next_end_date
    profile_values in
  let? row := flush_employment employment in
  let db2 := set_employments (update_where (λ x, em_id x =? em_id e) (λ _, row) (employments db1)) db1 in
  let? db3 := if metric_profile_changed || period_changed
    then sync_employment_metrics db2 employment else Ok db2 in
  let db' := commit db3 in
  Ok (db', match delete_summary with
           | Some out => inl out
           | None => inr (to_employment_out db' (prague_today (Zoned now)) row)
           end).

(** Deleting rows of [employments]: every row that refers to them goes with
    them ([ON DELETE CASCADE]). *)
Definition delete_employment_rows (gone : Z → bool) (db : DB) : DB :=
  set_employments (delete_where (λ x, gone (em_id x)) (employments db))
  (delete_members (λ m, gone (gm_employment_id m))
  (set_metrics (delete_where (λ r, gone (dm_employment_id r)) (metrics db))
  (delete_doomed (rows_of gone) db))).

(** [db.delete(employment)]. *)
Definition delete_employment_row (i : Z) (db : DB) : DB :=
  delete_employment_rows (λ j, j =? i) db.

Definition delete_employment (db : DB) (employment_id : Z) (confirm_delete_related : bool)
    : result (DB * EmploymentDeleteOut) :=
  let? e0 := or_raise (get_employment db employment_id) (ApiError 404 "employment_not_found") in
  let? e := lock_employment_for_time_mutation db (em_id e0) in
  let summary := collect_related_data_summary db (em_id e) in
  let related_count := sum_Z (rs_counts summary) in
  guard ((0 <? related_count) && negb confirm_delete_related) (delete_conflict summary) ?;;
  let '(db1, out) := if 0 <? related_count then delete_all_related_records db (em_id e)
                     else (db, nothing_deleted) in
  let? db2 := remove_groups_for_employment db1 (em_id e) in
  Ok (commit (delete_employment_row (em_id e) db2), out).
End Endpoints.
