(* ===== verification/EmploymentRows.v ===== *)
(** * The rows a change of an employment's period removes

    The DELETE statements collect primary keys first; together they remove
    exactly the rows of the employment outside the period.  The numbers and
    the days of the refusal are those of the rows a confirmation deletes. *)

From stdpp Require Import relations.
From S2P Require Import Prelude Calendar TimeParse Format PragueTime Models TimeIntervals Breaks.
From S2P Require Import TimeMetrics Locks EmploymentAccess DayStatus AttendanceEvents.
From S2P Require Import MonthSummary AttendanceApi SystemInvariant Period Groups AdminEmployments.
#[local] Open Scope Z_scope.

(** ** The rows outside a period *)

(** The same conditions, row by row. *)
Definition outside_rows (i : Z) (start_date : date) (end_date : option date) : doomed :=
  let out := is_date_out_of_range start_date end_date in
  let month_out := month_record_out_of_range start_date end_date in
  mk_doomed
    (λ a, (at_employment_id a =? i) && out (at_date a))
    (λ x, (ev_employment_id x =? i) && out (ev_day x))
    (λ p, (sp_employment_id p =? i) && out (sp_date p))
    (λ _ k, (lk_employment_id k =? i) && month_out (lk_year k, lk_month k))
    (λ k, (mi_employment_id k =? i) && month_out (mi_year k, mi_month k))
    (λ r, (rm_employment_id r =? i) && out (rm_attendance_date r)).

Lemma out_of_range_clause_eq s t d : out_of_range_clause s t d = is_date_out_of_range s t d.
Proof. unfold out_of_range_clause, is_date_out_of_range. destruct t, (d <? s); done. Qed.

Lemma out_of_range_period e d :
  is_date_out_of_range (em_start_date e) (em_end_date e) d = outside_period e d.
Proof. unfold is_date_out_of_range, outside_period. by destruct (d <? em_start_date e). Qed.

Lemma plan_out_of_range_eq s t p : plan_out_of_range s t p = is_date_out_of_range s t (sp_date p).
Proof. unfold plan_out_of_range. simpl. apply orb_false_r. Qed.

(** Being among the primary keys of the selected rows is being selected. *)
Lemma mem_selected_ids {A} (id : A → Z) (p q : A → bool) (l : list A) x :
  NoDup (id <$> l) → x ∈ l →
  mem (id x) (id <$> where_ q (where_ p l)) = p x && q x.
Proof.
  intros Hn Hx. apply eq_true_iff_eq. rewrite mem_true, andb_true_iff, list_elem_of_fmap. split.
  - intros (y & Hid & Hy). rewrite !elem_of_where in Hy. destruct Hy as [[Hy Hp] Hq].
    by rewrite (NoDup_fmap_eq id l y x).
  - intros [Hp Hq]. exists x. by rewrite !elem_of_where.
Qed.

Section Rows.
Context `{zone : PragueZone} `{!PragueZoneLaws zone}.

(** A pair never leaves its day, so closing the pairs adds no event. *)
Lemma out_of_range_event_ids_eq l s t :
  NoDup (ev_id <$> l) →
  out_of_range_event_ids l s t =
    ev_id <$> where_ (λ x, is_date_out_of_range s t (ev_day x)) l.
Proof.
  intros Hn. unfold out_of_range_event_ids.
  set (out x := is_date_out_of_range s t (ev_day x)). set (ids := ev_id <$> where_ out l).
  assert (Hids : NoDup ids) by by apply NoDup_fmap_where.
  assert (Hmem : ∀ x, x ∈ l → mem (ev_id x) ids = out x).
  { intros x Hx. unfold ids. rewrite <- (where_all (λ _, true) l) at 1 by done.
    by rewrite mem_selected_ids. }
  rewrite (dedup_id ids) by done.
  assert (Hpairs : ∀ p, p ∈ pair_event_rows l → close_pair ids p = ids).
  { intros [a b] (Ha & Hb & Hd & _)%pair_event_rows_elem. unfold close_pair. simpl.
    rewrite !Hmem by done. unfold out. rewrite Hd, orb_diag.
    destruct (is_date_out_of_range s t (ev_day b)) eqn:E; [|done]. apply dedup_app_in; [done|].
    intros i Hi. apply mem_true.
    apply elem_of_cons in Hi as [->|Hi]; [rewrite Hmem by done; unfold out; by rewrite Hd|].
    apply list_elem_of_singleton in Hi as ->. by rewrite Hmem. }
  induction (pair_event_rows l) as [|p k IH]; simpl; [done|].
  rewrite Hpairs by left. apply IH. intros q Hq. apply Hpairs. by right.
Qed.

(** *** The collected keys select the rows outside the period *)

Record same_doomed (db : DB) (c c' : doomed) : Prop := {
  sd_attendance : ∀ a, a ∈ attendance db → dd_attendance c a = dd_attendance c' a;
  sd_event : ∀ x, x ∈ events db → dd_event c x = dd_event c' x;
  sd_plan : ∀ p, p ∈ plans db → dd_plan c p = dd_plan c' p;
  sd_lock : ∀ lt k, k ∈ lock_table lt db → dd_lock c lt k = dd_lock c' lt k;
  sd_selection : ∀ k, k ∈ month_instances db → dd_selection c k = dd_selection c' k;
  sd_reminder : ∀ r, r ∈ reminders db → dd_reminder c r = dd_reminder c' r;
}.

Lemma delete_doomed_ext db c c' : same_doomed db c c' → delete_doomed c db = delete_doomed c' db.
Proof.
  intros [A E P L S R]. pose proof (L LOCK_ATTENDANCE) as LA. pose proof (L LOCK_SHIFT_PLAN) as LP.
  unfold delete_doomed. simpl in LA, LP.
  rewrite (delete_where_ext _ _ _ A), (delete_where_ext _ _ _ E), (delete_where_ext _ _ _ P),
    (delete_where_ext _ _ _ LA), (delete_where_ext _ _ _ LP),
    (delete_where_ext _ _ _ S), (delete_where_ext _ _ _ R). done.
Qed.

Lemma doomed_counts_ext db c c' : same_doomed db c c' → doomed_counts c db = doomed_counts c' db.
Proof.
  intros [A E P L S R]. pose proof (L LOCK_ATTENDANCE) as LA. pose proof (L LOCK_SHIFT_PLAN) as LP.
  unfold doomed_counts. simpl in LA, LP.
  rewrite (where_ext _ _ _ A), (where_ext _ _ _ E), (where_ext _ _ _ P),
    (where_ext _ _ _ LA), (where_ext _ _ _ LP),
    (where_ext _ _ _ S), (where_ext _ _ _ R). done.
Qed.

Lemma out_of_range_rows_outside db i s t :
  inv db → side_ids db → same_doomed db (out_of_range_rows db i s t) (outside_rows i s t).
Proof.
  intros Hi [L S]. constructor; simpl.
  - intros a _. by rewrite out_of_range_clause_eq.
  - intros x Hx. rewrite out_of_range_event_ids_eq by apply NoDup_fmap_where, (inv_wf _ Hi).
    unfold events_of. rewrite mem_selected_ids; [done|apply (inv_wf _ Hi)|done].
  - intros p Hp. unfold plans_of. rewrite mem_selected_ids; [|apply (inv_wf _ Hi)|done].
    by rewrite plan_out_of_range_eq.
  - intros lt k Hk. by rewrite mem_selected_ids; [|apply L|].
  - intros k Hk. by rewrite mem_selected_ids; [|apply S|].
  - intros r _. by rewrite out_of_range_clause_eq.
Qed.

(** *** The numbers *)

Definition delete_out_counts (o : EmploymentDeleteOut) : list Z :=
  [deleted_attendance_count o; deleted_shift_plan_count o; deleted_attendance_lock_count o;
   deleted_shift_plan_lock_count o; deleted_shift_plan_selection_count o; deleted_reminder_count o].

Lemma count_sorted {A B} (leb : B → B → bool) (out : B → bool) (f : A → B) (p : A → bool) l :
  count_of (where_ out (sorted_by leb (f <$> where_ p l))) =
  count_of (where_ (λ x, p x && out (f x)) l).
Proof.
  unfold count_of. f_equal.
  transitivity (length (where_ out (f <$> where_ p l))).
  - apply Permutation_length, where_perm, sorted_by_perm.
  - by rewrite length_where_fmap, where_where.
Qed.

Lemma count_all_sorted {A B} (leb : B → B → bool) (f : A → B) (l : list A) :
  count_of (sorted_by leb (f <$> l)) = count_of l.
Proof. unfold count_of. by rewrite length_sorted_by, length_fmap. Qed.

Lemma event_count db i s t :
  inv db →
  (if nonempty (sorted_by Z.leb (ev_day <$> where_ (λ x, mem (ev_id x)
       (out_of_range_event_ids (events_of db i) s t)) (events_of db i)))
   then count_of (out_of_range_event_ids (events_of db i) s t) else 0) =
  count_of (where_ (dd_event (outside_rows i s t)) (events db)).
Proof.
  intros Hi. rewrite out_of_range_event_ids_eq by apply NoDup_fmap_where, (inv_wf _ Hi).
  set (out x := is_date_out_of_range s t (ev_day x)).
  assert (Hsel : where_ (λ x, mem (ev_id x) (ev_id <$> where_ out (events_of db i))) (events_of db i)
    = where_ out (events_of db i)).
  { apply where_ext. intros x Hx. rewrite <- (where_all (λ _, true) (events_of db i)) at 1 by done.
    rewrite mem_selected_ids; [done|apply NoDup_fmap_where, (inv_wf _ Hi)|done]. }
  rewrite Hsel. simpl.
  assert (Hw : where_ (λ x, (ev_employment_id x =? i) && is_date_out_of_range s t (ev_day x))
    (events db) = where_ out (events_of db i)).
  { unfold events_of. by rewrite where_where. }
  rewrite Hw. unfold count_of. rewrite length_fmap.
  destruct (where_ out (events_of db i)) as [|x l] eqn:E; [done|].
  destruct (sorted_by Z.leb (ev_day <$> x :: l)) as [|d k] eqn:Es; [|done].
  pose proof (length_sorted_by Z.leb (ev_day <$> x :: l)) as Hl. rewrite Es in Hl.
  by rewrite length_fmap in Hl.
Qed.

(** The numbers of the refusal are the numbers of rows a confirmation deletes. *)
Lemma range_counts_eq db i s t :
  inv db → side_ids db →
  rs_counts (collect_range_conflicts db i s t) =
    delete_out_counts (delete_out_of_range_records db i s t).2.
Proof.
  intros Hi Hs. simpl. rewrite (doomed_counts_ext _ _ _ (out_of_range_rows_outside db i s t Hi Hs)).
  unfold rs_counts, delete_out_counts, collect_range_conflicts. simpl.
  rewrite (event_count db i s t Hi). unfold attendance_dates, lock_months, selection_months,
    reminder_dates, plans_of. rewrite !count_sorted. do 2 f_equal.
  unfold count_of. rewrite length_fmap. f_equal.
  transitivity (length (where_ (plan_out_of_range s t)
    (where_ (λ p, sp_employment_id p =? i) (plans db)))).
  - apply Permutation_length, where_perm, sorted_by_perm.
  - rewrite where_where. f_equal. apply where_ext. intros p _. by rewrite plan_out_of_range_eq.
Qed.

Lemma related_counts_eq db i :
  rs_counts (collect_related_data_summary db i) =
    delete_out_counts (delete_all_related_records db i).2.
Proof.
  unfold rs_counts, delete_out_counts, collect_related_data_summary, attendance_dates, lock_months,
    selection_months, reminder_dates, plans_of, events_of. simpl. by rewrite !count_all_sorted.
Qed.

(** *** The range of days *)

Definition covers (range : option date * option date) (d : date) : Prop :=
  ∃ a b, range = (Some a, Some b) ∧ a <= d <= b.

(** Widening a range keeps its days. *)
Lemma touch_covers range lo hi d :
  is_some lo = is_some hi → covers range d → covers (touch range lo hi) d.
Proof.
  intros Hs (a & b & -> & H). destruct lo as [x|], hi as [y|]; try done; [|by exists a, b].
  unfold touch. simpl. destruct (x <? a) eqn:Ex, (b <? y) eqn:Ey; bool_hyps;
    do 2 eexists; (split; [reflexivity|lia]).
Qed.

Lemma touch_inside range lo hi d :
  is_some range.1 = is_some range.2 → lo <= d <= hi → covers (touch range (Some lo) (Some hi)) d.
Proof.
  intros Hs H. destruct range as [[a|] [b|]]; try done; unfold touch; simpl.
  - destruct (lo <? a) eqn:Ex, (b <? hi) eqn:Ey; bool_hyps; do 2 eexists; (split; [reflexivity|lia]).
  - by exists lo, hi.
Qed.

Lemma touch_both range lo hi :
  is_some lo = is_some hi → is_some range.1 = is_some range.2 →
  is_some (touch range lo hi).1 = is_some (touch range lo hi).2.
Proof.
  intros H1 H2. destruct range as [[a|] [b|]], lo as [x|], hi as [y|]; try done; unfold touch; simpl.
  by destruct (x <? a), (b <? y).
Qed.

Lemma head_last_both {A} (l : list A) : is_some (head l) = is_some (last l).
Proof.
  destruct l as [|x l]; [done|]. simpl. destruct (last (x :: l)) eqn:E; [done|].
  by apply last_None in E.
Qed.

Lemma fmap_both {A B C D} (f : A → B) (g : C → D) (x : option A) (y : option C) :
  is_some x = is_some y → is_some (f <$> x) = is_some (g <$> y).
Proof. by destruct x, y. Qed.

Lemma touch_days_covers days range d :
  StronglySorted (le_rel Z.leb) days → is_some range.1 = is_some range.2 →
  d ∈ days ∨ covers range d → covers (touch_days days range) d.
Proof.
  intros Hs Hr [Hd|Hd]; [|apply touch_covers; [apply head_last_both|done]].
  destruct (sorted_head_last (le_rel Z.leb) days d) as (a & b & Ha & Hb & H1 & H2); [|done..|].
  { intros y. apply Z.leb_refl. }
  unfold touch_days. rewrite Ha, Hb. unfold le_rel in *. apply touch_inside; [done|lia].
Qed.

Lemma touch_days_both days range :
  is_some range.1 = is_some range.2 →
  is_some (touch_days days range).1 = is_some (touch_days days range).2.
Proof. apply touch_both, head_last_both. Qed.

Lemma touch_months_covers months range d : covers range d → covers (touch_months months range) d.
Proof. apply touch_covers, fmap_both, head_last_both. Qed.

Lemma touch_months_both months range :
  is_some range.1 = is_some range.2 →
  is_some (touch_months months range).1 = is_some (touch_months months range).2.
Proof. apply touch_both, fmap_both, head_last_both. Qed.

Lemma sorted_days l : StronglySorted (le_rel Z.leb) (sorted_by Z.leb l).
Proof. apply sorted_by_sorted; intros *; rewrite ?Z.leb_gt, ?Z.leb_le; lia. Qed.

Lemma sorted_plan_days p l :
  StronglySorted (le_rel Z.leb) (sp_date <$> where_ p (sorted_by plan_date_leb l)).
Proof.
  apply (StronglySorted_fmap (le_rel plan_date_leb)); [done|]. apply StronglySorted_where.
  apply sorted_by_sorted; unfold plan_date_leb; intros *; rewrite ?Z.leb_gt, ?Z.leb_le; lia.
Qed.

(** Every day of a row the confirmation deletes lies in the shown range. *)
Lemma range_covers_days db i s t d :
  inv db →
  (∃ a, a ∈ attendance db ∧ dd_attendance (outside_rows i s t) a = true ∧ at_date a = d) ∨
  (∃ x, x ∈ events db ∧ dd_event (outside_rows i s t) x = true ∧ ev_day x = d) ∨
  (∃ p, p ∈ plans db ∧ dd_plan (outside_rows i s t) p = true ∧ sp_date p = d) ∨
  (∃ r, r ∈ reminders db ∧ dd_reminder (outside_rows i s t) r = true ∧ rm_attendance_date r = d) →
  covers (rs_range (collect_range_conflicts db i s t)) d.
Proof.
  intros Hi H. unfold collect_range_conflicts. cbn [rs_range].
  assert (Hsel : ∀ {A} (f : A → date) (p : A → bool) l x, x ∈ l →
    p x && is_date_out_of_range s t (f x) = true →
    f x ∈ where_ (is_date_out_of_range s t) (sorted_by Z.leb (f <$> where_ p l))).
  { intros A f p l x Hx [Hp Ho]%andb_true_iff. apply elem_of_where. split; [|done].
    apply elem_of_sorted_by, list_elem_of_fmap_2, elem_of_where. done. }
  set (r1 := touch_days (where_ _ (attendance_dates _ _)) _).
  assert (B1 : is_some r1.1 = is_some r1.2) by by apply touch_days_both.
  set (r2 := touch_days (sorted_by _ _) r1).
  assert (B2 : is_some r2.1 = is_some r2.2) by by apply touch_days_both.
  set (r3 := touch_days (sp_date <$> _) r2).
  assert (B3 : is_some r3.1 = is_some r3.2) by by apply touch_days_both.
  apply touch_days_covers; [apply StronglySorted_where, sorted_days|by do 3 apply touch_months_both|].
  destruct H as [(a & Ha & Hc & <-)|[(x & Hx & Hc & <-)|[(p & Hp & Hc & <-)|(r & Hr & Hc & <-)]]];
    [right; do 3 apply touch_months_covers..|].
  - apply touch_days_covers; [apply sorted_plan_days|done|]. right.
    apply touch_days_covers; [apply sorted_days|done|]. right.
    apply touch_days_covers; [apply StronglySorted_where, sorted_days|done|]. left. by apply Hsel.
  - apply touch_days_covers; [apply sorted_plan_days|done|]. right.
    apply touch_days_covers; [apply sorted_days|done|]. left. apply elem_of_sorted_by.
    apply list_elem_of_fmap_2, elem_of_where. simpl in Hc. apply andb_true_iff in Hc as [Hc Ho].
    assert (Hev : x ∈ events_of db i) by (apply elem_of_where; done).
    split; [done|]. rewrite out_of_range_event_ids_eq by apply NoDup_fmap_where, (inv_wf _ Hi).
    apply mem_true, list_elem_of_fmap_2, elem_of_where. done.
  - apply touch_days_covers; [apply sorted_plan_days|done|]. left.
    simpl in Hc. apply andb_true_iff in Hc as [Hc Ho].
    apply list_elem_of_fmap_2, elem_of_where. rewrite plan_out_of_range_eq. split; [|done].
    apply elem_of_sorted_by, elem_of_where. done.
  - left. by apply Hsel.
Qed.

(** No row to delete is no row deleted. *)
Lemma count_zero {A} (p : A → bool) (l : list A) :
  count_of (where_ p l) = 0 → delete_where p l = l.
Proof.
  unfold count_of. intros H. apply delete_where_none. apply where_nil_iff.
  destruct (where_ p l); [done|]. simpl in H. lia.
Qed.

Lemma counts_zero db c :
  existsb (λ n, negb (n =? 0)) (delete_out_counts (doomed_counts c db)) = false →
  delete_doomed c db = db.
Proof.
  rewrite existsb_false_elem. intros H. unfold delete_out_counts in H. simpl in H.
  assert (Hz : ∀ n, n ∈ _ → n = 0) by (intros n Hn; specialize (H n Hn); by bool_hyps). clear H.
  pose proof (Hz _ ltac:(left)) as H1. pose proof (Hz _ ltac:(right; left)) as H2.
  pose proof (Hz _ ltac:(do 2 right; left)) as H3. pose proof (Hz _ ltac:(do 3 right; left)) as H4.
  pose proof (Hz _ ltac:(do 4 right; left)) as H5. pose proof (Hz _ ltac:(do 5 right; left)) as H6.
  unfold delete_doomed. rewrite !count_zero; [by destruct db|..]; try done;
    unfold count_of in *; lia.
Qed.
End Rows.
