(* ===== verification/EmploymentSafety.v ===== *)
(** * Safety of the administration of employments

    Creating, changing and deleting an employment keeps the invariants; the
    rows that stay are those of the other employments and those inside the
    new period; the persisted metrics stay those a recomputation gives. *)

From stdpp Require Import relations.
From S2P Require Import Prelude Calendar TimeParse Format PragueTime Models TimeIntervals Breaks.
From S2P Require Import TimeMetrics Locks EmploymentAccess DayStatus AttendanceEvents.
From S2P Require Import MonthSummary AttendanceApi SystemInvariant Period Groups.
From S2P Require Import AdminEmployments EmploymentRows.
From Stdlib Require Import QArith Qround.
#[local] Open Scope Z_scope.

(** ** The metrics depend on the metric profile only *)

Definition same_metric_settings (e e' : Employment) : Prop :=
  em_id e' = em_id e ∧ em_employment_type e' = em_employment_type e ∧
  metric_profile (profile_of e') = metric_profile (profile_of e).

Lemma calculate_daily_settings e e' d i :
  same_metric_settings e e' → calculate_daily_metrics e' d i = calculate_daily_metrics e d i.
Proof.
  destruct e, e'. unfold same_metric_settings, metric_profile, profile_of. simpl.
  by intros (-> & -> & [= -> -> -> -> -> ->]).
Qed.

(** A day without its full-day hours. *)
Definition erase_status (d : DaySummary) : DaySummary :=
  mk_day (dy_date d) (dy_attendance d) (dy_plan d) (dy_effective_status d) (dy_worked d) (dy_planned d)
    (dy_worked_state d) (dy_planned_state d) (mk_dsm None None None).

Lemma existsb_fmap {A B} (p : B → bool) (f : A → B) l :
  existsb p (f <$> l) = existsb (λ x, p (f x)) l.
Proof. induction l as [|x l IH]; csimpl; [done|]. by rewrite IH. Qed.

Lemma summary_rows_erased i s s' :
  erase_status <$> ms_day_summaries s' = erase_status <$> ms_day_summaries s →
  summary_rows i s' = summary_rows i s.
Proof.
  intros H.
  assert (Hp : month_summary_source_presence s' = month_summary_source_presence s).
  { unfold month_summary_source_presence. f_equal.
    - pose proof (f_equal (existsb (λ d, is_some (dy_attendance d) ||
        negb (String.eqb (dy_worked_state d) "empty") || positive_total (dy_worked d))) H) as E.
      by rewrite !existsb_fmap in E.
    - pose proof (f_equal (existsb (λ d, is_some (dy_plan d) ||
        negb (String.eqb (dy_planned_state d) "empty") || positive_total (dy_planned d))) H) as E.
      by rewrite !existsb_fmap in E. }
  unfold summary_rows. rewrite Hp. destruct (month_summary_source_presence s) as [a p].
  pose proof (f_equal (λ l, mjoin (day_metric_rows i a p <$> l)) H) as E.
  simpl in E. by rewrite <- !list_fmap_compose in E.
Qed.

Section Safety.
Context `{zone : PragueZone} `{!PragueZoneLaws zone}.

Lemma build_day_settings db e e' start stop evs pi d x :
  same_metric_settings e e' → build_day db e start stop false evs pi d = Ok x →
  ∃ x', build_day db e' start stop false evs pi d = Ok x' ∧ erase_status x' = erase_status x.
Proof.
  intros Hs H. destruct (Hs) as (Hid & _). unfold build_day in *. rewrite Hid.
  apply rbind_ok in H as (sm & _ & H).
  set (st := effective_status _ _) in *. destruct (day_status_metrics_total e' st) as [sm' ->].
  cbn [rbind]. rewrite !(calculate_daily_settings e e') by done.
  apply rbind_ok in H as (w & -> & H). cbn [rbind]. apply rbind_ok in H as (pl & -> & H).
  cbn [rbind]. injection H as <-. by eexists.
Qed.

Lemma map_result_related {A B C} (f f' : A → result B) (g : B → C) l ys :
  (∀ x y, f x = Ok y → ∃ y', f' x = Ok y' ∧ g y' = g y) → map_result f l = Ok ys →
  ∃ ys', map_result f' l = Ok ys' ∧ g <$> ys' = g <$> ys.
Proof.
  intros H. revert ys. induction l as [|x l IH]; intros ys; simpl; [by intros [= <-]; exists []|].
  intros (y & Hy & (zs & Hzs & [= <-])%rbind_ok)%rbind_ok.
  destruct (H _ _ Hy) as (y' & -> & Hg). destruct (IH _ Hzs) as (zs' & -> & Hgs). simpl.
  exists (y' :: zs'). split; [done|]. csimpl. by rewrite Hg, Hgs.
Qed.

Lemma month_metric_rows_settings db e e' y m :
  plans_valid db → same_metric_settings e e' →
  month_metric_rows db e' y m = month_metric_rows db e y m.
Proof.
  intros Hv Hs. destruct (Hs) as (Hid & _).
  destruct (build_summary_total db e y m Hv) as [s Hsum]. unfold month_metric_rows.
  rewrite Hsum. cbn [rbind]. unfold build_employment_summary in *.
  destruct (month_range y m) as [start stop]. rewrite Hid.
  apply rbind_ok in Hsum as (pi & -> & Hsum). cbn [rbind].
  apply rbind_ok in Hsum as (days & Hdays & [= <-]).
  destruct (map_result_related _ (build_day db e' start stop false
    (events_by_time (events_of db (em_id e))) pi) erase_status _ _
    (λ d x, build_day_settings db e e' start stop _ pi d x Hs) Hdays) as (days' & -> & He).
  cbn [rbind]. f_equal. by apply summary_rows_erased.
Qed.

(** ** Dropping rows by employment and day *)

Record drops (f : Z → date → bool) (db db' : DB) : Prop := {
  dr_attendance : attendance db' = delete_where (λ a, f (at_employment_id a) (at_date a)) (attendance db);
  dr_events : events db' = delete_where (λ x, f (ev_employment_id x) (ev_day x)) (events db);
  dr_plans : plans db' = delete_where (λ p, f (sp_employment_id p) (sp_date p)) (plans db);
  dr_next : next_id db <= next_id db';
}.

Section Drops.
Context (f : Z → date → bool) (db db' : DB) (Hd : drops f db db').

Lemma drops_attendance_rows k :
  attendance_rows db' k = if f k.1 k.2 then [] else attendance_rows db k.
Proof.
  unfold attendance_rows. rewrite (dr_attendance _ _ _ Hd). destruct (f k.1 k.2) eqn:E.
  - apply where_nil_iff. intros a [Ha Hf]%elem_of_delete_where. apply not_true_is_false.
    intros Hk%attendance_at_spec. rewrite <- Hk in E. unfold attendance_key in E. simpl in E. congruence.
  - apply where_delete_where_disjoint. intros a Hk%attendance_at_spec. by rewrite <- Hk in E.
Qed.

Lemma drops_plan_rows k : plan_rows db' k = if f k.1 k.2 then [] else plan_rows db k.
Proof.
  unfold plan_rows. rewrite (dr_plans _ _ _ Hd). destruct (f k.1 k.2) eqn:E.
  - apply where_nil_iff. intros p [Hp Hf]%elem_of_delete_where. apply not_true_is_false.
    intros Hk%plan_at_spec. rewrite <- Hk in E. unfold plan_key in E. simpl in E. congruence.
  - apply where_delete_where_disjoint. intros p Hk%plan_at_spec. by rewrite <- Hk in E.
Qed.

Lemma drops_event x : x ∈ events db' ↔ x ∈ events db ∧ f (ev_employment_id x) (ev_day x) = false.
Proof. by rewrite (dr_events _ _ _ Hd), elem_of_delete_where. Qed.

Lemma drops_status k : no_status db k.1 k.2 → no_status db' k.1 k.2.
Proof.
  unfold no_status, attendance_status, plan_status. rewrite drops_attendance_rows, drops_plan_rows.
  destruct k as [i d]. simpl. by destruct (f i d).
Qed.

Lemma drops_inv : NoDup (em_id <$> employments db') → inv db → inv db'.
Proof.
  intros Hn [[P A E] N X I Z V [W1 W2] S]. pose proof (dr_next _ _ _ Hd) as Hnext. constructor.
  - constructor; rewrite ?(dr_plans _ _ _ Hd), ?(dr_attendance _ _ _ Hd), ?(dr_events _ _ _ Hd);
      eapply keyed_delete, keyed_mono; eassumption.
  - done.
  - lia.
  - intros x [Hx _]%drops_event. by apply I.
  - intros x [Hx _]%drops_event. by apply Z.
  - intros p. rewrite (dr_plans _ _ _ Hd). intros [Hp _]%elem_of_delete_where. by apply V.
  - split.
    + intros p. rewrite (dr_plans _ _ _ Hd). intros [Hp _]%elem_of_delete_where. by apply W1.
    + intros a. rewrite (dr_attendance _ _ _ Hd). intros [Ha _]%elem_of_delete_where. by apply W2.
  - intros x [Hx _]%drops_event. apply (drops_status (ev_employment_id x, ev_day x)). by apply S.
Qed.

(** A month none of whose days is dropped keeps its metrics. *)
Lemma drops_month_rows e y m :
  inv db → inv db' → (∀ d, mk_date y m 1 <= d < next_month y m → f (em_id e) d = false) →
  month_metric_rows db' e y m = month_metric_rows db e y m.
Proof.
  intros Hi Hi' Hf. unfold month_metric_rows. rewrite (build_summary_local db db'); [done|..].
  - apply (inv_wf _ Hi).
  - apply (inv_wf _ Hi').
  - apply Hi.
  - apply Hi'.
  - constructor.
    + intros d Hin. rewrite drops_attendance_rows. simpl. by rewrite Hf.
    + intros d Hin. rewrite drops_plan_rows. simpl. by rewrite Hf.
    + intros d Hin. unfold day_events, events_of. rewrite (dr_events _ _ _ Hd).
      rewrite !where_where, where_delete_where_disjoint; [done|].
      intros x Hx. bool_hyps. subst d. rewrite H. by apply Hf.
Qed.
End Drops.
End Safety.

(** ** The CHECK constraints *)

(** A stored row: the constraints hold and the workload is in thousandths. *)
Definition employment_ok (e : Employment) : Prop :=
  employment_row_ok e = true ∧ stored_employment e = e.

Lemma thousandths_stored k : thousandths (k # 1000) = k.
Proof.
  unfold thousandths, Qfloor. simpl.
  symmetry. apply (Z.div_unique _ _ _ 1000); lia.
Qed.

Lemma numeric_4_3_idem q : numeric_4_3 (numeric_4_3 q) = numeric_4_3 q.
Proof. unfold numeric_4_3. by rewrite thousandths_stored. Qed.

Lemma stored_employment_idem e : stored_employment (stored_employment e) = stored_employment e.
Proof.
  unfold stored_employment. simpl. f_equal. destruct (em_workload_fraction e); [|done].
  simpl. by rewrite numeric_4_3_idem.
Qed.

Lemma parse_type_value ty t : parse_employment_type ty = Some t → employment_type_value t = ty.
Proof.
  unfold parse_employment_type. intros H.
  repeat (destruct (String.eqb ty _) eqn:E;
    [apply String.eqb_eq in E as ->; by injection H as <-|clear E]). done.
Qed.

Lemma type_value_parse t : parse_employment_type (employment_type_value t) = Some t.
Proof. by destruct t. Qed.

Definition workload_stored (w : option Q) : Prop :=
  ∀ q, w = Some q → (1 # 1000 <= q)%Q ∧ (q <= 1)%Q.

(** A profile [validate_time_profile] accepts violates no CHECK constraint. *)
Lemma valid_profile_row t p e title s d :
  validate_profile (employment_type_value t) p = None → workload_stored (tp_workload_fraction p) →
  employment_row_ok (stored_employment (employment_with e title t s d p)) = true.
Proof.
  unfold validate_profile, validate_time_profile, employment_row_ok, workload_stored,
    ck_employment_workload_fraction, ck_employment_afternoon_start,
    ck_employment_afternoon_required, ck_employment_task_profile,
    ck_employment_work_contract_profile, employment_type_is_valid.
  rewrite type_value_parse. destruct p as [w tot br aft st nig wee hol]. simpl.
  intros H Hw.
  assert (Hwork : t = WORK_CONTRACT → ∃ q, w = Some q ∧
    negb (Qle_bool (numeric_4_3 q) 0) && Qle_bool (numeric_4_3 q) 1 = true).
  { intros ->. simpl in H. destruct w as [q|]; [|done]. exists q. split; [done|].
    destruct (Hw q eq_refl) as [H1 H2]. destruct (numeric_4_3_range q H1 H2) as [H3 H4].
    apply andb_true_iff. split; [|by apply Qle_bool_iff].
    apply negb_true_iff, not_true_is_false. rewrite Qle_bool_iff. by apply Qlt_not_le. }
  destruct t; simpl in *.
  - destruct (Hwork eq_refl) as (q & -> & Hq). simpl. rewrite Hq.
    destruct (negb (negb (Qle_bool q 0) && Qle_bool q 1)); [done|].
    destruct tot, nig; try done. destruct aft, st as [m|]; try done.
    simpl in *. by destruct ((0 <=? m) && (m <=? 1319)).
  - destruct w; [done|]. destruct aft, st as [m|]; try done.
    simpl in *. by destruct ((0 <=? m) && (m <=? 1319)).
  - destruct w; [done|]. destruct tot, br, aft, nig, wee, hol; try done. by destruct st.
  - destruct w; [done|]. destruct aft, st as [m|]; try done.
    simpl in *. by destruct ((0 <=? m) && (m <=? 1319)).
Qed.

Lemma stored_workload e : employment_ok e → workload_stored (em_workload_fraction e).
Proof.
  intros [Hrow Hst] q Hq. unfold employment_row_ok in Hrow. bool_hyps.
  unfold ck_employment_workload_fraction in H. rewrite Hq in H.
  destruct (em_employment_type e); try done. apply andb_true_iff in H as [Hpos Hle].
  apply Qle_bool_iff in Hle. split; [|done].
  apply (f_equal em_workload_fraction) in Hst. unfold stored_employment in Hst. simpl in Hst.
  rewrite Hq in Hst. simpl in Hst. injection Hst as Hst. rewrite <- Hst in Hpos |- *.
  apply negb_true_iff, not_true_iff_false in Hpos. rewrite Qle_bool_iff in Hpos.
  unfold numeric_4_3, Qle in *. simpl in *. lia.
Qed.

Lemma or_one_stored w : workload_stored w → workload_stored (or_one w).
Proof.
  intros Hw q. unfold or_one. destruct w as [x|].
  - destruct (Qeq_bool x 0); [intros [= <-]; by split|apply Hw].
  - intros [= <-]. by split.
Qed.

Lemma normalize_stored ty p c :
  workload_stored (tp_workload_fraction p) →
  workload_stored (tp_workload_fraction (normalize_profile_for_type ty p c)).
Proof.
  intros Hw. unfold normalize_profile_for_type.
  assert (Hn : workload_stored (tp_workload_fraction
    (if c && negb (String.eqb ty "WORK_CONTRACT") then without_workload p else p))).
  { by destruct (c && _). }
  destruct (String.eqb ty "WORK_CONTRACT"); [by apply or_one_stored|].
  by destruct (c && _) in |- *.
Qed.

(** ** Changing an employment *)

(** The tables after rows were deleted. *)
Record cleared (c : doomed) (db db' : DB) : Prop := {
  cl_attendance : attendance db' = delete_where (dd_attendance c) (attendance db);
  cl_events : events db' = delete_where (dd_event c) (events db);
  cl_plans : plans db' = delete_where (dd_plan c) (plans db);
  cl_locks : ∀ lt, lock_table lt db' = delete_where (dd_lock c lt) (lock_table lt db);
  cl_selections : month_instances db' = delete_where (dd_selection c) (month_instances db);
  cl_reminders : reminders db' = delete_where (dd_reminder c) (reminders db);
  cl_other : users db' = users db ∧ auto_lock_runs db' = auto_lock_runs db;
  cl_next : next_id db <= next_id db';
}.

Lemma cleared_delete c db : cleared c db (delete_doomed c db).
Proof. constructor; try done. by intros []. Qed.

Section Update.
Context `{zone : PragueZone} `{!PragueZoneLaws zone}.

(** Which rows of [e] lie outside the period of [row]. *)
Definition outside_of (row : Employment) : doomed :=
  outside_rows (em_id row) (em_start_date row) (em_end_date row).
Definition outside_fact (row : Employment) (i : Z) (d : date) : bool :=
  (i =? em_id row) && is_date_out_of_range (em_start_date row) (em_end_date row) d.

Record employment_replaced (db db' : DB) (e row : Employment) : Prop := {
  er_old : e ∈ employments db;
  er_id : em_id row = em_id e ∧ em_user_id row = em_user_id e;
  er_employments :
    employments db' = update_where (λ x, em_id x =? em_id e) (λ _, row) (employments db);
  er_groups : groups db' = groups db ∧ members db' = members db;
  er_cleared : cleared (outside_of row) db db';
  er_metrics : metrics_of_only (em_id e) (metrics db') db;
}.

Lemma replaced_drops db db' e row :
  employment_replaced db db' e row → drops (outside_fact row) db db'.
Proof.
  intros [_ _ _ _ C _]. constructor; try apply C.
Qed.

Lemma replaced_ids db db' e row :
  employment_replaced db db' e row → em_id <$> employments db' = em_id <$> employments db.
Proof.
  intros R. rewrite (er_employments _ _ _ _ R). unfold update_where.
  rewrite <- list_fmap_compose. apply list_fmap_ext. intros _ x _. simpl.
  destruct (em_id x =? em_id e) eqn:E; [|done]. bool_hyps. rewrite E. apply R.
Qed.

Lemma replaced_employment db db' e row x :
  inv db → employment_replaced db db' e row →
  x ∈ employments db' ↔ x = row ∨ (x ∈ employments db ∧ em_id x ≠ em_id e).
Proof.
  intros Hi R. rewrite (er_employments _ _ _ _ R), elem_of_update_where. split.
  - intros (y & Hy & ->). destruct (em_id y =? em_id e) eqn:E; bool_hyps; auto.
  - intros [->|[Hx Hne]].
    + exists e. by rewrite Z.eqb_refl; split; [apply R|].
    + exists x. by rewrite (proj2 (Z.eqb_neq _ _) Hne).
Qed.

Lemma replaced_inv db db' e row : inv db → employment_replaced db db' e row → inv db'.
Proof.
  intros Hi R. apply (drops_inv (outside_fact row) db); [by eapply replaced_drops| |done].
  rewrite (replaced_ids _ _ _ _ R). apply Hi.
Qed.

Lemma replaced_period db db' e row :
  inv db → employment_replaced db db' e row → period_inv db → period_inv db'.
Proof.
  intros Hi R [I X P A M]. pose proof (replaced_drops _ _ _ _ R) as Hd.
  destruct (er_id _ _ _ _ R) as [Hid _]. pose proof (er_cleared _ _ _ _ R) as C.
  assert (Hkeep : ∀ i d, in_period db i d → outside_fact row i d = false → in_period db' i d).
  { intros i d (x & Hx & <- & Ho) Hf. destruct (decide (em_id x = em_id e)) as [He|He].
    - exists row. rewrite (replaced_employment _ _ _ _ _ Hi R). split_and!; [by left|congruence|].
      rewrite <- out_of_range_period. unfold outside_fact in Hf. by rewrite He, Hid, Z.eqb_refl in Hf.
    - exists x. rewrite (replaced_employment _ _ _ _ _ Hi R). auto. }
  constructor.
  - intros x Hx. apply Z.lt_le_trans with (next_id db); [|apply C].
    apply (replaced_employment _ _ _ _ _ Hi R) in Hx as [->|[Hx _]]; [rewrite Hid; apply I, R|by apply I].
  - intros x [Hx Hf]%(drops_event _ _ _ Hd). by apply Hkeep; [apply X|].
  - intros p. rewrite (cl_plans _ _ _ C). intros [Hp Hf]%elem_of_delete_where.
    by apply Hkeep; [apply P|].
  - intros a. rewrite (cl_attendance _ _ _ C). intros [Ha Hf]%elem_of_delete_where.
    by apply Hkeep; [apply A|].
  - intros r Hr. rewrite (replaced_ids _ _ _ _ R). destruct (er_metrics _ _ _ _ R r Hr) as [Hr'| ->].
    + by apply M.
    + apply list_elem_of_fmap_2, R.
Qed.


(** The other employments keep fresh metrics. *)
Lemma replaced_other_fresh db db' e row x :
  inv db → employment_replaced db db' e row → all_fresh db →
  (∀ i y m, 1 <= m <= 12 → i ≠ em_id e → month_rows db' i y m = month_rows db i y m) →
  x ∈ employments db → em_id x ≠ em_id e → metrics_fresh db' x.
Proof.
  intros Hi R Hf Ho Hx Hne y m Hm. pose proof (replaced_inv _ _ _ _ Hi R) as Hi'.
  destruct (er_id _ _ _ _ R) as [Hid _]. unfold month_fresh.
  rewrite Ho, (drops_month_rows _ _ _ (replaced_drops _ _ _ _ R)); [by apply Hf|done|done| |done|done].
  intros d _. unfold outside_fact. rewrite Hid. by rewrite (proj2 (Z.eqb_neq _ _) Hne).
Qed.

(** The rows written by [sync_employment_metrics] are rows of [e]. *)
Lemma sync_rows_only db i x :
  (∀ j y m, 1 <= m <= 12 → j ≠ i → month_rows (set_metrics x db) j y m = month_rows db j y m) →
  metrics_of_only i x db.
Proof.
  intros Ho r Hr. destruct (decide (dm_employment_id r = i)) as [|Hne]; [by right|left].
  set (d := dm_metric_date r). pose proof (month_of_bounds d) as Hm.
  assert (Hin : r ∈ month_rows (set_metrics x db) (dm_employment_id r) (year_of d) (month_of d)).
  { unfold month_rows, month_range, metrics_in. apply elem_of_where. split; [done|].
    by apply metric_in_month. }
  rewrite Ho in Hin by done. unfold month_rows, month_range, metrics_in in Hin.
  by apply elem_of_where in Hin as [? _].
Qed.

(** *** The database between the deletion and the synchronisation *)

Section Replace.
Context (db : DB) (e : Employment) (employment : Employment).
Context (Hi : inv db) (Hp : period_inv db) (He : e ∈ employments db).
Context (Hid : em_id employment = em_id e) (Huser : em_user_id employment = em_user_id e).

Definition replaced_row : Employment := stored_employment employment.
Definition replaced_db : DB :=
  let db1 := delete_doomed (outside_of replaced_row) db in
  set_employments (update_where (λ x, em_id x =? em_id e) (λ _, replaced_row) (employments db1)) db1.

Lemma replaced_db_ok x :
  metrics_of_only (em_id e) x db →
  employment_replaced db (set_metrics x replaced_db) e replaced_row.
Proof.
  intros Hx. constructor; [done|by split|done|done| |done].
  constructor; try done. by intros [].
Qed.

Lemma replaced_db_self : set_metrics (metrics db) replaced_db = replaced_db.
Proof. done. Qed.

Lemma replaced_db_inv : inv replaced_db.
Proof.
  rewrite <- replaced_db_self. eapply (replaced_inv db); [done|]. apply replaced_db_ok. by left.
Qed.

Lemma settings_stored : same_metric_settings employment replaced_row.
Proof. by split_and!. Qed.

(** With a synchronisation. *)
Lemma replaced_synced :
  ∃ x, sync_employment_metrics replaced_db employment = Ok (set_metrics x replaced_db) ∧
    employment_replaced db (set_metrics x replaced_db) e replaced_row ∧
    (all_fresh db → all_fresh (set_metrics x replaced_db)).
Proof.
  destruct (sync_all_ok replaced_db employment) as (x & Hx & Hfresh & Ho).
  { apply (inv_plans _ replaced_db_inv). }
  assert (R : employment_replaced db (set_metrics x replaced_db) e replaced_row).
  { apply replaced_db_ok. rewrite <- Hid. apply (sync_rows_only replaced_db). intros *. apply Ho. }
  exists x. split_and!; [done|done|]. intros Hf z Hz.
  apply (replaced_employment _ _ _ _ _ Hi R) in Hz as [->|[Hz Hne]].
  - intros y m Hm. specialize (Hfresh y m Hm). unfold month_fresh in *.
    rewrite (month_metric_rows_settings _ employment) by
      (apply settings_stored || apply (inv_plans _ (replaced_inv _ _ _ _ Hi R))).
    exact Hfresh.
  - eapply replaced_other_fresh; [done|exact R|done| |done|done].
    intros i y m Hm Hn. rewrite Ho by congruence. done.
Qed.

(** Without one: neither the period nor the metric profile changed. *)
Lemma replaced_unsynced :
  em_start_date employment = em_start_date e → em_end_date employment = em_end_date e →
  same_metric_settings e employment →
  employment_replaced db replaced_db e replaced_row ∧ (all_fresh db → all_fresh replaced_db).
Proof.
  intros Hs Ht Hset.
  assert (R : employment_replaced db replaced_db e replaced_row).
  { rewrite <- replaced_db_self. apply replaced_db_ok. by left. }
  split; [done|]. intros Hf z Hz.
  apply (replaced_employment _ _ _ _ _ Hi R) in Hz as [->|[Hz Hne]].
  2:{ by eapply replaced_other_fresh. }
  assert (Hin : ∀ i d, in_period db i d → outside_fact replaced_row i d = false).
  { intros i d (x & Hx & <- & Ho). unfold outside_fact. simpl. rewrite Hid, Hs, Ht.
    destruct (em_id x =? em_id e) eqn:E; [|done]. bool_hyps.
    assert (x = e) as -> by by apply (employment_by_id db).
    by rewrite out_of_range_period. }
  assert (Hdrop : drops (λ _ _, false) db replaced_db).
  { pose proof (replaced_drops _ _ _ _ R) as [A E P N]. constructor; rewrite ?A, ?E, ?P; try lia;
      apply delete_where_ext; intros w Hw; apply Hin; by apply Hp. }
  intros y m Hm. unfold month_fresh.
  assert (Hset' : same_metric_settings e replaced_row).
  { destruct Hset as (H1 & H2 & H3). by split_and!. }
  rewrite (month_metric_rows_settings _ e); [|apply (inv_plans _ replaced_db_inv)|done].
  rewrite (drops_month_rows _ _ _ Hdrop) by (done || apply replaced_db_inv).
  destruct Hset' as (-> & _). by apply Hf.
Qed.
End Replace.
End Update.

(** *** The endpoint *)

Section UpdateEndpoint.
Context `{zone : PragueZone} `{!PragueZoneLaws zone}.

(** The employment becomes one of task shifts, which has no time profile. *)
Definition becomes_task (e row : Employment) : bool :=
  bool_decide (em_employment_type row = TASK_SHIFT_BASED) &&
  negb (bool_decide (em_employment_type e = TASK_SHIFT_BASED)).

(** The eight fields of the time profile: those requested, or else those there
    were.  But a work contract always counts its total and its night hours and
    has a workload, one unless another is given; and an employment that changes
    to another type than that loses its workload. *)
Record profile_applied (payload : EmploymentUpdateIn) (e row : Employment) : Prop := {
  pa_breaks : em_automatic_breaks_enabled row =
    if becomes_task e row then false
    else default (em_automatic_breaks_enabled e) (ui_automatic_breaks_enabled payload);
  pa_afternoon : em_afternoon_hours_enabled row =
    if becomes_task e row then false
    else default (em_afternoon_hours_enabled e) (ui_afternoon_hours_enabled payload);
  pa_weekend : em_weekend_hours_enabled row =
    if becomes_task e row then false
    else default (em_weekend_hours_enabled e) (ui_weekend_hours_enabled payload);
  pa_holiday : em_public_holiday_hours_enabled row =
    if becomes_task e row then false
    else default (em_public_holiday_hours_enabled e) (ui_public_holiday_hours_enabled payload);
  pa_total : em_total_hours_enabled row =
    if bool_decide (em_employment_type row = WORK_CONTRACT) then true
    else if becomes_task e row then false
    else default (em_total_hours_enabled e) (ui_total_hours_enabled payload);
  pa_night : em_night_hours_enabled row =
    if bool_decide (em_employment_type row = WORK_CONTRACT) then true
    else if becomes_task e row then false
    else default (em_night_hours_enabled e) (ui_night_hours_enabled payload);
  pa_start : if becomes_task e row then em_afternoon_start_minutes row = None
    else match ui_afternoon_start_time payload with
         | Some (Some s) => ∃ m, afternoon_minutes s = Ok m ∧ em_afternoon_start_minutes row = Some m
         | Some None => em_afternoon_start_minutes row = None
         | None => em_afternoon_start_minutes row =
             default (em_afternoon_start_minutes e) (ui_afternoon_start_minutes payload)
         end;
  pa_workload : em_workload_fraction row = numeric_4_3 <$>
    let asked := default (em_workload_fraction e) (ui_workload_fraction payload) in
    if bool_decide (em_employment_type row = WORK_CONTRACT) then or_one asked
    else if bool_decide (em_employment_type row = em_employment_type e) then asked else None;
}.

(** The row is as requested. *)
Record update_applied (payload : EmploymentUpdateIn) (e row : Employment) : Prop := {
  ua_title : ∀ t, ui_title payload = Some t → em_title row = strip (strip t);
  ua_same_title : ui_title payload = None → em_title row = em_title e;
  ua_type : employment_type_value (em_employment_type row) =
    default (employment_type_value (em_employment_type e)) (ui_employment_type payload);
  ua_start : ∀ v, ui_start_date payload = Some v → date_fromisoformat v = Some (em_start_date row);
  ua_same_start : ui_start_date payload = None → em_start_date row = em_start_date e;
  ua_end : ∀ v, ui_end_date payload = Some (Some v) →
    ∃ d, date_fromisoformat v = Some d ∧ em_end_date row = Some d;
  ua_no_end : ui_end_date payload = Some None → em_end_date row = None;
  ua_same_end : ui_end_date payload = None → em_end_date row = em_end_date e;
  ua_period : ∀ d, em_end_date row = Some d → em_start_date row <= d;
  ua_profile : profile_applied payload e row;
}.

(** The rows the request deletes, as it answers. *)
Definition update_deletes (db : DB) (row : Employment) : EmploymentDeleteOut :=
  doomed_counts (outside_of row) db.

(** [db1] is the database without the rows outside, whether or not there
    were any. *)
Lemma range_deletion db i s t confirm :
  inv db → side_ids db →
  any_count (collect_range_conflicts db i s t) && negb confirm = false →
  (if any_count (collect_range_conflicts db i s t) && confirm
   then let '(db1, out) := delete_out_of_range_records db i s t in (db1, Some out)
   else (db, None)) =
  (delete_doomed (outside_rows i s t) db,
   if any_count (collect_range_conflicts db i s t)
   then Some (doomed_counts (outside_rows i s t) db) else None).
Proof.
  intros Hi Hs Hg. unfold delete_out_of_range_records.
  pose proof (out_of_range_rows_outside db i s t Hi Hs) as Hsame.
  pose proof (range_counts_eq db i s t Hi Hs) as Hcounts. simpl in Hcounts.
  rewrite (doomed_counts_ext _ _ _ Hsame) in Hcounts.
  unfold any_count in *. rewrite Hcounts in *.
  destruct (existsb _ _) eqn:Hany.
  - destruct confirm; [|done]. simpl.
    by rewrite (delete_doomed_ext _ _ _ Hsame), (doomed_counts_ext _ _ _ Hsame).
  - simpl. by rewrite counts_zero.
Qed.

Lemma validated_title payload title :
  validate_update_in payload = Ok title →
  title = strip <$> ui_title payload ∧
  opt_all (opt_all workload_bounds) (ui_workload_fraction payload) = true.
Proof.
  unfold validate_update_in. intros H. ok_inv H. apply negb_false_iff in Hguard. bool_hyps.
  split; [|done]. destruct (ui_title payload) as [t|]; [|by injection H as <-].
  ok_inv H. injection H as <-. unfold validate_title in Hstep.
  simpl. destruct (strip t); [done|]. by injection Hstep as <-.
Qed.

Lemma requested_workload payload e start :
  opt_all (opt_all workload_bounds) (ui_workload_fraction payload) = true → employment_ok e →
  workload_stored (tp_workload_fraction (requested_profile payload e start)).
Proof.
  intros Hb Hok. simpl. destruct (ui_workload_fraction payload) as [[w|]|]; simpl in *.
  - intros q [= <-]. unfold workload_bounds in Hb. bool_hyps. by rewrite !Qle_bool_iff in *.
  - by intros q.
  - by apply stored_workload.
Qed.

(** The request reaches the row: first its profile. *)
Lemma profile_applied_ok payload e ty t start title s t4 :
  parse_employment_type ty = Some t → requested_afternoon_minutes payload e = Ok start →
  profile_applied payload e (stored_employment (employment_with e title t s t4
    (normalize_profile_for_type ty (requested_profile payload e start)
       (negb (String.eqb ty (employment_type_value (em_employment_type e))))))).
Proof.
  intros Ht Hs. rewrite <- (parse_type_value _ _ Ht). unfold requested_afternoon_minutes in Hs.
  constructor; unfold becomes_task; simpl; destruct t, (em_employment_type e); simpl; try done.
  all: destruct (ui_afternoon_start_time payload) as [[x|]|]; [|congruence..].
  all: apply rbind_ok in Hs as (m & Hm & [= <-]); by exists m.
Qed.

Lemma applied_ok payload e title t s3 t4 s5 p u :
  validate_update_in payload = Ok title →
  parse_employment_type (default (employment_type_value (em_employment_type e))
    (ui_employment_type payload)) = Some t →
  match ui_start_date payload with
  | Some v => parse_date (Some v) "start_date"
  | None => Ok (Some (em_start_date e))
  end = Ok s3 →
  match ui_end_date payload with
  | Some v => parse_date v "end_date"
  | None => Ok (em_end_date e)
  end = Ok t4 →
  s3 = Some s5 → validate_period s5 t4 = Ok u →
  (∀ title, profile_applied payload e (stored_employment (employment_with e title t s5 t4 p))) →
  update_applied payload e (stored_employment (employment_with e
    (match title with Some x => strip x | None => em_title e end) t s5 t4 p)).
Proof.
  intros Htitle Ht Hs3 Ht4 -> Hper Hprof. apply validated_title in Htitle as [-> _].
  unfold parse_date in *. constructor; simpl.
  - by intros x ->.
  - by intros ->.
  - by apply parse_type_value.
  - intros x Hx. rewrite Hx in Hs3. destruct (date_fromisoformat x); congruence.
  - intros Hx. rewrite Hx in Hs3. congruence.
  - intros x Hx. rewrite Hx in Ht4. destruct (date_fromisoformat x) as [d|]; [|done].
    exists d. split; congruence.
  - intros Hx. rewrite Hx in Ht4. congruence.
  - intros Hx. rewrite Hx in Ht4. congruence.
  - intros d ->. apply guard_ok in Hper. by bool_hyps.
  - apply Hprof.
Qed.

(** An unchanged type parses to itself. *)
Lemma unchanged_type e ty t :
  parse_employment_type ty = Some t →
  negb (String.eqb ty (employment_type_value (em_employment_type e))) = false →
  t = em_employment_type e.
Proof.
  intros Ht Hn%negb_false_iff. apply String.eqb_eq in Hn. rewrite Hn, type_value_parse in Ht. congruence.
Qed.

Lemma update_employment_ok db now i payload db' out
    (Hi : inv db) (Hs : side_ids db) (Hp : period_inv db) (Hok : Forall employment_ok (employments db))
    (H : update_employment db now i payload = Ok (db', out)) :
  ∃ e row, em_id e = i ∧ employment_replaced db db' e row ∧ update_applied payload e row ∧
    employment_ok row ∧ inv db' ∧ period_inv db' ∧ (all_fresh db → all_fresh db') ∧
    (ui_confirm_delete_out_of_range payload = false → delete_doomed (outside_of row) db = db) ∧
    out = (if any_count (collect_range_conflicts db i (em_start_date row) (em_end_date row))
           then inl (update_deletes db row)
           else inr (to_employment_out db' (prague_today (Zoned now)) row)).
Proof.
  unfold update_employment in H. ok_inv H. rename v1 into e, v2 into t, v3 into s3, v4 into t4, v5 into s5.
  apply or_raise_ok in Hstep0, Hstep2, Hstep5. apply get_employment_ok in Hstep0 as [_ Hid0].
  apply lock_employment_ok in Hstep1 as [He Hid]. rewrite Hid0 in Hid.
  rewrite range_deletion in H by done. cbn beta iota in H. ok_inv H.
  rename v1 into start, v2 into row, v3 into db3.
  set (ty := default _ _) in *. set (profile := normalize_profile_for_type _ _ _) in *.
  set (employment := employment_with _ _ _ _ _ _) in *.
  unfold flush_employment in Hstep1. apply guard_bind_ok in Hstep1 as [Hcheck Hstep1]. injection Hstep1 as <-.
  assert (Hprof : validate_profile (employment_type_value t) profile = None).
  { rewrite (parse_type_value _ _ Hstep2). by destruct (validate_profile _ _). }
  assert (Hrow : employment_ok (stored_employment employment)).
  { split; [by apply negb_false_iff in Hcheck|apply stored_employment_idem]. }
  pose proof (applied_ok _ _ _ _ _ _ _ profile _ Hstep Hstep2 Hstep3 Hstep4 Hstep5 Hstep6
    (λ title, profile_applied_ok _ _ _ _ _ title s5 t4 Hstep2 Hstep0)) as Happ.
  fold employment in Happ.
  assert (Hdb3 : employment_replaced db db3 e (stored_employment employment) ∧
    (all_fresh db → all_fresh db3)).
  { change (set_employments _ _) with (replaced_db db e employment) in Hstep7.
    destruct (_ || _) eqn:Hchange in Hstep7.
    - destruct (replaced_synced db e employment Hi He eq_refl eq_refl) as (x & Hx & R & Hf).
      rewrite Hx in Hstep7. by injection Hstep7 as <-.
    - injection Hstep7 as <-. bool_hyps. apply bool_decide_eq_true in H3, H2.
      apply replaced_unsynced; try done.
      split_and!; [done| |].
      + simpl. apply (unchanged_type e ty); [done|]. by apply negb_false_iff.
      + by rewrite H3. }
  destruct Hdb3 as [R Hf]. pose proof (replaced_inv _ _ _ _ Hi R) as Hi3.
  rewrite (commit_stored _ Hi3) in H. injection H as <- <-.
  exists e, (stored_employment employment). split_and!; try done.
  - exact (replaced_period _ _ _ _ Hi R Hp).
  - intros Hc. rewrite Hc, andb_true_r in Hguard.
    pose proof (range_counts_eq db (em_id e) s5 t4 Hi Hs) as Hcounts. simpl in Hcounts.
    rewrite (doomed_counts_ext _ _ _ (out_of_range_rows_outside db (em_id e) s5 t4 Hi Hs)) in Hcounts.
    apply counts_zero. unfold any_count in Hguard. rewrite Hcounts in Hguard. exact Hguard.
  - rewrite <- Hid. change (em_start_date (stored_employment employment)) with s5.
    change (em_end_date (stored_employment employment)) with t4. by destruct (any_count _).
Qed.
End UpdateEndpoint.

(** ** Creating an employment *)

Section Create.
Context `{zone : PragueZone} `{!PragueZoneLaws zone}.

Definition added_employment (row : Employment) (db : DB) : DB :=
  bump_id (set_employments (employments db ++ [row]) db).

(** No row refers to the next identity. *)
Lemma next_no_facts db e y m :
  period_inv db → em_id e = next_id db →
  no_facts db (em_id e) (mk_date y m 1) (next_month y m).
Proof.
  intros [I X P A M] He.
  assert (Hno : ∀ d, ¬ in_period db (em_id e) d).
  { intros d (x & Hx & Hid & _). specialize (I x Hx). lia. }
  constructor.
  - apply where_nil_iff. intros a Ha. apply not_true_is_false. intros [Hk%Z.eqb_eq _]%andb_true_iff.
    apply (Hno (at_date a)). rewrite <- Hk. by apply A.
  - apply where_nil_iff. intros p Hp. apply not_true_is_false. intros [Hk%Z.eqb_eq _]%andb_true_iff.
    apply (Hno (sp_date p)). rewrite <- Hk. by apply P.
  - intros d _. unfold day_events. apply where_nil_iff. intros x [Hx Hk%Z.eqb_eq]%elem_of_where.
    exfalso. apply (Hno (ev_day x)). rewrite <- Hk. by apply X.
Qed.

Lemma added_inv row db :
  inv db → period_inv db → em_id row = next_id db →
  inv (added_employment row db) ∧ period_inv (added_employment row db) ∧
  (all_fresh db → all_fresh (added_employment row db)).
Proof.
  intros Hi Hp Hid.
  assert (Hi' : inv (added_employment row db)).
  { apply (drops_inv (λ _ _, false) db); [| |done].
    - constructor; simpl; try lia; symmetry; by apply delete_where_none.
    - simpl. rewrite fmap_app. apply NoDup_app. split_and!; [apply Hi| |apply NoDup_singleton].
      intros i (x & -> & Hx)%list_elem_of_fmap Hin%list_elem_of_singleton.
      pose proof (pe_ids _ Hp x Hx). lia. }
  assert (Hkeep : ∀ i d, in_period db i d → in_period (added_employment row db) i d).
  { intros i d (x & Hx & H). exists x. split; [|done]. simpl. apply elem_of_app. by left. }
  split_and!; [done| |].
  - destruct Hp as [I X P A M]. constructor; simpl; auto.
    + intros x [Hx| ->%list_elem_of_singleton]%elem_of_app; [specialize (I x Hx); lia|lia].
    + intros r Hr. rewrite fmap_app. apply elem_of_app. left. by apply M.
  - intros Hf x [Hx| ->%list_elem_of_singleton]%elem_of_app y m Hm; [by apply Hf|].
    unfold month_fresh. change (month_metric_rows (added_employment row db) row y m)
      with (month_metric_rows db row y m).
    rewrite month_rows_no_facts by (apply Hi || by apply next_no_facts). f_equal. symmetry.
    apply where_nil_iff. intros r Hr. apply not_true_is_false.
    intros [He _]%(metric_in_month _ _ _ _ Hm).
    apply (pe_metrics _ Hp) in Hr as (z & Hz & Hin)%list_elem_of_fmap.
    pose proof (pe_ids _ Hp z Hin). lia.
Qed.

Lemma get_user_ok db i u : get_user db i = Some u → u ∈ users db ∧ pu_id u = i.
Proof.
  unfold get_user, one_or_none. intros H.
  assert (u ∈ where_ (λ x, pu_id x =? i) (users db)) as [H1 H2%Z.eqb_eq]%elem_of_where.
  { destruct (where_ _ _); [done|]. injection H as ->. left. }
  done.
Qed.

(** The row a creation adds: the profile is valid for its type. *)
Lemma validated_create body payload :
  validate_create_in body = Ok payload →
  validate_profile (cr_employment_type payload) (cr_profile payload) = None ∧
  workload_stored (tp_workload_fraction (cr_profile payload)) ∧
  cr_title payload = strip (cr_title body) ∧ cr_title payload ≠ ""%string ∧
  cr_employment_type payload = cr_employment_type body ∧
  cr_start_date payload = cr_start_date body ∧ cr_end_date payload = cr_end_date body.
Proof.
  unfold validate_create_in. intros H. ok_inv H. injection H as <-. simpl.
  apply negb_false_iff in Hguard. bool_hyps.
  assert (Hw : workload_stored (tp_workload_fraction (cr_profile body))).
  { intros q Hq. rewrite Hq in H2. simpl in H2. unfold workload_bounds in H2. bool_hyps.
    by rewrite !Qle_bool_iff in *. }
  assert (Hw' : workload_stored (tp_workload_fraction v0)).
  { destruct (cr_afternoon_start_time body); [|by injection Hstep0 as <-].
    ok_inv Hstep0. by injection Hstep0 as <-. }
  unfold validate_title in Hstep. split_and!; try done.
  - by destruct (validate_profile _ _).
  - destruct (String.eqb _ _); [by apply or_one_stored|]. by destruct (String.eqb _ _).
  - destruct (strip _) eqn:E; [done|]. by injection Hstep as <-.
  - destruct (strip _) eqn:E; [done|]. by injection Hstep as <-.
Qed.

Lemma create_employment_ok db now user_id body db' out
    (Hi : inv db) (Hp : period_inv db) (H : create_employment db now user_id body = Ok (db', out)) :
  ∃ row, db' = added_employment row db ∧ em_id row = next_id db ∧
    (∃ u, u ∈ users db ∧ pu_id u = user_id ∧ em_user_id row = user_id) ∧
    employment_ok row ∧ em_title row = strip (strip (cr_title body)) ∧
    employment_type_value (em_employment_type row) = cr_employment_type body ∧
    date_fromisoformat (cr_start_date body) = Some (em_start_date row) ∧
    (∀ d, em_end_date row = Some d → em_start_date row <= d) ∧
    inv db' ∧ period_inv db' ∧ (all_fresh db → all_fresh db') ∧
    out = to_employment_out db' (prague_today (Zoned now)) row.
Proof.
  unfold create_employment in H. ok_inv H.
  apply validated_create in Hstep as (Hprof & Hw & Ht & _ & Hty & Hs & He).
  apply or_raise_ok in Hstep0, Hstep1, Hstep4. apply get_user_ok in Hstep0 as [Hu Huid].
  unfold flush_employment in Hstep6. apply guard_bind_ok in Hstep6 as [Hcheck Hrow].
  injection Hrow as <-. apply negb_false_iff in Hcheck.
  set (row := stored_employment _) in *.
  destruct (added_inv row db Hi Hp eq_refl) as (Hi' & Hp' & Hf').
  change (bump_id (set_employments (employments db ++ [row]) db)) with (added_employment row db) in H.
  rewrite (commit_stored _ Hi') in H. injection H as <- <-.
  exists row. split_and!; try done.
  - exists v0. by split_and!.
  - split; [done|apply stored_employment_idem].
  - simpl. by rewrite Ht.
  - simpl. rewrite <- Hty. by apply parse_type_value.
  - rewrite Hs in Hstep2. simpl in *. destruct (date_fromisoformat _); [|done]. congruence.
  - simpl. intros d Hd. rewrite Hd in Hstep5. apply guard_ok in Hstep5. by bool_hyps.
Qed.
End Create.

(** ** Deleting an employment *)

Section Delete.
Context `{zone : PragueZone} `{!PragueZoneLaws zone}.

(** The employment, its rows and its memberships are gone; a group that
    would keep fewer than two members is gone too; nothing else changes. *)
Record employment_deleted (db db' : DB) (e : Employment) : Prop := {
  ed_old : e ∈ employments db;
  ed_employments :
    employments db' = delete_where (λ x, em_id x =? em_id e) (employments db);
  ed_cleared : cleared (related_rows (em_id e)) db db';
  ed_metrics : metrics db' = delete_where (λ r, dm_employment_id r =? em_id e) (metrics db);
  ed_groups : groups_wf db';
  ed_sized : groups_sized db → groups_sized db';
  ed_members : ∀ m, m ∈ members db' → gm_employment_id m ≠ em_id e;
  ed_survivors : ∀ g, g ∈ groups db' ↔ survives db (em_id e) g;
  ed_rest : ∀ g x, g ∈ groups db' →
    x ∈ group_members db' (eg_id g) ↔ x ∈ group_members db (eg_id g) ∧ x ≠ em_id e;
}.

Lemma delete_where_twice {A} (p : A → bool) (l : list A) :
  delete_where p (delete_where p l) = delete_where p l.
Proof. apply delete_where_none. by intros x [_ Hx]%elem_of_delete_where. Qed.

(** The rows of some employments are gone, whatever became of the groups. *)
Record rows_deleted (gone : Z → bool) (db db' : DB) : Prop := {
  rd_employments : employments db' = delete_where (λ x, gone (em_id x)) (employments db);
  rd_cleared : cleared (rows_of gone) db db';
  rd_metrics : metrics db' = delete_where (λ r, gone (dm_employment_id r)) (metrics db);
}.

Definition gone_fact (gone : Z → bool) (j : Z) (_ : date) : bool := gone j.

Lemma rows_deleted_drops gone db db' :
  rows_deleted gone db db' → drops (gone_fact gone) db db'.
Proof.
  intros D. pose proof (rd_cleared _ _ _ D) as C. constructor; try apply C.
Qed.

Lemma rows_deleted_inv gone db db' :
  inv db → period_inv db → rows_deleted gone db db' →
  inv db' ∧ period_inv db' ∧ (all_fresh db → all_fresh db').
Proof.
  intros Hi Hp D. pose proof (rows_deleted_drops _ _ _ D) as Hd. pose proof (rd_cleared _ _ _ D) as C.
  assert (Hem : ∀ x, x ∈ employments db' ↔ x ∈ employments db ∧ gone (em_id x) = false).
  { intros x. by rewrite (rd_employments _ _ _ D), elem_of_delete_where. }
  assert (Hi' : inv db').
  { apply (drops_inv _ _ _ Hd); [|done]. rewrite (rd_employments _ _ _ D).
    apply NoDup_fmap_where, Hi. }
  assert (Hkeep : ∀ i d, in_period db i d → gone i = false → in_period db' i d).
  { intros i d (x & Hx & <- & Ho) Hf. exists x. by rewrite Hem. }
  split_and!; [done| |].
  - destruct Hp as [I X P A M]. constructor.
    + intros x [Hx _]%Hem. specialize (I x Hx). pose proof (cl_next _ _ _ C). lia.
    + intros x [Hx Hf]%(drops_event _ _ _ Hd). by apply Hkeep; [apply X|].
    + intros p. rewrite (cl_plans _ _ _ C). intros [Hx Hf]%elem_of_delete_where.
      by apply Hkeep; [apply P|].
    + intros a. rewrite (cl_attendance _ _ _ C). intros [Hx Hf]%elem_of_delete_where.
      by apply Hkeep; [apply A|].
    + intros r. rewrite (rd_metrics _ _ _ D). intros [Hr Hne]%elem_of_delete_where.
      apply M in Hr as (x & Hx & Hin)%list_elem_of_fmap. rewrite Hx.
      apply list_elem_of_fmap_2, Hem. split; [done|congruence].
  - intros Hf x [Hx Hne]%Hem y m Hm. unfold month_fresh.
    rewrite (drops_month_rows _ _ _ Hd) by (done || (intros d _; exact Hne)).
    rewrite (Hf x Hx y m Hm). f_equal. unfold month_rows, month_range, metrics_in.
    rewrite (rd_metrics _ _ _ D). symmetry. apply where_delete_where_disjoint.
    intros r [Hr _]%(metric_in_month _ _ _ _ Hm). congruence.
Qed.

Definition related_fact (i : Z) : Z → date → bool := gone_fact (λ j, j =? i).

Lemma employment_deleted_rows db db' e :
  employment_deleted db db' e → rows_deleted (λ j, j =? em_id e) db db'.
Proof. intros D. by split; [apply (ed_employments _ _ _ D)|apply D|apply (ed_metrics _ _ _ D)]. Qed.

Lemma deleted_drops db db' e :
  employment_deleted db db' e → drops (related_fact (em_id e)) db db'.
Proof. intros D. by apply rows_deleted_drops, employment_deleted_rows. Qed.

Lemma deleted_inv db db' e :
  inv db → period_inv db → employment_deleted db db' e →
  inv db' ∧ period_inv db' ∧ (all_fresh db → all_fresh db').
Proof. intros Hi Hp D. by eapply rows_deleted_inv, employment_deleted_rows. Qed.

Lemma delete_rows_deleted db db2 e :
  e ∈ employments db → group_write (delete_doomed (related_rows (em_id e)) db) db2 →
  groups_wf db2 → (groups_sized db → groups_sized db2) →
  (∀ m, m ∈ members db2 → gm_employment_id m ≠ em_id e) →
  (∀ g, g ∈ groups db2 ↔ survives db (em_id e) g) →
  (∀ g x, g ∈ groups db2 →
    x ∈ group_members db2 (eg_id g) ↔ x ∈ group_members db (eg_id g) ∧ x ≠ em_id e) →
  employment_deleted db (delete_employment_row (em_id e) db2) e.
Proof.
  intros He (T & Hn & L & S) W Hsize Hm Hg Hx.
  assert (Hnone : delete_where (λ m, gm_employment_id m =? em_id e) (members db2) = members db2).
  { apply delete_where_none. intros m Hin. by apply Z.eqb_neq, Hm. }
  destruct T as (Tp & Ta & Te & Tm & Tem), L as (La & Lp & Lr), S as (Su & Sm & Sr). simpl in *.
  assert (Hmem : ∀ i, group_members (delete_employment_row (em_id e) db2) i = group_members db2 i).
  { intros i. unfold group_members. simpl. by rewrite Hnone. }
  constructor; simpl; rewrite ?Hnone; try done.
  - by rewrite Tem.
  - constructor; simpl; rewrite ?Te, ?Ta, ?Tp, ?Sm, ?Lr; try apply delete_where_twice; try done.
    intros []; simpl; rewrite ?La, ?Lp; apply delete_where_twice.
  - by rewrite Tm.
  - destruct W as [K N D G E2]. constructor; unfold group_members in *; simpl; rewrite ?Hnone; try done.
    intros m Hin. pose proof (E2 m Hin) as (x & Hxid & Hxin)%list_elem_of_fmap.
    rewrite Hxid. apply list_elem_of_fmap_2, elem_of_delete_where. split; [done|].
    apply Z.eqb_neq. rewrite <- Hxid. by apply Hm.
  - intros Hs g Hgin. rewrite Hmem. by apply Hsize.
  - intros g x Hgin. rewrite Hmem. by apply Hx.
Qed.

Lemma doomed_counts_nonneg c db n : n ∈ delete_out_counts (doomed_counts c db) → 0 <= n.
Proof.
  unfold delete_out_counts, doomed_counts, count_of. simpl. intros H.
  repeat (apply elem_of_cons in H as [->|H]; [lia|]). by apply elem_of_nil in H.
Qed.

Lemma no_related_rows c db :
  (0 <? sum_Z (delete_out_counts (doomed_counts c db))) = false →
  delete_doomed c db = db ∧ doomed_counts c db = nothing_deleted.
Proof.
  intros Hs%Z.ltb_ge.
  assert (Hz : ∀ n, n ∈ delete_out_counts (doomed_counts c db) → n = 0).
  { pose proof (doomed_counts_nonneg c db) as Hn. revert Hs Hn.
    generalize (delete_out_counts (doomed_counts c db)). intros l.
    induction l as [|x l IH]; simpl; intros Hs Hn n Hin; [by apply elem_of_nil in Hin|].
    assert (0 <= sum_Z l).
    { clear -Hn. induction l as [|y l IH]; simpl; [lia|].
      assert (0 <= y) by (apply Hn; right; left).
      assert (0 <= sum_Z l); [|lia]. apply IH. intros z Hz. apply Hn.
      apply elem_of_cons in Hz as [->|Hz]; [left|by do 2 right]. }
    pose proof (Hn x ltac:(left)). apply elem_of_cons in Hin as [->|Hin]; [lia|].
    apply IH; [lia| |done]. intros y Hy. apply Hn. by right. }
  split.
  - apply counts_zero, existsb_false_elem. intros n Hn. by rewrite (Hz n Hn).
  - destruct (doomed_counts c db) as [a b c1 d x y]. unfold delete_out_counts in Hz. simpl in Hz.
    unfold nothing_deleted. f_equal; apply Hz; set_solver.
Qed.

Lemma delete_employment_ok db i confirm db' out
    (Hi : inv db) (Hp : period_inv db) (Hg : groups_wf db)
    (H : delete_employment db i confirm = Ok (db', out)) :
  ∃ e, em_id e = i ∧ employment_deleted db db' e ∧ inv db' ∧ period_inv db' ∧
    (all_fresh db → all_fresh db') ∧ out = doomed_counts (related_rows i) db ∧
    (confirm = false → delete_doomed (related_rows i) db = db).
Proof.
  unfold delete_employment in H. ok_inv H. rename v0 into e.
  apply or_raise_ok, get_employment_ok in Hstep as [_ Hid0].
  apply lock_employment_ok in Hstep0 as [He Hid]. rewrite Hid0 in Hid.
  rewrite related_counts_eq in H, Hguard. cbn [delete_all_related_records snd] in H, Hguard.
  assert (Heq : (if 0 <? sum_Z (delete_out_counts (doomed_counts (related_rows (em_id e)) db))
    then delete_all_related_records db (em_id e) else (db, nothing_deleted)) =
    (delete_doomed (related_rows (em_id e)) db, doomed_counts (related_rows (em_id e)) db)).
  { destruct (0 <? _) eqn:Hpos; [done|]. by destruct (no_related_rows _ _ Hpos) as [-> ->]. }
  rewrite Heq in H. ok_inv H. injection H as <- <-. rename v0 into db2.
  set (db1 := delete_doomed _ db) in *.
  assert (Hg1 : groups_wf db1) by (destruct Hg as [K N D G E]; by constructor).
  destruct (remove_groups_ok db1 (em_id e) Hg1) as (db2' & Hrem & Hw & Hm & Hsur & Hrest).
  rewrite Hstep in Hrem. injection Hrem as <-.
  pose proof (remove_groups_write _ _ _ Hstep) as W.
  assert (D : employment_deleted db (delete_employment_row (em_id e) db2) e).
  { apply delete_rows_deleted; try done. intros Hs. by apply (remove_groups_sized db1 (em_id e)). }
  destruct (deleted_inv _ _ _ Hi Hp D) as (Hi' & Hp' & Hf').
  rewrite (commit_stored _ Hi'). rewrite <- Hid. exists e. split_and!; try done.
  intros ->. rewrite andb_true_r in Hguard. by apply no_related_rows.
Qed.
End Delete.

(** ** No request ends in a server error *)

Section Errors.
Context `{zone : PragueZone} `{!PragueZoneLaws zone}.

Lemma afternoon_minutes_ok s : afternoon_re s = true → ∃ m, afternoon_minutes s = Ok m.
Proof.
  intros H. assert (Hv : is_valid_hhmm (Some s) = true).
  { unfold afternoon_re in H. unfold is_valid_hhmm, time_re.
    destruct (list_ascii_of_string s) as [|a [|b [|c [|d [|e [|]]]]]]; try done. bool_hyps.
    rewrite H0, H1, !andb_true_r. unfold hour_pair.
    apply orb_true_iff in H as [->|H]; [done|]. bool_hyps. rewrite orb_true_iff. right.
    rewrite !andb_true_iff, Z.eqb_eq, !Z.leb_le. lia. }
  destruct (valid_hhmm_parts s Hv) as (h & m & Hp & _). unfold afternoon_minutes. rewrite Hp.
  by eexists.
Qed.

Lemma parse_date_not_crash v f w : parse_date v f ≠ Err (Crash w).
Proof. unfold parse_date. destruct v as [v|]; [|done]. by destruct (date_fromisoformat v). Qed.

Lemma or_raise_not_crash {A} (o : option A) e w : e ≠ Crash w → or_raise o e ≠ Err (Crash w).
Proof. destruct o; simpl; congruence. Qed.

Lemma validate_title_not_crash v w : validate_title v ≠ Err (Crash w).
Proof. unfold validate_title. by destruct (strip v). Qed.

Lemma lock_again db i e w :
  get_employment db i = Some e → lock_employment_for_time_mutation db (em_id e) ≠ Err (Crash w).
Proof.
  intros H. pose proof (get_employment_ok _ _ _ H) as [_ ->].
  unfold lock_employment_for_time_mutation. by rewrite H.
Qed.

Lemma update_fields_valid payload title :
  validate_update_in payload = Ok title →
  opt_all (opt_all afternoon_re) (ui_afternoon_start_time payload) = true.
Proof. unfold validate_update_in. intros H. ok_inv H. apply negb_false_iff in Hguard. by bool_hyps. Qed.

Lemma update_never_crashes db now i payload w
    (Hi : inv db) (Hs : side_ids db) (Hok : Forall employment_ok (employments db)) :
  update_employment db now i payload ≠ Err (Crash w).
Proof.
  unfold update_employment.
  apply rbind_not_err.
  { unfold validate_update_in. apply rbind_not_err; [by apply guard_not_err|]. intros _ _.
    destruct (ui_title payload); [|done]. apply rbind_not_err; [apply validate_title_not_crash|done]. }
  intros title Htitle. apply rbind_not_err; [by apply or_raise_not_crash|].
  intros e0 He0%or_raise_ok. apply rbind_not_err; [by apply (lock_again db i)|].
  intros e [He _]%lock_employment_ok.
  apply rbind_not_err; [by apply or_raise_not_crash|]. intros t Ht%or_raise_ok.
  apply rbind_not_err.
  { destruct (ui_start_date payload); [apply parse_date_not_crash|done]. }
  intros s3 _. apply rbind_not_err.
  { destruct (ui_end_date payload); [apply parse_date_not_crash|done]. }
  intros t4 _. apply rbind_not_err; [by apply or_raise_not_crash|]. intros s5 _.
  apply rbind_not_err; [by apply guard_not_err|]. intros _ _.
  apply rbind_not_err; [by apply guard_not_err|]. intros u Hg%guard_ok.
  rewrite range_deletion by done. cbn beta iota.
  apply rbind_not_err.
  { unfold requested_afternoon_minutes. pose proof (update_fields_valid _ _ Htitle) as Hre.
    destruct (ui_afternoon_start_time payload) as [[x|]|]; [|done..].
    destruct (afternoon_minutes_ok x Hre) as [m ->]. done. }
  intros start _. apply rbind_not_err; [by apply guard_not_err|]. intros u' Hprof%guard_ok.
  set (profile := normalize_profile_for_type _ _ _) in *.
  set (employment := employment_with _ _ _ _ _ _).
  assert (Hcheck : employment_row_ok (stored_employment employment) = true).
  { apply valid_profile_row.
    - rewrite (parse_type_value _ _ Ht). by destruct (validate_profile _ _).
    - apply normalize_stored, requested_workload.
      + by apply (validated_title payload title).
      + rewrite Forall_forall in Hok. by apply Hok. }
  unfold flush_employment. rewrite Hcheck. cbn [guard negb rbind].
  change (set_employments _ _) with (replaced_db db e employment).
  destruct (_ || _); [|done].
  destruct (replaced_synced db e employment Hi He eq_refl eq_refl) as (x & -> & _). done.
Qed.

Lemma create_never_crashes db now user_id body w :
  create_employment db now user_id body ≠ Err (Crash w).
Proof.
  unfold create_employment. apply rbind_not_err.
  { unfold validate_create_in.
    destruct (negb _) eqn:Hb; [by cbn|]. cbn [guard rbind]. apply negb_false_iff in Hb. bool_hyps.
    apply rbind_not_err; [apply validate_title_not_crash|]. intros title _. apply rbind_not_err.
    { destruct (cr_afternoon_start_time body) as [x|]; [|done].
      destruct (afternoon_minutes_ok x) as [m ->]; [done|]. done. }
    intros p _. by apply rbind_not_err; [apply guard_not_err|]. }
  intros payload Hpay. apply validated_create in Hpay as (Hprof & Hw & _).
  apply rbind_not_err; [by apply or_raise_not_crash|]. intros u _.
  apply rbind_not_err; [by apply or_raise_not_crash|]. intros t Ht%or_raise_ok.
  apply rbind_not_err; [apply parse_date_not_crash|]. intros s _.
  apply rbind_not_err; [apply parse_date_not_crash|]. intros d _.
  apply rbind_not_err; [by apply or_raise_not_crash|]. intros s' _.
  apply rbind_not_err; [by apply guard_not_err|]. intros _ _.
  unfold flush_employment. rewrite valid_profile_row; [done| |done].
  by rewrite (parse_type_value _ _ Ht).
Qed.

Lemma delete_never_crashes db i confirm w (Hg : groups_wf db) :
  delete_employment db i confirm ≠ Err (Crash w).
Proof.
  unfold delete_employment. apply rbind_not_err; [by apply or_raise_not_crash|].
  intros e0 He0%or_raise_ok. apply rbind_not_err; [by apply (lock_again db i)|].
  intros e _. apply rbind_not_err; [by apply guard_not_err|]. intros _ _.
  set (cond := 0 <? _).
  assert (Hwf : groups_wf (if cond then delete_all_related_records db (em_id e)
    else (db, nothing_deleted)).1).
  { destruct cond; [|done]. destruct Hg as [K N D G E]. by constructor. }
  destruct (if cond then _ else _) as [db1 out]. simpl in Hwf.
  destruct (remove_groups_ok db1 (em_id e) Hwf) as (db2 & -> & _). done.
Qed.
End Errors.

(** ** The properties of the endpoints *)

Section Properties.
Context `{zone : PragueZone} `{!PragueZoneLaws zone}.

(** C36: [PUT /admin/employments/{id}] refines one step of an abstract
    machine.  A success changes the row of that employment as requested
    (title, type, period and the eight fields of the time profile, with what
    its type prescribes; the row satisfies every CHECK constraint) and
    deletes exactly its attendance, events, plans, locks, selections and
    reminders outside the new period, in the numbers it answers; without a
    confirmation it deletes nothing.  Every other row is as before, every
    remaining row lies in the period of its employment, and the metrics stay
    those a recomputation gives. *)
Theorem update_employment_safe db now i payload db' out
    (Hi : inv db) (Hs : side_ids db) (Hp : period_inv db) (Hok : Forall employment_ok (employments db))
    (H : update_employment db now i payload = Ok (db', out)) :
  ∃ e row, em_id e = i ∧ employment_replaced db db' e row ∧ update_applied payload e row ∧
    employment_ok row ∧ inv db' ∧ period_inv db' ∧ (all_fresh db → all_fresh db') ∧
    (ui_confirm_delete_out_of_range payload = false → delete_doomed (outside_of row) db = db) ∧
    out = (if any_count (collect_range_conflicts db i (em_start_date row) (em_end_date row))
           then inl (update_deletes db row)
           else inr (to_employment_out db' (prague_today (Zoned now)) row)).
Proof. exact (update_employment_ok db now i payload db' out Hi Hs Hp Hok H). Qed.

(** the refusal of a period change tells the truth: its numbers are those
    of the rows a confirmation deletes, these rows are exactly the rows of the
    employment outside the period although the code collects them by closed
    pairs and primary keys, and every day of such a row lies in the shown
    range. *)
Theorem range_conflict_truthful db i s t (Hi : inv db) (Hs : side_ids db) :
  rs_counts (collect_range_conflicts db i s t) =
    delete_out_counts (delete_out_of_range_records db i s t).2 ∧
  (delete_out_of_range_records db i s t).1 = delete_doomed (outside_rows i s t) db ∧
  ∀ d,
    (∃ a, a ∈ attendance db ∧ dd_attendance (outside_rows i s t) a = true ∧ at_date a = d) ∨
    (∃ x, x ∈ events db ∧ dd_event (outside_rows i s t) x = true ∧ ev_day x = d) ∨
    (∃ p, p ∈ plans db ∧ dd_plan (outside_rows i s t) p = true ∧ sp_date p = d) ∨
    (∃ r, r ∈ reminders db ∧ dd_reminder (outside_rows i s t) r = true ∧ rm_attendance_date r = d) →
    covers (rs_range (collect_range_conflicts db i s t)) d.
Proof.
  split_and!; [by apply range_counts_eq| |].
  - by apply delete_doomed_ext, out_of_range_rows_outside.
  - intros d. by apply range_covers_days.
Qed.

(** [DELETE /admin/employments/{id}] removes the employment, all its rows
    and its group memberships, and the groups that would keep fewer than two
    members; with data it needs the confirmation, and it answers the numbers
    of deleted rows.  Nothing of another employment changes, and the
    invariants and the metrics are kept. *)
Theorem delete_employment_safe db i confirm db' out
    (Hi : inv db) (Hp : period_inv db) (Hg : groups_wf db)
    (H : delete_employment db i confirm = Ok (db', out)) :
  ∃ e, em_id e = i ∧ employment_deleted db db' e ∧ inv db' ∧ period_inv db' ∧
    (all_fresh db → all_fresh db') ∧ out = doomed_counts (related_rows i) db ∧
    (confirm = false → delete_doomed (related_rows i) db = db).
Proof. exact (delete_employment_ok db i confirm db' out Hi Hp Hg H). Qed.

(** [POST /admin/users/{id}/employments] adds one employment of an
    existing user under an identity no row refers to, with the stripped title,
    the requested type and period and a profile every CHECK constraint
    accepts; no other row changes and the metrics stay fresh. *)
Theorem create_employment_safe db now user_id body db' out
    (Hi : inv db) (Hp : period_inv db) (H : create_employment db now user_id body = Ok (db', out)) :
  ∃ row, db' = added_employment row db ∧ em_id row = next_id db ∧
    (∃ u, u ∈ users db ∧ pu_id u = user_id ∧ em_user_id row = user_id) ∧
    employment_ok row ∧ em_title row = strip (strip (cr_title body)) ∧
    employment_type_value (em_employment_type row) = cr_employment_type body ∧
    date_fromisoformat (cr_start_date body) = Some (em_start_date row) ∧
    (∀ d, em_end_date row = Some d → em_start_date row <= d) ∧
    inv db' ∧ period_inv db' ∧ (all_fresh db → all_fresh db') ∧
    out = to_employment_out db' (prague_today (Zoned now)) row.
Proof. exact (create_employment_ok db now user_id body db' out Hi Hp H). Qed.

(** no request to the administration of employments, whatever its body,
    ends in an unhandled exception: parsing never raises, the CHECK
    constraints of the table are never violated at the flush, the rebuilt
    metrics and the removal from groups always succeed. *)
Theorem employment_requests_never_crash db now i body payload confirm w
    (Hi : inv db) (Hs : side_ids db) (Hok : Forall employment_ok (employments db))
    (Hg : groups_wf db) :
  create_employment db now i body ≠ Err (Crash w) ∧
  update_employment db now i payload ≠ Err (Crash w) ∧
  delete_employment db i confirm ≠ Err (Crash w).
Proof.
  split_and!; [apply create_never_crashes|by apply update_never_crashes|by apply delete_never_crashes].
Qed.
End Properties.
