(* ===== verification/RateLimit.v ===== *)
(** * app/security/integration_rate_limit.py: the sliding-window limiter

    [_buckets] maps a key to the times of the requests it let through, oldest
    first; every worker process has its own.  [time.monotonic()] is an integer
    number of ticks; [second] ticks make a second. *)

From stdpp Require Import gmap.
From S2P Require Import Prelude.
#[local] Open Scope Z_scope.

Section RateLimit.
Context (second : Z).

Definition WINDOW_SECONDS : Z := 60.
Definition window_ticks : Z := WINDOW_SECONDS * second.

(** The deque of one key. *)
Fixpoint cleanup (bucket : list Z) (now : Z) : list Z :=
  match bucket with
  | t :: rest => if window_ticks <=? now - t then cleanup rest now else bucket
  | [] => []
  end.

Definition rate_limited : api_error := ApiError 429 "rate_limited".

(** What the limiter reads of a request: the key that the authentication left
    in [request.state], the header x-real-ip and [request.client.host]. *)
Record RateRequest := mk_rate_request {
  rr_rate_key : option string;
  rr_x_real_ip : option string;
  rr_client_host : option string;
}.

Definition source_of (rq : RateRequest) : string :=
  match rr_x_real_ip rq with
  | Some (String _ _ as x) => x
  | _ => default "unknown"%string (rr_client_host rq)
  end.
Definition client_key (rq : RateRequest) : string :=
  match rr_rate_key rq with
  | Some (String _ _ as k) => k
  | _ => ("ip:" +:+ source_of rq)%string
  end.
Definition integration_bucket_key (namespace : string) (rq : RateRequest) : string :=
  (namespace +:+ ":" +:+ client_key rq)%string.

(** [enforce_rate_limit]: the buckets after the call and whether the request
    may proceed. *)
Definition enforce_rate_limit (buckets : gmap string (list Z)) (rq : RateRequest) (namespace : string)
    (limit_per_minute now : Z) : gmap string (list Z) * result unit :=
  if limit_per_minute <=? 0 then (buckets, Ok tt)
  else
    let bucket_key := integration_bucket_key namespace rq in
    let bucket := cleanup (default [] (buckets !! bucket_key)) now in
    if limit_per_minute <=? Z.of_nat (length bucket)
    then (<[bucket_key := bucket]> buckets, Err rate_limited)
    else (<[bucket_key := bucket ++ [now]]> buckets, Ok tt).

(** [_enforce_configured_limit]. *)
Definition enforce_configured_limit (enabled : bool) (buckets : gmap string (list Z))
    (rq : RateRequest) (namespace : string) (limit_per_minute now : Z)
    : gmap string (list Z) * result unit :=
  if enabled then enforce_rate_limit buckets rq namespace limit_per_minute now
  else (buckets, Ok tt).

Definition reset_integration_rate_limits : gmap string (list Z) := ∅.

(** ** A history of requests

    Requests to one process in the order of the clock, each with its namespace
    and its time; and the accepted times of each bucket, oldest first. *)
Definition timed_request : Type := string * RateRequest * Z.
Definition key_of (r : timed_request) : string := integration_bucket_key r.1.1 r.1.2.

Record history := mk_history {
  h_buckets : gmap string (list Z);
  h_accepted : string → list Z;
}.

Definition request (limit : string → Z) (h : history) (r : timed_request) : history :=
  let '(b, res) := enforce_rate_limit (h_buckets h) r.1.2 r.1.1 (limit (key_of r)) r.2 in
  mk_history b (λ k, h_accepted h k ++
    match res with Ok _ => if decide (k = key_of r) then [r.2] else [] | Err _ => [] end).

Definition run (limit : string → Z) (rs : list timed_request) : history :=
  fold_left (request limit) rs (mk_history ∅ (λ _, [])).

(** Accepted requests of a key in the window that ends at [t]. *)
Definition in_window (t : Z) (l : list Z) : list Z :=
  where_ (λ x, (t - window_ticks <? x) && (x <=? t)) l.

(** ** Lemmas *)

Lemma cleanup_where b now :
  StronglySorted Z.le b → cleanup b now = where_ (λ x, now - window_ticks <? x) b.
Proof.
  induction 1 as [|t b Hs IH Hle]; [done|]. unfold where_ in *. simpl.
  destruct (window_ticks <=? now - t) eqn:E; bool_hyps.
  - rewrite (proj2 (Z.ltb_ge _ _)) by lia. exact IH.
  - rewrite (proj2 (Z.ltb_lt _ _)) by lia. f_equal. symmetry. apply (where_all (λ x, _ <? x)).
    intros x Hx. rewrite Forall_forall in Hle. specialize (Hle x Hx). apply Z.ltb_lt. lia.
Qed.

Lemma in_window_app t l1 l2 : in_window t (l1 ++ l2) = in_window t l1 ++ in_window t l2.
Proof. apply where_app. Qed.

(** What is known of one key after a history that ended at [now]. *)
Record bucket_ok (limit now : Z) (bucket accepted : list Z) : Prop := {
  bk_sorted : StronglySorted Z.le accepted;
  bk_past : Forall (λ x, x <= now) accepted;
  bk_bucket : ∃ old, accepted = old ++ bucket ∧ Forall (λ x, x <= now - window_ticks) old;
  bk_bound : ∀ t, Z.of_nat (length (in_window t accepted)) <= limit;
}.

Lemma in_window_old t old : Forall (λ x, x <= t - window_ticks) old → in_window t old = [].
Proof.
  intros H. apply where_nil_iff. intros x Hx. rewrite Forall_forall in H. specialize (H x Hx).
  apply andb_false_iff. left. apply Z.ltb_ge. lia.
Qed.

Lemma in_window_now now b :
  Forall (λ x, x <= now) b → in_window now b = where_ (λ x, now - window_ticks <? x) b.
Proof.
  intros H. apply where_ext. intros x Hx. rewrite Forall_forall in H. specialize (H x Hx).
  rewrite (proj2 (Z.leb_le x now)) by lia. apply andb_true_r.
Qed.

Lemma bucket_ok_empty limit now : 0 < limit → bucket_ok limit now [] [].
Proof.
  intros Hl. constructor; [constructor|constructor|by exists []|]. intros t. simpl. lia.
Qed.

Lemma bucket_ok_cleanup limit now now' b acc :
  now <= now' → bucket_ok limit now b acc →
  bucket_ok limit now' (cleanup b now') acc ∧ cleanup b now' = in_window now' acc.
Proof.
  intros Hn [S P (old & -> & Ho) B].
  assert (Hs : StronglySorted Z.le b) by (clear -S; induction old; [done|]; by inversion S; auto).
  assert (Hp : Forall (λ x, x <= now') (old ++ b)) by (eapply Forall_impl; [exact P|simpl; lia]).
  assert (Ho' : Forall (λ x, x <= now' - window_ticks) old)
    by (eapply Forall_impl; [exact Ho|simpl; lia]).
  assert (Hc : cleanup b now' = in_window now' (old ++ b)).
  { rewrite in_window_app, in_window_old by done. rewrite in_window_now; [by apply cleanup_where|].
    by apply Forall_app in Hp as [_ ?]. }
  split; [|done]. constructor; [done|done| |done].
  clear -Hs Ho'. rewrite cleanup_where by done.
  revert old Ho'. induction Hs as [|t b Hs IH Hle]; intros old Ho; [by exists old|].
  unfold where_ in *. simpl. destruct (now' - window_ticks <? t) eqn:E; bool_hyps.
  - exists old. split; [|done]. do 2 f_equal. symmetry. apply (where_all (λ x, _ <? x)).
    intros x Hx. rewrite Forall_forall in Hle. specialize (Hle x Hx). apply Z.ltb_lt. lia.
  - destruct (IH (old ++ [t])) as (old' & He & Ho').
    + apply Forall_app. split; [done|]. constructor; [lia|constructor].
    + exists old'. split; [|done]. by rewrite <- He, <- app_assoc.
Qed.

Lemma bucket_ok_accept limit now b acc :
  0 < second → bucket_ok limit now b acc → b = in_window now acc → Z.of_nat (length b) < limit →
  bucket_ok limit now (b ++ [now]) (acc ++ [now]).
Proof.
  intros Hsec [S P (old & He & Ho) B] Hb Hlen. rewrite Forall_forall in P. constructor.
  - apply StronglySorted_app; [|done|repeat constructor].
    intros x y Hx ->%list_elem_of_singleton. by apply P.
  - rewrite Forall_forall. intros x [Hx| ->%list_elem_of_singleton]%elem_of_app; [by apply P|lia].
  - exists old. split; [by rewrite He, app_assoc|done].
  - intros t. rewrite in_window_app, length_app. specialize (B t).
    unfold in_window at 2, where_. simpl.
    destruct ((t - window_ticks <? now) && (now <=? t)) eqn:E; simpl; [|lia]. bool_hyps.
    assert (Hsub : (length (in_window t acc) <= length b)%nat); [|lia].
    rewrite Hb. unfold in_window, where_.
    assert (Hw : ∀ x, x ∈ acc → (t - window_ticks <? x) && (x <=? t) = true →
      (now - window_ticks <? x) && (x <=? now) = true).
    { intros x Hx Hin. bool_hyps. specialize (P x Hx).
      rewrite (proj2 (Z.ltb_lt _ _)) by lia. by apply Z.leb_le. }
    clear -Hw. induction acc as [|x acc IH]; simpl; [done|].
    pose proof (Hw x) as Hx. destruct (_ && (x <=? t)) eqn:E.
    + rewrite Hx by (try done; left). simpl. apply le_n_S, IH. intros y Hy. apply Hw. by right.
    + destruct (_ && (x <=? now)); simpl; [apply le_S|]; apply IH; intros y Hy; apply Hw; by right.
Qed.

(** One request keeps every limited key in order. *)
Lemma request_ok limit h r now k :
  0 < second → 0 < limit k → now <= r.2 →
  bucket_ok (limit k) now (default [] (h_buckets h !! k)) (h_accepted h k) →
  bucket_ok (limit k) r.2 (default [] (h_buckets (request limit h r) !! k))
    (h_accepted (request limit h r) k) ∧
  (k = key_of r →
   h_accepted (request limit h r) k = h_accepted h k ++
     if Z.of_nat (length (in_window r.2 (h_accepted h k))) <? limit k then [r.2] else []).
Proof.
  intros Hsec Hl Hn Hk. unfold request, enforce_rate_limit. fold (key_of r).
  generalize (key_of r). intros key. destruct r as [r0 t]. simpl in *.
  pose proof (bucket_ok_cleanup _ _ _ _ _ Hn Hk) as [Hc Heq].
  destruct (decide (k = key)) as [->|Hne].
  - rewrite (proj2 (Z.leb_gt _ _)) by lia.
    destruct (limit key <=? _) eqn:E; simpl; rewrite lookup_insert_eq, ?decide_True by done; simpl;
      rewrite <- Heq; bool_hyps.
    + rewrite app_nil_r, (proj2 (Z.ltb_ge _ _)) by lia. by rewrite app_nil_r.
    + rewrite (proj2 (Z.ltb_lt _ _)) by lia. split; [|done].
      by apply bucket_ok_accept.
  - assert (bucket_ok (limit k) t (default [] (h_buckets h !! k)) (h_accepted h k)) as Hk'.
    { destruct Hk as [S P (old & He & Ho) B]. constructor; [done| | |done].
      - eapply Forall_impl; [exact P|simpl; lia].
      - exists old. split; [done|]. eapply Forall_impl; [exact Ho|simpl; lia]. }
    split; [|done].
    destruct (limit key <=? 0); [simpl; by rewrite decide_False, app_nil_r|].
    destruct (limit key <=? _); simpl; rewrite lookup_insert_ne by done; [by rewrite app_nil_r|].
    by rewrite decide_False, app_nil_r.
Qed.

Lemma fold_request_ok limit rs h now k :
  0 < second → 0 < limit k → StronglySorted Z.le (now :: (snd <$> rs)) →
  bucket_ok (limit k) now (default [] (h_buckets h !! k)) (h_accepted h k) →
  ∃ now', now' ∈ now :: (snd <$> rs) ∧
    bucket_ok (limit k) now' (default [] (h_buckets (fold_left (request limit) rs h) !! k))
      (h_accepted (fold_left (request limit) rs h) k).
Proof.
  intros Hsec Hl. revert h now. induction rs as [|r rs IH]; intros h now Hs Hk; simpl.
  - exists now. split; [left|done].
  - inversion_clear Hs as [|? ? Hs' Hle].
    assert (Hr : now <= r.2) by (rewrite Forall_forall in Hle; apply Hle; left).
    destruct (IH (request limit h r) r.2 Hs') as (now' & Hin & Hok); [by eapply request_ok|].
    exists now'. split; [by right|done].
Qed.

Lemma StronglySorted_snoc_inv (l : list Z) t :
  StronglySorted Z.le (l ++ [t]) → StronglySorted Z.le l ∧ ∀ x, x ∈ l → x <= t.
Proof.
  induction l as [|y l IH]; simpl; intros Hs; [split; [constructor|]; by intros x ?%elem_of_nil|].
  inversion_clear Hs as [|? ? H1 H2]. apply Forall_app in H2 as [H2 H3]. inversion_clear H3.
  destruct (IH H1) as [IH1 IH2]. split; [by constructor|].
  intros x [->|Hx]%elem_of_cons; auto.
Qed.

(** ** Property *)

(** No limit: a limit of zero or less lets everything through. *)
Lemma unlimited limit h r :
  limit (key_of r) <= 0 →
  h_accepted (request limit h r) (key_of r) = h_accepted h (key_of r) ++ [r.2].
Proof.
  intros Hl. unfold request, enforce_rate_limit. rewrite (proj2 (Z.leb_le _ _)) by done. simpl.
  by rewrite decide_True.
Qed.

Lemma bucket_run_ok limit rs k :
  0 < second → 0 < limit k → StronglySorted Z.le (snd <$> rs) →
  ∃ now, (rs = [] ∨ now ∈ snd <$> rs) ∧ bucket_ok (limit k) now
    (default [] (h_buckets (run limit rs) !! k)) (h_accepted (run limit rs) k).
Proof.
  intros Hsec Hl Hs. destruct rs as [|r rs]; [exists 0; split; [by left|by apply bucket_ok_empty]|].
  destruct (fold_request_ok limit (r :: rs) (mk_history ∅ (λ _, [])) r.2 k) as (now & Hin & Hok);
    [done|done| |by apply bucket_ok_empty|].
  - rewrite fmap_cons in *. inversion_clear Hs as [|? ? H1 H2]. by repeat constructor.
  - exists now. split; [right|done]. rewrite fmap_cons in *.
    apply elem_of_cons in Hin as [->|Hin]; [left|done].
Qed.

(** C39: in one process, whatever the order of requests of different keys, a
    key with a positive limit never has more than its limit of requests
    accepted in any window of 60 seconds, and a request is refused exactly
    when that many were accepted in the 60 seconds before it; a limit of zero
    or less lets every request through.  The key is the namespace of the
    endpoint with the client the authentication found, or else the address. *)
Theorem sliding_window_limit limit rs r
    (Hsec : 0 < second) (Hs : StronglySorted Z.le (snd <$> rs ++ [r])) :
  (∀ k u, 0 < limit k → Z.of_nat (length (in_window u (h_accepted (run limit rs) k))) <= limit k) ∧
  h_accepted (run limit (rs ++ [r])) (key_of r) = h_accepted (run limit rs) (key_of r) ++
    if (limit (key_of r) <=? 0) ||
       (Z.of_nat (length (in_window r.2 (h_accepted (run limit rs) (key_of r)))) <? limit (key_of r))
    then [r.2] else [].
Proof.
  rewrite fmap_app in Hs. apply StronglySorted_snoc_inv in Hs as [Hs Ht]. simpl in Ht. split.
  - intros k u Hl. destruct (bucket_run_ok limit rs k Hsec Hl Hs) as (now & _ & Hk). apply Hk.
  - unfold run. rewrite fold_left_app. simpl fold_left.
    destruct (Z.leb_spec (limit (key_of r)) 0) as [Hl|Hl]; [by apply unlimited|].
    destruct (bucket_run_ok limit rs _ Hsec Hl Hs) as (now & [->|Hn] & Hk).
    + by eapply (request_ok limit (run limit []) r r.2); [..|apply bucket_ok_empty|].
    + by eapply (request_ok limit (run limit rs) r); [..|by apply Ht| |].
Qed.

(** Several workers share nothing: together they let through as many times the
    limit as there are workers. *)
Theorem workers_limit limit (served : list (list timed_request)) k u
    (Hsec : 0 < second) (Hl : 0 < limit k)
    (Hs : Forall (λ rs, StronglySorted Z.le (snd <$> rs)) served) :
  sum_Z ((λ rs, Z.of_nat (length (in_window u (h_accepted (run limit rs) k)))) <$> served) <=
    Z.of_nat (length served) * limit k.
Proof.
  induction Hs as [|rs l Hr Hs IH]; [simpl; lia|]. rewrite fmap_cons. simpl.
  destruct (bucket_run_ok limit rs k Hsec Hl Hr) as (now & _ & Hk). pose proof (bk_bound _ _ _ _ Hk u). lia.
Qed.
End RateLimit.
