(* ===== verification/Lockout.v ===== *)
(** * app/security/lockout.py: failed logins, lock-out and unlock tokens

    Instants are UTC microseconds.  [now] is an argument of every operation;
    the code reads the clock at most a few times within one request.  The
    functions that write a row take and return the table. *)

From S2P Require Import Prelude Calendar PragueTime.
#[local] Open Scope Z_scope.

Definition us_per_hour : Z := 60 * us_per_minute.
Definition LOCKOUT_THRESHOLD : Z := 3.
Definition LOCKOUT_WINDOW : Z := us_per_hour.
Definition PORTAL_LOCKOUT_DURATION : Z := us_per_hour.
Definition ADMIN_LOCKOUT_THRESHOLD : Z := 5.
Definition ADMIN_LOCKOUT_WINDOW : Z := 15 * us_per_minute.
Definition ADMIN_LOCKOUT_DURATION : Z := 15 * us_per_minute.
Definition UNLOCK_TOKEN_TTL : Z := 24 * us_per_hour.

Record AuthLockoutState := mk_lockout {
  au_id : Z;
  au_actor_type : string;
  au_principal : string;
  au_failed_attempts : Z;
  au_first_failed_at : option Z;
  au_last_failed_at : option Z;
  au_locked_until : option Z;
  au_last_forgot_sent_at : option Z;
}.

Record AuthUnlockToken := mk_token {
  ut_id : Z;
  ut_actor_type : string;
  ut_principal : string;
  ut_purpose : string;
  ut_token_hash : string;
  ut_expires_at : Z;
  ut_used_at : option Z;
}.

(** A row as [AuthLockoutState(actor_type=..., principal=...)] creates it. *)
Definition fresh_state (id : Z) (actor_type principal : string) : AuthLockoutState :=
  mk_lockout id actor_type principal 0 None None None None.

Definition is_locked (state : option AuthLockoutState) (now : Z) : bool :=
  match state with
  | None => false
  | Some s => match au_locked_until s with None => false | Some t => now <? t end
  end.

Definition reset_lock_state (s : AuthLockoutState) : AuthLockoutState :=
  mk_lockout (au_id s) (au_actor_type s) (au_principal s) 0 None None None
    (au_last_forgot_sent_at s).

Definition window_reset (s : AuthLockoutState) (window now : Z) : bool :=
  match au_first_failed_at s with None => true | Some f => window <? now - f end.

Definition record_failed_login (s : AuthLockoutState) (now lock_duration threshold window : Z)
    : AuthLockoutState * bool :=
  if is_locked (Some s) now then (s, false)
  else
    let reset := window_reset s window now in
    let failed_attempts := (if reset then 0 else au_failed_attempts s) + 1 in
    let s' := mk_lockout (au_id s) (au_actor_type s) (au_principal s) failed_attempts
      (if reset then Some now else au_first_failed_at s) (Some now)
      (if threshold <=? failed_attempts then Some (now + lock_duration) else au_locked_until s)
      (au_last_forgot_sent_at s) in
    (s', is_locked (Some s') now).

(** *** Duplicate rows *)

Definition min_option (l : list Z) : option Z :=
  match l with [] => None | x :: l' => Some (fold_left Z.min l' x) end.
Definition max_option (l : list Z) : option Z :=
  match l with [] => None | x :: l' => Some (fold_left Z.max l' x) end.

Definition merge_states (s : AuthLockoutState) (rest : list AuthLockoutState) : AuthLockoutState :=
  let states := s :: rest in
  mk_lockout (au_id s) (au_actor_type s) (au_principal s)
    (fold_left Z.max (au_failed_attempts <$> rest) (au_failed_attempts s))
    (min_option (omap au_first_failed_at states))
    (max_option (omap au_last_failed_at states))
    (max_option (omap au_locked_until states))
    (max_option (omap au_last_forgot_sent_at states)).

Record AuthDB := mk_auth_db {
  lockouts : list AuthLockoutState;
  unlock_tokens : list AuthUnlockToken;
  auth_next_id : Z;
}.

Definition set_lockouts (l : list AuthLockoutState) (a : AuthDB) : AuthDB :=
  mk_auth_db l (unlock_tokens a) (auth_next_id a).
Definition set_tokens (l : list AuthUnlockToken) (a : AuthDB) : AuthDB :=
  mk_auth_db (lockouts a) l (auth_next_id a).

Definition of_principal (actor_type principal : string) (s : AuthLockoutState) : bool :=
  String.eqb (au_actor_type s) actor_type && String.eqb (au_principal s) principal.

Definition by_state_id (a b : AuthLockoutState) : bool := au_id a <=? au_id b.

Definition get_lockout_state (a : AuthDB) (actor_type principal : string) (create : bool)
    : AuthDB * option AuthLockoutState :=
  match sorted_by by_state_id (where_ (of_principal actor_type principal) (lockouts a)) with
  | [] =>
      if create then
        let state := fresh_state (auth_next_id a) actor_type principal in
        (mk_auth_db (lockouts a ++ [state]) (unlock_tokens a) (auth_next_id a + 1), Some state)
      else (a, None)
  | [state] => (a, Some state)
  | state :: duplicates =>
      let merged := merge_states state duplicates in
      (set_lockouts (update_where (λ s, au_id s =? au_id state) (λ _, merged)
         (delete_where (λ s, mem (au_id s) (au_id <$> duplicates)) (lockouts a))) a, Some merged)
  end.

(** Writing back a changed row. *)
Definition save_state (s : AuthLockoutState) (a : AuthDB) : AuthDB :=
  set_lockouts (update_where (λ x, au_id x =? au_id s) (λ _, s) (lockouts a)) a.

Definition clear_user_lockout (a : AuthDB) (actor_type principal : string) : AuthDB :=
  set_lockouts (update_where (of_principal actor_type principal) reset_lock_state (lockouts a)) a.

(** *** Unlock tokens: [sha256] is the hexadecimal digest of a token. *)

Section Tokens.
Context (sha256 : string → string).

Definition issue_unlock_token (a : AuthDB) (token actor_type principal purpose : string) (now : Z)
    : AuthDB :=
  mk_auth_db (lockouts a)
    (unlock_tokens a ++ [mk_token (auth_next_id a) actor_type principal purpose (sha256 token)
       (now + UNLOCK_TOKEN_TTL) None]) (auth_next_id a + 1).

Definition token_matches (token actor_type purpose : string) (now : Z) (r : AuthUnlockToken)
    : bool :=
  String.eqb (ut_token_hash r) (sha256 token) && String.eqb (ut_actor_type r) actor_type &&
  String.eqb (ut_purpose r) purpose &&
  match ut_used_at r with None => true | Some _ => false end && (now <? ut_expires_at r).

Definition use_token (now : Z) (r : AuthUnlockToken) : AuthUnlockToken :=
  mk_token (ut_id r) (ut_actor_type r) (ut_principal r) (ut_purpose r) (ut_token_hash r)
    (ut_expires_at r) (Some now).

Definition consume_unlock_token (a : AuthDB) (token actor_type purpose : string) (now : Z)
    : AuthDB * option AuthUnlockToken :=
  match where_ (token_matches token actor_type purpose now) (unlock_tokens a) with
  | [] => (a, None)
  | r :: _ =>
      (set_tokens (update_where (λ x, ut_id x =? ut_id r) (use_token now) (unlock_tokens a)) a,
       Some (use_token now r))
  end.

Definition revoke_unlock_tokens (a : AuthDB) (actor_type principal : string)
    (purpose : option string) : AuthDB :=
  set_tokens (delete_where (λ r,
    String.eqb (ut_actor_type r) actor_type && String.eqb (ut_principal r) principal &&
    match purpose with Some p => String.eqb (ut_purpose r) p | None => true end)
    (unlock_tokens a)) a.
End Tokens.

(** ** The lock-out as a rate limit

    [checked] lists the attempts of a sequence of failed logins that were not
    turned away: those found unlocked, whose failure is recorded. *)
#[local] Arguments is_locked : simpl never.

Section RateBound.
Context (lock_duration threshold window : Z).

Definition after_failure (s : AuthLockoutState) (now : Z) : AuthLockoutState :=
  (record_failed_login s now lock_duration threshold window).1.

Fixpoint checked (s : AuthLockoutState) (attempts : list Z) : list Z :=
  match attempts with
  | [] => []
  | now :: rest =>
      (if is_locked (Some s) now then [] else [now]) ++ checked (after_failure s now) rest
  end.

Definition final (s : AuthLockoutState) (attempts : list Z) : AuthLockoutState :=
  fold_left after_failure attempts s.

Lemma checked_app s l1 l2 : checked s (l1 ++ l2) = checked s l1 ++ checked (final s l1) l2.
Proof.
  revert s. induction l1 as [|t l1 IH]; intros s; simpl; [done|]. by rewrite IH, app_assoc.
Qed.

Lemma checked_elem s l x : x ∈ checked s l → x ∈ l.
Proof.
  revert s. induction l as [|t l IH]; intros s; simpl; [done|].
  rewrite elem_of_app, elem_of_cons. intros [H|H]; [|right; by eapply IH].
  destruct (is_locked _ _); [by apply elem_of_nil in H|].
  left. by apply list_elem_of_singleton in H.
Qed.

Lemma after_failure_locked s now : is_locked (Some s) now = true → after_failure s now = s.
Proof. intros H. unfold after_failure, record_failed_login. by rewrite H. Qed.

(** While the row is locked nothing is checked. *)
Lemma checked_locked s l u :
  au_locked_until s = Some u → Forall (λ t, t < u) l → checked s l = [].
Proof.
  intros Hu Hl. induction Hl as [|t l Ht Hl IH]; simpl; [done|].
  assert (Hk : is_locked (Some s) t = true) by (unfold is_locked; rewrite Hu; by apply Z.ltb_lt).
  rewrite Hk. by rewrite after_failure_locked.
Qed.

Hypothesis threshold_pos : 1 <= threshold.
Hypothesis window_le : window <= lock_duration.

(** A failure that is checked and the attempts after it, all within a window
    of the failure. *)
Lemma checked_step s t l n :
  is_locked (Some s) t = false → Forall (λ x, x < t + window) l →
  let count := (if window_reset s window t then 0 else au_failed_attempts s) + 1 in
  (count < threshold → Z.of_nat (length (checked (after_failure s t) l)) <= n) → 0 <= n →
  Z.of_nat (length (checked (after_failure s t) l)) <= n.
Proof.
  intros Hk Hl count Hrec Hn. destruct (Z.ltb_spec count threshold) as [Hlt|Hge]; [by apply Hrec|].
  rewrite (checked_locked _ _ (t + lock_duration)); [simpl; lia| |].
  - unfold after_failure, record_failed_login. rewrite Hk. simpl. fold count.
    by rewrite (proj2 (Z.leb_le _ _)).
  - eapply Forall_impl; [exact Hl|simpl; lia].
Qed.

Lemma after_failure_first s t :
  is_locked (Some s) t = false →
  au_first_failed_at (after_failure s t) =
    (if window_reset s window t then Some t else au_first_failed_at s) ∧
  au_failed_attempts (after_failure s t) =
    (if window_reset s window t then 0 else au_failed_attempts s) + 1.
Proof. intros Hk. unfold after_failure, record_failed_login. by rewrite Hk. Qed.

(** Within the window of the first failure the counter only grows. *)
Lemma checked_same_window s f l a :
  au_first_failed_at s = Some f → a <= f → 0 <= au_failed_attempts s < threshold →
  StronglySorted Z.le l → Forall (λ t, a <= t < a + window) l →
  Z.of_nat (length (checked s l)) <= threshold - au_failed_attempts s.
Proof.
  intros Hf Ha Hc Hs Hl. revert s Hf Hc. induction Hs as [|t l Hs IH Hle]; intros s Hf Hc; simpl; [lia|].
  inversion_clear Hl as [|? ? Ht Hl']. specialize (IH Hl').
  destruct (is_locked (Some s) t) eqn:Hk.
  - rewrite after_failure_locked by done. by apply IH.
  - assert (Hw : window_reset s window t = false).
    { unfold window_reset. rewrite Hf. apply Z.ltb_ge. lia. }
    destruct (after_failure_first s t Hk) as [H1 H2]. rewrite Hw in H1, H2.
    rewrite length_app. simpl length.
    assert (Z.of_nat (length (checked (after_failure s t) l)) <= threshold - au_failed_attempts s - 1);
      [|lia].
    apply checked_step; [done| | |lia].
    + rewrite Forall_forall in Hl' |- *. intros x Hx. specialize (Hl' x Hx). lia.
    + rewrite Hw. intros Hlt. pose proof (IH (after_failure s t)) as IHs.
      rewrite H1, H2 in IHs. specialize (IHs Hf). lia.
Qed.

Lemma checked_window s l a :
  0 <= au_failed_attempts s → StronglySorted Z.le l → Forall (λ t, a <= t < a + window) l →
  Z.of_nat (length (checked s l)) <= threshold + Z.max 0 (threshold - 1 - au_failed_attempts s).
Proof.
  intros Hc Hs Hl. revert s Hc. induction Hs as [|t l Hs IH Hle]; intros s Hc; simpl; [lia|].
  inversion_clear Hl as [|? ? Ht Hl']. specialize (IH Hl').
  assert (Hafter : Forall (λ x, x < t + window) l)
    by (eapply Forall_impl; [exact Hl'|simpl; lia]).
  destruct (is_locked (Some s) t) eqn:Hk.
  { rewrite after_failure_locked by done. by apply IH. }
  destruct (after_failure_first s t Hk) as [H1 H2]. rewrite length_app. simpl length.
  destruct (window_reset s window t) eqn:Hw.
  - assert (Z.of_nat (length (checked (after_failure s t) l)) <= threshold - 1); [|lia].
    apply checked_step; [done|done| |lia]. rewrite Hw. intros Hlt.
    pose proof (checked_same_window (after_failure s t) t l a H1) as Hsame.
    rewrite H2 in Hsame. specialize (Hsame ltac:(lia) ltac:(lia) Hs Hl'). lia.
  - assert (Z.of_nat (length (checked (after_failure s t) l)) <=
      threshold + Z.max 0 (threshold - 1 - au_failed_attempts s) - 1); [|lia].
    apply checked_step; [done|done| |lia]. rewrite Hw. intros Hlt.
    specialize (IH (after_failure s t)). rewrite H2 in IH. lia.
Qed.

Lemma sorted_split (l : list Z) a :
  StronglySorted Z.le l →
  ∃ l1 l2, l = l1 ++ l2 ∧ Forall (λ t, t < a) l1 ∧ Forall (λ t, a <= t) l2 ∧
    StronglySorted Z.le l1 ∧ StronglySorted Z.le l2.
Proof.
  induction 1 as [|t l Hs (l1 & l2 & -> & H1 & H2 & S1 & S2) Hle].
  - exists [], []. by repeat constructor.
  - apply Forall_app in Hle as [Hle1 Hle2]. destruct (Z.ltb_spec t a) as [Hlt|Hge].
    + exists (t :: l1), l2. split_and!; [done|by constructor|done|by constructor|done].
    + exists [], (t :: l1 ++ l2). split_and!; [done|constructor| |constructor|].
      * constructor; [done|]. apply Forall_app. split; [|done].
        eapply Forall_impl; [exact Hle1|simpl; lia].
      * constructor; [done|]. by apply Forall_app.
Qed.

Lemma final_attempts s l : 0 <= au_failed_attempts s → 0 <= au_failed_attempts (final s l).
Proof.
  revert s. induction l as [|t l IH]; intros s Hc; simpl; [done|]. apply IH.
  destruct (is_locked (Some s) t) eqn:Hk; [by rewrite after_failure_locked|].
  destruct (after_failure_first s t Hk) as [_ ->]. destruct (window_reset _ _ _); lia.
Qed.

Lemma checked_rate s l a :
  0 <= au_failed_attempts s → StronglySorted Z.le l →
  Z.of_nat (length (where_ (λ t, (a <=? t) && (t <? a + window)) (checked s l)))
    <= 2 * threshold - 1.
Proof.
  intros Hc Hs.
  destruct (sorted_split l a Hs) as (l1 & l' & -> & H1 & H2 & _ & S2).
  destruct (sorted_split l' (a + window) S2) as (l2 & l3 & -> & H3 & H4 & S3 & _).
  apply Forall_app in H2 as [H2 _]. rewrite !checked_app, !where_app.
  assert (Hout : ∀ s l, Forall (λ t, t < a ∨ a + window <= t) l →
    where_ (λ t, (a <=? t) && (t <? a + window)) (checked s l) = []).
  { intros s' l Hl. apply where_nil_iff. intros x Hx%checked_elem.
    rewrite Forall_forall in Hl. specialize (Hl x Hx). apply andb_false_iff.
    rewrite Z.leb_gt, Z.ltb_ge. lia. }
  rewrite (Hout s l1) by (eapply Forall_impl; [exact H1|simpl; lia]).
  rewrite (Hout _ l3) by (eapply Forall_impl; [exact H4|simpl; lia]). rewrite app_nil_r. simpl.
  rewrite where_all.
  - pose proof (checked_window (final s l1) l2 a (final_attempts s l1 Hc) S3) as Hb.
    pose proof (final_attempts s l1 Hc).
    assert (Forall (λ t, a <= t < a + window) l2).
    { rewrite Forall_forall in H2, H3 |- *. intros x Hx. auto. }
    specialize (Hb ltac:(done)). lia.
  - intros x Hx%checked_elem. rewrite Forall_forall in H2, H3.
    specialize (H2 x Hx). specialize (H3 x Hx). apply andb_true_iff.
    rewrite Z.leb_le, Z.ltb_lt. done.
Qed.
End RateBound.

(** ** Duplicates *)

Lemma fold_max_spec l x u : u < fold_left Z.max l x ↔ u < x ∨ ∃ y, y ∈ l ∧ u < y.
Proof.
  revert x. induction l as [|y l IH]; intros x; simpl.
  - split; [auto|]. intros [?|(y & Hy & _)]; [done|by apply elem_of_nil in Hy].
  - rewrite IH. setoid_rewrite elem_of_cons. split.
    + intros [H|(z & Hz & H)]; [|by eauto]. destruct (Z.max_spec x y) as [[_ Hm]|[_ Hm]]; rewrite Hm in H; eauto.
    + intros [H|(z & [->|Hz] & H)]; [left; lia|left; lia|right; eauto].
Qed.

Lemma max_option_spec l u :
  match max_option l with Some t => u <? t | None => false end = existsb (λ t, u <? t) l.
Proof.
  apply eq_true_iff_eq. rewrite existsb_elem. destruct l as [|x l]; simpl.
  - split; [done|]. by intros (x & Hx%elem_of_nil & _).
  - rewrite Z.ltb_lt, fold_max_spec. setoid_rewrite elem_of_cons. setoid_rewrite Z.ltb_lt. naive_solver.
Qed.

Lemma existsb_omap {A B} (p : B → bool) (f : A → option B) (l : list A) :
  existsb p (omap f l) = existsb (λ x, match f x with Some y => p y | None => false end) l.
Proof. induction l as [|x l IH]; [done|]. csimpl. destruct (f x); simpl; by rewrite IH. Qed.

Lemma merge_is_locked s rest now :
  is_locked (Some (merge_states s rest)) now = existsb (λ x, is_locked (Some x) now) (s :: rest).
Proof.
  unfold is_locked. cbn [merge_states au_locked_until]. rewrite max_option_spec.
  apply existsb_omap.
Qed.

Lemma of_principal_true at_ p s :
  of_principal at_ p s = true ↔ au_actor_type s = at_ ∧ au_principal s = p.
Proof. unfold of_principal. by rewrite andb_true_iff, !String.eqb_eq. Qed.

Lemma existsb_perm {A} (p : A → bool) l1 l2 : l1 ≡ₚ l2 → existsb p l1 = existsb p l2.
Proof.
  intros H. apply eq_true_iff_eq. rewrite !existsb_elem. by setoid_rewrite H.
Qed.

(** ** Properties *)

(** duplicate lock-out rows never unlock an account: the row
    [get_lockout_state] returns is locked exactly when one of the rows of that
    principal was, afterwards the principal has that one row, and the rows of
    every other principal are untouched. *)
Theorem get_lockout_state_spec a at_ p create now
    (Hids : NoDup (au_id <$> lockouts a)) :
  let '(a', state) := get_lockout_state a at_ p create in
  is_locked state now =
    existsb (λ s, is_locked (Some s) now) (where_ (of_principal at_ p) (lockouts a)) ∧
  where_ (of_principal at_ p) (lockouts a') = match state with Some s => [s] | None => [] end ∧
  where_ (λ s, negb (of_principal at_ p s)) (lockouts a') =
    where_ (λ s, negb (of_principal at_ p s)) (lockouts a).
Proof.
  unfold get_lockout_state.
  set (rows := where_ (of_principal at_ p) (lockouts a)).
  pose proof (sorted_by_perm by_state_id rows) as Hperm.
  assert (Hrow : ∀ s, s ∈ rows → of_principal at_ p s = true) by (intros s [_ ?]%elem_of_where; done).
  destruct (sorted_by by_state_id rows) as [|s [|d ds]] eqn:Es.
  - apply Permutation_nil in Hperm. destruct create; [|fold rows; by rewrite Hperm].
    cbn [lockouts]. rewrite !where_app. fold rows. rewrite Hperm.
    assert (of_principal at_ p (fresh_state (auth_next_id a) at_ p) = true) as Hf
      by by apply of_principal_true.
    unfold where_ at 1 3. simpl. rewrite Hf. simpl. by rewrite app_nil_r.
  - apply Permutation_singleton_l in Hperm. fold rows. rewrite <- Hperm. simpl. by rewrite orb_false_r.
  - set (merged := merge_states s (d :: ds)).
    assert (Hs : of_principal at_ p s = true) by (apply Hrow; rewrite <- Hperm; left).
    assert (Hd : ∀ x, x ∈ d :: ds → of_principal at_ p x = true)
      by (intros x Hx; apply Hrow; rewrite <- Hperm; by right).
    assert (Hin : ∀ x, x ∈ s :: d :: ds → x ∈ lockouts a ∧ of_principal at_ p x = true).
    { intros x Hx. rewrite Hperm in Hx. by apply elem_of_where in Hx. }
    assert (Hmerged : ∀ x, x ∈ lockouts a → (au_id x =? au_id s) = true →
      of_principal at_ p merged = of_principal at_ p x).
    { intros x Hx Heq. bool_hyps.
      rewrite (NoDup_fmap_eq au_id (lockouts a) s x); [done|done|by apply (Hin s); left|done|done]. }
    split_and!.
    + unfold merged. rewrite merge_is_locked. by apply existsb_perm.
    + unfold set_lockouts. cbn [lockouts].
      rewrite where_update_in, where_delete_comm
        by (intros x [Hx _]%elem_of_delete_where; by apply Hmerged). fold rows.
      assert (Hdel : delete_where (λ x, mem (au_id x) (au_id <$> d :: ds)) rows ≡ₚ [s]).
      { rewrite <- Hperm. unfold delete_where.
        assert (Hnd : NoDup (au_id <$> s :: d :: ds))
          by (rewrite Hperm; by apply NoDup_fmap_where).
        rewrite fmap_cons in Hnd. apply NoDup_cons in Hnd as [Hn _]. simpl List.filter.
        rewrite (proj2 (mem_false (au_id s) _)) by done. simpl.
        rewrite (proj2 (mem_true (au_id d) _)) by left. simpl.
        assert (where_ (λ x, negb (mem (au_id x) (au_id <$> d :: ds))) ds = []) as Hnil; [|by rewrite <- Hnil].
        apply where_nil_iff. intros x Hx. apply negb_false_iff, mem_true.
        rewrite fmap_cons. right. by apply list_elem_of_fmap_2. }
      apply Permutation_singleton_r in Hdel. rewrite Hdel. unfold update_where. simpl.
      by rewrite Z.eqb_refl.
    + unfold set_lockouts. cbn [lockouts].
      assert (Hout : ∀ x y, x ∈ where_ (λ s, negb (of_principal at_ p s)) (lockouts a) →
        y ∈ s :: d :: ds → au_id x ≠ au_id y).
      { intros x y [Hx Hn]%elem_of_where Hy Heq. apply Hin in Hy as [Hy Hp].
        rewrite (NoDup_fmap_eq au_id (lockouts a) y x) in Hn by done. by rewrite Hp in Hn. }
      rewrite where_update_in, where_delete_comm.
      * rewrite delete_where_none, update_where_none; [done| |].
        -- intros x Hx. apply Z.eqb_neq, Hout; [done|left].
        -- intros x Hx. apply mem_false. intros (y & Heq & Hy)%list_elem_of_fmap.
           revert Heq. apply Hout; [done|by right].
      * intros x [Hx _]%elem_of_delete_where Heq. by rewrite (Hmerged x).
Qed.

(** an unlock token works at most once, only for its actor type and
    purpose, and only before it expires; consuming it marks exactly its row. *)
Theorem consume_unlock_token_spec sha256 a token at_ purpose now
    (Hids : NoDup (ut_id <$> unlock_tokens a)) (Hhash : NoDup (ut_token_hash <$> unlock_tokens a)) :
  let '(a', row) := consume_unlock_token sha256 a token at_ purpose now in
  match row with
  | None => a' = a ∧ ∀ r, r ∈ unlock_tokens a → token_matches sha256 token at_ purpose now r = false
  | Some r' => ∃ r, r ∈ unlock_tokens a ∧ token_matches sha256 token at_ purpose now r = true ∧
      r' = use_token now r ∧
      (∀ x, x ∈ unlock_tokens a' ↔ x = r' ∨ (x ∈ unlock_tokens a ∧ x ≠ r)) ∧
      ∀ at2 purpose2 now2, consume_unlock_token sha256 a' token at2 purpose2 now2 = (a', None)
  end.
Proof.
  unfold consume_unlock_token.
  destruct (where_ (token_matches sha256 token at_ purpose now) (unlock_tokens a)) as [|r rows] eqn:E.
  - split; [done|]. by apply where_nil_iff.
  - assert (Hr : r ∈ where_ (token_matches sha256 token at_ purpose now) (unlock_tokens a))
      by (rewrite E; left).
    apply elem_of_where in Hr as [Hr Hm].
    assert (Hsame : ∀ x, x ∈ unlock_tokens a → ut_id x = ut_id r → x = r)
      by (intros x Hx Hid; by apply (NoDup_fmap_eq ut_id (unlock_tokens a))).
    assert (Hmem : ∀ x, x ∈ unlock_tokens (set_tokens (update_where (λ y, ut_id y =? ut_id r)
        (use_token now) (unlock_tokens a)) a) ↔
      x = use_token now r ∨ (x ∈ unlock_tokens a ∧ x ≠ r)).
    { intros x. cbn [set_tokens unlock_tokens]. rewrite elem_of_update_where. split.
      - intros (y & Hy & ->). destruct (ut_id y =? ut_id r) eqn:Ey; bool_hyps.
        + left. by rewrite (Hsame y).
        + right. split; [done|]. congruence.
      - intros [->|[Hx Hne]].
        + exists r. by rewrite Z.eqb_refl.
        + exists x. split; [done|]. rewrite (proj2 (Z.eqb_neq _ _)); [done|]. intros Hid.
          by apply Hne, Hsame. }
    exists r. split_and!; [done|done|done|exact Hmem|].
    intros at2 purpose2 now2.
    rewrite (proj2 (where_nil_iff _ _)); [done|]. intros x Hx. apply Hmem in Hx as [->|[Hx Hne]].
    + unfold token_matches. simpl. by rewrite andb_false_r.
    + unfold token_matches in *. destruct (String.eqb (ut_token_hash x) (sha256 token)) eqn:Hh; [|done].
      exfalso. apply Hne. apply (NoDup_fmap_eq ut_token_hash (unlock_tokens a)); [done..|].
      bool_hyps. apply String.eqb_eq in Hh. match goal with H : (ut_token_hash r =? _)%string = true |- _ =>
        apply String.eqb_eq in H end. congruence.
Qed.
