(* ===== verification/Accounts.v ===== *)
(** * Accounts: instances, reset tokens and services/portal_credentials.py

    [Portal] is the database with the tables the accounts need beyond [DB]:
    the lock-out rows and unlock tokens, the access instances and the reset
    tokens.  The role of a user is not a column here, since [PortalUserRole]
    has the one value [employee].  Argon2, bcrypt and SHA-256 are the class
    [Crypto]: a check is [None] when the library raises. *)

From S2P Require Import Prelude Calendar TimeParse PragueTime Models Lockout.
#[local] Open Scope Z_scope.

Inductive ClientType := ANDROID | WEB.
#[global] Instance ClientType_eq_dec : EqDecision ClientType.
Proof. solve_decision. Defined.

Inductive InstanceStatus := INST_PENDING | INST_ACTIVE | INST_REVOKED | INST_DEACTIVATED.
#[global] Instance InstanceStatus_eq_dec : EqDecision InstanceStatus.
Proof. solve_decision. Defined.

Record Instance_ := mk_instance {
  inst_id : string;
  inst_client_type : ClientType;
  inst_device_fingerprint : string;
  inst_status : InstanceStatus;
  inst_display_name : option string;
  inst_activated_at : option Z;
  inst_revoked_at : option Z;
  inst_deactivated_at : option Z;
  inst_token_hash : option string;
  inst_token_issued_at : option Z;
  inst_created_at : Z;
  inst_last_seen_at : option Z;
}.

Inductive ResetDeliveryState := RESET_PENDING | RESET_SENT | RESET_FAILED.
#[global] Instance ResetDeliveryState_eq_dec : EqDecision ResetDeliveryState.
Proof. solve_decision. Defined.

Record PortalUserResetToken := mk_reset {
  rt_id : Z;
  rt_user_id : Z;
  rt_token_hash : string;
  rt_expires_at : Z;
  rt_used_at : option Z;
  rt_delivery_state : ResetDeliveryState;
  rt_revoked_at : option Z;
}.

Record Portal := mk_portal {
  p_db : DB;
  p_auth : AuthDB;
  p_instances : list Instance_;
  p_resets : list PortalUserResetToken;
  p_next_reset : Z;
}.

Definition set_p_db (x : DB) (p : Portal) : Portal :=
  mk_portal x (p_auth p) (p_instances p) (p_resets p) (p_next_reset p).
Definition set_p_auth (x : AuthDB) (p : Portal) : Portal :=
  mk_portal (p_db p) x (p_instances p) (p_resets p) (p_next_reset p).
Definition set_p_instances (x : list Instance_) (p : Portal) : Portal :=
  mk_portal (p_db p) (p_auth p) x (p_resets p) (p_next_reset p).
Definition set_p_resets (x : list PortalUserResetToken) (p : Portal) : Portal :=
  mk_portal (p_db p) (p_auth p) (p_instances p) x (p_next_reset p).

(** ** Writing single rows *)

Definition save_user (u : PortalUser) (p : Portal) : Portal :=
  set_p_db (set_users (update_where (λ x, pu_id x =? pu_id u) (λ _, u) (users (p_db p))) (p_db p)) p.

Definition update_instance (i : string) (f : Instance_ → Instance_) (p : Portal) : Portal :=
  set_p_instances (update_where (λ x, String.eqb (inst_id x) i) f (p_instances p)) p.

Definition update_reset (i : Z) (f : PortalUserResetToken → PortalUserResetToken) (p : Portal) : Portal :=
  set_p_resets (update_where (λ r, rt_id r =? i) f (p_resets p)) p.

(** [db.get(Instance, id)] and the relationship [user.instance]. *)
Definition get_instance (p : Portal) (i : string) : option Instance_ :=
  one_or_none (where_ (λ x, String.eqb (inst_id x) i) (p_instances p)).
Definition instance_of (p : Portal) (u : PortalUser) : option Instance_ :=
  i ← pu_instance_id u; get_instance p i.

Definition with_bearer (token_hash : option string) (issued_at : option Z) (x : Instance_) : Instance_ :=
  mk_instance (inst_id x) (inst_client_type x) (inst_device_fingerprint x) (inst_status x)
    (inst_display_name x) (inst_activated_at x) (inst_revoked_at x) (inst_deactivated_at x)
    token_hash issued_at (inst_created_at x) (inst_last_seen_at x).
Definition seen_at (now : Z) (x : Instance_) : Instance_ :=
  mk_instance (inst_id x) (inst_client_type x) (inst_device_fingerprint x) (inst_status x)
    (inst_display_name x) (inst_activated_at x) (inst_revoked_at x) (inst_deactivated_at x)
    (inst_token_hash x) (inst_token_issued_at x) (inst_created_at x) (Some now).
Definition with_display_name (name : option string) (x : Instance_) : Instance_ :=
  mk_instance (inst_id x) (inst_client_type x) (inst_device_fingerprint x) (inst_status x)
    name (inst_activated_at x) (inst_revoked_at x) (inst_deactivated_at x)
    (inst_token_hash x) (inst_token_issued_at x) (inst_created_at x) (inst_last_seen_at x).

Definition with_password_hash (h : option string) (u : PortalUser) : PortalUser :=
  mk_user (pu_id u) (pu_email u) (pu_name u) h (pu_is_active u) (pu_is_blocked u)
    (pu_instance_id u) (pu_phone u).

(** ** Passwords (security/passwords.py) *)

Class Crypto := {
  argon2_verify : string → string → option bool;
  bcrypt_check : string → string → option bool;
  argon2_needs_rehash : string → bool;
  argon2_hash : string → string;
  sha256 : string → string;
}.

(** The documented behaviour of argon2 the code relies on: a hash it made
    starts with its name and verifies no password but its own. *)
Class CryptoLaws (crypto : Crypto) := {
  argon2_prefix : ∀ password, String.prefix "$argon2" (argon2_hash password) = true;
  argon2_complete : ∀ password, argon2_verify (argon2_hash password) password = Some true;
  argon2_sound : ∀ password attempt,
    argon2_verify (argon2_hash password) attempt = Some true → attempt = password;
}.

Section Credentials.
Context `{crypto : Crypto}.

(** [None] is the [ValueError] of an empty or too long password. *)
Definition hash_password (password : string) : option string :=
  if String.eqb password "" || (512 <? Z.of_nat (String.length password)) then None
  else Some (argon2_hash password).

(** ** services/portal_credentials.py *)

Definition revoke_instance_credential (p : Portal) (user : PortalUser) : Portal :=
  match pu_instance_id user with
  | None => p
  | Some i => update_instance i (with_bearer None None) p
  end.

(** A token that is neither used nor revoked. *)
Definition unused (r : PortalUserResetToken) : bool :=
  match rt_used_at r, rt_revoked_at r with None, None => true | _, _ => false end.

Definition revoked_at (now : Z) (r : PortalUserResetToken) : PortalUserResetToken :=
  mk_reset (rt_id r) (rt_user_id r) (rt_token_hash r) (rt_expires_at r) (rt_used_at r)
    (rt_delivery_state r) (Some now).
Definition used_at (now : Z) (r : PortalUserResetToken) : PortalUserResetToken :=
  mk_reset (rt_id r) (rt_user_id r) (rt_token_hash r) (rt_expires_at r) (Some now)
    (rt_delivery_state r) (rt_revoked_at r).

Definition revoke_password_reset_tokens (p : Portal) (user_id now : Z) : Portal :=
  set_p_resets (update_where (λ r, (rt_user_id r =? user_id) && unused r) (revoked_at now)
    (p_resets p)) p.

(** The lock-out of the account is cleared and its unlock tokens deleted. *)
Definition clear_portal_lockout (email : string) (p : Portal) : Portal :=
  set_p_auth (clear_user_lockout (p_auth p) "portal" email) p.
Definition revoke_portal_unlock_tokens (email : string) (p : Portal) : Portal :=
  set_p_auth (revoke_unlock_tokens (p_auth p) "portal" email None) p.

(** The changed user is returned: the session's object may change further
    before its row is written. *)
Definition change_portal_password (p : Portal) (user : PortalUser) (raw_password : string) (now : Z)
    : option (Portal * PortalUser) :=
  let password := strip raw_password in
  if String.eqb password "" then None
  else
    h ← hash_password password;
    let user := with_password_hash (Some h) user in
    let p := revoke_password_reset_tokens p (pu_id user) now in
    let p := revoke_portal_unlock_tokens (lower (pu_email user)) p in
    let p := clear_portal_lockout (lower (pu_email user)) p in
    Some (revoke_instance_credential p user, user).

Definition lock_portal_user (p : Portal) (user_id : Z) : option PortalUser :=
  one_or_none (where_ (λ u, pu_id u =? user_id) (users (p_db p))).

Definition mark_reset_delivery (state : ResetDeliveryState) (revoked : bool) (now : Z)
    (r : PortalUserResetToken) : PortalUserResetToken :=
  mk_reset (rt_id r) (rt_user_id r) (rt_token_hash r) (rt_expires_at r) (rt_used_at r) state
    (if revoked then Some now else rt_revoked_at r).
End Credentials.
