(* ===== verification/Sessions.v ===== *)
(** * Browser sessions and CSRF: security/sessions.py and security/csrf.py

    A cookie is the text of a payload and its signature; [encode] and [decode]
    are base64 and JSON, [hmac_sha256 secret text] the keyed hash.  A CSRF token
    lives in the signed middleware session; new tokens and session
    identifiers are arguments, drawn from [secrets] by the code. *)

From S2P Require Import Prelude Calendar TimeParse PragueTime Models AttendanceEvents AttendanceApi.
From S2P Require Import Lockout Accounts.
#[local] Open Scope Z_scope.

(** The payload of either cookie: a portal user and the tag of the password
    hash, or the name of the administrator. *)
Inductive SessionPayload :=
  | PortalPayload (uid : Z) (ct : string) (iat : Z) (jti : string)
  | AdminPayload (u : string) (iat : Z) (jti : string).

Class Signing := {
  encode : SessionPayload → string;
  decode : string → option SessionPayload;
  hmac_sha256 : string → string → string;
  session_secret : string;
  session_max_age_seconds : Z;
}.

Definition is_ascii (s : string) : bool := forallb (λ c, code c <? 128) (list_ascii_of_string s).

(** A cookie that was encoded reads back; the keyed hash has no collisions
    and is written in base64. *)
Class SigningLaws (signing : Signing) := {
  decode_encode : ∀ c, decode (encode c) = Some c;
  hmac_injective : ∀ secret a b, hmac_sha256 secret a = hmac_sha256 secret b → a = b;
  hmac_text : ∀ secret a, is_ascii (hmac_sha256 secret a) = true ∧ hmac_sha256 secret a ≠ ""%string;
}.

Record AdminSession := mk_admin_session { as_username : option string; as_issued_at : Z }.
Record PortalSession := mk_portal_session {
  ps_user_id : option Z;
  ps_credential_tag : option string;
  ps_issued_at : Z;
}.

Record Cookie := mk_cookie { ck_payload : string; ck_signature : string }.

Definition admin_is_authenticated (s : AdminSession) : bool := truthy (as_username s).
Definition portal_is_authenticated (s : PortalSession) : bool :=
  is_some (ps_user_id s) && truthy (ps_credential_tag s).

(** [int(time.time())]. *)
Definition unix_time (now : Z) : Z := now / 1000000.

(** [hmac.compare_digest] on two texts: it raises unless both are ASCII. *)
Definition compare_digest (a b : string) : result bool :=
  if is_ascii a && is_ascii b then Ok (String.eqb a b) else Err (Crash "TypeError").

Section Sessions.
Context `{signing : Signing}.

Definition sign (payload : string) : string := hmac_sha256 session_secret payload.

Definition portal_credential_tag (password_hash : string) : string :=
  sign ("portal-password:" +:+ password_hash).

Definition issue (c : SessionPayload) : Cookie := mk_cookie (encode c) (sign (encode c)).

Definition set_admin_session (username : string) (now : Z) (jti : string) : Cookie :=
  issue (AdminPayload username (unix_time now) jti).
Definition set_portal_session (user_id : Z) (password_hash : string) (now : Z) (jti : string) : Cookie :=
  issue (PortalPayload user_id (portal_credential_tag password_hash) (unix_time now) jti).

(** The signature is compared first, then the payload is read. *)
Definition verified (raw : option Cookie) : result (option SessionPayload) :=
  match raw with
  | None => Ok None
  | Some c =>
      let? same := compare_digest (sign (ck_payload c)) (ck_signature c) in
      Ok (if same then decode (ck_payload c) else None)
  end.

Definition get_admin_session (raw : option Cookie) (now : Z) : result AdminSession :=
  let? payload := verified raw in
  Ok match payload with
  | Some (AdminPayload u iat _) =>
      if String.eqb u "" || (session_max_age_seconds <? unix_time now - iat)
      then mk_admin_session None iat else mk_admin_session (Some u) iat
  | Some (PortalPayload _ _ iat _) => mk_admin_session None iat
  | None => mk_admin_session None (unix_time now)
  end.

Definition get_portal_session (raw : option Cookie) (now : Z) : result PortalSession :=
  let? payload := verified raw in
  Ok match payload with
  | Some (PortalPayload uid ct iat _) =>
      if (uid <=? 0) || String.eqb ct "" || (session_max_age_seconds <? unix_time now - iat)
      then mk_portal_session None None iat else mk_portal_session (Some uid) (Some ct) iat
  | _ => mk_portal_session None None (unix_time now)
  end.

Definition portal_session_matches_password (s : PortalSession) (password_hash : string)
    : result bool :=
  match ps_credential_tag s with
  | Some tag =>
      if portal_is_authenticated s then compare_digest (portal_credential_tag password_hash) tag
      else Ok false
  | None => Ok false
  end.
End Sessions.

(** ** CSRF tokens *)

(** [csrf_token] and [csrf_issued_at] of the session, [None] when the key is
    missing or holds no text, respectively no instant. *)
Record CsrfSession := mk_csrf { cs_token : option string; cs_issued_at : option Z }.

Definition CSRF_ROTATE_MINUTES : Z := 120.

Definition issue_csrf_token (fresh : string) (now : Z) : CsrfSession * string :=
  (mk_csrf (Some fresh) (Some now), fresh).

Definition get_or_rotate_csrf_token (session : CsrfSession) (fresh : string) (now : Z)
    : CsrfSession * string :=
  match cs_token session, cs_issued_at session with
  | Some token, Some issued_at =>
      if CSRF_ROTATE_MINUTES * us_per_minute <? now - issued_at then issue_csrf_token fresh now
      else (session, token)
  | _, _ => issue_csrf_token fresh now
  end.

(** [_constant_time_eq]: here the [TypeError] is caught. *)
Definition constant_time_eq (a b : string) : bool :=
  match compare_digest a b with Ok same => same | Err _ => false end.

Definition csrf_invalid : api_error := ApiError 403 "csrf_invalid".

Definition safe_method (http_method : string) : bool :=
  String.eqb http_method "GET" || String.eqb http_method "HEAD" || String.eqb http_method "OPTIONS".

(** The header of the single-page application. *)
Definition require_csrf_header (claims : bool) (http_method : string) (session : option CsrfSession)
    (header : option string) : result unit :=
  if claims || safe_method http_method then Ok tt
  else
    let expected := s ← session; cs_token s in
    let provided := strip (default ""%string header) in
    match expected with
    | Some (String _ _ as e) =>
        guard (String.eqb provided "" || negb (constant_time_eq provided e)) csrf_invalid
    | _ => Err csrf_invalid
    end.

(** The dependency of the administration: the header, else the form field. *)
Definition require_csrf (claims : bool) (http_method : string) (session : option CsrfSession)
    (header form : option string) : result unit :=
  if claims || safe_method http_method then Ok tt
  else
    let expected := s ← session; cs_token s in
    match expected with
    | Some (String _ _ as e) =>
        let provided := match header with
          | Some (String _ _ as h) => strip h
          | _ => ""%string
          end in
        let provided := if String.eqb provided "" then strip (default ""%string form) else provided in
        guard (String.eqb provided "" || negb (constant_time_eq provided e)) csrf_invalid
    | _ => Err csrf_invalid
    end.
