(* ===== verification/Login.v ===== *)
(** * Signing in: app/security/passwords.py, api/v1/portal_auth.py and
    api/v1/admin_auth.py

    A handler returns the database it committed with its result: a refused
    login commits the failure it recorded. *)

From S2P Require Import Prelude Calendar TimeParse PragueTime Models EmploymentAccess DayStatus.
From S2P Require Import AttendanceApi Lockout Accounts.

Record PasswordVerification := mk_verification { pv_valid : bool; pv_needs_rehash : bool }.

Record PortalLoginIn := mk_login_in { lg_email : string; lg_password : string }.

Record LoginEmploymentOut := mk_login_employment {
  le_id : Z;
  le_title : string;
  le_employment_type : EmploymentType;
  le_start_date : date;
  le_end_date : option date;
  le_is_active : bool;
  le_is_current : bool;
  le_label : string;
}.

Record PortalLoginOut := mk_login_out {
  lo_display_name : string;
  lo_employment_id : option Z;
  lo_available_employments : list LoginEmploymentOut;
}.

Section Login.
Context `{zone : PragueZone} `{crypto : Crypto}.

Definition starts_with (prefix s : string) : bool := String.prefix prefix s.

Definition verify_password_details (password password_hash : string) : PasswordVerification :=
  let invalid := mk_verification false false in
  if String.eqb password_hash "" then invalid
  else if starts_with "$argon2" password_hash then
    match argon2_verify password_hash password with
    | None => invalid
    | Some valid => mk_verification valid (valid && argon2_needs_rehash password_hash)
    end
  else if starts_with "$2a$" password_hash || starts_with "$2b$" password_hash ||
          starts_with "$2y$" password_hash then
    match bcrypt_check password password_hash with
    | None => invalid
    | Some valid => mk_verification valid valid
    end
  else invalid.

Definition verify_password (password password_hash : string) : bool :=
  pv_valid (verify_password_details password password_hash).

(** ** The portal *)

Definition normalize_email (email : string) : string := lower (strip email).

Definition find_user_by_email (db : DB) (email : string) : option PortalUser :=
  one_or_none (where_ (λ u, String.eqb (pu_email u) email) (users db)).

Definition invalid_credentials : api_error := ApiError 401 "portal_invalid_credentials".
Definition account_locked : api_error := ApiError 423 "portal_account_locked".

(** [_record_login_failure]: commits, then raises. *)
Definition record_login_failure (a : AuthDB) (email : string) (now : Z) : AuthDB * api_error :=
  match get_lockout_state a "portal" email true with
  | (a1, None) => (a1, invalid_credentials)
  | (a1, Some state) =>
      let '(s', locked_now) := record_failed_login state now
        PORTAL_LOCKOUT_DURATION LOCKOUT_THRESHOLD LOCKOUT_WINDOW in
      (save_state s' a1,
       if locked_now || is_locked (Some s') now then account_locked else invalid_credentials)
  end.

Definition to_login_employment_out (db : DB) (today : date) (e : Employment) : LoginEmploymentOut :=
  mk_login_employment (em_id e) (em_title e) (em_employment_type e) (em_start_date e) (em_end_date e)
    (employment_is_currently_valid e today)
    (employment_is_valid_on_day e today) (employment_label db e None).

Definition issue_portal_login (p : Portal) (user : PortalUser) (now : Z)
    : result (Portal * PortalLoginOut) :=
  guard (pu_is_blocked user) (ApiError 403 "portal_account_blocked") ?;;
  guard (negb (pu_is_active user)) (ApiError 403 "external_account_inactive") ?;;
  let? instance := or_raise
    (i ← pu_instance_id user; if String.eqb i "" then None else get_instance p i)
    (ApiError 409 "portal_missing_instance_token") in
  guard (negb (bool_decide (inst_status instance = INST_ACTIVE)))
    (ApiError 403 "portal_instance_inactive") ?;;
  let today := prague_today (Zoned now) in
  let selection := select_login_employments
    (where_ (λ e, em_user_id e =? pu_id user) (employments (p_db p))) today in
  guard (negb (nonempty (available selection))) (ApiError 403 "portal_no_available_employment") ?;;
  Ok (update_instance (inst_id instance) (seen_at now) p,
      mk_login_out (pu_name user) (em_id <$> default_employment selection)
        (to_login_employment_out (p_db p) today <$> available selection)).

(** The checks that answer "invalid credentials". *)
Definition check_credentials (db : DB) (email password : string)
    : option (PortalUser * PasswordVerification) :=
  u ← find_user_by_email db email;
  h ← pu_password_hash u;
  if negb (pu_is_active u) then None
  else
    let v := verify_password_details password h in
    if pv_valid v then Some (u, v) else None.

(** [user.password_hash = hash_password(...)] when the hash is outdated; a
    body has 1 to 256 characters, so hashing does not raise. *)
Definition rehash (user : PortalUser) (password : string) (v : PasswordVerification) (p : Portal)
    : Portal :=
  if pv_needs_rehash v then save_user (with_password_hash (Some (argon2_hash password)) user) p else p.

Definition portal_login (p : Portal) (now : Z) (payload : PortalLoginIn)
    : Portal * result PortalLoginOut :=
  let email := normalize_email (lg_email payload) in
  let '(a1, lock_state) := get_lockout_state (p_auth p) "portal" email true in
  if is_locked lock_state now then (set_p_auth a1 p, Err account_locked)
  else
    match check_credentials (p_db p) email (lg_password payload) with
    | None => let '(a2, err) := record_login_failure a1 email now in (set_p_auth a2 p, Err err)
    | Some (user, v) =>
        let p1 := rehash user (lg_password payload) v (set_p_auth a1 p) in
        if pu_is_blocked user then (p1, Err (ApiError 403 "portal_account_blocked"))
        else
          match issue_portal_login p1 user now with
          | Err err => (p, Err err)
          | Ok (p2, login) => (clear_portal_lockout email p2, Ok login)
          end
    end.

(** ** The administration *)

(** The parsed body; [None] when neither JSON nor the form validates. *)
Record AdminLoginBody := mk_admin_login {
  ab_username : option string;
  ab_email : option string;
  ab_password : string;
}.

Definition missing_credentials : api_error := ApiError 400 "admin_login_missing_credentials".

(** [payload.username or payload.email or ''] *)
Definition login_name (body : AdminLoginBody) : string :=
  match ab_username body with
  | Some u => if String.eqb u "" then default ""%string (ab_email body) else u
  | None => default ""%string (ab_email body)
  end.

Definition admin_login (admin_username admin_password_hash : option string) (a : AuthDB) (now : Z)
    (payload : option AdminLoginBody) : AuthDB * result unit :=
  let configured_user := normalize_email (default ""%string admin_username) in
  match admin_password_hash with
  | None | Some EmptyString => (a, Err (ApiError 503 "admin_account_not_initialized"))
  | Some configured_hash =>
      let '(a1, lock_state) := get_lockout_state a "admin" configured_user true in
      if is_locked lock_state now then (a1, Err (ApiError 423 "admin_account_locked"))
      else
        match payload with
        | None => (a, Err missing_credentials)
        | Some body =>
            let username := normalize_email (login_name body) in
            if String.eqb username "" || String.eqb (ab_password body) ""
            then (a, Err missing_credentials)
            else if String.eqb username configured_user &&
                    verify_password (ab_password body) configured_hash
            then (clear_user_lockout a1 "admin" configured_user, Ok tt)
            else
              match lock_state with
              | None => (a1, Err (ApiError 401 "admin_login_invalid_credentials"))
              | Some state =>
                  let s' := (record_failed_login state now ADMIN_LOCKOUT_DURATION
                    ADMIN_LOCKOUT_THRESHOLD ADMIN_LOCKOUT_WINDOW).1 in
                  (save_state s' a1,
                   Err (if is_locked (Some s') now then ApiError 423 "admin_account_locked"
                        else ApiError 401 "admin_login_invalid_credentials"))
              end
        end
  end.
End Login.
