(* ===== verification/LoginSafety.v ===== *)
(** * Safety of the two logins

    A locked account is never checked against a password, a successful portal
    login satisfies every condition and clears the lock-out, and as long as
    nothing clears the lock-out, a guesser gets at most five wrong passwords
    checked in any hour. *)

From S2P Require Import Prelude Calendar TimeParse PragueTime Models EmploymentAccess DayStatus.
From S2P Require Import AttendanceApi Lockout Accounts Login.
#[local] Open Scope Z_scope.

#[local] Arguments is_locked : simpl never.

Definition state_key (s : AuthLockoutState) : string * string := (au_actor_type s, au_principal s).

Record auth_wf (a : AuthDB) : Prop := {
  aw_keyed : keyed au_id state_key (auth_next_id a) (lockouts a);
  aw_attempts : Forall (λ s, 0 <= au_failed_attempts s) (lockouts a);
}.

Lemma update_where_fmap_in {A B} (g : A → B) (q : A → bool) (f : A → A) (l : list A) :
  (∀ x, x ∈ l → q x = true → g (f x) = g x) → g <$> update_where q f l = g <$> l.
Proof.
  intros Hf. unfold update_where. rewrite <- list_fmap_compose.
  induction l as [|x l IH]; [done|]. rewrite !fmap_cons. simpl.
  rewrite IH by (intros y Hy; apply Hf; by right). f_equal.
  destruct (q x) eqn:E; [by apply Hf; [left|]|done].
Qed.

(** The row of a principal, as the handlers read it. *)
Definition principal_row (a : AuthDB) (at_ p : string) (s : AuthLockoutState) : Prop :=
  where_ (of_principal at_ p) (lockouts a) = [s].

Lemma principal_row_elem a at_ p s :
  principal_row a at_ p s → s ∈ lockouts a ∧ of_principal at_ p s = true.
Proof.
  intros H. assert (Hs : s ∈ where_ (of_principal at_ p) (lockouts a)) by (rewrite H; left).
  by apply elem_of_where in Hs.
Qed.

Lemma get_existing a at_ p s :
  principal_row a at_ p s → get_lockout_state a at_ p true = (a, Some s).
Proof. intros H. unfold get_lockout_state. by rewrite H. Qed.

(** Reading the row of a principal, creating it if need be. *)
Lemma get_lockout_ok a at_ p :
  auth_wf a → ∃ a1 s, get_lockout_state a at_ p true = (a1, Some s) ∧ auth_wf a1 ∧
    principal_row a1 at_ p s.
Proof.
  intros [K F]. unfold get_lockout_state.
  destruct (where_ (of_principal at_ p) (lockouts a)) as [|s [|d l]] eqn:E.
  - simpl. eexists _, _. split; [done|].
    assert (Hnew : of_principal at_ p (fresh_state (auth_next_id a) at_ p) = true)
      by by apply of_principal_true.
    split.
    + constructor; cbn [lockouts auth_next_id].
      * apply keyed_add; [done| |done]. intros (x & [= H1 H2] & Hx)%list_elem_of_fmap.
        rewrite where_nil_iff in E. specialize (E x Hx).
        assert (of_principal at_ p x = true) by by apply of_principal_true. congruence.
      * apply Forall_app. split; [done|]. by repeat constructor.
    + unfold principal_row. cbn [lockouts]. rewrite where_app, E. unfold where_. simpl.
      by rewrite Hnew.
  - exists a, s. by split_and!.
  - exfalso. assert (Hin : ∀ x, x ∈ s :: d :: l → x ∈ lockouts a ∧ of_principal at_ p x = true).
    { intros x Hx. rewrite <- E in Hx. by apply elem_of_where in Hx. }
    destruct (Hin s) as [Hs Ps]; [left|]. destruct (Hin d) as [Hd Pd]; [right; left|].
    assert (d = s) as ->.
    { apply (NoDup_fmap_eq state_key (lockouts a)); [apply K|done|done|].
      apply of_principal_true in Ps as [H1 H2], Pd as [H3 H4]. unfold state_key. congruence. }
    assert (Hnd : NoDup (where_ (of_principal at_ p) (lockouts a))).
    { apply NoDup_where. eapply NoDup_fmap_1, (keyed_id _ _ _ _ K). }
    rewrite E in Hnd. apply NoDup_cons in Hnd as [Hnd _]. apply Hnd. left.
Qed.

(** Writing the row back. *)
Lemma save_state_ok a at_ p s s' :
  auth_wf a → principal_row a at_ p s → au_id s' = au_id s → state_key s' = state_key s →
  0 <= au_failed_attempts s' → auth_wf (save_state s' a) ∧ principal_row (save_state s' a) at_ p s'.
Proof.
  intros [K F] R Hid Hkey Hc. pose proof (principal_row_elem _ _ _ _ R) as [Hin Hp].
  assert (Hsame : ∀ x, x ∈ lockouts a → (au_id x =? au_id s') = true → x = s).
  { intros x Hx Hx'. bool_hyps. apply (NoDup_fmap_eq au_id (lockouts a)); [apply K|done|done|congruence]. }
  assert (Hp' : of_principal at_ p s' = true).
  { apply of_principal_true. apply of_principal_true in Hp as [H1 H2].
    injection Hkey as H3 H4. split; congruence. }
  split.
  - destruct K as [Ki Kk Kf]. constructor; [constructor|]; cbn [save_state set_lockouts lockouts auth_next_id].
    + rewrite update_where_fmap_in; [done|]. intros x _ Hx. by bool_hyps.
    + rewrite update_where_fmap_in; [done|]. intros x Hx Hq. by rewrite (Hsame x Hx Hq).
    + rewrite Forall_forall in Kf |- *. intros x (y & Hy & ->)%elem_of_update_where.
      destruct (au_id y =? au_id s') eqn:E; [|by apply Kf]. bool_hyps. rewrite <- E. by apply Kf.
    + rewrite Forall_forall in F |- *. intros x (y & Hy & ->)%elem_of_update_where.
      destruct (_ =? _); [done|by apply F].
  - unfold principal_row. cbn [save_state set_lockouts lockouts].
    rewrite where_update_in.
    + rewrite R. unfold update_where. simpl. by rewrite Hid, Z.eqb_refl.
    + intros x Hx Hq. by rewrite (Hsame x Hx Hq), Hp, Hp'.
Qed.

Lemma record_failed_row s now dur thr win :
  let s' := (record_failed_login s now dur thr win).1 in
  au_id s' = au_id s ∧ state_key s' = state_key s ∧
  (0 <= au_failed_attempts s → 0 <= au_failed_attempts s').
Proof.
  unfold record_failed_login. destruct (is_locked (Some s) now); simpl; [done|].
  split_and!; [done|done|]. destruct (window_reset s win now); lia.
Qed.

Section LoginSafety.
Context `{zone : PragueZone} `{crypto : Crypto}.

(** A failed attempt turns the row into [after_failure] of it. *)
Lemma portal_failure p now payload s :
  let email := normalize_email (lg_email payload) in
  auth_wf (p_auth p) → principal_row (p_auth p) "portal" email s →
  check_credentials (p_db p) email (lg_password payload) = None →
  ∃ a' err, portal_login p now payload = (set_p_auth a' p, Err err) ∧ auth_wf a' ∧
    principal_row a' "portal" email
      (after_failure PORTAL_LOCKOUT_DURATION LOCKOUT_THRESHOLD LOCKOUT_WINDOW s now).
Proof.
  intros email W R Hc. unfold portal_login. fold email.
  rewrite (get_existing _ _ _ _ R). cbn zeta.
  destruct (is_locked (Some s) now) eqn:Hk.
  - do 2 eexists. split; [done|]. split; [done|]. by rewrite after_failure_locked.
  - rewrite Hc. unfold record_login_failure. rewrite (get_existing _ _ _ _ R).
    unfold after_failure.
    pose proof (record_failed_row s now PORTAL_LOCKOUT_DURATION LOCKOUT_THRESHOLD LOCKOUT_WINDOW)
      as (Hid & Hkey & Hn).
    destruct (record_failed_login s now PORTAL_LOCKOUT_DURATION LOCKOUT_THRESHOLD LOCKOUT_WINDOW)
      as [s' b] eqn:Er. cbn [fst] in *.
    do 2 eexists. split; [done|]. apply save_state_ok with s; try done. apply Hn.
    pose proof (aw_attempts _ W) as F. rewrite Forall_forall in F. apply F.
    by apply (principal_row_elem _ _ _ _ R).
Qed.

(** What happens to one account: attempts at POST /api/v1/portal/login, and
    whatever else leads the portal to another state. *)
Inductive login_event := Attempt (now : Z) (payload : PortalLoginIn) | Meanwhile (p : Portal).

Definition attempt_time (e : login_event) : option Z :=
  match e with Attempt now _ => Some now | Meanwhile _ => None end.

(** The times of the attempts that found the account unlocked, so that the
    password was checked. *)
Fixpoint passwords_checked (p : Portal) (events : list login_event) : list Z :=
  match events with
  | [] => []
  | Attempt now payload :: rest =>
      let email := normalize_email (lg_email payload) in
      (if is_locked (get_lockout_state (p_auth p) "portal" email true).2 now then [] else [now]) ++
      passwords_checked (portal_login p now payload).1 rest
  | Meanwhile p' :: rest => passwords_checked p' rest
  end.

(** Every attempt is at this e-mail with a password its account does not have
    then, and whatever else happens leaves the lock-out row of the e-mail. *)
Definition lockout_rows (p : Portal) (email : string) : list AuthLockoutState :=
  where_ (of_principal "portal" email) (lockouts (p_auth p)).

Fixpoint guesses (email : string) (p : Portal) (events : list login_event) : Prop :=
  match events with
  | [] => True
  | Attempt now payload :: rest =>
      normalize_email (lg_email payload) = email ∧
      check_credentials (p_db p) email (lg_password payload) = None ∧
      guesses email (portal_login p now payload).1 rest
  | Meanwhile p' :: rest =>
      auth_wf (p_auth p') ∧ lockout_rows p' email = lockout_rows p email ∧ guesses email p' rest
  end.

Lemma passwords_checked_eq p email s events :
  auth_wf (p_auth p) → principal_row (p_auth p) "portal" email s → guesses email p events →
  passwords_checked p events =
  checked PORTAL_LOCKOUT_DURATION LOCKOUT_THRESHOLD LOCKOUT_WINDOW s (omap attempt_time events).
Proof.
  revert p s. induction events as [|[now payload|p'] l IH]; intros p s W R Hl; [done| |].
  - destruct Hl as (He & Hc & Hl). simpl. rewrite He, (get_existing _ _ _ _ R). cbn [snd]. f_equal.
    pose proof (portal_failure p now payload s) as Hf. cbn zeta in Hf. rewrite He in Hf.
    destruct (Hf W R Hc) as (a' & err & E & W' & R'). rewrite E in Hl |- *. by apply IH.
  - destruct Hl as (W' & Hr & Hl). simpl. apply IH; [done| |done].
    change (lockout_rows p' email = [s]). by rewrite Hr.
Qed.

(** The first attempt creates the row if need be. *)
Lemma first_attempt p email now payload rest :
  auth_wf (p_auth p) → guesses email p (Attempt now payload :: rest) →
  ∃ a1 s, auth_wf a1 ∧ principal_row a1 "portal" email s ∧
    guesses email (set_p_auth a1 p) (Attempt now payload :: rest) ∧
    passwords_checked p (Attempt now payload :: rest) =
    passwords_checked (set_p_auth a1 p) (Attempt now payload :: rest).
Proof.
  intros W (He & Hc & Hl). destruct (get_lockout_ok (p_auth p) "portal" email W) as (a1 & s & Hg & W1 & R1).
  exists a1, s. split; [done|]. split; [done|].
  assert (Heq : (portal_login (set_p_auth a1 p) now payload).1 = (portal_login p now payload).1).
  { unfold portal_login. rewrite He. cbn [set_p_auth p_auth p_db].
    by rewrite Hg, (get_existing _ _ _ _ R1), Hc. }
  split; [split_and!; [done|done|by rewrite Heq]|]. simpl. rewrite Heq, He, Hg. cbn [set_p_auth p_auth].
  by rewrite (get_existing _ _ _ _ R1).
Qed.


Lemma clear_row a email s :
  auth_wf a → principal_row a "portal" email s →
  ∃ s', principal_row (clear_user_lockout a "portal" email) "portal" email s' ∧
    au_locked_until s' = None.
Proof.
  intros W R. exists (reset_lock_state s). split; [|done].
  unfold principal_row, clear_user_lockout. cbn [set_lockouts lockouts].
  rewrite where_update_comm by done. rewrite R. unfold update_where. simpl.
  by rewrite (proj2 (principal_row_elem _ _ _ _ R)).
Qed.

Lemma credentials_ok db email password u v :
  check_credentials db email password = Some (u, v) →
  ∃ h, u ∈ users db ∧ pu_email u = email ∧ pu_is_active u = true ∧ pu_password_hash u = Some h ∧
    verify_password password h = true.
Proof.
  unfold check_credentials, find_user_by_email.
  destruct (where_ (λ u, String.eqb (pu_email u) email) (users db)) as [|u' l] eqn:E; [done|]. simpl.
  destruct (pu_password_hash u') as [h|] eqn:Hh; [|done]. simpl.
  destruct (pu_is_active u') eqn:Ha; [|done]. simpl.
  destruct (pv_valid (verify_password_details password h)) eqn:Hv; [|done]. intros [= <- <-].
  assert (Hu : u' ∈ where_ (λ u, String.eqb (pu_email u) email) (users db)) by (rewrite E; left).
  apply elem_of_where in Hu as [Hu He]. apply String.eqb_eq in He.
  exists h. by split_and!.
Qed.

(** What a rehash leaves alone. *)
Lemma rehash_other u password v p :
  employments (p_db (rehash u password v p)) = employments (p_db p) ∧
  p_instances (rehash u password v p) = p_instances p ∧ p_auth (rehash u password v p) = p_auth p ∧
  p_resets (rehash u password v p) = p_resets p.
Proof. unfold rehash. by destruct (pv_needs_rehash v). Qed.

Lemma get_instance_ok p i x : get_instance p i = Some x → x ∈ p_instances p ∧ inst_id x = i.
Proof.
  unfold get_instance. destruct (where_ (λ y, String.eqb (inst_id y) i) (p_instances p)) as [|y l] eqn:E;
    [done|]. simpl. intros [= <-].
  assert (Hy : y ∈ where_ (λ x, String.eqb (inst_id x) i) (p_instances p)) by (rewrite E; left).
  by apply elem_of_where in Hy as [Hy Hi%String.eqb_eq].
Qed.

Lemma issue_login_ok p u now p' out :
  issue_portal_login p u now = Ok (p', out) →
  p_auth p' = p_auth p ∧
  ∃ i e, i ∈ p_instances p ∧ pu_instance_id u = Some (inst_id i) ∧ inst_status i = INST_ACTIVE ∧
    e ∈ employments (p_db p) ∧ em_user_id e = pu_id u ∧
    employment_is_within_login_window e (prague_today (Zoned now)) = true ∧
    em_id e ∈ le_id <$> lo_available_employments out ∧ p' = update_instance (inst_id i) (seen_at now) p.
Proof.
  unfold issue_portal_login. intros H. ok_inv H. injection H as <- <-. split; [done|].
  cbn [lo_available_employments].
  bool_hyps. apply bool_decide_eq_true in Hguard1.
  destruct (pu_instance_id u) as [i|] eqn:Hid; [|done]. simpl in Hstep.
  destruct (i =? "")%string; [done|].
  destruct (get_instance p i) as [x|] eqn:E; [|done]. simpl in Hstep. injection Hstep as <-.
  apply get_instance_ok in E as [Hx <-].
  destruct (available _) as [|e es] eqn:Ea; [done|].
  assert (He : e ∈ available (select_login_employments
    (where_ (λ e, em_user_id e =? pu_id u) (employments (p_db p))) (prague_today (Zoned now))))
    by (rewrite Ea; left).
  rewrite available_eq, elem_of_sorted_by, !elem_of_where in He. destruct He as [[He Hu] Hw].
  bool_hyps. exists x, e. split_and!; try done. rewrite fmap_cons. left.
Qed.

(** C24: a portal login succeeds only for an active, unblocked account that is
    not locked, with a password its stored hash accepts, an active instance
    and at least one employment in the login window; it then clears the
    lock-out, and a locked account is answered 423 whatever the password. *)
Theorem portal_login_spec p now payload (W : auth_wf (p_auth p)) :
  let email := normalize_email (lg_email payload) in
  let locked := is_locked (get_lockout_state (p_auth p) "portal" email true).2 now in
  match portal_login p now payload with
  | (p', Ok out) =>
      locked = false ∧ (∀ t, is_locked (get_lockout_state (p_auth p') "portal" email true).2 t = false) ∧
      ∃ u h i e, u ∈ users (p_db p) ∧ pu_email u = email ∧ pu_is_active u = true ∧
        pu_is_blocked u = false ∧ pu_password_hash u = Some h ∧
        verify_password (lg_password payload) h = true ∧
        i ∈ p_instances p ∧ pu_instance_id u = Some (inst_id i) ∧ inst_status i = INST_ACTIVE ∧
        e ∈ employments (p_db p) ∧ em_user_id e = pu_id u ∧
        employment_is_within_login_window e (prague_today (Zoned now)) = true ∧
        em_id e ∈ le_id <$> lo_available_employments out
  | (p', Err err) => locked = true → p_db p' = p_db p ∧ err = account_locked
  end.
Proof.
  intros email locked. unfold portal_login. fold email.
  destruct (get_lockout_ok (p_auth p) "portal" email W) as (a1 & s & Hg & W1 & R1).
  unfold locked. rewrite Hg. cbn [snd].
  destruct (is_locked (Some s) now) eqn:Hk; [done|].
  destruct (check_credentials (p_db p) email (lg_password payload)) as [[u v]|] eqn:Hc.
  2:{ destruct (record_login_failure a1 email now). done. }
  cbn zeta. set (p1 := rehash u _ v _).
  destruct (rehash_other u (lg_password payload) v (set_p_auth a1 p)) as (Hemps & Hinst & Hauth & _).
  fold p1 in Hemps, Hinst, Hauth.
  destruct (pu_is_blocked u) eqn:Hb; [done|].
  destruct (issue_portal_login _ _ _) as [[p2 out]|] eqn:Hi; [|done].
  apply issue_login_ok in Hi as (Ha2 & i & e & Hin & Hid & Hst & Hemp & Hown & Hwin & Hout & _).
  split_and!; [done| |].
  - intros t. destruct (clear_row a1 email s W1 R1) as (s' & R' & Hl).
    cbn [clear_portal_lockout set_p_auth p_auth]. rewrite Ha2, Hauth. cbn [set_p_auth p_auth].
    rewrite (get_existing _ _ _ _ R'). simpl. unfold is_locked. by rewrite Hl.
  - apply credentials_ok in Hc as (h & Hu & He & Ha & Hh & Hv).
    rewrite Hemps in Hemp. rewrite Hinst in Hin.
    exists u, h, i, e. by split_and!.
Qed.
End LoginSafety.
