(* ===== verification/AdminUsers.v ===== *)
(** * app/api/v1/admin_users.py: the administration of users

    Creating, changing, blocking, unlocking and deleting a user, and setting a
    password.  A request that raises leaves everything as it was. *)

From stdpp Require Import relations.
From S2P Require Import Prelude Calendar TimeParse PragueTime Models EmploymentAccess DayStatus.
From S2P Require Import AttendanceEvents AttendanceApi Groups AdminEmployments Lockout Accounts Login.
#[local] Open Scope Z_scope.

(** ** Request bodies *)

Record PortalUserCreateIn := mk_user_create {
  uc_name : string;
  uc_email : string;
  uc_phone : option string;
  uc_role : string;
  uc_password : option string;
  uc_is_active : bool;
}.

Record PortalUserUpdateIn := mk_user_update {
  uu_name : option string;
  uu_email : option string;
  uu_phone : option string;
  uu_role : option string;
  uu_is_active : option bool;
  uu_password : option string;
}.

Definition at_sign : ascii := "@".
Definition dot : ascii := ".".
Definition plus : ascii := "+".
Definition space : ascii := " ".

Definition has_char (c : ascii) (s : list ascii) : bool := existsb (Ascii.eqb c) s.

(** [s.split(c)[-1]]: what follows the last [c], all of it without one. *)
Fixpoint after_last (c : ascii) (s : list ascii) : list ascii :=
  match s with
  | [] => []
  | x :: rest =>
      if has_char c rest then after_last c rest
      else if Ascii.eqb c x then rest else s
  end.

(** The validated name, e-mail and phone; an error is a [ValueError]. *)
Definition validate_name (value : string) : result string :=
  match strip value with
  | EmptyString => Err validation_error
  | normalized => Ok normalized
  end.

Definition validate_email (value : string) : result string :=
  let normalized := normalize_email value in
  let cs := list_ascii_of_string normalized in
  guard (negb (has_char at_sign cs) || negb (has_char dot (after_last at_sign cs))) validation_error ?;;
  Ok normalized.

Fixpoint drop_plus (s : list ascii) : list ascii :=
  match s with
  | x :: rest => if Ascii.eqb plus x then drop_plus rest else s
  | [] => []
  end.

Definition validate_phone (value : option string) : result (option string) :=
  match value with
  | None => Ok None
  | Some v =>
      match strip v with
      | EmptyString => Ok None
      | normalized =>
          let compact := drop_plus (delete_where (Ascii.eqb space) (list_ascii_of_string normalized)) in
          guard (negb (nonempty compact && forallb is_digit compact) ||
                 (Z.of_nat (length compact) <? 9)) validation_error ?;;
          Ok (Some normalized)
      end
  end.

Definition opt_map_result {A B} (f : A → result B) (x : option A) : result (option B) :=
  match x with None => Ok None | Some v => let? w := f v in Ok (Some w) end.

Definition validate_user_create (body : PortalUserCreateIn) : result PortalUserCreateIn :=
  guard (negb (length_between 1 160 (uc_name body) && length_between 3 160 (uc_email body) &&
    opt_all (length_between 0 32) (uc_phone body) && length_between 1 32 (uc_role body) &&
    opt_all (length_between 8 256) (uc_password body))) validation_error ?;;
  let? name := validate_name (uc_name body) in
  let? email := validate_email (uc_email body) in
  let? phone := validate_phone (uc_phone body) in
  Ok (mk_user_create name email phone (uc_role body) (uc_password body) (uc_is_active body)).

Definition validate_user_update (body : PortalUserUpdateIn) : result PortalUserUpdateIn :=
  guard (negb (opt_all (length_between 1 160) (uu_name body) &&
    opt_all (length_between 3 160) (uu_email body) && opt_all (length_between 0 32) (uu_phone body) &&
    opt_all (length_between 1 32) (uu_role body) &&
    opt_all (length_between 8 256) (uu_password body))) validation_error ?;;
  let? name := opt_map_result validate_name (uu_name body) in
  let? email := opt_map_result validate_email (uu_email body) in
  let? phone := validate_phone (uu_phone body) in
  Ok (mk_user_update name email phone (uu_role body) (uu_is_active body) (uu_password body)).

(** [PortalUserPasswordIn]. *)
Definition validate_password_in (password : string) : result unit :=
  guard (negb (length_between 8 256 password)) validation_error.

(** [PortalUserRole(value)]. *)
Definition parse_role (value : string) : option unit :=
  if String.eqb value "employee" then Some tt else None.

Definition normalize_phone (raw_phone : option string) : option string :=
  match raw_phone with
  | None => None
  | Some raw => match strip raw with EmptyString => None | phone => Some phone end
  end.

(** ** Responses *)

Record PortalUserOut := mk_user_out {
  uo_id : Z;
  uo_name : string;
  uo_email : string;
  uo_phone : option string;
  uo_role : string;
  uo_has_password : bool;
  uo_is_active : bool;
  uo_is_blocked : bool;
  uo_is_locked : bool;
  uo_locked_until : option Z;
  uo_login_status : string;
  uo_login_status_reason : option string;
  uo_last_login_at : option Z;
  uo_employments : list EmploymentOut;
}.

Section Users.
Context `{zone : PragueZone} `{crypto : Crypto}.

Definition employments_of (p : Portal) (user_id : Z) : list Employment :=
  where_ (λ e, em_user_id e =? user_id) (employments (p_db p)).

Definition user_login_status (p : Portal) (user : PortalUser) (today : date)
    : string * option string :=
  if pu_is_blocked user then
    ("BLOCKED", Some "Váš přístup byl zablokován, obraťte se na svého nadřízeného.")%string
  else if negb (pu_is_active user) then
    ("DEACTIVATED", Some "Ucet je rucne deaktivovany administratorem.")%string
  else if nonempty (available (select_login_employments (employments_of p (pu_id user)) today)) then
    ("ACTIVE"%string, None)
  else if nonempty (employments_of p (pu_id user)) then
    ("EMPLOYMENT_WINDOW_BLOCKED", Some "Zadny uvazek neni v povolenem prihlasovacim okne.")%string
  else ("EMPLOYMENT_WINDOW_BLOCKED", Some "Uzivatel nema zadny uvazek.")%string.

(** [_employment_sort_key]. *)
Definition employment_leb (a b : Employment) : bool :=
  (em_start_date a <? em_start_date b) ||
  ((em_start_date a =? em_start_date b) && (em_id a <=? em_id b)).

Definition to_user_out (p : Portal) (now : Z) (user : PortalUser)
    (lock_state : option AuthLockoutState) : PortalUserOut :=
  let today := prague_today (Zoned now) in
  let '(login_status, login_status_reason) := user_login_status p user today in
  mk_user_out (pu_id user) (strip (pu_name user)) (strip (pu_email user)) (pu_phone user) "employee"
    (truthy (pu_password_hash user)) (pu_is_active user) (pu_is_blocked user)
    (is_locked lock_state now) (s ← lock_state; au_locked_until s)
    login_status login_status_reason
    (i ← instance_of p user; inst_last_seen_at i)
    (to_employment_out (p_db p) today <$> sorted_by employment_leb (employments_of p (pu_id user))).

(** ** Endpoints *)

Definition RESERVED_ADMIN_EMAIL : string := "provoz@hotelchodovasc.cz".
Definition user_not_found : api_error := ApiError 404 "user_not_found".

Definition find_user (p : Portal) (user_id : Z) : result PortalUser :=
  or_raise (get_user (p_db p) user_id) user_not_found.

(** [_apply_password]: the [ValueError] of the policy is a 400. *)
Definition apply_password (p : Portal) (user : PortalUser) (raw_password : option string) (now : Z)
    : result (Portal * PortalUser) :=
  match raw_password with
  | None => Ok (p, user)
  | Some raw =>
      let password := strip raw in
      guard (String.eqb password "") (ApiError 400 "Heslo nesmi byt prazdne.") ?;;
      or_raise (change_portal_password p user password now) (ApiError 400 "Heslo nesmí být prázdné.")
  end.

(** The lengths of the columns of [instances]: PostgreSQL refuses a longer
    text when the row is written. *)
Definition instance_row_ok (x : Instance_) : bool :=
  (Z.of_nat (String.length (inst_device_fingerprint x)) <=? 128) &&
  opt_all (λ n, Z.of_nat (String.length n) <=? 128) (inst_display_name x).

Definition flush_instance (x : Instance_) : result unit :=
  guard (negb (instance_row_ok x)) (Crash "DataError").

Definition email_taken (p : Portal) (email : string) (other_than : option Z) : bool :=
  existsb (λ u, String.eqb (pu_email u) email &&
    match other_than with Some i => negb (pu_id u =? i) | None => true end) (users (p_db p)).

Definition create_user (p : Portal) (now : Z) (uuid : string) (body : PortalUserCreateIn)
    : result (Portal * PortalUserOut) :=
  let? payload := validate_user_create body in
  let email := normalize_email (uc_email payload) in
  guard (String.eqb email RESERVED_ADMIN_EMAIL) (ApiError 400 "reserved_admin_email") ?;;
  or_raise (parse_role (uc_role payload)) (ApiError 400 "invalid_user_role") ?;;
  guard (email_taken p email None) (ApiError 409 "user_email_exists") ?;;
  let inst := mk_instance uuid WEB ("user:" +:+ email) INST_ACTIVE (Some (strip (uc_name payload)))
    (Some now) None None None None now (Some now) in
  flush_instance inst ?;;
  guard (is_some (get_instance p uuid)) (Crash "IntegrityError") ?;;
  let user := mk_user (next_id (p_db p)) email (strip (uc_name payload)) None
    (uc_is_active payload) false (Some uuid) (normalize_phone (uc_phone payload)) in
  let p1 := set_p_db (bump_id (set_users (users (p_db p) ++ [user]) (p_db p)))
    (set_p_instances (p_instances p ++ [inst]) p) in
  let? (p2, user) := apply_password p1 user (uc_password payload) now in
  let p' := save_user user p2 in
  Ok (p', to_user_out p' now user None).

Definition with_blocked (blocked : bool) (u : PortalUser) : PortalUser :=
  mk_user (pu_id u) (pu_email u) (pu_name u) (pu_password_hash u) (pu_is_active u) blocked
    (pu_instance_id u) (pu_phone u).

Definition block_user (p : Portal) (now user_id : Z) (blocked : bool)
    : result (Portal * PortalUserOut) :=
  let? user := find_user p user_id in
  let user := with_blocked blocked user in
  let p1 := if blocked
    then revoke_instance_credential (revoke_password_reset_tokens p (pu_id user) now) user
    else p in
  let p' := save_user user p1 in
  Ok (p', to_user_out p' now user None).

(** *** [update_user], field by field *)

Definition with_name (name : string) (u : PortalUser) : PortalUser :=
  mk_user (pu_id u) (pu_email u) name (pu_password_hash u) (pu_is_active u) (pu_is_blocked u)
    (pu_instance_id u) (pu_phone u).
Definition with_phone (phone : option string) (u : PortalUser) : PortalUser :=
  mk_user (pu_id u) (pu_email u) (pu_name u) (pu_password_hash u) (pu_is_active u) (pu_is_blocked u)
    (pu_instance_id u) phone.
Definition with_email (email : string) (u : PortalUser) : PortalUser :=
  mk_user (pu_id u) email (pu_name u) (pu_password_hash u) (pu_is_active u) (pu_is_blocked u)
    (pu_instance_id u) (pu_phone u).
Definition with_active (active : bool) (u : PortalUser) : PortalUser :=
  mk_user (pu_id u) (pu_email u) (pu_name u) (pu_password_hash u) active (pu_is_blocked u)
    (pu_instance_id u) (pu_phone u).

(** The instance of the user shows the same name. *)
Definition update_name (p : Portal) (user : PortalUser) (name : option string)
    : Portal * PortalUser :=
  match name with
  | None => (p, user)
  | Some name =>
      let user := with_name (strip name) user in
      (match instance_of p user with
       | Some i => update_instance (inst_id i) (with_display_name (Some (pu_name user))) p
       | None => p
       end, user)
  end.

Definition update_email (p : Portal) (user : PortalUser) (email : option string)
    : result (Portal * PortalUser) :=
  match email with
  | None => Ok (p, user)
  | Some email =>
      let email := normalize_email email in
      guard (String.eqb email RESERVED_ADMIN_EMAIL) (ApiError 400 "reserved_admin_email") ?;;
      if String.eqb email (pu_email user) then Ok (p, user)
      else
        guard (email_taken p email (Some (pu_id user))) (ApiError 409 "user_email_exists") ?;;
        let p := clear_portal_lockout (lower (pu_email user)) p in
        Ok (revoke_portal_unlock_tokens (lower (pu_email user)) p, with_email email user)
  end.

Definition update_active (p : Portal) (now : Z) (user : PortalUser) (is_active : option bool)
    : Portal * PortalUser :=
  match is_active with
  | None => (p, user)
  | Some active =>
      let user := with_active active user in
      (if active then p
       else revoke_instance_credential (revoke_password_reset_tokens p (pu_id user) now) user, user)
  end.

(** The rows of the changed instance are written at the commit. *)
Definition update_user (p : Portal) (now user_id : Z) (body : PortalUserUpdateIn)
    : result (Portal * PortalUserOut) :=
  let? payload := validate_user_update body in
  let? user0 := find_user p user_id in
  let '(p1, user) := update_name p user0 (uu_name payload) in
  let user := match uu_phone payload with
    | Some phone => with_phone (normalize_phone (Some phone)) user
    | None => user
    end in
  let? (p2, user) := update_email p1 user (uu_email payload) in
  match uu_role payload with
  | Some role => or_raise (parse_role role) (ApiError 400 "invalid_user_role")
  | None => Ok tt
  end ?;;
  let '(p3, user) := update_active p2 now user (uu_is_active payload) in
  let? (p4, user) := apply_password p3 user (uu_password payload) now in
  match instance_of p4 user with Some i => flush_instance i | None => Ok tt end ?;;
  let p' := save_user user p4 in
  Ok (p', to_user_out p' now user None).

Definition set_user_password (p : Portal) (now user_id : Z) (password : string)
    : result (Portal * PortalUserOut) :=
  validate_password_in password ?;;
  let? user := find_user p user_id in
  let? (p1, user) := apply_password p user (Some password) now in
  let p' := save_user user p1 in
  Ok (p', to_user_out p' now user None).

Definition unlock_user (p : Portal) (user_id : Z) : result Portal :=
  let? user := find_user p user_id in
  Ok (revoke_portal_unlock_tokens (lower (pu_email user))
        (clear_portal_lockout (lower (pu_email user)) p)).

(** *** Deleting a user *)

(** Rows that refer to a deleted instance keep no reference
    ([ON DELETE SET NULL]). *)
Definition forget (i : string) (ref : option string) : option string :=
  if bool_decide (ref = Some i) then None else ref.

Definition forget_user (i : string) (u : PortalUser) : PortalUser :=
  mk_user (pu_id u) (pu_email u) (pu_name u) (pu_password_hash u) (pu_is_active u)
    (pu_is_blocked u) (forget i (pu_instance_id u)) (pu_phone u).
Definition forget_attendance (i : string) (a : Attendance) : Attendance :=
  mk_attendance (at_id a) (at_employment_id a) (forget i (at_instance_id a)) (at_date a) (at_status a).
Definition forget_plan (i : string) (x : ShiftPlan) : ShiftPlan :=
  mk_plan (sp_id x) (sp_employment_id x) (forget i (sp_instance_id x)) (sp_date x)
    (sp_arrival_time x) (sp_departure_time x) (sp_status x).
Definition forget_lock (i : string) (k : MonthLock) : MonthLock :=
  mk_lock (lk_id k) (lk_employment_id k) (forget i (lk_instance_id k))
    (lk_year k) (lk_month k) (lk_locked_by k).

Definition forget_reminder (i : string) (r : AttendanceReminderEvent) : AttendanceReminderEvent :=
  mk_reminder (rm_id r) (rm_employment_id r) (forget i (rm_instance_id r)) (rm_attendance_date r)
    (rm_reminder_type r) (rm_sequence_no r) (rm_sent_to r).

Definition forget_instance (i : string) (db : DB) : DB :=
  set_users (forget_user i <$> users db)
  (set_reminders (forget_reminder i <$> reminders db)
  (set_attendance (forget_attendance i <$> attendance db)
  (set_plans (forget_plan i <$> plans db)
  (set_attendance_locks (forget_lock i <$> attendance_locks db)
  (set_shift_plan_locks (forget_lock i <$> shift_plan_locks db) db))))).

Definition delete_instance (i : string) (p : Portal) : Portal :=
  set_p_db (forget_instance i (p_db p))
    (set_p_instances (delete_where (λ x, String.eqb (inst_id x) i) (p_instances p)) p).

(** [delete(Employment).where(user_id == ...)], with what refers to them. *)
Definition delete_user_employments (user_id : Z) (p : Portal) : Portal :=
  let ids := em_id <$> employments_of p user_id in
  set_p_db (delete_employment_rows (λ i, mem i ids) (p_db p)) p.

Definition delete_user_row (user_id : Z) (p : Portal) : Portal :=
  set_p_db (set_users (delete_where (λ u, pu_id u =? user_id) (users (p_db p))) (p_db p))
    (set_p_resets (delete_where (λ r, rt_user_id r =? user_id) (p_resets p)) p).

(** The WEB instance that no other user has is deleted. *)
Definition delete_user_instance (i : Instance_) (p : Portal) : Portal :=
  if bool_decide (inst_client_type i = WEB) &&
     negb (existsb (λ u, bool_decide (pu_instance_id u = Some (inst_id i))) (users (p_db p)))
  then delete_instance (inst_id i) p else p.

Definition clear_account (email : string) (p : Portal) : Portal :=
  if String.eqb email "" then p
  else revoke_portal_unlock_tokens email (clear_portal_lockout email p).

Definition delete_user (p : Portal) (user_id : Z) : result Portal :=
  let? row := find_user p user_id in
  let p1 := clear_account (normalize_email (pu_email row)) p in
  let p2 := delete_user_employments user_id
    (set_p_resets (delete_where (λ r, rt_user_id r =? user_id) (p_resets p1)) p1) in
  let instance_id := strip (default ""%string (pu_instance_id row)) in
  let instance := if String.eqb instance_id "" then None else get_instance p2 instance_id in
  Ok match instance with
     | None => delete_user_row user_id p2
     | Some i =>
         delete_user_instance i
           (delete_user_row user_id (update_instance (inst_id i) (with_bearer None None) p2))
     end.

(** *** Lists: [name_leb] is the collation of the database *)

Definition user_leb (name_leb : string → string → bool) (a b : PortalUser) : bool :=
  if String.eqb (pu_name a) (pu_name b) then pu_id a <=? pu_id b
  else name_leb (pu_name a) (pu_name b).

(** The dictionary keeps the last row of a principal. *)
Definition lock_by_principal (p : Portal) (principal : string) : option AuthLockoutState :=
  last (where_ (of_principal "portal" principal) (lockouts (p_auth p))).

Definition list_users (name_leb : string → string → bool) (p : Portal) (now : Z)
    : list PortalUserOut :=
  (λ u, to_user_out p now u (lock_by_principal p (lower (pu_email u))))
    <$> sorted_by (user_leb name_leb) (users (p_db p)).

Definition list_user_employments (p : Portal) (now user_id : Z) : list EmploymentOut :=
  to_employment_out (p_db p) (prague_today (Zoned now))
    <$> sorted_by employment_leb (employments_of p user_id).
End Users.
