(* ===== verification/PasswordReset.v ===== *)
(** * Resetting a password by e-mail

    [send_reset_link] of api/v1/admin_users.py and [portal_reset] of
    api/v1/portal_auth.py.  Issuing a link commits a pending token, sends the
    e-mail and commits again, so it is two steps: whatever other requests do
    in between is an argument of the whole. *)

From stdpp Require Import relations.
From S2P Require Import Prelude Calendar TimeParse PragueTime Models AttendanceEvents AttendanceApi.
From S2P Require Import Groups AdminEmployments Lockout Accounts Login AdminUsers.
#[local] Open Scope Z_scope.

Definition RESET_TTL_HOURS : Z := 24.

(** What sending the e-mail came to: delivered, one of the handled errors
    ([OSError], [ValueError], [SMTPException]), or another exception. *)
Inductive delivery := Delivered | DeliveryError | DeliveryCrash (what : string).

Record PortalResetIn := mk_reset_in { ri_token : string; ri_password : string }.

Section Reset.
Context `{zone : PragueZone} `{crypto : Crypto}.

(** ** Issuing a link *)

Definition account_blocked : api_error := ApiError 403 "portal_account_blocked".

(** Up to the first commit: every older token is revoked, the new one is
    pending. *)
Definition start_reset (p : Portal) (now user_id : Z) (raw_token : string)
    : result (Portal * PortalUserResetToken) :=
  let? user := or_raise (lock_portal_user p user_id) user_not_found in
  guard (negb (pu_is_active user)) user_not_found ?;;
  guard (pu_is_blocked user) account_blocked ?;;
  let p1 := revoke_password_reset_tokens p (pu_id user) now in
  let row := mk_reset (p_next_reset p) (pu_id user) (sha256 raw_token)
    (now + RESET_TTL_HOURS * us_per_hour) None RESET_PENDING None in
  Ok (mk_portal (p_db p1) (p_auth p1) (p_instances p1) (p_resets p1 ++ [row]) (p_next_reset p1 + 1),
      row).

Definition get_reset (p : Portal) (i : Z) : option PortalUserResetToken :=
  one_or_none (where_ (λ r, rt_id r =? i) (p_resets p)).

(** The unique index [uq_portal_reset_one_active_sent]. *)
Definition active_sent (r : PortalUserResetToken) : bool :=
  bool_decide (rt_delivery_state r = RESET_SENT) && unused r.

(** Writing the delivery state: the row must still be there, and the index
    must hold. *)
Definition write_delivery (p : Portal) (row : PortalUserResetToken) (state : ResetDeliveryState)
    (revoked : bool) (now : Z) : result Portal :=
  let? _ := or_raise (get_reset p (rt_id row)) (Crash "StaleDataError") in
  let p' := update_reset (rt_id row) (mark_reset_delivery state revoked now) p in
  guard (1 <? count_of (where_ (λ r, active_sent r && (rt_user_id r =? rt_user_id row)) (p_resets p')))
    (Crash "IntegrityError") ?;;
  Ok p'.

(** After the e-mail. *)
Definition finish_reset (p : Portal) (now : Z) (row : PortalUserResetToken) (mail : delivery)
    : Portal * result unit :=
  let failed err :=
    match write_delivery p row RESET_FAILED true now with
    | Ok p' => (p', Err err)
    | Err crash => (p, Err crash)
    end in
  match mail with
  | DeliveryCrash what => (p, Err (Crash what))
  | DeliveryError => failed (ApiError 400 "reset_email_failed")
  | Delivered =>
      let stale := match lock_portal_user p (rt_user_id row) with
        | None => true
        | Some u => negb (pu_is_active u) || pu_is_blocked u
        end in
      if stale then failed (ApiError 409 "reset_delivery_stale")
      else
        match write_delivery p row RESET_SENT false now with
        | Ok p' => (p', Ok tt)
        | Err crash => (p, Err crash)
        end
  end.

(** [meanwhile]: what the other requests do while the e-mail is sent. *)
Definition send_reset_link (p : Portal) (now user_id : Z) (raw_token : string)
    (meanwhile : Portal → Portal) (later : Z) (mail : delivery) : Portal * result unit :=
  match start_reset p now user_id raw_token with
  | Err e => (p, Err e)
  | Ok (p1, row) => finish_reset (meanwhile p1) later row mail
  end.

(** ** Using a link *)

Definition reset_token_invalid : api_error := ApiError 400 "portal_reset_token_invalid".

Definition usable (now : Z) (r : PortalUserResetToken) : bool :=
  unused r && bool_decide (rt_delivery_state r = RESET_SENT) && (now <? rt_expires_at r).

Definition portal_reset (p : Portal) (now : Z) (payload : PortalResetIn) : result Portal :=
  guard (negb (length_between 16 512 (ri_token payload) && length_between 8 512 (ri_password payload)))
    validation_error ?;;
  let? row := or_raise (one_or_none (where_ (λ r, String.eqb (rt_token_hash r) (sha256 (ri_token payload)) &&
      usable now r) (p_resets p))) reset_token_invalid in
  let? owner := or_raise (lock_portal_user p (rt_user_id row)) reset_token_invalid in
  guard (negb (pu_is_active owner)) reset_token_invalid ?;;
  guard (pu_is_blocked owner) account_blocked ?;;
  let? user := or_raise (lock_portal_user p (rt_user_id row)) reset_token_invalid in
  guard (negb (pu_is_active user)) reset_token_invalid ?;;
  guard (pu_is_blocked user) account_blocked ?;;
  let? row := or_raise (one_or_none (where_ (λ r, (rt_id r =? rt_id row) && usable now r) (p_resets p)))
    reset_token_invalid in
  let? (p1, user) := or_raise (change_portal_password p user (ri_password payload) now)
    (ApiError 400 "portal_password_policy_failed") in
  Ok (update_reset (rt_id row) (used_at now) (save_user user p1)).
End Reset.
