(* ===== verification/Instances.v ===== *)
(** * Access instances and the authentication of a request

    security/tokens.py, api/v1/public_instances.py, api/v1/admin_instances.py
    and the dependencies [require_admin], [require_instance_auth] and
    [require_portal_user_auth] of api/deps.py. *)

From stdpp Require Import relations.
From S2P Require Import Prelude Calendar TimeParse PragueTime Models AttendanceEvents AttendanceApi.
From S2P Require Import Groups AdminEmployments Lockout Accounts Sessions Login AdminUsers.
#[local] Open Scope Z_scope.

(** ** Bearer tokens (security/tokens.py) *)

Definition TOKEN_HUMAN_PREFIX : string := "dg_".

Definition validate_token_format (token : string) : bool :=
  starts_with TOKEN_HUMAN_PREFIX token &&
  (19 <=? Z.of_nat (String.length token)) && (Z.of_nat (String.length token) <=? 256).

Section Instances.
Context `{zone : PragueZone} `{crypto : Crypto} `{signing : Signing}.

Definition hash_token (token : string) : string := argon2_hash token.

Definition verify_token (token stored_hash : string) : bool :=
  match argon2_verify stored_hash token with Some valid => valid | None => false end.

(** The first instance whose stored hash accepts the token. *)
Definition verify_instance_token (p : Portal) (raw_token : string) : option Instance_ :=
  if validate_token_format raw_token then
    one_or_none (where_ (λ i, match inst_token_hash i with
                              | Some (String _ _ as h) => verify_token raw_token h
                              | _ => false
                              end) (p_instances p))
  else None.

(** [rotate_instance_token]: [token] is the random token it generates. *)
Definition rotate_instance_token (now : Z) (token : string) (i : Instance_) : Instance_ :=
  with_bearer (Some (hash_token token)) (Some now) i.

Definition issue_instance_token_once (now : Z) (token : string) (i : Instance_) : option Instance_ :=
  if truthy (inst_token_hash i) then None else Some (rotate_instance_token now token i).

(** ** The public and the administration endpoints *)

Record RegisterInstanceIn := mk_register {
  ir_client_type : ClientType;
  ir_device_fingerprint : string;
  ir_display_name : option string;
}.

(** A blank name is kept out when it was empty before the trim. *)
Definition optional_trim (s : option string) : option string :=
  match s with Some (String _ _ as x) => Some (strip x) | _ => None end.

Definition register_instance (p : Portal) (now : Z) (uuid : string) (body : RegisterInstanceIn)
    : result (Portal * (string * InstanceStatus)) :=
  guard (negb (length_between 1 128 (ir_device_fingerprint body) &&
    opt_all (length_between 0 128) (ir_display_name body))) validation_error ?;;
  let inst := mk_instance uuid (ir_client_type body) (strip (ir_device_fingerprint body)) INST_PENDING
    (optional_trim (ir_display_name body)) None None None None None now (Some now) in
  flush_instance inst ?;;
  guard (is_some (get_instance p uuid)) (Crash "IntegrityError") ?;;
  Ok (set_p_instances (p_instances p ++ [inst]) p, (uuid, inst_status inst)).

Definition instance_missing : api_error := ApiError 404 "Instance not found".

Definition get_instance_status (p : Portal) (now : Z) (instance_id : string)
    : result (Portal * (InstanceStatus * option string)) :=
  let? inst := or_raise (get_instance p instance_id) instance_missing in
  Ok (update_instance (inst_id inst) (seen_at now) p,
      (inst_status inst,
       if bool_decide (inst_status inst = INST_ACTIVE) then inst_display_name inst else None)).

Definition claim_instance_token (p : Portal) (now : Z) (instance_id token : string)
    : result (Portal * (string * option string)) :=
  let? inst := or_raise (get_instance p instance_id) instance_missing in
  guard (negb (bool_decide (inst_status inst = INST_ACTIVE))) (ApiError 409 "Instance is not active") ?;;
  Ok (update_instance (inst_id inst) (rotate_instance_token now token) p,
      (token, inst_display_name inst)).

(** [order_by(Instance.created_at, Instance.id)]. *)
Definition instance_leb (a b : Instance_) : bool :=
  (inst_created_at a <? inst_created_at b) ||
  ((inst_created_at a =? inst_created_at b) && String.leb (inst_id a) (inst_id b)).

Definition list_instances (p : Portal) (status : InstanceStatus) : list Instance_ :=
  sorted_by instance_leb (where_ (λ i, bool_decide (inst_status i = status)) (p_instances p)).

Definition activated (now : Z) (name : option string) (i : Instance_) : Instance_ :=
  mk_instance (inst_id i) (inst_client_type i) (inst_device_fingerprint i) INST_ACTIVE
    name (Some now) None None (inst_token_hash i) (inst_token_issued_at i)
    (inst_created_at i) (inst_last_seen_at i).

Definition activate_instance (p : Portal) (now : Z) (instance_id : string) (display_name : option string)
    : result (Portal * Instance_) :=
  guard (negb (opt_all (length_between 0 128) display_name)) validation_error ?;;
  let? inst := or_raise (get_instance p instance_id) (ApiError 404 "instance_not_found") in
  guard (negb (bool_decide (inst_status inst = INST_PENDING))) (ApiError 409 "instance_activation_conflict") ?;;
  let name := match optional_trim display_name with
    | Some (String _ _ as n) => Some n
    | _ => inst_display_name inst
    end in
  Ok (update_instance (inst_id inst) (activated now name) p, activated now name inst).

(** ** Who sends a request (api/deps.py) *)

(** What the dependencies read of a request; [rq_claims] and [rq_cml_user_id]
    are set by the middleware that verified a KajovoCML assertion. *)
Record HttpRequest := mk_request {
  rq_method : string;
  rq_authorization : option string;
  rq_cookie : option Cookie;
  rq_csrf_session : option CsrfSession;
  rq_csrf_header : option string;
  rq_claims : bool;
  rq_cml_user_id : option Z;
  rq_cml_admin : option AdminSession;
  rq_browser_entry_only : bool;
  rq_from_browser : bool;
}.

(** [authorization.split(" ", 1)]: the text around the first space. *)
Fixpoint split_space (s : list ascii) : option (list ascii * list ascii) :=
  match s with
  | [] => None
  | c :: rest =>
      if Ascii.eqb c space then Some ([], rest)
      else match split_space rest with Some (a, b) => Some (c :: a, b) | None => None end
  end.

Definition bearer_from_auth_header (authorization : option string) : option string :=
  match authorization with
  | Some (String _ _ as text) =>
      match split_space (list_ascii_of_string text) with
      | Some (scheme, token) =>
          let token := strip (string_of_list_ascii token) in
          if String.eqb (lower (strip (string_of_list_ascii scheme))) "bearer" &&
             negb (String.eqb token "")
          then Some token else None
      | None => None
      end
  | _ => None
  end.

Definition cml_entry_required : api_error := ApiError 403 "cml_browser_entry_required".
Definition session_invalid : api_error := ApiError 401 "portal_session_invalid".

Definition require_admin (rq : HttpRequest) (now : Z) : result AdminSession :=
  guard (rq_browser_entry_only rq && negb (rq_claims rq)) cml_entry_required ?;;
  let? sess := match rq_cml_admin rq with
    | Some s => if rq_claims rq then Ok s else get_admin_session (rq_cookie rq) now
    | None => get_admin_session (rq_cookie rq) now
    end in
  guard (negb (admin_is_authenticated sess)) (ApiError 401 "Not authenticated") ?;;
  Ok sess.

Definition require_instance_auth (p : Portal) (rq : HttpRequest) : result Instance_ :=
  guard (rq_browser_entry_only rq && rq_from_browser rq && negb (rq_claims rq)) cml_entry_required ?;;
  let? token := or_raise (bearer_from_auth_header (rq_authorization rq))
    (ApiError 401 "portal_session_missing") in
  let? instance := or_raise (verify_instance_token p token) session_invalid in
  guard (negb (bool_decide (inst_status instance = INST_ACTIVE))) (ApiError 403 "Instance not active") ?;;
  Ok instance.

(** [scalar_one_or_none]: several owners of one instance raise. *)
Definition owner_of_instance (p : Portal) (i : string) : result (option PortalUser) :=
  match where_ (λ u, bool_decide (pu_instance_id u = Some i)) (users (p_db p)) with
  | [] => Ok None
  | [u] => Ok (Some u)
  | _ => Err (Crash "MultipleResultsFound")
  end.

(** The user and instance a browser session names. *)
Definition browser_user (p : Portal) (rq : HttpRequest) (now : Z) : result PortalUser :=
  guard (rq_browser_entry_only rq) cml_entry_required ?;;
  let? session := get_portal_session (rq_cookie rq) now in
  let? uid := or_raise (if portal_is_authenticated session then ps_user_id session else None)
    session_invalid in
  let? user := or_raise (get_user (p_db p) uid) session_invalid in
  let? h := or_raise (pu_password_hash user) session_invalid in
  let? same := portal_session_matches_password session h in
  guard (negb same) session_invalid ?;;
  require_csrf_header (rq_claims rq) (rq_method rq) (rq_csrf_session rq) (rq_csrf_header rq) ?;;
  Ok user.

Definition require_portal_user_auth (p : Portal) (rq : HttpRequest) (now : Z)
    : result PortalUserAuth :=
  match (if rq_claims rq then rq_cml_user_id rq else None) with
  | Some uid =>
      let refused := ApiError 403 "CML local account unavailable" in
      let? user := or_raise (get_user (p_db p) uid) refused in
      let? instance := or_raise (instance_of p user) refused in
      guard (negb (pu_is_active user) || pu_is_blocked user ||
             negb (bool_decide (inst_status instance = INST_ACTIVE))) refused ?;;
      Ok (mk_auth user (inst_id instance))
  | None =>
      let? (user, instance) :=
        match bearer_from_auth_header (rq_authorization rq) with
        | Some _ =>
            let? instance := require_instance_auth p rq in
            let? user := owner_of_instance p (inst_id instance) in
            Ok (user, Some instance)
        | None =>
            let? user := browser_user p rq now in
            Ok (Some user, instance_of p user)
        end in
      let? user := or_raise user (ApiError 401 "K tokenu neni prirazen uzivatel") in
      let inactive := ApiError 403 "portal_instance_inactive" in
      let? instance := or_raise instance inactive in
      guard (negb (bool_decide (inst_status instance = INST_ACTIVE))) inactive ?;;
      guard (pu_is_blocked user) (ApiError 403 "portal_account_blocked") ?;;
      Ok (mk_auth user (inst_id instance))
  end.
End Instances.
