(* ===== verification/References.v ===== *)
(** * Deleting an instance changes no fact

    Rows that referred to a deleted instance lose the reference and nothing
    else: the invariants, the locks and the metrics are as before. *)

From stdpp Require Import relations.
From S2P Require Import Prelude Calendar TimeParse PragueTime Models TimeIntervals Breaks TimeMetrics.
From S2P Require Import Locks DayStatus AttendanceEvents MonthSummary AttendanceApi SystemInvariant.
From S2P Require Import Period Groups AdminEmployments EmploymentSafety Lockout Accounts Login AdminUsers.
#[local] Open Scope Z_scope.

Lemma keyed_fmap {A K} (id : A → Z) (key : A → K) (f : A → A) bound (l : list A) :
  (∀ x, id (f x) = id x) → (∀ x, key (f x) = key x) → keyed id key bound l →
  keyed id key bound (f <$> l).
Proof.
  intros Hi Hk [H1 H2 H3]. constructor.
  - rewrite <- list_fmap_compose. erewrite list_fmap_ext; [exact H1|]. intros _ x _. apply Hi.
  - rewrite <- list_fmap_compose. erewrite list_fmap_ext; [exact H2|]. intros _ x _. apply Hk.
  - rewrite Forall_fmap. eapply Forall_impl; [exact H3|]. intros x. simpl. by rewrite Hi.
Qed.

Lemma head_fmap_ {A B} (f : A → B) (l : list A) : head (f <$> l) = f <$> head l.
Proof. by destruct l. Qed.

Section Forget.
Context `{zone : PragueZone} `{!PragueZoneLaws zone}.
Context (i : string) (db : DB).

Abbreviation db' := (forget_instance i db).

(** ** Lookups *)

Lemma forget_plan_rows k : plan_rows db' k = forget_plan i <$> plan_rows db k.
Proof. unfold plan_rows. simpl. by rewrite where_fmap. Qed.
Lemma forget_attendance_rows k : attendance_rows db' k = forget_attendance i <$> attendance_rows db k.
Proof. unfold attendance_rows. simpl. by rewrite where_fmap. Qed.

Lemma forget_attendance_status k : attendance_status db' k = attendance_status db k.
Proof.
  unfold attendance_status. rewrite forget_attendance_rows, head_fmap_.
  by destruct (head (attendance_rows db k)).
Qed.
Lemma forget_plan_status k : plan_status db' k = plan_status db k.
Proof.
  unfold plan_status. fold (plan_rows db' k) (plan_rows db k). rewrite forget_plan_rows, head_fmap_.
  by destruct (head (plan_rows db k)).
Qed.

Lemma forget_locks lt : lock_table lt db' = forget_lock i <$> lock_table lt db.
Proof. by destruct lt. Qed.

Lemma forget_month_locked lt e y m : is_month_locked db' lt e y m = is_month_locked db lt e y m.
Proof.
  apply eq_true_iff_eq. rewrite !is_month_locked_true, forget_locks. split.
  - intros (k & (k0 & -> & Hk)%list_elem_of_fmap & H). by exists k0.
  - intros (k & Hk & H). exists (forget_lock i k). split; [|done]. by apply list_elem_of_fmap_2.
Qed.

(** ** The invariants *)

Lemma forget_inv : inv db → inv db'.
Proof.
  intros [[P A E] N X I Z V [W1 W2] S]. constructor; simpl; try done.
  - constructor; simpl; [by apply keyed_fmap..|done].
  - intros p (p0 & -> & Hp)%list_elem_of_fmap. by apply V in Hp.
  - split.
    + intros p (p0 & -> & Hp)%list_elem_of_fmap. by apply W1 in Hp.
    + intros a (a0 & -> & Ha)%list_elem_of_fmap. by apply W2 in Ha.
  - intros x Hx. unfold no_status. rewrite forget_attendance_status, forget_plan_status. by apply S.
Qed.

Lemma forget_period : period_inv db → period_inv db'.
Proof.
  intros [I X P A M]. constructor; simpl; try done.
  - intros p (p0 & -> & Hp)%list_elem_of_fmap. by apply P in Hp.
  - intros a (a0 & -> & Ha)%list_elem_of_fmap. by apply A in Ha.
Qed.

Lemma forget_side_ids : side_ids db → side_ids db'.
Proof. intros [L S]. constructor; [|done]. intros lt. rewrite forget_locks. by apply keyed_fmap. Qed.

Lemma forget_uq_locks lt :
  uq_lock_employment_month (lock_table lt db) → uq_lock_employment_month (lock_table lt db').
Proof.
  unfold uq_lock_employment_month. rewrite forget_locks, <- list_fmap_compose.
  intros H. erewrite list_fmap_ext; [exact H|done].
Qed.

(** ** The metrics *)

Definition forget_day (d : DaySummary) : DaySummary :=
  mk_day (dy_date d) (forget_attendance i <$> dy_attendance d) (forget_plan i <$> dy_plan d)
    (dy_effective_status d) (dy_worked d) (dy_planned d) (dy_worked_state d) (dy_planned_state d)
    (dy_status_metrics d).

Definition rmap {A B} (f : A → B) (m : result A) : result B := let? x := m in Ok (f x).

Lemma forget_intervals l : shift_plan_intervals (forget_plan i <$> l) = shift_plan_intervals l.
Proof. induction l as [|p l IH]; [done|]. rewrite fmap_cons. simpl. by rewrite IH. Qed.

Lemma effective_status_forget a p :
  effective_status (forget_attendance i <$> a) (forget_plan i <$> p) = effective_status a p.
Proof. by destruct a, p. Qed.

Lemma forget_build_day e start stop pers evs pi d :
  build_day db' e start stop pers evs pi d = rmap forget_day (build_day db e start stop pers evs pi d).
Proof.
  unfold build_day, attendance_in, plans_in. simpl. rewrite !where_fmap, !fmap_last. simpl.
  rewrite effective_status_forget. unfold rmap.
  destruct (calculate_day_status_metrics _ _); [|done]. simpl.
  change (metrics_in db' (em_id e) start stop) with (metrics_in db (em_id e) start stop).
  destruct (if pers then _ else _) as [w|]; [|done]. simpl.
  by destruct (if pers then _ else _) as [pl|].
Qed.

Lemma map_result_rmap {A B C} (f : A → result B) (g : B → C) l :
  map_result (λ x, rmap g (f x)) l = rmap (fmap g) (map_result f l).
Proof.
  unfold rmap. induction l as [|x l IH]; [done|]. simpl. rewrite IH. destruct (f x); [|done].
  simpl. by destruct (map_result f l).
Qed.

Lemma forget_summary e y m :
  build_employment_summary db' e y m false =
  rmap (λ s, mk_summary (forget_day <$> ms_day_summaries s) (ms_worked s) (ms_planned s)
               (ms_status_metrics s)) (build_employment_summary db e y m false).
Proof.
  unfold build_employment_summary, month_range, plans_in. simpl.
  rewrite where_fmap, forget_intervals. simpl.
  change (events_of db' (em_id e)) with (events_of db (em_id e)).
  destruct (shift_plan_intervals _) as [pi|]; [|done]. simpl.
  erewrite map_result_ext by (intros d _; apply forget_build_day). rewrite map_result_rmap.
  destruct (map_result _ _) as [days|]; [|done]. unfold rmap. cbn [rbind ms_day_summaries ms_worked
    ms_planned ms_status_metrics].
  assert (H : ∀ {A} (g : DaySummary → A), (∀ d, g (forget_day d) = g d) →
    g <$> (forget_day <$> days) = g <$> days).
  { intros A g Hg. rewrite <- list_fmap_compose. apply list_fmap_ext. intros _ d _. apply Hg. }
  assert (Ho : ∀ g : DaySummary → option DailyMetrics, (∀ d, g (forget_day d) = g d) →
    omap g (forget_day <$> days) = omap g days).
  { intros g Hg. induction days as [|d l IH]; [done|]. rewrite fmap_cons. csimpl. rewrite Hg.
    assert (omap g (forget_day <$> l) = omap g l) as ->; [|done]. clear -Hg.
    induction l as [|d l IH]; [done|]. rewrite fmap_cons. csimpl. by rewrite Hg, IH. }
  by rewrite !Ho, !H.
Qed.

Lemma existsb_fmap_day (q : DaySummary → bool) l :
  (∀ d, q (forget_day d) = q d) → existsb q (forget_day <$> l) = existsb q l.
Proof. intros Hq. induction l as [|d l IH]; [done|]. rewrite fmap_cons. simpl. by rewrite Hq, IH. Qed.

Lemma forget_metric_rows e y m : month_metric_rows db' e y m = month_metric_rows db e y m.
Proof.
  unfold month_metric_rows. rewrite forget_summary. unfold rmap.
  destruct (build_employment_summary db e y m false) as [s|]; [|done]. cbn [rbind]. f_equal.
  unfold summary_rows, month_summary_source_presence. cbn [ms_day_summaries].
  rewrite !existsb_fmap_day.
  - f_equal. rewrite <- list_fmap_compose. by apply list_fmap_ext.
  - intros d. simpl. by destruct (dy_plan d).
  - intros d. simpl. by destruct (dy_attendance d).
Qed.

Lemma forget_fresh : all_fresh db → all_fresh db'.
Proof. intros H e He y m Hm. unfold month_fresh. rewrite forget_metric_rows. by apply H. Qed.
End Forget.
