(* ===== verification/AccountsSafety.v ===== *)
(** * The accounts stay well formed

    [accounts_inv]: unique e-mails and instances, valid references, at most
    one reset token of a user that is neither used nor revoked, and none for
    an account that is blocked or deactivated.  Every primitive and every
    handler keeps it. *)

From stdpp Require Import relations.
From S2P Require Import Prelude Calendar TimeParse PragueTime Models AttendanceEvents AttendanceApi.
From S2P Require Import Groups AdminEmployments EmploymentSafety Lockout Accounts Sessions Login LoginSafety.
From S2P Require Import AdminUsers PasswordReset Instances.
#[local] Open Scope Z_scope.

Record accounts_inv (p : Portal) : Prop := {
  ai_users : keyed pu_id pu_email (next_id (p_db p)) (users (p_db p));
  ai_emails : ∀ u, u ∈ users (p_db p) → normalize_email (pu_email u) = pu_email u;
  ai_linked : ∀ u i, u ∈ users (p_db p) → pu_instance_id u = Some i → i ∈ inst_id <$> p_instances p;
  ai_owners : ∀ u v i, u ∈ users (p_db p) → v ∈ users (p_db p) →
    pu_instance_id u = Some i → pu_instance_id v = Some i → u = v;
  ai_instances : NoDup (inst_id <$> p_instances p);
  ai_rows : ∀ x, x ∈ p_instances p → instance_row_ok x = true;
  ai_resets : keyed rt_id rt_id (p_next_reset p) (p_resets p);
  ai_reset_users : ∀ r, r ∈ p_resets p → rt_user_id r ∈ pu_id <$> users (p_db p);
  ai_one_unused : ∀ r s, r ∈ p_resets p → s ∈ p_resets p → unused r = true → unused s = true →
    rt_user_id r = rt_user_id s → r = s;
  ai_usable : ∀ r u, r ∈ p_resets p → unused r = true → u ∈ users (p_db p) → pu_id u = rt_user_id r →
    pu_is_active u = true ∧ pu_is_blocked u = false;
  ai_auth : auth_wf (p_auth p);
}.

(** No token of the user can still be used. *)
Definition no_unused (p : Portal) (user_id : Z) : Prop :=
  ∀ r, r ∈ p_resets p → rt_user_id r = user_id → unused r = false.

(** ** E-mails *)

Lemma drop_spaces_cons c l : is_space c = false → drop_spaces (c :: l) = c :: l.
Proof. intros H. simpl. by rewrite H. Qed.

Lemma drop_spaces_fmap f l : (∀ c, is_space (f c) = is_space c) →
  drop_spaces (f <$> l) = f <$> drop_spaces l.
Proof.
  intros Hf. induction l as [|c l IH]; [done|]. rewrite fmap_cons. simpl. rewrite Hf.
  by destruct (is_space c).
Qed.

Lemma drop_spaces_idem l : drop_spaces (drop_spaces l) = drop_spaces l.
Proof.
  induction l as [|c l IH]; [done|]. simpl. destruct (is_space c) eqn:E; [done|].
  by apply drop_spaces_cons.
Qed.

Lemma fmap_rev {A B} (f : A → B) l : f <$> rev l = rev (f <$> l).
Proof. induction l as [|x l IH]; [done|]. simpl. by rewrite fmap_app, IH. Qed.

Lemma strip_chars_idem l : strip_chars (strip_chars l) = strip_chars l.
Proof.
  unfold strip_chars. set (a := drop_spaces l).
  (* dropping in front of what is left changes nothing *)
  assert (Hfront : drop_spaces (rev (drop_spaces (rev a))) = rev (drop_spaces (rev a))).
  { assert (Ha : drop_spaces a = a) by apply drop_spaces_idem. clearbody a. clear l.
    destruct a as [|c a]; [done|]. simpl in Ha. destruct (is_space c) eqn:Hc.
    { exfalso. assert (Hlen : ∀ x, (length (drop_spaces x) <= length x)%nat).
      { induction x as [|y x IH]; simpl; [lia|]. destruct (is_space y); simpl; lia. }
      pose proof (Hlen a) as Hl. rewrite Ha in Hl. simpl in Hl. lia. }
    assert (Hrev : ∃ x, drop_spaces (rev a ++ [c]) = x ++ [c]).
    { induction (rev a) as [|y x (z & IH)]; simpl; [rewrite Hc; by exists []|].
      destruct (is_space y); [by exists z|]. by exists (y :: x). }
    destruct Hrev as [x Hx]. simpl. rewrite Hx, rev_app_distr. simpl. by rewrite Hc. }
  rewrite Hfront, rev_involutive, drop_spaces_idem. done.
Qed.

Lemma space_lower c : is_space (lower_char c) = is_space c.
Proof.
  unfold lower_char. destruct ((65 <=? code c) && (code c <=? 90)) eqn:E; [|done]. bool_hyps.
  unfold is_space, code in *. rewrite N_ascii_embedding by lia.
  replace (Z.of_N (N_of_ascii c + 32)) with (Z.of_N (N_of_ascii c) + 32) by lia.
  repeat match goal with |- context [?a <=? ?b] => destruct (Z.leb_spec a b) end; simpl; try done; lia.
Qed.

Lemma lower_char_idem c : lower_char (lower_char c) = lower_char c.
Proof.
  destruct ((65 <=? code c) && (code c <=? 90)) eqn:E.
  - assert (Hl : lower_char c = ascii_of_N (N_of_ascii c + 32)) by (unfold lower_char; by rewrite E).
    rewrite Hl. unfold lower_char, code in *. bool_hyps. rewrite N_ascii_embedding by lia.
    replace (Z.of_N (N_of_ascii c + 32) <=? 90) with false by (symmetry; apply Z.leb_gt; lia).
    by rewrite andb_false_r.
  - assert (Hl : lower_char c = c) by (unfold lower_char; by rewrite E). by rewrite !Hl.
Qed.

Lemma strip_lower s : strip (lower s) = lower (strip s).
Proof.
  unfold strip, lower. rewrite !list_ascii_of_string_of_list_ascii. f_equal. unfold strip_chars.
  rewrite drop_spaces_fmap by apply space_lower.
  rewrite <- !fmap_rev, drop_spaces_fmap by apply space_lower. by rewrite fmap_rev.
Qed.

Lemma lower_idem s : lower (lower s) = lower s.
Proof.
  unfold lower. rewrite list_ascii_of_string_of_list_ascii, <- list_fmap_compose. f_equal.
  apply list_fmap_ext. intros _ c _. apply lower_char_idem.
Qed.

Lemma strip_idem s : strip (strip s) = strip s.
Proof. unfold strip. by rewrite list_ascii_of_string_of_list_ascii, strip_chars_idem. Qed.

Lemma normalize_email_idem s : normalize_email (normalize_email s) = normalize_email s.
Proof. unfold normalize_email. by rewrite strip_lower, strip_idem, lower_idem. Qed.

Lemma normalized_lower s : normalize_email s = s → lower s = s.
Proof. intros <-. unfold normalize_email. apply lower_idem. Qed.

(** ** The primitives *)

Lemma clear_lockout_wf a at_ email : auth_wf a → auth_wf (clear_user_lockout a at_ email).
Proof.
  intros [[Ki Kk Kf] F]. constructor; [constructor|]; cbn [clear_user_lockout set_lockouts lockouts auth_next_id].
  - by rewrite update_where_fmap.
  - by rewrite update_where_fmap.
  - rewrite Forall_forall in Kf |- *. intros x (y & Hy & ->)%elem_of_update_where.
    destruct (of_principal at_ email y); exact (Kf y Hy).
  - rewrite Forall_forall in F |- *. intros x (y & Hy & ->)%elem_of_update_where.
    destruct (of_principal at_ email y); [simpl; lia|by apply F].
Qed.

Lemma set_auth_inv a p : accounts_inv p → auth_wf a → accounts_inv (set_p_auth a p).
Proof. intros []. by constructor. Qed.

Lemma clear_portal_inv email p : accounts_inv p → accounts_inv (clear_portal_lockout email p).
Proof. intros H. apply set_auth_inv; [done|]. apply clear_lockout_wf, H. Qed.

Lemma revoke_unlock_inv email p : accounts_inv p → accounts_inv (revoke_portal_unlock_tokens email p).
Proof. intros H. apply set_auth_inv; [done|]. destruct (ai_auth _ H). by constructor. Qed.

Lemma update_instance_inv i f p :
  accounts_inv p →
  (∀ x, x ∈ p_instances p → inst_id x = i → inst_id (f x) = inst_id x ∧ instance_row_ok (f x) = true) →
  accounts_inv (update_instance i f p).
Proof.
  intros [U E L O I R T TU T1 TA A] Hf.
  assert (Hid : inst_id <$> update_where (λ x, String.eqb (inst_id x) i) f (p_instances p) =
    inst_id <$> p_instances p).
  { apply update_where_fmap_in. intros x Hx Hq%String.eqb_eq. by apply Hf. }
  constructor; simpl; try done.
  - intros u j Hu Hj. rewrite Hid. by eapply L.
  - by rewrite Hid.
  - intros x (y & Hy & ->)%elem_of_update_where. destruct (String.eqb (inst_id y) i) eqn:Eq; [|by apply R].
    apply String.eqb_eq in Eq. by apply Hf.
Qed.

Lemma bearer_row_ok t d x : instance_row_ok (with_bearer t d x) = instance_row_ok x.
Proof. done. Qed.

Lemma revoke_credential_inv p u : accounts_inv p → accounts_inv (revoke_instance_credential p u).
Proof.
  intros H. unfold revoke_instance_credential. destruct (pu_instance_id u) as [i|]; [|done].
  apply update_instance_inv; [done|]. intros x Hx _. split; [done|]. exact (ai_rows _ H x Hx).
Qed.

(** Changes of the reset tokens that make no token usable again. *)
Definition token_stays (f : PortalUserResetToken → PortalUserResetToken) : Prop :=
  ∀ r, rt_id (f r) = rt_id r ∧ rt_user_id (f r) = rt_user_id r ∧ (unused (f r) = true → unused r = true).

Lemma update_resets_inv q f p :
  accounts_inv p → token_stays f → accounts_inv (set_p_resets (update_where q f (p_resets p)) p).
Proof.
  intros [U E L O I R T TU T1 TA A] Hf.
  assert (Hkey : rt_id <$> update_where q f (p_resets p) = rt_id <$> p_resets p)
    by (apply update_where_fmap; apply Hf).
  assert (Helem : ∀ r, r ∈ update_where q f (p_resets p) → ∃ r0, r0 ∈ p_resets p ∧ rt_id r = rt_id r0 ∧
    rt_user_id r = rt_user_id r0 ∧ (unused r = true → unused r0 = true)).
  { intros r (y & Hy & ->)%elem_of_update_where. exists y. destruct (q y); [|done].
    split; [done|apply Hf]. }
  constructor; simpl; try done.
  - destruct T as [T0 T2 T3]. constructor; rewrite ?Hkey; try done.
    rewrite Forall_forall in T3 |- *. intros r (r0 & Hr0 & -> & _)%Helem. by apply T3.
  - intros r (r0 & Hr0 & _ & -> & _)%Helem. by apply TU.
  - intros r s Hr Hs Ur Us Heq. pose proof (Helem r Hr) as (r0 & Hr0 & Ir & Er & Vr).
    pose proof (Helem s Hs) as (s0 & Hs0 & Is & Es & Vs).
    assert (r0 = s0) as <- by (apply T1; auto; congruence).
    apply (NoDup_fmap_eq rt_id (update_where q f (p_resets p))); [|done|done|congruence].
    rewrite Hkey. apply (keyed_id _ _ _ _ T).
  - intros r u (r0 & Hr0 & _ & Er & Vr)%Helem Ur Hu Hid. apply (TA r0 u); auto. congruence.
Qed.

Lemma revoked_stays now : token_stays (revoked_at now).
Proof. intros r. split_and!; [done|done|]. unfold unused. simpl. by destruct (rt_used_at r). Qed.
Lemma used_stays now : token_stays (used_at now).
Proof. intros r. by split_and!. Qed.
Lemma marked_stays state revoked now : token_stays (mark_reset_delivery state revoked now).
Proof.
  intros r. split_and!; [done|done|]. unfold unused. simpl. destruct revoked; [|done].
  by destruct (rt_used_at r).
Qed.

Lemma revoke_resets_inv p i now :
  accounts_inv p → accounts_inv (revoke_password_reset_tokens p i now) ∧
    no_unused (revoke_password_reset_tokens p i now) i.
Proof.
  intros H. split; [by apply update_resets_inv, revoked_stays|].
  intros r (y & Hy & ->)%elem_of_update_where Hu.
  destruct ((rt_user_id y =? i) && unused y) eqn:E.
  - unfold unused. simpl. by destruct (rt_used_at y).
  - apply andb_false_iff in E as [E|E]; [|done]. apply Z.eqb_neq in E. done.
Qed.

(** Writing one row of [users]. *)
Lemma save_user_elem p u v :
  v ∈ users (p_db (save_user u p)) → v = u ∨ (v ∈ users (p_db p) ∧ pu_id v ≠ pu_id u).
Proof.
  simpl. intros (y & Hy & ->)%elem_of_update_where. destruct (pu_id y =? pu_id u) eqn:E; [by left|].
  right. split; [done|]. by apply Z.eqb_neq.
Qed.

Record user_write (p : Portal) (u0 u : PortalUser) : Prop := {
  uw_old : u0 ∈ users (p_db p);
  uw_id : pu_id u = pu_id u0;
  uw_instance : pu_instance_id u = pu_instance_id u0;
  uw_email : normalize_email (pu_email u) = pu_email u;
  uw_free : ∀ v, v ∈ users (p_db p) → pu_email v = pu_email u → pu_id v = pu_id u;
  uw_usable : no_unused p (pu_id u) ∨ (pu_is_active u = true ∧ pu_is_blocked u = false);
}.

Lemma save_user_inv p u0 u : accounts_inv p → user_write p u0 u → accounts_inv (save_user u p).
Proof.
  intros H W. pose proof H as [U E L O I R T TU T1 TA A]. destruct W as [W0 Wi Wn We Wf Wu].
  assert (Hids : pu_id <$> users (p_db (save_user u p)) = pu_id <$> users (p_db p)).
  { simpl. apply update_where_fmap_in. intros x _ Hx. bool_hyps. congruence. }
  assert (Hin : u ∈ users (p_db (save_user u p))).
  { apply elem_of_update_where. exists u0. split; [done|]. by rewrite Wi, Z.eqb_refl. }
  constructor; try done.
  - constructor.
    + rewrite Hids. apply (keyed_id _ _ _ _ U).
    + apply NoDup_fmap_2_strong.
      * intros v w Hv Hw Heq.
        apply save_user_elem in Hv as [->|[Hv Hvn]], Hw as [->|[Hw Hwn]]; [done| | |].
        -- by destruct (Hwn (Wf w Hw (eq_sym Heq))).
        -- by destruct (Hvn (Wf v Hv Heq)).
        -- by apply (NoDup_fmap_eq pu_email (users (p_db p))); [apply (keyed_key _ _ _ _ U)|..].
      * apply (NoDup_fmap_1 pu_id). rewrite Hids. apply (keyed_id _ _ _ _ U).
    + rewrite Forall_forall. intros v [->|[Hv _]]%save_user_elem; [rewrite Wi|];
        (pose proof (keyed_fresh _ _ _ _ U) as F; rewrite Forall_forall in F; by apply F).
  - intros v [->|[Hv _]]%save_user_elem; [done|by apply E].
  - intros v i [->|[Hv _]]%save_user_elem Hi; [rewrite Wn in Hi|]; by eapply L.
  - intros v w i Hv Hw Iv Iw.
    apply save_user_elem in Hv as [->|[Hv Hvn]], Hw as [->|[Hw Hwn]]; [done| | |by eapply O].
    + rewrite Wn in Iv. rewrite (O u0 w i) in Wi by done. congruence.
    + rewrite Wn in Iw. rewrite (O u0 v i) in Wi by done. congruence.
  - intros r Hr. rewrite Hids. by apply TU.
  - intros r v Hr Ur [->|[Hv _]]%save_user_elem Hid; [|by eapply TA].
    destruct Wu as [Wu|Wu]; [|done]. rewrite (Wu r Hr (eq_sym Hid)) in Ur. done.
Qed.

(** ** Changing a password *)

Lemma revoke_credential_frame p u :
  let p' := revoke_instance_credential p u in
  p_db p' = p_db p ∧ p_auth p' = p_auth p ∧ p_resets p' = p_resets p ∧ p_next_reset p' = p_next_reset p.
Proof. unfold revoke_instance_credential. by destruct (pu_instance_id u). Qed.

Section Handlers.
Context `{zone : PragueZone} `{crypto : Crypto}.

(** What a change of a password leaves behind: no reset token, no unlock
    token, no lock-out and no bearer of the account. *)
Record password_changed (p p1 : Portal) (u u1 : PortalUser) (raw : string) : Prop := {
  pc_inv : accounts_inv p1;
  pc_db : p_db p1 = p_db p;
  pc_user : u1 = with_password_hash (Some (argon2_hash (strip raw))) u;
  pc_policy : strip raw ≠ ""%string ∧ Z.of_nat (String.length (strip raw)) <= 512;
  pc_resets : no_unused p1 (pu_id u);
  pc_same_resets : ∀ r, r ∈ p_resets p1 → ∃ r0, r0 ∈ p_resets p ∧ rt_id r = rt_id r0 ∧
    rt_user_id r = rt_user_id r0 ∧ rt_token_hash r = rt_token_hash r0 ∧
    (unused r0 = false → unused r = false);
  pc_lockout : ∀ t, is_locked (get_lockout_state (p_auth p1) "portal" (lower (pu_email u)) true).2 t = false;
  pc_unlock : ∀ t, t ∈ unlock_tokens (p_auth p1) →
    ¬ (ut_actor_type t = "portal"%string ∧ ut_principal t = lower (pu_email u));
  pc_bearer : ∀ i x, pu_instance_id u = Some i → x ∈ p_instances p1 → inst_id x = i →
    inst_token_hash x = None;
}.

Lemma cleared_not_locked a email t :
  auth_wf a → is_locked (get_lockout_state (clear_user_lockout a "portal" email) "portal" email true).2 t = false.
Proof.
  intros W. unfold get_lockout_state.
  assert (Hw : where_ (of_principal "portal" email) (lockouts (clear_user_lockout a "portal" email)) =
    update_where (of_principal "portal" email) reset_lock_state
      (where_ (of_principal "portal" email) (lockouts a))) by (apply where_update_comm; done).
  rewrite Hw. destruct (get_lockout_ok a "portal" email W) as (a1 & s & Hg & _ & R).
  destruct (where_ (of_principal "portal" email) (lockouts a)) as [|x l] eqn:E; [done|].
  assert (l = []) as ->.
  { unfold get_lockout_state in Hg. rewrite E in Hg. destruct l as [|y l]; [done|].
    assert (Hin : ∀ z, z ∈ x :: y :: l → z ∈ lockouts a ∧ of_principal "portal" email z = true).
    { intros z Hz. rewrite <- E in Hz. by apply elem_of_where in Hz. }
    assert (x = y).
    { destruct (Hin x) as [Hx Px]; [left|]. destruct (Hin y) as [Hy Py]; [right; left|].
      apply (NoDup_fmap_eq state_key (lockouts a)); [apply (aw_keyed _ W)|done|done|].
      apply of_principal_true in Px as [], Py as []. unfold state_key. congruence. }
    subst y. assert (Hn : NoDup (where_ (of_principal "portal" email) (lockouts a))).
    { apply NoDup_where. eapply NoDup_fmap_1, (keyed_id _ _ _ _ (aw_keyed _ W)). }
    rewrite E in Hn. apply NoDup_cons in Hn as [Hn _]. exfalso. apply Hn. left. }
  unfold update_where. simpl. by destruct (of_principal "portal" email x) eqn:Ex;
    [|assert (x ∈ where_ (of_principal "portal" email) (lockouts a)) as [_ Hx]%elem_of_where
        by (rewrite E; left); congruence].
Qed.

Lemma change_password_ok p u raw now p1 u1 :
  accounts_inv p → change_portal_password p u raw now = Some (p1, u1) →
  password_changed p p1 u u1 raw.
Proof.
  intros H Hc. unfold change_portal_password in Hc.
  destruct (String.eqb (strip raw) "") eqn:He; [done|].
  unfold hash_password in Hc. rewrite He in Hc. simpl in Hc.
  destruct (512 <? Z.of_nat (String.length (strip raw))) eqn:Hl; [done|]. simpl in Hc.
  injection Hc as <- <-. apply String.eqb_neq in He. bool_hyps.
  destruct (revoke_resets_inv p (pu_id u) now H) as [H1 Hn].
  set (p0 := revoke_password_reset_tokens p (pu_id u) now) in *.
  set (p2 := revoke_portal_unlock_tokens (lower (pu_email u)) p0).
  assert (H2 : accounts_inv p2) by by apply revoke_unlock_inv.
  pose proof (clear_portal_inv (lower (pu_email u)) p2 H2) as H3.
  set (p3 := clear_portal_lockout (lower (pu_email u)) p2) in *.
  set (u1 := with_password_hash _ u).
  pose proof (revoke_credential_frame p3 u1) as (Hdb & Ha & Hr & Hx). simpl in Hdb, Ha, Hr, Hx.
  constructor; try done.
  - by apply revoke_credential_inv.
  - intros r. rewrite Hr. apply Hn.
  - intros r. rewrite Hr. simpl. intros (y & Hy & ->)%elem_of_update_where.
    exists y. destruct (_ && _) eqn:E; [|done]. split_and!; try done. apply andb_true_iff in E as [_ ->]. done.
  - intros t. rewrite Ha. simpl. apply cleared_not_locked, H2.
  - intros t. rewrite Ha. simpl. intros [_ Ht]%elem_of_delete_where [H4 H5].
    by rewrite H4, H5, !String.eqb_refl in Ht.
  - intros i x Hi. unfold revoke_instance_credential, u1. cbn [with_password_hash pu_instance_id]. rewrite Hi.
    simpl. intros (y & Hy & ->)%elem_of_update_where Hid.
    destruct (String.eqb (inst_id y) i) eqn:E; [done|]. by apply String.eqb_neq in E.
Qed.

Lemma apply_password_ok p u raw now p1 u1 :
  accounts_inv p → apply_password p u raw now = Ok (p1, u1) →
  accounts_inv p1 ∧ p_db p1 = p_db p ∧ pu_id u1 = pu_id u ∧ pu_instance_id u1 = pu_instance_id u ∧
  pu_email u1 = pu_email u ∧ pu_is_active u1 = pu_is_active u ∧ pu_is_blocked u1 = pu_is_blocked u ∧
  (no_unused p (pu_id u) → no_unused p1 (pu_id u)) ∧
  (raw = None ∧ p1 = p ∧ u1 = u ∨
   ∃ password, raw = Some password ∧ password_changed p p1 u u1 (strip password)).
Proof.
  intros H. destruct raw as [raw|]; simpl.
  - destruct (String.eqb (strip raw) ""); [done|]. simpl.
    destruct (change_portal_password p u (strip raw) now) as [[p2 u2]|] eqn:E; [|done].
    intros [= <- <-]. pose proof (change_password_ok _ _ _ _ _ _ H E) as C.
    rewrite (pc_user _ _ _ _ _ C). split_and!; try done; try apply C.
    + intros _. apply C.
    + right. exists raw. split; [done|]. by rewrite <- (pc_user _ _ _ _ _ C).
  - intros [= <- <-]. split_and!; try done. by left.
Qed.

(** ** The administration of users *)

(** Of the database proper only [users] and the key counter changed. *)
Definition users_only (a b : DB) : Prop := ∃ l n, b = set_next_id n (set_users l a) ∧ next_id a <= n.

#[export] Instance users_only_preorder : PreOrder users_only.
Proof.
  split.
  - intros a. exists (users a), (next_id a). split; [by destruct a|lia].
  - intros a b c (l & n & -> & Hn) (l' & n' & -> & Hn'). exists l', n'. simpl in *. split; [done|lia].
Qed.

Lemma users_only_save u p : users_only (p_db p) (p_db (save_user u p)).
Proof.
  exists (users (p_db (save_user u p))), (next_id (p_db p)). split; [|lia].
  unfold save_user. simpl. by destruct (p_db p).
Qed.

Lemma get_user_elem db i u : get_user db i = Some u → u ∈ users db ∧ pu_id u = i.
Proof.
  unfold get_user. destruct (where_ (λ x, pu_id x =? i) (users db)) as [|v l] eqn:E; [done|].
  intros [= <-]. assert (Hv : v ∈ where_ (λ x, pu_id x =? i) (users db)) by (rewrite E; left).
  apply elem_of_where in Hv as [Hv Hi]. by bool_hyps.
Qed.

Lemma get_user_in p u : accounts_inv p → u ∈ users (p_db p) → get_user (p_db p) (pu_id u) = Some u.
Proof.
  intros H Hu. assert (Hw : u ∈ where_ (λ x, pu_id x =? pu_id u) (users (p_db p)))
    by (apply elem_of_where; split; [done|apply Z.eqb_refl]).
  destruct (get_user (p_db p) (pu_id u)) as [v|] eqn:E.
  - apply get_user_elem in E as [Hv Hid]. f_equal.
    by apply (NoDup_fmap_eq pu_id (users (p_db p))); [apply (keyed_id _ _ _ _ (ai_users _ H))|..].
  - unfold get_user in E. destruct (where_ _ _); [by apply elem_of_nil in Hw|done].
Qed.

Lemma find_user_ok p i u : find_user p i = Ok u → u ∈ users (p_db p) ∧ pu_id u = i.
Proof.
  unfold find_user. destruct (get_user (p_db p) i) as [v|] eqn:E; [|done]. intros [= <-].
  by apply get_user_elem.
Qed.

(** The row of a user rewritten after the tokens were dealt with. *)
Lemma save_same p u0 u :
  accounts_inv p → u0 ∈ users (p_db p) → pu_id u = pu_id u0 → pu_instance_id u = pu_instance_id u0 →
  pu_email u = pu_email u0 →
  no_unused p (pu_id u) ∨ (pu_is_active u = true ∧ pu_is_blocked u = false) →
  accounts_inv (save_user u p).
Proof.
  intros H Hu Hi Hn He Hw. apply (save_user_inv p u0); [done|]. constructor; try done.
  - rewrite He. by apply (ai_emails _ H).
  - intros v Hv Heq. rewrite Hi. f_equal. rewrite He in Heq.
    by apply (NoDup_fmap_eq pu_email (users (p_db p))); [apply (keyed_key _ _ _ _ (ai_users _ H))|..].
Qed.

(** Tokens that may be used belong to accounts in order. *)
Lemma usable_or_none p u :
  accounts_inv p → u ∈ users (p_db p) →
  no_unused p (pu_id u) ∨ (pu_is_active u = true ∧ pu_is_blocked u = false).
Proof.
  intros H Hu. destruct (pu_is_active u && negb (pu_is_blocked u)) eqn:E.
  - right. by bool_hyps.
  - left. intros r Hr Hid. destruct (unused r) eqn:Ur; [|done].
    destruct (ai_usable _ H r u Hr Ur Hu (eq_sym Hid)) as [Ha Hb]. by rewrite Ha, Hb in E.
Qed.

Lemma validated_user body v :
  validate_user_create body = Ok v →
  uc_email v = normalize_email (uc_email body) ∧ uc_role v = uc_role body ∧
  uc_name v = strip (uc_name body) ∧ uc_password v = uc_password body ∧ uc_is_active v = uc_is_active body.
Proof.
  unfold validate_user_create, validate_name, validate_email. intros H. ok_inv H. injection H as <-.
  simpl. ok_inv Hstep0. injection Hstep0 as <-. split_and!; try done.
  destruct (strip (uc_name body)); [done|]. by injection Hstep as <-.
Qed.

Lemma email_free p email u :
  email_taken p email None = false → u ∈ users (p_db p) → pu_email u ≠ email.
Proof.
  unfold email_taken. rewrite existsb_false_elem. intros H Hu He. specialize (H u Hu).
  rewrite andb_true_r in H. by apply String.eqb_neq in H.
Qed.

Lemma no_instance p i : is_some (get_instance p i) = false → i ∉ inst_id <$> p_instances p.
Proof.
  unfold get_instance. destruct (where_ (λ x, String.eqb (inst_id x) i) (p_instances p)) as [|x l] eqn:E;
    [|done]. intros _ (x & -> & Hx)%list_elem_of_fmap. rewrite where_nil_iff in E.
  specialize (E x Hx). by apply String.eqb_neq in E.
Qed.

(** The new rows of [users] and [instances]. *)
Definition added_user (user : PortalUser) (inst : Instance_) (p : Portal) : Portal :=
  set_p_db (bump_id (set_users (users (p_db p) ++ [user]) (p_db p)))
    (set_p_instances (p_instances p ++ [inst]) p).

Lemma new_user_no_tokens p : accounts_inv p → no_unused p (next_id (p_db p)).
Proof.
  intros H r Hr Hid. pose proof (ai_reset_users _ H r Hr) as (u & Hu & Hin)%list_elem_of_fmap.
  pose proof (keyed_fresh _ _ _ _ (ai_users _ H)) as F. rewrite Forall_forall in F.
  specialize (F u Hin). lia.
Qed.

Lemma added_user_inv p user inst :
  accounts_inv p → pu_id user = next_id (p_db p) → normalize_email (pu_email user) = pu_email user →
  email_taken p (pu_email user) None = false → pu_instance_id user = Some (inst_id inst) →
  is_some (get_instance p (inst_id inst)) = false → instance_row_ok inst = true →
  accounts_inv (added_user user inst p).
Proof.
  intros H Hid He Hfree Hinst Hnew Hrow. pose proof (no_instance _ _ Hnew) as Hout.
  pose proof H as [U E L O I R T TU T1 TA A].
  assert (Hel : ∀ v, v ∈ users (p_db (added_user user inst p)) ↔ v ∈ users (p_db p) ∨ v = user).
  { intros v. simpl. by rewrite elem_of_app, list_elem_of_singleton. }
  constructor; simpl; try done.
  - apply keyed_add; [done| |done]. intros (v & Hv & Hin)%list_elem_of_fmap.
    by destruct (email_free _ _ v Hfree Hin).
  - intros v [Hv| ->]%Hel; [by apply E|done].
  - intros v i Hv Hi. rewrite fmap_app. apply elem_of_app. apply Hel in Hv as [Hv| ->].
    + left. by eapply L.
    + right. rewrite Hinst in Hi. injection Hi as <-. left.
  - intros v w i Hv Hw Hi Hj. apply Hel in Hv as [Hv| ->], Hw as [Hw| ->]; [by eapply O| | |done].
    + destruct Hout. apply (L v); [done|]. congruence.
    + destruct Hout. apply (L w); [done|]. congruence.
  - rewrite fmap_app. apply NoDup_app. split_and!; [done| |apply NoDup_singleton].
    intros x Hx Hs%list_elem_of_singleton. congruence.
  - intros x [Hx| ->%list_elem_of_singleton]%elem_of_app; [by apply R|done].
  - intros r Hr. rewrite fmap_app. apply elem_of_app. left. by apply TU.
  - intros r u Hr Ur [Hu| ->]%Hel Heq; [by eapply TA|].
    rewrite (new_user_no_tokens p H r Hr) in Ur; congruence.
Qed.

Lemma create_user_inv p now uuid body p' out :
  accounts_inv p → create_user p now uuid body = Ok (p', out) →
  accounts_inv p' ∧ users_only (p_db p) (p_db p').
Proof.
  intros H Hc. unfold create_user, flush_instance in Hc. ok_inv Hc.
  apply validated_user in Hstep as (He & _). bool_hyps.
  set (user := mk_user _ _ _ _ _ _ _ _) in *. set (inst := mk_instance _ _ _ _ _ _ _ _ _ _ _ _) in *.
  fold (added_user user inst p) in Hstep1. destruct v1 as [p1 u1]. injection Hc as <- <-.
  assert (H1 : accounts_inv (added_user user inst p)).
  { apply added_user_inv; try done. simpl. by rewrite normalize_email_idem. }
  apply apply_password_ok in Hstep1 as (H2 & Hdb & Hi & Hn & Hem & _ & _ & Ht & _); [|done].
  split.
  - apply (save_same p1 user); [done| |done..|].
    + rewrite Hdb. simpl. apply elem_of_app. right. left.
    + left. rewrite Hi. apply Ht. intros r Hr. by apply (new_user_no_tokens p H).
  - etransitivity; [|apply users_only_save]. rewrite Hdb.
    exists (users (p_db p) ++ [user]), (next_id (p_db p) + 1). split; [done|lia].
Qed.

Lemma block_user_inv p now i blocked p' out :
  accounts_inv p → block_user p now i blocked = Ok (p', out) →
  accounts_inv p' ∧ users_only (p_db p) (p_db p') ∧
  ∃ u, u ∈ users (p_db p) ∧ pu_id u = i ∧ with_blocked blocked u ∈ users (p_db p').
Proof.
  intros H Hb. unfold block_user in Hb. ok_inv Hb. injection Hb as <- <-.
  apply find_user_ok in Hstep as [Hu Hid].
  destruct (revoke_resets_inv p (pu_id v) now H) as [H1 Hno].
  set (u := with_blocked blocked v). set (p1 := revoke_password_reset_tokens p (pu_id v) now) in *.
  pose proof (revoke_credential_frame p1 u) as (Hdb & _ & Hr & _). simpl in Hdb, Hr.
  assert (Hin : ∀ q, p_db q = p_db p → u ∈ users (p_db (save_user u q))).
  { intros q Hq. simpl. apply elem_of_update_where. exists v. rewrite Hq. split; [done|].
    by rewrite Z.eqb_refl. }
  destruct blocked.
  - split_and!.
    + apply (save_same _ v); [by apply revoke_credential_inv|by rewrite Hdb|done..|].
      left. intros r. rewrite Hr. apply Hno.
    + etransitivity; [|apply users_only_save]. by rewrite Hdb.
    + exists v. split_and!; [done|done|by apply Hin].
  - split_and!.
    + apply (save_same _ v); [done..|]. destruct (usable_or_none p v H Hu) as [Hn|[Ha _]]; [by left|].
      by right.
    + apply users_only_save.
    + exists v. split_and!; [done|done|by apply Hin].
Qed.
End Handlers.
