(* ===== verification/AccountsHandlers.v ===== *)
(** * Every request on accounts keeps them well formed

    The remaining handlers of admin_users.py, the two halves of a password
    reset, the login and the endpoints of instances. *)

From stdpp Require Import relations.
From S2P Require Import Prelude Calendar TimeParse PragueTime Models AttendanceEvents AttendanceApi.
From S2P Require Import Groups AdminEmployments EmploymentSafety Lockout Accounts Sessions Login LoginSafety.
From S2P Require Import SystemInvariant AdminUsers PasswordReset Instances AccountsSafety.
#[local] Open Scope Z_scope.

(** ** Changing a user *)

(** The instances are the same up to columns without a constraint. *)
Definition instance_image (p : Portal) : list (string * bool) :=
  (λ x, (inst_id x, instance_row_ok x)) <$> p_instances p.
Definition rows_alike (p p' : Portal) : Prop := instance_image p' = instance_image p.

#[export] Instance rows_alike_preorder : PreOrder rows_alike.
Proof. unfold rows_alike. split; [done|]. intros a b c. congruence. Qed.

Lemma get_instance_image p i :
  instance_row_ok <$> get_instance p i =
    snd <$> head (where_ (λ k, String.eqb k.1 i) (instance_image p)).
Proof.
  unfold get_instance, instance_image. rewrite where_fmap. simpl.
  by destruct (where_ (λ x, String.eqb (inst_id x) i) (p_instances p)).
Qed.

Lemma alike_instance_of p p' u x' :
  rows_alike p p' → instance_of p' u = Some x' →
  ∃ x, instance_of p u = Some x ∧ instance_row_ok x = instance_row_ok x'.
Proof.
  unfold instance_of. destruct (pu_instance_id u) as [i|]; [|done]. simpl. intros Ha Hx.
  pose proof (get_instance_image p i) as H1. pose proof (get_instance_image p' i) as H2.
  rewrite Ha, Hx in H2. rewrite <- H2 in H1. destruct (get_instance p i) as [x|]; [|done].
  exists x. split; [done|]. by injection H1.
Qed.

Lemma revoke_credential_alike p u : rows_alike p (revoke_instance_credential p u).
Proof.
  unfold revoke_instance_credential. destruct (pu_instance_id u) as [i|]; [|reflexivity].
  unfold rows_alike, instance_image. simpl. apply update_where_fmap. done.
Qed.

Section Handlers.
Context `{zone : PragueZone} `{crypto : Crypto} `{signing : Signing}.

Lemma change_password_alike p u raw now p1 u1 :
  change_portal_password p u raw now = Some (p1, u1) → rows_alike p p1.
Proof.
  unfold change_portal_password. destruct (String.eqb (strip raw) ""); [done|].
  destruct (hash_password (strip raw)); [|done]. simpl. intros [= <- _].
  etransitivity; [|apply revoke_credential_alike]. reflexivity.
Qed.

Lemma apply_password_alike p u raw now p1 u1 :
  apply_password p u raw now = Ok (p1, u1) → rows_alike p p1.
Proof.
  destruct raw as [raw|]; simpl; [|intros [= <- _]; reflexivity].
  destruct (String.eqb (strip raw) ""); [done|]. simpl.
  destruct (change_portal_password _ _ _ _) as [[p2 u2]|] eqn:E; [|done]. intros [= <- <-].
  by eapply change_password_alike.
Qed.

(** A user object that differs from the row in columns no reference uses. *)
Record same_account (u0 u : PortalUser) : Prop := {
  sa_id : pu_id u = pu_id u0;
  sa_instance : pu_instance_id u = pu_instance_id u0;
}.

Lemma update_name_ok p u0 name p1 u1 :
  accounts_inv p → u0 ∈ users (p_db p) → update_name p u0 name = (p1, u1) →
  p_db p1 = p_db p ∧ p_resets p1 = p_resets p ∧ same_account u0 u1 ∧ pu_email u1 = pu_email u0 ∧
  pu_is_active u1 = pu_is_active u0 ∧ pu_is_blocked u1 = pu_is_blocked u0 ∧
  ((∀ x, instance_of p1 u1 = Some x → instance_row_ok x = true) → accounts_inv p1).
Proof.
  intros H Hu. destruct name as [name|]; simpl; [|by intros [= <- <-]; split_and!].
  destruct (instance_of p (with_name (strip name) u0)) as [x|] eqn:E; [|by intros [= <- <-]; split_and!].
  intros [= <- <-]. split_and!; try done. intros Hok. apply update_instance_inv; [done|].
  intros y Hy Hid. split; [done|].
  assert (Hx : instance_of p u0 = Some x) by exact E.
  unfold instance_of in Hx. destruct (pu_instance_id u0) as [i|] eqn:Hi; [|done]. simpl in Hx.
  pose proof (get_instance_ok _ _ _ Hx) as [Hxin Hxid].
  assert (y = x) as -> by (by apply (NoDup_fmap_eq inst_id (p_instances p)); [apply (ai_instances _ H)|..]).
  apply Hok. unfold instance_of. cbn [with_name pu_instance_id pu_name]. rewrite Hi. simpl.
  unfold get_instance in *. simpl. rewrite where_update_comm by done. rewrite Hxid.
  destruct (where_ (λ z, String.eqb (inst_id z) i) (p_instances p)) as [|z l]; [done|].
  simpl in Hx |- *. injection Hx as ->. by rewrite Hxid, String.eqb_refl.
Qed.

Lemma update_email_ok p u0 u email p1 u1 :
  accounts_inv p → u0 ∈ users (p_db p) → same_account u0 u → pu_email u = pu_email u0 →
  update_email p u email = Ok (p1, u1) →
  accounts_inv p1 ∧ p_db p1 = p_db p ∧ p_resets p1 = p_resets p ∧ rows_alike p p1 ∧ same_account u0 u1 ∧
  pu_is_active u1 = pu_is_active u ∧ pu_is_blocked u1 = pu_is_blocked u ∧
  normalize_email (pu_email u1) = pu_email u1 ∧
  (∀ v, v ∈ users (p_db p) → pu_email v = pu_email u1 → pu_id v = pu_id u0).
Proof.
  intros H Hu [Sid Sin] He.
  assert (Hself : ∀ v, v ∈ users (p_db p) → pu_email v = pu_email u0 → pu_id v = pu_id u0).
  { intros v Hv Heq. f_equal.
    by apply (NoDup_fmap_eq pu_email (users (p_db p))); [apply (keyed_key _ _ _ _ (ai_users _ H))|..]. }
  assert (Hdone : accounts_inv p ∧ p_db p = p_db p ∧ p_resets p = p_resets p ∧ rows_alike p p ∧
    same_account u0 u ∧ pu_is_active u = pu_is_active u ∧ pu_is_blocked u = pu_is_blocked u ∧
    normalize_email (pu_email u) = pu_email u ∧
    (∀ v, v ∈ users (p_db p) → pu_email v = pu_email u → pu_id v = pu_id u0)).
  { rewrite He. split_and!; try done. by apply (ai_emails _ H). }
  destruct email as [email|]; simpl; [|by intros [= <- <-]].
  destruct (String.eqb (normalize_email email) RESERVED_ADMIN_EMAIL); [done|]. simpl.
  destruct (String.eqb (normalize_email email) (pu_email u)); [by intros [= <- <-]|].
  destruct (email_taken p (normalize_email email) (Some (pu_id u))) eqn:Ht; [done|]. simpl.
  intros [= <- <-]. split_and!; try done.
  - by apply revoke_unlock_inv, clear_portal_inv.
  - simpl. apply normalize_email_idem.
  - simpl. intros v Hv Heq. unfold email_taken in Ht. rewrite existsb_false_elem in Ht.
    specialize (Ht v Hv). rewrite Heq, String.eqb_refl in Ht. simpl in Ht. bool_hyps. congruence.
Qed.

Lemma update_active_ok p now u0 u active p1 u1 :
  accounts_inv p → same_account u0 u →
  no_unused p (pu_id u) ∨ (pu_is_active u = true ∧ pu_is_blocked u = false) →
  update_active p now u active = (p1, u1) →
  accounts_inv p1 ∧ p_db p1 = p_db p ∧ rows_alike p p1 ∧ same_account u0 u1 ∧ pu_email u1 = pu_email u ∧
  (no_unused p1 (pu_id u1) ∨ (pu_is_active u1 = true ∧ pu_is_blocked u1 = false)).
Proof.
  intros H [Sid Sin] Hu. destruct active as [[]|]; simpl; intros [= <- <-]; try by split_and!.
  - split_and!; try done. destruct Hu as [Hn|[_ Hb]]; [by left|by right].
  - destruct (revoke_resets_inv p (pu_id u) now H) as [H1 Hn].
    set (p1 := revoke_password_reset_tokens p (pu_id u) now) in *. set (u1 := with_active false u).
    pose proof (revoke_credential_frame p1 u1) as (Hdb & _ & Hr & _). simpl in Hdb, Hr.
    split_and!; [by apply revoke_credential_inv|done| |done|done|].
    + etransitivity; [|apply revoke_credential_alike]. reflexivity.
    + left. intros r. rewrite Hr. apply Hn.
Qed.

Lemma update_email_alike p u email p1 u1 :
  update_email p u email = Ok (p1, u1) → rows_alike p p1 ∧ pu_instance_id u1 = pu_instance_id u.
Proof.
  destruct email as [email|]; simpl; [|by intros [= <- <-]].
  destruct (String.eqb _ RESERVED_ADMIN_EMAIL); [done|]. simpl.
  destruct (String.eqb _ (pu_email u)); [by intros [= <- <-]|].
  destruct (email_taken _ _ _); [done|]. simpl. by intros [= <- <-].
Qed.

Lemma update_active_alike p now u active p1 u1 :
  update_active p now u active = (p1, u1) → rows_alike p p1 ∧ pu_instance_id u1 = pu_instance_id u.
Proof.
  destruct active as [[]|]; simpl; intros [= <- <-]; split; try done.
  etransitivity; [|apply revoke_credential_alike]. reflexivity.
Qed.

Lemma apply_password_instance p u raw now p1 u1 :
  apply_password p u raw now = Ok (p1, u1) → pu_instance_id u1 = pu_instance_id u.
Proof.
  destruct raw as [raw|]; simpl; [|by intros [= _ <-]].
  destruct (String.eqb (strip raw) ""); [done|]. simpl. unfold change_portal_password.
  destruct (String.eqb _ ""); [done|]. destruct (hash_password _); [|done]. simpl. by intros [= _ <-].
Qed.

Lemma update_user_inv p now i body p' out :
  accounts_inv p → update_user p now i body = Ok (p', out) →
  accounts_inv p' ∧ users_only (p_db p) (p_db p').
Proof.
  intros H Hc. unfold update_user in Hc. ok_inv Hc. rename v into payload, v0 into u0.
  apply find_user_ok in Hstep0 as [Hu _]. clear Hstep.
  destruct (update_name p u0 (uu_name payload)) as [p1 un] eqn:En.
  set (up := match uu_phone payload with Some _ => _ | None => un end) in *.
  ok_inv Hc. destruct v as [p2 ue]. rename Hstep into Hem. ok_inv Hc. clear Hstep v.
  destruct (update_active p2 now ue (uu_is_active payload)) as [p3 ua] eqn:Ea.
  ok_inv Hc. destruct v as [p4 uf]. rename Hstep into Hpw. ok_inv Hc. rename Hstep into Hflush.
  injection Hc as <- <-.
  assert (Hup : pu_id up = pu_id un ∧ pu_instance_id up = pu_instance_id un ∧ pu_email up = pu_email un ∧
    pu_is_active up = pu_is_active un ∧ pu_is_blocked up = pu_is_blocked un)
    by (unfold up; by destruct (uu_phone payload)).
  destruct Hup as (Pid & Pin & Pem & Pac & Pbl).
  pose proof (update_email_alike _ _ _ _ _ Hem) as [A2 I2].
  pose proof (update_active_alike _ _ _ _ _ _ Ea) as [A3 I3].
  pose proof (apply_password_alike _ _ _ _ _ _ Hpw) as A4.
  pose proof (apply_password_instance _ _ _ _ _ _ Hpw) as I4.
  assert (A : rows_alike p1 p4) by (by do 2 (etransitivity; [|eassumption])).
  apply update_name_ok in En as (D1 & R1 & [S1 T1] & E1 & Ac1 & Bl1 & H1); [|done|done].
  assert (HI1 : accounts_inv p1).
  { apply H1. intros x Hx.
    (* the final check of the instance's row *)
    destruct (instance_of p4 uf) as [x'|] eqn:Ex.
    - destruct (alike_instance_of _ _ _ _ A Ex) as (y & Hy & Hrow).
      assert (y = x) as ->.
      { unfold instance_of in Hx, Hy. assert (pu_instance_id uf = pu_instance_id un) as Heq by congruence.
        rewrite Heq in Hy. congruence. }
      unfold flush_instance in Hflush. apply guard_ok, negb_false_iff in Hflush. congruence.
    - exfalso. symmetry in A. unfold instance_of in Ex, Hx.
      assert (pu_instance_id uf = pu_instance_id un) as Heq by congruence. rewrite Heq in Ex.
      destruct (alike_instance_of p4 p1 un x) as (y & Hy & _); [done|done|].
      unfold instance_of in Hy. congruence. }
  apply update_email_ok with (u0 := u0) in Hem
    as (H2 & D2 & R2 & _ & S2 & Ac2 & Bl2 & Em2 & Fr2); [|done|by rewrite D1|by split; congruence|congruence].
  assert (Hn2 : no_unused p2 (pu_id ue) ∨ (pu_is_active ue = true ∧ pu_is_blocked ue = false)).
  { destruct (usable_or_none p u0 H Hu) as [Hn|[Ha Hb]]; [left|right; split; congruence].
    intros r Hr. rewrite R2, R1 in Hr. rewrite (sa_id _ _ S2). by apply Hn. }
  apply update_active_ok with (u0 := u0) in Ea as (H3 & D3 & _ & S3 & Em3 & Hn3); [|done..].
  apply apply_password_ok in Hpw as (H4 & D4 & Id4 & In4 & Em4 & Ac4 & Bl4 & Hn4 & _); [|done].
  split.
  - apply (save_user_inv p4 u0); [done|]. destruct S3 as [S3i S3n]. constructor.
    + by rewrite D4, D3, D2, D1.
    + congruence.
    + congruence.
    + by rewrite Em4, Em3.
    + intros w Hw Heq. rewrite D4, D3, D2 in Hw. rewrite Em4, Em3 in Heq. rewrite Id4, S3i. by apply Fr2.
    + rewrite Id4, Ac4, Bl4. destruct Hn3 as [Hn3|Hn3]; [left; by apply Hn4|by right].
  - etransitivity; [|apply users_only_save]. by rewrite D4, D3, D2, D1.
Qed.

Lemma set_password_inv p now i password p' out :
  accounts_inv p → set_user_password p now i password = Ok (p', out) →
  accounts_inv p' ∧ users_only (p_db p) (p_db p').
Proof.
  intros H Hc. unfold set_user_password in Hc. ok_inv Hc. destruct v1 as [p1 u1]. injection Hc as <- <-.
  apply find_user_ok in Hstep0 as [Hu _].
  apply apply_password_ok in Hstep1 as (H1 & D & Id & In & Em & Ac & Bl & Hn & _); [|done].
  split.
  - apply (save_same p1 v0); [done|by rewrite D|done..|].
    rewrite Id, Ac, Bl. destruct (usable_or_none p v0 H Hu); [left; by apply Hn|by right].
  - etransitivity; [|apply users_only_save]. by rewrite D.
Qed.

Lemma unlock_user_inv p i p' :
  accounts_inv p → unlock_user p i = Ok p' → accounts_inv p' ∧ p_db p' = p_db p.
Proof.
  intros H Hc. unfold unlock_user in Hc. ok_inv Hc. injection Hc as <-.
  split; [|done]. by apply revoke_unlock_inv, clear_portal_inv.
Qed.

(** ** Deleting a user *)

Lemma same_users_inv p db :
  accounts_inv p → users db = users (p_db p) → next_id (p_db p) <= next_id db →
  accounts_inv (set_p_db db p).
Proof.
  intros [U E L O I R T TU T1 TA A] Hu Hn. constructor; simpl; rewrite ?Hu; try done.
  by eapply keyed_mono.
Qed.

Lemma filtered_resets_inv q p :
  accounts_inv p → accounts_inv (set_p_resets (delete_where q (p_resets p)) p).
Proof.
  intros [U E L O I R T TU T1 TA A]. constructor; simpl; try done.
  - by apply keyed_delete.
  - intros r [Hr _]%elem_of_delete_where. by apply TU.
  - intros r s [Hr _]%elem_of_delete_where [Hs _]%elem_of_delete_where. by apply T1.
  - intros r u [Hr _]%elem_of_delete_where. by apply TA.
Qed.

Lemma delete_user_row_inv i p : accounts_inv p → accounts_inv (delete_user_row i p).
Proof.
  intros [U E L O I R T TU T1 TA A].
  assert (Hu : ∀ u, u ∈ users (p_db (delete_user_row i p)) ↔ u ∈ users (p_db p) ∧ pu_id u ≠ i).
  { intros u. simpl. by rewrite elem_of_delete_where, Z.eqb_neq. }
  assert (Hr : ∀ r, r ∈ p_resets (delete_user_row i p) → r ∈ p_resets p ∧ rt_user_id r ≠ i).
  { intros r [Hr Hn%Z.eqb_neq]%elem_of_delete_where. done. }
  constructor; simpl; try done.
  - by apply keyed_delete.
  - intros u [Hx _]%Hu. by apply E.
  - intros u j [Hx _]%Hu. by apply L.
  - intros u v j [Hx _]%Hu [Hy _]%Hu. by apply O.
  - by apply keyed_delete.
  - intros r [Hx Hn]%Hr. pose proof (TU r Hx) as (u & Hid & Hin)%list_elem_of_fmap.
    rewrite Hid. apply list_elem_of_fmap_2, Hu. split; [done|congruence].
  - intros r s [Hx _]%Hr [Hy _]%Hr. by apply T1.
  - intros r u [Hx _]%Hr Hun [Hy _]%Hu. by apply TA.
Qed.

Lemma forget_user_other i u : pu_instance_id u ≠ Some i → forget_user i u = u.
Proof.
  intros H. unfold forget_user, forget. rewrite bool_decide_eq_false_2 by done. by destruct u.
Qed.

Lemma forget_users_none i l :
  existsb (λ u, bool_decide (pu_instance_id u = Some i)) l = false → forget_user i <$> l = l.
Proof.
  intros H. rewrite existsb_false_elem in H. induction l as [|u l IH]; [done|].
  rewrite fmap_cons, IH by (intros v Hv; apply H; by right). f_equal.
  apply forget_user_other. specialize (H u). rewrite bool_decide_eq_false in H. apply H. left.
Qed.

Lemma forget_instance_users i db :
  existsb (λ u, bool_decide (pu_instance_id u = Some i)) (users db) = false →
  forget_instance i db = set_users (users db) (forget_instance i db).
Proof. intros H. unfold forget_instance. by rewrite (forget_users_none _ _ H). Qed.

Lemma delete_user_instance_inv x p :
  accounts_inv p → accounts_inv (delete_user_instance x p) ∧
  users (p_db (delete_user_instance x p)) = users (p_db p).
Proof.
  intros H. unfold delete_user_instance. destruct (_ && _) eqn:E; [|done].
  apply andb_true_iff in E as [_ E%negb_true_iff].
  assert (Hu : users (p_db (delete_instance (inst_id x) p)) = users (p_db p)).
  { simpl. by apply forget_users_none. }
  split; [|done]. destruct H as [U Em L O I R T TU T1 TA A].
  constructor; rewrite ?Hu; try done.
  - intros u i Hin Hi. simpl. pose proof (L u i Hin Hi) as (y & Hy & Hyin)%list_elem_of_fmap.
    rewrite Hy. apply list_elem_of_fmap_2, elem_of_delete_where. split; [done|].
    apply String.eqb_neq. intros Heq. rewrite existsb_false_elem in E. specialize (E u Hin).
    apply bool_decide_eq_false in E. congruence.
  - simpl. apply NoDup_fmap_where, I.
  - simpl. intros y [Hy _]%elem_of_delete_where. by apply R.
Qed.

Lemma clear_account_inv email p :
  accounts_inv p → accounts_inv (clear_account email p) ∧ p_db (clear_account email p) = p_db p ∧
    p_resets (clear_account email p) = p_resets p ∧ p_instances (clear_account email p) = p_instances p.
Proof.
  intros H. unfold clear_account. destruct (String.eqb email ""); [done|].
  split_and!; [by apply revoke_unlock_inv, clear_portal_inv|done..].
Qed.

(** Which employments go with the user. *)
Definition gone_with (p : Portal) (i j : Z) : bool := mem j (em_id <$> employments_of p i).

(** The database after the user is gone: the rows of the employments are
    deleted, and the rows left may have lost a reference to an instance. *)
Definition user_gone (p p' : Portal) (i : Z) : Prop :=
  let db1 := delete_employment_rows (gone_with p i) (p_db p) in
  let db2 := set_users (delete_where (λ u, pu_id u =? i) (users (p_db p))) db1 in
  p_db p' = db2 ∨ ∃ j, p_db p' = set_users (users db2) (forget_instance j db2).

Lemma delete_user_inv p i p' :
  accounts_inv p → delete_user p i = Ok p' →
  accounts_inv p' ∧ i ∉ pu_id <$> users (p_db p') ∧
  users (p_db p') = delete_where (λ u, pu_id u =? i) (users (p_db p)) ∧
  p_resets p' = delete_where (λ r, rt_user_id r =? i) (p_resets p) ∧ user_gone p p' i.
Proof.
  intros H Hc. unfold delete_user in Hc. ok_inv Hc. injection Hc as <-. rename v into row.
  destruct (clear_account_inv (normalize_email (pu_email row)) p H) as (H1 & D1 & R1 & I1).
  set (p1 := clear_account _ p) in *.
  pose proof (filtered_resets_inv (λ r, rt_user_id r =? i) p1 H1) as H2.
  set (p2 := set_p_resets _ p1) in *.
  assert (H3 : accounts_inv (delete_user_employments i p2)) by (apply same_users_inv; [done|done|simpl; lia]).
  assert (Hg : p_db (delete_user_employments i p2) = delete_employment_rows (gone_with p i) (p_db p)).
  { simpl. unfold employments_of. simpl. by rewrite D1. }
  set (p3 := delete_user_employments i p2) in *.
  assert (Hup3 : users (p_db p3) = users (p_db p)) by (rewrite Hg; reflexivity).
  assert (Hres : ∀ q, p_resets q = p_resets p3 →
    p_resets (delete_user_row i q) = delete_where (λ r, rt_user_id r =? i) (p_resets p)).
  { intros q Hq. simpl. rewrite Hq. simpl. rewrite R1. apply delete_where_none.
    by intros r [_ Hr]%elem_of_delete_where. }
  assert (Hout : ∀ l : list PortalUser, i ∉ pu_id <$> delete_where (λ u, pu_id u =? i) l).
  { intros l (u & Hu & [_ Hn%Z.eqb_neq]%elem_of_delete_where)%list_elem_of_fmap. congruence. }
  destruct (if String.eqb _ "" then None else get_instance p3 _) as [x|] eqn:Ex.
  - destruct (String.eqb _ ""); [done|]. apply get_instance_ok in Ex as [Hx _].
    assert (H4 : accounts_inv (delete_user_row i (update_instance (inst_id x) (with_bearer None None) p3))).
    { apply delete_user_row_inv, update_instance_inv; [done|]. intros y Hy _. split; [done|].
      exact (ai_rows _ H3 y Hy). }
    set (p4 := delete_user_row i _) in *.
    assert (Hu4 : users (p_db p4) = delete_where (λ u, pu_id u =? i) (users (p_db p)))
      by (simpl; rewrite D1; done).
    destruct (delete_user_instance_inv x p4 H4) as [H5 Hu5]. rewrite Hu4 in Hu5.
    split_and!; [done|rewrite Hu5; apply Hout|done| |].
    + unfold delete_user_instance. destruct (_ && _); by apply (Hres (update_instance (inst_id x) (with_bearer None None) p3)).
    + unfold user_gone. rewrite <- Hg.
      unfold delete_user_instance. destruct (_ && _) eqn:Ec.
      * right. exists (inst_id x). unfold delete_instance. cbn [set_p_db p_db].
        apply andb_true_iff in Ec as [_ Ec%negb_true_iff].
        assert (p_db p4 = set_users (delete_where (λ u, pu_id u =? i) (users (p_db p))) (p_db p3)) as Hdb4.
        { change (p_db p4) with (set_users (delete_where (λ u, pu_id u =? i) (users (p_db p3))) (p_db p3)).
          by rewrite Hup3. }
        rewrite <- Hdb4. by apply forget_instance_users.
      * left. change (p_db p4) with (set_users (delete_where (λ u, pu_id u =? i) (users (p_db p3))) (p_db p3)).
        rewrite Hup3, Hg. reflexivity.
  - split_and!; [by apply delete_user_row_inv|apply Hout|simpl; by rewrite D1|by apply Hres|].
    left. change (p_db (delete_user_row i p3)) with
      (set_users (delete_where (λ u, pu_id u =? i) (users (p_db p3))) (p_db p3)).
    rewrite Hup3, Hg. reflexivity.
Qed.

(** ** Resetting a password *)

Lemma lock_portal_user_ok p i u : lock_portal_user p i = Some u → u ∈ users (p_db p) ∧ pu_id u = i.
Proof. apply get_user_elem. Qed.

(** The row [start_reset] adds: the only token of the user that may be used. *)
Record reset_started (p p' : Portal) (now i : Z) (token : string) (row : PortalUserResetToken) : Prop := {
  rs_inv : accounts_inv p';
  rs_frame : p_db p' = p_db p ∧ p_auth p' = p_auth p ∧ p_instances p' = p_instances p;
  rs_user : ∃ u, u ∈ users (p_db p) ∧ pu_id u = i ∧ pu_is_active u = true ∧ pu_is_blocked u = false;
  rs_row : row = mk_reset (p_next_reset p) i (sha256 token) (now + 24 * us_per_hour) None RESET_PENDING None;
  rs_resets : p_resets p' = p_resets (revoke_password_reset_tokens p i now) ++ [row];
  rs_next : p_next_reset p' = p_next_reset p + 1;
}.

Lemma start_reset_ok p now i token p' row :
  accounts_inv p → start_reset p now i token = Ok (p', row) → reset_started p p' now i token row.
Proof.
  intros H Hc. unfold start_reset in Hc. ok_inv Hc. injection Hc as <- <-. bool_hyps.
  destruct (lock_portal_user p i) as [u|] eqn:E; [|done]. injection Hstep as <-.
  apply lock_portal_user_ok in E as [Hu <-].
  destruct (revoke_resets_inv p (pu_id u) now H) as [H1 Hn].
  set (p1 := revoke_password_reset_tokens p (pu_id u) now) in *. set (row := mk_reset _ _ _ _ _ _ _).
  constructor; try done; [|by exists u].
  destruct H1 as [U Em L O I R T TU T1 TA A].
  assert (Hel : ∀ r, r ∈ p_resets p1 ++ [row] → r ∈ p_resets p1 ∨ r = row)
    by (intros r; by rewrite elem_of_app, list_elem_of_singleton).
  constructor; simpl; try done.
  - apply keyed_add; [done| |done]. intros (r & Hid & Hr)%list_elem_of_fmap.
    pose proof (keyed_fresh _ _ _ _ T) as F. rewrite Forall_forall in F. specialize (F r Hr).
    simpl in Hid, F. lia.
  - intros r [Hr| ->]%Hel; [by apply TU|]. exact (list_elem_of_fmap_2 pu_id _ _ Hu).
  - intros r s Hr Hs Ur Us Heq. apply Hel in Hr as [Hr| ->], Hs as [Hs| ->]; [by apply T1| | |done].
    + by rewrite (Hn r Hr Heq) in Ur.
    + by rewrite (Hn s Hs (eq_sym Heq)) in Us.
  - intros r v [Hr| ->]%Hel Ur Hv Hid; [by apply (TA r)|].
    assert (v = u) as ->; [|done]. by apply (NoDup_fmap_eq pu_id (users (p_db p))); [apply (keyed_id _ _ _ _ U)|..].
Qed.

Lemma unused_sent_at_most_one p i :
  accounts_inv p →
  count_of (where_ (λ r, active_sent r && (rt_user_id r =? i)) (p_resets p)) <= 1.
Proof.
  intros H. set (l := where_ _ _).
  assert (Hl : ∀ r, r ∈ l → r ∈ p_resets p ∧ unused r = true ∧ rt_user_id r = i).
  { intros r [Hr Hq]%elem_of_where. unfold active_sent in Hq. by bool_hyps. }
  assert (Hn : NoDup l) by (apply NoDup_where; eapply NoDup_fmap_1, (keyed_id _ _ _ _ (ai_resets _ H))).
  destruct l as [|r [|s l]]; unfold count_of; simpl; [lia|lia|].
  exfalso. destruct (Hl r) as (Hr & Ur & Ir); [left|]. destruct (Hl s) as (Hs & Us & Is); [right; left|].
  apply NoDup_cons in Hn as [Hn _]. apply Hn.
  rewrite (ai_one_unused _ H r s Hr Hs Ur Us) by congruence. left.
Qed.

(** The delivery state is written unless the row is gone: the unique index
    is never violated. *)
Lemma write_delivery_ok p row state revoked now :
  accounts_inv p →
  write_delivery p row state revoked now =
    if is_some (get_reset p (rt_id row))
    then Ok (update_reset (rt_id row) (mark_reset_delivery state revoked now) p)
    else Err (Crash "StaleDataError").
Proof.
  intros H. unfold write_delivery. destruct (get_reset p (rt_id row)); [|done]. cbn [or_raise is_some rbind].
  pose proof (update_resets_inv (λ r, rt_id r =? rt_id row) _ p H (marked_stays state revoked now)) as H'.
  fold (update_reset (rt_id row) (mark_reset_delivery state revoked now) p) in H'.
  pose proof (unused_sent_at_most_one _ (rt_user_id row) H') as Hle.
  by rewrite (proj2 (Z.ltb_ge _ _) Hle).
Qed.

Lemma finish_reset_inv p now row mail :
  accounts_inv p → accounts_inv (finish_reset p now row mail).1 ∧
    p_db (finish_reset p now row mail).1 = p_db p.
Proof.
  intros H. unfold finish_reset. rewrite !(write_delivery_ok _ _ _ _ _ H).
  assert (Hm : ∀ st rv, accounts_inv (update_reset (rt_id row) (mark_reset_delivery st rv now) p))
    by (intros st rv; by apply update_resets_inv, marked_stays).
  destruct mail; [|destruct (is_some _); simpl; auto|done].
  destruct (match lock_portal_user p (rt_user_id row) with Some _ => _ | None => true end);
    destruct (is_some _); simpl; auto.
Qed.

Definition accepts (token : string) (now : Z) (r : PortalUserResetToken) : bool :=
  String.eqb (rt_token_hash r) (sha256 token) && usable now r.

(** What a successful [portal_reset] found and did. *)
Record password_reset (p p' : Portal) (now : Z) (payload : PortalResetIn) (row : PortalUserResetToken)
    (u u1 : PortalUser) : Prop := {
  pr_row : row ∈ p_resets p ∧ accepts (ri_token payload) now row = true;
  pr_owner : u ∈ users (p_db p) ∧ pu_id u = rt_user_id row;
  pr_open : pu_is_active u = true ∧ pu_is_blocked u = false;
  pr_changed : ∃ p1, password_changed p p1 u u1 (ri_password payload) ∧
    p' = update_reset (rt_id row) (used_at now) (save_user u1 p1);
  pr_inv : accounts_inv p';
}.

Lemma head_where {A} (q : A → bool) l x : head (where_ q l) = Some x → x ∈ l ∧ q x = true.
Proof.
  destruct (where_ q l) as [|y l'] eqn:E; [done|]. intros [= <-]. apply elem_of_where. rewrite E. left.
Qed.

Lemma portal_reset_ok p now payload p' :
  accounts_inv p → portal_reset p now payload = Ok p' → ∃ row u u1, password_reset p p' now payload row u u1.
Proof.
  intros H Hc. unfold portal_reset in Hc. ok_inv Hc.
  apply or_raise_ok in Hstep, Hstep0, Hstep1, Hstep2, Hstep3.
  rewrite Hstep0 in Hstep1. injection Hstep1 as <-.
  rename v into row, v0 into u, v2 into row'.
  destruct v3 as [p1 u1]. injection Hc as <-. bool_hyps.
  apply head_where in Hstep as [Hrow Hacc]. apply head_where in Hstep2 as [Hrow' Hacc'].
  apply lock_portal_user_ok in Hstep0 as [Hu Hid].
  assert (row' = row) as ->.
  { apply andb_true_iff in Hacc' as [Hacc' _]. bool_hyps.
    by apply (NoDup_fmap_eq rt_id (p_resets p)); [apply (keyed_id _ _ _ _ (ai_resets _ H))|..]. }
  pose proof (change_password_ok _ _ _ _ _ _ H Hstep3) as C.
  exists row, u, u1. constructor; try done; [by exists p1|].
  apply update_resets_inv; [|apply used_stays].
  pose proof (pc_user _ _ _ _ _ C) as Hu1. apply (save_same p1 u).
  - apply C.
  - by rewrite (pc_db _ _ _ _ _ C).
  - by rewrite Hu1.
  - by rewrite Hu1.
  - by rewrite Hu1.
  - left. rewrite Hu1. apply C.
Qed.

(** ** Signing in *)

Lemma lockout_row_ok a email now :
  auth_wf a → ∃ a1 s, get_lockout_state a "portal" email true = (a1, Some s) ∧ auth_wf a1 ∧
    auth_wf (record_login_failure a1 email now).1.
Proof.
  intros W. destruct (get_lockout_ok a "portal" email W) as (a1 & s & Hg & W1 & R).
  exists a1, s. split_and!; [done|done|]. unfold record_login_failure. rewrite (get_existing _ _ _ _ R).
  pose proof (record_failed_row s now PORTAL_LOCKOUT_DURATION LOCKOUT_THRESHOLD LOCKOUT_WINDOW)
    as (Hid & Hkey & Hn).
  destruct (record_failed_login _ _ _ _ _) as [s' b]. cbn [fst] in *.
  apply (save_state_ok a1 "portal" email s s'); try done. apply Hn.
  pose proof (aw_attempts _ W1) as F. rewrite Forall_forall in F. apply F.
  by apply (principal_row_elem _ _ _ _ R).
Qed.

Lemma portal_login_inv p now payload :
  accounts_inv p →
  accounts_inv (portal_login p now payload).1 ∧
  users_only (p_db p) (p_db (portal_login p now payload).1) ∧
  p_resets (portal_login p now payload).1 = p_resets p.
Proof.
  intros H. unfold portal_login.
  destruct (lockout_row_ok (p_auth p) (normalize_email (lg_email payload)) now (ai_auth _ H))
    as (a1 & s & -> & W1 & W2).
  pose proof (set_auth_inv a1 p H W1) as H1.
  destruct (is_locked _ _); [by split_and!|].
  destruct (check_credentials _ _ _) as [[u v]|] eqn:Hc.
  2:{ destruct (record_login_failure a1 _ now) as [a2 err]. split_and!; try done. by apply set_auth_inv. }
  apply credentials_ok in Hc as (h & Hu & _). cbn zeta.
  assert (H2 : accounts_inv (rehash u (lg_password payload) v (set_p_auth a1 p)) ∧
    users_only (p_db p) (p_db (rehash u (lg_password payload) v (set_p_auth a1 p)))).
  { unfold rehash. destruct (pv_needs_rehash v); [|by split]. split.
    - apply (save_same _ u); try done. destruct (usable_or_none (set_p_auth a1 p) u H1 Hu); [by left|by right].
    - apply (users_only_save _ (set_p_auth a1 p)). }
  destruct H2 as [H2 F2].
  pose proof (rehash_other u (lg_password payload) v (set_p_auth a1 p)) as (_ & _ & _ & R2).
  set (p1 := rehash _ _ _ _) in *.
  destruct (pu_is_blocked u); [by split_and!|].
  destruct (issue_portal_login p1 u now) as [[p2 out]|] eqn:Hi; [|by split_and!].
  apply issue_login_ok in Hi as (_ & i & _ & _ & _ & _ & _ & _ & _ & _ & ->).
  split_and!; [|done|done]. apply clear_portal_inv, update_instance_inv; [done|].
  intros x Hx _. split; [done|]. exact (ai_rows _ H2 x Hx).
Qed.

(** ** Instances *)

Lemma strip_length s : Z.of_nat (String.length (strip s)) <= Z.of_nat (String.length s).
Proof.
  assert (Hd : ∀ x, (length (drop_spaces x) <= length x)%nat).
  { induction x as [|y x IH]; simpl; [lia|]. destruct (is_space y); simpl; lia. }
  assert (Hlen : ∀ x, String.length (string_of_list_ascii x) = length x)
    by (induction x as [|y x IH]; simpl; [done|by rewrite IH]).
  rewrite <- (string_of_list_ascii_of_string s) at 2. unfold strip, strip_chars.
  rewrite !Hlen, length_rev. pose proof (Hd (rev (drop_spaces (list_ascii_of_string s)))) as H1.
  rewrite length_rev in H1. pose proof (Hd (list_ascii_of_string s)). lia.
Qed.

Lemma trim_short s : opt_all (length_between 0 128) s = true →
  opt_all (λ n, Z.of_nat (String.length n) <=? 128) (optional_trim s) = true.
Proof.
  destruct s as [s|]; [|done]. simpl. unfold length_between. intros H. bool_hyps.
  pose proof (strip_length s). destruct s; [done|]. simpl opt_all. apply Z.leb_le. lia.
Qed.

Lemma register_instance_ok p now uuid body p' out :
  accounts_inv p → register_instance p now uuid body = Ok (p', out) →
  accounts_inv p' ∧ p_db p' = p_db p ∧ p_resets p' = p_resets p ∧ out = (uuid, INST_PENDING).
Proof.
  intros H Hc. unfold register_instance, flush_instance in Hc. ok_inv Hc. injection Hc as <- <-.
  apply negb_false_iff in Hguard0. split_and!; try done.
  destruct H as [U E L O I R T TU T1 TA A]. pose proof (no_instance _ _ Hguard1) as Hout.
  constructor; simpl; try done.
  - intros u i Hu Hi. rewrite fmap_app. apply elem_of_app. left. by eapply L.
  - rewrite fmap_app. apply NoDup_app. split_and!; [done| |apply NoDup_singleton].
    intros x Hx Hs%list_elem_of_singleton. simpl in Hs. congruence.
  - intros x [Hx| ->%list_elem_of_singleton]%elem_of_app; [by apply R|done].
Qed.

(** Registration is never refused by the database: the body's limits are
    those of the columns. *)
Lemma register_instance_fits p now uuid body :
  is_some (get_instance p uuid) = false →
  register_instance p now uuid body ≠ Err (Crash "DataError") ∧
  register_instance p now uuid body ≠ Err (Crash "IntegrityError").
Proof.
  intros Hnew. unfold register_instance, flush_instance.
  destruct (negb _) eqn:E; [done|]. cbn [guard rbind]. apply negb_false_iff in E. bool_hyps.
  set (inst := mk_instance _ _ _ _ _ _ _ _ _ _ _ _).
  assert (instance_row_ok inst = true) as ->.
  { unfold instance_row_ok, inst. cbn [inst_device_fingerprint inst_display_name].
    rewrite trim_short by done. rewrite andb_true_r. apply Z.leb_le.
    pose proof (strip_length (ir_device_fingerprint body)). unfold length_between in H. bool_hyps. lia. }
  cbn [negb guard rbind]. by rewrite Hnew.
Qed.

Lemma get_status_inv p now i p' out :
  accounts_inv p → get_instance_status p now i = Ok (p', out) →
  accounts_inv p' ∧ p_db p' = p_db p ∧ p_resets p' = p_resets p.
Proof.
  intros H Hc. unfold get_instance_status in Hc. ok_inv Hc. injection Hc as <- _.
  split_and!; [|done|done]. apply update_instance_inv; [done|]. intros x Hx _. split; [done|].
  exact (ai_rows _ H x Hx).
Qed.

Lemma claim_token_inv p now i token p' out :
  accounts_inv p → claim_instance_token p now i token = Ok (p', out) →
  accounts_inv p' ∧ p_db p' = p_db p ∧ p_resets p' = p_resets p.
Proof.
  intros H Hc. unfold claim_instance_token in Hc. ok_inv Hc. injection Hc as <- _.
  split_and!; [|done|done]. apply update_instance_inv; [done|]. intros x Hx _. split; [done|].
  exact (ai_rows _ H x Hx).
Qed.

Lemma activate_instance_inv p now i name p' out :
  accounts_inv p → activate_instance p now i name = Ok (p', out) →
  accounts_inv p' ∧ p_db p' = p_db p ∧ p_resets p' = p_resets p.
Proof.
  intros H Hc. unfold activate_instance in Hc. ok_inv Hc. injection Hc as <- _.
  apply or_raise_ok, get_instance_ok in Hstep as [Hv _]. apply negb_false_iff in Hguard.
  split_and!; [|done|done]. apply update_instance_inv; [done|]. intros x Hx _. split; [done|].
  pose proof (ai_rows _ H x Hx) as Hr. pose proof (ai_rows _ H v Hv) as Hr'.
  unfold instance_row_ok in *. cbn [activated inst_device_fingerprint inst_display_name].
  apply andb_true_iff in Hr as [-> _], Hr' as [_ Hr']. simpl.
  pose proof (trim_short name Hguard) as Ht. destruct (optional_trim name) as [[|c n]|]; [done..|].
  done.
Qed.
End Handlers.
