(* ===== verification/Reminders.v ===== *)
(** * app/services/attendance_reminders.py: reminder e-mails

    One run visits every valid employment of every active user, sends the
    reminders that are due and not yet recorded, and commits a row after each
    e-mail.  [sender n to subject] is the mail server: the outcome of the
    [n]-th e-mail of the run; an error ends the run, with the rows committed so
    far. *)

From S2P Require Import Prelude Calendar TimeParse PragueTime Models TimeIntervals.
From S2P Require Import EmploymentAccess DayStatus MonthSummary AttendanceApi SystemInvariant.
#[local] Open Scope Z_scope.

Definition ARRIVAL_REMINDER : string := "missing_arrival".
Definition SAME_DAY_DEPARTURE_REMINDER : string := "missing_departure_after_shift".
Definition PREVIOUS_DAY_DEPARTURE_REMINDER : string := "missing_departure_previous_day".
Definition ARRIVAL_SUBJECT : string := "Nemas zapsany prichod".
Definition DEPARTURE_SUBJECT : string := "Jsi jeste v praci? Nemas zapsan odchod".

(** Wall clocks of the same zone; [max_attempts] and [interval_minutes] as in
    every call. *)
Definition scheduled_attempt_count (now first_at interval_minutes max_attempts : Z) : Z :=
  if now <? first_at then 0
  else
    let elapsed_minutes := (now - first_at) / us_per_minute in
    Z.min max_attempts (elapsed_minutes / interval_minutes + 1).

Definition reminder_key : Type := Z * date * string * Z.
Definition reminder_key_of (r : AttendanceReminderEvent) : reminder_key :=
  (rm_employment_id r, rm_attendance_date r, rm_reminder_type r, rm_sequence_no r).

Definition already_sent_keys (db : DB) (attendance_date : date) : list reminder_key :=
  reminder_key_of <$> where_ (λ r, rm_attendance_date r =? attendance_date) (reminders db).

Definition record_sent (e : Employment) (u : PortalUser) (attendance_date : date)
    (reminder_type : string) (sequence_no : Z) (db : DB) : DB :=
  bump_id (set_reminders (reminders db ++
    [mk_reminder (next_id db) (em_id e) (pu_instance_id u) attendance_date reminder_type
       sequence_no (pu_email u)]) db).

Section Reminders.
Context `{zone : PragueZone}.
Context (sender : nat → string → string → result unit).

(** The state of a run: the database, the keys already sent, the counter. *)
Record run_state := mk_run_state {
  rs_db : DB;
  rs_sent : list reminder_key;
  rs_count : nat;
}.

Definition run (A : Type) : Type := run_state → run_state * result A.

Definition run_ret {A} (a : A) : run A := λ s, (s, Ok a).
Definition run_bind {A B} (m : run A) (k : A → run B) : run B :=
  λ s, match m s with (s', Ok a) => k a s' | (s', Err e) => (s', Err e) end.
Definition run_lift {A} (r : result A) : run A := λ s, (s, r).

Fixpoint run_each {A} (f : A → run unit) (l : list A) : run unit :=
  match l with
  | [] => run_ret tt
  | x :: rest => run_bind (f x) (λ _, run_each f rest)
  end.

(** The body of the inner loops: one attempt. *)
Definition attempt (e : Employment) (u : PortalUser) (day : date)
    (reminder_type subject : string) (sequence_no : Z) : run unit :=
  λ s,
    let key := (em_id e, day, reminder_type, sequence_no) in
    if mem key (rs_sent s) then (s, Ok tt)
    else
      match sender (rs_count s) (pu_email u) subject with
      | Err err => (s, Err err)
      | Ok _ =>
          (mk_run_state (commit (record_sent e u day reminder_type sequence_no (rs_db s)))
             (key :: rs_sent s) (S (rs_count s)), Ok tt)
      end.

Definition attempts (e : Employment) (u : PortalUser) (day : date)
    (reminder_type subject : string) (now first_at : Z) : run unit :=
  run_each (attempt e u day reminder_type subject)
    (zrange 1 (Z.to_nat (scheduled_attempt_count now first_at 10 5))).

Definition hours (n : Z) : Z := n * 60 * us_per_minute.

(** The loop body over the eligible employments. *)
Definition remind (plans : list ShiftPlan) (count : Z → date → Z) (now : Z) (today : date)
    (eu : Employment * PortalUser) : run unit :=
  let '(e, u) := eu in
  let yesterday := today - 1 in
  let plan := one_or_none (where_ (plan_at (em_id e) today) plans) in
  let today_count := count (em_id e) today in
  let yesterday_count := count (em_id e) yesterday in
  run_bind
    (match plan with
     | Some p =>
         if truthy (sp_arrival_time p) && (today_count =? 0) then
           run_bind (run_lift (combine_prague_hhmm today (default EmptyString (sp_arrival_time p))))
             (λ t, attempts e u today ARRIVAL_REMINDER ARRIVAL_SUBJECT now (wall t + 5 * us_per_minute))
         else run_ret tt
     | None => run_ret tt
     end) (λ _,
  run_bind
    (match plan with
     | Some p =>
         if truthy (sp_departure_time p) && (today_count mod 2 =? 1) then
           run_bind (run_lift (combine_prague_hhmm today (default EmptyString (sp_departure_time p))))
             (λ t, attempts e u today SAME_DAY_DEPARTURE_REMINDER DEPARTURE_SUBJECT now
                     (wall t + hours 2))
         else run_ret tt
     | None => run_ret tt
     end) (λ _,
  if yesterday_count mod 2 =? 1 then
    attempts e u yesterday PREVIOUS_DAY_DEPARTURE_REMINDER DEPARTURE_SUBJECT now
      (wall (combine_prague today 8 0))
  else run_ret tt)).

(** The valid employments of the active users. *)
Definition eligible_employments (db : DB) (today : date) : list (Employment * PortalUser) :=
  mjoin ((λ u, (λ e, (e, u)) <$>
      where_ (λ e, (em_user_id e =? pu_id u) && employment_is_valid_on_day e today) (employments db))
    <$> where_ pu_is_active (users db)).

Definition recent_events (db : DB) (employment_ids : list Z) (today : date) : list AttendanceEvent :=
  let yesterday_start := combine_prague (today - 1) 0 0 in
  let tomorrow_start := at_wall (wall (combine_prague today 0 0) + us_per_day) in
  where_ (λ x, mem (ev_employment_id x) employment_ids &&
               (utc yesterday_start <=? utc (ev_occurred_at x)) &&
               (utc (ev_occurred_at x) <? utc tomorrow_start)) (events db).

Definition event_count (evs : list AttendanceEvent) (employment_id : Z) (day : date) : Z :=
  Z.of_nat (length (where_ (λ x, (ev_employment_id x =? employment_id) && (ev_day x =? day)) evs)).

(** The database after the run and the number of e-mails, or the error. *)
Definition process_attendance_reminders (db : DB) (now : py_datetime) : DB * result Z :=
  let current := prague_now now in
  let today := date_of current in
  let eligible := eligible_employments db today in
  match eligible with
  | [] => (db, Ok 0)
  | _ =>
      let ids := em_id <$> eligible.*1 in
      let day_plans := where_ (λ p, mem (sp_date p) [today; today - 1] &&
                                    mem (sp_employment_id p) ids) (plans db) in
      let evs := recent_events db ids today in
      let sent := already_sent_keys db today ++ already_sent_keys db (today - 1) in
      match run_each (remind day_plans (event_count evs) (wall current) today) eligible
              (mk_run_state db sent 0) with
      | (s, Ok _) => (rs_db s, Ok (Z.of_nat (rs_count s)))
      | (s, Err err) => (rs_db s, Err err)
      end
  end.
End Reminders.

(** ** What is due

    The [n]-th reminder of a kind is due ten minutes after the one before it;
    five are sent at most. *)
Section Due.
Context `{zone : PragueZone}.

Definition uq_attendance_reminder_event (db : DB) : Prop := NoDup (reminder_key_of <$> reminders db).

Definition attempt_due (now first_at n : Z) : Prop :=
  1 <= n <= 5 ∧ first_at + 10 * (n - 1) * us_per_minute <= now.

Inductive reminder_due (db : DB) (current : aware) (e : Employment) : reminder_key → Prop :=
  | due_arrival p t n :
      let today := date_of current in
      p ∈ plans db → sp_employment_id p = em_id e → sp_date p = today →
      truthy (sp_arrival_time p) = true → event_count (events db) (em_id e) today = 0 →
      combine_prague_hhmm today (default EmptyString (sp_arrival_time p)) = Ok t →
      attempt_due (wall current) (wall t + 5 * us_per_minute) n →
      reminder_due db current e (em_id e, today, ARRIVAL_REMINDER, n)
  | due_departure p t n :
      let today := date_of current in
      p ∈ plans db → sp_employment_id p = em_id e → sp_date p = today →
      truthy (sp_departure_time p) = true →
      event_count (events db) (em_id e) today mod 2 = 1 →
      combine_prague_hhmm today (default EmptyString (sp_departure_time p)) = Ok t →
      attempt_due (wall current) (wall t + hours 2) n →
      reminder_due db current e (em_id e, today, SAME_DAY_DEPARTURE_REMINDER, n)
  | due_yesterday n :
      let yesterday := date_of current - 1 in
      event_count (events db) (em_id e) yesterday mod 2 = 1 →
      attempt_due (wall current) (wall (combine_prague (date_of current) 8 0)) n →
      reminder_due db current e (em_id e, yesterday, PREVIOUS_DAY_DEPARTURE_REMINDER, n).

Lemma scheduled_attempts now first_at n :
  n ∈ zrange 1 (Z.to_nat (scheduled_attempt_count now first_at 10 5)) ↔ attempt_due now first_at n.
Proof.
  rewrite elem_of_zrange. unfold scheduled_attempt_count, attempt_due, us_per_minute.
  destruct (now <? first_at) eqn:E; bool_hyps; [simpl; nia|].
  zdiv.
Qed.

Lemma elem_of_eligible db today e u :
  (e, u) ∈ eligible_employments db today ↔
  e ∈ employments db ∧ u ∈ users db ∧ pu_is_active u = true ∧ em_user_id e = pu_id u ∧
  employment_is_valid_on_day e today = true.
Proof.
  unfold eligible_employments. rewrite elem_of_mjoin_fmap. setoid_rewrite elem_of_where.
  setoid_rewrite list_elem_of_fmap. setoid_rewrite elem_of_where.
  setoid_rewrite andb_true_iff. setoid_rewrite Z.eqb_eq. naive_solver.
Qed.
End Due.

(** ** The run as a Hoare logic *)
Section Run.
Context `{zone : PragueZone} `{!PragueZoneLaws zone}.
Context (db0 : DB) (current : aware).
Hypothesis Hinv : inv db0.

(** The rows a run may add: due, for an eligible employment. *)
Definition good_row (r : AttendanceReminderEvent) : Prop :=
  ∃ e u, (e, u) ∈ eligible_employments db0 (date_of current) ∧
    reminder_due db0 current e (reminder_key_of r) ∧ rm_sent_to r = pu_email u.

Definition with_reminders (new : list AttendanceReminderEvent) : DB :=
  set_next_id (next_id db0 + Z.of_nat (length new)) (set_reminders (reminders db0 ++ new) db0).

Definition recent (d : date) : Prop := d = date_of current ∨ d = date_of current - 1.

Record run_ok (s : run_state) : Prop := {
  ro_new : ∃ new, rs_db s = with_reminders new ∧ rs_count s = length new ∧ Forall good_row new;
  ro_sent : ∀ k, k ∈ rs_sent s ↔
    recent k.1.1.2 ∧ k ∈ reminder_key_of <$> reminders (rs_db s);
  ro_unique : uq_attendance_reminder_event (rs_db s);
}.

(** [m] keeps [run_ok], forgets no key, and on success has sent all of [K]. *)
Definition sends (m : run unit) (K : reminder_key → Prop) : Prop :=
  ∀ s, run_ok s → run_ok (m s).1 ∧ (∀ k, k ∈ rs_sent s → k ∈ rs_sent (m s).1) ∧
    ((m s).2 = Ok tt → ∀ k, K k → k ∈ rs_sent (m s).1).

Lemma sends_ret K : (∀ k, ¬ K k) → sends (run_ret tt) K.
Proof. intros HK s Hs. split_and!; [done|done|]. intros _ k Hk. by apply HK in Hk. Qed.

Lemma sends_weaken m (K K' : reminder_key → Prop) :
  (∀ k, K' k → K k) → sends m K → sends m K'.
Proof. intros HK Hm s Hs. destruct (Hm s Hs) as (H1 & H2 & H3). split_and!; auto. Qed.

Lemma sends_bind m1 (m2 : unit → run unit) K1 K2 :
  sends m1 K1 → sends (m2 tt) K2 → sends (run_bind m1 m2) (λ k, K1 k ∨ K2 k).
Proof.
  intros H1 H2 s Hs. unfold run_bind. destruct (H1 s Hs) as (A1 & B1 & C1).
  destruct (m1 s) as [s1 [[]|err]]; simpl in *; [|by split_and!].
  destruct (H2 s1 A1) as (A2 & B2 & C2). split_and!; [done|auto|].
  intros Hr k [Hk|Hk]; auto.
Qed.

Lemma sends_lift {A} (r : result A) (m : A → run unit) K :
  (∀ a, r = Ok a → sends (m a) K) → sends (run_bind (run_lift r) m) K.
Proof.
  intros H s Hs. unfold run_bind, run_lift. destruct r as [a|err]; [by apply H|].
  by split_and!.
Qed.

Lemma sends_each {A} (f : A → run unit) l (K : A → reminder_key → Prop) :
  (∀ x, x ∈ l → sends (f x) (K x)) → sends (run_each f l) (λ k, ∃ x, x ∈ l ∧ K x k).
Proof.
  induction l as [|x l IH]; intros H.
  - apply sends_ret. by intros k (x & Hx%elem_of_nil & _).
  - eapply sends_weaken; [|apply sends_bind; [apply H; left|apply IH; intros y Hy; apply H; by right]].
    intros k (y & [->|Hy]%elem_of_cons & Hk); eauto.
Qed.

Lemma commit_with new : commit (with_reminders new) = with_reminders new.
Proof.
  pose proof (commit_stored db0 Hinv) as H. unfold commit in H.
  assert (Hev : reload_event <$> events db0 = events db0) by (rewrite <- H at 2; done).
  unfold commit, with_reminders. simpl. by rewrite Hev.
Qed.

Lemma sends_attempt sender e u day type subject n :
  (e, u) ∈ eligible_employments db0 (date_of current) → recent day →
  reminder_due db0 current e (em_id e, day, type, n) →
  sends (attempt sender e u day type subject n) (λ k, k = (em_id e, day, type, n)).
Proof.
  intros He Hd Hdue s Hs. unfold attempt. set (key := (em_id e, day, type, n)) in *.
  destruct (mem key (rs_sent s)) eqn:Hm.
  { apply mem_true in Hm. split_and!; [done|done|]. by intros _ k ->. }
  apply mem_false in Hm. destruct (sender _ _ _); [|by split_and!]. simpl.
  destruct Hs as [(new & Hdb & Hc & Hg) Hsent Huq].
  set (row := mk_reminder (next_id (rs_db s)) (em_id e) (pu_instance_id u) day type n (pu_email u)).
  assert (Hrow : record_sent e u day type n (rs_db s) = with_reminders (new ++ [row])).
  { unfold record_sent. fold row. rewrite Hdb. unfold with_reminders, bump_id. simpl.
    rewrite length_app, <- app_assoc. simpl. unfold set_next_id, set_reminders. simpl. f_equal. lia. }
  rewrite Hrow, commit_with. simpl. split_and!.
  - constructor; simpl.
    + exists (new ++ [row]). split_and!; [done|by rewrite length_app, Hc; simpl; lia|].
      apply Forall_app. split; [done|]. constructor; [|constructor]. by exists e, u.
    + intros k. rewrite elem_of_cons, (Hsent k), Hdb. simpl.
      rewrite app_assoc, !fmap_app, !elem_of_app. simpl. rewrite list_elem_of_singleton.
      change (reminder_key_of row) with key. split; [|tauto].
      intros [->|?]; [|tauto]. split; [exact Hd|auto].
    + unfold uq_attendance_reminder_event in *. rewrite Hdb in Huq. simpl in *.
      rewrite app_assoc, fmap_app. apply NoDup_app. split_and!; [done| |apply NoDup_singleton].
      intros k Hk ->%list_elem_of_singleton. apply Hm, Hsent. by rewrite Hdb.
  - intros k Hk. by right.
  - intros _ k ->. left.
Qed.

Lemma sends_attempts sender e u day type subject first_at :
  (e, u) ∈ eligible_employments db0 (date_of current) → recent day →
  (∀ n, attempt_due (wall current) first_at n → reminder_due db0 current e (em_id e, day, type, n)) →
  sends (attempts sender e u day type subject (wall current) first_at)
    (λ k, ∃ n, k = (em_id e, day, type, n) ∧ attempt_due (wall current) first_at n).
Proof.
  intros He Hd Hdue. eapply sends_weaken; [|apply (sends_each _ _ (λ n k, k = (em_id e, day, type, n)))].
  - intros k (n & -> & Hn). exists n. split; [by apply scheduled_attempts|done].
  - intros n Hn. apply sends_attempt; [done|done|]. by apply Hdue, scheduled_attempts.
Qed.

(** The plan of the day, as the run's dictionary holds it. *)
Definition plan_of_day (e : Employment) : option ShiftPlan :=
  get_shift_plan_day db0 (em_id e) (date_of current).

Lemma plan_of_day_iff e p :
  plan_of_day e = Some p ↔
  p ∈ plans db0 ∧ sp_employment_id p = em_id e ∧ sp_date p = date_of current.
Proof.
  unfold plan_of_day, get_shift_plan_day.
  change (plan_at (em_id e) (date_of current)) with (plan_at' (em_id e, date_of current)).
  split.
  - intros Hp. apply (table_found plan_key plan_at' plan_at_spec) in Hp as [Hin [= H1 H2]]. done.
  - intros (Hin & H1 & H2).
    assert (Hw : p ∈ where_ (plan_at' (em_id e, date_of current)) (plans db0)).
    { apply elem_of_where. split; [done|]. apply plan_at_spec. unfold plan_key. by rewrite H1, H2. }
    rewrite (where_key_unique plan_key (em_id e, date_of current)) in Hw
      by (apply (wf_plans _ (inv_wf _ Hinv)) || apply plan_at_spec).
    unfold one_or_none. destruct (head _) as [q|]; [|by apply elem_of_nil in Hw].
    by apply list_elem_of_singleton in Hw as ->.
Qed.

(** One planned time: the attempts of its kind, when its condition holds. *)
Lemma sends_planned sender e u (time : ShiftPlan → option string) (cond : bool)
    (day : date) (type subject : string) (delay : Z) :
  (e, u) ∈ eligible_employments db0 (date_of current) → recent day →
  (∀ p t n, plan_of_day e = Some p → truthy (time p) = true → cond = true →
     combine_prague_hhmm (date_of current) (default EmptyString (time p)) = Ok t →
     attempt_due (wall current) (wall t + delay) n →
     reminder_due db0 current e (em_id e, day, type, n)) →
  sends
    (match plan_of_day e with
     | Some p =>
         if truthy (time p) && cond then
           run_bind (run_lift (combine_prague_hhmm (date_of current) (default EmptyString (time p))))
             (λ t, attempts sender e u day type subject (wall current) (wall t + delay))
         else run_ret tt
     | None => run_ret tt
     end)
    (λ k, ∃ p t n, plan_of_day e = Some p ∧ truthy (time p) = true ∧ cond = true ∧
       combine_prague_hhmm (date_of current) (default EmptyString (time p)) = Ok t ∧
       attempt_due (wall current) (wall t + delay) n ∧ k = (em_id e, day, type, n)).
Proof.
  intros He Hd Hdue. destruct (plan_of_day e) as [p|].
  2:{ apply sends_ret. by intros k (p & t & n & Hp & _). }
  destruct (truthy (time p)) eqn:Ht.
  2:{ apply sends_ret. intros k (q & t & n & [= <-] & Ht' & _). congruence. }
  destruct cond.
  2:{ apply sends_ret. by intros k (q & t & n & _ & _ & Hc & _). }
  simpl. apply sends_lift. intros t Hct.
  eapply sends_weaken; [|apply sends_attempts; [done|done|intros n Hn; by eapply Hdue]].
  intros k (q & t' & n & [= <-] & _ & _ & Hct' & Hn & ->). exists n. split; [done|].
  rewrite Hct in Hct'. by injection Hct' as <-.
Qed.

(** The loop body, for the rows the run loaded. *)
Lemma sends_remind sender day_plans count e u :
  (e, u) ∈ eligible_employments db0 (date_of current) →
  one_or_none (where_ (plan_at (em_id e) (date_of current)) day_plans) = plan_of_day e →
  (∀ d, recent d → count (em_id e) d = event_count (events db0) (em_id e) d) →
  sends (remind sender day_plans count (wall current) (date_of current) (e, u))
    (reminder_due db0 current e).
Proof.
  intros He Hp Hev. unfold remind. cbn zeta. rewrite Hp, (Hev (date_of current)), (Hev (date_of current - 1)) by (first [by left|by right]).
  eapply sends_weaken; [|apply sends_bind; [|apply sends_bind]].
  2:{ apply (sends_planned sender e u sp_arrival_time
        (event_count (events db0) (em_id e) (date_of current) =? 0)); [done|by left|].
      intros p t n (Hin & H1 & H2)%plan_of_day_iff Ht Hc Hct Hn. bool_hyps. by eapply due_arrival. }
  2:{ apply (sends_planned sender e u sp_departure_time
        (event_count (events db0) (em_id e) (date_of current) mod 2 =? 1)); [done|by left|].
      intros p t n (Hin & H1 & H2)%plan_of_day_iff Ht Hc Hct Hn. bool_hyps. by eapply due_departure. }
  2:{ instantiate (1 := λ k, event_count (events db0) (em_id e) (date_of current - 1) mod 2 = 1 ∧
        ∃ n, k = (em_id e, date_of current - 1, PREVIOUS_DAY_DEPARTURE_REMINDER, n) ∧
          attempt_due (wall current) (wall (combine_prague (date_of current) 8 0)) n).
      destruct (_ mod 2 =? 1) eqn:Hodd; bool_hyps.
      - eapply sends_weaken; [|apply sends_attempts; [done|by right|]].
        + by intros k [_ Hk].
        + intros n Hn. by apply due_yesterday.
      - apply sends_ret. intros k [Hk _]. congruence. }
  intros k Hk. destruct Hk as [p t n today Hin H1 H2 H3 H4 H5 H6|p t n today Hin H1 H2 H3 H4 H5 H6|n y H1 H2].
  - left. exists p, t, n. split_and!; try done; [by apply plan_of_day_iff|by apply Z.eqb_eq].
  - right. left. exists p, t, n. split_and!; try done; [by apply plan_of_day_iff|by apply Z.eqb_eq].
  - right. right. split; [done|]. by exists n.
Qed.
End Run.

(** ** A second run *)
Section Settled.
Context `{zone : PragueZone}.

(** Once [m1] succeeded, [m2] finds everything sent. *)
Definition settled (m1 m2 : run unit) : Prop :=
  ∀ s s', m1 s = (s', Ok tt) →
    (∀ k, k ∈ rs_sent s → k ∈ rs_sent s') ∧
    ∀ s2, (∀ k, k ∈ rs_sent s' → k ∈ rs_sent s2) → m2 s2 = (s2, Ok tt).

Lemma settled_ret : settled (run_ret tt) (run_ret tt).
Proof. intros s s' [= <-]. by split. Qed.

Lemma settled_bind m1 m2 (k1 k2 : unit → run unit) :
  settled m1 m2 → settled (k1 tt) (k2 tt) → settled (run_bind m1 k1) (run_bind m2 k2).
Proof.
  intros Hm Hk s s' H. unfold run_bind in *. destruct (m1 s) as [s1 [[]|err]] eqn:E1; [|done].
  destruct (Hm _ _ E1) as [H1 H2], (Hk _ _ H) as [H3 H4]. split; [auto|].
  intros s2 Hs2. rewrite H2 by auto. by apply H4.
Qed.

Lemma settled_lift {A} (r : result A) (k1 k2 : A → run unit) :
  (∀ a, settled (k1 a) (k2 a)) → settled (run_bind (run_lift r) k1) (run_bind (run_lift r) k2).
Proof. intros H. destruct r as [a|err]; [exact (H a)|done]. Qed.

Lemma settled_each {A} (f1 f2 : A → run unit) l :
  (∀ x, settled (f1 x) (f2 x)) → settled (run_each f1 l) (run_each f2 l).
Proof. intros H. induction l as [|x l IH]; [apply settled_ret|]. by apply settled_bind. Qed.

Lemma settled_attempt sender sender2 e u day type subject n :
  settled (attempt sender e u day type subject n) (attempt sender2 e u day type subject n).
Proof.
  intros s s' H. unfold attempt in *. set (key := (em_id e, day, type, n)) in *.
  assert (Hk : key ∈ rs_sent s' ∧ ∀ k, k ∈ rs_sent s → k ∈ rs_sent s').
  { destruct (mem key (rs_sent s)) eqn:Hm.
    - injection H as <-. split; [by apply mem_true|done].
    - destruct (sender _ _ _); [|done]. injection H as <-. simpl. split; [left|].
      intros k Hk. by right. }
  split; [apply Hk|]. intros s2 Hs2. by rewrite (proj2 (mem_true key (rs_sent s2))) by exact (Hs2 _ (proj1 Hk)).
Qed.

Lemma settled_remind sender sender2 day_plans count now today eu :
  settled (remind sender day_plans count now today eu) (remind sender2 day_plans count now today eu).
Proof.
  destruct eu as [e u]. unfold remind. cbn zeta.
  repeat first [apply settled_bind | apply settled_ret
    | apply settled_lift; intros t | apply settled_each; intros x; apply settled_attempt
    | match goal with |- settled (match ?p with _ => _ end) _ => destruct p end].
Qed.
End Settled.

(** ** Property *)

Section Property.
Context `{zone : PragueZone} `{!PragueZoneLaws zone}.

Lemma recent_event_count db ids today e d :
  inv db → e ∈ ids → d = today ∨ d = today - 1 →
  event_count (recent_events db ids today) e d = event_count (events db) e d.
Proof.
  intros Hi He Hd. unfold event_count, recent_events. do 2 f_equal. rewrite where_where.
  apply where_ext. intros x Hx. destruct ((ev_employment_id x =? e) && (ev_day x =? d)) eqn:E;
    [|apply andb_false_r]. rewrite andb_true_r. bool_hyps.
  rewrite <- andb_assoc. apply andb_true_iff. split; [apply mem_true; congruence|].
  assert (combine_prague (today - 1) 0 0 = at_wall (midnight (today - 1))) as ->
    by (unfold combine_prague; f_equal; lia).
  assert (at_wall (wall (combine_prague today 0 0) + us_per_day) = at_wall (midnight (today + 1))) as ->
    by (unfold combine_prague; simpl; f_equal; unfold midnight; lia).
  apply sql_day_range; [by apply (inv_stored _ Hi)|]. unfold ev_day in *. lia.
Qed.

(** What a run loads before its loop. *)
Definition loaded_ids (db : DB) (today : date) : list Z := em_id <$> (eligible_employments db today).*1.
Definition loaded_plans (db : DB) (today : date) : list ShiftPlan :=
  where_ (λ p, mem (sp_date p) [today; today - 1] && mem (sp_employment_id p) (loaded_ids db today))
    (plans db).
Definition loaded_sent (db : DB) (today : date) : list reminder_key :=
  already_sent_keys db today ++ already_sent_keys db (today - 1).

Definition loop (sender : nat → string → string → result unit) (db : DB) (now : py_datetime)
    : run_state * result unit :=
  let today := date_of (prague_now now) in
  run_each (remind sender (loaded_plans db today)
      (event_count (recent_events db (loaded_ids db today) today)) (wall (prague_now now)) today)
    (eligible_employments db today) (mk_run_state db (loaded_sent db today) 0).

(** The early return is the loop over no employment. *)
Lemma process_loop sender db now :
  process_attendance_reminders sender db now =
  match loop sender db now with
  | (s, Ok _) => (rs_db s, Ok (Z.of_nat (rs_count s)))
  | (s, Err err) => (rs_db s, Err err)
  end.
Proof.
  unfold process_attendance_reminders, loop. cbn zeta.
  unfold loaded_plans, loaded_ids, loaded_sent.
  by destruct (eligible_employments db (date_of (prague_now now))).
Qed.

Lemma loaded_sent_elem db current k :
  k ∈ loaded_sent db (date_of current) ↔
  recent current k.1.1.2 ∧ k ∈ reminder_key_of <$> reminders db.
Proof.
  unfold loaded_sent, already_sent_keys. rewrite elem_of_app, !list_elem_of_fmap.
  setoid_rewrite elem_of_where. setoid_rewrite Z.eqb_eq. unfold recent. split.
  - intros [(x & -> & Hx & <-)|(x & -> & Hx & <-)]; (split; [by auto|by exists x]).
  - intros [Hr (x & -> & Hx)]. simpl in Hr. destruct Hr; [left|right]; by exists x.
Qed.

Lemma loaded_ids_elem db today e u :
  (e, u) ∈ eligible_employments db today → em_id e ∈ loaded_ids db today.
Proof.
  intros He. unfold loaded_ids. apply list_elem_of_fmap_2. change e with (e, u).1.
  by apply list_elem_of_fmap_2.
Qed.

Lemma loop_ok sender db now s r :
  inv db → uq_attendance_reminder_event db → loop sender db now = (s, r) →
  run_ok db (prague_now now) s ∧
  (r = Ok tt → ∀ e u k, (e, u) ∈ eligible_employments db (date_of (prague_now now)) →
     reminder_due db (prague_now now) e k → k ∈ rs_sent s).
Proof.
  intros Hi Hu Hloop. unfold loop in Hloop. cbn zeta in Hloop.
  set (current := prague_now now) in *. set (today := date_of current) in *.
  pose proof (sends_each db current (remind sender (loaded_plans db today)
    (event_count (recent_events db (loaded_ids db today) today)) (wall current) today)
    (eligible_employments db today) (λ eu, reminder_due db current eu.1)) as Hrun.
  destruct Hrun with (s := mk_run_state db (loaded_sent db today) 0) as (Hok & _ & Hdone).
  - intros [e u] Heu. cbn [fst]. pose proof (loaded_ids_elem db today e u Heu) as Hid.
    apply sends_remind; [done|done| |].
    + unfold plan_of_day, get_shift_plan_day, loaded_plans. f_equal. rewrite where_where.
      apply where_ext. intros p _. cbv beta. fold today.
      destruct (plan_at (em_id e) today p) eqn:E; rewrite ?andb_false_r, ?andb_true_r; [|done].
      unfold plan_at in E. apply andb_true_iff in E as [E1 E2].
      apply Z.eqb_eq in E1, E2. rewrite E1, E2.
      apply andb_true_iff. split; apply mem_true; [left|done].
    + intros d Hd. by apply recent_event_count.
  - constructor; [|exact (loaded_sent_elem db current)|done].
    exists []. split_and!; [|done|constructor]. unfold with_reminders. simpl.
    rewrite app_nil_r, Z.add_0_r. by destruct db.
  - rewrite Hloop in Hok, Hdone. split; [done|]. intros -> e u k He Hk.
    apply Hdone; [done|]. by exists (e, u).
Qed.

(** After a run that ended well the next one is idle. *)
Lemma loop_idle sender sender2 db now s :
  inv db → uq_attendance_reminder_event db → loop sender db now = (s, Ok tt) →
  loop sender2 (rs_db s) now = (mk_run_state (rs_db s) (loaded_sent (rs_db s) (date_of (prague_now now))) 0, Ok tt).
Proof.
  intros Hi Hu Hloop. destruct (loop_ok _ _ _ _ _ Hi Hu Hloop) as [[(new & Hdb & _) Hsent _] _].
  set (today := date_of (prague_now now)) in *.
  pose proof (settled_each _ _ (eligible_employments db today)
    (settled_remind sender sender2 (loaded_plans db today)
      (event_count (recent_events db (loaded_ids db today) today)) (wall (prague_now now)) today)
    _ _ Hloop) as [_ Hidle].
  rewrite Hdb. apply Hidle. intros k Hk%Hsent. simpl. rewrite <- Hdb.
  by apply loaded_sent_elem.
Qed.

(** What a run leaves, with or without an error. *)
Lemma reminders_frame sender db now :
  inv db → uq_attendance_reminder_event db →
  let db' := (process_attendance_reminders sender db now).1 in
  uq_attendance_reminder_event db' ∧ ∃ new, db' = with_reminders db new.
Proof.
  intros Hi Hu. rewrite process_loop. destruct (loop sender db now) as [s r] eqn:Hloop.
  destruct (loop_ok _ _ _ _ _ Hi Hu Hloop) as [[(new & Hdb & _) _ Huq] _].
  destruct r as [[]|err]; (split; [done|by exists new]).
Qed.

(** C25: reminders are exactly-once and resumable.  Whatever e-mails fail, a
    run only appends rows, one for each e-mail sent, each for a reminder that
    is due for an eligible employment and was not recorded before; a run that
    ends without an error has recorded every due reminder, and running it
    again sends nothing. *)
Theorem reminders_exactly_once sender db now
    (Hi : inv db) (Hu : uq_attendance_reminder_event db) :
  let '(db', r) := process_attendance_reminders sender db now in
  uq_attendance_reminder_event db' ∧
  (∃ new, db' = with_reminders db new ∧ Forall (good_row db (prague_now now)) new ∧
     ∀ n, r = Ok n → n = Z.of_nat (length new)) ∧
  ∀ n, r = Ok n →
    (∀ e u k, (e, u) ∈ eligible_employments db (date_of (prague_now now)) →
       reminder_due db (prague_now now) e k → k ∈ reminder_key_of <$> reminders db') ∧
    ∀ sender2, process_attendance_reminders sender2 db' now = (db', Ok 0).
Proof.
  rewrite process_loop. destruct (loop sender db now) as [s r] eqn:Hloop.
  destruct (loop_ok _ _ _ _ _ Hi Hu Hloop) as [[(new & Hdb & Hc & Hg) Hsent Huq] Hdone].
  destruct r as [[]|err].
  - split_and!; [done| |].
    + exists new. split_and!; [done|done|]. intros n [= <-]. by rewrite Hc.
    + intros n _. split.
      * intros e u k He Hk. by apply Hsent, (Hdone eq_refl e u).
      * intros sender2. rewrite process_loop. by rewrite (loop_idle _ _ _ _ _ Hi Hu Hloop).
  - split_and!; [done| |done]. by exists new.
Qed.
End Property.
