(* ===== verification/AttendanceSafety.v ===== *)
(** * Safety of the attendance endpoints

    Every request of the portal or the administration that records, moves or
    deletes attendance events and succeeds preserves [inv], keeps the metrics
    fresh and changes nothing in a locked month. *)

From S2P Require Import Prelude Calendar TimeParse PragueTime Models TimeIntervals Breaks.
From S2P Require Import TimeMetrics Locks EmploymentAccess DayStatus AttendanceEvents.
From S2P Require Import MonthSummary AttendanceApi SystemInvariant AdminAttendanceApi.

Definition day_locked (db : DB) (lock_type : LockType) (e : Z) (d : date) : bool :=
  is_month_locked db lock_type e (year_of d) (month_of d).

(** No attendance fact of an attendance-locked month and no plan of a
    plan-locked month differs. *)
Record lock_safe (db db' : DB) : Prop := {
  ls_attendance : ∀ e d, day_locked db LOCK_ATTENDANCE e d = true →
    attendance_status db' (e, d) = attendance_status db (e, d) ∧
    ∀ x, ev_employment_id x = e → ev_day x = d → x ∈ events db' ↔ x ∈ events db;
  ls_plans : ∀ e d, day_locked db LOCK_SHIFT_PLAN e d = true →
    plan_rows db' (e, d) = plan_rows db (e, d);
}.

Lemma frame_lock_safe e D db db' :
  days_frame e D db db' →
  (∀ d, d ∈ D → day_locked db LOCK_ATTENDANCE e d = true →
     attendance_status db' (e, d) = attendance_status db (e, d) ∧
     ∀ x, ev_employment_id x = e → ev_day x = d → x ∈ events db' ↔ x ∈ events db) →
  (∀ d, d ∈ D → day_locked db LOCK_SHIFT_PLAN e d = true →
     plan_rows db' (e, d) = plan_rows db (e, d)) →
  lock_safe db db'.
Proof.
  intros F Ha Hp. constructor.
  - intros e' d Hl. destruct (decide (e' = e ∧ d ∈ D)) as [[-> Hd]|Hn]; [by apply Ha|]. split.
    + unfold attendance_status. by rewrite (df_attendance _ _ _ _ F (e', d) Hn).
    + intros x He Hd. apply (df_events _ _ _ _ F). by rewrite He, Hd.
  - intros e' d Hl. destruct (decide (e' = e ∧ d ∈ D)) as [[-> Hd]|Hn]; [by apply Hp|].
    by apply (df_plans _ _ _ _ F (e', d)).
Qed.

Lemma ensure_months_unlocked_ok db lt e months u :
  ensure_months_unlocked db lt e months = Ok u →
  ∀ y m, (y, m) ∈ months → is_month_locked db lt e y m = false.
Proof.
  unfold ensure_months_unlocked. rewrite for_each_ok, Forall_forall. intros H y m Hin.
  specialize (H _ Hin). simpl in H. by apply guard_ok in H.
Qed.

(** The status check covers every listed day. *)
Lemma ensure_no_status_ok db e days u d :
  ensure_days_have_no_status db e days = Ok u → d ∈ days → no_status db e d.
Proof.
  unfold ensure_days_have_no_status. destruct days as [|d0 days0]; [by intros _ ?%elem_of_nil|].
  generalize (d0 :: days0) as days. intros days.
  rewrite guard_ok, orb_false_iff. intros [Ha Hp] Hd.
  assert (Hnil : ∀ {A} (l : list A), nonempty l = false → l = []) by by intros A [].
  apply Hnil in Ha, Hp. rewrite where_nil_iff in Ha. rewrite where_nil_iff in Hp. split.
  - unfold attendance_status. destruct (head (attendance_rows db (e, d))) as [a|] eqn:Hh; [|done].
    apply (table_found attendance_key attendance_at' attendance_at_spec) in Hh as [Hin [= He Hda]].
    specialize (Ha a Hin). rewrite He, Z.eqb_refl, Hda, (proj2 (mem_true _ _) Hd) in Ha.
    by destruct (at_status a).
  - unfold plan_status. destruct (head (plan_rows db (e, d))) as [p|] eqn:Hh; [|done].
    apply (table_found plan_key plan_at' plan_at_spec) in Hh as [Hin [= He Hda]].
    specialize (Hp p Hin). rewrite He, Z.eqb_refl, Hda, (proj2 (mem_true _ _) Hd) in Hp.
    by destruct (sp_status p).
Qed.

Lemma except_value_error_ok {A} (m : result A) e a : except_value_error m e = Ok a ↔ m = Ok a.
Proof. destruct m as [|[]]; done. Qed.

Lemma admin_employment_ok db i e :
  admin_employment db i = Ok e → e ∈ employments db ∧ em_id e = i.
Proof.
  unfold admin_employment. intros H. apply rbind_ok in H as (e' & He & H). ok_inv H.
  injection H as <-. by apply or_raise_ok, get_employment_ok in He.
Qed.

Lemma get_event_ok db i x : get_event db i = Some x → x ∈ events db ∧ ev_id x = i.
Proof.
  unfold get_event, one_or_none. intros Hh.
  assert (x ∈ where_ (λ y, ev_id y =? i) (events db)) as [H1 H2%Z.eqb_eq]%elem_of_where.
  { destruct (where_ _ _); [done|]. injection Hh as ->. left. }
  done.
Qed.

Section Safety.
Context `{zone : PragueZone} `{!PragueZoneLaws zone}.

Lemma locked_employment_ok db auth i now e :
  locked_employment db auth i now = Ok e → e ∈ employments db.
Proof.
  unfold locked_employment. intros H. ok_inv H. injection H as ->.
  by eapply lock_employment_ok.
Qed.

Lemma lock_active_ok db i now e :
  lock_active db i now = Ok e → e ∈ employments db ∧ em_id e = i.
Proof.
  unfold lock_active. intros H. ok_inv H. injection H as ->. by apply lock_employment_ok.
Qed.

(** What a committed attendance mutation guarantees. *)
Record attendance_step (db db' : DB) : Prop := {
  as_inv : inv db';
  as_safe : lock_safe db db';
  as_plans : plans db' = plans db ∧ attendance db' = attendance db;
  as_tables : same_but_metrics db db';
  as_scope : in_scope db db';
}.

(** From a mutated database to the commit, through the checks of
    [finish_event_mutation]. *)
Lemma finish_event_ok e D db db1 changed db' :
  inv db → e ∈ employments db → metrics db1 = metrics db →
  (∀ d, d ∈ D → outside_period e d = false ∨
     ∃ x, x ∈ events db ∧ ev_employment_id x = em_id e ∧ ev_day x = d) →
  (∀ d, d ∈ D → d ∈ changed) → plans db1 = plans db → attendance db1 = attendance db →
  attendance_locks db1 = attendance_locks db →
  ((∀ d, d ∈ D → no_status db1 (em_id e) d) → mutated db (em_id e) D db1) →
  finish_event_mutation db1 e changed = Ok db' →
  attendance_step db db' ∧ days_frame (em_id e) D db db' ∧
  (∀ d, d ∈ D → no_status db (em_id e) d) ∧
  (all_fresh db → (∀ z, z ∈ events db1 → reload_event z = z) → all_fresh db').
Proof.
  intros Hi He Hmet HP HD Hpl Hat Hlk HM H. unfold finish_event_mutation in H. ok_inv H.
  injection H as <-. apply except_value_error_ok in Hstep.
  assert (Hns : ∀ d, d ∈ D → no_status db1 (em_id e) d).
  { intros d Hd. eapply ensure_no_status_ok; [exact Hstep|auto]. }
  specialize (HM Hns).
  destruct (sync_months_ok db1 e (months_for_days changed) (mu_plans _ _ _ _ HM)
    (months_for_days_valid changed)) as (x & Hx & _). rewrite Hx in Hstep1.
  assert (Hmonth : ∀ d, d ∈ D → ym_of d ∈ months_for_days changed).
  { intros d Hd. apply elem_of_dedup, list_elem_of_fmap_2. auto. }
  destruct (sync_commit_ok e D db db1 (months_for_days changed) v1) as (Hinv & Hfr & Hfresh);
    try done; [apply months_for_days_valid | by rewrite Hx|].
  injection Hstep1 as <-.
  assert (Hrest : ∀ k, plan_rows db1 k = plan_rows db k ∧ attendance_rows db1 k = attendance_rows db k).
  { intros k. unfold plan_rows, attendance_rows. by rewrite Hpl, Hat. }
  split_and!; [|exact Hfr| |exact Hfresh].
  - constructor; [exact Hinv| |by simpl|apply Hfr|by exists e, D].
    eapply frame_lock_safe; [exact Hfr|..].
    + intros d Hd Hlocked. exfalso.
      pose proof (ensure_months_unlocked_ok _ _ _ _ _ Hstep0 _ _ (Hmonth d Hd)) as Hun.
      unfold day_locked, is_month_locked, lock_table in Hlocked, Hun.
      rewrite Hlk in Hun. congruence.
    + intros d _ _. apply Hrest.
  - intros d Hd. destruct (Hns d Hd) as [H1 H2]. unfold no_status, attendance_status, plan_status in *.
    destruct (Hrest (em_id e, d)) as [Hr1 Hr2]. by rewrite <- Hr1, <- Hr2.
Qed.

(** ** Adding, moving and deleting events *)

Lemma add_events_wf e times db :
  db_wf db → NoDup (event_key <$> events (add_events e times db)) → db_wf (add_events e times db).
Proof.
  intros [P A [I K F]] Hk. destruct (add_events_events e times db) as [Hev Hnext].
  destruct (add_events_frame e times db) as (_ & Hpl & Hat).
  constructor; rewrite ?Hpl, ?Hat, ?Hnext.
  - eapply keyed_mono; [|exact P]. lia.
  - eapply keyed_mono; [|exact A]. lia.
  - constructor; [|done|]; rewrite Hev.
    + rewrite fmap_app, new_events_ids. apply NoDup_app. split_and!; [done| |apply NoDup_zrange].
      intros i (x & -> & Hx)%list_elem_of_fmap Hin%elem_of_zrange.
      rewrite Forall_forall in F. specialize (F x Hx). lia.
    + apply Forall_app. split.
      * eapply Forall_impl; [exact F|]. simpl. lia.
      * apply Forall_forall. intros x (_ & _ & Hid)%new_events_elem. lia.
Qed.

Lemma add_events_mutated e D times db :
  inv db → (∀ t, t ∈ times → from_zone t ∧ date_of t ∈ D) →
  NoDup (event_key <$> events (add_events e times db)) →
  (∀ d, d ∈ D → no_status (add_events e times db) e d) →
  mutated db e D (add_events e times db).
Proof.
  intros Hi Ht Hk Hns. destruct (add_events_events e times db) as [Hev Hnext].
  destruct (add_events_frame e times db) as (Htab & Hpl & Hat).
  assert (Hcase : ∀ x, x ∈ events (add_events e times db) →
    x ∈ events db ∨ (ev_employment_id x = e ∧ ev_occurred_at x ∈ times ∧ next_id db <= ev_id x)).
  { intros x. rewrite Hev, elem_of_app. intros [|(? & ? & ?)%new_events_elem]; [by left|right; tauto]. }
  constructor.
  - apply add_events_wf; [apply Hi|done].
  - intros x [Hx|(_ & _ & Hid)]%Hcase; [by apply (inv_ids _ Hi)|]. pose proof (inv_next _ Hi). lia.
  - intros x [Hx|(_ & Hx & _)]%Hcase; [by apply stored_from_zone, (inv_stored _ Hi)|]. by apply Ht.
  - unfold plans_valid. rewrite Hpl. apply Hi.
  - unfold statuses_valid. rewrite Hpl, Hat. apply (inv_statuses _ Hi).
  - constructor.
    + lia.
    + by apply same_other_but_metrics.
    + intros r Hr. left. by destruct Htab as (_ & _ & _ & _ & <- & _).
    + intros k _. unfold plan_rows. by rewrite Hpl.
    + intros k _. unfold attendance_rows. by rewrite Hat.
    + intros x Hx. split; [|intros Hin; rewrite Hev, elem_of_app; by left].
      intros [Hin|(He & Hin & _)]%Hcase; [done|]. exfalso. apply Hx.
      split; [done|]. by apply Ht in Hin as [_ ?].
  - intros x _ _ Hd. by apply Hns.
Qed.

Lemma move_event_elem i t db x :
  x ∈ events (move_event i t db) ↔
  (x ∈ events db ∧ ev_id x ≠ i) ∨
  ∃ z, z ∈ events db ∧ ev_id z = i ∧ x = mk_event i (ev_employment_id z) t.
Proof.
  unfold move_event. simpl. rewrite elem_of_update_where. split.
  - intros (z & Hz & ->). destruct (ev_id z =? i) eqn:E; bool_hyps; [right; exists z; by subst|by left].
  - intros [[Hx Hi]|(z & Hz & Hi & ->)].
    + exists x. by rewrite (proj2 (Z.eqb_neq _ _) Hi).
    + exists z. by rewrite (proj2 (Z.eqb_eq _ _) Hi), Hi.
Qed.

Lemma move_event_mutated e D event t db :
  inv db → event ∈ events db → ev_employment_id event = e → from_zone t →
  ev_day event ∈ D → date_of t ∈ D →
  NoDup (event_key <$> events (move_event (ev_id event) t db)) →
  (∀ d, d ∈ D → no_status db e d) → mutated db e D (move_event (ev_id event) t db).
Proof.
  intros Hi Hin He Ht Hold Hnew Hk Hns.
  assert (Huniq : ∀ z, z ∈ events db → ev_id z = ev_id event → z = event).
  { intros z Hz Hid. apply (ids_unique_eq (events db)); try done. apply (inv_wf _ Hi). }
  assert (Hcase : ∀ x, x ∈ events (move_event (ev_id event) t db) →
    (x ∈ events db ∧ ev_id x ≠ ev_id event) ∨ x = mk_event (ev_id event) e t).
  { intros x [Hx|(z & Hz & Hid & ->)]%move_event_elem; [by left|right].
    by rewrite (Huniq z Hz Hid), He. }
  constructor.
  - destruct (inv_wf _ Hi) as [P A [I K F]]. constructor; [done|done|].
    constructor; [by unfold move_event; simpl; rewrite update_where_fmap|done|].
    apply Forall_forall. intros x [[Hx _]| ->]%Hcase.
    + rewrite Forall_forall in F. by apply F.
    + simpl. rewrite Forall_forall in F. by apply (F event).
  - intros x [[Hx _]| ->]%Hcase; [by apply (inv_ids _ Hi)|]. simpl. by apply (inv_ids _ Hi).
  - intros x [[Hx _]| ->]%Hcase; [by apply stored_from_zone, (inv_stored _ Hi)|done].
  - apply Hi.
  - exact (inv_statuses _ Hi).
  - constructor; [by simpl|by unfold same_but_metrics, same_other_tables; split_and!|by left|done|done|].
    intros x Hx. rewrite move_event_elem. split.
    + intros [[Hxd _]|(z & Hz & Hid & ->)]; [done|]. exfalso. apply Hx. simpl.
      rewrite (Huniq z Hz Hid). by split.
    + intros Hxd. left. split; [done|]. intros Hid. apply Hx.
      rewrite (Huniq x Hxd Hid). by split.
  - intros x _ _ Hd. by apply Hns.
Qed.

Lemma delete_events_mutated e D l db :
  inv db → (∀ x, x ∈ l → x ∈ events db ∧ ev_employment_id x = e ∧ ev_day x ∈ D) →
  mutated db e D (delete_events l db).
Proof.
  intros Hi Hl.
  assert (Hcase : ∀ x, x ∈ events (delete_events l db) ↔ x ∈ events db ∧ ev_id x ∉ ev_id <$> l).
  { intros x. unfold delete_events. simpl. by rewrite elem_of_delete_where, mem_false. }
  constructor.
  - by apply wf_delete_events, Hi.
  - intros x [Hx _]%Hcase. by apply (inv_ids _ Hi).
  - intros x [Hx _]%Hcase. by apply stored_from_zone, (inv_stored _ Hi).
  - apply Hi.
  - exact (inv_statuses _ Hi).
  - constructor; [by simpl|by unfold same_but_metrics, same_other_tables; split_and!|by left|done|done|].
    intros x Hx. rewrite Hcase. split; [by intros [? _]|]. intros Hxd. split; [done|].
    intros (z & Hid & Hz)%list_elem_of_fmap. apply Hl in Hz as (Hzd & He & Hd). apply Hx.
    assert (x = z) as -> by (apply (ids_unique_eq (events db)); try done; apply (inv_wf _ Hi)).
    done.
  - intros x [Hx _]%Hcase He Hd. rewrite <- He. by apply (inv_status _ Hi).
Qed.
End Safety.

(** ** The times of a request *)

Section Requests.
Context `{zone : PragueZone} `{!PragueZoneLaws zone}.

(** A wall clock that exists: what PostgreSQL returns is what was sent. *)
Definition real (t : aware) : Prop := reload t = t.

Lemma add_request_ok db e t paired db1 :
  inv db → from_zone t → (∀ p, p ∈ option_list paired → from_zone p) →
  add_request_events db e t paired = Ok db1 →
  ∃ times, db1 = add_events (em_id e) times db ∧
    (∀ x, x ∈ times → from_zone x ∧ date_of x = date_of t) ∧
    head times = Some t ∧
    (PragueGap zone → real t → (∀ p, p ∈ option_list paired → real p) →
     ∀ x, x ∈ times → real x).
Proof.
  intros Hi Ht Hp. unfold add_request_events. destruct paired as [p|].
  - intros H%except_value_error_ok. unfold add_closed_interval_with_breaks in H.
    apply rbind_ok in H as (times & Htimes & [= <-]). exists times. split; [done|].
    assert (Hfp : from_zone p) by (apply Hp; left). split_and!.
    + intros x Hx. by eapply closed_interval_times_spec.
    + unfold closed_interval_times in Htimes. destruct (negb _); [done|].
      destruct (wall p <=? wall t); [done|]. by injection Htimes as <-.
    + intros Hgap Hrt Hrp x Hx. unfold closed_interval_times in Htimes.
      destruct (negb _) eqn:E1; [done|]. destruct (wall p <=? wall t) eqn:E2; [done|].
      injection Htimes as <-. bool_hyps. apply elem_of_cons in Hx as [->|Hx]; [done|].
      apply elem_of_app in Hx as [Hx|Hx%list_elem_of_singleton]; [|subst x; apply Hrp; left].
      destruct (em_automatic_breaks_enabled e); [|by apply elem_of_nil in Hx].
      apply list_elem_of_fmap in Hx as (w & -> & Hw).
      eapply automatic_breaks_real; [|symmetry; exact E1|exact Hw]. lia.
  - intros [= <-]. exists (event_times db e t). split; [done|]. split_and!.
    + intros x Hx. by apply (event_times_spec db e t x (inv_ids _ Hi)).
    + unfold event_times. by repeat case_match.
    + intros Hgap Hrt _ x. unfold event_times.
      destruct (previous_event db (em_id e) t) as [q|] eqn:Hq;
        [destruct (em_automatic_breaks_enabled e)|];
        rewrite ?list_elem_of_singleton, ?elem_of_cons; try by intros ->.
      intros [->|(w & -> & Hw)%list_elem_of_fmap]; [done|].
      apply previous_event_spec in Hq as (_ & Hd & Hlt); [|apply Hi].
      eapply automatic_breaks_real; [|exact Hd|exact Hw]. unfold ev_wall in *; lia.
Qed.

(** The event a request adds is the one it returns. *)
Lemma refresh_added db e times t x db' :
  inv db → head times = Some t →
  events db' = reload_event <$> events (add_events e times db) →
  refresh db' (next_id db) = Ok x → x = mk_event (next_id db) e (reload t).
Proof.
  intros Hi Hh Hev Hr. unfold refresh in Hr. apply or_raise_ok, get_event_ok in Hr as [Hx Hid].
  rewrite Hev in Hx. apply list_elem_of_fmap in Hx as (z & -> & Hz). simpl in Hid.
  rewrite (proj1 (add_events_events e times db)) in Hz.
  apply elem_of_app in Hz as [Hz|Hz].
  - exfalso. pose proof (keyed_fresh _ _ _ _ (wf_events _ (inv_wf _ Hi))) as Hf.
    rewrite Forall_forall in Hf. specialize (Hf z Hz). lia.
  - destruct times as [|t' times]; [done|]. injection Hh as ->. simpl in Hz.
    apply elem_of_cons in Hz as [->|Hz]; [done|].
    apply new_events_elem in Hz as (_ & _ & Hz). lia.
Qed.

Lemma metric_sync_events db e months db' :
  plans_valid db → Forall (λ k, 1 <= k.2 <= 12) months →
  sync_employment_metric_months db e months = Ok db' → events db' = events db.
Proof.
  intros Hv Hm Hs. destruct (sync_months_ok db e months Hv Hm) as (x & Hx & _).
  rewrite Hx in Hs. by injection Hs as <-.
Qed.

(** *** The core of both create endpoints *)
Lemma create_core db e t paired db1 db' x :
  inv db → e ∈ employments db → outside_period e (date_of t) = false →
  from_zone t → (∀ p, p ∈ option_list paired → from_zone p) →
  add_request_events db e t paired = Ok db1 → flush_events db1 = Ok tt →
  finish_event_mutation db1 e (changed_event_days
    (interval_signatures (events_of db (em_id e)))
    (interval_signatures (events_of db1 (em_id e))) (t :: option_list paired)) = Ok db' →
  refresh db' (next_id db) = Ok x →
  attendance_step db db' ∧ days_frame (em_id e) [date_of t] db db' ∧
  no_status db (em_id e) (date_of t) ∧
  x = mk_event (next_id db) (em_id e) (reload t) ∧ x ∈ events db' ∧
  (PragueGap zone → all_fresh db → real t → (∀ p, p ∈ option_list paired → real p) → all_fresh db').
Proof.
  intros Hi He Hout Ht Hp Hadd Hflush Hfin Href.
  destruct (add_request_ok _ _ _ _ _ Hi Ht Hp Hadd) as (times & -> & Htimes & Hhead & Hreal).
  destruct (add_events_frame (em_id e) times db) as (Htab & Hpl & Hat).
  assert (Hmet : metrics (add_events (em_id e) times db) = metrics db) by apply Htab.
  assert (Hlk : attendance_locks (add_events (em_id e) times db) = attendance_locks db) by apply Htab.
  unfold flush_events in Hflush. apply guard_ok, negb_false_iff, bool_decide_eq_true in Hflush.
  assert (Hev : events db' = reload_event <$> events (add_events (em_id e) times db)).
  { unfold finish_event_mutation in Hfin. ok_inv Hfin. injection Hfin as <-.
    simpl. f_equal. eapply metric_sync_events; [|apply months_for_days_valid|exact Hstep1].
    unfold plans_valid. rewrite Hpl. apply Hi. }
  edestruct (finish_event_ok e [date_of t] db (add_events (em_id e) times db))
    as (Hstep & Hfr & Hns & Hfresh); try exact Hfin; try done.
  - intros d ->%list_elem_of_singleton. by left.
  - intros d ->%list_elem_of_singleton. unfold changed_event_days. rewrite elem_of_app. left. left.
  - intros Hns. apply add_events_mutated; [done| |done|done].
    intros y Hy. destruct (Htimes y Hy) as [? ->]. split; [done|left].
  - pose proof (refresh_added _ _ _ _ _ _ Hi Hhead Hev Href) as Hx.
    unfold refresh in Href. apply or_raise_ok, get_event_ok in Href as [Hin _].
    split_and!; [done|done|apply Hns; left|done|done|].
    intros Hgap Hfs Hrt Hrp. apply Hfresh; [done|].
    intros z Hz. rewrite (proj1 (add_events_events _ _ _)) in Hz.
    apply reload_event_stored. apply elem_of_app in Hz as [Hz|(_ & Hz & _)%new_events_elem].
    + by apply (inv_stored _ Hi).
    + by apply (Hreal Hgap Hrt Hrp).
Qed.

Lemma changed_days_timestamps before after ts t :
  t ∈ ts → date_of t ∈ changed_event_days before after ts.
Proof. intros Ht. unfold changed_event_days. apply elem_of_app. left. by apply list_elem_of_fmap_2. Qed.

(** *** The core of both update endpoints *)
Lemma update_core db e event t db' x :
  inv db → e ∈ employments db → event ∈ events db → ev_employment_id event = em_id e →
  outside_period e (date_of t) = false →
  from_zone t → flush_events (move_event (ev_id event) t db) = Ok tt →
  finish_event_mutation (move_event (ev_id event) t db) e (move_changed_days db e event t) = Ok db' →
  refresh db' (ev_id event) = Ok x →
  attendance_step db db' ∧ days_frame (em_id e) [ev_day event; date_of t] db db' ∧
  no_status db (em_id e) (date_of t) ∧
  x = mk_event (ev_id event) (em_id e) (reload t) ∧ x ∈ events db' ∧
  (all_fresh db → real t → all_fresh db').
Proof.
  intros Hi He Hin Hemp Hout Ht Hflush Hfin Href.
  unfold flush_events in Hflush. apply guard_ok, negb_false_iff, bool_decide_eq_true in Hflush.
  assert (Hev : events db' = reload_event <$> events (move_event (ev_id event) t db)).
  { unfold finish_event_mutation in Hfin. ok_inv Hfin. injection Hfin as <-. simpl. f_equal.
    refine (metric_sync_events _ _ _ _ _ (months_for_days_valid _) Hstep1).
    apply (inv_plans _ Hi). }
  edestruct (finish_event_ok e [ev_day event; date_of t] db (move_event (ev_id event) t db))
    as (Hstep & Hfr & Hns & Hfresh); try exact Hfin; try done.
  - intros d [->| ->%list_elem_of_singleton]%elem_of_cons; [right; by exists event|by left].
  - intros d [->| ->%list_elem_of_singleton]%elem_of_cons; unfold move_changed_days;
      [apply (changed_days_timestamps _ _ _ (ev_occurred_at event)); left
      |apply changed_days_timestamps; right; left].
  - intros Hns. apply move_event_mutated; try done; [left|right; left].
  - unfold refresh in Href. apply or_raise_ok, get_event_ok in Href as [Hx Hid].
    pose proof Hx as Hx'. rewrite Hev in Hx'. apply list_elem_of_fmap in Hx' as (z & Hxz & Hz).
    assert (z = mk_event (ev_id event) (em_id e) t) as ->.
    { apply move_event_elem in Hz as [[_ Hn]|(y & Hy & Hyid & ->)].
      - rewrite Hxz in Hid. done.
      - assert (y = event) as -> by (apply (ids_unique_eq (events db)); try done; apply (inv_wf _ Hi)).
        by rewrite Hemp. }
    split_and!; [done|done|apply Hns; right; left|done|done|].
    intros Hf Hr. apply Hfresh; [done|]. intros z Hzin. apply reload_event_stored.
    apply move_event_elem in Hzin as [[Hzin _]|(y & _ & _ & ->)]; [by apply (inv_stored _ Hi)|done].
Qed.

(** *** The core of both delete endpoints *)
Lemma paired_deletion_ok missing db e event paired_id l :
  event ∈ events db → ev_employment_id event = em_id e →
  paired_deletion missing (events_of db (em_id e)) e event paired_id = Ok l →
  ∀ x, x ∈ l → x ∈ events db ∧ ev_employment_id x = em_id e.
Proof.
  intros Hin He. unfold paired_deletion. destruct paired_id as [pid|].
  - intros H. apply rbind_ok in H as (p & Hp & H). ok_inv H. injection H as <-.
    apply or_raise_ok in Hp.
    assert (p ∈ events_of db (em_id e)) as Hpe.
    { assert (p ∈ where_ (λ x, ev_id x =? pid) (events_of db (em_id e))) as [? _]%elem_of_where.
      { destruct (where_ _ _); [done|]. injection Hp as ->. left. } done. }
    unfold events_of in Hpe. apply elem_of_where in Hpe as [Hpe Hpid%Z.eqb_eq].
    intros x [->| ->%list_elem_of_singleton]%elem_of_cons; done.
  - intros [= <-] x ->%list_elem_of_singleton. done.
Qed.

Lemma delete_core missing db e event paired_id db' :
  inv db → e ∈ employments db → event ∈ events db → ev_employment_id event = em_id e →
  delete_and_sync missing db e event paired_id = Ok db' →
  attendance_step db db' ∧
  (∃ deleted, paired_deletion missing (events_of db (em_id e)) e event paired_id = Ok deleted ∧
     ∀ x, x ∈ events db' ↔ x ∈ events db ∧ ev_id x ∉ ev_id <$> deleted) ∧
  (all_fresh db → all_fresh db').
Proof.
  intros Hi He Hin Hemp H. unfold delete_and_sync in H. ok_inv H. injection H as <-.
  rename v into deleted. pose proof (paired_deletion_ok _ _ _ _ _ _ Hin Hemp Hstep) as Hdel.
  set (D := ev_day <$> deleted).
  assert (M : mutated db (em_id e) D (delete_events deleted db)).
  { apply delete_events_mutated; [done|]. intros x Hx. destruct (Hdel x Hx) as [H1 H2].
    split_and!; [done|done|]. by apply list_elem_of_fmap_2. }
  set (changed := changed_event_days _ _ _) in *.
  assert (Hmonth : ∀ d, d ∈ D → ym_of d ∈ months_for_days changed).
  { intros d Hd. apply elem_of_dedup, list_elem_of_fmap_2. unfold changed, changed_event_days.
    apply elem_of_app. left. unfold D in Hd. apply list_elem_of_fmap in Hd as (x & -> & Hx).
    rewrite <- list_fmap_compose. by apply (list_elem_of_fmap_2 (date_of ∘ ev_occurred_at)). }
  destruct (sync_commit_ok e D db (delete_events deleted db) (months_for_days changed) v1)
    as (Hinv & Hfr & Hfresh); try done; [apply months_for_days_valid|].
  assert (Hreal : ∀ z, z ∈ events (delete_events deleted db) → reload_event z = z).
  { intros z Hz. apply reload_event_stored, (inv_stored _ Hi).
    unfold delete_events in Hz. simpl in Hz. by apply elem_of_delete_where in Hz as [? _]. }
  pose proof (metric_sync_events _ _ _ _ (mu_plans _ _ _ _ M) (months_for_days_valid _) Hstep1) as Hev1.
  destruct (sync_months_ok (delete_events deleted db) e _ (mu_plans _ _ _ _ M)
    (months_for_days_valid changed)) as (y & Hy & _). rewrite Hy in Hstep1. injection Hstep1 as <-.
  split_and!.
  - constructor; [done| |done|apply Hfr|].
    2:{ exists e, D. split_and!; [done|done|]. intros d (z & -> & Hz)%list_elem_of_fmap.
        right. exists z. destruct (Hdel z Hz). done. }
    eapply frame_lock_safe; [exact Hfr|..|done].
    intros d Hd Hl. exfalso. pose proof (ensure_months_unlocked_ok _ _ _ _ _ Hstep0 _ _ (Hmonth d Hd)).
    unfold day_locked in Hl. congruence.
  - exists deleted. split; [done|]. intros x. rewrite commit_elem, Hev1. unfold delete_events. simpl. split.
    + intros (z & -> & Hz). rewrite Hreal by done. by rewrite elem_of_delete_where, mem_false in Hz.
    + intros Hx. exists x. rewrite elem_of_delete_where, mem_false. split; [|done].
      symmetry. apply reload_event_stored, (inv_stored _ Hi). by destruct Hx.
  - auto.
Qed.
End Requests.

(** ** Missing breaks *)

(** A pair has no event strictly between its two times. *)
Lemma day_pairs_consecutive l a b n :
  StronglySorted (le_rel event_leb) l → (a, b) ∈ day_pairs l → n ∈ l →
  ¬ ev_wall a < ev_wall n < ev_wall b.
Proof.
  assert (∀ k l, (length l <= k)%nat → StronglySorted (le_rel event_leb) l →
    (a, b) ∈ day_pairs l → n ∈ l → ¬ ev_wall a < ev_wall n < ev_wall b) as H;
    [|by apply (H (length l))].
  clear l. induction k as [|k IH]; intros [|x [|y l]] Hk Hs Hp Hn; simpl in *;
    try by apply elem_of_nil in Hp. { lia. }
  apply StronglySorted_inv in Hs as [Hs Hx]. apply StronglySorted_inv in Hs as [Hs Hy].
  rewrite Forall_forall in Hx, Hy.
  assert (Hrest : (a, b) ∈ day_pairs l → ¬ ev_wall a < ev_wall n < ev_wall b).
  { intros Hp'. pose proof (day_pairs_elem _ _ _ Hp') as (Ha & _ & _).
    apply elem_of_cons in Hn as [->|Hn].
    - pose proof (event_leb_wall _ _ (Hx a ltac:(by right))). lia.
    - apply elem_of_cons in Hn as [->|Hn]; [pose proof (event_leb_wall _ _ (Hy a Ha)); lia|].
      apply (IH l); [lia|done..]. }
  destruct (_ && _); [|by apply Hrest]. apply elem_of_cons in Hp as [[= -> ->]|Hp]; [|by apply Hrest].
  apply elem_of_cons in Hn as [->|Hn]; [lia|]. apply elem_of_cons in Hn as [->|Hn]; [lia|].
  pose proof (event_leb_wall _ _ (Hy n Hn)). lia.
Qed.

Lemma pair_no_event_between l p n :
  p ∈ pair_event_rows l → n ∈ l → ¬ ev_wall p.1 < ev_wall n < ev_wall p.2.
Proof.
  destruct p as [a b]. intros Hp Hn. pose proof (pair_event_rows_elem _ _ _ Hp) as (Ha & Hb & Hd & _).
  simpl. intros Hbetween.
  assert (Hin : (a, b) ∈ where_ (λ q, ev_day q.1 =? ev_day a) (pair_event_rows l)).
  { apply elem_of_where. split; [done|]. apply Z.eqb_refl. }
  rewrite pair_event_rows_of_day in Hin.
  refine (day_pairs_consecutive _ a b n _ Hin _ Hbetween).
  - apply day_events_sorted, ordered_events_sorted.
  - apply day_events_elem. split; [by apply elem_of_ordered_events|].
    unfold ev_day, date_of in *. unfold ev_wall in Hbetween.
    apply (date_of_wall_between _ (wall (ev_occurred_at b))); [lia|done].
Qed.

(** So an event inserted into an interval changes the signature of its day. *)
Lemma inserted_changes_day l l' i w ts :
  i ∈ pair_events l → wi_start i < w < wi_end i → (∃ n, n ∈ l' ∧ ev_wall n = w) →
  date_of_wall w ∈ changed_event_days (interval_signatures l) (interval_signatures l') ts.
Proof.
  intros (p & -> & Hp)%list_elem_of_fmap Hw (n & Hn & Hnw). simpl in Hw.
  unfold changed_event_days. apply elem_of_app. right. apply elem_of_mjoin_fmap.
  exists (ev_wall p.1, ev_wall p.2). split.
  - unfold symmetric_difference. apply elem_of_app. left. apply elem_of_where. split.
    + unfold interval_signatures, pair_events. rewrite <- list_fmap_compose.
      by apply (list_elem_of_fmap_2 ((λ i, (wi_start i, wi_end i)) ∘ pair_interval)).
    + apply negb_true_iff, mem_false. unfold interval_signatures, pair_events.
      rewrite <- list_fmap_compose. intros (q & Heq & Hq)%list_elem_of_fmap.
      injection Heq as H1 H2. apply (pair_no_event_between l' q n Hq Hn). lia.
  - pose proof (split_pair_event l p Hp) as Hsplit. unfold pair_interval in Hsplit. simpl.
    rewrite Hsplit. csimpl. apply list_elem_of_singleton.
    destruct p as [a b]. apply pair_event_rows_elem in Hp as (_ & _ & Hd & _).
    unfold ev_day, date_of in *. unfold ev_wall in Hw. simpl in *.
    apply (date_of_wall_between _ (wall (ev_occurred_at b))); [lia|done].
Qed.

Lemma pairs_of_elem l p : p ∈ pairs_of l → p.1 ∈ l ∧ p.2 ∈ l.
Proof.
  assert (∀ n l, (length l <= n)%nat → p ∈ pairs_of l → p.1 ∈ l ∧ p.2 ∈ l) as H;
    [|by apply (H (length l))].
  clear l. induction n as [|n IH]; intros [|a [|b l]] Hn Hp; simpl in *;
    try by apply elem_of_nil in Hp. { lia. }
  apply elem_of_cons in Hp as [->|Hp]; simpl; [split; [left|right; left]|].
  destruct (IH l ltac:(lia) Hp). split; by do 2 right.
Qed.

Section MissingBreaks.
Context `{zone : PragueZone} `{!PragueZoneLaws zone}.

Definition break_time_ok (db : DB) (e : Employment) (groups : list (list Z)) (w : Z) : Prop :=
  (∃ g, g ∈ groups ∧ w ∈ g) ∧ day_locked db LOCK_ATTENDANCE (em_id e) (date_of_wall w) = false.

Lemma add_break_groups_ok db e groups s s' :
  fold_result (add_break_group db e) groups s = Ok s' →
  ∀ w, w ∈ bs_added s' → w ∈ bs_added s ∨ break_time_ok db e groups w.
Proof.
  revert s. induction groups as [|g groups IH]; intros s; simpl; [intros [= <-]; auto|].
  intros (s1 & Hs1 & H)%rbind_ok w Hw. destruct (IH s1 H w Hw) as [Hin|[(g' & Hg' & Hwg) Hl]].
  2:{ right. split; [|done]. exists g'. split; [by right|done]. }
  unfold add_break_group in Hs1. set (pairs := where_ _ (pairs_of g)) in Hs1.
  destruct pairs as [|p0 rest] eqn:Ep; [injection Hs1 as <-; by left|].
  rewrite <- Ep in Hs1. ok_inv Hs1. injection Hs1 as <-. simpl in Hin.
  apply elem_of_app in Hin as [Hin|Hin]; [by left|]. right. split.
  - exists g. split; [left|]. apply elem_of_mjoin_fmap in Hin as (p & Hp & Hin).
    unfold pairs in Hp. apply elem_of_where in Hp as [Hp _]. apply pairs_of_elem in Hp as [H1 H2].
    rewrite !elem_of_cons, elem_of_nil in Hin. by destruct Hin as [->|[->|[]]].
  - rewrite for_each_ok, Forall_forall in Hstep. specialize (Hstep w Hin). by apply guard_ok in Hstep.
Qed.

(** A missing break lies on a day that has an event already. *)
Lemma break_day_worked db e y m w g :
  g ∈ break_groups db e y m → w ∈ g →
  ∃ x, x ∈ events db ∧ ev_employment_id x = em_id e ∧ ev_day x = date_of_wall w.
Proof.
  intros Hg Hwg. unfold break_groups, month_range in Hg.
  destruct (missing_breaks_strictly_inside _ _ _ _ _ Hg Hwg) as (i & Hii & Hbetween).
  apply list_elem_of_fmap in Hii as ([a b] & -> & Hp).
  apply pair_event_rows_elem in Hp as (Ha & _ & Hd & _).
  unfold pair_interval in Hbetween. simpl in *.
  exists a. rewrite events_by_time_perm in Ha. apply elem_of_where in Ha as [Ha Hae%Z.eqb_eq].
  split_and!; [done|done|]. symmetry. unfold ev_day, date_of, ev_wall in *.
  apply (date_of_wall_between _ (wall (ev_occurred_at b))); [lia|done].
Qed.

Lemma breaks_core db now body db' out :
  inv db → add_missing_breaks db now body = Ok (db', out) →
  attendance_step db db' ∧
  ∃ e, e ∈ employments db ∧ em_id e = br_employment_id body ∧
    (all_fresh db →
     (∀ g w, g ∈ break_groups db e (br_year body) (br_month body) → w ∈ g → real (at_wall w)) →
     all_fresh db').
Proof.
  intros Hi H. unfold add_missing_breaks in H. ok_inv H. injection H as <- <-.
  rename v into e0, v0 into e, v2 into s, v3 into db'. apply lock_active_ok in Hstep0 as [He Hid].
  apply admin_employment_ok in Hstep as [_ Hid0].
  set (evs := events_by_time (events_of db (em_id e))) in *.
  set (groups := break_groups db e (br_year body) (br_month body)) in *.
  pose proof (add_break_groups_ok _ _ _ _ _ Hstep2) as Hadded. simpl in Hadded.
  set (times := at_wall <$> bs_added s) in *. set (D := date_of_wall <$> bs_added s).
  set (db1 := add_events (em_id e) times db) in *.
  apply negb_false_iff, bool_decide_eq_true in Hguard0.
  destruct (add_events_frame (em_id e) times db) as (Htab & Hpl & Hat).
  fold db1 in Htab, Hpl, Hat.
  assert (Hafter : ∀ w, w ∈ bs_added s → ∃ n, n ∈ events_of db1 (em_id e) ∧ ev_wall n = w).
  { intros w Hw. unfold db1. rewrite events_of_add_events.
    assert (w ∈ ev_wall <$> new_events (em_id e) (next_id db) times) as (n & -> & Hn)%list_elem_of_fmap.
    { rewrite new_events_walls. unfold times. rewrite <- list_fmap_compose.
      by apply (list_elem_of_fmap_2 (wall ∘ at_wall) _ w). }
    exists n. split; [|done]. apply elem_of_app. by right. }
  edestruct (finish_event_ok e D db db1) as (Hs & _ & _ & Hfresh); try exact Hstep3;
    try apply Htab; try done.
  - intros d (w & -> & Hw)%list_elem_of_fmap. right.
    destruct (Hadded w Hw) as [Hn|[(g & Hg & Hwg) _]]; [by apply elem_of_nil in Hn|].
    by eapply break_day_worked.
  - intros d (w & -> & Hw)%list_elem_of_fmap.
    destruct (Hadded w Hw) as [Hn|[(g & Hg & Hwg) _]]; [by apply elem_of_nil in Hn|].
    unfold groups, break_groups, month_range in Hg.
    destruct (missing_breaks_strictly_inside _ _ _ _ _ Hg Hwg) as (i & Hii & Hbetween).
    apply (inserted_changes_day evs _ i); [done|done|by apply Hafter].
  - intros Hns. apply add_events_mutated; [done| |done|done].
    intros t (w & -> & Hw)%list_elem_of_fmap. split; [apply from_zone_at_wall|].
    by apply (list_elem_of_fmap_2 date_of_wall).
  - split; [exact Hs|]. exists e. split_and!; [done|congruence|].
    intros Hf Hreal. apply Hfresh; [done|]. intros z Hz. apply reload_event_stored.
    unfold db1 in Hz. rewrite (proj1 (add_events_events _ _ _)) in Hz.
    apply elem_of_app in Hz as [Hz|(_ & Hz & _)%new_events_elem]; [by apply (inv_stored _ Hi)|].
    apply list_elem_of_fmap in Hz as (w & -> & Hw).
    destruct (Hadded w Hw) as [Hn|[(g & Hg & Hwg) _]]; [by apply elem_of_nil in Hn|].
    by apply (Hreal g w).
Qed.
End MissingBreaks.

(** ** Properties *)

Section Properties.
Context `{zone : PragueZone} `{!PragueZoneLaws zone}.

(** The employment a portal request works on: the user's own, valid today. *)
Lemma locked_employment_spec db auth i now e :
  locked_employment db auth i now = Ok e →
  e ∈ employments db ∧ em_id e = i ∧ em_user_id e = pu_id (auth_user auth) ∧
  employment_is_valid_on_day e (prague_today (Zoned now)) = true.
Proof.
  unfold locked_employment. intros H. ok_inv H. injection H as ->.
  rename v into e0. unfold accessible_employment in Hstep. ok_inv Hstep. injection Hstep as ->.
  apply or_raise_ok, get_employment_ok in Hstep2 as [_ Hid].
  apply lock_employment_ok in Hstep0 as [He Hid'].
  unfold require_locked_active_employment in Hstep1. apply guard_ok in Hstep1. bool_hyps.
  unfold locked_employment_has_active_user in H0. bool_hyps.
  split_and!; [done|congruence|done|done].
Qed.

Definition request_times (body : AttendanceEventIn) : list aware :=
  prague_now (in_occurred_at body) :: option_list (prague_now <$> in_paired_occurred_at body).

Lemma request_times_zone body :
  from_zone (prague_now (in_occurred_at body)) ∧
  ∀ p, p ∈ option_list (prague_now <$> in_paired_occurred_at body) → from_zone p.
Proof.
  split; [apply from_zone_prague_now|]. intros p Hp.
  destruct (in_paired_occurred_at body) as [q|]; [|by apply elem_of_nil in Hp].
  apply list_elem_of_singleton in Hp as ->. apply from_zone_prague_now.
Qed.

(** The outcome of recording or moving an event to the time [t]. *)
Definition recorded (db db' : DB) (e : Employment) (D : list date) (t : aware) (i : Z)
    (x : AttendanceEvent) : Prop :=
  attendance_step db db' ∧ days_frame (em_id e) D db db' ∧
  outside_period e (date_of t) = false ∧ no_status db (em_id e) (date_of t) ∧
  x = mk_event i (em_id e) (reload t) ∧ x ∈ events db'.

Lemma create_attendance_event_ok db auth now body db' x
    (Hi : inv db) (H : create_attendance_event db auth now body = Ok (db', x)) :
  let t := prague_now (in_occurred_at body) in
  ∃ e, e ∈ employments db ∧ em_id e = in_employment_id body ∧
    em_user_id e = pu_id (auth_user auth) ∧
    employment_is_valid_on_day e (prague_today (Zoned now)) = true ∧
    Forall (λ p, future now p = false) (request_times body) ∧
    recorded db db' e [date_of t] t (next_id db) x ∧
    (PragueGap zone → all_fresh db → Forall real (request_times body) → all_fresh db').
Proof.
  intros t. unfold create_attendance_event in H. ok_inv H. injection H as <- <-.
  rename v into e. apply locked_employment_spec in Hstep as (He & Hid & Hown & Hvalid).
  destruct (request_times_zone body) as [Hz1 Hz2]. destruct v1.
  assert (Hout : outside_period e (date_of t) = false) by (simpl in Hguard1; by bool_hyps).
  destruct (create_core db e t _ v0 v2 v3 Hi He Hout Hz1 Hz2 Hstep0 Hstep1 Hstep2 Hstep3)
    as (Hs & Hfr & Hns & Hx & Hin & Hfresh).
  exists e. split_and!; try done.
  - constructor; [done|]. apply Forall_forall. intros p Hp.
    apply not_true_is_false. intros Hp'. apply not_false_iff_true in Hguard0; [done|].
    apply existsb_elem. by exists p.
  - intros Hgap Hf [Hr Hrs]%Forall_cons. apply Hfresh; try done. by apply Forall_forall.
Qed.

Lemma update_attendance_event_ok db auth now i body db' x
    (Hi : inv db) (H : update_attendance_event db auth now i body = Ok (db', x)) :
  let t := prague_now (in_occurred_at body) in
  ∃ e old, old ∈ events db ∧ ev_id old = i ∧ ev_employment_id old = em_id e ∧
    e ∈ employments db ∧ em_user_id e = pu_id (auth_user auth) ∧
    in_employment_id body = em_id e ∧ future now t = false ∧
    recorded db db' e [ev_day old; date_of t] t i x ∧
    (all_fresh db → real t → all_fresh db').
Proof.
  intros t. unfold update_attendance_event in H. ok_inv H. injection H as <- <-.
  rename v0 into e, v1 into old. apply locked_employment_spec in Hstep0 as (He & Hid & Hown & _).
  apply or_raise_ok in Hstep, Hstep1. rewrite Hstep in Hstep1. injection Hstep1 as ->.
  apply get_event_ok in Hstep as [Hin <-]. destruct v2. bool_hyps.
  destruct (update_core db e old t v3 v4 Hi He Hin (eq_sym Hid) ltac:(done) (from_zone_prague_now _)
    Hstep2 Hstep3 Hstep4) as (Hs & Hfr & Hns & Hx & Hxin & Hfresh).
  exists e, old. split_and!; try done. congruence.
Qed.

(** The outcome of deleting an event, alone or with its partner. *)
Definition deleted_safely (db db' : DB) (e : Employment) (event : AttendanceEvent)
    (paired_id : option Z) : Prop :=
  attendance_step db db' ∧
  (∀ x, x ∈ events db' ↔ x ∈ events db ∧ ev_id x ≠ ev_id event ∧ Some (ev_id x) ≠ paired_id) ∧
  (∀ pid, paired_id = Some pid →
     pid ≠ ev_id event ∧ ∃ p, p ∈ events db ∧ ev_id p = pid ∧ ev_employment_id p = em_id e) ∧
  (all_fresh db → all_fresh db').

Lemma delete_core_spec missing db e event paired_id db' :
  inv db → e ∈ employments db → event ∈ events db → ev_employment_id event = em_id e →
  delete_and_sync missing db e event paired_id = Ok db' → deleted_safely db db' e event paired_id.
Proof.
  intros Hi He Hin Hemp H.
  destruct (delete_core missing db e event paired_id db' Hi He Hin Hemp H)
    as (Hs & (deleted & Hd & Hev) & Hfresh).
  pose proof (paired_deletion_ok _ _ _ _ _ _ Hin Hemp Hd) as Hdel.
  unfold paired_deletion in Hd. split_and!; [done| | |done].
  - intros x. rewrite Hev. destruct paired_id as [pid|].
    + apply rbind_ok in Hd as (p & Hp & Hd). ok_inv Hd. injection Hd as <-.
      apply or_raise_ok in Hp.
      assert (p ∈ where_ (λ x, ev_id x =? pid) (events_of db (em_id e))) as [_ <-%Z.eqb_eq]%elem_of_where.
      { destruct (where_ _ _); [done|]. injection Hp as ->. left. }
      csimpl. rewrite not_elem_of_cons, list_elem_of_singleton. naive_solver congruence.
    + injection Hd as <-. csimpl. rewrite list_elem_of_singleton. naive_solver.
  - intros pid ->. apply rbind_ok in Hd as (p & Hp & Hd). ok_inv Hd. injection Hd as <-.
    apply or_raise_ok in Hp.
    assert (p ∈ where_ (λ x, ev_id x =? pid) (events_of db (em_id e))) as [_ <-%Z.eqb_eq]%elem_of_where.
    { destruct (where_ _ _); [done|]. injection Hp as ->. left. }
    bool_hyps. split; [done|]. exists p. destruct (Hdel p) as [Hpin Hpe]; [right; left|done].
Qed.

Lemma delete_attendance_event_ok db auth now i paired_id db'
    (Hi : inv db) (H : delete_attendance_event db auth now i paired_id = Ok db') :
  ∃ e event, e ∈ employments db ∧ em_user_id e = pu_id (auth_user auth) ∧
    event ∈ events db ∧ ev_id event = i ∧ ev_employment_id event = em_id e ∧
    deleted_safely db db' e event paired_id.
Proof.
  unfold delete_attendance_event in H. ok_inv H.
  apply locked_employment_spec in Hstep0 as (He & Hid & Hown & _).
  apply or_raise_ok in Hstep, Hstep1. rewrite Hstep in Hstep1. injection Hstep1 as ->.
  apply get_event_ok in Hstep as [Hin <-]. exists v0, v1. split_and!; try done.
  by eapply delete_core_spec.
Qed.

(** the administration's [POST /admin/attendance/events] has no future
    check but the same guarantees: period, full-day status, locked months,
    invariant and metrics. *)
Theorem admin_create_event_safe db now body db' x
    (Hi : inv db) (H : admin_create_event db now body = Ok (db', x)) :
  let t := prague_now (in_occurred_at body) in
  ∃ e, e ∈ employments db ∧ em_id e = in_employment_id body ∧
    recorded db db' e [date_of t] t (next_id db) x ∧
    (PragueGap zone → all_fresh db → Forall real (request_times body) → all_fresh db').
Proof.
  intros t. unfold admin_create_event in H. ok_inv H. injection H as <- <-.
  rename v0 into e. apply admin_employment_ok in Hstep as [_ Hid].
  apply lock_active_ok in Hstep0 as [He Hid'].
  destruct (request_times_zone body) as [Hz1 Hz2]. destruct v2.
  assert (Hout : outside_period e (date_of t) = false) by (simpl in Hguard; by bool_hyps).
  destruct (create_core db e t _ v1 v3 v4 Hi He Hout Hz1 Hz2 Hstep1 Hstep2 Hstep3 Hstep4)
    as (Hs & Hfr & Hns & Hx & Hin & Hfresh).
  exists e. split_and!; [done|congruence|..].
  - by split_and!.
  - intros Hgap Hf [Hr Hrs]%Forall_cons. apply Hfresh; try done. by apply Forall_forall.
Qed.

(** the administration's [PUT /admin/attendance/events/{id}] keeps the
    same guarantees as the portal's move, without the future check. *)
Theorem admin_update_event_safe db now i body db' x
    (Hi : inv db) (H : admin_update_event db now i body = Ok (db', x)) :
  let t := prague_now (in_occurred_at body) in
  ∃ e old, old ∈ events db ∧ ev_id old = i ∧ ev_employment_id old = em_id e ∧
    e ∈ employments db ∧ in_employment_id body = em_id e ∧
    recorded db db' e [ev_day old; date_of t] t i x ∧
    (all_fresh db → real t → all_fresh db').
Proof.
  intros t. unfold admin_update_event in H. ok_inv H. injection H as <- <-.
  rename v1 into e, v2 into old. apply lock_active_ok in Hstep1 as [He Hid].
  apply or_raise_ok, get_employment_ok in Hstep0 as [_ Hid0].
  apply or_raise_ok in Hstep, Hstep2. rewrite Hstep in Hstep2. injection Hstep2 as ->.
  apply get_event_ok in Hstep as [Hin <-]. destruct v4. bool_hyps.
  assert (Hemp : ev_employment_id old = em_id e) by congruence.
  destruct (update_core db e old t v5 v6 Hi He Hin Hemp ltac:(done) (from_zone_prague_now _)
    Hstep4 Hstep5 Hstep6) as (Hs & Hfr & Hns & Hx & Hxin & Hfresh).
  exists e, old. split_and!; try done. congruence.
Qed.

(** the administration's [DELETE /admin/attendance/events/{id}] removes
    exactly the named events, with the guarantees of the portal's delete. *)
Theorem admin_delete_event_safe db now i paired_id db'
    (Hi : inv db) (H : admin_delete_event db now i paired_id = Ok db') :
  ∃ e event, e ∈ employments db ∧ event ∈ events db ∧ ev_id event = i ∧
    ev_employment_id event = em_id e ∧ deleted_safely db db' e event paired_id.
Proof.
  unfold admin_delete_event in H. ok_inv H.
  apply lock_active_ok in Hstep1 as [He Hid].
  apply or_raise_ok, get_employment_ok in Hstep0 as [_ Hid0].
  apply or_raise_ok in Hstep, Hstep2. rewrite Hstep in Hstep2. injection Hstep2 as ->.
  apply get_event_ok in Hstep as [Hin <-]. exists v1, v2.
  assert (Hemp : ev_employment_id v2 = em_id v1) by congruence.
  split_and!; try done. by eapply delete_core_spec.
Qed.

Lemma add_missing_breaks_ok db now body db' out
    (Hi : inv db) (H : add_missing_breaks db now body = Ok (db', out)) :
  br_confirmed body = true ∧ attendance_step db db' ∧
  ∃ e, e ∈ employments db ∧ em_id e = br_employment_id body ∧
    (all_fresh db →
     (∀ g w, g ∈ break_groups db e (br_year body) (br_month body) → w ∈ g → real (at_wall w)) →
     all_fresh db').
Proof.
  destruct (breaks_core db now body db' out Hi H) as (Hs & He). split_and!; [|done|done].
  unfold add_missing_breaks in H. ok_inv H. by apply negb_false_iff.
Qed.

(** ** The properties of the endpoints *)

(** C26: a successful [POST /attendance/events] of the portal concerns the
    user's own employment, valid today; the time is not in the future, lies
    in the employment's period and on a day without a full-day status.  The
    committed database satisfies the invariant, differs only on that day of
    that employment, nothing in a locked month changes, and the returned event
    is stored.  The persisted metrics stay what a recomputation gives provided
    that every wall clock sent exists: a local time in the hour skipped in
    spring leaves them stale. *)
Theorem create_attendance_event_safe db auth now body db' x
    (Hi : inv db) (H : create_attendance_event db auth now body = Ok (db', x)) :
  let t := prague_now (in_occurred_at body) in
  ∃ e, e ∈ employments db ∧ em_id e = in_employment_id body ∧
    em_user_id e = pu_id (auth_user auth) ∧
    employment_is_valid_on_day e (prague_today (Zoned now)) = true ∧
    Forall (λ p, future now p = false) (request_times body) ∧
    recorded db db' e [date_of t] t (next_id db) x ∧
    (PragueGap zone → all_fresh db → Forall real (request_times body) → all_fresh db').
Proof. by eapply create_attendance_event_ok. Qed.

(** a successful [PUT /attendance/events/{id}] of the portal moves an
    event of the user's own employment; neither the old nor the new day has
    a full-day status or lies in a locked month, and every other event, row
    and lock is as before. *)
Theorem update_attendance_event_safe db auth now i body db' x
    (Hi : inv db) (H : update_attendance_event db auth now i body = Ok (db', x)) :
  let t := prague_now (in_occurred_at body) in
  ∃ e old, old ∈ events db ∧ ev_id old = i ∧ ev_employment_id old = em_id e ∧
    e ∈ employments db ∧ em_user_id e = pu_id (auth_user auth) ∧
    in_employment_id body = em_id e ∧ future now t = false ∧
    recorded db db' e [ev_day old; date_of t] t i x ∧
    (all_fresh db → real t → all_fresh db').
Proof. by eapply update_attendance_event_ok. Qed.

(** a successful [DELETE /attendance/events/{id}] of the portal removes
    exactly the named event of the user's own employment, and its partner
    when one is named; days with a full-day status stay free of events,
    nothing in a locked month changes and the metrics stay fresh. *)
Theorem delete_attendance_event_safe db auth now i paired_id db'
    (Hi : inv db) (H : delete_attendance_event db auth now i paired_id = Ok db') :
  ∃ e event, e ∈ employments db ∧ em_user_id e = pu_id (auth_user auth) ∧
    event ∈ events db ∧ ev_id event = i ∧ ev_employment_id event = em_id e ∧
    deleted_safely db db' e event paired_id.
Proof. by eapply delete_attendance_event_ok. Qed.

(** [POST /admin/attendance/breaks] needs a confirmation, never writes
    into a locked month or onto a day with a full-day status, detects every
    day whose intervals it changed, and keeps the invariant; the metrics
    stay fresh when the planned break times exist on the clock. *)
Theorem add_missing_breaks_safe db now body db' out
    (Hi : inv db) (H : add_missing_breaks db now body = Ok (db', out)) :
  br_confirmed body = true ∧ attendance_step db db' ∧
  ∃ e, e ∈ employments db ∧ em_id e = br_employment_id body ∧
    (all_fresh db →
     (∀ g w, g ∈ break_groups db e (br_year body) (br_month body) → w ∈ g → real (at_wall w)) →
     all_fresh db').
Proof. by eapply add_missing_breaks_ok. Qed.
End Properties.
