(* ===== verification/ShiftPlanApi.v ===== *)
(** * app/api/v1/shift_plan.py and admin_shift_plan.py: writing shift plans

    The plan and day-status endpoints of the portal and of the administration
    and the selection of the employments shown in a month. *)

From S2P Require Import Prelude Calendar TimeParse PragueTime Models TimeIntervals TimeMetrics.
From S2P Require Import Locks EmploymentAccess DayStatus AttendanceEvents MonthSummary.
From S2P Require Import AttendanceApi.

(** [departure <= arrival] on two strings. *)
Definition string_leb (a b : string) : bool :=
  match String.compare a b with Gt => false | _ => true end.

Definition ends_before_start (arrival departure : option string) : bool :=
  match arrival, departure with
  | Some a, Some d => string_leb d a
  | _, _ => false
  end.

(** [db.flush()] of a plan: the columns are [String(5)]. *)
Definition too_long (t : option string) : bool :=
  match t with Some s => 5 <? Z.of_nat (String.length s) | None => false end.
Definition flush_plan (arrival departure : option string) : result unit :=
  guard (too_long arrival || too_long departure) (Crash "DataError").

Definition bad_request : api_error := ApiError 400 "bad_request".

(** The names a plan body's status pattern allows. *)
Definition PLAN_STATUSES : list string := [DAY_STATUS_HOLIDAY; DAY_STATUS_OFF].

Section ShiftPlanApi.
Context `{zone : PragueZone}.

Record ShiftPlanUpsertIn := mk_plan_in {
  pl_employment_id : Z;
  pl_date : string;
  pl_arrival_time : option string;
  pl_departure_time : option string;
  pl_status : option string;
  pl_confirm_delete_conflicts : bool;
}.

(** [_ensure_day_in_employment_period]. *)
Definition ensure_day_in_employment_period (e : Employment) (day : date) : result unit :=
  guard (outside_period e day) (ApiError 409 "employment_period_mismatch").

Definition lock_active_for_edit (db : DB) (employment_id : Z) (now : Z) : result Employment :=
  let? e := lock_employment_for_time_mutation db employment_id in
  guard (negb (locked_employment_has_active_user db e (prague_today (Zoned now))))
    (ApiError 409 "employment_not_active") ?;;
  Ok e.

(** [any(shift_plans_overlap(candidate, other) for other in other_plans)]. *)
Fixpoint any_overlap (candidate : ShiftPlan) (others : list ShiftPlan) : result bool :=
  match others with
  | [] => Ok false
  | other :: rest =>
      let? o := shift_plans_overlap (Some candidate) (Some other) in
      if o then Ok true else any_overlap candidate rest
  end.

Definition other_plans (db : DB) (employment_id : Z) (existing : option ShiftPlan)
    : list ShiftPlan :=
  where_ (λ p, (sp_employment_id p =? employment_id) &&
               match existing with Some x => negb (sp_id p =? sp_id x) | None => true end)
    (plans db).

Definition candidate_plan (employment_id : Z) (day : date)
    (arrival departure status : option string) : option ShiftPlan :=
  match arrival, departure, status with
  | None, None, None => None
  | _, _, _ => Some (mk_plan 0 employment_id None day arrival departure status)
  end.

(** From the look-up of the existing row to the commit, as both upsert
    endpoints do it; [set_instance] is the instance written to the row. *)
Definition write_plan (db : DB) (e : Employment) (day : date)
    (arrival departure status : option string)
    (new_instance : option string) (set_instance : option string → option string)
    : result DB :=
  let existing := get_shift_plan_day db (em_id e) day in
  let candidate := candidate_plan (em_id e) day arrival departure status in
  let? overlap := match candidate with
    | Some c => any_overlap c (other_plans db (em_id e) existing)
    | None => Ok false
    end in
  guard overlap (ApiError 409 "shift_plan_overlap") ?;;
  for_each (ensure_day_in_employment_period e) (shift_plan_days candidate) ?;;
  let affected_months := dedup (shift_plan_months existing ++ shift_plan_months candidate) in
  ensure_months_unlocked db LOCK_SHIFT_PLAN (em_id e) affected_months ?;;
  match candidate, existing with
  | None, None => Ok db
  | None, Some p =>
      let? db1 := sync_employment_metric_months (delete_plan p db) e affected_months in
      Ok (commit db1)
  | Some _, None =>
      flush_plan arrival departure ?;;
      let? db1 := sync_employment_metric_months
        (add_plan (em_id e) new_instance day arrival departure status db) e affected_months in
      Ok (commit db1)
  | Some _, Some p =>
      flush_plan arrival departure ?;;
      let? db1 := sync_employment_metric_months
        (update_plan p (plan_values (set_instance (sp_instance_id p)) arrival departure status) db)
        e affected_months in
      Ok (commit db1)
  end.

(** The checks of a status over existing data. *)
Definition plan_status_conflicts (db : DB) (e : Employment) (day : date)
    (status : option string) (confirm_delete_conflicts : bool) : result unit :=
  match status with
  | None => Ok tt
  | Some _ =>
      let? conflicts := collect_day_status_conflicts db (em_id e) day in
      guard (attendance_exists conflicts)
        (ApiError 409 "shift_plan_status_conflicts_with_attendance") ?;;
      guard (shift_plan_exists conflicts && negb confirm_delete_conflicts)
        (ApiError 409 "shift_plan_status_confirmation_required")
  end.

Definition blocked_by_status (db : DB) (e : Employment) (day : date)
    (arrival departure status : option string) : bool :=
  is_some (get_day_status db (em_id e) day) && negb (is_some status) &&
  (is_some arrival || is_some departure).

(** A status clears the times. *)
Definition times_under (status time : option string) : option string :=
  match status with Some _ => None | None => time end.

Definition portal_upsert_shift_plan (db : DB) (auth : PortalUserAuth) (now : Z)
    (body : ShiftPlanUpsertIn) : result DB :=
  guard (negb (status_pattern PLAN_STATUSES (pl_status body))) validation_error ?;;
  let? e0 := accessible_employment db auth (pl_employment_id body) in
  let? e := lock_active_for_edit db (em_id e0) now in
  let? day := or_raise (parse_yyyy_mm_dd (pl_date body)) (ApiError 400 "invalid_date_format") in
  ensure_day_in_employment_period e day ?;;
  ensure_month_unlocked db LOCK_SHIFT_PLAN (em_id e) (year_of day) (month_of day) ?;;
  let? arrival := or_raise (parse_hhmm_or_none (pl_arrival_time body))
    (ApiError 400 "invalid_time_format") in
  let? departure := or_raise (parse_hhmm_or_none (pl_departure_time body))
    (ApiError 400 "invalid_time_format") in
  guard (ends_before_start arrival departure) (ApiError 409 "shift_plan_must_end_same_day") ?;;
  let? status := or_raise (normalize_day_status (pl_status body))
    (ApiError 400 "invalid_day_status") in
  guard (blocked_by_status db e day arrival departure status)
    (ApiError 409 "shift_plan_blocked_by_day_status") ?;;
  plan_status_conflicts db e day status (pl_confirm_delete_conflicts body) ?;;
  write_plan db e day (times_under status arrival) (times_under status departure) status
    (Some (auth_instance_id auth)) (λ _, Some (auth_instance_id auth)).

(** [_get_employment] answers 404 without a code. *)
Definition admin_get_employment (db : DB) (employment_id : Z) : result Employment :=
  or_raise (get_employment db employment_id) (ApiError 404 "not_found").

Definition admin_upsert_shift_plan (db : DB) (now : Z) (body : ShiftPlanUpsertIn) : result DB :=
  guard (negb (status_pattern PLAN_STATUSES (pl_status body))) validation_error ?;;
  let? e0 := admin_get_employment db (pl_employment_id body) in
  let? e := lock_active_for_edit db (em_id e0) now in
  let? day := or_raise (parse_yyyy_mm_dd (pl_date body)) bad_request in
  ensure_day_in_employment_period e day ?;;
  ensure_month_unlocked db LOCK_SHIFT_PLAN (em_id e) (year_of day) (month_of day) ?;;
  let? arrival := or_raise (parse_hhmm_or_none (pl_arrival_time body)) bad_request in
  let? departure := or_raise (parse_hhmm_or_none (pl_departure_time body)) bad_request in
  guard (ends_before_start arrival departure) (ApiError 409 "shift_plan_must_end_same_day") ?;;
  let status := pl_status body in
  guard (negb (mem status [None; Some DAY_STATUS_HOLIDAY; Some DAY_STATUS_OFF]))
    (ApiError 400 "invalid_day_status") ?;;
  guard (blocked_by_status db e day arrival departure status)
    (ApiError 409 "shift_plan_blocked_by_day_status") ?;;
  plan_status_conflicts db e day status (pl_confirm_delete_conflicts body) ?;;
  write_plan db e day (times_under status arrival) (times_under status departure) status
    (user_instance_id db e) (λ i, i).

(** ** Full-day statuses *)

Definition portal_upsert_day_status (db : DB) (auth : PortalUserAuth) (now : Z)
    (body : AttendanceStatusUpsertIn) : result DB :=
  guard (negb (status_pattern PLAN_STATUSES (st_status body))) validation_error ?;;
  let? e0 := accessible_employment db auth (st_employment_id body) in
  let? e := lock_active_for_edit db (em_id e0) now in
  let? day := or_raise (parse_yyyy_mm_dd (st_date body)) (ApiError 400 "invalid_date_format") in
  ensure_day_in_employment_period e day ?;;
  ensure_month_unlocked db LOCK_SHIFT_PLAN (em_id e) (year_of day) (month_of day) ?;;
  let? status := or_raise (normalize_day_status (st_status body))
    (ApiError 400 "invalid_day_status") in
  let? conflicts := collect_day_status_conflicts db (em_id e) day in
  let conflict_plan_months := conflicting_shift_plan_months db (em_id e) day in
  guard (is_some status && attendance_exists conflicts)
    (ApiError 409 "shift_plan_status_conflicts_with_attendance") ?;;
  let? (db1, conflicts') :=
    match status with
    | None =>
        set_shift_plan_status db (em_id e) day None (st_confirm_delete_conflicts body)
          (Some (auth_instance_id auth))
    | Some _ =>
        (if shift_plan_exists conflicts
         then ensure_months_unlocked db LOCK_SHIFT_PLAN (em_id e) conflict_plan_months
         else Ok tt) ?;;
        replace_day_status db (em_id e) day status (st_confirm_delete_conflicts body)
          (Some (auth_instance_id auth))
    end in
  guard (is_some status && shift_plan_exists conflicts' &&
         negb (st_confirm_delete_conflicts body)) (ApiError 409 "day_status_conflict") ?;;
  let affected_months :=
    dedup (ym_of day :: (if is_some status && shift_plan_exists conflicts'
                         then conflict_plan_months else [])) in
  let? db2 := sync_employment_metric_months db1 e affected_months in
  Ok (commit db2).

Definition admin_upsert_day_status (db : DB) (now : Z) (body : AttendanceStatusUpsertIn)
    : result DB :=
  guard (negb (status_pattern DAY_STATUS_VALUES (st_status body))) validation_error ?;;
  let? e0 := admin_get_employment db (st_employment_id body) in
  let? e := lock_active_for_edit db (em_id e0) now in
  let? day := or_raise (parse_yyyy_mm_dd (st_date body)) bad_request in
  ensure_day_in_employment_period e day ?;;
  let? status := or_raise (normalize_day_status (st_status body))
    (ApiError 400 "invalid_day_status") in
  change_day_status db e day status (st_confirm_delete_conflicts body)
    (user_instance_id db e) (ApiError 409 "day_status_conflict").

(** ** The employments shown in a month *)

Definition employment_is_active_in_month (db : DB) (e : Employment) (start stop : date) : bool :=
  match user_of db e with Some u => pu_is_active u | None => false end &&
  employment_overlaps_month e start stop.

(** The loop that validates the requested employments; [seen] in order. *)
Fixpoint unique_active (db : DB) (start stop : date) (seen ids : list Z) : result (list Z) :=
  match ids with
  | [] => Ok []
  | i :: rest =>
      if mem i seen then unique_active db start stop seen rest
      else
        let? e := admin_get_employment db i in
        guard (negb (employment_is_active_in_month db e start stop))
          (ApiError 409 "employment_not_active_in_month") ?;;
        let? others := unique_active db start stop (i :: seen) rest in
        Ok (i :: others)
  end.

Definition add_month_instance (year month : Z) (db : DB) (employment_id : Z) : DB :=
  bump_id (set_month_instances (month_instances db ++
    [mk_month_instance (next_id db) year month employment_id]) db).

Definition admin_set_shift_plan_selection (db : DB) (year month : Z) (employment_ids : list Z)
    : result DB :=
  guard ((year <? 2000) || (2100 <? year) || (month <? 1) || (12 <? month)) validation_error ?;;
  let '(start, stop) := month_range year month in
  let? uniq := unique_active db start stop [] employment_ids in
  let db1 := set_month_instances
    (delete_where (λ r, (mi_year r =? year) && (mi_month r =? month)) (month_instances db)) db in
  Ok (commit (fold_left (add_month_instance year month) uniq db1)).

(** [selected_ids] of the month view: the stored selection restricted to the
    active employments, or all of them. *)
Definition selected_employment_ids (db : DB) (year month : Z) : list Z :=
  let '(start, stop) := month_range year month in
  let available := sorted_by by_start (where_ (λ e, employment_overlaps_month e start stop)
    (employments db)) in
  let active := em_id <$> where_ (λ e, employment_is_active_in_month db e start stop) available in
  let stored := mi_employment_id <$>
    where_ (λ r, (mi_year r =? year) && (mi_month r =? month)) (month_instances db) in
  let stored := match stored with [] => active | _ => stored end in
  match where_ (λ i, mem i active) stored with
  | [] => active
  | l => l
  end.
End ShiftPlanApi.
