(* ===== verification/PlanSafety.v ===== *)
(** * Safety of the day-status and shift-plan endpoints

    Setting a full-day status or writing a shift plan preserves the invariant,
    keeps the metrics fresh and changes nothing in a locked month. *)

From S2P Require Import Prelude Calendar TimeParse PragueTime Models TimeIntervals Breaks.
From S2P Require Import TimeMetrics Locks EmploymentAccess DayStatus AttendanceEvents.
From S2P Require Import MonthSummary AttendanceApi SystemInvariant AdminAttendanceApi.
From S2P Require Import AttendanceSafety ShiftPlanApi.

Section PlanSafety.
Context `{zone : PragueZone} `{!PragueZoneLaws zone}.

(** What a committed mutation of plans or statuses guarantees. *)
Record committed (db db' : DB) : Prop := {
  co_inv : inv db';
  co_safe : lock_safe db db';
  co_tables : same_but_metrics db db';
  co_next : next_id db <= next_id db';
}.

Lemma replaced_events_subset db db1 e d n x :
  replaced db db1 e d n → x ∈ events db1 →
  x ∈ events db ∧ (ev_employment_id x = e → ev_day x = d → n = None).
Proof.
  intros R Hx. pose proof (replaced_events _ _ _ _ _ R) as Hev.
  destruct (decide (ev_employment_id x = e ∧ ev_day x = d)) as [[He Hd]|Hn].
  - destruct (decide (n = None)) as [->|Hnn].
    + rewrite bool_decide_eq_true_2 in Hev by done. by rewrite <- Hev.
    + rewrite bool_decide_eq_false_2 in Hev by done. exfalso.
      assert (Hc : x ∈ conflicting_events db1 e d) by by apply conflicting_events_elem.
      rewrite Hev in Hc. by apply elem_of_nil in Hc.
  - split; [|naive_solver].
    apply (frame_events _ _ _ (replaced_frame _ _ _ _ _ R)); [|done]. intros [= H1 H2]. by apply Hn.
Qed.

Lemma replaced_mutated db db1 e d n :
  inv db → replaced db db1 e d n → mutated db e [d] db1.
Proof.
  intros Hi R. pose proof (replaced_kept _ _ _ _ _ R) as [Kn Kp Ks].
  pose proof (replaced_events_subset db db1 e d n) as Hsub. constructor.
  - apply R.
  - intros x Hx. by apply (inv_ids _ Hi), (Hsub x R).
  - intros x Hx. apply stored_from_zone, (inv_stored _ Hi). by apply (Hsub x R).
  - apply Kp, Hi.
  - apply Ks, Hi.
  - apply day_frame_days; [apply R|done].
  - intros x Hx He Hd%list_elem_of_singleton.
    destruct (Hsub x R Hx) as [_ Hnone]. specialize (Hnone He Hd). rewrite Hd.
    by apply (replaced_none _ _ _ _ _ R).
Qed.

(** Rows and statuses survive the metric synchronisation and the commit. *)
Lemma sync_rows db e months db' :
  plans_valid db → Forall (λ k, 1 <= k.2 <= 12) months →
  sync_employment_metric_months db e months = Ok db' →
  plans (commit db') = plans db ∧ attendance (commit db') = attendance db.
Proof.
  intros Hv Hm Hs. destruct (sync_months_ok db e months Hv Hm) as (x & Hx & _).
  rewrite Hx in Hs. by injection Hs as <-.
Qed.

(** The end shared by the day-status endpoints. *)
Lemma replace_commit_ok e d db db1 n months db2 :
  inv db → e ∈ employments db → replaced db db1 (em_id e) d n →
  ym_of d ∈ months → Forall (λ k, 1 <= k.2 <= 12) months →
  (day_locked db LOCK_ATTENDANCE (em_id e) d = true →
     attendance_exists (conflicts_of db (em_id e) d) = false ∧
     is_attendance_status n = false) →
  (day_locked db LOCK_SHIFT_PLAN (em_id e) d = true →
     shift_plan_exists (conflicts_of db (em_id e) d) = false ∧
     is_plan_status n = false) →
  sync_employment_metric_months db1 e months = Ok db2 →
  committed db (commit db2) ∧ days_frame (em_id e) [d] db (commit db2) ∧
  get_day_status (commit db2) (em_id e) d = n ∧
  (n ≠ None → conflicting_events (commit db2) (em_id e) d = []) ∧
  (all_fresh db → all_fresh (commit db2)).
Proof.
  intros Hi He R Hd Hm Hla Hlp Hs. pose proof (replaced_mutated _ _ _ _ _ Hi R) as M.
  pose proof (replaced_events_subset db db1 (em_id e) d n) as Hsub.
  destruct (sync_commit_ok e [d] db db1 months db2) as (Hinv & Hfr & Hfresh); try done.
  { apply (frame_tables _ _ _ (replaced_frame _ _ _ _ _ R)). }
  { by intros d' ->%list_elem_of_singleton. }
  assert (Hreal : ∀ z, z ∈ events db1 → reload_event z = z).
  { intros z Hz. apply reload_event_stored, (inv_stored _ Hi). by apply (Hsub z R). }
  destruct (sync_rows db1 e months db2 (mu_plans _ _ _ _ M) Hm Hs) as [Hpl Hat].
  pose proof (metric_sync_events _ _ _ _ (mu_plans _ _ _ _ M) Hm Hs) as Hev.
  assert (Hevs : ∀ z, z ∈ events (commit db2) ↔ z ∈ events db1).
  { intros z. rewrite commit_elem, Hev. split.
    - intros (y & -> & Hy). by rewrite Hreal.
    - intros Hz. exists z. by rewrite Hreal. }
  assert (Hrows : ∀ k, attendance_rows (commit db2) k = attendance_rows db1 k ∧
                       plan_rows (commit db2) k = plan_rows db1 k).
  { intros k. unfold attendance_rows, plan_rows. by rewrite Hpl, Hat. }
  split_and!; [|exact Hfr| | |auto].
  - constructor; [exact Hinv| |apply Hfr|apply Hfr]. eapply frame_lock_safe; [exact Hfr|..].
    + intros d' ->%list_elem_of_singleton Hl. destruct (Hla Hl) as [Hex Hn].
      unfold conflicts_of in Hex. simpl in Hex. bool_hyps. split.
      * unfold attendance_status at 1. rewrite (proj1 (Hrows _)).
        transitivity (attendance_status db1 (em_id e, d)); [done|].
        rewrite (replaced_attendance_status _ _ _ _ _ R Hn). symmetry.
        change (get_attendance_day db (em_id e) d) with (head (attendance_rows db (em_id e, d))) in *.
        unfold attendance_status. destruct (head (attendance_rows db (em_id e, d))) as [a|] eqn:Ha; [|done].
        destruct (at_status a) as [s|] eqn:Est; [|done].
        apply (table_found attendance_key attendance_at' attendance_at_spec) in Ha as [Hin _].
        rewrite status_truthy in H; [done|]. by apply (proj2 (inv_statuses _ Hi) a Hin).
      * intros x Hxe Hxd. rewrite Hevs.
        assert (Hnone : x ∉ events db).
        { intros Hx. assert (Hc : x ∈ conflicting_events db (em_id e) d)
            by by apply conflicting_events_elem.
          destruct (conflicting_events db (em_id e) d); [by apply elem_of_nil in Hc|done]. }
        split; [|done]. intros Hx. by apply (Hsub x R) in Hx as [? _].
    + intros d' ->%list_elem_of_singleton Hl. destruct (Hlp Hl) as [Hex Hn].
      unfold conflicts_of in Hex. simpl in Hex.
      assert (plan_rows db (em_id e, d) = []) as Hnil.
      { change (conflicting_shift_plans db (em_id e) d) with (plan_rows db (em_id e, d)) in Hex.
        by destruct (plan_rows db (em_id e, d)). }
      rewrite (proj2 (Hrows _)), Hnil. by apply (replaced_plan_rows _ _ _ _ _ R).
  - rewrite <- (replaced_status _ _ _ _ _ R), !get_day_status_eq.
    unfold attendance_status, plan_status. by rewrite !(proj1 (Hrows _)), !(proj2 (Hrows _)).
  - intros Hn. apply no_conflicting_events. intros x Hx [Hxe Hxd]. apply Hevs in Hx.
    apply Hn. by apply (Hsub x R Hx).
Qed.

(** The first lock check: a type that is not checked is not affected. *)
Lemma status_locks_checked db e d status conflicts u :
  for_each (λ lock_type, ensure_months_unlocked db lock_type (em_id e)
    (ym_of d :: match lock_type with
                | LOCK_SHIFT_PLAN => conflicting_shift_plan_months db (em_id e) d
                | LOCK_ATTENDANCE => []
                end))
    (lock_types_or_both
       (status_lock_types status (get_day_status db (em_id e) d) conflicts)) = Ok u →
  (day_locked db LOCK_ATTENDANCE (em_id e) d = true →
     attendance_exists conflicts = false ∧ is_attendance_status status = false) ∧
  (day_locked db LOCK_SHIFT_PLAN (em_id e) d = true →
     shift_plan_exists conflicts = false ∧ is_plan_status status = false).
Proof.
  rewrite for_each_ok, Forall_forall. intros H.
  assert (Hout : ∀ lt, day_locked db lt (em_id e) d = true →
    lt ∉ lock_types_or_both (status_lock_types status (get_day_status db (em_id e) d) conflicts)).
  { intros lt Hl Hin. specialize (H lt Hin).
    apply ensure_months_unlocked_ok with (y := year_of d) (m := month_of d) in H; [|left].
    unfold day_locked in Hl. congruence. }
  unfold status_lock_types in Hout.
  set (ca := is_attendance_status status || _ || _) in Hout.
  set (cp := is_plan_status status || _ || _) in Hout.
  split; intros Hl; specialize (Hout _ Hl).
  - assert (ca = false) as Hca by (destruct ca, cp; simpl in Hout; try done; set_solver).
    unfold ca in Hca. bool_hyps. done.
  - assert (cp = false) as Hcp by (destruct ca, cp; simpl in Hout; try done; set_solver).
    unfold cp in Hcp. bool_hyps. done.
Qed.

(** The outcome of a status request. *)
Definition status_set (db db' : DB) (e : Employment) (d : date) (status : option string) : Prop :=
  committed db db' ∧ days_frame (em_id e) [d] db db' ∧
  get_day_status db' (em_id e) d = status ∧
  (status ≠ None → conflicting_events db' (em_id e) d = []) ∧
  (all_fresh db → all_fresh db').

Lemma change_day_status_ok db e d status confirm i err db' :
  inv db → e ∈ employments db → normalize_day_status status = Some status →
  change_day_status db e d status confirm i err = Ok db' →
  status_set db db' e d status ∧
  (confirm = true ∨ status = None ∨
   has_conflicts (conflicts_of db (em_id e) d) = false).
Proof.
  intros Hi He Hn H. unfold change_day_status in H. ok_inv H.
  apply collect_ok in Hstep as ->. apply status_locks_checked in Hstep0 as [Hla Hlp].
  destruct v1 as [db1 c1]. apply replace_day_status_ok with (n := status) in Hstep1 as [-> Hcase];
    [|apply Hi|done].
  cbn beta iota in H. ok_inv H. injection H as <-.
  assert (Hcond : confirm = true ∨ status = None ∨
      has_conflicts (conflicts_of db (em_id e) d) = false).
  { destruct confirm; [by left|]. right. rewrite andb_true_r in Hguard.
    apply andb_false_iff in Hguard as [Hg|Hg]; [left|by right].
    apply bool_decide_eq_false in Hg. destruct status; [|done]. by destruct Hg. }
  split; [|done].
  assert (R : replaced db db1 (em_id e) d status).
  { destruct (needs_confirmation _ _ _ _ _) eqn:E; [|done]. exfalso. unfold needs_confirmation in E.
    rewrite !andb_true_iff in E. destruct E as [[[Ea _] Eh] Ec]. by rewrite Ea, Eh, Ec in Hguard. }
  set (changed := d :: _) in *.
  eapply (replace_commit_ok e d db db1 status
    (dedup (months_for_days changed ++ conflicting_shift_plan_months db (em_id e) d))); try done.
  - apply elem_of_dedup, elem_of_app. left. apply elem_of_dedup, list_elem_of_fmap_2. left.
  - apply Forall_forall. intros k Hk. rewrite elem_of_dedup in Hk.
    apply elem_of_app in Hk as [Hk|Hk].
    + by apply (proj1 (Forall_forall _ _) (months_for_days_valid changed)).
    + unfold conflicting_shift_plan_months in Hk. rewrite elem_of_dedup in Hk.
      apply elem_of_mjoin_fmap in Hk as (p & _ & Hk). simpl in Hk.
      apply list_elem_of_singleton in Hk as ->. apply month_of_bounds.
Qed.

Lemma valid_status_normal st :
  mem st (None :: (Some <$> DAY_STATUS_VALUES)) = true → normalize_day_status st = Some st.
Proof.
  rewrite mem_true, elem_of_cons, list_elem_of_fmap. intros [->|(s & -> & Hs)]; [done|].
  unfold DAY_STATUS_VALUES in Hs. rewrite !elem_of_cons, elem_of_nil in Hs.
  destruct Hs as [->|[->|[->|[->|[]]]]]; vm_compute; reflexivity.
Qed.

Lemma upsert_attendance_status_ok db auth now body db'
    (Hi : inv db) (H : upsert_attendance_status db auth now body = Ok db') :
  ∃ e d, e ∈ employments db ∧ em_id e = st_employment_id body ∧
    em_user_id e = pu_id (auth_user auth) ∧ date_fromisoformat (st_date body) = Some d ∧
    outside_period e d = false ∧ status_set db db' e d (st_status body) ∧
    (st_confirm_delete_conflicts body = true ∨ st_status body = None ∨
     has_conflicts (conflicts_of db (em_id e) d) = false).
Proof.
  unfold upsert_attendance_status in H. ok_inv H. rename v into e, v0 into d.
  apply locked_employment_spec in Hstep as (He & Hid & Hown & _). apply or_raise_ok in Hstep0.
  apply negb_false_iff in Hguard0. apply valid_status_normal in Hguard0.
  destruct (change_day_status_ok _ _ _ _ _ _ _ _ Hi He Hguard0 H) as [Hs Hc].
  exists e, d. by split_and!.
Qed.

Lemma lock_active_for_edit_ok db i now e :
  lock_active_for_edit db i now = Ok e → e ∈ employments db ∧ em_id e = i.
Proof. apply lock_active_ok. Qed.

(** the administration's [PUT /admin/day-status] gives the same
    guarantees for any of the four statuses. *)
Theorem admin_upsert_day_status_safe db now body db'
    (Hi : inv db) (H : admin_upsert_day_status db now body = Ok db') :
  ∃ e d status, e ∈ employments db ∧ em_id e = st_employment_id body ∧
    parse_yyyy_mm_dd (st_date body) = Some d ∧
    normalize_day_status (st_status body) = Some status ∧
    outside_period e d = false ∧ status_set db db' e d status.
Proof.
  unfold admin_upsert_day_status in H. ok_inv H.
  apply or_raise_ok, get_employment_ok in Hstep as [_ Hid].
  apply lock_active_for_edit_ok in Hstep0 as [He Hid'].
  apply or_raise_ok in Hstep1, Hstep3. apply guard_ok in Hstep2.
  destruct (change_day_status_ok _ _ _ _ _ _ _ _ Hi He (normalize_idem _ _ Hstep3) H) as [Hs _].
  exists v0, v1, v3. split_and!; try done. congruence.
Qed.

(** ** Shift plans *)

Lemma plan_write_mutated db db1 e day :
  inv db → db_wf db1 → day_frame (e, day) db db1 → events db1 = events db →
  attendance db1 = attendance db → kept db db1 →
  ((∃ x, x ∈ events db ∧ ev_employment_id x = e ∧ ev_day x = day) →
   plan_status db1 (e, day) = None) →
  mutated db e [day] db1.
Proof.
  intros Hi Hwf Hfr Hev Hat [Kn Kp Ks] Hst. constructor; rewrite ?Hev.
  - done.
  - apply Hi.
  - intros x Hx. by apply stored_from_zone, (inv_stored _ Hi).
  - apply Kp, Hi.
  - apply Ks, Hi.
  - by apply day_frame_days.
  - intros x Hx He Hd%list_elem_of_singleton. rewrite Hd. split.
    + unfold attendance_status, attendance_rows. rewrite Hat. rewrite <- He, <- Hd.
      apply (inv_status _ Hi x Hx).
    + apply Hst. by exists x.
Qed.

(** The row of the day after a write. *)
Definition plan_written (db' : DB) (e : Employment) (day : date)
    (arrival departure status : option string) : Prop :=
  match head (plan_rows db' (em_id e, day)) with
  | None => arrival = None ∧ departure = None ∧ status = None
  | Some p => sp_arrival_time p = arrival ∧ sp_departure_time p = departure ∧ sp_status p = status
  end.

Lemma candidate_none e day a b s :
  candidate_plan e day a b s = None ↔ a = None ∧ b = None ∧ s = None.
Proof. unfold candidate_plan. destruct a, b, s; naive_solver. Qed.

Lemma plan_row_date db e d p : head (plan_rows db (e, d)) = Some p → sp_employment_id p = e ∧ sp_date p = d.
Proof.
  intros H. apply (table_found plan_key plan_at' plan_at_spec) in H as [_ Hk]. by injection Hk.
Qed.

(** The plan row of one branch of [write_plan], before the metrics. *)
Definition plan_branch (db : DB) (e : Employment) (day : date) (a b s : option string)
    (db1 : DB) : Prop :=
  db_wf db1 ∧ day_frame (em_id e, day) db db1 ∧ events db1 = events db ∧
  attendance db1 = attendance db ∧ kept db db1 ∧ plan_status db1 (em_id e, day) = s ∧
  plan_written db1 e day a b s.

Lemma plan_branches db e day a b s i f :
  inv db → is_valid_hhmm a = true → is_valid_hhmm b = true → status_valid s →
  match candidate_plan (em_id e) day a b s, get_shift_plan_day db (em_id e) day with
  | None, None => plan_branch db e day a b s db
  | None, Some p => plan_branch db e day a b s (delete_plan p db)
  | Some _, None => plan_branch db e day a b s (add_plan (em_id e) i day a b s db)
  | Some _, Some p => plan_branch db e day a b s
      (update_plan p (plan_values (f (sp_instance_id p)) a b s) db)
  end.
Proof.
  intros Hi Ha Hb Hs. change (get_shift_plan_day db (em_id e) day)
    with (head (plan_rows db (em_id e, day))).
  pose proof (inv_wf _ Hi) as wf.
  destruct (candidate_plan (em_id e) day a b s) eqn:Hc.
  - destruct (head (plan_rows db (em_id e, day))) as [p|] eqn:Hp; unfold plan_branch, plan_written, plan_status.
    + erewrite update_plan_rows by done. rewrite decide_True by done. simpl.
      split_and!; try done; [by apply wf_update_plan | by apply frame_update_plan|].
      apply kept_update_plan; [|done|by eapply plan_row_in]. intros _.
      unfold plan_times_valid. simpl. by rewrite Ha, Hb.
    + rewrite add_plan_rows by done. rewrite decide_True by done. simpl.
      split_and!; try done; [by apply wf_add_plan | by apply frame_add_plan|].
      apply kept_add_plan; [|done]. unfold plan_times_valid. simpl. by rewrite Ha, Hb.
  - apply candidate_none in Hc as (-> & -> & ->).
    destruct (head (plan_rows db (em_id e, day))) as [p|] eqn:Hp; unfold plan_branch, plan_written, plan_status.
    + erewrite delete_plan_rows by done. rewrite decide_True by done. simpl.
      split_and!; try done; [by apply wf_delete_plan | by apply frame_delete_plan|].
      apply kept_delete_plan.
    + rewrite Hp. by split_and!.
Qed.

Lemma plan_commit_core db e day s db1 months db2 :
  inv db → e ∈ employments db →
  db_wf db1 → day_frame (em_id e, day) db db1 → events db1 = events db →
  attendance db1 = attendance db → kept db db1 → plan_status db1 (em_id e, day) = s →
  (s ≠ None → attendance_exists (conflicts_of db (em_id e) day) = false) →
  day_locked db LOCK_SHIFT_PLAN (em_id e) day = false →
  ym_of day ∈ months → Forall (λ k, 1 <= k.2 <= 12) months →
  sync_employment_metric_months db1 e months = Ok db2 →
  committed db (commit db2) ∧ days_frame (em_id e) [day] db (commit db2) ∧
  plans (commit db2) = plans db1 ∧ (all_fresh db → all_fresh (commit db2)).
Proof.
  intros Hi He Hwf Hfr Hev Hat Hk Hst Hatt Hlock Hd Hm Hs.
  assert (M : mutated db (em_id e) [day] db1).
  { apply plan_write_mutated; try done. intros (x & Hx & Hxe & Hxd). rewrite Hst.
    destruct s as [v|]; [|done]. exfalso. specialize (Hatt ltac:(done)).
    unfold conflicts_of in Hatt. simpl in Hatt. apply orb_false_iff in Hatt as [_ Hn].
    assert (Hc : x ∈ conflicting_events db (em_id e) day) by by apply conflicting_events_elem.
    destruct (conflicting_events db (em_id e) day); [by apply elem_of_nil in Hc|done]. }
  destruct (sync_commit_ok e [day] db db1 months db2) as (Hinv & Hdf & Hfresh); try done.
  { apply (frame_tables _ _ _ Hfr). }
  { by intros d' ->%list_elem_of_singleton. }
  destruct (sync_rows db1 e months db2 (mu_plans _ _ _ _ M) Hm Hs) as [Hpl Hat'].
  pose proof (metric_sync_events _ _ _ _ (mu_plans _ _ _ _ M) Hm Hs) as Hev'.
  assert (Hreal : ∀ z, z ∈ events db → reload_event z = z).
  { intros z Hz. by apply reload_event_stored, (inv_stored _ Hi). }
  split_and!; [|exact Hdf|exact Hpl|].
  - constructor; [exact Hinv| |apply Hdf|apply Hdf]. eapply frame_lock_safe; [exact Hdf|..].
    + intros d' _ _. split; [unfold attendance_status, attendance_rows; by rewrite Hat', Hat|].
      intros x _ _. rewrite commit_elem, Hev', Hev. split.
      * intros (z & -> & Hz). by rewrite Hreal.
      * intros Hz. exists x. by rewrite Hreal.
    + intros d' ->%list_elem_of_singleton Hl. congruence.
  - intros Hf. apply Hfresh; [done|]. intros z. rewrite Hev. apply Hreal.
Qed.

Lemma plan_branch_commit db e day a b s db1 months db2 :
  inv db → e ∈ employments db → plan_branch db e day a b s db1 →
  (s ≠ None → attendance_exists (conflicts_of db (em_id e) day) = false) →
  day_locked db LOCK_SHIFT_PLAN (em_id e) day = false →
  ym_of day ∈ months → Forall (λ k, 1 <= k.2 <= 12) months →
  sync_employment_metric_months db1 e months = Ok db2 →
  committed db (commit db2) ∧ days_frame (em_id e) [day] db (commit db2) ∧
  plan_written (commit db2) e day a b s ∧ (all_fresh db → all_fresh (commit db2)).
Proof.
  intros Hi He (Hwf & Hfr & Hev & Hat & Hk & Hst & Hw) Hatt Hlock Hd Hm Hs.
  destruct (plan_commit_core db e day s db1 months db2) as (Hc & Hdf & Hpl & Hf); try done.
  split_and!; try done. unfold plan_written, plan_rows in *. by rewrite Hpl.
Qed.

Lemma accessible_employment_ok db auth i e :
  accessible_employment db auth i = Ok e →
  e ∈ employments db ∧ em_id e = i ∧ em_user_id e = pu_id (auth_user auth).
Proof.
  unfold accessible_employment. intros H. ok_inv H. injection H as ->.
  apply or_raise_ok, get_employment_ok in Hstep as [He Hid].
  apply orb_false_iff in Hguard as [Hown%negb_false_iff%Z.eqb_eq _]. done.
Qed.

Lemma write_plan_ok db e day a b s i f db' :
  inv db → e ∈ employments db → is_valid_hhmm a = true → is_valid_hhmm b = true →
  status_valid s →
  (s ≠ None → attendance_exists (conflicts_of db (em_id e) day) = false) →
  day_locked db LOCK_SHIFT_PLAN (em_id e) day = false →
  write_plan db e day a b s i f = Ok db' →
  committed db db' ∧ days_frame (em_id e) [day] db db' ∧ plan_written db' e day a b s ∧
  (all_fresh db → all_fresh db').
Proof.
  intros Hi He Ha Hb Hs Hatt Hlock H. unfold write_plan in H. ok_inv H.
  pose proof (plan_branches db e day a b s i f Hi Ha Hb Hs) as Hbr.
  set (existing := get_shift_plan_day db (em_id e) day) in *.
  set (candidate := candidate_plan (em_id e) day a b s) in *.
  set (months := dedup _) in *.
  assert (Hmonths : ∀ k, k ∈ months → k = ym_of day).
  { intros k. unfold months. rewrite elem_of_dedup, elem_of_app. intros [Hk|Hk].
    - destruct existing as [p|] eqn:Hp; [|by apply elem_of_nil in Hk].
      apply list_elem_of_singleton in Hk as ->. apply plan_row_date in Hp as [_ ->]. done.
    - unfold candidate, candidate_plan in Hk.
      destruct a, b, s; simpl in Hk; try by apply list_elem_of_singleton in Hk.
      by apply elem_of_nil in Hk. }
  assert (Hne : is_some existing || is_some candidate = true → ym_of day ∈ months).
  { intros Hor. unfold months. rewrite elem_of_dedup, elem_of_app. destruct existing as [p|] eqn:Hp.
    - left. apply plan_row_date in Hp as [_ <-]. left.
    - right. destruct candidate as [c|] eqn:Hc; [|done]. unfold candidate, candidate_plan in Hc.
      destruct a, b, s; try done; injection Hc as <-; left. }
  assert (Hvalid : Forall (λ k, 1 <= k.2 <= 12) months).
  { apply Forall_forall. intros k ->%Hmonths. apply month_of_bounds. }
  destruct candidate as [c|] eqn:Hcand, existing as [p|] eqn:Hex.
  1, 2: ok_inv H; injection H as <-; eapply plan_branch_commit; try done; by apply Hne.
  1: ok_inv H; injection H as <-; eapply plan_branch_commit; try done; by apply Hne.
  injection H as <-. destruct Hbr as (_ & _ & _ & _ & _ & _ & Hw).
  split_and!; [|by apply days_frame_weaken with []; [by intros ? ?%elem_of_nil|apply days_frame_refl]|done|done].
  constructor; [done| |reflexivity|done]. by constructor.
Qed.

Lemma parse_hhmm_valid v r : parse_hhmm_or_none v = Some r → is_valid_hhmm r = true.
Proof.
  unfold parse_hhmm_or_none, normalize_hhmm_or_none. destruct v as [s|]; [|by intros [= <-]].
  destruct (String.eqb _ _); [by intros [= <-]|].
  destruct (is_valid_hhmm (Some s)) eqn:E; simpl; [|done]. by intros [= <-].
Qed.

Lemma times_under_valid s t : is_valid_hhmm t = true → is_valid_hhmm (times_under s t) = true.
Proof. by destruct s. Qed.

Lemma plan_status_conflicts_ok db e day s c u :
  plan_status_conflicts db e day s c = Ok u → s ≠ None →
  attendance_exists (conflicts_of db (em_id e) day) = false ∧
  (c = true ∨ shift_plan_exists (conflicts_of db (em_id e) day) = false).
Proof.
  unfold plan_status_conflicts. destruct s as [v|]; [|done]. intros H _.
  apply rbind_ok in H as (cs & ->%collect_ok & H).
  apply guard_bind_ok in H as [H1 H2]. apply guard_ok in H2. split; [done|].
  destruct c; [by left|]. right. by rewrite andb_true_r in H2.
Qed.

(** The outcome of writing a plan: the day's row holds exactly the request,
    times and status never together. *)
Definition plan_saved (db db' : DB) (e : Employment) (d : date) (body : ShiftPlanUpsertIn)
    (status : option string) : Prop :=
  committed db db' ∧ days_frame (em_id e) [d] db db' ∧
  (∃ a b, parse_hhmm_or_none (pl_arrival_time body) = Some a ∧
     parse_hhmm_or_none (pl_departure_time body) = Some b ∧
     ends_before_start a b = false ∧
     plan_written db' e d (times_under status a) (times_under status b) status) ∧
  (status ≠ None →
     attendance_exists (conflicts_of db (em_id e) d) = false ∧
     (pl_confirm_delete_conflicts body = true ∨
      shift_plan_exists (conflicts_of db (em_id e) d) = false)) ∧
  (all_fresh db → all_fresh db').

Lemma portal_upsert_shift_plan_ok db auth now body db'
    (Hi : inv db) (H : portal_upsert_shift_plan db auth now body = Ok db') :
  ∃ e d status, e ∈ employments db ∧ em_id e = pl_employment_id body ∧
    em_user_id e = pu_id (auth_user auth) ∧ parse_yyyy_mm_dd (pl_date body) = Some d ∧
    normalize_day_status (pl_status body) = Some status ∧
    outside_period e d = false ∧ day_locked db LOCK_SHIFT_PLAN (em_id e) d = false ∧
    plan_saved db db' e d body status.
Proof.
  unfold portal_upsert_shift_plan in H. ok_inv H.
  apply accessible_employment_ok in Hstep as (He0 & Hid & Hown).
  apply lock_active_for_edit_ok in Hstep0 as [He Hid'].
  apply (employment_by_id db) in Hid' as ->; [|done..].
  apply or_raise_ok in Hstep1, Hstep4, Hstep5, Hstep6.
  apply guard_ok in Hstep2, Hstep3.
  pose proof (status_valid_normalized _ _ Hstep6) as Hsv.
  pose proof (plan_status_conflicts_ok _ _ _ _ _ _ Hstep7) as Hconf.
  destruct (write_plan_ok _ _ _ _ _ _ _ _ _ Hi He
    (times_under_valid _ _ (parse_hhmm_valid _ _ Hstep4))
    (times_under_valid _ _ (parse_hhmm_valid _ _ Hstep5)) Hsv
    (λ Hn, proj1 (Hconf Hn)) Hstep3 H) as (Hc & Hdf & Hw & Hf).
  exists v, v1, v6. split_and!; try done. constructor; [done|].
  split_and!; [done| |exact Hconf|done]. by exists v4, v5.
Qed.

(** the administration's [PUT /admin/shift-plan] stores exactly the
    request under the same conditions. *)
Theorem admin_upsert_shift_plan_safe db now body db'
    (Hi : inv db) (H : admin_upsert_shift_plan db now body = Ok db') :
  ∃ e d, e ∈ employments db ∧ em_id e = pl_employment_id body ∧
    parse_yyyy_mm_dd (pl_date body) = Some d ∧
    pl_status body ∈ [None; Some DAY_STATUS_HOLIDAY; Some DAY_STATUS_OFF] ∧
    outside_period e d = false ∧ day_locked db LOCK_SHIFT_PLAN (em_id e) d = false ∧
    plan_saved db db' e d body (pl_status body).
Proof.
  unfold admin_upsert_shift_plan in H. ok_inv H.
  apply or_raise_ok, get_employment_ok in Hstep as [He0 Hid].
  apply lock_active_for_edit_ok in Hstep0 as [He Hid'].
  apply (employment_by_id db) in Hid' as ->; [|done..].
  apply or_raise_ok in Hstep1, Hstep4, Hstep5. apply guard_ok in Hstep2, Hstep3.
  apply negb_false_iff, mem_true in Hguard1.
  assert (Hsv : status_valid (pl_status body)).
  { intros s Hs. rewrite Hs in Hguard1. clear - Hguard1. unfold DAY_STATUS_VALUES. set_solver. }
  pose proof (plan_status_conflicts_ok _ _ _ _ _ _ Hstep6) as Hconf.
  destruct (write_plan_ok _ _ _ _ _ _ _ _ _ Hi He
    (times_under_valid _ _ (parse_hhmm_valid _ _ Hstep4))
    (times_under_valid _ _ (parse_hhmm_valid _ _ Hstep5)) Hsv
    (λ Hn, proj1 (Hconf Hn)) Hstep3 H) as (Hc & Hdf & Hw & Hf).
  exists v, v1. split_and!; try done. constructor; [done|].
  split_and!; [done| |exact Hconf|done]. by exists v4, v5.
Qed.

(** under the invariant the overlap check of both plan endpoints can
    never fire: the other plans of the employment lie on other days, and a
    plan never leaves its day. *)
Theorem shift_plan_overlap_unreachable db e day a b s i f
    (Hi : inv db) (Ha : is_valid_hhmm a = true) (Hb : is_valid_hhmm b = true)
    (Hs : status_valid s) :
  write_plan db e day a b s i f ≠ Err (ApiError 409 "shift_plan_overlap").
Proof.
  assert (Hno : ∀ c others, plan_times_valid c = true →
    (∀ o, o ∈ others → plan_times_valid o = true ∧ sp_date o ≠ sp_date c) →
    any_overlap c others = Ok false).
  { intros c others Hc. induction others as [|o others IH]; intros Ho; [done|]. simpl.
    destruct (Ho o ltac:(left)) as [Hov Hod].
    rewrite shift_plans_disjoint_days by congruence. simpl. apply IH. intros q Hq. apply Ho. by right. }
  assert (Hother : ∀ o, o ∈ other_plans db (em_id e) (get_shift_plan_day db (em_id e) day) →
    plan_times_valid o = true ∧ sp_date o ≠ day).
  { intros o [Ho Hk]%elem_of_where. split; [by apply (inv_plans _ Hi)|]. intros Hd.
    apply andb_true_iff in Hk as [Hemp%Z.eqb_eq Hk].
    assert (Hr : o ∈ plan_rows db (em_id e, day)).
    { apply elem_of_where. split; [done|]. apply plan_at_spec. unfold plan_key. by rewrite Hemp, Hd. }
    change (get_shift_plan_day db (em_id e) day) with (head (plan_rows db (em_id e, day))) in Hk.
    pose proof (table_single plan_key plan_at' plan_at_spec (em_id e, day) (plans db)) as Hsingle.
    fold (plan_rows db (em_id e, day)) in Hsingle.
    destruct (head (plan_rows db (em_id e, day))) as [p|] eqn:Hp.
    - rewrite (Hsingle p (keyed_key _ _ _ _ (wf_plans _ (inv_wf _ Hi))) eq_refl) in Hr.
      apply list_elem_of_singleton in Hr as ->. by rewrite Z.eqb_refl in Hk.
    - destruct (plan_rows db (em_id e, day)); [by apply elem_of_nil in Hr|done]. }
  unfold write_plan.
  assert (Hoverlap : match candidate_plan (em_id e) day a b s with
    | Some c => any_overlap c (other_plans db (em_id e) (get_shift_plan_day db (em_id e) day))
    | None => Ok false end = Ok false).
  { destruct (candidate_plan (em_id e) day a b s) as [c|] eqn:Hc; [|done].
    assert (plan_times_valid c = true ∧ sp_date c = day) as [Hcv Hcd].
    { unfold candidate_plan in Hc. unfold plan_times_valid.
      destruct a, b, s; try done; injection Hc as <-;
        cbn [sp_arrival_time sp_departure_time sp_date]; by rewrite ?Ha, ?Hb. }
    by rewrite Hno; [done|done|rewrite Hcd]. }
  rewrite Hoverlap. simpl. apply rbind_not_err.
  { apply for_each_not_err. intros d. by apply guard_not_err. }
  intros _ _. apply rbind_not_err.
  { apply for_each_not_err. intros k. by apply guard_not_err. }
  intros _ _. set (months := dedup _).
  assert (Hvalid : Forall (λ k, 1 <= k.2 <= 12) months).
  { apply Forall_forall. intros k. unfold months. rewrite elem_of_dedup, elem_of_app.
    destruct (get_shift_plan_day db (em_id e) day), (candidate_plan (em_id e) day a b s);
      simpl; rewrite ?list_elem_of_singleton, ?elem_of_nil;
      intros [Hk|Hk]; try done; rewrite Hk; apply month_of_bounds. }
  assert (Hsync : ∀ db1, plan_branch db e day a b s db1 →
    (let? db2 := sync_employment_metric_months db1 e months in Ok (commit db2)) ≠
      Err (ApiError 409 "shift_plan_overlap")).
  { intros db1 (_ & _ & _ & _ & [_ Kp _] & _).
    destruct (sync_months_ok db1 e months (Kp (inv_plans _ Hi)) Hvalid) as (x & -> & _). done. }
  pose proof (plan_branches db e day a b s i f Hi Ha Hb Hs) as Hbr.
  destruct (candidate_plan (em_id e) day a b s), (get_shift_plan_day db (em_id e) day);
    try (apply rbind_not_err; [by apply guard_not_err|intros _ _]); try by apply Hsync.
  done.
Qed.

Lemma clear_needs_no_confirmation db e d c i :
  set_shift_plan_status db e d None c i = set_shift_plan_status db e d None true i.
Proof. reflexivity. Qed.

Lemma plan_pattern_normal st n :
  status_pattern PLAN_STATUSES st = true → normalize_day_status st = Some n →
  n = None ∨ n = Some DAY_STATUS_HOLIDAY ∨ n = Some DAY_STATUS_OFF.
Proof.
  unfold status_pattern, PLAN_STATUSES. rewrite mem_true. csimpl.
  rewrite !elem_of_cons, elem_of_nil. intros [->|[->|[->|[->|[]]]]]; vm_compute; naive_solver.
Qed.

Lemma portal_upsert_day_status_ok db auth now body db'
    (Hi : inv db) (H : portal_upsert_day_status db auth now body = Ok db') :
  ∃ e d status, e ∈ employments db ∧ em_id e = st_employment_id body ∧
    em_user_id e = pu_id (auth_user auth) ∧ parse_yyyy_mm_dd (st_date body) = Some d ∧
    normalize_day_status (st_status body) = Some status ∧
    outside_period e d = false ∧ day_locked db LOCK_SHIFT_PLAN (em_id e) d = false ∧
    (status ≠ None → attendance_exists (conflicts_of db (em_id e) d) = false) ∧
    committed db db' ∧ days_frame (em_id e) [d] db db' ∧
    plan_status db' (em_id e, d) = status ∧ (all_fresh db → all_fresh db').
Proof.
  unfold portal_upsert_day_status in H. ok_inv H.
  apply accessible_employment_ok in Hstep as (He0 & Hid & Hown).
  apply lock_active_for_edit_ok in Hstep0 as [He Hid'].
  apply (employment_by_id db) in Hid' as ->; [|done..].
  apply or_raise_ok in Hstep1, Hstep4. apply guard_ok in Hstep2, Hstep3. apply negb_false_iff in Hguard.
  apply collect_ok in Hstep5. subst v5.
  rename v into e, v1 into d, v4 into status. destruct v6 as [db1 conflicts].
  cbn beta iota in H. ok_inv H. injection H as <-.
  destruct (plan_pattern_normal _ _ Hguard Hstep4) as [->|Hst].
  - rewrite clear_needs_no_confirmation in Hstep6.
    destruct (set_shift_plan_status_ok db (em_id e) d None (Some (auth_instance_id auth)) None db1 conflicts
      (inv_wf _ Hi) eq_refl ltac:(left) Hstep6) as (Hwf & Hfr & Hev & Hat & Hps & Hk & _).
    destruct (plan_commit_core db e d None db1 (dedup [ym_of d]) v) as (Hc & Hdf & Hpl & Hf);
      try done; [by apply elem_of_dedup; left| |].
    { apply Forall_forall. intros k Hk'. rewrite elem_of_dedup, list_elem_of_singleton in Hk'.
      rewrite Hk'. apply month_of_bounds. }
    exists e, d, None. split_and!; try done.
    unfold plan_status, plan_rows in *. by rewrite Hpl.
  - assert (Hns : is_some status = true) by by destruct Hst as [->| ->].
    rewrite Hns in Hguard0. cbn [andb] in Hguard0.
    assert (Hr : replace_day_status db (em_id e) d status (st_confirm_delete_conflicts body)
      (Some (auth_instance_id auth)) = Ok (db1, conflicts)).
    { destruct status; [|done]. by apply rbind_ok in Hstep6 as (? & _ & ?). }
    apply replace_day_status_ok with (n := status) in Hr as [-> Hcase];
      [|apply Hi|by eapply normalize_idem].
    rewrite Hns in Hguard1. cbn [andb] in Hguard1.
    assert (R : replaced db db1 (em_id e) d status).
    { unfold needs_confirmation, has_conflicts in Hcase. rewrite Hguard0 in Hcase. cbn [orb] in Hcase.
      rewrite <- andb_assoc, Hguard1, andb_false_r in Hcase. done. }
    set (months := dedup _) in *.
    assert (Hmonths : Forall (λ k, 1 <= k.2 <= 12) months).
    { apply Forall_forall. intros k Hk. unfold months in Hk. rewrite elem_of_dedup in Hk.
      apply elem_of_cons in Hk as [->|Hk]; [apply month_of_bounds|].
      destruct (is_some status && _) in Hk; [|by apply elem_of_nil in Hk].
      unfold conflicting_shift_plan_months in Hk. rewrite elem_of_dedup in Hk.
      apply elem_of_mjoin_fmap in Hk as (p & _ & Hk). apply list_elem_of_singleton in Hk as ->.
      apply month_of_bounds. }
    destruct (replace_commit_ok e d db db1 status months v Hi He R)
      as (Hc & Hdf & Hds & _ & Hf); try done.
    { apply elem_of_dedup. left. }
    { intros _. split; [done|]. by destruct Hst as [->| ->]. }
    { unfold day_locked. congruence. }
    pose proof (sync_rows db1 e months v) as Hrows.
    destruct Hrows as [Hpl _]; [apply (mu_plans _ _ _ _ (replaced_mutated _ _ _ _ _ Hi R))|done|done|].
    exists e, d, status. split_and!; try done.
    pose proof (replaced_status _ _ _ _ _ R) as Hs1. rewrite get_day_status_eq in Hs1.
    assert (Hip : is_plan_status status = true) by by destruct Hst as [->| ->].
    unfold attendance_status in Hs1. rewrite (replaced_attendance _ _ _ _ _ R Hip) in Hs1.
    simpl in Hs1. rewrite <- Hs1. unfold plan_status, plan_rows. by rewrite Hpl.
Qed.

(** ** The properties of the endpoints *)

(** a successful [PUT /attendance/day-status] of the portal gives the
    requested day of the user's own employment exactly the requested status
    and no attendance events under a status; it needs a confirmation when
    data would be deleted, touches no other day, writes nothing into a
    locked month of the table it changes and keeps the metrics fresh. *)
Theorem upsert_attendance_status_safe db auth now body db'
    (Hi : inv db) (H : upsert_attendance_status db auth now body = Ok db') :
  ∃ e d, e ∈ employments db ∧ em_id e = st_employment_id body ∧
    em_user_id e = pu_id (auth_user auth) ∧ date_fromisoformat (st_date body) = Some d ∧
    outside_period e d = false ∧ status_set db db' e d (st_status body) ∧
    (st_confirm_delete_conflicts body = true ∨ st_status body = None ∨
     has_conflicts (conflicts_of db (em_id e) d) = false).
Proof. by eapply upsert_attendance_status_ok. Qed.

(** a successful [PUT /shift-plan] of the portal stores exactly the
    requested times or status (a status clears the times), only on a day of
    the user's own employment in an unlocked month, never a status over
    attendance data, and preserves the invariant, the other days and the
    freshness of the metrics. *)
Theorem portal_upsert_shift_plan_safe db auth now body db'
    (Hi : inv db) (H : portal_upsert_shift_plan db auth now body = Ok db') :
  ∃ e d status, e ∈ employments db ∧ em_id e = pl_employment_id body ∧
    em_user_id e = pu_id (auth_user auth) ∧ parse_yyyy_mm_dd (pl_date body) = Some d ∧
    normalize_day_status (pl_status body) = Some status ∧
    outside_period e d = false ∧ day_locked db LOCK_SHIFT_PLAN (em_id e) d = false ∧
    plan_saved db db' e d body status.
Proof. by eapply portal_upsert_shift_plan_ok. Qed.

(** [PUT /shift-plan/day-status] of the portal sets leave or a day off
    only where no attendance exists and the plan's month is unlocked, and
    clears the plan's status without touching attendance; invariant, other
    days and metrics are preserved. *)
Theorem portal_upsert_day_status_safe db auth now body db'
    (Hi : inv db) (H : portal_upsert_day_status db auth now body = Ok db') :
  ∃ e d status, e ∈ employments db ∧ em_id e = st_employment_id body ∧
    em_user_id e = pu_id (auth_user auth) ∧ parse_yyyy_mm_dd (st_date body) = Some d ∧
    normalize_day_status (st_status body) = Some status ∧
    outside_period e d = false ∧ day_locked db LOCK_SHIFT_PLAN (em_id e) d = false ∧
    (status ≠ None → attendance_exists (conflicts_of db (em_id e) d) = false) ∧
    committed db db' ∧ days_frame (em_id e) [d] db db' ∧
    plan_status db' (em_id e, d) = status ∧ (all_fresh db → all_fresh db').
Proof. by eapply portal_upsert_day_status_ok. Qed.
End PlanSafety.
