(* ===== verification/System.v ===== *)
(** * The system: any sequence of requests

    [serve] runs one request or job on the database: a handler that raises
    leaves the database as it was.  The theorems hold for every sequence of
    requests, from any database that satisfies the invariant. *)

From S2P Require Import Prelude Calendar TimeParse PragueTime Models TimeIntervals Breaks.
From S2P Require Import TimeMetrics Locks EmploymentAccess DayStatus AttendanceEvents.
From S2P Require Import MonthSummary AttendanceApi SystemInvariant AdminAttendanceApi LocksApi.
From S2P Require Import Period Groups AdminEmployments EmploymentRows EmploymentSafety Reminders AttendanceSafety ShiftPlanApi PlanSafety.
#[local] Open Scope Z_scope.

(** ** Requests *)

Inductive system_request :=
  | PortalCreateEvent (auth : PortalUserAuth) (now : Z) (body : AttendanceEventIn)
  | PortalMoveEvent (auth : PortalUserAuth) (now event_id : Z) (body : AttendanceEventIn)
  | PortalDeleteEvent (auth : PortalUserAuth) (now event_id : Z) (paired : option Z)
  | PortalSetStatus (auth : PortalUserAuth) (now : Z) (body : AttendanceStatusUpsertIn)
  | PortalSetPlan (auth : PortalUserAuth) (now : Z) (body : ShiftPlanUpsertIn)
  | PortalSetPlanStatus (auth : PortalUserAuth) (now : Z) (body : AttendanceStatusUpsertIn)
  | AdminCreateEvent (now : Z) (body : AttendanceEventIn)
  | AdminMoveEvent (now event_id : Z) (body : AttendanceEventIn)
  | AdminDeleteEvent (now event_id : Z) (paired : option Z)
  | AdminAddBreaks (now : Z) (body : AddBreaksIn)
  | AdminSetStatus (now : Z) (body : AttendanceStatusUpsertIn)
  | AdminSetPlan (now : Z) (body : ShiftPlanUpsertIn)
  | AdminSelect (year month : Z) (employment_ids : list Z)
  | AdminSetLocks (admin : option string) (body : AdminLockSetIn)
  | AdminCreateGroup (name : string) (employment_ids : list Z)
  | AdminRenameGroup (group_id : Z) (name : string)
  | AdminReplaceGroup (group_id : Z) (employment_ids : list Z)
  | AdminShrinkGroup (group_id : Z) (employment_ids : list Z)
  | AdminDeleteGroup (group_id : Z)
  | AdminCreateEmployment (now user_id : Z) (body : EmploymentCreateIn)
  | AdminUpdateEmployment (now employment_id : Z) (body : EmploymentUpdateIn)
  | AdminDeleteEmployment (employment_id : Z) (confirm_delete_related : bool)
  | JobAutoLock (now : py_datetime) (today : date)
  | JobReminders (sender : nat → string → string → result unit) (now : py_datetime).

Section System.
Context `{zone : PragueZone}.

(** The database after a handler, or the one before when it raised. *)
Definition keep (db : DB) (r : result DB) : DB := match r with Ok db' => db' | Err _ => db end.
Definition keep_fst {A} (db : DB) (r : result (DB * A)) : DB :=
  match r with Ok (db', _) => db' | Err _ => db end.

Definition serve (db : DB) (r : system_request) : DB :=
  match r with
  | PortalCreateEvent auth now body => keep_fst db (create_attendance_event db auth now body)
  | PortalMoveEvent auth now i body => keep_fst db (update_attendance_event db auth now i body)
  | PortalDeleteEvent auth now i paired => keep db (delete_attendance_event db auth now i paired)
  | PortalSetStatus auth now body => keep db (upsert_attendance_status db auth now body)
  | PortalSetPlan auth now body => keep db (portal_upsert_shift_plan db auth now body)
  | PortalSetPlanStatus auth now body => keep db (portal_upsert_day_status db auth now body)
  | AdminCreateEvent now body => keep_fst db (admin_create_event db now body)
  | AdminMoveEvent now i body => keep_fst db (admin_update_event db now i body)
  | AdminDeleteEvent now i paired => keep db (admin_delete_event db now i paired)
  | AdminAddBreaks now body => keep_fst db (add_missing_breaks db now body)
  | AdminSetStatus now body => keep db (admin_upsert_day_status db now body)
  | AdminSetPlan now body => keep db (admin_upsert_shift_plan db now body)
  | AdminSelect y m ids => keep db (admin_set_shift_plan_selection db y m ids)
  | AdminSetLocks admin body => keep_fst db (admin_set_locks db admin body)
  | AdminCreateGroup name ids => keep_fst db (admin_create_employment_group db name ids)
  | AdminRenameGroup i name => keep db (admin_update_employment_group db i name)
  | AdminReplaceGroup i ids => keep db (admin_replace_employment_group_members db i ids)
  | AdminShrinkGroup i ids => keep_fst db (admin_remove_employment_group_members db i ids)
  | AdminDeleteGroup i => keep db (admin_delete_employment_group db i)
  | AdminCreateEmployment now u body => keep_fst db (create_employment db now u body)
  | AdminUpdateEmployment now i body => keep_fst db (update_employment db now i body)
  | AdminDeleteEmployment i confirm => keep_fst db (delete_employment db i confirm)
  | JobAutoLock now today => (auto_lock_current_shift_plan_month db now today).1
  | JobReminders sender now => (process_attendance_reminders sender db now).1
  end.

Definition serve_all (db : DB) (l : list system_request) : DB := fold_left serve l db.

(** A request that unlocks a month, or the confirmed deletion of an
    employment's data: the only ways a lock goes away. *)
Definition unlocks (r : system_request) (lt : LockType) (e y m : Z) : Prop :=
  match r with
  | AdminSetLocks _ body =>
      li_lock_type body = lt ∧ li_locked body = false ∧ e ∈ li_employment_ids body ∧
      ((y, m) ∈ li_months body ∨ (li_year body = Some y ∧ li_month body = Some m))
  | AdminUpdateEmployment _ i body => i = e ∧ ui_confirm_delete_out_of_range body = true
  | AdminDeleteEmployment i confirm => i = e ∧ confirm = true
  | _ => False
  end.

(** Every time a request writes exists on the clock. *)
Definition clock_ok (db : DB) (r : system_request) : Prop :=
  match r with
  | PortalCreateEvent _ _ body | AdminCreateEvent _ body => Forall real (request_times body)
  | PortalMoveEvent _ _ _ body | AdminMoveEvent _ _ body => real (prague_now (in_occurred_at body))
  | AdminAddBreaks _ body =>
      ∀ e g w, e ∈ employments db → em_id e = br_employment_id body →
        g ∈ break_groups db e (br_year body) (br_month body) → w ∈ g → real (at_wall w)
  | _ => True
  end.

Fixpoint clocks_ok (db : DB) (l : list system_request) : Prop :=
  match l with [] => True | r :: rest => clock_ok db r ∧ clocks_ok (serve db r) rest end.
End System.

(** ** The specification of a lock

    The facts a lock of the given type protects. *)
Section Facts.
Context `{zone : PragueZone}.

Definition same_facts (lock_type : LockType) (e : Z) (d : date) (db db' : DB) : Prop :=
  match lock_type with
  | LOCK_ATTENDANCE =>
      attendance_status db' (e, d) = attendance_status db (e, d) ∧
      ∀ x, ev_employment_id x = e → ev_day x = d → x ∈ events db' ↔ x ∈ events db
  | LOCK_SHIFT_PLAN => plan_rows db' (e, d) = plan_rows db (e, d)
  end.

#[global] Instance same_facts_preorder lt e d : PreOrder (same_facts lt e d).
Proof.
  split; [intros a; by destruct lt|]. intros a b c. destruct lt; simpl; [|congruence].
  intros [Hs1 He1] [Hs2 He2]. split; [congruence|]. intros x Hx Hd. by rewrite He2, He1.
Qed.

Lemma lock_safe_facts db db' lt e d :
  lock_safe db db' → day_locked db lt e d = true → same_facts lt e d db db'.
Proof. intros [Ha Hp] Hl. destruct lt; simpl; auto. Qed.
End Facts.

(** ** One step *)

Section Step.
Context `{zone : PragueZone} `{!PragueZoneLaws zone} `{!PragueGap zone}.

(** What every reachable database satisfies. *)
Record system_inv (db : DB) : Prop := {
  si_inv : inv db;
  si_groups : groups_wf db;
  si_locks : ∀ lt, uq_lock_employment_month (lock_table lt db);
  si_reminders : uq_attendance_reminder_event db;
  si_period : period_inv db;
  si_ids : side_ids db;
  si_rows : Forall employment_ok (employments db);
}.

Record step_ok (db : DB) (r : system_request) (db' : DB) : Prop := {
  so_inv : system_inv db';
  so_safe : ∀ lt e d, ¬ unlocks r lt e (year_of d) (month_of d) →
    day_locked db lt e d = true → same_facts lt e d db db';
  so_locks : ∀ lt e y m, ¬ unlocks r lt e y m →
    is_month_locked db lt e y m = true → is_month_locked db' lt e y m = true;
  so_fresh : clock_ok db r → all_fresh db → all_fresh db';
  so_users : users db' = users db ∧ next_id db <= next_id db';
  so_sized : groups_sized db → groups_sized db';
}.

Lemma step_refl db r : system_inv db → step_ok db r db.
Proof. intros Hi. constructor; [done| |done|done|by split|done]. intros lt e d _ _. reflexivity. Qed.

(** *** Requests on the time data *)

Lemma groups_wf_keep db db' :
  groups db' = groups db → members db' = members db → employments db' = employments db →
  next_id db <= next_id db' → groups_wf db → groups_wf db'.
Proof.
  intros Hg Hm He Hn [K N D G E].
  constructor; unfold group_members in *; rewrite ?Hg, ?Hm, ?He; try done.
  by eapply keyed_mono.
Qed.

Lemma groups_sized_keep db db' :
  groups db' = groups db → members db' = members db → groups_sized db → groups_sized db'.
Proof. unfold groups_sized, group_members. by intros -> ->. Qed.

Lemma step_mutation db r db' :
  system_inv db → inv db' → lock_safe db db' → in_scope db db' →
  (clock_ok db r → all_fresh db → all_fresh db') → step_ok db r db'.
Proof.
  intros [Hi Hg Hl Hr Hper Hx Hrows] Hi' Hs Hscope Hf.
  pose proof (scope_period _ _ Hscope Hper) as Hper'.
  destruct Hscope as (e0 & D & _ & F & _). pose proof (df_next _ _ _ _ F) as Hn.
  destruct (df_tables _ _ _ _ F) as (Hus & He & Hgr & Hm & _ & Hmi & Ha & Hp & _ & Hrem). simpl in *.
  assert (Hlock : ∀ lt, lock_table lt db' = lock_table lt db) by by intros [].
  constructor; [| | |done|by split|by apply groups_sized_keep].
  - constructor; [done|by eapply groups_wf_keep| | |done| |].
    + intros lt. by rewrite Hlock.
    + unfold uq_attendance_reminder_event. by rewrite Hrem.
    + by apply (side_ids_same db).
    + by rewrite He.
  - intros lt e d _. by apply lock_safe_facts.
  - intros lt e y m _. unfold is_month_locked. by rewrite Hlock.
Qed.

Lemma step_attendance db r db' :
  system_inv db → attendance_step db db' →
  (clock_ok db r → all_fresh db → all_fresh db') → step_ok db r db'.
Proof. intros H [Hi Hs _ _ Hsc] Hf. by apply step_mutation. Qed.

Lemma step_committed db r db' e d :
  system_inv db → committed db db' → e ∈ employments db → outside_period e d = false →
  days_frame (em_id e) [d] db db' → (all_fresh db → all_fresh db') → step_ok db r db'.
Proof.
  intros H [Hi Hs _ _] He Ho F Hf. apply step_mutation; auto. by apply (scope_day e d).
Qed.

(** *** Requests on the other tables *)

Lemma same_time_safe db db' : same_time_tables db db' → lock_safe db db'.
Proof.
  intros (Hp & Ha & He & _ & _). constructor.
  - intros e d _. unfold attendance_status, attendance_rows. by rewrite Ha, He.
  - intros e d _. unfold plan_rows. by rewrite Hp.
Qed.

Lemma step_tables db r db' :
  system_inv db → same_time_tables db db' → users db' = users db ∧ next_id db <= next_id db' →
  system_inv db' → (∀ lt e y m, ¬ unlocks r lt e y m →
     is_month_locked db lt e y m = true → is_month_locked db' lt e y m = true) →
  (groups_sized db → groups_sized db') → step_ok db r db'.
Proof.
  intros H Ht Hus H' Hl Hsize. constructor; [done| |done| |done|done].
  { intros lt e d _. by apply lock_safe_facts, same_time_safe. }
  intros _. by apply fresh_same_time.
Qed.

Lemma step_group db r db' :
  system_inv db → group_step db db' → step_ok db r db'.
Proof.
  intros H Hs. destruct H as [Hi Hg Hl Hr Hper Hx Hrows].
  pose proof (λ W, group_step_sized _ _ W Hs) as Hsize.
  destruct (group_step_ok _ _ Hi Hg Hs) as (Hg' & db1 & -> & T & N & (Ha & Hp & Hrem) & (Hus & Hmi & _)).
  pose proof (inv_same_time _ _ T N Hi) as Hi'. rewrite (commit_stored _ Hi') in *.
  assert (Hlock : ∀ lt, lock_table lt db1 = lock_table lt db) by by intros [].
  apply step_tables; [done|done|by split| | |done].
  - constructor; [done|done| | | | |].
    + intros lt. by rewrite Hlock.
    + unfold uq_attendance_reminder_event. by rewrite Hrem.
    + by apply (period_same_time db).
    + by apply (side_ids_same db).
    + destruct T as (_ & _ & _ & _ & He). by rewrite He.
  - intros lt e y m _. unfold is_month_locked. by rewrite Hlock.
Qed.

Lemma step_locks db r db' :
  system_inv db → inv db' → lock_write db db' →
  (∀ lt, uq_lock_employment_month (lock_table lt db')) →
  (∀ lt e y m, ¬ unlocks r lt e y m →
     is_month_locked db lt e y m = true → is_month_locked db' lt e y m = true) →
  step_ok db r db'.
Proof.
  intros H Hi' W Hu Hl. apply step_tables; [done|by apply lock_write_same_time|by split; apply W| |done|].
  2:{ destruct W. destruct_and!. by apply groups_sized_keep. }
  pose proof (lock_write_same_time _ _ W) as Ht.
  destruct H as [Hi Hg _ Hr Hper [Hx Hsel] Hrows], W as [T N I]. destruct_and!.
  constructor; [done|by eapply groups_wf_keep|done| | | |].
  - unfold uq_attendance_reminder_event in *. congruence.
  - apply (period_same_time db); [done|lia|done].
  - constructor; [intros lt; by apply I|]. assert (month_instances db' = month_instances db) as -> by done. by eapply keyed_mono.
  - congruence.
Qed.

(** *** The requests, one by one *)

(** A handler that raised changed nothing. *)
Lemma step_keep db r (m : result DB) :
  system_inv db → (∀ db', m = Ok db' → step_ok db r db') → step_ok db r (keep db m).
Proof. intros H Hm. destruct m; [by apply Hm|by apply step_refl]. Qed.

Lemma step_keep_fst {A} db r (m : result (DB * A)) :
  system_inv db → (∀ db' a, m = Ok (db', a) → step_ok db r db') → step_ok db r (keep_fst db m).
Proof. intros H Hm. destruct m as [[db' a]|]; [by eapply Hm|by apply step_refl]. Qed.

#[local] Ltac handler := (apply step_keep || apply step_keep_fst); [assumption|].
#[local] Ltac time_step :=
  first [eapply step_attendance; [done|eassumption|]
        | eapply step_committed; [done|eassumption|eassumption|eassumption|eassumption|]];
  simpl; auto.

(** The event and break requests of the portal and of the administration. *)
Definition event_request (r : system_request) : Prop :=
  match r with
  | PortalCreateEvent _ _ _ | PortalMoveEvent _ _ _ _ | PortalDeleteEvent _ _ _ _
  | AdminCreateEvent _ _ | AdminMoveEvent _ _ _ | AdminDeleteEvent _ _ _ | AdminAddBreaks _ _ => True
  | _ => False
  end.

Lemma event_request_ok db r : system_inv db → event_request r → step_ok db r (serve db r).
Proof.
  intros H Hr. pose proof (si_inv _ H) as Hi.
  destruct r; try done; clear Hr; handler.
  - intros db' x (e & _ & _ & _ & _ & _ & (Hs & _) & Hf)%create_attendance_event_ok; [|done]. time_step.
  - intros db' x (e & old & _ & _ & _ & _ & _ & _ & _ & (Hs & _) & Hf)%update_attendance_event_ok;
      [|done]. time_step.
  - intros db' (e & x & _ & _ & _ & _ & _ & Hs & _ & _ & Hf)%delete_attendance_event_ok; [|done].
    time_step.
  - intros db' x (e & _ & _ & (Hs & _) & Hf)%admin_create_event_safe; [|done]. time_step.
  - intros db' x (e & old & _ & _ & _ & _ & _ & (Hs & _) & Hf)%admin_update_event_safe; [|done].
    time_step.
  - intros db' (e & x & _ & _ & _ & _ & Hs & _ & _ & Hf)%admin_delete_event_safe; [|done]. time_step.
  - intros db' out (_ & Hs & e & He & Hid & Hf)%add_missing_breaks_ok; [|done]. time_step.
    intros Hc Hfr. apply Hf; [done|]. intros g w. by apply Hc.
Qed.

(** The day-status and shift-plan requests. *)
Definition plan_request (r : system_request) : Prop :=
  match r with
  | PortalSetStatus _ _ _ | PortalSetPlan _ _ _ | PortalSetPlanStatus _ _ _
  | AdminSetStatus _ _ | AdminSetPlan _ _ => True
  | _ => False
  end.

Lemma plan_request_ok db r : system_inv db → plan_request r → step_ok db r (serve db r).
Proof.
  intros H Hr. pose proof (si_inv _ H) as Hi.
  destruct r; try done; clear Hr; handler; intros db' Hx.
  - apply upsert_attendance_status_ok in Hx as (e & d & He & _ & _ & _ & Ho & (Hc & F & _ & _ & Hf) & _);
      [|done]. time_step.
  - apply portal_upsert_shift_plan_ok in Hx
      as (e & d & s & He & _ & _ & _ & _ & Ho & _ & (Hc & F & _ & _ & Hf)); [|done]. time_step.
  - apply portal_upsert_day_status_ok in Hx
      as (e & d & s & He & _ & _ & _ & _ & Ho & _ & _ & Hc & F & _ & Hf); [|done]. time_step.
  - apply admin_upsert_day_status_safe in Hx
      as (e & d & s & He & _ & _ & _ & Ho & (Hc & F & _ & _ & Hf)); [|done]. time_step.
  - apply admin_upsert_shift_plan_safe in Hx
      as (e & d & He & _ & _ & _ & Ho & _ & (Hc & F & _ & _ & Hf)); [|done]. time_step.
Qed.

(** The group requests. *)
Definition group_request (r : system_request) : Prop :=
  match r with
  | AdminCreateGroup _ _ | AdminRenameGroup _ _ | AdminReplaceGroup _ _
  | AdminShrinkGroup _ _ | AdminDeleteGroup _ => True
  | _ => False
  end.

Lemma group_request_ok db r : system_inv db → group_request r → step_ok db r (serve db r).
Proof.
  intros H Hr. destruct r; try done; clear Hr; handler; intros; apply step_group; try done.
  - by eapply step_create.
  - by eapply step_rename.
  - by eapply step_replace.
  - by eapply step_remove.
  - by eapply step_delete.
Qed.

(** The other requests. *)
Lemma add_month_instances_eq y m ids db :
  ∃ x n, 0 <= n ∧
    fold_left (add_month_instance y m) ids db = set_next_id (next_id db + n) (set_month_instances x db) ∧
    (keyed mi_id mi_id (next_id db) (month_instances db) → keyed mi_id mi_id (next_id db + n) x).
Proof.
  revert db. induction ids as [|i ids IH]; intros db; simpl.
  - exists (month_instances db), 0. rewrite Z.add_0_r. by destruct db.
  - destruct (IH (add_month_instance y m db i)) as (x & n & Hn & -> & Hk).
    exists x, (1 + n). split_and!; [lia| |].
    + unfold add_month_instance, bump_id. simpl. by rewrite Z.add_assoc.
    + intros Hdb. rewrite Z.add_assoc. apply Hk. apply keyed_add; [done| |done].
      intros (k & Hid & Hin)%list_elem_of_fmap. simpl in Hid.
      pose proof (keyed_fresh _ _ _ _ Hdb) as Hf. rewrite Forall_forall in Hf.
      specialize (Hf k Hin). lia.
Qed.

Lemma select_ok db y m ids :
  system_inv db → step_ok db (AdminSelect y m ids) (serve db (AdminSelect y m ids)).
Proof.
  intros H. handler. intros db' Hx. unfold admin_set_shift_plan_selection in Hx.
  ok_inv Hx. destruct (month_range y m). ok_inv Hx. injection Hx as <-.
  destruct (add_month_instances_eq y m v (set_month_instances (delete_where
    (λ r, (mi_year r =? y) && (mi_month r =? m)) (month_instances db)) db)) as (x & n & Hn & -> & Hk).
  set (db1 := set_next_id _ _).
  assert (T : same_time_tables db db1) by by split_and!.
  destruct H as [Hi Hg Hl Hr Hper [Hx Hsel] Hrows].
  assert (Hi1 : inv db1) by (apply (inv_same_time _ _ T); [simpl; lia|done]).
  rewrite (commit_stored _ Hi1). apply step_tables; [done|done|by split; simpl; [|lia]| | |by apply groups_sized_keep].
  2:{ intros lt e' y' m' _ Hlocked. by destruct lt. }
  constructor; [done| | |done| | |done].
  - eapply groups_wf_keep; [..|exact Hg]; simpl; try done; lia.
  - intros lt. specialize (Hl lt). by destruct lt.
  - apply (period_same_time db); [done|simpl; lia|done].
  - constructor; [|by apply Hk, keyed_delete].
    intros lt. apply (keyed_mono _ _ (next_id db)); [simpl; lia|]. specialize (Hx lt). by destruct lt.
Qed.

Lemma set_locks_ok db admin body :
  system_inv db → step_ok db (AdminSetLocks admin body) (serve db (AdminSetLocks admin body)).
Proof.
  intros H. pose proof (si_inv _ H) as Hi. handler. intros db' out Hx.
  apply admin_set_locks_ok in Hx as (Hi' & _ & W & _ & Hout & Hl & Hu); [|done].
  apply step_locks; [done|done|done| |].
  - intros lt. apply Hu, (si_locks _ H).
  - intros lt e y m Hno Hlocked. destruct (Hl lt e y m) as [Hyes Hother].
    destruct (is_month_locked db' lt e y m) eqn:Hnew; [done|]. exfalso.
    enough (false = true) by done. rewrite Hlocked in Hother. apply Hother. intros Hq.
    specialize (Hyes Hq). destruct Hq as (-> & He & Hym%Hout & _). by apply Hno.
Qed.

Lemma auto_lock_step db now today :
  system_inv db → step_ok db (JobAutoLock now today) (serve db (JobAutoLock now today)).
Proof.
  intros H. pose proof (si_inv _ H) as Hi. pose proof (auto_lock_frame db now today Hi) as [T N I].
  pose proof (auto_lock_ok db now today Hi) as Hok. simpl in *.
  destruct (ym_of (date_of (prague_now now))) as [year month].
  destruct (auto_lock_current_shift_plan_month db now today) as [db' r]. simpl in *.
  destruct Hok as [Hok _]. destruct (al_already_processed r) eqn:Hr.
  - rewrite Hok. by apply step_refl.
  - destruct Hok as (Hi' & _ & Hl & Hu). destruct_and!.
    apply step_tables; [done|by split_and!|by split_and!| | |by apply groups_sized_keep].
    + constructor; [done|eapply groups_wf_keep; [..|apply (si_groups _ H)]; done| | | | |].
      * intros lt. apply Hu, (si_locks _ H).
      * pose proof (si_reminders _ H). unfold uq_attendance_reminder_event in *. congruence.
      * apply (period_same_time db); [by split_and!|lia|apply H].
      * destruct (si_ids _ H) as [Hx Hsel]. constructor.
        -- intros lt. specialize (I lt (Hx lt)). by destruct lt.
        -- assert (month_instances db' = month_instances db) as -> by done. by eapply keyed_mono.
      * assert (employments db' = employments db) as -> by done. apply H.
    + intros lt e y m _ Hlocked. apply Hl. by left.
Qed.

Lemma reminders_step db sender now :
  system_inv db → step_ok db (JobReminders sender now) (serve db (JobReminders sender now)).
Proof.
  intros H. pose proof H as [Hi Hg Hl Hr Hper Hx Hrows]. simpl.
  destruct (reminders_frame sender db now Hi Hr) as [Hu (new & Hdb)]. rewrite Hdb in *.
  assert (T : same_time_tables db (with_reminders db new)) by by split_and!.
  apply step_tables; [done|done|by split; simpl; [|lia]| | |by apply groups_sized_keep].
  - constructor; [|eapply groups_wf_keep; [..|exact Hg]; simpl; try done; lia| |done| | |done].
    + apply (inv_same_time _ _ T); [simpl; lia|done].
    + intros lt; specialize (Hl lt); by destruct lt.
    + apply (period_same_time db); [done|simpl; lia|done].
    + apply (side_ids_same db); [by intros []|done|simpl; lia|done].
  - intros [] e y m _ Hlocked; exact Hlocked.
Qed.

(** *** The administration of employments *)

Lemma groups_wf_ids db db' :
  groups db' = groups db → members db' = members db →
  (∀ i, i ∈ em_id <$> employments db → i ∈ em_id <$> employments db') →
  next_id db <= next_id db' → groups_wf db → groups_wf db'.
Proof.
  intros Hg Hm He Hn [K N D G E].
  constructor; unfold group_members in *; rewrite ?Hg, ?Hm; try done.
  - by eapply keyed_mono.
  - intros m Hin. by apply He, E.
Qed.

Lemma create_step db now u body :
  system_inv db →
  step_ok db (AdminCreateEmployment now u body) (serve db (AdminCreateEmployment now u body)).
Proof.
  intros H. pose proof H as [Hi Hg Hl Hr Hp [Hx Hsel] Hrows]. handler. intros db' out Hc.
  apply create_employment_ok in Hc
    as (row & -> & Hid & _ & Hrow & _ & _ & _ & _ & Hi' & Hp' & Hf' & _); [|done|done].
  assert (Hlock : ∀ lt, lock_table lt (added_employment row db) = lock_table lt db) by by intros [].
  constructor; [| | |done|by split; simpl; [|lia]|by apply groups_sized_keep].
  - constructor; [done| | |done|done| |].
    + apply (groups_wf_ids db); simpl; try done; try lia. intros i Hin.
      rewrite fmap_app. apply elem_of_app. by left.
    + intros lt. by rewrite Hlock.
    + apply (side_ids_same db); [done|done|simpl; lia|done].
    + simpl. apply Forall_app. by split; [|constructor].
  - intros lt e d _ _. by destruct lt.
  - intros lt e y m _. unfold is_month_locked. by rewrite Hlock.
Qed.

(** Rows the request does not delete keep the facts and the locks. *)
Lemma cleared_locked c db db' lt e y m :
  cleared c db db' → (∀ k, k ∈ lock_table lt db → lk_employment_id k = e → dd_lock c lt k = false) →
  is_month_locked db lt e y m = true → is_month_locked db' lt e y m = true.
Proof.
  intros C Hc. rewrite !is_month_locked_true, (cl_locks _ _ _ C).
  intros (k & Hk & <- & Hy & Hm). exists k. rewrite elem_of_delete_where. split_and!; auto.
Qed.

Lemma drops_facts f db db' lt e d : drops f db db' → f e d = false → same_facts lt e d db db'.
Proof.
  intros Hd Hf. destruct lt; simpl.
  - split.
    + unfold attendance_status. rewrite (drops_attendance_rows _ _ _ Hd (e, d)). simpl. by rewrite Hf.
    + intros x <- <-. rewrite (drops_event _ _ _ Hd). naive_solver.
  - rewrite (drops_plan_rows _ _ _ Hd (e, d)). simpl. by rewrite Hf.
Qed.

(** A deletion that removes nothing. *)
Lemma nothing_cleared c db :
  delete_doomed c db = db → ∀ lt k, k ∈ lock_table lt db → dd_lock c lt k = false.
Proof.
  intros H lt k Hk. rewrite <- H, (cl_locks _ _ _ (cleared_delete c db)) in Hk.
  by apply elem_of_delete_where in Hk as [_ ?].
Qed.

Lemma nothing_dropped c f db db' :
  delete_doomed c db = db → cleared c db db' → drops f db db' → drops (λ _ _, false) db db'.
Proof.
  intros H C [A E P N]. constructor; [..|done];
    rewrite ?(cl_attendance _ _ _ C), ?(cl_events _ _ _ C), ?(cl_plans _ _ _ C);
    symmetry; rewrite delete_where_none by done.
  - by rewrite <- H at 1.
  - by rewrite <- H at 1.
  - by rewrite <- H at 1.
Qed.

(** What a deletion of an employment's rows keeps, when it was not both
    confirmed and about that employment. *)
Lemma deletion_step c f i confirm db db' :
  cleared c db db' → drops f db db' →
  (∀ j d, j ≠ i → f j d = false) → (∀ lt k, lk_employment_id k ≠ i → dd_lock c lt k = false) →
  (confirm = false → delete_doomed c db = db) →
  (∀ lt e d, ¬ (i = e ∧ confirm = true) → same_facts lt e d db db') ∧
  (∀ lt e y m, ¬ (i = e ∧ confirm = true) →
     is_month_locked db lt e y m = true → is_month_locked db' lt e y m = true).
Proof.
  intros C D Hf Hc Hno. split.
  - intros lt e d Hn. destruct confirm.
    + apply (drops_facts f); [done|]. apply Hf. intros ->. by apply Hn.
    + apply (drops_facts (λ _ _, false)); [|done]. apply (nothing_dropped c f); auto.
  - intros lt e y m Hn. apply (cleared_locked c); [done|]. intros k Hk He. destruct confirm.
    + apply Hc. intros Hi. apply Hn. split; [congruence|done].
    + by apply (nothing_cleared c db (Hno eq_refl)).
Qed.

Lemma update_step db now i body :
  system_inv db →
  step_ok db (AdminUpdateEmployment now i body) (serve db (AdminUpdateEmployment now i body)).
Proof.
  intros H. pose proof H as [Hi Hg Hl Hr Hp [Hx Hsel] Hrows]. handler. intros db' out Hu.
  apply update_employment_ok in Hu
    as (e & row & Hid & R & _ & Hrow & Hi' & Hp' & Hf' & Hno & _); [|done..].
  pose proof (er_cleared _ _ _ _ R) as C. destruct (er_id _ _ _ _ R) as [Hrid _].
  destruct (er_groups _ _ _ _ R) as [Hgr Hme].
  destruct (deletion_step (outside_of row) (outside_fact row) i
    (ui_confirm_delete_out_of_range body) db db') as [Hfacts Hlocks]; try done.
  { by apply (replaced_drops db db' e). }
  { intros j d Hj. unfold outside_fact. rewrite Hrid, Hid. by rewrite (proj2 (Z.eqb_neq _ _) Hj). }
  { intros lt k Hk. simpl. rewrite Hrid, Hid. by rewrite (proj2 (Z.eqb_neq _ _) Hk). }
  constructor; [|exact (λ lt x d Hn _, Hfacts lt x d Hn)|exact Hlocks|done|by split; apply C|by apply groups_sized_keep].
  constructor; [done| | |..|done| |].
  - apply (groups_wf_ids db); [done|done| |apply C|done]. intros j. by rewrite (replaced_ids _ _ _ _ R).
  - intros lt. rewrite (cl_locks _ _ _ C). apply NoDup_fmap_where, Hl.
  - unfold uq_attendance_reminder_event. rewrite (cl_reminders _ _ _ C). by apply NoDup_fmap_where.
  - constructor.
    + intros lt. rewrite (cl_locks _ _ _ C). eapply keyed_mono; [apply C|]. by apply keyed_delete.
    + rewrite (cl_selections _ _ _ C). eapply keyed_mono; [apply C|]. by apply keyed_delete.
  - apply Forall_forall. intros x [->|[Hin _]]%(replaced_employment _ _ _ _ _ Hi R); [done|].
    rewrite Forall_forall in Hrows. by apply Hrows.
Qed.

Lemma delete_step db i confirm :
  system_inv db →
  step_ok db (AdminDeleteEmployment i confirm) (serve db (AdminDeleteEmployment i confirm)).
Proof.
  intros H. pose proof H as [Hi Hg Hl Hr Hp [Hx Hsel] Hrows]. handler. intros db' out Hu.
  apply delete_employment_ok in Hu as (e & Hid & D & Hi' & Hp' & Hf' & _ & Hno); [|done..].
  pose proof (ed_cleared _ _ _ D) as C.
  destruct (deletion_step (related_rows (em_id e)) (related_fact (em_id e)) i confirm db db')
    as [Hfacts Hlocks]; try done.
  { by apply deleted_drops. }
  { intros j d Hj. apply Z.eqb_neq. congruence. }
  { intros lt k Hk. apply Z.eqb_neq. congruence. }
  { by rewrite Hid. }
  constructor; [|exact (λ lt x d Hn _, Hfacts lt x d Hn)|exact Hlocks|done|by split; apply C|apply D].
  constructor; [done|apply D| |..|done| |].
  - intros lt. rewrite (cl_locks _ _ _ C). apply NoDup_fmap_where, Hl.
  - unfold uq_attendance_reminder_event. rewrite (cl_reminders _ _ _ C). by apply NoDup_fmap_where.
  - constructor.
    + intros lt. rewrite (cl_locks _ _ _ C). eapply keyed_mono; [apply C|]. by apply keyed_delete.
    + rewrite (cl_selections _ _ _ C). eapply keyed_mono; [apply C|]. by apply keyed_delete.
  - apply Forall_forall. intros x. rewrite (ed_employments _ _ _ D).
    intros [Hin _]%elem_of_delete_where. rewrite Forall_forall in Hrows. by apply Hrows.
Qed.

Lemma serve_ok db r : system_inv db → step_ok db r (serve db r).
Proof.
  intros H. destruct r; try by apply event_request_ok.
  all: try by apply plan_request_ok.
  all: try by apply group_request_ok.
  - by apply select_ok.
  - by apply set_locks_ok.
  - by apply create_step.
  - by apply update_step.
  - by apply delete_step.
  - by apply auto_lock_step.
  - by apply reminders_step.
Qed.

(** ** Sequences of requests *)

Lemma serve_all_inv db l : system_inv db → system_inv (serve_all db l).
Proof.
  revert db. induction l as [|r l IH]; intros db H; [done|]. simpl.
  apply IH. by apply (so_inv _ _ _ (serve_ok db r H)).
Qed.

Lemma serve_all_sized db l : system_inv db → groups_sized db → groups_sized (serve_all db l).
Proof.
  revert db. induction l as [|r l IH]; intros db H Hs; [done|]. simpl.
  pose proof (serve_ok db r H) as S. apply IH; [apply S|by apply (so_sized _ _ _ S)].
Qed.
End Step.

Section Theorems.
Context `{zone : PragueZone} `{!PragueZoneLaws zone} `{!PragueGap zone}.

(** the whole-database invariant.  Whatever requests and jobs are served,
    in any order, accepted or refused, the database stays well formed: row
    ids and natural keys are unique, no event lies on a day with a full-day
    status, stored plans and statuses are valid, each lock table has one row
    per employment and month, no reminder is recorded twice, and every group
    has a name of its own and, if that was so before, at least two members. *)
Theorem system_invariant db l (H : system_inv db) :
  system_inv (serve_all db l) ∧ (groups_sized db → groups_sized (serve_all db l)) ∧
  ∀ x, x ∈ events (serve_all db l) →
    no_status (serve_all db l) (ev_employment_id x) (ev_day x).
Proof.
  pose proof (serve_all_inv db l H) as H'. split; [done|]. split; [by apply serve_all_sized|].
  apply (inv_status _ (si_inv _ H')).
Qed.

(** a locked month is immutable.  While no request unlocks the month of an
    employment, no sequence of requests of users, administrators and jobs
    changes the facts the lock protects (the attendance status and the events
    of each of its days, or its plans), and the month stays locked. *)
Theorem locked_month_immutable db l lt e d
    (H : system_inv db) (Hl : day_locked db lt e d = true)
    (Hn : Forall (λ r, ¬ unlocks r lt e (year_of d) (month_of d)) l) :
  day_locked (serve_all db l) lt e d = true ∧ same_facts lt e d db (serve_all db l).
Proof.
  revert db H Hl. induction Hn as [|r l Hr Hn IH]; intros db H Hl; [done|]. simpl.
  pose proof (serve_ok db r H) as [Hi Hs Hk _ _ _].
  destruct (IH (serve db r)) as [Hl' Hf]; [done|by apply Hk|]. split; [done|].
  transitivity (serve db r); [by apply Hs|done].
Qed.

(** metrics are never stale.  If the metrics of every employment's months
    are those a recomputation from the facts gives, they still are after any
    sequence of requests that sends no wall clock skipped by the change to
    summer time. *)
Theorem metrics_always_fresh db l
    (H : system_inv db) (Hf : all_fresh db) (Hc : clocks_ok db l) :
  all_fresh (serve_all db l).
Proof.
  revert db H Hf Hc. induction l as [|r l IH]; intros db H Hf Hc; [done|]. simpl in *.
  destruct Hc as [Hr Hc], (serve_ok db r H) as [Hi _ _ Hfr _ _]. apply IH; auto.
Qed.
End Theorems.
