(* ===== verification/PortalSystem.v ===== *)
(** * The whole portal: accounts, sessions and time data

    [step] runs one request: of an administrator, of an employee, or of
    anybody, and the jobs.  The dependencies of api/deps.py decide who sends
    it.  Issuing a reset link is two steps, before and after its e-mail, so
    other requests may come in between. *)

From stdpp Require Import relations.
From S2P Require Import Prelude Calendar TimeParse PragueTime Models TimeIntervals TimeMetrics.
From S2P Require Import Locks DayStatus AttendanceEvents MonthSummary AttendanceApi SystemInvariant.
From S2P Require Import AdminAttendanceApi LocksApi Period Groups AdminEmployments EmploymentSafety.
From S2P Require Import Lockout Accounts Sessions Login LoginSafety AdminUsers PasswordReset Instances.
From S2P Require Import References AccountsSafety AccountsHandlers Reminders AttendanceSafety ShiftPlanApi PlanSafety System.
#[local] Open Scope Z_scope.

(** ** Requests *)

(** What an employee sends, once [require_portal_user_auth] let it pass. *)
Inductive user_work :=
  | UserCreateEvent (body : AttendanceEventIn)
  | UserMoveEvent (event_id : Z) (body : AttendanceEventIn)
  | UserDeleteEvent (event_id : Z) (paired : option Z)
  | UserSetStatus (body : AttendanceStatusUpsertIn)
  | UserSetPlan (body : ShiftPlanUpsertIn)
  | UserSetPlanStatus (body : AttendanceStatusUpsertIn).

Definition work_of (auth : PortalUserAuth) (now : Z) (w : user_work) : system_request :=
  match w with
  | UserCreateEvent body => PortalCreateEvent auth now body
  | UserMoveEvent i body => PortalMoveEvent auth now i body
  | UserDeleteEvent i paired => PortalDeleteEvent auth now i paired
  | UserSetStatus body => PortalSetStatus auth now body
  | UserSetPlan body => PortalSetPlan auth now body
  | UserSetPlanStatus body => PortalSetPlanStatus auth now body
  end.

(** Which requests on the time data the administration has, and which the
    scheduler. *)
Definition of_admin (r : system_request) : bool :=
  match r with
  | PortalCreateEvent _ _ _ | PortalMoveEvent _ _ _ _ | PortalDeleteEvent _ _ _ _
  | PortalSetStatus _ _ _ | PortalSetPlan _ _ _ | PortalSetPlanStatus _ _ _
  | JobAutoLock _ _ | JobReminders _ _ => false
  | _ => true
  end.
Definition of_job (r : system_request) : bool :=
  match r with JobAutoLock _ _ | JobReminders _ _ => true | _ => false end.

Inductive admin_work :=
  | ManageTime (r : system_request)
  | CreateUser (uuid : string) (body : PortalUserCreateIn)
  | BlockUser (user_id : Z) (blocked : bool)
  | UpdateUser (user_id : Z) (body : PortalUserUpdateIn)
  | SetPassword (user_id : Z) (password : string)
  | UnlockUser (user_id : Z)
  | DeleteUser (user_id : Z)
  | StartReset (user_id : Z) (raw_token : string)
  | ActivateInstance (instance_id : string) (display_name : option string).

Inductive portal_request :=
  | AdminRequest (rq : HttpRequest) (form : option string) (now : Z) (w : admin_work)
  | UserRequest (rq : HttpRequest) (now : Z) (w : user_work)
  | LoginRequest (now : Z) (payload : PortalLoginIn)
  | ResetRequest (now : Z) (payload : PortalResetIn)
  | ResetMail (now : Z) (row : PortalUserResetToken) (mail : delivery)
  | RegisterRequest (now : Z) (uuid : string) (body : RegisterInstanceIn)
  | StatusRequest (now : Z) (instance_id : string)
  | ClaimRequest (now : Z) (instance_id token : string)
  | Job (r : system_request).

Section Portal.
Context `{zone : PragueZone} `{crypto : Crypto} `{signing : Signing}.

Definition require_admin_request (rq : HttpRequest) (form : option string) (now : Z) : result unit :=
  let? _ := require_admin rq now in
  require_csrf (rq_claims rq) (rq_method rq) (rq_csrf_session rq) (rq_csrf_header rq) form.

Definition after (p : Portal) (r : result Portal) : Portal := match r with Ok p' => p' | Err _ => p end.
Definition after_fst {A} (p : Portal) (r : result (Portal * A)) : Portal :=
  match r with Ok (p', _) => p' | Err _ => p end.

Definition serve_portal (r : system_request) (p : Portal) : Portal := set_p_db (serve (p_db p) r) p.

Definition manage (p : Portal) (now : Z) (w : admin_work) : Portal :=
  match w with
  | ManageTime r => if of_admin r then serve_portal r p else p
  | CreateUser uuid body => after_fst p (create_user p now uuid body)
  | BlockUser i blocked => after_fst p (block_user p now i blocked)
  | UpdateUser i body => after_fst p (update_user p now i body)
  | SetPassword i password => after_fst p (set_user_password p now i password)
  | UnlockUser i => after p (unlock_user p i)
  | DeleteUser i => after p (delete_user p i)
  | StartReset i raw_token => after_fst p (start_reset p now i raw_token)
  | ActivateInstance i name => after_fst p (activate_instance p now i name)
  end.

Definition step (p : Portal) (r : portal_request) : Portal :=
  match r with
  | AdminRequest rq form now w =>
      match require_admin_request rq form now with Ok _ => manage p now w | Err _ => p end
  | UserRequest rq now w =>
      match require_portal_user_auth p rq now with
      | Ok auth => serve_portal (work_of auth now w) p
      | Err _ => p
      end
  | LoginRequest now payload => (portal_login p now payload).1
  | ResetRequest now payload => after p (portal_reset p now payload)
  | ResetMail now row mail => (finish_reset p now row mail).1
  | RegisterRequest now uuid body => after_fst p (register_instance p now uuid body)
  | StatusRequest now i => after_fst p (get_instance_status p now i)
  | ClaimRequest now i token => after_fst p (claim_instance_token p now i token)
  | Job r => if of_job r then serve_portal r p else p
  end.

Definition run (p : Portal) (l : list portal_request) : Portal := fold_left step l p.

(** Deleting a user whose employments are in a group leaves the group without
    a check of its size: every other request keeps the groups at two members or
    more. *)
Definition spares_groups (p : Portal) (r : portal_request) : Prop :=
  match r with
  | AdminRequest _ _ _ (DeleteUser i) =>
      ∀ m, m ∈ members (p_db p) → gone_with p i (gm_employment_id m) = false
  | _ => True
  end.

(** The requests that may take away a locked month or a locked fact. *)
Definition releases (p : Portal) (r : portal_request) (lt : LockType) (e y m : Z) : Prop :=
  match r with
  | AdminRequest _ _ _ (ManageTime r) => of_admin r = true ∧ unlocks r lt e y m
  | AdminRequest _ _ _ (DeleteUser i) => gone_with p i e = true
  | _ => False
  end.

(** The wall clocks a request writes exist. *)
Definition request_clock_ok (p : Portal) (r : portal_request) : Prop :=
  match r with
  | AdminRequest _ _ _ (ManageTime r) => clock_ok (p_db p) r
  | UserRequest rq now w => ∀ auth, clock_ok (p_db p) (work_of auth now w)
  | _ => True
  end.

(** A condition on every step of a run. *)
Fixpoint along (q : Portal → portal_request → Prop) (p : Portal) (l : list portal_request) : Prop :=
  match l with [] => True | r :: rest => q p r ∧ along q (step p r) rest end.
End Portal.

(** ** What a lock protects

    The plan of a day without the instance it was entered from, since that
    reference may be forgotten. *)
Section Facts.
Context `{zone : PragueZone}.

Definition plan_content (db : DB) (k : Z * date) : list (Z * option string * option string * option string) :=
  (λ p, (sp_id p, sp_arrival_time p, sp_departure_time p, sp_status p)) <$> plan_rows db k.

Definition kept_facts (lt : LockType) (e : Z) (d : date) (db db' : DB) : Prop :=
  match lt with
  | LOCK_ATTENDANCE => same_facts LOCK_ATTENDANCE e d db db'
  | LOCK_SHIFT_PLAN => plan_content db' (e, d) = plan_content db (e, d)
  end.

#[global] Instance kept_facts_preorder lt e d : PreOrder (kept_facts lt e d).
Proof.
  destruct lt; [apply same_facts_preorder|]. split; [done|]. intros a b c. simpl. congruence.
Qed.

Lemma same_facts_kept lt e d db db' : same_facts lt e d db db' → kept_facts lt e d db db'.
Proof. destruct lt; [done|]. simpl. unfold plan_content. by intros ->. Qed.
End Facts.

(** ** What one step keeps *)

Section Step.
Context `{zone : PragueZone} `{!PragueZoneLaws zone} `{!PragueGap zone}.
Context `{crypto : Crypto} `{signing : Signing}.

(** A change of the time data that loses at most what [lost] allows; [clock]
    is what the metrics rely on, and [spared] what the sizes of the groups do. *)
Record moves (lost : LockType → Z → Z → Z → Prop) (clock spared : Prop) (db db' : DB) : Prop := {
  mv_inv : system_inv db';
  mv_facts : ∀ lt e d, ¬ lost lt e (year_of d) (month_of d) →
    day_locked db lt e d = true → kept_facts lt e d db db';
  mv_locks : ∀ lt e y m, ¬ lost lt e y m →
    is_month_locked db lt e y m = true → is_month_locked db' lt e y m = true;
  mv_fresh : clock → all_fresh db → all_fresh db';
  mv_sized : spared → groups_sized db → groups_sized db';
}.

Lemma moves_refl lost clock spared db : system_inv db → moves lost clock spared db db.
Proof. intros H. constructor; [done| |done|done|done]. intros lt e d _ _. reflexivity. Qed.

Lemma moves_trans lost clock spared a b c :
  moves lost clock spared a b → moves lost clock spared b c → moves lost clock spared a c.
Proof.
  intros [I1 F1 L1 R1 S1] [I2 F2 L2 R2 S2]. constructor; [done|..|by auto].
  - intros lt e d Hn Hl. transitivity b; [by apply F1|]. apply F2; [done|]. by apply L1.
  - intros lt e y m Hn Hl. by apply L2, L1.
  - intros Hc Hf. by apply R2, R1.
Qed.

Lemma moves_weaken (lost lost' : LockType → Z → Z → Z → Prop) (clock clock' spared spared' : Prop) a b :
  (∀ lt e y m, lost lt e y m → lost' lt e y m) → (clock' → clock) → (spared' → spared) →
  moves lost clock spared a b → moves lost' clock' spared' a b.
Proof.
  intros Hl Hc Hs [I F L R S]. constructor; [done|..|by auto].
  - intros lt e d Hn. apply F. by intros H%Hl.
  - intros lt e y m Hn. apply L. by intros H%Hl.
  - intros H%Hc. by apply R.
Qed.

Lemma moves_step db r db' : step_ok db r db' → moves (unlocks r) (clock_ok db r) True db db'.
Proof.
  intros [I S L F _ Z]. constructor; [done| |done|done|done].
  intros lt e d Hn Hl. by apply same_facts_kept, S.
Qed.

Lemma moves_serve db r : system_inv db → moves (unlocks r) (clock_ok db r) True db (serve db r).
Proof. intros H. by apply moves_step, serve_ok. Qed.

(** Nothing on the time data depends on the rows of the users. *)
Lemma moves_users lost clock spared db db' :
  system_inv db → users_only db db' → moves lost clock spared db db'.
Proof.
  intros [Hi Hg Hl Hr Hp Hx Hrows] (l & n & -> & Hn). set (db' := set_next_id n (set_users l db)).
  assert (T : same_time_tables db db') by by split_and!.
  assert (Hlock : ∀ lt, lock_table lt db' = lock_table lt db) by by intros [].
  constructor.
  - constructor; [by apply (inv_same_time _ _ T)|by apply (groups_wf_keep db)| |done| | |done].
    + intros lt. by rewrite Hlock.
    + by apply (period_same_time db).
    + by apply (side_ids_same db).
  - intros lt e d _ _. destruct lt; [by split|done].
  - intros lt e y m _. unfold is_month_locked. by rewrite Hlock.
  - intros _. by apply fresh_same_time.
  - intros _. by apply groups_sized_keep.
Qed.

(** A forgotten instance. *)
Lemma moves_forget lost clock spared i db :
  system_inv db → moves lost clock spared db (forget_instance i db).
Proof.
  intros [Hi Hg Hl Hr Hp Hx Hrows]. constructor.
  - constructor; [by apply forget_inv|by apply (groups_wf_keep db)| | | | |done].
    + intros lt. apply forget_uq_locks, Hl.
    + unfold uq_attendance_reminder_event. simpl. rewrite <- list_fmap_compose.
      erewrite list_fmap_ext; [exact Hr|done].
    + by apply forget_period.
    + by apply forget_side_ids.
  - intros lt e d _ _. destruct lt; simpl.
    + split; [apply forget_attendance_status|done].
    + unfold plan_content. rewrite forget_plan_rows, <- list_fmap_compose. by apply list_fmap_ext.
  - intros lt e y m _. by rewrite forget_month_locked.
  - intros _. by apply forget_fresh.
  - intros _. by apply groups_sized_keep.
Qed.

(** Deleted employments: only what was recorded for them is lost. *)
Lemma deleted_rows gone db : rows_deleted gone db (delete_employment_rows gone db).
Proof. constructor; [done| |done]. constructor; try done. by intros []. Qed.

Definition in_no_group (gone : Z → bool) (db : DB) : Prop :=
  ∀ m, m ∈ members db → gone (gm_employment_id m) = false.

Lemma deleted_groups_wf gone db : groups_wf db → groups_wf (delete_employment_rows gone db).
Proof.
  intros [K N Di G E]. constructor; simpl; try done.
  - by apply NoDup_where.
  - intros m [Hin _]%elem_of_delete_where. by apply G.
  - intros m [Hin Hm]%elem_of_delete_where. pose proof (E m Hin) as (e & He & Hem)%list_elem_of_fmap.
    rewrite He in Hm |- *. apply list_elem_of_fmap_2. by apply elem_of_delete_where.
Qed.

Lemma deleted_groups_sized gone db :
  in_no_group gone db → groups_sized db → groups_sized (delete_employment_rows gone db).
Proof. intros Hm. apply groups_sized_keep; [done|]. apply delete_where_none, Hm. Qed.

Lemma moves_delete clock gone db :
  system_inv db →
  moves (λ _ e _ _, gone e = true) clock (in_no_group gone db) db (delete_employment_rows gone db).
Proof.
  intros [Hi Hg Hl Hr Hp [Hx Hsel] Hrows]. pose proof (deleted_rows gone db) as D.
  destruct (rows_deleted_inv _ _ _ Hi Hp D) as (Hi' & Hp' & Hf').
  pose proof (rows_deleted_drops _ _ _ D) as Hd. pose proof (rd_cleared _ _ _ D) as C.
  set (db' := delete_employment_rows gone db) in *.
  constructor; [| | |done|apply deleted_groups_sized].
  - constructor; [done|by apply deleted_groups_wf| | |done| |].
    + intros lt. rewrite (cl_locks _ _ _ C). apply NoDup_fmap_where, Hl.
    + unfold uq_attendance_reminder_event. rewrite (cl_reminders _ _ _ C). by apply NoDup_fmap_where.
    + constructor.
      * intros lt. rewrite (cl_locks _ _ _ C). eapply keyed_mono; [apply C|]. by apply keyed_delete.
      * rewrite (cl_selections _ _ _ C). eapply keyed_mono; [apply C|]. by apply keyed_delete.
    + apply Forall_forall. intros x. rewrite (rd_employments _ _ _ D).
      intros [Hin _]%elem_of_delete_where. rewrite Forall_forall in Hrows. by apply Hrows.
  - intros lt e d Hn _. apply same_facts_kept, (drops_facts (gone_fact gone)); [done|].
    unfold gone_fact. by apply not_true_is_false.
  - intros lt e y m Hn. apply (cleared_locked (rows_of gone)); [done|]. intros k Hk He. simpl.
    rewrite He. by apply not_true_is_false.
Qed.

Lemma users_only_set l db : users_only db (set_users l db).
Proof. exists l, (next_id db). split; [by destruct db|lia]. Qed.

Lemma moves_user_gone clock p p' i :
  system_inv (p_db p) → user_gone p p' i →
  moves (λ _ e _ _, gone_with p i e = true) clock (in_no_group (gone_with p i) (p_db p)) (p_db p) (p_db p').
Proof.
  intros H Hg. pose proof (moves_delete clock (gone_with p i) _ H) as M1.
  set (spared := in_no_group (gone_with p i) (p_db p)) in *.
  set (db1 := delete_employment_rows (gone_with p i) (p_db p)) in *.
  set (db2 := set_users (delete_where (λ u, pu_id u =? i) (users (p_db p))) db1).
  assert (M2 : moves (λ _ e _ _, gone_with p i e = true) clock spared (p_db p) db2).
  { eapply moves_trans; [exact M1|]. apply moves_users; [apply M1|apply users_only_set]. }
  unfold user_gone in Hg. fold db1 db2 in Hg.
  destruct Hg as [-> |[j ->]]; [done|]. eapply moves_trans; [exact M2|].
  pose proof (moves_forget (λ _ e _ _, gone_with p i e = true) clock spared j db2 (mv_inv _ _ _ _ _ M2)) as M3.
  eapply moves_trans; [exact M3|]. apply moves_users; [apply M3|apply users_only_set].
Qed.

(** ** One request *)

Record portal_inv (p : Portal) : Prop := {
  po_db : system_inv (p_db p);
  po_accounts : accounts_inv p;
}.

Record portal_step_ok (p : Portal) (r : portal_request) (p' : Portal) : Prop := {
  ps_inv : portal_inv p';
  ps_moves : moves (releases p r) (request_clock_ok p r) (spares_groups p r) (p_db p) (p_db p');
}.

Lemma portal_step_refl p r : portal_inv p → portal_step_ok p r p.
Proof. intros H. constructor; [done|]. by apply moves_refl, po_db. Qed.

Lemma portal_step_users p r p' :
  portal_inv p → accounts_inv p' → users_only (p_db p) (p_db p') → portal_step_ok p r p'.
Proof.
  intros H Ha Hu. pose proof (moves_users (releases p r) (request_clock_ok p r) (spares_groups p r) _ _ (po_db _ H) Hu) as M.
  constructor; [|done]. constructor; [apply M|done].
Qed.

Lemma portal_step_accounts p r p' :
  portal_inv p → accounts_inv p' → p_db p' = p_db p → portal_step_ok p r p'.
Proof. intros H Ha Hu. apply portal_step_users; [done|done|]. by rewrite Hu. Qed.

Lemma portal_step_serve p r x :
  portal_inv p → (∀ lt e y m, unlocks x lt e y m → releases p r lt e y m) →
  (request_clock_ok p r → clock_ok (p_db p) x) → portal_step_ok p r (serve_portal x p).
Proof.
  intros [Hd Ha] Hl Hc. pose proof (serve_ok (p_db p) x Hd) as S.
  pose proof (moves_weaken _ (releases p r) _ (request_clock_ok p r) True (spares_groups p r) _ _ Hl Hc
    (λ _, I) (moves_serve _ x Hd)) as M.
  constructor; [|done]. constructor; [apply M|].
  destruct (so_users _ _ _ S) as [Hu Hn]. by apply same_users_inv.
Qed.

Lemma portal_step_after p r (m : result Portal) :
  portal_inv p → (∀ p', m = Ok p' → portal_step_ok p r p') → portal_step_ok p r (after p m).
Proof. intros H Hm. destruct m; [by apply Hm|by apply portal_step_refl]. Qed.

Lemma portal_step_after_fst {A} p r (m : result (Portal * A)) :
  portal_inv p → (∀ p' a, m = Ok (p', a) → portal_step_ok p r p') → portal_step_ok p r (after_fst p m).
Proof. intros H Hm. destruct m as [[p' a]|]; [by eapply Hm|by apply portal_step_refl]. Qed.

(** What the administration does. *)
Lemma manage_ok p rq form now w :
  portal_inv p →
  portal_step_ok p (AdminRequest rq form now w) (manage p now w).
Proof.
  intros H. pose proof (po_accounts _ H) as Ha. destruct w; simpl;
    try (apply portal_step_after_fst || apply portal_step_after); try done.
  - destruct (of_admin r) eqn:E; [|by apply portal_step_refl]. by apply portal_step_serve.
  - intros p' out (Hi & Hu)%create_user_inv; [|done]. by apply portal_step_users.
  - intros p' out (Hi & Hu & _)%block_user_inv; [|done]. by apply portal_step_users.
  - intros p' out (Hi & Hu)%update_user_inv; [|done]. by apply portal_step_users.
  - intros p' out (Hi & Hu)%set_password_inv; [|done]. by apply portal_step_users.
  - intros p' (Hi & Hu)%unlock_user_inv; [|done]. by apply portal_step_accounts.
  - intros p' (Hi & _ & _ & _ & Hgone)%delete_user_inv; [|done].
    pose proof (moves_user_gone (request_clock_ok p (AdminRequest rq form now (DeleteUser user_id)))
      _ _ _ (po_db _ H) Hgone) as M.
    constructor; [|done]. constructor; [apply M|done].
  - intros p' row Hs%start_reset_ok; [|done]. apply portal_step_accounts; [done|apply Hs|].
    by destruct (rs_frame _ _ _ _ _ _ Hs).
  - intros p' out (Hi & Hu & _)%activate_instance_inv; [|done]. by apply portal_step_accounts.
Qed.

(** Accounts and time data stay well formed, and a step takes away only what
    it may. *)
Lemma portal_step p r : portal_inv p → portal_step_ok p r (step p r).
Proof.
  intros H. pose proof (po_accounts _ H) as Ha. destruct r; simpl.
  - destruct (require_admin_request rq form now); [|by apply portal_step_refl]. by apply manage_ok.
  - destruct (require_portal_user_auth p rq now) as [auth|]; [|by apply portal_step_refl].
    apply portal_step_serve; [done| |by intros Hc; apply Hc]. by destruct w.
  - destruct (portal_login_inv p now payload Ha) as (Hi & Hu & _). by apply portal_step_users.
  - apply portal_step_after; [done|]. intros p' (row & u & u1 & R)%portal_reset_ok; [|done].
    apply portal_step_users; [done|apply R|]. destruct (pr_changed _ _ _ _ _ _ _ R) as (p1 & C & ->).
    rewrite <- (pc_db _ _ _ _ _ C). apply (users_only_save u1 p1).
  - destruct (finish_reset_inv p now row mail Ha) as [Hi Hu]. by apply portal_step_accounts.
  - apply portal_step_after_fst; [done|]. intros p' out (Hi & Hu & _)%register_instance_ok; [|done].
    by apply portal_step_accounts.
  - apply portal_step_after_fst; [done|]. intros p' out (Hi & Hu & _)%get_status_inv; [|done].
    by apply portal_step_accounts.
  - apply portal_step_after_fst; [done|]. intros p' out (Hi & Hu & _)%claim_token_inv; [|done].
    by apply portal_step_accounts.
  - destruct (of_job r) eqn:E; [|by apply portal_step_refl].
    apply portal_step_serve; [done| |]; by destruct r.
Qed.

Lemma run_inv p l : portal_inv p → portal_inv (run p l).
Proof.
  revert p. induction l as [|r l IH]; intros p H; [done|]. simpl.
  apply IH, (ps_inv _ _ _ (portal_step p r H)).
Qed.

Lemma run_sized p l :
  portal_inv p → along spares_groups p l → groups_sized (p_db p) → groups_sized (p_db (run p l)).
Proof.
  revert p. induction l as [|r l IH]; intros p H Hl Hs; [done|]. destruct Hl as [Hr Hl].
  destruct (portal_step p r H) as [Hi M]. simpl. apply IH; [done..|]. by apply (mv_sized _ _ _ _ _ M).
Qed.
End Step.

(** ** Sequences of requests *)

Section Runs.
Context `{zone : PragueZone} `{!PragueZoneLaws zone} `{!PragueGap zone}.
Context `{crypto : Crypto} `{signing : Signing}.

(** the invariant of the whole portal.  Whatever requests are sent, by
    whomever and in any order, and whatever jobs run in between, the time
    data stay well formed (see [system_inv]) and so do the accounts: e-mails
    are unique and normalised, an instance has one owner, a user has at most
    one reset token that is neither used nor revoked, and a blocked or
    deactivated user has none.  No event lies on a day with a full-day
    status.  Every group keeps two members or more as long as no user whose
    employment is in a group is deleted. *)
Theorem portal_invariant p l (H : portal_inv p) :
  portal_inv (run p l) ∧
  (along spares_groups p l → groups_sized (p_db p) → groups_sized (p_db (run p l))) ∧
  ∀ x, x ∈ events (p_db (run p l)) → no_status (p_db (run p l)) (ev_employment_id x) (ev_day x).
Proof.
  pose proof (run_inv p l H) as H'. split; [done|]. split; [by apply run_sized|]. apply (inv_status _ (si_inv _ (po_db _ H'))).
Qed.

(** a locked month is immutable.  While no request unlocks the month of
    an employment and the employment's data are not deleted on purpose (with
    a confirmation, or with its user), no sequence of requests of anybody
    changes the facts the lock protects: the attendance status and the events
    of each of its days, or its plans; and the month stays locked. *)
Theorem portal_locked_month_immutable p l lt e d
    (H : portal_inv p) (Hl : day_locked (p_db p) lt e d = true)
    (Hn : along (λ p r, ¬ releases p r lt e (year_of d) (month_of d)) p l) :
  day_locked (p_db (run p l)) lt e d = true ∧ kept_facts lt e d (p_db p) (p_db (run p l)).
Proof.
  revert p H Hl Hn. induction l as [|r l IH]; intros p H Hl Hn; [done|].
  destruct Hn as [Hx Hn]. destruct (portal_step p r H) as [Hi M]. simpl.
  destruct (IH (step p r)) as [Hl' Hf]; [done|by apply (mv_locks _ _ _ _ _ M)|done|].
  split; [done|]. transitivity (p_db (step p r)); [by apply (mv_facts _ _ _ _ _ M)|done].
Qed.

(** metrics are never stale.  If the metrics of every employment's months
    are those a recomputation from the facts gives, they still are after any
    sequence of requests and jobs that sends no wall clock skipped by the
    change to summer time. *)
Theorem portal_metrics_fresh p l
    (H : portal_inv p) (Hf : all_fresh (p_db p))
    (Hc : along request_clock_ok p l) :
  all_fresh (p_db (run p l)).
Proof.
  revert p H Hf Hc. induction l as [|r l IH]; intros p H Hf Hc; [done|].
  destruct Hc as [Hx Hc]. destruct (portal_step p r H) as [Hi M]. simpl.
  apply IH; [done..| |done]. by apply (mv_fresh _ _ _ _ _ M).
Qed.
End Runs.
