(* ===== verification/ResetLinks.v ===== *)
(** * Reset links over time

    No request but issuing a new link makes a token usable: a link that was
    used, revoked or belonged to an account since closed stays dead, whatever
    happens later.  And what a link does when it is used. *)

From stdpp Require Import relations.
From S2P Require Import Prelude Calendar TimeParse PragueTime Models AttendanceApi SystemInvariant.
From S2P Require Import Groups AdminEmployments Lockout Accounts Sessions Login LoginSafety.
From S2P Require Import AdminUsers PasswordReset Instances AccountsSafety AccountsHandlers System PortalSystem.
#[local] Open Scope Z_scope.

(** Every token was there before, and is no more usable than it was. *)
Definition ages (p p' : Portal) : Prop :=
  ∀ r, r ∈ p_resets p' → ∃ r0, r0 ∈ p_resets p ∧ rt_token_hash r = rt_token_hash r0 ∧
    (unused r0 = false → unused r = false).

#[export] Instance ages_preorder : PreOrder ages.
Proof.
  split.
  - intros p r Hr. by exists r.
  - intros a b c H1 H2 r (r1 & Hr1 & E1 & U1)%H2. destruct (H1 r1 Hr1) as (r0 & Hr0 & E0 & U0).
    exists r0. split_and!; [done|congruence|auto].
Qed.

Lemma ages_same p p' : p_resets p' = p_resets p → ages p p'.
Proof. intros E r Hr. exists r. by rewrite <- E. Qed.

Lemma ages_where q f p :
  (∀ r, rt_token_hash (f r) = rt_token_hash r ∧ (unused r = false → unused (f r) = false)) →
  ages p (set_p_resets (update_where q f (p_resets p)) p).
Proof.
  intros Hf r (y & Hy & ->)%elem_of_update_where. exists y. split; [done|].
  destruct (q y); [apply Hf|done].
Qed.

Lemma ages_delete q p p' : p_resets p' = delete_where q (p_resets p) → ages p p'.
Proof. intros E r. rewrite E. intros [Hr _]%elem_of_delete_where. by exists r. Qed.

Lemma unused_stays (f : PortalUserResetToken → PortalUserResetToken) r :
  token_stays f → unused r = false → unused (f r) = false.
Proof. intros Hf Hr. apply not_true_is_false. intros Hu%Hf. congruence. Qed.

Lemma ages_revoke p i now : ages p (revoke_password_reset_tokens p i now).
Proof. apply ages_where. intros r. split; [done|]. apply unused_stays, revoked_stays. Qed.

Lemma ages_credential p u : ages p (revoke_instance_credential p u).
Proof. apply ages_same. apply (revoke_credential_frame p u). Qed.

#[local] Hint Resolve ages_same ages_revoke ages_credential : core.

Section Ages.
Context `{zone : PragueZone} `{crypto : Crypto} `{signing : Signing}.

Lemma ages_change p u raw now p1 u1 :
  change_portal_password p u raw now = Some (p1, u1) → ages p p1.
Proof.
  unfold change_portal_password. destruct (String.eqb (strip raw) ""); [done|].
  destruct (hash_password (strip raw)); [|done]. simpl. intros [= <- _].
  etransitivity; [|apply ages_credential].
  etransitivity; [apply (ages_revoke p (pu_id u) now)|]. by apply ages_same.
Qed.

Lemma ages_apply p u raw now p1 u1 : apply_password p u raw now = Ok (p1, u1) → ages p p1.
Proof.
  destruct raw as [raw|]; simpl; [|intros [= <- _]; reflexivity].
  destruct (String.eqb (strip raw) ""); [done|]. simpl.
  destruct (change_portal_password _ _ _ _) as [[p2 u2]|] eqn:E; [|done]. intros [= <- <-].
  by eapply ages_change.
Qed.

Lemma ages_update p now i body p' out : update_user p now i body = Ok (p', out) → ages p p'.
Proof.
  intros Hc. unfold update_user in Hc. ok_inv Hc. rename v into payload, v0 into u0.
  destruct (update_name p u0 (uu_name payload)) as [p1 un] eqn:En.
  ok_inv Hc. destruct v as [p2 ue]. rename Hstep1 into Hem. ok_inv Hc. clear Hstep1 v.
  destruct (update_active p2 now ue (uu_is_active payload)) as [p3 ua] eqn:Ea.
  ok_inv Hc. destruct v as [p4 uf]. ok_inv Hc. injection Hc as <- <-.
  assert (A1 : p_resets p1 = p_resets p).
  { destruct (uu_name payload); simpl in En; [|by injection En as <- _].
    destruct (instance_of _ _); by injection En as <- _. }
  assert (A2 : p_resets p2 = p_resets p1).
  { destruct (uu_email payload); simpl in Hem; [|by injection Hem as <- _]. ok_inv Hem.
    destruct (String.eqb _ (pu_email _)); [by injection Hem as <- _|]. ok_inv Hem. by injection Hem as <- _. }
  assert (A3 : ages p2 p3).
  { destruct (uu_is_active payload) as [[]|]; simpl in Ea; injection Ea as <- _; [reflexivity| |reflexivity].
    etransitivity; [apply ages_revoke|apply ages_credential]. }
  etransitivity; [apply ages_same, A1|]. etransitivity; [apply ages_same, A2|].
  etransitivity; [exact A3|]. etransitivity; [by eapply ages_apply|]. by apply ages_same.
Qed.

Lemma ages_deleted p i p' : delete_user p i = Ok p' → ages p p'.
Proof.
  intros Hc. unfold delete_user in Hc. ok_inv Hc. injection Hc as <-.
  set (p1 := clear_account _ p). assert (E1 : p_resets p1 = p_resets p).
  { unfold p1, clear_account. by destruct (String.eqb _ ""). }
  set (p2 := delete_user_employments i _).
  assert (A2 : ages p p2).
  { etransitivity; [apply ages_same, E1|]. by eapply ages_delete. }
  assert (A3 : ∀ q, p_resets q = p_resets p2 → ages p (delete_user_row i q)).
  { intros q Hq. etransitivity; [exact A2|]. etransitivity; [apply ages_same, Hq|]. by eapply ages_delete. }
  destruct (if String.eqb _ "" then None else _) as [x|]; [|by apply A3].
  etransitivity; [by apply (A3 (update_instance (inst_id x) (with_bearer None None) p2))|].
  apply ages_same. unfold delete_user_instance. by destruct (_ && _).
Qed.

Lemma ages_reset p now payload p' : portal_reset p now payload = Ok p' → ages p p'.
Proof.
  intros Hc. unfold portal_reset in Hc. ok_inv Hc. destruct v3 as [p1 u1]. injection Hc as <-.
  apply or_raise_ok in Hstep3. etransitivity; [by eapply ages_change|].
  etransitivity; [apply (ages_same p1 (save_user u1 p1)); done|].
  apply (ages_where (λ r, rt_id r =? rt_id v2) (used_at now) (save_user u1 p1)).
  intros r. split; [done|]. apply unused_stays, used_stays.
Qed.

Lemma ages_delivery p row state revoked now p' :
  write_delivery p row state revoked now = Ok p' → ages p p'.
Proof.
  unfold write_delivery. intros Hc. ok_inv Hc. injection Hc as <-.
  apply ages_where. intros r. split; [done|]. apply unused_stays, marked_stays.
Qed.

Lemma ages_mail p now row mail : ages p (finish_reset p now row mail).1.
Proof.
  unfold finish_reset.
  assert (Hw : ∀ st rv err r', ages p (match write_delivery p row st rv now with
    | Ok p' => (p', r') | Err crash => (p, err crash) end : Portal * result unit).1).
  { intros st rv err r'. destruct (write_delivery p row st rv now) eqn:E; [by eapply ages_delivery|].
    reflexivity. }
  destruct mail; [|apply (Hw RESET_FAILED true Err)|reflexivity].
  destruct (match lock_portal_user p (rt_user_id row) with Some _ => _ | None => true end).
  - apply (Hw RESET_FAILED true Err).
  - apply (Hw RESET_SENT false Err).
Qed.

(** The request issues no link whose token has this hash. *)
Definition not_issuing (h : string) (r : portal_request) : Prop :=
  match r with AdminRequest _ _ _ (StartReset _ raw_token) => sha256 raw_token ≠ h | _ => True end.

(** No token with this hash may be used. *)
Definition spent (h : string) (p : Portal) : Prop :=
  ∀ r, r ∈ p_resets p → rt_token_hash r = h → unused r = false.

Lemma spent_ages h p p' : ages p p' → spent h p → spent h p'.
Proof. intros A S r (r0 & Hr0 & E & U)%A Hh. apply U, S; [done|congruence]. Qed.

Lemma spent_after h p m : (∀ p', m = Ok p' → ages p p') → spent h p → spent h (after p m).
Proof. intros Hm S. destruct m; [by eapply spent_ages; [apply Hm|]|done]. Qed.
Lemma spent_after_fst {A} h p (m : result (Portal * A)) :
  (∀ p' a, m = Ok (p', a) → ages p p') → spent h p → spent h (after_fst p m).
Proof. intros Hm S. destruct m as [[p' a]|]; [by eapply spent_ages; [eapply Hm|]|done]. Qed.

Lemma spent_manage h p rq form now w :
  not_issuing h (AdminRequest rq form now w) → spent h p → spent h (manage p now w).
Proof.
  intros Hn S. destruct w; simpl;
    lazymatch goal with
    | |- context [start_reset] => idtac
    | _ => try (apply spent_after_fst || apply spent_after); [|exact S..]
    end.
  - by destruct (of_admin r).
  - intros p' out Hc. unfold create_user, flush_instance in Hc. ok_inv Hc. destruct v1 as [p2 u]. injection Hc as <- <-.
    etransitivity; [|by apply ages_same]. apply ages_apply in Hstep1. etransitivity; [|exact Hstep1].
    by apply ages_same.
  - intros p' out Hc. unfold block_user in Hc. ok_inv Hc. injection Hc as <- <-.
    set (p1 := if blocked then _ else p). etransitivity; [|by apply (ages_same p1)].
    unfold p1. destruct blocked; [|reflexivity].
    etransitivity; [apply ages_revoke|apply ages_credential].
  - intros p' out. apply ages_update.
  - intros p' out Hc. unfold set_user_password in Hc. ok_inv Hc. destruct v1 as [p1 u1].
    injection Hc as <- <-. etransitivity; [by eapply ages_apply|]. by apply ages_same.
  - intros p' Hc. unfold unlock_user in Hc. ok_inv Hc. injection Hc as <-. by apply ages_same.
  - intros p'. apply ages_deleted.
  - (* a new link has a token of its own *)
    destruct (start_reset p now user_id raw_token) as [[p' row]|] eqn:E; [|done].
    unfold start_reset in E. ok_inv E. injection E as <- <-. simpl.
    intros r [Hr| ->%list_elem_of_singleton]%elem_of_app Hh; [|by simpl in Hh].
    exact (spent_ages h p _ (ages_revoke p (pu_id v) now) S r Hr Hh).
  - intros p' out Hc. unfold activate_instance in Hc. ok_inv Hc. injection Hc as <- _. by apply ages_same.
Qed.

Lemma spent_step h p r : not_issuing h r → spent h p → spent h (step p r).
Proof.
  intros Hn S. destruct r; simpl.
  - destruct (require_admin_request rq form now); [|done]. by eapply spent_manage.
  - by destruct (require_portal_user_auth p rq now).
  - eapply spent_ages; [|done]. apply ages_same. unfold portal_login.
    destruct (get_lockout_state _ _ _ _) as [a1 s]. destruct (is_locked s now); [done|].
    destruct (check_credentials _ _ _) as [[u v]|];
      [|by destruct (record_login_failure a1 _ now)]. cbn zeta.
    pose proof (rehash_other u (lg_password payload) v (set_p_auth a1 p)) as (_ & _ & _ & R).
    destruct (pu_is_blocked u); [done|].
    destruct (issue_portal_login _ u now) as [[p2 out]|] eqn:Hi; [|done].
    by apply issue_login_ok in Hi as (_ & i & _ & _ & _ & _ & _ & _ & _ & _ & ->).
  - apply spent_after; [|done]. intros p'. apply ages_reset.
  - eapply spent_ages; [apply ages_mail|done].
  - apply spent_after_fst; [|done]. intros p' out Hc. unfold register_instance in Hc. ok_inv Hc.
    injection Hc as <- _. by apply ages_same.
  - apply spent_after_fst; [|done]. intros p' out Hc. unfold get_instance_status in Hc. ok_inv Hc.
    injection Hc as <- _. by apply ages_same.
  - apply spent_after_fst; [|done]. intros p' out Hc. unfold claim_instance_token in Hc. ok_inv Hc.
    injection Hc as <- _. by apply ages_same.
  - by destruct (of_job r).
Qed.

Lemma spent_run h p l : Forall (not_issuing h) l → spent h p → spent h (run p l).
Proof.
  intros Hl. revert p. induction Hl as [|r l Hr Hl IH]; intros p S; [done|]. simpl.
  by apply IH, spent_step.
Qed.

(** A link whose token is spent is refused, whoever has it. *)
Definition refused (p : Portal) (now : Z) (payload : PortalResetIn) : Prop :=
  portal_reset p now payload = Err validation_error ∨ portal_reset p now payload = Err reset_token_invalid.

Lemma no_accepted p now token :
  spent (sha256 token) p → where_ (accepts token now) (p_resets p) = [].
Proof.
  intros S. apply where_nil_iff. intros r Hr. unfold accepts. destruct (String.eqb _ _) eqn:E; [|done].
  apply String.eqb_eq in E. unfold usable. by rewrite (S r Hr E).
Qed.

Lemma spent_refused p now payload : spent (sha256 (ri_token payload)) p → refused p now payload.
Proof.
  intros S. unfold refused, portal_reset. destruct (negb _); [by left|]. cbn [guard rbind].
  fold (accepts (ri_token payload) now). rewrite no_accepted by done. by right.
Qed.
End Ages.

(** ** Using a link *)

Section Use.
Context `{zone : PragueZone} `{crypto : Crypto} `{laws : !CryptoLaws crypto} `{signing : Signing}.

(** C5: a reset link works once.  After a link was used, no request made
    with the same token is accepted again, whatever requests of anybody and
    whatever jobs come in between; unless the same random token is issued
    once more. *)
Theorem reset_link_single_use p now payload p' l now' payload'
    (H : accounts_inv p)
    (Hone : ∀ r s, r ∈ p_resets p → s ∈ p_resets p → rt_token_hash r = sha256 (ri_token payload) →
      rt_token_hash s = sha256 (ri_token payload) → r = s)
    (Hused : portal_reset p now payload = Ok p')
    (Hl : Forall (not_issuing (sha256 (ri_token payload))) l)
    (Hsame : ri_token payload' = ri_token payload) :
  refused (run p' l) now' payload'.
Proof.
  pose proof (portal_reset_ok _ _ _ _ H Hused) as (row & u & u1 & [[Hrow Hacc] [Hu Hid] _ (p1 & C & ->) _]).
  unfold accepts in Hacc. apply andb_true_iff in Hacc as [Hh%String.eqb_eq _].
  apply spent_refused. rewrite Hsame. apply spent_run; [done|].
  intros r (y & Hy & ->)%elem_of_update_where Hr.
  destruct (rt_id y =? rt_id row) eqn:E; [done|].
  destruct (pc_same_resets _ _ _ _ _ C y Hy) as (r0 & Hr0 & I0 & U0 & E0 & _).
  exfalso. apply Z.eqb_neq in E. apply E. rewrite I0. f_equal. apply Hone; [done|done|congruence|done].
Qed.

(** What a successful reset leaves behind. *)
Record reset_done (p p' : Portal) (now : Z) (payload : PortalResetIn) (row : PortalUserResetToken)
    (u : PortalUser) : Prop := {
  rd_row : row ∈ p_resets p ∧ accepts (ri_token payload) now row = true;
  rd_owner : u ∈ users (p_db p) ∧ pu_id u = rt_user_id row ∧ pu_is_active u = true ∧ pu_is_blocked u = false;
  rd_password : ∃ h, with_password_hash (Some h) u ∈ users (p_db p') ∧
    (∀ attempt, verify_password attempt h = true ↔ attempt = strip (ri_password payload));
  rd_others : ∀ v, pu_id v ≠ pu_id u → v ∈ users (p_db p') ↔ v ∈ users (p_db p);
  rd_database : users_only (p_db p) (p_db p');
  rd_links : no_unused p' (pu_id u);
  rd_lockout : ∀ t, is_locked (get_lockout_state (p_auth p') "portal" (pu_email u) true).2 t = false;
  rd_bearer : ∀ i x, pu_instance_id u = Some i → x ∈ p_instances p' → inst_id x = i →
    inst_token_hash x = None;
}.

Lemma argon2_only password attempt :
  verify_password attempt (argon2_hash password) = true ↔ attempt = password.
Proof.
  unfold verify_password, verify_password_details, starts_with. rewrite argon2_prefix.
  destruct (String.eqb (argon2_hash password) "") eqn:E.
  { apply String.eqb_eq in E. pose proof (argon2_prefix password) as Hp. rewrite E in Hp. done. }
  split.
  - destruct (argon2_verify _ attempt) as [[]|] eqn:Ev; try done. intros _. by apply argon2_sound in Ev.
  - intros ->. by rewrite argon2_complete.
Qed.

Lemma reset_done_ok p now payload p' :
  accounts_inv p → portal_reset p now payload = Ok p' → ∃ row u, reset_done p p' now payload row u.
Proof.
  intros H Hc. pose proof (portal_reset_ok _ _ _ _ H Hc) as (row & u & u1 & R).
  destruct R as [Hrow [Hu Hid] [Ha Hb] (p1 & C & ->) _]. exists row, u.
  pose proof (pc_user _ _ _ _ _ C) as Hu1. pose proof (pc_db _ _ _ _ _ C) as Hdb.
  pose proof (keyed_id _ _ _ _ (ai_users _ H)) as Hn.
  constructor; try done.
  - exists (argon2_hash (strip (ri_password payload))). split; [|intros; apply argon2_only].
    simpl. rewrite <- Hu1. apply elem_of_update_where. exists u. rewrite Hdb. split; [done|].
    by rewrite Hu1, Z.eqb_refl.
  - intros v Hv. simpl. rewrite elem_of_update_where, Hdb. rewrite Hu1. cbn [with_password_hash pu_id].
    split.
    + intros (y & Hy & E). destruct (pu_id y =? pu_id u); [|congruence]. subst v. done.
    + intros Hin. exists v. split; [done|]. by rewrite (proj2 (Z.eqb_neq _ _) Hv).
  - rewrite <- Hdb. apply (users_only_save u1 p1).
  - intros r (y & Hy & ->)%elem_of_update_where Hr.
    assert (Hun : unused y = false).
    { apply (pc_resets _ _ _ _ _ C y Hy). by destruct (rt_id y =? rt_id row). }
    destruct (rt_id y =? rt_id row); [done|done].
  - intros t. pose proof (pc_lockout _ _ _ _ _ C t) as Hl.
    by rewrite (normalized_lower (pu_email u)) in Hl by by apply (ai_emails _ H).
  - apply C.
Qed.

(** [portal_reset] on every branch.  A request is refused as invalid for
    the lengths of its body; as an invalid link exactly when no token that is
    sent, unused, not revoked and not expired has the hash; and for the
    password only when it is blank.  It never answers that the account is
    blocked, for a blocked account has no such token, and never crashes.
    Otherwise the owner, an active user, has exactly the new password, no
    reset link, no lock-out and no bearer of an instance, and no other user
    or table changes. *)
Theorem portal_reset_spec p now payload (H : accounts_inv p) :
  match portal_reset p now payload with
  | Ok p' => ∃ row u, reset_done p p' now payload row u
  | Err e =>
      (e = validation_error ∧
         length_between 16 512 (ri_token payload) && length_between 8 512 (ri_password payload) = false) ∨
      (e = reset_token_invalid ∧
         ∀ r, r ∈ p_resets p → accepts (ri_token payload) now r = false) ∨
      (e = ApiError 400 "portal_password_policy_failed" ∧ strip (ri_password payload) = ""%string)
  end.
Proof.
  destruct (portal_reset p now payload) as [p'|e] eqn:E; [by apply reset_done_ok|].
  unfold portal_reset in E. fold (accepts (ri_token payload) now) in E.
  destruct (length_between 16 512 _ && length_between 8 512 _) eqn:Hlen;
    [|left; by injection E as <-]. right. cbn [negb guard rbind] in E.
  destruct (one_or_none (where_ (accepts (ri_token payload) now) (p_resets p))) as [row|] eqn:Er.
  2:{ left. injection E as <-. split; [done|]. apply where_nil_iff. by destruct (where_ _ _). }
  right. cbn [or_raise rbind] in E. apply head_where in Er as [Hrow Hacc].
  pose proof Hacc as [Hh Hus]%andb_true_iff. unfold usable in Hus. bool_hyps.
  pose proof (ai_reset_users _ H row Hrow) as (u & Hid & Hu)%list_elem_of_fmap.
  assert (Hlock : lock_portal_user p (rt_user_id row) = Some u).
  { rewrite Hid. by apply (get_user_in p u H). }
  destruct (ai_usable _ H row u) as [Ha Hb]; [done..|].
  rewrite Hlock in E. cbn [or_raise rbind] in E. rewrite Ha, Hb in E. cbn [negb guard rbind] in E.
  destruct (one_or_none (where_ (λ r, (rt_id r =? rt_id row) && usable now r) (p_resets p))) as [row'|] eqn:Er.
  2:{ exfalso. assert (Hnil : where_ (λ r, (rt_id r =? rt_id row) && usable now r) (p_resets p) = [])
        by by destruct (where_ _ _).
      rewrite where_nil_iff in Hnil. specialize (Hnil row Hrow). rewrite Z.eqb_refl in Hnil.
      apply andb_true_iff in Hacc as [_ Hx]. rewrite Hx in Hnil. done. }
  cbn [or_raise rbind] in E.
  destruct (change_portal_password p u (ri_password payload) now) as [[p1 u1]|] eqn:Ec; [done|].
  injection E as <-. split; [done|]. unfold change_portal_password, hash_password in Ec.
  destruct (String.eqb (strip (ri_password payload)) "") eqn:He; [by apply String.eqb_eq|].
  cbn [orb] in Ec. destruct (512 <? _) eqn:Hl; [|done]. exfalso. bool_hyps.
  unfold length_between in *. bool_hyps. pose proof (strip_length (ri_password payload)). lia.
Qed.
End Use.
