(* ===== verification/RequestAuth.v ===== *)
(** * Who may do what: sessions, closed accounts and bearers

    When a browser session is accepted, and what an account that was blocked
    or deactivated can still do. *)

From stdpp Require Import relations.
From S2P Require Import Prelude Calendar TimeParse PragueTime Models AttendanceEvents AttendanceApi SystemInvariant.
From S2P Require Import Groups AdminEmployments Lockout Accounts Sessions Login LoginSafety ShiftPlanApi.
From S2P Require Import AdminUsers PasswordReset Instances AccountsSafety AccountsHandlers System PortalSystem ResetLinks.
#[local] Open Scope Z_scope.

Section Sessions.
Context `{zone : PragueZone} `{crypto : Crypto} `{signing : Signing} `{slaws : !SigningLaws signing}.

(** ** Cookies *)

Lemma sign_ascii a : is_ascii (sign a) = true.
Proof. unfold sign. apply hmac_text. Qed.

Lemma compare_ok a b same : compare_digest a b = Ok same → same = String.eqb a b.
Proof. unfold compare_digest. destruct (_ && _); [by intros [= <-]|done]. Qed.

Lemma compare_ascii a b :
  is_ascii a = true → is_ascii b = true → compare_digest a b = Ok (String.eqb a b).
Proof. unfold compare_digest. by intros -> ->. Qed.

(** What a cookie that carries a payload is signed with. *)
Lemma verified_signed raw c :
  verified raw = Ok (Some c) →
  ∃ k, raw = Some k ∧ ck_signature k = sign (ck_payload k) ∧ decode (ck_payload k) = Some c.
Proof.
  destruct raw as [k|]; [|done]. simpl. intros H. ok_inv H. apply compare_ok in Hstep as ->.
  injection H as H. destruct (String.eqb _ _) eqn:E; [|done]. apply String.eqb_eq in E. by exists k.
Qed.

(** Only a cookie signed with the secret carries a payload. *)
Lemma verified_ok raw c :
  verified raw = Ok (Some c) ↔
  ∃ k, raw = Some k ∧ ck_signature k = sign (ck_payload k) ∧ decode (ck_payload k) = Some c.
Proof.
  split.
  - apply verified_signed.
  - intros (k & -> & Hs & Hd). simpl. rewrite Hs, compare_ascii by apply sign_ascii. simpl.
    by rewrite String.eqb_refl, Hd.
Qed.

Lemma tag_injective h h' : portal_credential_tag h = portal_credential_tag h' → h = h'.
Proof.
  unfold portal_credential_tag, sign. intros H%hmac_injective. simpl in H. by injection H.
Qed.

Lemma tag_text h : is_ascii (portal_credential_tag h) = true ∧ portal_credential_tag h ≠ ""%string.
Proof. apply hmac_text. Qed.

(** ** The browser session *)

(** The cookie names the user and the password hash, and is not too old. *)
Definition names (rq : HttpRequest) (now : Z) (u : PortalUser) : Prop :=
  ∃ k h iat jti, rq_cookie rq = Some k ∧ ck_signature k = sign (ck_payload k) ∧
    decode (ck_payload k) = Some (PortalPayload (pu_id u) (portal_credential_tag h) iat jti) ∧
    pu_password_hash u = Some h ∧ unix_time now - iat <= session_max_age_seconds.

Definition csrf_passed (rq : HttpRequest) : Prop :=
  require_csrf_header (rq_claims rq) (rq_method rq) (rq_csrf_session rq) (rq_csrf_header rq) = Ok tt.

Lemma get_portal_session_user raw now uid s :
  get_portal_session raw now = Ok s → portal_is_authenticated s = true → ps_user_id s = Some uid →
  ∃ k tag iat jti, raw = Some k ∧ ck_signature k = sign (ck_payload k) ∧
    decode (ck_payload k) = Some (PortalPayload uid tag iat jti) ∧ ps_credential_tag s = Some tag ∧
    0 < uid ∧ unix_time now - iat <= session_max_age_seconds.
Proof.
  unfold get_portal_session. intros H. ok_inv H. injection H as <-.
  destruct v as [[i tag iat jti|]|]; [|done|done].
  destruct (_ || _) eqn:E; [done|]. simpl. intros _ [= <-]. bool_hyps.
  apply verified_signed in Hstep as (k & Hk & Hs & Hd). exists k, tag, iat, jti. split_and!; try done; lia.
Qed.

Lemma browser_user_names p rq now u :
  browser_user p rq now = Ok u →
  rq_browser_entry_only rq = false ∧ u ∈ users (p_db p) ∧ names rq now u ∧ csrf_passed rq.
Proof.
  unfold browser_user. intros Hb. ok_inv Hb. injection Hb as ->.
  apply or_raise_ok in Hstep0, Hstep1, Hstep2.
  destruct (portal_is_authenticated v) eqn:Ha; [|done].
  destruct (get_portal_session_user _ _ _ _ Hstep Ha Hstep0)
    as (k & tag & iat & jti & Hk & Hs & Hd & Ht & _ & Hage).
  apply get_user_elem in Hstep1 as [Hu Hid].
  unfold portal_session_matches_password in Hstep3. rewrite Ht, Ha in Hstep3.
  apply compare_ok in Hstep3 as ->. apply negb_false_iff, String.eqb_eq in Hguard0.
  destruct v4. split_and!; [done|done| |exact Hstep4].
  exists k, v2, iat, jti. rewrite Hid, Hguard0. by split_and!.
Qed.

Lemma browser_user_ok p rq now u :
  accounts_inv p → 0 < pu_id u →
  browser_user p rq now = Ok u ↔
  rq_browser_entry_only rq = false ∧ u ∈ users (p_db p) ∧ names rq now u ∧ csrf_passed rq.
Proof.
  intros H Hpos. split; [apply browser_user_names|].
  intros (He & Hu & (k & h & iat & jti & Hk & Hs & Hd & Hh & Hage) & Hc).
  unfold browser_user. rewrite He. cbn [guard rbind].
  assert (Hsess : get_portal_session (rq_cookie rq) now =
    Ok (mk_portal_session (Some (pu_id u)) (Some (portal_credential_tag h)) iat)).
  { unfold get_portal_session.
    rewrite (proj2 (verified_ok (rq_cookie rq) _)) by by exists k. cbn [rbind].
    destruct (tag_text h) as [_ Hne]. apply String.eqb_neq in Hne. rewrite Hne.
    replace (pu_id u <=? 0) with false by (symmetry; apply Z.leb_gt; lia).
    replace (session_max_age_seconds <? unix_time now - iat) with false by (symmetry; apply Z.ltb_ge; lia).
    done. }
  rewrite Hsess. cbn [rbind].
  assert (Hauth : portal_is_authenticated
    (mk_portal_session (Some (pu_id u)) (Some (portal_credential_tag h)) iat) = true).
  { unfold portal_is_authenticated, truthy. simpl. destruct (tag_text h) as [_ Hne].
    by destruct (portal_credential_tag h). }
  rewrite Hauth. cbn [ps_user_id or_raise rbind]. rewrite (get_user_in p u H Hu).
  cbn [or_raise rbind]. rewrite Hh. cbn [or_raise rbind]. unfold portal_session_matches_password. rewrite Hauth.
  cbn [ps_credential_tag]. rewrite compare_ascii by apply tag_text. rewrite String.eqb_refl.
  cbn [rbind negb guard]. unfold csrf_passed in Hc. by rewrite Hc.
Qed.

(** ** The request's user *)

Lemma instance_of_ok p u x :
  instance_of p u = Some x → pu_instance_id u = Some (inst_id x) ∧ x ∈ p_instances p.
Proof.
  unfold instance_of. destruct (pu_instance_id u) as [i|]; [|done]. simpl.
  by intros [Hx <-]%get_instance_ok.
Qed.

(** Whoever is let in exists, is not blocked and has an active instance. *)
Record let_in (p : Portal) (auth : PortalUserAuth) : Prop := {
  li_user : auth_user auth ∈ users (p_db p);
  li_open : pu_is_blocked (auth_user auth) = false;
  li_instance : ∃ x, x ∈ p_instances p ∧ inst_id x = auth_instance_id auth ∧
    pu_instance_id (auth_user auth) = Some (inst_id x) ∧ inst_status x = INST_ACTIVE;
}.

Lemma owner_ok p i u :
  owner_of_instance p i = Ok (Some u) → u ∈ users (p_db p) ∧ pu_instance_id u = Some i.
Proof.
  unfold owner_of_instance. destruct (where_ _ _) as [|v [|w l]] eqn:E; [done| |done]. intros [= <-].
  assert (Hv : v ∈ where_ (λ u, bool_decide (pu_instance_id u = Some i)) (users (p_db p))) by (rewrite E; left).
  apply elem_of_where in Hv as [Hv Hi%bool_decide_eq_true]. done.
Qed.

Lemma browser_user_elem p rq now u : browser_user p rq now = Ok u → u ∈ users (p_db p).
Proof.
  unfold browser_user. intros Hb. ok_inv Hb. injection Hb as ->.
  by apply or_raise_ok, get_user_elem in Hstep1 as [? _].
Qed.

Lemma verify_token_elem p token x : verify_instance_token p token = Some x → x ∈ p_instances p.
Proof.
  unfold verify_instance_token. destruct (validate_token_format token); [|done].
  by intros [Hx _]%head_where.
Qed.

Lemma require_auth_ok p rq now auth :
  require_portal_user_auth p rq now = Ok auth → let_in p auth.
Proof.
  unfold require_portal_user_auth. destruct (if rq_claims rq then _ else None) as [uid|].
  - intros H. ok_inv H. injection H as <-. apply or_raise_ok in Hstep, Hstep0. bool_hyps.
    apply get_user_elem in Hstep as [Hu _]. apply instance_of_ok in Hstep0 as [Hi Hx].
    apply bool_decide_eq_true in H0. constructor; [done|done|]. by exists v0.
  - intros H. ok_inv H. destruct v as [user instance]. ok_inv H. injection H as <-.
    apply or_raise_ok in Hstep0, Hstep1. subst. bool_hyps.
    assert (Huv : v ∈ users (p_db p) ∧ v0 ∈ p_instances p ∧ pu_instance_id v = Some (inst_id v0)).
    { destruct (bearer_from_auth_header _).
      - ok_inv Hstep. injection Hstep as -> ->. apply owner_ok in Hstep1 as [Hv Hi].
        unfold require_instance_auth in Hstep0. ok_inv Hstep0. injection Hstep0 as ->.
        apply or_raise_ok, verify_token_elem in Hstep1. done.
      - ok_inv Hstep. injection Hstep as -> Hi. apply browser_user_elem in Hstep0.
        apply instance_of_ok in Hi as [Hi Hx]. done. }
    destruct Huv as (Hu & Hx & Hi). apply bool_decide_eq_true in Hguard.
    constructor; [done|done|]. by exists v0.
Qed.

(** What a request brings of its own: a bearer of the user's instance, or else
    a cookie of the portal that names the user. *)
Definition own_credential (p : Portal) (rq : HttpRequest) (now : Z) (u : PortalUser) : Prop :=
  (∃ token x, bearer_from_auth_header (rq_authorization rq) = Some token ∧
     verify_instance_token p token = Some x ∧ pu_instance_id u = Some (inst_id x)) ∨
  (bearer_from_auth_header (rq_authorization rq) = None ∧ names rq now u).

Lemma own_auth p rq now auth :
  (if rq_claims rq then rq_cml_user_id rq else None) = None →
  require_portal_user_auth p rq now = Ok auth → own_credential p rq now (auth_user auth).
Proof.
  unfold require_portal_user_auth, own_credential. intros -> H. ok_inv H. destruct v as [user instance].
  ok_inv H. injection H as <-. apply or_raise_ok in Hstep0, Hstep1. subst. simpl.
  destruct (bearer_from_auth_header _) as [token|] eqn:Hb.
  - left. ok_inv Hstep. injection Hstep as -> ->. apply owner_ok in Hstep1 as [_ Hi].
    unfold require_instance_auth in Hstep0. rewrite Hb in Hstep0. ok_inv Hstep0.
    injection Hstep0 as ->. injection Hstep as <-. apply or_raise_ok in Hstep1. by exists token, v0.
  - right. split; [done|]. ok_inv Hstep. injection Hstep as -> Hi.
    by apply browser_user_names in Hstep0 as (_ & _ & ? & _).
Qed.

(** C6: when a browser session is accepted.  A request without a bearer and
    without an assertion of KajovoCML acts as a user exactly when browsers may
    enter without KajovoCML, its cookie carries the signature of this portal,
    is not older than the limit and names the user with the hash of the
    password the user has now, the CSRF check passes, and the user has an
    active instance and is not blocked; being deactivated does not matter
    here.  Keys of users are positive, as the database draws them.  So changing the
    password ends every older session, no cookie of the administration stands
    for a user, and no forged or expired one does. *)
Theorem portal_session_accepted p rq now auth (H : accounts_inv p)
    (Hpos : ∀ u, u ∈ users (p_db p) → 0 < pu_id u)
    (Hno : bearer_from_auth_header (rq_authorization rq) = None) (Hcml : rq_claims rq = false) :
  require_portal_user_auth p rq now = Ok auth ↔
  rq_browser_entry_only rq = false ∧ csrf_passed rq ∧ names rq now (auth_user auth) ∧ let_in p auth.
Proof.
  split.
  - intros Ha. pose proof (require_auth_ok _ _ _ _ Ha) as L.
    unfold require_portal_user_auth in Ha. rewrite Hcml, Hno in Ha. ok_inv Ha.
    destruct v as [user instance]. ok_inv Ha. injection Ha as <-. ok_inv Hstep.
    injection Hstep as <- <-. apply or_raise_ok in Hstep0. injection Hstep0 as <-.
    pose proof (browser_user_elem _ _ _ _ Hstep2) as Hu.
    apply (browser_user_ok p rq now v1 H (Hpos _ Hu)) in Hstep2 as (He & _ & Hn & Hc). done.
  - intros (He & Hc & Hn & [Hu Hb (x & Hx & Hid & Hi & Hs)]).
    assert (Hbu : browser_user p rq now = Ok (auth_user auth)) by (apply browser_user_ok; auto).
    unfold require_portal_user_auth. rewrite Hcml, Hno, Hbu. cbn [rbind or_raise].
    assert (Hio : instance_of p (auth_user auth) = Some x).
    { unfold instance_of. rewrite Hi. simpl. destruct (get_instance p (inst_id x)) as [y|] eqn:E.
      - apply get_instance_ok in E as [Hy Hyi]. f_equal.
        by apply (NoDup_fmap_eq inst_id (p_instances p)); [apply (ai_instances _ H)|..].
      - exfalso. apply (no_instance p (inst_id x)); [by rewrite E|]. by apply list_elem_of_fmap_2. }
    rewrite Hio. cbn [or_raise rbind]. rewrite (bool_decide_eq_true_2 _ Hs), Hb. cbn [negb guard rbind].
    rewrite Hid. by destruct auth.
Qed.

(** The cookie of a login is accepted as long as the account stays as it is. *)
Lemma issued_names rq now u h t jti :
  rq_cookie rq = Some (set_portal_session (pu_id u) h t jti) →
  names rq now u ↔ pu_password_hash u = Some h ∧ unix_time now - unix_time t <= session_max_age_seconds.
Proof.
  intros Hc. split.
  - intros (k & h' & iat & j & Hk & _ & Hd & Hh & Hage). rewrite Hc in Hk. injection Hk as <-.
    simpl in Hd. rewrite decode_encode in Hd. injection Hd as Ht%tag_injective <- _. by subst h'.
  - intros [Hh Hage]. eexists _, h, (unix_time t), jti. split_and!; [exact Hc|done| |done|done].
    simpl. apply decode_encode.
Qed.
End Sessions.

(** ** Closed accounts *)

Section Closed.
Context `{zone : PragueZone} `{crypto : Crypto} `{signing : Signing}.

Definition closed (u : PortalUser) : Prop := pu_is_active u = false ∨ pu_is_blocked u = true.

Lemma login_ok p now payload p' out :
  portal_login p now payload = (p', Ok out) →
  ∃ u, u ∈ users (p_db p) ∧ pu_email u = normalize_email (lg_email payload) ∧
    pu_is_active u = true ∧ pu_is_blocked u = false.
Proof.
  unfold portal_login. destruct (get_lockout_state _ _ _ _) as [a1 s].
  destruct (is_locked s now); [done|].
  destruct (check_credentials _ _ _) as [[u v]|] eqn:Hc;
    [|by destruct (record_login_failure a1 _ now)]. cbn zeta.
  destruct (pu_is_blocked u) eqn:Hb; [done|]. intros _.
  apply credentials_ok in Hc as (h & Hu & He & Ha & _). by exists u.
Qed.

(** Every endpoint of an employee asks for an active account. *)
Lemma inactive_employment db auth i :
  pu_is_active (auth_user auth) = false → ∀ e, accessible_employment db auth i ≠ Ok e.
Proof.
  unfold accessible_employment. intros Ha e H. ok_inv H. rewrite Ha, orb_true_r in Hguard. done.
Qed.

Lemma inactive_locked db auth i now :
  pu_is_active (auth_user auth) = false → ∀ e, locked_employment db auth i now ≠ Ok e.
Proof.
  unfold locked_employment. intros Ha e H. ok_inv H. by eapply inactive_employment.
Qed.

Lemma inactive_work db auth now w :
  pu_is_active (auth_user auth) = false → serve db (work_of auth now w) = db.
Proof.
  intros Ha. pose proof (inactive_employment db auth) as He. pose proof (inactive_locked db auth) as Hl.
  assert (K : ∀ m : result DB, (∀ x, m ≠ Ok x) → keep db m = db)
    by (intros [x|] Hm; [by destruct (Hm x)|done]).
  assert (K1 : ∀ A (m : result (DB * A)), (∀ x, m ≠ Ok x) → keep_fst db m = db)
    by (intros A [x|] Hm; [by destruct (Hm x)|done]).
  destruct w; simpl; (apply K || apply K1); intros x H.
  - unfold create_attendance_event in H. ok_inv H. by eapply Hl.
  - unfold update_attendance_event in H. ok_inv H. by eapply Hl.
  - unfold delete_attendance_event in H. ok_inv H. by eapply Hl.
  - unfold upsert_attendance_status in H. ok_inv H. by eapply Hl.
  - unfold portal_upsert_shift_plan in H. ok_inv H. by eapply He.
  - unfold portal_upsert_day_status in H. ok_inv H. by eapply He.
Qed.

Lemma closed_login p u now out : closed u → issue_portal_login p u now ≠ Ok out.
Proof.
  unfold issue_portal_login. intros Hc H. destruct out as [p' login]. ok_inv H.
  apply negb_false_iff in Hguard0. destruct Hc; congruence.
Qed.

(** The identity KajovoCML verified stands for open accounts only. *)
Lemma cml_user_open p rq now auth :
  rq_claims rq = true → rq_cml_user_id rq ≠ None → require_portal_user_auth p rq now = Ok auth →
  pu_is_active (auth_user auth) = true.
Proof.
  unfold require_portal_user_auth. intros -> Hn H. destruct (rq_cml_user_id rq); [|done].
  ok_inv H. injection H as <-. by bool_hyps.
Qed.

(** C4: a closed account stays closed.  A user who is blocked or deactivated
    does not sign in, neither with the right password nor, since every other
    sign-in ends in [issue_portal_login], by an external identity; no reset
    link is issued to them, and no link issued before works again, whatever
    happens later, not even once the account is open again.  The
    authentication of a request turns a blocked user away whether by cookie,
    bearer or KajovoCML, and a deactivated one by KajovoCML; and where a
    deactivated user is still let in, none of the six endpoints by which
    employees write their attendance and plans changes anything. *)
Theorem closed_account p u (H : accounts_inv p) (Hu : u ∈ users (p_db p)) (Hc : closed u) :
  (∀ now payload p' out, portal_login p now payload = (p', Ok out) →
     normalize_email (lg_email payload) ≠ pu_email u) ∧
  (∀ p' now out, issue_portal_login p' u now ≠ Ok out) ∧
  (∀ now raw_token, ∃ e, start_reset p now (pu_id u) raw_token = Err e) ∧
  (∀ r l now payload, r ∈ p_resets p → rt_user_id r = pu_id u →
     sha256 (ri_token payload) = rt_token_hash r →
     (∀ s, s ∈ p_resets p → rt_token_hash s = rt_token_hash r → s = r) →
     Forall (not_issuing (rt_token_hash r)) l → refused (run p l) now payload) ∧
  (∀ rq now auth, require_portal_user_auth p rq now = Ok auth → auth_user auth = u →
     pu_is_blocked u = false ∧ (rq_claims rq = false ∨ rq_cml_user_id rq = None) ∧
     ∀ w, step p (UserRequest rq now w) = p).
Proof.
  split_and!.
  - intros now payload p' out (v & Hv & He & Ha & Hb)%login_ok Heq.
    assert (v = u) as ->.
    { apply (NoDup_fmap_eq pu_email (users (p_db p))); [apply (keyed_key _ _ _ _ (ai_users _ H))|done|done|].
      congruence. }
    destruct Hc; congruence.
  - intros p' now out. by apply closed_login.
  - intros now raw_token. unfold start_reset, lock_portal_user. fold (get_user (p_db p) (pu_id u)).
    rewrite (get_user_in p u H Hu). cbn [or_raise rbind].
    destruct (pu_is_active u) eqn:Ha; [|by eexists]. destruct (pu_is_blocked u) eqn:Hb; [by eexists|].
    by destruct Hc; congruence.
  - intros r l now payload Hr Hid Hh Hone Hl. apply spent_refused. rewrite Hh. apply spent_run; [done|].
    intros s Hs Heq. rewrite (Hone s Hs Heq). destruct (usable_or_none p u H Hu) as [Hn|[Ha Hb]].
    + by apply Hn.
    + destruct Hc; congruence.
  - intros rq now auth Ha <-. pose proof (require_auth_ok _ _ _ _ Ha) as [_ Hb _]. split; [done|]. split.
    { destruct (rq_claims rq) eqn:Ec; [|by left]. right.
      destruct (rq_cml_user_id rq) as [i|] eqn:Ei; [|done].
      pose proof (cml_user_open p rq now auth Ec ltac:(congruence) Ha). destruct Hc; congruence. }
    intros w. simpl. rewrite Ha. unfold serve_portal.
    rewrite inactive_work by (destruct Hc; [done|congruence]). by destruct p.
Qed.
End Closed.
