(* ===== verification/UsersSpec.v ===== *)
(** * Creating and deleting users

    What a successful request of the administration of users does to every
    table, and why any other is refused. *)

From stdpp Require Import relations.
From S2P Require Import Prelude Calendar TimeParse PragueTime Models TimeMetrics Locks DayStatus AttendanceEvents.
From S2P Require Import AttendanceApi SystemInvariant Groups AdminEmployments EmploymentSafety Lockout Accounts.
From S2P Require Import Sessions Login LoginSafety AdminUsers PasswordReset Instances References AccountsSafety.
From S2P Require Import AccountsHandlers System PortalSystem ResetLinks RequestAuth.
#[local] Open Scope Z_scope.

Section Delete.
Context `{zone : PragueZone} `{!PragueZoneLaws zone} `{crypto : Crypto} `{signing : Signing}.

Lemma gone_with_true p i e :
  gone_with p i e = true ↔ ∃ x, x ∈ employments (p_db p) ∧ em_id x = e ∧ em_user_id x = i.
Proof.
  unfold gone_with. rewrite mem_true, list_elem_of_fmap. split.
  - intros (x & -> & [Hx Hi]%elem_of_where). exists x. by rewrite (proj1 (Z.eqb_eq _ _) Hi).
  - intros (x & Hx & <- & Hi). exists x. split; [done|]. apply elem_of_where. by rewrite Hi, Z.eqb_refl.
Qed.

Lemma gone_own p i x :
  NoDup (em_id <$> employments (p_db p)) → x ∈ employments (p_db p) →
  gone_with p i (em_id x) = false ↔ em_user_id x ≠ i.
Proof.
  intros Hn Hx. rewrite <- not_true_iff_false, gone_with_true. split.
  - intros H Hi. apply H. by exists x.
  - intros H (y & Hy & Hid & Hi). apply H. by rewrite <- (NoDup_fmap_eq em_id _ x y Hn Hx Hy Hid).
Qed.

(** The rows of the time data after the user is gone. *)
Record data_gone (gone : Z → bool) (db db' : DB) : Prop := {
  dg_employments : employments db' = delete_where (λ x, gone (em_id x)) (employments db);
  dg_events : events db' = delete_where (λ x, gone (ev_employment_id x)) (events db);
  dg_plans : ∀ e d, plan_content db' (e, d) = if gone e then [] else plan_content db (e, d);
  dg_status : ∀ e d, attendance_status db' (e, d) = if gone e then None else attendance_status db (e, d);
  dg_locks : ∀ lt e y m, is_month_locked db' lt e y m = negb (gone e) && is_month_locked db lt e y m;
  dg_metrics : metrics db' = delete_where (λ r, gone (dm_employment_id r)) (metrics db);
  dg_groups : groups db' = groups db ∧
    members db' = delete_where (λ m, gone (gm_employment_id m)) (members db);
}.

Lemma data_gone_delete gone db : data_gone gone db (delete_employment_rows gone db).
Proof.
  pose proof (rows_deleted_drops _ _ _ (deleted_rows gone db)) as D.
  pose proof (rd_cleared _ _ _ (deleted_rows gone db)) as C.
  constructor; try done.
  - intros e d. unfold plan_content. rewrite (drops_plan_rows _ _ _ D). simpl. by unfold gone_fact; destruct (gone e).
  - intros e d. unfold attendance_status. rewrite (drops_attendance_rows _ _ _ D). simpl.
    by unfold gone_fact; destruct (gone e).
  - intros lt e y m. apply eq_true_iff_eq. rewrite andb_true_iff, negb_true_iff, !is_month_locked_true.
    rewrite (cl_locks _ _ _ C). setoid_rewrite elem_of_delete_where.
    assert (Hk : ∀ k, dd_lock (rows_of gone) lt k = gone (lk_employment_id k)) by done.
    setoid_rewrite Hk. split.
    + intros (k & [Hk1 Hg] & <- & Hy). split; [done|]. by exists k.
    + intros [Hg (k & Hk1 & <- & Hy)]. exists k. destruct Hy. by split_and!.
Qed.

Lemma data_gone_users gone db db1 l : data_gone gone db db1 → data_gone gone db (set_users l db1).
Proof. intros [E Ev P A L M G]. by constructor. Qed.

Lemma data_gone_forget gone db db1 j : data_gone gone db db1 → data_gone gone db (forget_instance j db1).
Proof.
  intros [E Ev P A L M G]. constructor; try done.
  - intros e d. rewrite <- P. unfold plan_content. rewrite forget_plan_rows, <- list_fmap_compose.
    by apply list_fmap_ext.
  - intros e d. by rewrite forget_attendance_status.
  - intros lt e y m. by rewrite forget_month_locked.
Qed.

Lemma user_gone_data p p' i : user_gone p p' i → data_gone (gone_with p i) (p_db p) (p_db p').
Proof.
  intros [-> |[j ->]].
  - apply data_gone_users, data_gone_delete.
  - apply data_gone_users, data_gone_forget, data_gone_users, data_gone_delete.
Qed.

(** The instance of a user, by its key without surrounding spaces. *)
Definition is_instance_of (u : PortalUser) (x : Instance_) : Prop :=
  inst_id x = strip (default ""%string (pu_instance_id u)) ∧ inst_id x ≠ ""%string.
#[global] Instance is_instance_of_dec u x : Decision (is_instance_of u x).
Proof. unfold is_instance_of. apply _. Defined.

(** It stays, without its bearer, when it is no WEB instance or another user
    has it. *)
Definition instance_stays (p : Portal) (i : Z) (x : Instance_) : Prop :=
  inst_client_type x = WEB →
  ∃ v, v ∈ users (p_db p) ∧ pu_id v ≠ i ∧ pu_instance_id v = Some (inst_id x).

(** The instances after the user is gone. *)
Definition instances_left (p : Portal) (u : PortalUser) (y : Instance_) : Prop :=
  ∃ x, x ∈ p_instances p ∧
    if decide (is_instance_of u x) then instance_stays p (pu_id u) x ∧ y = with_bearer None None x else y = x.

Lemma get_instance_in p x : accounts_inv p → x ∈ p_instances p → get_instance p (inst_id x) = Some x.
Proof.
  intros H Hx. destruct (get_instance p (inst_id x)) as [y|] eqn:E.
  - apply get_instance_ok in E as [Hy Hyi]. f_equal.
    by apply (NoDup_fmap_eq inst_id (p_instances p)); [apply (ai_instances _ H)|..].
  - exfalso. apply (no_instance p (inst_id x)); [by rewrite E|]. by apply list_elem_of_fmap_2.
Qed.

(** The user's row is gone, and the bearer of the instance found. *)
Lemma unowned p p3 u x :
  (∀ v, v ∈ users (p_db p3) ↔ v ∈ users (p_db p) ∧ pu_id v ≠ pu_id u) →
  existsb (λ v, bool_decide (pu_instance_id v = Some (inst_id x))) (users (p_db p3)) = true ↔
  ∃ v, v ∈ users (p_db p) ∧ pu_id v ≠ pu_id u ∧ pu_instance_id v = Some (inst_id x).
Proof.
  intros Hv. rewrite existsb_exists. setoid_rewrite <- list_elem_of_In. setoid_rewrite Hv.
  setoid_rewrite bool_decide_eq_true. naive_solver.
Qed.

Lemma stays_iff p p3 u x z :
  accounts_inv p → (∀ v, v ∈ users (p_db p3) ↔ v ∈ users (p_db p) ∧ pu_id v ≠ pu_id u) →
  x ∈ p_instances p → z ∈ p_instances p → inst_id z = inst_id x →
  instance_stays p (pu_id u) z ↔ bool_decide (inst_client_type x = WEB) &&
    negb (existsb (λ v, bool_decide (pu_instance_id v = Some (inst_id x))) (users (p_db p3))) = false.
Proof.
  intros H Hu3 Hx Hz Hzx. assert (z = x) as -> by
    (by apply (NoDup_fmap_eq inst_id (p_instances p)); [apply (ai_instances _ H)|..]).
  rewrite andb_false_iff, bool_decide_eq_false, negb_false_iff, unowned by done.
  unfold instance_stays. destruct (decide (inst_client_type x = WEB)); naive_solver.
Qed.

Lemma delete_user_instances p i p' u :
  accounts_inv p → u ∈ users (p_db p) → pu_id u = i → delete_user p i = Ok p' →
  ∀ y, y ∈ p_instances p' ↔ instances_left p u y.
Proof.
  intros H Hu Hid Hc y. unfold delete_user, find_user in Hc. subst i.
  rewrite (get_user_in p u H Hu) in Hc. cbn [or_raise rbind] in Hc. injection Hc as <-.
  destruct (clear_account_inv (normalize_email (pu_email u)) p H) as (_ & E1 & _ & I1).
  set (p2 := delete_user_employments (pu_id u) _).
  assert (I2 : p_instances p2 = p_instances p) by exact I1.
  assert (Hg : ∀ k, get_instance p2 k = get_instance p k) by (intros k; unfold get_instance; by rewrite I2).
  unfold instances_left, is_instance_of. set (k := strip _). rewrite Hg.
  destruct (if String.eqb k "" then None else get_instance p k) as [x|] eqn:Ex.
  2:{ simpl. rewrite I1. split; [intros Hy; exists y|intros (x & Hx & Hy)]; case_decide as Hk; try by subst.
      - exfalso. destruct Hk as [Hk Hne]. rewrite <- Hk in Ex. apply String.eqb_neq in Hne.
        by rewrite Hne, (get_instance_in p y H Hy) in Ex.
      - exfalso. destruct Hk as [Hk Hne]. rewrite <- Hk in Ex. apply String.eqb_neq in Hne.
        by rewrite Hne, (get_instance_in p x H Hx) in Ex. }
  destruct (String.eqb k "") eqn:Hk; [done|]. apply get_instance_ok in Ex as [Hx Hxk]. apply String.eqb_neq in Hk.
  set (p3 := delete_user_row _ _).
  assert (H3 : ∀ y, y ∈ p_instances p3 ↔
    ∃ z, z ∈ p_instances p ∧ y = if String.eqb (inst_id z) (inst_id x) then with_bearer None None z else z).
  { intros y'. simpl. rewrite I1. apply elem_of_update_where. }
  assert (Hu3 : ∀ v, v ∈ users (p_db p3) ↔ v ∈ users (p_db p) ∧ pu_id v ≠ pu_id u).
  { intros v. simpl. rewrite E1. by rewrite elem_of_delete_where, Z.eqb_neq. }
  pose proof (λ z, stays_iff p p3 u x z H Hu3 Hx) as Hs.
  assert (Hd : ∀ z : Instance_, inst_id z = k ∧ inst_id z ≠ ""%string ↔ String.eqb (inst_id z) k = true)
    by (intros z; rewrite String.eqb_eq; naive_solver congruence).
  rewrite Hxk in *. unfold delete_user_instance. rewrite Hxk.
  destruct (bool_decide _ && _) eqn:Eb; [change (p_instances (delete_instance k p3)) with
    (delete_where (λ z, String.eqb (inst_id z) k) (p_instances p3)); rewrite elem_of_delete_where|];
    rewrite H3.
  - split.
    + intros [(z & Hz & ->) Hne]. exists z. split; [done|].
      destruct (String.eqb (inst_id z) k) eqn:E; [by simpl in Hne; rewrite E in Hne|].
      rewrite decide_False by (rewrite Hd; congruence). done.
    + intros (z & Hz & Hy). destruct (String.eqb (inst_id z) k) eqn:E.
      * apply String.eqb_eq in E. rewrite decide_True in Hy by (split; congruence). destruct Hy as [Hst _].
        by apply (Hs z Hz E) in Hst.
      * rewrite decide_False in Hy by (rewrite Hd; congruence). subst y. split; [|done]. exists z. by rewrite E.
  - assert (Hz' : ∀ z, z ∈ p_instances p →
      (if decide (inst_id z = k ∧ inst_id z ≠ ""%string) then instance_stays p (pu_id u) z ∧ y = with_bearer None None z
       else y = z) ↔ y = if String.eqb (inst_id z) k then with_bearer None None z else z).
    { intros z Hz. destruct (String.eqb (inst_id z) k) eqn:E.
      - apply String.eqb_eq in E. rewrite decide_True by (split; congruence). rewrite (Hs z Hz E). naive_solver.
      - rewrite decide_False by (rewrite Hd; congruence). done. }
    naive_solver.
Qed.

(** C22: deleting a user.  It fails only for a user that does not exist.
    Otherwise exactly the user's row, reset links and employments are gone,
    with every event, plan, status, lock, metric and group membership of
    those employments and no other, and the user's instance, when it is a WEB
    instance no other user has; any other instance of the user stays without
    its bearer.  The other users and the other instances are untouched, and
    the e-mail is free for a new account. *)
Theorem delete_user_spec p i (H : portal_inv p) :
  match delete_user p i with
  | Err e => e = user_not_found ∧ i ∉ pu_id <$> users (p_db p)
  | Ok p' =>
      ∃ u, u ∈ users (p_db p) ∧ pu_id u = i ∧ accounts_inv p' ∧
        (∀ v, v ∈ users (p_db p') ↔ v ∈ users (p_db p) ∧ pu_id v ≠ i) ∧
        (∀ x, x ∈ employments (p_db p') ↔ x ∈ employments (p_db p) ∧ em_user_id x ≠ i) ∧
        data_gone (gone_with p i) (p_db p) (p_db p') ∧
        (∀ r, r ∈ p_resets p' ↔ r ∈ p_resets p ∧ rt_user_id r ≠ i) ∧
        (∀ x, x ∈ p_instances p' ↔ instances_left p u x) ∧
        email_taken p' (pu_email u) None = false
  end.
Proof.
  destruct H as [Hdb Ha]. destruct (delete_user p i) as [p'|e] eqn:E.
  2:{ unfold delete_user in E. destruct (find_user p i) as [u|e'] eqn:Ef; [done|]. injection E as <-.
      unfold find_user in Ef. destruct (get_user (p_db p) i) eqn:Eg; [done|]. injection Ef as <-.
      split; [done|]. intros (u & -> & Hu)%list_elem_of_fmap. by rewrite (get_user_in p u Ha Hu) in Eg. }
  assert (Hf : ∃ u, find_user p i = Ok u).
  { unfold delete_user in E. destruct (find_user p i) as [u|]; [by exists u|done]. }
  destruct Hf as (u & [Hu Hid]%find_user_ok).
  destruct (delete_user_inv p i p' Ha E) as (Hi & _ & Hus & Hre & Hgone).
  pose proof (delete_user_instances p i p' u Ha Hu Hid E) as Hleft.
  pose proof (user_gone_data _ _ _ Hgone) as D. exists u.
  assert (Hv : ∀ v, v ∈ users (p_db p') ↔ v ∈ users (p_db p) ∧ pu_id v ≠ i).
  { intros v. by rewrite Hus, elem_of_delete_where, Z.eqb_neq. }
  split_and!; try done.
  - intros x. rewrite (dg_employments _ _ _ D), elem_of_delete_where.
    pose proof (inv_employments _ (si_inv _ Hdb)) as Hn. split.
    + intros [Hx Hg]. split; [done|]. by apply (gone_own p i x Hn Hx).
    + intros [Hx Hg]. split; [done|]. by apply (gone_own p i x Hn Hx).
  - intros r. by rewrite Hre, elem_of_delete_where, Z.eqb_neq.
  - unfold email_taken. rewrite existsb_false_elem. intros v [Hvin Hne]%Hv.
    rewrite andb_true_r. apply String.eqb_neq. intros He. apply Hne. rewrite <- Hid. f_equal.
    by apply (NoDup_fmap_eq pu_email (users (p_db p))); [apply (keyed_key _ _ _ _ (ai_users _ Ha))|..].
Qed.
End Delete.

Section Create.
Context `{zone : PragueZone} `{crypto : Crypto} `{laws : !CryptoLaws crypto}.

Lemma change_password_instances p u raw now p1 u1 :
  change_portal_password p u raw now = Some (p1, u1) →
  p_instances p1 = match pu_instance_id u with
    | None => p_instances p
    | Some i => update_where (λ x, String.eqb (inst_id x) i) (with_bearer None None) (p_instances p)
    end.
Proof.
  unfold change_portal_password. destruct (String.eqb (strip raw) ""); [done|].
  destruct (hash_password (strip raw)); [|done]. simpl. intros [= <- _].
  unfold revoke_instance_credential. simpl. by destruct (pu_instance_id u).
Qed.

(** Clearing the bearer of a new instance changes nothing. *)
Lemma fresh_bearer (l : list Instance_) inst :
  inst_id inst ∉ inst_id <$> l → with_bearer None None inst = inst →
  update_where (λ x, String.eqb (inst_id x) (inst_id inst)) (with_bearer None None) (l ++ [inst]) = l ++ [inst].
Proof.
  intros Hl Hi. unfold update_where. rewrite fmap_app. f_equal.
  - induction l as [|x l IH]; [done|]. rewrite fmap_cons.
    apply not_elem_of_cons in Hl as [Hx Hl]. rewrite IH by done. f_equal.
    destruct (String.eqb (inst_id x) (inst_id inst)) eqn:E; [|done]. apply String.eqb_eq in E. congruence.
  - simpl. by rewrite String.eqb_refl, Hi.
Qed.

Lemma change_password_none p u raw now :
  change_portal_password p u raw now = None →
  strip raw = ""%string ∨ 512 < Z.of_nat (String.length (strip raw)).
Proof.
  unfold change_portal_password, hash_password. destruct (String.eqb (strip raw) "") eqn:E.
  - left. by apply String.eqb_eq.
  - cbn [orb]. destruct (512 <? _) eqn:El; [|done]. right. by apply Z.ltb_lt.
Qed.

Lemma validated_password body vb pw :
  validate_user_create body = Ok vb → uc_password body = Some pw → Z.of_nat (String.length pw) <= 256.
Proof.
  unfold validate_user_create. intros H Hp. ok_inv H. rewrite Hp in Hguard. cbn [opt_all] in Hguard.
  unfold length_between in Hguard. bool_hyps. lia.
Qed.

(** The instance and the user a creation adds. *)
Definition new_instance (now : Z) (uuid : string) (body : PortalUserCreateIn) : Instance_ :=
  mk_instance uuid WEB ("user:" +:+ normalize_email (uc_email body)) INST_ACTIVE
    (Some (strip (uc_name body))) (Some now) None None None None now (Some now).

Record user_created (p p' : Portal) (now : Z) (uuid : string) (body : PortalUserCreateIn) (u : PortalUser)
    : Prop := {
  uc_inv : accounts_inv p';
  uc_users : ∀ v, v ∈ users (p_db p') ↔ v ∈ users (p_db p) ∨ v = u;
  uc_row : pu_id u = next_id (p_db p) ∧ pu_email u = normalize_email (uc_email body) ∧
    pu_name u = strip (uc_name body) ∧ pu_is_active u = uc_is_active body ∧ pu_is_blocked u = false ∧
    pu_instance_id u = Some uuid;
  uc_pass : match uc_password body with
    | None => pu_password_hash u = None
    | Some pw => ∃ h, pu_password_hash u = Some h ∧
        ∀ attempt, verify_password attempt h = true ↔ attempt = strip pw
    end;
  uc_instances : p_instances p' = p_instances p ++ [new_instance now uuid body];
  uc_database : users_only (p_db p) (p_db p');
}.

Lemma create_user_created p now uuid body p' out :
  accounts_inv p → create_user p now uuid body = Ok (p', out) → ∃ u, user_created p p' now uuid body u.
Proof.
  intros H Hc. pose proof (create_user_inv _ _ _ _ _ _ H Hc) as [Hi Hdb].
  unfold create_user, flush_instance in Hc. ok_inv Hc. rename v into vb.
  pose proof (validated_user _ _ Hstep) as (He & _ & Hname & Hpw & Hact).
  assert (Hem : normalize_email (uc_email vb) = normalize_email (uc_email body))
    by (rewrite He; apply normalize_email_idem).
  assert (Hnm : strip (uc_name vb) = strip (uc_name body)) by (rewrite Hname; apply strip_idem).
  rewrite Hem, Hnm, Hact, Hpw in *.
  set (user := mk_user _ _ _ _ _ _ _ _) in *. fold (new_instance now uuid body) in *.
  fold (added_user user (new_instance now uuid body) p) in Hstep1. destruct v1 as [p1 u1]. injection Hc as <- <-.
  pose proof (no_instance _ _ Hguard2) as Hout.
  assert (H1 : accounts_inv (added_user user (new_instance now uuid body) p)).
  { apply added_user_inv; try done; [apply normalize_email_idem|by apply negb_false_iff]. }
  pose proof (apply_password_ok _ _ _ _ _ _ H1 Hstep1) as (_ & Hdb1 & Id & In & Em & Ac & Bl & _ & Hcase).
  exists u1. constructor; try done.
  - intros v. simpl. rewrite Hdb1, elem_of_update_where. simpl. setoid_rewrite elem_of_app.
    setoid_rewrite list_elem_of_singleton.
    assert (Hold : ∀ w, w ∈ users (p_db p) → (pu_id w =? pu_id u1) = false).
    { intros w Hw. rewrite Id. apply Z.eqb_neq. simpl. pose proof (keyed_fresh _ _ _ _ (ai_users _ H)) as F.
      rewrite Forall_forall in F. specialize (F w Hw). lia. }
    split.
    + intros (w & [Hw| ->] & ->); [left; by rewrite Hold|right]. by rewrite Id, Z.eqb_refl.
    + intros [Hv| ->]; [exists v; rewrite Hold; auto|exists user]. rewrite Id, Z.eqb_refl. auto.
  - split_and!; try (by rewrite ?Id, ?Em, ?Ac, ?Bl, ?In).
    destruct Hcase as [(_ & _ & ->)|(pw & _ & C)]; [done|]. by rewrite (pc_user _ _ _ _ _ C).
  - destruct Hcase as [(-> & _ & ->)|(pw & -> & C)]; [done|].
    rewrite (pc_user _ _ _ _ _ C). rewrite strip_idem. eexists. split; [done|].
    intros attempt. apply argon2_only.
  - simpl. destruct (uc_password body) as [pw|]; simpl in Hstep1; [|by injection Hstep1 as <- _].
    destruct (String.eqb (strip pw) ""); [done|]. simpl in Hstep1. apply or_raise_ok in Hstep1.
    rewrite (change_password_instances _ _ _ _ _ _ Hstep1). simpl.
    by apply (fresh_bearer (p_instances p) (new_instance now uuid body)).
Qed.

(** C21: creating a user.  The request is refused for a body that does not
    validate, the reserved e-mail, a role other than employee, an e-mail that
    is taken, and a blank password.  It ends in an unhandled error exactly
    when the name has more than 128 characters or the e-mail more than 123,
    which the body allows, or when the new identifier is taken.  Otherwise it
    adds one user and one active instance of theirs; exactly the given
    password, if any, opens the account, and nothing else changes. *)
Theorem create_user_spec p now uuid body (H : accounts_inv p) :
  let email := normalize_email (uc_email body) in
  match create_user p now uuid body with
  | Ok (p', _) => ∃ u, user_created p p' now uuid body u
  | Err e =>
      (validate_user_create body = Err e) ∨
      (e = ApiError 400 "reserved_admin_email" ∧ email = RESERVED_ADMIN_EMAIL) ∨
      (e = ApiError 400 "invalid_user_role" ∧ uc_role body ≠ "employee"%string) ∨
      (e = ApiError 409 "user_email_exists" ∧ email ∈ pu_email <$> users (p_db p)) ∨
      (e = Crash "DataError" ∧
         (123 < Z.of_nat (String.length email) ∨ 128 < Z.of_nat (String.length (strip (uc_name body))))) ∨
      (e = Crash "IntegrityError" ∧ uuid ∈ inst_id <$> p_instances p) ∨
      (e = ApiError 400 "Heslo nesmi byt prazdne." ∧ ∃ pw, uc_password body = Some pw ∧ strip pw = ""%string)
  end.
Proof.
  cbn zeta. destruct (create_user p now uuid body) as [[p' out]|e] eqn:E; [by eapply create_user_created|].
  unfold create_user, flush_instance in E.
  destruct (validate_user_create body) as [vb|e'] eqn:Ev; [|left; f_equal; by injection E]. right. cbn [rbind] in E.
  pose proof (validated_user _ _ Ev) as (He & Hrole & Hname & Hpw & Hact).
  assert (Hem : normalize_email (uc_email vb) = normalize_email (uc_email body))
    by (rewrite He; apply normalize_email_idem).
  assert (Hnm : strip (uc_name vb) = strip (uc_name body)) by (rewrite Hname; apply strip_idem).
  rewrite Hem, Hnm, Hrole, Hpw in E.
  destruct (String.eqb _ RESERVED_ADMIN_EMAIL) eqn:E1.
  { left. injection E as <-. split; [done|by apply String.eqb_eq]. } right. cbn [guard rbind] in E.
  unfold parse_role in E. destruct (String.eqb (uc_role body) "employee") eqn:E2.
  2:{ left. injection E as <-. split; [done|by apply String.eqb_neq]. } right. cbn [or_raise rbind] in E.
  destruct (email_taken p (normalize_email (uc_email body)) None) eqn:E3.
  { left. injection E as <-. split; [done|]. unfold email_taken in E3. apply existsb_exists in E3 as (v & Hv & Hq).
    apply andb_true_iff in Hq as [Hq _]. apply String.eqb_eq in Hq. rewrite <- Hq.
    apply list_elem_of_fmap_2. by apply list_elem_of_In. }
  right. cbn [guard rbind] in E.
  destruct (instance_row_ok _) eqn:E4.
  2:{ left. injection E as <-. split; [done|]. unfold instance_row_ok in E4.
      cbn [inst_device_fingerprint inst_display_name opt_all] in E4.
      change (String.length ("user:" +:+ ?s)) with (5 + String.length s)%nat in E4.
      apply andb_false_iff in E4 as [E4|E4]; apply Z.leb_gt in E4; [left; lia|by right]. }
  right. cbn [negb guard rbind] in E.
  destruct (is_some (get_instance p uuid)) eqn:E5.
  { left. injection E as <-. split; [done|]. destruct (get_instance p uuid) as [x|] eqn:Ex; [|done].
    apply get_instance_ok in Ex as [Hx <-]. by apply list_elem_of_fmap_2. }
  right. cbn [guard rbind] in E. destruct (uc_password body) as [pw|] eqn:Epw; [|done]. simpl apply_password in E.
  destruct (String.eqb (strip pw) "") eqn:E6.
  { injection E as <-. split; [done|]. exists pw. by rewrite <- String.eqb_eq. }
  exfalso. cbn [guard rbind] in E.
  destruct (change_portal_password _ _ (strip pw) now) as [[p2 u2]|] eqn:E7; [done|].
  apply change_password_none in E7 as [E7|E7].
  - rewrite strip_idem in E7. by rewrite E7 in E6.
  - pose proof (validated_password _ _ _ Ev Epw) as Hlen. pose proof (strip_length pw).
    rewrite strip_idem in E7. lia.
Qed.
End Create.
