(* ===== verification/IpAddress.v ===== *)
(** * The standard library's [ipaddress], as the allow-lists use it

    [ip_address] and [ip_network(..., strict=False)] on text, equality of
    addresses and membership in a network; [None] stands for [ValueError]. *)

From S2P Require Import Prelude Calendar TimeParse.
#[local] Open Scope Z_scope.

(** [s.split(c)]. *)
Fixpoint split_on (c : ascii) (l cur : chars) : list chars :=
  match l with
  | [] => [rev cur]
  | x :: l' => if Ascii.eqb x c then rev cur :: split_on c l' [] else split_on c l' (x :: cur)
  end.

Definition is_nil {A} (l : list A) : bool := match l with [] => true | _ => false end.

(** ** IPv4 *)

Definition parse_octet (l : chars) : option Z :=
  if is_nil l || negb (forallb is_digit l) || (3 <? Z.of_nat (length l)) ||
     (match l with "0"%char :: _ :: _ => true | _ => false end) || (255 <? digits_value l)
  then None else Some (digits_value l).

(** The digits of a number, most significant first. *)
Definition number_of (base : Z) (l : list Z) : Z := fold_left (λ acc x, acc * base + x) l 0.

Definition ipv4_int (l : chars) : option Z :=
  let octets := split_on "." l [] in
  if (length octets =? 4)%nat then number_of 256 <$> mapM parse_octet octets else None.

(** ** IPv6 *)

Definition hex_value (c : ascii) : option Z :=
  if is_digit c then Some (digit_value c)
  else if (65 <=? code c) && (code c <=? 70) then Some (code c - 55)
  else if (97 <=? code c) && (code c <=? 102) then Some (code c - 87)
  else None.

(** A part between colons: text, or half of a trailing IPv4 address. *)
Definition ipv6_part : Type := chars + Z.

Definition part_empty (p : ipv6_part) : bool := match p with inl [] => true | _ => false end.

Definition parse_hextet (p : ipv6_part) : option Z :=
  match p with
  | inr n => Some n
  | inl l =>
      if is_nil l || (4 <? Z.of_nat (length l)) then None
      else number_of 16 <$> mapM hex_value l
  end.

(** The parts, with a dotted last one split into two numbers. *)
Definition ipv6_parts (l : chars) : option (list ipv6_part) :=
  let parts := split_on ":" l [] in
  if (length parts <? 3)%nat then None
  else
    let texts := inl <$> parts in
    match last parts with
    | Some tail =>
        if existsb (Ascii.eqb ".") tail then
          n ← ipv4_int tail;
          Some (removelast texts ++ [inr (Z.shiftr n 16); inr (Z.land n 65535)])
        else Some texts
    | None => None
    end.

(** The numbers of the parts from [::] on, left and right of it. *)
Definition ipv6_int (l : chars) : option Z :=
  parts ← ipv6_parts l;
  let n := length parts in
  if (9 <? n)%nat then None
  else
    match List.filter (λ i, match parts !! i with Some p => part_empty p | None => false end)
            (seq 1 (n - 2)) with
    | [] =>
        if negb (n =? 8)%nat then None else number_of 65536 <$> mapM parse_hextet parts
    | [k] =>
        let before := firstn k parts in
        let behind := skipn (S k) parts in
        let hi := if match parts with p :: _ => part_empty p | [] => false end
                  then if (k =? 1)%nat then Some [] else None else Some before in
        let lo := if match last parts with Some p => part_empty p | None => false end
                  then if (length behind =? 1)%nat then Some [] else None else Some behind in
        hi ← hi; lo ← lo;
        if (8 <=? length hi + length lo)%nat then None
        else
          high ← mapM parse_hextet hi; low ← mapM parse_hextet lo;
          Some (number_of 65536 (high ++ repeat 0 (8 - length hi - length lo) ++ low))
    | _ => None
    end.

(** ** Addresses *)

Inductive ip := V4 (n : Z) | V6 (n : Z) (scope : option string).

#[global] Instance ip_eq_dec : EqDecision ip.
Proof. solve_decision. Defined.

(** [addr, sep, scope_id = text.partition('%')]. *)
Definition split_scope_id (l : chars) : option (chars * option string) :=
  match split_on "%" l [] with
  | [addr] => Some (addr, None)
  | [addr; (_ :: _) as scope] => Some (addr, Some (string_of_list_ascii scope))
  | _ => None
  end.

Definition has_slash (l : chars) : bool := existsb (Ascii.eqb "/") l.

Definition ipv4_address (l : chars) : option ip := if has_slash l then None else V4 <$> ipv4_int l.
Definition ipv6_address (l : chars) : option ip :=
  if has_slash l then None
  else '(addr, scope) ← split_scope_id l; (λ n, V6 n scope) <$> ipv6_int addr.

Definition ip_address (s : string) : option ip :=
  let l := list_ascii_of_string s in
  match ipv4_address l with Some a => Some a | None => ipv6_address l end.

(** ** Networks *)

Record network := mk_network { net_v6 : bool; net_address : Z; net_mask : Z }.

Definition mask_of (width prefixlen : Z) : Z := Z.ones prefixlen * 2 ^ (width - prefixlen).

Definition prefix_from_prefix_string (width : Z) (l : chars) : option Z :=
  if is_nil l || negb (forallb is_digit l) || (width <? digits_value l)
  then None else Some (digits_value l).

(** A dotted netmask is a run of ones followed by zeros. *)
Definition prefix_from_ip_int (n : Z) : option Z :=
  find (λ p, n =? mask_of 32 p) (zrange 0 33).

Definition prefix_from_ip_string (l : chars) : option Z :=
  n ← ipv4_int l;
  match prefix_from_ip_int n with
  | Some p => Some p
  | None => prefix_from_ip_int (Z.lxor n (Z.ones 32))
  end.

Definition ipv4_network (addr : chars) (mask : option chars) : option network :=
  n ← ipv4_int addr;
  p ← match mask with
      | None => Some 32
      | Some m =>
          match prefix_from_prefix_string 32 m with
          | Some p => Some p
          | None => prefix_from_ip_string m
          end
      end;
  Some (mk_network false (Z.land n (mask_of 32 p)) (mask_of 32 p)).

Definition ipv6_network (addr : chars) (mask : option chars) : option network :=
  '(a, _) ← split_scope_id addr; n ← ipv6_int a;
  p ← match mask with None => Some 128 | Some m => prefix_from_prefix_string 128 m end;
  Some (mk_network true (Z.land n (mask_of 128 p)) (mask_of 128 p)).

Definition ip_network (s : string) : option network :=
  let build addr mask := match ipv4_network addr mask with
                         | Some n => Some n
                         | None => ipv6_network addr mask
                         end in
  match split_on "/" (list_ascii_of_string s) [] with
  | [addr] => build addr None
  | [addr; mask] => build addr (Some mask)
  | _ => None
  end.

Definition in_network (a : ip) (n : network) : bool :=
  match a with
  | V4 x => negb (net_v6 n) && (Z.land x (net_mask n) =? net_address n)
  | V6 x _ => net_v6 n && (Z.land x (net_mask n) =? net_address n)
  end.

(** ** Examples *)

Example dotted_quad : ip_address "192.168.1.20" = Some (V4 3232235796).
Proof. reflexivity. Qed.
Example leading_zero : ip_address "192.168.01.20" = None.
Proof. reflexivity. Qed.
Example loopback : ip_address "::1" = Some (V6 1 None).
Proof. reflexivity. Qed.
Example mapped : ip_address "::ffff:1.2.3.4%eth0" = Some (V6 281470698652420 (Some "eth0")%string).
Proof. vm_compute. reflexivity. Qed.
Example two_gaps : ip_address "1::2::3" = None.
Proof. reflexivity. Qed.
Example host_bits : ip_network "10.1.2.3/255.255.0.0" = ip_network "10.1.0.0/16".
Proof. vm_compute. reflexivity. Qed.
Example wildcard_mask : ip_network "10.1.2.3/0.0.255.255" = ip_network "10.1.0.0/16".
Proof. vm_compute. reflexivity. Qed.

