(* ===== verification/IntegrationClients.v ===== *)
(** * Integration clients: their tables, tokens and data scope

    The integration tables of db/models.py, security/integration_tokens.py and
    services/integration_scope.py.  [Gateway] is the portal with those tables
    and the in-memory buckets of the rate limiter.  The JSON columns of a
    client hold the lists the administration writes. *)

From stdpp Require Import gmap.
From S2P Require Import Prelude Calendar TimeParse PragueTime Models AttendanceEvents AttendanceApi.
From S2P Require Import EmploymentAccess Accounts Sessions Login Instances IpAddress.
#[local] Open Scope Z_scope.

(** ** db/models.py *)

Inductive IntegrationClientStatus := CLIENT_ACTIVE | CLIENT_DISABLED | CLIENT_REVOKED.
#[global] Instance IntegrationClientStatus_eq_dec : EqDecision IntegrationClientStatus.
Proof. solve_decision. Defined.

Record IntegrationClient := mk_client {
  ic_id : Z;
  ic_name : string;
  ic_status : IntegrationClientStatus;
  ic_scopes : list string;
  ic_allowed_employment_ids : list Z;
  ic_allowed_employee_ids : list Z;
  ic_data_scope_mode : string;
  ic_include_inactive_employments : bool;
  ic_ip_allowlist : list string;
  ic_expires_at : option Z;
  ic_last_used_at : option Z;
  ic_created_by : option string;
}.

Record IntegrationClientSecret := mk_secret {
  is_id : Z;
  is_client_id : Z;
  is_token_hash : string;
  is_token_prefix : string;
  is_token_last4 : string;
  is_token_fingerprint : string;
  is_rotated_at : option Z;
  is_revoked_at : option Z;
}.

(** The columns for write audits and the duration are filled by no modelled
    code, except with null. *)
Record IntegrationAuditLog := mk_audit {
  al_id : Z;
  al_client_id : option Z;
  al_request_id : string;
  al_requested_at : Z;
  al_method : string;
  al_path : string;
  al_query_hash : option string;
  al_source_ip : option string;
  al_user_agent : option string;
  al_status_code : Z;
  al_error_code : option string;
  al_row_count : option Z;
}.

Record Gateway := mk_gateway {
  g_portal : Portal;
  g_clients : list IntegrationClient;
  g_secrets : list IntegrationClientSecret;
  g_audit : list IntegrationAuditLog;
  g_buckets : gmap string (list Z);
  g_next : Z;
}.

Definition g_db (g : Gateway) : DB := p_db (g_portal g).

Definition set_g_portal (x : Portal) (g : Gateway) : Gateway :=
  mk_gateway x (g_clients g) (g_secrets g) (g_audit g) (g_buckets g) (g_next g).
Definition set_g_clients (x : list IntegrationClient) (g : Gateway) : Gateway :=
  mk_gateway (g_portal g) x (g_secrets g) (g_audit g) (g_buckets g) (g_next g).
Definition set_g_secrets (x : list IntegrationClientSecret) (g : Gateway) : Gateway :=
  mk_gateway (g_portal g) (g_clients g) x (g_audit g) (g_buckets g) (g_next g).
Definition set_g_audit (x : list IntegrationAuditLog) (g : Gateway) : Gateway :=
  mk_gateway (g_portal g) (g_clients g) (g_secrets g) x (g_buckets g) (g_next g).
Definition set_g_buckets (x : gmap string (list Z)) (g : Gateway) : Gateway :=
  mk_gateway (g_portal g) (g_clients g) (g_secrets g) (g_audit g) x (g_next g).
Definition set_g_next (x : Z) (g : Gateway) : Gateway :=
  mk_gateway (g_portal g) (g_clients g) (g_secrets g) (g_audit g) (g_buckets g) x.
Definition set_g_db (x : DB) (g : Gateway) : Gateway :=
  set_g_portal (set_p_db x (g_portal g)) g.

Definition get_client (g : Gateway) (i : Z) : option IntegrationClient :=
  one_or_none (where_ (λ c, ic_id c =? i) (g_clients g)).
Definition update_client (i : Z) (f : IntegrationClient → IntegrationClient) (g : Gateway) : Gateway :=
  set_g_clients (update_where (λ c, ic_id c =? i) f (g_clients g)) g.

Definition used_client (now : Z) (c : IntegrationClient) : IntegrationClient :=
  mk_client (ic_id c) (ic_name c) (ic_status c) (ic_scopes c) (ic_allowed_employment_ids c)
    (ic_allowed_employee_ids c) (ic_data_scope_mode c) (ic_include_inactive_employments c)
    (ic_ip_allowlist c) (ic_expires_at c) (Some now) (ic_created_by c).

(** ** security/integration_tokens.py *)

Definition TOKEN_PREFIX_LEN : nat := 16.
Definition TOKEN_FINGERPRINT_LEN : nat := 12.
Definition INTEGRATION_TOKEN_HUMAN_PREFIX : string := "dgi_".

Definition validate_integration_token_format (token : string) : bool :=
  starts_with INTEGRATION_TOKEN_HUMAN_PREFIX token &&
  (20 <=? Z.of_nat (String.length token)) && (Z.of_nat (String.length token) <=? 256).

(** [s[:n]] and [s[-n:]]. *)
Definition take_text (n : nat) (s : string) : string := substring 0 n s.
Definition last_text (n : nat) (s : string) : string :=
  substring (String.length s - n) n s.

Record IntegrationTokenRecord := mk_token_record {
  tr_token_prefix : string;
  tr_token_hash : string;
  tr_token_last4 : string;
  tr_token_fingerprint : string;
}.

Section Tokens.
Context `{crypto : Crypto}.

Definition token_prefix (token : string) : string := take_text TOKEN_PREFIX_LEN (sha256 token).
Definition token_fingerprint (token : string) : string :=
  take_text TOKEN_FINGERPRINT_LEN (sha256 ("fingerprint:" +:+ token)).

Definition hash_integration_token (token : string) : string := argon2_hash token.
Definition verify_secret_token (token stored_hash : string) : bool :=
  match argon2_verify stored_hash token with Some valid => valid | None => false end.

Definition build_token_record (token : string) : IntegrationTokenRecord :=
  mk_token_record (token_prefix token) (hash_integration_token token) (last_text 4 token)
    (token_fingerprint token).

Definition client_is_active (c : IntegrationClient) : bool :=
  bool_decide (ic_status c = CLIENT_ACTIVE).
Definition client_is_expired (c : IntegrationClient) (now : Z) : bool :=
  match ic_expires_at c with Some t => t <=? now | None => false end.

(** One entry of the allow-list; a malformed one is skipped. *)
Definition entry_allows (parsed_ip : ip) (candidate : string) : bool :=
  if existsb (Ascii.eqb "/") (list_ascii_of_string candidate) then
    match ip_network candidate with Some n => in_network parsed_ip n | None => false end
  else bool_decide (Some parsed_ip = ip_address candidate).

Definition ip_allowed (c : IntegrationClient) (source_ip : option string) : bool :=
  match ic_ip_allowlist c with
  | [] => true
  | allowlist =>
      match source_ip with
      | Some (String _ _ as s) =>
          match ip_address s with
          | Some parsed_ip => existsb (entry_allows parsed_ip) allowlist
          | None => false
          end
      | _ => false
      end
  end.

Definition client_disabled : api_error := ApiError 403 "client_disabled".
Definition ip_forbidden : api_error := ApiError 403 "ip_forbidden".

Definition newest_first (a b : IntegrationClientSecret) : bool := is_id b <=? is_id a.

(** The secrets the prefix of a token selects. *)
Definition token_candidates (g : Gateway) (raw_token : string) : list IntegrationClientSecret :=
  sorted_by newest_first
    (where_ (λ s, String.eqb (is_token_prefix s) (token_prefix raw_token) &&
                  negb (is_some (is_revoked_at s)) && is_some (get_client g (is_client_id s)))
      (g_secrets g)).

(** The first secret whose hash accepts the token decides. *)
Definition verify_integration_token (g : Gateway) (raw_token : string) (source_ip : option string)
    (now : Z) : result (option (IntegrationClient * IntegrationClientSecret)) :=
  if negb (validate_integration_token_format raw_token) then Ok None
  else
    match head (where_ (λ s, negb (String.eqb (is_token_hash s) "") &&
                             verify_secret_token raw_token (is_token_hash s))
                  (token_candidates g raw_token)) with
    | None => Ok None
    | Some s =>
        match get_client g (is_client_id s) with
        | None => Ok None
        | Some c =>
            guard (negb (client_is_active c)) client_disabled ?;;
            guard (client_is_expired c now) client_disabled ?;;
            guard (negb (ip_allowed c source_ip)) ip_forbidden ?;;
            Ok (Some (c, s))
        end
    end.

(** [touch_client_last_used] commits at once. *)
Definition touch_client_last_used (now : Z) (c : IntegrationClient) (g : Gateway) : Gateway :=
  update_client (ic_id c) (used_client now) g.
End Tokens.

(** ** Scopes (services/integration_admin.py) *)

Definition SCOPE_HEALTH : string := "integration:health".
Definition SCOPE_EMPLOYMENTS : string := "employments:read".
Definition SCOPE_SHIFT_PLAN : string := "shift_plan:read".
Definition SCOPE_ATTENDANCE : string := "attendance:read".
Definition SCOPE_ATTENDANCE_CREATE : string := "attendance:create".
Definition SCOPE_ATTENDANCE_UPDATE : string := "attendance:update".
Definition SCOPE_ATTENDANCE_DELETE : string := "attendance:delete".
Definition SCOPE_PUNCHES : string := "punches:read".
Definition SCOPE_LOCKS : string := "locks:read".
Definition SCOPE_OPENAPI : string := "openapi:read".
Definition SCOPE_CHANGES : string := "changes:read".

(** ** services/integration_scope.py *)

Definition DATA_SCOPE_ALL : string := "ALL_EMPLOYMENTS".
Definition DATA_SCOPE_ACTIVE_ONLY : string := "ALL_ACTIVE_EMPLOYMENTS".
Definition DATA_SCOPE_SELECTED_EMPLOYEES : string := "SELECTED_EMPLOYEES".
Definition DATA_SCOPE_SELECTED_EMPLOYMENTS : string := "SELECTED_EMPLOYMENTS".

(** The positive numbers, each once, in order. *)
Definition integer_ids (values : list Z) : list Z :=
  sorted_by Z.leb (dedup (where_ (λ v, 0 <? v) values)).

(** The condition on [start_date] and [end_date] as SQL has it. *)
Definition valid_now (current : date) (e : Employment) : bool :=
  (em_start_date e <=? current) &&
  match em_end_date e with None => true | Some last => current <=? last end.

Definition has_active_user (db : DB) (e : Employment) : bool :=
  match user_of db e with Some u => pu_is_active u | None => false end.

Definition employment_scope_predicate (db : DB) (c : IntegrationClient) (current : date)
    (e : Employment) : bool :=
  let mode := strip (ic_data_scope_mode c) in
  if String.eqb mode DATA_SCOPE_ALL then true
  else if String.eqb mode DATA_SCOPE_ACTIVE_ONLY then valid_now current e && has_active_user db e
  else if String.eqb mode DATA_SCOPE_SELECTED_EMPLOYEES then
    mem (em_user_id e) (integer_ids (ic_allowed_employee_ids c)) &&
    (ic_include_inactive_employments c || valid_now current e)
  else if String.eqb mode DATA_SCOPE_SELECTED_EMPLOYMENTS then
    mem (em_id e) (integer_ids (ic_allowed_employment_ids c))
  else false.

Definition insufficient_scope : api_error := ApiError 403 "insufficient_scope".

Definition require_employment_access (db : DB) (c : IntegrationClient) (current : date)
    (employment_id : Z) : result unit :=
  guard (is_nil (where_ (λ e, (em_id e =? employment_id) && employment_scope_predicate db c current e)
                   (employments db)))
    insufficient_scope.

(** ** Who sends a request: [require_integration_auth] of api/deps.py *)

Record IntegrationHttp := mk_integration_http {
  ih_request_id : string;
  ih_method : string;
  ih_path : string;
  ih_query : string;
  ih_authorization : option string;
  ih_x_real_ip : option string;
  ih_x_forwarded_for : option string;
  ih_host : option string;
  ih_user_agent : option string;
}.

(** [forwarded.split(",", 1)[0]]. *)
Fixpoint until_comma (l : chars) : chars :=
  match l with
  | [] => []
  | c :: rest => if Ascii.eqb c "," then [] else c :: until_comma rest
  end.

Definition get_source_ip (rq : IntegrationHttp) : option string :=
  match ih_x_real_ip rq with
  | Some (String _ _ as x) => Some (strip x)
  | _ =>
      match ih_x_forwarded_for rq with
      | Some (String _ _ as x) =>
          match strip (string_of_list_ascii (until_comma (list_ascii_of_string x))) with
          | EmptyString => None
          | first => Some first
          end
      | _ => ih_host rq
      end
  end.

Definition missing_token : api_error := ApiError 401 "missing_token".
Definition invalid_token : api_error := ApiError 401 "invalid_token".

Section Auth.
Context `{crypto : Crypto}.

(** The client of the request, as the request then sees it, and the state
    with the time of its last use committed. *)
Definition require_integration_auth (g : Gateway) (rq : IntegrationHttp) (now : Z)
    : result (Gateway * IntegrationClient) :=
  let? token := or_raise (bearer_from_auth_header (ih_authorization rq)) missing_token in
  let? found := verify_integration_token g token (get_source_ip rq) now in
  let? (c, _) := or_raise found invalid_token in
  Ok (touch_client_last_used now c g, used_client now c).
End Auth.
