(* ===== verification/Cursors.v ===== *)
(** * Cursors of the integration lists: api/integration_common.py

    A cursor is the base64 text of a JSON object.  Base64 is modelled as the
    standard library has it; [json] and the text of a [datetime] are the class
    [Interchange]. *)

From Stdlib Require Import QArith.
From S2P Require Import Prelude Calendar TimeParse PragueTime AttendanceEvents AttendanceApi Sessions IpAddress.
#[local] Open Scope Z_scope.

(** ** Base64 *)

(** The characters of the URL-safe alphabet. *)
Definition b64_char (n : Z) : ascii :=
  ascii_of_N (Z.to_N (if n <? 26 then n + 65 else if n <? 52 then n + 71
                      else if n <? 62 then n - 4 else if n =? 62 then 45 else 95)).

(** [urlsafe_b64decode] also reads the standard alphabet. *)
Definition b64_value (c : ascii) : option Z :=
  let n := code c in
  if (65 <=? n) && (n <=? 90) then Some (n - 65)
  else if (97 <=? n) && (n <=? 122) then Some (n - 71)
  else if (48 <=? n) && (n <=? 57) then Some (n + 4)
  else if (n =? 45) || (n =? 43) then Some 62
  else if (n =? 95) || (n =? 47) then Some 63
  else None.

(** [urlsafe_b64encode(...).rstrip("=")] on octets. *)
Fixpoint b64_encode (l : list Z) : chars :=
  match l with
  | a :: b :: c :: rest =>
      b64_char (a / 4) :: b64_char (a mod 4 * 16 + b / 16) ::
      b64_char (b mod 16 * 4 + c / 64) :: b64_char (c mod 64) :: b64_encode rest
  | [a; b] => [b64_char (a / 4); b64_char (a mod 4 * 16 + b / 16); b64_char (b mod 16 * 4)]
  | [a] => [b64_char (a / 4); b64_char (a mod 4 * 16)]
  | [] => []
  end.

(** [binascii.a2b_base64]: characters outside the alphabet are skipped, and
    enough padding ends the text.  [quad] characters of the current group of
    four were read, [left] are its bits not yet written. *)
Fixpoint a2b (l : chars) (quad left pads : Z) : option (list Z) :=
  match l with
  | [] => if quad =? 0 then Some [] else None
  | c :: rest =>
      if Ascii.eqb c "=" then
        if (2 <=? quad) && (4 <=? quad + (pads + 1)) then Some []
        else a2b rest quad left (if 2 <=? quad then pads + 1 else pads)
      else
        match b64_value c with
        | None => a2b rest quad left pads
        | Some v =>
            if quad =? 0 then a2b rest 1 v 0
            else if quad =? 1 then cons (left * 4 + v / 16) <$> a2b rest 2 (v mod 16) 0
            else if quad =? 2 then cons (left * 16 + v / 4) <$> a2b rest 3 (v mod 4) 0
            else cons (left * 64 + v) <$> a2b rest 0 0 0
        end
  end.

(** ["=" * (-len(cursor) % 4)]. *)
Definition padding (l : chars) : chars := repeat "="%char (Z.to_nat (- Z.of_nat (length l) mod 4)).

Definition octets_of (s : string) : list Z := code <$> list_ascii_of_string s.
Definition text_of (l : list Z) : string := string_of_list_ascii ((λ n, ascii_of_N (Z.to_N n)) <$> l).

(** ** JSON values *)

Inductive json :=
  | JNull
  | JBool (b : bool)
  | JInt (n : Z)
  | JFloat (q : option Q)
  | JString (s : string)
  | JList (l : list json)
  | JObject (fields : list (string * json)).

(** Values that [json.loads] reads back as they were. *)
Fixpoint json_plain (v : json) : bool :=
  match v with
  | JFloat _ => false
  | JList l => forallb json_plain l
  | JObject fields =>
      forallb (λ kv, json_plain kv.2) fields && bool_decide (NoDup (fst <$> fields))
  | _ => true
  end.

(** [json.dumps], [json.loads] ([None] when it raises), [isoformat] of an
    instant in UTC and [datetime.fromisoformat]. *)
Class Interchange := {
  dumps : json → string;
  loads : string → option json;
  datetime_text : Z → string;
  datetime_fromisoformat : string → option py_datetime;
}.

(** What was written reads back. *)
Class InterchangeLaws (interchange : Interchange) := {
  loads_dumps v : json_plain v = true → loads (dumps v) = Some v;
  dumps_ascii v : is_ascii (dumps v) = true;
  dumps_nonempty v : dumps v ≠ ""%string;
  fromisoformat_text t : datetime_fromisoformat (datetime_text t) = Some (Zoned t);
}.

Definition invalid_cursor : api_error := ApiError 400 "invalid_cursor".

(** The key of a dict that was read from JSON. *)
Fixpoint get_field (k : string) (fields : list (string * json)) : option json :=
  match fields with
  | [] => None
  | (k', v) :: rest => if String.eqb k k' then Some v else get_field k rest
  end.

(** [v == 1] in Python, where [True] and [1.0] equal one. *)
Definition json_is_one (v : json) : bool :=
  match v with
  | JInt n => n =? 1
  | JBool b => b
  | JFloat (Some q) => Qeq_bool q 1
  | _ => false
  end.

Definition json_is_text (s : string) (v : json) : bool :=
  match v with JString s' => String.eqb s s' | _ => false end.

(** The instants a [datetime] in UTC can hold: the years 1 to 9999. *)
Definition representable (t : Z) : bool :=
  (midnight (mk_date 1 1 1) <=? t) && (t <? midnight (mk_date 10000 1 1)).

Section Cursors.
Context `{interchange : Interchange}.

Definition encode_cursor (payload : json) : string :=
  string_of_list_ascii (b64_encode (octets_of (dumps payload))).

Definition decode_cursor (cursor : option string) : result (option (list (string * json))) :=
  match cursor with
  | Some (String _ _ as text) =>
      let l := list_ascii_of_string text in
      guard (negb (is_ascii text)) invalid_cursor ?;;
      let? raw := or_raise (a2b (l ++ padding l) 0 0 0) invalid_cursor in
      let? value := or_raise (loads (text_of raw)) invalid_cursor in
      match value with JObject fields => Ok (Some fields) | _ => Err invalid_cursor end
  | _ => Ok None
  end.

Definition cursor_payload (resource : string) (key : json) : json :=
  JObject [("v"%string, JInt 1); ("resource"%string, JString resource); ("key"%string, key)].

Definition encode_resource_cursor (resource : string) (key : json) : string :=
  encode_cursor (cursor_payload resource key).

(** A null key is the same as no cursor. *)
Definition decode_resource_cursor (cursor : option string) (resource : string)
    : result (option json) :=
  let? payload := decode_cursor cursor in
  match payload with
  | None => Ok None
  | Some fields =>
      guard (negb (from_option json_is_one false (get_field "v" fields)) ||
             negb (from_option (json_is_text resource) false (get_field "resource" fields)))
        invalid_cursor ?;;
      let? key := or_raise (get_field "key" fields) invalid_cursor in
      Ok (match key with JNull => None | k => Some k end)
  end.

(** ** The two kinds of keys (api/v1/integration.py) *)

Definition integer_cursor (cursor : option string) (resource : string) : result (option Z) :=
  let? key := decode_resource_cursor cursor resource in
  match key with
  | None => Ok None
  | Some (JInt n) => guard (n <? 1) invalid_cursor ?;; Ok (Some n)
  | Some _ => Err invalid_cursor
  end.

(** The instant and the row id; [astimezone] overflows outside the years 1 to
    9999. *)
Definition attendance_cursor (cursor : option string) : result (option (Z * Z)) :=
  let? key := decode_resource_cursor cursor "attendance-events" in
  match key with
  | None => Ok None
  | Some (JList [JString text; JInt n]) =>
      guard (n <? 1) invalid_cursor ?;;
      match datetime_fromisoformat text with
      | Some (Zoned t) =>
          guard (negb (representable t)) (Crash "OverflowError") ?;; Ok (Some (t, n))
      | _ => Err invalid_cursor
      end
  | Some _ => Err invalid_cursor
  end.

Definition event_cursor_key (t n : Z) : json := JList [JString (datetime_text t); JInt n].
End Cursors.

(** ** Round trips *)

Lemma b64_alphabet n : 0 <= n < 64 →
  b64_value (b64_char n) = Some n ∧ Ascii.eqb (b64_char n) "=" = false ∧ (code (b64_char n) <? 128) = true.
Proof.
  intros Hn.
  assert (H : forallb (λ n, bool_decide (b64_value (b64_char n) = Some n) &&
    negb (Ascii.eqb (b64_char n) "=") && (code (b64_char n) <? 128)) (zrange 0 64) = true) by (vm_compute; reflexivity).
  apply (forallb_zrange _ _ _ n) in H; [|simpl; lia].
  apply andb_prop in H as [[Hv He]%andb_prop Hc]. apply bool_decide_eq_true in Hv.
  apply negb_true_iff in He. by split_and!.
Qed.

Lemma a2b_step n rest quad left :
  0 <= n < 64 →
  a2b (b64_char n :: rest) quad left 0 =
    if quad =? 0 then a2b rest 1 n 0
    else if quad =? 1 then cons (left * 4 + n / 16) <$> a2b rest 2 (n mod 16) 0
    else if quad =? 2 then cons (left * 16 + n / 4) <$> a2b rest 3 (n mod 4) 0
    else cons (left * 64 + n) <$> a2b rest 0 0 0.
Proof. intros Hn. destruct (b64_alphabet n Hn) as (Hv & He & _). cbn [a2b]. by rewrite He, Hv. Qed.

Definition octet (n : Z) : Prop := 0 <= n < 256.

Lemma padding_cons4 a b c d l : padding (a :: b :: c :: d :: l) = padding l.
Proof. unfold padding. do 2 f_equal. simpl length. rewrite !Nat2Z.inj_succ. zdiv. Qed.

Lemma a2b_pad2 left : a2b ["="; "="]%char 2 left 0 = Some [].
Proof. reflexivity. Qed.
Lemma a2b_pad3 left : a2b ["="]%char 3 left 0 = Some [].
Proof. reflexivity. Qed.

(** Decoding what was encoded and padded gives the octets back. *)
Lemma a2b_encode l : Forall octet l → a2b (b64_encode l ++ padding (b64_encode l)) 0 0 0 = Some l.
Proof.
  induction l as [[|a [|b [|c l]]] IH] using (induction_ltof1 _ (@length Z)); intros Hl.
  - done.
  - apply Forall_cons in Hl as [Ha _]. unfold octet in *. cbn [b64_encode app].
    change (padding _) with ["="; "="]%char. rewrite !a2b_step by zdiv. cbn [Z.eqb Pos.eqb].
    rewrite a2b_pad2. cbn. do 2 f_equal. zdiv.
  - apply Forall_cons in Hl as [Ha Hl]. apply Forall_cons in Hl as [Hb _]. unfold octet in *.
    cbn [b64_encode app]. change (padding _) with ["="]%char. rewrite !a2b_step by zdiv.
    cbn [Z.eqb Pos.eqb]. rewrite a2b_pad3. cbn.
    do 2 f_equal; [zdiv|]. f_equal. zdiv.
  - apply Forall_cons in Hl as [Ha Hl]. apply Forall_cons in Hl as [Hb Hl].
    apply Forall_cons in Hl as [Hc Hl]. unfold octet in *. cbn [b64_encode app].
    rewrite padding_cons4. rewrite !a2b_step by zdiv. cbn [Z.eqb Pos.eqb].
    rewrite IH by (try done; unfold ltof; simpl; lia). cbn. do 2 f_equal; [zdiv|]. f_equal; [zdiv|].
    f_equal. zdiv.
Qed.

Lemma b64_text l : Forall octet l → Forall (λ c, (code c <? 128) = true) (b64_encode l).
Proof.
  induction l as [[|a [|b [|c l]]] IH] using (induction_ltof1 _ (@length Z)); intros Hl;
    rewrite ?Forall_cons in Hl; unfold octet in *; cbn [b64_encode];
    repeat (apply Forall_cons; split); try apply Forall_nil; try (apply b64_alphabet; zdiv); try done.
  apply IH; [unfold ltof; simpl; lia|apply Hl].
Qed.

Lemma octets_octet s : Forall octet (octets_of s).
Proof.
  unfold octets_of, octet, code. apply Forall_fmap, Forall_forall. intros c _. simpl.
  pose proof (N_ascii_bounded c). lia.
Qed.

Lemma text_octets s : text_of (octets_of s) = s.
Proof.
  unfold text_of, octets_of. rewrite <- list_fmap_compose.
  rewrite <- (string_of_list_ascii_of_string s) at 2. f_equal.
  rewrite <- (list_fmap_id (list_ascii_of_string s)) at 2. apply list_fmap_ext. intros _ c _. simpl.
  unfold code. by rewrite N2Z.id, ascii_N_embedding.
Qed.

Section RoundTrips.
Context `{interchange : Interchange} `{!InterchangeLaws interchange}.

Lemma cursor_ascii v : is_ascii (encode_cursor v) = true.
Proof.
  unfold is_ascii, encode_cursor. rewrite list_ascii_of_string_of_list_ascii.
  apply forallb_elem. intros c Hc. pose proof (b64_text _ (octets_octet (dumps v))) as H.
  rewrite Forall_forall in H. by apply H.
Qed.

Lemma cursor_nonempty v : encode_cursor v ≠ ""%string.
Proof.
  unfold encode_cursor. pose proof (dumps_nonempty v) as Hn.
  destruct (dumps v) as [|a [|b [|c s]]]; [done|discriminate..].
Qed.

(** A payload written into a cursor is read back. *)
Lemma decode_encode_cursor fields :
  json_plain (JObject fields) = true →
  decode_cursor (Some (encode_cursor (JObject fields))) = Ok (Some fields).
Proof.
  intros Hp. pose proof (cursor_nonempty (JObject fields)) as Hn.
  pose proof (cursor_ascii (JObject fields)) as Ha. unfold decode_cursor.
  destruct (encode_cursor _) as [|c s] eqn:E; [done|]. rewrite Ha, <- E. unfold encode_cursor.
  rewrite list_ascii_of_string_of_list_ascii, a2b_encode by apply octets_octet. cbn [or_raise rbind guard negb].
  rewrite text_octets, loads_dumps by done. done.
Qed.

Lemma decode_encode_resource resource key :
  json_plain key = true → key ≠ JNull →
  decode_resource_cursor (Some (encode_resource_cursor resource key)) resource = Ok (Some key).
Proof.
  intros Hp Hk. unfold decode_resource_cursor, encode_resource_cursor, cursor_payload.
  rewrite decode_encode_cursor by (simpl; rewrite Hp; reflexivity).
  cbn. rewrite String.eqb_refl. cbn. by destruct key.
Qed.

Lemma integer_cursor_encode resource n :
  1 <= n → integer_cursor (Some (encode_resource_cursor resource (JInt n))) resource = Ok (Some n).
Proof.
  intros Hn. unfold integer_cursor. rewrite decode_encode_resource by done. simpl.
  by rewrite (proj2 (Z.ltb_ge _ _)).
Qed.

Lemma attendance_cursor_encode t n :
  1 <= n → representable t = true →
  attendance_cursor (Some (encode_resource_cursor "attendance-events" (event_cursor_key t n))) = Ok (Some (t, n)).
Proof.
  intros Hn Ht. unfold attendance_cursor. rewrite decode_encode_resource by done. simpl.
  rewrite (proj2 (Z.ltb_ge _ _)) by done. simpl. by rewrite fromisoformat_text, Ht.
Qed.
End RoundTrips.
