(* ===== verification/IntegrationCatalog.v ===== *)
(** * The catalogue of the integration administration

    The constant tables of services/integration_admin.py: scopes, permission
    profiles, restriction modes and their labels. *)

From S2P Require Import Prelude IntegrationClients.
#[local] Open Scope string_scope.
#[local] Open Scope Z_scope.

Definition NAME_MIN_LENGTH : Z := 3.
Definition NAME_MAX_LENGTH : Z := 80.

Definition IP_RESTRICTION_NONE : string := "NONE".
Definition IP_RESTRICTION_SERVER_MANAGED : string := "SERVER_MANAGED".

Definition EXPIRATION_NONE : string := "NONE".
Definition EXPIRATION_30_DAYS : string := "DAYS_30".
Definition EXPIRATION_90_DAYS : string := "DAYS_90".
Definition EXPIRATION_1_YEAR : string := "YEAR_1".
Definition EXPIRATION_CUSTOM : string := "CUSTOM_DATE".

Definition PERMISSION_PROFILE_HEALTH : string := "HEALTH_ONLY".
Definition PERMISSION_PROFILE_ATTENDANCE : string := "ATTENDANCE_READ".
Definition PERMISSION_PROFILE_FULL_READONLY : string := "FULL_READONLY".

Record ScopeDefinition := mk_scope_definition {
  sd_id : string;
  sd_label : string;
  sd_description : string;
  sd_data_access : string;
  sd_when_to_enable : string;
  sd_risk : string;
  sd_available : bool;
  sd_unavailable_reason : option string;
}.

Definition SCOPE_DEFINITIONS : list ScopeDefinition :=
  [mk_scope_definition SCOPE_HEALTH
     "Kontrola dostupnosti API"
     "Umožní ověřit, že integrační token funguje a rozhraní je dostupné."
     "Vrací jen technický health check bez provozních dat."
     "Zapněte vždy, když externí partner potřebuje sledovat dostupnost integrace."
     "Nízké riziko. Partner nezíská osobní údaje ani docházková data."
     true None;
   mk_scope_definition SCOPE_EMPLOYMENTS
     "Čtení zaměstnanců a úvazků"
     "Zpřístupní seznam zaměstnanců a jejich úvazků v povoleném rozsahu."
     "Vrací identifikátory zaměstnanců, employment_id, názvy úvazků a stav aktivity."
     "Zapněte při prvotním párování lidí a úvazků v cílovém systému."
     "Střední riziko. Partner získá seznam osob a pracovních vztahů."
     true None;
   mk_scope_definition SCOPE_SHIFT_PLAN
     "Čtení plánu služeb"
     "Umožní číst rozpis směn a volitelné měsíční zámky v povoleném rozsahu."
     "Vrací plánované příchody a odchody podle employment_id."
     "Nelze zapnout, dokud nebude implementovaný a vynucený odpovídající endpoint."
     "Střední riziko. Partner získá budoucí pracovní rozvrh lidí."
     false (Some "Endpoint plánu služeb není v této verzi integračního API dostupný."%string);
   mk_scope_definition SCOPE_ATTENDANCE
     "Čtení průchodů"
     "Umožní číst skutečně evidované chronologické průchody."
     "Vrací skutečné příchody a odchody podle employment_id."
     "Zapněte pro mzdy, reporting nebo přenos skutečně odpracované doby."
     "Vyšší riziko. Partner získá citlivá provozní data o docházce."
     true None;
   mk_scope_definition SCOPE_ATTENDANCE_CREATE
     "Vytváření průchodů"
     "Umožní založit nový průchod pro existující employment_id a čas."
     "Smí vytvořit pouze průchod. Nevytváří zaměstnance, uživatele ani úvazky."
     "Zapněte jen pokud externí systém skutečně zapisuje docházku a má jasný proces pro duplicitní pokusy."
     "Vysoké riziko. Partner může založit nový docházkový záznam v povoleném rozsahu."
     true None;
   mk_scope_definition SCOPE_ATTENDANCE_UPDATE
     "Úprava průchodů"
     "Umožní měnit časy existujícího průchodu v povoleném rozsahu."
     "Smí upravovat pouze uložené časy průchodů. Nemění zaměstnance, úvazky, plány služeb ani zámky."
     "Zapněte jen pokud partner potřebuje opravovat nebo doplňovat docházku a umí pracovat s konflikty změn."
     "Vysoké riziko. Partner může změnit existující docházkový záznam."
     true None;
   mk_scope_definition SCOPE_ATTENDANCE_DELETE
     "Mazání průchodů"
     "Umožní odstranit existující průchod v povoleném rozsahu."
     "Smí mazat pouze průchody. Nemá oprávnění spravovat zaměstnance, úvazky, plány služeb ani zámky."
     "Zapněte jen pokud je mazání nezbytné a partner má řízený auditovaný proces oprav."
     "Kritické riziko. Partner může smazat docházkový záznam; používejte pouze po výslovném schválení správce."
     true None;
   mk_scope_definition SCOPE_PUNCHES
     "Čtení odvozených průchodů"
     "Umožní číst odvozené události příchod/odchod vytvořené z docházky."
     "Vrací odvozené průchody ARRIVAL a DEPARTURE podle attendance dat."
     "Nelze zapnout, dokud nebude implementovaný a vynucený odpovídající endpoint."
     "Vyšší riziko. Partner získá detailnější provozní průběh dne."
     false (Some "Samostatný endpoint odvozených průchodů není v této verzi dostupný."%string);
   mk_scope_definition SCOPE_LOCKS
     "Čtení měsíčních zámků"
     "Umožní číst, které měsíce jsou uzamčené proti změnám."
     "Vrací stav uzamčení měsíců podle employment_id."
     "Zapněte, když partner potřebuje rozlišit uzavřené a otevřené období."
     "Nízké až střední riziko. Jde o provozní metadata nad docházkou."
     true None;
   mk_scope_definition SCOPE_OPENAPI
     "Čtení chráněné OpenAPI dokumentace"
     "Umožní stáhnout strojově čitelné OpenAPI schéma integračního API."
     "Vrací jen dokumentaci endpointů, ne provozní data zaměstnanců."
     "Zapněte, pokud partner napojuje klienta automatizovaně z OpenAPI."
     "Nízké riziko. Partner získá jen technický popis API."
     true None;
   mk_scope_definition SCOPE_CHANGES
     "Změnová synchronizace"
     "Volba je připravená pro budoucí change feed, ale v této verzi ještě není dostupná."
     "V této verzi nevrací žádná data, protože endpoint není implementovaný."
     "Nezapínejte. Pokud partner změnovou synchronizaci potřebuje, je nutné ji doplnit zvlášť."
     "Bez provozního dopadu, protože endpoint není dostupný."
     false (Some "Není v této verzi podporováno."%string)].

(** [SCOPE_BY_ID.get(scope)]. *)
Definition scope_by_id (scope : string) : option ScopeDefinition :=
  List.find (λ d, String.eqb (sd_id d) scope) SCOPE_DEFINITIONS.

Definition PERMISSION_PROFILES : list (string * list string) :=
  [(PERMISSION_PROFILE_HEALTH, [SCOPE_HEALTH]);
   (PERMISSION_PROFILE_ATTENDANCE, [SCOPE_HEALTH; SCOPE_EMPLOYMENTS; SCOPE_ATTENDANCE; SCOPE_LOCKS]);
   (PERMISSION_PROFILE_FULL_READONLY,
    [SCOPE_HEALTH; SCOPE_EMPLOYMENTS; SCOPE_ATTENDANCE; SCOPE_LOCKS; SCOPE_OPENAPI])].

Definition PERMISSION_PROFILE_LABELS : list (string * string) :=
  [(PERMISSION_PROFILE_HEALTH, "Pouze kontrola dostupnosti"%string);
   (PERMISSION_PROFILE_ATTENDANCE, "Čtení průchodů a zámků"%string);
   (PERMISSION_PROFILE_FULL_READONLY, "Kompletní read-only integrace"%string)].

Definition DATA_SCOPE_LABELS : list (string * string) :=
  [(DATA_SCOPE_ALL, "Všechny úvazky"%string);
   (DATA_SCOPE_ACTIVE_ONLY, "Všechny aktivní úvazky"%string);
   (DATA_SCOPE_SELECTED_EMPLOYEES, "Pouze vybraní zaměstnanci"%string);
   (DATA_SCOPE_SELECTED_EMPLOYMENTS, "Pouze vybrané úvazky"%string)].

Definition IP_RESTRICTION_LABELS : list (string * string) :=
  [(IP_RESTRICTION_NONE, "Bez IP omezení"%string);
   (IP_RESTRICTION_SERVER_MANAGED, "IP omezení spravuje administrátor serveru mimo toto UI"%string)].

(** The value of the enumeration. *)
Definition client_status_value (s : IntegrationClientStatus) : string :=
  match s with
  | CLIENT_ACTIVE => "ACTIVE"
  | CLIENT_DISABLED => "DISABLED"
  | CLIENT_REVOKED => "REVOKED"
  end.

Definition CLIENT_STATUS_LABELS : list (string * string) :=
  [(client_status_value CLIENT_ACTIVE, "Aktivní"%string);
   (client_status_value CLIENT_DISABLED, "Deaktivovaná"%string);
   (client_status_value CLIENT_REVOKED, "Revokovaná"%string);
   ("EXPIRED"%string, "Expirovaná"%string)].

(** [table[key]] of a constant table. *)
Fixpoint label_of (table : list (string * string)) (key : string) : option string :=
  match table with
  | [] => None
  | (k, v) :: rest => if String.eqb k key then Some v else label_of rest key
  end.

(** The routes of api/v1/integration.py and the scope each needs. *)
Definition INTEGRATION_SCOPE_ROUTES : list (string * list (string * string)) :=
  [(SCOPE_HEALTH, [("GET", "/health")%string]);
   (SCOPE_OPENAPI, [("GET", "/openapi.json")%string]);
   (SCOPE_EMPLOYMENTS, [("GET", "/employments")%string]);
   (SCOPE_ATTENDANCE, [("GET", "/attendance-events")%string]);
   (SCOPE_ATTENDANCE_CREATE, [("POST", "/attendance-events")%string]);
   (SCOPE_ATTENDANCE_UPDATE, [("PATCH", "/attendance-events/{event_id}")%string]);
   (SCOPE_ATTENDANCE_DELETE, [("DELETE", "/attendance-events/{event_id}")%string]);
   (SCOPE_LOCKS, [("GET", "/locks")%string])].
