(* ===== verification/IntegrationAdmin.v ===== *)
(** * The administration of integration clients

    services/integration_admin.py and api/v1/admin_integrations.py.  The raw
    octets of a new token are an argument, drawn from [secrets] by the code.
    Every error is the status and the code the handlers of main.py send; the
    columns [created_at] and [updated_at] are left out of the lists. *)

From stdpp Require Import gmap pretty.
From S2P Require Import Prelude Calendar TimeParse Format PragueTime Models AttendanceEvents EmploymentAccess AttendanceApi.
From S2P Require Import AdminEmployments Accounts Sessions Login AdminUsers IpAddress IntegrationClients Cursors IntegrationCatalog.
#[local] Open Scope Z_scope.

Definition admin_invalid : api_error := ApiError 400 "invalid_request".
Definition name_conflict : api_error := ApiError 409 "conflict".
Definition client_missing : api_error := ApiError 404 "not_found".

(** ** Validation *)

Definition normalize_string_list (values : list string) : list string :=
  sorted_by String.leb (dedup (where_ (λ s, negb (String.eqb s "")) (strip <$> values))).

(** [[0-9A-Za-z\u00C0-\u024F _-]] on the code points below 256. *)
Definition name_char (c : ascii) : bool :=
  is_digit c || ((65 <=? code c) && (code c <=? 90)) || ((97 <=? code c) && (code c <=? 122)) ||
  (192 <=? code c) || Ascii.eqb c " " || Ascii.eqb c "_" || Ascii.eqb c "-".

(** [sub in s]. *)
Definition contains (sub s : string) : bool := is_some (String.index 0 sub s).

Definition validate_client_name (raw_name : string) : result string :=
  let name := strip raw_name in
  guard (Z.of_nat (String.length name) <? NAME_MIN_LENGTH) admin_invalid ?;;
  guard (NAME_MAX_LENGTH <? Z.of_nat (String.length name)) admin_invalid ?;;
  guard (existsb (λ c, code c <? 32) (list_ascii_of_string name)) admin_invalid ?;;
  guard (negb (forallb name_char (list_ascii_of_string name))) admin_invalid ?;;
  let lowered := lower name in
  guard (contains "http://" lowered || contains "https://" lowered || contains "www." lowered)
    admin_invalid ?;;
  guard (contains "<" name || contains ">" name) admin_invalid ?;;
  guard (existsb (λ p, starts_with p lowered) ["dgi_"; "dg_"; "sk-"; "token"; "secret"]%string)
    admin_invalid ?;;
  Ok name.

Definition validate_scopes (raw_scopes : list string) : result (list string) :=
  let scopes := normalize_string_list raw_scopes in
  for_each (λ scope,
    let? definition := or_raise (scope_by_id scope) admin_invalid in
    guard (negb (sd_available definition)) admin_invalid) scopes ?;;
  guard (is_nil scopes) admin_invalid ?;;
  guard (negb (mem SCOPE_HEALTH scopes)) admin_invalid ?;;
  Ok scopes.

(** [date()] of an instant in UTC. *)
Definition utc_date (t : Z) : date := date_of_wall t.

Definition expiration_from_choice (choice : string) (custom_date : option date) (now : Z)
    : result (option Z) :=
  if String.eqb choice EXPIRATION_NONE then Ok None
  else if String.eqb choice EXPIRATION_30_DAYS then Ok (Some (now + 30 * us_per_day))
  else if String.eqb choice EXPIRATION_90_DAYS then Ok (Some (now + 90 * us_per_day))
  else if String.eqb choice EXPIRATION_1_YEAR then Ok (Some (now + 365 * us_per_day))
  else if String.eqb choice EXPIRATION_CUSTOM then
    let? d := or_raise custom_date admin_invalid in
    guard (d <=? utc_date now) admin_invalid ?;;
    Ok (Some (midnight d + (us_per_day - 1)))
  else Err admin_invalid.

Definition between (lo hi n : Z) : bool := (lo <=? n) && (n <=? hi).

Definition expiration_choice_from_datetime (expires_at : option Z) (now : Z)
    : string * option date :=
  match expires_at with
  | None => (EXPIRATION_NONE, None)
  | Some t =>
      let delta_days := utc_date t - utc_date now in
      if between 28 31 delta_days then (EXPIRATION_30_DAYS, Some (utc_date t))
      else if between 88 92 delta_days then (EXPIRATION_90_DAYS, Some (utc_date t))
      else if between 360 370 delta_days then (EXPIRATION_1_YEAR, Some (utc_date t))
      else (EXPIRATION_CUSTOM, Some (utc_date t))
  end.

(** The common form of both selections: known ids, each once, in order. *)
Definition validate_selected (known : Z → bool) (ids : list Z) : result (list Z) :=
  guard (is_nil ids) admin_invalid ?;;
  let normalized := sorted_by Z.leb (dedup ids) in
  guard (existsb (λ i, negb (known i)) normalized) admin_invalid ?;;
  Ok normalized.

Definition validate_selected_employee_ids (db : DB) (ids : list Z) : result (list Z) :=
  validate_selected (λ i, mem i (pu_id <$> users db)) ids.
Definition validate_selected_employment_ids (db : DB) (ids : list Z) : result (list Z) :=
  validate_selected (λ i, mem i (em_id <$> employments db)) ids.

(** ** What a client is shown as *)

(** [", ".join(parts)]. *)
Definition join_comma (parts : list string) : string := String.concat ", " parts.

Definition scope_labels (scopes : list string) : list string :=
  omap (λ s, sd_label <$> scope_by_id s) scopes.

Definition summarize_scopes (scopes : list string) : string :=
  match scopes with
  | [] => "Žádná oprávnění"
  | _ => match scope_labels scopes with [] => join_comma scopes | labels => join_comma labels end
  end.

Definition client_status_key (c : IntegrationClient) (now : Z) : string :=
  if client_is_expired c now then "EXPIRED" else client_status_value (ic_status c).

Definition client_status_label (c : IntegrationClient) (now : Z) : string :=
  default "Neznámý stav"%string (label_of CLIENT_STATUS_LABELS (client_status_key c now)).

Definition infer_ip_restriction_mode (c : IntegrationClient) : string :=
  if is_nil (ic_ip_allowlist c) then IP_RESTRICTION_NONE else IP_RESTRICTION_SERVER_MANAGED.

Definition DATA_SCOPE_MODES : list string :=
  [DATA_SCOPE_ALL; DATA_SCOPE_ACTIVE_ONLY; DATA_SCOPE_SELECTED_EMPLOYEES;
   DATA_SCOPE_SELECTED_EMPLOYMENTS].

Definition infer_data_scope_mode (c : IntegrationClient) : string :=
  let raw_mode := strip (ic_data_scope_mode c) in
  if mem raw_mode DATA_SCOPE_MODES then raw_mode
  else if negb (is_nil (ic_allowed_employee_ids c)) then DATA_SCOPE_SELECTED_EMPLOYEES
  else if negb (is_nil (ic_allowed_employment_ids c)) then DATA_SCOPE_SELECTED_EMPLOYMENTS
  else DATA_SCOPE_ALL.

Definition data_scope_summary (c : IntegrationClient) : string :=
  let mode := infer_data_scope_mode c in
  let count {A} (l : list A) := pretty (Z.of_nat (length l)) in
  if String.eqb mode DATA_SCOPE_SELECTED_EMPLOYEES then
    "Vybraní zaměstnanci (" +:+ count (ic_allowed_employee_ids c) +:+ ") - " +:+
    (if ic_include_inactive_employments c then "včetne neaktivních úvazků" else "jen aktivní úvazky")
  else if String.eqb mode DATA_SCOPE_SELECTED_EMPLOYMENTS then
    "Vybrané úvazky (" +:+ count (ic_allowed_employment_ids c) +:+ ")"
  else if String.eqb mode DATA_SCOPE_ACTIVE_ONLY then "Všechny aktivní úvazky"
  else "Všechny úvazky".

Definition allowed_actions_for_client (c : IntegrationClient) (now : Z) : list string :=
  let status_key := client_status_key c now in
  ["rotate"%string] ++
  (if mem status_key ["ACTIVE"; "EXPIRED"]%string then ["disable"%string] else []) ++
  (if String.eqb status_key "DISABLED" then ["enable"%string] else []) ++
  (if negb (String.eqb status_key "REVOKED") then ["revoke"%string] else []).

Record AuditSummary := mk_audit_summary {
  as_request_count : Z;
  as_last_error : option (Z * option string * Z);
  as_last_source_ip : option string;
  as_last_path : option string;
}.

Definition newest_audit (a b : IntegrationAuditLog) : bool :=
  (al_requested_at b <? al_requested_at a) ||
  ((al_requested_at a =? al_requested_at b) && (al_id b <=? al_id a)).

Definition mask_ip (s : string) : string :=
  if 6 <? Z.of_nat (String.length s) then take_text 6 s +:+ "..." else s.

Definition build_recent_audit_summary (g : Gateway) (client_id : Z) : AuditSummary :=
  let rows := firstn 20 (sorted_by newest_audit
    (where_ (λ r, bool_decide (al_client_id r = Some client_id)) (g_audit g))) in
  let last_error := head (where_ (λ r, truthy (al_error_code r) || (400 <=? al_status_code r)) rows) in
  mk_audit_summary (Z.of_nat (length rows))
    ((λ r, (al_status_code r, al_error_code r, al_requested_at r)) <$> last_error)
    (r ← head rows; match al_source_ip r with
                    | Some (String _ _ as s) => Some (mask_ip s)
                    | _ => None
                    end)
    (al_path <$> head rows).

Definition count_active_clients (g : Gateway) : Z :=
  Z.of_nat (length (where_ client_is_active (g_clients g))).

Definition find_permission_profile (scope_ids : list string) : option string :=
  fst <$> List.find (λ p, bool_decide (sorted_by String.leb p.2 = sorted_by String.leb scope_ids))
    PERMISSION_PROFILES.

(** [client.secrets], and the newest that is not revoked. *)
Definition secrets_of (g : Gateway) (client_id : Z) : list IntegrationClientSecret :=
  where_ (λ s, is_client_id s =? client_id) (g_secrets g).
Definition active_secret (g : Gateway) (client_id : Z) : option IntegrationClientSecret :=
  head (where_ (λ s, negb (is_some (is_revoked_at s))) (sorted_by newest_first (secrets_of g client_id))).

Record ClientConfiguration := mk_configuration {
  cc_selected_scope_ids : list string;
  cc_permission_profile_id : option string;
  cc_data_scope_mode : string;
  cc_selected_employee_ids : list Z;
  cc_selected_employment_ids : list Z;
  cc_include_inactive_employments : bool;
  cc_ip_restriction_mode : string;
  cc_expiration_choice : string;
  cc_custom_expiration_date : option string;
}.

Record ClientListItem := mk_list_item {
  cl_id : Z;
  cl_name : string;
  cl_status : string;
  cl_status_label : string;
  cl_scopes : list string;
  cl_scope_labels : list string;
  cl_scope_summary : string;
  cl_data_scope_summary : string;
  cl_ip_restriction_mode : string;
  cl_ip_restriction_summary : string;
  cl_expires_at : option Z;
  cl_last_used_at : option Z;
  cl_created_by : option string;
  cl_active_secret_fingerprint : option string;
  cl_active_secret_last4 : option string;
  cl_available_actions : list string;
}.

Record ClientDetail := mk_client_detail {
  cd_item : ClientListItem;
  cd_configuration : ClientConfiguration;
  cd_audit_summary : AuditSummary;
}.

Definition serialize_configuration (c : IntegrationClient) (now : Z) : ClientConfiguration :=
  let '(choice, custom_date) := expiration_choice_from_datetime (ic_expires_at c) now in
  mk_configuration (ic_scopes c) (find_permission_profile (ic_scopes c)) (infer_data_scope_mode c)
    (ic_allowed_employee_ids c) (ic_allowed_employment_ids c) (ic_include_inactive_employments c)
    (infer_ip_restriction_mode c) choice (isoformat <$> custom_date).

Definition serialize_list_item (g : Gateway) (now : Z) (c : IntegrationClient) : ClientListItem :=
  let secret := active_secret g (ic_id c) in
  let status := client_status_key c now in
  mk_list_item (ic_id c) (ic_name c) status
    (default (client_status_label c now) (label_of CLIENT_STATUS_LABELS status))
    (ic_scopes c) (scope_labels (ic_scopes c)) (summarize_scopes (ic_scopes c))
    (data_scope_summary c) (infer_ip_restriction_mode c)
    (default ""%string (label_of IP_RESTRICTION_LABELS (infer_ip_restriction_mode c)))
    (ic_expires_at c) (ic_last_used_at c) (ic_created_by c)
    (is_token_fingerprint <$> secret) (is_token_last4 <$> secret) (allowed_actions_for_client c now).

Definition serialize_detail (g : Gateway) (now : Z) (c : IntegrationClient) : ClientDetail :=
  mk_client_detail (serialize_list_item g now c) (serialize_configuration c now)
    (build_recent_audit_summary g (ic_id c)).

(** ** Endpoints *)

Record IntegrationClientIn := mk_client_in {
  xi_name : string;
  xi_selected_scope_ids : list string;
  xi_data_scope_mode : string;
  xi_selected_employee_ids : list Z;
  xi_selected_employment_ids : list Z;
  xi_include_inactive_employments : bool;
  xi_ip_restriction_mode : string;
  xi_expiration_choice : string;
  xi_custom_expiration_date : option date;
}.

(** [Field(min_length=..., max_length=...)] of the body's name. *)
Definition body_invalid (body : IntegrationClientIn) : bool :=
  negb (length_between NAME_MIN_LENGTH NAME_MAX_LENGTH (xi_name body)).

(** The allowed employees, the allowed employments and whether inactive
    employments are included, by the chosen mode. *)
Definition chosen_data_scope (db : DB) (body : IntegrationClientIn)
    : result (list Z * list Z * bool) :=
  let mode := xi_data_scope_mode body in
  if String.eqb mode DATA_SCOPE_SELECTED_EMPLOYEES then
    let? ids := validate_selected_employee_ids db (xi_selected_employee_ids body) in
    Ok (ids, [], xi_include_inactive_employments body)
  else if String.eqb mode DATA_SCOPE_SELECTED_EMPLOYMENTS then
    let? ids := validate_selected_employment_ids db (xi_selected_employment_ids body) in
    Ok ([], ids, false)
  else Ok ([], [], String.eqb mode DATA_SCOPE_ALL).

Definition apply_payload_to_client (db : DB) (now : Z) (c : IntegrationClient)
    (body : IntegrationClientIn) : result IntegrationClient :=
  let? name := validate_client_name (xi_name body) in
  let? scopes := validate_scopes (xi_selected_scope_ids body) in
  guard (negb (mem (xi_data_scope_mode body) DATA_SCOPE_MODES)) admin_invalid ?;;
  let? (employee_ids, employment_ids, include_inactive) := chosen_data_scope db body in
  guard (negb (mem (xi_ip_restriction_mode body)
    [IP_RESTRICTION_NONE; IP_RESTRICTION_SERVER_MANAGED])) admin_invalid ?;;
  let unrestricted := String.eqb (xi_ip_restriction_mode body) IP_RESTRICTION_NONE in
  guard (negb unrestricted && is_nil (ic_ip_allowlist c)) admin_invalid ?;;
  let? expires_at := expiration_from_choice (xi_expiration_choice body)
    (xi_custom_expiration_date body) now in
  Ok (mk_client (ic_id c) name (ic_status c) scopes employment_ids employee_ids
        (xi_data_scope_mode body) include_inactive (if unrestricted then [] else ic_ip_allowlist c)
        expires_at (ic_last_used_at c) (ic_created_by c)).

Definition with_status (status : IntegrationClientStatus) (c : IntegrationClient) : IntegrationClient :=
  mk_client (ic_id c) (ic_name c) status (ic_scopes c) (ic_allowed_employment_ids c)
    (ic_allowed_employee_ids c) (ic_data_scope_mode c) (ic_include_inactive_employments c)
    (ic_ip_allowlist c) (ic_expires_at c) (ic_last_used_at c) (ic_created_by c).

(** The revoked secrets of a client; a rotation marks them rotated too. *)
Definition revoke_secret (now : Z) (rotated : bool) (s : IntegrationClientSecret)
    : IntegrationClientSecret :=
  mk_secret (is_id s) (is_client_id s) (is_token_hash s) (is_token_prefix s) (is_token_last4 s)
    (is_token_fingerprint s) (if rotated then Some now else is_rotated_at s) (Some now).
Definition revoke_secrets_of (client_id now : Z) (rotated : bool) (g : Gateway) : Gateway :=
  set_g_secrets (update_where (λ s, (is_client_id s =? client_id) && negb (is_some (is_revoked_at s)))
    (revoke_secret now rotated) (g_secrets g)) g.

Section Endpoints.
Context `{crypto : Crypto}.

(** [generate_integration_token], from its random octets. *)
Definition generate_integration_token (raw : list Z) : string :=
  INTEGRATION_TOKEN_HUMAN_PREFIX +:+ string_of_list_ascii (b64_encode raw).

Definition add_secret (client_id : Z) (token : string) (g : Gateway) : Gateway :=
  let r := build_token_record token in
  set_g_next (g_next g + 1)
    (set_g_secrets (g_secrets g ++
      [mk_secret (g_next g) client_id (tr_token_hash r) (tr_token_prefix r) (tr_token_last4 r)
         (tr_token_fingerprint r) None None]) g).

Definition client_or_404 (g : Gateway) (client_id : Z) : result IntegrationClient :=
  or_raise (get_client g client_id) client_missing.

(** The last read of the endpoints: [_get_client_or_404] and the detail. *)
Definition detail_of (g : Gateway) (now client_id : Z) : result (Gateway * ClientDetail) :=
  let? c := client_or_404 g client_id in Ok (g, serialize_detail g now c).
Definition detail_with_token (g : Gateway) (now client_id : Z) (token : string)
    : result (Gateway * (ClientDetail * string)) :=
  let? c := client_or_404 g client_id in Ok (g, (serialize_detail g now c, token)).

Definition name_taken (g : Gateway) (name : string) (other_than : option Z) : bool :=
  existsb (λ c, String.eqb (ic_name c) name && negb (bool_decide (Some (ic_id c) = other_than)))
    (g_clients g).

Definition blank_client (id : Z) (name : string) : IntegrationClient :=
  mk_client id name CLIENT_ACTIVE [] [] [] "" false [] None None (Some "admin-web"%string).

Definition create_integration_client (g : Gateway) (now : Z) (raw : list Z)
    (body : IntegrationClientIn) : result (Gateway * (ClientDetail * string)) :=
  guard (body_invalid body) admin_invalid ?;;
  let? name := validate_client_name (xi_name body) in
  guard (name_taken g name None) name_conflict ?;;
  let? c := apply_payload_to_client (g_db g) now (blank_client (g_next g) name) body in
  let g1 := set_g_next (g_next g + 1) (set_g_clients (g_clients g ++ [c]) g) in
  let token := generate_integration_token raw in
  detail_with_token (add_secret (ic_id c) token g1) now (ic_id c) token.

Definition update_integration_client (g : Gateway) (now client_id : Z) (body : IntegrationClientIn)
    : result (Gateway * ClientDetail) :=
  guard (body_invalid body) admin_invalid ?;;
  let? c := client_or_404 g client_id in
  let? name := validate_client_name (xi_name body) in
  guard (name_taken g name (Some client_id)) name_conflict ?;;
  let? c' := apply_payload_to_client (g_db g) now c body in
  detail_of (update_client client_id (λ _, c') g) now client_id.

Definition rotate_integration_client_secret (g : Gateway) (now client_id : Z) (raw : list Z)
    : result (Gateway * (ClientDetail * string)) :=
  let? c := client_or_404 g client_id in
  let token := generate_integration_token raw in
  let g1 := add_secret (ic_id c) token (revoke_secrets_of client_id now true g) in
  let g2 := if bool_decide (ic_status c = CLIENT_REVOKED)
            then update_client client_id (with_status CLIENT_ACTIVE) g1 else g1 in
  detail_with_token g2 now client_id token.

Definition disable_integration_client (g : Gateway) (now client_id : Z)
    : result (Gateway * ClientDetail) :=
  let? _ := client_or_404 g client_id in
  detail_of (update_client client_id (with_status CLIENT_DISABLED) g) now client_id.

Definition enable_integration_client (g : Gateway) (now client_id : Z)
    : result (Gateway * ClientDetail) :=
  let? c := client_or_404 g client_id in
  guard (is_nil (ic_scopes c)) admin_invalid ?;;
  detail_of (update_client client_id (with_status CLIENT_ACTIVE) g) now client_id.

Definition revoke_integration_client_secret (g : Gateway) (now client_id : Z)
    : result (Gateway * ClientDetail) :=
  let? _ := client_or_404 g client_id in
  detail_of (update_client client_id (with_status CLIENT_REVOKED)
               (revoke_secrets_of client_id now false g)) now client_id.

(** ** Lists and options; [name_leb] is the collation of the database *)

Definition client_leb (name_leb : string → string → bool) (a b : IntegrationClient) : bool :=
  if String.eqb (ic_name a) (ic_name b) then ic_id a <=? ic_id b else name_leb (ic_name a) (ic_name b).

Definition list_integration_clients (name_leb : string → string → bool) (g : Gateway) (now : Z)
    : list ClientListItem :=
  serialize_list_item g now <$> sorted_by (client_leb name_leb) (g_clients g).

Definition get_integration_client_detail (g : Gateway) (now client_id : Z) : result ClientDetail :=
  let? c := client_or_404 g client_id in Ok (serialize_detail g now c).
End Endpoints.
