(* ===== verification/IntegrationOptions.v ===== *)
(** * What the form of an integration client offers

    [build_employee_options] and [build_employment_options] of
    services/integration_admin.py and [get_integration_client_options] of
    api/v1/admin_integrations.py. *)

From stdpp Require Import pretty.
From S2P Require Import Prelude Calendar TimeParse Format PragueTime Models AttendanceEvents EmploymentAccess AttendanceApi.
From S2P Require Import AdminEmployments Accounts AdminUsers IntegrationClients IntegrationCatalog IntegrationAdmin.
#[local] Open Scope Z_scope.

Record EmployeeOption := mk_employee_option {
  eo_id : Z;
  eo_label : string;
  eo_email : string;
  eo_is_active : bool;
  eo_employment_count : Z;
  eo_active_employment_count : Z;
  eo_employment_labels : list string;
}.

Record EmploymentOption := mk_employment_option {
  mo_id : Z;
  mo_user_id : Z;
  mo_label : string;
  mo_employment_type : string;
  mo_start_date : string;
  mo_end_date : option string;
  mo_is_active : bool;
}.

Record PermissionProfileOut := mk_profile_out {
  pp_id : string;
  pp_label : string;
  pp_description : string;
  pp_scopes : list string;
}.

(** [DataScopeModeOut], [RestrictionModeOut] and [ExpirationOptionOut]: the
    flag is the last field of each. *)
Record ChoiceOut := mk_choice {
  ch_id : string;
  ch_label : string;
  ch_description : string;
  ch_flag : bool;
}.

Record StatusOut := mk_status_out {
  so_id : string;
  so_label : string;
  so_description : string;
  so_count_hint : option Z;
}.

Record ClientOptions := mk_options {
  op_min_length : Z;
  op_max_length : Z;
  op_allowed_hint : string;
  op_forbidden_hint : string;
  op_scopes : list ScopeDefinition;
  op_permission_profiles : list PermissionProfileOut;
  op_data_scope_modes : list ChoiceOut;
  op_employees : list EmployeeOption;
  op_employments : list EmploymentOption;
  op_ip_restriction_modes : list ChoiceOut;
  op_expiration_options : list ChoiceOut;
  op_statuses : list StatusOut;
}.

(** A label of a constant table. *)
Definition label_in (table : list (string * string)) (key : string) : string :=
  default ""%string (label_of table key).

Section Options.
Context `{zone : PragueZone} (name_leb : string → string → bool).

Definition employee_option (db : DB) (today : date) (u : PortalUser) : EmployeeOption :=
  let own := sorted_by by_start (where_ (λ e, em_user_id e =? pu_id u) (employments db)) in
  let label := match strip (pu_name u) with
    | EmptyString =>
        match strip (pu_email u) with
        | EmptyString => "Uživatel " +:+ pretty (pu_id u)
        | email => email
        end
    | name => name
    end in
  mk_employee_option (pu_id u) label (strip (pu_email u)) (pu_is_active u)
    (Z.of_nat (length own))
    (Z.of_nat (length (where_ (λ e, employment_is_currently_valid e today) own)))
    ((λ e, employment_label db e (Some (pu_name u))) <$> own).

Definition build_employee_options (db : DB) (now : Z) : list EmployeeOption :=
  employee_option db (prague_today (Zoned now)) <$> sorted_by (user_leb name_leb) (users db).

Definition employment_option (db : DB) (today : date) (e : Employment) : EmploymentOption :=
  mk_employment_option (em_id e) (em_user_id e) (employment_label db e (pu_name <$> user_of db e))
    (employment_type_value (em_employment_type e)) (isoformat (em_start_date e))
    (isoformat <$> em_end_date e) (employment_is_currently_valid e today).

Definition build_employment_options (db : DB) (now : Z) : list EmploymentOption :=
  employment_option db (prague_today (Zoned now)) <$> sorted_by by_start (employments db).

Definition permission_profile_options : list PermissionProfileOut :=
  (λ p, mk_profile_out p.1 (label_in PERMISSION_PROFILE_LABELS p.1)
          ("Předvyplní oprávnění: " +:+ summarize_scopes p.2 +:+ ".") p.2) <$> PERMISSION_PROFILES.

Definition data_scope_mode_options : list ChoiceOut :=
  let choice id description flag := mk_choice id (label_in DATA_SCOPE_LABELS id) description flag in
  [choice DATA_SCOPE_ACTIVE_ONLY "Dynamicky zpřístupní všechny aktuálně aktivní úvazky."%string false;
   choice DATA_SCOPE_SELECTED_EMPLOYEES
     "Správce vybere konkrétní osoby. Data se dál vedou podle employment_id."%string true;
   choice DATA_SCOPE_SELECTED_EMPLOYMENTS
     "Správce vybere přesné employment_id reprezentované lidskými popisky úvazků."%string false;
   choice DATA_SCOPE_ALL
     "Kompatibilitní režim pro stávající klienty. Zahrne i neaktivní úvazky."%string false].

Definition ip_restriction_mode_options : list ChoiceOut :=
  [mk_choice IP_RESTRICTION_NONE (label_in IP_RESTRICTION_LABELS IP_RESTRICTION_NONE)
     "Klient nebude omezen zdrojovou IP adresou." true;
   mk_choice IP_RESTRICTION_SERVER_MANAGED
     (label_in IP_RESTRICTION_LABELS IP_RESTRICTION_SERVER_MANAGED)
     "Použijte jen tehdy, když technický správce nastaví allowlist mimo tuto administraci." false].

Definition expiration_options : list ChoiceOut :=
  [mk_choice EXPIRATION_NONE "Bez expirace" "Token platí do ruční změny stavu nebo rotace." false;
   mk_choice EXPIRATION_30_DAYS "30 dní" "Vhodné pro krátkodobé ověření nebo onboarding partnera." false;
   mk_choice EXPIRATION_90_DAYS "90 dní" "Rozumná výchozí volba pro pilotní provoz." false;
   mk_choice EXPIRATION_1_YEAR "1 rok" "Vhodné pro stabilní dlouhodobé napojení." false;
   mk_choice EXPIRATION_CUSTOM "Vlastní datum" "Vyberte konkrétní den v date pickeru." true].

Definition status_options (active_clients : Z) : list StatusOut :=
  let status id description hint := mk_status_out id (label_in CLIENT_STATUS_LABELS id) description hint in
  [status (client_status_value CLIENT_ACTIVE)
     "Klient může používat token a volat povolené endpointy."%string (Some active_clients);
   status (client_status_value CLIENT_DISABLED)
     "Klient zůstává uložený, ale tokeny jsou dočasně neplatné."%string None;
   status (client_status_value CLIENT_REVOKED)
     "Aktivní tokeny byly zneplatněny a klient vyžaduje novou rotaci nebo nové vytvoření."%string None;
   status "EXPIRED"%string
     "Klient má nastavenou minulou expiraci a token už nelze použít."%string None].

Definition get_integration_client_options (g : Gateway) (now : Z) : ClientOptions :=
  mk_options NAME_MIN_LENGTH NAME_MAX_LENGTH "Písmena, číslice, mezery, pomlčky a podtržítka."
    "Bez URL adres, HTML značek, tokenů a tajných údajů." SCOPE_DEFINITIONS permission_profile_options
    data_scope_mode_options (build_employee_options (g_db g) now)
    (build_employment_options (g_db g) now) ip_restriction_mode_options expiration_options
    (status_options (count_active_clients g)).
End Options.
