(* ===== verification/IntegrationApi.v ===== *)
(** * app/api/v1/integration.py: the partner's interface

    Reading in pages and writing attendance events inside the scope of a
    client.  The writes are the portal's, with the client's access in place of
    the signed-in user's and no check of the future. *)

From stdpp Require Import gmap pretty.
From S2P Require Import Prelude Calendar TimeParse PragueTime Models TimeIntervals Locks EmploymentAccess.
From S2P Require Import DayStatus AttendanceEvents MonthSummary AttendanceApi.
From S2P Require Import RateLimit Accounts Sessions Instances IpAddress IntegrationClients Cursors.
#[local] Open Scope Z_scope.

Definition integration_not_found : api_error := ApiError 404 "not_found".
Definition invalid_request : api_error := ApiError 400 "invalid_request".

Definition require_scope (c : IntegrationClient) (scope : string) : result unit :=
  guard (negb (mem scope (ic_scopes c))) insufficient_scope.

(** ** Pages *)

Record Page (A : Type) := mk_page {
  pg_data : list A;
  pg_limit : Z;
  pg_has_more : bool;
  pg_next_cursor : option string;
}.
#[global] Arguments mk_page {A}.
#[global] Arguments pg_data {A}.
#[global] Arguments pg_limit {A}.
#[global] Arguments pg_has_more {A}.
#[global] Arguments pg_next_cursor {A}.

Record EmploymentPayload := mk_employment_payload {
  ey_id : Z;
  ey_employee_id : Z;
  ey_title : string;
  ey_employment_type : string;
  ey_label : string;
  ey_start_date : date;
  ey_end_date : option date;
  ey_is_active : bool;
  ey_total_hours_enabled : bool;
  ey_automatic_breaks_enabled : bool;
  ey_afternoon_hours_enabled : bool;
  ey_afternoon_start_minutes : option Z;
  ey_night_hours_enabled : bool;
  ey_weekend_hours_enabled : bool;
  ey_public_holiday_hours_enabled : bool;
}.

(** The column [updated_at], read back as [last_changed_at], is left out. *)
Record EventPayload := mk_event_payload {
  ep_id : Z;
  ep_employment_id : Z;
  ep_occurred_at : aware;
}.

Record LockPayload := mk_lock_payload {
  lp_employment_id : Z;
  lp_attendance_locked : bool;
  lp_shift_plan_locked : bool;
}.

Section Reading.
Context `{zone : PragueZone} `{interchange : Interchange}.

Definition page {A} (rows : list A) (limit : Z) (resource : string) (cursor_key : json) : Page A :=
  let has_more := limit <? Z.of_nat (length rows) in
  let page_rows := firstn (Z.to_nat limit) rows in
  mk_page page_rows limit has_more
    (if has_more && negb (is_nil page_rows) then Some (encode_resource_cursor resource cursor_key)
     else None).

(** [rows[min(limit, len(rows)) - 1]]. *)
Definition last_row {A} (limit : Z) (rows : list A) : option A :=
  rows !! (Nat.min (Z.to_nat limit) (length rows) - 1)%nat.

Definition limit_invalid (limit : Z) : bool := (limit <? 1) || (500 <? limit).

(** What the cursor still leaves to read. *)
Definition after_id (cursor : option Z) (i : Z) : bool :=
  match cursor with None => true | Some k => k <? i end.

Definition employment_payload (db : DB) (today : date) (e : Employment) : EmploymentPayload :=
  mk_employment_payload (em_id e) (em_user_id e) (em_title e)
    (employment_type_value (em_employment_type e)) (employment_label db e None)
    (em_start_date e) (em_end_date e) (employment_is_currently_valid e today)
    (em_total_hours_enabled e) (em_automatic_breaks_enabled e) (em_afternoon_hours_enabled e)
    (em_afternoon_start_minutes e) (em_night_hours_enabled e) (em_weekend_hours_enabled e)
    (em_public_holiday_hours_enabled e).

Definition event_payload (x : AttendanceEvent) : EventPayload :=
  mk_event_payload (ev_id x) (ev_employment_id x) (reload (ev_occurred_at x)).

Definition id_order (a b : Employment) : bool := em_id a <=? em_id b.

(** [ORDER BY id LIMIT limit + 1]. *)
Definition scoped_employments (db : DB) (c : IntegrationClient) (today : date) (cursor : option Z)
    (limit : Z) : list Employment :=
  firstn (Z.to_nat (limit + 1))
    (sorted_by id_order (where_ (λ e, employment_scope_predicate db c today e &&
                                      after_id cursor (em_id e)) (employments db))).

Definition list_employments (db : DB) (c : IntegrationClient) (now limit : Z)
    (cursor : option string) : result (Page EmploymentPayload) :=
  let today := prague_today (Zoned now) in
  guard (limit_invalid limit) invalid_request ?;;
  require_scope c SCOPE_EMPLOYMENTS ?;;
  let? cursor_id := integer_cursor cursor "employments" in
  let rows := employment_payload db today <$> scoped_employments db c today cursor_id limit in
  Ok (page rows limit "employments" (from_option (λ r, JInt (ey_id r)) JNull (last_row limit rows))).

Definition lock_payload (db : DB) (year month : Z) (e : Employment) : LockPayload :=
  mk_lock_payload (em_id e) (is_month_locked db LOCK_ATTENDANCE (em_id e) year month)
    (is_month_locked db LOCK_SHIFT_PLAN (em_id e) year month).

Definition list_locks (db : DB) (c : IntegrationClient) (now year month limit : Z)
    (cursor : option string) : result (Page LockPayload) :=
  let today := prague_today (Zoned now) in
  guard (limit_invalid limit) invalid_request ?;;
  require_scope c SCOPE_LOCKS ?;;
  let? cursor_id := integer_cursor cursor "locks" in
  let rows := lock_payload db year month <$> scoped_employments db c today cursor_id limit in
  Ok (page rows limit "locks"
        (from_option (λ r, JInt (lp_employment_id r)) JNull (last_row limit rows))).

(** [parse_iso_date]; an empty text is no filter. *)
Definition parse_iso_date (value : option string) : result (option date) :=
  match value with
  | Some (String _ _ as s) =>
      let? d := or_raise (date_fromisoformat s) invalid_request in Ok (Some d)
  | _ => Ok None
  end.

(** [AttendanceEvent.employment.has(...)]. *)
Definition event_in_scope (db : DB) (c : IntegrationClient) (today : date) (x : AttendanceEvent)
    : bool :=
  existsb (λ e, (em_id e =? ev_employment_id x) && employment_scope_predicate db c today e)
    (employments db).

Definition after_event (cursor : option (Z * Z)) (x : AttendanceEvent) : bool :=
  match cursor with
  | None => true
  | Some (t, i) =>
      (t <? utc (ev_occurred_at x)) || ((utc (ev_occurred_at x) =? t) && (i <? ev_id x))
  end.

(** The filters of the list, in the order they are applied. *)
Definition event_filter (employment_id : option Z) (date_from date_to : option date)
    (x : AttendanceEvent) : bool :=
  match employment_id with None => true | Some i => ev_employment_id x =? i end &&
  match date_from with
  | None => true
  | Some d => utc (at_wall (midnight d)) <=? utc (ev_occurred_at x)
  end &&
  match date_to with
  | None => true
  | Some d => utc (ev_occurred_at x) <? utc (at_wall (midnight (d + 1)))
  end.


Definition scoped_events (db : DB) (c : IntegrationClient) (today : date)
    (filter : AttendanceEvent → bool) (cursor : option (Z * Z)) (limit : Z) : list AttendanceEvent :=
  firstn (Z.to_nat (limit + 1))
    (events_by_time (where_ (λ x, event_in_scope db c today x && filter x && after_event cursor x)
                       (events db))).

Definition list_attendance_events (db : DB) (c : IntegrationClient) (now : Z)
    (employment_id : option Z) (date_from date_to : option string) (limit : Z)
    (cursor : option string) : result (Page EventPayload) :=
  let today := prague_today (Zoned now) in
  guard (limit_invalid limit) invalid_request ?;;
  require_scope c SCOPE_ATTENDANCE ?;;
  let? cursor_key := attendance_cursor cursor in
  (match employment_id with
   | Some i => require_employment_access db c today i
   | None => Ok tt
   end) ?;;
  let? start := parse_iso_date date_from in
  let? stop := parse_iso_date date_to in
  guard (bool_decide (stop = Some LAST_DATE)) (Crash "OverflowError") ?;;
  let found := scoped_events db c today (event_filter employment_id start stop) cursor_key limit in
  Ok (page (event_payload <$> found) limit "attendance-events"
        (from_option (λ x, event_cursor_key (utc (ev_occurred_at x)) (ev_id x)) JNull
           (last_row limit found))).
End Reading.

(** ** Writing attendance events *)

Section Writing.
Context `{zone : PragueZone}.

(** [_employment]. *)
Definition valid_employment (db : DB) (today : date) (employment_id : Z) : result Employment :=
  let? e := or_raise (get_employment db employment_id) integration_not_found in
  guard (negb (employment_is_currently_valid e today) || negb (has_active_user db e))
    integration_not_found ?;;
  Ok e.

(** The validators [timezone_required] and [ge=1]. *)
Definition zoned (t : py_datetime) : bool := match t with Zoned _ => true | Naive _ => false end.
Definition event_in_invalid (body : AttendanceEventIn) : bool :=
  (in_employment_id body <? 1) || negb (forallb zoned
    (in_occurred_at body :: option_list (in_paired_occurred_at body))).

Definition locked_valid_employment (db : DB) (today : date) (employment_id : Z)
    : result Employment :=
  let? e := lock_employment_for_time_mutation db employment_id in
  guard (negb (locked_employment_has_active_user db e today)) integration_not_found ?;;
  Ok e.

Definition integration_create_event (db : DB) (c : IntegrationClient) (now : Z)
    (body : AttendanceEventIn) : result (DB * AttendanceEvent * Z) :=
  let today := prague_today (Zoned now) in
  guard (event_in_invalid body) invalid_request ?;;
  let local := prague_now (in_occurred_at body) in
  let paired_local := prague_now <$> in_paired_occurred_at body in
  require_scope c SCOPE_ATTENDANCE_CREATE ?;;
  require_employment_access db c today (in_employment_id body) ?;;
  let? e0 := valid_employment db today (in_employment_id body) in
  let? e := locked_valid_employment db today (em_id e0) in
  guard (existsb (outside_period e) (date_of <$> local :: option_list paired_local))
    (ApiError 409 "employment_period_mismatch") ?;;
  let before_intervals := interval_signatures (events_of db (em_id e)) in
  let event_id := next_id db in
  let? db1 := add_request_events db e local paired_local in
  flush_events db1 ?;;
  let changed_days := changed_event_days before_intervals
    (interval_signatures (events_of db1 (em_id e))) (local :: option_list paired_local) in
  let? db2 := finish_event_mutation db1 e changed_days in
  let? event := refresh db2 event_id in
  Ok (db2, event, Z.of_nat (length (events db1)) - Z.of_nat (length (events db))).

(** The event of a change or deletion and its locked employment. *)
Definition locked_event (db : DB) (c : IntegrationClient) (today : date) (event_id : Z)
    : result (AttendanceEvent * Employment) :=
  let? event0 := or_raise (get_event db event_id) integration_not_found in
  require_employment_access db c today (ev_employment_id event0) ?;;
  let? e := locked_valid_employment db today (ev_employment_id event0) in
  let? event := or_raise (get_event db event_id) integration_not_found in
  guard (negb (employment_is_currently_valid e today) || negb (has_active_user db e))
    integration_not_found ?;;
  Ok (event, e).

(** The other events come in no order: the query has no [ORDER BY]. *)
Definition unordered_changed_days (db : DB) (e : Employment) (event : AttendanceEvent) (t : aware)
    : list date :=
  let existing_events := where_ (λ x, (ev_employment_id x =? em_id e) &&
                                      negb (ev_id x =? ev_id event)) (events db) in
  let before_intervals := interval_signatures (existing_events ++ [event]) in
  let after_events := existing_events ++ [mk_event (ev_id event) (ev_employment_id event) t] in
  changed_event_days before_intervals (interval_signatures after_events) [ev_occurred_at event; t].

Definition integration_update_event (db : DB) (c : IntegrationClient) (now event_id : Z)
    (occurred_at : py_datetime) : result (DB * AttendanceEvent) :=
  let today := prague_today (Zoned now) in
  guard (negb (zoned occurred_at)) invalid_request ?;;
  let next_occurred_at := prague_now occurred_at in
  require_scope c SCOPE_ATTENDANCE_UPDATE ?;;
  let? (event, e) := locked_event db c today event_id in
  guard (outside_period e (date_of next_occurred_at))
    (ApiError 409 "employment_period_mismatch") ?;;
  let changed_days := unordered_changed_days db e event next_occurred_at in
  let db1 := move_event event_id next_occurred_at db in
  flush_events db1 ?;;
  let? db2 := finish_event_mutation db1 e changed_days in
  let? event := refresh db2 event_id in
  Ok (db2, event).

Definition integration_delete_event (db : DB) (c : IntegrationClient) (now event_id : Z)
    (paired_event_id : option Z) : result (DB * AttendanceEvent) :=
  let today := prague_today (Zoned now) in
  require_scope c SCOPE_ATTENDANCE_DELETE ?;;
  let? (event, e) := locked_event db c today event_id in
  let? db' := delete_and_sync integration_not_found db e event paired_event_id in
  Ok (db', event).
End Writing.

(** ** A request, from its token to its audit row *)

Inductive integration_call :=
  | CallHealth
  | CallOpenapi
  | CallEmployments (limit : Z) (cursor : option string)
  | CallEvents (employment_id : option Z) (date_from date_to : option string) (limit : Z)
      (cursor : option string)
  | CallCreate (body : AttendanceEventIn)
  | CallUpdate (event_id : Z) (occurred_at : py_datetime)
  | CallDelete (event_id : Z) (paired_event_id : option Z)
  | CallLocks (year month limit : Z) (cursor : option string).

Inductive integration_out :=
  | OutHealth (contract_version : string) (client_id : Z)
  | OutOpenapi (contract_version : string)
  | OutEmployments (p : Page EmploymentPayload)
  | OutEvents (p : Page EventPayload)
  | OutLocks (p : Page LockPayload)
  | OutEvent (x : EventPayload)
  | OutDeleted (x : EventPayload).

(** The settings the requests read, with the ticks of a second of
    [time.monotonic()]. *)
Class IntegrationSettings := {
  rate_limit_enabled : bool;
  rate_limit_integration_health_per_minute : Z;
  rate_limit_integration_data_per_minute : Z;
  rate_limit_integration_openapi_per_minute : Z;
  integration_contract_version : string;
  ticks_per_second : Z;
}.

(** The scope a request needs. *)
Definition required_scope (call : integration_call) : string :=
  match call with
  | CallHealth => SCOPE_HEALTH
  | CallOpenapi => SCOPE_OPENAPI
  | CallEmployments _ _ => SCOPE_EMPLOYMENTS
  | CallEvents _ _ _ _ _ => SCOPE_ATTENDANCE
  | CallCreate _ => SCOPE_ATTENDANCE_CREATE
  | CallUpdate _ _ => SCOPE_ATTENDANCE_UPDATE
  | CallDelete _ _ => SCOPE_ATTENDANCE_DELETE
  | CallLocks _ _ _ _ => SCOPE_LOCKS
  end.

Section Requests.
Context `{zone : PragueZone} `{crypto : Crypto} `{interchange : Interchange}.
Context `{settings : IntegrationSettings}.

(** The limiter's dependency of each endpoint. *)
Definition rate_of (call : integration_call) : string * Z :=
  match call with
  | CallHealth => ("integration-health"%string, rate_limit_integration_health_per_minute)
  | CallOpenapi => ("integration-openapi"%string, rate_limit_integration_openapi_per_minute)
  | _ => ("integration-data"%string, rate_limit_integration_data_per_minute)
  end.

(** What the limiter reads once [require_integration_auth] has left the key of
    the client in [request.state]. *)
Definition rate_request (rq : IntegrationHttp) (client_id : Z) : RateRequest :=
  mk_rate_request (Some ("client:" +:+ pretty client_id)%string) (ih_x_real_ip rq) (ih_host rq).

(** The response and, for a write, the row count of the audit. *)
Definition integration_handler (db : DB) (c : IntegrationClient) (now : Z) (call : integration_call)
    : result (DB * integration_out * option Z) :=
  match call with
  | CallHealth =>
      require_scope c SCOPE_HEALTH ?;;
      Ok (db, OutHealth integration_contract_version (ic_id c), None)
  | CallOpenapi =>
      require_scope c SCOPE_OPENAPI ?;; Ok (db, OutOpenapi integration_contract_version, None)
  | CallEmployments limit cursor =>
      let? p := list_employments db c now limit cursor in Ok (db, OutEmployments p, None)
  | CallEvents i from to limit cursor =>
      let? p := list_attendance_events db c now i from to limit cursor in Ok (db, OutEvents p, None)
  | CallCreate body =>
      let? (db', x, n) := integration_create_event db c now body in
      Ok (db', OutEvent (event_payload x), Some n)
  | CallUpdate i t =>
      let? (db', x) := integration_update_event db c now i t in
      Ok (db', OutEvent (event_payload x), Some 1)
  | CallDelete i paired =>
      let? (db', x) := integration_delete_event db c now i paired in
      Ok (db', OutDeleted (event_payload x),
          Some (1 + Z.of_nat (length (option_list paired))))
  | CallLocks y m limit cursor =>
      let? p := list_locks db c now y m limit cursor in Ok (db, OutLocks p, None)
  end.

(** The dependencies, then the handler: the state, the client when it was
    recognised, and the outcome. *)
Definition run_call (g : Gateway) (rq : IntegrationHttp) (now tick : Z) (call : integration_call)
    : Gateway * option Z * result (integration_out * option Z) :=
  match require_integration_auth g rq now with
  | Err e => (g, None, Err e)
  | Ok (g1, c) =>
      let '(buckets, allowed) := enforce_configured_limit ticks_per_second rate_limit_enabled
        (g_buckets g1) (rate_request rq (ic_id c)) (rate_of call).1 (rate_of call).2 tick in
      let g2 := set_g_buckets buckets g1 in
      match (allowed ?;; integration_handler (g_db g2) c now call) with
      | Err e => (g2, Some (ic_id c), Err e)
      | Ok (db', out, row_count) => (set_g_db db' g2, Some (ic_id c), Ok (out, row_count))
      end
  end.

(** [query_hash]. *)
Definition query_hash (rq : IntegrationHttp) : option string :=
  if String.eqb (ih_query rq) "" then None else Some (sha256 (ih_query rq)).

Definition text_or_none (s : string) : option string := if String.eqb s "" then None else Some s.

(** The status and the error code of a response. *)
Definition success_status (call : integration_call) : Z :=
  match call with CallCreate _ => 201 | _ => 200 end.
Definition error_of (e : api_error) : Z * string :=
  match e with
  | ApiError status code => (status, code)
  | Conflict code _ _ => (409, code)
  | Crash _ => (500, "internal_error"%string)
  end.

(** The lengths of the columns of [integration_audit_log]: PostgreSQL refuses
    a longer text when the row is written.  The other texts of a row are cut
    to their columns or have a fixed length. *)
Definition audit_fits (rq : IntegrationHttp) : bool :=
  let within n s := Z.of_nat (String.length s) <=? n in
  within 64 (ih_request_id rq) && within 8 (ih_method rq) && within 255 (ih_path rq) &&
  forallb (within 64) (option_list (get_source_ip rq)).

(** [finalize_integration_audit], in a session of its own: the row is
    committed, or the insert fails. *)
Definition finalize_integration_audit (g : Gateway) (rq : IntegrationHttp) (now : Z)
    (client_id : option Z) (status_code : Z) (error_code : option string) (row_count : option Z)
    : result Gateway :=
  guard (negb (audit_fits rq)) (Crash "DataError") ?;;
  Ok (set_g_next (g_next g + 1)
    (set_g_audit (g_audit g ++
       [mk_audit (g_next g) client_id (ih_request_id rq) now (ih_method rq) (ih_path rq)
          (query_hash rq) (get_source_ip rq)
          (text_or_none (take_text 255 (default ""%string (ih_user_agent rq))))
          status_code error_code row_count]) g)).

(** The middleware around every request of the namespace.  Nothing catches a
    failing audit: the endpoint's answer is lost, and what it wrote stays. *)
Definition integration_request (g : Gateway) (rq : IntegrationHttp) (now tick : Z)
    (call : integration_call) : Gateway * result integration_out :=
  let '(g1, client_id, outcome) := run_call g rq now tick call in
  let audited status code row_count answer :=
    match finalize_integration_audit g1 rq now client_id status code row_count with
    | Ok g2 => (g2, answer)
    | Err e => (g1, Err e)
    end in
  match outcome with
  | Ok (out, row_count) => audited (success_status call) None row_count (Ok out)
  | Err e => let '(status, code) := error_of e in audited status (Some code) None (Err e)
  end.
End Requests.
