(* ===== verification/IntegrationSafety.v ===== *)
(** * What an integration client can read and write

    Access of a token, the scope of every row that is read, and the writes,
    which keep what the portal's writes keep. *)

From stdpp Require Import relations gmap.
From S2P Require Import Prelude Calendar TimeParse PragueTime Models TimeIntervals Locks EmploymentAccess.
From S2P Require Import DayStatus AttendanceEvents MonthSummary AttendanceApi SystemInvariant.
From S2P Require Import RateLimit Accounts Sessions Instances AttendanceSafety System.
From S2P Require Import IpAddress IntegrationClients Cursors IntegrationApi.
#[local] Open Scope Z_scope.

(** ** The order of the events does not matter *)

Lemma interval_signatures_perm l1 l2 :
  NoDup (ev_id <$> l1) → l1 ≡ₚ l2 → interval_signatures l1 = interval_signatures l2.
Proof.
  intros Hn Hp. unfold interval_signatures, pair_events, pair_event_rows.
  by rewrite (ordered_events_canonical l1 l2).
Qed.

(** ** Access *)

Section Access.
Context `{zone : PragueZone}.

(** An employment a client may write to: in its scope, valid today, and of an
    active user. *)
Record writable (db : DB) (c : IntegrationClient) (now : Z) (e : Employment) : Prop := {
  wr_employment : e ∈ employments db;
  wr_scope : employment_scope_predicate db c (prague_today (Zoned now)) e = true;
  wr_valid : employment_is_valid_on_day e (prague_today (Zoned now)) = true;
  wr_user : has_active_user db e = true;
}.

Lemma require_scope_ok c scope : require_scope c scope = Ok tt ↔ scope ∈ ic_scopes c.
Proof.
  unfold require_scope. rewrite guard_ok, negb_false_iff. apply mem_true.
Qed.

Lemma is_nil_false {A} (l : list A) : is_nil l = false ↔ ∃ x, x ∈ l.
Proof.
  destruct l as [|a l]; simpl; split; try done.
  - by intros [x ?%elem_of_nil].
  - intros _. exists a. left.
Qed.

Lemma require_access_ok db c today i :
  require_employment_access db c today i = Ok tt ↔
  ∃ e, e ∈ employments db ∧ em_id e = i ∧ employment_scope_predicate db c today e = true.
Proof.
  unfold require_employment_access. rewrite guard_ok, is_nil_false. split; intros (e & He); exists e.
  - apply elem_of_where in He as [He H]. apply andb_prop in H as [H1%Z.eqb_eq H2]. done.
  - destruct He as (He & <- & Hp). apply elem_of_where. by rewrite Z.eqb_refl, Hp.
Qed.

Lemma locked_valid_employment_ok db c now i e :
  inv db → require_employment_access db c (prague_today (Zoned now)) i = Ok tt →
  locked_valid_employment db (prague_today (Zoned now)) i = Ok e →
  writable db c now e ∧ em_id e = i.
Proof.
  intros Hi (e' & He' & Hid' & Hp)%require_access_ok H. unfold locked_valid_employment in H.
  ok_inv H. injection H as ->. apply lock_employment_ok in Hstep as [He Hid].
  assert (e' = e) as -> by (apply (table_same_id em_id (employments db)); [apply Hi|done..|congruence]).
  apply negb_false_iff, andb_prop in Hguard as [Hv Hu]. done.
Qed.

Lemma valid_employment_ok db today i e :
  valid_employment db today i = Ok e → e ∈ employments db ∧ em_id e = i.
Proof.
  unfold valid_employment. intros H. ok_inv H. injection H as ->.
  by apply or_raise_ok, get_employment_ok in Hstep.
Qed.

Lemma locked_event_ok db c now i x e :
  inv db → locked_event db c (prague_today (Zoned now)) i = Ok (x, e) →
  writable db c now e ∧ x ∈ events db ∧ ev_id x = i ∧ ev_employment_id x = em_id e.
Proof.
  intros Hi H. unfold locked_event in H. ok_inv H. injection H as -> ->.
  apply or_raise_ok in Hstep. destruct v0.
  apply locked_valid_employment_ok with (c := c) in Hstep1 as [Hw Hid]; [|done..].
  apply or_raise_ok in Hstep2. rewrite Hstep in Hstep2. injection Hstep2 as ->.
  apply get_event_ok in Hstep as [Hx Hxi]. by split_and!.
Qed.
End Access.

(** ** Writes *)

Section Writes.
Context `{zone : PragueZone} `{!PragueZoneLaws zone}.

Lemma unordered_changed_days_eq db e event t :
  inv db → event ∈ events db → ev_employment_id event = em_id e →
  unordered_changed_days db e event t = move_changed_days db e event t.
Proof.
  intros Hi Hin He. unfold unordered_changed_days, move_changed_days, other_events.
  set (l := where_ _ (events db)).
  assert (Hnd : ∀ x, ev_id x = ev_id event → NoDup (ev_id <$> l ++ [x])).
  { intros x Hx. rewrite fmap_app. apply NoDup_app. split_and!.
    - apply NoDup_fmap_where, (inv_wf _ Hi).
    - intros i (y & -> & Hy)%list_elem_of_fmap Hi'. apply list_elem_of_singleton in Hi'.
      apply elem_of_where in Hy as [_ Hy]. bool_hyps. congruence.
    - apply NoDup_singleton. }
  f_equal; apply interval_signatures_perm.
  - by apply Hnd.
  - unfold events_by_time. by rewrite sorted_by_perm.
  - by apply Hnd.
  - unfold ordered_events, events_by_time. by rewrite !sorted_by_perm.
Qed.

Lemma integration_create_ok db c now body db' x n
    (Hi : inv db) (H : integration_create_event db c now body = Ok (db', x, n)) :
  let t := prague_now (in_occurred_at body) in
  SCOPE_ATTENDANCE_CREATE ∈ ic_scopes c ∧
  ∃ e, writable db c now e ∧ em_id e = in_employment_id body ∧
    recorded db db' e [date_of t] t (next_id db) x ∧
    (PragueGap zone → all_fresh db → Forall real (request_times body) → all_fresh db').
Proof.
  intros t. unfold integration_create_event in H. ok_inv H. injection H as <- <- <-.
  rename v2 into e. destruct v, v0, v4. apply require_scope_ok in Hstep. split; [done|].
  apply valid_employment_ok in Hstep1 as [_ Hid0].
  apply locked_valid_employment_ok with (c := c) in Hstep2 as [Hw Hid]; [|done|by rewrite Hid0].
  destruct (request_times_zone body) as [Hz1 Hz2].
  assert (Hout : outside_period e (date_of t) = false) by (simpl in Hguard0; by bool_hyps).
  destruct (create_core db e t _ v3 v5 v6 Hi (wr_employment _ _ _ _ Hw) Hout Hz1 Hz2 Hstep3 Hstep4
    Hstep5 Hstep6) as (Hs & Hfr & Hns & Hx & Hin & Hfresh).
  exists e. split_and!; [done|congruence|by split_and!|].
  intros Hgap Hf [Hr Hrs]%Forall_cons. apply Hfresh; try done. by apply Forall_forall.
Qed.

Lemma integration_update_ok db c now i occurred_at db' x
    (Hi : inv db) (H : integration_update_event db c now i occurred_at = Ok (db', x)) :
  let t := prague_now occurred_at in
  SCOPE_ATTENDANCE_UPDATE ∈ ic_scopes c ∧
  ∃ e old, writable db c now e ∧ old ∈ events db ∧ ev_id old = i ∧
    ev_employment_id old = em_id e ∧ recorded db db' e [ev_day old; date_of t] t i x ∧
    (all_fresh db → real t → all_fresh db').
Proof.
  intros t. unfold integration_update_event in H. ok_inv H. destruct v as [], v0 as [old e].
  ok_inv H. injection H as <- <-. destruct v. apply require_scope_ok in Hstep. split; [done|].
  apply locked_event_ok in Hstep0 as (Hw & Hin & <- & Hemp); [|done].
  rewrite unordered_changed_days_eq in Hstep2 by done.
  destruct (update_core db e old t v0 v1 Hi (wr_employment _ _ _ _ Hw) Hin Hemp Hguard0
    (from_zone_prague_now _) Hstep1 Hstep2 Hstep3) as (Hs & Hfr & Hns & Hx & Hxin & Hfresh).
  exists e, old. by split_and!.
Qed.

Lemma integration_delete_ok db c now i paired_id db' x
    (Hi : inv db) (H : integration_delete_event db c now i paired_id = Ok (db', x)) :
  SCOPE_ATTENDANCE_DELETE ∈ ic_scopes c ∧
  ∃ e, writable db c now e ∧ x ∈ events db ∧ ev_id x = i ∧ ev_employment_id x = em_id e ∧
    deleted_safely db db' e x paired_id.
Proof.
  unfold integration_delete_event in H. ok_inv H. destruct v as [], v0 as [old e].
  ok_inv H. injection H as <- <-. apply require_scope_ok in Hstep. split; [done|].
  apply locked_event_ok in Hstep0 as (Hw & Hin & <- & Hemp); [|done].
  exists e. split_and!; try done. eapply delete_core_spec; [done|apply Hw|done..|exact Hstep1].
Qed.

(** What a request may do to the time data: nothing, or what the portal may
    do to one employment. *)
Record call_effect (db : DB) (c : IntegrationClient) (now : Z) (call : integration_call) (db' : DB)
    : Prop := {
  ce_scope : required_scope call ∈ ic_scopes c;
  ce_change : db' = db ∨ (attendance_step db db' ∧ ∃ e, writable db c now e ∧
    ∀ x, ev_employment_id x ≠ em_id e → x ∈ events db' ↔ x ∈ events db);
}.

(** The times a request writes exist on the clock. *)
Definition call_clock_ok (call : integration_call) : Prop :=
  match call with
  | CallCreate body => Forall real (request_times body)
  | CallUpdate _ t => real (prague_now t)
  | _ => True
  end.

Lemma frame_others e D db db' :
  days_frame e D db db' → ∀ x, ev_employment_id x ≠ e → x ∈ events db' ↔ x ∈ events db.
Proof. intros F x Hx. apply (df_events _ _ _ _ F). by intros [? _]. Qed.

Lemma integration_handler_ok `{interchange : Interchange} `{settings : IntegrationSettings}
    db c now call db' out n :
  inv db → integration_handler db c now call = Ok (db', out, n) →
  call_effect db c now call db' ∧
  (PragueGap zone → call_clock_ok call → all_fresh db → all_fresh db').
Proof.
  intros Hi H.
  assert (Hread : db' = db → required_scope call ∈ ic_scopes c → call_effect db c now call db' ∧
    (PragueGap zone → call_clock_ok call → all_fresh db → all_fresh db')).
  { intros -> Hs. split; [constructor; auto|done]. }
  destruct call; simpl in H; ok_inv H.
  - injection H as <- _ _. apply Hread; [done|]. destruct v. by apply require_scope_ok.
  - injection H as <- _ _. apply Hread; [done|]. destruct v. by apply require_scope_ok.
  - injection H as <- _ _. apply Hread; [done|]. unfold list_employments in Hstep. ok_inv Hstep.
    destruct v0. by apply require_scope_ok.
  - injection H as <- _ _. apply Hread; [done|]. unfold list_attendance_events in Hstep. ok_inv Hstep.
    destruct v0. by apply require_scope_ok.
  - destruct v as [[db1 x] k]. injection H as <- _ _.
    apply integration_create_ok in Hstep as (Hs & e & Hw & Hid & (Hst & Hfr & _) & Hf); [|done].
    split; [|auto]. constructor; [done|]. right. split; [done|]. exists e. split; [done|].
    by eapply frame_others.
  - destruct v as [db1 x]. injection H as <- _ _.
    apply integration_update_ok in Hstep as (Hs & e & old & Hw & _ & _ & _ & (Hst & Hfr & _) & Hf); [|done].
    split; [|auto]. constructor; [done|]. right. split; [done|]. exists e. split; [done|].
    by eapply frame_others.
  - destruct v as [db1 x]. injection H as <- _ _.
    apply integration_delete_ok in Hstep as (Hs & e & Hw & Hin & <- & Hemp & Hst & Hev & Hp & Hf); [|done].
    split; [|auto]. constructor; [done|]. right. split; [done|]. exists e. split; [done|].
    intros y Hy. rewrite Hev. split; [by intros [? _]|]. intros Hyin. split_and!; [done| |].
    + intros Heq. apply Hy. rewrite <- Hemp. f_equal. by apply (NoDup_fmap_eq ev_id (events db)); [apply (inv_wf _ Hi)|..].
    + intros Heq. destruct (Hp _ (eq_sym Heq)) as (_ & q & Hq & Hqi & Hqe). apply Hy. rewrite <- Hqe.
      f_equal. by apply (NoDup_fmap_eq ev_id (events db)); [apply (inv_wf _ Hi)|..].
  - injection H as <- _ _. apply Hread; [done|]. unfold list_locks in Hstep. ok_inv Hstep.
    destruct v0. by apply require_scope_ok.
Qed.
End Writes.
