(* ===== verification/IntegrationPages.v ===== *)
(** * Reading in pages

    A partner that follows [next_cursor] gets every row it may see, once and
    in order, in as many requests as there are pages; whatever cursor it
    sends, it gets no other row. *)

From S2P Require Import Prelude Calendar TimeParse PragueTime Models TimeIntervals Locks EmploymentAccess.
From S2P Require Import DayStatus AttendanceEvents AttendanceApi SystemInvariant AttendanceSafety.
From S2P Require Import IpAddress IntegrationClients Cursors IntegrationApi IntegrationSafety.
#[local] Open Scope Z_scope.

(** ** Following cursors *)

Section Walk.
Context {A : Type} (fetch : option string → result (Page A)).

(** At most [fuel] requests; [None] when more pages are left or one fails. *)
Fixpoint walk (fuel : nat) (cursor : option string) : option (list A) :=
  match fuel with
  | O => None
  | S fuel' =>
      match fetch cursor with
      | Err _ => None
      | Ok p =>
          match pg_next_cursor p with
          | None => Some (pg_data p)
          | Some next => app (pg_data p) <$> walk fuel' (Some next)
          end
      end
  end.

(** [at_rows cursor rest]: the cursor is where [rest] is still to be read. *)
Context (n : nat) (at_rows : option string → list A → Prop).
Hypothesis serves : ∀ cursor rest, at_rows cursor rest →
  ∃ p, fetch cursor = Ok p ∧ pg_data p = firstn n rest ∧
    if (n <? length rest)%nat
    then ∃ next, pg_next_cursor p = Some next ∧ at_rows (Some next) (skipn n rest)
    else pg_next_cursor p = None.

Lemma walk_rest fuel cursor rest :
  (0 < n)%nat → at_rows cursor rest → (length rest <= fuel * n)%nat → (0 < fuel)%nat →
  walk fuel cursor = Some rest.
Proof.
  intros Hn. revert cursor rest. induction fuel as [|fuel IH]; intros cursor rest Hat Hlen Hf; [lia|].
  destruct (serves cursor rest Hat) as (p & Hp & Hd & Hnext). simpl. rewrite Hp.
  destruct (n <? length rest)%nat eqn:E.
  - apply Nat.ltb_lt in E. destruct Hnext as (next & Hnc & Hat'). rewrite Hnc.
    rewrite (IH (Some next) (skipn n rest)); [|done|rewrite length_skipn; nia|nia].
    simpl. by rewrite Hd, firstn_skipn.
  - apply Nat.ltb_ge in E. rewrite Hnext, Hd. by rewrite firstn_all2.
Qed.
End Walk.

(** ** A page of a sorted table *)

Section Sorted.
Context {A : Type} (lt : A → A → Prop) (behind : A → A → bool).
Hypothesis lt_irrefl : ∀ x, ¬ lt x x.
Hypothesis lt_trans : ∀ x y z, lt x y → lt y z → lt x z.
Hypothesis behind_lt : ∀ x y, behind x y = true ↔ lt x y.

(** What lies behind a row of a strictly sorted list is the rest of it. *)
Lemma where_behind pre x rest :
  StronglySorted lt (pre ++ x :: rest) → where_ (behind x) (pre ++ x :: rest) = rest.
Proof.
  intros Hs. rewrite where_app.
  assert (Hpre : where_ (behind x) pre = []).
  { apply where_nil_iff. intros y Hy. apply not_true_is_false. intros Hb%behind_lt.
    apply (lt_irrefl x), (lt_trans x y x); [done|]. clear -Hs Hy.
    induction pre as [|z pre IH]; [by apply elem_of_nil in Hy|].
    inversion Hs as [|? ? Hs' Hz]; subst. rewrite Forall_forall in Hz.
    apply elem_of_cons in Hy as [->|Hy]; [|by apply IH]. apply Hz. apply elem_of_app. right. left. }
  rewrite Hpre. simpl.
  assert (Hr : StronglySorted lt (x :: rest)) by (clear -Hs; induction pre; [done|]; inversion Hs; auto).
  inversion Hr as [|? ? _ Hx]; subst. unfold where_. simpl.
  destruct (behind x x) eqn:E; [by apply behind_lt, lt_irrefl in E|].
  apply (where_all (behind x)). intros y Hy. rewrite Forall_forall in Hx. by apply behind_lt, Hx.
Qed.
End Sorted.

Lemma sorted_by_where {A} (leb : A → A → bool) (p : A → bool) l :
  (∀ x y, leb x y = false → leb y x = true) →
  (∀ x y z, leb x y = true → leb y z = true → leb x z = true) →
  (∀ x y, x ∈ l → y ∈ l → leb x y = true → leb y x = true → x = y) →
  sorted_by leb (where_ p l) = where_ p (sorted_by leb l).
Proof.
  intros Htot Htr Hanti. apply (sorted_perm_unique (le_rel leb)).
  - intros x y [Hx _]%elem_of_sorted_by%elem_of_where [Hy _]%elem_of_sorted_by%elem_of_where. by apply Hanti.
  - by apply sorted_by_sorted.
  - apply StronglySorted_where. by apply sorted_by_sorted.
  - rewrite sorted_by_perm. apply where_perm. symmetry. apply sorted_by_perm.
Qed.

(** The last row of a page is the one the next page starts behind. *)
Lemma last_row_firstn {A} (limit : Z) (l : list A) :
  1 <= limit → limit < Z.of_nat (length l) →
  ∃ x, last_row limit (firstn (Z.to_nat (limit + 1)) l) = Some x ∧
    firstn (Z.to_nat limit) l = firstn (Z.to_nat limit - 1) l ++ [x].
Proof.
  intros H1 H2. unfold last_row. rewrite length_firstn.
  replace (Nat.min (Z.to_nat limit) (Nat.min (Z.to_nat (limit + 1)) (length l)) - 1)%nat
    with (Z.to_nat limit - 1)%nat by lia.
  destruct (lookup_lt_is_Some_2 l (Z.to_nat limit - 1)) as [x Hx]; [lia|]. exists x. split.
  - rewrite lookup_take_lt by lia. done.
  - replace (Z.to_nat limit) with (S (Z.to_nat limit - 1)) at 1 by lia. by apply take_S_r.
Qed.

Lemma last_row_fmap {A B} (f : A → B) limit l : last_row limit (f <$> l) = f <$> last_row limit l.
Proof. unfold last_row. by rewrite length_fmap, list_lookup_fmap. Qed.

Section Pages.
Context `{zone : PragueZone} `{interchange : Interchange} `{!InterchangeLaws interchange}.

(** One page of what is left to read. *)
Lemma page_spec {A B} (f : B → A) (k : B → json) (limit : Z) resource (rest : list B) :
  1 <= limit →
  let found := firstn (Z.to_nat (limit + 1)) rest in
  let p := page (f <$> found) limit resource (from_option k JNull (last_row limit found)) in
  pg_data p = firstn (Z.to_nat limit) (f <$> rest) ∧
  if (Z.to_nat limit <? length rest)%nat
  then ∃ pre x, firstn (Z.to_nat limit) rest = pre ++ [x] ∧
    pg_next_cursor p = Some (encode_resource_cursor resource (k x))
  else pg_next_cursor p = None.
Proof.
  intros Hl found p. split.
  { simpl. unfold found. rewrite <- !fmap_take, take_take. do 2 f_equal. lia. }
  assert (Hlen : length (f <$> found) = Nat.min (Z.to_nat (limit + 1)) (length rest))
    by (unfold found; by rewrite length_fmap, length_firstn).
  unfold p, page. cbn [pg_next_cursor]. rewrite Hlen.
  destruct (_ <? length rest)%nat eqn:E.
  - apply Nat.ltb_lt in E. destruct (last_row_firstn limit rest) as (x & Hx & Hf); [lia|lia|].
    fold found in Hx. eexists _, x. split; [exact Hf|]. rewrite Hx. simpl.
    rewrite (proj2 (Z.ltb_lt _ _)) by lia. simpl.
    destruct (is_nil _) eqn:En; [|done]. exfalso.
    apply (f_equal (@length _)) in Hf. rewrite length_app, length_firstn in Hf. simpl in Hf.
    destruct (firstn _ (_ <$> _)) eqn:Ef; [|done]. apply (f_equal (@length _)) in Ef.
    rewrite length_firstn, Hlen in Ef. simpl in Ef. lia.
  - apply Nat.ltb_ge in E. by rewrite (proj2 (Z.ltb_ge _ _)) by lia.
Qed.

Lemma skipn_split {A} n (l pre : list A) x :
  firstn n l = pre ++ [x] → l = (pre ++ [x]) ++ skipn n l.
Proof. intros H. rewrite <- H. by rewrite firstn_skipn. Qed.

(** *** Employments and their locks *)

(** What a client may see, in the order of the lists. *)
Definition permitted_employments (db : DB) (c : IntegrationClient) (today : date) : list Employment :=
  sorted_by id_order (where_ (employment_scope_predicate db c today) (employments db)).

Lemma permitted_sorted db c today :
  inv db → StronglySorted (λ a b, em_id a < em_id b) (permitted_employments db c today).
Proof.
  intros Hi. unfold permitted_employments.
  assert (Hs : StronglySorted (le_rel id_order)
    (sorted_by id_order (where_ (employment_scope_predicate db c today) (employments db)))).
  { apply sorted_by_sorted; unfold id_order; intros *; rewrite ?Z.leb_le, ?Z.leb_gt; lia. }
  assert (Hn : NoDup (em_id <$> sorted_by id_order
    (where_ (employment_scope_predicate db c today) (employments db)))).
  { rewrite sorted_by_perm. apply NoDup_fmap_where, Hi. }
  induction Hs as [|x l Hs IH Hx]; [constructor|]. apply NoDup_cons in Hn as [Hn1 Hn2].
  constructor; [by apply IH|]. rewrite Forall_forall in *. intros y Hy. specialize (Hx y Hy).
  unfold le_rel, id_order in Hx. apply Z.leb_le in Hx.
  assert (em_id x ≠ em_id y); [|lia]. intros He. apply Hn1. rewrite He. by apply list_elem_of_fmap_2.
Qed.

Lemma scoped_employments_eq db c today pre rest limit :
  inv db → permitted_employments db c today = pre ++ rest →
  scoped_employments db c today (em_id <$> last pre) limit = firstn (Z.to_nat (limit + 1)) rest.
Proof.
  intros Hi Hr. unfold scoped_employments. f_equal. pose proof (permitted_sorted db c today Hi) as Hs.
  assert (Hw : where_ (λ e, employment_scope_predicate db c today e && after_id (em_id <$> last pre) (em_id e))
    (employments db) = where_ (λ e, after_id (em_id <$> last pre) (em_id e))
      (where_ (employment_scope_predicate db c today) (employments db))).
  { rewrite where_where. apply where_ext. intros e _. done. }
  rewrite Hw, sorted_by_where.
  - fold (permitted_employments db c today). rewrite Hr in *.
    destruct pre as [|x pre _] using rev_ind; [by apply (where_all (λ _, _))|].
    rewrite last_snoc. simpl. rewrite <- app_assoc in *. simpl in *.
    rewrite (where_behind (λ a b, em_id a < em_id b) (λ a b, em_id a <? em_id b)); try done.
    + intros a. lia.
    + intros a b d. lia.
    + intros a b. apply Z.ltb_lt.
  - unfold id_order. intros a b. rewrite Z.leb_le, Z.leb_gt. lia.
  - unfold id_order. intros a b d. rewrite !Z.leb_le. lia.
  - intros a b [Ha _]%elem_of_where [Hb _]%elem_of_where. unfold id_order. rewrite !Z.leb_le.
    intros ? ?. apply (employment_by_id db); [done..|lia].
Qed.
(** The cursor says where the rest of the permitted employments begins. *)
Definition at_employments {A} (db : DB) (c : IntegrationClient) (today : date) (resource : string)
    (f : Employment → A) (cursor : option string) (rest : list A) : Prop :=
  ∃ pre suf, permitted_employments db c today = pre ++ suf ∧ rest = f <$> suf ∧
    integer_cursor cursor resource = Ok (em_id <$> last pre).

Lemma employments_next {A} db c today resource (f : Employment → A) pre suf limit p :
  (∀ e, e ∈ employments db → 1 <= em_id e) → 1 <= limit →
  permitted_employments db c today = pre ++ suf →
  p = page (f <$> firstn (Z.to_nat (limit + 1)) suf) limit resource
    (from_option (λ e, JInt (em_id e)) JNull (last_row limit (firstn (Z.to_nat (limit + 1)) suf))) →
  pg_data p = firstn (Z.to_nat limit) (f <$> suf) ∧
  if (Z.to_nat limit <? length (f <$> suf))%nat
  then ∃ next, pg_next_cursor p = Some next ∧
    at_employments db c today resource f (Some next) (skipn (Z.to_nat limit) (f <$> suf))
  else pg_next_cursor p = None.
Proof.
  intros Hid Hl Hr ->.
  destruct (page_spec f (λ e, JInt (em_id e)) limit resource suf Hl) as [Hd Hn]. simpl in Hd.
  split; [exact Hd|]. rewrite length_fmap. destruct (_ <? length suf)%nat; [|exact Hn].
  destruct Hn as (pre' & x & Hf & Hc). eexists. split; [exact Hc|].
  exists (pre ++ pre' ++ [x]), (skipn (Z.to_nat limit) suf). split_and!.
  - rewrite Hr. rewrite (skipn_split _ _ _ _ Hf) at 1. by rewrite <- !app_assoc.
  - by rewrite fmap_drop.
  - rewrite app_assoc, last_snoc. simpl. apply integer_cursor_encode.
    assert (x ∈ permitted_employments db c today) as Hx.
    { rewrite Hr, (skipn_split _ _ _ _ Hf). rewrite !elem_of_app, list_elem_of_singleton. auto. }
    unfold permitted_employments in Hx. apply elem_of_sorted_by, elem_of_where in Hx as [Hx _]. by apply Hid.
Qed.

Lemma limit_valid limit : 1 <= limit <= 500 → limit_invalid limit = false.
Proof. intros H. unfold limit_invalid. rewrite (proj2 (Z.ltb_ge _ _)), (proj2 (Z.ltb_ge _ _)) by lia. done. Qed.

(** Enough requests for a list of [n] rows. *)
Definition enough (fuel : nat) (limit : Z) (n : nat) : Prop :=
  (0 < fuel)%nat ∧ Z.of_nat n <= Z.of_nat fuel * limit.

Lemma enough_nat fuel limit n :
  1 <= limit → enough fuel limit n → (0 < fuel)%nat ∧ (n <= fuel * Z.to_nat limit)%nat.
Proof. intros Hl [Hf Hn]. split; [done|]. nia. Qed.

Lemma walk_employments db c now limit fuel :
  inv db → (∀ e, e ∈ employments db → 1 <= em_id e) → SCOPE_EMPLOYMENTS ∈ ic_scopes c →
  1 <= limit <= 500 →
  enough fuel limit (length (permitted_employments db c (prague_today (Zoned now)))) →
  walk (list_employments db c now limit) fuel None =
    Some (employment_payload db (prague_today (Zoned now)) <$>
      permitted_employments db c (prague_today (Zoned now))).
Proof.
  intros Hi Hid Hs Hl Hf. set (today := prague_today (Zoned now)) in *.
  apply enough_nat in Hf as [Hf0 Hf]; [|lia].
  apply (walk_rest _ (Z.to_nat limit) (at_employments db c today "employments" (employment_payload db today)));
    [|lia| |by rewrite length_fmap|done].
  - intros cursor rest (pre & suf & Hr & -> & Hc). eexists. split.
    + unfold list_employments. fold today. rewrite (limit_valid limit Hl). cbn [guard rbind].
      rewrite (proj2 (require_scope_ok c _) Hs). cbn [rbind]. rewrite Hc. cbn [rbind].
      rewrite (scoped_employments_eq db c today pre suf) by done. reflexivity.
    + apply (employments_next db c today _ _ pre suf limit); try done; [lia|].
      rewrite last_row_fmap. f_equal. by destruct (last_row _ _).
  - by exists [], (permitted_employments db c today).
Qed.

Lemma walk_locks db c now y m limit fuel :
  inv db → (∀ e, e ∈ employments db → 1 <= em_id e) → SCOPE_LOCKS ∈ ic_scopes c →
  1 <= limit <= 500 →
  enough fuel limit (length (permitted_employments db c (prague_today (Zoned now)))) →
  walk (list_locks db c now y m limit) fuel None =
    Some (lock_payload db y m <$> permitted_employments db c (prague_today (Zoned now))).
Proof.
  intros Hi Hid Hs Hl Hf. set (today := prague_today (Zoned now)) in *.
  apply enough_nat in Hf as [Hf0 Hf]; [|lia].
  apply (walk_rest _ (Z.to_nat limit) (at_employments db c today "locks" (lock_payload db y m)));
    [|lia| |by rewrite length_fmap|done].
  - intros cursor rest (pre & suf & Hr & -> & Hc). eexists. split.
    + unfold list_locks. fold today. rewrite (limit_valid limit Hl). cbn [guard rbind].
      rewrite (proj2 (require_scope_ok c _) Hs). cbn [rbind]. rewrite Hc. cbn [rbind].
      rewrite (scoped_employments_eq db c today pre suf) by done. reflexivity.
    + apply (employments_next db c today _ _ pre suf limit); try done; [lia|].
      rewrite last_row_fmap. f_equal. by destruct (last_row _ _).
  - by exists [], (permitted_employments db c today).
Qed.

(** *** Events *)

Definition permitted_events (db : DB) (c : IntegrationClient) (today : date)
    (filter : AttendanceEvent → bool) : list AttendanceEvent :=
  events_by_time (where_ (λ x, event_in_scope db c today x && filter x) (events db)).

Definition event_before (a b : AttendanceEvent) : Prop :=
  utc (ev_occurred_at a) < utc (ev_occurred_at b) ∨
  (utc (ev_occurred_at a) = utc (ev_occurred_at b) ∧ ev_id a < ev_id b).

Lemma permitted_events_sorted db c today filter :
  inv db → StronglySorted event_before (permitted_events db c today filter).
Proof.
  intros Hi. unfold permitted_events, events_by_time. set (l := where_ _ _).
  assert (Hs : StronglySorted (le_rel sql_event_leb) (sorted_by sql_event_leb l))
    by (apply sorted_by_sorted; [apply sql_leb_total|apply sql_leb_trans]).
  assert (Hn : NoDup (ev_id <$> sorted_by sql_event_leb l)).
  { rewrite sorted_by_perm. apply NoDup_fmap_where, (inv_wf _ Hi). }
  clearbody l. induction Hs as [|x k Hs IH Hx]; [constructor|]. apply NoDup_cons in Hn as [Hn1 Hn2].
  constructor; [by apply IH|]. rewrite Forall_forall in *. intros y Hy. specialize (Hx y Hy).
  apply sql_leb_iff in Hx. assert (ev_id x ≠ ev_id y); [|unfold event_before; lia].
  intros He. apply Hn1. rewrite He. by apply list_elem_of_fmap_2.
Qed.

Definition event_position (x : AttendanceEvent) : Z * Z := (utc (ev_occurred_at x), ev_id x).

Lemma scoped_events_eq db c today filter pre rest limit :
  inv db → permitted_events db c today filter = pre ++ rest →
  scoped_events db c today filter (event_position <$> last pre) limit = firstn (Z.to_nat (limit + 1)) rest.
Proof.
  intros Hi Hr. unfold scoped_events. f_equal. pose proof (permitted_events_sorted db c today filter Hi) as Hs.
  assert (Hw : where_ (λ x, event_in_scope db c today x && filter x && after_event (event_position <$> last pre) x)
    (events db) = where_ (after_event (event_position <$> last pre))
      (where_ (λ x, event_in_scope db c today x && filter x) (events db))) by by rewrite where_where.
  rewrite Hw. unfold events_by_time. rewrite sorted_by_where.
  - fold (events_by_time (where_ (λ x, event_in_scope db c today x && filter x) (events db))).
    fold (permitted_events db c today filter). rewrite Hr in *.
    destruct pre as [|x pre _] using rev_ind; [by apply where_all|].
    rewrite last_snoc. simpl. rewrite <- app_assoc in *. simpl in *.
    rewrite (where_behind event_before (λ a, after_event (Some (event_position a)))); try done.
    + unfold event_before. intros a. lia.
    + unfold event_before. intros a b d. lia.
    + intros a b. unfold event_before. simpl. rewrite orb_true_iff, andb_true_iff, !Z.ltb_lt, Z.eqb_eq. lia.
  - apply sql_leb_total.
  - apply sql_leb_trans.
  - intros a b [Ha _]%elem_of_where [Hb _]%elem_of_where. rewrite !sql_leb_iff. intros ? ?.
    apply (NoDup_fmap_eq ev_id (events db)); [apply (inv_wf _ Hi)|done|done|lia].
Qed.

(** The requests of one list: the same filters with every cursor. *)
Record events_query (db : DB) (c : IntegrationClient) (today : date) (i : option Z)
    (date_from date_to : option string) (start stop : option date) : Prop := {
  eq_scope : SCOPE_ATTENDANCE ∈ ic_scopes c;
  eq_access : ∀ j, i = Some j → require_employment_access db c today j = Ok tt;
  eq_start : parse_iso_date date_from = Ok start;
  eq_stop : parse_iso_date date_to = Ok stop;
  eq_last : stop ≠ Some LAST_DATE;
}.

Lemma walk_events db c now i date_from date_to start stop limit fuel :
  inv db → (∀ x, x ∈ events db → representable (utc (ev_occurred_at x)) = true) →
  events_query db c (prague_today (Zoned now)) i date_from date_to start stop →
  1 <= limit <= 500 →
  enough fuel limit (length (permitted_events db c (prague_today (Zoned now)) (event_filter i start stop))) →
  walk (list_attendance_events db c now i date_from date_to limit) fuel None =
    Some (event_payload <$>
      permitted_events db c (prague_today (Zoned now)) (event_filter i start stop)).
Proof.
  intros Hi Hrep [Hs Ha Hstart Hstop Hlast] Hl Hf. set (today := prague_today (Zoned now)) in *.
  set (R := permitted_events db c today (event_filter i start stop)) in *.
  apply enough_nat in Hf as [Hf0 Hf]; [|lia].
  apply (walk_rest _ (Z.to_nat limit) (λ cursor rest, ∃ pre suf, R = pre ++ suf ∧ rest = event_payload <$> suf ∧
    attendance_cursor cursor = Ok (event_position <$> last pre))); [|lia| |by rewrite length_fmap|done].
  - intros cursor rest (pre & suf & Hr & -> & Hc).
    exists (page (event_payload <$> firstn (Z.to_nat (limit + 1)) suf) limit "attendance-events"
      (from_option (λ x, event_cursor_key (utc (ev_occurred_at x)) (ev_id x)) JNull
         (last_row limit (firstn (Z.to_nat (limit + 1)) suf)))). split.
    + unfold list_attendance_events. fold today. rewrite (limit_valid limit Hl). cbn [guard rbind].
      rewrite (proj2 (require_scope_ok c _) Hs). cbn [rbind]. rewrite Hc. cbn [rbind].
      assert (match i with Some j => require_employment_access db c today j | None => Ok tt end = Ok tt) as ->
        by (destruct i; [by apply Ha|done]).
      cbn [rbind]. rewrite Hstart, Hstop. cbn [rbind]. rewrite bool_decide_eq_false_2 by done.
      cbn [guard rbind]. by rewrite (scoped_events_eq db c today _ pre suf).
    + destruct (page_spec event_payload (λ x, event_cursor_key (utc (ev_occurred_at x)) (ev_id x))
        limit "attendance-events" suf) as [Hd Hn]; [lia|]. split; [exact Hd|]. rewrite length_fmap.
      destruct (_ <? length suf)%nat; [|exact Hn]. destruct Hn as (pre' & x & Hfx & Hcx).
      eexists. split; [exact Hcx|]. exists (pre ++ pre' ++ [x]), (skipn (Z.to_nat limit) suf). split_and!.
      * rewrite Hr. rewrite (skipn_split _ _ _ _ Hfx) at 1. by rewrite <- !app_assoc.
      * by rewrite fmap_drop.
      * rewrite app_assoc, last_snoc. simpl.
        assert (x ∈ R) as Hx.
        { rewrite Hr, (skipn_split _ _ _ _ Hfx). rewrite !elem_of_app, list_elem_of_singleton. auto. }
        unfold R, permitted_events in Hx. apply elem_of_sorted_by, elem_of_where in Hx as [Hx _].
        apply attendance_cursor_encode; [|by apply Hrep]. pose proof (inv_ids _ Hi x Hx). lia.
  - by exists [], R.
Qed.
End Pages.

(** ** Properties *)

Section Theorems.
Context `{zone : PragueZone} `{!PragueZoneLaws zone}.
Context `{interchange : Interchange} `{settings : IntegrationSettings}.

Definition rows_permitted (db : DB) (c : IntegrationClient) (now : Z) (out : integration_out) : Prop :=
  let today := prague_today (Zoned now) in
  let permitted := permitted_employments db c today in
  match out with
  | OutEmployments p => ∀ r, r ∈ pg_data p → ∃ e, e ∈ permitted ∧ r = employment_payload db today e
  | OutLocks p => ∀ r, r ∈ pg_data p → ∃ e, e ∈ permitted ∧ lp_employment_id r = em_id e
  | OutEvents p => ∀ r, r ∈ pg_data p →
      ∃ x e, x ∈ events db ∧ r = event_payload x ∧ e ∈ permitted ∧ ev_employment_id x = em_id e
  | OutEvent r | OutDeleted r => ∃ e, e ∈ permitted ∧ ep_employment_id r = em_id e
  | OutHealth _ _ | OutOpenapi _ => True
  end.

Lemma permitted_elem db c today e :
  e ∈ permitted_employments db c today ↔
  e ∈ employments db ∧ employment_scope_predicate db c today e = true.
Proof. unfold permitted_employments. by rewrite elem_of_sorted_by, elem_of_where. Qed.

Lemma elem_of_firstn {A} n (l : list A) x : x ∈ firstn n l → x ∈ l.
Proof. rewrite elem_of_take. intros (i & Hi & _). by apply list_elem_of_lookup_2 in Hi. Qed.

Lemma elem_of_page {A B} (f : B → A) limit resource k (found : list B) r :
  r ∈ pg_data (page (f <$> found) limit resource k) → ∃ b, b ∈ found ∧ r = f b.
Proof. simpl. intros (b & -> & Hb)%elem_of_firstn%list_elem_of_fmap. by exists b. Qed.

Lemma scoped_employments_elem db c today cursor limit e :
  e ∈ scoped_employments db c today cursor limit → e ∈ permitted_employments db c today.
Proof.
  unfold scoped_employments. intros [He Hp]%elem_of_firstn%elem_of_sorted_by%elem_of_where.
  apply permitted_elem. by apply andb_prop in Hp as [Hp _].
Qed.

Lemma writable_permitted db c now e :
  writable db c now e → e ∈ permitted_employments db c (prague_today (Zoned now)).
Proof. intros [He Hs _ _]. by apply permitted_elem. Qed.

Lemma handler_rows_permitted db c now call db' out n :
  inv db → integration_handler db c now call = Ok (db', out, n) → rows_permitted db c now out.
Proof.
  intros Hi H. destruct call; simpl in H; ok_inv H.
  - by injection H as _ <- _.
  - by injection H as _ <- _.
  - injection H as _ <- _. unfold list_employments in Hstep. ok_inv Hstep. injection Hstep as <-.
    intros r (e & He & ->)%elem_of_page. exists e. split; [|done]. by eapply scoped_employments_elem.
  - injection H as _ <- _. unfold list_attendance_events in Hstep. ok_inv Hstep. injection Hstep as <-.
    intros r (x & Hx & ->)%elem_of_page. unfold scoped_events in Hx.
    apply elem_of_firstn, elem_of_sorted_by, elem_of_where in Hx as [Hx Hp].
    apply andb_prop in Hp as [[Hp _]%andb_prop _]. apply existsb_elem in Hp as (e & He & Hp).
    apply andb_prop in Hp as [Hid%Z.eqb_eq Hp]. exists x, e. split_and!; [done|done| |done]. by apply permitted_elem.
  - destruct v as [[db1 x] k]. injection H as _ <- _.
    apply integration_create_ok in Hstep as (_ & e & Hw & _ & (_ & _ & _ & _ & -> & _) & _); [|done].
    exists e. split; [by apply writable_permitted|done].
  - destruct v as [db1 x]. injection H as _ <- _.
    apply integration_update_ok in Hstep as (_ & e & old & Hw & _ & _ & _ & (_ & _ & _ & _ & -> & _) & _); [|done].
    exists e. split; [by apply writable_permitted|done].
  - destruct v as [db1 x]. injection H as _ <- _.
    apply integration_delete_ok in Hstep as (_ & e & Hw & _ & _ & Hemp & _); [|done].
    exists e. split; [by apply writable_permitted|done].
  - injection H as _ <- _. unfold list_locks in Hstep. ok_inv Hstep. injection Hstep as <-.
    intros r (e & He & ->)%elem_of_page. exists e. split; [|done]. by eapply scoped_employments_elem.
Qed.

(** C17: a client reads and writes only inside its scope.  A request that
    succeeds had the scope of its endpoint; every row of its answer belongs
    to an employment the client is permitted, whatever cursor and filters it
    sent; a read changes nothing, and a write changes the events of one
    permitted employment that is valid today and whose user is active, under
    all the guarantees of the portal's writes.  A client whose data scope is
    none of the four known modes is permitted nothing. *)
Theorem integration_scope_enforced db c now call db' out n
    (Hi : inv db) (H : integration_handler db c now call = Ok (db', out, n)) :
  call_effect db c now call db' ∧ rows_permitted db c now out ∧
  (strip (ic_data_scope_mode c) ∉
     [DATA_SCOPE_ALL; DATA_SCOPE_ACTIVE_ONLY; DATA_SCOPE_SELECTED_EMPLOYEES; DATA_SCOPE_SELECTED_EMPLOYMENTS] →
   permitted_employments db c (prague_today (Zoned now)) = []).
Proof.
  split_and!; [by eapply integration_handler_ok|by eapply handler_rows_permitted|].
  intros Hm. unfold permitted_employments.
  assert (where_ (employment_scope_predicate db c (prague_today (Zoned now))) (employments db) = []) as ->;
    [|done].
  apply where_nil_iff. intros e _. unfold employment_scope_predicate.
  rewrite !not_elem_of_cons in Hm. destruct Hm as (H1 & H2 & H3 & H4 & _).
  by rewrite !(proj2 (String.eqb_neq _ _)) by done.
Qed.

(** C18: the lists are complete.  While the data do not change, a client that
    sends the cursor of each answer with its next request gets, after as many
    requests as there are pages, every employment, lock state or event it is
    permitted, each once and in order. *)
Theorem integration_lists_complete `{!InterchangeLaws interchange} db c now limit fuel
    i date_from date_to start stop year month
    (Hi : inv db) (Hid : ∀ e, e ∈ employments db → 1 <= em_id e)
    (Hrep : ∀ x, x ∈ events db → representable (utc (ev_occurred_at x)) = true)
    (Hs : SCOPE_EMPLOYMENTS ∈ ic_scopes c) (Hk : SCOPE_LOCKS ∈ ic_scopes c)
    (Hq : events_query db c (prague_today (Zoned now)) i date_from date_to start stop)
    (Hl : 1 <= limit <= 500) :
  let today := prague_today (Zoned now) in
  let permitted := permitted_employments db c today in
  let found := permitted_events db c today (event_filter i start stop) in
  (enough fuel limit (length permitted) →
   walk (list_employments db c now limit) fuel None = Some (employment_payload db today <$> permitted) ∧
   walk (list_locks db c now year month limit) fuel None = Some (lock_payload db year month <$> permitted)) ∧
  (enough fuel limit (length found) →
   walk (list_attendance_events db c now i date_from date_to limit) fuel None = Some (event_payload <$> found)).
Proof.
  simpl. split; [split; [by apply walk_employments|by apply walk_locks]|]. by apply walk_events.
Qed.
End Theorems.
