(* ===== verification/GatewaySystem.v ===== *)
(** * The whole service: the portal and the integration interface

    [gateway_step] runs one request: of the portal, of the administration of
    integration clients, or of a partner.  The theorems of the portal hold for
    any sequence of them. *)

From stdpp Require Import relations gmap.
From S2P Require Import Prelude Calendar TimeParse PragueTime Models TimeIntervals TimeMetrics.
From S2P Require Import Locks DayStatus AttendanceEvents MonthSummary AttendanceApi SystemInvariant.
From S2P Require Import Groups AttendanceSafety System Accounts Sessions Login Instances References AccountsSafety AccountsHandlers PortalSystem.
From S2P Require Import IpAddress IntegrationClients Cursors IntegrationCatalog IntegrationAdmin.
From S2P Require Import RateLimit IntegrationApi IntegrationSafety.
#[local] Open Scope Z_scope.

(** ** Requests *)

(** [raw] are the random octets of a new token. *)
Inductive client_work :=
  | CreateClient (raw : list Z) (body : IntegrationClientIn)
  | UpdateClient (client_id : Z) (body : IntegrationClientIn)
  | RotateSecret (client_id : Z) (raw : list Z)
  | DisableClient (client_id : Z)
  | EnableClient (client_id : Z)
  | RevokeSecret (client_id : Z).

Inductive gateway_request :=
  | PortalStep (r : portal_request)
  | ClientsStep (rq : HttpRequest) (form : option string) (now : Z) (w : client_work)
  | IntegrationStep (rq : IntegrationHttp) (now tick : Z) (call : integration_call).

Section Gateway.
Context `{zone : PragueZone} `{crypto : Crypto} `{signing : Signing} `{interchange : Interchange}.
Context `{settings : IntegrationSettings}.

Definition gateway_after {A} (g : Gateway) (r : result (Gateway * A)) : Gateway :=
  match r with Ok (g', _) => g' | Err _ => g end.

Definition manage_client (g : Gateway) (now : Z) (w : client_work) : Gateway :=
  match w with
  | CreateClient raw body => gateway_after g (create_integration_client g now raw body)
  | UpdateClient i body => gateway_after g (update_integration_client g now i body)
  | RotateSecret i raw => gateway_after g (rotate_integration_client_secret g now i raw)
  | DisableClient i => gateway_after g (disable_integration_client g now i)
  | EnableClient i => gateway_after g (enable_integration_client g now i)
  | RevokeSecret i => gateway_after g (revoke_integration_client_secret g now i)
  end.

Definition gateway_step (g : Gateway) (r : gateway_request) : Gateway :=
  match r with
  | PortalStep r => set_g_portal (step (g_portal g) r) g
  | ClientsStep rq form now w =>
      match require_admin_request rq form now with Ok _ => manage_client g now w | Err _ => g end
  | IntegrationStep rq now tick call => (integration_request g rq now tick call).1
  end.

Definition gateway_run (g : Gateway) (l : list gateway_request) : Gateway :=
  fold_left gateway_step l g.

(** A condition on every step of a run. *)
Fixpoint gateway_along (q : Gateway → gateway_request → Prop) (g : Gateway)
    (l : list gateway_request) : Prop :=
  match l with [] => True | r :: rest => q g r ∧ gateway_along q (gateway_step g r) rest end.

Definition gateway_spares_groups (g : Gateway) (r : gateway_request) : Prop :=
  match r with PortalStep r => spares_groups (g_portal g) r | _ => True end.
Definition gateway_releases (g : Gateway) (r : gateway_request) (lt : LockType) (e y m : Z) : Prop :=
  match r with PortalStep r => releases (g_portal g) r lt e y m | _ => False end.
Definition gateway_clock_ok (g : Gateway) (r : gateway_request) : Prop :=
  match r with
  | PortalStep r => request_clock_ok (g_portal g) r
  | ClientsStep _ _ _ _ => True
  | IntegrationStep _ _ _ call => call_clock_ok call
  end.
End Gateway.

(** ** Well-formed clients *)

Definition scope_available (scope : string) : Prop :=
  ∃ d, scope_by_id scope = Some d ∧ sd_available d = true.

(** A stored client: its name, its scopes, and the lists of its data scope,
    which are there exactly when its mode uses them. *)
Record client_row_ok (c : IntegrationClient) : Prop := {
  cr_name : NAME_MIN_LENGTH <= Z.of_nat (String.length (ic_name c)) <= NAME_MAX_LENGTH ∧
    forallb name_char (list_ascii_of_string (ic_name c)) = true;
  cr_scopes : Forall scope_available (ic_scopes c);
  cr_health : SCOPE_HEALTH ∈ ic_scopes c;
  cr_mode : ic_data_scope_mode c ∈ DATA_SCOPE_MODES;
  cr_employees : ic_allowed_employee_ids c ≠ [] ↔ ic_data_scope_mode c = DATA_SCOPE_SELECTED_EMPLOYEES;
  cr_employments :
    ic_allowed_employment_ids c ≠ [] ↔ ic_data_scope_mode c = DATA_SCOPE_SELECTED_EMPLOYMENTS;
}.

Record clients_inv (g : Gateway) : Prop := {
  ci_clients : keyed ic_id ic_name (g_next g) (g_clients g);
  ci_rows : Forall client_row_ok (g_clients g);
  ci_secrets : keyed is_id is_id (g_next g) (g_secrets g);
  ci_owner : ∀ s, s ∈ g_secrets g → is_client_id s ∈ ic_id <$> g_clients g;
  ci_one : ∀ s s', s ∈ g_secrets g → s' ∈ g_secrets g → is_revoked_at s = None →
    is_revoked_at s' = None → is_client_id s = is_client_id s' → s = s';
  ci_audit : keyed al_id al_id (g_next g) (g_audit g);
}.

Lemma keyed_replace {A K} (id : A → Z) (key : A → K) b i c l :
  keyed id key b l → id c = i → (∀ x, x ∈ l → key x = key c → id x = i) →
  keyed id key b (update_where (λ x, id x =? i) (λ _, c) l).
Proof.
  intros [Hi Hk Hf] Hc Hfree.
  assert (Hids : id <$> update_where (λ x, id x =? i) (λ _, c) l = id <$> l).
  { unfold update_where. rewrite <- list_fmap_compose. apply list_fmap_ext. intros _ x _. simpl.
    destruct (id x =? i) eqn:E; [|done]. apply Z.eqb_eq in E. congruence. }
  constructor.
  - by rewrite Hids.
  - clear Hids Hf. induction l as [|x l IH]; [constructor|]. cbn in Hi, Hk |- *.
    apply NoDup_cons in Hi as [Hi1 Hi2], Hk as [Hk1 Hk2]. apply NoDup_cons. split.
    + rewrite list_elem_of_fmap. intros (y & Hy & Hin). apply elem_of_update_where in Hin as (z & Hz & ->).
      destruct (id x =? i) eqn:Ex, (id z =? i) eqn:Ez; bool_hyps.
      * apply Hi1. rewrite Ex, <- Ez. by apply list_elem_of_fmap_2.
      * apply Ez. apply Hfree; [by right|done].
      * apply Ex. apply Hfree; [by left|done].
      * apply Hk1. rewrite Hy. by apply list_elem_of_fmap_2.
    + apply IH; [done..|]. intros y Hy. apply Hfree. by right.
  - rewrite Forall_forall in Hf |- *. intros x (y & Hy & ->)%elem_of_update_where.
    destruct (id y =? i) eqn:E; [|by apply Hf]. apply Z.eqb_eq in E. rewrite Hc, <- E. by apply Hf.
Qed.

(** ** Validation *)

Lemma validate_client_name_ok raw name :
  validate_client_name raw = Ok name →
  NAME_MIN_LENGTH <= Z.of_nat (String.length name) <= NAME_MAX_LENGTH ∧
  forallb name_char (list_ascii_of_string name) = true.
Proof.
  unfold validate_client_name. intros H. ok_inv H. injection H as <-. bool_hyps.
  by split; [split|].
Qed.

Lemma validate_scopes_ok raw scopes :
  validate_scopes raw = Ok scopes → Forall scope_available scopes ∧ SCOPE_HEALTH ∈ scopes.
Proof.
  unfold validate_scopes. intros H. ok_inv H. injection H as <-.
  apply for_each_ok in Hstep. split.
  - eapply Forall_impl; [exact Hstep|]. simpl. intros s Hs. ok_inv Hs.
    apply or_raise_ok in Hstep0. exists v0. split; [done|]. by apply guard_ok, negb_false_iff in Hs.
  - apply negb_false_iff in Hguard0. by apply mem_true.
Qed.

Lemma validate_selected_ok known ids l : validate_selected known ids = Ok l → l ≠ [].
Proof.
  unfold validate_selected. intros H. ok_inv H. injection H as <-.
  apply is_nil_false in Hguard as [x Hx]. intros Hl.
  assert (x ∈ sorted_by Z.leb (dedup ids)) as Hin by by apply elem_of_sorted_by, elem_of_dedup.
  rewrite Hl in Hin. by apply elem_of_nil in Hin.
Qed.

Lemma chosen_data_scope_ok db body a b i :
  xi_data_scope_mode body ∈ DATA_SCOPE_MODES → chosen_data_scope db body = Ok (a, b, i) →
  (a ≠ [] ↔ xi_data_scope_mode body = DATA_SCOPE_SELECTED_EMPLOYEES) ∧
  (b ≠ [] ↔ xi_data_scope_mode body = DATA_SCOPE_SELECTED_EMPLOYMENTS).
Proof.
  unfold chosen_data_scope. intros Hm H.
  destruct (String.eqb _ DATA_SCOPE_SELECTED_EMPLOYEES) eqn:E1.
  { apply String.eqb_eq in E1. ok_inv H. injection H as <- <- _. apply validate_selected_ok in Hstep.
    rewrite E1. split; [done|]. split; [by intros []|done]. }
  destruct (String.eqb _ DATA_SCOPE_SELECTED_EMPLOYMENTS) eqn:E2.
  { apply String.eqb_eq in E2. ok_inv H. injection H as <- <- _. apply validate_selected_ok in Hstep.
    rewrite E2. split; [|done]. split; [by intros []|done]. }
  apply String.eqb_neq in E1, E2. injection H as <- <- _. split; split; try done; by intros [].
Qed.

(** What a saved form keeps and guarantees. *)
Lemma apply_payload_ok db now c body c' :
  apply_payload_to_client db now c body = Ok c' →
  ic_id c' = ic_id c ∧ validate_client_name (xi_name body) = Ok (ic_name c') ∧ client_row_ok c' ∧
  ic_status c' = ic_status c.
Proof.
  unfold apply_payload_to_client. intros H. ok_inv H. destruct v1 as [[employee_ids employment_ids] inactive].
  ok_inv H. injection H as <-. apply negb_false_iff, mem_true in Hguard. split_and!; try done.
  destruct (chosen_data_scope_ok _ _ _ _ _ Hguard Hstep1) as [He Hm].
  apply validate_scopes_ok in Hstep0 as [Hs Hh]. apply validate_client_name_ok in Hstep.
  by constructor.
Qed.

(** ** Changes of clients and secrets *)

Section Changes.
Context `{crypto : Crypto}.

(** [issued] is the token a change handed out: every secret in use afterwards
    was in use before or belongs to it. *)
Record client_step (g g' : Gateway) (issued : option string) : Prop := {
  cs_inv : clients_inv g';
  cs_portal : g_portal g' = g_portal g;
  cs_audit : g_audit g' = g_audit g;
  cs_secrets : ∀ s, s ∈ g_secrets g' → is_revoked_at s = None →
    s ∈ g_secrets g ∨ ∃ t, issued = Some t ∧ is_token_hash s = hash_integration_token t;
}.

Lemma client_step_refl g issued : clients_inv g → client_step g g issued.
Proof. intros H. constructor; auto. Qed.

Lemma client_step_trans g g1 g2 issued :
  client_step g g1 None → client_step g1 g2 issued → client_step g g2 issued.
Proof.
  intros [I1 P1 A1 S1] [I2 P2 A2 S2]. constructor; [done|congruence|congruence|].
  intros s Hs Hr. destruct (S2 s Hs Hr) as [Hs1|]; [|by right].
  destruct (S1 s Hs1 Hr) as [|(t & ? & _)]; [by left|done].
Qed.

Lemma client_step_issue g g' issued : client_step g g' None → client_step g g' issued.
Proof. intros [I P A S]. constructor; try done. intros s Hs Hr. destruct (S s Hs Hr) as [|(t & ? & _)]; [by left|done]. Qed.

Lemma get_client_ok g i c : get_client g i = Some c → c ∈ g_clients g ∧ ic_id c = i.
Proof.
  unfold get_client, one_or_none. intros Hh.
  assert (c ∈ where_ (λ x, ic_id x =? i) (g_clients g)) as [H1 H2%Z.eqb_eq]%elem_of_where.
  { destruct (where_ _ _); [done|]. injection Hh as ->. left. }
  done.
Qed.

(** Replacing a client by one with a free name. *)
Lemma update_client_step g i c' :
  clients_inv g → ic_id c' = i → client_row_ok c' →
  (∀ c, c ∈ g_clients g → ic_name c = ic_name c' → ic_id c = i) →
  client_step g (update_client i (λ _, c') g) None.
Proof.
  intros [K R S O U A] Hid Hrow Hfree. constructor; [|done|done|by left].
  constructor; simpl; try done.
  - by apply keyed_replace.
  - rewrite Forall_forall in R |- *. intros x (y & Hy & ->)%elem_of_update_where.
    destruct (_ =? i); auto.
  - intros s Hs. destruct (proj1 (list_elem_of_fmap _ _ _) (O s Hs)) as (c & Hc & Hin). rewrite Hc.
    apply list_elem_of_fmap. exists (if ic_id c =? i then c' else c). split.
    + destruct (ic_id c =? i) eqn:E; [apply Z.eqb_eq in E; congruence|done].
    + apply elem_of_update_where. by exists c.
Qed.

(** A change that keeps the id, the name and what the form checks. *)
Lemma touch_client_step g i f :
  clients_inv g → (∀ c, ic_id (f c) = ic_id c) → (∀ c, ic_name (f c) = ic_name c) →
  (∀ c, client_row_ok c → client_row_ok (f c)) →
  client_step g (update_client i f g) None.
Proof.
  intros [K R S O U A] Hid Hn Hrow. constructor; [|done|done|by left].
  constructor; simpl; try done.
  - by apply keyed_update.
  - rewrite Forall_forall in R |- *. intros x (y & Hy & ->)%elem_of_update_where.
    destruct (_ =? i); auto.
  - intros s Hs. by rewrite update_where_fmap by done; apply O.
Qed.

Lemma with_status_ok status c : client_row_ok c → client_row_ok (with_status status c).
Proof. intros []. by constructor. Qed.
Lemma used_client_ok now c : client_row_ok c → client_row_ok (used_client now c).
Proof. intros []. by constructor. Qed.

Lemma status_step g i status : clients_inv g → client_step g (update_client i (with_status status) g) None.
Proof. intros H. apply touch_client_step; try done. apply with_status_ok. Qed.

(** After a revocation the client has no secret in use. *)
Lemma revoke_step g i now rotated :
  clients_inv g → client_step g (revoke_secrets_of i now rotated g) None ∧
  ∀ s, s ∈ g_secrets (revoke_secrets_of i now rotated g) → is_client_id s = i → is_revoked_at s ≠ None.
Proof.
  intros [K R S O U A].
  assert (Hold : ∀ s, s ∈ g_secrets (revoke_secrets_of i now rotated g) → is_revoked_at s = None →
    s ∈ g_secrets g ∧ is_client_id s ≠ i).
  { intros s (y & Hy & ->)%elem_of_update_where Hr.
    destruct (is_client_id y =? i) eqn:E; simpl in Hr.
    - destruct (is_revoked_at y) eqn:Hry; simpl in Hr; [congruence|done].
    - apply Z.eqb_neq in E. done. }
  split.
  - constructor; [|done|done|intros s Hs Hr; left; by apply Hold].
    constructor; simpl; try done.
    + by apply keyed_update.
    + intros s (y & Hy & ->)%elem_of_update_where. destruct (_ && _); by apply (O y).
    + intros s s' Hs Hs' Hr Hr'. apply U; try done; by apply Hold.
  - intros s Hs Hi Hr. by destruct (Hold s Hs Hr).
Qed.

Lemma add_secret_step g i t :
  clients_inv g → i ∈ ic_id <$> g_clients g →
  (∀ s, s ∈ g_secrets g → is_client_id s = i → is_revoked_at s ≠ None) →
  client_step g (add_secret i t g) (Some t).
Proof.
  intros [K R S O U A] Hi Hnone. constructor; [|done|done|].
  - constructor; simpl; try done.
    + eapply keyed_mono; [|done]. lia.
    + apply keyed_add; [done| |done]. simpl. intros (s & Hs & Hin)%list_elem_of_fmap.
      destruct S as [_ _ F]. rewrite Forall_forall in F. specialize (F s Hin). lia.
    + intros s [Hs| ->%list_elem_of_singleton]%elem_of_app; [by apply O|done].
    + intros s s' [Hs| ->%list_elem_of_singleton]%elem_of_app
        [Hs'| ->%list_elem_of_singleton]%elem_of_app Hr Hr' Heq; simpl in *; try done.
      * by apply U.
      * by destruct (Hnone s Hs).
      * by destruct (Hnone s' Hs').
    + eapply keyed_mono; [|done]. lia.
  - intros s [Hs| ->%list_elem_of_singleton]%elem_of_app _; [by left|]. right. by exists t.
Qed.

Lemma add_client_step g c :
  clients_inv g → ic_id c = g_next g → ic_name c ∉ ic_name <$> g_clients g → client_row_ok c →
  client_step g (set_g_next (g_next g + 1) (set_g_clients (g_clients g ++ [c]) g)) None ∧
  ∀ s, s ∈ g_secrets g → is_client_id s ≠ ic_id c.
Proof.
  intros [K R S O U A] Hid Hn Hrow. split.
  - constructor; [|done|done|by left]. constructor; simpl; try done.
    + by apply keyed_add.
    + apply Forall_app. by split; [|constructor].
    + eapply keyed_mono; [|done]. lia.
    + intros s Hs. rewrite fmap_app. apply elem_of_app. left. by apply O.
    + eapply keyed_mono; [|done]. lia.
  - intros s Hs Heq. specialize (O s Hs). apply list_elem_of_fmap in O as (c' & Hc & Hin).
    destruct K as [_ _ F]. rewrite Forall_forall in F. specialize (F c' Hin). lia.
Qed.

(** ** The endpoints *)

Lemma name_free g name i c :
  name_taken g name i = false → c ∈ g_clients g → ic_name c = name → Some (ic_id c) = i.
Proof.
  unfold name_taken. intros H Hc Hn. destruct (decide (Some (ic_id c) = i)) as [|Hne]; [done|].
  apply not_true_iff_false in H. destruct H. apply existsb_elem. exists c. split; [done|].
  by rewrite Hn, String.eqb_refl, bool_decide_eq_false_2.
Qed.

Lemma create_client_ok g now raw body g' out :
  clients_inv g → create_integration_client g now raw body = Ok (g', out) →
  client_step g g' (Some (generate_integration_token raw)).
Proof.
  intros Hi H. unfold create_integration_client in H. ok_inv H.
  unfold detail_with_token in H. ok_inv H. injection H as <- _. rename v0 into c.
  apply apply_payload_ok in Hstep0 as (Hid & Hname & Hrow & _). simpl in Hid.
  rewrite Hstep in Hname. injection Hname as ->.
  destruct (add_client_step g c Hi Hid) as [Hs Hnew]; [|done|].
  { intros (c' & Hc' & Hin)%list_elem_of_fmap. symmetry in Hc'. by apply (name_free g _ None c') in Hc'. }
  eapply client_step_trans; [exact Hs|]. apply add_secret_step; [apply Hs| |].
  - simpl. rewrite fmap_app. apply elem_of_app. right. by left.
  - intros s Hin Hc. by destruct (Hnew s Hin).
Qed.

Lemma update_client_ok g now i body g' out :
  clients_inv g → update_integration_client g now i body = Ok (g', out) → client_step g g' None.
Proof.
  intros Hi H. unfold update_integration_client in H. ok_inv H. unfold detail_of in H. ok_inv H.
  injection H as <- _. unfold client_or_404 in Hstep. apply or_raise_ok, get_client_ok in Hstep as [Hin Hid].
  apply apply_payload_ok in Hstep1 as (Hid' & Hname & Hrow & _). rewrite Hstep0 in Hname. injection Hname as ->.
  apply update_client_step; [done|congruence|done|]. intros c Hc Hn.
  by apply (name_free g _ (Some i) c) in Hn as [= ->].
Qed.

Lemma rotate_ok g now i raw g' out :
  clients_inv g → rotate_integration_client_secret g now i raw = Ok (g', out) →
  client_step g g' (Some (generate_integration_token raw)) ∧
  (∀ s, s ∈ g_secrets g' → is_client_id s = i → is_revoked_at s = None →
     is_token_hash s = hash_integration_token (generate_integration_token raw)).
Proof.
  intros Hi H. unfold rotate_integration_client_secret in H. ok_inv H. unfold detail_with_token in H.
  ok_inv H. injection H as <- _. unfold client_or_404 in Hstep. apply or_raise_ok, get_client_ok in Hstep as [Hin Hid].
  destruct (revoke_step g i now true Hi) as [Hr Hnone]. subst i.
  set (g0 := revoke_secrets_of (ic_id v) now true g) in *.
  assert (Ha : client_step g0 (add_secret (ic_id v) (generate_integration_token raw) g0)
    (Some (generate_integration_token raw))).
  { apply add_secret_step; [apply Hr|by apply list_elem_of_fmap_2|done]. }
  assert (Hs : ∀ s, s ∈ g_secrets (add_secret (ic_id v) (generate_integration_token raw) g0) →
    is_client_id s = ic_id v → is_revoked_at s = None →
    is_token_hash s = hash_integration_token (generate_integration_token raw)).
  { intros s [Hs| ->%list_elem_of_singleton]%elem_of_app Hc Hrn; [|done]. by destruct (Hnone s Hs Hc). }
  destruct (bool_decide _).
  - split; [|exact Hs]. eapply client_step_trans; [exact Hr|].
    destruct Ha as [I P A S]. pose proof (status_step _ (ic_id v) CLIENT_ACTIVE I) as [I' P' A' S'].
    constructor; [done|congruence|congruence|]. intros s Hin' Hrn. apply S; done.
  - split; [|exact Hs]. by eapply client_step_trans.
Qed.

Lemma disable_ok g now i g' out :
  clients_inv g → disable_integration_client g now i = Ok (g', out) → client_step g g' None.
Proof.
  intros Hi H. unfold disable_integration_client in H. ok_inv H. unfold detail_of in H. ok_inv H.
  injection H as <- _. by apply status_step.
Qed.

Lemma enable_ok g now i g' out :
  clients_inv g → enable_integration_client g now i = Ok (g', out) → client_step g g' None.
Proof.
  intros Hi H. unfold enable_integration_client in H. ok_inv H. unfold detail_of in H. ok_inv H.
  injection H as <- _. by apply status_step.
Qed.

Lemma revoke_ok g now i g' out :
  clients_inv g → revoke_integration_client_secret g now i = Ok (g', out) →
  client_step g g' None ∧
  ∀ s, s ∈ g_secrets g' → is_client_id s = i → is_revoked_at s ≠ None.
Proof.
  intros Hi H. unfold revoke_integration_client_secret in H. ok_inv H. unfold detail_of in H. ok_inv H.
  injection H as <- _. destruct (revoke_step g i now false Hi) as [Hr Hnone]. split; [|exact Hnone].
  eapply client_step_trans; [exact Hr|]. apply status_step, Hr.
Qed.
End Changes.

(** ** One request *)

Section Step.
Context `{zone : PragueZone} `{!PragueZoneLaws zone} `{!PragueGap zone}.
Context `{crypto : Crypto} `{signing : Signing} `{interchange : Interchange}.
Context `{settings : IntegrationSettings}.

(** The administrator's request with the same effect on the locks. *)
Definition like_admin (now : Z) (call : integration_call) : system_request :=
  match call with
  | CallCreate body => AdminCreateEvent now body
  | CallUpdate i t => AdminMoveEvent now i (mk_event_in 0 t None)
  | _ => AdminDeleteEvent now 0 None
  end.

Lemma handler_step_ok db c now call db' out n :
  system_inv db → integration_handler db c now call = Ok (db', out, n) →
  step_ok db (like_admin now call) db'.
Proof.
  intros H Hh. destruct (integration_handler_ok _ _ _ _ _ _ _ (si_inv _ H) Hh) as [[_ Hc] Hf].
  destruct Hc as [->|[Hs _]]; [by apply step_refl|]. apply step_attendance; [done|done|].
  intros Hclock. apply Hf; [done|]. by destruct call.
Qed.

Lemma auth_ok g rq now g1 c :
  require_integration_auth g rq now = Ok (g1, c) →
  ∃ c0 token, get_client g (ic_id c0) = Some c0 ∧ g1 = touch_client_last_used now c0 g ∧
    c = used_client now c0 ∧ bearer_from_auth_header (ih_authorization rq) = Some token.
Proof.
  unfold require_integration_auth. intros H. ok_inv H. destruct v1 as [c0 s]. injection H as <- <-.
  apply or_raise_ok in Hstep, Hstep1. subst v0. exists c0, v. split_and!; try done.
  unfold verify_integration_token in Hstep0. destruct (negb _); [done|].
  destruct (head _) as [s'|]; [|done]. destruct (get_client g _) as [c'|] eqn:E; [|done].
  ok_inv Hstep0. injection Hstep0 as -> ->. pose proof (get_client_ok _ _ _ E) as [_ Hid]. by rewrite Hid.
Qed.

Definition status_of (call : integration_call) (res : result integration_out) : Z :=
  match res with Ok _ => success_status call | Err e => (error_of e).1 end.
Definition code_of (res : result integration_out) : option string :=
  match res with Ok _ => None | Err e => Some (error_of e).2 end.

(** What an integration request leaves behind: its answer with its audit row,
    or, when the row does not fit, neither. *)
Record request_effect (g : Gateway) (rq : IntegrationHttp) (now : Z) (call : integration_call)
    (g' : Gateway) (res : result integration_out) : Prop := {
  re_clients : clients_inv g';
  re_secrets : g_secrets g' = g_secrets g;
  re_audit :
    if audit_fits rq
    then ∃ row, g_audit g' = g_audit g ++ [row] ∧ al_request_id row = ih_request_id rq ∧
      al_method row = ih_method rq ∧ al_path row = ih_path rq ∧
      al_status_code row = status_of call res ∧ al_error_code row = code_of res ∧
      (∀ e, res = Err e → al_row_count row = None)
    else g_audit g' = g_audit g ∧ res = Err (Crash "DataError");
  re_portal : (∃ e, res = Err e) ∧ g_portal g' = g_portal g ∨
    ∃ c out n db', res = (if audit_fits rq then Ok out else Err (Crash "DataError")) ∧
      integration_handler (g_db g) c now call = Ok (db', out, n) ∧ g_portal g' = set_p_db db' (g_portal g);
}.

Lemma finalize_ok g rq now i status code n :
  clients_inv g →
  if audit_fits rq
  then ∃ g', finalize_integration_audit g rq now i status code n = Ok g' ∧ clients_inv g' ∧
    g_secrets g' = g_secrets g ∧ g_portal g' = g_portal g ∧
    ∃ row, g_audit g' = g_audit g ++ [row] ∧ al_request_id row = ih_request_id rq ∧
      al_method row = ih_method rq ∧ al_path row = ih_path rq ∧
      al_status_code row = status ∧ al_error_code row = code ∧ al_row_count row = n
  else finalize_integration_audit g rq now i status code n = Err (Crash "DataError").
Proof.
  intros [K R S O U A]. unfold finalize_integration_audit. destruct (audit_fits rq); [|done].
  eexists. split; [done|]. split_and!; [|done..|by eexists].
  constructor; simpl; try done; try (eapply keyed_mono; [|done]; lia).
  apply keyed_add; [done| |done]. intros (r & Hr & Hin)%list_elem_of_fmap. simpl in Hr.
  destruct A as [_ _ F]. rewrite Forall_forall in F. specialize (F r Hin). lia.
Qed.

Lemma touch_inv g now c :
  clients_inv g → clients_inv (touch_client_last_used now c g).
Proof. intros H. apply (touch_client_step g (ic_id c) (used_client now)); try done. apply used_client_ok. Qed.

Lemma same_clients_inv g g' :
  g_clients g' = g_clients g → g_secrets g' = g_secrets g → g_audit g' = g_audit g →
  g_next g' = g_next g → clients_inv g → clients_inv g'.
Proof. intros E1 E2 E3 E4 [K R S O U A]. constructor; rewrite ?E1, ?E2, ?E3, ?E4; done. Qed.

Lemma run_call_effect g rq now tick call g1 i outcome :
  clients_inv g → run_call g rq now tick call = (g1, i, outcome) →
  clients_inv g1 ∧ g_secrets g1 = g_secrets g ∧ g_audit g1 = g_audit g ∧
  match outcome with
  | Err _ => g_portal g1 = g_portal g
  | Ok (out, n) => ∃ c db', integration_handler (g_db g) c now call = Ok (db', out, n) ∧
      g_portal g1 = set_p_db db' (g_portal g)
  end.
Proof.
  intros Hi H. unfold run_call in H.
  destruct (require_integration_auth g rq now) as [[g0 c]|e] eqn:Ha; [|by injection H as <- <- <-].
  apply auth_ok in Ha as (c0 & token & _ & -> & -> & _).
  destruct (enforce_configured_limit _ _ _ _ _ _ _) as [b allowed].
  pose proof (touch_inv g now c0 Hi) as Ht.
  assert (Hg : ∀ b x, clients_inv (set_g_db x (set_g_buckets b (touch_client_last_used now c0 g))))
    by (intros; by apply (same_clients_inv (touch_client_last_used now c0 g))).
  assert (Hg' : ∀ b, clients_inv (set_g_buckets b (touch_client_last_used now c0 g)))
    by (intros; by apply (same_clients_inv (touch_client_last_used now c0 g))).
  destruct (allowed ?;; _) as [[[db' out] n]|e] eqn:E; injection H as <- _ <-; [|by split_and!].
  split_and!; [done..|]. ok_inv E. by exists (used_client now c0), db'.
Qed.

Lemma integration_request_ok g rq now tick call g' res :
  clients_inv g → integration_request g rq now tick call = (g', res) →
  request_effect g rq now call g' res.
Proof.
  intros Hi H. unfold integration_request in H.
  destruct (run_call g rq now tick call) as [[g1 i] outcome] eqn:E.
  apply run_call_effect in E as (Hc & Hs & Ha & Hp); [|done].
  destruct outcome as [[out n]|e].
  - destruct Hp as (c & db' & Hh & Hp).
    pose proof (finalize_ok g1 rq now i (success_status call) None n Hc) as Hf.
    destruct (audit_fits rq) eqn:Ef.
    + destruct Hf as (g2 & Eg & Hc2 & Hs2 & Hp2 & row & Hrow & ? & ? & ? & ? & ? & ?). rewrite Eg in H.
      injection H as <- <-. constructor; rewrite ?Ef; [done|congruence| |].
      * exists row. rewrite Hrow, Ha. by split_and!.
      * right. exists c, out, n, db'. split_and!; [done..|congruence].
    + rewrite Hf in H. injection H as <- <-. constructor; rewrite ?Ef; [done..|].
      right. by exists c, out, n, db'.
  - destruct (error_of e) as [status code] eqn:Ee.
    pose proof (finalize_ok g1 rq now i status (Some code) None Hc) as Hf.
    destruct (audit_fits rq) eqn:Ef.
    + destruct Hf as (g2 & Eg & Hc2 & Hs2 & Hp2 & row & Hrow & ? & ? & ? & ? & ? & ?). rewrite Eg in H.
      injection H as <- <-. constructor; rewrite ?Ef; [done|congruence| |].
      * exists row. simpl. rewrite Hrow, Ha, Ee. by split_and!.
      * left. split; [by eexists|congruence].
    + rewrite Hf in H. injection H as <- <-. constructor; rewrite ?Ef; [done..|].
      left. split; [by eexists|done].
Qed.
End Step.

(** ** Sequences of requests *)

Section Runs.
Context `{zone : PragueZone} `{!PragueZoneLaws zone} `{!PragueGap zone}.
Context `{crypto : Crypto} `{signing : Signing} `{interchange : Interchange}.
Context `{settings : IntegrationSettings}.

Record gateway_inv (g : Gateway) : Prop := {
  gi_portal : portal_inv (g_portal g);
  gi_clients : clients_inv g;
}.

(** The token a request hands out. *)
Definition issued_by (r : gateway_request) : option string :=
  match r with
  | ClientsStep _ _ _ (CreateClient raw _ | RotateSecret _ raw) => Some (generate_integration_token raw)
  | _ => None
  end.

(** A partner's request whose audit row fits its columns. *)
Definition is_audited (r : gateway_request) : bool :=
  match r with IntegrationStep rq _ _ _ => audit_fits rq | _ => false end.

Record gateway_step_ok (g : Gateway) (r : gateway_request) (g' : Gateway) : Prop := {
  gs_inv : gateway_inv g';
  gs_moves : moves (gateway_releases g r) (gateway_clock_ok g r) (gateway_spares_groups g r) (g_db g) (g_db g');
  gs_secrets : ∀ s, s ∈ g_secrets g' → is_revoked_at s = None →
    s ∈ g_secrets g ∨ ∃ t, issued_by r = Some t ∧ is_token_hash s = hash_integration_token t;
  gs_audit : ∃ rows, g_audit g' = g_audit g ++ rows ∧
    length rows = if is_audited r then 1%nat else 0%nat;
}.

Lemma manage_client_ok g now w rq form :
  clients_inv g → client_step g (manage_client g now w) (issued_by (ClientsStep rq form now w)).
Proof.
  intros H. destruct w; simpl.
  - destruct (create_integration_client _ _ _ _) as [[g' out]|] eqn:E; [|by apply client_step_refl].
    by eapply create_client_ok.
  - destruct (update_integration_client _ _ _ _) as [[g' out]|] eqn:E; [|by apply client_step_refl].
    by eapply update_client_ok.
  - destruct (rotate_integration_client_secret _ _ _ _) as [[g' out]|] eqn:E; [|by apply client_step_refl].
    by eapply rotate_ok.
  - destruct (disable_integration_client _ _ _) as [[g' out]|] eqn:E; [|by apply client_step_refl].
    by eapply disable_ok.
  - destruct (enable_integration_client _ _ _) as [[g' out]|] eqn:E; [|by apply client_step_refl].
    by eapply enable_ok.
  - destruct (revoke_integration_client_secret _ _ _) as [[g' out]|] eqn:E; [|by apply client_step_refl].
    by eapply revoke_ok.
Qed.

Lemma client_step_gateway g r g' :
  gateway_inv g → client_step g g' (issued_by r) →
  match r with IntegrationStep _ _ _ _ => False | _ => True end → gateway_step_ok g r g'.
Proof.
  intros [Hp Hc] [I P A S] Hr. constructor.
  - constructor; [by rewrite P|done].
  - unfold g_db. rewrite P. apply moves_refl, po_db, Hp.
  - exact S.
  - exists []. rewrite app_nil_r. split; [done|]. by destruct r.
Qed.

(** A change of the database alone keeps the accounts. *)
Lemma portal_inv_step p r db' : portal_inv p → step_ok (p_db p) r db' → portal_inv (set_p_db db' p).
Proof.
  intros [Hd Ha] S. constructor; [apply S|]. destruct (so_users _ _ _ S) as [Hu Hn].
  by apply same_users_inv.
Qed.

Lemma gateway_step_inv g r :
  gateway_inv g → gateway_step_ok g r (gateway_step g r).
Proof.
  intros H. pose proof H as [Hp Hc]. destruct r as [r|rq form now w|rq now tick call]; simpl.
  - destruct (portal_step (g_portal g) r Hp) as [Hi M].
    constructor; [|exact M|by left|exists []; by rewrite app_nil_r].
    constructor; [exact Hi|]. by apply (same_clients_inv g).
  - destruct (require_admin_request rq form now).
    + apply client_step_gateway; [done|by apply manage_client_ok|done].
    + apply client_step_gateway; [done|by apply client_step_refl|done].
  - destruct (integration_request g rq now tick call) as [g' res] eqn:E.
    apply integration_request_ok in E as [I S Hrow Hport]; [|done]. simpl.
    assert (Hboth : portal_inv (g_portal g') ∧
      moves (gateway_releases g (IntegrationStep rq now tick call))
        (gateway_clock_ok g (IntegrationStep rq now tick call)) True (g_db g) (g_db g')).
    { unfold g_db. destruct Hport as [[_ Hport]|(c & out & n & db' & _ & Hh & Hport)]; rewrite Hport.
      - split; [done|]. apply moves_refl, po_db, Hp.
      - apply handler_step_ok in Hh; [|apply Hp]. split; [by eapply portal_inv_step|].
        eapply moves_weaken; [..|apply moves_step, Hh]; [intros lt e y m; by destruct call|by destruct call|done]. }
    destruct Hboth as [Hi M]. constructor; [by constructor|exact M| |].
    + intros s. rewrite S. by left.
    + simpl. destruct (audit_fits rq); [|exists []; rewrite app_nil_r; by destruct Hrow].
      destruct Hrow as (row & Hrow & _). exists [row]. by split.
Qed.

Lemma gateway_run_inv g l : gateway_inv g → gateway_inv (gateway_run g l).
Proof.
  revert g. induction l as [|r l IH]; intros g H; [done|]. simpl.
  apply IH, (gs_inv _ _ _ (gateway_step_inv g r H)).
Qed.

Lemma gateway_run_sized g l :
  gateway_inv g → gateway_along gateway_spares_groups g l → groups_sized (g_db g) →
  groups_sized (g_db (gateway_run g l)).
Proof.
  revert g. induction l as [|r l IH]; intros g H Hl Hs; [done|]. destruct Hl as [Hr Hl].
  destruct (gateway_step_inv g r H) as [Hi M _ _]. simpl. apply IH; [done..|].
  by apply (mv_sized _ _ _ _ _ M).
Qed.

(** the invariant of the whole service.  Whatever requests employees,
    administrators, partners and anybody send, in any order, and whatever
    jobs run in between: the time data stay well formed, and so do the
    accounts and the integration clients (names are unique and allowed, every
    scope is available and health is among them, the data scope names what
    its mode needs, and a client has at most one secret in use).  No event
    lies on a day with a full-day status.  Every group keeps two members or
    more as long as no user whose employment is in a group is deleted. *)
Theorem service_invariant g l (H : gateway_inv g) :
  gateway_inv (gateway_run g l) ∧
  (gateway_along gateway_spares_groups g l → groups_sized (g_db g) → groups_sized (g_db (gateway_run g l))) ∧
  ∀ x, x ∈ events (g_db (gateway_run g l)) → no_status (g_db (gateway_run g l)) (ev_employment_id x) (ev_day x).
Proof.
  pose proof (gateway_run_inv g l H) as H'. split; [done|]. split; [by apply gateway_run_sized|].
  apply (inv_status _ (si_inv _ (po_db _ (gi_portal _ H')))).
Qed.

(** a locked month is immutable.  While no request unlocks the month of
    an employment and the employment's data are not deleted on purpose (with
    a confirmation, or with its user), no sequence of requests of anybody,
    partners included, changes the facts the lock protects: the attendance
    status and the events of each of its days, or its plans; and the month
    stays locked. *)
Theorem service_locked_month_immutable g l lt e d
    (H : gateway_inv g)
    (Hl : day_locked (g_db g) lt e d = true)
    (Hn : gateway_along (λ g r, ¬ gateway_releases g r lt e (year_of d) (month_of d)) g l) :
  day_locked (g_db (gateway_run g l)) lt e d = true ∧
  kept_facts lt e d (g_db g) (g_db (gateway_run g l)).
Proof.
  revert g H Hl Hn. induction l as [|r l IH]; intros g H Hl Hn; [done|].
  destruct Hn as [Hx Hn]. destruct (gateway_step_inv g r H) as [Hi M _ _]. simpl.
  destruct (IH (gateway_step g r)) as [Hl' Hf]; [done|by apply (mv_locks _ _ _ _ _ M)|done|].
  split; [done|]. transitivity (g_db (gateway_step g r)); [by apply (mv_facts _ _ _ _ _ M)|done].
Qed.

(** metrics are never stale.  If the metrics of every employment's months
    are those a recomputation from the facts gives, they still are after any
    sequence of requests and jobs, partners' writes included, that sends no
    wall clock skipped by the change to summer time. *)
Theorem service_metrics_fresh g l
    (H : gateway_inv g) (Hf : all_fresh (g_db g))
    (Hc : gateway_along gateway_clock_ok g l) :
  all_fresh (g_db (gateway_run g l)).
Proof.
  revert g H Hf Hc. induction l as [|r l IH]; intros g H Hf Hc; [done|].
  destruct Hc as [Hx Hc]. destruct (gateway_step_inv g r H) as [Hi M _ _]. simpl.
  apply IH; [done..| |done]. by apply (mv_fresh _ _ _ _ _ M).
Qed.
End Runs.
