(* ===== verification/IntegrationAccess.v ===== *)
(** * Who gets in, and what the audit keeps

    When a token is accepted, why a revoked or rotated token never is again,
    and the audit of every request of a partner. *)

From stdpp Require Import relations gmap.
From S2P Require Import Prelude Calendar TimeParse PragueTime Models AttendanceEvents AttendanceApi SystemInvariant.
From S2P Require Import System Accounts Sessions Login Instances AccountsSafety PortalSystem.
From S2P Require Import IpAddress IntegrationClients Cursors IntegrationAdmin RateLimit IntegrationApi IntegrationSafety GatewaySystem.
#[local] Open Scope Z_scope.

(** ** Accepted tokens *)

Section Tokens.
Context `{crypto : Crypto}.

(** A secret in use that accepts the token. *)
Record accepts (g : Gateway) (token : string) (s : IntegrationClientSecret) : Prop := {
  ac_secret : s ∈ g_secrets g;
  ac_used : is_revoked_at s = None;
  ac_prefix : is_token_prefix s = token_prefix token;
  ac_hash : is_token_hash s ≠ ""%string;
  ac_verified : verify_secret_token token (is_token_hash s) = true;
}.

Definition newest_accepting (g : Gateway) (token : string) (s : IntegrationClientSecret) : Prop :=
  accepts g token s ∧ ∀ s', accepts g token s' → is_id s' <= is_id s.

(** What the loop over the candidates selects from. *)
Definition accepting (g : Gateway) (token : string) : list IntegrationClientSecret :=
  where_ (λ s, negb (String.eqb (is_token_hash s) "") && verify_secret_token token (is_token_hash s))
    (token_candidates g token).

Lemma get_client_in g i : clients_inv g → i ∈ ic_id <$> g_clients g → is_some (get_client g i) = true.
Proof.
  intros _ (c & -> & Hc)%list_elem_of_fmap. unfold get_client, one_or_none.
  assert (c ∈ where_ (λ x, ic_id x =? ic_id c) (g_clients g)) as Hin by (apply elem_of_where; by rewrite Z.eqb_refl).
  destruct (where_ _ _); [by apply elem_of_nil in Hin|done].
Qed.

Lemma accepting_elem g token s : clients_inv g → s ∈ accepting g token ↔ accepts g token s.
Proof.
  intros Hi. unfold accepting, token_candidates. rewrite elem_of_where, elem_of_sorted_by, elem_of_where.
  rewrite !andb_true_iff, !negb_true_iff, String.eqb_eq, String.eqb_neq. split.
  - intros [[Hin [[Hp Hr] _]] [Hh Hv]]. constructor; try done. by destruct (is_revoked_at s).
  - intros [Hin Hr Hp Hh Hv]. split_and!; try done; [by rewrite Hr|].
    apply get_client_in; [done|]. by apply (ci_owner _ Hi).
Qed.

Lemma accepting_head g token s :
  clients_inv g → newest_accepting g token s → head (accepting g token) = Some s.
Proof.
  intros Hi [Ha Hmax]. pose proof (proj2 (accepting_elem _ _ s Hi) Ha) as Hin.
  assert (Hs : StronglySorted (le_rel newest_first) (accepting g token)).
  { apply StronglySorted_where, sorted_by_sorted; unfold newest_first; intros *;
      rewrite ?Z.leb_le, ?Z.leb_gt; lia. }
  destruct (accepting g token) as [|s' rest] eqn:E; [by apply elem_of_nil in Hin|]. simpl. f_equal.
  assert (Ha' : accepts g token s') by (apply accepting_elem; [done|]; rewrite E; left).
  apply (NoDup_fmap_eq is_id (g_secrets g)); [apply (ci_secrets _ Hi)|apply Ha|apply Ha'|].
  pose proof (Hmax s' Ha'). apply elem_of_cons in Hin as [->|Hin]; [done|].
  inversion Hs as [|? ? _ Hall]; subst. rewrite Forall_forall in Hall. specialize (Hall s Hin).
  unfold le_rel, newest_first in Hall. apply Z.leb_le in Hall. lia.
Qed.

(** The answer of the authentication to a request with the token. *)
Definition access_of (g : Gateway) (rq : IntegrationHttp) (now : Z) (c : IntegrationClient)
    : result (Gateway * IntegrationClient) :=
  if negb (client_is_active c) || client_is_expired c now then Err client_disabled
  else if ip_allowed c (get_source_ip rq)
  then Ok (touch_client_last_used now c g, used_client now c) else Err ip_forbidden.

Lemma no_token rq g now :
  bearer_from_auth_header (ih_authorization rq) = None → require_integration_auth g rq now = Err missing_token.
Proof. intros H. unfold require_integration_auth. by rewrite H. Qed.

Lemma refused_token rq g now token :
  clients_inv g → bearer_from_auth_header (ih_authorization rq) = Some token →
  validate_integration_token_format token = false ∨ (∀ s, ¬ accepts g token s) →
  require_integration_auth g rq now = Err invalid_token.
Proof.
  intros Hi Hb H. unfold require_integration_auth. rewrite Hb. cbn [or_raise rbind].
  unfold verify_integration_token. destruct (validate_integration_token_format token); simpl; [|done].
  destruct H as [|H]; [done|]. fold (accepting g token).
  destruct (accepting g token) as [|s l] eqn:E; [done|]. destruct (H s).
  apply accepting_elem; [done|]. rewrite E. left.
Qed.

Lemma accepted_token rq g now token s c :
  clients_inv g → bearer_from_auth_header (ih_authorization rq) = Some token →
  validate_integration_token_format token = true → newest_accepting g token s →
  get_client g (is_client_id s) = Some c → require_integration_auth g rq now = access_of g rq now c.
Proof.
  intros Hi Hb Hf Hs Hc. unfold require_integration_auth. rewrite Hb. cbn [or_raise rbind].
  unfold verify_integration_token. rewrite Hf. cbn [negb]. fold (accepting g token).
  rewrite (accepting_head g token s Hi Hs), Hc. unfold access_of.
  destruct (client_is_active c); [|done]. destruct (client_is_expired c now); [done|].
  by destruct (ip_allowed c (get_source_ip rq)).
Qed.

Lemma head_accepting g token s :
  clients_inv g → head (accepting g token) = Some s → newest_accepting g token s.
Proof.
  intros Hi H. destruct (accepting g token) as [|s' rest] eqn:E; [done|]. injection H as ->.
  split; [apply accepting_elem; [done|]; rewrite E; left|].
  intros s2 H2%accepting_elem; [|done].
  assert (Hs : StronglySorted (le_rel newest_first) (accepting g token)).
  { apply StronglySorted_where, sorted_by_sorted; unfold newest_first; intros *;
      rewrite ?Z.leb_le, ?Z.leb_gt; lia. }
  rewrite E in H2, Hs. apply elem_of_cons in H2 as [->|H2]; [done|].
  inversion Hs as [|? ? _ Hall]; subst. rewrite Forall_forall in Hall. specialize (Hall s2 H2).
  unfold le_rel, newest_first in Hall. by apply Z.leb_le in Hall.
Qed.

(** The request brings a well-formed token, the newest secret in use that
    accepts it is [s], and [s] belongs to [c]. *)
Definition presents (g : Gateway) (rq : IntegrationHttp) (s : IntegrationClientSecret)
    (c : IntegrationClient) : Prop :=
  ∃ token, bearer_from_auth_header (ih_authorization rq) = Some token ∧
    validate_integration_token_format token = true ∧ newest_accepting g token s ∧
    get_client g (is_client_id s) = Some c.

(** The client is active, has not expired, and allows the source address. *)
Definition admits (c : IntegrationClient) (rq : IntegrationHttp) (now : Z) : bool :=
  client_is_active c && negb (client_is_expired c now) && ip_allowed c (get_source_ip rq).

(** C19: authentication of a partner, on every branch.  A request that brings
    a well-formed token which a secret in use accepts is decided by the client
    of the newest such secret: it gets in, and the use of the client is
    recorded, when the client is active, has not expired and allows the source
    address, and is answered 403 otherwise.  Every other request is answered
    401. *)
Theorem integration_auth_spec g rq now (Hi : clients_inv g) :
  (∀ s c, presents g rq s c →
     if admits c rq now
     then require_integration_auth g rq now = Ok (touch_client_last_used now c g, used_client now c)
     else ∃ code, require_integration_auth g rq now = Err (ApiError 403 code)) ∧
  ((∀ s c, ¬ presents g rq s c) →
     ∃ code, require_integration_auth g rq now = Err (ApiError 401 code)).
Proof.
  split.
  - intros s c (token & Hb & Hf & Hs & Hc). rewrite (accepted_token rq g now token s c) by done.
    unfold access_of, admits. destruct (client_is_active c), (client_is_expired c now); simpl; try by eexists.
    destruct (ip_allowed c _); [done|by eexists].
  - intros Hn. destruct (bearer_from_auth_header (ih_authorization rq)) as [token|] eqn:Hb;
      [|eexists; by apply no_token].
    destruct (validate_integration_token_format token) eqn:Hf; [|eexists; eapply refused_token; eauto].
    destruct (head (accepting g token)) as [s|] eqn:Eh.
    + apply head_accepting in Eh; [|done]. destruct Eh as [Ha Hmax].
      pose proof (get_client_in g _ Hi (ci_owner _ Hi s (ac_secret _ _ _ Ha))) as Hc.
      destruct (get_client g (is_client_id s)) as [c|] eqn:Ec; [|done]. destruct (Hn s c). by exists token.
    + eexists. eapply refused_token; [done|done|]. right. intros s Ha%accepting_elem; [|done].
      destruct (accepting g token); [by apply elem_of_nil in Ha|done].
Qed.

(** The codes of two refusals, which docs/integration-api/errors.md calls
    [invalid_token] and [ip_not_allowed]. *)
Theorem undocumented_error_codes g rq now (Hi : clients_inv g) :
  (bearer_from_auth_header (ih_authorization rq) = None →
   require_integration_auth g rq now = Err (ApiError 401 "missing_token")) ∧
  (∀ s c, presents g rq s c → client_is_active c = true → client_is_expired c now = false →
   ip_allowed c (get_source_ip rq) = false →
   require_integration_auth g rq now = Err (ApiError 403 "ip_forbidden")).
Proof.
  split; [apply no_token|]. intros s c (token & Hb & Hf & Hs & Hc) H1 H2 H3.
  rewrite (accepted_token rq g now token s c) by done. unfold access_of. by rewrite H1, H2, H3.
Qed.
End Tokens.

(** ** Tokens that were replaced *)

Section Revoked.
Context `{zone : PragueZone} `{!PragueZoneLaws zone} `{!PragueGap zone}.
Context `{crypto : Crypto} `{!CryptoLaws crypto} `{signing : Signing} `{interchange : Interchange}.
Context `{settings : IntegrationSettings}.

(** No secret in use accepts the token. *)
Definition dead (g : Gateway) (token : string) : Prop :=
  ∀ s, s ∈ g_secrets g → is_revoked_at s = None → verify_secret_token token (is_token_hash s) = false.

Lemma other_token_refused token t : t ≠ token → verify_secret_token token (hash_integration_token t) = false.
Proof.
  intros Hne. unfold verify_secret_token, hash_integration_token.
  destruct (argon2_verify (argon2_hash t) token) as [[]|] eqn:E; try done.
  apply argon2_sound in E. congruence.
Qed.

Lemma dead_step g r token :
  gateway_inv g → issued_by r ≠ Some token → dead g token →
  dead (gateway_step g r) token.
Proof.
  intros H Hn Hd s Hs Hr.
  destruct (gs_secrets _ _ _ (gateway_step_inv g r H) s Hs Hr) as [Hs'|(t & Ht & ->)]; [by apply Hd|].
  apply other_token_refused. congruence.
Qed.

Lemma dead_run g l token :
  gateway_inv g → Forall (λ r, issued_by r ≠ Some token) l →
  dead g token → dead (gateway_run g l) token.
Proof.
  intros H Hn Hd. revert g H Hd. induction Hn as [|r l Hr Hn IH]; intros g H Hd; [done|].
  simpl. apply IH; [|by apply dead_step]. apply (gs_inv _ _ _ (gateway_step_inv g r H)).
Qed.

(** What a caller is told of an error: the failure of the audit comes first. *)
Definition told (rq : IntegrationHttp) (e : api_error) : api_error :=
  if audit_fits rq then e else Crash "DataError".

Lemma dead_refused g rq now tick call token :
  clients_inv g → dead g token → bearer_from_auth_header (ih_authorization rq) = Some token →
  (integration_request g rq now tick call).2 = Err (told rq invalid_token) ∧
  g_portal (integration_request g rq now tick call).1 = g_portal g.
Proof.
  intros Hi Hd Hb. unfold integration_request, run_call, told.
  rewrite (refused_token rq g now token Hi Hb).
  - unfold finalize_integration_audit. simpl. by destruct (audit_fits rq).
  - right. intros s [Hs Hr _ _ Hv]. by rewrite Hd in Hv.
Qed.

(** The two requests that replace the secrets of a client. *)
Definition replaced_secrets (g : Gateway) (now i : Z) (token : string) (g1 : Gateway) : Prop :=
  (∃ out, revoke_integration_client_secret g now i = Ok (g1, out)) ∨
  (∃ raw out, generate_integration_token raw ≠ token ∧
     rotate_integration_client_secret g now i raw = Ok (g1, out)).

Lemma replaced_dead g now i token g1 :
  clients_inv g → replaced_secrets g now i token g1 →
  (∀ s, s ∈ g_secrets g → is_revoked_at s = None →
     verify_secret_token token (is_token_hash s) = true → is_client_id s = i) →
  clients_inv g1 ∧ g_portal g1 = g_portal g ∧ dead g1 token.
Proof.
  intros Hi [(out & Hr)|(raw & out & Hne & Hr)] Ho.
  - apply revoke_ok in Hr as [[I P _ S] Hnone]; [|done]. split_and!; [done|done|]. intros s Hs Hrn.
    destruct (S s Hs Hrn) as [Hs'|(t & ? & _)]; [|done]. apply not_true_is_false. intros Hv.
    by destruct (Hnone s Hs (Ho s Hs' Hrn Hv)).
  - apply rotate_ok in Hr as [[I P _ S] Hnew]; [|done]. split_and!; [done|done|]. intros s Hs Hrn.
    destruct (S s Hs Hrn) as [Hs'|(t & [= <-] & ->)]; [|by apply other_token_refused].
    destruct (decide (is_client_id s = i)) as [Hc|Hc].
    + rewrite (Hnew s Hs Hc Hrn). by apply other_token_refused.
    + apply not_true_is_false. intros Hv. by apply Hc, Ho.
Qed.

(** a replaced token is dead for good.  After an administrator revoked or
    rotated the secrets of a client, the token the client had is answered 401
    [invalid_token] and changes nothing, after any sequence of requests that
    does not hand out the same token again; enabling, disabling or updating
    the client, or rotating its secrets again, does not revive it. *)
Theorem replaced_token_dead g now i token g1 l rq now' tick call
    (H : gateway_inv g) (Hr : replaced_secrets g now i token g1)
    (Ho : ∀ s, s ∈ g_secrets g → is_revoked_at s = None →
       verify_secret_token token (is_token_hash s) = true → is_client_id s = i)
    (Hn : Forall (λ r, issued_by r ≠ Some token) l)
    (Hb : bearer_from_auth_header (ih_authorization rq) = Some token) :
  (integration_request (gateway_run g1 l) rq now' tick call).2 = Err (told rq invalid_token) ∧
  g_portal (integration_request (gateway_run g1 l) rq now' tick call).1 = g_portal (gateway_run g1 l).
Proof.
  destruct (replaced_dead _ _ _ _ _ (gi_clients _ H) Hr Ho) as (Hi1 & Hp & Hd).
  assert (H1 : gateway_inv g1) by (constructor; [rewrite Hp; apply H|done]).
  apply dead_refused with (token := token); [|by apply dead_run|done].
  apply (gi_clients _ (gateway_run_inv g1 l H1)).
Qed.

(** ** The audit *)

Lemma run_audit g l :
  gateway_inv g →
  ∃ rows, g_audit (gateway_run g l) = g_audit g ++ rows ∧ length rows = length (where_ is_audited l).
Proof.
  revert g. induction l as [|r l IH]; intros g H; [exists []; by rewrite app_nil_r|].
  destruct (gateway_step_inv g r H) as [Hi _ _ (rows & Ha & Hl)].
  destruct (IH _ Hi) as (rest & Hb & Hlen). exists (rows ++ rest). simpl.
  rewrite Hb, Ha, <- app_assoc. split; [done|]. rewrite length_app, Hl, Hlen. unfold where_. simpl.
  by destruct (is_audited r).
Qed.

(** C20: every request of a partner that fits the columns of the audit is
    audited, whatever its outcome: a method of at most 8 characters, a path
    of at most 255, a source address of at most 64 and a request id of at most
    64.  After any sequence of requests the audit is what it was before,
    followed by one row per such request; rows are never changed, and the row
    of a request has its id, method and path, the status of its answer, and
    the code of the error when it failed.  A request that does not fit leaves
    no row, and is answered with the failure of the insert. *)
Theorem integration_audit_complete g l rq now tick call
    (H : gateway_inv g) :
  (∃ rows, g_audit (gateway_run g l) = g_audit g ++ rows ∧
     length rows = length (where_ is_audited l)) ∧
  NoDup (al_id <$> g_audit (gateway_run g l)) ∧
  let '(g', res) := integration_request (gateway_run g l) rq now tick call in
  if audit_fits rq
  then ∃ row, g_audit g' = g_audit (gateway_run g l) ++ [row] ∧ al_request_id row = ih_request_id rq ∧
    al_method row = ih_method rq ∧ al_path row = ih_path rq ∧
    al_status_code row = status_of call res ∧ al_error_code row = code_of res ∧
    (∀ e, res = Err e → al_row_count row = None)
  else g_audit g' = g_audit (gateway_run g l) ∧ res = Err (Crash "DataError").
Proof.
  pose proof (gi_clients _ (gateway_run_inv g l H)) as Hi.
  split_and!; [by apply run_audit|apply (ci_audit _ Hi)|].
  destruct (integration_request _ rq now tick call) as [g' res] eqn:E.
  by apply integration_request_ok in E as [_ _ Ha _].
Qed.
End Revoked.
