(* ===== verification/UrlText.v ===== *)
(** * The standard library's [urllib.parse], and the outbound allow-list

    [urlsplit], [urlunsplit], [urljoin] and [urlencode] on text, as
    app/config.py and services/external_auth.py use them; [None] stands for
    [ValueError].  A character is its code point, here below 256. *)

From stdpp Require Import list.
From S2P Require Import Prelude Calendar TimeParse PragueTime AttendanceEvents IpAddress.
#[local] Open Scope Z_scope.

(** [s.partition(c)]: the text before and after the first [c]. *)
Fixpoint partition (c : ascii) (l : chars) : chars * bool * chars :=
  match l with
  | [] => ([], false, [])
  | x :: rest =>
      if Ascii.eqb x c then ([], true, rest)
      else let '(a, found, b) := partition c rest in (x :: a, found, b)
  end.

(** [s.rpartition(c)]. *)
Definition rpartition (c : ascii) (l : chars) : chars * bool * chars :=
  let '(a, found, b) := partition c (rev l) in
  if found then (rev b, true, rev a) else ([], false, l).

Definition contains_char (c : ascii) (l : chars) : bool := existsb (Ascii.eqb c) l.

Definition chars_eqb (a b : chars) : bool := bool_decide (a = b).

(** [s.rstrip(c)]. *)
Fixpoint drop_while (p : ascii → bool) (l : chars) : chars :=
  match l with [] => [] | x :: rest => if p x then drop_while p rest else l end.
Definition rstrip_char (c : ascii) (l : chars) : chars := rev (drop_while (Ascii.eqb c) (rev l)).

(** ** [urlsplit] *)

Record SplitResult := mk_split {
  sr_scheme : chars;
  sr_netloc : chars;
  sr_path : chars;
  sr_query : chars;
  sr_fragment : chars;
}.

Definition is_alpha (c : ascii) : bool :=
  ((65 <=? code c) && (code c <=? 90)) || ((97 <=? code c) && (code c <=? 122)).
Definition scheme_char (c : ascii) : bool :=
  is_alpha c || is_digit c || contains_char c ["+"; "-"; "."]%char.
Definition unsafe_char (c : ascii) : bool := (code c =? 9) || (code c =? 10) || (code c =? 13).

(** Up to the first of [/?#]. *)
Fixpoint split_netloc (l : chars) : chars * chars :=
  match l with
  | [] => ([], [])
  | x :: rest =>
      if contains_char x ["/"; "?"; "#"]%char then ([], l)
      else let '(a, b) := split_netloc rest in (x :: a, b)
  end.

(** [_check_bracketed_host]: an IPv6 or a future address. *)
Definition bracketed_host_ok (host : chars) : bool :=
  match host with
  | "v"%char :: rest =>
      let '(digits, dot, tail) := partition "." rest in
      dot && negb (is_nil digits) && forallb (λ c, is_some (hex_value c)) digits &&
      negb (is_nil tail)
  | _ => match ip_address (string_of_list_ascii host) with
         | Some (V6 _ _) => true
         | _ => false
         end
  end.

Definition netloc_ok (netloc : chars) : bool :=
  let opened := contains_char "[" netloc in
  let closed := contains_char "]" netloc in
  if opened && closed then
    bracketed_host_ok (partition "]" (partition "[" netloc).2).1.1
  else negb (opened || closed).

Definition split_scheme (url default_scheme : chars) : chars * chars :=
  let '(before, found, after) := partition ":" url in
  match before with
  | first :: _ =>
      if found && is_alpha first && forallb scheme_char before
      then (lower_char <$> before, after) else (default_scheme, url)
  | [] => (default_scheme, url)
  end.

Definition urlsplit (raw default_scheme : chars) : option SplitResult :=
  let url := List.filter (λ c, negb (unsafe_char c)) (drop_while (λ c, code c <=? 32) raw) in
  let '(scheme, url) := split_scheme url default_scheme in
  let '(netloc, url) :=
    match url with
    | "/"%char :: "/"%char :: rest => split_netloc rest
    | _ => ([], url)
    end in
  if negb (netloc_ok netloc) then None
  else
    let '(url, _, fragment) := partition "#" url in
    let '(path, _, query) := partition "?" url in
    Some (mk_split scheme netloc path query fragment).

(** [_hostinfo], [hostname] and [port] of the result. *)
Definition hostinfo (r : SplitResult) : chars * option chars :=
  let '(_, found, after) := rpartition "@" (sr_netloc r) in
  let info := if found then after else sr_netloc r in
  let '(_, bracket, bracketed) := partition "[" info in
  let '(hostname, port) :=
    if bracket then
      let '(h, _, rest) := partition "]" bracketed in (h, (partition ":" rest).2)
    else let '(h, _, p) := partition ":" info in (h, p) in
  (hostname, if is_nil port then None else Some port).

Definition has_userinfo (r : SplitResult) : bool := contains_char "@" (sr_netloc r).

Definition hostname (r : SplitResult) : option chars :=
  match (hostinfo r).1 with
  | [] => None
  | h => let '(name, percent, zone) := partition "%" h in
         Some ((lower_char <$> name) ++ (if percent then "%"%char :: zone else []))
  end.

(** [None] when it raises; [Some None] without a port. *)
Definition port (r : SplitResult) : option (option Z) :=
  match (hostinfo r).2 with
  | None => Some None
  | Some p => if forallb is_digit p && (digits_value p <=? 65535) then Some (Some (digits_value p)) else None
  end.

(** ** The allow-list of app/config.py *)

Definition split_https_url (value : string) : option SplitResult :=
  parsed ← urlsplit (list_ascii_of_string value) [];
  p ← port parsed;
  if negb (chars_eqb (sr_scheme parsed) (list_ascii_of_string "https")) || negb (is_some (hostname parsed))
  then None
  else if has_userinfo parsed then None
  else if is_some p then None
  else if negb (is_nil (sr_query parsed)) || negb (is_nil (sr_fragment parsed)) then None
  else Some parsed.

Definition ends_with (suffix s : string) : bool :=
  String.eqb (substring (String.length s - String.length suffix) (String.length suffix) s) suffix &&
  (String.length suffix <=? String.length s)%nat.

Definition validate_external_endpoint_url (value : string) (allowed_hosts allowed_paths : list string)
    : option string :=
  parsed ← split_https_url value;
  h ← hostname parsed;
  let hostname := string_of_list_ascii (rstrip_char "." (lower_char <$> h)) in
  if String.eqb hostname "localhost" || ends_with ".localhost" hostname then None
  else if is_some (ip_address hostname) then None
  else if negb (mem hostname allowed_hosts) ||
          negb (mem (string_of_list_ascii (sr_path parsed)) allowed_paths) then None
  else Some value.

(** ** [urlunsplit] and [urljoin] *)

Definition urlunsplit (r : SplitResult) : chars :=
  let url := sr_path r in
  let url :=
    if negb (is_nil (sr_netloc r)) then
      "/"%char :: "/"%char :: sr_netloc r ++
      (match url with [] => [] | "/"%char :: _ => url | _ => "/"%char :: url end)
    else url in
  (if is_nil (sr_scheme r) then [] else sr_scheme r ++ [":"%char]) ++ url ++
  (if is_nil (sr_query r) then [] else "?"%char :: sr_query r) ++
  (if is_nil (sr_fragment r) then [] else "#"%char :: sr_fragment r).

(** [_splitparams]: the parameters of the last segment. *)
Definition split_params (path : chars) : chars * chars :=
  let '(dir, found, segment) := rpartition "/" path in
  let '(name, _, params) := partition ";" (if found then segment else path) in
  ((if found then dir ++ ["/"%char] else []) ++ name, params).

Definition with_params (path params : chars) : chars :=
  if is_nil params then path else path ++ ";"%char :: params.

(** The dot segments of a path, resolved; [out] is reversed. *)
Fixpoint resolve_segments (segments out : list chars) : list chars :=
  match segments with
  | [] => rev out
  | s :: rest =>
      if chars_eqb s ["."; "."]%char then resolve_segments rest (tail out)
      else if chars_eqb s ["."%char] then resolve_segments rest out
      else resolve_segments rest (s :: out)
  end.

Fixpoint join_slash (l : list chars) : chars :=
  match l with
  | [] => []
  | [s] => s
  | s :: rest => s ++ "/"%char :: join_slash rest
  end.

Definition drop_last_segment (l : list chars) : list chars :=
  match last l with Some [] => l | _ => removelast l end.

(** The middle segments that are empty go. *)
Definition squeeze_segments (l : list chars) : list chars :=
  match l with
  | [] | [_] => l
  | first :: rest =>
      first :: List.filter (λ s, negb (is_nil s)) (removelast rest) ++ option_list (last rest)
  end.

Definition joined_path (base_path path : chars) : chars :=
  let segments :=
    match path with
    | "/"%char :: _ => split_on "/" path []
    | _ => squeeze_segments (drop_last_segment (split_on "/" base_path []) ++ split_on "/" path [])
    end in
  let resolved := resolve_segments segments [] ++
    (if match last segments with
        | Some s => chars_eqb s ["."%char] || chars_eqb s ["."; "."]%char
        | None => false
        end then [[]] else []) in
  match join_slash resolved with [] => ["/"%char] | p => p end.

(** For an [https] base. *)
Definition urljoin (base url : chars) : option chars :=
  match url with
  | [] => Some base
  | _ =>
      b ← urlsplit base [];
      u ← urlsplit url (sr_scheme b);
      if negb (chars_eqb (sr_scheme u) (sr_scheme b)) then Some url
      else
        let '(path, params) := split_params (sr_path u) in
        if negb (is_nil (sr_netloc u)) then
          Some (urlunsplit (mk_split (sr_scheme u) (sr_netloc u) (with_params path params)
                              (sr_query u) (sr_fragment u)))
        else
          let '(base_path, base_params) := split_params (sr_path b) in
          if is_nil path && is_nil params then
            Some (urlunsplit (mk_split (sr_scheme u) (sr_netloc b) (with_params base_path base_params)
                    (if is_nil (sr_query u) then sr_query b else sr_query u) (sr_fragment u)))
          else
            Some (urlunsplit (mk_split (sr_scheme u) (sr_netloc b)
                    (with_params (joined_path base_path path) params) (sr_query u) (sr_fragment u)))
  end.

(** ** [urlencode] *)

Definition hex_digit (n : Z) : ascii := ascii_of_N (Z.to_N (if n <? 10 then n + 48 else n + 55)).

(** [quote_plus]; a text is its octets in UTF-8. *)
Definition quote_char (c : ascii) : chars :=
  if is_alpha c || is_digit c || contains_char c ["_"; "."; "-"; "~"]%char then [c]
  else if Ascii.eqb c " " then ["+"%char]
  else ["%"%char; hex_digit (code c / 16); hex_digit (code c mod 16)].
Definition quote_plus (s : string) : string :=
  string_of_list_ascii (mjoin (quote_char <$> list_ascii_of_string s)).

Definition urlencode (params : list (string * string)) : string :=
  String.concat "&" ((λ kv, quote_plus kv.1 +:+ "=" +:+ quote_plus kv.2) <$> params).

(** ** Properties *)

(** What the allow-list lets through. *)
Lemma validate_external_endpoint_url_ok value hosts paths v :
  validate_external_endpoint_url value hosts paths = Some v →
  v = value ∧ ∃ parsed h, urlsplit (list_ascii_of_string value) [] = Some parsed ∧
    sr_scheme parsed = list_ascii_of_string "https" ∧ has_userinfo parsed = false ∧
    port parsed = Some None ∧ sr_query parsed = [] ∧ sr_fragment parsed = [] ∧
    hostname parsed = Some h ∧
    string_of_list_ascii (rstrip_char "." (lower_char <$> h)) ∈ hosts ∧
    string_of_list_ascii (sr_path parsed) ∈ paths.
Proof.
  unfold validate_external_endpoint_url, split_https_url. intros H.
  destruct (urlsplit _ []) as [r|] eqn:E; [|done]. simpl in H.
  destruct (port r) as [p|] eqn:Ep; [|done]. simpl in H.
  destruct (chars_eqb (sr_scheme r) _) eqn:Es; [|done]. destruct (hostname r) as [h|] eqn:Eh; [|done].
  simpl in H. destruct (has_userinfo r) eqn:Eu; [done|]. destruct p; [done|]. simpl in H.
  destruct (sr_query r) eqn:Eq; [|done]. destruct (sr_fragment r) eqn:Ef; [|done]. simpl in H.
  rewrite Eh in H. simpl in H. destruct (_ || ends_with _ _) in H; [done|].
  destruct (is_some _) in H; [done|].
  destruct (mem _ hosts) eqn:E1; [|done]. destruct (mem _ paths) eqn:E2; [|done]. injection H as <-.
  apply mem_true in E1, E2. split; [done|]. exists r, h. split_and!; try done.
  by apply bool_decide_eq_true in Es.
Qed.

Definition joins (base url joined : string) : Prop :=
  urljoin (list_ascii_of_string base) (list_ascii_of_string url) = Some (list_ascii_of_string joined).

Example join_relative : joins "https://a.com/x/y" "../z/./w" "https://a.com/z/w".
Proof. vm_compute. reflexivity. Qed.
Example join_absolute : joins "https://a.com/x/y" "/k;p?q#f" "https://a.com/k;p?q#f".
Proof. vm_compute. reflexivity. Qed.
Example join_host : joins "https://a.com/x" "//b.com/y" "https://b.com/y".
Proof. vm_compute. reflexivity. Qed.
Example join_other_scheme : joins "https://a.com/x" "http://169.254.169.254/latest" "http://169.254.169.254/latest".
Proof. vm_compute. reflexivity. Qed.

(** The targets the tests of the repository refuse, and the one they accept. *)
Example allow_list :
  (λ url, is_some (validate_external_endpoint_url url ["accounts.google.com"]
                     ["/.well-known/openid-configuration"])) <$>
    ["http://accounts.google.com/.well-known/openid-configuration";
     "https://user@accounts.google.com/.well-known/openid-configuration";
     "https://accounts.google.com:443/.well-known/openid-configuration";
     "https://127.0.0.1/.well-known/openid-configuration";
     "https://localhost/.well-known/openid-configuration";
     "https://accounts.google.com.evil.example/.well-known/openid-configuration";
     "https://accounts.google.com/other";
     "https://accounts.google.com/.well-known/openid-configuration"]%string =
  [false; false; false; false; false; false; false; true].
Proof. vm_compute. reflexivity. Qed.

Example encoded : urlencode [("a b", "x/y=1&"); ("state", "A-_.~")]%string = "a+b=x%2Fy%3D1%26&state=A-_.~"%string.
Proof. vm_compute. reflexivity. Qed.
