(* ===== verification/ExternalProviders.v ===== *)
(** * Talking to Google and Apple: services/external_auth.py

    Outgoing requests, PyJWT and the clock are the arguments [World] and the
    class [Jwt]; what is built and checked around them is modelled.  [web] is
    the monad of this code: it may raise [ExternalAuthError], and the two
    caches of the module keep what was stored before it did. *)

From stdpp Require Import gmap pretty.
From S2P Require Import Prelude Calendar TimeParse PragueTime AttendanceEvents Accounts Sessions Login.
From S2P Require Import IpAddress Cursors UrlText.
#[local] Open Scope Z_scope.

Inductive Provider := GOOGLE | APPLE.
Inductive PortalKind := EMPLOYEE | ADMIN.
Inductive Purpose := FOR_LOGIN | FOR_LINK.
#[global] Instance Provider_eq_dec : EqDecision Provider.
Proof. solve_decision. Defined.
#[global] Instance PortalKind_eq_dec : EqDecision PortalKind.
Proof. solve_decision. Defined.
#[global] Instance Purpose_eq_dec : EqDecision Purpose.
Proof. solve_decision. Defined.

Definition provider_text (p : Provider) : string :=
  match p with GOOGLE => "google" | APPLE => "apple" end.
Definition portal_text (p : PortalKind) : string :=
  match p with EMPLOYEE => "employee" | ADMIN => "admin" end.

(** ** Errors and the monad *)

(** [ExternalAuthError(code)], or any other exception. *)
Inductive external_error :=
  | ExternalAuthError (code : string)
  | Raised (e : api_error).

Inductive attempted (A : Type) := Done (a : A) | Failed (e : external_error).
Arguments Done {A} a.
Arguments Failed {A} e.

Definition abind {A B} (m : attempted A) (k : A → attempted B) : attempted B :=
  match m with Done a => k a | Failed e => Failed e end.

(** An [api_error] inside this code. *)
Definition lift {A} (r : result A) : attempted A :=
  match r with Ok a => Done a | Err e => Failed (Raised e) end.

Definition refuse {A} (code : string) : attempted A := Failed (ExternalAuthError code).
Definition refuse_if (cond : bool) (code : string) : attempted unit :=
  if cond then refuse code else Done tt.
Definition or_refuse {A} (o : option A) (code : string) : attempted A :=
  match o with Some a => Done a | None => refuse code end.

Notation "'let!' x ':=' m 'in' k" := (abind m (λ x, k))
  (at level 200, x strict pattern, m at level 100, k at level 200) : dagmar_scope.
Notation "m '!;;' k" := (abind m (λ _ : unit, k))
  (at level 100, right associativity) : dagmar_scope.

Definition document : Type := list (string * json).

(** [_metadata_cache] and [_jwks_cache]: when an entry expires, and it. *)
Record Caches := mk_caches {
  metadata_cache : gmap string (Z * document);
  jwks_cache : gmap string (Z * document);
}.

Definition web (A : Type) : Type := Caches → Caches * attempted A.
Definition wret {A} (a : A) : web A := λ c, (c, Done a).
Definition wlift {A} (m : attempted A) : web A := λ c, (c, m).
Definition wbind {A B} (m : web A) (k : A → web B) : web B := λ c,
  match m c with (c', Done a) => k a c' | (c', Failed e) => (c', Failed e) end.
Notation "'let*' x ':=' m 'in' k" := (wbind m (λ x, k))
  (at level 200, x strict pattern, m at level 100, k at level 200) : dagmar_scope.
Notation "m '*;;' k" := (wbind m (λ _ : unit, k))
  (at level 100, right associativity) : dagmar_scope.

(** ** The world outside *)

(** [hr_json] is [None] when the body is not JSON. *)
Record http_response := mk_response {
  hr_status : Z;
  hr_location : option string;
  hr_cache_control : string;
  hr_json : option json;
}.

(** The clocks and the answers during one request; [None] is an
    [httpx.HTTPError].  The flag tells the repeated read of the keys apart. *)
Record World := mk_world {
  w_now : Z;
  w_tick : Z;
  net_get : string → bool → option http_response;
  net_post : string → list (string * string) → option http_response;
}.

Inductive jwt_outcome :=
  | Claims (c : document)
  | ExpiredSignature
  | InvalidToken.

(** [get_unverified_header], [PyJWK.from_dict], [decode] with RS256 and the
    required claims, and [encode] with ES256; [None] is a [PyJWTError]. *)
Class Jwt := {
  jwt_header : string → option document;
  jwk_key : json → option string;
  jwt_decode : string → string → string → list string → Z → Z → jwt_outcome;
  jwt_encode : document → string → option string → option string;
}.

(** What [decode] has checked of the claims it returns. *)
Class JwtLaws (jwt : Jwt) := {
  decoded_issuer : ∀ token key audience issuers leeway now c,
    jwt_decode token key audience issuers leeway now = Claims c →
    ∃ iss, get_field "iss" c = Some (JString iss) ∧ iss ∈ issuers;
}.

Class ExternalSettings := {
  external_auth_transaction_ttl_seconds : Z;
  external_auth_result_ttl_seconds : Z;
  external_auth_clock_skew_seconds : Z;
  google_oidc_enabled : bool;
  google_oidc_client_id : option string;
  google_oidc_client_secret : option string;
  google_oidc_callback_url : option string;
  apple_signin_enabled : bool;
  apple_services_id : option string;
  apple_team_id : option string;
  apple_key_id : option string;
  apple_private_key : option string;
  apple_issuer : string;
  apple_authorization_endpoint : string;
  apple_token_endpoint : string;
  apple_jwks_endpoint : string;
  apple_callback_url : option string;
  public_base_url : string;
  admin_username : string;
  admin_password_hash : option string;
  ticks_of_second : Z;
}.

(** ** Paths and enabling *)

Definition ALLOWED_RETURN_PATHS (portal : PortalKind) (purpose : Purpose) : list string :=
  match portal, purpose with
  | EMPLOYEE, _ => ["/app"%string]
  | ADMIN, FOR_LOGIN => ["/admin/prehled"; "/admin/ucet"]%string
  | ADMIN, FOR_LINK => ["/admin/ucet"%string]
  end.

Definition safe_return_path (portal : PortalKind) (purpose : Purpose) (candidate : option string)
    : string :=
  let fallback := match portal, purpose with
    | EMPLOYEE, _ => "/app"
    | ADMIN, FOR_LINK => "/admin/ucet"
    | ADMIN, FOR_LOGIN => "/admin/prehled"
    end%string in
  match candidate with
  | Some p => if mem p (ALLOWED_RETURN_PATHS portal purpose) then p else fallback
  | None => fallback
  end.

Definition GOOGLE_DISCOVERY_URL : string := "https://accounts.google.com/.well-known/openid-configuration".
Definition GOOGLE_AUTHORIZATION_URL : string := "https://accounts.google.com/o/oauth2/v2/auth".
Definition GOOGLE_TOKEN_URL : string := "https://oauth2.googleapis.com/token".
Definition GOOGLE_JWKS_URL : string := "https://www.googleapis.com/oauth2/v3/certs".
Definition APPLE_AUTHORIZATION_URL : string := "https://appleid.apple.com/auth/authorize".
Definition APPLE_TOKEN_URL : string := "https://appleid.apple.com/auth/token".
Definition APPLE_JWKS_URL : string := "https://appleid.apple.com/auth/keys".
Definition GOOGLE_ISSUER : string := "https://accounts.google.com".
Definition APPLE_ISSUER : string := "https://appleid.apple.com".

(** The hosts and the paths of each endpoint. *)
Definition GOOGLE_DISCOVERY : list string * list string :=
  (["accounts.google.com"], ["/.well-known/openid-configuration"])%string.
Definition GOOGLE_AUTHORIZATION : list string * list string :=
  (["accounts.google.com"], ["/o/oauth2/v2/auth"])%string.
Definition GOOGLE_TOKEN : list string * list string :=
  (["oauth2.googleapis.com"], ["/token"])%string.
Definition GOOGLE_JWKS : list string * list string :=
  (["www.googleapis.com"], ["/oauth2/v3/certs"])%string.
Definition APPLE_AUTHORIZATION : list string * list string :=
  (["appleid.apple.com"], ["/auth/authorize"])%string.
Definition APPLE_TOKEN : list string * list string := (["appleid.apple.com"], ["/auth/token"])%string.
Definition APPLE_JWKS : list string * list string := (["appleid.apple.com"], ["/auth/keys"])%string.

Definition validated_provider_url (value : string) (allowed : list string * list string)
    : attempted string :=
  or_refuse (validate_external_endpoint_url value allowed.1 allowed.2) "provider_invalid_configuration".

(** [str(value)] of an optional text. *)
Definition py_str (o : option string) : string := default "None"%string o.

(** [str(payload.get(key) or "")] as a URL: the text of any other value is no
    URL, like the empty text. *)
Definition url_field (key : string) (d : document) : string :=
  match get_field key d with Some (JString s) => s | _ => ""%string end.

(** ** Reading documents *)

Inductive ProviderJSONEndpoint := google_discovery | google_jwks | apple_jwks.

Definition request_url (e : ProviderJSONEndpoint) : string :=
  match e with
  | google_discovery => GOOGLE_DISCOVERY_URL
  | google_jwks => GOOGLE_JWKS_URL
  | apple_jwks => APPLE_JWKS_URL
  end.
Definition endpoint_name (e : ProviderJSONEndpoint) : string :=
  match e with
  | google_discovery => "google_discovery"
  | google_jwks => "google_jwks"
  | apple_jwks => "apple_jwks"
  end.
Definition redirect_allowed (e : ProviderJSONEndpoint) : list string * list string :=
  match e with google_discovery => GOOGLE_DISCOVERY | google_jwks => GOOGLE_JWKS | apple_jwks => APPLE_JWKS end.

(** One directive of [Cache-Control], when it is a [max-age]. *)
Definition max_age (part : chars) : option Z :=
  let '(key, _, value) := partition "=" (strip_chars part) in
  if chars_eqb (lower_char <$> key) (list_ascii_of_string "max-age") &&
     negb (is_nil value) && forallb is_digit value
  then Some (Z.max 60 (Z.min (digits_value value) 86400)) else None.

Definition cache_ttl (cache_control : string) : Z :=
  default 3600 (head (omap max_age (split_on "," (list_ascii_of_string cache_control) []))).

Definition cache_for (e : ProviderJSONEndpoint) (c : Caches) : gmap string (Z * document) :=
  match e with google_discovery => metadata_cache c | _ => jwks_cache c end.
Definition store_in_cache (e : ProviderJSONEndpoint) (expires : Z) (d : document) (c : Caches) : Caches :=
  match e with
  | google_discovery => mk_caches (<[endpoint_name e := (expires, d)]> (metadata_cache c)) (jwks_cache c)
  | _ => mk_caches (metadata_cache c) (<[endpoint_name e := (expires, d)]> (jwks_cache c))
  end.

Definition is_redirect (status : Z) : bool := mem status [301; 302; 303; 307; 308].
Definition is_success (status : Z) : bool := (200 <=? status) && (status <=? 299).

(** A redirect is looked at and refused. *)
Definition refused_redirect {A} (e : ProviderJSONEndpoint) (location : option string) : attempted A :=
  match location with
  | None | Some EmptyString => refuse "provider_invalid_response"
  | Some l =>
      let! redirected := or_refuse (urljoin (list_ascii_of_string (request_url e)) (list_ascii_of_string l))
        "provider_unavailable" in
      let! _ := validated_provider_url (string_of_list_ascii redirected) (redirect_allowed e) in
      refuse "provider_invalid_response"
  end.

Section Providers.
Context `{crypto : Crypto} `{jwt : Jwt} `{settings : ExternalSettings}.

Definition provider_enabled (p : Provider) : bool :=
  match p with GOOGLE => google_oidc_enabled | APPLE => apple_signin_enabled end.

(** [bytes.fromhex] of the digest. *)
Fixpoint unhex (l : chars) : list Z :=
  match l with
  | a :: b :: rest => default 0 (hex_value a) * 16 + default 0 (hex_value b) :: unhex rest
  | _ => []
  end.
Definition sha256_digest (s : string) : list Z := unhex (list_ascii_of_string (sha256 s)).

Definition pkce_challenge (verifier : string) : string :=
  string_of_list_ascii (b64_encode (sha256_digest verifier)).

Definition rstrip_slash (s : string) : string :=
  string_of_list_ascii (rstrip_char "/" (list_ascii_of_string s)).

(** [a or b] on an optional text. *)
Definition or_text (o : option string) (d : string) : string :=
  match o with Some (String _ _ as s) => s | _ => d end.

Definition external_callback_url (p : Provider) : string :=
  match p with
  | GOOGLE => or_text google_oidc_callback_url (rstrip_slash public_base_url +:+ "/api/v1/auth/google/callback")
  | APPLE => or_text apple_callback_url (rstrip_slash public_base_url +:+ "/api/v1/auth/apple/callback")
  end.

(** [_get_json]. *)
Definition get_json (w : World) (e : ProviderJSONEndpoint) (refresh : bool) : web document := λ c,
  let cached := if refresh then None else
    '(expires, payload) ← cache_for e c !! endpoint_name e;
    if w_tick w <? expires then Some payload else None in
  match cached with
  | Some payload => (c, Done payload)
  | None =>
      match net_get w (request_url e) refresh with
      | None => (c, refuse "provider_unavailable")
      | Some r =>
          if is_redirect (hr_status r) then (c, refused_redirect e (hr_location r))
          else if negb (is_success (hr_status r)) then (c, refuse "provider_unavailable")
          else
            match hr_json r with
            | None => (c, refuse "provider_unavailable")
            | Some (JObject payload) =>
                (store_in_cache e (w_tick w + cache_ttl (hr_cache_control r) * ticks_of_second) payload c,
                 Done payload)
            | Some _ => (c, refuse "provider_invalid_response")
            end
      end
  end.

Definition is_text (s : string) (v : option json) : bool :=
  match v with Some v => json_is_text s v | None => false end.

Definition google_metadata (w : World) : web document :=
  let* payload := get_json w google_discovery false in
  wlift (
    refuse_if (negb (is_text GOOGLE_ISSUER (get_field "issuer" payload))) "provider_invalid_configuration" !;;
    let! _ := validated_provider_url (url_field "authorization_endpoint" payload) GOOGLE_AUTHORIZATION in
    let! _ := validated_provider_url (url_field "token_endpoint" payload) GOOGLE_TOKEN in
    let! _ := validated_provider_url (url_field "jwks_uri" payload) GOOGLE_JWKS in
    Done payload).

Definition authorization_url (w : World) (p : Provider) (state nonce : string) (verifier : option string)
    : web string :=
  match p with
  | GOOGLE =>
      let* metadata := google_metadata w in
      let* _ := wlift (validated_provider_url (url_field "authorization_endpoint" metadata)
                         GOOGLE_AUTHORIZATION) in
      wret (GOOGLE_AUTHORIZATION_URL +:+ "?" +:+ urlencode
        [("client_id", py_str google_oidc_client_id);
         ("redirect_uri", external_callback_url GOOGLE);
         ("response_type", "code");
         ("scope", "openid email profile");
         ("state", state);
         ("nonce", nonce);
         ("code_challenge", pkce_challenge (py_str verifier));
         ("code_challenge_method", "S256")])%string
  | APPLE =>
      let* _ := wlift (validated_provider_url apple_authorization_endpoint APPLE_AUTHORIZATION) in
      wret (APPLE_AUTHORIZATION_URL +:+ "?" +:+ urlencode
        [("client_id", py_str apple_services_id);
         ("redirect_uri", external_callback_url APPLE);
         ("response_type", "code");
         ("response_mode", "form_post");
         ("scope", "name email");
         ("state", state);
         ("nonce", nonce)])%string
  end.

(** ** Exchanging a code for claims *)

Definition opt_json (o : option string) : json :=
  match o with Some s => JString s | None => JNull end.

Definition apple_client_secret (w : World) : attempted string :=
  let now := unix_time (w_now w) in
  let! private_key := or_refuse apple_private_key "provider_invalid_configuration" in
  or_refuse (jwt_encode
      [("iss", opt_json apple_team_id); ("iat", JInt now); ("exp", JInt (now + 300));
       ("aud", JString APPLE_ISSUER); ("sub", opt_json apple_services_id)]%string
      private_key apple_key_id)
    "provider_invalid_configuration".

(** The form of the token request and the endpoints it relies on. *)
Record TokenRequest := mk_token_request {
  tq_endpoint : string;
  tq_jwks_uri : string;
  tq_issuer : string;
  tq_data : list (string * string);
}.

Definition token_request_of (w : World) (p : Provider) (code : string) (verifier : option string)
    : web TokenRequest :=
  match p with
  | GOOGLE =>
      let* metadata := google_metadata w in
      let data :=
        [("grant_type", "authorization_code"); ("code", code);
         ("redirect_uri", external_callback_url GOOGLE); ("client_id", py_str google_oidc_client_id);
         ("client_secret", py_str google_oidc_client_secret); ("code_verifier", py_str verifier)]%string in
      wlift (
        let! _ := validated_provider_url (url_field "token_endpoint" metadata) GOOGLE_TOKEN in
        let! _ := validated_provider_url (url_field "jwks_uri" metadata) GOOGLE_JWKS in
        refuse_if (negb (String.eqb (url_field "issuer" metadata) GOOGLE_ISSUER))
          "provider_invalid_configuration" !;;
        Done (mk_token_request GOOGLE_TOKEN_URL GOOGLE_JWKS_URL GOOGLE_ISSUER data))
  | APPLE =>
      wlift (
        let! secret := apple_client_secret w in
        let data :=
          [("grant_type", "authorization_code"); ("code", code);
           ("redirect_uri", external_callback_url APPLE); ("client_id", py_str apple_services_id);
           ("client_secret", secret)]%string in
        let! _ := validated_provider_url apple_token_endpoint APPLE_TOKEN in
        let! _ := validated_provider_url apple_jwks_endpoint APPLE_JWKS in
        refuse_if (negb (String.eqb apple_issuer APPLE_ISSUER)) "provider_invalid_configuration" !;;
        Done (mk_token_request APPLE_TOKEN_URL APPLE_JWKS_URL apple_issuer data))
  end.

(** [_token_request]: the identity token, the address of the keys and the
    issuer. *)
Definition token_request (w : World) (p : Provider) (code : string) (verifier : option string)
    : web (string * string * string) :=
  let* q := token_request_of w p code verifier in
  wlift (
    let! payload := or_refuse
      (r ← net_post w (tq_endpoint q) (tq_data q);
       if is_success (hr_status r) then hr_json r else None) "provider_unavailable" in
    match payload with
    | JObject d =>
        match get_field "id_token" d with
        | Some (JString (String _ _ as token)) => Done (token, tq_jwks_uri q, tq_issuer q)
        | _ => refuse "provider_invalid_response"
        end
    | _ => refuse "provider_invalid_response"
    end).

(** [for item in value]. *)
Definition iterate (value : json) : attempted (list json) :=
  match value with
  | JList l => Done l
  | JObject d => Done ((λ kv, JString kv.1) <$> d)
  | JString s => Done ((λ c, JString (String c EmptyString)) <$> list_ascii_of_string s)
  | _ => Failed (Raised (Crash "TypeError"))
  end.

Definition has_kid (kid : string) (item : json) : bool :=
  match item with JObject d => is_text kid (get_field "kid" d) | _ => false end.

(** One pass over the keys: the key that was found, if any. *)
Definition find_key (w : World) (e : ProviderJSONEndpoint) (kid : string) (refresh : bool)
    : web (option string) :=
  let* jwks := get_json w e refresh in
  wlift (
    let! keys := iterate (default (JList []) (get_field "keys" jwks)) in
    match List.find (has_kid kid) keys with
    | Some item => let! key := or_refuse (jwk_key item) "token_signature_invalid" in Done (Some key)
    | None => Done None
    end).

Definition signing_key (w : World) (id_token jwks_uri : string) : web string :=
  let* header := wlift (or_refuse (jwt_header id_token) "token_signature_invalid") in
  match is_text "RS256" (get_field "alg" header), get_field "kid" header with
  | true, Some (JString kid) =>
      let e := if String.eqb jwks_uri APPLE_JWKS_URL then apple_jwks else google_jwks in
      let* first := find_key w e kid false in
      match first with
      | Some key => wret key
      | None =>
          let* second := find_key w e kid true in
          wlift (or_refuse second "token_signature_invalid")
      end
  | _, _ => wlift (refuse "token_signature_invalid")
  end.

Record ProviderClaims := mk_claims {
  pc_issuer : string;
  pc_subject : string;
  pc_email : option string;
  pc_email_verified : option bool;
}.

(** [str(value or "")]; the text of a float, a list or a dict is taken to be
    no nonce. *)
Definition nonce_text (value : option json) : string :=
  match value with
  | Some (JString s) => s
  | Some (JInt n) => if n =? 0 then "" else pretty n
  | Some (JBool true) => "True"
  | _ => ""
  end.

Definition claims_email (c : document) : option string :=
  match get_field "email" c with Some (JString s) => Some s | _ => None end.
Definition claims_verified (c : document) : option bool :=
  match get_field "email_verified" c with
  | Some (JBool b) => Some b
  | Some (JString s) => Some (String.eqb (lower s) "true")
  | _ => None
  end.

Definition client_id_of (p : Provider) : string :=
  py_str (match p with GOOGLE => google_oidc_client_id | APPLE => apple_services_id end).

Definition accepted_issuers (p : Provider) (issuer : string) : list string :=
  if bool_decide (p = GOOGLE) && String.eqb issuer GOOGLE_ISSUER
  then [issuer; "accounts.google.com"%string] else [issuer].

(** What is read from the claims of a decoded token. *)
Definition validated_claims (c : document) (client_id nonce : string) : attempted ProviderClaims :=
  let! same := lift (compare_digest (nonce_text (get_field "nonce" c)) nonce) in
  refuse_if (negb same) "nonce_invalid" !;;
  refuse_if (match get_field "azp" c with
             | None | Some JNull => false
             | azp => negb (is_text client_id azp)
             end) "token_validation_failed" !;;
  match get_field "sub" c with
  | Some (JString (String _ _ as subject)) =>
      Done (mk_claims (url_field "iss" c) subject (claims_email c) (claims_verified c))
  | _ => refuse "token_validation_failed"
  end.

Definition exchange_and_validate (w : World) (p : Provider) (code nonce : string)
    (verifier : option string) : web ProviderClaims :=
  let* (id_token, jwks_uri, issuer) := token_request w p code verifier in
  let* key := signing_key w id_token jwks_uri in
  wlift (
    match jwt_decode id_token key (client_id_of p) (accepted_issuers p issuer)
            external_auth_clock_skew_seconds (unix_time (w_now w)) with
    | ExpiredSignature => refuse "token_expired"
    | InvalidToken => refuse "token_validation_failed"
    | Claims c => validated_claims c (client_id_of p) nonce
    end).
End Providers.
