(* ===== verification/ExternalAuth.v ===== *)
(** * Optional sign-in with Google and Apple: api/v1/external_auth.py

    The external tables of db/models.py, the transactions of
    services/external_auth.py and every endpoint.  [Federation] is the service
    with those tables and the caches of the provider documents.  What
    [secrets] draws during a request is its argument [Randoms]; the symmetric
    encryption and the JSON text of a login are the class [Sealing].  The
    limits of slowapi are not modelled. *)

From stdpp Require Import gmap pretty.
From S2P Require Import Prelude Calendar TimeParse PragueTime Models AttendanceEvents AttendanceApi AdminEmployments.
From S2P Require Import Accounts Sessions Login Instances.
From S2P Require Import IpAddress IntegrationClients Cursors IntegrationAdmin IntegrationApi ExternalProviders.
#[local] Open Scope Z_scope.

(** ** db/models.py *)

Record ExternalIdentity := mk_identity {
  ei_id : Z;
  ei_account_type : PortalKind;
  ei_portal_user_id : option Z;
  ei_admin_username : option string;
  ei_provider : Provider;
  ei_issuer : string;
  ei_subject : string;
  ei_email : option string;
  ei_email_verified : option bool;
  ei_linked_at : Z;
  ei_last_login_at : option Z;
  ei_created_ip_hash : option string;
  ei_created_user_agent : option string;
}.

Record OAuthTransaction := mk_transaction {
  ot_id : string;
  ot_state_hash : string;
  ot_browser_hash : string;
  ot_provider : Provider;
  ot_purpose : Purpose;
  ot_portal : PortalKind;
  ot_return_path : string;
  ot_portal_user_id : option Z;
  ot_admin_username : option string;
  ot_nonce : string;
  ot_code_verifier : option string;
  ot_expires_at : Z;
  ot_consumed_at : option Z;
  ot_result_payload : option string;
  ot_result_expires_at : option Z;
  ot_result_consumed_at : option Z;
}.

Record ExternalAuthAuditLog := mk_external_audit {
  xa_id : Z;
  xa_account_type : PortalKind;
  xa_account_ref : option string;
  xa_provider : Provider;
  xa_event : string;
  xa_outcome : string;
  xa_reason : option string;
  xa_subject_hash : option string;
  xa_request_id : option string;
  xa_source_ip_hash : option string;
}.

Record Federation := mk_federation {
  fd_gateway : Gateway;
  fd_identities : list ExternalIdentity;
  fd_transactions : list OAuthTransaction;
  fd_audit : list ExternalAuthAuditLog;
  fd_caches : Caches;
  fd_next : Z;
}.

Definition fd_portal (f : Federation) : Portal := g_portal (fd_gateway f).

Definition set_fd_gateway (x : Gateway) (f : Federation) : Federation :=
  mk_federation x (fd_identities f) (fd_transactions f) (fd_audit f) (fd_caches f) (fd_next f).
Definition set_fd_identities (x : list ExternalIdentity) (f : Federation) : Federation :=
  mk_federation (fd_gateway f) x (fd_transactions f) (fd_audit f) (fd_caches f) (fd_next f).
Definition set_fd_transactions (x : list OAuthTransaction) (f : Federation) : Federation :=
  mk_federation (fd_gateway f) (fd_identities f) x (fd_audit f) (fd_caches f) (fd_next f).
Definition set_fd_audit (x : list ExternalAuthAuditLog) (f : Federation) : Federation :=
  mk_federation (fd_gateway f) (fd_identities f) (fd_transactions f) x (fd_caches f) (fd_next f).
Definition set_fd_caches (x : Caches) (f : Federation) : Federation :=
  mk_federation (fd_gateway f) (fd_identities f) (fd_transactions f) (fd_audit f) x (fd_next f).
Definition set_fd_next (x : Z) (f : Federation) : Federation :=
  mk_federation (fd_gateway f) (fd_identities f) (fd_transactions f) (fd_audit f) (fd_caches f) x.

Definition update_transaction (i : string) (g : OAuthTransaction → OAuthTransaction) (f : Federation)
    : Federation :=
  set_fd_transactions (update_where (λ t, String.eqb (ot_id t) i) g (fd_transactions f)) f.
Definition update_identity (i : Z) (g : ExternalIdentity → ExternalIdentity) (f : Federation)
    : Federation :=
  set_fd_identities (update_where (λ x, ei_id x =? i) g (fd_identities f)) f.
Definition get_transaction (f : Federation) (i : string) : option OAuthTransaction :=
  one_or_none (where_ (λ t, String.eqb (ot_id t) i) (fd_transactions f)).

Definition consumed (now : Z) (t : OAuthTransaction) : OAuthTransaction :=
  mk_transaction (ot_id t) (ot_state_hash t) (ot_browser_hash t) (ot_provider t) (ot_purpose t)
    (ot_portal t) (ot_return_path t) (ot_portal_user_id t) (ot_admin_username t) (ot_nonce t)
    (ot_code_verifier t) (ot_expires_at t) (Some now) (ot_result_payload t) (ot_result_expires_at t)
    (ot_result_consumed_at t).
Definition with_result (payload : string) (expires : Z) (t : OAuthTransaction) : OAuthTransaction :=
  mk_transaction (ot_id t) (ot_state_hash t) (ot_browser_hash t) (ot_provider t) (ot_purpose t)
    (ot_portal t) (ot_return_path t) (ot_portal_user_id t) (ot_admin_username t) (ot_nonce t)
    (ot_code_verifier t) (ot_expires_at t) (ot_consumed_at t) (Some payload) (Some expires)
    (ot_result_consumed_at t).
Definition result_taken (now : Z) (t : OAuthTransaction) : OAuthTransaction :=
  mk_transaction (ot_id t) (ot_state_hash t) (ot_browser_hash t) (ot_provider t) (ot_purpose t)
    (ot_portal t) (ot_return_path t) (ot_portal_user_id t) (ot_admin_username t) (ot_nonce t)
    (ot_code_verifier t) (ot_expires_at t) (ot_consumed_at t) None (ot_result_expires_at t) (Some now).

(** ** Requests *)

(** What the endpoints read of a request besides its authentication. *)
Record ExternalHttp := mk_external_http {
  xh_request : HttpRequest;
  xh_browser : option string;
  xh_result : option string;
  xh_user_agent : option string;
  xh_host : option string;
  xh_request_id : option string;
}.

Record Randoms := mk_randoms {
  rn_state : string;
  rn_browser : string;
  rn_nonce : string;
  rn_verifier : string;
  rn_id : string;
  rn_iv : string;
  rn_jti : string;
}.

Record PasswordConfirmation := mk_confirmation {
  cf_password : string;
  cf_return_path : option string;
}.

(** Fernet under the key made of the secret, and the JSON of a login. *)
Class Sealing := {
  fernet_encrypt : string → string → string → string;
  fernet_decrypt : string → string → option string;
  login_json : PortalLoginOut → string;
  login_of_json : string → option PortalLoginOut;
}.

Class SealingLaws (sealing : Sealing) := {
  fernet_round_trip : ∀ secret iv value, fernet_decrypt secret (fernet_encrypt secret iv value) = Some value;
  login_round_trip : ∀ l, login_of_json (login_json l) = Some l;
  login_nonempty : ∀ l, login_json l ≠ ""%string;
}.

Record MethodOut := mk_method {
  mt_provider : Provider;
  mt_enabled : bool;
  mt_linked : bool;
  mt_identifier : option string;
  mt_linked_at : option Z;
  mt_last_login_at : option Z;
}.

(** The bodies and redirects of the responses, with the cookies they set. *)
Inductive external_out :=
  | OutProviders (google apple : bool)
  | OutMethods (methods : list MethodOut)
  | OutStart (url : string) (browser : string)
  | OutRedirect (location : string) (browser result : option string) (session : option Cookie)
  | OutOk
  | OutLogin (login : PortalLoginOut).

(** Whose methods an endpoint manages. *)
Inductive account := EmployeeAccount (user_id : Z) | AdminAccount (username : string).

Definition portal_of (a : account) : PortalKind :=
  match a with EmployeeAccount _ => EMPLOYEE | AdminAccount _ => ADMIN end.
Definition ref_of (a : account) : string :=
  match a with EmployeeAccount i => pretty i | AdminAccount name => name end.
Definition user_id_of (a : account) : option Z :=
  match a with EmployeeAccount i => Some i | AdminAccount _ => None end.
Definition admin_username_of (a : account) : option string :=
  match a with EmployeeAccount _ => None | AdminAccount name => Some (lower name) end.

(** ** security/crypto.py *)

Definition ENC_PREFIX : string := "enc:v1:".

Section Sealed.
Context `{sealing : Sealing}.

Definition encrypt_secret (iv value secret : string) : string :=
  ENC_PREFIX +:+ fernet_encrypt secret iv value.

(** [Some None] for nothing, [None] for the [ValueError]. *)
Definition decrypt_secret (value : option string) (secret : string) : option (option string) :=
  match value with
  | None | Some EmptyString => Some None
  | Some v =>
      if starts_with ENC_PREFIX v then
        Some <$> fernet_decrypt secret
          (substring (String.length ENC_PREFIX) (String.length v - String.length ENC_PREFIX) v)
      else Some (Some v)
  end.
End Sealed.

Section ExternalAuth.
Context `{zone : PragueZone} `{crypto : Crypto} `{signing : Signing} `{sealing : Sealing}.
Context `{jwt : Jwt} `{settings : ExternalSettings}.

(** ** Helpers *)

(** [email.rsplit("@", 1)], the local part cut to two characters. *)
Definition mask_email (email : option string) : option string :=
  match email with
  | None | Some EmptyString => None
  | Some e =>
      let '(local, found, domain) := UrlText.rpartition "@" (list_ascii_of_string e) in
      if found then
        let domain := string_of_list_ascii domain in
        Some (match local with
              | [] => "…@" +:+ domain
              | _ => string_of_list_ascii (firstn 2 local) +:+ "…@" +:+ domain
              end)
      else None
  end.

Definition source_hash (rq : ExternalHttp) : option string :=
  host ← xh_host rq; Some (sha256 (session_secret +:+ ":" +:+ host)).

Definition audit (rq : ExternalHttp) (portal : PortalKind) (provider : Provider) (event outcome : string)
    (account_ref reason subject : option string) (f : Federation) : Federation :=
  set_fd_next (fd_next f + 1)
    (set_fd_audit (fd_audit f ++
      [mk_external_audit (fd_next f) portal account_ref provider event outcome reason
         (match subject with
          | Some (String _ _ as s) => Some (sha256 (session_secret +:+ ":" +:+ s))
          | _ => None
          end)
         (xh_request_id rq) (source_hash rq)]) f).

Definition identity_query (a : account) (provider : Provider) (x : ExternalIdentity) : bool :=
  bool_decide (ei_account_type x = portal_of a) && bool_decide (ei_provider x = provider) &&
  match a with
  | EmployeeAccount i => bool_decide (ei_portal_user_id x = Some i)
  | AdminAccount name => bool_decide (ei_admin_username x = Some name)
  end.
Definition identity_of (f : Federation) (a : account) (provider : Provider) : option ExternalIdentity :=
  one_or_none (where_ (identity_query a provider) (fd_identities f)).

Definition method_of (f : Federation) (a : account) (provider : Provider) : MethodOut :=
  let identity := identity_of f a provider in
  mk_method provider (provider_enabled provider) (is_some identity)
    (x ← identity; mask_email (ei_email x)) (ei_linked_at <$> identity)
    (x ← identity; ei_last_login_at x).

Definition method_status (f : Federation) (a : account) : list MethodOut :=
  method_of f a <$> [GOOGLE; APPLE].

Definition fresh_password_required : api_error := ApiError 401 "fresh_password_required".

(** [employee] is the signed-in user. *)
Definition verify_link_password (a : account) (employee : option PortalUser) (password : string)
    : result unit :=
  let valid := match a with
    | EmployeeAccount _ =>
        match employee with
        | Some u => match pu_password_hash u with
                    | Some (String _ _ as h) => verify_password password h
                    | _ => false
                    end
        | None => false
        end
    | AdminAccount name =>
        negb (String.eqb (lower name) "") && String.eqb (lower name) (lower admin_username) &&
        match admin_password_hash with
        | Some (String _ _ as h) => verify_password password h
        | _ => false
        end
    end in
  guard (negb valid) fresh_password_required.

(** ** Transactions (services/external_auth.py) *)

Record StartedTransaction := mk_started {
  st_transaction : OAuthTransaction;
  st_state : string;
  st_browser_secret : string;
  st_authorization_url : string;
}.

(** Transactions that expired more than an hour ago are deleted. *)
Definition recent_transactions (now : Z) (f : Federation) : list OAuthTransaction :=
  where_ (λ t, negb (ot_expires_at t <? now - 3600000000)) (fd_transactions f).

Definition chosen_browser_secret (given : option string) (fresh : string) : string :=
  match given with
  | Some s => if 32 <=? Z.of_nat (String.length s) then s else fresh
  | None => fresh
  end.

(** The transaction is committed before the address is built. *)
Definition start_transaction (f : Federation) (w : World) (rn : Randoms) (provider : Provider)
    (purpose : Purpose) (portal : PortalKind) (return_path browser_secret : option string)
    (portal_user_id : option Z) (admin_name : option string) : Federation * attempted StartedTransaction :=
  if negb (provider_enabled provider) then (f, refuse "provider_disabled")
  else
    let kept := recent_transactions (w_now w) f in
    let browser := chosen_browser_secret browser_secret (rn_browser rn) in
    let verifier := if bool_decide (provider = GOOGLE) then Some (rn_verifier rn) else None in
    let t := mk_transaction (rn_id rn) (sha256 (rn_state rn)) (sha256 browser) provider purpose portal
      (safe_return_path portal purpose return_path) portal_user_id admin_name (rn_nonce rn) verifier
      (w_now w + external_auth_transaction_ttl_seconds * 1000000) None None None None in
    if existsb (λ x, String.eqb (ot_id x) (ot_id t) || String.eqb (ot_state_hash x) (ot_state_hash t)) kept
    then (f, Failed (Raised (Crash "IntegrityError")))
    else
      let '(caches, url) := authorization_url w provider (rn_state rn) (rn_nonce rn) verifier (fd_caches f) in
      (set_fd_caches caches (set_fd_transactions (kept ++ [t]) f),
       let! url := url in Done (mk_started t (rn_state rn) browser url)).

(** Both sides of [compare_digest] are digests in hexadecimal. *)
Definition browser_matches (t : OAuthTransaction) (browser_secret : option string) : bool :=
  match browser_secret with
  | Some (String _ _ as s) => String.eqb (ot_browser_hash t) (sha256 s)
  | _ => false
  end.

Definition find_transaction (f : Federation) (provider : Provider) (state : string)
    : option OAuthTransaction :=
  one_or_none (where_ (λ t, String.eqb (ot_state_hash t) (sha256 state) &&
                            bool_decide (ot_provider t = provider)) (fd_transactions f)).

Definition consume_transaction (f : Federation) (now : Z) (provider : Provider) (state : string)
    (browser_secret : option string) : Federation * attempted OAuthTransaction :=
  match find_transaction f provider state with
  | None => (f, refuse "invalid_state")
  | Some t =>
      if is_some (ot_consumed_at t) then (f, refuse "callback_replayed")
      else if ot_expires_at t <=? now then
        (update_transaction (ot_id t) (consumed now) f, refuse "transaction_expired")
      else if negb (browser_matches t browser_secret) then (f, refuse "browser_binding_failed")
      else (update_transaction (ot_id t) (consumed now) f, Done (consumed now t))
  end.

(** ** Starting *)

Definition login_start (f : Federation) (rq : ExternalHttp) (w : World) (rn : Randoms)
    (portal : PortalKind) (provider : Provider) (return_path : option string)
    : Federation * result external_out :=
  let '(f1, started) := start_transaction f w rn provider FOR_LOGIN portal return_path (xh_browser rq) None None in
  match started with
  | Failed (ExternalAuthError code) => (f1, raise_api_error 503 code)
  | Failed (Raised e) => (f1, Err e)
  | Done s =>
      (audit rq portal provider "login_started" "success" None None None f1,
       Ok (OutRedirect (st_authorization_url s) (Some (st_browser_secret s)) None None))
  end.

(** [ExternalAuthError] is caught by nobody here. *)
Definition start_link (f : Federation) (rq : ExternalHttp) (w : World) (rn : Randoms) (a : account)
    (employee : option PortalUser) (provider : Provider) (payload : PasswordConfirmation)
    : Federation * result external_out :=
  match (verify_link_password a employee (cf_password payload) ?;;
         guard (is_some (identity_of f a provider)) (ApiError 409 "identity_already_linked")) with
  | Err e => (f, Err e)
  | Ok _ =>
      let '(f1, started) := start_transaction f w rn provider FOR_LINK (portal_of a) (cf_return_path payload)
        (xh_browser rq) (user_id_of a) (admin_username_of a) in
      match started with
      | Failed (ExternalAuthError _) => (f1, Err (Crash "ExternalAuthError"))
      | Failed (Raised e) => (f1, Err e)
      | Done s =>
          (audit rq (portal_of a) provider "link_started" "success" (Some (ref_of a)) None None f1,
           Ok (OutStart (st_authorization_url s) (st_browser_secret s)))
      end
  end.

(** The pending link transactions of an account. *)
Definition pending_link (a : account) (provider : Provider) (t : OAuthTransaction) : bool :=
  bool_decide (ot_provider t = provider) && bool_decide (ot_portal t = portal_of a) &&
  bool_decide (ot_purpose t = FOR_LINK) && negb (is_some (ot_consumed_at t)) &&
  match a with
  | EmployeeAccount i => bool_decide (ot_portal_user_id t = Some i)
  | AdminAccount name => bool_decide (ot_admin_username t = Some (lower name))
  end.

Definition unlink (f : Federation) (rq : ExternalHttp) (a : account) (employee : option PortalUser)
    (provider : Provider) (payload : PasswordConfirmation) : Federation * result external_out :=
  match (verify_link_password a employee (cf_password payload) ?;;
         or_raise (identity_of f a provider) (ApiError 404 "identity_not_linked")) with
  | Err e => (f, Err e)
  | Ok identity =>
      (audit rq (portal_of a) provider "unlinked" "success" (Some (ref_of a)) None (Some (ei_subject identity))
         (set_fd_identities (delete_where (λ x, ei_id x =? ei_id identity) (fd_identities f))
           (set_fd_transactions (delete_where (pending_link a provider) (fd_transactions f)) f)),
       Ok OutOk)
  end.

(** ** The callback *)

Definition callback_error_path (t : option OAuthTransaction) (code : string) : string :=
  let base := match t with Some t => ot_return_path t | None => "/app" end in
  match t with
  | Some t =>
      if bool_decide (ot_portal t = ADMIN) && bool_decide (ot_purpose t = FOR_LOGIN) then
        "/admin/login?" +:+ UrlText.urlencode [("external_auth_error", code); ("next", base)]%string
      else base +:+ (if UrlText.contains_char "?" (list_ascii_of_string base) then "&" else "?") +:+
           "external_auth_error=" +:+ code
  | None => base +:+ "?external_auth_error=" +:+ code
  end.

Definition same_subject (provider : Provider) (claims : ProviderClaims) (x : ExternalIdentity) : bool :=
  bool_decide (ei_provider x = provider) && String.eqb (ei_issuer x) (pc_issuer claims) &&
  String.eqb (ei_subject x) (pc_subject claims).

Definition same_target (t : OAuthTransaction) (x : ExternalIdentity) : bool :=
  bool_decide (ot_portal t = ei_account_type x) &&
  match ot_portal t with
  | EMPLOYEE => bool_decide (ot_portal_user_id t = ei_portal_user_id x)
  | ADMIN => bool_decide (ot_admin_username t = ei_admin_username x)
  end.

Definition longer_than (n : Z) (s : string) : bool := n <? Z.of_nat (String.length s).
Definition email_too_long (claims : ProviderClaims) : bool :=
  match pc_email claims with Some e => longer_than 320 e | None => false end.
Definition claims_too_long (claims : ProviderClaims) : bool :=
  longer_than 255 (pc_issuer claims) || longer_than 255 (pc_subject claims) || email_too_long claims.

(** The constraints of the table a new row could break. *)
Definition identity_conflict (f : Federation) (x : ExternalIdentity) : bool :=
  existsb (λ y, bool_decide (ei_provider y = ei_provider x) &&
      ((String.eqb (ei_issuer y) (ei_issuer x) && String.eqb (ei_subject y) (ei_subject x)) ||
       (is_some (ei_portal_user_id x) && bool_decide (ei_portal_user_id y = ei_portal_user_id x)) ||
       (is_some (ei_admin_username x) && bool_decide (ei_admin_username y = ei_admin_username x))))
    (fd_identities f) ||
  negb match ei_account_type x, ei_portal_user_id x, ei_admin_username x with
       | EMPLOYEE, Some i, None => is_some (get_user (p_db (fd_portal f)) i)
       | ADMIN, None, Some _ => true
       | _, _, _ => false
       end.

Definition complete_link (f : Federation) (rq : ExternalHttp) (now : Z) (t : OAuthTransaction)
    (claims : ProviderClaims) : attempted Federation :=
  match one_or_none (where_ (same_subject (ot_provider t) claims) (fd_identities f)) with
  | Some x =>
      refuse (if same_target t x then "identity_already_linked" else "identity_owned_by_another_account")
  | None =>
      let x := mk_identity (fd_next f) (ot_portal t) (ot_portal_user_id t) (ot_admin_username t)
        (ot_provider t) (pc_issuer claims) (pc_subject claims) (pc_email claims)
        (pc_email_verified claims) now None (source_hash rq)
        (text_or_none (take_text 255 (default ""%string (xh_user_agent rq)))) in
      if claims_too_long claims then Failed (Raised (Crash "DataError"))
      else
        refuse_if (identity_conflict f x) "identity_link_conflict" !;;
        Done (set_fd_next (fd_next f + 1) (set_fd_identities (fd_identities f ++ [x]) f))
  end.

(** The identity that signs in, with what the provider says now. *)
Definition seen_identity (now : Z) (claims : ProviderClaims) (x : ExternalIdentity) : ExternalIdentity :=
  mk_identity (ei_id x) (ei_account_type x) (ei_portal_user_id x) (ei_admin_username x) (ei_provider x)
    (ei_issuer x) (ei_subject x)
    (match pc_email claims with Some (String _ _ as e) => Some e | _ => ei_email x end)
    (match pc_email_verified claims with Some v => Some v | None => ei_email_verified x end)
    (ei_linked_at x) (Some now) (ei_created_ip_hash x) (ei_created_user_agent x).

Definition complete_login (f : Federation) (now : Z) (t : OAuthTransaction) (claims : ProviderClaims)
    : attempted (Federation * option (PortalLoginOut * PortalUser)) :=
  let! x := or_refuse (one_or_none (where_ (λ x, same_subject (ot_provider t) claims x &&
      bool_decide (ei_account_type x = ot_portal t)) (fd_identities f))) "external_identity_not_linked" in
  let f1 := update_identity (ei_id x) (seen_identity now claims) f in
  match ot_portal t with
  | EMPLOYEE =>
      let! user := or_refuse (i ← ei_portal_user_id x; get_user (p_db (fd_portal f)) i)
        "external_account_inactive" in
      refuse_if (negb (pu_is_active user) || negb (is_some (pu_password_hash user)))
        "external_account_inactive" !;;
      refuse_if (pu_is_blocked user) "portal_account_blocked" !;;
      let! (p, login) := lift (issue_portal_login (fd_portal f1) user now) in
      Done (set_fd_gateway (set_g_portal p (fd_gateway f1)) f1, Some (login, user))
  | ADMIN =>
      refuse_if (negb (truthy admin_password_hash) ||
                 negb (bool_decide (ei_admin_username x = Some (lower admin_username))))
        "external_account_inactive" !;;
      Done (f1, None)
  end.

(** [str(portal_user_id or admin_username or "")]. *)
Definition transaction_ref (t : OAuthTransaction) : string :=
  match ot_portal_user_id t with
  | Some i => if i =? 0 then default ""%string (ot_admin_username t) else pretty i
  | None => default ""%string (ot_admin_username t)
  end.

(** After the claims: the link, or the login with its cookies. *)
Definition finish_link (f : Federation) (rq : ExternalHttp) (now : Z) (t : OAuthTransaction)
    (claims : ProviderClaims) : attempted (Federation * external_out) :=
  let! f1 := complete_link f rq now t claims in
  Done (audit rq (ot_portal t) (ot_provider t) "linked" "success" (text_or_none (transaction_ref t)) None
          (Some (pc_subject claims)) f1,
        OutRedirect (ot_return_path t +:+ "?external_auth_linked=" +:+ provider_text (ot_provider t))
          None None None).

(** The columns are written by the commit at the end. *)
Definition finish_login (f : Federation) (rq : ExternalHttp) (w : World) (rn : Randoms)
    (t : OAuthTransaction) (claims : ProviderClaims) : attempted (Federation * external_out) :=
  let now := w_now w in
  let! (f1, login_issue) := complete_login f now t claims in
  let f2 := audit rq (ot_portal t) (ot_provider t) "login" "success" (text_or_none (transaction_ref t)) None
    (Some (pc_subject claims)) f1 in
  let committed := if email_too_long claims then Failed (Raised (Crash "DataError")) else Done tt in
  match ot_portal t with
  | EMPLOYEE =>
      let! (login, user) := or_refuse login_issue "external_account_inactive" in
      let! h := or_refuse (pu_password_hash user) "external_account_inactive" in
      let payload := encrypt_secret (rn_iv rn) (login_json login) session_secret in
      committed !;;
      Done (update_transaction (ot_id t)
              (with_result payload (now + external_auth_result_ttl_seconds * 1000000)) f2,
            OutRedirect (safe_return_path EMPLOYEE FOR_LOGIN (Some (ot_return_path t)) +:+ "?external_auth=complete")
              None (Some (ot_id t)) (Some (set_portal_session (pu_id user) h now (rn_jti rn))))
  | ADMIN =>
      committed !;;
      Done (f2,
            OutRedirect (safe_return_path ADMIN FOR_LOGIN (Some (ot_return_path t))) None None
              (Some (set_admin_session (lower (or_text (ot_admin_username t) admin_username)) now (rn_jti rn))))
  end.

Definition finish_callback (f : Federation) (rq : ExternalHttp) (w : World) (rn : Randoms)
    (t : OAuthTransaction) (claims : ProviderClaims) : attempted (Federation * external_out) :=
  match ot_purpose t with
  | FOR_LINK => finish_link f rq (w_now w) t claims
  | FOR_LOGIN => finish_login f rq w rn t claims
  end.

(** The claims of a callback, or why there are none. *)
Definition callback_claims (f : Federation) (w : World) (provider : Provider) (t : OAuthTransaction)
    (code provider_error : option string) : Federation * attempted ProviderClaims :=
  match provider_error, code with
  | Some (String _ _ as e), _ =>
      (f, refuse (if String.eqb e "access_denied" then "provider_cancelled" else "provider_error"))
  | _, (None | Some EmptyString) => (f, refuse "authorization_code_missing")
  | _, Some c =>
      let '(caches, claims) :=
        exchange_and_validate w provider c (ot_nonce t) (ot_code_verifier t) (fd_caches f) in
      (set_fd_caches caches f, claims)
  end.

(** From the state of the callback on: what is committed when it fails, the
    transaction once it is consumed, and the outcome. *)
Definition callback_steps (f : Federation) (rq : ExternalHttp) (w : World) (rn : Randoms)
    (provider : Provider) (state code provider_error : option string)
    : Federation * option OAuthTransaction * attempted (Federation * external_out) :=
  match state with
  | None | Some EmptyString => (f, None, refuse "invalid_state")
  | Some st =>
      match consume_transaction f (w_now w) provider st (xh_browser rq) with
      | (f1, Failed e) => (f1, None, Failed e)
      | (f1, Done t) =>
          let '(f2, claims) := callback_claims f1 w provider t code provider_error in
          (f2, Some t, let! claims := claims in finish_callback f2 rq w rn t claims)
      end
  end.

Definition handle_callback (f : Federation) (rq : ExternalHttp) (w : World) (rn : Randoms)
    (provider : Provider) (state code provider_error : option string) : Federation * result external_out :=
  let '(f1, t, outcome) := callback_steps f rq w rn provider state code provider_error in
  match outcome with
  | Done (f2, out) => (f2, Ok out)
  | Failed (Raised e) => (f1, Err e)
  | Failed (ExternalAuthError reason) =>
      (audit rq (match t with Some t => ot_portal t | None => EMPLOYEE end) provider "callback" "failure"
         (transaction_ref <$> t) (Some reason) None f1,
       Ok (OutRedirect (callback_error_path t reason) None None None))
  end.

(** ** Taking the result of a login *)

Definition result_invalid : api_error := ApiError 400 "oauth_result_invalid".

Definition result_ready (t : OAuthTransaction) (now : Z) (browser_secret : option string) : bool :=
  bool_decide (ot_portal t = EMPLOYEE) && bool_decide (ot_purpose t = FOR_LOGIN) &&
  negb (is_some (ot_result_consumed_at t)) &&
  match ot_result_expires_at t with Some e => now <? e | None => false end &&
  browser_matches t browser_secret && truthy (ot_result_payload t).

Definition consume_login_result (f : Federation) (rq : ExternalHttp) (now : Z)
    : Federation * result external_out :=
  let found := match xh_result rq with Some (String _ _ as i) => get_transaction f i | _ => None end in
  match found with
  | None => (f, Err result_invalid)
  | Some t =>
      if negb (result_ready t now (xh_browser rq)) then (f, Err result_invalid)
      else
        match decrypt_secret (ot_result_payload t) session_secret with
        | None => (f, Err result_invalid)
        | Some payload =>
            match login_of_json (default ""%string payload) with
            | None => (f, Err result_invalid)
            | Some login => (update_transaction (ot_id t) (result_taken now) f, Ok (OutLogin login))
            end
        end
  end.

(** ** The endpoints *)

Inductive external_call :=
  | CallProviders
  | CallLoginStart (portal : PortalKind) (provider : Provider) (return_path : option string)
  | CallMethods (portal : PortalKind)
  | CallLink (portal : PortalKind) (provider : Provider) (payload : PasswordConfirmation)
  | CallUnlink (portal : PortalKind) (provider : Provider) (payload : PasswordConfirmation)
  | CallCallback (provider : Provider) (state code error : option string)
  | CallResult.

(** The signed-in account of either portal; a change by an administrator
    needs the CSRF token too. *)
Definition signed_in (f : Federation) (rq : ExternalHttp) (now : Z) (portal : PortalKind) (changes : bool)
    : result (account * option PortalUser) :=
  let http := xh_request rq in
  match portal with
  | EMPLOYEE =>
      let? auth := require_portal_user_auth (fd_portal f) http now in
      Ok (EmployeeAccount (pu_id (auth_user auth)), Some (auth_user auth))
  | ADMIN =>
      let? admin := require_admin http now in
      (if changes then require_csrf (rq_claims http) (rq_method http) (rq_csrf_session http)
                         (rq_csrf_header http) None
       else Ok tt) ?;;
      Ok (AdminAccount (py_str (as_username admin)), None)
  end.

(** The lengths of the body's fields. *)
Definition confirmation_invalid (payload : PasswordConfirmation) : bool :=
  negb (length_between 1 512 (cf_password payload)) ||
  match cf_return_path payload with Some p => longer_than 255 p | None => false end.

Definition with_account (f : Federation) (rq : ExternalHttp) (now : Z) (portal : PortalKind)
    (payload : PasswordConfirmation)
    (k : account → option PortalUser → Federation * result external_out) : Federation * result external_out :=
  match (let? who := signed_in f rq now portal true in
         guard (confirmation_invalid payload) (ApiError 400 "invalid_request") ?;; Ok who) with
  | Err e => (f, Err e)
  | Ok (a, employee) => k a employee
  end.

Definition external_request (f : Federation) (rq : ExternalHttp) (w : World) (rn : Randoms)
    (call : external_call) : Federation * result external_out :=
  match call with
  | CallProviders => (f, Ok (OutProviders (provider_enabled GOOGLE) (provider_enabled APPLE)))
  | CallLoginStart portal provider return_path => login_start f rq w rn portal provider return_path
  | CallMethods portal =>
      (f, let? (a, _) := signed_in f rq (w_now w) portal false in Ok (OutMethods (method_status f a)))
  | CallLink portal provider payload =>
      with_account f rq (w_now w) portal payload (λ a employee, start_link f rq w rn a employee provider payload)
  | CallUnlink portal provider payload =>
      with_account f rq (w_now w) portal payload (λ a employee, unlink f rq a employee provider payload)
  | CallCallback provider state code error => handle_callback f rq w rn provider state code error
  | CallResult => consume_login_result f rq (w_now w)
  end.
End ExternalAuth.
