(* ===== verification/ExternalSafety.v ===== *)
(** * What a request about external sign-in may change

    The invariant of the external tables, and [evolves]: how one request can
    move transactions and identities.  Everything said about runs of the
    service rests on it. *)

From stdpp Require Import gmap pretty.
From S2P Require Import Prelude Calendar TimeParse PragueTime Models AttendanceEvents AttendanceApi AdminEmployments.
From S2P Require Import Accounts Sessions Login LoginSafety Instances AccountsSafety RequestAuth IpAddress IntegrationClients Cursors.
From S2P Require Import ExternalProviders ExternalAuth.
#[local] Open Scope Z_scope.

(** ** Successful steps of this code *)

Lemma abind_done {A B} (m : attempted A) (k : A → attempted B) b :
  abind m k = Done b ↔ ∃ a, m = Done a ∧ k a = Done b.
Proof. destruct m; simpl; split; [eauto|by intros (? & [= ->] & ?)|done|by intros (? & ? & _)]. Qed.

Lemma refuse_if_bind_done {B} c code (k : unit → attempted B) b :
  abind (refuse_if c code) k = Done b ↔ c = false ∧ k tt = Done b.
Proof. unfold refuse_if, refuse. destruct c; simpl; split; [done|by intros [? _]|done|by intros [_ ?]]. Qed.

Lemma or_refuse_done {A} (o : option A) code a : or_refuse o code = Done a ↔ o = Some a.
Proof. unfold or_refuse, refuse. destruct o; simpl; split; congruence. Qed.

Lemma lift_done {A} (r : result A) a : lift r = Done a ↔ r = Ok a.
Proof. destruct r; simpl; split; congruence. Qed.

(** Unfold a successful run into the facts of its steps. *)
Ltac done_inv H :=
  repeat match type of H with
    | abind (refuse_if _ _) _ = Done _ =>
        let E := fresh "Hguard" in apply refuse_if_bind_done in H as [E H]
    | abind _ _ = Done _ =>
        let x := fresh "v" in let E := fresh "Hstep" in
        apply abind_done in H as (x & E & H);
        first [apply or_refuse_done in E | apply lift_done in E | idtac]
    end.

(** ** The invariant of the external tables *)

Definition subject_key (x : ExternalIdentity) : Provider * string * string :=
  (ei_provider x, ei_issuer x, ei_subject x).
Definition account_key (x : ExternalIdentity) : Provider * option Z * option string :=
  (ei_provider x, ei_portal_user_id x, ei_admin_username x).

Definition user_exists (db : DB) (i : Z) : Prop := is_some (get_user db i) = true.

(** The CHECK constraint of the account, and the foreign key. *)
Definition target_ok (db : DB) (portal : PortalKind) (user_id : option Z) (name : option string) : Prop :=
  match portal, user_id, name with
  | EMPLOYEE, Some i, None => user_exists db i
  | ADMIN, None, Some _ => True
  | _, _, _ => False
  end.

Definition identity_row_ok (db : DB) (x : ExternalIdentity) : Prop :=
  target_ok db (ei_account_type x) (ei_portal_user_id x) (ei_admin_username x).

(** A transaction goes back to an allowed path; a link names its account and
    a login names nobody; only a consumed login of an employee has a result. *)
Record transaction_row_ok (db : DB) (t : OAuthTransaction) : Prop := {
  tx_path : ot_return_path t ∈ ALLOWED_RETURN_PATHS (ot_portal t) (ot_purpose t);
  tx_target : match ot_purpose t with
    | FOR_LINK => target_ok db (ot_portal t) (ot_portal_user_id t) (ot_admin_username t)
    | FOR_LOGIN => ot_portal_user_id t = None ∧ ot_admin_username t = None
    end;
  tx_result : is_some (ot_result_payload t) = true →
    is_some (ot_consumed_at t) = true ∧ ot_portal t = EMPLOYEE ∧ ot_purpose t = FOR_LOGIN ∧
    is_some (ot_result_expires_at t) = true ∧ ot_result_consumed_at t = None;
  tx_taken : ot_consumed_at t = None → ot_result_consumed_at t = None;
}.

Record external_inv (f : Federation) : Prop := {
  xi_identities : keyed ei_id subject_key (fd_next f) (fd_identities f);
  xi_accounts : NoDup (account_key <$> fd_identities f);
  xi_targets : Forall (identity_row_ok (p_db (fd_portal f))) (fd_identities f);
  xi_ids : NoDup (ot_id <$> fd_transactions f);
  xi_states : NoDup (ot_state_hash <$> fd_transactions f);
  xi_rows : Forall (transaction_row_ok (p_db (fd_portal f))) (fd_transactions f);
  xi_audit : keyed xa_id xa_id (fd_next f) (fd_audit f);
}.

(** ** How rows develop *)

(** The same transaction, perhaps consumed or with its result taken since. *)
Record same_transaction (t t' : OAuthTransaction) : Prop := {
  sx_id : ot_id t' = ot_id t;
  sx_state : ot_state_hash t' = ot_state_hash t;
  sx_browser : ot_browser_hash t' = ot_browser_hash t;
  sx_provider : ot_provider t' = ot_provider t;
  sx_purpose : ot_purpose t' = ot_purpose t;
  sx_portal : ot_portal t' = ot_portal t;
  sx_user : ot_portal_user_id t' = ot_portal_user_id t;
  sx_admin : ot_admin_username t' = ot_admin_username t;
  sx_nonce : ot_nonce t' = ot_nonce t;
  sx_consumed : is_some (ot_consumed_at t) = true → is_some (ot_consumed_at t') = true;
  sx_taken : is_some (ot_result_consumed_at t) = true → is_some (ot_result_consumed_at t') = true;
}.

#[global] Instance same_transaction_refl : Reflexive same_transaction.
Proof. intros t. by constructor. Qed.
#[global] Instance same_transaction_trans : Transitive same_transaction.
Proof. intros a b c [] []. constructor; try congruence; auto. Qed.

(** The same link of an account to a subject of a provider. *)
Record same_identity (x x' : ExternalIdentity) : Prop := {
  si_key : subject_key x' = subject_key x;
  si_account : account_key x' = account_key x;
  si_type : ei_account_type x' = ei_account_type x;
}.

#[global] Instance same_identity_refl : Reflexive same_identity.
Proof. intros x. by constructor. Qed.
#[global] Instance same_identity_trans : Transitive same_identity.
Proof. intros a b c [] []. constructor; congruence. Qed.

Definition nothing {A} (_ : A) : Prop := False.

Record evolves (opened : OAuthTransaction → Prop) (linked : ExternalIdentity → Prop)
    (f f' : Federation) : Prop := {
  ev_inv : external_inv f';
  ev_transactions : ∀ t', t' ∈ fd_transactions f' →
    (∃ t, t ∈ fd_transactions f ∧ same_transaction t t') ∨ opened t';
  ev_identities : ∀ x', x' ∈ fd_identities f' →
    (∃ x, x ∈ fd_identities f ∧ same_identity x x') ∨ linked x';
  ev_log : ∃ rows, fd_audit f' = fd_audit f ++ rows;
}.

Section Evolution.
Context `{zone : PragueZone} `{crypto : Crypto} `{signing : Signing} `{sealing : Sealing}.
Context `{jwt : Jwt} `{settings : ExternalSettings}.

Lemma evolves_refl o l f : external_inv f → evolves o l f f.
Proof. intros H. constructor; [done|by left; eexists|by left; eexists|exists []; by rewrite app_nil_r]. Qed.

(** A change that adds no row, before or after the one that may. *)
Lemma evolves_after o l f f1 f2 : evolves nothing nothing f f1 → evolves o l f1 f2 → evolves o l f f2.
Proof.
  intros [_ T1 I1 (r1 & L1)] [H T2 I2 (r2 & L2)]. constructor; [done|..].
  - intros t Ht. destruct (T2 _ Ht) as [(t1 & Ht1 & S)|]; [|by right].
    destruct (T1 _ Ht1) as [(t0 & Ht0 & S0)|[]]. left. exists t0. split; [done|by transitivity t1].
  - intros x Hx. destruct (I2 _ Hx) as [(x1 & Hx1 & S)|]; [|by right].
    destruct (I1 _ Hx1) as [(x0 & Hx0 & S0)|[]]. left. exists x0. split; [done|by transitivity x1].
  - exists (r1 ++ r2). by rewrite L2, L1, app_assoc.
Qed.

(** A change of the other parts of the state. *)
Lemma evolves_quiet o l f f1 f2 :
  evolves o l f f1 → fd_transactions f2 = fd_transactions f1 → fd_identities f2 = fd_identities f1 →
  (∃ rows, fd_audit f2 = fd_audit f1 ++ rows) → external_inv f2 → evolves o l f f2.
Proof.
  intros [_ T I (r1 & L1)] Et Ei (r2 & L2) H. constructor; [done|by rewrite Et|by rewrite Ei|].
  exists (r1 ++ r2). by rewrite L2, L1, app_assoc.
Qed.

Lemma audit_inv rq portal provider event outcome ref reason subject f :
  external_inv f → external_inv (audit rq portal provider event outcome ref reason subject f).
Proof.
  intros [I A T D S R L]. constructor; try done.
  - eapply keyed_mono; [|exact I]. simpl. lia.
  - apply keyed_add; [done|simpl|exact L]. intros (x & Hx & Hin)%list_elem_of_fmap.
    pose proof (keyed_fresh _ _ _ _ L) as Hf. rewrite Forall_forall in Hf. specialize (Hf x Hin). lia.
Qed.

Lemma evolves_audit o l f f1 rq portal provider event outcome ref reason subject :
  evolves o l f f1 → evolves o l f (audit rq portal provider event outcome ref reason subject f1).
Proof.
  intros H. eapply evolves_quiet; [exact H|done|done|by eexists|apply audit_inv, H].
Qed.

Lemma caches_inv c f : external_inv f → external_inv (set_fd_caches c f).
Proof. intros []. by constructor. Qed.

Lemma evolves_caches o l f f1 c : evolves o l f f1 → evolves o l f (set_fd_caches c f1).
Proof.
  intros H. eapply evolves_quiet; [exact H|done|done|exists []; by rewrite app_nil_r|apply caches_inv, H].
Qed.

(** A change of one transaction. *)
Lemma update_transaction_evolves i g f :
  external_inv f → (∀ t, same_transaction t (g t)) →
  (∀ t, t ∈ fd_transactions f → ot_id t = i →
     transaction_row_ok (p_db (fd_portal f)) t → transaction_row_ok (p_db (fd_portal f)) (g t)) →
  evolves nothing nothing f (update_transaction i g f).
Proof.
  intros [I A T D S R L] Hs Hr. constructor; simpl.
  - constructor; simpl; try done.
    + rewrite update_where_fmap; [done|]. intros t. apply Hs.
    + rewrite update_where_fmap; [done|]. intros t. apply Hs.
    + rewrite Forall_forall in R |- *. intros t (y & Hy & ->)%elem_of_update_where.
      destruct (String.eqb_spec (ot_id y) i); [apply Hr; auto|auto].
  - intros t (y & Hy & ->)%elem_of_update_where. left. exists y. split; [done|]. by destruct (_ =? i)%string.
  - intros x Hx. left. by exists x.
  - exists []. by rewrite app_nil_r.
Qed.

Lemma consumed_same now t : same_transaction t (consumed now t).
Proof. by constructor. Qed.
Lemma with_result_same payload expires t : same_transaction t (with_result payload expires t).
Proof. by constructor. Qed.
Lemma result_taken_same now t : same_transaction t (result_taken now t).
Proof. by constructor. Qed.

Lemma consumed_row_ok db now t : transaction_row_ok db t → transaction_row_ok db (consumed now t).
Proof. intros [P T R _]. constructor; try done. simpl. intros H. by apply R in H as (_ & H). Qed.

Lemma consume_evolves now i f : external_inv f → evolves nothing nothing f (update_transaction i (consumed now) f).
Proof.
  intros H. apply update_transaction_evolves; [done|apply consumed_same|].
  intros t _ _. apply consumed_row_ok.
Qed.

Lemma find_transaction_ok f provider st t :
  find_transaction f provider st = Some t →
  t ∈ fd_transactions f ∧ ot_state_hash t = sha256 st ∧ ot_provider t = provider.
Proof.
  unfold find_transaction. intros H.
  assert (t ∈ where_ (λ t, String.eqb (ot_state_hash t) (sha256 st) && bool_decide (ot_provider t = provider))
    (fd_transactions f)) as Ht by (destruct (where_ _ _); [done|injection H as ->; left]).
  apply elem_of_where in Ht as [Ht [Hs%String.eqb_eq Hp%bool_decide_eq_true]%andb_prop]. done.
Qed.

Lemma consume_transaction_ok f now provider st browser f1 r :
  external_inv f → consume_transaction f now provider st browser = (f1, r) →
  evolves nothing nothing f f1 ∧ fd_gateway f1 = fd_gateway f ∧ fd_caches f1 = fd_caches f ∧
  match r with
  | Done t' => ∃ t, t ∈ fd_transactions f ∧ ot_state_hash t = sha256 st ∧ ot_provider t = provider ∧
      ot_consumed_at t = None ∧ now < ot_expires_at t ∧ browser_matches t browser = true ∧
      t' = consumed now t ∧ f1 = update_transaction (ot_id t) (consumed now) f
  | Failed (ExternalAuthError _) => True
  | Failed (Raised _) => False
  end.
Proof.
  intros H. unfold consume_transaction.
  destruct (find_transaction f provider st) as [t|] eqn:E;
    [|intros [= <- <-]; split_and!; try done; by apply evolves_refl].
  apply find_transaction_ok in E as (Ht & Hs & Hp).
  destruct (ot_consumed_at t) as [c|] eqn:Ec; simpl;
    [intros [= <- <-]; split_and!; try done; by apply evolves_refl|].
  destruct (ot_expires_at t <=? now) eqn:Ee;
    [intros [= <- <-]; split_and!; try done; by apply consume_evolves|].
  destruct (browser_matches t browser) eqn:Eb; simpl; intros [= <- <-];
    [|split_and!; try done; by apply evolves_refl].
  split_and!; try done; [by apply consume_evolves|]. exists t. apply Z.leb_gt in Ee. by split_and!.
Qed.

(** ** Starting *)

(** The transaction a start opens. *)
Record opened_as (rq : ExternalHttp) (rn : Randoms) (provider : Provider) (purpose : Purpose)
    (portal : PortalKind) (user_id : option Z) (name : option string) (t : OAuthTransaction) : Prop := {
  op_id : ot_id t = rn_id rn;
  op_state : ot_state_hash t = sha256 (rn_state rn);
  op_browser : ot_browser_hash t = sha256 (chosen_browser_secret (xh_browser rq) (rn_browser rn));
  op_provider : ot_provider t = provider;
  op_purpose : ot_purpose t = purpose;
  op_portal : ot_portal t = portal;
  op_user : ot_portal_user_id t = user_id;
  op_admin : ot_admin_username t = name;
  op_nonce : ot_nonce t = rn_nonce rn;
  op_fresh : ot_consumed_at t = None ∧ ot_result_payload t = None ∧ ot_result_consumed_at t = None;
}.

Lemma safe_path_allowed portal purpose candidate :
  safe_return_path portal purpose candidate ∈ ALLOWED_RETURN_PATHS portal purpose.
Proof.
  assert (Hd : match portal, purpose with
    | EMPLOYEE, _ => "/app" | ADMIN, FOR_LINK => "/admin/ucet" | ADMIN, FOR_LOGIN => "/admin/prehled"
    end%string ∈ ALLOWED_RETURN_PATHS portal purpose) by (destruct portal, purpose; left).
  unfold safe_return_path. destruct candidate as [p|]; [|done].
  destruct (mem p _) eqn:E; [by apply mem_true in E|done].
Qed.

Lemma start_transaction_ok f w rn provider purpose portal path rq user_id name f1 r :
  external_inv f →
  match purpose with
  | FOR_LINK => target_ok (p_db (fd_portal f)) portal user_id name
  | FOR_LOGIN => user_id = None ∧ name = None
  end →
  start_transaction f w rn provider purpose portal path (xh_browser rq) user_id name = (f1, r) →
  evolves (opened_as rq rn provider purpose portal user_id name) nothing f f1 ∧
  fd_gateway f1 = fd_gateway f.
Proof.
  intros H Htarget. unfold start_transaction.
  destruct (provider_enabled provider); simpl;
    [|intros [= <- <-]; split; [by apply evolves_refl|done]].
  set (kept := recent_transactions _ _).
  match goal with |- context [kept ++ [?t]] => set (t0 := t) end.
  assert (Hk : ∀ t, t ∈ kept → t ∈ fd_transactions f) by (intros t Ht; by apply elem_of_where in Ht as [Ht _]).
  destruct (existsb _ kept) eqn:Ex; [intros [= <- <-]; split; [by apply evolves_refl|done]|].
  destruct (authorization_url _ _ _ _ _ _) as [caches url]. intros [= <- <-]. split; [|done].
  apply evolves_caches. destruct H as [I A T D S R L].
  rewrite existsb_false_elem in Ex.
  assert (Hfresh : ∀ t, t ∈ kept → ot_id t ≠ ot_id t0 ∧ ot_state_hash t ≠ ot_state_hash t0).
  { intros t Ht. apply Ex in Ht. apply orb_false_iff in Ht as [H1 H2].
    by apply String.eqb_neq in H1, H2. }
  assert (Hadd : ∀ (g : OAuthTransaction → string), NoDup (g <$> fd_transactions f) →
    (∀ t, t ∈ kept → g t ≠ g t0) → NoDup (g <$> (kept ++ [t0]))).
  { intros g Hn Hg. rewrite fmap_app. apply NoDup_app. split_and!; [by apply NoDup_fmap_where| |apply NoDup_singleton].
    intros i (t & -> & Ht)%list_elem_of_fmap Hi%list_elem_of_singleton. by apply (Hg t). }
  constructor; simpl.
  - constructor; simpl; try done.
    + apply Hadd; [done|]. intros t Ht. by apply Hfresh.
    + apply Hadd; [done|]. intros t Ht. by apply Hfresh.
    + apply Forall_app. split.
      * rewrite Forall_forall in R |- *. auto.
      * apply Forall_singleton. constructor; simpl; [apply safe_path_allowed|by destruct purpose|done|done].
  - intros t [Ht|Ht%list_elem_of_singleton]%elem_of_app; [left; exists t; split; [auto|done]|]. right. subst t. by constructor.
  - intros x Hx. left. by exists x.
  - exists []. by rewrite app_nil_r.
Qed.

(** ** Linking and unlinking *)

Lemma deleted_rows_evolve f qt qi :
  external_inv f →
  evolves nothing nothing f (set_fd_identities (delete_where qi (fd_identities f))
    (set_fd_transactions (delete_where qt (fd_transactions f)) f)).
Proof.
  intros [I A T D S R L]. constructor; simpl.
  - constructor; simpl; try done.
    + by apply keyed_delete.
    + by apply NoDup_fmap_where.
    + rewrite Forall_forall in T |- *. intros x [Hx _]%elem_of_delete_where. auto.
    + by apply NoDup_fmap_where.
    + by apply NoDup_fmap_where.
    + rewrite Forall_forall in R |- *. intros t [Ht _]%elem_of_delete_where. auto.
  - intros t [Ht _]%elem_of_delete_where. left. by exists t.
  - intros x [Hx _]%elem_of_delete_where. left. by exists x.
  - exists []. by rewrite app_nil_r.
Qed.

(** The identity a link creates. *)
Record linked_as (t : OAuthTransaction) (claims : ProviderClaims) (x : ExternalIdentity) : Prop := {
  la_key : subject_key x = (ot_provider t, pc_issuer claims, pc_subject claims);
  la_account : account_key x = (ot_provider t, ot_portal_user_id t, ot_admin_username t);
  la_type : ei_account_type x = ot_portal t;
}.

Lemma same_subject_iff provider claims x :
  same_subject provider claims x = true ↔ subject_key x = (provider, pc_issuer claims, pc_subject claims).
Proof.
  unfold same_subject, subject_key. rewrite !andb_true_iff, bool_decide_eq_true, !String.eqb_eq.
  split; [intros [[-> ->] ->]; done|intros [= -> -> ->]; done].
Qed.

Lemma no_conflict_target f x : identity_conflict f x = false → identity_row_ok (p_db (fd_portal f)) x.
Proof.
  unfold identity_conflict, identity_row_ok, target_ok, user_exists. intros [_ H]%orb_false_iff.
  destruct (ei_account_type x), (ei_portal_user_id x), (ei_admin_username x); simpl in H; try done.
  by apply negb_false_iff in H.
Qed.

(** No stored identity has the account of a new one at the same provider. *)
Lemma no_conflict_account f x y :
  identity_conflict f x = false → y ∈ fd_identities f → account_key y ≠ account_key x.
Proof.
  intros Hc Hy Heq. pose proof (no_conflict_target f x Hc) as Ht.
  unfold identity_conflict in Hc. apply orb_false_iff in Hc as [Hc _].
  rewrite existsb_false_elem in Hc. specialize (Hc y Hy). injection Heq as Hp Hu Hn.
  rewrite Hp, Hu, Hn, !bool_decide_eq_true_2, andb_true_l, !andb_true_r in Hc by done.
  unfold identity_row_ok, target_ok in Ht.
  destruct (ei_account_type x), (ei_portal_user_id x), (ei_admin_username x); try done;
    simpl in Hc; by rewrite ?orb_true_r in Hc.
Qed.

Lemma complete_link_ok f rq now t claims f1 :
  external_inv f → complete_link f rq now t claims = Done f1 →
  evolves nothing (linked_as t claims) f f1 ∧ fd_gateway f1 = fd_gateway f.
Proof.
  intros [I A T D S R L]. unfold complete_link.
  destruct (one_or_none _) eqn:E; [by destruct (same_target t _)|].
  destruct (claims_too_long claims); [done|].
  match goal with |- context [identity_conflict f ?y] => set (x := y) end.
  intros H. done_inv H. injection H as <-. split; [|done]. constructor; simpl.
  - constructor; simpl; try done.
    + apply keyed_add; [done| |done]. intros (y & Hk & Hy)%list_elem_of_fmap.
      assert (Hin : y ∈ where_ (same_subject (ot_provider t) claims) (fd_identities f)).
      { apply elem_of_where. split; [done|]. apply same_subject_iff. by rewrite <- Hk. }
      unfold one_or_none in E. destruct (where_ _ _); [by apply elem_of_nil in Hin|done].
    + rewrite fmap_app. apply NoDup_app. split_and!; [done| |apply NoDup_singleton].
      intros k (y & -> & Hy)%list_elem_of_fmap Hk%list_elem_of_singleton.
      by apply (no_conflict_account f x y).
    + apply Forall_app. split; [done|]. by apply Forall_singleton, (no_conflict_target f).
    + eapply keyed_mono; [|done]. lia.
  - intros t' Ht. left. by exists t'.
  - intros y [Hy|Hy%list_elem_of_singleton]%elem_of_app; [left; by exists y|]. right. subst y. by constructor.
  - exists []. by rewrite app_nil_r.
Qed.

(** ** Signing in *)

Lemma same_db_inv f g :
  external_inv f → p_db (g_portal g) = p_db (fd_portal f) → external_inv (set_fd_gateway g f).
Proof. intros [] Hdb. constructor; simpl; try done; unfold fd_portal in *; simpl; by rewrite Hdb. Qed.

Lemma evolves_gateway o l f f1 g :
  evolves o l f f1 → p_db (g_portal g) = p_db (fd_portal f1) → evolves o l f (set_fd_gateway g f1).
Proof.
  intros H Hdb. eapply evolves_quiet; [exact H|done|done|exists []; by rewrite app_nil_r|].
  apply same_db_inv; [apply H|done].
Qed.

Lemma seen_same now claims x : same_identity x (seen_identity now claims x).
Proof. by constructor. Qed.

Lemma seen_evolves i now claims f :
  external_inv f → evolves nothing nothing f (update_identity i (seen_identity now claims) f).
Proof.
  intros [I A T D S R L]. constructor; simpl.
  - constructor; simpl; try done.
    + by apply keyed_update.
    + by rewrite update_where_fmap.
    + rewrite Forall_forall in T |- *. intros x (y & Hy & ->)%elem_of_update_where.
      destruct (ei_id y =? i); [apply (T y Hy)|auto].
  - intros t Ht. left. by exists t.
  - intros x (y & Hy & ->)%elem_of_update_where. left. exists y. split; [done|].
    destruct (ei_id y =? i); [apply seen_same|done].
  - exists []. by rewrite app_nil_r.
Qed.

(** The portal changes only as a portal login changes it. *)
Definition portal_effect (now : Z) (f f' : Federation) : Prop :=
  fd_gateway f' = fd_gateway f ∨
  ∃ u p login, issue_portal_login (fd_portal f) u now = Ok (p, login) ∧
    fd_gateway f' = set_g_portal p (fd_gateway f).

(** Who signs in: an open account of the portal with what it was issued, or
    the configured administrator. *)
Record signs_in (f : Federation) (now : Z) (t : OAuthTransaction) (claims : ProviderClaims)
    (x : ExternalIdentity) (issued : option (PortalLoginOut * PortalUser)) : Prop := {
  sg_identity : x ∈ fd_identities f;
  sg_subject : subject_key x = (ot_provider t, pc_issuer claims, pc_subject claims);
  sg_type : ei_account_type x = ot_portal t;
  sg_account : match ot_portal t with
    | EMPLOYEE => ∃ u h p login, issued = Some (login, u) ∧ ei_portal_user_id x = Some (pu_id u) ∧
        u ∈ users (p_db (fd_portal f)) ∧ pu_is_active u = true ∧ pu_is_blocked u = false ∧
        pu_password_hash u = Some h ∧ issue_portal_login (fd_portal f) u now = Ok (p, login)
    | ADMIN => issued = None ∧ ei_admin_username x = Some (lower admin_username) ∧
        truthy admin_password_hash = true
    end;
}.

Lemma complete_login_ok f now t claims f1 issued :
  external_inv f → complete_login f now t claims = Done (f1, issued) →
  evolves nothing nothing f f1 ∧ portal_effect now f f1 ∧ p_db (fd_portal f1) = p_db (fd_portal f) ∧
  fd_transactions f1 = fd_transactions f ∧ ∃ x, signs_in f now t claims x issued.
Proof.
  intros Hi H. unfold complete_login in H. done_inv H. rename v into x.
  assert (x ∈ where_ (λ x, same_subject (ot_provider t) claims x && bool_decide (ei_account_type x = ot_portal t))
    (fd_identities f)) as Hx by (unfold one_or_none in Hstep; destruct (where_ _ _); [done|injection Hstep as ->; left]).
  apply elem_of_where in Hx as [Hx [Hs%same_subject_iff Ht%bool_decide_eq_true]%andb_prop].
  pose proof (seen_evolves (ei_id x) now claims f Hi) as Hev.
  destruct (ot_portal t) eqn:Ep.
  - done_inv H. rename v into u. destruct v0 as [p login].
    destruct (ei_portal_user_id x) as [i|] eqn:Eu; [|done]. simpl in Hstep0.
    apply get_user_elem in Hstep0 as [Hu Hid]. injection H as <- <-. bool_hyps.
    destruct (pu_password_hash u) as [h|] eqn:Eh; [|done].
    change (fd_portal (update_identity (ei_id x) (seen_identity now claims) f)) with (fd_portal f) in Hstep1.
    pose proof Hstep1 as Hissue. apply issue_login_ok in Hissue as (_ & j & e & _ & _ & _ & _ & _ & _ & _ & Hp).
    assert (Hdb : p_db p = p_db (fd_portal f)) by (by rewrite Hp).
    split_and!; [by apply evolves_gateway|right; exists u, p, login; done|done|done|].
    exists x. constructor; [done|done|by rewrite Ep|]. rewrite Ep. exists u, h, p, login. by subst i.
  - done_inv H. injection H as <- <-. bool_hyps. apply bool_decide_eq_true in H0.
    split_and!; [done|by left|done|done|]. exists x. constructor; [done|done|by rewrite Ep|]. by rewrite Ep.
Qed.

Lemma finish_link_ok f rq now t claims f1 out :
  external_inv f → finish_link f rq now t claims = Done (f1, out) →
  evolves nothing (linked_as t claims) f f1 ∧ fd_gateway f1 = fd_gateway f.
Proof.
  intros H E. unfold finish_link in E. done_inv E. injection E as <- <-.
  destruct (complete_link_ok f rq now t claims v H Hstep) as [Hev Hg]. split; [|done].
  by apply evolves_audit.
Qed.

Lemma append_nil s : (s +:+ "" = s)%string.
Proof. induction s as [|c s IH]; [done|]. change (String c (s +:+ "") = String c s). by rewrite IH. Qed.

(** The cookies of a login. *)
Definition cookies_of (t : OAuthTransaction) (now : Z) (jti : string)
    (issued : option (PortalLoginOut * PortalUser)) : option string * option Cookie :=
  match issued with
  | Some (_, u) => (Some (ot_id t), Some (set_portal_session (pu_id u) (default ""%string (pu_password_hash u)) now jti))
  | None => (None, Some (set_admin_session (lower (or_text (ot_admin_username t) admin_username)) now jti))
  end.

(** The transaction of an employee's login holds it afterwards. *)
Definition holds_result (f : Federation) (t : OAuthTransaction) (now : Z) (iv : string)
    (login : PortalLoginOut) : Prop :=
  with_result (encrypt_secret iv (login_json login) session_secret)
    (now + external_auth_result_ttl_seconds * 1000000) t ∈ fd_transactions f.

Lemma updated_in f i g t : t ∈ fd_transactions f → ot_id t = i → g t ∈ fd_transactions (update_transaction i g f).
Proof.
  intros Ht <-. simpl. apply elem_of_update_where. exists t. by rewrite String.eqb_refl.
Qed.

Lemma finish_login_ok f rq w rn t claims f1 out :
  external_inv f → t ∈ fd_transactions f → is_some (ot_consumed_at t) = true →
  ot_result_consumed_at t = None → ot_purpose t = FOR_LOGIN →
  finish_login f rq w rn t claims = Done (f1, out) →
  evolves nothing nothing f f1 ∧ portal_effect (w_now w) f f1 ∧
  ∃ x issued, signs_in f (w_now w) t claims x issued ∧ email_too_long claims = false ∧
    out = OutRedirect (safe_return_path (ot_portal t) FOR_LOGIN (Some (ot_return_path t)) +:+
                       match ot_portal t with EMPLOYEE => "?external_auth=complete" | ADMIN => "" end)
            None (cookies_of t (w_now w) (rn_jti rn) issued).1 (cookies_of t (w_now w) (rn_jti rn) issued).2 ∧
    (∀ login u, issued = Some (login, u) → holds_result f1 t (w_now w) (rn_iv rn) login).
Proof.
  intros H Ht Hc Hn Hp E. unfold finish_login in E. done_inv E. destruct v as [f0 issued].
  destruct (complete_login_ok _ _ _ _ _ _ H Hstep) as (Hev & Hport & Hdb & Htx & x & Hx).
  destruct (ot_portal t) eqn:Ep.
  - done_inv E. destruct v as [login u]. subst issued. done_inv E. destruct (email_too_long claims) eqn:Ee; [discriminate|].
    injection E as <- <-. pose proof (sg_account _ _ _ _ _ _ Hx) as Ha. rewrite Ep in Ha.
    destruct Ha as (u' & h & p & login' & [= <- <-] & _ & _ & _ & _ & Hh & _).
    assert (v = h) as -> by congruence.
    split_and!.
    + eapply evolves_after; [by apply evolves_audit|]. apply update_transaction_evolves.
      * apply audit_inv, Hev.
      * apply with_result_same.
      * intros t' Ht' Hid [P T R K]. simpl in Ht'. rewrite Htx in Ht'.
        assert (t' = t) as ->.
        { apply (NoDup_fmap_eq ot_id (fd_transactions f)); [apply (xi_ids _ H)|done|done|done]. }
        constructor; [done|done| |done]. intros _. simpl. by split_and!.
    + destruct Hport as [Hg|(u' & p' & l' & Hi & Hg)]; [by left|right; by exists u', p', l'].
    + exists x, (Some (login, u)). split; [done|]. split; [done|]. simpl. rewrite Hh. simpl. split; [done|].
      intros l0 u0 [= <- <-]. apply updated_in; [|done]. simpl. by rewrite Htx.
  - done_inv E. destruct (email_too_long claims) eqn:Ee; [discriminate|]. injection E as <- <-.
    pose proof (sg_account _ _ _ _ _ _ Hx) as Ha. rewrite Ep in Ha. destruct Ha as (-> & _).
    split_and!; [by apply evolves_audit|exact Hport|]. exists x, None. split; [done|].
    split; [done|]. split; [by rewrite append_nil|done].
Qed.

(** A callback whose transaction, browser and provider are in order. *)
Record accepted (f : Federation) (rq : ExternalHttp) (w : World) (provider : Provider) (st code : string)
    (t : OAuthTransaction) (claims : ProviderClaims) : Prop := {
  ac_transaction : t ∈ fd_transactions f;
  ac_state : ot_state_hash t = sha256 st;
  ac_provider : ot_provider t = provider;
  ac_unused : ot_consumed_at t = None;
  ac_time : w_now w < ot_expires_at t;
  ac_browser : browser_matches t (xh_browser rq) = true;
  ac_claims : (exchange_and_validate w provider code (ot_nonce t) (ot_code_verifier t) (fd_caches f)).2 = Done claims;
}.

(** What a successful callback did. *)
Definition callback_done (f : Federation) (rq : ExternalHttp) (w : World) (rn : Randoms)
    (provider : Provider) (st code : string) (f' : Federation) (out : external_out) : Prop :=
  ∃ t claims, accepted f rq w provider st code t claims ∧
    match ot_purpose t with
    | FOR_LINK => out = OutRedirect (ot_return_path t +:+ "?external_auth_linked=" +:+ provider_text provider) None None None
    | FOR_LOGIN => ∃ x issued, signs_in f (w_now w) t claims x issued ∧ email_too_long claims = false ∧
        out = OutRedirect (safe_return_path (ot_portal t) FOR_LOGIN (Some (ot_return_path t)) +:+
                           match ot_portal t with EMPLOYEE => "?external_auth=complete" | ADMIN => "" end)
                None (cookies_of t (w_now w) (rn_jti rn) issued).1 (cookies_of t (w_now w) (rn_jti rn) issued).2 ∧
        (∀ login u, issued = Some (login, u) → holds_result f' (consumed (w_now w) t) (w_now w) (rn_iv rn) login)
    end.

(** The identity a link would create, as the state before the callback has it. *)
Definition links (f : Federation) (rq : ExternalHttp) (w : World) (provider : Provider)
    (state code : option string) (x : ExternalIdentity) : Prop :=
  ∃ st c t claims, state = Some st ∧ code = Some c ∧ accepted f rq w provider st c t claims ∧
    ot_purpose t = FOR_LINK ∧ linked_as t claims x.

Lemma callback_claims_ok f w provider t code err f2 r :
  callback_claims f w provider t code err = (f2, r) →
  (∃ c, f2 = set_fd_caches c f) ∧
  ∀ claims, r = Done claims → ∃ c, code = Some c ∧
    (exchange_and_validate w provider c (ot_nonce t) (ot_code_verifier t) (fd_caches f)).2 = Done claims.
Proof.
  assert (Hid : ∃ c, f = set_fd_caches c f) by (exists (fd_caches f); by destruct f).
  assert (Hx : ∀ c, (let '(caches, claims) := exchange_and_validate w provider c (ot_nonce t)
      (ot_code_verifier t) (fd_caches f) in (set_fd_caches caches f, claims)) = (f2, r) → code = Some c →
    (∃ c, f2 = set_fd_caches c f) ∧
    ∀ claims, r = Done claims → ∃ c, code = Some c ∧
      (exchange_and_validate w provider c (ot_nonce t) (ot_code_verifier t) (fd_caches f)).2 = Done claims).
  { intros c. destruct (exchange_and_validate _ _ _ _ _ _) as [caches cl] eqn:E. intros [= <- <-] Hc.
    split; [by eexists|]. intros claims ->. exists c. by rewrite E. }
  unfold callback_claims. destruct err as [[|ech err]|]; [|by intros [= <- <-]|];
    (destruct code as [[|cch code]|]; [by intros [= <- <-]|intros H; by apply (Hx _ H)|by intros [= <- <-]]).
Qed.

Lemma evolves_mono (o o' : OAuthTransaction → Prop) (l l' : ExternalIdentity → Prop) f f' :
  (∀ t, o t → o' t) → (∀ x, l x → l' x) → evolves o l f f' → evolves o' l' f f'.
Proof.
  intros Ho Hl [I T D L]. constructor; [done| | |done].
  - intros t Ht. destruct (T t Ht); auto.
  - intros x Hx. destruct (D x Hx); auto.
Qed.

(** The end of a callback whose transaction was consumed in [f]. *)
Lemma finish_callback_ok f rq w rn t claims f1 out :
  external_inv f → t ∈ fd_transactions f → is_some (ot_consumed_at t) = true →
  ot_result_consumed_at t = None → finish_callback f rq w rn t claims = Done (f1, out) →
  evolves nothing (λ x, ot_purpose t = FOR_LINK ∧ linked_as t claims x) f f1 ∧ portal_effect (w_now w) f f1 ∧
  match ot_purpose t with
  | FOR_LINK => out = OutRedirect (ot_return_path t +:+ "?external_auth_linked=" +:+ provider_text (ot_provider t)) None None None
  | FOR_LOGIN => ∃ x issued, signs_in f (w_now w) t claims x issued ∧ email_too_long claims = false ∧
      out = OutRedirect (safe_return_path (ot_portal t) FOR_LOGIN (Some (ot_return_path t)) +:+
                         match ot_portal t with EMPLOYEE => "?external_auth=complete" | ADMIN => "" end)
              None (cookies_of t (w_now w) (rn_jti rn) issued).1 (cookies_of t (w_now w) (rn_jti rn) issued).2 ∧
      (∀ login u, issued = Some (login, u) → holds_result f1 t (w_now w) (rn_iv rn) login)
  end.
Proof.
  intros H Ht Hc Hn E. unfold finish_callback in E. destruct (ot_purpose t) eqn:Ep.
  - destruct (finish_login_ok f rq w rn t claims f1 out H Ht Hc Hn Ep E) as (Hev & Hport & Hrest).
    split_and!; [|done|exact Hrest]. by apply (evolves_mono nothing nothing nothing).
  - destruct (finish_link_ok f rq (w_now w) t claims f1 out H E) as (Hev & Hg).
    split_and!; [|by left|].
    + eapply evolves_mono; [| |exact Hev]; [done|]. auto.
    + unfold finish_link in E. done_inv E. by injection E as _ <-.
Qed.

(** The tables once the callback's transaction is consumed. *)
Definition after_consuming (f : Federation) (rq : ExternalHttp) (now : Z) (provider : Provider)
    (state : option string) : Federation :=
  match state with
  | Some (String _ _ as st) => (consume_transaction f now provider st (xh_browser rq)).1
  | _ => f
  end.

Lemma after_consuming_ok f rq now provider state :
  external_inv f →
  evolves nothing nothing f (after_consuming f rq now provider state) ∧
  fd_gateway (after_consuming f rq now provider state) = fd_gateway f.
Proof.
  intros H. destruct state as [[|ch st]|]; [by split; [apply evolves_refl|]| |by split; [apply evolves_refl|]].
  simpl. destruct (consume_transaction _ _ _ _ _) as [g r] eqn:E.
  by apply consume_transaction_ok in E as (Hev & Hg & _).
Qed.

Lemma callback_steps_ok f rq w rn provider state code err f1 t outcome :
  external_inv f → callback_steps f rq w rn provider state code err = (f1, t, outcome) →
  evolves nothing nothing (after_consuming f rq (w_now w) provider state) f1 ∧ fd_gateway f1 = fd_gateway f ∧
  match outcome with
  | Failed _ => True
  | Done (f2, out) =>
      evolves nothing (links f rq w provider state code) (after_consuming f rq (w_now w) provider state) f2 ∧
      portal_effect (w_now w) f f2 ∧
      ∃ st c, state = Some st ∧ code = Some c ∧ callback_done f rq w rn provider st c f2 out
  end.
Proof.
  intros H. unfold callback_steps.
  destruct state as [[|ch st]|]; [intros [= <- <- <-]; split_and!; try done; by apply evolves_refl| |
    intros [= <- <- <-]; split_and!; try done; by apply evolves_refl].
  unfold after_consuming. set (st0 := String ch st).
  destruct (consume_transaction _ _ _ _ _) as [g1 r] eqn:E.
  destruct (consume_transaction_ok _ _ _ _ _ _ _ H E) as (Hev & Hg & Hcache & Hr). cbn [fst].
  destruct r as [t'|e]; [|intros [= <- <- <-]; split_and!; try done; apply evolves_refl, Hev].
  destruct Hr as (t0 & Ht0 & Hst & Hp & Hun & Htime & Hb & -> & ->).
  destruct (callback_claims _ _ _ _ _ _) as [f2 claims] eqn:Ex.
  apply callback_claims_ok in Ex as ((cs & ->) & Hcl). intros [= <- <- Ho].
  pose proof (evolves_caches nothing nothing _ _ cs (evolves_refl nothing nothing _ (ev_inv _ _ _ _ Hev))) as Hc.
  split_and!; [done|done|].
  destruct outcome as [[f3 out]|]; [|done]. apply abind_done in Ho as (cl & -> & Ho).
  destruct (Hcl cl eq_refl) as (c & -> & Hex).
  assert (Hacc : accepted f rq w provider st0 c t0 cl) by (by constructor).
  assert (Hrow : transaction_row_ok (p_db (fd_portal f)) t0).
  { pose proof (xi_rows _ H) as Hrows. rewrite Forall_forall in Hrows. auto. }
  apply finish_callback_ok in Ho as (Hev3 & Hport & Hout);
    [|apply Hc|simpl; by apply (updated_in f (ot_id t0) (consumed (w_now w)))|done|by apply (tx_taken _ _ Hrow)].
  split_and!.
  - eapply evolves_after; [exact Hc|]. eapply evolves_mono; [| |exact Hev3]; [done|].
    intros x [Hl1 [K1 K2 K3]]. exists st0, c, t0, cl. split_and!; try done.
  - destruct Hport as [Hg3|Hp3]; [left|right]; done.
  - exists st0, c. split_and!; [done|done|]. exists t0, cl. split; [done|].
    simpl in Hout. destruct (ot_purpose t0); [|by rewrite <- Hp].
    destruct Hout as (x & issued & [X1 X2 X3 X4] & He2 & Ho2 & Hres). exists x, issued. split_and!; [|done|done|done].
    by constructor.
Qed.

(** ** A whole request *)

Lemma handle_callback_ok f rq w rn provider state code err f' r :
  external_inv f → handle_callback f rq w rn provider state code err = (f', r) →
  evolves nothing (links f rq w provider state code) (after_consuming f rq (w_now w) provider state) f' ∧
  portal_effect (w_now w) f f'.
Proof.
  intros H. unfold handle_callback. destruct (callback_steps _ _ _ _ _ _ _ _) as [[f1 t] outcome] eqn:E.
  apply callback_steps_ok in E as (Hev & Hg & Ho); [|done].
  assert (Hw : evolves nothing (links f rq w provider state code) (after_consuming f rq (w_now w) provider state) f1)
    by (by apply (evolves_mono nothing nothing nothing)).
  destruct outcome as [[f2 out]|[code'|e]].
  - intros [= <- <-]. by destruct Ho as (? & ? & _).
  - intros [= <- <-]. split; [by apply evolves_audit|by left].
  - intros [= <- <-]. split; [done|by left].
Qed.

(** The login an employee's transaction holds is taken once. *)
Lemma consume_login_result_ok f rq now f' r :
  external_inv f → consume_login_result f rq now = (f', r) →
  evolves nothing nothing f f' ∧ fd_gateway f' = fd_gateway f ∧
  ∀ out, r = Ok out → ∃ t payload login, t ∈ fd_transactions f ∧ xh_result rq = Some (ot_id t) ∧
    result_ready t now (xh_browser rq) = true ∧ out = OutLogin login ∧
    decrypt_secret (ot_result_payload t) session_secret = Some payload ∧
    login_of_json (default ""%string payload) = Some login ∧
    f' = update_transaction (ot_id t) (result_taken now) f.
Proof.
  intros H. unfold consume_login_result.
  destruct (match xh_result rq with Some (String _ _ as i) => get_transaction f i | _ => None end) as [t|] eqn:E;
    [|intros [= <- <-]; split_and!; [by apply evolves_refl|done|done]].
  assert (Ht : t ∈ fd_transactions f ∧ xh_result rq = Some (ot_id t)).
  { destruct (xh_result rq) as [[|c i]|]; [done| |done]. unfold get_transaction, one_or_none in E.
    assert (t ∈ where_ (λ t, String.eqb (ot_id t) (String c i)) (fd_transactions f)) as Hin
      by (destruct (where_ _ _); [done|injection E as ->; left]).
    apply elem_of_where in Hin as [Hin Hi%String.eqb_eq]. by rewrite Hi. }
  destruct Ht as [Ht Hres].
  destruct (result_ready t now (xh_browser rq)) eqn:Er; simpl;
    [|intros [= <- <-]; split_and!; [by apply evolves_refl|done|done]].
  destruct (decrypt_secret _ _) as [payload|] eqn:Ed;
    [|intros [= <- <-]; split_and!; [by apply evolves_refl|done|done]].
  destruct (login_of_json _) as [login|] eqn:El;
    [|intros [= <- <-]; split_and!; [by apply evolves_refl|done|done]].
  intros [= <- <-]. split_and!; [|done|].
  - apply update_transaction_evolves; [done|apply result_taken_same|].
    intros t' Ht' Hid [P T R K]. constructor; [done|done|done|]. intros Hn. simpl in *.
    assert (t' = t) as -> by (apply (NoDup_fmap_eq ot_id (fd_transactions f)); [apply (xi_ids _ H)|done..]).
    unfold result_ready in Er. bool_hyps.
    destruct (ot_result_payload t) as [pl|] eqn:Ep; [|done]. destruct R as [Hc _]; [done|]. simpl in Hn.
    by rewrite Hn in Hc.
  - intros out [= <-]. by exists t, payload, login.
Qed.

Lemma unlink_ok f rq a employee provider payload f' r :
  external_inv f → unlink f rq a employee provider payload = (f', r) →
  evolves nothing nothing f f' ∧ fd_gateway f' = fd_gateway f.
Proof.
  intros H. unfold unlink. destruct (_ ?;; _) as [x|e]; intros [= <- <-]; [|split; [by apply evolves_refl|done]].
  split; [|done]. by apply evolves_audit, deleted_rows_evolve.
Qed.

(** The account that asked for a link, and its password. *)
Definition asked_by (f : Federation) (rq : ExternalHttp) (now : Z) (portal : PortalKind)
    (password : string) (a : account) : Prop :=
  ∃ employee, signed_in f rq now portal true = Ok (a, employee) ∧ verify_link_password a employee password = Ok tt.

(** The transaction and the identity a request may add. *)
Definition opened_by (f : Federation) (rq : ExternalHttp) (w : World) (rn : Randoms)
    (call : external_call) (t : OAuthTransaction) : Prop :=
  match call with
  | CallLoginStart portal provider _ => opened_as rq rn provider FOR_LOGIN portal None None t
  | CallLink portal provider payload => ∃ a, asked_by f rq (w_now w) portal (cf_password payload) a ∧
      opened_as rq rn provider FOR_LINK portal (user_id_of a) (admin_username_of a) t
  | _ => False
  end.

Definition linked_by (f : Federation) (rq : ExternalHttp) (w : World) (call : external_call)
    (x : ExternalIdentity) : Prop :=
  match call with
  | CallCallback provider state code _ => links f rq w provider state code x
  | _ => False
  end.

Lemma login_start_ok f rq w rn portal provider path f' r :
  external_inv f → login_start f rq w rn portal provider path = (f', r) →
  evolves (opened_as rq rn provider FOR_LOGIN portal None None) nothing f f' ∧ fd_gateway f' = fd_gateway f.
Proof.
  intros H. unfold login_start.
  destruct (start_transaction _ _ _ _ _ _ _ _ _ _) as [f1 started] eqn:E.
  apply (start_transaction_ok f w rn provider FOR_LOGIN portal path rq) in E as [Hev Hg]; [|done|done].
  destruct started as [s|[code|e]]; intros [= <- <-]; split; try done. by apply evolves_audit.
Qed.

Lemma start_link_ok f rq w rn a employee provider payload f' r :
  external_inv f → target_ok (p_db (fd_portal f)) (portal_of a) (user_id_of a) (admin_username_of a) →
  start_link f rq w rn a employee provider payload = (f', r) →
  evolves (λ t, verify_link_password a employee (cf_password payload) = Ok tt ∧
             opened_as rq rn provider FOR_LINK (portal_of a) (user_id_of a) (admin_username_of a) t) nothing f f' ∧
  fd_gateway f' = fd_gateway f.
Proof.
  intros H Ht. unfold start_link.
  destruct (_ ?;; _) as [[]|e] eqn:Ev; [|intros [= <- <-]; split; [by apply evolves_refl|done]].
  ok_inv Ev. destruct v.
  destruct (start_transaction _ _ _ _ _ _ _ _ _ _) as [f1 started] eqn:E.
  apply (start_transaction_ok f w rn provider FOR_LINK (portal_of a)) in E as [Hev Hg]; [|done|done].
  apply (evolves_mono _ (λ t, verify_link_password a employee (cf_password payload) = Ok tt ∧
    opened_as rq rn provider FOR_LINK (portal_of a) (user_id_of a) (admin_username_of a) t) nothing nothing) in Hev;
    [|done|done].
  destruct started as [s|[code|e]]; intros [= <- <-]; split; try done. by apply evolves_audit.
Qed.

Lemma user_exists_elem db u : u ∈ users db → user_exists db (pu_id u).
Proof.
  intros Hu. unfold user_exists, get_user, one_or_none.
  assert (u ∈ where_ (λ x, pu_id x =? pu_id u) (users db)) as Hin by (apply elem_of_where; by rewrite Z.eqb_refl).
  destruct (where_ _ _); [by apply elem_of_nil in Hin|done].
Qed.

Lemma signed_in_target `{slaws : !SigningLaws signing} f rq now portal changes a employee :
  signed_in f rq now portal changes = Ok (a, employee) →
  portal_of a = portal ∧ target_ok (p_db (fd_portal f)) (portal_of a) (user_id_of a) (admin_username_of a).
Proof.
  destruct portal; simpl; intros H; ok_inv H; injection H as <- _; (split; [done|]); simpl; [|done].
  apply require_auth_ok in Hstep as [Hu _ _]. by apply user_exists_elem.
Qed.

(** Every request keeps the external tables well formed; it adds an identity
    only by a callback that completes a link, and a transaction only when it
    starts one. *)
Lemma external_request_ok `{slaws : !SigningLaws signing} f rq w rn call f' r :
  external_inv f → external_request f rq w rn call = (f', r) →
  evolves (opened_by f rq w rn call) (linked_by f rq w call) f f' ∧ portal_effect (w_now w) f f'.
Proof.
  intros H. destruct call as [|portal provider path|portal|portal provider payload|portal provider payload|
    provider state code err|]; simpl.
  - intros [= <- <-]. split; [by apply evolves_refl|by left].
  - intros [Hev Hg]%login_start_ok; [|done]. split; [done|by left].
  - intros [= <- <-]. split; [by apply evolves_refl|by left].
  - unfold with_account. destruct (let? who := _ in _) as [[a e]|er] eqn:Ea;
      [|intros [= <- <-]; split; [by apply evolves_refl|by left]].
    ok_inv Ea. injection Ea as ->. destruct (signed_in_target _ _ _ _ _ _ _ Hstep) as [Hp Ht].
    intros [Hev Hg]%start_link_ok; [|done|done]. split; [|by left].
    eapply evolves_mono; [| |exact Hev]; [|done]. simpl. intros t [Hv Ho]. rewrite Hp in Ho. exists a.
    split; [by exists e|done].
  - unfold with_account. destruct (let? who := _ in _) as [[a e]|er] eqn:Ea;
      [|intros [= <- <-]; split; [by apply evolves_refl|by left]].
    intros [Hev Hg]%unlink_ok; [|done]. split; [|by left]. by apply (evolves_mono nothing _ nothing).
  - intros [Hev Hport]%handle_callback_ok; [|done]. split; [|exact Hport].
    eapply evolves_after; [by apply after_consuming_ok|exact Hev].
  - intros (Hev & Hg & _)%consume_login_result_ok; [|done]. split; [|by left].
    by apply (evolves_mono nothing _ nothing).
Qed.
End Evolution.
