(* ===== verification/FederationSystem.v ===== *)
(** * The whole service with external sign-in

    [federation_step] runs one request: of the gateway, or of external
    sign-in.  Deleting a user deletes its external identities and
    transactions ([cascade]).  The theorems of the gateway hold for any
    sequence of them, and so do those of external sign-in. *)

From stdpp Require Import relations gmap pretty.
From S2P Require Import Prelude Calendar TimeParse PragueTime Models TimeIntervals TimeMetrics.
From S2P Require Import Locks DayStatus AttendanceEvents MonthSummary AttendanceApi SystemInvariant.
From S2P Require Import Groups AttendanceSafety System AdminEmployments Accounts Sessions Login LoginSafety Instances AccountsSafety.
From S2P Require Import AccountsHandlers PortalSystem RequestAuth IpAddress IntegrationClients Cursors IntegrationAdmin.
From S2P Require Import RateLimit IntegrationApi IntegrationSafety GatewaySystem UrlText ExternalProviders ExternalAuth ExternalSafety.
#[local] Open Scope Z_scope.

(** ** Requests *)

Inductive federation_request :=
  | GatewayStep (r : gateway_request)
  | ExternalStep (rq : ExternalHttp) (w : World) (rn : Randoms) (call : external_call).

(** [ondelete="CASCADE"] of the two foreign keys to the users. *)
Definition orphaned (db : DB) (user_id : option Z) : bool :=
  match user_id with Some i => negb (is_some (get_user db i)) | None => false end.

Definition cascade (f : Federation) : Federation :=
  let db := p_db (fd_portal f) in
  set_fd_identities (delete_where (λ x, orphaned db (ei_portal_user_id x)) (fd_identities f))
    (set_fd_transactions (delete_where (λ t, orphaned db (ot_portal_user_id t)) (fd_transactions f)) f).

Section Federation.
Context `{zone : PragueZone} `{crypto : Crypto} `{signing : Signing} `{sealing : Sealing}.
Context `{interchange : Interchange} `{isettings : IntegrationSettings}.
Context `{jwt : Jwt} `{settings : ExternalSettings}.

Definition federation_step (f : Federation) (r : federation_request) : Federation :=
  match r with
  | GatewayStep r => cascade (set_fd_gateway (gateway_step (fd_gateway f) r) f)
  | ExternalStep rq w rn call => (external_request f rq w rn call).1
  end.

Definition federation_run (f : Federation) (l : list federation_request) : Federation :=
  fold_left federation_step l f.

Fixpoint federation_along (q : Federation → federation_request → Prop) (f : Federation)
    (l : list federation_request) : Prop :=
  match l with [] => True | r :: rest => q f r ∧ federation_along q (federation_step f r) rest end.

(** What some of the theorems ask of a step. *)
Definition spares (f : Federation) (r : federation_request) : Prop :=
  match r with GatewayStep r => gateway_spares_groups (fd_gateway f) r | ExternalStep _ _ _ _ => True end.
Definition federation_releases (f : Federation) (r : federation_request) (lt : LockType) (e y m : Z) : Prop :=
  match r with GatewayStep r => gateway_releases (fd_gateway f) r lt e y m | ExternalStep _ _ _ _ => False end.
Definition federation_clock_ok (f : Federation) (r : federation_request) : Prop :=
  match r with GatewayStep r => gateway_clock_ok (fd_gateway f) r | ExternalStep _ _ _ _ => True end.

Definition fd_db (f : Federation) : DB := g_db (fd_gateway f).

Definition opens (f : Federation) (r : federation_request) (t : OAuthTransaction) : Prop :=
  match r with GatewayStep _ => False | ExternalStep rq w rn call => opened_by f rq w rn call t end.
Definition adds (f : Federation) (r : federation_request) (x : ExternalIdentity) : Prop :=
  match r with GatewayStep _ => False | ExternalStep rq w _ call => linked_by f rq w call x end.
End Federation.

(** ** One step *)

Section Steps.
Context `{zone : PragueZone} `{!PragueZoneLaws zone} `{!PragueGap zone}.
Context `{crypto : Crypto} `{signing : Signing} `{slaws : !SigningLaws signing} `{sealing : Sealing}.
Context `{interchange : Interchange} `{isettings : IntegrationSettings}.
Context `{jwt : Jwt} `{settings : ExternalSettings}.

Record federation_inv (f : Federation) : Prop := {
  fi_gateway : gateway_inv (fd_gateway f);
  fi_external : external_inv f;
}.

Record federation_step_ok (f : Federation) (r : federation_request) (f' : Federation) : Prop := {
  fs_inv : federation_inv f';
  fs_moves : moves (federation_releases f r) (federation_clock_ok f r) (spares f r) (fd_db f) (fd_db f');
  fs_evolves : evolves (opens f r) (adds f r) f f';
}.

Lemma target_kept db db' portal user_id name :
  target_ok db portal user_id name → orphaned db' user_id = false → target_ok db' portal user_id name.
Proof.
  unfold target_ok, orphaned, user_exists. destruct portal, user_id, name; try done. intros _. apply negb_false_iff.
Qed.

(** Whatever became of the users, the cascade keeps the tables well formed. *)
Lemma cascade_evolves o l f g : external_inv f → evolves o l f (cascade (set_fd_gateway g f)).
Proof.
  intros [I A T D S R L]. constructor; simpl.
  - constructor; simpl; try done.
    + by apply keyed_delete.
    + by apply NoDup_fmap_where.
    + rewrite Forall_forall in T |- *. intros x [Hx Hk]%elem_of_delete_where.
      eapply target_kept; [apply (T x Hx)|done].
    + by apply NoDup_fmap_where.
    + by apply NoDup_fmap_where.
    + rewrite Forall_forall in R |- *. intros t [Ht Hk]%elem_of_delete_where. destruct (R t Ht) as [P G X K].
      constructor; [done| |done|done]. destruct (ot_purpose t); [done|]. by eapply target_kept.
  - intros t [Ht _]%elem_of_delete_where. left. by exists t.
  - intros x [Hx _]%elem_of_delete_where. left. by exists x.
  - exists []. by rewrite app_nil_r.
Qed.

Lemma portal_effect_ok now f f' :
  gateway_inv (fd_gateway f) → portal_effect now f f' →
  gateway_inv (fd_gateway f') ∧ fd_db f' = fd_db f.
Proof.
  intros H [Hg|(u & p & login & Hi & Hg)]; unfold fd_db; rewrite Hg; [done|].
  apply issue_login_ok in Hi as (_ & i & _ & _ & _ & _ & _ & _ & _ & _ & ->). split; [|done].
  destruct H as [[Hd Ha] Hc]. constructor.
  - constructor; [exact Hd|]. simpl. apply update_instance_inv; [done|]. intros x Hx _.
    split; [done|]. exact (ai_rows _ Ha x Hx).
  - by apply (same_clients_inv (fd_gateway f)).
Qed.

Lemma federation_step_inv f r :
  federation_inv f → federation_step_ok f r (federation_step f r).
Proof.
  intros [Hg Hx]. destruct r as [r|rq w rn call]; simpl.
  - destruct (gateway_step_inv (fd_gateway f) r Hg) as [Hi M _ _].
    pose proof (cascade_evolves (opens f (GatewayStep r)) (adds f (GatewayStep r)) f
      (gateway_step (fd_gateway f) r) Hx) as Hev.
    constructor; [|exact M|exact Hev]. constructor; [exact Hi|apply Hev].
  - destruct (external_request f rq w rn call) as [f' res] eqn:E. simpl.
    apply external_request_ok in E as [Hev Hport]; [|done].
    destruct (portal_effect_ok _ _ _ Hg Hport) as [Hg' Hdb].
    constructor; [constructor; [done|apply Hev]| |exact Hev].
    rewrite Hdb. apply moves_refl, po_db, Hg.
Qed.

Lemma federation_run_inv f l :
  federation_inv f → federation_inv (federation_run f l).
Proof.
  revert f. induction l as [|r l IH]; intros f H; [done|]. simpl.
  apply IH, (fs_inv _ _ _ (federation_step_inv f r H)).
Qed.

Lemma federation_run_sized f l :
  federation_inv f → federation_along spares f l → groups_sized (fd_db f) →
  groups_sized (fd_db (federation_run f l)).
Proof.
  revert f. induction l as [|r l IH]; intros f H Hl Hs; [done|]. destruct Hl as [Hr Hl].
  destruct (federation_step_inv f r H) as [Hi M _]. simpl. apply IH; [done..|].
  by apply (mv_sized _ _ _ _ _ M).
Qed.
End Steps.

(** ** Sequences of requests *)

Section Runs.
Context `{zone : PragueZone} `{!PragueZoneLaws zone} `{!PragueGap zone}.
Context `{crypto : Crypto} `{signing : Signing} `{slaws : !SigningLaws signing} `{sealing : Sealing}.
Context `{interchange : Interchange} `{isettings : IntegrationSettings}.
Context `{jwt : Jwt} `{settings : ExternalSettings}.

(** C1: the invariant of the whole service.  Whatever requests employees,
    administrators, partners and anybody send, in any order, external sign-in
    included, and whatever jobs run in between: the time data, the accounts
    and the integration clients stay well formed, and so do the external
    tables: a subject of a provider belongs to one account, an account has
    one identity per provider, every identity and every link in progress
    names an account that exists, and only a consumed login of an employee
    holds a result.  No event lies on a day with a full-day status.  The
    groups stay well formed too (names are unique, members exist and are
    distinct), and they keep two members or more as long as no user whose
    employment is in a group is deleted. *)
Theorem federation_invariant f l (H : federation_inv f) :
  federation_inv (federation_run f l) ∧
  (federation_along spares f l → groups_sized (fd_db f) → groups_sized (fd_db (federation_run f l))) ∧
  ∀ x, x ∈ events (fd_db (federation_run f l)) →
    no_status (fd_db (federation_run f l)) (ev_employment_id x) (ev_day x).
Proof.
  pose proof (federation_run_inv f l H) as H'. split; [done|]. split; [by apply federation_run_sized|].
  apply (inv_status _ (si_inv _ (po_db _ (gi_portal _ (fi_gateway _ H'))))).
Qed.

(** C2: a locked month is immutable.  While no request unlocks the month of
    an employment and the employment's data are not deleted on purpose (with
    a confirmation, or with its user), no sequence of requests of anybody,
    partners and external sign-in included, changes the facts the lock
    protects: the attendance status and the events of each of its days, or
    its plans; and the month stays locked. *)
Theorem federation_locked_month_immutable f l lt e d
    (H : federation_inv f)
    (Hl : day_locked (fd_db f) lt e d = true)
    (Hn : federation_along (λ f r, ¬ federation_releases f r lt e (year_of d) (month_of d)) f l) :
  day_locked (fd_db (federation_run f l)) lt e d = true ∧
  kept_facts lt e d (fd_db f) (fd_db (federation_run f l)).
Proof.
  revert f H Hl Hn. induction l as [|r l IH]; intros f H Hl Hn; [done|].
  destruct Hn as [Hx Hn]. destruct (federation_step_inv f r H) as [Hi M _]. simpl.
  destruct (IH (federation_step f r)) as [Hl' Hf]; [done|by apply (mv_locks _ _ _ _ _ M)|done|].
  split; [done|]. transitivity (fd_db (federation_step f r)); [by apply (mv_facts _ _ _ _ _ M)|done].
Qed.

(** C3: metrics are never stale.  If the metrics of every employment's months
    are those a recomputation from the facts gives, they still are after any
    sequence of requests and jobs that sends no wall clock skipped by the
    change to summer time. *)
Theorem federation_metrics_fresh f l
    (H : federation_inv f) (Hf : all_fresh (fd_db f))
    (Hc : federation_along federation_clock_ok f l) :
  all_fresh (fd_db (federation_run f l)).
Proof.
  revert f H Hf Hc. induction l as [|r l IH]; intros f H Hf Hc; [done|].
  destruct Hc as [Hx Hc]. destruct (federation_step_inv f r H) as [Hi M _]. simpl.
  apply IH; [done..| |done]. by apply (mv_fresh _ _ _ _ _ M).
Qed.

(** ** Where rows come from *)

Lemma run_app f l l' : federation_run f (l ++ l') = federation_run (federation_run f l) l'.
Proof. apply fold_left_app. Qed.

(** A transaction of a later state: one of before, or opened on the way. *)
Lemma transaction_origin f l t' :
  federation_inv f → t' ∈ fd_transactions (federation_run f l) →
  (∃ t, t ∈ fd_transactions f ∧ same_transaction t t') ∨
  ∃ l1 r l2 t, l = l1 ++ r :: l2 ∧ opens (federation_run f l1) r t ∧ same_transaction t t'.
Proof.
  revert f. induction l as [|r l IH]; intros f H Ht; [left; by exists t'|].
  pose proof (federation_step_inv f r H) as [Hi _ Hev].
  destruct (IH (federation_step f r) Hi Ht) as [(t & Hin & S)|(l1 & r1 & l2 & t & -> & Ho & S)].
  - destruct (ev_transactions _ _ _ _ Hev t Hin) as [(t0 & Ht0 & S0)|Ho].
    + left. exists t0. split; [done|by transitivity t].
    + right. by exists [], r, l, t.
  - right. by exists (r :: l1), r1, l2, t.
Qed.

Lemma identity_origin f l x' :
  federation_inv f → x' ∈ fd_identities (federation_run f l) →
  (∃ x, x ∈ fd_identities f ∧ same_identity x x') ∨
  ∃ l1 r l2 x, l = l1 ++ r :: l2 ∧ adds (federation_run f l1) r x ∧ same_identity x x'.
Proof.
  revert f. induction l as [|r l IH]; intros f H Hx; [left; by exists x'|].
  pose proof (federation_step_inv f r H) as [Hi _ Hev].
  destruct (IH (federation_step f r) Hi Hx) as [(x & Hin & S)|(l1 & r1 & l2 & x & -> & Ho & S)].
  - destruct (ev_identities _ _ _ _ Hev x Hin) as [(x0 & Hx0 & S0)|Ho].
    + left. exists x0. split; [done|by transitivity x].
    + right. by exists [], r, l, x.
  - right. by exists (r :: l1), r1, l2, x.
Qed.

(** ** A state is used once *)

Definition state_spent (st : string) (f : Federation) : Prop :=
  ∀ t, t ∈ fd_transactions f → ot_state_hash t = sha256 st → is_some (ot_consumed_at t) = true.

(** A request that draws a state with the same digest. *)
Definition redraws (st : string) (r : federation_request) : Prop :=
  match r with
  | ExternalStep _ _ rn (CallLoginStart _ _ _ | CallLink _ _ _) => sha256 (rn_state rn) = sha256 st
  | _ => False
  end.

Lemma state_spent_step st f r :
  federation_inv f → ¬ redraws st r → state_spent st f → state_spent st (federation_step f r).
Proof.
  intros H Hn Hs t Ht Hst. destruct (federation_step_inv f r H) as [_ _ Hev].
  destruct (ev_transactions _ _ _ _ Hev t Ht) as [(t0 & Ht0 & S)|Ho].
  - apply (sx_consumed _ _ S), Hs; [done|]. by rewrite <- (sx_state _ _ S).
  - destruct Hn. destruct r as [r|rq w rn call]; [done|]. simpl in Ho.
    destruct call; simpl in Ho |- *; try done.
    + by rewrite <- Hst, (op_state _ _ _ _ _ _ _ _ Ho).
    + destruct Ho as (a & _ & Ho). by rewrite <- Hst, (op_state _ _ _ _ _ _ _ _ Ho).
Qed.

Lemma state_spent_run st f l :
  federation_inv f → Forall (λ r, ¬ redraws st r) l →
  state_spent st f → state_spent st (federation_run f l).
Proof.
  revert f. induction l as [|r l IH]; intros f H Hn Hs; [done|].
  apply Forall_cons in Hn as [Hn1 Hn2]. simpl. apply IH; [|done|by apply state_spent_step].
  apply (fs_inv _ _ _ (federation_step_inv f r H)).
Qed.

(** A callback in the browser that began spends the state, whatever the
    outcome. *)
Lemma callback_spends f rq w rn provider st t code err :
  federation_inv f → st ≠ ""%string → find_transaction f provider st = Some t →
  browser_matches t (xh_browser rq) = true →
  state_spent st (federation_step f (ExternalStep rq w rn (CallCallback provider (Some st) code err))).
Proof.
  intros [_ H] Hne Hf Hb. simpl.
  destruct (handle_callback _ _ _ _ _ _ _ _) as [f' r] eqn:E. simpl.
  apply handle_callback_ok in E as [Hev _]; [|done].
  pose proof (find_transaction_ok _ _ _ _ Hf) as (Ht & Hst & Hp).
  assert (Hg : state_spent st (after_consuming f rq (w_now w) provider (Some st))).
  { destruct st as [|ch st]; [done|]. unfold after_consuming, consume_transaction. rewrite Hf, Hb.
    assert (Hone : ∀ t', t' ∈ fd_transactions f → ot_state_hash t' = sha256 (String ch st) → t' = t).
    { intros t' Ht' Hst'. apply (NoDup_fmap_eq ot_state_hash (fd_transactions f)); [apply (xi_states _ H)|done|done|congruence]. }
    assert (Hup : state_spent (String ch st) (update_transaction (ot_id t) (consumed (w_now w)) f)).
    { intros t' Ht' Hst'. simpl in Ht'. apply elem_of_update_where in Ht' as (y & Hy & ->).
      destruct (String.eqb_spec (ot_id y) (ot_id t)) as [Ei|Ei]; [done|]. by destruct Ei; rewrite (Hone y Hy Hst'). }
    destruct (is_some (ot_consumed_at t)) eqn:Ec; [intros t' Ht' Hst'; by rewrite (Hone t' Ht' Hst')|].
    by destruct (ot_expires_at t <=? w_now w). }
  intros t' Ht' Hst'. destruct (ev_transactions _ _ _ _ Hev t' Ht') as [(t0 & Ht0 & S)|[]].
  apply (sx_consumed _ _ S), Hg; [done|]. by rewrite <- (sx_state _ _ S).
Qed.

(** C9: a state is used once.  When a callback of a provider came with a state
    in the browser that the transaction is bound to, whatever became of it,
    then after any further requests (that draw no other state with the same
    digest) no callback with that state, from any browser, of any provider,
    does anything: it is sent away as [invalid_state] or [callback_replayed],
    and no identity, transaction or account changes. *)
Theorem oauth_state_single_use f rq w rn provider st t code err l rq' w' rn' provider' code' err'
    (H : federation_inv f) (Ht : find_transaction f provider st = Some t)
    (Hb : browser_matches t (xh_browser rq) = true)
    (Hn : Forall (λ r, ¬ redraws st r) l) :
  let f2 := federation_run f (ExternalStep rq w rn (CallCallback provider (Some st) code err) :: l) in
  let '(f3, r) := external_request f2 rq' w' rn' (CallCallback provider' (Some st) code' err') in
  fd_identities f3 = fd_identities f2 ∧ fd_transactions f3 = fd_transactions f2 ∧
  fd_gateway f3 = fd_gateway f2 ∧
  ∃ reason, reason ∈ ["invalid_state"; "callback_replayed"]%string ∧
    r = Ok (OutRedirect ("/app?external_auth_error=" +:+ reason) None None None).
Proof.
  simpl. set (f1 := (handle_callback _ _ _ _ _ _ _ _).1) in *.
  assert (Hi : federation_inv f1).
  { apply (fs_inv _ _ _ (federation_step_inv f (ExternalStep rq w rn (CallCallback provider (Some st) code err)) H)). }
  unfold handle_callback, callback_steps.
  destruct st as [|ch st]; [split_and!; try done; exists "invalid_state"%string; split; [left|done]|].
  assert (Hs : state_spent (String ch st) (federation_run f1 l)).
  { apply state_spent_run; [done..|]. by apply (callback_spends f rq w rn provider _ t code err). }
  unfold consume_transaction. destruct (find_transaction _ provider' _) as [t'|] eqn:Ef.
  - apply find_transaction_ok in Ef as (Ht' & Hst' & _). rewrite (Hs t' Ht' Hst').
    split_and!; try done. exists "callback_replayed"%string. split; [right; left|done].
  - split_and!; try done. exists "invalid_state"%string. split; [left|done].
Qed.

(** ** Where an identity comes from *)

(** Somebody signed in as [a] confirms with the password of [a] to link it. *)
Definition asks_link (f : Federation) (r : federation_request) (rq : ExternalHttp) (rn : Randoms)
    (a : account) (provider : Provider) : Prop :=
  ∃ w payload, r = ExternalStep rq w rn (CallLink (portal_of a) provider payload) ∧
    asked_by f rq (w_now w) (portal_of a) (cf_password payload) a.

(** The provider's answer to what [rq0] asked for with [rn0], in the browser
    that asked, names the subject of [x]. *)
Definition confirms_link (f : Federation) (r : federation_request) (rq0 : ExternalHttp) (rn0 : Randoms)
    (x : ExternalIdentity) : Prop :=
  ∃ rq w rn st code err t claims,
    r = ExternalStep rq w rn (CallCallback (ei_provider x) (Some st) (Some code) err) ∧
    accepted f rq w (ei_provider x) st code t claims ∧ sha256 st = sha256 (rn_state rn0) ∧
    ot_browser_hash t = sha256 (chosen_browser_secret (xh_browser rq0) (rn_browser rn0)) ∧
    ot_nonce t = rn_nonce rn0 ∧ ei_issuer x = pc_issuer claims ∧ ei_subject x = pc_subject claims.

Definition link_key (t : OAuthTransaction) : Provider * option Z * option string :=
  (ot_provider t, ot_portal_user_id t, ot_admin_username t).

(** The account has no identity at the provider and no link in progress. *)
Definition unlinked (f : Federation) (key : Provider * option Z * option string) : Prop :=
  (∀ x, x ∈ fd_identities f → account_key x ≠ key) ∧
  (∀ t, t ∈ fd_transactions f → ot_purpose t = FOR_LINK → link_key t = key → is_some (ot_consumed_at t) = true).

Lemma opens_link f r t :
  opens f r t → ot_purpose t = FOR_LINK →
  ∃ rq rn a, asks_link f r rq rn a (ot_provider t) ∧
    (ot_portal_user_id t, ot_admin_username t) = (user_id_of a, admin_username_of a) ∧
    ot_state_hash t = sha256 (rn_state rn) ∧ ot_nonce t = rn_nonce rn ∧
    ot_browser_hash t = sha256 (chosen_browser_secret (xh_browser rq) (rn_browser rn)).
Proof.
  destruct r as [r|rq w rn call]; [done|]. simpl.
  destruct call as [|portal provider path|portal|portal provider payload|portal provider payload|
    provider state code err|]; simpl; try done.
  - intros [_ _ _ _ Hp _ _ _ _ _] Hl. congruence.
  - intros (a & (e & Hs & Hv) & [Hi Hst Hb Hpr Hp Hpo Hu Ha Hno _]) _.
    destruct (signed_in_target _ _ _ _ _ _ _ Hs) as [Hpa _].
    exists rq, rn, a. split_and!; [|congruence|done|done|done].
    exists w, payload. rewrite Hpa, Hpr. split; [done|]. by exists e.
Qed.

(** C8: how an account gets an external identity.  An account that has no
    identity at a provider and no link in progress (such as one that just
    unlinked it) has one later only if, in between, somebody signed in as
    that account confirmed with its password to link it, and later a callback
    of that provider with the state drawn for this, in the same browser,
    brought the claims whose subject the identity has. *)
Theorem external_identity_provenance f l x
    (H : federation_inv f) (Hu : unlinked f (account_key x))
    (Hx : x ∈ fd_identities (federation_run f l)) :
  ∃ l0 asked l1 answered l2 rq rn a,
    l = l0 ++ asked :: l1 ++ answered :: l2 ∧
    asks_link (federation_run f l0) asked rq rn a (ei_provider x) ∧
    (ei_portal_user_id x, ei_admin_username x) = (user_id_of a, admin_username_of a) ∧
    confirms_link (federation_run f (l0 ++ asked :: l1)) answered rq rn x.
Proof.
  destruct Hu as [Hno Hpending].
  destruct (identity_origin f l x H Hx) as [(x0 & Hx0 & S)|(la & r & l2 & x0 & -> & Ha & S)].
  { destruct (Hno x0 Hx0). symmetry. apply (si_account _ _ S). }
  destruct r as [r|rq1 w1 rn1 call]; [done|]. destruct call as [| | | | |provider state code err|]; try done.
  destruct Ha as (st & c & t & claims & -> & -> & Hacc & Hlink & [Lk La Lt]).
  destruct S as [Sk Sa _]. rewrite Lk in Sk. rewrite La in Sa. injection Sk as Hp Hiss Hsub. injection Sa as _ Hu Hn.
  rewrite (ac_provider _ _ _ _ _ _ _ _ Hacc) in Hp. subst provider.
  destruct (transaction_origin f la t H (ac_transaction _ _ _ _ _ _ _ _ Hacc))
    as [(t0 & Ht0 & S0)|(l0 & asked & l1 & t0 & -> & Ho & S0)].
  - exfalso. pose proof (ac_unused _ _ _ _ _ _ _ _ Hacc) as Hun.
    assert (Hc : is_some (ot_consumed_at t) = true); [|by rewrite Hun in Hc].
    apply (sx_consumed _ _ S0), Hpending; [done|by rewrite <- (sx_purpose _ _ S0)|].
    unfold link_key, account_key.
    rewrite <- (sx_provider _ _ S0), <- (sx_user _ _ S0), <- (sx_admin _ _ S0), Hu, Hn.
    by rewrite (ac_provider _ _ _ _ _ _ _ _ Hacc).
  - destruct (opens_link _ _ _ Ho) as (rq & rn & a & Hask & Hacct & Hst & Hnonce & Hbr);
      [by rewrite <- (sx_purpose _ _ S0)|].
    rewrite <- (sx_provider _ _ S0), (ac_provider _ _ _ _ _ _ _ _ Hacc) in Hask.
    exists l0, asked, l1. eexists. exists l2, rq, rn, a. split_and!.
    + by rewrite <- app_assoc.
    + exact Hask.
    + by rewrite Hu, Hn, (sx_user _ _ S0), (sx_admin _ _ S0).
    + exists rq1, w1, rn1, st, c, err, t, claims. split_and!; try done.
      * by rewrite <- (ac_state _ _ _ _ _ _ _ _ Hacc), (sx_state _ _ S0).
      * by rewrite (sx_browser _ _ S0).
      * by rewrite (sx_nonce _ _ S0).
Qed.
End Runs.
