(* ===== verification/ExternalLogin.v ===== *)
(** * What external sign-in promises

    When a callback signs somebody in, what the provider's claims rest on,
    how the login reaches the browser, where the browser is sent, and what
    unlinking leaves. *)

From stdpp Require Import gmap pretty.
From S2P Require Import Prelude Calendar TimeParse PragueTime Models AttendanceEvents AttendanceApi AdminEmployments.
From S2P Require Import Accounts Sessions Login LoginSafety Instances AccountsSafety PortalSystem RequestAuth IpAddress IntegrationClients.
From S2P Require Import Cursors IntegrationAdmin RateLimit IntegrationApi IntegrationSafety GatewaySystem UrlText ExternalProviders ExternalAuth ExternalSafety FederationSystem.
#[local] Open Scope Z_scope.

Section Promises.
Context `{zone : PragueZone} `{!PragueZoneLaws zone} `{!PragueGap zone}.
Context `{crypto : Crypto} `{signing : Signing} `{slaws : !SigningLaws signing} `{sealing : Sealing}.
Context `{interchange : Interchange} `{isettings : IntegrationSettings}.
Context `{jwt : Jwt} `{settings : ExternalSettings}.

(** ** Rows by their unique columns *)

Lemma find_transaction_in f t :
  external_inv f → t ∈ fd_transactions f →
  ∀ st, ot_state_hash t = sha256 st → find_transaction f (ot_provider t) st = Some t.
Proof.
  intros H Ht st Hst. destruct (find_transaction f (ot_provider t) st) as [t'|] eqn:E.
  - apply find_transaction_ok in E as (Ht' & Hst' & _). f_equal.
    apply (NoDup_fmap_eq ot_state_hash (fd_transactions f)); [apply (xi_states _ H)|done|done|congruence].
  - exfalso. unfold find_transaction, one_or_none in E.
    assert (t ∈ where_ (λ x, String.eqb (ot_state_hash x) (sha256 st) && bool_decide (ot_provider x = ot_provider t))
      (fd_transactions f)) as Hin.
    { apply elem_of_where. split; [done|]. by rewrite Hst, String.eqb_refl, bool_decide_eq_true_2. }
    destruct (where_ _ _); [by apply elem_of_nil in Hin|done].
Qed.

Lemma subject_identity_in f provider claims x (q : ExternalIdentity → bool) :
  external_inv f → x ∈ fd_identities f → subject_key x = (provider, pc_issuer claims, pc_subject claims) →
  q x = true →
  one_or_none (where_ (λ x, same_subject provider claims x && q x) (fd_identities f)) = Some x.
Proof.
  intros H Hx Hk Hq. unfold one_or_none.
  assert (Hin : x ∈ where_ (λ x, same_subject provider claims x && q x) (fd_identities f)).
  { apply elem_of_where. split; [done|]. by rewrite (proj2 (same_subject_iff provider claims x) Hk), Hq. }
  destruct (where_ _ _) as [|y l] eqn:E; [by apply elem_of_nil in Hin|]. simpl. f_equal.
  assert (Hy : y ∈ y :: l) by left. rewrite <- E in Hy.
  apply elem_of_where in Hy as [Hy [Hs%same_subject_iff _]%andb_prop].
  apply (NoDup_fmap_eq subject_key (fd_identities f)); [apply (keyed_key _ _ _ _ (xi_identities _ H))|done|done|congruence].
Qed.

(** ** Signing in *)

(** Everything a login needs. *)
Definition login_in_order (f : Federation) (rq : ExternalHttp) (w : World) (provider : Provider)
    (st code : string) (t : OAuthTransaction) (x : ExternalIdentity)
    (issued : option (PortalLoginOut * PortalUser)) : Prop :=
  ∃ claims, accepted f rq w provider st code t claims ∧ ot_purpose t = FOR_LOGIN ∧
    signs_in f (w_now w) t claims x issued ∧ email_too_long claims = false.

Definition login_redirect (t : OAuthTransaction) (now : Z) (jti : string)
    (issued : option (PortalLoginOut * PortalUser)) : external_out :=
  OutRedirect (safe_return_path (ot_portal t) FOR_LOGIN (Some (ot_return_path t)) +:+
               match ot_portal t with EMPLOYEE => "?external_auth=complete" | ADMIN => "" end)
    None (cookies_of t now jti issued).1 (cookies_of t now jti issued).2.

Lemma complete_login_in f now t claims x issued :
  federation_inv f → signs_in f now t claims x issued →
  ∃ f1, complete_login f now t claims = Done (f1, issued).
Proof.
  intros [Hg H] [Hx Hk Ht Ha]. unfold complete_login.
  rewrite (subject_identity_in f (ot_provider t) claims x (λ x, bool_decide (ei_account_type x = ot_portal t)))
    by (try done; by apply bool_decide_eq_true_2). cbn [or_refuse abind].
  destruct (ot_portal t).
  - destruct Ha as (u & h & p & login & -> & Hu & Hin & Hact & Hbl & Hh & Hi).
    rewrite Hu. simpl. rewrite (get_user_in (fd_portal f) u (po_accounts _ (gi_portal _ Hg)) Hin). simpl.
    rewrite Hact, Hh, Hbl. simpl.
    change (fd_portal (update_identity (ei_id x) (seen_identity now claims) f)) with (fd_portal f).
    rewrite Hi. simpl. by eexists.
  - destruct Ha as (-> & Hn & Hp). rewrite Hp, Hn, bool_decide_eq_true_2 by done. simpl. by eexists.
Qed.

Lemma login_completes f rq w rn provider st code t x issued :
  federation_inv f → st ≠ ""%string → code ≠ ""%string →
  login_in_order f rq w provider st code t x issued →
  ∃ f', handle_callback f rq w rn provider (Some st) (Some code) None =
    (f', Ok (login_redirect t (w_now w) (rn_jti rn) issued)).
Proof.
  intros Hf Hst Hcode (claims & [A1 A2 A3 A4 A5 A6 A7] & Hp & Hs & He).
  destruct st as [|ch st]; [done|]. destruct code as [|cch code]; [done|].
  unfold handle_callback, callback_steps, consume_transaction. subst provider.
  rewrite (find_transaction_in f t (fi_external _ Hf) A1 _ A2), A4. cbn [is_some].
  replace (ot_expires_at t <=? w_now w) with false by (symmetry; apply Z.leb_gt; lia).
  rewrite A6. cbn [negb]. unfold callback_claims.
  change (ot_nonce (consumed (w_now w) t)) with (ot_nonce t).
  change (ot_code_verifier (consumed (w_now w) t)) with (ot_code_verifier t).
  change (fd_caches (update_transaction (ot_id t) (consumed (w_now w)) f)) with (fd_caches f).
  destruct (exchange_and_validate _ _ _ _ _ _) as [caches cl]. simpl in A7. subst cl.
  unfold finish_callback. cbn [abind ot_purpose consumed]. rewrite Hp.
  unfold finish_login. set (f2 := set_fd_caches _ _).
  assert (Hf2 : federation_inv f2).
  { destruct Hf as [Hg Hx]. constructor; [exact Hg|]. apply caches_inv.
    apply (ev_inv nothing nothing f), consume_evolves, Hx. }
  assert (Hs2 : signs_in f2 (w_now w) (consumed (w_now w) t) claims x issued) by (destruct Hs; by constructor).
  destruct (complete_login_in _ _ _ _ _ _ Hf2 Hs2) as [f3 ->]. cbn [abind]. rewrite He.
  pose proof (sg_account _ _ _ _ _ _ Hs) as Ha. unfold login_redirect.
  change (ot_portal (consumed (w_now w) t)) with (ot_portal t).
  destruct (ot_portal t).
  - destruct Ha as (u & h & p & login & -> & _ & _ & _ & _ & Hh & _). cbn [or_refuse abind]. rewrite Hh.
    cbn [or_refuse abind]. eexists. simpl. by rewrite Hh.
  - destruct Ha as (-> & _). cbn [abind]. eexists. simpl. by rewrite append_nil.
Qed.

Lemma handle_callback_done f rq w rn provider state code err f' out :
  external_inv f → handle_callback f rq w rn provider state code err = (f', Ok out) →
  (∃ st c, state = Some st ∧ code = Some c ∧ callback_done f rq w rn provider st c f' out) ∨
  (∃ t reason, out = OutRedirect (callback_error_path t reason) None None None ∧
     (t = None ∨ ∃ t0, t0 ∈ fd_transactions f ∧ t = Some (consumed (w_now w) t0))).
Proof.
  intros H. unfold handle_callback. destruct (callback_steps _ _ _ _ _ _ _ _) as [[f1 t] outcome] eqn:E.
  pose proof E as E2. apply callback_steps_ok in E as (_ & _ & Ho); [|done].
  destruct outcome as [[f2 o]|[reason|e]]; [|intros [= _ <-]; right|done].
  - intros [= <- <-]. left. by destruct Ho as (_ & _ & Ho).
  - exists t, reason. split; [done|]. unfold callback_steps in E2.
    destruct state as [[|ch st]|]; [injection E2; by left| |injection E2; by left].
    destruct (consume_transaction _ _ _ _ _) as [g r] eqn:Ec.
    destruct (consume_transaction_ok _ _ _ _ _ _ _ H Ec) as (_ & _ & _ & Hr).
    destruct r as [t1|e1]; [|injection E2; by left].
    destruct (callback_claims _ _ _ _ _ _). injection E2 as _ <- _. right.
    destruct Hr as (t0 & Ht0 & _ & _ & _ & _ & _ & -> & _). by exists t0.
Qed.

(** The session a login cookie opens. *)
Definition opens_session (cookie : Cookie) (issued_at : Z) (issued : option (PortalLoginOut * PortalUser)) : Prop :=
  match issued with
  | Some (_, u) => ∀ rq now, rq_cookie rq = Some cookie →
      unix_time now - unix_time issued_at <= session_max_age_seconds → names rq now u
  | None => ∃ jti, verified (Some cookie) =
      Ok (Some (AdminPayload (lower admin_username) (unix_time issued_at) jti))
  end.

(** C7: a callback of Google or Apple signs somebody in exactly when the
    state belongs to an unused login of that provider that has not expired,
    the browser is the one that began it, the provider's claims (bound to its
    nonce) name a subject whose identity belongs to the same portal, and the
    account of that identity may sign in: a user who is active, not blocked,
    has a password and whom the portal issues a login, or the configured
    administrator.  The cookie then opens a session of that very account, and
    the browser goes to an allowed page. *)
Theorem external_login_spec f rq w rn provider st code
    (H : federation_inv f) (Hst : st ≠ ""%string) (Hcode : code ≠ ""%string) :
  (∀ t x issued, login_in_order f rq w provider st code t x issued →
     ∃ f', handle_callback f rq w rn provider (Some st) (Some code) None =
       (f', Ok (login_redirect t (w_now w) (rn_jti rn) issued))) ∧
  (∀ err f' loc browser res cookie,
     handle_callback f rq w rn provider (Some st) (Some code) err =
       (f', Ok (OutRedirect loc browser res (Some cookie))) →
     ∃ t x issued, login_in_order f rq w provider st code t x issued ∧
       OutRedirect loc browser res (Some cookie) = login_redirect t (w_now w) (rn_jti rn) issued ∧
       opens_session cookie (w_now w) issued).
Proof.
  split; [intros t x issued; by apply login_completes|].
  intros err f' loc browser res cookie E. pose proof (fi_external _ H) as Hx.
  apply handle_callback_done in E as [(st' & c & [= <-] & [= <-] & t & claims & Hacc & Ho)|(t & reason & [=] & _)];
    [|done].
  destruct (ot_purpose t) eqn:Ep; [|done]. destruct Ho as (x & issued & Hs & He & Ho & _).
  exists t, x, issued. split; [by exists claims|]. split; [exact Ho|].
  injection Ho as _ _ _ Hc. unfold opens_session. pose proof (sg_account _ _ _ _ _ _ Hs) as Ha.
  destruct issued as [[login u]|]; simpl in Hc; injection Hc as ->.
  - destruct (ot_portal t); [|by destruct Ha]. destruct Ha as (u' & h & p & login' & [= <- <-] & _ & _ & _ & _ & Hh & _).
    intros rq' now Hk Hage. rewrite Hh in Hk. simpl in Hk.
    eexists. exists h, (unix_time (w_now w)), (rn_jti rn). split_and!; [exact Hk|done| |done|done].
    simpl. apply decode_encode.
  - pose proof (xi_rows _ Hx) as Hrows. rewrite Forall_forall in Hrows.
    pose proof (tx_target _ _ (Hrows t (ac_transaction _ _ _ _ _ _ _ _ Hacc))) as Ht. rewrite Ep in Ht.
    destruct Ht as [_ Hn]. rewrite Hn. exists (rn_jti rn). apply verified_ok.
    eexists. split_and!; [done|done|]. simpl. apply decode_encode.
Qed.

(** ** The login reaches the browser once *)

Lemma substring_0 n s : (String.length s <= n)%nat → substring 0 n s = s.
Proof.
  revert n. induction s as [|c s IH]; intros [|n] H; simpl in *; [done|done|lia|]. f_equal. apply IH. lia.
Qed.

Lemma sealed_round_trip `{laws : !SealingLaws sealing} iv value :
  decrypt_secret (Some (encrypt_secret iv value session_secret)) session_secret = Some (Some value).
Proof.
  unfold encrypt_secret, ENC_PREFIX. set (x := fernet_encrypt session_secret iv value).
  unfold decrypt_secret. simpl. unfold starts_with, ENC_PREFIX. simpl.
  rewrite substring_0 by lia. unfold x. simpl.
  change ("" +:+ fernet_encrypt session_secret iv value)%string with (fernet_encrypt session_secret iv value).
  assert (Hp : ∀ y, String.prefix "" y = true) by (by intros []). by rewrite Hp, fernet_round_trip.
Qed.

Lemma get_transaction_in f t : external_inv f → t ∈ fd_transactions f → get_transaction f (ot_id t) = Some t.
Proof.
  intros H Ht. unfold get_transaction, one_or_none.
  assert (Hin : t ∈ where_ (λ x, String.eqb (ot_id x) (ot_id t)) (fd_transactions f)).
  { apply elem_of_where. by rewrite String.eqb_refl. }
  destruct (where_ _ _) as [|y l] eqn:E; [by apply elem_of_nil in Hin|]. simpl. f_equal.
  assert (Hy : y ∈ y :: l) by left. rewrite <- E in Hy. apply elem_of_where in Hy as [Hy Hi%String.eqb_eq].
  by apply (NoDup_fmap_eq ot_id (fd_transactions f)); [apply (xi_ids _ H)|..].
Qed.

Lemma result_of f rq now t :
  external_inv f → t ∈ fd_transactions f → xh_result rq = Some (ot_id t) → ot_id t ≠ ""%string →
  result_ready t now (xh_browser rq) = false → consume_login_result f rq now = (f, Err result_invalid).
Proof.
  intros H Ht Hr Hne Hready. unfold consume_login_result. rewrite Hr.
  destruct (ot_id t) as [|ch i] eqn:Ei; [done|]. by rewrite <- Ei, (get_transaction_in f t H Ht), Hready.
Qed.

(** A transaction that holds [login] until [expires], untaken. *)
Record holding (f : Federation) (t : OAuthTransaction) (login : PortalLoginOut) (expires : Z) : Prop := {
  ho_inv : external_inv f;
  ho_row : t ∈ fd_transactions f;
  ho_kind : ot_portal t = EMPLOYEE ∧ ot_purpose t = FOR_LOGIN;
  ho_payload : ∃ iv, ot_result_payload t = Some (encrypt_secret iv (login_json login) session_secret);
  ho_expires : ot_result_expires_at t = Some expires;
  ho_untaken : ot_result_consumed_at t = None;
}.

Lemma login_callback_holds f rq w rn provider st code err f1 loc b i cookie :
  federation_inv f →
  handle_callback f rq w rn provider (Some st) (Some code) err = (f1, Ok (OutRedirect loc b (Some i) cookie)) →
  ∃ t x login u t1, login_in_order f rq w provider st code t x (Some (login, u)) ∧ ot_id t1 = i ∧
    ot_browser_hash t1 = ot_browser_hash t ∧ browser_matches t (xh_browser rq) = true ∧
    holding f1 t1 login (w_now w + external_auth_result_ttl_seconds * 1000000).
Proof.
  intros H E. pose proof (fi_external _ H) as Hx. pose proof E as E0.
  apply handle_callback_done in E as [(st' & c & [= <-] & [= <-] & t & claims & Hacc & Ho)|(t & reason & [=] & _)]; [|done].
  destruct (ot_purpose t) eqn:Ep; [|done]. destruct Ho as (x & issued & Hs & He & Ho & Hres).
  injection Ho as _ _ Hres1 _. pose proof (sg_account _ _ _ _ _ _ Hs) as Ha.
  destruct issued as [[login u]|]; [|done]. simpl in Hres1. injection Hres1 as ->.
  destruct (ot_portal t) eqn:Epo; [|by destruct Ha].
  specialize (Hres login u eq_refl). unfold holds_result in Hres.
  apply handle_callback_ok in E0 as [Hev _]; [|done].
  assert (Hun : ot_result_consumed_at t = None).
  { pose proof (xi_rows _ Hx) as Hrows. rewrite Forall_forall in Hrows.
    apply (tx_taken _ _ (Hrows t (ac_transaction _ _ _ _ _ _ _ _ Hacc))), (ac_unused _ _ _ _ _ _ _ _ Hacc). }
  exists t, x, login, u. eexists. split_and!; [by exists claims| | |apply Hacc|econstructor; [apply Hev|exact Hres|done| |done|done]].
  - done.
  - done.
  - by exists (rn_iv rn).
Qed.

Lemma holding_ready f t login expires rq now :
  holding f t login expires →
  result_ready t now (xh_browser rq) = (now <? expires) && browser_matches t (xh_browser rq).
Proof.
  intros [_ _ [Hp Hu] (iv & Hpl) He Hn]. unfold result_ready. rewrite Hp, Hu, Hpl, He, Hn.
  by rewrite andb_true_r.
Qed.

Lemma holding_taken `{laws : !SealingLaws sealing} f t login expires rq now :
  holding f t login expires → xh_result rq = Some (ot_id t) → ot_id t ≠ ""%string → now < expires →
  browser_matches t (xh_browser rq) = true →
  consume_login_result f rq now = (update_transaction (ot_id t) (result_taken now) f, Ok (OutLogin login)).
Proof.
  intros H Hr Hi Ht Hb. unfold consume_login_result. rewrite Hr.
  destruct (ot_id t) as [|ch i] eqn:Ei; [done|]. rewrite <- Ei.
  rewrite (get_transaction_in f t (ho_inv _ _ _ _ H) (ho_row _ _ _ _ H)).
  rewrite (holding_ready _ _ _ _ _ _ H), Hb.
  replace (now <? expires) with true by (symmetry; apply Z.ltb_lt; lia). cbn [negb andb].
  destruct (ho_payload _ _ _ _ H) as (iv & ->). rewrite sealed_round_trip. simpl.
  by rewrite login_round_trip.
Qed.

(** C11: the login of an employee reaches the browser that began it, once.
    After a callback that signed an employee in, the endpoint of the result
    answers that browser, while the result lasts, with the login the portal
    issued; afterwards nobody gets it again, and before that no other browser
    does and nobody after it expired. *)
Theorem external_result_once `{laws : !SealingLaws sealing} f rq w rn provider st code err f1 loc b i cookie rq1 now1
    (H : federation_inv f) (Hi : i ≠ ""%string)
    (E : handle_callback f rq w rn provider (Some st) (Some code) err = (f1, Ok (OutRedirect loc b (Some i) cookie)))
    (Hr : xh_result rq1 = Some i) (Hb : xh_browser rq1 = xh_browser rq)
    (Ht : now1 < w_now w + external_auth_result_ttl_seconds * 1000000) :
  ∃ t x login u, login_in_order f rq w provider st code t x (Some (login, u)) ∧
    (consume_login_result f1 rq1 now1).2 = Ok (OutLogin login) ∧
    (∀ rq2 now2, xh_result rq2 = Some i →
       (consume_login_result (consume_login_result f1 rq1 now1).1 rq2 now2).2 = Err result_invalid) ∧
    (∀ rq2 now2, xh_result rq2 = Some i →
       browser_matches t (xh_browser rq2) = false ∨
         w_now w + external_auth_result_ttl_seconds * 1000000 <= now2 →
       consume_login_result f1 rq2 now2 = (f1, Err result_invalid)).
Proof.
  destruct (login_callback_holds _ _ _ _ _ _ _ _ _ _ _ _ _ H E)
    as (t & x & login & u & t1 & Ho & <- & Hbr & Hmatch & Hh).
  assert (Hsame : ∀ rq, browser_matches t1 (xh_browser rq) = browser_matches t (xh_browser rq))
    by (intros rq0; unfold browser_matches; by rewrite Hbr).
  pose proof (ho_inv _ _ _ _ Hh) as Hx1. pose proof (ho_row _ _ _ _ Hh) as Hrow.
  assert (Htake := holding_taken _ _ _ _ rq1 now1 Hh Hr Hi Ht ltac:(by rewrite Hsame, Hb)).
  exists t, x, login, u. split_and!; [done|by rewrite Htake|..].
  - intros rq2 now2 Hr2. rewrite Htake. cbn [fst].
    erewrite (result_of _ rq2 now2 (result_taken now1 t1)); [done| | |exact Hr2|exact Hi|].
    + destruct (consume_login_result_ok f1 rq1 now1 _ _ Hx1 Htake) as (Hev2 & _). apply Hev2.
    + by apply updated_in.
    + unfold result_ready. simpl. by rewrite andb_false_r.
  - intros rq2 now2 Hr2 Hbad. apply (result_of f1 rq2 now2 t1); [done|done|exact Hr2|exact Hi|].
    rewrite (holding_ready _ _ _ _ _ _ Hh), Hsame. destruct Hbad as [->|Hlate]; [by rewrite andb_false_r|].
    by replace (now2 <? w_now w + external_auth_result_ttl_seconds * 1000000) with false
      by (symmetry; apply Z.ltb_ge; lia).
Qed.

(** ** Where the browser is sent *)

Definition HOME_PAGES : list string := ["/app"; "/admin/prehled"; "/admin/ucet"; "/admin/login"]%string.

(** One of the portal's own pages, with a query or without. *)
Definition leads_home (location : string) : Prop :=
  ∃ page, page ∈ HOME_PAGES ∧ (location = page ∨ ∃ query, location = (page +:+ "?" +:+ query)%string).

Definition leads_to_provider (provider : Provider) (location : string) : Prop :=
  ∃ query, location = (match provider with GOOGLE => GOOGLE_AUTHORIZATION_URL | APPLE => APPLE_AUTHORIZATION_URL end
                       +:+ "?" +:+ query)%string.

(** Every address an answer sends the browser to. *)
Definition safe_answer (call : external_call) (out : external_out) : Prop :=
  match call, out with
  | CallLoginStart _ provider _, OutRedirect location _ _ _ => leads_to_provider provider location
  | CallLink _ provider _, OutStart location _ => leads_to_provider provider location
  | CallCallback _ _ _ _, OutRedirect location _ _ _ => leads_home location
  | _, (OutRedirect _ _ _ _ | OutStart _ _) => False
  | _, _ => True
  end.

Lemma authorization_url_provider w provider state nonce verifier c c' url :
  authorization_url w provider state nonce verifier c = (c', Done url) → leads_to_provider provider url.
Proof.
  unfold authorization_url, leads_to_provider. destruct provider; unfold wbind.
  - destruct (google_metadata w c) as [c1 [metadata|e]]; [|done]. unfold wlift.
    destruct (validated_provider_url _ _); [|done]. unfold wret. intros [= _ <-]. by eexists.
  - unfold wlift. destruct (validated_provider_url _ _); [|done]. unfold wret. intros [= _ <-]. by eexists.
Qed.

Lemma started_url f w rn provider purpose portal path browser user_id name f' s :
  start_transaction f w rn provider purpose portal path browser user_id name = (f', Done s) →
  leads_to_provider provider (st_authorization_url s).
Proof.
  unfold start_transaction. destruct (negb _); [done|]. destruct (existsb _ _); [done|].
  destruct (authorization_url _ _ _ _ _ _) as [caches [url|e]] eqn:E; [|done].
  intros [= _ <-]. by apply authorization_url_provider in E.
Qed.

Lemma allowed_home portal purpose p : p ∈ ALLOWED_RETURN_PATHS portal purpose → p ∈ HOME_PAGES.
Proof.
  assert (H : Forall (λ p, p ∈ HOME_PAGES) (ALLOWED_RETURN_PATHS portal purpose)).
  { destruct portal, purpose; by apply (bool_decide_unpack _). }
  rewrite Forall_forall in H. apply H.
Qed.

Lemma home_plain p : p ∈ HOME_PAGES → UrlText.contains_char "?" (list_ascii_of_string p) = false.
Proof.
  assert (H : Forall (λ p, UrlText.contains_char "?" (list_ascii_of_string p) = false) HOME_PAGES) by (by repeat constructor).
  rewrite Forall_forall in H. apply H.
Qed.

Lemma error_path_home t reason :
  (t = None ∨ ∃ t0, t = Some t0 ∧ ot_return_path t0 ∈ ALLOWED_RETURN_PATHS (ot_portal t0) (ot_purpose t0)) →
  leads_home (callback_error_path t reason).
Proof.
  intros [->|(t0 & -> & Hp)]; unfold callback_error_path, leads_home.
  { exists "/app"%string. split; [left|]. right. by eexists. }
  destruct (bool_decide _ && bool_decide _).
  { exists "/admin/login"%string. split; [unfold HOME_PAGES; set_solver|]. right. by eexists. }
  exists (ot_return_path t0). split; [by eapply allowed_home|]. right.
  rewrite (home_plain _ (allowed_home _ _ _ Hp)). by eexists.
Qed.

(** C12: no open redirect.  Whatever a request asks for, the provider's
    documents say or the error is, external sign-in sends the browser only to
    the sign-in page of the chosen provider when it starts, and only to a
    page of the portal itself when the provider has answered. *)
Theorem external_redirects_safe f rq w rn call f' out
    (H : federation_inv f) (E : external_request f rq w rn call = (f', Ok out)) :
  safe_answer call out.
Proof.
  pose proof (fi_external _ H) as Hx.
  destruct call as [|portal provider path|portal|portal provider payload|portal provider payload|
    provider state code err|]; simpl in E |- *.
  - by injection E as _ <-.
  - unfold login_start in E. destruct (start_transaction _ _ _ _ _ _ _ _ _ _) as [f1 [s|[reason|e]]] eqn:Es; [|done|done].
    injection E as _ <-. by eapply started_url.
  - injection E as _ E. ok_inv E. destruct v. by injection E as <-.
  - unfold with_account, start_link in E. destruct (let? who := _ in _) as [[a e]|er]; [|done].
    destruct (_ ?;; _); [|done].
    destruct (start_transaction _ _ _ _ _ _ _ _ _ _) as [f1 [s|[reason|e1]]] eqn:Es; [|done|done].
    injection E as _ <-. by eapply started_url.
  - unfold with_account, unlink in E. destruct (let? who := _ in _) as [[a e]|er]; [|done].
    destruct (_ ?;; _); [|done]. by injection E as _ <-.
  - pose proof (xi_rows _ Hx) as Hrows. rewrite Forall_forall in Hrows.
    apply handle_callback_done in E as [(st & c & -> & -> & t & claims & Hacc & Ho)|(t & reason & -> & Ht)]; [| |done].
    + pose proof (tx_path _ _ (Hrows t (ac_transaction _ _ _ _ _ _ _ _ Hacc))) as Hp.
      destruct (ot_purpose t); [destruct Ho as (x & issued & _ & _ & -> & _)|subst out].
      * exists (safe_return_path (ot_portal t) FOR_LOGIN (Some (ot_return_path t))).
        split; [eapply allowed_home, safe_path_allowed|]. destruct (ot_portal t); [right; by eexists|left; by rewrite append_nil].
      * exists (ot_return_path t). split; [by eapply allowed_home|]. right. by eexists.
    + apply error_path_home. destruct Ht as [->|(t0 & Ht0 & ->)]; [by left|]. right.
      eexists. split; [done|]. exact (tx_path _ _ (Hrows t0 Ht0)).
  - destruct (consume_login_result f rq (w_now w)) as [f1 r] eqn:Er.
    apply consume_login_result_ok in Er as (_ & _ & Hout); [|done]. injection E as -> ->.
    destruct (Hout out eq_refl) as (t & pl & login & _ & _ & _ & -> & _). done.
Qed.

(** ** Unlinking *)

Lemma identity_of_key f a provider x :
  external_inv f → (∀ name, a = AdminAccount name → lower name = name) → identity_of f a provider = Some x →
  x ∈ fd_identities f ∧ account_key x = (provider, user_id_of a, admin_username_of a).
Proof.
  intros H Ha E. unfold identity_of, one_or_none in E.
  assert (x ∈ where_ (identity_query a provider) (fd_identities f)) as Hin
    by (destruct (where_ _ _); [done|injection E as ->; left]).
  apply elem_of_where in Hin as [Hx Hq]. split; [done|]. unfold identity_query in Hq.
  pose proof (xi_targets _ H) as T. rewrite Forall_forall in T. specialize (T x Hx).
  unfold identity_row_ok, target_ok in T. unfold account_key.
  destruct a as [i|name]; bool_hyps; rewrite ?bool_decide_eq_true in *; simpl in *; subst;
    destruct (ei_account_type x), (ei_portal_user_id x), (ei_admin_username x); try done; simplify_eq; try done.
  by rewrite (Ha _ eq_refl).
Qed.

(** unlinking needs the account's password and an identity to remove.
    Then the account has no identity at that provider and no link in progress
    (so a link that was started before cannot be completed any more), the
    other identities and the portal stay as they are; otherwise nothing
    changes. *)
Theorem external_unlink_spec f rq a employee provider payload
    (H : external_inv f) (Ha : ∀ name, a = AdminAccount name → lower name = name) :
  let '(f', r) := unlink f rq a employee provider payload in
  match r with
  | Ok out => out = OutOk ∧ verify_link_password a employee (cf_password payload) = Ok tt ∧
      is_some (identity_of f a provider) = true ∧
      unlinked f' (provider, user_id_of a, admin_username_of a) ∧
      (∀ x, x ∈ fd_identities f → account_key x ≠ (provider, user_id_of a, admin_username_of a) →
         x ∈ fd_identities f') ∧ fd_gateway f' = fd_gateway f
  | Err e => f' = f ∧ (verify_link_password a employee (cf_password payload) = Err e ∨
      identity_of f a provider = None ∧ e = ApiError 404 "identity_not_linked")
  end.
Proof.
  unfold unlink. destruct (verify_link_password _ _ _) as [[]|e] eqn:Ev; simpl; [|by split; [|left]].
  destruct (identity_of f a provider) as [x|] eqn:Ei; simpl; [|by split; [|right]].
  destruct (identity_of_key f a provider x H Ha Ei) as [Hx Hk].
  assert (Hone : ∀ y, y ∈ fd_identities f → account_key y = account_key x → y = x)
    by (intros y Hy Hyk; by apply (NoDup_fmap_eq account_key (fd_identities f)); [apply (xi_accounts _ H)|..]).
  split_and!; try done; [split|].
  - intros y [Hy Hne]%elem_of_delete_where Hyk. rewrite (Hone y Hy) in Hne by congruence. by rewrite Z.eqb_refl in Hne.
  - intros t [Ht Hn]%elem_of_delete_where Hp Hlk. injection Hlk as Hpr Hu Han.
    destruct (ot_consumed_at t) eqn:Ec; [done|]. exfalso.
    pose proof (xi_rows _ H) as Hrows. rewrite Forall_forall in Hrows.
    pose proof (tx_target _ _ (Hrows t Ht)) as Htar. rewrite Hp, Hu, Han in Htar. unfold target_ok in Htar.
    assert (Hpo : ot_portal t = portal_of a).
    { destruct a; simpl in Htar |- *; by destruct (ot_portal t). }
    unfold pending_link in Hn. rewrite Ec, !bool_decide_eq_true_2 in Hn by done.
    destruct a; simpl in Hu, Han, Hn; by rewrite bool_decide_eq_true_2 in Hn.
  - intros y Hy Hyk. apply elem_of_delete_where. split; [done|]. apply Z.eqb_neq. intros Hid. apply Hyk.
    rewrite <- Hk. f_equal.
    by apply (NoDup_fmap_eq ei_id (fd_identities f)); [apply (keyed_id _ _ _ _ (xi_identities _ H))|..].
Qed.

(** ** What the claims rest on *)

Definition jwks_of (p : Provider) : ProviderJSONEndpoint :=
  match p with GOOGLE => google_jwks | APPLE => apple_jwks end.

(** [key] is the key called [kid] of the provider's document, as it is now in
    the cache. *)
Definition published_key (c : Caches) (p : Provider) (kid key : string) : Prop :=
  ∃ expires d items item, jwks_cache c !! endpoint_name (jwks_of p) = Some (expires, d) ∧
    iterate (default (JList []) (get_field "keys" d)) = Done items ∧ item ∈ items ∧
    has_kid kid item = true ∧ jwk_key item = Some key.

Lemma wbind_done {A B} (m : web A) (k : A → web B) c c' b :
  wbind m k c = (c', Done b) ↔ ∃ c1 a, m c = (c1, Done a) ∧ k a c1 = (c', Done b).
Proof.
  unfold wbind. destruct (m c) as [c1 [a|e]]; split; [by intros ?; exists c1, a|by intros (? & ? & [= <- <-] & ?)|done|].
  by intros (? & ? & [=] & _).
Qed.

Lemma get_json_cached w p refresh c c' d :
  get_json w (jwks_of p) refresh c = (c', Done d) →
  ∃ expires, jwks_cache c' !! endpoint_name (jwks_of p) = Some (expires, d).
Proof.
  assert (Hc : ∀ c, cache_for (jwks_of p) c = jwks_cache c) by (by destruct p).
  assert (Hs : ∀ c expires d, jwks_cache (store_in_cache (jwks_of p) expires d c) !! endpoint_name (jwks_of p)
    = Some (expires, d)) by (intros; destruct p; simpl; by rewrite lookup_insert_eq).
  unfold get_json. rewrite Hc.
  destruct (if refresh then None else _) as [payload|] eqn:E.
  - intros [= <- <-]. destruct refresh; [done|].
    destruct (jwks_cache c !! _) as [[expires d]|]; [|done]. simpl in E.
    destruct (w_tick w <? expires); [|done]. injection E as ->. by exists expires.
  - destruct (net_get _ _ _) as [r|]; [|done].
    destruct (is_redirect _); [unfold refused_redirect; destruct (hr_location r) as [[|ch l]|]; [done| |done];
      destruct (or_refuse _ _); [|done]; simpl; by destruct (validated_provider_url _ _)|].
    destruct (negb _); [done|]. destruct (hr_json r) as [[]|]; try done. intros [= <- <-]. by eexists.
Qed.

Lemma find_key_published w p kid refresh c c' key :
  find_key w (jwks_of p) kid refresh c = (c', Done (Some key)) → published_key c' p kid key.
Proof.
  unfold find_key. intros (c1 & d & Hd%get_json_cached & E)%wbind_done. unfold wlift in E.
  injection E as <- E. apply abind_done in E as (items & Hit & E).
  destruct (List.find _ items) as [item|] eqn:Ef; [|done]. apply abind_done in E as (k & Hk%or_refuse_done & E).
  injection E as ->. apply List.find_some in Ef as [Hin Hkid]. destruct Hd as (expires & Hd).
  exists expires, d, items, item. split_and!; try done. by apply list_elem_of_In.
Qed.

Lemma signing_key_published w p token uri c c' key :
  (String.eqb uri APPLE_JWKS_URL = bool_decide (p = APPLE)) →
  signing_key w token uri c = (c', Done key) →
  ∃ header kid, jwt_header token = Some header ∧ is_text "RS256" (get_field "alg" header) = true ∧
    get_field "kid" header = Some (JString kid) ∧ published_key c' p kid key.
Proof.
  intros Hu. unfold signing_key. intros (c1 & header & Hh & E)%wbind_done. unfold wlift in Hh.
  injection Hh as <- Hh%or_refuse_done.
  destruct (is_text "RS256" _) eqn:Ea; [|done]. destruct (get_field "kid" header) as [[]|] eqn:Ek; try done.
  assert (He : (if (uri =? APPLE_JWKS_URL)%string then apple_jwks else google_jwks) = jwks_of p)
    by (rewrite Hu; by destruct p).
  rewrite He in E. apply wbind_done in E as (c2 & first & Hf & E). exists header, s. split_and!; try done.
  destruct first as [k|]; [injection E as <- ->; by eapply find_key_published|].
  apply wbind_done in E as (c3 & second & Hs & E). injection E as <- E%or_refuse_done. subst second.
  by eapply find_key_published.
Qed.

Definition issuers_of (p : Provider) : list string :=
  match p with GOOGLE => [GOOGLE_ISSUER; "accounts.google.com"%string] | APPLE => [APPLE_ISSUER] end.

Lemma token_request_source w p code verifier c c' token uri issuer :
  token_request w p code verifier c = (c', Done (token, uri, issuer)) →
  String.eqb uri APPLE_JWKS_URL = bool_decide (p = APPLE) ∧ accepted_issuers p issuer = issuers_of p.
Proof.
  unfold token_request. intros (c1 & q & Hq & E)%wbind_done. unfold wlift in E. injection E as _ E.
  apply abind_done in E as (payload & _ & E). destruct payload as [| | | | | |d]; try done.
  destruct (get_field "id_token" d) as [[| | | |[|ch s]| |]|]; try done. injection E as _ <- <-.
  destruct p; simpl in Hq.
  - apply wbind_done in Hq as (c2 & metadata & _ & Hq). unfold wlift in Hq. injection Hq as _ Hq.
    apply abind_done in Hq as (? & _ & Hq). apply abind_done in Hq as (? & _ & Hq).
    apply refuse_if_bind_done in Hq as [_ [= <-]]. by split.
  - unfold wlift in Hq. injection Hq as _ Hq. apply abind_done in Hq as (secret & _ & Hq).
    apply abind_done in Hq as (? & _ & Hq). apply abind_done in Hq as (? & _ & Hq).
    apply refuse_if_bind_done in Hq as [Hi [= <-]]. apply negb_false_iff, String.eqb_eq in Hi.
    split; [done|]. simpl. by rewrite Hi.
Qed.

(** C10: what a provider's answer is trusted for.  Claims come only from a
    token that PyJWT accepted for our client, at this time, under the RS256
    key that the provider's document of keys (read from the provider's fixed
    address) lists under the token's key id; its issuer is the provider, its
    nonce is the one the sign-in drew, and its subject is not empty. *)
Theorem provider_claims_verified `{laws : !JwtLaws jwt} w p code nonce verifier c c' claims
    (E : exchange_and_validate w p code nonce verifier c = (c', Done claims)) :
  ∃ token header kid key d,
    jwt_header token = Some header ∧ is_text "RS256" (get_field "alg" header) = true ∧
    get_field "kid" header = Some (JString kid) ∧ published_key c' p kid key ∧
    jwt_decode token key (client_id_of p) (issuers_of p) external_auth_clock_skew_seconds
      (unix_time (w_now w)) = Claims d ∧
    nonce_text (get_field "nonce" d) = nonce ∧
    get_field "iss" d = Some (JString (pc_issuer claims)) ∧ pc_issuer claims ∈ issuers_of p ∧
    get_field "sub" d = Some (JString (pc_subject claims)) ∧ pc_subject claims ≠ ""%string.
Proof.
  unfold exchange_and_validate in E. apply wbind_done in E as (c1 & [[token uri] issuer] & Ht & E).
  apply wbind_done in E as (c2 & key & Hk & E). unfold wlift in E. injection E as <- E.
  apply token_request_source in Ht as [Hu Hi]. rewrite Hi in E.
  apply (signing_key_published w p) in Hk as (header & kid & Hh & Ha & Hkid & Hpub); [|done].
  destruct (jwt_decode _ _ _ _ _ _) as [d| |] eqn:Ed; [|done|done].
  exists token, header, kid, key, d. unfold validated_claims in E.
  apply abind_done in E as (same & Hs%lift_done & E). apply compare_ok in Hs as ->.
  apply refuse_if_bind_done in E as [Hn%negb_false_iff%String.eqb_eq E].
  apply refuse_if_bind_done in E as [_ E].
  destruct (get_field "sub" d) as [[| | | |[|ch s]| |]|] eqn:Esub; try done. injection E as <-.
  destruct (decoded_issuer _ _ _ _ _ _ _ Ed) as (iss & Hiss & Hin).
  unfold url_field. simpl. rewrite Hiss. by split_and!.
Qed.
End Promises.
