(* ===== verification/IsoText.v ===== *)
(** * Date-times as ISO 8601 text

    [datetime.isoformat()] as the month views print an instant with its local
    offset, and [datetime.fromisoformat] as the export reads it back: what is
    printed is read unchanged. *)

From S2P Require Import Prelude Calendar TimeParse Format PragueTime.
#[local] Open Scope Z_scope.

(** ** Printing: [datetime.isoformat()] *)

Definition us_per_second : Z := 1000000.

(** [":{ss}"] and [".{ffffff}"] of a time or of an offset. *)
Definition iso_fraction (us : Z) : list ascii :=
  if us mod us_per_second =? 0 then []
  else "."%char :: fixed_digits 6 (us mod us_per_second).
Definition iso_seconds (us : Z) : list ascii :=
  colon :: fixed_digits 2 (us / us_per_second mod 60) ++ iso_fraction us.
Definition iso_minutes (us : Z) : list ascii :=
  fixed_digits 2 (us / us_per_minute / 60) ++ colon :: fixed_digits 2 (us / us_per_minute mod 60).

Definition iso_offset (us : Z) : list ascii :=
  (if us <? 0 then "-"%char else "+"%char) :: iso_minutes (Z.abs us) ++
  (if Z.abs us mod us_per_minute =? 0 then [] else iso_seconds (Z.abs us)).

Definition datetime_isoformat (a : aware) : string :=
  (isoformat (date_of a) +:+ string_of_list_ascii
    ("T"%char :: iso_minutes (wall a mod us_per_day) ++ iso_seconds (wall a mod us_per_day) ++
     iso_offset (wall a - utc a)))%string.

(** ** Reading: [datetime.fromisoformat(...)] of such a text *)

Definition read_char (c : ascii) (l : list ascii) : option (list ascii) :=
  match l with x :: l' => if Ascii.eqb x c then Some l' else None | [] => None end.

Definition read_digits (w : nat) (l : list ascii) : option (Z * list ascii) :=
  if Nat.eqb (length (take w l)) w && forallb is_digit (take w l)
  then Some (digits_value (take w l), drop w l) else None.

Definition read_minutes (l : list ascii) : option (Z * list ascii) :=
  '(h, l) ← read_digits 2 l; l ← read_char colon l; '(m, l) ← read_digits 2 l;
  Some ((h * 60 + m) * us_per_minute, l).

Definition read_fraction (l : list ascii) : option (Z * list ascii) :=
  match read_char "."%char l with
  | None => Some (0, l)
  | Some l => read_digits 6 l
  end.

Definition read_seconds (l : list ascii) : option (Z * list ascii) :=
  match read_char colon l with
  | None => Some (0, l)
  | Some l =>
      '(s, l) ← read_digits 2 l; '(f, l) ← read_fraction l;
      Some (s * us_per_second + f, l)
  end.

Definition read_time (l : list ascii) : option (Z * list ascii) :=
  '(m, l) ← read_minutes l; '(s, l) ← read_seconds l; Some (m + s, l).

Definition read_sign (l : list ascii) : option (Z * list ascii) :=
  match read_char "+"%char l with
  | Some l => Some (1, l)
  | None => l ← read_char "-"%char l; Some (-1, l)
  end.

Definition read_date (l : list ascii) : option (date * list ascii) :=
  '(y, l) ← read_digits 4 l; l ← read_char "-"%char l;
  '(m, l) ← read_digits 2 l; l ← read_char "-"%char l;
  '(d, l) ← read_digits 2 l; day ← ymd_date y m d; Some (day, l).

(** The instant a text names. *)
Definition read_isoformat (text : string) : option Z :=
  '(day, l) ← read_date (list_ascii_of_string text); l ← read_char "T"%char l;
  '(t, l) ← read_time l; '(sign, l) ← read_sign l; '(offset, l) ← read_time l;
  match l with [] => Some (midnight day + t - sign * offset) | _ => None end.

(** ** What is printed is read *)

Lemma read_char_cons c l : read_char c (c :: l) = Some l.
Proof. simpl. by rewrite Ascii.eqb_refl. Qed.

Lemma read_digits_fixed w n l :
  0 <= n < 10 ^ Z.of_nat w → read_digits w (fixed_digits w n ++ l) = Some (n, l).
Proof.
  intros Hn. unfold read_digits.
  rewrite take_app_length', drop_app_length' by by rewrite fixed_digits_length.
  by rewrite fixed_digits_length, Nat.eqb_refl, fixed_digits_all, fixed_digits_value.
Qed.

(** What may follow a time: nothing a time would read. *)
Definition no_time_char (l : list ascii) : bool :=
  match l with [] => true | c :: _ => negb (Ascii.eqb c colon || Ascii.eqb c ".") end.

Lemma read_char_other c l : no_time_char l = true → c = colon ∨ c = "."%char → read_char c l = None.
Proof.
  destruct l as [|x l]; [done|]. simpl. intros H Hc. apply negb_true_iff, orb_false_iff in H as [H1 H2].
  by destruct Hc as [->| ->]; rewrite ?H1, ?H2.
Qed.

Lemma read_minutes_iso us l :
  0 <= us < us_per_day →
  read_minutes (iso_minutes us ++ l) = Some (us / us_per_minute * us_per_minute, l).
Proof.
  intros Hus. unfold read_minutes, iso_minutes. rewrite <- app_assoc.
  rewrite read_digits_fixed by (simpl; unfold us_per_day, us_per_minute in *; zdiv).
  cbn [mbind option_bind app]. rewrite read_char_cons. cbn [mbind option_bind].
  rewrite read_digits_fixed by (simpl; zdiv). cbn [mbind option_bind]. do 2 f_equal.
  unfold us_per_minute. zdiv.
Qed.

Lemma read_fraction_iso us l :
  0 <= us → no_time_char l = true →
  read_fraction (iso_fraction us ++ l) = Some (us mod us_per_second, l).
Proof.
  intros Hus Hl. unfold iso_fraction, read_fraction. destruct (_ =? 0) eqn:E.
  - apply Z.eqb_eq in E. cbn [app]. rewrite read_char_other by auto. by rewrite E.
  - cbn [app]. rewrite read_char_cons. apply read_digits_fixed. simpl. unfold us_per_second. zdiv.
Qed.

Lemma read_seconds_iso us l :
  0 <= us → no_time_char l = true →
  read_seconds (iso_seconds us ++ l) = Some (us mod us_per_minute, l).
Proof.
  intros Hus Hl. unfold read_seconds, iso_seconds. cbn [app]. rewrite read_char_cons, <- app_assoc.
  rewrite read_digits_fixed by (simpl; zdiv). cbn [mbind option_bind].
  rewrite read_fraction_iso by done. cbn [mbind option_bind]. do 2 f_equal.
  unfold us_per_second, us_per_minute. zdiv.
Qed.

Lemma read_time_iso us l :
  0 <= us < us_per_day → no_time_char l = true →
  read_time (iso_minutes us ++ iso_seconds us ++ l) = Some (us, l).
Proof.
  intros Hus Hl. unfold read_time. rewrite read_minutes_iso by done. cbn [mbind option_bind].
  rewrite read_seconds_iso by (done || lia). cbn [mbind option_bind]. do 2 f_equal.
  unfold us_per_minute. zdiv.
Qed.

(** An offset of whole minutes is printed without its seconds. *)
Lemma read_offset_iso us :
  - us_per_day < us < us_per_day →
  ('(sign, l) ← read_sign (iso_offset us); '(offset, l) ← read_time l;
   match l with [] => Some (sign * offset) | _ => None end) = Some us.
Proof.
  intros Hus. unfold iso_offset, read_sign.
  assert (Htime : read_time (iso_minutes (Z.abs us) ++
    (if Z.abs us mod us_per_minute =? 0 then [] else iso_seconds (Z.abs us))) = Some (Z.abs us, [])).
  { destruct (_ =? 0) eqn:E.
    - apply Z.eqb_eq in E. unfold read_time. rewrite read_minutes_iso by lia.
      cbn [mbind option_bind read_seconds read_char]. do 2 f_equal. unfold us_per_minute in *. zdiv.
    - rewrite <- (app_nil_r (iso_seconds _)). apply read_time_iso; [lia|done]. }
  revert Htime. generalize (iso_minutes (Z.abs us) ++
    (if Z.abs us mod us_per_minute =? 0 then [] else iso_seconds (Z.abs us))) as l.
  intros l Htime. destruct (us <? 0) eqn:E; simpl; rewrite Htime; simpl; f_equal; lia.
Qed.

Lemma read_date_iso d l :
  1 <= year_of d <= 9999 → read_date (list_ascii_of_string (isoformat d) ++ l) = Some (d, l).
Proof.
  intros Hy. destruct (ymd_spec d) as (Hm & Hd & Heq).
  pose proof (days_in_month_bounds (year_of d) (month_of d) Hm) as Hb.
  unfold isoformat. rewrite list_ascii_of_string_of_list_ascii. unfold read_date.
  repeat rewrite <- app_assoc. rewrite read_digits_fixed by (simpl; lia). cbn [mbind option_bind app].
  rewrite read_char_cons. cbn [mbind option_bind]. rewrite <- app_assoc, read_digits_fixed by (simpl; lia).
  cbn [mbind option_bind app]. rewrite read_char_cons. cbn [mbind option_bind].
  rewrite read_digits_fixed by (simpl; lia). cbn [mbind option_bind]. unfold ymd_date.
  assert ((1 <=? year_of d) && (1 <=? month_of d) && (month_of d <=? 12) && (1 <=? day_of d) &&
    (day_of d <=? days_in_month (year_of d) (month_of d)) = true) as ->.
  { rewrite !andb_true_iff, !Z.leb_le. lia. }
  simpl. by rewrite Heq.
Qed.

Lemma list_ascii_of_string_app a b :
  list_ascii_of_string (a +:+ b)%string = list_ascii_of_string a ++ list_ascii_of_string b.
Proof. induction a as [|c a IH]; [done|]. simpl. by rewrite IH. Qed.

(** The instant survives printing with the local offset and reading. *)
Lemma isoformat_instant a :
  1 <= year_of (date_of a) <= 9999 → - us_per_day < wall a - utc a < us_per_day →
  read_isoformat (datetime_isoformat a) = Some (utc a).
Proof.
  intros Hy Hoff. unfold read_isoformat, datetime_isoformat.
  rewrite list_ascii_of_string_app, list_ascii_of_string_of_list_ascii, read_date_iso by done.
  cbn [mbind option_bind]. rewrite read_char_cons. cbn [mbind option_bind].
  assert (Hmod : 0 <= wall a mod us_per_day < us_per_day) by (unfold us_per_day; zdiv).
  rewrite read_time_iso; [|done|unfold iso_offset; by destruct (_ <? 0)]. cbn [mbind option_bind].
  pose proof (read_offset_iso _ Hoff) as H.
  destruct (read_sign _) as [[sign l]|]; [|done]. cbn [mbind option_bind] in *.
  destruct (read_time l) as [[offset [|]]|]; [|done..]. cbn [mbind option_bind] in *.
  injection H as H. f_equal. unfold midnight, date_of, date_of_wall, us_per_day in *. zdiv.
Qed.
