(* ===== verification/MonthViews.v ===== *)
(** * The month views of attendance

    The reading endpoints of api/v1/attendance.py (the sheet of one employment
    and month, the employments of a month) and of api/v1/admin_attendance.py
    (the sheets of everybody).  A response is the record the code returns: a
    dict is the list of its items, a float of hours the exact quotient the code
    rounds to the nearest float. *)

From stdpp Require Import pretty.
From S2P Require Import Prelude Calendar TimeParse Format PragueTime IsoText Models TimeIntervals.
From S2P Require Import TimeMetrics.
From S2P Require Import Locks EmploymentAccess DayStatus AttendanceEvents MonthSummary.
From S2P Require Import AttendanceApi AdminAttendanceApi SystemInvariant.
From Stdlib Require Import QArith.
#[local] Open Scope Z_scope.

(** ** Metrics in a response *)

Record MetricOut := mk_metric_out {
  mo_minutes : Z;
  mo_tenths : Z;
  mo_hours : Q;
  mo_clock : string;
}.

Definition hours_of_tenths (tenths : Z) : Q := tenths # 10.

(** [f"{minutes // 60}:{minutes % 60:02d}"]. *)
Definition metric_clock (mins : Z) : string :=
  (pretty (mins / 60) +:+ ":" +:+ string_of_list_ascii (fixed_digits 2 (mins mod 60)))%string.

Definition metric_out (value : option MetricValue) : option MetricOut :=
  (λ v, mk_metric_out (mv_minutes v) (mv_tenths v) (hours_of_tenths (mv_tenths v))
          (metric_clock (mv_minutes v))) <$> value.

Definition metrics_out (m : option DailyMetrics) : option (list (metric_key * option MetricOut)) :=
  (λ x, (λ key, (key, metric_out (get_metric x key))) <$> metric_keys) <$> m.

(** [{key: _metric_out(value) for key, value in items}]. *)
Definition metric_items_out {K} (items : list (K * option MetricValue))
    : list (K * option MetricOut) :=
  (λ p, (p.1, metric_out p.2)) <$> items.

Definition month_metrics_out (m : option (list (metric_key * option MetricValue)))
    : option (list (metric_key * option MetricOut)) :=
  metric_items_out <$> m.

Definition status_metrics_out (items : list (status_metric_key * option MetricValue))
    : list (status_metric_key * option MetricOut) :=
  metric_items_out items.

Definition day_status_items (m : DayStatusMetrics) : list (status_metric_key * option MetricValue) :=
  (λ key, (key, get_status_metric m key)) <$> STATUS_METRIC_KEYS.

(** ** The sheet of a month *)

Record AttendanceEventOut := mk_event_out {
  ao_id : Z;
  ao_employment_id : Z;
  ao_occurred_at : string;
  ao_deletion_partner_id : option Z;
}.

Record AttendanceDayOut := mk_day_out {
  ad_date : string;
  ad_events : list AttendanceEventOut;
  ad_attendance_status : option string;
  ad_effective_status : option string;
  ad_planned_arrival_time : option string;
  ad_planned_departure_time : option string;
  ad_planned_status : option string;
  ad_calendar_tone : string;
  ad_public_holiday_label : option string;
  ad_is_within_employment_period : bool;
  ad_worked : option (list (metric_key * option MetricOut));
  ad_planned : option (list (metric_key * option MetricOut));
  ad_status_metrics : list (status_metric_key * option MetricOut);
  ad_worked_state : string;
  ad_planned_state : string;
}.

Record AttendanceMonthOut := mk_month_out {
  am_planned_hours : Q;
  am_employment_id : Z;
  am_employment_label : string;
  am_display_metrics : list string;
  am_days : list AttendanceDayOut;
  am_worked : option (list (metric_key * option MetricOut));
  am_planned : option (list (metric_key * option MetricOut));
  am_status_metrics : list (status_metric_key * option MetricOut);
  am_attendance_locked : bool;
  am_shift_plan_locked : bool;
}.

(** [value or other] on optional strings. *)
Definition or_else (value other : option string) : option string :=
  if truthy value then value else other.

Definition calendar_tone (day : date) : string :=
  if truthy (czech_public_holiday_label day) then "holiday"%string
  else if 5 <=? weekday day then "weekend"%string else "work"%string.

(** [employment.start_date <= day and (end_date is None or day <= end_date)]. *)
Definition within_employment_period (e : Employment) (day : date) : bool :=
  (em_start_date e <=? day) &&
  match em_end_date e with None => true | Some last => day <=? last end.

(** [deletion_partners]: each event with the next one, on the same day. *)
Fixpoint deletion_partners (ordered : list AttendanceEvent) : list (Z * Z) :=
  match ordered with
  | [] => []
  | event :: rest =>
      match rest with
      | following :: _ =>
          if ev_day event =? ev_day following then [(ev_id event, ev_id following)] else []
      | [] => []
      end ++ deletion_partners rest
  end.

(** [deletion_partners.get(event.id)]: the last assignment of a key stays. *)
Definition deletion_partner (partners : list (Z * Z)) (event_id : Z) : option Z :=
  snd <$> last (where_ (λ p, p.1 =? event_id) partners).

Section MonthViews.
Context `{zone : PragueZone}.

Definition before_midnight (day : date) (x : AttendanceEvent) : bool :=
  utc (ev_occurred_at x) <? utc (at_wall (midnight day)).

(** [_day_events]: the events of the range, the one before and the one after. *)
Definition load_day_events (db : DB) (employment_id : Z) (start stop : date)
    : list AttendanceEvent :=
  let rows := events_of db employment_id in
  let previous := last (events_by_time (where_ (before_midnight start) rows)) in
  let current := events_by_time
    (where_ (λ x, negb (before_midnight start x) && before_midnight stop x) rows) in
  let following := head (events_by_time (where_ (λ x, negb (before_midnight stop x)) rows)) in
  option_list previous ++ current ++ option_list following.

Definition event_out (partners : list (Z * Z)) (x : AttendanceEvent) : AttendanceEventOut :=
  mk_event_out (ev_id x) (ev_employment_id x) (datetime_isoformat (ev_occurred_at x))
    (deletion_partner partners (ev_id x)).

(** The body of the loop over the days. *)
Definition month_day_out (e : Employment) (evs : list AttendanceEvent) (plan_rows : list ShiftPlan)
    (summary : MonthSummary) (day : date) : result AttendanceDayOut :=
  let partners := deletion_partners (ordered_events evs) in
  let? day_summary := or_raise
    (last (where_ (λ x, dy_date x =? day) (ms_day_summaries summary))) (Crash "KeyError") in
  let status_value := a ← dy_attendance day_summary; at_status a in
  let plan_for_day := last (where_ (λ p, sp_date p =? day) plan_rows) in
  let plan_status := p ← plan_for_day; sp_status p in
  Ok (mk_day_out (isoformat day) (event_out partners <$> day_events day evs)
    status_value (or_else status_value plan_status)
    (p ← plan_for_day; sp_arrival_time p) (p ← plan_for_day; sp_departure_time p) plan_status
    (calendar_tone day) (czech_public_holiday_label day)
    (within_employment_period e day)
    (metrics_out (dy_worked day_summary)) (metrics_out (dy_planned day_summary))
    (status_metrics_out (day_status_items (dy_status_metrics day_summary)))
    (dy_worked_state day_summary) (dy_planned_state day_summary)).

Definition build_month (db : DB) (e : Employment) (year month : Z) : result AttendanceMonthOut :=
  let? (start, stop) := checked_month_range year month in
  let evs := load_day_events db (em_id e) start stop in
  let plan_rows := plans_in db (em_id e) start stop in
  let? summary := build_month_summary db e year month false in
  let? days := map_result (month_day_out e evs plan_rows summary) (month_days start stop) in
  let? planned := planned_tenths summary in
  Ok (mk_month_out (hours_of_tenths planned) (em_id e) (employment_label db e None)
    (display_metrics_for_employment e) days
    (month_metrics_out (ms_worked summary)) (month_metrics_out (ms_planned summary))
    (status_metrics_out (ms_status_metrics summary))
    (is_month_locked db LOCK_ATTENDANCE (em_id e) year month)
    (is_month_locked db LOCK_SHIFT_PLAN (em_id e) year month)).

(** ** The portal *)

(** [Query(..., ge=2000, le=2100)] and [Query(..., ge=1, le=12)]. *)
Definition query_month (year month : Z) : result unit :=
  guard ((year <? 2000) || (2100 <? year) || (month <? 1) || (12 <? month)) validation_error.

Definition get_month_attendance (db : DB) (auth : PortalUserAuth) (employment_id year month : Z)
    : result AttendanceMonthOut :=
  guard (employment_id <? 1) validation_error ?;;
  query_month year month ?;;
  let? e := accessible_employment db auth employment_id in
  let '(start, stop) := month_range year month in
  guard ((stop <=? em_start_date e) ||
         match em_end_date e with Some last => last <? start | None => false end)
    (ApiError 404 "employment_not_active_in_month") ?;;
  build_month db e year month.

Record AvailableEmploymentOut := mk_available_out {
  av_id : Z;
  av_user_id : Z;
  av_title : string;
  av_employment_type : string;
  av_start_date : string;
  av_end_date : option string;
  av_is_active : bool;
  av_is_current : bool;
  av_label : string;
}.

(** [start_date < end AND (end_date IS NULL OR end_date >= start)]. *)
Definition in_month_sql (start stop : date) (e : Employment) : bool :=
  (em_start_date e <? stop) &&
  match em_end_date e with None => true | Some last => start <=? last end.

Definition available_out (db : DB) (today : date) (e : Employment) : AvailableEmploymentOut :=
  mk_available_out (em_id e) (em_user_id e) (em_title e)
    (employment_type_value (em_employment_type e))
    (isoformat (em_start_date e)) (isoformat <$> em_end_date e)
    (employment_is_currently_valid e today) (employment_is_currently_valid e today)
    (employment_label db e None).

Definition get_month_employments (db : DB) (auth : PortalUserAuth) (now year month : Z)
    : result (list AvailableEmploymentOut) :=
  query_month year month ?;;
  let '(start, stop) := month_range year month in
  Ok (available_out db (prague_today (Zoned now)) <$>
    sorted_by by_start (where_ (λ e, (em_user_id e =? pu_id (auth_user auth)) &&
                                     in_month_sql start stop e) (employments db))).

(** ** The administration *)

Record AdminAttendanceSheetOut := mk_sheet_out {
  as_month : AttendanceMonthOut;
  as_user_id : Z;
  as_user_name : string;
  as_employment_title : string;
  as_employment_type : string;
  as_start_date : string;
  as_end_date : option string;
  as_is_active_in_month : bool;
}.

(** [ORDER BY user_id, start_date, id]. *)
Definition by_user_start (a b : Employment) : bool :=
  (em_user_id a <? em_user_id b) ||
  ((em_user_id a =? em_user_id b) &&
   ((em_start_date a <? em_start_date b) ||
    ((em_start_date a =? em_start_date b) && (em_id a <=? em_id b)))).

Definition load_month_employments (db : DB) (start stop : date) : list Employment :=
  sorted_by by_user_start (where_ (in_month_sql start stop) (employments db)).

Definition sheet_out (db : DB) (year month : Z) (start stop : date) (e : Employment)
    (u : PortalUser) : result AdminAttendanceSheetOut :=
  let? month_data := build_month db e year month in
  Ok (mk_sheet_out month_data (em_user_id e) (pu_name u) (em_title e)
    (employment_type_value (em_employment_type e))
    (isoformat (em_start_date e)) (isoformat <$> em_end_date e)
    (employment_overlaps_month e start stop)).

(** [if employment.user is None or not employment.user.is_active: continue]. *)
Definition active_user (db : DB) (e : Employment) : option PortalUser :=
  u ← user_of db e; if pu_is_active u then Some u else None.

Fixpoint month_sheets (db : DB) (year month : Z) (start stop : date) (es : list Employment)
    : result (list AdminAttendanceSheetOut) :=
  match es with
  | [] => Ok []
  | e :: rest =>
      match active_user db e with
      | None => month_sheets db year month start stop rest
      | Some u =>
          let? sheet := sheet_out db year month start stop e u in
          let? sheets := month_sheets db year month start stop rest in
          Ok (sheet :: sheets)
      end
  end.

Definition list_month_sheets (db : DB) (year month : Z) : result (list AdminAttendanceSheetOut) :=
  query_month year month ?;;
  let '(start, stop) := month_range year month in
  month_sheets db year month start stop (load_month_employments db start stop).
End MonthViews.
