(* ===== verification/MonthSheets.v ===== *)
(** * What the month views show

    The sheet of an employment is always produced, lists the events of the
    month once each, offers deletion partners the deletion endpoints accept,
    and is the same for the employee and for the administration. *)

From S2P Require Import Prelude Calendar TimeParse Format PragueTime Models TimeIntervals TimeMetrics.
From S2P Require Import Locks EmploymentAccess DayStatus AttendanceEvents MonthSummary.
From S2P Require Import AttendanceApi AdminAttendanceApi SystemInvariant IsoText MonthViews.
#[local] Open Scope Z_scope.

(** ** The next event of a day *)

(** The element after [x]. *)
Fixpoint successor (x : AttendanceEvent) (l : list AttendanceEvent) : option AttendanceEvent :=
  match l with
  | [] => None
  | a :: rest => if decide (a = x) then head rest else successor x rest
  end.

(** The next event of the employment of [x] on the day of [x], in the order
    of the clock. *)
Definition next_of_day (db : DB) (x : AttendanceEvent) : option AttendanceEvent :=
  successor x (day_events (ev_day x) (ordered_events (events_of db (ev_employment_id x)))).

Lemma successor_elem x l t : successor x l = Some t → t ∈ l.
Proof.
  induction l as [|a l IH]; simpl; [done|]. destruct (decide (a = x)) as [_|_]; [|set_solver].
  destruct l; [done|]. intros [= ->]. set_solver.
Qed.

Lemma successor_none x l : x ∉ l → successor x l = None.
Proof.
  induction l as [|a l IH]; simpl; [done|]. intros H. rewrite decide_False by set_solver.
  apply IH. set_solver.
Qed.

(** In sorted order the events of one day are consecutive. *)
Lemma successor_of_day x l :
  StronglySorted (le_rel event_leb) l →
  successor x (day_events (ev_day x) l) =
    (t ← successor x l; if ev_day x =? ev_day t then Some t else None).
Proof.
  induction 1 as [|a l Hs IH Ha]; [done|]. cbn [successor]. unfold day_events in *. cbn [where_ List.filter].
  destruct (decide (a = x)) as [->|Hne].
  - rewrite Z.eqb_refl. cbn [successor]. rewrite decide_True by done.
    destruct l as [|b l]; [done|]. simpl. rewrite (Z.eqb_sym (ev_day b)).
    destruct (ev_day x =? ev_day b) eqn:E; [done|].
    assert (where_ (λ y, ev_day y =? ev_day x) l = []) as H; [|unfold where_ in H; by rewrite H].
    apply where_nil_iff. intros y Hy. bool_hyps. apply Z.eqb_neq. intros Heq.
    rewrite Forall_forall in Ha. inversion Hs as [|?? _ Hb]; subst. rewrite Forall_forall in Hb.
    assert (ev_day x <= ev_day b) by
      (apply date_of_wall_le, event_leb_wall, Ha; left).
    assert (ev_day b <= ev_day y) by (apply date_of_wall_le, event_leb_wall, Hb; done). lia.
  - destruct (ev_day a =? ev_day x) eqn:E; [|done]. cbn [successor]. by rewrite decide_False.
Qed.

(** What the code looks up in the dictionary. *)
Lemma deletion_partners_elem l p : p ∈ deletion_partners l → p.1 ∈ ev_id <$> l.
Proof.
  induction l as [|a l IH]; simpl; [by intros ?%elem_of_nil|]. rewrite elem_of_app.
  intros [H|H%IH]; [|set_solver]. destruct l; [by apply elem_of_nil in H|].
  destruct (_ =? _); [|by apply elem_of_nil in H]. apply list_elem_of_singleton in H as ->. left.
Qed.

Lemma deletion_partner_successor l x :
  ids_unique l → x ∈ l →
  deletion_partner (deletion_partners l) (ev_id x) =
    (t ← successor x l; if ev_day x =? ev_day t then Some (ev_id t) else None).
Proof.
  unfold ids_unique, deletion_partner. induction l as [|a l IH]; [by intros _ ?%elem_of_nil|].
  rewrite fmap_cons, NoDup_cons. intros [Hn Hu] Hx. cbn [deletion_partners successor].
  rewrite where_app. destruct (decide (a = x)) as [->|Hne].
  - assert (where_ (λ p, p.1 =? ev_id x) (deletion_partners l) = []) as ->.
    { apply where_nil_iff. intros p Hp%deletion_partners_elem. apply Z.eqb_neq. congruence. }
    rewrite app_nil_r. destruct l as [|b l]; [done|]. simpl.
    destruct (ev_day x =? ev_day b); [|done]. simpl. by rewrite Z.eqb_refl.
  - apply elem_of_cons in Hx as [->|Hx]; [done|]. rewrite <- (IH Hu Hx).
    assert (where_ (λ p, p.1 =? ev_id x) match l with
      | following :: _ =>
          if ev_day a =? ev_day following then [(ev_id a, ev_id following)] else []
      | [] => []
      end = []) as ->; [|done].
    apply where_nil_iff. intros p Hp. destruct l as [|b l]; [by apply elem_of_nil in Hp|].
    destruct (_ =? _); [|by apply elem_of_nil in Hp]. apply list_elem_of_singleton in Hp as ->.
    simpl. apply Z.eqb_neq. intros Heq. apply Hn. rewrite Heq. by apply list_elem_of_fmap_2.
Qed.

(** A closed pair of the day is made of neighbours. *)
Lemma day_pairs_successor l s t : NoDup l → (s, t) ∈ day_pairs l → successor s l = Some t.
Proof.
  assert (∀ n l, (length l <= n)%nat → NoDup l → (s, t) ∈ day_pairs l → successor s l = Some t)
    as H; [|by apply (H (length l))].
  induction n as [|n IH]; intros [|a [|b l']] Hn Hd Hin; simpl in *;
    try by apply elem_of_nil in Hin.
  { lia. }
  apply NoDup_cons in Hd as [Ha [Hb Hd]%NoDup_cons].
  assert (Hrest : (s, t) ∈ day_pairs l' →
    (if decide (a = s) then Some b else if decide (b = s) then head l' else successor s l') = Some t).
  { intros H. apply IH in H as Hs'; [|lia|done]. apply day_pairs_elem in H as (Hs & _).
    rewrite !decide_False by (intros ->; set_solver). done. }
  destruct ((0 <? _) && _); [|by apply Hrest].
  apply elem_of_cons in Hin as [[= -> ->]|Hin]; [by rewrite decide_True|by apply Hrest].
Qed.

(** ** The window around a month *)

Lemma day_of_ordered d l : day_events d (ordered_events l) = ordered_events (day_events d l).
Proof.
  unfold day_events, ordered_events. apply where_sorted_by; [apply event_leb_total|].
  intros a b c. apply event_leb_trans.
Qed.

Section Window.
Context `{zone : PragueZone} `{!PragueZoneLaws zone} (db : DB) (i : Z) (start stop : date).
Context (Hids : ids_unique (events db)).
Context (Hstored : ∀ x, x ∈ events db → reload (ev_occurred_at x) = ev_occurred_at x).

Lemma before_midnight_day d x :
  x ∈ events_of db i → before_midnight d x = true ↔ ev_day x < d.
Proof.
  intros [Hx _]%elem_of_where. apply Hstored in Hx. unfold before_midnight, ev_day.
  destruct (ev_occurred_at x) as [w t]. unfold reload in Hx. injection Hx as Hw. simpl.
  rewrite Z.ltb_lt. unfold midnight. pose proof (midnight_utc d t) as H.
  unfold date_of, date_of_wall. simpl. subst w. unfold us_per_day in *. split.
  - intros Hlt. assert (~ d * 86400000000 <= utc_to_wall t) by (rewrite <- H; lia). zdiv.
  - intros Hlt. assert (~ wall_to_utc (d * 86400000000) <= t); [rewrite H; zdiv|lia].
Qed.

Lemma load_day_events_elem x :
  x ∈ load_day_events db i start stop → x ∈ events_of db i.
Proof.
  unfold load_day_events. rewrite !elem_of_app.
  set (p := last _). set (f := head _). intros [H|[H|H]].
  - destruct p as [y|] eqn:E; [|by apply elem_of_nil in H]. apply list_elem_of_singleton in H as ->.
    apply last_Some_elem_of in E. rewrite events_by_time_perm in E. by apply elem_of_where in E as [].
  - rewrite events_by_time_perm in H. by apply elem_of_where in H as [].
  - destruct f as [y|] eqn:E; [|by apply elem_of_nil in H]. apply list_elem_of_singleton in H as ->.
    apply head_Some_elem_of in E. rewrite events_by_time_perm in E. by apply elem_of_where in E as [].
Qed.

(** The two neighbours lie outside the range. *)
Lemma load_day_events_day d :
  start <= d < stop →
  day_events d (load_day_events db i start stop) = events_by_time (day_events d (events_of db i)).
Proof.
  intros Hd. unfold load_day_events. rewrite !day_events_app.
  assert (Hout : ∀ o : option AttendanceEvent,
    (∀ y, o = Some y → ev_day y ≠ d) → day_events d (option_list o) = []).
  { intros [y|] Hy; [|done]. apply where_nil_iff. intros z ->%list_elem_of_singleton.
    apply Z.eqb_neq. by apply Hy. }
  rewrite !Hout.
  - rewrite app_nil_r. simpl. unfold day_events. rewrite where_events_by_time, where_where.
    f_equal. apply where_ext. intros x Hx.
    pose proof (before_midnight_day start x Hx) as H1. pose proof (before_midnight_day stop x Hx) as H2.
    destruct (ev_day x =? d) eqn:E; [|by rewrite ?andb_false_r]. bool_hyps.
    destruct (before_midnight start x); [lia|]. destruct (before_midnight stop x); [done|].
    assert (false = true) by (apply H2; lia). done.
  - intros y Hy%head_Some_elem_of. rewrite events_by_time_perm in Hy.
    apply elem_of_where in Hy as [Hy Hb]. intros Heq.
    assert (H : before_midnight stop y = true) by (apply before_midnight_day; [done|lia]).
    by rewrite H in Hb.
  - intros y Hy%last_Some_elem_of. rewrite events_by_time_perm in Hy.
    apply elem_of_where in Hy as [Hy Hb]. apply before_midnight_day in Hb; [lia|done].
Qed.

Lemma events_of_unique : ids_unique (events_of db i).
Proof. by apply NoDup_fmap_where. Qed.

Lemma load_day_events_unique : start <= stop → ids_unique (load_day_events db i start stop).
Proof.
  intros Hle. apply NoDup_fmap_2_strong.
  { intros x y [Hx _]%load_day_events_elem%elem_of_where [Hy _]%load_day_events_elem%elem_of_where.
    by apply (ids_unique_eq (events db)). }
  assert (Hrows : ∀ p, NoDup (events_by_time (where_ p (events_of db i)))).
  { intros p. rewrite events_by_time_perm. apply NoDup_where. eapply NoDup_fmap_1, events_of_unique. }
  unfold load_day_events. apply NoDup_app. split_and!.
  - destruct (last _); simpl; [apply NoDup_singleton|constructor].
  - intros x Hx Hin.
    assert (Hb : x ∈ events_of db i ∧ before_midnight start x = true).
    { destruct (last _) as [y|] eqn:E; [|by apply elem_of_nil in Hx].
      apply list_elem_of_singleton in Hx as ->. apply last_Some_elem_of in E.
      rewrite events_by_time_perm in E. by apply elem_of_where in E. }
    destruct Hb as [Hxr Hb%before_midnight_day]; [|done]. apply elem_of_app in Hin as [Hin|Hin].
    + rewrite events_by_time_perm in Hin. apply elem_of_where in Hin as [_ Hn]. bool_hyps.
      assert (before_midnight start x = true) by by apply before_midnight_day. congruence.
    + destruct (head _) as [y|] eqn:E; [|by apply elem_of_nil in Hin].
      apply list_elem_of_singleton in Hin as ->. apply head_Some_elem_of in E.
      rewrite events_by_time_perm in E. apply elem_of_where in E as [_ Hn]. bool_hyps.
      assert (before_midnight stop y = true) by (apply before_midnight_day; [done|lia]). congruence.
  - apply NoDup_app. split_and!; [apply Hrows| |destruct (head _); simpl; [apply NoDup_singleton|constructor]].
    intros x Hx Hin. rewrite events_by_time_perm in Hx. apply elem_of_where in Hx as [_ Hx].
    destruct (head _) as [y|] eqn:E; [|by apply elem_of_nil in Hin].
    apply list_elem_of_singleton in Hin as ->. apply head_Some_elem_of in E.
    rewrite events_by_time_perm in E. apply elem_of_where in E as [_ Hn]. bool_hyps. congruence.
Qed.

Lemma month_partner x :
  x ∈ events_of db i → start <= ev_day x < stop →
  deletion_partner (deletion_partners (ordered_events (load_day_events db i start stop))) (ev_id x) =
    ev_id <$> next_of_day db x.
Proof.
  intros Hx Hd. assert (Hi : ev_employment_id x = i).
  { apply elem_of_where in Hx as [_ H]. by apply Z.eqb_eq in H. }
  pose proof (load_day_events_day _ Hd) as Hday.
  assert (Hin : x ∈ load_day_events db i start stop).
  { assert (H : x ∈ day_events (ev_day x) (load_day_events db i start stop)).
    { rewrite Hday, events_by_time_perm. by apply day_events_elem. }
    by apply day_events_elem in H as []. }
  rewrite deletion_partner_successor.
  - unfold next_of_day. rewrite Hi.
    assert (day_events (ev_day x) (ordered_events (events_of db i)) =
            day_events (ev_day x) (ordered_events (load_day_events db i start stop))) as ->.
    { rewrite !day_of_ordered, Hday. apply ordered_events_canonical;
        [apply NoDup_fmap_where, events_of_unique|by rewrite events_by_time_perm]. }
    rewrite successor_of_day by apply ordered_events_sorted.
    destruct (successor _ _) as [t|]; [|done]. simpl. by destruct (_ =? _).
  - eapply ids_unique_perm; [by rewrite ordered_events_perm|]. apply load_day_events_unique. lia.
  - by apply elem_of_ordered_events.
Qed.
End Window.

(** ** The days of a summary *)

Section SummaryDays.
Context `{zone : PragueZone} (db : DB) (e : Employment) (y m : Z) (s : MonthSummary).
Context (Hs : build_employment_summary db e y m false = Ok s).

Lemma summary_days_unique : NoDup (dy_date <$> ms_day_summaries s).
Proof. rewrite (summary_days _ _ _ _ _ _ Hs). apply NoDup_zrange. Qed.

Lemma summary_day_found ds :
  ds ∈ ms_day_summaries s →
  last (where_ (λ x, dy_date x =? dy_date ds) (ms_day_summaries s)) = Some ds.
Proof.
  intros Hds. destruct (last _) as [x|] eqn:E.
  - apply last_Some_elem_of, elem_of_where in E as [Hx Hd%Z.eqb_eq]. f_equal.
    eapply NoDup_fmap_eq; [apply summary_days_unique|done..].
  - apply last_None in E. rewrite where_nil_iff in E. specialize (E _ Hds). simpl in E.
    by rewrite Z.eqb_refl in E.
Qed.

Lemma summary_day_range ds :
  ds ∈ ms_day_summaries s → mk_date y m 1 <= dy_date ds < next_month y m.
Proof.
  intros H%(list_elem_of_fmap_2 dy_date). rewrite (summary_days _ _ _ _ _ _ Hs) in H.
  apply elem_of_zrange in H. lia.
Qed.

Lemma summary_day_rows ds :
  ds ∈ ms_day_summaries s →
  dy_plan ds = last (where_ (λ p, sp_date p =? dy_date ds)
    (plans_in db (em_id e) (mk_date y m 1) (next_month y m))) ∧
  dy_effective_status ds = effective_status (dy_attendance ds) (dy_plan ds).
Proof.
  intros Hds. unfold build_employment_summary, month_range in Hs.
  apply rbind_ok in Hs as (pi & _ & H). apply rbind_ok in H as (days & Hdays & [= <-]).
  destruct (map_result_elem _ _ _ Hdays _ Hds) as (d & _ & Hb).
  pose proof (build_day_date _ _ _ _ _ _ _ _ _ Hb) as ->.
  unfold build_day in Hb. apply rbind_ok in Hb as (sm & _ & Hb).
  apply rbind_ok in Hb as (w & _ & Hb). apply rbind_ok in Hb as (pl & _ & Hb).
  by injection Hb as <-.
Qed.

(** A loop over the days of the month that looks the summary of each day up
    is a loop over the summaries. *)
Lemma map_summary_days {A} (f : date → result A) (h : DaySummary → result A) :
  (∀ ds, ds ∈ ms_day_summaries s → f (dy_date ds) = h ds) →
  map_result f (month_days (mk_date y m 1) (next_month y m)) = map_result h (ms_day_summaries s).
Proof.
  intros Hf. rewrite <- (summary_days _ _ _ _ _ _ Hs).
  induction (ms_day_summaries s) as [|ds l IH]; [done|]. csimpl.
  rewrite Hf by left. rewrite IH; [done|]. intros x Hx. apply Hf. by right.
Qed.

Lemma planned_minutes_of_day_ok ds :
  plans_valid db → ds ∈ ms_day_summaries s → ∃ n, planned_minutes_of_day ds = Ok n ∧ 0 <= n.
Proof.
  intros Hv [Hp _]%summary_day_rows. unfold planned_minutes_of_day.
  destruct (dy_plan ds) as [p|]; [|by exists 0]. symmetry in Hp.
  apply last_Some_elem_of, elem_of_where in Hp as [Hp _].
  destruct (shift_plan_interval_valid p) as (r & -> & Hr); [by eapply plans_in_valid|]. simpl.
  eexists. split; [done|]. destruct r as [i|]; [|done]. destruct (Hr i eq_refl).
  apply whole_minutes_nonneg. lia.
Qed.

Lemma planned_tenths_ok : plans_valid db → ∃ n, planned_tenths s = Ok n.
Proof.
  intros Hv. unfold planned_tenths.
  edestruct (map_result_total (λ d, let? m0 := planned_minutes_of_day d in metric_value m0)
    (ms_day_summaries s)) as [l ->]; [|by eexists].
  intros ds Hds. destruct (planned_minutes_of_day_ok _ Hv Hds) as (n & -> & Hn). simpl.
  rewrite metric_value_ok by done. by eexists.
Qed.
End SummaryDays.

(** ** What the sheet says *)

Lemma effective_status_or_else a p :
  or_else (x ← a; at_status x) (x ← p; sp_status x) = effective_status a p.
Proof. unfold or_else, effective_status. destruct a as [a|], p as [p|]; done. Qed.

Section Sheet.
Context `{zone : PragueZone}.

(** An event with its successor on the day, and a day as the summary and the
    stored events have it. *)
Definition sheet_event (db : DB) (x : AttendanceEvent) : AttendanceEventOut :=
  mk_event_out (ev_id x) (ev_employment_id x) (datetime_isoformat (ev_occurred_at x))
    (ev_id <$> next_of_day db x).

Definition sheet_day (db : DB) (e : Employment) (ds : DaySummary) : AttendanceDayOut :=
  let day := dy_date ds in
  mk_day_out (isoformat day)
    (sheet_event db <$> events_by_time (day_events day (events_of db (em_id e))))
    (a ← dy_attendance ds; at_status a) (dy_effective_status ds)
    (p ← dy_plan ds; sp_arrival_time p) (p ← dy_plan ds; sp_departure_time p)
    (p ← dy_plan ds; sp_status p)
    (calendar_tone day) (czech_public_holiday_label day) (within_employment_period e day)
    (metrics_out (dy_worked ds)) (metrics_out (dy_planned ds))
    (status_metrics_out (day_status_items (dy_status_metrics ds)))
    (dy_worked_state ds) (dy_planned_state ds).

Definition month_sheet (db : DB) (e : Employment) (y m planned : Z) (s : MonthSummary)
    : AttendanceMonthOut :=
  mk_month_out (hours_of_tenths planned) (em_id e) (employment_label db e None)
    (display_metrics_for_employment e) (sheet_day db e <$> ms_day_summaries s)
    (month_metrics_out (ms_worked s)) (month_metrics_out (ms_planned s))
    (status_metrics_out (ms_status_metrics s))
    (is_month_locked db LOCK_ATTENDANCE (em_id e) y m)
    (is_month_locked db LOCK_SHIFT_PLAN (em_id e) y m).

Context `{!PragueZoneLaws zone}.

Lemma month_day_out_ok db e y m s ds :
  inv db → build_employment_summary db e y m false = Ok s → ds ∈ ms_day_summaries s →
  month_day_out e (load_day_events db (em_id e) (mk_date y m 1) (next_month y m))
    (plans_in db (em_id e) (mk_date y m 1) (next_month y m)) s (dy_date ds) =
  Ok (sheet_day db e ds).
Proof.
  intros Hi Hs Hds. pose proof (summary_day_range _ _ _ _ _ Hs _ Hds) as Hr.
  destruct (summary_day_rows _ _ _ _ _ Hs _ Hds) as [Hp He].
  assert (Hu : ids_unique (events db)) by apply (inv_wf _ Hi).
  unfold month_day_out. rewrite (summary_day_found _ _ _ _ _ Hs _ Hds). cbn [or_raise rbind].
  rewrite <- Hp, effective_status_or_else, <- He. unfold sheet_day.
  rewrite load_day_events_day by (done || apply Hi).
  rewrite (list_fmap_ext (event_out _) (sheet_event db)); [done|].
  intros k x Hx%list_elem_of_lookup_2. rewrite events_by_time_perm in Hx.
  apply day_events_elem in Hx as [Hx Hd]. unfold event_out, sheet_event. f_equal.
  apply (month_partner _ (em_id e)); [done|apply Hi|done|lia].
Qed.

Lemma build_month_exists db e y m out : build_month db e y m = Ok out → month_exists y m = true.
Proof. unfold build_month, checked_month_range. by destruct (month_exists y m). Qed.

Lemma month_exists_iff y m : month_exists y m = true ↔ 1 <= y <= 9999 ∧ 1 <= m <= 12 ∧ (y, m) ≠ (9999, 12).
Proof.
  unfold month_exists. rewrite !andb_true_iff, negb_true_iff, andb_false_iff, !Z.leb_le, !Z.eqb_neq.
  split; [intros (H & [H'|H']); split_and!; try lia; congruence|]. intros (H & H' & Hne).
  split; [lia|]. destruct (decide (y = 9999)); [right|left]; congruence.
Qed.

(** The months of [query_month] exist. *)
Lemma queried_month y m : 2000 <= y <= 2100 → 1 <= m <= 12 → month_exists y m = true.
Proof. intros. apply month_exists_iff. split_and!; try lia. congruence || (intros [= -> ->]; lia). Qed.

Lemma build_month_ok db e y m :
  inv db → month_exists y m = true → ∃ s n, build_month_summary db e y m false = Ok s ∧ planned_tenths s = Ok n ∧
    build_month db e y m = Ok (month_sheet db e y m n s).
Proof.
  intros Hi He. destruct (build_summary_total db e y m (inv_plans _ Hi)) as [s Hs].
  destruct (planned_tenths_ok _ _ _ _ _ Hs (inv_plans _ Hi)) as [n Hn].
  exists s, n. rewrite build_month_summary_single. split_and!; [done..|].
  unfold build_month, checked_month_range, month_range. rewrite He. cbn [negb guard rbind].
  rewrite build_month_summary_single, Hs. cbn [rbind].
  rewrite (map_summary_days _ _ _ _ _ Hs _ (λ ds, Ok (sheet_day db e ds))); cycle 1.
  { intros ds Hds. by apply month_day_out_ok. }
  rewrite (map_result_fmap _ (sheet_day db e)) by done.
  cbn [rbind]. by rewrite Hn.
Qed.
End Sheet.

(** ** Lemmas for the properties *)

Lemma successor_lookup x l t :
  successor x l = Some t → ∃ k, l !! k = Some x ∧ l !! S k = Some t.
Proof.
  induction l as [|a l IH]; simpl; [done|]. destruct (decide (a = x)) as [->|_].
  - intros H. exists O. by destruct l.
  - intros (k & Hk & Ht)%IH. by exists (S k).
Qed.

(** Nothing lies between an element of a sorted list and its successor. *)
Lemma successor_between x t l z :
  ids_unique l → StronglySorted (le_rel event_leb) l → successor x l = Some t → z ∈ l →
  event_leb x t = true ∧ (event_leb x z = true → event_leb z t = true → z = x ∨ z = t).
Proof.
  intros Hu Hs (k & Hx & Ht)%successor_lookup [n Hz]%list_elem_of_lookup.
  assert (Hle : ∀ i j a b, l !! i = Some a → l !! j = Some b → (i < j)%nat → event_leb a b = true).
  { intros i j a b Ha Hb Hij. exact (StronglySorted_lookup _ _ _ _ _ _ Hs Ha Hb Hij). }
  split; [apply (Hle k (S k)); [done|done|lia]|]. intros Hxz Hzt.
  assert (Hanti : ∀ a b, a ∈ l → b ∈ l → event_leb a b = true → event_leb b a = true → a = b).
  { intros a b Ha Hb Hab Hba. apply (ids_unique_eq l); auto. by apply event_leb_antisym. }
  assert (z ∈ l ∧ x ∈ l ∧ t ∈ l) as (Hzl & Hxl & Htl)
    by (split_and!; by eapply list_elem_of_lookup_2).
  destruct (decide (n < k)%nat) as [Hlt|Hge].
  - left. apply Hanti; [done|done|by eapply (Hle n k)|done].
  - destruct (decide (S k < n)%nat) as [Hgt|Hle'].
    + right. apply Hanti; [done|done|done|by eapply (Hle (S k) n)].
    + assert (n = k ∨ n = S k) as [->| ->] by lia; [left|right]; congruence.
Qed.

Lemma where_or_perm {A} (p q : A → bool) l :
  (∀ x, x ∈ l → p x = true → q x = false) →
  where_ p l ++ where_ q l ≡ₚ where_ (λ x, p x || q x) l.
Proof.
  unfold where_. induction l as [|x l IH]; intros H; [done|]. simpl.
  assert (Hp : List.filter p l ++ List.filter q l ≡ₚ List.filter (λ y, p y || q y) l)
    by (apply IH; intros y Hy; apply H; by right).
  pose proof (H x ltac:(left)) as Hx. destruct (p x), (q x); simpl.
  - by discriminate Hx.
  - by rewrite Hp.
  - by rewrite <- Permutation_middle, Hp.
  - done.
Qed.

(** The days of a range together hold the events of the range. *)
Lemma days_of_range lo n l :
  mjoin ((λ d, day_events d l) <$> zrange lo n) ≡ₚ
  where_ (λ x, in_range lo (lo + Z.of_nat n) (ev_day x)) l.
Proof.
  revert lo. induction n as [|n IH]; intros lo.
  - simpl. rewrite (proj2 (where_nil_iff _ _)); [done|]. intros x _. apply not_true_is_false.
    unfold in_range. rewrite andb_true_iff, Z.leb_le, Z.ltb_lt. lia.
  - cbn [zrange]. rewrite fmap_cons. simpl. rewrite IH. unfold day_events.
    rewrite where_or_perm by (intros x _; cbv beta; unfold in_range; lia).
    rewrite (where_ext _ (λ x, in_range lo (lo + Z.of_nat (S n)) (ev_day x))); [done|].
    intros x _. apply eq_true_iff_eq. unfold in_range.
    rewrite orb_true_iff, !andb_true_iff, !Z.leb_le, !Z.ltb_lt, Z.eqb_eq. lia.
Qed.

Lemma find_by_id l t :
  ids_unique l → t ∈ l → head (where_ (λ x, ev_id x =? ev_id t) l) = Some t.
Proof.
  intros Hu Ht. destruct (head _) as [z|] eqn:E.
  - apply head_Some_elem_of, elem_of_where in E as [Hz Hid%Z.eqb_eq].
    f_equal. by apply (ids_unique_eq l).
  - apply head_None in E. rewrite where_nil_iff in E. specialize (E _ Ht). simpl in E.
    by rewrite Z.eqb_refl in E.
Qed.

(** ** Properties *)

Section Properties.
Context `{zone : PragueZone} `{!PragueZoneLaws zone}.

(** The events the sheets list are those of the month. *)
Lemma sheet_events db e y m s :
  1 <= m <= 12 → build_employment_summary db e y m false = Ok s →
  mjoin (ad_events <$> (sheet_day db e <$> ms_day_summaries s)) ≡ₚ
  sheet_event db <$> where_ (λ x, bool_decide (ym_of (ev_day x) = (y, m))) (events_of db (em_id e)).
Proof.
  intros Hm Hs. pose proof (month_range_lt y m Hm).
  assert (mjoin (ad_events <$> (sheet_day db e <$> ms_day_summaries s)) ≡ₚ
    sheet_event db <$> mjoin ((λ d, day_events d (events_of db (em_id e))) <$>
      (dy_date <$> ms_day_summaries s))) as ->.
  { induction (ms_day_summaries s) as [|ds l IH]; [done|]. csimpl. rewrite fmap_app, IH.
    by rewrite events_by_time_perm. }
  rewrite (summary_days _ _ _ _ _ _ Hs). unfold month_days. rewrite days_of_range.
  rewrite Z2Nat.id by lia.
  rewrite (where_ext _ (λ x, bool_decide (ym_of (ev_day x) = (y, m)))); [done|].
  intros x _. replace (mk_date y m 1 + (next_month y m - mk_date y m 1)) with (next_month y m) by lia.
  apply eq_true_iff_eq. by rewrite bool_decide_eq_true, in_range_month.
Qed.

(** C27: The month sheet of an employment is always produced, for every month
    whose bounds are dates (the years 1 to 9999 without December 9999; any
    other raises).  It has one entry per day of the month, in order, with the
    hours, the states and the plan of that day as the month summary computes
    them, and lists every attendance event of the employment in that month
    exactly once, on its local day, and no event of another month; its lock
    flags say exactly whether a change of that month would be refused as
    locked. *)
Theorem month_sheet_complete db e y m (Hi : inv db) :
  if negb (month_exists y m) then build_month db e y m = Err (Crash "ValueError") else
  ∃ out s, build_month db e y m = Ok out ∧ build_month_summary db e y m false = Ok s ∧
    am_days out = sheet_day db e <$> ms_day_summaries s ∧
    ad_date <$> am_days out = isoformat <$> month_days (mk_date y m 1) (next_month y m) ∧
    mjoin (ad_events <$> am_days out) ≡ₚ
      sheet_event db <$>
        where_ (λ x, bool_decide (ym_of (ev_day x) = (y, m))) (events_of db (em_id e)) ∧
    (am_attendance_locked out = true ↔
      ensure_month_unlocked db LOCK_ATTENDANCE (em_id e) y m =
        Err (ApiError 423 (lock_error LOCK_ATTENDANCE))) ∧
    (am_shift_plan_locked out = true ↔
      ensure_month_unlocked db LOCK_SHIFT_PLAN (em_id e) y m =
        Err (ApiError 423 (lock_error LOCK_SHIFT_PLAN))).
Proof.
  destruct (month_exists y m) eqn:He; simpl; [|unfold build_month, checked_month_range; by rewrite He].
  pose proof (proj1 (month_exists_iff y m) He) as (_ & Hm & _).
  destruct (build_month_ok db e y m Hi He) as (s & n & Hs & _ & Hout).
  exists (month_sheet db e y m n s), s. rewrite build_month_summary_single in Hs |- *.
  split; [done|]. split; [done|]. split; [done|]. simpl. split.
  { rewrite <- (summary_days _ _ _ _ _ _ Hs), <- !list_fmap_compose. done. }
  split; [by apply sheet_events|]. unfold ensure_month_unlocked, guard.
  by split; destruct (is_month_locked _ _ _ _ _).
Qed.

(** The next event of the day, and that nothing lies between. *)
Lemma next_of_day_spec db i x t :
  ids_unique (events db) → x ∈ events_of db i → next_of_day db x = Some t →
  t ∈ events_of db i ∧ ev_day t = ev_day x ∧ t ≠ x ∧ event_leb x t = true ∧
  ∀ z, z ∈ events_of db i → event_leb x z = true → event_leb z t = true → z = x ∨ z = t.
Proof.
  intros Hu Hx. assert (ev_employment_id x = i) as Hi.
  { apply elem_of_where in Hx as [_ Hx]. by apply Z.eqb_eq in Hx. }
  unfold next_of_day. rewrite Hi, day_of_ordered. set (l := day_events _ _). intros Ht.
  assert (Hl : ids_unique (ordered_events l)).
  { eapply ids_unique_perm; [by rewrite ordered_events_perm|].
    apply NoDup_fmap_where. by apply NoDup_fmap_where. }
  pose proof (successor_elem _ _ _ Ht) as Hin.
  apply elem_of_ordered_events, day_events_elem in Hin as [Hin Hd].
  assert (Hbetween : ∀ z, z ∈ l → event_leb x t = true ∧
      (event_leb x z = true → event_leb z t = true → z = x ∨ z = t)).
  { intros z Hz. apply (successor_between _ _ (ordered_events l));
      [done|apply ordered_events_sorted|done|by apply elem_of_ordered_events]. }
  split_and!; [done|done| | |].
  - apply successor_lookup in Ht as (k & Hk & Hk'). intros ->.
    assert (k = S k); [|lia].
    eapply NoDup_lookup; [eapply NoDup_fmap_1; exact Hl|exact Hk|exact Hk'].
  - by destruct (Hbetween t ltac:(by apply day_events_elem)).
  - intros z Hz Hxz Hzt. apply Hbetween; [|done..]. apply day_events_elem. split; [done|].
    apply event_leb_wall in Hxz as H1. apply event_leb_wall in Hzt as H2.
    apply date_of_wall_le in H1, H2. unfold ev_day, date_of, ev_wall in *. lia.
Qed.

(** The endpoints accept it as the second event of a deletion. *)
Lemma paired_deletion_accepts db e x t missing :
  ids_unique (events db) → t ∈ events_of db (em_id e) → ev_id t ≠ ev_id x →
  paired_deletion missing (events_of db (em_id e)) e x (Some (ev_id t)) = Ok [x; t].
Proof.
  intros Hu Ht Hne. unfold paired_deletion.
  rewrite find_by_id by (done || by apply NoDup_fmap_where). cbn [or_raise rbind].
  apply elem_of_where in Ht as [_ He]. rewrite He. simpl.
  rewrite (proj2 (Z.eqb_neq _ _)) by done. done.
Qed.

(** C28: The partner a month sheet offers for deletion is the next event of the
    same employment on the same day, with nothing between the two, and the
    deletion endpoints accept the pair; the start of every counted interval of
    the month is offered with its end. *)
Theorem deletion_partner_offered db e y m out (Hi : inv db) (Hm : 1 <= m <= 12)
    (Hout : build_month db e y m = Ok out) :
  (∀ day o j, day ∈ am_days out → o ∈ ad_events day → ao_deletion_partner_id o = Some j →
    ∃ x t, x ∈ events_of db (em_id e) ∧ t ∈ events_of db (em_id e) ∧
      ev_id x = ao_id o ∧ ev_id t = j ∧ ev_day t = ev_day x ∧ event_leb x t = true ∧
      (∀ z, z ∈ events_of db (em_id e) → event_leb x z = true → event_leb z t = true →
        z = x ∨ z = t) ∧
      paired_deletion event_not_found (events_of db (em_id e)) e x (Some j) = Ok [x; t]) ∧
  (∀ a b, (a, b) ∈ pair_event_rows (events_of db (em_id e)) → ym_of (ev_day a) = (y, m) →
    ∃ day, day ∈ am_days out ∧ ad_date day = isoformat (ev_day a) ∧
      mk_event_out (ev_id a) (em_id e) (datetime_isoformat (ev_occurred_at a)) (Some (ev_id b))
        ∈ ad_events day).
Proof.
  assert (Hu : ids_unique (events db)) by apply (inv_wf _ Hi).
  destruct (build_month_ok db e y m Hi (build_month_exists _ _ _ _ _ Hout)) as (s & n & Hs & _ & Hout').
  rewrite build_month_summary_single in Hs. rewrite Hout in Hout'. injection Hout' as ->. simpl. split.
  - intros day o j (ds & -> & Hds)%list_elem_of_fmap (x & -> & Hx)%list_elem_of_fmap Hj.
    rewrite events_by_time_perm in Hx. apply day_events_elem in Hx as [Hx _]. simpl in Hj.
    destruct (next_of_day db x) as [t|] eqn:Ht; [|done]. injection Hj as <-.
    destruct (next_of_day_spec _ _ _ _ Hu Hx Ht) as (Hin & Hd & Hne & Hle & Hbetween).
    exists x, t. split_and!; try done. apply paired_deletion_accepts; [done..|].
    intros Hid. apply Hne. by apply (ids_unique_eq _ _ _ (events_of_unique db (em_id e) Hu)).
  - intros a b Hab Hym. destruct (pair_event_rows_elem _ _ _ Hab) as (Ha & _).
    assert (Hday : dy_date <$> ms_day_summaries s = month_days (mk_date y m 1) (next_month y m))
      by by eapply summary_days.
    assert (Hd : ev_day a ∈ dy_date <$> ms_day_summaries s).
    { rewrite Hday. apply month_range_spec in Hym; [|done]. apply elem_of_zrange. lia. }
    apply list_elem_of_fmap in Hd as (ds & Hd & Hds).
    exists (sheet_day db e ds). split; [by apply list_elem_of_fmap_2|]. simpl.
    rewrite <- Hd. split; [done|]. apply list_elem_of_fmap. exists a.
    rewrite events_by_time_perm, day_events_elem. split; [|done]. unfold sheet_event.
    assert (next_of_day db a = Some b) as ->.
    { apply day_pairs_successor.
      - apply NoDup_where, NoDup_fmap_1 with (f := ev_id). rewrite ordered_events_perm.
        by apply NoDup_fmap_where.
      - apply elem_of_where in Ha as [_ ->%Z.eqb_eq]. rewrite <- pair_event_rows_of_day.
        apply elem_of_where. split; [done|apply Z.eqb_refl]. }
    by apply elem_of_where in Ha as [_ ->%Z.eqb_eq].
Qed.
(** ** Who sees which sheet *)

Lemma query_month_iff y m u :
  query_month y m = Ok u ↔ 2000 <= y <= 2100 ∧ 1 <= m <= 12.
Proof. unfold query_month. rewrite guard_ok, !orb_false_iff, !Z.ltb_ge. lia. Qed.

(** Two ways the code asks whether an employment overlaps a month. *)
Lemma in_month_guard start stop e :
  (stop <=? em_start_date e) ||
    match em_end_date e with Some last => last <? start | None => false end =
  negb (in_month_sql start stop e).
Proof.
  unfold in_month_sql. rewrite negb_andb, Z.ltb_antisym, negb_involutive. f_equal.
  destruct (em_end_date e) as [l|]; [|done]. by rewrite Z.leb_antisym, negb_involutive.
Qed.

Lemma in_month_overlaps start stop e :
  in_month_sql start stop e = employment_overlaps_month e start stop.
Proof.
  unfold in_month_sql, employment_overlaps_month. rewrite Z.ltb_antisym.
  destruct (stop <=? em_start_date e); [done|]. simpl.
  destruct (em_end_date e) as [l|]; [|done]. by rewrite Z.leb_antisym.
Qed.

Lemma get_employment_found db e :
  NoDup (em_id <$> employments db) → e ∈ employments db → get_employment db (em_id e) = Some e.
Proof.
  intros Hu He. unfold get_employment, one_or_none. destruct (head _) as [x|] eqn:E.
  - apply head_Some_elem_of, elem_of_where in E as [Hx Hid%Z.eqb_eq]. f_equal.
    by apply (NoDup_fmap_eq em_id (employments db)).
  - apply head_None in E. rewrite where_nil_iff in E. specialize (E _ He). simpl in E.
    by rewrite Z.eqb_refl in E.
Qed.

(** The endpoint of one sheet, on every branch. *)
Lemma get_month_attendance_eq db auth i y m e :
  get_employment db i = Some e → 1 <= i → 2000 <= y <= 2100 → 1 <= m <= 12 →
  get_month_attendance db auth i y m =
    if (em_user_id e =? pu_id (auth_user auth)) && pu_is_active (auth_user auth)
    then if in_month_sql (mk_date y m 1) (next_month y m) e then build_month db e y m
         else Err (ApiError 404 "employment_not_active_in_month")
    else Err (ApiError 404 "employment_not_found").
Proof.
  intros He Hi Hy Hm. unfold get_month_attendance. rewrite (proj2 (Z.ltb_ge _ _)) by lia.
  cbn [guard rbind]. rewrite (proj2 (query_month_iff y m tt)) by done. cbn [rbind].
  unfold accessible_employment. rewrite He. cbn [or_raise rbind month_range].
  rewrite <- negb_andb. destruct (_ && _); [|done]. cbn [guard rbind negb]. rewrite in_month_guard.
  by destruct (in_month_sql _ _ e).
Qed.

(** The list of a month offers an active user exactly the employments whose
    sheet the portal then shows. *)
Theorem portal_month_access db auth now y m i (Hi : inv db)
    (Ha : pu_is_active (auth_user auth) = true) (Hpos : 1 <= i) :
  (∃ out, get_month_attendance db auth i y m = Ok out) ↔
  (∃ l o, get_month_employments db auth now y m = Ok l ∧ o ∈ l ∧ av_id o = i).
Proof.
  destruct (decide (2000 <= y <= 2100 ∧ 1 <= m <= 12)) as [[Hy Hm]|Hq].
  2:{ unfold get_month_attendance, get_month_employments. rewrite (proj2 (Z.ltb_ge _ _)) by lia.
      cbn [guard rbind]. destruct (query_month y m) as [[]|] eqn:E; [by apply query_month_iff in E|].
      split; [intros (? & ?)|intros (? & ? & ? & _)]; done. }
  unfold get_month_employments. rewrite (proj2 (query_month_iff y m tt)) by done.
  cbn [rbind month_range]. split.
  - intros [out H]. destruct (get_employment db i) as [e|] eqn:He.
    2:{ unfold get_month_attendance, accessible_employment in H. rewrite He in H. by ok_inv H. }
    rewrite (get_month_attendance_eq _ _ _ _ _ e), Ha, andb_true_r in H by done.
    destruct (_ =? _) eqn:Eu; [|done]. destruct (in_month_sql _ _ e) eqn:Em; [|done].
    apply get_employment_ok in He as [He <-]. eexists _, (available_out _ _ e). split; [done|].
    split; [|done]. apply list_elem_of_fmap_2, elem_of_sorted_by, elem_of_where.
    split; [done|]. by rewrite Eu, Em.
  - intros (l & o & [= <-] & (e & -> & He)%list_elem_of_fmap & <-).
    apply elem_of_sorted_by, elem_of_where in He as [He [Hu Hmn]%andb_true_iff].
    destruct (build_month_ok db e y m Hi (queried_month y m Hy Hm)) as (s & n & _ & _ & Hb). simpl in *.
    rewrite (get_month_attendance_eq _ _ _ _ _ e), Hu, Ha, Hmn; [by eexists| |done..].
    by apply get_employment_found; [apply Hi|].
Qed.

Lemma month_sheets_ok db y m start stop es :
  inv db → month_exists y m = true →
  ∃ sheets, month_sheets db y m start stop es = Ok sheets ∧
    (λ sh, am_employment_id (as_month sh)) <$> sheets =
      em_id <$> where_ (λ e, is_some (active_user db e)) es ∧
    ∀ e u, e ∈ es → active_user db e = Some u →
      ∃ sh, sh ∈ sheets ∧ sheet_out db y m start stop e u = Ok sh.
Proof.
  intros Hi He. induction es as [|e es (sheets & Hs & Hids & IH)].
  { exists []. split_and!; [done..|]. intros e u He'. by apply elem_of_nil in He'. }
  simpl. unfold where_ in *. simpl. destruct (active_user db e) as [u|] eqn:Eu.
  - destruct (build_month_ok db e y m Hi He) as (s & n & _ & _ & Hb).
    unfold sheet_out. rewrite Hb. cbn [rbind]. rewrite Hs. cbn [rbind].
    eexists. split; [done|]. csimpl. split; [by f_equal|].
    intros e' u' [->|He']%elem_of_cons Hu'.
    + rewrite Eu in Hu'. injection Hu' as <-. rewrite Hb. eexists. split; [left|done].
    + destruct (IH _ _ He' Hu') as (sh & Hin & H). exists sh. split; [by right|done].
  - exists sheets. split_and!; [done..|]. intros e' u' [->|He']%elem_of_cons Hu'; [congruence|].
    by apply IH.
Qed.

(** The administration's month lists exactly the employments of active
    users that overlap the month, by user, start and id, and the sheet it shows
    of each is the very sheet its employee sees in the portal. *)
Theorem admin_sheets_agree db y m (Hi : inv db) (Hy : 2000 <= y <= 2100) (Hm : 1 <= m <= 12)
    (Hids : ∀ e, e ∈ employments db → 1 <= em_id e) :
  ∃ sheets, list_month_sheets db y m = Ok sheets ∧
    (λ sh, am_employment_id (as_month sh)) <$> sheets =
      em_id <$> where_ (λ e, is_some (active_user db e))
        (load_month_employments db (mk_date y m 1) (next_month y m)) ∧
    ∀ e u instance_id, e ∈ employments db → active_user db e = Some u →
      employment_overlaps_month e (mk_date y m 1) (next_month y m) = true →
      ∃ sh, sh ∈ sheets ∧ am_employment_id (as_month sh) = em_id e ∧ as_user_name sh = pu_name u ∧
        as_is_active_in_month sh = true ∧
        get_month_attendance db (mk_auth u instance_id) (em_id e) y m = Ok (as_month sh).
Proof.
  unfold list_month_sheets. rewrite (proj2 (query_month_iff y m tt)) by done.
  cbn [rbind month_range].
  destruct (month_sheets_ok db y m (mk_date y m 1) (next_month y m)
    (load_month_employments db (mk_date y m 1) (next_month y m)) Hi (queried_month y m Hy Hm)) as (sheets & Hs & Hl & H).
  exists sheets. split; [done|]. split; [done|]. intros e u inst He Hu Hov.
  rewrite <- in_month_overlaps in Hov. destruct (H e u) as (sh & Hsh & Hout); [|done|].
  { apply elem_of_sorted_by, elem_of_where. done. }
  exists sh. unfold sheet_out in Hout. apply rbind_ok in Hout as (out & Hb & [= <-]). simpl.
  assert (Hid : am_employment_id out = em_id e).
  { destruct (build_month_ok db e y m Hi (queried_month y m Hy Hm)) as (s & n & _ & _ & Hb'). rewrite Hb in Hb'.
    by injection Hb' as ->. }
  split_and!; [done|done|done|by rewrite <- in_month_overlaps|].
  rewrite (get_month_attendance_eq _ _ _ _ _ e); [|by apply get_employment_found; [apply Hi|]|by apply Hids|done..].
  simpl. unfold active_user in Hu. destruct (user_of db e) as [v|] eqn:Ev; [|done]. simpl in Hu.
  destruct (pu_is_active v) eqn:Ea; [|done]. injection Hu as ->. rewrite Ea, andb_true_r, Hov, Hb.
  unfold user_of in Ev. apply head_Some_elem_of, elem_of_where in Ev as [_ Hid'%Z.eqb_eq].
  by rewrite Hid', Z.eqb_refl.
Qed.
End Properties.
