(* ===== verification/PlanViews.v ===== *)
(** * The month views of the shift plan

    api/v1/shift_plan.py: the groups of a signed-in employee and the plan of a
    group; api/v1/admin_shift_plan.py: the plan of a month with its totals.
    [name_key] is [str.lower] on user names and [name_leb] the collation of the
    database; two strings are compared by code points. *)

From S2P Require Import Prelude Calendar TimeParse Format PragueTime Models TimeIntervals TimeMetrics.
From S2P Require Import Locks EmploymentAccess DayStatus AttendanceEvents MonthSummary.
From S2P Require Import AttendanceApi SystemInvariant Groups ShiftPlanApi MonthViews.
From Stdlib Require Import QArith.
#[local] Open Scope Z_scope.

(** ** One day of a plan; both views build the same record *)

Record ShiftPlanDayOut := mk_plan_day_out {
  pd_date : string;
  pd_arrival_time : option string;
  pd_departure_time : option string;
  pd_status : option string;
  pd_effective_status : option string;
  pd_is_within_employment_period : bool;
  pd_planned_minutes : Z;
  pd_planned_hours : Q;
  pd_planned_state : string;
  pd_planned : option (list (metric_key * option MetricOut));
  pd_status_metrics : list (status_metric_key * option MetricOut);
}.

(** [DaySummary.planned_hours]. *)
Definition planned_hours_of_day (d : DaySummary) : result Q :=
  let? mins := planned_minutes_of_day d in
  let? v := metric_value mins in
  Ok (hours_of_tenths (mv_tenths v)).

Definition day_of_summary (s : MonthSummary) (day : date) : result DaySummary :=
  or_raise (last (where_ (λ x, dy_date x =? day) (ms_day_summaries s))) (Crash "KeyError").

Definition plan_day_out (e : Employment) (direct_plan : option ShiftPlan) (day : date)
    (day_summary : DaySummary) : result ShiftPlanDayOut :=
  let? mins := planned_minutes_of_day day_summary in
  let? hours := planned_hours_of_day day_summary in
  Ok (mk_plan_day_out (isoformat day)
    (p ← direct_plan; sp_arrival_time p) (p ← direct_plan; sp_departure_time p)
    (p ← direct_plan; sp_status p) (dy_effective_status day_summary)
    (within_employment_period e day) mins hours (dy_planned_state day_summary)
    (metrics_out (dy_planned day_summary))
    (status_metrics_out (day_status_items (dy_status_metrics day_summary)))).

(** The plans of several employments, and the dict keyed by employment and day. *)
Definition plans_of_many (db : DB) (ids : list Z) (start stop : date) : list ShiftPlan :=
  where_ (λ p, mem (sp_employment_id p) ids && in_range start stop (sp_date p)) (plans db).
Definition plan_by_key (rows : list ShiftPlan) (employment_id : Z) (day : date)
    : option ShiftPlan :=
  last (where_ (λ p, (sp_employment_id p =? employment_id) && (sp_date p =? day)) rows).

(** [summaries[employment.id]]. *)
Definition summary_of (summaries : list (Z * MonthSummary)) (employment_id : Z)
    : result MonthSummary :=
  or_raise (snd <$> last (where_ (λ p, p.1 =? employment_id) summaries)) (Crash "KeyError").

(** [{...} if summary.planned else None]. *)
Definition planned_out (s : MonthSummary) : option (list (metric_key * option MetricOut)) :=
  month_metrics_out (ms_planned s).

Section PlanViews.
Context `{zone : PragueZone} (name_leb : string → string → bool) (name_key : string → string).

(** ** The portal: groups of an employee *)

Definition bad_month (year month : Z) : bool :=
  (year <? 2000) || (2100 <? year) || (month <? 1) || (12 <? month).
Definition invalid_month : api_error := ApiError 400 "invalid_month".
Definition group_not_found : api_error := ApiError 404 "group_not_found".

(** [group.members], each with its employment; the foreign key gives one. *)
Definition member_employments (db : DB) (group_id : Z) : list Employment :=
  omap (get_employment db) (group_members db group_id).

Definition active_in_month (db : DB) (start stop : date) (e : Employment) : bool :=
  is_some (active_user db e) && employment_overlaps_month e start stop.

Definition accessible_group (db : DB) (auth : PortalUserAuth) (group_id : Z) (start stop : date)
    : result EmploymentGroup :=
  let? group := or_raise (get_group db group_id) group_not_found in
  guard (negb (pu_is_active (auth_user auth)) ||
         negb (existsb (λ e, (em_user_id e =? pu_id (auth_user auth)) &&
                             active_in_month db start stop e)
                 (member_employments db (eg_id group)))) group_not_found ?;;
  Ok group.

Record GroupOptionOut := mk_group_option { go_id : Z; go_name : string }.

(** [ORDER BY name, id]. *)
Definition group_leb (a b : EmploymentGroup) : bool :=
  if String.eqb (eg_name a) (eg_name b) then eg_id a <=? eg_id b else name_leb (eg_name a) (eg_name b).

(** The join of the groups with their members, employments and users. *)
Definition group_of_user (db : DB) (user_id : Z) (start stop : date) (g : EmploymentGroup) : bool :=
  existsb (λ e, (em_user_id e =? user_id) && is_some (active_user db e) && in_month_sql start stop e)
    (member_employments db (eg_id g)).

Definition portal_list_shift_plan_groups (db : DB) (auth : PortalUserAuth) (year month : Z)
    : result (list GroupOptionOut) :=
  guard (bad_month year month) invalid_month ?;;
  let '(start, stop) := month_range year month in
  Ok ((λ g, mk_group_option (eg_id g) (eg_name g)) <$>
    sorted_by group_leb
      (where_ (group_of_user db (pu_id (auth_user auth)) start stop) (groups db))).

Record GroupShiftPlanRowOut := mk_group_row {
  gr_employment_id : Z;
  gr_display_label : string;
  gr_is_own_employment : bool;
  gr_shift_plan_locked : bool;
  gr_display_metrics : list string;
  gr_days : list ShiftPlanDayOut;
  gr_planned_minutes : Z;
  gr_planned_hours : Q;
  gr_planned : option (list (metric_key * option MetricOut));
  gr_status_metrics : list (status_metric_key * option MetricOut);
}.

Record GroupShiftPlanMonthOut := mk_group_month {
  gp_group_id : Z;
  gp_group_name : string;
  gp_year : Z;
  gp_month : Z;
  gp_rows : list GroupShiftPlanRowOut;
}.

Definition user_name_of (db : DB) (e : Employment) : string :=
  default EmptyString (pu_name <$> user_of db e).

(** [(employment.user.name.lower(), employment_id)]. *)
Definition member_leb (db : DB) (a b : Employment) : bool :=
  let ka := name_key (user_name_of db a) in
  let kb := name_key (user_name_of db b) in
  if String.eqb ka kb then em_id a <=? em_id b else string_leb ka kb.

Definition group_row (db : DB) (auth : PortalUserAuth) (year month : Z) (rows : list ShiftPlan)
    (summaries : list (Z * MonthSummary)) (e : Employment) : result GroupShiftPlanRowOut :=
  let '(start, stop) := month_range year month in
  let? summary := summary_of summaries (em_id e) in
  let? days := map_result (λ day,
      let? day_summary := day_of_summary summary day in
      plan_day_out e (plan_by_key rows (em_id e) day) day day_summary) (month_days start stop) in
  let? mins := planned_minutes summary in
  let? tenths := planned_tenths summary in
  Ok (mk_group_row (em_id e) (employment_label db e (Some (user_name_of db e)))
    (em_user_id e =? pu_id (auth_user auth))
    (is_month_locked db LOCK_SHIFT_PLAN (em_id e) year month)
    (display_metrics_for_employment e) days mins (hours_of_tenths tenths)
    (planned_out summary) (status_metrics_out (ms_status_metrics summary))).

Definition portal_get_group_shift_plan_month (db : DB) (auth : PortalUserAuth)
    (group_id year month : Z) : result GroupShiftPlanMonthOut :=
  guard (bad_month year month) invalid_month ?;;
  let '(start, stop) := month_range year month in
  let? group := accessible_group db auth group_id start stop in
  let active_members := where_ (active_in_month db start stop)
    (member_employments db (eg_id group)) in
  let rows := plans_of_many db (em_id <$> active_members) start stop in
  let? summaries := build_month_summaries db active_members year month false in
  let? out := map_result (group_row db auth year month rows summaries)
    (sorted_by (member_leb db) active_members) in
  Ok (mk_group_month (eg_id group) (eg_name group) year month out).

(** ** The administration: the plan of a month *)

Record ActiveEmploymentOut := mk_active_out {
  ae_id : Z;
  ae_user_id : Z;
  ae_user_name : string;
  ae_title : string;
  ae_employment_type : string;
  ae_display_label : string;
  ae_start_date : string;
  ae_end_date : option string;
  ae_is_active : bool;
  ae_user_is_active : bool;
  ae_is_active_in_month : bool;
}.

Record ShiftPlanSummaryOut := mk_plan_summary {
  ps_planned_minutes : Z;
  ps_planned_hours : Q;
  ps_scheduled_days : Z;
  ps_holiday_days : Z;
  ps_off_days : Z;
  ps_planned : option (list (metric_key * option MetricOut));
  ps_status_metrics : list (status_metric_key * option MetricOut);
}.

Record ShiftPlanRowOut := mk_plan_row {
  pr_employment_id : Z;
  pr_user_id : Z;
  pr_user_name : string;
  pr_title : string;
  pr_employment_type : string;
  pr_display_label : string;
  pr_start_date : string;
  pr_end_date : option string;
  pr_is_active_in_month : bool;
  pr_shift_plan_locked : bool;
  pr_attendance_locked : bool;
  pr_display_metrics : list string;
  pr_days : list ShiftPlanDayOut;
  pr_summary : ShiftPlanSummaryOut;
}.

Record ShiftPlanMonthOut := mk_plan_month {
  pm_year : Z;
  pm_month : Z;
  pm_selected_employment_ids : list Z;
  pm_available_employments : list ActiveEmploymentOut;
  pm_rows : list ShiftPlanRowOut;
}.

Definition user_is_active (db : DB) (e : Employment) : bool :=
  match user_of db e with Some u => pu_is_active u | None => false end.

(** [_to_active_employment_out]; the employments listed have a user. *)
Definition to_active_employment_out (db : DB) (start stop : date) (e : Employment)
    : ActiveEmploymentOut :=
  mk_active_out (em_id e) (em_user_id e) (user_name_of db e) (em_title e)
    (employment_type_value (em_employment_type e))
    (employment_label db e (Some (user_name_of db e)))
    (isoformat (em_start_date e)) (isoformat <$> em_end_date e)
    (employment_is_active_in_month db e start stop) (user_is_active db e)
    (employment_is_active_in_month db e start stop).

Definition available_employments (db : DB) (start stop : date) : list Employment :=
  where_ (user_is_active db)
    (sorted_by by_start (where_ (in_month_sql start stop) (employments db))).

(** The counters of the loop over the days. *)
Record plan_totals := mk_totals {
  pt_days : list ShiftPlanDayOut;
  pt_minutes : Z;
  pt_scheduled : Z;
  pt_holiday : Z;
  pt_off : Z;
}.

Definition as_int (b : bool) : Z := if b then 1 else 0.

Definition plan_day_step (e : Employment) (rows : list ShiftPlan) (summary : MonthSummary)
    (t : plan_totals) (cur : date) : result plan_totals :=
  let direct_row := plan_by_key rows (em_id e) cur in
  let? day_summary := day_of_summary summary cur in
  let? mins := planned_minutes_of_day day_summary in
  let? day := plan_day_out e direct_row cur day_summary in
  Ok (mk_totals (pt_days t ++ [day]) (pt_minutes t + mins)
    (pt_scheduled t + as_int match direct_row with
       | Some p => is_some (sp_arrival_time p) && is_some (sp_departure_time p)
       | None => false end)
    (pt_holiday t + as_int match direct_row with
       | Some p => status_is (sp_status p) DAY_STATUS_HOLIDAY | None => false end)
    (pt_off t + as_int match direct_row with
       | Some p => status_is (sp_status p) DAY_STATUS_OFF | None => false end)).

Definition admin_plan_row (db : DB) (year month : Z) (rows : list ShiftPlan)
    (plan_locked_ids attendance_locked_ids : list Z) (summaries : list (Z * MonthSummary))
    (e : Employment) : result ShiftPlanRowOut :=
  let '(start, stop) := month_range year month in
  let? summary := summary_of summaries (em_id e) in
  let? totals := fold_result (plan_day_step e rows summary) (month_days start stop)
    (mk_totals [] 0 0 0 0) in
  let? tenths := planned_tenths summary in
  Ok (mk_plan_row (em_id e) (em_user_id e) (user_name_of db e) (em_title e)
    (employment_type_value (em_employment_type e))
    (employment_label db e (Some (user_name_of db e)))
    (isoformat (em_start_date e)) (isoformat <$> em_end_date e)
    (employment_is_active_in_month db e start stop)
    (mem (em_id e) plan_locked_ids) (mem (em_id e) attendance_locked_ids)
    (display_metrics_for_employment e) (pt_days totals)
    (mk_plan_summary (pt_minutes totals) (hours_of_tenths tenths) (pt_scheduled totals)
      (pt_holiday totals) (pt_off totals) (planned_out summary)
      (status_metrics_out (ms_status_metrics summary)))).

Definition admin_get_shift_plan_month (db : DB) (year month : Z) : result ShiftPlanMonthOut :=
  query_month year month ?;;
  let '(start, stop) := month_range year month in
  let available := available_employments db start stop in
  let available_out := to_active_employment_out db start stop <$> available in
  match selected_employment_ids db year month with
  | [] => Ok (mk_plan_month year month [] available_out [])
  | selected_ids =>
      let plan_rows := plans_of_many db selected_ids start stop in
      let plan_locked := load_locked_employment_ids db LOCK_SHIFT_PLAN selected_ids year month in
      let attendance_locked :=
        load_locked_employment_ids db LOCK_ATTENDANCE selected_ids year month in
      let selected := where_ (λ e, mem (em_id e) selected_ids) available in
      let? summaries := build_month_summaries db selected year month false in
      let? rows := map_result
        (admin_plan_row db year month plan_rows plan_locked attendance_locked summaries) selected in
      Ok (mk_plan_month year month selected_ids available_out rows)
  end.
End PlanViews.
