(* ===== verification/PlanSheets.v ===== *)
(** * What the plan views show

    The employee's view of a group and the administration's view of a month
    are always produced for those who may see them, agree on every day they
    both show, and their totals are the sums of the days shown. *)

From S2P Require Import Prelude Calendar TimeParse Format PragueTime Models TimeIntervals TimeMetrics.
From S2P Require Import Locks EmploymentAccess DayStatus AttendanceEvents MonthSummary.
From S2P Require Import AttendanceApi SystemInvariant Groups ShiftPlanApi MonthViews MonthSheets PlanViews.
From Stdlib Require Import QArith.
#[local] Open Scope Z_scope.

(** ** The plan of one employment, as both views show it *)

Section PlanDays.
Context `{zone : PragueZone}.

Definition plan_days (e : Employment) (s : MonthSummary) : result (list ShiftPlanDayOut) :=
  map_result (λ ds, plan_day_out e (dy_plan ds) (dy_date ds) ds) (ms_day_summaries s).

Lemma plan_by_key_month db e ids y m d :
  em_id e ∈ ids → mk_date y m 1 <= d < next_month y m →
  plan_by_key (plans_of_many db ids (mk_date y m 1) (next_month y m)) (em_id e) d =
  last (where_ (λ p, sp_date p =? d)
    (plans_in db (em_id e) (mk_date y m 1) (next_month y m))).
Proof.
  intros He Hd. unfold plan_by_key, plans_of_many, plans_in. rewrite !where_where. f_equal.
  apply where_ext. intros p _. apply mem_true in He.
  destruct (sp_employment_id p =? em_id e) eqn:E; [|by rewrite !andb_false_l, ?andb_false_r].
  apply Z.eqb_eq in E. rewrite E, He. simpl. by rewrite ?andb_true_r.
Qed.

Lemma day_of_summary_found db e y m s ds :
  build_employment_summary db e y m false = Ok s → ds ∈ ms_day_summaries s →
  day_of_summary s (dy_date ds) = Ok ds.
Proof.
  intros Hs Hds. unfold day_of_summary. by rewrite (summary_day_found _ _ _ _ _ Hs _ Hds).
Qed.

Lemma plan_day_out_ok e p d ds n :
  planned_minutes_of_day ds = Ok n → 0 <= n →
  ∃ o, plan_day_out e p d ds = Ok o ∧ pd_planned_minutes o = n.
Proof.
  intros Hn Hpos. unfold plan_day_out, planned_hours_of_day. rewrite Hn. cbn [rbind].
  rewrite metric_value_ok by done. by eexists.
Qed.

Lemma plan_day_out_minutes e p d ds o :
  plan_day_out e p d ds = Ok o → planned_minutes_of_day ds = Ok (pd_planned_minutes o).
Proof.
  unfold plan_day_out. intros (n & Hn & H)%rbind_ok. apply rbind_ok in H as (h & _ & [= <-]). done.
Qed.

Context (db : DB) (e : Employment) (y m : Z) (s : MonthSummary).
Context (Hi : inv db) (Hs : build_employment_summary db e y m false = Ok s).

Lemma plan_days_ok : ∃ days, plan_days e s = Ok days.
Proof.
  apply map_result_total. intros ds Hds.
  destruct (planned_minutes_of_day_ok _ _ _ _ _ Hs _ (inv_plans _ Hi) Hds) as (n & Hn & Hpos).
  destruct (plan_day_out_ok e (dy_plan ds) (dy_date ds) ds n Hn Hpos) as (o & Ho & _). by exists o.
Qed.

(** The total of the month is the sum of the days shown. *)
Lemma planned_minutes_days days :
  plan_days e s = Ok days → planned_minutes s = Ok (sum_Z (pd_planned_minutes <$> days)).
Proof.
  unfold planned_minutes, plan_days. intros H.
  assert (map_result planned_minutes_of_day (ms_day_summaries s) =
    Ok (pd_planned_minutes <$> days)) as ->; [|done].
  revert days H. induction (ms_day_summaries s) as [|ds l IH]; intros days; simpl; [by intros [= <-]|].
  intros (o & Ho & (os & Hos & [= <-])%rbind_ok)%rbind_ok.
  rewrite (plan_day_out_minutes _ _ _ _ _ Ho). cbn [rbind]. by rewrite (IH _ Hos).
Qed.

(** The loop of the group view over the days. *)
Lemma group_days ids :
  em_id e ∈ ids →
  map_result (λ day,
    let? day_summary := day_of_summary s day in
    plan_day_out e (plan_by_key (plans_of_many db ids (mk_date y m 1) (next_month y m)) (em_id e) day)
      day day_summary) (month_days (mk_date y m 1) (next_month y m)) = plan_days e s.
Proof.
  intros He. apply (map_summary_days _ _ _ _ _ Hs). intros ds Hds.
  rewrite (day_of_summary_found _ _ _ _ _ _ Hs Hds). cbn [rbind].
  rewrite plan_by_key_month by (done || by eapply summary_day_range).
  by destruct (summary_day_rows _ _ _ _ _ Hs _ Hds) as [<- _].
Qed.

(** *** The totals of the administration's loop *)

Definition scheduled_day (o : ShiftPlanDayOut) : bool :=
  is_some (pd_arrival_time o) && is_some (pd_departure_time o).
Definition status_day (value : string) (o : ShiftPlanDayOut) : bool :=
  status_is (pd_status o) value.
Definition count_days (p : ShiftPlanDayOut → bool) (days : list ShiftPlanDayOut) : Z :=
  Z.of_nat (length (where_ p days)).

Lemma count_days_cons p o days : count_days p (o :: days) = as_int (p o) + count_days p days.
Proof. unfold count_days, where_. simpl. destruct (p o); simpl; lia. Qed.

Definition add_totals (t : plan_totals) (days : list ShiftPlanDayOut) : plan_totals :=
  mk_totals (pt_days t ++ days) (pt_minutes t + sum_Z (pd_planned_minutes <$> days))
    (pt_scheduled t + count_days scheduled_day days)
    (pt_holiday t + count_days (status_day DAY_STATUS_HOLIDAY) days)
    (pt_off t + count_days (status_day DAY_STATUS_OFF) days).

Lemma add_totals_cons t o days :
  add_totals (add_totals t [o]) days = add_totals t (o :: days).
Proof.
  unfold add_totals. csimpl. rewrite !count_days_cons. f_equal; [by rewrite <- app_assoc| |..];
    unfold count_days, where_, sum_Z; simpl; lia.
Qed.

Lemma plan_day_step_ok ids t ds o :
  em_id e ∈ ids → ds ∈ ms_day_summaries s → plan_day_out e (dy_plan ds) (dy_date ds) ds = Ok o →
  plan_day_step e (plans_of_many db ids (mk_date y m 1) (next_month y m)) s t (dy_date ds) =
  Ok (add_totals t [o]).
Proof.
  intros He Hds Ho. unfold plan_day_step.
  rewrite (day_of_summary_found _ _ _ _ _ _ Hs Hds). cbn [rbind].
  rewrite plan_by_key_month by (done || by eapply summary_day_range).
  destruct (summary_day_rows _ _ _ _ _ Hs _ Hds) as [<- _].
  rewrite (plan_day_out_minutes _ _ _ _ _ Ho). cbn [rbind]. rewrite Ho. cbn [rbind].
  unfold plan_day_out in Ho. apply rbind_ok in Ho as (n & Hn & Ho).
  apply rbind_ok in Ho as (h & _ & [= <-]). unfold add_totals. rewrite !count_days_cons.
  unfold count_days. csimpl. unfold scheduled_day, status_day. simpl.
  destruct (dy_plan ds) as [p|]; simpl; do 2 f_equal; try lia; unfold sum_Z; simpl; lia.
Qed.

Lemma admin_totals ids days :
  em_id e ∈ ids → plan_days e s = Ok days →
  fold_result (plan_day_step e (plans_of_many db ids (mk_date y m 1) (next_month y m)) s)
    (month_days (mk_date y m 1) (next_month y m)) (mk_totals [] 0 0 0 0) =
  Ok (add_totals (mk_totals [] 0 0 0 0) days).
Proof.
  intros He. rewrite <- (summary_days _ _ _ _ _ _ Hs). unfold plan_days.
  assert (Hall : ∀ ds, ds ∈ ms_day_summaries s → ds ∈ ms_day_summaries s) by done.
  revert Hall. generalize (ms_day_summaries s) at 1 3 4 as l. intros l.
  generalize (mk_totals [] 0 0 0 0) as t. revert days.
  induction l as [|ds l IH]; intros days t Hall; simpl.
  { intros [= <-]. f_equal. unfold add_totals. csimpl. rewrite app_nil_r.
    destruct t. simpl. unfold count_days, sum_Z. simpl. f_equal; lia. }
  intros (o & Ho & (os & Hos & [= <-])%rbind_ok)%rbind_ok.
  rewrite (plan_day_step_ok _ _ _ o) by (done || apply Hall; left). cbn [rbind].
  rewrite (IH os) by (done || intros x Hx; apply Hall; by right). by rewrite add_totals_cons.
Qed.
End PlanDays.

(** ** Rows *)

Section Rows.
Context `{zone : PragueZone}.

Lemma summaries_ok db es y m :
  inv db → (∀ e, e ∈ es → e ∈ employments db) →
  ∃ l, build_month_summaries db es y m false = Ok l ∧
    ∀ e, e ∈ es → ∃ s, summary_of l (em_id e) = Ok s ∧
      build_employment_summary db e y m false = Ok s.
Proof.
  intros Hi Hes. unfold build_month_summaries.
  edestruct (map_result_total (λ e, let? s := build_employment_summary db e y m false in
    Ok (em_id e, s)) es) as [l Hl].
  { intros e _. destruct (build_summary_total db e y m (inv_plans _ Hi)) as [s ->]. by eexists. }
  exists l. split; [done|]. intros e He. unfold summary_of.
  destruct (map_result_elem_2 _ _ _ _ Hl He) as (p & Hp & Hb).
  apply rbind_ok in Hb as (s & Hs & [= <-]).
  destruct (last _) as [q|] eqn:E; simpl.
  - apply last_Some_elem_of, elem_of_where in E as [Hq Hid%Z.eqb_eq].
    destruct (map_result_elem _ _ _ Hl _ Hq) as (e' & He' & Hb).
    apply rbind_ok in Hb as (s' & Hs' & [= <-]). simpl in *.
    assert (e' = e) as -> by (apply (NoDup_fmap_eq em_id (employments db)); auto; apply Hi).
    by exists s'.
  - apply last_None in E. rewrite where_nil_iff in E. specialize (E _ Hp). simpl in E.
    by rewrite Z.eqb_refl in E.
Qed.

(** A month's plan of one employment: its days and its total. *)
Record plan_shown (db : DB) (e : Employment) (y m : Z) (days : list ShiftPlanDayOut)
    (total : Z) (hours : Q) : Prop := {
  sw_days : ∃ s, build_month_summary db e y m false = Ok s ∧ plan_days e s = Ok days ∧
    planned_minutes s = Ok total ∧ ∃ n, planned_tenths s = Ok n ∧ hours = hours_of_tenths n;
  sw_total : total = sum_Z (pd_planned_minutes <$> days);
  sw_dates : pd_date <$> days = isoformat <$> month_days (mk_date y m 1) (next_month y m);
}.

Lemma plan_days_dates e s days :
  plan_days e s = Ok days → pd_date <$> days = isoformat <$> (dy_date <$> ms_day_summaries s).
Proof.
  intros H. rewrite <- list_fmap_compose. eapply map_result_key; [|exact H].
  intros ds o Ho. unfold plan_day_out in Ho. apply rbind_ok in Ho as (n & _ & Ho).
  by apply rbind_ok in Ho as (h & _ & [= <-]).
Qed.

Lemma plan_shown_ok db e y m s :
  inv db → build_employment_summary db e y m false = Ok s →
  ∃ days n, plan_days e s = Ok days ∧ planned_tenths s = Ok n ∧
    planned_minutes s = Ok (sum_Z (pd_planned_minutes <$> days)) ∧
    plan_shown db e y m days (sum_Z (pd_planned_minutes <$> days)) (hours_of_tenths n).
Proof.
  intros Hi Hs. destruct (plan_days_ok db e y m s Hi Hs) as [days Hdays].
  destruct (planned_tenths_ok _ _ _ _ _ Hs (inv_plans _ Hi)) as [n Hn].
  pose proof (planned_minutes_days e s days Hdays) as Ht.
  exists days, n. split_and!; [done..|]. constructor; [|done|].
  - exists s. rewrite build_month_summary_single. split_and!; [done..|]. by exists n.
  - by rewrite (plan_days_dates _ _ _ Hdays), (summary_days _ _ _ _ _ _ Hs).
Qed.

(** What a row of the group view says about its employment. *)
Record group_row_shown (db : DB) (auth : PortalUserAuth) (y m : Z) (e : Employment)
    (r : GroupShiftPlanRowOut) : Prop := {
  gs_id : gr_employment_id r = em_id e;
  gs_plan : plan_shown db e y m (gr_days r) (gr_planned_minutes r) (gr_planned_hours r);
  gs_own : gr_is_own_employment r = true ↔ em_user_id e = pu_id (auth_user auth);
  gs_locked : gr_shift_plan_locked r = is_month_locked db LOCK_SHIFT_PLAN (em_id e) y m;
}.

Lemma group_row_ok db auth y m ids l e s :
  inv db → em_id e ∈ ids → build_employment_summary db e y m false = Ok s →
  summary_of l (em_id e) = Ok s →
  ∃ r, group_row db auth y m (plans_of_many db ids (mk_date y m 1) (next_month y m)) l e = Ok r ∧
    group_row_shown db auth y m e r.
Proof.
  intros Hi He Hs Hl. destruct (plan_shown_ok db e y m s Hi Hs) as (days & n & Hd & Hn & Hm & Hsh).
  unfold group_row, month_range. rewrite Hl. cbn [rbind].
  rewrite (group_days db e y m s Hs) by done. rewrite Hd. cbn [rbind]. rewrite Hm. cbn [rbind].
  rewrite Hn. cbn [rbind]. eexists. split; [done|]. constructor; simpl; [done|done| |done].
  by rewrite Z.eqb_eq.
Qed.

Lemma mem_locked_ids db t ids i y m :
  i ∈ ids → mem i (load_locked_employment_ids db t ids y m) = is_month_locked db t i y m.
Proof.
  intros Hi. apply eq_true_iff_eq. rewrite mem_true, is_month_locked_true.
  unfold load_locked_employment_ids. destruct ids as [|j ids]; [by apply elem_of_nil in Hi|].
  rewrite list_elem_of_fmap. setoid_rewrite elem_of_where. setoid_rewrite mem_lock_in. split.
  - intros (k & -> & Hk & _ & ? & ?). by exists k.
  - intros (k & Hk & <- & ? & ?). by exists k.
Qed.

(** What a row of the administration's view says. *)
Record admin_row_shown (db : DB) (y m : Z) (e : Employment) (r : ShiftPlanRowOut) : Prop := {
  aw_id : pr_employment_id r = em_id e;
  aw_plan : plan_shown db e y m (pr_days r) (ps_planned_minutes (pr_summary r))
    (ps_planned_hours (pr_summary r));
  aw_scheduled : ps_scheduled_days (pr_summary r) = count_days scheduled_day (pr_days r);
  aw_holiday : ps_holiday_days (pr_summary r) =
    count_days (status_day DAY_STATUS_HOLIDAY) (pr_days r);
  aw_off : ps_off_days (pr_summary r) = count_days (status_day DAY_STATUS_OFF) (pr_days r);
  aw_plan_locked : pr_shift_plan_locked r = is_month_locked db LOCK_SHIFT_PLAN (em_id e) y m;
  aw_attendance_locked :
    pr_attendance_locked r = is_month_locked db LOCK_ATTENDANCE (em_id e) y m;
}.

Lemma admin_plan_row_ok db y m ids l e s :
  inv db → em_id e ∈ ids → build_employment_summary db e y m false = Ok s →
  summary_of l (em_id e) = Ok s →
  ∃ r, admin_plan_row db y m (plans_of_many db ids (mk_date y m 1) (next_month y m))
      (load_locked_employment_ids db LOCK_SHIFT_PLAN ids y m)
      (load_locked_employment_ids db LOCK_ATTENDANCE ids y m) l e = Ok r ∧
    admin_row_shown db y m e r.
Proof.
  intros Hi He Hs Hl. destruct (plan_shown_ok db e y m s Hi Hs) as (days & n & Hd & Hn & Hm & Hsh).
  unfold admin_plan_row, month_range. rewrite Hl. cbn [rbind].
  rewrite (admin_totals db e y m s Hs ids days He Hd). cbn [rbind].
  rewrite Hn. cbn [rbind]. eexists. split; [done|].
  constructor; simpl; first [done|by apply mem_locked_ids|idtac].
Qed.

(** A list of rows, one per employment. *)
Lemma map_rows {R} (f : Employment → result R) (key : R → Z) (P : Employment → R → Prop) es :
  (∀ e, e ∈ es → ∃ r, f e = Ok r ∧ key r = em_id e ∧ P e r) →
  ∃ rows, map_result f es = Ok rows ∧ key <$> rows = em_id <$> es ∧
    ∀ r, r ∈ rows → ∃ e, e ∈ es ∧ P e r.
Proof.
  induction es as [|e es IH]; intros H.
  { exists []. split_and!; [done..|]. intros r Hr. by apply elem_of_nil in Hr. }
  destruct (H e ltac:(left)) as (r & Hr & Hk & HP).
  destruct IH as (rows & Hrows & Hks & HPs); [intros x Hx; apply H; by right|].
  exists (r :: rows). simpl. rewrite Hr. cbn [rbind]. rewrite Hrows. split_and!; [done|by csimpl; f_equal|].
  intros r' [->|Hr']%elem_of_cons; [by exists e; split; [left|]|].
  destruct (HPs _ Hr') as (x & Hx & Hxr). exists x. split; [by right|done].
Qed.
End Rows.

(** ** Properties *)

Section Properties.
Context `{zone : PragueZone}.

(** What [employment.user.is_active] and the overlap with a month say. *)
Definition account_is_active (db : DB) (e : Employment) : Prop :=
  ∃ u, user_of db e = Some u ∧ pu_is_active u = true.
Definition meets (start stop : date) (e : Employment) : Prop :=
  em_start_date e < stop ∧ ∀ l, em_end_date e = Some l → start <= l.

Lemma active_user_iff db e : is_some (active_user db e) = true ↔ account_is_active db e.
Proof.
  unfold active_user, account_is_active. destruct (user_of db e) as [u|]; simpl.
  - destruct (pu_is_active u) eqn:E; split; try done; [by exists u|].
    intros (u' & [= <-] & ?). congruence.
  - split; [done|]. by intros (? & ? & _).
Qed.

Lemma overlaps_meets start stop e :
  employment_overlaps_month e start stop = true ↔ meets start stop e.
Proof.
  unfold employment_overlaps_month, meets. destruct (stop <=? em_start_date e) eqn:E; bool_hyps.
  - split; [done|lia].
  - destruct (em_end_date e) as [l|]; [|done]. rewrite negb_true_iff, Z.ltb_ge.
    split; [intros H; split; [lia|by intros ? [= <-]]|]. intros [_ H]. by apply H.
Qed.

Lemma active_in_month_iff db start stop e :
  active_in_month db start stop e = true ↔ account_is_active db e ∧ meets start stop e.
Proof. unfold active_in_month. by rewrite andb_true_iff, active_user_iff, overlaps_meets. Qed.

(** Who may open the plan of a group in a month. *)
Definition sees_group (db : DB) (auth : PortalUserAuth) (group_id : Z) (start stop : date) : Prop :=
  pu_is_active (auth_user auth) = true ∧
  ∃ group e, get_group db group_id = Some group ∧ e ∈ member_employments db group_id ∧
    em_user_id e = pu_id (auth_user auth) ∧ account_is_active db e ∧ meets start stop e.

Lemma member_employments_elem db g e :
  e ∈ member_employments db g → e ∈ employments db ∧ em_id e ∈ group_members db g.
Proof.
  unfold member_employments. rewrite list_elem_of_omap. intros (i & Hi & He).
  apply get_employment_ok in He as [He <-]. done.
Qed.

Lemma accessible_group_ok db auth g start stop :
  (∃ group, get_group db g = Some group ∧ accessible_group db auth g start stop = Ok group ∧
     sees_group db auth g start stop) ∨
  (accessible_group db auth g start stop = Err group_not_found ∧ ¬ sees_group db auth g start stop).
Proof.
  unfold accessible_group, sees_group. destruct (get_group db g) as [group|] eqn:Hg.
  2:{ right. split; [done|]. intros (_ & ? & ? & ? & _). done. }
  apply get_group_some in Hg as Hid. destruct Hid as [_ Hid]. cbn [or_raise rbind]. rewrite Hid.
  rewrite <- negb_andb. destruct (_ && _) eqn:E; cbn [guard rbind negb].
  - left. exists group. split_and!; [done..| |]; bool_hyps; [done|].
    apply existsb_elem in H0 as (e & He & Hc). bool_hyps.
    apply active_in_month_iff in H1 as [H1 H2]. by exists group, e.
  - right. split; [done|]. intros (Ha & group' & e & _ & He & Hu & Hact%active_in_month_iff). rewrite Ha in E. simpl in E.
    rewrite existsb_false_elem in E. specialize (E _ He). rewrite Hu, Z.eqb_refl, Hact in E. done.
Qed.

Lemma group_plan_ok name_key db auth g y m (Hi : inv db) (Hq : bad_month y m = false) :
  (¬ sees_group db auth g (mk_date y m 1) (next_month y m) →
    portal_get_group_shift_plan_month name_key db auth g y m = Err group_not_found) ∧
  (sees_group db auth g (mk_date y m 1) (next_month y m) →
    ∃ group out, get_group db g = Some group ∧
      portal_get_group_shift_plan_month name_key db auth g y m = Ok out ∧
      gp_group_id out = g ∧ gp_group_name out = eg_name group ∧
      (gr_employment_id <$> gp_rows out ≡ₚ
        em_id <$> where_ (active_in_month db (mk_date y m 1) (next_month y m))
          (member_employments db g)) ∧
      ∀ r, r ∈ gp_rows out → ∃ e, e ∈ employments db ∧ group_row_shown db auth y m e r).
Proof.
  unfold portal_get_group_shift_plan_month. rewrite Hq. cbn [guard rbind month_range].
  destruct (accessible_group_ok db auth g (mk_date y m 1) (next_month y m))
    as [(group & Hg & -> & Hsees)|[-> Hnot]]; (split; [|]); try done; cbn [rbind].
  intros _. apply get_group_some in Hg as Hid. destruct Hid as [_ Hid]. rewrite Hid.
  set (es := where_ _ (member_employments db g)).
  assert (Hes : ∀ e, e ∈ es → e ∈ employments db).
  { intros e [He _]%elem_of_where. by apply member_employments_elem in He as []. }
  destruct (summaries_ok db es y m Hi Hes) as (l & Hl & Hsum). rewrite Hl. cbn [rbind].
  edestruct (map_rows (group_row db auth y m
    (plans_of_many db (em_id <$> es) (mk_date y m 1) (next_month y m)) l)
    gr_employment_id (group_row_shown db auth y m) (sorted_by (member_leb name_key db) es))
    as (rows & Hrows & Hids & Hshown).
  { intros e He%elem_of_sorted_by. destruct (Hsum e He) as (s & Hs & Hb).
    destruct (group_row_ok db auth y m (em_id <$> es) l e s) as (r & Hr & Hsh); [done| |done..|].
    - by apply list_elem_of_fmap_2.
    - exists r. split_and!; [done|apply Hsh|done]. }
  rewrite Hrows. cbn [rbind]. exists group. eexists. split_and!; [done..| |].
  - cbn [gp_rows]. by rewrite Hids, sorted_by_perm.
  - intros r Hr. destruct (Hshown _ Hr) as (e & He%elem_of_sorted_by & Hsh). exists e.
    split; [by apply Hes|done].
Qed.

(** The list of a month offers exactly the groups that can be opened. *)
Theorem listed_groups_open name_leb db auth g y m
    (Hu : NoDup (eg_id <$> groups db)) (Hq : bad_month y m = false)
    (Ha : pu_is_active (auth_user auth) = true) :
  (∃ l, portal_list_shift_plan_groups name_leb db auth y m = Ok l ∧ g ∈ go_id <$> l) ↔
  sees_group db auth g (mk_date y m 1) (next_month y m).
Proof.
  unfold portal_list_shift_plan_groups. rewrite Hq. cbn [guard rbind month_range]. split.
  - intros (l & [= <-] & Hg). rewrite <- list_fmap_compose in Hg.
    apply list_elem_of_fmap in Hg as (group & -> & Hg). simpl.
    apply elem_of_sorted_by, elem_of_where in Hg as [Hg Hm].
    apply existsb_elem in Hm as (e & He & Hc). apply andb_true_iff in Hc as [Hc Hin].
    apply andb_true_iff in Hc as [Hc Hact]. split; [done|].
    exists group, e.
    split; [|split; [done|split; [by apply Z.eqb_eq|split]]].
    + unfold get_group, one_or_none. destruct (head _) as [x|] eqn:E.
      * apply head_Some_elem_of, elem_of_where in E as [Hx Hid%Z.eqb_eq].
        f_equal. by apply (NoDup_fmap_eq eg_id (groups db)).
      * apply head_None in E. rewrite where_nil_iff in E. specialize (E _ Hg). simpl in E.
        by rewrite Z.eqb_refl in E.
    + by apply active_user_iff.
    + by apply overlaps_meets; rewrite <- in_month_overlaps.
  - intros (_ & group & e & Hg & He & Hue & Hact & Ho). eexists. split; [done|].
    apply get_group_some in Hg as [Hg <-]. rewrite <- list_fmap_compose.
    apply list_elem_of_fmap. exists group. split; [done|]. apply elem_of_sorted_by, elem_of_where.
    split; [done|]. apply existsb_elem. exists e. split; [done|].
    rewrite Hue, Z.eqb_refl, in_month_overlaps. simpl.
    by apply andb_true_iff; split; [apply active_user_iff|apply overlaps_meets].
Qed.

Lemma bad_month_query y m : 2000 <= y <= 2100 → 1 <= m <= 12 → bad_month y m = false.
Proof. intros Hy Hm. unfold bad_month. rewrite !orb_false_iff, !Z.ltb_ge. lia. Qed.

Lemma admin_plan_ok db y m (Hi : inv db) (Hy : 2000 <= y <= 2100) (Hm : 1 <= m <= 12) :
  ∃ out, admin_get_shift_plan_month db y m = Ok out ∧
    pm_selected_employment_ids out = selected_employment_ids db y m ∧
    (ae_id <$> pm_available_employments out =
      em_id <$> available_employments db (mk_date y m 1) (next_month y m)) ∧
    (pr_employment_id <$> pm_rows out =
      em_id <$> where_ (λ e, mem (em_id e) (selected_employment_ids db y m))
        (available_employments db (mk_date y m 1) (next_month y m))) ∧
    ∀ r, r ∈ pm_rows out → ∃ e, e ∈ employments db ∧ admin_row_shown db y m e r.
Proof.
  unfold admin_get_shift_plan_month. rewrite (proj2 (query_month_iff y m tt)) by done.
  cbn [rbind month_range].
  set (av := available_employments db _ _). set (ids := selected_employment_ids db y m).
  destruct ids as [|i ids'] eqn:E.
  { eexists. split; [done|]. simpl. rewrite <- list_fmap_compose. split_and!; [done|done| |].
    - rewrite (proj2 (where_nil_iff _ _)); [done|]. intros e _. by apply mem_false, not_elem_of_nil.
    - intros r Hr. by apply elem_of_nil in Hr. }
  rewrite <- E. set (es := where_ _ av).
  assert (Hes : ∀ e, e ∈ es → e ∈ employments db).
  { intros e [[He _]%elem_of_where _]%elem_of_where. apply elem_of_sorted_by in He.
    by apply elem_of_where in He as []. }
  destruct (summaries_ok db es y m Hi Hes) as (l & Hl & Hsum). rewrite Hl. cbn [rbind].
  edestruct (map_rows (admin_plan_row db y m
      (plans_of_many db ids (mk_date y m 1) (next_month y m))
      (load_locked_employment_ids db LOCK_SHIFT_PLAN ids y m)
      (load_locked_employment_ids db LOCK_ATTENDANCE ids y m) l)
    pr_employment_id (admin_row_shown db y m) es) as (rows & Hrows & Hids & Hshown).
  { intros e He. destruct (Hsum e He) as (s & Hs & Hb).
    destruct (admin_plan_row_ok db y m ids l e s) as (r & Hr & Hsh); [done| |done..|].
    - apply elem_of_where in He as [_ He]. by apply mem_true.
    - exists r. split_and!; [done|apply Hsh|done]. }
  rewrite Hrows. cbn [rbind]. eexists. split; [done|]. simpl. rewrite <- list_fmap_compose.
  split_and!; [done..|]. intros r Hr. destruct (Hshown _ Hr) as (e & He & Hsh). exists e. auto.
Qed.

(** A month's plan of one employment is determined. *)
Lemma plan_shown_unique db e y m days total hours days' total' hours' :
  plan_shown db e y m days total hours → plan_shown db e y m days' total' hours' →
  days = days' ∧ total = total' ∧ hours = hours'.
Proof.
  intros [(s & Hs & Hd & Ht & n & Hn & ->) _ _] [(s' & Hs' & Hd' & Ht' & n' & Hn' & ->) _ _].
  split_and!; congruence.
Qed.

(** C29: The plan of a group is shown to nobody but an active user with a
    valid employment of an active account in that group and month; everybody
    else gets the answer of a group that does not exist.  A member always gets
    the plan: one row per active employment of the group, own rows marked, each
    with the whole month, its lock and the total of its days. *)
Theorem group_plan_members name_key db auth g y m (Hi : inv db) (Hq : bad_month y m = false) :
  (¬ sees_group db auth g (mk_date y m 1) (next_month y m) →
    portal_get_group_shift_plan_month name_key db auth g y m = Err group_not_found) ∧
  (sees_group db auth g (mk_date y m 1) (next_month y m) →
    ∃ group out, get_group db g = Some group ∧
      portal_get_group_shift_plan_month name_key db auth g y m = Ok out ∧
      gp_group_id out = g ∧ gp_group_name out = eg_name group ∧
      (gr_employment_id <$> gp_rows out ≡ₚ
        em_id <$> where_ (active_in_month db (mk_date y m 1) (next_month y m))
          (member_employments db g)) ∧
      ∀ r, r ∈ gp_rows out → ∃ e, e ∈ employments db ∧ group_row_shown db auth y m e r).
Proof. by apply group_plan_ok. Qed.

(** C30: The administration's plan of a month is always produced: the rows are
    the selected employments of the month, each with the plan of every day, the
    total of exactly the days shown, the numbers of planned, holiday and free
    days among them, and the state of both locks. *)
Theorem admin_plan_month_spec db y m (Hi : inv db) (Hy : 2000 <= y <= 2100) (Hm : 1 <= m <= 12) :
  ∃ out, admin_get_shift_plan_month db y m = Ok out ∧
    pm_selected_employment_ids out = selected_employment_ids db y m ∧
    (ae_id <$> pm_available_employments out =
      em_id <$> available_employments db (mk_date y m 1) (next_month y m)) ∧
    (pr_employment_id <$> pm_rows out =
      em_id <$> where_ (λ e, mem (em_id e) (selected_employment_ids db y m))
        (available_employments db (mk_date y m 1) (next_month y m))) ∧
    ∀ r, r ∈ pm_rows out → ∃ e, e ∈ employments db ∧ admin_row_shown db y m e r.
Proof. by apply admin_plan_ok. Qed.

(** C31: The plan an employee sees in a group and the plan the administration
    sees are the same: for an employment shown by both, every day, the total,
    the hours and the lock of the plan agree. *)
Theorem plan_views_agree name_key db auth g y m group_out admin_out r r' (Hi : inv db)
    (Hg : portal_get_group_shift_plan_month name_key db auth g y m = Ok group_out)
    (Ha : admin_get_shift_plan_month db y m = Ok admin_out)
    (Hr : r ∈ gp_rows group_out) (Hr' : r' ∈ pm_rows admin_out)
    (Hid : gr_employment_id r = pr_employment_id r') :
  gr_days r = pr_days r' ∧ gr_planned_minutes r = ps_planned_minutes (pr_summary r') ∧
  gr_planned_hours r = ps_planned_hours (pr_summary r') ∧
  gr_shift_plan_locked r = pr_shift_plan_locked r'.
Proof.
  assert (Hq : bad_month y m = false ∧ 2000 <= y <= 2100 ∧ 1 <= m <= 12).
  { unfold admin_get_shift_plan_month in Ha. apply rbind_ok in Ha as (u & Hq & _).
    apply query_month_iff in Hq as [Hy Hm]. split; [by apply bad_month_query|done]. }
  destruct Hq as (Hq & Hy & Hm).
  destruct (group_plan_ok name_key db auth g y m Hi Hq) as [Hno Hyes].
  destruct (admin_plan_ok db y m Hi Hy Hm) as (out' & Ha' & _ & _ & _ & Hrows').
  rewrite Ha in Ha'. injection Ha' as <-.
  destruct (accessible_group_ok db auth g (mk_date y m 1) (next_month y m))
    as [(_ & _ & _ & Hsees)|[_ Hnot]]; [|by rewrite Hno in Hg].
  destruct (Hyes Hsees) as (_ & out & _ & Hg' & _ & _ & _ & Hrows). rewrite Hg in Hg'.
  injection Hg' as <-.
  destruct (Hrows _ Hr) as (e & He & [Hre Hplan _ Hlock]).
  destruct (Hrows' _ Hr') as (e' & He' & [Hre' Hplan' _ _ _ Hlock' _]).
  assert (e' = e) as ->.
  { apply (NoDup_fmap_eq em_id (employments db)); [apply Hi|done|done|congruence]. }
  destruct (plan_shown_unique _ _ _ _ _ _ _ _ _ _ Hplan Hplan') as (-> & -> & ->).
  by rewrite Hlock, Hlock'.
Qed.
End Properties.
