(* ===== verification/CsvExport.v ===== *)
(** * api/v1/admin_export.py: attendance as CSV files

    The file of one employment and month, and the archive of a month, with
    utils/slugify.py for their names.  A ZIP archive is the list of its entries
    in order: the compression is the library's.  A float of hours is printed by
    the shortest text that reads as it, which for tenths is one decimal.

    A name is made of runs: white space and every character outside the
    allowed set become one underscore.  [strip_diacritics] is a parameter, the
    Unicode decomposition of [unicodedata]; on the UTF-8 bytes it leaves, a
    byte outside ASCII is a forbidden character like any other, which gives the
    same name because runs of underscores are collapsed.

    [csv.writer(buf, delimiter=",", quoting=csv.QUOTE_MINIMAL)] comes with a
    reader of the format (RFC 4180) as its specification.  A file is read back
    exactly as it was written: no cell can break out of its column. *)

From stdpp Require Import pretty.
From S2P Require Import Prelude Calendar TimeParse Format PragueTime IsoText Models TimeIntervals.
From S2P Require Import TimeMetrics EmploymentAccess DayStatus AttendanceEvents MonthSummary AttendanceApi.
From S2P Require Import ShiftPlanApi MonthViews.
#[local] Open Scope Z_scope.

(** ** File names (utils/slugify.py) *)

Definition underscore : ascii := "_"%char.
Definition dash : ascii := "-"%char.

(** [re.sub("[p]+", c, value)]; [inside] when the run has been replaced. *)
Fixpoint sub_runs (p : ascii → bool) (c : ascii) (inside : bool) (l : list ascii) : list ascii :=
  match l with
  | [] => []
  | x :: l' =>
      if p x then if inside then sub_runs p c true l' else c :: sub_runs p c true l'
      else x :: sub_runs p c false l'
  end.

(** [[a-z0-9_-]]. *)
Definition allowed_char (c : ascii) : bool :=
  ((97 <=? code c) && (code c <=? 122)) || is_digit c || Ascii.eqb c underscore || Ascii.eqb c dash.

Definition separator (c : ascii) : bool := Ascii.eqb c underscore || Ascii.eqb c dash.

(** [value.rstrip("_-")] and [value.strip("_-")]. *)
Fixpoint drop_separators (l : list ascii) : list ascii :=
  match l with c :: l' => if separator c then drop_separators l' else l | [] => [] end.
Definition rstrip_separators (l : list ascii) : list ascii := rev (drop_separators (rev l)).
Definition strip_separators (l : list ascii) : list ascii :=
  rstrip_separators (drop_separators l).

(** [if not value: value = "instance"]. *)
Definition or_instance (l : list ascii) : list ascii :=
  match l with [] => list_ascii_of_string "instance" | _ => l end.

Definition MAX_LEN : nat := 80.

Section Slugify.
Context (strip_diacritics : list ascii → list ascii).

Definition slug_chars (value : list ascii) : list ascii :=
  let value := lower_char <$> strip_diacritics (strip_chars value) in
  let value := sub_runs is_space underscore false value in
  let value := sub_runs (λ c, negb (allowed_char c)) underscore false value in
  let value := sub_runs (Ascii.eqb underscore) underscore false value in
  let value := sub_runs (Ascii.eqb dash) dash false value in
  let value := or_instance (strip_separators value) in
  if Nat.ltb MAX_LEN (length value)
  then or_instance (rstrip_separators (take MAX_LEN value)) else value.

(** [slugify_filename(value)] with its default length. *)
Definition slugify_filename (value : option string) : string :=
  string_of_list_ascii (slug_chars (list_ascii_of_string (default EmptyString value))).
Definition filename_safe (value : option string) : string := slugify_filename value.
End Slugify.

(** ** CSV text *)

Definition comma : ascii := ","%char.
Definition quote : ascii := ascii_of_N 34.
Definition carriage_return : ascii := ascii_of_N 13.
Definition line_end : list ascii := [carriage_return; newline].

Definition special (c : ascii) : bool :=
  Ascii.eqb c comma || Ascii.eqb c quote || Ascii.eqb c carriage_return || Ascii.eqb c newline.

(** *** Writing *)

Fixpoint double_quotes (l : list ascii) : list ascii :=
  match l with
  | [] => []
  | c :: l' => if Ascii.eqb c quote then quote :: quote :: double_quotes l' else c :: double_quotes l'
  end.

(** A field is quoted when it holds a character of the format. *)
Definition csv_field (f : list ascii) : list ascii :=
  if existsb special f then quote :: double_quotes f ++ [quote] else f.

(** [w.writerow(row)], for a row of at least two fields. *)
Fixpoint csv_fields (row : list (list ascii)) : list ascii :=
  match row with
  | [] => []
  | [f] => csv_field f
  | f :: rest => csv_field f ++ comma :: csv_fields rest
  end.
Definition csv_row (row : list (list ascii)) : list ascii := csv_fields row ++ line_end.

Definition csv_file (rows : list (list (list ascii))) : list ascii := mjoin (csv_row <$> rows).

(** *** Reading *)

Inductive csv_mode := FieldStart | Plain | Quoted | QuoteSeen.

(** The characters left, the field and the fields of the row read so far, in
    reverse; [None] for a text that is not of the format. *)
Fixpoint csv_read (mode : csv_mode) (field : list ascii) (row : list (list ascii))
    (l : list ascii) : option (list (list (list ascii))) :=
  match l with
  | [] =>
      match mode, row with
      | FieldStart, [] => Some []
      | _, _ => None
      end
  | c :: l' =>
      match mode with
      | Quoted =>
          if Ascii.eqb c quote then csv_read QuoteSeen field row l'
          else csv_read Quoted (c :: field) row l'
      | _ =>
          if Ascii.eqb c comma then csv_read FieldStart [] (rev field :: row) l'
          else if Ascii.eqb c carriage_return then
            match l' with
            | n :: l'' =>
                if Ascii.eqb n newline
                then rows ← csv_read FieldStart [] [] l''; Some (rev (rev field :: row) :: rows)
                else None
            | [] => None
            end
          else if Ascii.eqb c quote then
            match mode with
            | FieldStart => csv_read Quoted [] row l'
            | QuoteSeen => csv_read Quoted (quote :: field) row l'
            | _ => None
            end
          else match mode with
               | QuoteSeen => None
               | _ => csv_read Plain (c :: field) row l'
               end
      end
  end.

Definition read_csv (l : list ascii) : option (list (list (list ascii))) := csv_read FieldStart [] [] l.

(** ** The month, the file and its cells *)

(** [_month_range]: the year and the month of ["YYYY-MM"]; [date(...)] is
    outside of the [try]. *)
Fixpoint split_dash (l cur : list ascii) : option (list ascii * list ascii) :=
  match l with
  | [] => None
  | c :: l' => if Ascii.eqb c dash then Some (rev cur, l') else split_dash l' (c :: cur)
  end.

Definition export_month (month_yyyy_mm : string) : result (Z * Z) :=
  let? (y_str, m_str) := or_raise (split_dash (list_ascii_of_string month_yyyy_mm) []) bad_request in
  let? y := or_raise (py_int y_str) bad_request in
  let? m := or_raise (py_int m_str) bad_request in
  guard (negb ((1 <=? m) && (m <=? 12))) bad_request ?;;
  guard (negb ((1 <=? y) && (y <=? 9999))) (Crash "ValueError") ?;;
  guard ((m =? 12) && (y =? 9999)) (Crash "ValueError") ?;;
  Ok (y, m).

(** [employment.user.name if employment.user else ...]. *)
Definition export_user_name (db : DB) (e : Employment) : string :=
  match user_of db e with
  | Some u => pu_name u
  | None => ("Uzivatel " +:+ pretty (em_user_id e))%string
  end.

Definition employment_display_name (db : DB) (e : Employment) : string :=
  (export_user_name db e +:+ " - " +:+ employment_type_value (em_employment_type e) +:+ " - " +:+
   em_title e)%string.

(** ** The cells of a file *)

Definition metric_labels : list (string * string) :=
  [("total", "odpracovano_h"); ("afternoon", "odpoledni_h"); ("night", "nocni_h");
   ("weekend", "vikend_h"); ("public_holiday", "svatek_h")]%string.
Definition status_metric_labels : list (status_metric_key * string) :=
  [(SK_holiday, "dovolena_h"); (SK_sickness, "nemoc_h"); (SK_paragraph, "paragraf_h")]%string.

Definition metric_label (key : string) : result string :=
  or_raise (snd <$> head (where_ (λ p, String.eqb p.1 key) metric_labels)) (Crash "KeyError").

Definition metric_name (key : metric_key) : string :=
  match key with
  | K_total => "total" | K_afternoon => "afternoon" | K_night => "night"
  | K_weekend => "weekend" | K_public_holiday => "public_holiday"
  end%string.

(** [day.worked.get(key) if day.worked else None]. *)
Definition worked_metric (day : AttendanceDayOut) (key : string) : option MetricOut :=
  items ← ad_worked day; p ← last (where_ (λ p, String.eqb (metric_name p.1) key) items); p.2.

(** [day.status_metrics.get(key)]. *)
Definition status_metric (day : AttendanceDayOut) (key : status_metric_key) : option MetricOut :=
  p ← last (where_ (λ p : status_metric_key * option MetricOut,
    match p.1, key with
    | SK_holiday, SK_holiday | SK_sickness, SK_sickness | SK_paragraph, SK_paragraph => true
    | _, _ => false
    end) (ad_status_metrics day)); p.2.

Definition hours_text (metric : option MetricOut) : string :=
  match metric with
  | Some v => (pretty (mo_tenths v / 10) +:+ "." +:+ pretty (mo_tenths v mod 10))%string
  | None => EmptyString
  end.

Definition has_tenths (metric : option MetricOut) : bool :=
  match metric with Some v => negb (mo_tenths v =? 0) | None => false end.

(** Cells of a row after [n] values, the rest empty. *)
Definition pad (n : nat) (l : list string) : list string := l ++ replicate (n - length l) EmptyString.

Definition numbered (prefix : string) (n : nat) : list string :=
  (λ index, (prefix +:+ pretty index)%string) <$> zrange 1 n.

Definition event_column_count (days : list AttendanceDayOut) : nat :=
  Nat.max 4 (max_list (length ∘ ad_events <$> days)).
Definition plan_column_count (days : list AttendanceDayOut) : nat :=
  Nat.max 2 (max_list ((λ day, length (option_list (ad_planned_arrival_time day) ++
                                       option_list (ad_planned_departure_time day))) <$> days)).

Definition export_header (out : AttendanceMonthOut) : result (list string) :=
  let? labels := map_result metric_label (am_display_metrics out) in
  Ok (["zamestnanec"; "uvazek"; "typ_uvazku"; "datum"; "stav_dne"]%string ++
    (snd <$> status_metric_labels) ++
    numbered "PRŮCHOD " (event_column_count (am_days out)) ++
    numbered "PLÁN – PRŮCHOD " (plan_column_count (am_days out)) ++ labels).

(** The days without anything to show are left out. *)
Definition day_is_empty (out : AttendanceMonthOut) (day : AttendanceDayOut) : bool :=
  negb (match ad_events day with [] => false | _ => true end) &&
  negb (truthy (ad_effective_status day)) &&
  negb (truthy (ad_planned_arrival_time day)) && negb (truthy (ad_planned_departure_time day)) &&
  negb (existsb (λ key, has_tenths (worked_metric day key)) (am_display_metrics out)) &&
  negb (existsb (λ p, has_tenths p.2) (ad_status_metrics day)).

Section CsvExport.
Context `{zone : PragueZone} (strip_diacritics : list ascii → list ascii).

(** [datetime.fromisoformat(...).astimezone(PRAGUE_TIMEZONE).strftime("%H:%M")]. *)
Definition clock_text (t : aware) : string :=
  format_hhmm (minute_of_wall (wall t) / 60) (minute_of_wall (wall t) mod 60).
Definition event_cell (x : AttendanceEventOut) : result string :=
  let? t := or_raise (read_isoformat (ao_occurred_at x)) (Crash "ValueError") in
  Ok (clock_text (prague_now (Zoned t))).

Definition export_row (db : DB) (e : Employment) (out : AttendanceMonthOut) (day : AttendanceDayOut)
    : result (list string) :=
  let? times := map_result event_cell (ad_events day) in
  Ok ([export_user_name db e; em_title e; employment_type_value (em_employment_type e);
       ad_date day; default EmptyString (ad_effective_status day)] ++
    ((λ p, hours_text (status_metric day p.1)) <$> status_metric_labels) ++
    pad (event_column_count (am_days out)) times ++
    [default EmptyString (ad_planned_arrival_time day);
     default EmptyString (ad_planned_departure_time day)] ++
    replicate (plan_column_count (am_days out) - 2) EmptyString ++
    ((λ key, hours_text (worked_metric day key)) <$> am_display_metrics out)).

Definition export_table (db : DB) (e : Employment) (out : AttendanceMonthOut)
    : result (list (list string)) :=
  let? header := export_header out in
  let? rows := map_result (export_row db e out)
    (where_ (λ day, negb (day_is_empty out day)) (am_days out)) in
  Ok (header :: rows).

Definition csv_text (table : list (list string)) : list ascii :=
  csv_file ((λ row : list string, list_ascii_of_string <$> row) <$> table).

Definition csv_for_employment (db : DB) (e : Employment) (year month : Z) : result (list ascii) :=
  let? out := build_month db e year month in
  let? table := export_table db e out in
  Ok (csv_text table).

(** ** The endpoint *)

Inductive ExportOut :=
  | CsvFile (filename : string) (content : list ascii)
  | ZipFile (filename : string) (entries : list (string * list ascii)).

Definition csv_file_name (db : DB) (e : Employment) (month : string) : string :=
  (filename_safe strip_diacritics (Some (employment_display_name db e)) +:+ "_" +:+ month +:+
   ".csv")%string.

Definition relevant_leb (db : DB) (a b : Employment) : bool :=
  if String.eqb (export_user_name db a) (export_user_name db b) then by_start a b
  else string_leb (export_user_name db a) (export_user_name db b).

Definition exportable (db : DB) (today : date) (e : Employment) : bool :=
  employment_is_currently_valid e today && is_some (active_user db e).

Definition load_relevant_employments (db : DB) (today start stop : date) : list Employment :=
  sorted_by (relevant_leb db) (where_ (exportable db today)
    (sorted_by by_start (where_ (in_month_sql start stop) (employments db)))).

Definition zip_entry (db : DB) (month : string) (y m : Z) (e : Employment)
    : result (string * list ascii) :=
  let? content := csv_for_employment db e y m in Ok (csv_file_name db e month, content).

(** [bool(employment_id)]: zero is no employment. *)
Definition given_id (employment_id : option Z) : option Z :=
  match employment_id with Some 0 | None => None | Some i => Some i end.

Definition export_csv_or_zip (db : DB) (now : Z) (month : string) (employment_id : option Z)
    (bulk : bool) : result ExportOut :=
  let? (y, m) := export_month month in
  let '(start, stop) := month_range y m in
  let today := prague_today (Zoned now) in
  if bulk then
    guard (is_some (given_id employment_id)) bad_request ?;;
    let? entries := map_result (zip_entry db month y m)
      (load_relevant_employments db today start stop) in
    Ok (ZipFile ("export_" +:+ month +:+ ".zip")%string entries)
  else
    let? i := or_raise (given_id employment_id) bad_request in
    let? e := or_raise (get_employment db i) (ApiError 404 "not_found") in
    guard (negb (exportable db today e) || negb (in_month_sql start stop e))
      (ApiError 404 "not_found") ?;;
    let? content := csv_for_employment db e y m in
    Ok (CsvFile (csv_file_name db e month) content).
End CsvExport.

(** ** What a file name looks like *)

Lemma sub_runs_elem p c inside l x : x ∈ sub_runs p c inside l → x = c ∨ (x ∈ l ∧ p x = false).
Proof.
  revert inside. induction l as [|y l IH]; intros inside; simpl; [by intros ?%elem_of_nil|].
  destruct (p y) eqn:E; [destruct inside|].
  - intros [?|[? ?]]%IH; [by left|right; split; [by right|done]].
  - intros [->|[?|[? ?]]%IH]%elem_of_cons; [by left|by left|right; split; [by right|done]].
  - intros [->|[?|[? ?]]%IH]%elem_of_cons; [right; split; [left|done]|by left|].
    right; split; [by right|done].
Qed.

Lemma drop_separators_elem l x : x ∈ drop_separators l → x ∈ l.
Proof. induction l as [|c l IH]; simpl; [done|]. destruct (separator c); set_solver. Qed.

Lemma drop_separators_head l c : head (drop_separators l) = Some c → separator c = false.
Proof. induction l as [|x l IH]; simpl; [done|]. destruct (separator x) eqn:E; [done|]. by intros [= ->]. Qed.

Lemma drop_separators_suffix l : ∃ k, drop_separators l = drop k l.
Proof.
  induction l as [|c l [k IH]]; simpl; [by exists O|].
  destruct (separator c); [by exists (S k)|by exists O].
Qed.

Lemma elem_of_rev {A} (l : list A) x : x ∈ rev l ↔ x ∈ l.
Proof. by rewrite <- Permutation_rev. Qed.

Lemma rstrip_elem l x : x ∈ rstrip_separators l → x ∈ l.
Proof.
  unfold rstrip_separators. rewrite elem_of_rev. intros H%drop_separators_elem.
  by rewrite elem_of_rev in H.
Qed.

Lemma last_rev {A} (l : list A) : last (rev l) = head l.
Proof. destruct l as [|x l]; [done|]. simpl. by rewrite last_snoc. Qed.

Lemma rstrip_last l c : last (rstrip_separators l) = Some c → separator c = false.
Proof. unfold rstrip_separators. rewrite last_rev. apply drop_separators_head. Qed.

Lemma rstrip_prefix l : ∃ k, rstrip_separators l = take k l.
Proof.
  unfold rstrip_separators. destruct (drop_separators_suffix (rev l)) as [k ->].
  exists (length l - k)%nat. by rewrite skipn_rev, rev_involutive.
Qed.

Lemma head_take {A} k (l : list A) c : head (take k l) = Some c → head l = Some c.
Proof. by destruct k, l. Qed.

(** A safe name: allowed characters, not empty, at most eighty of them, and no
    separator at either end. *)
Record safe_name (l : list ascii) : Prop := {
  sn_chars : ∀ c, c ∈ l → allowed_char c = true;
  sn_nonempty : l ≠ [];
  sn_length : (length l <= MAX_LEN)%nat;
  sn_first : ∀ c, head l = Some c → separator c = false;
  sn_last : ∀ c, last l = Some c → separator c = false;
}.

Lemma instance_safe : safe_name (list_ascii_of_string "instance").
Proof.
  constructor; try done.
  - intros c Hc. simpl in Hc. repeat (apply elem_of_cons in Hc as [->|Hc]; [done|]).
    by apply elem_of_nil in Hc.
  - unfold MAX_LEN. simpl. lia.
  - by intros c [= <-].
  - by intros c [= <-].
Qed.

Lemma or_instance_safe l : (l ≠ [] → safe_name l) → safe_name (or_instance l).
Proof. destruct l; [intros _; apply instance_safe|]. intros H. by apply H. Qed.

(** Before the cut: allowed characters only, trimmed. *)
Lemma slug_stem_allowed strip_diacritics value c :
  c ∈ sub_runs (Ascii.eqb dash) dash false (sub_runs (Ascii.eqb underscore) underscore false
    (sub_runs (λ c, negb (allowed_char c)) underscore false (sub_runs is_space underscore false
      (lower_char <$> strip_diacritics (strip_chars value))))) → allowed_char c = true.
Proof.
  intros [->|[[->|[[->|[_ H]]%sub_runs_elem _]]%sub_runs_elem _]]%sub_runs_elem; try done.
  by apply negb_false_iff in H.
Qed.

Lemma slug_chars_safe strip_diacritics value : safe_name (slug_chars strip_diacritics value).
Proof.
  unfold slug_chars.
  pose proof (slug_stem_allowed strip_diacritics value) as Hall. revert Hall.
  generalize (sub_runs (Ascii.eqb dash) dash false (sub_runs (Ascii.eqb underscore) underscore false
    (sub_runs (λ c, negb (allowed_char c)) underscore false (sub_runs is_space underscore false
      (lower_char <$> strip_diacritics (strip_chars value)))))) as stem. intros stem Hall.
  set (v := or_instance (strip_separators stem)).
  assert (Hv : (∀ c, c ∈ v → allowed_char c = true) ∧ v ≠ [] ∧
    (∀ c, head v = Some c → separator c = false) ∧ (∀ c, last v = Some c → separator c = false)).
  { unfold v. destruct (strip_separators stem) as [|x l] eqn:E.
    { simpl. split_and!; [apply instance_safe|done|by intros c [= <-]|by intros c [= <-]]. }
    change (or_instance (x :: l)) with (x :: l). rewrite <- E.
    unfold strip_separators in *. split_and!.
    - intros c Hc%rstrip_elem%drop_separators_elem. by apply Hall.
    - by rewrite E.
    - intros c Hc. destruct (rstrip_prefix (drop_separators stem)) as [k Hk].
      rewrite Hk in Hc. apply head_take in Hc. by apply drop_separators_head in Hc.
    - apply rstrip_last. }
  destruct Hv as (Hchars & Hne & Hhead & Hlast).
  destruct (Nat.ltb MAX_LEN (length v)) eqn:E; [|apply Nat.ltb_ge in E; by constructor].
  apply or_instance_safe. intros Hn. constructor.
  - intros c Hc%rstrip_elem. apply Hchars. eapply elem_of_take in Hc as (i & Hi & _).
    by eapply list_elem_of_lookup_2.
  - done.
  - destruct (rstrip_prefix (take MAX_LEN v)) as [k ->]. rewrite take_take, length_take. lia.
  - intros c Hc. destruct (rstrip_prefix (take MAX_LEN v)) as [k Hk]. rewrite Hk in Hc.
    by apply head_take, head_take, Hhead in Hc.
  - apply rstrip_last.
Qed.

Example slug_examples :
  filename_safe id (Some " Jana Nova -- DPP_DPC - Recepce!! "%string) =
    "jana_nova_-_dpp_dpc_-_recepce"%string ∧
  filename_safe id (Some "../../etc/passwd"%string) = "etc_passwd"%string ∧
  filename_safe id None = "instance"%string.
Proof. split_and!; vm_compute; reflexivity. Qed.

(** ** What is written is read *)

(** Where a field may end. *)
Definition field_end (l : list ascii) : Prop := ∃ l', l = comma :: l' ∨ l = line_end ++ l'.

(** After a field the mode makes no difference. *)
Lemma csv_read_end mode f row l :
  field_end l → mode ≠ Quoted → csv_read mode f row l = csv_read Plain f row l.
Proof. intros (l' & [->| ->]) Hm; destruct mode; try done. Qed.

Lemma csv_read_plain f acc row l :
  existsb special f = false → f ≠ [] →
  csv_read Plain acc row (f ++ l) = csv_read Plain (rev f ++ acc) row l ∧
  csv_read FieldStart acc row (f ++ l) = csv_read Plain (rev f ++ acc) row l.
Proof.
  revert acc. induction f as [|c f IH]; intros acc; [done|]. simpl. intros [Hc Hf]%orb_false_iff _.
  unfold special in Hc. apply orb_false_iff in Hc as [Hc H4]. apply orb_false_iff in Hc as [Hc H3].
  apply orb_false_iff in Hc as [H1 H2]. rewrite H1, H2, H3. rewrite <- app_assoc. simpl.
  destruct f as [|d f]; [done|]. destruct (IH (c :: acc) Hf ltac:(done)) as [-> _]. done.
Qed.

Lemma csv_read_quoted f acc row l :
  csv_read Quoted acc row (double_quotes f ++ l) = csv_read Quoted (rev f ++ acc) row l.
Proof.
  revert acc. induction f as [|c f IH]; intros acc; [done|]. simpl.
  rewrite <- app_assoc. simpl. destruct (Ascii.eqb c quote) eqn:E; simpl.
  - apply Ascii.eqb_eq in E as ->. by rewrite IH.
  - by rewrite E, IH.
Qed.

Lemma csv_read_field f row l :
  field_end l → csv_read FieldStart [] row (csv_field f ++ l) = csv_read Plain (rev f) row l.
Proof.
  intros Hl. unfold csv_field. destruct (existsb special f) eqn:E.
  - simpl. rewrite <- app_assoc, csv_read_quoted, app_nil_r. simpl. by apply csv_read_end.
  - destruct f as [|c f]; [by apply csv_read_end|].
    destruct (csv_read_plain (c :: f) [] row l E ltac:(done)) as [_ ->]. by rewrite app_nil_r.
Qed.

Lemma csv_read_row r row l :
  r ≠ [] →
  csv_read FieldStart [] row (csv_fields r ++ line_end ++ l) =
  (rows ← csv_read FieldStart [] [] l; Some ((rev row ++ r) :: rows)).
Proof.
  revert row. induction r as [|f r IH]; intros row; [done|]. intros _. destruct r as [|g r].
  - simpl csv_fields. rewrite csv_read_field by (exists l; by right). simpl.
    rewrite rev_involutive. done.
  - change (csv_fields (f :: g :: r)) with (csv_field f ++ comma :: csv_fields (g :: r)).
    rewrite <- app_assoc, csv_read_field by (eexists; left; done). cbn [app csv_read Ascii.eqb].
    rewrite Ascii.eqb_refl, rev_involutive, IH by done. cbn [rev]. by rewrite <- app_assoc.
Qed.

Lemma read_csv_file rows : (∀ r, r ∈ rows → r ≠ []) → read_csv (csv_file rows) = Some rows.
Proof.
  unfold read_csv, csv_file. induction rows as [|r rows IH]; intros Hr; [done|].
  change (mjoin (csv_row <$> r :: rows)) with ((csv_fields r ++ line_end) ++ mjoin (csv_row <$> rows)).
  rewrite <- app_assoc.
  rewrite csv_read_row by (apply Hr; left). rewrite IH by (intros x Hx; apply Hr; by right). done.
Qed.

Example csv_example :
  let chars := list_ascii_of_string in
  csv_file [[chars "a"; chars "b,c"]; [chars ""; quote :: chars "x"]]%string =
    chars "a," ++ quote :: chars "b,c" ++ quote :: line_end ++
    comma :: quote :: quote :: quote :: chars "x" ++ quote :: line_end.
Proof. reflexivity. Qed.
