(* ===== verification/ExportSafety.v ===== *)
(** * What the export promises

    Every event of the month is in the file, in its own column on the row of
    its day; all rows have the columns of the header; a reader of the format
    gets back exactly the cells that were written.  The endpoint gives the file
    of an employment valid today and overlapping the month, or one file for
    each of them, under names made of safe characters. *)

From stdpp Require Import pretty.
From S2P Require Import Prelude Calendar TimeParse Format PragueTime IsoText Models TimeIntervals.
From S2P Require Import TimeMetrics EmploymentAccess DayStatus AttendanceEvents MonthSummary AttendanceApi.
From S2P Require Import SystemInvariant ShiftPlanApi MonthViews MonthSheets PlanViews PlanSheets CsvExport.
#[local] Open Scope Z_scope.

(** The local time of Europe/Prague is less than a day from UTC, which
    [datetime] demands of every time zone. *)
Class PragueOffsets (zone : PragueZone) :=
  offset_bound t : - us_per_day < utc_to_wall t - t < us_per_day.

(** ** Columns *)

Lemma map_result_length {A B} (f : A → result B) l ys :
  map_result f l = Ok ys → length ys = length l.
Proof.
  revert ys. induction l as [|x l IH]; intros ys; simpl; [by intros [= <-]|].
  intros (c & _ & (cs & Hcs & [= <-])%rbind_ok)%rbind_ok. simpl. by rewrite (IH _ Hcs).
Qed.

Lemma pad_length n l : (length l <= n)%nat → length (pad n l) = n.
Proof. intros H. unfold pad. rewrite length_app, length_replicate. lia. Qed.

Lemma pad_lookup n l k v : l !! k = Some v → pad n l !! k = Some v.
Proof. intros H. unfold pad. by apply lookup_app_l_Some. Qed.

Lemma numbered_length prefix n : length (numbered prefix n) = n.
Proof.
  unfold numbered. rewrite length_fmap. generalize 1. induction n as [|n IH]; intros z; simpl; [done|].
  by rewrite IH.
Qed.

Lemma zrange_lookup lo n k : (k < n)%nat → zrange lo n !! k = Some (lo + Z.of_nat k).
Proof.
  revert lo k. induction n as [|n IH]; intros lo k Hk; [lia|]. destruct k as [|k]; simpl.
  - f_equal. lia.
  - rewrite IH by lia. f_equal. lia.
Qed.

Lemma numbered_lookup prefix n k :
  (k < n)%nat → numbered prefix n !! k = Some (prefix +:+ pretty (1 + Z.of_nat k))%string.
Proof. intros Hk. unfold numbered. by rewrite list_lookup_fmap, zrange_lookup. Qed.

Lemma events_fit days day :
  day ∈ days → (length (ad_events day) <= event_column_count days)%nat.
Proof.
  intros H. unfold event_column_count.
  assert (length (ad_events day) <= max_list (length ∘ ad_events <$> days))%nat; [|lia].
  apply max_list_elem_of_le. apply list_elem_of_fmap. by exists day.
Qed.

Lemma metric_label_ok e key :
  key ∈ display_metrics_for_employment e → ∃ label, metric_label key = Ok label.
Proof.
  unfold display_metrics_for_employment. destruct (bool_decide _); [by intros ?%elem_of_nil|].
  assert (Hone : ∀ (b : bool) k, key ∈ (if b then [k] else []) → key = k).
  { intros [] k H; [by apply list_elem_of_singleton in H|by apply elem_of_nil in H]. }
  rewrite !elem_of_app. intros [->%Hone|[->%Hone|[->%Hone|[->%Hone| ->%Hone]]]]; by eexists.
Qed.

Section ExportSafety.
Context `{zone : PragueZone} `{!PragueZoneLaws zone} `{!PragueOffsets zone}.
Context (strip_diacritics : list ascii → list ascii).

(** The clock of an event survives the text of the sheet. *)
Lemma event_cell_ok db x :
  reload (ev_occurred_at x) = ev_occurred_at x → 1 <= year_of (ev_day x) <= 9999 →
  event_cell (sheet_event db x) = Ok (clock_text (ev_occurred_at x)).
Proof.
  intros Hr Hy. unfold event_cell. cbn [ao_occurred_at sheet_event].
  assert (Hw : utc_to_wall (utc (ev_occurred_at x)) = wall (ev_occurred_at x)).
  { destruct (ev_occurred_at x) as [w t]. unfold reload in Hr. by injection Hr. }
  rewrite isoformat_instant; [|done|rewrite <- Hw; apply offset_bound].
  cbn [or_raise rbind]. unfold clock_text. cbn [prague_now wall]. by rewrite Hw.
Qed.

(** Whose row it is: the person, the title and the type of the employment. *)
Definition row_owner (db : DB) (e : Employment) : list string :=
  [export_user_name db e; em_title e; employment_type_value (em_employment_type e)].

Lemma export_row_ok db e out day :
  day ∈ am_days out → am_display_metrics out = display_metrics_for_employment e →
  (∃ times, map_result event_cell (ad_events day) = Ok times) →
  ∃ r times, export_row db e out day = Ok r ∧ map_result event_cell (ad_events day) = Ok times ∧
    take 3 r = row_owner db e ∧ r !! 3%nat = Some (ad_date day) ∧
    (∀ k v, times !! k = Some v → r !! (8 + k)%nat = Some v) ∧
    length r = (8 + event_column_count (am_days out) + plan_column_count (am_days out) +
                length (am_display_metrics out))%nat.
Proof.
  intros Hday Hdm [times Ht]. unfold export_row. rewrite Ht. cbn [rbind].
  pose proof (map_result_length _ _ _ Ht) as Hlen.
  pose proof (events_fit _ _ Hday) as Hfit.
  eexists _, times. split_and!; [done|done|done|done| |].
  - intros k v Hk. cbn [app lookup list_lookup Nat.add fmap list_fmap status_metric_labels].
    apply lookup_app_l_Some. by apply pad_lookup.
  - assert (2 <= plan_column_count (am_days out))%nat by (unfold plan_column_count; lia).
    rewrite !length_app, pad_length, length_replicate, !length_fmap by lia. simpl. lia.
Qed.

Lemma export_header_ok out e :
  am_display_metrics out = display_metrics_for_employment e →
  ∃ header, export_header out = Ok header ∧
    length header = (8 + event_column_count (am_days out) + plan_column_count (am_days out) +
                     length (am_display_metrics out))%nat ∧
    ∀ k, (k < event_column_count (am_days out))%nat →
      header !! (8 + k)%nat = Some ("PRŮCHOD " +:+ pretty (1 + Z.of_nat k))%string.
Proof.
  intros Hdm. unfold export_header.
  destruct (map_result_total metric_label (am_display_metrics out)) as [labels Hl].
  { intros key. rewrite Hdm. apply metric_label_ok. }
  pose proof (map_result_length _ _ _ Hl) as Hlen.
  rewrite Hl. cbn [rbind]. eexists. split; [done|]. split.
  - rewrite !length_app, !numbered_length. simpl. lia.
  - intros k Hk. cbn [app lookup list_lookup Nat.add fmap list_fmap status_metric_labels].
    apply lookup_app_l_Some. by apply numbered_lookup.
Qed.
(** ** The table of a month *)

Lemma year_of_month_day y m d : ym_of d = (y, m) → year_of d = y.
Proof. unfold ym_of. congruence. Qed.

Lemma map_result_lookup {A B} (f : A → result B) l ys k x :
  map_result f l = Ok ys → l !! k = Some x → ∃ y, ys !! k = Some y ∧ f x = Ok y.
Proof.
  revert ys k. induction l as [|z l IH]; intros ys k; simpl; [done|].
  intros (c & Hc & (cs & Hcs & [= <-])%rbind_ok)%rbind_ok. destruct k as [|k]; simpl.
  - intros [= ->]. by exists c.
  - by apply IH.
Qed.

(** The days of a sheet and the clocks of their events. *)
Lemma sheet_cells_ok db e y m s day :
  inv db → 1 <= m <= 12 → 1 <= y <= 9999 → build_employment_summary db e y m false = Ok s →
  day ∈ sheet_day db e <$> ms_day_summaries s →
  ∃ times, map_result event_cell (ad_events day) = Ok times.
Proof.
  intros Hi Hm Hy Hs (ds & -> & Hds)%list_elem_of_fmap. apply map_result_total.
  intros o Ho. cbn [sheet_day ad_events] in Ho. apply list_elem_of_fmap in Ho as (x & -> & Hx).
  rewrite events_by_time_perm in Hx. apply day_events_elem in Hx as [[Hx _]%elem_of_where Hd].
  rewrite (event_cell_ok db x); [by eexists|by apply Hi|].
  rewrite Hd. pose proof (summary_day_range _ _ _ _ _ Hs _ Hds) as Hr.
  apply month_range_spec in Hr; [|done]. by rewrite (year_of_month_day _ _ _ Hr).
Qed.

Lemma day_with_event_kept out day o : o ∈ ad_events day → day_is_empty out day = false.
Proof. intros H. unfold day_is_empty. destruct (ad_events day); [by apply elem_of_nil in H|done]. Qed.

(** The clock of an event stands in the row of its day, under a numbered
    heading. *)
Definition event_in_table (db : DB) (x : AttendanceEvent) (header : list string)
    (rows : list (list string)) : Prop :=
  ∃ r k, r ∈ rows ∧ r !! 3%nat = Some (isoformat (ev_day x)) ∧
    header !! (8 + k)%nat = Some ("PRŮCHOD " +:+ pretty (1 + Z.of_nat k))%string ∧
    r !! (8 + k)%nat = Some (clock_text (ev_occurred_at x)).

Lemma export_table_ok db e y m s n :
  inv db → 1 <= m <= 12 → 1 <= y <= 9999 → build_employment_summary db e y m false = Ok s →
  ∃ header rows, export_table db e (month_sheet db e y m n s) = Ok (header :: rows) ∧
    (∀ r, r ∈ header :: rows → length r = length header ∧ r ≠ []) ∧
    (∀ r, r ∈ rows → take 3 r = row_owner db e) ∧
    (∀ x, x ∈ events_of db (em_id e) → ym_of (ev_day x) = (y, m) →
       event_in_table db x header rows).
Proof.
  intros Hi Hm Hy Hs. set (out := month_sheet db e y m n s).
  assert (Hcells : ∀ day, day ∈ am_days out → ∃ times, map_result event_cell (ad_events day) = Ok times).
  { intros day Hday. by eapply sheet_cells_ok. }
  destruct (export_header_ok out e eq_refl) as (header & Hh & Hlen & Hnames).
  edestruct (map_result_total (export_row db e out)
    (where_ (λ day, negb (day_is_empty out day)) (am_days out))) as [rows Hrows].
  { intros day [Hday _]%elem_of_where.
    destruct (export_row_ok db e out day Hday eq_refl (Hcells _ Hday)) as (r & _ & -> & _). by eexists. }
  assert (Hrow : ∀ r, r ∈ rows → take 3 r = row_owner db e ∧
    length r = (8 + event_column_count (am_days out) + plan_column_count (am_days out) +
                length (am_display_metrics out))%nat).
  { intros r Hr. destruct (map_result_elem _ _ _ Hrows _ Hr) as (day & [Hday _]%elem_of_where & Hrow).
    destruct (export_row_ok db e out day Hday eq_refl (Hcells _ Hday))
      as (r' & _ & Hrow' & _ & Ho & _ & _ & Hl). rewrite Hrow in Hrow'. by injection Hrow' as <-. }
  exists header, rows. unfold export_table. rewrite Hh. cbn [rbind]. rewrite Hrows.
  split; [done|]. split.
  - intros r [->|Hr]%elem_of_cons; [split; [done|]; intros ->; simpl in Hlen; lia|].
    destruct (Hrow r Hr) as [_ Hl]. split; [by rewrite Hl, Hlen|]. intros ->. simpl in Hl. lia.
  - split; [intros r Hr; by apply Hrow|].
    intros x Hx Hym. pose proof (month_range_lt y m Hm).
    assert (Hd : ev_day x ∈ dy_date <$> ms_day_summaries s).
    { rewrite (summary_days _ _ _ _ _ _ Hs). apply elem_of_zrange.
      apply month_range_spec in Hym; [lia|done]. }
    apply list_elem_of_fmap in Hd as (ds & Hd & Hds).
    assert (Hday : sheet_day db e ds ∈ am_days out) by by apply list_elem_of_fmap_2.
    assert (Hin : sheet_event db x ∈ ad_events (sheet_day db e ds)).
    { cbn [sheet_day ad_events]. apply list_elem_of_fmap_2. rewrite events_by_time_perm.
      by apply day_events_elem. }
    destruct (export_row_ok db e out _ Hday eq_refl (Hcells _ Hday))
      as (r & times & Hr & Ht & _ & Hdate & Hclock & _).
    apply list_elem_of_lookup in Hin as [k Hk].
    destruct (map_result_lookup _ _ _ _ _ Ht Hk) as (c & Hc & Hcell).
    assert (Hkept : sheet_day db e ds ∈
      where_ (λ day, negb (day_is_empty out day)) (am_days out)).
    { apply elem_of_where. split; [done|]. apply negb_true_iff.
      apply (day_with_event_kept _ _ (sheet_event db x)). by eapply list_elem_of_lookup_2. }
    destruct (map_result_elem_2 _ _ _ _ Hrows Hkept) as (r' & Hr' & Hrow').
    rewrite Hr in Hrow'. injection Hrow' as <-.
    exists r, k. split_and!; [done|by rewrite Hdate, Hd| |].
    + apply Hnames. pose proof (events_fit _ _ Hday) as Hfit.
      apply lookup_lt_Some in Hk. lia.
    + rewrite (Hclock _ _ Hc). f_equal. apply elem_of_where in Hx as [Hx _].
      rewrite (event_cell_ok db x) in Hcell; [congruence|by apply Hi|].
      by rewrite (year_of_month_day _ _ _ Hym).
Qed.

(** C32: The CSV file of an employment and month is always produced, for every
    month whose bounds are dates, and a reader of the format gets back cell by
    cell, whatever characters the cells hold, the table that [export_table]
    makes of the month sheet: every row has the columns of the header and
    starts with the person's name, the title and the type of the employment,
    and every attendance event of the month, however many a day has, stands
    with its clock on the row of its day under a numbered heading. *)
Theorem csv_export_complete db e y m (Hi : inv db) (He : month_exists y m = true) :
  ∃ out header rows content, build_month db e y m = Ok out ∧
    export_table db e out = Ok (header :: rows) ∧ csv_for_employment db e y m = Ok content ∧
    read_csv content =
      Some ((λ row : list string, list_ascii_of_string <$> row) <$> (header :: rows)) ∧
    (∀ r, r ∈ rows → length r = length header ∧ take 3 r = row_owner db e) ∧
    (∀ x, x ∈ events_of db (em_id e) → ym_of (ev_day x) = (y, m) →
       event_in_table db x header rows).
Proof.
  pose proof (proj1 (month_exists_iff y m) He) as (Hy & Hm & _).
  destruct (build_month_ok db e y m Hi He) as (s & n & Hs & _ & Hout).
  rewrite build_month_summary_single in Hs.
  destruct (export_table_ok db e y m s n Hi Hm Hy Hs) as (header & rows & Ht & Hrect & Hown & Hev).
  exists (month_sheet db e y m n s), header, rows, (csv_text (header :: rows)).
  unfold csv_for_employment. rewrite Hout. cbn [rbind]. rewrite Ht. split_and!; [done..| | |done].
  - apply read_csv_file. intros r (row & -> & Hrow)%list_elem_of_fmap.
    destruct (Hrect _ Hrow) as [_ Hne]. by destruct row.
  - intros r Hr. split; [apply Hrect; by right|by apply Hown].
Qed.

(** ** The endpoint *)

Lemma export_month_ok month y m :
  export_month month = Ok (y, m) → 1 <= y <= 9999 ∧ 1 <= m <= 12.
Proof.
  unfold export_month. intros H. ok_inv H. destruct v as [a b].
  ok_inv H. injection H as <- <-. bool_hyps. lia.
Qed.

(** The stem of a file name is safe; the month is copied as it came. *)
Definition named_safely (month name : string) : Prop :=
  ∃ stem, name = (string_of_list_ascii stem +:+ "_" +:+ month +:+ ".csv")%string ∧ safe_name stem.

Lemma csv_file_name_safe db e month :
  named_safely month (csv_file_name strip_diacritics db e month).
Proof. eexists. split; [reflexivity|]. apply slug_chars_safe. Qed.

(** Which employments an archive holds. *)
Lemma relevant_elem db today start stop e :
  e ∈ load_relevant_employments db today start stop ↔
  e ∈ employments db ∧ in_month_sql start stop e = true ∧ exportable db today e = true.
Proof.
  unfold load_relevant_employments. rewrite elem_of_sorted_by, elem_of_where, elem_of_sorted_by, elem_of_where.
  tauto.
Qed.

(** One entry, with the file of its employment. *)
Definition entry_of (db : DB) (month : string) (y m : Z) (e : Employment)
    (entry : string * list ascii) : Prop :=
  csv_for_employment db e y m = Ok entry.2 ∧
  entry.1 = csv_file_name strip_diacritics db e month ∧ named_safely month entry.1.

Lemma zip_entries_ok db month y m es entries :
  map_result (zip_entry strip_diacritics db month y m) es = Ok entries →
  Forall2 (entry_of db month y m) es entries.
Proof.
  revert entries. induction es as [|e es IH]; intros entries; simpl; [intros [= <-]; constructor|].
  intros (c & Hc & (cs & Hcs & [= <-])%rbind_ok)%rbind_ok. constructor; [|by apply IH].
  unfold zip_entry in Hc. apply rbind_ok in Hc as (content & Hcsv & [= <-]).
  split_and!; [done|done|apply csv_file_name_safe].
Qed.

(** An employment of the export: it runs today, its user is active and it
    overlaps the month. *)
Definition exported (db : DB) (today : date) (y m : Z) (e : Employment) : Prop :=
  em_start_date e <= today ∧ (∀ l, em_end_date e = Some l → today <= l) ∧
  account_is_active db e ∧ meets (mk_date y m 1) (next_month y m) e.

Lemma exported_iff db today y m e :
  exported db today y m e ↔ exportable db today e = true ∧
    in_month_sql (mk_date y m 1) (next_month y m) e = true.
Proof.
  unfold exported, exportable, employment_is_currently_valid.
  rewrite andb_true_iff, valid_on_day_iff, active_user_iff, in_month_overlaps, overlaps_meets. tauto.
Qed.

Lemma relevant_NoDup db today start stop :
  NoDup (employments db) → NoDup (load_relevant_employments db today start stop).
Proof.
  intros H. unfold load_relevant_employments. rewrite sorted_by_perm.
  apply NoDup_where. rewrite sorted_by_perm. by apply NoDup_where.
Qed.

(** C33: A successful export of a month is the file of exactly the requested
    employment, which is valid today, has an active user and overlaps the
    month, or an archive with exactly one such file for every employment of
    which this is true.  The name of every file is the slug of its employment,
    which has safe characters only, an underscore, the month as the request
    wrote it, and .csv; the text of the month is copied unchecked, so it alone
    can bring other characters in. *)
Theorem export_scope db now month i bulk res (Hi : inv db)
    (H : export_csv_or_zip strip_diacritics db now month i bulk = Ok res) :
  ∃ y m, export_month month = Ok (y, m) ∧
    match res with
    | CsvFile name content =>
        bulk = false ∧ ∃ e, e ∈ employments db ∧ i = Some (em_id e) ∧
          exported db (prague_today (Zoned now)) y m e ∧ entry_of db month y m e (name, content)
    | ZipFile _ entries =>
        bulk = true ∧ ∃ es, Forall2 (entry_of db month y m) es entries ∧ NoDup es ∧
          ∀ e, e ∈ es ↔ e ∈ employments db ∧ exported db (prague_today (Zoned now)) y m e
    end.
Proof.
  unfold export_csv_or_zip in H. apply rbind_ok in H as ([y m] & Hm & H). exists y, m.
  split; [done|]. cbn [month_range] in H. destruct bulk.
  - apply rbind_ok in H as (u & _ & H). apply rbind_ok in H as (entries & He & [= <-]).
    split; [done|]. eexists. split; [by apply zip_entries_ok|]. split.
    + apply relevant_NoDup, (NoDup_fmap_1 em_id), Hi.
    + intros e. rewrite relevant_elem, exported_iff. tauto.
  - apply rbind_ok in H as (j & Hj & H). apply rbind_ok in H as (e & He & H).
    apply rbind_ok in H as (u & Hg & H). apply rbind_ok in H as (content & Hc & [= <-]).
    apply or_raise_ok in Hj, He. apply get_employment_ok in He as [He Hid].
    apply guard_ok, orb_false_iff in Hg as [Hx%negb_false_iff Hmn%negb_false_iff].
    split; [done|]. exists e. split_and!; [done| |by apply exported_iff|].
    + unfold given_id in Hj. destruct i as [[]|]; congruence.
    + split_and!; [done|done|apply csv_file_name_safe].
Qed.
End ExportSafety.
