(* ===== verification/Report.v ===== *)
(** * services/shift_plan_reports.py: the printed shift plan

    The report of the selected employments of a month, as the endpoint
    [/api/v1/admin/export/shift-plan/report] sends it: headers of the days, and
    pages of at most five employments with a cell per day; before it the texts
    of services/print_locales.py, each Czech text with its English, Slovak and
    German translation.  The drawing of the report as PDF images is not
    modelled. *)

From stdpp Require Import pretty.
From S2P Require Import Prelude Calendar TimeParse Format PragueTime IsoText Models TimeIntervals.
From S2P Require Import TimeMetrics EmploymentAccess DayStatus AttendanceEvents MonthSummary AttendanceApi.
From S2P Require Import ShiftPlanApi MonthViews PlanViews.
From Stdlib Require Import QArith.
#[local] Open Scope Z_scope.

(** ** The texts of printed reports (services/print_locales.py) *)

Definition WORDS : list (string * (string * string * string)) :=
  [("Plán směn", ("Shift schedule", "Plán zmien", "Dienstplan"));
   ("Měsíc", ("Month", "Mesiac", "Monat"));
   ("Vygenerováno", ("Generated", "Vygenerované", "Erstellt"));
   ("Strana", ("Page", "Strana", "Seite"));
   ("Úvazek / osoba",
      ("Employment / person",
       "Úväzok / osoba",
       "Arbeitsverhältnis / Person"));
   ("Časy PRŮCHOD 1, PRŮCHOD 2",
      ("Times ENTRY 1, ENTRY 2",
       "Časy PRIECHOD 1, PRIECHOD 2",
       "Zeiten BUCHUNG 1, BUCHUNG 2"));
   ("v každé buňce shora dolů",
      ("top to bottom in each cell",
       "v každej bunke zhora nadol",
       "in jeder Zelle von oben nach unten"));
   ("Měsíční součet (h)", ("Monthly total (h)", "Mesačný súčet (h)", "Summe (h)"));
   ("Plán", ("Scheduled", "Plán", "Geplant"));
   ("Odpoledne", ("Afternoon", "Popoludnie", "Nachmittag"));
   ("Noc", ("Night", "Noc", "Nacht"));
   ("Víkend", ("Weekend", "Víkend", "Wochenende"));
   ("Svátek", ("Public holiday", "Sviatok", "Feiertag"));
   ("Dovolená", ("Annual leave", "Dovolenka", "Urlaub"));
   ("Nemoc", ("Sickness", "Choroba", "Krankheit"));
   ("Paragraf", ("Statutory leave", "Paragraf", "Gesetzliche Freistellung"));
   ("Volno", ("Day off", "Voľno", "Frei"));
   ("směn", ("shifts", "zmien", "Schichten"));
   ("Pracovní smlouva", ("Employment contract", "Pracovná zmluva", "Arbeitsvertrag"));
   ("DPP / DPČ",
      ("Work agreement (DPP / DPČ)",
       "DPP / DPČ",
       "Arbeitsvereinbarung (DPP / DPČ)"));
   ("Úkolová / směnová odměna",
      ("Task / shift-based pay",
       "Úkolová / zmenová odmena",
       "Aufgaben- / Schichtvergütung"));
   ("Externí hodinová fakturace",
      ("External hourly billing",
       "Externá hodinová fakturácia",
       "Externe Stundenabrechnung"));
   ("Legenda", ("Legend", "Legenda", "Legende"));
   ("V buňce jsou chronologické plánované časy nebo celodenní stav.",
      ("Each cell shows chronological planned times or a full-day status.",
       "V bunke sú chronologické plánované časy alebo celodenný stav.",
       "Jede Zelle zeigt chronologische Planzeiten oder einen ganztägigen Status."));
   ("Dovolená = celodenní stav z plánu směn.",
      ("Annual leave = full-day status from the shift schedule.",
       "Dovolenka = celodenný stav z plánu zmien.",
       "Urlaub = ganztägiger Status aus dem Dienstplan."));
   ("Volno = celodenní stav bez plánované směny.",
      ("Day off = full-day status without a planned shift.",
       "Voľno = celodenný stav bez plánovanej zmeny.",
       "Frei = ganztägiger Status ohne geplante Schicht."));
   ("Šedé buňky označují víkend, béžové státní svátek.",
      ("Grey cells mark weekends; beige cells mark public holidays.",
       "Sivé bunky označujú víkend, béžové štátny sviatok.",
       "Graue Zellen markieren Wochenenden, beige Zellen Feiertage."));
   ("Hodiny: P plán, O odpoledne, N noc, V víkend, S svátek; DOV dovolená, NEM nemoc, PAR paragraf.",
      ("Hours: P scheduled, O afternoon, N night, V weekend, S public holiday; DOV annual leave, NEM sickness, PAR statutory leave.",
       "Hodiny: P plán, O popoludnie, N noc, V víkend, S sviatok; DOV dovolenka, NEM choroba, PAR paragraf.",
       "Stunden: P geplant, O Nachmittag, N Nacht, V Wochenende, S Feiertag; DOV Urlaub, NEM Krankheit, PAR gesetzliche Freistellung."));
   ("Výstup je optimalizovaný pro A4 na šířku a stránkuje po nejvýše pěti úvazcích.",
      ("Optimized for A4 landscape, with up to five employments per page.",
       "Výstup je optimalizovaný pre A4 na šírku, najviac päť úväzkov na stranu.",
       "Für A4 quer optimiert, mit höchstens fünf Arbeitsverhältnissen pro Seite."));
   ("Nový rok", ("New Year's Day", "Nový rok", "Neujahr"));
   ("Svátek práce", ("Labour Day", "Sviatok práce", "Tag der Arbeit"));
   ("Den vítězství", ("Victory Day", "Deň víťazstva", "Tag des Sieges"));
   ("Cyril a Metoděj", ("Cyril and Methodius", "Cyril a Metod", "Kyrill und Method"));
   ("Jan Hus", ("Jan Hus", "Jan Hus", "Jan Hus"));
   ("Den české státnosti",
      ("Czech Statehood Day",
       "Deň českej štátnosti",
       "Tag der tschechischen Staatlichkeit"));
   ("Den vzniku ČSR",
      ("Czechoslovak Independence Day",
       "Deň vzniku ČSR",
       "Gründung der Tschechoslowakei"));
   ("Den boje za svobodu",
      ("Freedom and Democracy Day",
       "Deň boja za slobodu",
       "Tag der Freiheit und Demokratie"));
   ("Štědrý den", ("Christmas Eve", "Štedrý deň", "Heiligabend"));
   ("1. svátek vánoční", ("Christmas Day", "1. sviatok vianočný", "1. Weihnachtstag"));
   ("2. svátek vánoční", ("Boxing Day", "2. sviatok vianočný", "2. Weihnachtstag"));
   ("Velký pátek", ("Good Friday", "Veľký piatok", "Karfreitag"));
   ("Velikonoční pondělí", ("Easter Monday", "Veľkonočný pondelok", "Ostermontag"))]%string.

Definition WEEKDAYS : list (string * (string * string * string)) :=
  [("Po", ("Mon", "Po", "Mo"));
   ("Út", ("Tue", "Ut", "Di"));
   ("St", ("Wed", "St", "Mi"));
   ("Čt", ("Thu", "Št", "Do"));
   ("Pá", ("Fri", "Pi", "Fr"));
   ("So", ("Sat", "So", "Sa"));
   ("Ne", ("Sun", "Ne", "So"))]%string.

(** The locales of [MONTHS]. *)
Definition PRINT_LOCALES : list string := ["en"; "sk"; "de"]%string.

Definition lookup_words (table : list (string * (string * string * string))) (value : string)
    : option (string * string * string) :=
  snd <$> last (where_ (λ p, String.eqb p.1 value) table).

(** [values[("en", "sk", "de").index(locale)]]. *)
Definition in_locale (values : string * string * string) (locale : string) : string :=
  if String.eqb locale "en" then values.1.1
  else if String.eqb locale "sk" then values.1.2 else values.2.

(** A text without a translation is printed in Czech. *)
Definition print_text (value locale : string) : result string :=
  if String.eqb locale "cs" then Ok value
  else if negb (mem locale PRINT_LOCALES) then Err (Crash "ValueError")
  else
    let values := match lookup_words WORDS value with
      | Some w => Some w
      | None => lookup_words WEEKDAYS value
      end in
    Ok (match values with Some w => in_locale w locale | None => value end).

(** ** Days and hours *)

Definition EMPLOYMENTS_PER_PAGE : nat := 5.

Definition MONTH_LABELS_CS : list string :=
  ["leden"; "únor"; "březen"; "duben"; "květen"; "červen"; "červenec"; "srpen"; "září"; "říjen";
   "listopad"; "prosinec"]%string.
Definition WEEKDAY_SHORT_CS : list string := ["Po"; "Út"; "St"; "Čt"; "Pá"; "So"; "Ne"]%string.
Definition STATUS_LABELS : list (string * string) :=
  [("HOLIDAY", "Dovolená"); ("SICKNESS", "Nemoc"); ("OFF", "Volno"); ("PARAGRAPH", "Paragraf")]%string.

(** [dict.get(key)]. *)
Definition dict_get {V} (d : list (string * V)) (key : string) : option V :=
  snd <$> last (where_ (λ p, String.eqb p.1 key) d).

(** [_holiday_label] has its own short names of the fixed holidays. *)
Definition report_fixed_holiday (month day : Z) : option string :=
  match month, day with
  | 1, 1 => Some "Nový rok"
  | 5, 1 => Some "Svátek práce"
  | 5, 8 => Some "Den vítězství"
  | 7, 5 => Some "Cyril a Metoděj"
  | 7, 6 => Some "Jan Hus"
  | 9, 28 => Some "Den české státnosti"
  | 10, 28 => Some "Den vzniku ČSR"
  | 11, 17 => Some "Den boje za svobodu"
  | 12, 24 => Some "Štědrý den"
  | 12, 25 => Some "1. svátek vánoční"
  | 12, 26 => Some "2. svátek vánoční"
  | _, _ => None
  end%string.

Definition report_holiday_label (day : date) : option string :=
  match report_fixed_holiday (month_of day) (day_of day) with
  | Some label => Some label
  | None => if is_czech_public_holiday day then Some "Pohyblivý svátek"%string else None
  end.

Definition tone_for_day (day : date) : string :=
  if is_czech_public_holiday day then "holiday"%string
  else if 5 <=? weekday day then "weekend"%string else "work"%string.

Definition weekday_short (day : date) : string :=
  default EmptyString (WEEKDAY_SHORT_CS !! Z.to_nat (weekday day)).

(** [_format_hours]: one decimal, with a comma outside of English; the cells
    leave the unit out. *)
Definition hours_digits (tenths : Z) (locale : string) : string :=
  (pretty (tenths / 10) +:+ (if String.eqb locale "en" then "." else ",") +:+
   pretty (tenths mod 10))%string.
Definition format_hours (tenths : Z) (locale : string) : string :=
  (hours_digits tenths locale +:+ " h")%string.

(** ** Metrics of a report *)

Record MetricPayload := mk_metric_payload {
  mp_minutes : Z;
  mp_tenths : Z;
  mp_hours : Q;
}.

Definition metric_payload (v : MetricValue) : MetricPayload :=
  mk_metric_payload (mv_minutes v) (mv_tenths v) (hours_of_tenths (mv_tenths v)).

Definition metric_key_of (name : string) : option metric_key :=
  dict_get [("total", K_total); ("afternoon", K_afternoon); ("night", K_night);
            ("weekend", K_weekend); ("public_holiday", K_public_holiday)]%string name.

(** [{key: ... for key in display_metrics if (value := get(key)) is not None}]. *)
Definition displayed_payload (get : metric_key → option MetricValue) (display_metrics : list string)
    : list (string * MetricPayload) :=
  omap (λ name, k ← metric_key_of name; v ← get k; Some (name, metric_payload v)) display_metrics.

Definition daily_metric_payload (m : option DailyMetrics) (display_metrics : list string)
    : list (string * MetricPayload) :=
  match m with
  | None => []
  | Some x => displayed_payload (get_metric x) display_metrics
  end.

Definition month_value (items : list (metric_key * option MetricValue)) (key : metric_key)
    : option MetricValue :=
  p ← last (where_ (λ p : metric_key * option MetricValue,
    match p.1, key with
    | K_total, K_total | K_afternoon, K_afternoon | K_night, K_night | K_weekend, K_weekend
    | K_public_holiday, K_public_holiday => true
    | _, _ => false
    end) items); p.2.

Definition monthly_metric_payload (m : option (list (metric_key * option MetricValue)))
    (display_metrics : list string) : list (string * MetricPayload) :=
  match m with
  | None => []
  | Some items => displayed_payload (month_value items) display_metrics
  end.

Definition status_metric_payload (items : list (status_metric_key * option MetricValue))
    : list (status_metric_key * MetricPayload) :=
  omap (λ p, (λ v, (p.1, metric_payload v)) <$> p.2) items.

(** *** Their labels on a page *)

Definition METRIC_LABELS : list (string * string) :=
  [("total", "Plán"); ("afternoon", "Odpoledne"); ("night", "Noc"); ("weekend", "Víkend");
   ("public_holiday", "Svátek")]%string.
Definition METRIC_ABBREVIATIONS : list (string * string) :=
  [("total", "P"); ("afternoon", "O"); ("night", "N"); ("weekend", "V");
   ("public_holiday", "S")]%string.

Definition status_metric_word (key : status_metric_key) : string :=
  match key with SK_holiday => "Dovolená" | SK_sickness => "Nemoc" | SK_paragraph => "Paragraf" end%string.
Definition status_metric_short (key : status_metric_key) : string :=
  match key with SK_holiday => "DOV" | SK_sickness => "NEM" | SK_paragraph => "PAR" end%string.

Definition join_lines (lines : list string) : string := String.concat (String newline "") lines.

Definition metric_summary_label (metrics : list (string * MetricPayload)) (locale : string)
    : result string :=
  let? lines := map_result (λ p,
      let? label := or_raise (dict_get METRIC_LABELS p.1) (Crash "KeyError") in
      let? text := print_text label locale in
      Ok (text +:+ " " +:+ format_hours (mp_tenths p.2) locale)%string) metrics in
  Ok (join_lines lines).

Definition metric_cell_label (metrics : list (string * MetricPayload)) (locale : string)
    : result string :=
  let? lines := map_result (λ p,
      let? label := or_raise (dict_get METRIC_ABBREVIATIONS p.1) (Crash "KeyError") in
      Ok (label +:+ " " +:+ hours_digits (mp_tenths p.2) locale)%string) metrics in
  Ok (join_lines lines).

Definition status_metric_summary_label (metrics : list (status_metric_key * MetricPayload))
    (locale : string) : result string :=
  let? lines := map_result (λ p,
      let? text := print_text (status_metric_word p.1) locale in
      Ok (text +:+ " " +:+ format_hours (mp_tenths p.2) locale)%string) metrics in
  Ok (join_lines lines).

Definition status_metric_cell_label (metrics : list (status_metric_key * MetricPayload))
    (locale : string) : string :=
  join_lines ((λ p, (status_metric_short p.1 +:+ " " +:+ hours_digits (mp_tenths p.2) locale)%string)
    <$> metrics).

(** ** The report *)

Record ShiftPlanReportCell := mk_cell {
  rc_date_iso : string;
  rc_day_number : Z;
  rc_weekday_short : string;
  rc_holiday_label : option string;
  rc_tone : string;
  rc_is_within_employment_period : bool;
  rc_arrival_time : option string;
  rc_departure_time : option string;
  rc_status : option string;
  rc_status_label : option string;
  rc_interval_label : string;
  rc_duration_label : string;
  rc_planned_minutes : Z;
  rc_planned_hours : Q;
  rc_planned_metrics : list (string * MetricPayload);
  rc_status_metrics : list (status_metric_key * MetricPayload);
}.

Record ShiftPlanReportEmployment := mk_report_row {
  rr_employment_id : Z;
  rr_display_label : string;
  rr_user_name : string;
  rr_title : string;
  rr_employment_type : string;
  rr_start_date : string;
  rr_end_date : option string;
  rr_is_active_in_month : bool;
  rr_display_metrics : list string;
  rr_cells : list ShiftPlanReportCell;
  rr_planned_minutes_total : Z;
  rr_planned_hours : Q;
  rr_planned_metrics : list (string * MetricPayload);
  rr_status_metrics : list (status_metric_key * MetricPayload);
  rr_scheduled_days : Z;
  rr_holiday_days : Z;
  rr_off_days : Z;
}.

Record ShiftPlanReportPage := mk_report_page {
  rp_page_number : Z;
  rp_employments : list ShiftPlanReportEmployment;
}.

Record DayHeader := mk_day_header {
  dh_date_iso : string;
  dh_day_number : Z;
  dh_weekday_short : string;
  dh_tone : string;
  dh_holiday_label : option string;
}.

Record ShiftPlanReport := mk_report {
  rt_year : Z;
  rt_month : Z;
  rt_month_label : string;
  rt_generated_at_iso : string;
  rt_generated_at_label : string;
  rt_day_headers : list DayHeader;
  rt_pages : list ShiftPlanReportPage;
  rt_legend : list string;
}.

Definition REPORT_LEGEND : list string :=
  ["V buňce jsou chronologické plánované časy nebo celodenní stav.";
   "Dovolená = celodenní stav z plánu směn.";
   "Volno = celodenní stav bez plánované směny.";
   "Šedé buňky označují víkend, béžové státní svátek.";
   "Hodiny: P plán, O odpoledne, N noc, V víkend, S svátek; DOV dovolená, NEM nemoc, PAR paragraf."]%string.

Definition day_header (day : date) : DayHeader :=
  mk_day_header (isoformat day) (day_of day) (weekday_short day) (tone_for_day day)
    (report_holiday_label day).

(** [plan and plan.arrival_time and plan.departure_time]. *)
Definition planned_times (plan : option ShiftPlan) : list string :=
  match plan with
  | Some p =>
      match sp_arrival_time p, sp_departure_time p with
      | Some a, Some d => if truthy (Some a) && truthy (Some d) then [a; d] else []
      | _, _ => []
      end
  | None => []
  end.

(** ["; ".join(interval_parts)] of none or two parts. *)
Definition interval_label (parts : list string) : string :=
  match parts with a :: d :: _ => (a +:+ "; " +:+ d)%string | _ => EmptyString end.

Definition report_cell (e : Employment) (rows : list ShiftPlan) (summary : MonthSummary)
    (day : date) : result ShiftPlanReportCell :=
  let display_metrics := display_metrics_for_employment e in
  let show_total := mem "total"%string display_metrics in
  let plan := plan_by_key rows (em_id e) day in
  let? day_summary := day_of_summary summary day in
  let status := dy_effective_status day_summary in
  let? mins := planned_minutes_of_day day_summary in
  let? v := metric_value mins in
  Ok (mk_cell (isoformat day) (day_of day) (weekday_short day) (report_holiday_label day)
    (tone_for_day day) (within_employment_period e day)
    (p ← plan; sp_arrival_time p) (p ← plan; sp_departure_time p) status
    (if truthy status then dict_get STATUS_LABELS (default EmptyString status) else None)
    (interval_label (planned_times plan))
    (if show_total && (0 <? mins) then format_hours (mv_tenths v) "cs" else EmptyString)
    mins (hours_of_tenths (mv_tenths v))
    (daily_metric_payload (dy_planned day_summary) display_metrics)
    (status_metric_payload (day_status_items (dy_status_metrics day_summary)))).

(** The counters of the loop: days with both times, and days by status. *)
Definition count_cells (p : ShiftPlanReportCell → bool) (cells : list ShiftPlanReportCell) : Z :=
  Z.of_nat (length (where_ p cells)).
Definition cell_scheduled (c : ShiftPlanReportCell) : bool :=
  truthy (rc_arrival_time c) && truthy (rc_departure_time c).
Definition cell_status (value : string) (c : ShiftPlanReportCell) : bool :=
  status_is (rc_status c) value.

Definition report_row (db : DB) (year month : Z) (rows : list ShiftPlan)
    (summaries : list (Z * MonthSummary)) (e : Employment) : result ShiftPlanReportEmployment :=
  let '(start, stop) := month_range year month in
  let display_metrics := display_metrics_for_employment e in
  let? summary := summary_of summaries (em_id e) in
  let? cells := map_result (report_cell e rows summary) (month_days start stop) in
  let? mins := planned_minutes summary in
  let? tenths := planned_tenths summary in
  Ok (mk_report_row (em_id e) (employment_label db e (Some (user_name_of db e))) (user_name_of db e)
    (em_title e) (employment_type_value (em_employment_type e))
    (isoformat (em_start_date e)) (isoformat <$> em_end_date e) true display_metrics cells
    mins (hours_of_tenths tenths)
    (monthly_metric_payload (ms_planned summary) display_metrics)
    (status_metric_payload (ms_status_metrics summary))
    (count_cells cell_scheduled cells) (count_cells (cell_status "HOLIDAY") cells)
    (count_cells (cell_status "OFF") cells)).

(** [range(0, len(report_rows), EMPLOYMENTS_PER_PAGE)]. *)
Definition report_pages (rows : list ShiftPlanReportEmployment) : list ShiftPlanReportPage :=
  (λ k, mk_report_page (Z.of_nat k + 1)
          (take EMPLOYMENTS_PER_PAGE (drop (k * EMPLOYMENTS_PER_PAGE) rows)))
    <$> seq 0 ((length rows + (EMPLOYMENTS_PER_PAGE - 1)) / EMPLOYMENTS_PER_PAGE)%nat.

Definition value_error : api_error := Crash "ValueError".

Section Report.
Context `{zone : PragueZone}.

(** The selected employments, in the order requested. *)
Definition report_employment (db : DB) (start stop : date) (employment_id : Z) : result Employment :=
  let? e := or_raise (get_employment db employment_id) value_error in
  guard (negb (active_in_month db start stop e)) value_error ?;;
  Ok e.

(** [generated_at.isoformat(timespec="seconds")] and
    [generated_at.strftime("%d.%m.%Y %H:%M")]. *)
Definition isoformat_seconds (a : aware) : string :=
  datetime_isoformat (mk_aware (wall a - wall a mod us_per_second) (utc a - wall a mod us_per_second)).
Definition generated_label (a : aware) : string :=
  let day := date_of a in
  (string_of_list_ascii (fixed_digits 2 (day_of day) ++ "."%char :: fixed_digits 2 (month_of day) ++
     "."%char :: fixed_digits 4 (year_of day)) +:+ " " +:+
   format_hhmm (minute_of_wall (wall a) / 60) (minute_of_wall (wall a) mod 60))%string.

Definition build_shift_plan_report (db : DB) (now year month : Z) (employment_ids : list Z)
    : result ShiftPlanReport :=
  let selected_ids := dedup employment_ids in
  guard (negb (nonempty selected_ids)) value_error ?;;
  let '(start, stop) := month_range year month in
  let generated_at := prague_now (Zoned now) in
  let? es := map_result (report_employment db start stop) selected_ids in
  let plan_rows := plans_of_many db selected_ids start stop in
  let? summaries := build_month_summaries db es year month false in
  let? rows := map_result (report_row db year month plan_rows summaries) es in
  Ok (mk_report year month
    (default EmptyString (MONTH_LABELS_CS !! Z.to_nat (month - 1)) +:+ " " +:+ pretty year)%string
    (isoformat_seconds generated_at) (generated_label generated_at)
    (day_header <$> month_days start stop) (report_pages rows) REPORT_LEGEND).

(** ** The payload *)

Record CellPayload := mk_cell_payload {
  cp_date_iso : string;
  cp_day_number : Z;
  cp_weekday_short : string;
  cp_holiday_label : option string;
  cp_tone : string;
  cp_is_within_employment_period : bool;
  cp_arrival_time : option string;
  cp_departure_time : option string;
  cp_status : option string;
  cp_status_label : option string;
  cp_interval_label : string;
  cp_duration_label : string;
  cp_planned_metrics : list (string * MetricPayload);
  cp_status_metrics : list (status_metric_key * MetricPayload);
}.

Record PrintedEmployment := mk_printed_employment {
  pe_employment_id : Z;
  pe_display_label : string;
  pe_user_name : string;
  pe_title : string;
  pe_employment_type : string;
  pe_start_date : string;
  pe_end_date : option string;
  pe_is_active_in_month : bool;
  pe_display_metrics : list string;
  pe_planned_metrics : list (string * MetricPayload);
  pe_status_metrics : list (status_metric_key * MetricPayload);
  pe_scheduled_days : Z;
  pe_holiday_days : Z;
  pe_off_days : Z;
  pe_cells : list CellPayload;
}.

Record ReportPayload := mk_report_payload {
  rl_year : Z;
  rl_month : Z;
  rl_month_label : string;
  rl_generated_at_iso : string;
  rl_generated_at_label : string;
  rl_page_count : Z;
  rl_day_headers : list DayHeader;
  rl_legend : list string;
  rl_pages : list (Z * list PrintedEmployment);
}.

Definition cell_payload (c : ShiftPlanReportCell) : CellPayload :=
  mk_cell_payload (rc_date_iso c) (rc_day_number c) (rc_weekday_short c) (rc_holiday_label c)
    (rc_tone c) (rc_is_within_employment_period c) (rc_arrival_time c) (rc_departure_time c)
    (rc_status c) (rc_status_label c) (rc_interval_label c) (rc_duration_label c)
    (rc_planned_metrics c) (rc_status_metrics c).

Definition printed_employment (r : ShiftPlanReportEmployment) : PrintedEmployment :=
  mk_printed_employment (rr_employment_id r) (rr_display_label r) (rr_user_name r) (rr_title r)
    (rr_employment_type r) (rr_start_date r) (rr_end_date r) (rr_is_active_in_month r)
    (rr_display_metrics r) (rr_planned_metrics r) (rr_status_metrics r) (rr_scheduled_days r)
    (rr_holiday_days r) (rr_off_days r) (cell_payload <$> rr_cells r).

Definition report_to_payload (report : ShiftPlanReport) : ReportPayload :=
  mk_report_payload (rt_year report) (rt_month report) (rt_month_label report)
    (rt_generated_at_iso report) (rt_generated_at_label report)
    (Z.of_nat (length (rt_pages report))) (rt_day_headers report) (rt_legend report)
    ((λ page, (rp_page_number page, printed_employment <$> rp_employments page)) <$> rt_pages report).

(** The endpoint turns the [ValueError] into a 400. *)
Definition export_shift_plan_report_payload (db : DB) (now year month : Z)
    (employment_ids : list Z) : result ReportPayload :=
  query_month year month ?;;
  let? report := except_value_error (build_shift_plan_report db now year month employment_ids)
    bad_request in
  Ok (report_to_payload report).
End Report.

Definition shift_plan_pdf_filename (year month : Z) : string :=
  ("plan_smen_" +:+ string_of_list_ascii (fixed_digits 4 year ++ "-"%char :: fixed_digits 2 month) +:+
   ".pdf")%string.
