(* ===== verification/ReportSafety.v ===== *)
(** * What the printed shift plan contains

    The report is made exactly when every selected employment may be printed;
    its pages hold each of them once, in the order requested, at most five to
    a page, and its figures are those of the plan views. *)

From stdpp Require Import pretty.
From S2P Require Import Prelude Calendar TimeParse Format PragueTime IsoText Models TimeIntervals.
From S2P Require Import TimeMetrics EmploymentAccess DayStatus AttendanceEvents MonthSummary AttendanceApi.
From S2P Require Import SystemInvariant ShiftPlanApi MonthViews MonthSheets PlanViews PlanSheets.
From S2P Require Import Report.
From Stdlib Require Import QArith.
#[local] Open Scope Z_scope.

(** ** Pages *)

(** Cutting a list into pieces loses and repeats nothing. *)
Lemma pieces_concat {A} (w : nat) (l : list A) (n : nat) :
  (0 < w)%nat → (length l <= n * w)%nat →
  mjoin ((λ k, take w (drop (k * w) l)) <$> seq 0 n) = l.
Proof.
  intros Hw. revert l. induction n as [|n IH].
  { intros l Hl. destruct l; [done|simpl in Hl; lia]. }
  intros l Hl. cbn [seq]. rewrite fmap_cons, <- fmap_S_seq, <- list_fmap_compose. cbn [mjoin list_join].
  change (0 * w)%nat with 0%nat. rewrite drop_0.
  rewrite (list_fmap_ext ((λ k, take w (drop (k * w) l)) ∘ S)
    (λ k, take w (drop (k * w) (drop w l)))).
  - rewrite IH by (rewrite length_drop; lia). apply take_drop.
  - intros i k _. unfold compose. rewrite drop_drop. do 2 f_equal; lia.
Qed.

Lemma piece_length {A} (w : nat) (l : list A) (k : nat) :
  (0 < w)%nat → (k < (length l + (w - 1)) / w)%nat → (1 <= length (take w (drop (k * w) l)) <= w)%nat.
Proof.
  intros Hw Hk. rewrite length_take, length_drop.
  assert (k * w < length l)%nat; [|lia].
  pose proof (Nat.div_mod_eq (length l + (w - 1)) w).
  pose proof (Nat.mod_upper_bound (length l + (w - 1)) w ltac:(lia)). nia.
Qed.

Lemma report_pages_concat rows : mjoin (rp_employments <$> report_pages rows) = rows.
Proof.
  unfold report_pages. rewrite <- list_fmap_compose. apply pieces_concat; unfold EMPLOYMENTS_PER_PAGE; [lia|].
  pose proof (Nat.div_mod_eq (length rows + (5 - 1)) 5).
  pose proof (Nat.mod_upper_bound (length rows + (5 - 1)) 5 ltac:(lia)). lia.
Qed.

Lemma report_pages_size rows page :
  page ∈ report_pages rows → (1 <= length (rp_employments page) <= EMPLOYMENTS_PER_PAGE)%nat.
Proof.
  intros (k & -> & Hk)%list_elem_of_fmap. apply elem_of_seq in Hk. cbn [rp_employments].
  apply piece_length; [unfold EMPLOYMENTS_PER_PAGE; lia|]. lia.
Qed.

Lemma report_pages_numbers rows k page :
  report_pages rows !! k = Some page → rp_page_number page = Z.of_nat k + 1.
Proof.
  unfold report_pages. rewrite list_lookup_fmap. destruct (seq _ _ !! k) as [j|] eqn:E; [|done].
  intros [= <-]. apply lookup_seq in E as [-> _]. done.
Qed.

Section ReportSafety.
Context `{zone : PragueZone}.

(** ** Rows *)

(** A printed row shows the plan of the plan views; a day counts by its
    effective status. *)
Record report_row_shown (db : DB) (y m : Z) (e : Employment) (r : ShiftPlanReportEmployment) : Prop := {
  rs_id : rr_employment_id r = em_id e;
  rs_days : ∃ days, plan_shown db e y m days (rr_planned_minutes_total r) (rr_planned_hours r) ∧
    (rc_planned_minutes <$> rr_cells r) = (pd_planned_minutes <$> days) ∧
    (rc_planned_hours <$> rr_cells r) = (pd_planned_hours <$> days) ∧
    (rc_arrival_time <$> rr_cells r) = (pd_arrival_time <$> days) ∧
    (rc_departure_time <$> rr_cells r) = (pd_departure_time <$> days) ∧
    (rc_status <$> rr_cells r) = (pd_effective_status <$> days);
  rs_dates : rc_date_iso <$> rr_cells r = isoformat <$> month_days (mk_date y m 1) (next_month y m);
  rs_scheduled : rr_scheduled_days r = count_cells cell_scheduled (rr_cells r);
  rs_holiday : rr_holiday_days r = count_cells (cell_status "HOLIDAY") (rr_cells r);
  rs_off : rr_off_days r = count_cells (cell_status "OFF") (rr_cells r);
}.

Context (db : DB) (e : Employment) (y m : Z) (s : MonthSummary).
Context (Hi : inv db) (Hs : build_employment_summary db e y m false = Ok s).

(** A cell holds what the plan views show of its day. *)
Definition same_day (c : ShiftPlanReportCell) (o : ShiftPlanDayOut) : Prop :=
  rc_date_iso c = pd_date o ∧ rc_planned_minutes c = pd_planned_minutes o ∧
  rc_planned_hours c = pd_planned_hours o ∧ rc_arrival_time c = pd_arrival_time o ∧
  rc_departure_time c = pd_departure_time o ∧ rc_status c = pd_effective_status o.

Lemma report_cell_ok ids ds o :
  em_id e ∈ ids → ds ∈ ms_day_summaries s → plan_day_out e (dy_plan ds) (dy_date ds) ds = Ok o →
  ∃ c, report_cell e (plans_of_many db ids (mk_date y m 1) (next_month y m)) s (dy_date ds) = Ok c ∧
    same_day c o.
Proof.
  intros He Hds Ho. unfold report_cell. rewrite (day_of_summary_found _ _ _ _ _ _ Hs Hds). cbn [rbind].
  rewrite plan_by_key_month by (done || by eapply summary_day_range).
  destruct (summary_day_rows _ _ _ _ _ Hs _ Hds) as [<- _].
  unfold plan_day_out in Ho. apply rbind_ok in Ho as (n & Hn & Ho).
  apply rbind_ok in Ho as (h & Hh & [= <-]). unfold planned_hours_of_day in Hh. rewrite Hn in Hh |- *.
  cbn [rbind] in Hh |- *. apply rbind_ok in Hh as (v & -> & [= <-]). cbn [rbind].
  eexists. split; [done|]. repeat split.
Qed.

Lemma report_cells_ok ids days :
  em_id e ∈ ids → plan_days e s = Ok days →
  ∃ cells, map_result (report_cell e (plans_of_many db ids (mk_date y m 1) (next_month y m)) s)
      (month_days (mk_date y m 1) (next_month y m)) = Ok cells ∧ Forall2 same_day cells days.
Proof.
  intros He Hdays. rewrite <- (summary_days _ _ _ _ _ _ Hs). unfold plan_days in Hdays.
  assert (Hall : ∀ ds, ds ∈ ms_day_summaries s → ds ∈ ms_day_summaries s) by done.
  revert Hall days Hdays. generalize (ms_day_summaries s) at 1 3 4 as l.
  induction l as [|ds l IH]; intros Hall days; csimpl.
  { intros [= <-]. by exists []. }
  intros (o & Ho & (os & Hos & [= <-])%rbind_ok)%rbind_ok.
  destruct (report_cell_ok ids ds o He (Hall _ ltac:(left)) Ho) as (c & -> & Hc).
  destruct (IH (λ x Hx, Hall x (list_elem_of_further _ _ _ Hx)) _ Hos) as (cs & Hcs & Hf).
  cbn [rbind]. rewrite Hcs. exists (c :: cs). split; [done|by constructor].
Qed.

Lemma same_days_fmap cells days :
  Forall2 same_day cells days →
  (rc_date_iso <$> cells) = (pd_date <$> days) ∧
  (rc_planned_minutes <$> cells) = (pd_planned_minutes <$> days) ∧
  (rc_planned_hours <$> cells) = (pd_planned_hours <$> days) ∧
  (rc_arrival_time <$> cells) = (pd_arrival_time <$> days) ∧
  (rc_departure_time <$> cells) = (pd_departure_time <$> days) ∧
  (rc_status <$> cells) = (pd_effective_status <$> days).
Proof.
  induction 1 as [|c o cells days (H1 & H2 & H3 & H4 & H5 & H6) _ (I1 & I2 & I3 & I4 & I5 & I6)];
    [done|]. csimpl. by rewrite H1, H2, H3, H4, H5, H6, I1, I2, I3, I4, I5, I6.
Qed.

Lemma report_row_ok ids l :
  em_id e ∈ ids → summary_of l (em_id e) = Ok s →
  ∃ r, report_row db y m (plans_of_many db ids (mk_date y m 1) (next_month y m)) l e = Ok r ∧
    report_row_shown db y m e r.
Proof.
  intros He Hl. destruct (plan_shown_ok db e y m s Hi Hs) as (days & n & Hd & Hn & Hm & Hsh).
  destruct (report_cells_ok ids days He Hd) as (cells & Hc & Hf).
  apply same_days_fmap in Hf as (Hdate & Hmin & Hhours & Ha & Hdep & Hst).
  unfold report_row, month_range. rewrite Hl. cbn [rbind]. rewrite Hc. cbn [rbind].
  rewrite Hm. cbn [rbind]. rewrite Hn. cbn [rbind]. eexists. split; [done|].
  constructor; cbn [rr_employment_id rr_cells rr_planned_minutes_total rr_planned_hours
    rr_scheduled_days rr_holiday_days rr_off_days]; [done| | |done..].
  - exists days. by split_and!.
  - rewrite Hdate. apply Hsh.
Qed.
End ReportSafety.

(** ** Properties *)

Section ReportProperties.
Context `{zone : PragueZone}.

(** An employment that may be printed in a month. *)
Definition printable (db : DB) (start stop : date) (i : Z) : Prop :=
  ∃ e, get_employment db i = Some e ∧ account_is_active db e ∧ meets start stop e.

Lemma report_employment_ok db start stop i :
  (∃ e, report_employment db start stop i = Ok e ∧ e ∈ employments db ∧ em_id e = i ∧
     printable db start stop i) ∨
  (report_employment db start stop i = Err value_error ∧ ¬ printable db start stop i).
Proof.
  unfold report_employment, printable. destruct (get_employment db i) as [e|] eqn:E.
  2:{ right. split; [done|]. by intros (? & ? & _). }
  cbn [or_raise rbind]. apply get_employment_ok in E as He. destruct He as [He Hid].
  destruct (active_in_month db start stop e) eqn:Ea; cbn [guard rbind negb].
  - left. exists e. split_and!; [done..|]. exists e. by split; [|apply active_in_month_iff].
  - right. split; [done|]. intros (e' & [= <-] & H%active_in_month_iff). congruence.
Qed.

Lemma map_result_err {A B} (f : A → result B) l err :
  (∀ x, x ∈ l → (∃ y, f x = Ok y) ∨ f x = Err err) → (∃ x, x ∈ l ∧ f x = Err err) →
  map_result f l = Err err.
Proof.
  induction l as [|x l IH]; intros Hall (z & Hz & Hf); [by apply elem_of_nil in Hz|]. simpl.
  destruct (Hall x ltac:(left)) as [[y Hy]|Hx]; [|by rewrite Hx].
  rewrite Hy. cbn [rbind]. rewrite IH; [done|intros w Hw; apply Hall; by right|].
  apply elem_of_cons in Hz as [->|Hz]; [congruence|]. by exists z.
Qed.

Lemma report_employments_ok db start stop ids :
  (∀ i, i ∈ ids → printable db start stop i) →
  ∃ es, map_result (report_employment db start stop) ids = Ok es ∧ em_id <$> es = ids ∧
    ∀ e, e ∈ es → e ∈ employments db.
Proof.
  induction ids as [|i ids IH]; intros H.
  { exists []. split_and!; [done..|]. intros e He. by apply elem_of_nil in He. }
  destruct IH as (es & Hes & Hids & Hin); [intros j Hj; apply H; by right|].
  destruct (report_employment_ok db start stop i) as [(e & He & Hedb & Hid & _)|[_ Hn]];
    [|destruct Hn; apply H; left].
  exists (e :: es). simpl. rewrite He. cbn [rbind]. rewrite Hes. split_and!; [done| |].
  - by f_equal.
  - intros e' [->|He']%elem_of_cons; [done|by apply Hin].
Qed.

(** C34: A shift-plan report is refused when nothing is selected or a selected
    employment does not exist, does not overlap the month or has no active user;
    otherwise it is always made: its pages hold every selected employment once,
    in the order requested, one to five on a page, numbered from one, and each
    row shows the days and the total of the plan views. *)
Theorem report_spec db now y m ids (Hi : inv db) (Hy : 2000 <= y <= 2100) (Hm : 1 <= m <= 12) :
  (ids = [] ∨ (∃ i, i ∈ ids ∧ ¬ printable db (mk_date y m 1) (next_month y m) i) →
    export_shift_plan_report_payload db now y m ids = Err bad_request) ∧
  (ids ≠ [] → (∀ i, i ∈ ids → printable db (mk_date y m 1) (next_month y m) i) →
    ∃ report, build_shift_plan_report db now y m ids = Ok report ∧
      export_shift_plan_report_payload db now y m ids = Ok (report_to_payload report) ∧
      rr_employment_id <$> mjoin (rp_employments <$> rt_pages report) = dedup ids ∧
      (∀ k page, rt_pages report !! k = Some page → rp_page_number page = Z.of_nat k + 1 ∧
         (1 <= length (rp_employments page) <= EMPLOYMENTS_PER_PAGE)%nat ∧
         ∀ r, r ∈ rp_employments page → ∃ e, e ∈ employments db ∧ report_row_shown db y m e r)).
Proof.
  unfold export_shift_plan_report_payload. rewrite (proj2 (query_month_iff y m tt)) by done.
  cbn [rbind]. unfold build_shift_plan_report. cbn [month_range]. split.
  - intros [->|(i & Hin & Hn)]; [done|].
    destruct (nonempty (dedup ids)); [|done]. cbn [guard rbind negb].
    rewrite (map_result_err _ _ value_error); [done| |].
    + intros j _. destruct (report_employment_ok db (mk_date y m 1) (next_month y m) j)
        as [(e & He & _)|[He _]]; eauto.
    + exists i. split; [by apply elem_of_dedup|].
      by destruct (report_employment_ok db (mk_date y m 1) (next_month y m) i)
        as [(e & _ & _ & _ & Hp)|[He _]].
  - intros Hne Hall.
    assert (nonempty (dedup ids) = true) as ->.
    { destruct ids as [|i ids]; [done|]. assert (Hin : i ∈ dedup (i :: ids)) by (apply elem_of_dedup; left).
      destruct (dedup _); [by apply elem_of_nil in Hin|done]. }
    destruct (report_employments_ok db (mk_date y m 1) (next_month y m) (dedup ids))
      as (es & Hes & Hids & Hin); [intros j; rewrite elem_of_dedup; apply Hall|].
    cbn [guard rbind negb]. rewrite Hes. cbn [rbind].
    destruct (summaries_ok db es y m Hi Hin) as (l & Hl & Hsum). rewrite Hl. cbn [rbind].
    edestruct (map_rows (report_row db y m
      (plans_of_many db (dedup ids) (mk_date y m 1) (next_month y m)) l)
      rr_employment_id (report_row_shown db y m) es) as (rows & Hrows & Hk & Hshown).
    { intros e He. destruct (Hsum e He) as (s & Hs & Hb).
      destruct (report_row_ok db e y m s Hi Hb (dedup ids) l) as (r & Hr & Hsh); [|done|].
      - rewrite <- Hids. by apply list_elem_of_fmap_2.
      - exists r. split_and!; [done|apply Hsh|done]. }
    rewrite Hrows. cbn [rbind]. eexists. split; [done|]. split; [done|]. cbn [rt_pages].
    rewrite report_pages_concat, Hk. split; [done|]. intros k page Hp.
    split; [by eapply report_pages_numbers|]. apply list_elem_of_lookup_2 in Hp.
    split; [by eapply report_pages_size|]. intros r Hr.
    assert (Hrow : r ∈ rows).
    { rewrite <- (report_pages_concat rows). apply elem_of_mjoin_fmap. by exists page. }
    destruct (Hshown _ Hrow) as (e & He & Hsh). exists e. split; [by apply Hin|done].
Qed.
End ReportProperties.

(** *** The labels of a page never fail *)

Lemma print_text_total value locale :
  locale ∈ "cs"%string :: PRINT_LOCALES → ∃ text, print_text value locale = Ok text.
Proof.
  unfold print_text. destruct (String.eqb locale "cs") eqn:E; [by eexists|].
  intros [->|H]%elem_of_cons; [done|]. apply mem_true in H. rewrite H. by eexists.
Qed.

Lemma displayed_payload_key get names p :
  p ∈ displayed_payload get names → ∃ k, metric_key_of p.1 = Some k.
Proof.
  unfold displayed_payload. rewrite list_elem_of_omap. intros (name & _ & H).
  destruct (metric_key_of name) as [k|] eqn:E; [|done]. simpl in H.
  destruct (get k) as [v|]; [|done]. injection H as <-. by exists k.
Qed.

Lemma metric_key_labels name k :
  metric_key_of name = Some k →
  (∃ l, dict_get METRIC_LABELS name = Some l) ∧ ∃ l, dict_get METRIC_ABBREVIATIONS name = Some l.
Proof.
  intros H. assert (Hn : name ∈ ["total"; "afternoon"; "night"; "weekend"; "public_holiday"]%string).
  { unfold metric_key_of, dict_get in H. destruct (last _) as [q|] eqn:E; [|done].
    apply last_Some_elem_of, elem_of_where in E as [Hq He%String.eqb_eq]. rewrite <- He.
    by apply (list_elem_of_fmap_2 fst) in Hq. }
  rewrite !elem_of_cons, elem_of_nil in Hn.
  destruct Hn as [->|[->|[->|[->|[->|[]]]]]]; split; by eexists.
Qed.

(** Whatever metrics of an employment are shown, in any of the locales. *)
Lemma metric_labels_total get names locale :
  locale ∈ "cs"%string :: PRINT_LOCALES →
  (∃ text, metric_summary_label (displayed_payload get names) locale = Ok text) ∧
  (∃ text, metric_cell_label (displayed_payload get names) locale = Ok text).
Proof.
  intros Hl. unfold metric_summary_label, metric_cell_label. split.
  - edestruct (map_result_total (λ p : string * MetricPayload,
      let? label := or_raise (dict_get METRIC_LABELS p.1) (Crash "KeyError") in
      let? text := print_text label locale in
      Ok (text +:+ " " +:+ format_hours (mp_tenths p.2) locale)%string)) as [lines ->]; [|by eexists].
    intros p (k & Hk)%displayed_payload_key. apply metric_key_labels in Hk as [(l & ->) _].
    cbn [or_raise rbind]. destruct (print_text_total l locale Hl) as [t ->]. by eexists.
  - edestruct (map_result_total (λ p : string * MetricPayload,
      let? label := or_raise (dict_get METRIC_ABBREVIATIONS p.1) (Crash "KeyError") in
      Ok (label +:+ " " +:+ hours_digits (mp_tenths p.2) locale)%string)) as [lines ->]; [|by eexists].
    intros p (k & Hk)%displayed_payload_key. apply metric_key_labels in Hk as [_ (l & ->)]. by eexists.
Qed.

(** The label of a movable holiday has no translation: it is printed in Czech
    in every locale, though the table has the names of both movable holidays. *)
Lemma movable_holiday_untranslated day locale :
  report_fixed_holiday (month_of day) (day_of day) = None → is_czech_public_holiday day = true →
  locale ∈ PRINT_LOCALES →
  report_holiday_label day = Some "Pohyblivý svátek"%string ∧
  print_text "Pohyblivý svátek" locale = Ok "Pohyblivý svátek"%string.
Proof.
  intros Hf Hh Hl. unfold report_holiday_label. rewrite Hf, Hh. split; [done|].
  unfold PRINT_LOCALES in Hl. rewrite !elem_of_cons, elem_of_nil in Hl.
  destruct Hl as [->|[->|[->|[]]]]; vm_compute; reflexivity.
Qed.
