(* ===== verification/CmlWeb.v ===== *)
(** * The boundary to KajovoCML

    security/cml_assertion.py: a request that KajovoCML sends on behalf of
    somebody carries a token with an Ed25519 signature and claims that bind it
    to one method, path and body for ten seconds.  Every exception of [verify]
    becomes [AssertionDenied], here [None].  [json.loads] on octets and the
    signature scheme are the class [CmlLibrary]; texts are sequences of
    characters below 256.

    services/cml_profiles.py: the central administration creates an employee's
    account together with a receipt in one transaction; a repeated operation is
    answered from its receipt.  A [ProfileFault] is an [ApiError] with its
    status and code.  The advisory locks make operations on one identifier
    follow each other, as the steps here do.

    security/cml_web.py and services/cml_identity.py: the ASGI middleware in
    front of the application.  A request under /cml-web/ must carry an assertion
    of KajovoCML; its nonce is stored, its subject resolved to an account, and
    only then the middleware answers it or forwards it to the application with
    the verified identity.  What the middleware needs of the network and of the
    disk is in [WebRequest] and [CmlSite]; the two readings of the clock are two
    arguments. *)

From stdpp Require Import list pretty.
From S2P Require Import Prelude Calendar TimeParse PragueTime Models DayStatus AttendanceEvents AttendanceApi Groups.
From S2P Require Import AdminEmployments Lockout Accounts Sessions Login AdminUsers Instances IpAddress Cursors.
From S2P Require Import UrlText ExternalProviders.
#[local] Open Scope Z_scope.

(** ** Assertions (security/cml_assertion.py) *)

(** [json.loads] of octets ([None] when it raises), the JSON parser of
    pydantic, and [Ed25519PublicKey.verify] of a key, a signature and a text. *)
Class CmlLibrary := {
  json_loads : list Z → option json;
  pydantic_json : list Z → option json;
  ed25519_verify : list Z → list Z → string → bool;
}.

Definition ISSUER : string := "https://kajovocml.hcasc.cz".

(** *** Texts *)

Definition is_lower_hex (c : ascii) : bool :=
  is_digit c || ((97 <=? code c) && (code c <=? 102)).
Definition hex_or_dash (c : ascii) : bool := is_lower_hex c || Ascii.eqb c "-".
Definition url_alphabet (c : ascii) : bool :=
  is_alpha c || is_digit c || Ascii.eqb c "-" || Ascii.eqb c "_".

(** Groups of hexadecimal digits of the given lengths, joined by dashes. *)
Fixpoint hex_groups (ns : list nat) (l : chars) : bool :=
  match ns with
  | [] => false
  | [n] => (length l =? n)%nat && forallb is_lower_hex l
  | n :: rest =>
      (length (take n l) =? n)%nat && forallb is_lower_hex (take n l) &&
      match drop n l with c :: l' => Ascii.eqb c "-" && hex_groups rest l' | [] => false end
  end.

(** [str(UUID(value)) == value]: [str] writes the canonical text, which
    [UUID] reads. *)
Definition canonical_uuid (s : string) : bool := hex_groups [8; 4; 4; 4; 12]%nat (list_ascii_of_string s).

(** [[0-9a-f-]{36}] and [[1-9][0-9]*]. *)
Definition hex_dash_36 (s : string) : bool :=
  (String.length s =? 36)%nat && forallb hex_or_dash (list_ascii_of_string s).
Definition positive_numeral (s : string) : bool :=
  match list_ascii_of_string s with
  | c :: rest => is_digit c && negb (Ascii.eqb c "0") && forallb is_digit rest
  | [] => false
  end.

(** [_decode]: URL-safe base64 without its padding. *)
Definition decode_segment (value : string) : option (list Z) :=
  let l := list_ascii_of_string value in
  if negb (is_nil l) && forallb url_alphabet l then a2b (l ++ padding l) 0 0 0 else None.

(** *** Claims *)

Definition claim_is (s : string) (v : option json) : bool := from_option (json_is_text s) false v.
Definition is_none (v : option json) : bool :=
  match v with Some JNull | None => true | _ => false end.

(** A dict with exactly these entries, and a list with exactly these items. *)
Definition dict_is (entries : list (string * (json → bool))) (v : json) : bool :=
  match v with
  | JObject fields =>
      (length fields =? length entries)%nat &&
      forallb (λ e, from_option e.2 false (get_field e.1 fields)) entries
  | _ => false
  end.
Definition list_is (items : list (json → bool)) (v : json) : bool :=
  match v with
  | JList l => (length l =? length items)%nat && forallb (λ p, p.1 p.2) (zip items l)
  | _ => false
  end.

(** [str(value)]; the text of any other value matches no pattern below. *)
Definition py_text (v : json) : option string :=
  match v with
  | JString s => Some s
  | JInt n => Some (pretty n)
  | JNull => Some "None"%string
  | JBool b => Some (if b then "True" else "False")%string
  | _ => None
  end.
Definition text_matches (p : string → bool) (v : option json) : bool :=
  match v with None => p EmptyString | Some v => from_option p false (py_text v) end.

Definition OWNER : string := "KRMAR78".

(** [re.fullmatch(r"user:[0-9a-f-]{36}", subject)] and the text after it. *)
Definition user_part (subject : string) : option string :=
  if starts_with "user:" subject then Some (substring 5 (String.length subject - 5) subject) else None.
Definition is_user_subject (v : option json) : bool :=
  text_matches (λ s, from_option hex_dash_36 false (user_part s)) v.

Definition grant_ok (v : json) : bool :=
  dict_is [("contract", json_is_text "kajovo-user-administration/1");
           ("permissions", list_is [json_is_text "users.access"]);
           ("dataScope", dict_is [("kind", json_is_text "service")])]%string v.

Definition central_administrator (claims : document) : bool :=
  match get_field "sub" claims with
  | Some (JString subject) => from_option canonical_uuid false (user_part subject)
  | _ => false
  end &&
  claim_is "admin" (get_field "role" claims) &&
  match get_field "nativeId" claims with Some JNull => true | _ => false end &&
  negb (is_some (get_field "authzPolicy" claims)) &&
  from_option grant_ok false (get_field "grant" claims).

(** *** Verification *)

Record WebVerifier := mk_verifier { wv_audience : string; wv_key : list Z }.

(** [WebVerifier.__init__]: [None] when the process cannot start with the
    key set. *)
Definition web_verifier (audience : string) (jwks : document) : option WebVerifier :=
  match get_field "keys" jwks with
  | Some (JList [JObject k]) =>
      if claim_is "OKP" (get_field "kty" k) && claim_is "Ed25519" (get_field "crv" k) &&
         claim_is "cml-web-1" (get_field "kid" k) && negb (is_some (get_field "d" k))
      then match get_field "x" k with
           | Some (JString x) =>
               key ← decode_segment x;
               if (length key =? 32)%nat then Some (mk_verifier audience key) else None
           | _ => None
           end
      else None
  | _ => None
  end.

(** [iat] and [exp] are integers ten seconds apart, around [n]. *)
Definition lifetime (claims : document) : option (Z * Z) :=
  match get_field "iat" claims, get_field "exp" claims with
  | Some (JInt iat), Some (JInt exp) => Some (iat, exp)
  | _, _ => None
  end.
Definition lifetime_ok (n : Z) (claims : document) : bool :=
  match lifetime claims with
  | Some (iat, exp) => (exp - iat =? 10) && (n - 10 <=? iat) && (iat <=? n + 1) && (n <? exp)
  | None => false
  end.

Definition epoch_ok (claims : document) : bool :=
  match get_field "epoch" claims with Some (JInt n) => 1 <=? n | _ => false end.

Definition native_id_ok (claims : document) : bool :=
  match get_field "nativeId" claims with Some (JString s) => positive_numeral s | _ => false end.

Definition csrf_claim (claims : document) : option string :=
  match get_field "csrf" claims with
  | Some (JString s) =>
      if (String.length s =? 43)%nat && forallb url_alphabet (list_ascii_of_string s)
      then Some s else None
  | _ => None
  end.

Definition header_ok (header : json) : bool :=
  dict_is [("typ", json_is_text "cml-web+jwt"); ("alg", json_is_text "EdDSA");
           ("kid", json_is_text "cml-web-1")]%string header.

(** Who the claims name. *)
Definition identity_ok (claims : document) : bool :=
  text_matches canonical_uuid (get_field "jti" claims) &&
  text_matches hex_dash_36 (get_field "sid" claims) && epoch_ok claims &&
  (claim_is OWNER (get_field "sub" claims) || is_user_subject (get_field "sub" claims)) &&
  (claim_is "admin" (get_field "role" claims) || claim_is "member" (get_field "role" claims)) &&
  (claim_is OWNER (get_field "sub" claims) || central_administrator claims || native_id_ok claims) &&
  is_some (csrf_claim claims).

Section CmlAssertion.
Context `{crypto : Crypto} `{library : CmlLibrary}.

(** What the claims were made for. *)
Definition request_ok (audience method path body : string) (claims : document) : bool :=
  claim_is ISSUER (get_field "iss" claims) && claim_is audience (get_field "aud" claims) &&
  claim_is method (get_field "method" claims) && claim_is path (get_field "path" claims) &&
  claim_is (sha256 body) (get_field "bodySha256" claims).

(** The claims of a token that KajovoCML signed. *)
Definition signed_claims (key : list Z) (token : string) : option document :=
  match split_on "." (list_ascii_of_string token) [] with
  | [h; p; s] =>
      let h := string_of_list_ascii h in
      let p := string_of_list_ascii p in
      header ← decode_segment h ≫= json_loads;
      claims ← decode_segment p ≫= json_loads;
      signature ← decode_segment (string_of_list_ascii s);
      if header_ok header && ed25519_verify key signature (h +:+ "." +:+ p) then
        match claims with JObject fields => Some fields | _ => None end
      else None
  | _ => None
  end.

Definition verify (v : WebVerifier) (token method path body : string) (n : Z) : option document :=
  if 8192 <? Z.of_nat (String.length token) then None
  else
    claims ← signed_claims (wv_key v) token;
    if lifetime_ok n claims && request_ok (wv_audience v) method path body claims && identity_ok claims
    then Some claims else None.
End CmlAssertion.

(** ** Profiles (services/cml_profiles.py) *)

Record CmlProfileProvision := mk_provision {
  cp_operation_id : string;
  cp_central_user_id : string;
  cp_fingerprint : string;
  cp_native_id : Z;
}.

Definition profile_fault (code : string) : api_error := ApiError 409 code.
Definition input_invalid : api_error := ApiError 422 "PROFILE_INPUT_INVALID".

(** [validate_profile]'s dict. *)
Record Profile := mk_cml_profile {
  pf_name : string;
  pf_email : string;
  pf_phone : option string;
  pf_role : string;
}.

Record ProvisionInput := mk_provision_in {
  pv_operation_id : string;
  pv_central_user_id : string;
  pv_profile : document;
}.

(** *** The body *)

Definition string_field (k : string) (fields : document) : option string :=
  match get_field k fields with Some (JString s) => Some s | _ => None end.

(** [ProvisionInput.model_validate_json]: strict, and no other field. *)
Definition provision_input (v : json) : option ProvisionInput :=
  match v with
  | JObject fields =>
      if (length fields =? 3)%nat then
        operation_id ← string_field "operation_id" fields;
        central_user_id ← string_field "central_user_id" fields;
        match get_field "profile" fields with
        | Some (JObject profile) =>
            if canonical_uuid operation_id && canonical_uuid central_user_id
            then Some (mk_provision_in operation_id central_user_id profile) else None
        | _ => None
        end
      else None
  | _ => None
  end.

Definition PROFILE_FIELDS : list string := ["name"; "email"; "phone"; "role"]%string.

(** [str | None] with a default, in strict mode. *)
Definition optional_text (v : option json) : option (option string) :=
  match v with
  | None | Some JNull => Some None
  | Some (JString s) => Some (Some s)
  | _ => None
  end.

Definition validate_cml_profile (value : document) : option Profile :=
  if forallb (λ kv, mem kv.1 PROFILE_FIELDS) value then
    name ← string_field "name" value;
    email ← string_field "email" value;
    phone ← optional_text (get_field "phone" value);
    role ← string_field "role" value;
    match validate_user_create (mk_user_create name email phone role None true) with
    | Ok body =>
        parse_role (uc_role body);;
        if (128 <? Z.of_nat (String.length (uc_name body))) || String.eqb (uc_email body) RESERVED_ADMIN_EMAIL
        then None
        else Some (mk_cml_profile (uc_name body) (uc_email body) (uc_phone body) (uc_role body))
    | Err _ => None
    end
  else None.

(** *** The fingerprint *)

(** The text of a character in [json.dumps(..., ensure_ascii=False)]. *)
Definition low_hex (n : Z) : ascii := ascii_of_N (Z.to_N (if n <? 10 then n + 48 else n + 87)).
Definition json_char (c : ascii) : chars :=
  let n := code c in
  if n =? 34 then [ascii_of_N 92; ascii_of_N 34]
  else if n =? 92 then [ascii_of_N 92; ascii_of_N 92]
  else if n =? 10 then [ascii_of_N 92; "n"%char]
  else if n =? 13 then [ascii_of_N 92; "r"%char]
  else if n =? 9 then [ascii_of_N 92; "t"%char]
  else if n =? 8 then [ascii_of_N 92; "b"%char]
  else if n =? 12 then [ascii_of_N 92; "f"%char]
  else if n <? 32 then [ascii_of_N 92; "u"%char; "0"%char; "0"%char; low_hex (n / 16); low_hex (n mod 16)]
  else [c].
Definition json_text (s : string) : chars :=
  ascii_of_N 34 :: mjoin (json_char <$> list_ascii_of_string s) ++ [ascii_of_N 34].
Definition json_optional (s : option string) : chars :=
  match s with None => ["n"; "u"; "l"; "l"]%char | Some s => json_text s end.

Definition json_entry (k : string) (v : chars) : chars := json_text k ++ ":"%char :: v.

(** [json.dumps({...}, sort_keys=True, separators=(",", ":"))]. *)
Definition profile_text (central_user_id : string) (p : Profile) : string :=
  string_of_list_ascii
    ("{"%char :: json_entry "central_user_id" (json_text central_user_id) ++ ","%char ::
     json_entry "profile" ("{"%char :: json_entry "email" (json_text (pf_email p)) ++ ","%char ::
       json_entry "name" (json_text (pf_name p)) ++ ","%char ::
       json_entry "phone" (json_optional (pf_phone p)) ++ ","%char ::
       json_entry "role" (json_text (pf_role p)) ++ ["}"%char]) ++ ["}"%char]).

(** *** Answers *)

Record CurrentProfile := mk_current_profile {
  cu_name : string;
  cu_email : string;
  cu_phone : option string;
  cu_role : string;
  cu_is_active : bool;
  cu_is_blocked : bool;
  cu_instance_id : option string;
  cu_instance_active : bool;
}.

(** [contract] is a constant; [None] is the answer [not_found]. *)
Record ProvisionResult := mk_provision_result {
  rs_state : string;
  rs_operation_id : string;
  rs_central_user_id : string;
  rs_fingerprint : string;
  rs_native_id : string;
  rs_profile : option CurrentProfile;
}.

Definition current_profile (p : Portal) (user : PortalUser) : CurrentProfile :=
  mk_current_profile (pu_name user) (pu_email user) (pu_phone user) "employee" (pu_is_active user)
    (pu_is_blocked user) (pu_instance_id user)
    match instance_of p user with
    | Some i => bool_decide (inst_status i = INST_ACTIVE)
    | None => false
    end.

Definition provision_result (p : Portal) (receipt : CmlProfileProvision) : ProvisionResult :=
  let user := get_user (p_db p) (cp_native_id receipt) in
  mk_provision_result (if is_some user then "confirmed" else "unavailable")
    (cp_operation_id receipt) (cp_central_user_id receipt) (cp_fingerprint receipt)
    (pretty (cp_native_id receipt)) (current_profile p <$> user).

Definition find_provision (rows : list CmlProfileProvision) (operation_id : string)
    : option CmlProfileProvision :=
  one_or_none (where_ (λ r, String.eqb (cp_operation_id r) operation_id) rows).

Definition read_profile (p : Portal) (rows : list CmlProfileProvision) (ident : string)
    : result (option ProvisionResult) :=
  guard (negb (canonical_uuid ident)) (ApiError 400 "PROFILE_OPERATION_INVALID") ?;;
  Ok (provision_result p <$> find_provision rows ident).

(** *** Creation *)

Section CmlProfiles.
Context `{crypto : Crypto} `{library : CmlLibrary}.

(** [device_fingerprint] is 128 characters wide. *)
Definition profile_fingerprint (email : string) : string :=
  if 128 <? Z.of_nat (String.length ("user:" +:+ email)) then "cml-user:" +:+ sha256 email
  else "user:" +:+ email.

Definition create_profile (p : Portal) (now : Z) (uuid : string) (value : Profile)
    : result (Portal * PortalUser) :=
  let inst := mk_instance uuid WEB (profile_fingerprint (pf_email value)) INST_ACTIVE
    (Some (pf_name value)) (Some now) None None None None now (Some now) in
  flush_instance inst ?;;
  guard (is_some (get_instance p uuid)) (Crash "IntegrityError") ?;;
  let user := mk_user (next_id (p_db p)) (pf_email value) (pf_name value) None true false
    (Some uuid) (pf_phone value) in
  Ok (set_p_db (bump_id (set_users (users (p_db p) ++ [user]) (p_db p)))
        (set_p_instances (p_instances p ++ [inst]) p), user).

(** The two unique columns of the receipts beside the key. *)
Definition flush_receipt (rows : list CmlProfileProvision) (receipt : CmlProfileProvision)
    : result unit :=
  guard (existsb (λ r, String.eqb (cp_operation_id r) (cp_operation_id receipt) ||
                       String.eqb (cp_central_user_id r) (cp_central_user_id receipt) ||
                       (cp_native_id r =? cp_native_id receipt)) rows) (Crash "IntegrityError").

Definition parse_provision (raw : string) : result (ProvisionInput * Profile) :=
  or_raise (v ← pydantic_json (octets_of raw);
            value ← provision_input v;
            profile ← validate_cml_profile (pv_profile value);
            Some (value, profile)) input_invalid.

(** [IntegrityError]: everything is rolled back and the receipt is looked up
    again. *)
Definition provision (p : Portal) (rows : list CmlProfileProvision) (now : Z) (uuid : string) (raw : string)
    : result (Portal * list CmlProfileProvision * ProvisionResult) :=
  let? (value, profile) := parse_provision raw in
  let fingerprint := sha256 (profile_text (pv_central_user_id value) profile) in
  match find_provision rows (pv_operation_id value) with
  | Some prior =>
      guard (negb (String.eqb (cp_fingerprint prior) fingerprint))
        (profile_fault "PROFILE_OPERATION_CONFLICT") ?;;
      Ok (p, rows, provision_result p prior)
  | None =>
      guard (existsb (λ r, String.eqb (cp_central_user_id r) (pv_central_user_id value)) rows)
        (profile_fault "PROFILE_IDENTITY_EXISTS") ?;;
      guard (existsb (λ u, String.eqb (lower (pu_email u)) (pf_email profile)) (users (p_db p)))
        (profile_fault "PROFILE_EMAIL_EXISTS") ?;;
      match
        (let? (p', user) := create_profile p now uuid profile in
         let receipt := mk_provision (pv_operation_id value) (pv_central_user_id value) fingerprint
           (pu_id user) in
         flush_receipt rows receipt ?;;
         Ok (p', rows ++ [receipt], provision_result p' receipt))
      with
      | Err (Crash "IntegrityError") => Err (profile_fault "PROFILE_CONFLICT")
      | r => r
      end
  end.
End CmlProfiles.

(** ** Requests (security/cml_web.py) *)

Record CmlWebNonce := mk_nonce { nc_jti : string; nc_expires_at : Z }.

Record CmlState := mk_cml {
  cm_portal : Portal;
  cm_nonces : list CmlWebNonce;
  cm_provisions : list CmlProfileProvision;
}.

(** A view of ui-manifest.json. *)
Record View := mk_view {
  vw_id : string;
  vw_admin : bool;
  vw_audience_role : option string;
  vw_permission : option string;
}.

(** The configuration: the audience, the key ([None] without a key set), the
    views of the manifest and the files under the root of the user interface. *)
Record CmlSite := mk_site {
  st_audience : string;
  st_key : option (list Z);
  st_views : list View;
  st_file : string → bool;
}.
Definition st_verifier (site : CmlSite) : option WebVerifier :=
  mk_verifier (st_audience site) <$> st_key site.

(** [wr_complete] is false when the client goes away before its body ends. *)
Record WebRequest := mk_web_request {
  wr_method : string;
  wr_path : string;
  wr_raw_path : string;
  wr_query : string;
  wr_headers : list (string * string);
  wr_body : string;
  wr_complete : bool;
}.

(** The public part of an identity. *)
Record PublicIdentity := mk_public {
  pi_admin : bool;
  pi_id : option Z;
  pi_name : string;
  pi_languages : list string;
}.
Record Identity := mk_cml_identity {
  id_user_id : option Z;
  id_admin : option AdminSession;
  id_public : PublicIdentity;
}.

(** What the application receives. *)
Record Forwarded := mk_forwarded {
  fw_method : string;
  fw_path : string;
  fw_query : string;
  fw_body : string;
  fw_claims : document;
  fw_user_id : option Z;
  fw_admin : option AdminSession;
}.

(** [CmlPass]: not a request of the boundary; the application gets it as it
    came. *)
Inductive CmlAnswer :=
  | CmlPass
  | CmlIdentity (public : PublicIdentity)
  | CmlViews (views : list View)
  | CmlFile (name : string)
  | CmlProfile (body : option ProvisionResult)
  | CmlForward (f : Forwarded).

Definition denied : api_error := ApiError 401 "cml_web_denied".
Definition unconfigured : api_error := ApiError 503 "cml_web_unconfigured".
Definition reauth_required : api_error := ApiError 403 "cml_reauth_required".

(** [raise AssertionDenied(...)]. *)
Definition deny_if (cond : bool) : result unit := guard cond denied.

Definition PREFIX : string := "/cml-web/".
Definition suffix_of (path : string) : string := substring 9 (String.length path - 9) path.

(** The headers in lower case, the last of a name. *)
Definition header (k : string) (rq : WebRequest) : option string :=
  snd <$> last (where_ (λ h, String.eqb (lower h.1) k) (wr_headers rq)).
Definition header_text (k : string) (rq : WebRequest) : string := default EmptyString (header k rq).

(** [headers.get("content-type", "").split(";")[0]]. *)
Definition media_type (rq : WebRequest) : string :=
  string_of_list_ascii (partition ";" (list_ascii_of_string (header_text "content-type" rq))).1.1.

Definition exact_path (rq : WebRequest) : string :=
  if String.eqb (wr_query rq) "" then wr_raw_path rq else wr_raw_path rq +:+ "?" +:+ wr_query rq.

Definition segments (suffix : string) : list string :=
  string_of_list_ascii <$> split_on "/" (list_ascii_of_string suffix) [].

Definition reads (method : string) : bool := mem method ["GET"; "HEAD"]%string.

(** *** Who may do what *)

Definition central_write_authorized (claims : document) (now : Z) : bool :=
  (claim_is OWNER (get_field "sub" claims) && claim_is "admin" (get_field "role" claims) &&
   is_none (get_field "nativeId" claims) &&
   claim_is "owner-no-additional-prompts/1" (get_field "authzPolicy" claims)) ||
  match get_field "reauthUntil" claims with Some (JInt n) => now <? n | _ => false end.

(** A path of these segments: [re.fullmatch] of a pattern without [/] in its
    variable parts. *)
Fixpoint segments_are (tests : list (string → bool)) (parts : list string) : bool :=
  match tests, parts with
  | [], [] => true
  | p :: tests', s :: parts' => p s && segments_are tests' parts'
  | _, _ => false
  end.

(** The paths of a central administrator. *)
Definition central_path (audience suffix : string) : bool :=
  let lit := String.eqb in
  let parts := segments suffix in
  String.eqb suffix "api/profiles" ||
  segments_are [lit "api"; lit "profiles"; hex_dash_36]%string parts ||
  (String.eqb audience "hotel" &&
   (segments_are [lit "api"; lit "v1"; lit "users"; positive_numeral]%string parts ||
    segments_are [lit "api"; lit "v1"; lit "users"; positive_numeral;
                  λ s, mem s ["roles"; "active"]]%string parts)) ||
  (String.eqb audience "dochazka" &&
   (segments_are [lit "api"; lit "v1"; lit "admin"; lit "users"; positive_numeral; lit "employments"]%string parts ||
    segments_are [lit "api"; lit "v1"; lit "admin"; lit "employments"; positive_numeral]%string parts)).

(** Account and employment administration. *)
Definition central_administration (audience suffix : string) : bool :=
  (String.eqb audience "hotel" &&
   (String.eqb suffix "api/v1/users" || starts_with "api/v1/users/" suffix)) ||
  (String.eqb audience "dochazka" &&
   (String.eqb suffix "api/v1/admin/users" || starts_with "api/v1/admin/users/" suffix ||
    starts_with "api/v1/admin/employments/" suffix)).

Definition owner_or_central (claims : document) : bool :=
  claim_is OWNER (get_field "sub" claims) || central_administrator claims.

(** Encoded dots and separators, [..] and a backslash. *)
Definition has_encoded (v : string) (l : chars) : bool :=
  is_some (String.index 0 v (string_of_list_ascii (lower_char <$> l))).
Definition path_denied (rq : WebRequest) (suffix : string) : bool :=
  existsb (λ v, has_encoded v (list_ascii_of_string (wr_raw_path rq))) ["%2e"; "%2f"; "%5c"; "%25"]%string ||
  mem ".."%string (segments suffix) ||
  contains_char (ascii_of_N 92) (list_ascii_of_string suffix).

(** *** services/cml_identity.py *)

Definition ADMIN_LANGUAGES : list string := ["cs"; "en"; "sk"; "de"]%string.

Definition subject_of (claims : document) : string := default EmptyString (string_field "sub" claims).
Definition issued_at (claims : document) : Z := default 0 (fst <$> lifetime claims).
Definition expires_at (claims : document) : Z := default 0 (snd <$> lifetime claims).
Definition native_id (claims : document) : Z :=
  digits_value (list_ascii_of_string (default EmptyString (string_field "nativeId" claims))).

Definition cml_admin (username : string) (claims : document) : option AdminSession :=
  Some (mk_admin_session (Some ("cml:" +:+ username)%string) (issued_at claims)).

Definition resolve_identity (p : Portal) (claims : document) : result Identity :=
  let admin := claim_is "admin" (get_field "role" claims) in
  let subject := subject_of claims in
  if central_administrator claims then
    Ok (mk_cml_identity None (cml_admin subject claims) (mk_public true None subject ["cs"%string]))
  else if String.eqb subject OWNER then
    Ok (mk_cml_identity None (cml_admin "owner" claims) (mk_public true None "karmar78" ADMIN_LANGUAGES))
  else
    let? user := or_raise (get_user (p_db p) (native_id claims)) denied in
    deny_if (negb (pu_is_active user) || pu_is_blocked user) ?;;
    let? inst := or_raise (instance_of p user) denied in
    deny_if (negb (bool_decide (inst_status inst = INST_ACTIVE))) ?;;
    Ok (mk_cml_identity (Some (pu_id user)) (if admin then cml_admin subject claims else None)
      (mk_public admin (Some (pu_id user)) (pu_name user)
        (if admin then ADMIN_LANGUAGES else ADMIN_LANGUAGES ++ ["hi"%string]))).

(** *** The middleware *)

Section CmlWeb.
Context `{crypto : Crypto} `{library : CmlLibrary} (site : CmlSite).

(** Up to the identity: nothing is stored yet. *)
Definition check_request (rq : WebRequest) (now : Z) : result document :=
  let? v := or_raise (st_verifier site) unconfigured in
  deny_if (negb (String.eqb (header_text "origin" rq) ISSUER)) ?;;
  deny_if (negb (wr_complete rq) || (8000000 <? Z.of_nat (String.length (wr_body rq)))) ?;;
  deny_if (negb (is_ascii (wr_raw_path rq) && is_ascii (wr_query rq))) ?;;
  let? claims := or_raise (verify v (header_text "x-cml-web-assertion" rq) (wr_method rq)
    (exact_path rq) (wr_body rq) (unix_time now)) denied in
  deny_if (negb (String.eqb (header_text "x-cml-web-prefix" rq)
                   ("/sections/" +:+ st_audience site +:+ "/"))) ?;;
  (if reads (wr_method rq) then Ok tt
   else
     let? same := compare_digest (header_text "x-csrf-token" rq) (default EmptyString (csrf_claim claims)) in
     deny_if (negb same)) ?;;
  deny_if (central_administrator claims &&
    (negb (central_path (st_audience site) (suffix_of (wr_path rq))) ||
     negb (String.eqb (wr_query rq) "") ||
     negb (mem (wr_method rq) ["GET"; "POST"; "PUT"; "PATCH"]%string))) ?;;
  Ok claims.

(** [_identity], up to the commit: expired nonces go, the one of the request
    comes, or everything is rolled back. *)
Definition spend_nonce (nonces : list CmlWebNonce) (claims : document) : result (list CmlWebNonce) :=
  let jti := default EmptyString (string_field "jti" claims) in
  let kept := delete_where (λ n, nc_expires_at n <? issued_at claims - 20) nonces in
  guard (existsb (λ n, String.eqb (nc_jti n) jti) kept) denied ?;;
  Ok (kept ++ [mk_nonce jti (expires_at claims)]).

(** **** api/profiles *)

Definition serve_profiles (w : CmlState) (later : Z) (uuid : string) (rq : WebRequest)
    (claims : document) (suffix : string) : result (CmlState * CmlAnswer) :=
  deny_if (negb (owner_or_central claims) || negb (String.eqb (wr_query rq) "")) ?;;
  if String.eqb (wr_method rq) "POST" && String.eqb suffix "api/profiles" then
    guard (negb (central_write_authorized claims (unix_time later))) reauth_required ?;;
    guard (negb (String.eqb (media_type rq) "application/json") ||
           (16384 <? Z.of_nat (String.length (wr_body rq)))) input_invalid ?;;
    let? (p, rows, body) := provision (cm_portal w) (cm_provisions w) later uuid (wr_body rq) in
    Ok (mk_cml p (cm_nonces w) rows, CmlProfile (Some body))
  else if String.eqb (wr_method rq) "GET" && starts_with "api/profiles/" suffix then
    let? body := read_profile (cm_portal w) (cm_provisions w)
      (substring 13 (String.length suffix - 13) suffix) in
    Ok (w, CmlProfile body)
  else Err (ApiError 405 "METHOD_DENIED").

(** **** The user interface *)

Definition view_shown (public : PublicIdentity) (v : View) : bool :=
  (negb (vw_admin v) || pi_admin public) &&
  match vw_audience_role v with
  | None => true
  | Some role => String.eqb role (if pi_admin public then "admin" else "member")
  end &&
  negb (truthy (vw_permission v)).

(** [path.suffix] of the last component; empty components and [.] are none. *)
Definition file_extension (name : string) : string :=
  let parts := delete_where (λ s, mem s [""; "."]%string) (segments name) in
  let '(stem, found, ext) := rpartition "." (list_ascii_of_string (default EmptyString (last parts))) in
  if found && negb (is_nil stem) && negb (is_nil ext) then string_of_list_ascii ("."%char :: ext) else "".

Definition ui_file (suffix : string) : result CmlAnswer :=
  let name := if String.eqb suffix "" then "index.html"%string else suffix in
  guard (negb (st_file site name &&
    mem (file_extension name) [".html"; ".js"; ".css"; ".svg"; ".ttf"; ".woff2"]%string))
    (ApiError 404 "not_found") ?;;
  Ok (CmlFile name).

(** **** The application *)

(** A password must not be set from here. *)
Definition sends_password (rq : WebRequest) : result bool :=
  if negb (String.eqb (wr_body rq) "") && String.eqb (media_type rq) "application/json" then
    let? payload := or_raise (json_loads (octets_of (wr_body rq))) denied in
    Ok match payload with
    | JObject fields => negb (is_none (get_field "password" fields))
    | _ => false
    end
  else Ok false.

Definition check_central (rq : WebRequest) (later : Z) (claims : document) (suffix : string)
    : result unit :=
  deny_if (negb (owner_or_central claims)) ?;;
  deny_if (String.eqb (wr_method rq) "POST" && mem suffix ["api/v1/users"; "api/v1/admin/users"]%string) ?;;
  deny_if (existsb (λ part, mem part (segments suffix))
             ["set-password"; "send-reset"; "password"; "reset-link"]%string) ?;;
  let? password := sends_password rq in
  deny_if password ?;;
  guard (negb (reads (wr_method rq)) && negb (central_write_authorized claims (unix_time later))) reauth_required.

Definition route_denied (audience method suffix : string) : bool :=
  negb (String.eqb audience "dochazka" && String.eqb suffix "api/version" && String.eqb method "GET") &&
  (negb (starts_with "api/v1/" suffix || starts_with "api/auth/" suffix) ||
   existsb (λ e, ends_with e suffix)
     ["/login"; "/logout"; "/reset-password"; "/request-password-reset"]%string).

Definition forward (rq : WebRequest) (later : Z) (claims : document) (identity : Identity)
    (suffix : string) : result CmlAnswer :=
  (if central_administration (st_audience site) suffix then check_central rq later claims suffix
   else Ok tt) ?;;
  deny_if (route_denied (st_audience site) (wr_method rq) suffix) ?;;
  Ok (CmlForward (mk_forwarded (wr_method rq) ("/" +:+ suffix) (wr_query rq) (wr_body rq) claims
    (id_user_id identity) (id_admin identity))).

(** What follows the identity. *)
Definition answer_request (w : CmlState) (later : Z) (uuid : string) (rq : WebRequest) (claims : document)
    (identity : Identity) : result (CmlState * CmlAnswer) :=
  let suffix := suffix_of (wr_path rq) in
  deny_if (path_denied rq suffix) ?;;
  if String.eqb suffix "api/profiles" || starts_with "api/profiles/" suffix then
    serve_profiles w later uuid rq claims suffix
  else if String.eqb suffix "identity" then Ok (w, CmlIdentity (id_public identity))
  else if String.eqb suffix "ui-manifest.json" then
    Ok (w, CmlViews (where_ (view_shown (id_public identity)) (st_views site)))
  else if negb (starts_with "api/" suffix) then
    let? answer := ui_file suffix in Ok (w, answer)
  else
    let? answer := forward rq later claims identity suffix in Ok (w, answer).

(** The spent nonce stays whatever follows. *)
Definition boundary (w : CmlState) (now later : Z) (uuid : string) (rq : WebRequest)
    : CmlState * result CmlAnswer :=
  if negb (starts_with PREFIX (wr_path rq)) then (w, Ok CmlPass)
  else
    match (let? claims := check_request rq now in
           let? nonces := spend_nonce (cm_nonces w) claims in
           Ok (claims, nonces)) with
    | Err e => (w, Err e)
    | Ok (claims, nonces) =>
        let w1 := mk_cml (cm_portal w) nonces (cm_provisions w) in
        match (let? identity := resolve_identity (cm_portal w1) claims in
               answer_request w1 later uuid rq claims identity) with
        | Err e => (w1, Err e)
        | Ok (w2, answer) => (w2, Ok answer)
        end
    end.

(** The request as the dependencies of the application see it. *)
Definition forwarded_request (base : HttpRequest) (f : Forwarded) : HttpRequest :=
  mk_request (fw_method f) (rq_authorization base) (rq_cookie base) (rq_csrf_session base)
    (rq_csrf_header base) (nonempty (fw_claims f)) (fw_user_id f) (fw_admin f)
    (rq_browser_entry_only base) (rq_from_browser base).
End CmlWeb.
