(* ===== verification/CmlSafety.v ===== *)
(** * Requests of KajovoCML: what the boundary lets through

    [CmlWeb]: what an admitted request carries, that no assertion is admitted
    twice, what reaches the application and as whom; and that an operation on
    profiles creates at most one account, whose e-mail and central identity are
    new, and is answered from its receipt ever after. *)

From stdpp Require Import list pretty relations.
From S2P Require Import Prelude Calendar TimeParse PragueTime Models DayStatus AttendanceEvents AttendanceApi Groups.
From S2P Require Import AdminEmployments Lockout Accounts Sessions Login LoginSafety AdminUsers SystemInvariant AccountsSafety.
From S2P Require Import Instances RequestAuth IpAddress Cursors UrlText ExternalProviders.
From S2P Require Import CmlWeb.
#[local] Open Scope Z_scope.

Section CmlSafety.
Context `{crypto : Crypto} `{library : CmlLibrary} (site : CmlSite).

(** ** Claims *)

Lemma claim_is_iff s v : claim_is s v = true ↔ v = Some (JString s).
Proof.
  unfold claim_is. destruct v as [[]|]; simpl; try done. rewrite String.eqb_eq.
  split; [by intros ->|by intros [= ->]].
Qed.

(** A token of three segments with a signature of the second and the claims. *)
Definition signed_by (key : list Z) (token : string) (claims : document) : Prop :=
  ∃ h p s header payload signature,
    split_on "." (list_ascii_of_string token) [] = [h; p; s] ∧
    decode_segment (string_of_list_ascii h) ≫= json_loads = Some header ∧ header_ok header = true ∧
    decode_segment (string_of_list_ascii p) = Some payload ∧ json_loads payload = Some (JObject claims) ∧
    decode_segment (string_of_list_ascii s) = Some signature ∧
    ed25519_verify key signature (string_of_list_ascii h +:+ "." +:+ string_of_list_ascii p) = true.

Lemma signed_claims_signed key token claims :
  signed_claims key token = Some claims → signed_by key token claims.
Proof.
  unfold signed_claims, signed_by. destruct (split_on _ _ _) as [|h [|p [|s []]]]; try done.
  intros H. destruct (decode_segment (string_of_list_ascii h) ≫= json_loads) as [header|] eqn:Eh; [|done].
  simpl in H. destruct (decode_segment (string_of_list_ascii p)) as [payload|] eqn:Ep; [|done]. simpl in H.
  destruct (json_loads payload) as [v|] eqn:Ev; [|done]. simpl in H.
  destruct (decode_segment (string_of_list_ascii s)) as [signature|] eqn:Es; [|done]. simpl in H.
  destruct (header_ok header && _) eqn:E; [|done]. destruct v; try done. injection H as ->. bool_hyps.
  exists h, p, s, header, payload, signature. done.
Qed.

(** What an admitted request has shown: claims that KajovoCML signed for this
    very request, less than eleven seconds ago, and the CSRF token they name
    when the request may change something. *)
Record admitted (v : WebVerifier) (rq : WebRequest) (now : Z) (claims : document) : Prop := {
  ad_signed : signed_by (wv_key v) (header_text "x-cml-web-assertion" rq) claims;
  ad_audience : get_field "aud" claims = Some (JString (wv_audience v));
  ad_method : get_field "method" claims = Some (JString (wr_method rq));
  ad_path : get_field "path" claims = Some (JString (exact_path rq));
  ad_body : get_field "bodySha256" claims = Some (JString (sha256 (wr_body rq)));
  ad_lifetime : lifetime claims = Some (issued_at claims, expires_at claims) ∧
    expires_at claims = issued_at claims + 10 ∧
    issued_at claims <= unix_time now + 1 ∧ unix_time now < expires_at claims;
  ad_identity : identity_ok claims = true;
  ad_csrf : reads (wr_method rq) = true ∨ header_text "x-csrf-token" rq = default EmptyString (csrf_claim claims);
}.

Lemma verify_some v token method path body n claims :
  verify v token method path body n = Some claims →
  signed_claims (wv_key v) token = Some claims ∧ lifetime_ok n claims = true ∧
  request_ok (wv_audience v) method path body claims = true ∧ identity_ok claims = true.
Proof.
  unfold verify. destruct (_ <? _); [done|]. destruct (signed_claims (wv_key v) token) as [c|]; [|done].
  simpl. destruct (_ && _) eqn:E; [|done]. intros [= ->]. by bool_hyps.
Qed.

Lemma lifetime_ok_spec n claims :
  lifetime_ok n claims = true →
  lifetime claims = Some (issued_at claims, expires_at claims) ∧
  expires_at claims = issued_at claims + 10 ∧ issued_at claims <= n + 1 ∧ n < expires_at claims.
Proof.
  unfold lifetime_ok, issued_at, expires_at. destruct (lifetime claims) as [[iat exp]|]; [|done].
  simpl. intros H. bool_hyps. split_and!; [done|lia..].
Qed.

(** The checks before the identity, undone. *)
Lemma check_request_ok rq now claims :
  check_request site rq now = Ok claims →
  ∃ v, st_verifier site = Some v ∧ admitted v rq now claims ∧
    signed_claims (wv_key v) (header_text "x-cml-web-assertion" rq) = Some claims ∧
    (central_administrator claims = true →
      central_path (st_audience site) (suffix_of (wr_path rq)) = true ∧ wr_query rq = ""%string ∧
      wr_method rq ∈ ["GET"; "POST"; "PUT"; "PATCH"]%string).
Proof.
  unfold check_request, deny_if. intros H. ok_inv H. injection H as ->.
  apply or_raise_ok in Hstep, Hstep0. exists v. split; [done|].
  apply verify_some in Hstep0 as (Hs & Hl & Hr & Hi). split_and!.
  - unfold request_ok in Hr. bool_hyps.
    repeat match goal with E : claim_is _ _ = true |- _ => apply claim_is_iff in E end.
    constructor; try done; [by apply signed_claims_signed|by apply lifetime_ok_spec|].
    destruct (reads (wr_method rq)); [by left|right].
    apply rbind_ok in Hstep1 as (same & Hcmp%compare_ok & Hg%guard_ok%negb_false_iff).
    subst. by apply String.eqb_eq.
  - done.
  - intros Hc. rewrite Hc in *. simpl in *.
    match goal with E : _ || _ || _ = false |- _ => apply orb_false_iff in E as [[E1 E2]%orb_false_iff E3] end.
    apply negb_false_iff in E1, E2, E3. apply String.eqb_eq in E2. by apply mem_true in E3.
Qed.

(** *** The nonces *)

Lemma spend_nonce_ok nonces claims nonces' :
  spend_nonce nonces claims = Ok nonces' →
  nonces' = delete_where (λ n, nc_expires_at n <? issued_at claims - 20) nonces ++
            [mk_nonce (default EmptyString (string_field "jti" claims)) (expires_at claims)].
Proof. unfold spend_nonce. intros H. ok_inv H. by injection H. Qed.

(** The boundary admits the request: its nonce is stored. *)
Definition spends (w : CmlState) (now : Z) (rq : WebRequest) : Prop :=
  ∃ claims nonces, starts_with PREFIX (wr_path rq) = true ∧ check_request site rq now = Ok claims ∧
    spend_nonce (cm_nonces w) claims = Ok nonces.

Lemma boundary_refused w now later uuid rq :
  starts_with PREFIX (wr_path rq) = true → ¬ spends w now rq →
  ∃ e, boundary site w now later uuid rq = (w, Err e).
Proof.
  intros Hp Hn. unfold boundary. rewrite Hp. cbn [negb].
  destruct (check_request site rq now) as [claims|e] eqn:Ec; [|by eexists]. cbn [rbind].
  destruct (spend_nonce (cm_nonces w) claims) as [nonces|e] eqn:Es; [|by eexists]. cbn [rbind].
  destruct Hn. exists claims, nonces. done.
Qed.

(** After the nonce nothing removes it. *)
Lemma serve_nonces w later uuid rq claims identity w' a :
  answer_request site w later uuid rq claims identity = Ok (w', a) → cm_nonces w' = cm_nonces w.
Proof.
  unfold answer_request. intros H. ok_inv H. destruct (_ || _).
  - unfold serve_profiles in H. ok_inv H. destruct (_ && _); ok_inv H.
    + destruct v1 as [[p rows] body]. by injection H as <- _.
    + destruct (_ && _); [|done]. ok_inv H. by injection H as <- _.
  - repeat (destruct (String.eqb _ _); [by injection H as <- _|]).
    destruct (negb _); ok_inv H; by injection H as <- _.
Qed.

Lemma boundary_nonces w now later uuid rq claims nonces :
  starts_with PREFIX (wr_path rq) = true → check_request site rq now = Ok claims →
  spend_nonce (cm_nonces w) claims = Ok nonces →
  cm_nonces (boundary site w now later uuid rq).1 = nonces.
Proof.
  intros Hp Hc Hs. unfold boundary. rewrite Hp, Hc. cbn [negb rbind]. rewrite Hs. cbn [rbind].
  destruct (resolve_identity _ claims) as [identity|e]; [|done]. cbn [rbind].
  destruct (answer_request _ _ _ _ _ _ _) as [[w2 a]|e] eqn:E; [|done].
  by apply serve_nonces in E.
Qed.

(** ** Runs *)

(** A request arrives at the boundary, or the application changes its data. *)
Inductive cml_event :=
  | Arrives (now later : Z) (uuid : string) (rq : WebRequest)
  | Elsewhere (p : Portal).

Definition cml_step (w : CmlState) (ev : cml_event) : CmlState :=
  match ev with
  | Arrives now later uuid rq => (boundary site w now later uuid rq).1
  | Elsewhere p => mk_cml p (cm_nonces w) (cm_provisions w)
  end.
Definition cml_run (w : CmlState) (evs : list cml_event) : CmlState := fold_left cml_step evs w.

(** The clock of the requests does not go back, from [start] to [stop]. *)
Fixpoint chronological (start : Z) (evs : list cml_event) (stop : Z) : Prop :=
  match evs with
  | [] => start <= stop
  | Arrives now _ _ _ :: rest => start <= now ∧ chronological now rest stop
  | Elsewhere _ :: rest => chronological start rest stop
  end.

Lemma chronological_le start evs stop : chronological start evs stop → start <= stop.
Proof.
  revert start. induction evs as [|[now l u rq|p] evs IH]; intros start; simpl; [done| |apply IH].
  intros [H1 H2%IH]. lia.
Qed.

(** The nonce is still stored, or its assertion has expired. *)
Definition remembered (jti : string) (exp now : Z) (w : CmlState) : Prop :=
  mk_nonce jti exp ∈ cm_nonces w ∨ exp <= unix_time now.

Lemma remembered_later jti exp now now' w :
  now <= now' → remembered jti exp now w → remembered jti exp now' w.
Proof.
  intros Hle [H|H]; [by left|right]. unfold unix_time in *.
  pose proof (Z.div_le_mono now now' 1000000). lia.
Qed.

Lemma remembered_step jti exp now later uuid rq w :
  remembered jti exp now w → remembered jti exp now (boundary site w now later uuid rq).1.
Proof.
  intros H. destruct (starts_with PREFIX (wr_path rq)) eqn:Hp.
  2:{ unfold boundary. by rewrite Hp. }
  destruct (check_request site rq now) as [claims|e] eqn:Ec.
  2:{ unfold boundary. by rewrite Hp, Ec. }
  destruct (spend_nonce (cm_nonces w) claims) as [nonces|e] eqn:Es.
  2:{ unfold boundary. rewrite Hp, Ec. cbn [negb rbind]. by rewrite Es. }
  destruct H as [H|H]; [|by right].
  unfold remembered. rewrite (boundary_nonces _ _ _ _ _ _ _ Hp Ec Es).
  apply spend_nonce_ok in Es as ->. rewrite elem_of_app, elem_of_delete_where. simpl.
  destruct (exp <? issued_at claims - 20) eqn:E; [right|by left; left].
  apply check_request_ok in Ec as (v & _ & Ha & _). pose proof (ad_lifetime _ _ _ _ Ha). bool_hyps. lia.
Qed.

Lemma remembered_run jti exp evs : ∀ now stop w,
  chronological now evs stop → remembered jti exp now w → remembered jti exp stop (cml_run w evs).
Proof.
  induction evs as [|[t later uuid rq|p] evs IH]; intros now stop w; simpl.
  - apply remembered_later.
  - intros [Ht Hc] H. eapply IH; [done|]. apply remembered_step. by apply (remembered_later _ _ now).
  - intros Hc H. by eapply IH.
Qed.

(** C13: An assertion of KajovoCML is admitted once.  After a request whose
    assertion was admitted, whatever requests and changes follow, and however
    many nonces expire, a request with the same assertion is refused and
    changes nothing. *)
Theorem cml_assertion_single_use w now later uuid rq evs now' later' uuid' rq'
    (Hs : spends w now rq) (Hp : starts_with PREFIX (wr_path rq') = true)
    (Hc : chronological now evs now')
    (Ht : header_text "x-cml-web-assertion" rq' = header_text "x-cml-web-assertion" rq) :
  let w' := cml_run w (Arrives now later uuid rq :: evs) in
  ∃ e, boundary site w' now' later' uuid' rq' = (w', Err e).
Proof.
  destruct Hs as (claims & nonces & Hpre & Hck & Hsp). intros w'. apply boundary_refused; [done|].
  intros (claims' & nonces' & _ & Hck' & Hsp').
  destruct (check_request_ok _ _ _ Hck) as (v & Hv & _ & Hsig & _).
  destruct (check_request_ok _ _ _ Hck') as (v' & Hv' & Ha' & Hsig' & _).
  rewrite Hv in Hv'. injection Hv' as <-. rewrite Ht, Hsig in Hsig'. injection Hsig' as <-.
  set (jti := default EmptyString (string_field "jti" claims)) in *.
  destruct (remembered_run jti (expires_at claims) evs now now'
    (boundary site w now later uuid rq).1 Hc) as [Hin|Hexp].
  - left. rewrite (boundary_nonces _ _ _ _ _ _ _ Hpre Hck Hsp).
    apply spend_nonce_ok in Hsp as ->. apply elem_of_app. right. left.
  - unfold spend_nonce in Hsp'. ok_inv Hsp'. rewrite existsb_false_elem in Hguard.
    specialize (Hguard (mk_nonce jti (expires_at claims))). cbn [nc_jti] in Hguard.
    rewrite String.eqb_refl in Hguard. discriminate Hguard.
    apply elem_of_delete_where. split; [done|]. simpl. apply Z.ltb_ge.
    pose proof (ad_lifetime _ _ _ _ Ha'). lia.
  - pose proof (ad_lifetime _ _ _ _ Ha'). lia.
Qed.

(** ** What reaches the application *)

Fixpoint join_with (c : ascii) (parts : list chars) : chars :=
  match parts with
  | [] => []
  | [p] => p
  | p :: rest => p ++ c :: join_with c rest
  end.

Lemma split_on_nonempty c l cur : split_on c l cur ≠ [].
Proof. revert cur. induction l as [|x l IH]; intros cur; simpl; [done|]. by destruct (Ascii.eqb x c). Qed.

Lemma join_split c l : ∀ cur, join_with c (split_on c l cur) = rev cur ++ l.
Proof.
  induction l as [|x l IH]; intros cur; simpl; [by rewrite app_nil_r|].
  destruct (Ascii.eqb x c) eqn:E.
  - apply Ascii.eqb_eq in E as ->. destruct (split_on c l []) as [|p ps] eqn:Es.
    { by destruct (split_on_nonempty c l []). }
    cbn [join_with]. specialize (IH []). rewrite Es in IH. simpl in IH. by rewrite IH.
  - rewrite IH. simpl. by rewrite <- app_assoc.
Qed.

(** The text of a path from its segments. *)
Lemma segments_text suffix parts :
  segments suffix = parts →
  suffix = string_of_list_ascii (join_with "/" (list_ascii_of_string <$> parts)).
Proof.
  unfold segments. intros <-. rewrite <- list_fmap_compose.
  rewrite (list_fmap_ext (list_ascii_of_string ∘ string_of_list_ascii) id).
  2:{ intros i x _. apply list_ascii_of_string_of_list_ascii. }
  rewrite list_fmap_id, join_split. symmetry. apply string_of_list_ascii_of_string.
Qed.

Lemma segments_are_iff tests parts :
  segments_are tests parts = true ↔ Forall2 (λ p s, p s = true) tests parts.
Proof.
  revert parts. induction tests as [|p tests IH]; intros [|s parts]; simpl;
    rewrite ?Forall2_cons, ?andb_true_iff, ?IH; split; try done; try (by intros H; inversion H).
Qed.

Lemma string_of_app a l : string_of_list_ascii (list_ascii_of_string a ++ l) = a +:+ string_of_list_ascii l.
Proof. induction a as [|c a IH]; simpl; [done|]. by rewrite IH. Qed.

(** The segments of a path a test of segments accepts. *)
Ltac segment_inv H :=
  apply segments_are_iff in H;
  repeat (let E := fresh in apply Forall2_cons_inv_l in H as (? & ? & E & H & ->);
          try (apply String.eqb_eq in E; subst));
  apply Forall2_nil_inv_l in H; subst.

(** The administration of one employment, or of the employments of a user. *)
Definition employment_path (suffix : string) : Prop :=
  ∃ n, positive_numeral n = true ∧
    (suffix = "api/v1/admin/employments/" +:+ n ∨
     suffix = "api/v1/admin/users/" +:+ n +:+ "/employments").

Lemma starts_with_app pre s : starts_with pre (pre +:+ s) = true.
Proof.
  unfold starts_with. induction pre as [|c pre IH]; simpl; [by destruct s|].
  by destruct (ascii_dec c c).
Qed.

Lemma central_path_employments suffix :
  central_path "dochazka" suffix = true →
  suffix = "api/profiles"%string ∨ starts_with "api/profiles/" suffix = true ∨ employment_path suffix.
Proof.
  unfold central_path, employment_path. cbv zeta. intros H. bool_hyps.
  rewrite !orb_true_iff, !andb_true_iff, !orb_true_iff in H.
  destruct H as [[[H|H]|[H _]]|[_ H]]; [apply String.eqb_eq in H; by left| |discriminate H|];
    remember (segments suffix) as parts eqn:Hp; symmetry in Hp; right.
  - left. segment_inv H. apply segments_text in Hp; subst. apply (starts_with_app "api/profiles/").
  - right. destruct H as [H|H]; segment_inv H; apply segments_text in Hp; subst; simpl.
    + exists x. split; [done|right]. by rewrite string_of_app.
    + exists x. split; [done|left]. by rewrite string_of_list_ascii_of_string.
Qed.

(** ** The identity of a forwarded request *)

Lemma owner_subject claims :
  claim_is OWNER (get_field "sub" claims) = String.eqb (subject_of claims) OWNER.
Proof.
  unfold subject_of, string_field, claim_is. destruct (get_field "sub" claims) as [[]|]; try done.
  apply String.eqb_sym.
Qed.

Lemma boundary_forwarded w now later uuid rq w' f :
  boundary site w now later uuid rq = (w', Ok (CmlForward f)) →
  ∃ claims identity, check_request site rq now = Ok claims ∧
    resolve_identity (cm_portal w) claims = Ok identity ∧ cm_portal w' = cm_portal w ∧
    cm_provisions w' = cm_provisions w ∧
    path_denied rq (suffix_of (wr_path rq)) = false ∧
    starts_with "api/profiles/" (suffix_of (wr_path rq)) = false ∧
    suffix_of (wr_path rq) ≠ "api/profiles"%string ∧
    forward site rq later claims identity (suffix_of (wr_path rq)) = Ok (CmlForward f).
Proof.
  unfold boundary. destruct (negb _); [done|].
  destruct (check_request site rq now) as [claims|e]; [|done]. cbn [rbind].
  destruct (spend_nonce _ claims) as [nonces|e]; [|done]. cbn [rbind cm_portal].
  destruct (resolve_identity (cm_portal w) claims) as [identity|e] eqn:Ei; [|done]. cbn [rbind].
  destruct (answer_request _ _ _ _ _ _ _) as [[w2 a]|e] eqn:Ea; [|done]. intros [= <- ->].
  exists claims, identity. unfold answer_request, deny_if in Ea. ok_inv Ea.
  destruct (_ || _) eqn:E in Ea.
  { unfold serve_profiles, deny_if in Ea. ok_inv Ea. destruct (_ && _); ok_inv Ea.
    - by repeat case_hyp Ea.
    - destruct (_ && _); [|done]. by ok_inv Ea. }
  apply orb_false_iff in E as [E1%String.eqb_neq E2].
  do 2 (destruct (String.eqb _ _) in Ea; [done|]).
  destruct (negb _) in Ea; ok_inv Ea.
  - unfold ui_file in Hstep. ok_inv Hstep. congruence.
  - injection Ea as <- ->. split_and!; done.
Qed.

(** The routes of the application by which one logs in with a password or out. *)
Definition login_routes : list string :=
  ["api/v1/portal/login"; "api/v1/admin/login"; "api/v1/portal/logout"; "api/v1/admin/logout"]%string.

(** C14: What KajovoCML can make the application do.  A request is forwarded
    only to the interface of the application, and never to a path that ends in
    /login, /logout, /reset-password or /request-password-reset; so it never
    logs anybody in with a password or out.  (The use of a reset link, the
    request for one of the administration and the start of an external
    sign-in have other names and are forwarded.)  A central administrator gets
    no further than the administration of employments; and the administration
    of accounts is open to the owner and to central administrators only,
    creates no account and, but for reading, needs the owner's policy or a
    fresh verification. *)
Theorem cml_forward_confined w now later uuid rq w' f
    (Hsite : st_audience site = "dochazka"%string)
    (H : boundary site w now later uuid rq = (w', Ok (CmlForward f))) :
  let suffix := suffix_of (wr_path rq) in
  ∃ v, st_verifier site = Some v ∧ admitted v rq now (fw_claims f) ∧
    fw_path f = "/" +:+ suffix ∧ fw_method f = wr_method rq ∧ fw_body f = wr_body rq ∧
    (suffix = "api/version"%string ∧ wr_method rq = "GET"%string ∨
     (starts_with "api/v1/" suffix = true ∨ starts_with "api/auth/" suffix = true) ∧
     ∀ e, e ∈ ["/login"; "/logout"; "/reset-password"; "/request-password-reset"]%string →
       ends_with e suffix = false) ∧
    suffix ∉ login_routes ∧
    (central_administrator (fw_claims f) = true → employment_path suffix) ∧
    (central_administration "dochazka" suffix = true →
      owner_or_central (fw_claims f) = true ∧
      (reads (wr_method rq) = true ∨ central_write_authorized (fw_claims f) (unix_time later) = true) ∧
      (wr_method rq = "POST"%string → suffix ≠ "api/v1/admin/users"%string)).
Proof.
  intros suffix. apply boundary_forwarded in H as
    (claims & identity & Hc & _ & _ & _ & _ & Hnp & Hnp' & Hf). subst suffix.
  apply check_request_ok in Hc as (v & Hv & Ha & _ & Hcentral).
  unfold forward, deny_if in Hf. rewrite Hsite in *. ok_inv Hf. injection Hf as <-. cbn [fw_claims fw_path fw_method fw_body].
  exists v. split_and!; [done..| | | |].
  - unfold route_denied in Hguard. apply andb_false_iff in Hguard as [Hg|Hg].
    + left. apply negb_false_iff in Hg. bool_hyps. split; by apply String.eqb_eq.
    + right. apply orb_false_iff in Hg as [Hg He]. split.
      * by apply negb_false_iff, orb_true_iff in Hg.
      * intros e Hin. rewrite existsb_false_elem in He. by apply He.
  - unfold login_routes. intros Hin.
    repeat (apply elem_of_cons in Hin as [E|Hin]; [by rewrite E in Hguard|]). by apply elem_of_nil in Hin.
  - intros Hca. destruct (Hcentral Hca) as [Hp _].
    destruct (central_path_employments _ Hp) as [?|[?|?]]; [done| |done]. congruence.
  - intros Had. rewrite Had in Hstep. unfold check_central, deny_if in Hstep. ok_inv Hstep.
    split; [by apply negb_false_iff|]. split.
    + apply guard_ok, andb_false_iff in Hstep as [Hr|Hr]; apply negb_false_iff in Hr; auto.
    + intros Hm Hs. rewrite Hm, Hs in *. done.
Qed.

Context `{zone : PragueZone} `{signing : Signing}.

(** The account an assertion of a local user names, open for a sign-in. *)
Definition names_account (p : Portal) (claims : document) (u : PortalUser) (i : Instance_) : Prop :=
  (∃ s, get_field "nativeId" claims = Some (JString s) ∧ positive_numeral s = true ∧
     pu_id u = digits_value (list_ascii_of_string s)) ∧
  u ∈ users (p_db p) ∧ pu_is_active u = true ∧ pu_is_blocked u = false ∧
  instance_of p u = Some i ∧ inst_status i = INST_ACTIVE.

Lemma identity_native claims :
  identity_ok claims = true → owner_or_central claims = false →
  ∃ s, get_field "nativeId" claims = Some (JString s) ∧ positive_numeral s = true.
Proof.
  unfold identity_ok, owner_or_central. intros H Ho. rewrite Ho in H. bool_hyps.
  simpl in *. unfold native_id_ok in *. destruct (get_field "nativeId" claims) as [[]|]; try done. eauto.
Qed.

Lemma resolve_identity_ok p claims identity :
  identity_ok claims = true → resolve_identity p claims = Ok identity →
  (owner_or_central claims = true ∧ id_user_id identity = None ∧
     id_admin identity = cml_admin
       (if central_administrator claims then subject_of claims else "owner"%string) claims) ∨
  (owner_or_central claims = false ∧ ∃ u i, names_account p claims u i ∧
     id_user_id identity = Some (pu_id u) ∧ get_user (p_db p) (pu_id u) = Some u ∧
     id_admin identity = if claim_is "admin" (get_field "role" claims)
                         then cml_admin (subject_of claims) claims else None).
Proof.
  intros Hid H. unfold resolve_identity in H. destruct (central_administrator claims) eqn:Ec.
  { left. injection H as <-. unfold owner_or_central. by rewrite Ec, orb_true_r. }
  destruct (String.eqb (subject_of claims) OWNER) eqn:Eo.
  { left. injection H as <-. unfold owner_or_central. by rewrite owner_subject, Eo. }
  assert (Hoc : owner_or_central claims = false).
  { unfold owner_or_central. by rewrite owner_subject, Eo, Ec. }
  right. split; [done|]. unfold deny_if in H. ok_inv H. injection H as <-.
  apply or_raise_ok in Hstep, Hstep0. pose proof (get_user_elem _ _ _ Hstep) as [Hu Hi].
  destruct (identity_native _ Hid Hoc) as (s & Hs & Hp).
  exists v, v0. apply orb_false_iff in Hguard as [Ha Hb]. apply negb_false_iff in Ha, Hguard0.
  apply bool_decide_eq_true in Hguard0.
  split; [|split; [done|split; [by rewrite Hi|done]]]. split; [|by split_and!].
  exists s. split; [done|]. split; [done|]. rewrite Hi. unfold native_id, string_field. by rewrite Hs.
Qed.

Lemma some_field_nonempty k fields v : get_field k fields = Some v → nonempty fields = true.
Proof. by destruct fields. Qed.

Lemma cml_admin_accepted base f name now :
  nonempty (fw_claims f) = true → fw_admin f = cml_admin name (fw_claims f) →
  require_admin (forwarded_request base f) now =
    Ok (mk_admin_session (Some ("cml:" +:+ name)%string) (issued_at (fw_claims f))).
Proof.
  intros Hn Ha. unfold require_admin, forwarded_request. simpl.
  rewrite Hn, Ha. cbn. by rewrite andb_false_r.
Qed.

(** Without a session of KajovoCML, the administration asks for its cookie. *)
Lemma cookie_admin base f now s :
  nonempty (fw_claims f) = true → fw_admin f = None →
  require_admin (forwarded_request base f) now = Ok s ↔
  get_admin_session (rq_cookie base) now = Ok s ∧ admin_is_authenticated s = true.
Proof.
  intros Hn Ha. unfold require_admin, forwarded_request. simpl. rewrite Hn, Ha, andb_false_r. simpl.
  destruct (get_admin_session (rq_cookie base) now) as [s'|e]; simpl; [|split; [done|by intros [? _]]].
  destruct (admin_is_authenticated s') eqn:E; simpl; split; [intros [= <-]| |done|]; [done|by intros [? _]|].
  intros [[= <-] ?]. congruence.
Qed.

(** The session of the administration that an assertion stands for. *)
Definition acts_as_admin (f : Forwarded) (base : HttpRequest) (now : Z) (name : string) : Prop :=
  require_admin (forwarded_request base f) now =
    Ok (mk_admin_session (Some ("cml:" +:+ name)%string) (issued_at (fw_claims f))).

(** C15: Whom a forwarded request acts as.  An owner or central administrator
    acts as an administrator, the owner under the name "owner" and anybody else
    under the subject of the assertion; the boundary makes them no employee,
    and the dependencies of the application let them act as one only by a
    credential the request brings itself, a bearer of the employee's instance
    or a cookie of the portal that names the employee.  Anybody else acts as
    the account the assertion names, which exists, is active and not blocked
    and has an active instance: the dependencies accept exactly that account
    whatever else the request brings.  With the role it is also an
    administrator under its subject; without, it is one only when the
    request brings a cookie of the administration itself. *)
Theorem cml_acts_as w now later uuid rq w' f base now'
    (H : boundary site w now later uuid rq = (w', Ok (CmlForward f))) :
  (owner_or_central (fw_claims f) = true ∧
     acts_as_admin f base now'
       (if central_administrator (fw_claims f) then subject_of (fw_claims f) else "owner"%string) ∧
     fw_user_id f = None ∧
     ∀ auth, require_portal_user_auth (cm_portal w') (forwarded_request base f) now' = Ok auth →
       own_credential (cm_portal w') base now' (auth_user auth)) ∨
  (owner_or_central (fw_claims f) = false ∧ ∃ u i,
     names_account (cm_portal w') (fw_claims f) u i ∧
     require_portal_user_auth (cm_portal w') (forwarded_request base f) now' =
       Ok (mk_auth u (inst_id i)) ∧
     (get_field "role" (fw_claims f) = Some (JString "admin") →
        acts_as_admin f base now' (subject_of (fw_claims f))) ∧
     (get_field "role" (fw_claims f) ≠ Some (JString "admin") → ∀ s,
        require_admin (forwarded_request base f) now' = Ok s ↔
        get_admin_session (rq_cookie base) now' = Ok s ∧ admin_is_authenticated s = true)).
Proof.
  apply boundary_forwarded in H as (claims & identity & Hc & Hi & Hw & _ & _ & _ & _ & Hf).
  apply check_request_ok in Hc as (v & _ & Ha & _). rewrite Hw.
  assert (Hfw : fw_claims f = claims ∧ fw_user_id f = id_user_id identity ∧ fw_admin f = id_admin identity).
  { unfold forward in Hf. ok_inv Hf. by injection Hf as <-. }
  destruct Hfw as (<- & Hu & Had). pose proof (ad_identity _ _ _ _ Ha) as Hid.
  pose proof (some_field_nonempty _ _ _ (ad_audience _ _ _ _ Ha)) as Hne.
  destruct (resolve_identity_ok _ _ _ Hid Hi)
    as [(Ho & Hn & Hname)|(Ho & u & i & Hacc & Hn & Hget & Hname)]; [left|right].
  - split_and!; [done|by apply cml_admin_accepted; [|congruence]|congruence|].
    intros auth Hauth. apply (own_auth (cm_portal w) (forwarded_request base f)) in Hauth; [exact Hauth|].
    simpl. rewrite Hne. congruence.
  - split; [done|]. exists u, i. split; [done|]. split_and!.
    + destruct Hacc as (_ & _ & Hact & Hb & Hinst & Hst).
      unfold require_portal_user_auth, forwarded_request. simpl. rewrite Hne, Hu, Hn. cbn [rbind].
      rewrite Hget. cbn [or_raise rbind]. rewrite Hinst. cbn [or_raise rbind].
      by rewrite Hact, Hb, Hst.
    + intros Hr%claim_is_iff. rewrite Hr in Hname. apply cml_admin_accepted; congruence.
    + intros Hr s. apply cookie_admin; [done|].
      destruct (claim_is "admin" (get_field "role" (fw_claims f))) eqn:E; [|congruence].
      by apply claim_is_iff in E.
Qed.
End CmlSafety.

(** ** Profiles: one account for one operation *)

(** A digest in hexadecimal has 64 characters. *)
Class DigestLaws (crypto : Crypto) := {
  sha256_length : ∀ s, String.length (sha256 s) = 64%nat;
}.

(** The receipts: unique columns, and no key of an account to come. *)
Record provisions_inv (p : Portal) (rows : list CmlProfileProvision) : Prop := {
  pn_operations : NoDup (cp_operation_id <$> rows);
  pn_central : NoDup (cp_central_user_id <$> rows);
  pn_natives : NoDup (cp_native_id <$> rows);
  pn_old : ∀ r, r ∈ rows → cp_native_id r < next_id (p_db p);
}.

(** *** The text that is hashed determines the profile *)

(** The first character a JSON text writes, and what follows. *)
Definition hex_value (c : ascii) : Z := if code c <? 58 then code c - 48 else code c - 87.
Definition read_json_char (l : chars) : option (ascii * chars) :=
  match l with
  | c :: rest =>
      if code c =? 92 then
        match rest with
        | e :: rest' =>
            if Ascii.eqb e "n" then Some (ascii_of_N 10, rest')
            else if Ascii.eqb e "r" then Some (ascii_of_N 13, rest')
            else if Ascii.eqb e "t" then Some (ascii_of_N 9, rest')
            else if Ascii.eqb e "b" then Some (ascii_of_N 8, rest')
            else if Ascii.eqb e "f" then Some (ascii_of_N 12, rest')
            else if Ascii.eqb e "u" then
              match rest' with
              | _ :: _ :: h :: k :: rest'' =>
                  Some (ascii_of_N (Z.to_N (hex_value h * 16 + hex_value k)), rest'')
              | _ => None
              end
            else Some (e, rest')
        | [] => None
        end
      else if code c =? 34 then None else Some (c, rest)
  | [] => None
  end.

Lemma read_json_char_json c rest : read_json_char (json_char c ++ rest) = Some (c, rest).
Proof. destruct c as [[] [] [] [] [] [] [] []]; reflexivity. Qed.

Lemma json_text_inj s t a b : json_text s ++ a = json_text t ++ b → s = t ∧ a = b.
Proof.
  unfold json_text. simpl. intros [= H]. revert t H.
  assert (Hq : ∀ l, read_json_char (ascii_of_N 34 :: l) = None) by done.
  induction s as [|c s IH]; intros [|d t] H; simpl in H; rewrite <- ?app_assoc in H; simpl in H.
  - by injection H.
  - apply (f_equal read_json_char) in H. by rewrite Hq, read_json_char_json in H.
  - apply (f_equal read_json_char) in H. by rewrite Hq, read_json_char_json in H.
  - apply (f_equal read_json_char) in H. rewrite !read_json_char_json in H. injection H as -> H.
    destruct (IH t) as [-> ->]; [|done]. rewrite <- !app_assoc. exact H.
Qed.

Lemma json_optional_inj s t a b : json_optional s ++ a = json_optional t ++ b → s = t ∧ a = b.
Proof.
  destruct s as [s|], t as [t|]; simpl; try done.
  - intros H. by destruct (json_text_inj s t a b H) as [-> ->].
  - by intros [= ->].
Qed.

(** The fingerprint is taken of a text that no other central identity and
    profile have. *)
Theorem profile_text_inj c c' x x' : profile_text c x = profile_text c' x' → c = c' ∧ x = x'.
Proof.
  unfold profile_text, json_entry. intros H%(f_equal list_ascii_of_string).
  rewrite !list_ascii_of_string_of_list_ascii in H.
  repeat (rewrite <- ?app_assoc in H; cbn [app] in H;
    match type of H with
    | _ :: _ = _ :: _ => apply (f_equal tail) in H; cbn [tail] in H
    | json_text ?a ++ _ = json_text ?b ++ _ =>
        let E := fresh "E" in apply json_text_inj in H as [E H]
    | json_optional _ ++ _ = json_optional _ ++ _ =>
        let E := fresh "E" in apply json_optional_inj in H as [E H]
    end).
  destruct x, x'. simpl in *. by subst.
Qed.

(** *** Provisioning *)

Section ProfileSafety.
Context `{crypto : Crypto} `{library : CmlLibrary} {digests : DigestLaws crypto}.

Lemma validated_profile value x :
  validate_cml_profile value = Some x →
  normalize_email (pf_email x) = pf_email x ∧ pf_email x ≠ RESERVED_ADMIN_EMAIL ∧
  Z.of_nat (String.length (pf_name x)) <= 128 ∧ strip (pf_name x) = pf_name x ∧ pf_role x = "employee"%string.
Proof.
  unfold validate_cml_profile. destruct (forallb _ value); [|done].
  destruct (string_field "name" value) as [name|]; [|done].
  destruct (string_field "email" value) as [email|]; [|done].
  destruct (optional_text _) as [phone|]; [|done].
  destruct (string_field "role" value) as [role|]; [|done]. simpl.
  destruct (validate_user_create _) as [body|] eqn:E; [|done].
  apply validated_user in E as (He & Hr & Hn & _). simpl in *.
  unfold parse_role. destruct (String.eqb (uc_role body) "employee") eqn:Er; [|done]. simpl.
  destruct (_ || _) eqn:Eo; [done|]. intros [= <-]. simpl. bool_hyps.
  rewrite He, Hn in *. split_and!; [apply normalize_email_idem| |done|apply strip_idem|by apply String.eqb_eq].
  by apply String.eqb_neq.
Qed.

Lemma profile_instance_ok now uuid x :
  Z.of_nat (String.length (pf_name x)) <= 128 →
  instance_row_ok (mk_instance uuid WEB (profile_fingerprint (pf_email x)) INST_ACTIVE
    (Some (pf_name x)) (Some now) None None None None now (Some now)) = true.
Proof.
  intros Hn. unfold instance_row_ok. simpl. apply andb_true_iff. split; [|by apply Z.leb_le].
  apply Z.leb_le. unfold profile_fingerprint. destruct (_ <? _) eqn:E; bool_hyps; [|done].
  change (String.length ("cml-user:" +:+ ?s)) with (9 + String.length s)%nat.
  rewrite sha256_length. lia.
Qed.

(** The e-mail of no account, as the lower case of a stored one. *)
Lemma email_new p x :
  accounts_inv p → normalize_email (pf_email x) = pf_email x →
  existsb (λ u, String.eqb (lower (pu_email u)) (pf_email x)) (users (p_db p)) = false ↔
  email_taken p (pf_email x) None = false.
Proof.
  intros H Hx. unfold email_taken. rewrite !existsb_false_elem. apply forall_proper. intros u.
  split; intros G Hu; specialize (G Hu); pose proof (ai_emails _ H u Hu) as He;
    assert (lower (pu_email u) = pu_email u) as Hl
      by (rewrite <- He; unfold normalize_email; apply lower_idem);
    rewrite Hl, ?andb_true_r in *; done.
Qed.

(** A new account with its instance and receipt, and nothing else. *)
Definition account_created (p p' : Portal) (rows rows' : list CmlProfileProvision)
    (value : ProvisionInput) (x : Profile) (r : CmlProfileProvision) : Prop :=
  ∃ u i, rows' = rows ++ [r] ∧ users (p_db p') = users (p_db p) ++ [u] ∧
    p_instances p' = p_instances p ++ [i] ∧ users_only (p_db p) (p_db p') ∧
    p_auth p' = p_auth p ∧ p_resets p' = p_resets p ∧
    pu_id u = cp_native_id r ∧ pu_email u = pf_email x ∧ pu_name u = pf_name x ∧
    pu_phone u = pf_phone x ∧ pu_password_hash u = None ∧ pu_is_active u = true ∧
    pu_is_blocked u = false ∧ pu_instance_id u = Some (inst_id i) ∧ inst_status i = INST_ACTIVE ∧
    (cp_operation_id r ∉ (cp_operation_id <$> rows)) ∧
    (cp_central_user_id r ∉ (cp_central_user_id <$> rows)) ∧
    pf_email x ∉ ((λ v, lower (pu_email v)) <$> users (p_db p)).

Lemma find_provision_spec rows op :
  match find_provision rows op with
  | Some r => r ∈ rows ∧ cp_operation_id r = op
  | None => op ∉ cp_operation_id <$> rows
  end.
Proof.
  unfold find_provision. destruct (where_ _ rows) as [|r l] eqn:E; simpl.
  - rewrite where_nil_iff in E. intros (r & -> & Hr)%list_elem_of_fmap. specialize (E r Hr).
    by rewrite String.eqb_refl in E.
  - assert (Hr : r ∈ where_ (λ r, String.eqb (cp_operation_id r) op) rows) by (rewrite E; left).
    apply elem_of_where in Hr as [Hr He]. by apply String.eqb_eq in He.
Qed.

Lemma create_profile_ok p now uuid value x :
  validate_cml_profile value = Some x →
  create_profile p now uuid x =
    if is_some (get_instance p uuid) then Err (Crash "IntegrityError")
    else
      let inst := mk_instance uuid WEB (profile_fingerprint (pf_email x)) INST_ACTIVE
        (Some (pf_name x)) (Some now) None None None None now (Some now) in
      let user := mk_user (next_id (p_db p)) (pf_email x) (pf_name x) None true false (Some uuid)
        (pf_phone x) in
      Ok (added_user user inst p, user).
Proof.
  intros (_ & _ & Hn & _)%validated_profile. unfold create_profile, flush_instance.
  rewrite profile_instance_ok by done. cbn [negb guard rbind].
  by destruct (is_some (get_instance p uuid)).
Qed.

Lemma flush_receipt_new rows r :
  cp_operation_id r ∉ cp_operation_id <$> rows → cp_central_user_id r ∉ cp_central_user_id <$> rows →
  cp_native_id r ∉ cp_native_id <$> rows → flush_receipt rows r = Ok tt.
Proof.
  intros H1 H2 H3. unfold flush_receipt. apply guard_ok, existsb_false_elem. intros z Hz.
  rewrite !orb_false_iff, !String.eqb_neq, Z.eqb_neq. split_and!; intros E;
    [apply H1|apply H2|apply H3]; rewrite <- E; by apply list_elem_of_fmap_2.
Qed.

(** What a request of the body with these contents leaves. *)
Lemma provision_created p rows now uuid value x :
  accounts_inv p → provisions_inv p rows → validate_cml_profile (pv_profile value) = Some x →
  find_provision rows (pv_operation_id value) = None →
  existsb (λ r, String.eqb (cp_central_user_id r) (pv_central_user_id value)) rows = false →
  existsb (λ u, String.eqb (lower (pu_email u)) (pf_email x)) (users (p_db p)) = false →
  is_some (get_instance p uuid) = false →
  let r := mk_provision (pv_operation_id value) (pv_central_user_id value)
    (sha256 (profile_text (pv_central_user_id value) x)) (next_id (p_db p)) in
  ∃ p', (let? (p', user) := create_profile p now uuid x in
         let receipt := mk_provision (pv_operation_id value) (pv_central_user_id value)
           (sha256 (profile_text (pv_central_user_id value) x)) (pu_id user) in
         flush_receipt rows receipt ?;;
         Ok (p', rows ++ [receipt], provision_result p' receipt)) =
      Ok (p', rows ++ [r], provision_result p' r) ∧
    accounts_inv p' ∧ provisions_inv p' (rows ++ [r]) ∧ account_created p p' rows (rows ++ [r]) value x r.
Proof.
  intros Ha [N1 N2 N3 N4] Hx Hop Hc He Hi r.
  pose proof (validated_profile _ _ Hx) as (Hm & _ & Hn & _ & _).
  pose proof (find_provision_spec rows (pv_operation_id value)) as Hop'. rewrite Hop in Hop'.
  assert (Hc' : pv_central_user_id value ∉ cp_central_user_id <$> rows).
  { intros (z & Hz & Hin)%list_elem_of_fmap. rewrite existsb_false_elem in Hc. specialize (Hc z Hin).
    by rewrite <- Hz, String.eqb_refl in Hc. }
  assert (Hid : next_id (p_db p) ∉ cp_native_id <$> rows).
  { intros (z & Hz & Hin)%list_elem_of_fmap. specialize (N4 z Hin). lia. }
  rewrite (create_profile_ok _ _ _ _ _ Hx), Hi. cbn zeta. cbn [rbind].
  set (inst := mk_instance _ _ _ _ _ _ _ _ _ _ _ _). set (user := mk_user _ _ _ _ _ _ _ _).
  cbn [pu_id user]. fold r. rewrite (flush_receipt_new rows r) by done. cbn [rbind].
  exists (added_user user inst p). split; [done|]. split; [|split].
  - apply added_user_inv; try done; [by apply email_new|by apply profile_instance_ok].
  - constructor; rewrite ?fmap_app; try (apply NoDup_app; split_and!; [done| |apply NoDup_singleton];
      intros z Hz Hs%list_elem_of_singleton; subst z; simpl in Hz; contradiction).
    intros z [Hz| ->%list_elem_of_singleton]%elem_of_app; simpl; [specialize (N4 z Hz)|]; lia.
  - exists user, inst. split_and!; try done.
    + exists (users (p_db p) ++ [user]), (next_id (p_db p) + 1). split; [done|lia].
    + intros (v & Hv & Hin)%list_elem_of_fmap. rewrite existsb_false_elem in He. specialize (He v Hin).
      by rewrite <- Hv, String.eqb_refl in He.
Qed.

(** Why an operation is refused. *)
Definition provision_refused (p : Portal) (rows : list CmlProfileProvision) (uuid raw : string)
    (e : api_error) : Prop :=
  match parse_provision raw with
  | Err e' => e = e' ∧ e = input_invalid
  | Ok (value, x) =>
      (e = profile_fault "PROFILE_OPERATION_CONFLICT" ∧ ∃ r, r ∈ rows ∧
         cp_operation_id r = pv_operation_id value ∧
         cp_fingerprint r ≠ sha256 (profile_text (pv_central_user_id value) x)) ∨
      (e = profile_fault "PROFILE_IDENTITY_EXISTS" ∧ pv_central_user_id value ∈ cp_central_user_id <$> rows) ∨
      (e = profile_fault "PROFILE_EMAIL_EXISTS" ∧ pf_email x ∈ ((λ u, lower (pu_email u)) <$> users (p_db p))) ∨
      (e = profile_fault "PROFILE_CONFLICT" ∧ uuid ∈ inst_id <$> p_instances p)
  end.

Lemma existsb_of_key {A} (f : A → string) k l :
  existsb (λ x, String.eqb (f x) k) l = true → k ∈ f <$> l.
Proof. intros (x & Hx & E%String.eqb_eq)%existsb_elem. rewrite <- E. by apply list_elem_of_fmap_2. Qed.

Lemma parse_provision_some raw value x :
  parse_provision raw = Ok (value, x) → validate_cml_profile (pv_profile value) = Some x.
Proof.
  unfold parse_provision. intros H%or_raise_ok. destruct (pydantic_json _) as [v|]; [|done]. simpl in H.
  destruct (provision_input v) as [w|]; [|done]. simpl in H.
  destruct (validate_cml_profile (pv_profile w)) as [y|] eqn:E; [|done]. by injection H as -> ->.
Qed.

Lemma parse_provision_err raw e : parse_provision raw = Err e → e = input_invalid.
Proof. unfold parse_provision, or_raise. destruct (_ ≫= _); [done|]. by intros [= <-]. Qed.

(** Creating a profile from KajovoCML, on every branch.  It is refused,
    without an unhandled error, for a body that does not validate, another body
    under a known operation, a known central identity, an e-mail that is taken
    and an instance identifier that is taken.  Otherwise the operation was
    carried out before and nothing changes, or there is exactly one more
    account, open and without a password, with its instance and its receipt. *)
Theorem provision_spec p rows now uuid raw (Ha : accounts_inv p) (Hr : provisions_inv p rows) :
  match provision p rows now uuid raw with
  | Err e => provision_refused p rows uuid raw e
  | Ok (p', rows', out) =>
      accounts_inv p' ∧ provisions_inv p' rows' ∧ ∃ value x r,
        parse_provision raw = Ok (value, x) ∧ out = provision_result p' r ∧ r ∈ rows' ∧
        cp_operation_id r = pv_operation_id value ∧
        cp_fingerprint r = sha256 (profile_text (pv_central_user_id value) x) ∧
        (p' = p ∧ rows' = rows ∨
         cp_central_user_id r = pv_central_user_id value ∧ account_created p p' rows rows' value x r)
  end.
Proof.
  unfold provision, provision_refused.
  destruct (parse_provision raw) as [[value x]|e] eqn:Ep; cbn [rbind].
  2:{ split; [done|]. by eapply parse_provision_err. }
  pose proof (parse_provision_some _ _ _ Ep) as Hx.
  pose proof (find_provision_spec rows (pv_operation_id value)) as Hop.
  destruct (find_provision rows (pv_operation_id value)) as [r|] eqn:Ef.
  - destruct Hop as [Hin Hop]. destruct (String.eqb (cp_fingerprint r) _) eqn:E; cbn [negb guard rbind].
    + apply String.eqb_eq in E. split_and!; [done..|]. exists value, x, r. split_and!; auto.
    + left. split; [done|]. exists r. split_and!; [done..|]. by apply String.eqb_neq.
  - destruct (existsb _ rows) eqn:Ec; cbn [guard rbind].
    { right. left. split; [done|]. by apply existsb_of_key. }
    destruct (existsb _ (users (p_db p))) eqn:Ee; cbn [guard rbind].
    { right. right. left. split; [done|]. by apply (existsb_of_key (λ u, lower (pu_email u))). }
    destruct (is_some (get_instance p uuid)) eqn:Ei.
    + rewrite (create_profile_ok _ _ _ _ _ Hx), Ei. cbn [rbind]. right. right. right. split; [done|].
      destruct (get_instance p uuid) as [i|] eqn:Eg; [|done]. apply get_instance_ok in Eg as [Hi <-].
      by apply list_elem_of_fmap_2.
    + destruct (provision_created p rows now uuid value x Ha Hr Hx Ef Ec Ee Ei)
        as (p' & Heq & Ha' & Hr' & Hnew).
      cbn [rbind] in Heq. rewrite Heq. split; [done|]. split; [done|]. eexists value, x, _. split; [done|]. split; [done|].
      split; [apply elem_of_app; right; left|]. split; [done|]. split; [done|]. by right.
Qed.

(** *** The boundary *)

Record cml_inv (w : CmlState) : Prop := {
  ci_accounts : accounts_inv (cm_portal w);
  ci_provisions : provisions_inv (cm_portal w) (cm_provisions w);
  ci_nonces : NoDup (nc_jti <$> cm_nonces w);
}.

(** What a step may do: receipts are only added, and an answer with a receipt
    tells of one that is stored, new or not. *)
Record cml_step_ok (w w' : CmlState) : Prop := {
  co_inv : cml_inv w';
  co_receipts : cm_provisions w `prefix_of` cm_provisions w';
}.

Definition told (w w' : CmlState) (out : ProvisionResult) : Prop :=
  ∃ r, r ∈ cm_provisions w' ∧ out = provision_result (cm_portal w') r ∧
    (cm_portal w' = cm_portal w ∧ cm_provisions w' = cm_provisions w ∨
     cp_operation_id r ∉ cp_operation_id <$> cm_provisions w).

Lemma cml_step_refl w : cml_inv w → cml_step_ok w w.
Proof. by constructor. Qed.

Lemma provision_step w now uuid raw p rows out :
  cml_inv w → provision (cm_portal w) (cm_provisions w) now uuid raw = Ok (p, rows, out) →
  let w' := mk_cml p (cm_nonces w) rows in cml_step_ok w w' ∧ told w w' out.
Proof.
  intros [Ha Hp Hn] H w'. pose proof (provision_spec _ _ now uuid raw Ha Hp) as Hs. rewrite H in Hs.
  destruct Hs as (Ha' & Hp' & value & x & r & _ & -> & Hin & _ & _ & Hcase). split.
  - constructor; [by constructor|]. simpl. destruct Hcase as [[_ ->]|[_ (u & i & -> & _)]]; [done|].
    by apply prefix_app_r.
  - exists r. split; [done|]. split; [done|]. simpl.
    destruct Hcase as [[-> ->]|[_ (u & i & _ & _ & _ & _ & _ & _ & _ & _ & _ & _ & _ & _ & _ & _ & _ & Hnew & _)]];
      auto.
Qed.

Lemma read_told w ident out :
  read_profile (cm_portal w) (cm_provisions w) ident = Ok (Some out) → told w w out.
Proof.
  unfold read_profile. intros H. ok_inv H.
  pose proof (find_provision_spec (cm_provisions w) ident) as Hf.
  destruct (find_provision (cm_provisions w) ident) as [r|]; [|done]. injection H as <-.
  destruct Hf as [Hr _]. exists r. auto.
Qed.

Section Boundary.
Context (site : CmlSite).

Lemma answer_request_inv w later uuid rq claims identity w' a :
  cml_inv w → answer_request site w later uuid rq claims identity = Ok (w', a) →
  cml_step_ok w w' ∧ ∀ out, a = CmlProfile (Some out) → told w w' out.
Proof.
  intros Hi H. unfold answer_request, deny_if in H. ok_inv H. destruct (_ || _).
  - unfold serve_profiles, deny_if in H. ok_inv H. destruct (_ && _); ok_inv H.
    + match type of H with context [match ?x with _ => _ end] => destruct x as [[p rows] out] end.
      injection H as <- <-. apply provision_step in Hstep as [Hs Ht]; [|done].
      split; [done|]. by intros ? [= <-].
    + destruct (_ && _); [|done]. ok_inv H. injection H as <- <-. split; [by apply cml_step_refl|].
      intros out [= ->]. by eapply read_told.
  - do 2 (destruct (String.eqb _ _); [injection H as <- <-; by split; [apply cml_step_refl|]|]).
    destruct (negb _); ok_inv H; injection H as <- <-; (split; [by apply cml_step_refl|]).
    + unfold ui_file in Hstep. ok_inv Hstep. by injection Hstep as <-.
    + unfold forward in Hstep. ok_inv Hstep. by injection Hstep as <-.
Qed.

Lemma spend_nonce_inv nonces claims nonces' :
  NoDup (nc_jti <$> nonces) → spend_nonce nonces claims = Ok nonces' → NoDup (nc_jti <$> nonces').
Proof.
  intros Hn H. pose proof H as ->%spend_nonce_ok. unfold spend_nonce in H. ok_inv H.
  rewrite fmap_app. apply NoDup_app. split_and!; [by apply NoDup_fmap_where| |apply NoDup_singleton].
  intros j Hj ->%list_elem_of_singleton. simpl in Hj. apply list_elem_of_fmap in Hj as (n & Hj & Hn').
  rewrite existsb_false_elem in Hguard. specialize (Hguard n Hn'). by rewrite Hj, String.eqb_refl in Hguard.
Qed.

Lemma boundary_inv w now later uuid rq w' a :
  cml_inv w → boundary site w now later uuid rq = (w', a) →
  cml_step_ok w w' ∧ ∀ out, a = Ok (CmlProfile (Some out)) → told w w' out.
Proof.
  intros Hi H. unfold boundary in H.
  destruct (negb _); [injection H as <- <-; split; [by apply cml_step_refl|done]|].
  destruct (check_request site rq now) as [claims|e]; [|injection H as <- <-; split; [by apply cml_step_refl|done]].
  cbn [rbind] in H. destruct (spend_nonce (cm_nonces w) claims) as [nonces|e] eqn:Es;
    [|injection H as <- <-; split; [by apply cml_step_refl|done]]. cbn [rbind cm_portal] in H.
  set (w1 := mk_cml (cm_portal w) nonces (cm_provisions w)) in *.
  assert (H1 : cml_inv w1).
  { constructor; [apply Hi|apply Hi|]. eapply spend_nonce_inv; [apply (ci_nonces _ Hi)|done]. }
  assert (Hr : cml_step_ok w w1) by by constructor.
  destruct (resolve_identity _ claims) as [identity|e]; [|by injection H as <- <-]. cbn [rbind] in H.
  destruct (answer_request _ _ _ _ _ _ _) as [[w2 b]|e] eqn:E; injection H as <- <-; [|done].
  destruct (answer_request_inv _ _ _ _ _ _ _ _ H1 E) as [[Hi2 Hp2] Ht]. split; [by constructor|].
  intros out [= ->]. by apply Ht.
Qed.

(** The application keeps its accounts well formed and gives no key twice. *)
Fixpoint lawful (w : CmlState) (evs : list cml_event) : Prop :=
  match evs with
  | [] => True
  | ev :: rest =>
      match ev with
      | Arrives _ _ _ _ => True
      | Elsewhere p => accounts_inv p ∧ next_id (p_db (cm_portal w)) <= next_id (p_db p)
      end ∧ lawful (cml_step site w ev) rest
  end.

Lemma cml_run_inv evs : ∀ w, cml_inv w → lawful w evs → cml_step_ok w (cml_run site w evs).
Proof.
  induction evs as [|ev evs IH]; intros w Hi; [by intros _; apply cml_step_refl|]. intros [Hev Hl].
  assert (H1 : cml_step_ok w (cml_step site w ev)).
  { destruct ev as [now later uuid rq|p]; simpl.
    - destruct (boundary site w now later uuid rq) as [w' a] eqn:E. by apply boundary_inv in E as [? _].
    - destruct Hev as [Hp Hle]. constructor; [|done]. constructor; [done| |apply Hi].
      destruct (ci_provisions _ Hi) as [N1 N2 N3 N4]. constructor; [done..|]. simpl.
      intros r Hr. specialize (N4 r Hr). lia. }
  destruct (IH _ (co_inv _ _ H1) Hl) as [Hi' Hp]. constructor; [done|].
  etransitivity; [apply H1|exact Hp].
Qed.

(** C16: An operation of KajovoCML creates one account.  Once a request was
    answered with the receipt of an operation, whatever requests and changes
    follow, every later answer about the operation tells of the same account,
    central identity and fingerprint, and creates nothing. *)
Theorem cml_profile_once w now later uuid rq w1 out evs now' later' uuid' rq' w3 out'
    (Hi : cml_inv w) (H : boundary site w now later uuid rq = (w1, Ok (CmlProfile (Some out))))
    (Hl : lawful w1 evs)
    (H' : boundary site (cml_run site w1 evs) now' later' uuid' rq' = (w3, Ok (CmlProfile (Some out'))))
    (Hop : rs_operation_id out' = rs_operation_id out) :
  rs_native_id out' = rs_native_id out ∧ rs_central_user_id out' = rs_central_user_id out ∧
  rs_fingerprint out' = rs_fingerprint out ∧
  cm_portal w3 = cm_portal (cml_run site w1 evs) ∧ cm_provisions w3 = cm_provisions (cml_run site w1 evs).
Proof.
  destruct (boundary_inv _ _ _ _ _ _ _ Hi H) as [[Hi1 _] Ht]. destruct (Ht _ eq_refl) as (r & Hr & -> & _).
  destruct (cml_run_inv _ _ Hi1 Hl) as [Hi2 Hp].
  destruct (boundary_inv _ _ _ _ _ _ _ Hi2 H') as [[Hi3 Hp3] Ht']. destruct (Ht' _ eq_refl) as (r' & Hr' & -> & Hc).
  simpl in Hop. assert (Hr2 : r ∈ cm_provisions (cml_run site w1 evs)) by by eapply elem_of_prefix.
  assert (r' = r) as ->.
  { apply (NoDup_fmap_eq cp_operation_id (cm_provisions w3)); [apply (ci_provisions _ Hi3)|..]; try done.
    by eapply elem_of_prefix. }
  split_and!; [done..| |]; destruct Hc as [[??]|Hn]; try done; destruct Hn; by apply list_elem_of_fmap_2.
Qed.
End Boundary.
End ProfileSafety.
