(* ===== verification/Examples.v ===== *)
(** * Concrete runs

    A small company in the zone of 2026: one user, one work contract with
    automatic breaks, an open arrival, a finished shift without a break and a
    shift plan.  The handlers are run on it, and every theorem that has
    hypotheses is applied to such a run. *)

From S2P Require Import Prelude Calendar TimeParse PragueTime Models TimeIntervals Breaks.
From S2P Require Import TimeMetrics Locks EmploymentAccess DayStatus AttendanceEvents.
From S2P Require Import MonthSummary AttendanceApi SystemInvariant AdminAttendanceApi.
From S2P Require Import AttendanceSafety ShiftPlanApi PlanSafety.
From Stdlib Require Import QArith.
Open Scope string_scope.
Open Scope list_scope.
Open Scope Z_scope.

#[local] Existing Instance Prague2026.zone.

Definition clock (month day hour minute : Z) : Z :=
  midnight (mk_date 2026 month day) + (hour * 60 + minute) * us_per_minute.

Definition ex_user : PortalUser := mk_user 1 "jana@example.com" "Jana" (Some "$argon2id$demo") true false (Some "inst-1") None.
Definition ex_employment : Employment :=
  mk_employment 7 1 "Recepce" WORK_CONTRACT (Some (1000 # 1000)%Q) true true false None true false false
    (mk_date 2026 1 1) None.
Definition ex_auth : PortalUserAuth := mk_auth ex_user "inst-1".

Definition ex_event (id month day hour minute : Z) : AttendanceEvent :=
  mk_event id 7 (at_wall (clock month day hour minute)).
Definition ex_plan : ShiftPlan :=
  mk_plan 30 7 (Some "inst-1") (mk_date 2026 6 12) (Some "08:00") (Some "16:00") None.

(** The 9th worked from 8 to 16 without a break, the 10th open since 8. *)
Definition ex_db : DB :=
  set_next_id 100 (set_plans [ex_plan]
    (set_events [ex_event 20 6 9 8 0; ex_event 21 6 9 16 0; ex_event 22 6 10 8 0]
      (mk_db [ex_user] [ex_employment] [] [] [] [] [] [] [] [] [] [] [] 1))).

(** The 10th of June 2026, 18:00 in Prague. *)
Definition ex_now : Z := wall_to_utc (clock 6 10 18 0).

Lemma ex_inv : inv ex_db.
Proof.
  constructor.
  - constructor; constructor;
      first [by apply (bool_decide_unpack _); vm_compute | repeat constructor; simpl; lia].
  - repeat constructor. set_solver.
  - done.
  - intros x Hx. simpl in Hx. repeat (apply elem_of_cons in Hx as [->|Hx]; [done|]).
    by apply elem_of_nil in Hx.
  - intros x Hx. simpl in Hx.
    repeat (apply elem_of_cons in Hx as [->|Hx]; [by vm_compute|]). by apply elem_of_nil in Hx.
  - intros x ->%list_elem_of_singleton. by vm_compute.
  - split; [|intros x Hx; by apply elem_of_nil in Hx].
    intros x ->%list_elem_of_singleton. done.
  - intros x Hx. simpl in Hx.
    repeat (apply elem_of_cons in Hx as [->|Hx]; [by vm_compute|]). by apply elem_of_nil in Hx.
Qed.

(** A run that succeeds, as a value. *)
Definition is_ok {A} (r : result A) : bool := match r with Ok _ => true | Err _ => false end.
Lemma run_ok {A} (r : result A) : is_ok r = true → ∃ a, r = Ok a.
Proof. destruct r as [a|]; [by exists a|done]. Qed.

Ltac run_handler H :=
  match goal with
  | |- ∃ db' x, ?r = Ok (db', x) ∧ _ =>
      destruct (run_ok r ltac:(vm_compute; reflexivity)) as [[db' x] H];
      exists db', x; split; [exact H|]
  | |- ∃ db', ?r = Ok db' ∧ _ =>
      destruct (run_ok r ltac:(vm_compute; reflexivity)) as [db' H];
      exists db'; split; [exact H|]
  end.

(** ** Attendance events *)

(** Leaving at 16:30 closes the interval opened at 8:00. *)
Definition ex_departure : AttendanceEventIn := mk_event_in 7 (Naive (clock 6 10 16 30)) None.

Lemma create_attendance_event_safe_witness :
  ∃ db' x, create_attendance_event ex_db ex_auth ex_now ex_departure = Ok (db', x) ∧
    ∃ e, em_id e = 7 ∧
      recorded ex_db db' e [mk_date 2026 6 10] (prague_now (Naive (clock 6 10 16 30))) 100 x.
Proof.
  run_handler H.
  destruct (create_attendance_event_safe _ _ _ _ _ _ ex_inv H) as (e & _ & He & _ & _ & _ & R & _).
  exists e. split; [exact He|exact R].
Defined.

(** The open arrival moves from 8:00 to 9:15. *)
Definition ex_move : AttendanceEventIn := mk_event_in 7 (Naive (clock 6 10 9 15)) None.

Lemma update_attendance_event_safe_witness :
  ∃ db' x, update_attendance_event ex_db ex_auth ex_now 22 ex_move = Ok (db', x) ∧
    ∃ e old, ev_id old = 22 ∧
      recorded ex_db db' e [ev_day old; mk_date 2026 6 10]
        (prague_now (Naive (clock 6 10 9 15))) 22 x.
Proof.
  run_handler H.
  destruct (update_attendance_event_safe _ _ _ _ _ _ _ ex_inv H)
    as (e & old & _ & Hid & _ & _ & _ & _ & _ & R & _).
  exists e, old. split; [exact Hid|exact R].
Defined.

(** Both events of the 9th are deleted together. *)
Lemma delete_attendance_event_safe_witness :
  ∃ db', delete_attendance_event ex_db ex_auth ex_now 20 (Some 21) = Ok db' ∧
    ∃ e event, ev_id event = 20 ∧ deleted_safely ex_db db' e event (Some 21).
Proof.
  run_handler H.
  destruct (delete_attendance_event_safe _ _ _ _ _ _ ex_inv H)
    as (e & event & _ & _ & _ & Hid & _ & R).
  exists e, event. split; [exact Hid|exact R].
Defined.

Lemma admin_create_event_safe_witness :
  ∃ db' x, admin_create_event ex_db ex_now ex_departure = Ok (db', x) ∧
    ∃ e, em_id e = 7 ∧
      recorded ex_db db' e [mk_date 2026 6 10] (prague_now (Naive (clock 6 10 16 30))) 100 x.
Proof.
  run_handler H.
  destruct (admin_create_event_safe _ _ _ _ _ ex_inv H) as (e & _ & He & R & _).
  exists e. split; [exact He|exact R].
Defined.

Lemma admin_update_event_safe_witness :
  ∃ db' x, admin_update_event ex_db ex_now 22 ex_move = Ok (db', x) ∧
    ∃ e old, ev_id old = 22 ∧
      recorded ex_db db' e [ev_day old; mk_date 2026 6 10]
        (prague_now (Naive (clock 6 10 9 15))) 22 x.
Proof.
  run_handler H.
  destruct (admin_update_event_safe _ _ _ _ _ _ ex_inv H)
    as (e & old & _ & Hid & _ & _ & _ & R & _).
  exists e, old. split; [exact Hid|exact R].
Defined.

Lemma admin_delete_event_safe_witness :
  ∃ db', admin_delete_event ex_db ex_now 20 (Some 21) = Ok db' ∧
    ∃ e event, ev_id event = 20 ∧ deleted_safely ex_db db' e event (Some 21).
Proof.
  run_handler H.
  destruct (admin_delete_event_safe _ _ _ _ _ ex_inv H) as (e & event & _ & _ & Hid & _ & R).
  exists e, event. split; [exact Hid|exact R].
Defined.

(** The eight hours of the 9th get their missing break. *)
Lemma add_missing_breaks_safe_witness :
  ∃ db' out, add_missing_breaks ex_db ex_now (mk_breaks_in 7 2026 6 true) = Ok (db', out) ∧
    attendance_step ex_db db'.
Proof.
  run_handler H.
  destruct (add_missing_breaks_safe _ _ _ _ _ ex_inv H) as (_ & R & _). exact R.
Defined.

Example add_missing_breaks_inserts :
  match add_missing_breaks ex_db ex_now (mk_breaks_in 7 2026 6 true) with
  | Ok (_, out) => inserted_events out = 2
  | Err _ => False
  end.
Proof. vm_compute. reflexivity. Qed.

(** ** Statuses and plans *)

Lemma upsert_attendance_status_safe_witness :
  ∃ db', upsert_attendance_status ex_db ex_auth ex_now
      (mk_status_in 7 "2026-06-09" (Some DAY_STATUS_SICKNESS) true) = Ok db' ∧
    ∃ e d, date_fromisoformat "2026-06-09" = Some d ∧
      status_set ex_db db' e d (Some DAY_STATUS_SICKNESS).
Proof.
  run_handler H.
  destruct (upsert_attendance_status_safe _ _ _ _ _ ex_inv H) as (e & d & _ & _ & _ & Hd & _ & R & _).
  exists e, d. split; [exact Hd|exact R].
Defined.

Lemma admin_upsert_day_status_safe_witness :
  ∃ db', admin_upsert_day_status ex_db ex_now
      (mk_status_in 7 "2026-06-12" (Some DAY_STATUS_HOLIDAY) true) = Ok db' ∧
    ∃ e d status, parse_yyyy_mm_dd "2026-06-12" = Some d ∧ status_set ex_db db' e d status.
Proof.
  run_handler H.
  destruct (admin_upsert_day_status_safe _ _ _ _ ex_inv H)
    as (e & d & status & _ & _ & Hd & _ & _ & R).
  exists e, d, status. split; [exact Hd|exact R].
Defined.

Definition ex_plan_body : ShiftPlanUpsertIn :=
  mk_plan_in 7 "2026-06-15" (Some "08:00") (Some "16:30") None false.

Lemma portal_upsert_shift_plan_safe_witness :
  ∃ db', portal_upsert_shift_plan ex_db ex_auth ex_now ex_plan_body = Ok db' ∧
    ∃ e d status, parse_yyyy_mm_dd "2026-06-15" = Some d ∧
      plan_saved ex_db db' e d ex_plan_body status.
Proof.
  run_handler H.
  destruct (portal_upsert_shift_plan_safe _ _ _ _ _ ex_inv H)
    as (e & d & status & _ & _ & _ & Hd & _ & _ & _ & R).
  exists e, d, status. split; [exact Hd|exact R].
Defined.

Lemma admin_upsert_shift_plan_safe_witness :
  ∃ db', admin_upsert_shift_plan ex_db ex_now ex_plan_body = Ok db' ∧
    ∃ e d, parse_yyyy_mm_dd "2026-06-15" = Some d ∧ plan_saved ex_db db' e d ex_plan_body None.
Proof.
  run_handler H.
  destruct (admin_upsert_shift_plan_safe _ _ _ _ ex_inv H) as (e & d & _ & _ & Hd & _ & _ & _ & R).
  exists e, d. split; [exact Hd|exact R].
Defined.

Lemma portal_upsert_day_status_safe_witness :
  ∃ db', portal_upsert_day_status ex_db ex_auth ex_now
      (mk_status_in 7 "2026-06-12" (Some DAY_STATUS_HOLIDAY) true) = Ok db' ∧
    committed ex_db db'.
Proof.
  run_handler H.
  destruct (portal_upsert_day_status_safe _ _ _ _ _ ex_inv H)
    as (e & d & status & _ & _ & _ & _ & _ & _ & _ & _ & R & _).
  exact R.
Defined.

Lemma shift_plan_overlap_unreachable_witness :
  write_plan ex_db ex_employment (mk_date 2026 6 12) (Some "10:00") (Some "18:00") None None id
    ≠ Err (ApiError 409 "shift_plan_overlap").
Proof.
  apply (shift_plan_overlap_unreachable ex_db ex_employment _ (Some "10:00") (Some "18:00") None).
  - exact ex_inv.
  - reflexivity.
  - reflexivity.
  - intros v [=].
Defined.

(** ** Calendar and intervals *)

Lemma easter_sunday_is_sunday_witness :
  weekday (easter_sunday 2026) = 6 ∧
  mk_date 2026 3 22 <= easter_sunday 2026 <= mk_date 2026 4 25.
Proof. apply (easter_sunday_is_sunday 2026). lia. Defined.

Definition ex_day : list AttendanceEvent := [ex_event 20 6 9 8 0; ex_event 21 6 9 16 0].
(** The same day after an event of the next day was recorded. *)
Definition ex_two_days : list AttendanceEvent := ex_event 22 6 10 8 0 :: ex_day.

Lemma pair_event_rows_day_local_witness :
  where_ (λ p, ev_day p.1 =? mk_date 2026 6 9) (pair_event_rows ex_two_days) =
  where_ (λ p, ev_day p.1 =? mk_date 2026 6 9) (pair_event_rows ex_day).
Proof.
  apply (pair_event_rows_day_local ex_two_days ex_day (mk_date 2026 6 9)).
  - unfold ids_unique. apply (bool_decide_unpack _). vm_compute. exact I.
  - assert (day_events (mk_date 2026 6 9) ex_two_days = day_events (mk_date 2026 6 9) ex_day) as ->
      by (vm_compute; reflexivity).
    reflexivity.
Defined.

Lemma day_closed_iff_even_witness :
  (∀ e, e ∈ day_events (mk_date 2026 6 9) ex_two_days → ev_id e ∈ paired_event_ids ex_two_days) ↔
  Nat.Even (length (day_events (mk_date 2026 6 9) ex_two_days)).
Proof.
  apply (day_closed_iff_even ex_two_days (mk_date 2026 6 9));
    unfold ids_unique; apply (bool_decide_unpack _); vm_compute; exact I.
Defined.

(** A night shift over midnight. *)
Lemma split_by_day_partition_witness :
  sum_Z ((λ p, duration p.2) <$>
    split_by_day (mk_interval (clock 6 9 22 0) (clock 6 10 6 0))) = 8 * 60 * us_per_minute.
Proof.
  refine (proj1 (split_by_day_partition (mk_interval (clock 6 9 22 0) (clock 6 10 6 0)) _)).
  vm_compute. discriminate.
Defined.

Lemma shift_plan_overlap_only_same_day_witness :
  let other := mk_plan 31 7 None (mk_date 2026 6 12) (Some "15:00") (Some "20:00") None in
  shift_plans_overlap (Some ex_plan) (Some other) = Ok true ∧ sp_date ex_plan = sp_date other.
Proof.
  split; [vm_compute; reflexivity|].
  apply (shift_plan_overlap_only_same_day ex_plan); vm_compute; reflexivity.
Defined.

(** Nine hours with the break the code inserts. *)
Definition ex_long_day : list AttendanceEvent :=
  (λ w, mk_event w 7 (at_wall w)) <$>
  clock 6 9 8 0 :: automatic_break_events (clock 6 9 8 0) (clock 6 9 17 0) ++ [clock 6 9 17 0].

Lemma automatic_breaks_pairing_witness :
  minutes <$> (pair_interval <$> day_pairs ex_long_day) =
    (break_segments (whole_minutes (clock 6 9 17 0 - clock 6 9 8 0))).1.
Proof.
  refine (proj1 (proj2 (automatic_breaks_pairing (clock 6 9 8 0) (clock 6 9 17 0) ex_long_day _ _)));
    vm_compute; reflexivity.
Defined.

Definition ex_intervals : list WorkInterval := [mk_interval (clock 6 9 8 0) (clock 6 9 16 0)].

Lemma missing_breaks_inside_witness :
  Forall (λ g, ∃ pauses, g = mjoin (pause_events <$> pauses) ∧
      Forall (pause_inside ex_intervals) pauses)
    (missing_break_event_groups ex_intervals (clock 6 1 0 0) (clock 7 1 0 0)).
Proof.
  apply Forall_forall. intros g Hg.
  destruct (missing_breaks_inside ex_intervals _ _ g Hg) as (pauses & Hp & Hin & _).
  exists pauses. split; [exact Hp|exact Hin].
Defined.

Example missing_breaks_found :
  length (missing_break_event_groups ex_intervals (clock 6 1 0 0) (clock 7 1 0 0)) = 1%nat.
Proof. vm_compute. reflexivity. Qed.

(** ** Employments *)

Lemma validate_time_profile_row_ok_witness : employment_row_ok ex_employment = true.
Proof.
  exact (validate_time_profile_row_ok 7 1 "Recepce" WORK_CONTRACT (Some 1%Q) true true false None
    true false false (mk_date 2026 1 1) None eq_refl).
Defined.

Lemma employment_overlaps_month_iff_witness :
  employment_overlaps_month ex_employment (mk_date 2026 6 1) (mk_date 2026 7 1) = true ↔
  ∃ day, mk_date 2026 6 1 <= day < mk_date 2026 7 1 ∧
    employment_is_valid_on_day ex_employment day = true.
Proof.
  apply (employment_overlaps_month_iff ex_employment (mk_date 2026 6 1) (mk_date 2026 7 1)).
  - vm_compute. reflexivity.
  - intros x [=].
Defined.

(** ** Metrics *)

Lemma ex_plans_valid : plans_valid ex_db.
Proof. exact (inv_plans _ ex_inv). Qed.

Lemma persisted_summary_round_trip_witness :
  ∃ db', sync_employment_month_metrics ex_db ex_employment 2026 6 = Ok db' ∧
    build_month_summary db' ex_employment 2026 6 true =
    build_month_summary db' ex_employment 2026 6 false.
Proof.
  refine (persisted_summary_round_trip ex_db ex_employment 2026 6 ex_plans_valid _). lia.
Defined.

Lemma sync_metric_months_spec_witness :
  ∃ x, sync_employment_metric_months ex_db ex_employment (months_for_days [mk_date 2026 6 9]) =
      Ok (set_metrics x ex_db) ∧
    month_fresh (set_metrics x ex_db) ex_employment
      (year_of (mk_date 2026 6 9)) (month_of (mk_date 2026 6 9)).
Proof.
  destruct (sync_metric_months_spec ex_db ex_employment [mk_date 2026 6 9] ex_plans_valid)
    as (x & Hx & Hf & _).
  exists x. split; [exact Hx|]. apply Hf. left.
Defined.

Lemma sync_employment_metrics_spec_witness :
  ∃ x, sync_employment_metrics ex_db ex_employment = Ok (set_metrics x ex_db) ∧
    metrics_fresh (set_metrics x ex_db) ex_employment.
Proof.
  destruct (sync_employment_metrics_spec ex_db ex_employment ex_plans_valid) as (x & Hx & Hf & _).
  exists x. split; [exact Hx|exact Hf].
Defined.

(** An event of July does not change the summary of June. *)
Definition ex_july : DB := set_events (events ex_db ++ [ex_event 40 7 1 8 0]) ex_db.

Lemma month_summary_local_witness :
  build_month_summary ex_july ex_employment 2026 6 false =
  build_month_summary ex_db ex_employment 2026 6 false.
Proof.
  apply (month_summary_local ex_db ex_july ex_employment 2026 6).
  - exact (keyed_id _ _ _ _ (wf_events _ (inv_wf _ ex_inv))).
  - unfold ids_unique. apply (bool_decide_unpack _). vm_compute. exact I.
  - exact ex_plans_valid.
  - exact ex_plans_valid.
  - constructor; [reflexivity|reflexivity|].
    intros d [_ Hd]. unfold events_of, day_events.
    change (events ex_july) with (events ex_db ++ [ex_event 40 7 1 8 0]).
    rewrite !where_app.
    assert (d < mk_date 2026 7 1) as Hlt by exact Hd.
    assert (ev_day (ex_event 40 7 1 8 0) = mk_date 2026 7 1) as Hday by (vm_compute; reflexivity).
    assert (where_ (λ x, ev_day x =? d)
      (where_ (λ x, ev_employment_id x =? em_id ex_employment) [ex_event 40 7 1 8 0]) = []) as ->.
    { cbn -[ev_day ex_event mk_date]. unfold where_. cbn -[ev_day mk_date].
      rewrite Hday. by rewrite (proj2 (Z.eqb_neq _ _)) by lia. }
    by rewrite app_nil_r.
Defined.

Lemma add_event_closes_interval_witness :
  minutes <$> (pair_interval <$> day_pairs (ordered_events
      (day_events (mk_date 2026 6 10)
        (events_of (add_event_with_breaks ex_db ex_employment (at_wall (clock 6 10 16 30))) 7)))) =
  (break_segments (whole_minutes (clock 6 10 16 30 - clock 6 10 8 0))).1.
Proof.
  refine (add_event_closes_interval ex_db ex_employment (at_wall (clock 6 10 16 30)) []
    (ex_event 22 6 10 8 0) _ _ _ _ _ _).
  - vm_compute. reflexivity.
  - repeat constructor.
  - exists 0%nat. reflexivity.
  - vm_compute. reflexivity.
  - vm_compute. reflexivity.
  - reflexivity.
Defined.

(** ** A local time the clock skips

    On 2026-03-29 the clock jumps from 2:00 to 3:00.  A body with the naive
    time 2:30 is paired by that wall clock before the commit, but the row reads
    back as 3:30, so the persisted metrics (90 minutes) differ from a
    recomputation (150 minutes): the hypothesis [real] of the safety theorems
    cannot be dropped. *)
Definition ex_gap_arrival : AttendanceEventIn := mk_event_in 7 (Naive (clock 3 29 1 0)) None.
Definition ex_gap_departure : AttendanceEventIn := mk_event_in 7 (Naive (clock 3 29 2 30)) None.

Definition ex_gap_run : result DB :=
  let? (db1, _) := create_attendance_event ex_db ex_auth ex_now ex_gap_arrival in
  let? (db2, _) := create_attendance_event db1 ex_auth ex_now ex_gap_departure in
  Ok db2.

Definition total_on (d : date) (rows : list EmploymentDailyTimeMetric) : list Z :=
  dm_total_minutes <$> where_ (λ r, dm_metric_date r =? d) rows.

(** Recording 1:00 and then 2:30 as naive times of that night stores metrics
    of 90 minutes where a recomputation from the same rows gives 150. *)
Theorem naive_gap_time_leaves_stale_metrics :
  match ex_gap_run with
  | Ok db =>
      total_on (mk_date 2026 3 29) (month_rows db 7 2026 3) = [90] ∧
      total_on (mk_date 2026 3 29) <$> (match month_metric_rows db ex_employment 2026 3 with
        | Ok rows => Some rows | Err _ => None end) = Some [150]
  | Err _ => False
  end.
Proof. vm_compute. split; reflexivity. Qed.
