(* ===== verification/SystemExamples.v ===== *)
(** * A company from its first day

    A user with two employments and an administrator: a group, a lock, the
    monthly job, a reminder run and a day of attendance, served in a row.
    The theorems on sequences of requests, on locks, groups, reminders, the
    lock-out and the logins are applied to it. *)

From stdpp Require Import relations gmap.
From S2P Require Import Prelude Calendar TimeParse PragueTime Models TimeIntervals Breaks.
From S2P Require Import TimeMetrics Locks EmploymentAccess DayStatus AttendanceEvents.
From S2P Require Import MonthSummary AttendanceApi SystemInvariant AdminAttendanceApi LocksApi.
From S2P Require Import Period Groups AdminEmployments EmploymentRows EmploymentSafety RateLimit Lockout Accounts Login LoginSafety Reminders AttendanceSafety.
From S2P Require Import ShiftPlanApi PlanSafety System Examples.
From Stdlib Require Import QArith.
#[local] Open Scope string_scope.
#[local] Open Scope list_scope.
#[local] Open Scope Z_scope.

#[local] Existing Instance Prague2026.zone.

Definition co_second : Employment :=
  mk_employment 8 1 "Sklad" WORK_CONTRACT (Some (1000 # 1000)%Q) true false false None true false false
    (mk_date 2026 1 1) None.

(** Two employments in one group; the attendance of May is locked for one of
    them; no attendance recorded yet. *)
Definition co_lock : MonthLock := mk_lock 40 7 (Some "inst-1") 2026 5 (Some "admin").
Definition co_db : DB :=
  mk_db [ex_user] [ex_employment; co_second] [mk_group 30 "Denni"]
    [mk_member 30 7; mk_member 30 8] [] [] [] [] [] [co_lock] [] [] [] 100.

Lemma co_inv : inv co_db.
Proof.
  constructor; try (intros x Hx; by apply elem_of_nil in Hx).
  - constructor; constructor; try constructor.
  - by apply (bool_decide_unpack _); vm_compute.
  - done.
  - split; intros x Hx; by apply elem_of_nil in Hx.
Qed.

Lemma co_groups : groups_wf co_db.
Proof.
  constructor.
  - constructor; [by apply (bool_decide_unpack _); vm_compute..|]. by repeat constructor.
  - by intros g ->%list_elem_of_singleton.
  - apply NoDup_cons. split; [|apply NoDup_singleton]. by intros [=]%list_elem_of_singleton.
  - intros m Hm. repeat (apply elem_of_cons in Hm as [->|Hm]; [left|]). by apply elem_of_nil in Hm.
  - intros m Hm. apply elem_of_cons in Hm as [->|Hm]; [left|].
    apply elem_of_cons in Hm as [->|Hm]; [right; left|]. by apply elem_of_nil in Hm.
Qed.

Lemma co_sized : groups_sized co_db.
Proof. intros g ->%list_elem_of_singleton. by vm_compute. Qed.

Lemma co_system : system_inv co_db.
Proof.
  constructor; [exact co_inv|exact co_groups| |apply NoDup_nil_2| | |].
  - intros []; [apply NoDup_singleton|apply NoDup_nil_2].
  - constructor; try (intros x Hx; by apply elem_of_nil in Hx).
    intros e He. repeat (apply elem_of_cons in He as [->|He]; [by vm_compute|]).
    by apply elem_of_nil in He.
  - constructor; [|by split; constructor].
    intros []; constructor; try apply NoDup_singleton; try apply NoDup_nil_2; by repeat constructor.
  - repeat (apply Forall_cons; split; [by split; vm_compute|]). apply Forall_nil_2.
Qed.

Lemma co_fresh : all_fresh co_db.
Proof.
  intros e He y m Hm. unfold month_fresh. rewrite month_rows_no_facts; [done|apply co_inv|].
  by constructor.
Qed.

(** A day of work, a planned shift, an attempt in the locked May, a lock of
    the other employment, the monthly job and a reminder run. *)
Definition co_now : Z := wall_to_utc (clock 6 10 18 0).
Definition co_in (month day hour minute : Z) : AttendanceEventIn :=
  mk_event_in 7 (Naive (clock month day hour minute)) None.
Definition co_requests : list system_request :=
  [ PortalCreateEvent ex_auth co_now (co_in 6 10 8 0);
    PortalCreateEvent ex_auth co_now (co_in 6 10 16 30);
    PortalSetPlan ex_auth co_now (mk_plan_in 7 "2026-06-15" (Some "08:00") (Some "16:30") None false);
    AdminCreateEvent co_now (co_in 5 20 8 0);
    AdminSetLocks (Some "admin") (mk_lock_in LOCK_SHIFT_PLAN (Some 2026) (Some 6) [] true [8]);
    JobAutoLock (Zoned co_now) (mk_date 2026 6 10);
    AdminRenameGroup 30 "Ranni";
    JobReminders (λ _ _ _, Ok tt) (Zoned co_now) ].

(** The day is recorded, closed and got its break; the event of May was refused. *)
Example co_run : length (events (serve_all co_db co_requests)) = 4%nat ∧
  is_ok (admin_create_event co_db co_now (co_in 5 20 8 0)) = false ∧
  length (shift_plan_locks (serve_all co_db co_requests)) = 2%nat ∧
  length (plans (serve_all co_db co_requests)) = 1%nat.
Proof. split_and!; vm_compute; reflexivity. Qed.

Lemma system_invariant_witness :
  system_inv (serve_all co_db co_requests) ∧ groups_sized (serve_all co_db co_requests).
Proof.
  destruct (system_invariant co_db co_requests co_system) as (H & Hs & _).
  split; [exact H|exact (Hs co_sized)].
Defined.

Lemma locked_month_immutable_witness :
  day_locked co_db LOCK_ATTENDANCE 7 (mk_date 2026 5 20) = true ∧
  same_facts LOCK_ATTENDANCE 7 (mk_date 2026 5 20) co_db (serve_all co_db co_requests).
Proof.
  split; [by vm_compute|].
  apply (locked_month_immutable co_db co_requests LOCK_ATTENDANCE 7 (mk_date 2026 5 20)).
  - exact co_system.
  - by vm_compute.
  - repeat (apply Forall_cons; split; [|]); try apply Forall_nil_2; try (intros H; exact H).
    intros (H & _). discriminate H.
Defined.

Lemma real_of (t : aware) : bool_decide (reload t = t) = true → real t.
Proof. apply bool_decide_eq_true. Qed.

Lemma metrics_always_fresh_witness : all_fresh co_db ∧ all_fresh (serve_all co_db co_requests).
Proof.
  split; [exact co_fresh|]. apply (metrics_always_fresh co_db co_requests co_system co_fresh).
  assert (Hr : ∀ m d h mi, bool_decide (reload (prague_now (Naive (clock m d h mi))) =
      prague_now (Naive (clock m d h mi))) = true → Forall real (request_times (co_in m d h mi))).
  { intros m d h mi H. apply Forall_cons. split; [by apply real_of|constructor]. }
  split; [apply Hr; vm_compute; reflexivity|]. split; [apply Hr; vm_compute; reflexivity|].
  split; [exact I|]. split; [apply Hr; vm_compute; reflexivity|]. by split_and!.
Defined.

(** ** Locks and the monthly job *)

Definition co_locks : AdminLockSetIn := mk_lock_in LOCK_SHIFT_PLAN (Some 2026) (Some 6) [] true [8].

Lemma admin_set_locks_spec_witness :
  ∃ db' out, admin_set_locks co_db (Some "admin") co_locks = Ok (db', out) ∧ lock_write co_db db'.
Proof.
  run_handler H. apply (admin_set_locks_spec _ _ _ _ _ co_inv H).
Defined.

Lemma auto_lock_spec_witness :
  ym_of (date_of (prague_now (Zoned co_now))) = (2026, 6) ∧
  al_locked_count (auto_lock_current_shift_plan_month co_db (Zoned co_now) (mk_date 2026 6 10)).2 = 2 ∧
  let '(year, month) := ym_of (date_of (prague_now (Zoned co_now))) in
  let '(db', r) := auto_lock_current_shift_plan_month co_db (Zoned co_now) (mk_date 2026 6 10) in
  ∀ db2 now2 today2, auto_lock_runs db2 = auto_lock_runs db' →
    ym_of (date_of (prague_now now2)) = (year, month) →
    (auto_lock_current_shift_plan_month db2 now2 today2).1 = db2.
Proof.
  split; [vm_compute; reflexivity|]. split; [vm_compute; reflexivity|].
  pose proof (auto_lock_spec co_db (Zoned co_now) (mk_date 2026 6 10) co_inv) as H.
  destruct (ym_of _) as [year month]. destruct (auto_lock_current_shift_plan_month co_db _ _) as [db' r].
  destruct H as [_ H]. intros db2 now2 today2 H1 H2. by rewrite (H db2 now2 today2 H1 H2).
Defined.

(** ** Groups *)

Lemma groups_reachable_wf_witness :
  ∃ db', admin_update_employment_group co_db 30 "Ranni" = Ok db' ∧ groups_wf db'.
Proof.
  run_handler H. eapply (groups_reachable_wf co_db _ co_inv co_groups).
  eapply rtc_once, step_rename, H.
Defined.

(** The group of two is dropped with one of its members. *)
Lemma remove_groups_for_employment_spec_witness :
  ∃ db', remove_groups_for_employment co_db 8 = Ok db' ∧ (∀ g, g ∈ groups db' → survives co_db 8 g).
Proof.
  destruct (remove_groups_for_employment_spec co_db 8 co_groups) as (db' & H & _ & _ & Hg & _).
  exists db'. split; [exact H|]. intros g. apply Hg.
Defined.

Lemma create_group_spec_witness :
  ∃ db' g, create_group co_db "  Nocni   smena " [7; 8] = Ok (db', g) ∧ eg_name g = "Nocni smena".
Proof.
  run_handler H.
  destruct (create_group_spec co_db "  Nocni   smena " [7; 8] (inv_employments _ co_inv) co_groups)
    as [_ Hspec].
  destruct (Hspec _ _ H) as (_ & _ & Hn & _). exact Hn.
Defined.

(** ** Request rate, lock-out and logins *)

Lemma get_lockout_state_spec_witness :
  let a := mk_auth_db [mk_lockout 1 "portal" "jana@example.com" 3 None None (Some 90) None;
                       mk_lockout 2 "portal" "jana@example.com" 0 None None None None] [] 3 in
  is_locked (get_lockout_state a "portal" "jana@example.com" true).2 50 = true.
Proof.
  intros a.
  assert (Hn : NoDup (au_id <$> lockouts a)) by (apply (bool_decide_unpack _); vm_compute; exact I).
  pose proof (get_lockout_state_spec a "portal" "jana@example.com" true 50 Hn) as H.
  destruct (get_lockout_state a "portal" "jana@example.com" true) as [a' state].
  destruct H as [H _]. simpl. rewrite H. reflexivity.
Defined.

Lemma consume_unlock_token_spec_witness :
  let a := mk_auth_db [] [mk_token 1 "portal" "jana@example.com" "unlock" "secret" 100 None] 2 in
  let '(a', row) := consume_unlock_token id a "secret" "portal" "unlock" 50 in
  is_some row = true ∧
  (consume_unlock_token id a' "secret" "portal" "unlock" 60).2 = None.
Proof.
  intros a.
  assert (Hn : NoDup (ut_id <$> unlock_tokens a)) by (apply (bool_decide_unpack _); vm_compute; exact I).
  assert (Hh : NoDup (ut_token_hash <$> unlock_tokens a))
    by (apply (bool_decide_unpack _); vm_compute; exact I).
  pose proof (consume_unlock_token_spec id a "secret" "portal" "unlock" 50 Hn Hh) as H.
  destruct (consume_unlock_token id a "secret" "portal" "unlock" 50) as [a' row] eqn:E.
  destruct row as [r|]; [|vm_compute in E; discriminate E].
  destruct H as (_ & _ & _ & _ & _ & H). split; [reflexivity|]. by rewrite H.
Defined.

(** A toy hash: the stored value is the scheme name and the password. *)
#[export] Instance toy : Crypto := {|
  argon2_verify h password := Some (String.eqb h ("$argon2id$" +:+ password));
  bcrypt_check _ _ := None;
  argon2_needs_rehash _ := false;
  argon2_hash password := "$argon2id$" +:+ password;
  sha256 token := "#" +:+ token;
|}.

#[export] Instance toy_laws : CryptoLaws toy.
Proof.
  constructor; simpl.
  - done.
  - intros password. by rewrite String.eqb_refl.
  - intros password attempt [= H]. by apply String.eqb_eq in H.
Qed.

Definition co_auth : AuthDB := mk_auth_db [] [] 1.
Lemma co_auth_wf : auth_wf co_auth.
Proof. constructor; [|constructor]. constructor; constructor. Qed.

Definition co_instance : Instance_ :=
  mk_instance "inst-1" WEB "user:jana@example.com" INST_ACTIVE (Some "Jana") (Some 0) None None
    None None 0 None.
Definition co_portal : Portal := mk_portal co_db co_auth [co_instance] [] 1.

Lemma portal_login_spec_witness :
  let '(p', r) := portal_login co_portal co_now (mk_login_in " Jana@Example.com" "demo") in
  is_ok r = true ∧
  ∀ t, is_locked (get_lockout_state (p_auth p') "portal" "jana@example.com" true).2 t = false.
Proof.
  pose proof (portal_login_spec co_portal co_now (mk_login_in " Jana@Example.com" "demo") co_auth_wf) as H.
  destruct (portal_login _ _ _) as [p' r] eqn:E.
  destruct r as [out|err]; [|vm_compute in E; discriminate E].
  destruct H as (_ & H & _). split; [reflexivity|exact H].
Defined.

(** Ten guesses, one a minute, while somebody fails to log in elsewhere: the
    fourth and later ones are turned away. *)
Definition co_guess (i : Z) : login_event :=
  Attempt (co_now + i * us_per_minute) (mk_login_in "jana@example.com" "letmein").
Definition co_elsewhere : Portal :=
  (portal_login (portal_login co_portal co_now (mk_login_in "jana@example.com" "letmein")).1
    co_now (mk_login_in "petr@example.com" "letmein")).1.
Lemma co_elsewhere_wf : auth_wf (p_auth co_elsewhere).
Proof.
  constructor; [constructor|]; vm_compute; repeat constructor; try discriminate.
  all: rewrite ?elem_of_cons, ?elem_of_nil; intuition discriminate.
Qed.
Definition co_guesses : list login_event := co_guess 0 :: Meanwhile co_elsewhere :: (co_guess <$> zrange 1 9).


(** ** Reminders *)

(** The morning after the day whose departure was not recorded: two e-mails
    are due by a quarter past eight. *)
Definition co_morning : Z := wall_to_utc (clock 6 11 8 15).

Lemma reminders_exactly_once_witness :
  let '(db', r) := process_attendance_reminders (λ _ _ _, Ok tt) ex_db (Zoned co_morning) in
  length (reminders db') = 2%nat ∧ uq_attendance_reminder_event db'.
Proof.
  pose proof (reminders_exactly_once (λ _ _ _, Ok tt) ex_db (Zoned co_morning) ex_inv (NoDup_nil_2)) as H.
  destruct (process_attendance_reminders (λ _ _ _, Ok tt) ex_db (Zoned co_morning)) as [db' r] eqn:E.
  split; [|apply H].
  assert (db' = (process_attendance_reminders (λ _ _ _, Ok tt) ex_db (Zoned co_morning)).1) as -> by by rewrite E.
  vm_compute. reflexivity.
Defined.

(** Two clients with a limit of two a minute; ticks are seconds. *)
Definition co_hit (client : string) (t : Z) : timed_request :=
  ("data", mk_rate_request (Some client) None None, t).
Definition co_traffic : list timed_request := [co_hit "a" 0; co_hit "a" 5; co_hit "b" 6; co_hit "a" 10].
Lemma sliding_window_limit_witness :
  h_accepted (RateLimit.run 1 (λ _, 2) co_traffic) "data:a" = [0; 5] ∧
  Z.of_nat (length (in_window 1 10 (h_accepted (RateLimit.run 1 (λ _, 2) co_traffic) "data:a"))) <= 2.
Proof.
  split; [vm_compute; reflexivity|].
  apply (sliding_window_limit 1 (λ _, 2) co_traffic (co_hit "a" 62)); [lia| |lia].
  simpl. repeat constructor; simpl; lia.
Defined.
