(* ===== verification/EmploymentExamples.v ===== *)
(** * An employment from its creation to its deletion

    The theorems on the administration of employments, applied to a user with
    one employment, three recorded passages and a planned shift. *)

From stdpp Require Import relations gmap.
From S2P Require Import Prelude Calendar TimeParse PragueTime Models TimeIntervals Breaks.
From S2P Require Import TimeMetrics Locks EmploymentAccess DayStatus AttendanceEvents.
From S2P Require Import MonthSummary AttendanceApi SystemInvariant Period Groups.
From S2P Require Import AdminEmployments EmploymentRows EmploymentSafety Examples.
From Stdlib Require Import QArith.
#[local] Open Scope string_scope.
#[local] Open Scope list_scope.
#[local] Open Scope Z_scope.

#[local] Existing Instance Prague2026.zone.

(** ** The hypotheses of the theorems *)

Lemma ex_period : period_inv ex_db.
Proof.
  assert (H : ∀ d, outside_period ex_employment d = false → in_period ex_db 7 d)
    by (intros d; apply (in_period_self ex_db ex_employment); left).
  constructor; simpl; intros x Hx;
    repeat (apply elem_of_cons in Hx as [->|Hx]; [first [by vm_compute|apply H; by vm_compute]|]);
    by apply elem_of_nil in Hx.
Qed.

Lemma ex_side : side_ids ex_db.
Proof.
  constructor; [|by split; constructor].
  intros []; constructor; try apply NoDup_nil_2; by repeat constructor.
Qed.

Lemma ex_rows : Forall employment_ok (employments ex_db).
Proof. apply Forall_cons. split; [by split; vm_compute|]. apply Forall_nil_2. Qed.

Lemma ex_groups : groups_wf ex_db.
Proof. constructor; simpl; try (intros x Hx; by apply elem_of_nil in Hx); try apply NoDup_nil_2. by repeat constructor; apply NoDup_nil_2. Qed.

(** ** A shorter period *)

Definition no_change : EmploymentUpdateIn :=
  mk_update_in None None None None false None None None None None None None None None.

(** The employment ends on the 9th: the open arrival of the 10th and the
    shift of the 12th are outside. *)
Definition ex_shorter (confirmed : bool) : EmploymentUpdateIn :=
  mk_update_in (Some " Recepce 1 ") None None (Some (Some "2026-06-09")) confirmed
    None None None None None None None None None.

(** Unconfirmed it is refused with the two rows and their days. *)
Example ex_refused : update_employment ex_db ex_now 7 (ex_shorter false) =
  Err (Conflict "employment_period_conflict" [1; 1; 0; 0; 0; 0]
         (Some (mk_date 2026 6 10), Some (mk_date 2026 6 12))).
Proof. vm_compute. reflexivity. Qed.

Lemma update_employment_safe_witness :
  ∃ db' out, update_employment ex_db ex_now 7 (ex_shorter true) = Ok (db', out) ∧
    ∃ e row, em_id e = 7 ∧ employment_replaced ex_db db' e row ∧ period_inv db'.
Proof.
  run_handler H.
  destruct (update_employment_safe _ _ _ _ _ _ ex_inv ex_side ex_period ex_rows H)
    as (e & row & He & Hr & _ & _ & _ & Hp & _).
  exists e, row. split_and!; [exact He|exact Hr|exact Hp].
Defined.

Lemma range_conflict_truthful_witness :
  rs_counts (collect_range_conflicts ex_db 7 (mk_date 2026 1 1) (Some (mk_date 2026 6 9))) =
    [1; 1; 0; 0; 0; 0] ∧
  covers (rs_range (collect_range_conflicts ex_db 7 (mk_date 2026 1 1) (Some (mk_date 2026 6 9))))
    (mk_date 2026 6 12).
Proof.
  destruct (range_conflict_truthful ex_db 7 (mk_date 2026 1 1) (Some (mk_date 2026 6 9))
    ex_inv ex_side) as (Hc & _ & Hd).
  split; [rewrite Hc; vm_compute; reflexivity|].
  apply Hd. right. right. left. exists ex_plan.
  split_and!; [left|vm_compute; reflexivity..].
Defined.

(** ** Creation and deletion *)

Definition ex_new : EmploymentCreateIn :=
  mk_create_in " Sklad " "DPP_DPC" "2026-07-01" (Some "2026-12-31")
    (mk_profile None true false true None false false false) (Some "14:00").

Lemma create_employment_safe_witness :
  ∃ db' out, create_employment ex_db ex_now 1 ex_new = Ok (db', out) ∧
    ∃ row, em_id row = 100 ∧ employment_ok row ∧ em_title row = "Sklad".
Proof.
  run_handler H.
  destruct (create_employment_safe _ _ _ _ _ _ ex_inv ex_period H)
    as (row & _ & Hid & _ & Hok & Ht & _).
  exists row. split_and!; [exact Hid|exact Hok|rewrite Ht; vm_compute; reflexivity].
Defined.

Lemma delete_employment_safe_witness :
  ∃ db' out, delete_employment ex_db 7 true = Ok (db', out) ∧
    out = mk_delete_out 3 1 0 0 0 0 ∧ period_inv db'.
Proof.
  run_handler H.
  destruct (delete_employment_safe _ _ _ _ _ ex_inv ex_period ex_groups H)
    as (e & _ & _ & _ & Hp & _ & Hout & _).
  split; [rewrite Hout; vm_compute; reflexivity|exact Hp].
Defined.

Lemma employment_requests_never_crash_witness :
  create_employment ex_db ex_now 1 ex_new ≠ Err (Crash "IntegrityError") ∧
  update_employment ex_db ex_now 7 (ex_shorter true) ≠ Err (Crash "IntegrityError") ∧
  delete_employment ex_db 7 false ≠ Err (Crash "IntegrityError").
Proof.
  split_and!; apply (employment_requests_never_crash ex_db ex_now _ ex_new (ex_shorter true) false
    "IntegrityError" ex_inv ex_side ex_rows ex_groups); exact 7.
Defined.
