(* ===== verification/AccountsExamples.v ===== *)
(** * The accounts of a company

    The theorems on the whole portal, on reset links, sessions and the
    administration of users, applied to one company; and what the deletion of
    a user does to a group, and a strange cookie to a session. *)

From stdpp Require Import relations countable strings.
From S2P Require Import Prelude Calendar TimeParse PragueTime Models TimeIntervals TimeMetrics Locks DayStatus.
From S2P Require Import AttendanceEvents MonthSummary AttendanceApi SystemInvariant Groups AdminEmployments EmploymentSafety Lockout.
From S2P Require Import Accounts Sessions Login LoginSafety AdminUsers PasswordReset Instances AccountsSafety.
From S2P Require Import LocksApi AdminAttendanceApi Period Reminders AttendanceSafety ShiftPlanApi PlanSafety AccountsHandlers System PortalSystem ResetLinks RequestAuth UsersSpec Examples SystemExamples.
#[local] Open Scope string_scope.
#[local] Open Scope list_scope.
#[local] Open Scope Z_scope.

#[local] Existing Instance Prague2026.zone.

(** ** A toy signature

    Texts are written as the binary digits of their code. *)

Fixpoint digits (p : positive) : string :=
  match p with xH => "" | xO q => String "0" (digits q) | xI q => String "1" (digits q) end.
Fixpoint undigits (s : string) : positive :=
  match s with
  | EmptyString => xH
  | String c s' => if Ascii.eqb c "1" then xI (undigits s') else xO (undigits s')
  end.

Lemma undigits_digits p : undigits (digits p) = p.
Proof. by induction p as [p IH|p IH|]; simpl; rewrite ?IH. Qed.

Lemma digits_ascii p : is_ascii (digits p) = true.
Proof. by induction p as [p IH|p IH|]. Qed.

Definition payload_sum (c : SessionPayload) : (Z * string * Z * string) + (string * Z * string) :=
  match c with
  | PortalPayload uid ct iat jti => inl (uid, ct, iat, jti)
  | AdminPayload u iat jti => inr (u, iat, jti)
  end.
Definition sum_payload (x : (Z * string * Z * string) + (string * Z * string)) : SessionPayload :=
  match x with
  | inl (uid, ct, iat, jti) => PortalPayload uid ct iat jti
  | inr (u, iat, jti) => AdminPayload u iat jti
  end.

#[export] Instance toy_signing : Signing := {|
  Sessions.encode c := digits (countable.encode (payload_sum c));
  Sessions.decode s := sum_payload <$> countable.decode (undigits s);
  hmac_sha256 _ s := "h" +:+ digits (countable.encode s);
  session_secret := "secret";
  session_max_age_seconds := 43200;
|}.

#[export] Instance toy_signing_laws : SigningLaws toy_signing.
Proof.
  constructor; simpl.
  - intros c. rewrite undigits_digits, countable.decode_encode. simpl. by destruct c.
  - intros _ a b [= H]. apply (f_equal undigits) in H.
    change (undigits (digits (countable.encode a)) = undigits (digits (countable.encode b))) in H.
    rewrite !undigits_digits in H. by apply (inj countable.encode) in H.
  - intros _ a. split; [apply digits_ascii|done].
Qed.

(** ** The company *)

Definition ac_token : string := "link-0123456789abcdef".
Definition ac_link : PortalUserResetToken :=
  mk_reset 1 1 (sha256 ac_token) (co_now + 24 * us_per_hour) None RESET_SENT None.
Definition ac_portal : Portal := mk_portal co_db co_auth [co_instance] [ac_link] 2.

Ltac sole H := apply list_elem_of_singleton in H as ->.

Lemma ac_accounts : accounts_inv ac_portal.
Proof.
  constructor; simpl.
  - constructor; [apply NoDup_singleton..|]. by repeat constructor.
  - intros u Hu. sole Hu. by vm_compute.
  - intros u i Hu Hi. sole Hu. injection Hi as <-. left.
  - intros u v i Hu Hv _ _. sole Hu. by sole Hv.
  - apply NoDup_singleton.
  - intros x Hx. sole Hx. by vm_compute.
  - constructor; [apply NoDup_singleton..|]. by repeat constructor.
  - intros r Hr. sole Hr. left.
  - intros r s Hr Hs _ _ _. sole Hr. by sole Hs.
  - intros r u Hr _ Hu _. sole Hu. done.
  - exact co_auth_wf.
Qed.

Lemma ac_inv : portal_inv ac_portal.
Proof. constructor; [exact co_system|exact ac_accounts]. Qed.

(** ** Requests: an employee in a browser, an administrator *)

Definition ac_csrf : CsrfSession := mk_csrf (Some "tok") (Some co_now).
Definition ac_request (c : Cookie) : HttpRequest :=
  mk_request "POST" None (Some c) (Some ac_csrf) (Some "tok") false None None false true.
Definition ac_jana : HttpRequest :=
  ac_request (set_portal_session 1 "$argon2id$demo" co_now "jti-1").
Definition ac_admin (w : admin_work) : portal_request :=
  AdminRequest (ac_request (set_admin_session "admin" co_now "jti-2")) None co_now w.
Definition ac_petr : PortalUserCreateIn :=
  mk_user_create " Petr Novak" "Petr@Example.com " None "employee" (Some "heslo-petra") true.

(** A day of work, a lock, a wrong password, a new user, the forgotten
    password, and a block after which the old session is turned away. *)
Definition ac_requests : list portal_request :=
  [ UserRequest ac_jana co_now (UserCreateEvent (co_in 6 10 8 0));
    UserRequest ac_jana co_now (UserCreateEvent (co_in 6 10 16 30));
    ac_admin (ManageTime (AdminSetLocks (Some "admin")
      (mk_lock_in LOCK_SHIFT_PLAN (Some 2026) (Some 6) [] true [8])));
    LoginRequest co_now (mk_login_in "jana@example.com" "letmein");
    ac_admin (CreateUser "inst-2" ac_petr);
    ResetRequest co_now (mk_reset_in ac_token "nove-heslo");
    ac_admin (BlockUser 1 true);
    UserRequest ac_jana co_now (UserCreateEvent (co_in 6 10 17 0));
    Job (JobAutoLock (Zoned co_now) (mk_date 2026 6 10)) ].

Example ac_run :
  let p := run ac_portal ac_requests in
  length (events (p_db p)) = 4%nat ∧ length (users (p_db p)) = 2%nat ∧
  length (shift_plan_locks (p_db p)) = 2%nat ∧ (unused <$> p_resets p) = [false] ∧
  is_ok (portal_login p co_now (mk_login_in "petr@example.com" "heslo-petra")).2 = false ∧
  (pu_is_blocked <$> users (p_db p)) = [true; false].
Proof. cbn zeta. split_and!; vm_compute; reflexivity. Qed.

Lemma ac_spares : along spares_groups ac_portal ac_requests.
Proof. repeat (split; [exact I|]). exact I. Qed.

Lemma portal_invariant_witness :
  portal_inv (run ac_portal ac_requests) ∧
  (groups_sized (p_db ac_portal) → groups_sized (p_db (run ac_portal ac_requests))).
Proof.
  destruct (portal_invariant ac_portal ac_requests ac_inv) as (H & Hs & _).
  split; [exact H|exact (Hs ac_spares)].
Defined.

Lemma portal_locked_month_immutable_witness :
  day_locked co_db LOCK_ATTENDANCE 7 (mk_date 2026 5 20) = true ∧
  kept_facts LOCK_ATTENDANCE 7 (mk_date 2026 5 20) co_db (p_db (run ac_portal ac_requests)).
Proof.
  split; [by vm_compute|].
  apply (portal_locked_month_immutable ac_portal ac_requests LOCK_ATTENDANCE 7 (mk_date 2026 5 20)
    ac_inv).
  - by vm_compute.
  - repeat (split; [first [exact (λ H, H) | intros (_ & Hlt & _); discriminate Hlt]|]). exact I.
Defined.

Lemma portal_metrics_fresh_witness :
  all_fresh co_db ∧ all_fresh (p_db (run ac_portal ac_requests)).
Proof.
  split; [exact co_fresh|].
  assert (Hr : ∀ m d h mi, bool_decide (reload (prague_now (Naive (clock m d h mi))) =
      prague_now (Naive (clock m d h mi))) = true → Forall real (request_times (co_in m d h mi))).
  { intros m d h mi H. apply Forall_cons. split; [by apply real_of|constructor]. }
  apply (portal_metrics_fresh ac_portal ac_requests ac_inv co_fresh).
  split; [intros auth; apply Hr; vm_compute; reflexivity|].
  split; [intros auth; apply Hr; vm_compute; reflexivity|].
  do 5 (split; [exact I|]). split; [intros auth; apply Hr; vm_compute; reflexivity|].
  by split.
Defined.

(** ** Reset links *)

Definition ac_reset : PortalResetIn := mk_reset_in ac_token "nove-heslo".

(** The link is tried once more at the end of the run. *)
Lemma reset_link_single_use_witness :
  ∃ p', portal_reset ac_portal co_now ac_reset = Ok p' ∧
    refused (run p' ac_requests) co_now (mk_reset_in ac_token "jine-heslo").
Proof.
  run_handler H.
  apply (reset_link_single_use ac_portal co_now ac_reset _ ac_requests co_now
    (mk_reset_in ac_token "jine-heslo") ac_accounts).
  - intros r s Hr Hs _ _. sole Hr. by sole Hs.
  - exact H.
  - repeat (apply Forall_cons; split; [exact I|]). apply Forall_nil_2.
  - reflexivity.
Defined.

Lemma portal_reset_spec_witness :
  ∃ p' row u, portal_reset ac_portal co_now ac_reset = Ok p' ∧
    reset_done ac_portal p' co_now ac_reset row u.
Proof.
  pose proof (portal_reset_spec ac_portal co_now ac_reset ac_accounts) as S.
  destruct (portal_reset ac_portal co_now ac_reset) as [p'|e] eqn:E; [|vm_compute in E; discriminate E].
  destruct S as (row & u & S). exists p', row, u. split; [reflexivity|exact S].
Defined.

(** ** Sessions and closed accounts *)

Lemma portal_session_accepted_witness :
  require_portal_user_auth ac_portal ac_jana co_now = Ok ex_auth.
Proof.
  apply (portal_session_accepted ac_portal ac_jana co_now ex_auth ac_accounts).
  - intros u Hu. by sole Hu.
  - reflexivity.
  - reflexivity.
  - split; [reflexivity|]. split; [reflexivity|]. split.
    + apply (issued_names ac_jana co_now ex_user "$argon2id$demo" co_now "jti-1" eq_refl).
      split; [reflexivity|]. rewrite Z.sub_diag. done.
    + constructor; [left|reflexivity|]. exists co_instance. split; [left|]. by split_and!.
Defined.

(** The cookie of an administrator stands for no user. *)
Example admin_cookie_refused :
  require_portal_user_auth ac_portal (ac_request (set_admin_session "admin" co_now "jti-2")) co_now =
    Err session_invalid.
Proof. vm_compute. reflexivity. Qed.

Definition ac_blocked : Portal := run ac_portal [ac_admin (BlockUser 1 true)].

Lemma closed_account_witness :
  ∃ u, u ∈ users (p_db ac_blocked) ∧ pu_email u = "jana@example.com" ∧
    (∀ now, ∃ e, start_reset ac_blocked now 1 "token" = Err e) ∧
    refused (run ac_blocked ac_requests) co_now ac_reset.
Proof.
  pose proof (run_inv ac_portal [ac_admin (BlockUser 1 true)] ac_inv) as [_ H].
  exists (with_blocked true ex_user). split; [vm_compute; left|]. split; [reflexivity|].
  destruct (closed_account ac_blocked (with_blocked true ex_user) H) as (_ & _ & Hs & Hr & _).
  - vm_compute. left.
  - right. reflexivity.
  - split; [intros now; apply Hs|].
    apply (Hr (revoked_at co_now ac_link) ac_requests co_now ac_reset).
    + vm_compute. left.
    + reflexivity.
    + reflexivity.
    + intros s Hs' _. vm_compute in Hs'. vm_compute. by sole Hs'.
    + repeat (apply Forall_cons; split; [exact I|]). apply Forall_nil_2.
Defined.

(** ** Users *)

Lemma create_user_spec_witness :
  ∃ p' u, (∃ out, create_user ac_portal co_now "inst-2" ac_petr = Ok (p', out)) ∧
    user_created ac_portal p' co_now "inst-2" ac_petr u ∧ pu_email u = "petr@example.com".
Proof.
  pose proof (create_user_spec ac_portal co_now "inst-2" ac_petr ac_accounts) as S.
  destruct (create_user ac_portal co_now "inst-2" ac_petr) as [[p' out]|e] eqn:E;
    [|vm_compute in E; discriminate E].
  destruct S as (u & S). exists p', u. split; [by exists out|]. split; [exact S|].
  destruct (uc_row _ _ _ _ _ _ S) as (_ & -> & _). vm_compute. reflexivity.
Defined.

Lemma delete_user_spec_witness :
  ∃ p', delete_user ac_portal 1 = Ok p' ∧ email_taken p' "jana@example.com" None = false.
Proof.
  pose proof (delete_user_spec ac_portal 1 ac_inv) as S.
  destruct (delete_user ac_portal 1) as [p'|e] eqn:E; [|vm_compute in E; discriminate E].
  destruct S as (u & Hu & _ & _ & _ & _ & _ & _ & _ & He). exists p'. split; [reflexivity|].
  sole Hu. exact He.
Defined.

(** ** Findings *)

(** The deletion of a user removes the memberships but not the group: unlike
    the deletion of an employment, it leaves a group with no member. *)
Theorem delete_user_leaves_group :
  ∃ p' g, delete_user ac_portal 1 = Ok p' ∧ g ∈ groups (p_db p') ∧
    group_members (p_db p') (eg_id g) = [] ∧ ¬ groups_sized (p_db p').
Proof.
  destruct (run_ok (delete_user ac_portal 1) ltac:(vm_compute; reflexivity)) as [p' E].
  vm_compute in E. injection E as <-. eexists _, _. split; [reflexivity|]. split; [left|].
  split; [reflexivity|]. intros W. pose proof (W _ (list_elem_of_here _ _)) as H. vm_compute in H. lia.
Qed.

(** The deletion of a user deletes the WEB instance as well, although
    docs/SSOT_CURRENT.md says it does not. *)
Theorem delete_user_deletes_instance :
  ∃ p', delete_user ac_portal 1 = Ok p' ∧ length (p_instances ac_portal) = 1%nat ∧ p_instances p' = [].
Proof. eexists. split; [vm_compute; reflexivity|]. split; reflexivity. Qed.

(** A name of 129 characters passes the validation of the body and is
    refused by the database. *)
Fixpoint letters (n : nat) : string := match n with O => "" | S k => String "a" (letters k) end.
Theorem long_name_crashes :
  let body := mk_user_create (letters 129) "eva@example.com" None "employee" None true in
  (∃ v, validate_user_create body = Ok v) ∧
  create_user ac_portal co_now "inst-2" body = Err (Crash "DataError").
Proof. cbn zeta. split; [apply run_ok|]; vm_compute; reflexivity. Qed.

(** An empty phone, as the web form sends it, leaves the stored number. *)
Theorem empty_phone_kept p now i body :
  uu_phone body = Some "" →
  update_user p now i body =
  update_user p now i (mk_user_update (uu_name body) (uu_email body) None (uu_role body)
    (uu_is_active body) (uu_password body)).
Proof. intros H. unfold update_user, validate_user_update. by rewrite H. Qed.

(** A cookie whose signature is not ASCII ends in an unhandled error. *)
Theorem strange_cookie_crashes :
  require_portal_user_auth ac_portal
    (ac_request (mk_cookie "payload" (String (Ascii.ascii_of_nat 233) "")))  co_now = Err (Crash "TypeError").
Proof. vm_compute. reflexivity. Qed.
