(* ===== verification/IntegrationExamples.v ===== *)
(** * A payroll partner

    A toy codec for cursors, an integration client created by the
    administrator, its requests, and the replacement of its token; the
    theorems on the service and on the integration interface are applied to
    them. *)

From stdpp Require Import relations countable strings gmap.
From S2P Require Import Prelude Calendar TimeParse PragueTime Models TimeIntervals TimeMetrics Locks DayStatus.
From S2P Require Import AttendanceEvents MonthSummary AttendanceApi SystemInvariant Groups AdminEmployments EmploymentSafety Lockout.
From S2P Require Import Accounts Sessions Login LoginSafety AdminUsers PasswordReset Instances AccountsSafety.
From S2P Require Import LocksApi AdminAttendanceApi Period Reminders AttendanceSafety ShiftPlanApi PlanSafety AccountsHandlers System PortalSystem ResetLinks RequestAuth UsersSpec Examples SystemExamples.
From S2P Require Import IpAddress IntegrationClients Cursors IntegrationCatalog IntegrationAdmin RateLimit IntegrationApi.
From S2P Require Import IntegrationSafety IntegrationPages GatewaySystem IntegrationAccess AccountsExamples.
#[local] Open Scope string_scope.
#[local] Open Scope list_scope.
#[local] Open Scope Z_scope.

#[local] Existing Instance Prague2026.zone.

(** ** A toy codec

    Values are trees, written as the binary digits of their code. *)

Definition leaf : Type := unit + (bool + (Z + string)).

Fixpoint to_tree (v : json) : gen_tree leaf :=
  match v with
  | JNull | JFloat _ => GenLeaf (inl ())
  | JBool b => GenLeaf (inr (inl b))
  | JInt n => GenLeaf (inr (inr (inl n)))
  | JString s => GenLeaf (inr (inr (inr s)))
  | JList l => GenNode 0 (List.map to_tree l)
  | JObject fields =>
      GenNode 1 (List.map (λ kv, GenNode 0 [GenLeaf (inr (inr (inr kv.1))); to_tree kv.2]) fields)
  end.

Fixpoint from_tree (t : gen_tree leaf) : json :=
  match t with
  | GenLeaf (inl _) => JNull
  | GenLeaf (inr (inl b)) => JBool b
  | GenLeaf (inr (inr (inl n))) => JInt n
  | GenLeaf (inr (inr (inr s))) => JString s
  | GenNode 0 l => JList (List.map from_tree l)
  | GenNode _ l =>
      JObject (List.map (λ x, match x with
                              | GenNode _ [GenLeaf (inr (inr (inr s))); v] => (s, from_tree v)
                              | _ => ("", JNull)
                              end) l)
  end.

Lemma from_to_tree : ∀ v, json_plain v = true → from_tree (to_tree v) = v.
Proof.
  fix IH 1. intros [| | | | |l|fields] Hv; simpl in *; try done; f_equal.
  - revert l Hv. fix IHl 1. intros [|v l] Hv; [done|]. simpl in *.
    apply andb_prop in Hv as [Hv Hl]. f_equal; [by apply IH|by apply IHl].
  - apply andb_prop in Hv as [Hv _]. revert fields Hv. fix IHl 1. intros [|[k v] fields] Hv; [done|].
    simpl in *. apply andb_prop in Hv as [Hv Hl]. f_equal; [by rewrite IH|by apply IHl].
Qed.

Definition untagged (s : string) : positive :=
  match s with String _ s' => undigits s' | EmptyString => xH end.

#[export] Instance toy_interchange : Interchange := {|
  dumps v := "j" +:+ digits (countable.encode (to_tree v));
  loads s := from_tree <$> countable.decode (untagged s);
  datetime_text t := "t" +:+ digits (countable.encode t);
  datetime_fromisoformat s := Zoned <$> countable.decode (untagged s);
|}.

#[export] Instance toy_interchange_laws : InterchangeLaws toy_interchange.
Proof.
  constructor.
  - intros v Hv.
    change (from_tree <$> countable.decode (undigits (digits (countable.encode (to_tree v)))) = Some v).
    rewrite undigits_digits, countable.decode_encode. simpl. by rewrite from_to_tree.
  - intros v. apply digits_ascii.
  - done.
  - intros t. change (Zoned <$> countable.decode (undigits (digits (countable.encode t))) = Some (Zoned t)).
    by rewrite undigits_digits, countable.decode_encode.
Qed.

#[export] Instance toy_settings : IntegrationSettings := {|
  rate_limit_enabled := true;
  rate_limit_integration_health_per_minute := 60;
  rate_limit_integration_data_per_minute := 3;
  rate_limit_integration_openapi_per_minute := 10;
  integration_contract_version := "2026-09-01";
  ticks_per_second := 1;
|}.

(** ** The partner *)

Definition in_gateway : Gateway := mk_gateway ac_portal [] [] [] ∅ 1.

Lemma in_inv : gateway_inv in_gateway.
Proof.
  constructor; [exact ac_inv|]. constructor; simpl.
  - constructor; try apply NoDup_nil_2. constructor.
  - constructor.
  - constructor; try apply NoDup_nil_2. constructor.
  - by intros s ?%elem_of_nil.
  - by intros s s' ?%elem_of_nil.
  - constructor; try apply NoDup_nil_2. constructor.
Qed.

Definition in_raw : list Z := zrange 1 16.
Definition in_token : string := generate_integration_token in_raw.
Definition in_form : IntegrationClientIn :=
  mk_client_in " Mzdy 2026 "
    [SCOPE_HEALTH; SCOPE_EMPLOYMENTS; SCOPE_ATTENDANCE; SCOPE_ATTENDANCE_CREATE;
     SCOPE_ATTENDANCE_DELETE; SCOPE_LOCKS]
    DATA_SCOPE_SELECTED_EMPLOYMENTS [] [7] false IP_RESTRICTION_NONE EXPIRATION_90_DAYS None.

Definition in_admin (w : client_work) : gateway_request :=
  ClientsStep (ac_request (set_admin_session "admin" co_now "jti-2")) None co_now w.
Definition in_http (token : string) : IntegrationHttp :=
  mk_integration_http "req-1" "POST" "/api/v1/integration/attendance-events" ""
    (Some ("Bearer " +:+ token)) None None (Some "10.0.0.7") (Some "payroll/1.0").
Definition in_call (tick : Z) (call : integration_call) : gateway_request :=
  IntegrationStep (in_http in_token) co_now tick call.
Definition in_event (employment_id hour : Z) : AttendanceEventIn :=
  mk_event_in employment_id (Zoned (wall_to_utc (clock 6 9 hour 0))) None.

(** The client is created and reads; it records an event, is refused one of a
    foreign employment and one in the locked May, runs into the rate limit,
    and loses its token. *)
Definition in_requests : list gateway_request :=
  [ in_admin (CreateClient in_raw in_form);
    in_call 0 CallHealth;
    in_call 0 (CallCreate (in_event 7 8));
    in_call 1 (CallCreate (in_event 8 8));
    in_call 2 (CallCreate (mk_event_in 7 (Zoned (wall_to_utc (clock 5 20 8 0))) None));
    in_call 3 (CallCreate (in_event 7 16));
    PortalStep (UserRequest ac_jana co_now (UserCreateEvent (co_in 6 10 8 0)));
    in_admin (RotateSecret 1 (zrange 20 16));
    in_call 70 (CallCreate (in_event 7 16)) ].

Example in_run :
  let g := gateway_run in_gateway in_requests in
  (al_status_code <$> g_audit g) = [200; 201; 403; 423; 429; 401] ∧
  length (events (g_db g)) = 2%nat ∧ length (g_secrets g) = 2%nat ∧
  (ic_name <$> g_clients g) = ["Mzdy 2026"].
Proof. cbn zeta. split_and!; vm_compute; reflexivity. Qed.

(** ** The service *)

Lemma in_spares : gateway_along gateway_spares_groups in_gateway in_requests.
Proof. repeat (split; [exact I|]). exact I. Qed.

Lemma service_invariant_witness :
  gateway_inv (gateway_run in_gateway in_requests) ∧
  (groups_sized (g_db in_gateway) → groups_sized (g_db (gateway_run in_gateway in_requests))).
Proof.
  destruct (service_invariant in_gateway in_requests in_inv) as (H & Hs & _).
  split; [exact H|exact (Hs in_spares)].
Defined.

Lemma service_locked_month_immutable_witness :
  day_locked co_db LOCK_ATTENDANCE 7 (mk_date 2026 5 20) = true ∧
  kept_facts LOCK_ATTENDANCE 7 (mk_date 2026 5 20) co_db (g_db (gateway_run in_gateway in_requests)).
Proof.
  split; [by vm_compute|].
  apply (service_locked_month_immutable in_gateway in_requests LOCK_ATTENDANCE 7 (mk_date 2026 5 20)
    in_inv).
  - by vm_compute.
  - repeat (split; [exact (λ H, H)|]). exact I.
Defined.

Lemma real_times body :
  forallb (λ t, bool_decide (reload t = t)) (request_times body) = true → Forall real (request_times body).
Proof. intros H. apply Forall_forall. intros t Ht. apply real_of. by apply (proj1 (forallb_elem _ _) H). Qed.

Lemma service_metrics_fresh_witness :
  all_fresh co_db ∧ all_fresh (g_db (gateway_run in_gateway in_requests)).
Proof.
  split; [exact co_fresh|]. apply (service_metrics_fresh in_gateway in_requests in_inv co_fresh).
  split; [exact I|]. split; [exact I|].
  do 4 (split; [apply real_times; vm_compute; reflexivity|]).
  split; [intros auth; apply real_times; vm_compute; reflexivity|].
  split; [exact I|]. split; [apply real_times; vm_compute; reflexivity|]. exact I.
Defined.

(** ** The partner's requests *)

Definition in_client : IntegrationClient :=
  mk_client 1 "Mzdy 2026" CLIENT_ACTIVE
    [SCOPE_HEALTH; SCOPE_EMPLOYMENTS; SCOPE_ATTENDANCE; SCOPE_ATTENDANCE_CREATE; SCOPE_LOCKS]
    [7] [] DATA_SCOPE_SELECTED_EMPLOYMENTS false [] None None None.

Lemma integration_scope_enforced_witness :
  ∃ v, integration_handler co_db in_client co_now (CallCreate (in_event 7 8)) = Ok v ∧
    call_effect co_db in_client co_now (CallCreate (in_event 7 8)) v.1.1 ∧
    rows_permitted co_db in_client co_now v.1.2.
Proof.
  run_handler H. match type of H with _ = Ok ?v => destruct v as [[db' out] n] end.
  destruct (integration_scope_enforced co_db in_client co_now _ db' out n co_inv H) as (He & Hp & _).
  by split.
Defined.

Lemma integration_lists_complete_witness :
  let today := prague_today (Zoned ex_now) in
  walk (list_attendance_events ex_db in_client ex_now (Some 7) (Some "2026-06-09") None 1) 3 None =
    Some (event_payload <$>
      permitted_events ex_db in_client today (event_filter (Some 7) (Some (mk_date 2026 6 9)) None)) ∧
  length (permitted_events ex_db in_client today (event_filter (Some 7) (Some (mk_date 2026 6 9)) None)) = 3%nat.
Proof.
  split; [|vm_compute; reflexivity].
  apply (integration_lists_complete ex_db in_client ex_now 1 3 (Some 7) (Some "2026-06-09") None
    (Some (mk_date 2026 6 9)) None 2026 6 ex_inv).
  - intros e He. vm_compute in He. by sole He.
  - apply (proj1 (forallb_elem (λ x, representable (utc (ev_occurred_at x))) (events ex_db))).
    vm_compute. reflexivity.
  - apply mem_true. vm_compute. reflexivity.
  - apply mem_true. vm_compute. reflexivity.
  - constructor.
    + apply mem_true. vm_compute. reflexivity.
    + intros j [= <-]. vm_compute. reflexivity.
    + vm_compute. reflexivity.
    + reflexivity.
    + discriminate.
  - lia.
  - split; [lia|]. vm_compute. discriminate.
Defined.

(** The state after the client was created, and the request with its token. *)
Definition in_created : Gateway := gateway_run in_gateway [in_admin (CreateClient in_raw in_form)].

Lemma in_created_inv : gateway_inv in_created.
Proof. apply (gateway_run_inv in_gateway _ in_inv). Qed.

(** The token it got is presented to its only secret. *)
Lemma in_presents :
  ∃ s c, presents in_created (in_http in_token) s c ∧ admits c (in_http in_token) co_now = true.
Proof.
  destruct (head (g_secrets in_created)) as [s|] eqn:Es; [|vm_compute in Es; discriminate Es].
  destruct (get_client in_created (is_client_id s)) as [c|] eqn:Ec;
    [|vm_compute in Es; injection Es as <-; vm_compute in Ec; discriminate Ec].
  exists s, c. vm_compute in Es. injection Es as <-. split.
  - exists in_token. split_and!; [vm_compute; reflexivity..| |exact Ec].
    split; [constructor; vm_compute; try reflexivity; [left|discriminate]|].
    intros s' [Hs _ _ _ _]. vm_compute in Hs. sole Hs. vm_compute. discriminate.
  - vm_compute in Ec. injection Ec as <-. vm_compute. reflexivity.
Qed.

Lemma integration_auth_spec_witness :
  (∃ v, require_integration_auth in_created (in_http in_token) co_now = Ok v) ∧
  ∃ code, require_integration_auth in_created (in_http "dgi_AAAAAAAAAAAAAAAAAAAAAA") co_now =
    Err (ApiError 401 code).
Proof.
  split.
  - destruct in_presents as (s & c & Hp & Ha).
    destruct (integration_auth_spec in_created (in_http in_token) co_now (gi_clients _ in_created_inv)) as [S _].
    specialize (S s c Hp). rewrite Ha in S. eexists. exact S.
  - apply (integration_auth_spec in_created (in_http "dgi_AAAAAAAAAAAAAAAAAAAAAA") co_now
      (gi_clients _ in_created_inv)).
    intros s c (token & E & _ & [[Hs _ _ _ Hv] _] & _). vm_compute in E. injection E as <-.
    vm_compute in Hs. sole Hs. vm_compute in Hv. discriminate Hv.
Defined.

(** The token is rotated; the client is disabled, enabled and rotated again. *)
Definition in_later : list gateway_request :=
  [ in_admin (DisableClient 1); in_admin (EnableClient 1); in_admin (RotateSecret 1 (zrange 40 16)) ].

Lemma replaced_token_dead_witness :
  ∃ g1 out, rotate_integration_client_secret in_created co_now 1 (zrange 20 16) = Ok (g1, out) ∧
    (integration_request (gateway_run g1 in_later) (in_http in_token) co_now 90 CallHealth).2 =
      Err invalid_token.
Proof.
  run_handler H.
  apply (replaced_token_dead in_created co_now 1 in_token _ in_later (in_http in_token) co_now 90 CallHealth
    in_created_inv).
  - right. exists (zrange 20 16). eexists. split; [|exact H]. vm_compute. discriminate.
  - intros s Hs _ _. vm_compute in Hs. sole Hs. reflexivity.
  - repeat (apply Forall_cons; split; [vm_compute; discriminate|]). apply Forall_nil_2.
  - vm_compute. reflexivity.
Defined.

Lemma integration_audit_complete_witness :
  ∃ rows, g_audit (gateway_run in_gateway in_requests) = g_audit in_gateway ++ rows ∧ length rows = 6%nat.
Proof.
  destruct (integration_audit_complete in_gateway in_requests (in_http in_token) co_now 90 CallHealth
    in_inv) as [(rows & Ha & Hl) _].
  exists rows. split; [exact Ha|]. rewrite Hl. reflexivity.
Defined.

(** ** Findings *)

(** A source address of 65 characters does not fit the audit: the event is
    recorded, the answer is an unhandled error, and no audit row is left. *)
Definition in_long_address (rq : IntegrationHttp) : IntegrationHttp :=
  mk_integration_http (ih_request_id rq) (ih_method rq) (ih_path rq) (ih_query rq) (ih_authorization rq)
    (Some (String.concat "" (replicate 65 "1"%string))) (ih_x_forwarded_for rq) (ih_host rq) (ih_user_agent rq).

Theorem unaudited_write :
  ∃ g, integration_request in_created (in_long_address (in_http in_token)) co_now 0
      (CallCreate (in_event 7 8)) = (g, Err (Crash "DataError")) ∧
    length (events (g_db g)) = S (length (events (g_db in_created))) ∧
    g_audit g = g_audit in_created.
Proof. eexists. split; [vm_compute; reflexivity|]. split; vm_compute; reflexivity. Qed.

(** A revoked client can be enabled again; it is then active without a secret
    in use. *)
Theorem revoked_client_enabled :
  ∃ g1 out g2 out', revoke_integration_client_secret in_created co_now 1 = Ok (g1, out) ∧
    enable_integration_client g1 co_now 1 = Ok (g2, out') ∧
    (ic_status <$> g_clients g2) = [CLIENT_ACTIVE] ∧ active_secret g2 1 = None.
Proof.
  destruct (run_ok (revoke_integration_client_secret in_created co_now 1) ltac:(vm_compute; reflexivity))
    as [[g1 out] H1]. exists g1, out. vm_compute in H1. injection H1 as <- <-.
  eexists _, _. split; [reflexivity|]. split; [reflexivity|]. by vm_compute.
Qed.

(** The last day of the calendar in [date_to] ends in an unhandled error. *)
Theorem last_date_crashes :
  list_attendance_events ex_db in_client ex_now None None (Some "9999-12-31") 100 None =
    Err (Crash "OverflowError").
Proof. vm_compute. reflexivity. Qed.

(** So does the cursor of an instant outside the years of a [datetime]. *)
Theorem early_cursor_crashes :
  attendance_cursor (Some (encode_resource_cursor "attendance-events" (event_cursor_key 0 1))) =
    Err (Crash "OverflowError").
Proof. vm_compute. reflexivity. Qed.

(** Any two events of an employment may be deleted as a pair. *)
Theorem distant_pair_deleted :
  ∃ v, integration_delete_event ex_db
    (mk_client 1 "Mzdy 2026" CLIENT_ACTIVE [SCOPE_ATTENDANCE_DELETE] [] [] DATA_SCOPE_ALL true [] None None None)
    ex_now 20 (Some 22) = Ok v ∧ (ev_id <$> events v.1) = [21].
Proof. run_handler H. vm_compute in H. injection H as <-. reflexivity. Qed.

(** The offered scopes are those the endpoints require. *)
Example offered_scopes_enforced :
  (sd_id <$> where_ sd_available SCOPE_DEFINITIONS) ⊆ INTEGRATION_SCOPE_ROUTES.*1 ∧
  INTEGRATION_SCOPE_ROUTES.*1 ⊆ (sd_id <$> where_ sd_available SCOPE_DEFINITIONS) ∧
  Forall (λ p, validate_scopes p.2 = Ok (sorted_by String.leb p.2) ∧
    find_permission_profile (sorted_by String.leb p.2) = Some p.1) PERMISSION_PROFILES.
Proof.
  split_and!.
  - apply (bool_decide_unpack _). vm_compute. exact I.
  - apply (bool_decide_unpack _). vm_compute. exact I.
  - repeat (apply Forall_cons; split; [by vm_compute|]). apply Forall_nil_2.
Qed.
