(* ===== verification/ExternalExamples.v ===== *)
(** * An employee links and uses Google

    A toy Google whose tokens are texts of their claims, a browser that links
    the account and signs in with it, and the theorems on the whole service
    and on external sign-in applied to them. *)

From stdpp Require Import relations countable strings gmap.
From S2P Require Import Prelude Calendar TimeParse PragueTime Models TimeIntervals TimeMetrics Locks DayStatus.
From S2P Require Import AttendanceEvents MonthSummary AttendanceApi SystemInvariant Groups AdminEmployments EmploymentSafety Lockout.
From S2P Require Import Accounts Sessions Login LoginSafety AdminUsers PasswordReset Instances AccountsSafety.
From S2P Require Import LocksApi AdminAttendanceApi Period Reminders AttendanceSafety ShiftPlanApi PlanSafety AccountsHandlers System PortalSystem ResetLinks RequestAuth UsersSpec Examples SystemExamples.
From S2P Require Import IpAddress IntegrationClients Cursors IntegrationCatalog IntegrationAdmin RateLimit IntegrationApi.
From S2P Require Import IntegrationSafety IntegrationPages GatewaySystem IntegrationAccess AccountsExamples IntegrationExamples.
From S2P Require Import UrlText ExternalProviders ExternalAuth ExternalSafety FederationSystem ExternalLogin.
#[local] Open Scope string_scope.
#[local] Open Scope list_scope.
#[local] Open Scope Z_scope.

#[local] Existing Instance Prague2026.zone.

(** ** A toy encryption and the text of a login *)

Definition type_number (t : EmploymentType) : Z :=
  match t with WORK_CONTRACT => 0 | DPP_DPC => 1 | TASK_SHIFT_BASED => 2 | EXTERNAL_HOURLY => 3 end.
Definition number_type (n : Z) : EmploymentType :=
  if n =? 0 then WORK_CONTRACT else if n =? 1 then DPP_DPC
  else if n =? 2 then TASK_SHIFT_BASED else EXTERNAL_HOURLY.

Definition employment_row (e : LoginEmploymentOut) :=
  (le_id e, le_title e, type_number (le_employment_type e), le_start_date e, le_end_date e, le_is_active e, le_is_current e, le_label e).
Definition row_employment (x : Z * string * Z * Z * option Z * bool * bool * string)
    : LoginEmploymentOut :=
  let '(i, title, t, s, e, a, c, label) := x in
  mk_login_employment i title (number_type t) s e a c label.

Lemma row_of_employment e : row_employment (employment_row e) = e.
Proof.
  by destruct e as [i title [] s f a c label].
Qed.

#[export] Instance toy_sealing : Sealing := {|
  fernet_encrypt _ _ value := "f" +:+ value;
  fernet_decrypt _ token := match token with String _ s => Some s | EmptyString => None end;
  login_json l := "l" +:+ digits (countable.encode
    (lo_display_name l, lo_employment_id l, employment_row <$> lo_available_employments l));
  login_of_json s := (λ x, let '(n, i, rows) := x in mk_login_out n i (row_employment <$> rows)) <$>
    countable.decode (untagged s);
|}.

#[export] Instance toy_sealing_laws : SealingLaws toy_sealing.
Proof.
  constructor.
  - done.
  - intros [n i rows].
    change ((λ x : string * option Z * list _, let '(n, i, rows) := x in mk_login_out n i (row_employment <$> rows)) <$>
      countable.decode (undigits (digits (countable.encode (n, i, employment_row <$> rows)))) =
      Some (mk_login_out n i rows)).
    rewrite undigits_digits, countable.decode_encode. simpl. do 2 f_equal.
    rewrite <- list_fmap_compose. rewrite <- (list_fmap_id rows) at 2. apply list_fmap_ext.
    intros _ e _. apply row_of_employment.
  - done.
Qed.

(** ** A toy Google

    A token is the text of its claims; its header always names the key [k1]. *)

Definition text_field (key : string) (d : document) : string :=
  match get_field key d with Some (JString s) => s | _ => "" end.

#[export] Instance toy_jwt : Jwt := {|
  jwt_header token := match loads token with
    | Some (JObject _) => Some [("alg", JString "RS256"); ("kid", JString "k1")]
    | _ => None end;
  jwk_key item := match item with JObject d => Some (text_field "n" d) | _ => None end;
  jwt_decode token key audience issuers leeway now :=
    match loads token with
    | Some (JObject d) =>
        if mem (text_field "iss" d) issuers && negb (String.eqb (text_field "iss" d) "") &&
           String.eqb (text_field "aud" d) audience && String.eqb key "google-key"
        then Claims d else InvalidToken
    | _ => InvalidToken
    end;
  jwt_encode _ _ _ := Some "client-secret";
|}.

#[export] Instance toy_jwt_laws : JwtLaws toy_jwt.
Proof.
  constructor. intros token key audience issuers leeway now c H. unfold jwt_decode, toy_jwt in H.
  destruct (loads token) as [[| | | | | |d]|]; try done.
  destruct (mem (text_field "iss" d) issuers) eqn:Em; [|done].
  destruct (text_field "iss" d =? "")%string eqn:Ei; [done|]. simpl in H.
  destruct (_ && _); [|done]. injection H as <-. apply mem_true in Em. unfold text_field in Em, Ei.
  destruct (get_field "iss" d) as [[| | | |s| |]|]; try done. by exists s.
Qed.

#[export] Instance toy_external_settings : ExternalSettings := {|
  external_auth_transaction_ttl_seconds := 600;
  external_auth_result_ttl_seconds := 120;
  external_auth_clock_skew_seconds := 60;
  google_oidc_enabled := true;
  google_oidc_client_id := Some "client";
  google_oidc_client_secret := Some "secret";
  google_oidc_callback_url := None;
  apple_signin_enabled := false;
  apple_services_id := None;
  apple_team_id := None;
  apple_key_id := None;
  apple_private_key := None;
  apple_issuer := APPLE_ISSUER;
  apple_authorization_endpoint := APPLE_AUTHORIZATION_URL;
  apple_token_endpoint := APPLE_TOKEN_URL;
  apple_jwks_endpoint := APPLE_JWKS_URL;
  apple_callback_url := None;
  public_base_url := "https://dagmar.example/";
  admin_username := "admin";
  admin_password_hash := Some "$argon2id$root";
  ticks_of_second := 1;
|}.

Definition ge_document (fields : document) : option http_response :=
  Some (mk_response 200 None "public, max-age=600" (Some (JObject fields))).

(** Google at [now], with the claims of the account behind [nonce]. *)
Definition ge_world (now : Z) (nonce : string) : World := mk_world now 5
  (λ url _,
    if String.eqb url GOOGLE_DISCOVERY_URL then ge_document
      [("issuer", JString GOOGLE_ISSUER); ("authorization_endpoint", JString GOOGLE_AUTHORIZATION_URL);
       ("token_endpoint", JString GOOGLE_TOKEN_URL); ("jwks_uri", JString GOOGLE_JWKS_URL)]
    else if String.eqb url GOOGLE_JWKS_URL then ge_document
      [("keys", JList [JObject [("kid", JString "k1"); ("n", JString "google-key")]])]
    else None)
  (λ url _, if String.eqb url GOOGLE_TOKEN_URL then ge_document
     [("id_token", JString (dumps (JObject
        [("iss", JString GOOGLE_ISSUER); ("aud", JString "client"); ("sub", JString "subject-jana");
         ("nonce", JString nonce); ("email", JString "jana@gmail.example"); ("email_verified", JBool true)])))]
     else None).

(** ** Linking and signing in *)

Definition ge_portal : Federation := mk_federation in_gateway [] [] [] (mk_caches ∅ ∅) 1.

Lemma ge_inv : federation_inv ge_portal.
Proof.
  constructor; [exact in_inv|]. constructor; simpl; try apply Forall_nil_2; try apply NoDup_nil_2.
  - constructor; try apply NoDup_nil_2. constructor.
  - constructor; try apply NoDup_nil_2. constructor.
Qed.

Definition ge_browser : string := "browser-secret-0123456789-0123456789".
Definition ge_http (browser result : option string) : ExternalHttp :=
  mk_external_http ac_jana browser result (Some "Firefox") (Some "10.0.0.7") (Some "req-9").
Definition ge_randoms (n : string) : Randoms :=
  mk_randoms ("state-" +:+ n) ge_browser ("nonce-" +:+ n) ("verifier-" +:+ n) ("tx-" +:+ n) ("iv-" +:+ n) ("jti-" +:+ n).
Definition ge_step (n : string) (browser result : option string) (call : external_call) : federation_request :=
  ExternalStep (ge_http browser result) (ge_world co_now ("nonce-" +:+ n)) (ge_randoms n) call.
Definition ge_callback (n : string) : external_call :=
  CallCallback GOOGLE (Some ("state-" +:+ n)) (Some "code") None.

Definition ge_link : federation_request :=
  ge_step "1" None None (CallLink EMPLOYEE GOOGLE (mk_confirmation "demo" (Some "https://evil.example"))).
Definition ge_linked : list federation_request := [ge_link; ge_step "1" (Some ge_browser) None (ge_callback "1")].
Definition ge_started : list federation_request :=
  ge_linked ++ [ge_step "2" (Some ge_browser) None (CallLoginStart EMPLOYEE GOOGLE None)].

(** Jana links Google with her password, signs in with it and takes the
    login; the callback is tried again, in the meantime she works and the
    partner reads. *)
Definition ge_requests : list federation_request :=
  ge_started ++
  [ ge_step "2" (Some ge_browser) None (ge_callback "2");
    ge_step "3" (Some ge_browser) (Some "tx-2") CallResult;
    ge_step "3" (Some ge_browser) None (ge_callback "2");
    GatewayStep (PortalStep (UserRequest ac_jana co_now (UserCreateEvent (co_in 6 10 8 0))));
    GatewayStep (in_admin (CreateClient in_raw in_form));
    GatewayStep (in_call 0 CallHealth) ].

Example ge_run :
  let f := federation_run ge_portal ge_requests in
  (ei_subject <$> fd_identities f) = ["subject-jana"] ∧ (ei_portal_user_id <$> fd_identities f) = [Some 1] ∧
  ((λ t, (ot_id t, is_some (ot_consumed_at t), is_some (ot_result_consumed_at t))) <$> fd_transactions f) =
    [("tx-1", true, false); ("tx-2", true, true)] ∧
  ((λ r, (xa_event r, xa_outcome r, xa_reason r)) <$> fd_audit f) =
    [("link_started", "success", None); ("linked", "success", None); ("login_started", "success", None);
     ("login", "success", None); ("callback", "failure", Some "callback_replayed")] ∧
  length (events (fd_db f)) = 1%nat.
Proof. cbn zeta. split_and!; vm_compute; reflexivity. Qed.

(** ** The theorems, applied *)

Lemma ge_spares : federation_along spares ge_portal ge_requests.
Proof. repeat (split; [exact I|]). exact I. Qed.

Lemma federation_invariant_witness :
  federation_inv (federation_run ge_portal ge_requests) ∧
  (groups_sized (fd_db ge_portal) → groups_sized (fd_db (federation_run ge_portal ge_requests))).
Proof.
  destruct (federation_invariant ge_portal ge_requests ge_inv) as (H & Hs & _).
  split; [exact H|exact (Hs ge_spares)].
Defined.

Lemma federation_locked_month_immutable_witness :
  day_locked co_db LOCK_ATTENDANCE 7 (mk_date 2026 5 20) = true ∧
  kept_facts LOCK_ATTENDANCE 7 (mk_date 2026 5 20) co_db (fd_db (federation_run ge_portal ge_requests)).
Proof.
  split; [by vm_compute|].
  apply (federation_locked_month_immutable ge_portal ge_requests LOCK_ATTENDANCE 7 (mk_date 2026 5 20)
    ge_inv).
  - by vm_compute.
  - repeat (split; [exact (λ H, H)|]). exact I.
Defined.

Lemma federation_metrics_fresh_witness :
  all_fresh co_db ∧ all_fresh (fd_db (federation_run ge_portal ge_requests)).
Proof.
  split; [exact co_fresh|]. apply (federation_metrics_fresh ge_portal ge_requests ge_inv co_fresh).
  do 6 (split; [exact I|]). split; [intros auth; apply real_times; vm_compute; reflexivity|].
  repeat (split; [first [exact I|apply Forall_nil_2]|]). exact I.
Defined.

(** The state after the link, and after the start of the login. *)
#[local] Notation ge_state := (federation_run ge_portal ge_started).
Lemma ge_state_inv : federation_inv ge_state.
Proof. apply (federation_run_inv ge_portal _ ge_inv). Qed.

Definition ge_rest : list federation_request :=
  [ ge_step "3" (Some ge_browser) (Some "tx-2") CallResult;
    ge_step "4" None None (CallLoginStart ADMIN GOOGLE (Some "/admin/ucet")) ].

(** The state is tried once more, from another browser. *)
Lemma oauth_state_single_use_witness :
  let f2 := federation_run ge_state
    (ExternalStep (ge_http (Some ge_browser) None) (ge_world co_now "nonce-2") (ge_randoms "2")
       (CallCallback GOOGLE (Some "state-2") (Some "code") None) :: ge_rest) in
  let '(f3, r) := external_request f2 (ge_http (Some "other") None) (ge_world co_now "nonce-2")
    (ge_randoms "5") (CallCallback GOOGLE (Some "state-2") (Some "code") None) in
  fd_identities f3 = fd_identities f2 ∧ fd_transactions f3 = fd_transactions f2 ∧
  fd_gateway f3 = fd_gateway f2 ∧
  ∃ reason, reason ∈ ["invalid_state"; "callback_replayed"] ∧
    r = Ok (OutRedirect ("/app?external_auth_error=" +:+ reason) None None None).
Proof.
  destruct (find_transaction ge_state GOOGLE "state-2") as [t|] eqn:Et; [|vm_compute in Et; discriminate Et].
  apply (oauth_state_single_use ge_state (ge_http (Some ge_browser) None) (ge_world co_now "nonce-2")
    (ge_randoms "2") GOOGLE "state-2" t (Some "code") None ge_rest (ge_http (Some "other") None)
    (ge_world co_now "nonce-2") (ge_randoms "5") GOOGLE (Some "code") None ge_state_inv Et).
  - vm_compute in Et. injection Et as <-. reflexivity.
  - unfold ge_rest. constructor; [exact (λ H, H)|]. constructor; [intros H; discriminate H|]. apply Forall_nil_2.
Defined.

Lemma ge_unlinked key : unlinked ge_portal key.
Proof. split; [intros x Hx|intros t Ht]; by apply elem_of_nil in Hx || apply elem_of_nil in Ht. Qed.

Lemma external_identity_provenance_witness :
  ∃ x l0 asked l1 answered l2 rq rn a,
    fd_identities (federation_run ge_portal ge_linked) = [x] ∧
    ge_linked = l0 ++ asked :: l1 ++ answered :: l2 ∧
    asks_link (federation_run ge_portal l0) asked rq rn a (ei_provider x).
Proof.
  destruct (fd_identities (federation_run ge_portal ge_linked)) as [|x [|y l]] eqn:E;
    [vm_compute in E; discriminate E| |vm_compute in E; discriminate E].
  destruct (external_identity_provenance ge_portal ge_linked x ge_inv) as (l0 & asked & l1 & answered & l2 & rq & rn & a & Hl & Ha & _).
  - apply ge_unlinked.
  - rewrite E. left.
  - exists x, l0, asked, l1, answered, l2, rq, rn, a. split_and!; [reflexivity|exact Hl|exact Ha].
Defined.

#[local] Notation ge_answer :=
  (handle_callback ge_state (ge_http (Some ge_browser) None) (ge_world co_now "nonce-2") (ge_randoms "2")
     GOOGLE (Some "state-2") (Some "code") None).

Definition login_shape (r : result external_out) : option (string * option string * option string) :=
  match r with Ok (OutRedirect location b res (Some _)) => Some (location, b, res) | _ => None end.

Lemma ge_shape : login_shape ge_answer.2 = Some ("/app?external_auth=complete", None, Some "tx-2").
Proof. vm_compute. reflexivity. Qed.

Lemma shaped (x : Federation * result external_out) location b res :
  login_shape x.2 = Some (location, b, res) →
  ∃ cookie, x = (x.1, Ok (OutRedirect location b res (Some cookie))).
Proof.
  destruct x as [f [[| | |l b' r [c|]| |]|e]]; simpl; try done. intros [= -> -> ->]. by exists c.
Qed.

Lemma ge_answered : ∃ cookie, ge_answer =
  (ge_answer.1, Ok (OutRedirect "/app?external_auth=complete" None (Some "tx-2") (Some cookie))).
Proof. exact (shaped ge_answer _ _ _ ge_shape). Qed.

Lemma external_login_spec_witness :
  ∃ t x issued, login_in_order ge_state (ge_http (Some ge_browser) None) (ge_world co_now "nonce-2") GOOGLE
    "state-2" "code" t x issued.
Proof.
  destruct ge_answered as (cookie & E).
  destruct (external_login_spec ge_state (ge_http (Some ge_browser) None) (ge_world co_now "nonce-2") (ge_randoms "2")
    GOOGLE "state-2" "code" ge_state_inv ltac:(discriminate) ltac:(discriminate)) as [_ S].
  destruct (S None _ _ _ _ cookie E) as (t & x & issued & H & _). exists t, x, issued. exact H.
Defined.

Lemma external_result_once_witness :
  ∃ login, (consume_login_result ge_answer.1 (ge_http (Some ge_browser) (Some "tx-2")) (co_now + 5000000)).2 =
    Ok (OutLogin login).
Proof.
  destruct ge_answered as (cookie & E).
  destruct (external_result_once ge_state (ge_http (Some ge_browser) None) (ge_world co_now "nonce-2") (ge_randoms "2")
    GOOGLE "state-2" "code" None ge_answer.1 _ _ "tx-2" _ (ge_http (Some ge_browser) (Some "tx-2")) (co_now + 5000000)
    ge_state_inv ltac:(discriminate) E eq_refl eq_refl ltac:(vm_compute; reflexivity)) as (t & x & login & u & _ & H & _).
  exists login. exact H.
Defined.

Lemma external_redirects_safe_witness : leads_home "/app?external_auth=complete".
Proof.
  destruct ge_answered as (cookie & E).
  pose proof (external_redirects_safe ge_state (ge_http (Some ge_browser) None) (ge_world co_now "nonce-2")
    (ge_randoms "2") (CallCallback GOOGLE (Some "state-2") (Some "code") None) ge_answer.1
    (OutRedirect "/app?external_auth=complete" None (Some "tx-2") (Some cookie)) ge_state_inv) as S.
  cbn [external_request safe_answer] in S. exact (S E).
Defined.

Lemma external_unlink_spec_witness :
  let '(f', r) := unlink ge_state (ge_http None None) (EmployeeAccount 1) (Some ex_user) GOOGLE (mk_confirmation "demo" None) in
  r = Ok OutOk ∧ unlinked f' (GOOGLE, Some 1, None).
Proof.
  pose proof (external_unlink_spec ge_state (ge_http None None) (EmployeeAccount 1) (Some ex_user) GOOGLE
    (mk_confirmation "demo" None) (fi_external _ ge_state_inv) ltac:(discriminate)) as S.
  destruct (unlink _ _ _ _ _ _) as [f' [out|e]] eqn:E.
  - destruct S as (-> & _ & _ & Hu & _). split; [reflexivity|exact Hu].
  - exfalso. assert (Hr : (unlink ge_state (ge_http None None) (EmployeeAccount 1) (Some ex_user) GOOGLE
      (mk_confirmation "demo" None)).2 = Err e) by (by rewrite E). vm_compute in Hr. discriminate Hr.
Defined.

Lemma provider_claims_verified_witness :
  ∃ claims token header, pc_subject claims = "subject-jana" ∧ jwt_header token = Some header.
Proof.
  destruct (exchange_and_validate (ge_world co_now "nonce-2") GOOGLE "code" "nonce-2" (Some "verifier-2") (mk_caches ∅ ∅))
    as [c' r] eqn:E.
  assert (Hr : (exchange_and_validate (ge_world co_now "nonce-2") GOOGLE "code" "nonce-2" (Some "verifier-2")
    (mk_caches ∅ ∅)).2 = r) by (by rewrite E).
  vm_compute in Hr. subst r.
  destruct (provider_claims_verified (ge_world co_now "nonce-2") GOOGLE "code" "nonce-2" (Some "verifier-2")
    (mk_caches ∅ ∅) c' _ E) as (token & header & _ & _ & _ & Hh & _).
  exists (mk_claims "https://accounts.google.com" "subject-jana" (Some "jana@gmail.example") (Some true)), token, header.
  split; [reflexivity|exact Hh].
Defined.

(** ** Findings *)

(** Linking a provider that is switched off ends in an unhandled error, where
    signing in with it answers 503. *)
Theorem disabled_link_crashes :
  (external_request ge_portal (ge_http None None) (ge_world co_now "nonce-1") (ge_randoms "1")
     (CallLink EMPLOYEE APPLE (mk_confirmation "demo" None))).2 = Err (Crash "ExternalAuthError") ∧
  (external_request ge_portal (ge_http None None) (ge_world co_now "nonce-1") (ge_randoms "1")
     (CallLoginStart EMPLOYEE APPLE None)).2 = Err (ApiError 503 "provider_disabled").
Proof. split; vm_compute; reflexivity. Qed.

(** The instance of the account was switched off after the sign-in began. *)
Definition ge_closed : Federation :=
  set_fd_gateway (set_g_portal (update_instance "inst-1"
    (λ x, mk_instance (inst_id x) (inst_client_type x) (inst_device_fingerprint x) INST_DEACTIVATED
            (inst_display_name x) (inst_activated_at x) (inst_revoked_at x) (Some co_now)
            None None (inst_created_at x) (inst_last_seen_at x))
    (g_portal (fd_gateway ge_state))) (fd_gateway ge_state)) ge_state.

(** A login the portal refuses leaves no audit row. *)
Theorem refused_login_unaudited :
  let answer := handle_callback ge_closed (ge_http (Some ge_browser) None) (ge_world co_now "nonce-2")
    (ge_randoms "2") GOOGLE (Some "state-2") (Some "code") None in
  answer.2 = Err (ApiError 403 "portal_instance_inactive") ∧
  length (fd_audit answer.1) = length (fd_audit ge_closed).
Proof. cbn zeta. split; vm_compute; reflexivity. Qed.

(** A deactivated account whose session is still valid can no longer work with
    its attendance but links an external identity. *)
Definition ge_inactive : Federation :=
  federation_step ge_portal (GatewayStep (PortalStep (ac_admin
    (UpdateUser 1 (mk_user_update None None None None (Some false) None))))).

Theorem inactive_user_links :
  (pu_is_active <$> users (fd_db ge_inactive)) = [false] ∧
  federation_step ge_inactive
    (GatewayStep (PortalStep (UserRequest ac_jana co_now (UserCreateEvent (co_in 6 10 8 0))))) = ge_inactive ∧
  (ei_portal_user_id <$> fd_identities (federation_run ge_inactive ge_linked)) = [Some 1].
Proof. split_and!; vm_compute; reflexivity. Qed.
