(* ===== verification/ViewsExamples.v ===== *)
(** * Concrete views and exports

    The month views and the export run on the company of the other examples;
    every theorem about them that has hypotheses is applied to such a run. *)

From S2P Require Import Prelude Calendar TimeParse Format PragueTime IsoText Models TimeIntervals Breaks.
From S2P Require Import TimeMetrics Locks EmploymentAccess DayStatus AttendanceEvents.
From S2P Require Import MonthSummary AttendanceApi SystemInvariant AdminAttendanceApi Groups.
From S2P Require Import AttendanceSafety ShiftPlanApi PlanSafety.
From S2P Require Import MonthViews MonthSheets PlanViews PlanSheets CsvExport ExportSafety.
From S2P Require Import Report ReportSafety Examples.
Open Scope string_scope.
Open Scope list_scope.
Open Scope Z_scope.

#[local] Existing Instance Prague2026.zone.

#[local] Instance offsets_2026 : PragueOffsets Prague2026.zone.
Proof.
  intros t. unfold utc_to_wall. simpl. destruct (_ && _);
    unfold Prague2026.hour, us_per_day, us_per_minute; lia.
Qed.

(** The company with a group for the reception desk. *)
Definition vw_db : DB :=
  set_groups [mk_group 1 "Recepce"] (set_members [mk_member 1 7] ex_db).

Lemma vw_inv : inv vw_db.
Proof. destruct ex_inv as [[]]. split; [by split|done..]. Qed.

Definition vw_view : result AttendanceMonthOut := build_month vw_db ex_employment 2026 6.

(** The sheet of June: the 9th offers its departure with its arrival. *)
Example sheet_of_june :
  match vw_view with
  | Ok out => (λ day, (ad_date day, ad_events day)) <$> take 2 (drop 8 (am_days out))
  | Err _ => []
  end =
  [("2026-06-09", [mk_event_out 20 7 "2026-06-09T08:00:00+02:00" (Some 21);
                   mk_event_out 21 7 "2026-06-09T16:00:00+02:00" None]);
   ("2026-06-10", [mk_event_out 22 7 "2026-06-10T08:00:00+02:00" None])].
Proof. vm_compute. reflexivity. Qed.

Lemma month_sheet_complete_witness :
  inv vw_db ∧ ∃ out s, build_month vw_db ex_employment 2026 6 = Ok out ∧
    build_month_summary vw_db ex_employment 2026 6 false = Ok s ∧
    am_days out = sheet_day vw_db ex_employment <$> ms_day_summaries s.
Proof.
  split; [exact vw_inv|].
  destruct (month_sheet_complete vw_db ex_employment 2026 6 vw_inv)
    as (out & s & H1 & H2 & H3 & _).
  exists out, s. exact (conj H1 (conj H2 H3)).
Defined.

Lemma deletion_partner_offered_witness :
  ∃ out, vw_view = Ok out ∧
    ∃ day, day ∈ am_days out ∧ ad_date day = "2026-06-09" ∧
      mk_event_out 20 7 "2026-06-09T08:00:00+02:00" (Some 21) ∈ ad_events day.
Proof.
  destruct vw_view as [out|] eqn:E; [|by vm_compute in E]. exists out. split; [done|].
  destruct (deletion_partner_offered vw_db ex_employment 2026 6 out vw_inv ltac:(lia) E) as [_ H].
  destruct (H (ex_event 20 6 9 8 0) (ex_event 21 6 9 16 0)) as (day & Hday & Hd & Hin).
  - apply (bool_decide_unpack _). vm_compute. exact I.
  - vm_compute. reflexivity.
  - exists day. split; [exact Hday|]. split.
    + etransitivity; [exact Hd|vm_compute; reflexivity].
    + revert Hin. assert (isoformat_20 : datetime_isoformat (ev_occurred_at (ex_event 20 6 9 8 0)) =
        "2026-06-09T08:00:00+02:00") by (vm_compute; reflexivity).
      rewrite isoformat_20. exact (λ h, h).
Defined.

Lemma admin_sheets_agree_witness :
  ∃ sheets sh, list_month_sheets vw_db 2026 6 = Ok sheets ∧ sh ∈ sheets ∧
    get_month_attendance vw_db ex_auth 7 2026 6 = Ok (as_month sh).
Proof.
  destruct (admin_sheets_agree vw_db 2026 6 vw_inv ltac:(lia) ltac:(lia)) as (sheets & Hs & _ & H).
  - intros e He. apply list_elem_of_singleton in He. rewrite He. vm_compute. discriminate.
  - destruct (H ex_employment ex_user "inst-1") as (sh & Hsh & _ & _ & _ & Hget).
    + left.
    + vm_compute. reflexivity.
    + vm_compute. reflexivity.
    + exists sheets, sh. exact (conj Hs (conj Hsh Hget)).
Defined.

Lemma group_plan_members_witness :
  ∃ group out, get_group vw_db 1 = Some group ∧
    portal_get_group_shift_plan_month lower vw_db ex_auth 1 2026 6 = Ok out ∧
    gr_employment_id <$> gp_rows out ≡ₚ [7].
Proof.
  destruct (group_plan_members lower vw_db ex_auth 1 2026 6 vw_inv) as [_ H].
  - vm_compute. reflexivity.
  - destruct H as (group & out & Hg & Hout & _ & _ & Hrows & _).
    + split; [reflexivity|]. exists (mk_group 1 "Recepce"), ex_employment.
      split; [reflexivity|]. split; [left|]. split; [reflexivity|].
      apply active_in_month_iff. vm_compute. reflexivity.
    + exists group, out. exact (conj Hg (conj Hout Hrows)).
Defined.

Lemma admin_plan_month_spec_witness :
  ∃ out, admin_get_shift_plan_month vw_db 2026 6 = Ok out ∧ pr_employment_id <$> pm_rows out = [7].
Proof.
  destruct (admin_plan_month_spec vw_db 2026 6 vw_inv ltac:(lia) ltac:(lia))
    as (out & Hout & _ & _ & Hrows & _).
  exists out. split; [exact Hout|]. etransitivity; [exact Hrows|vm_compute; reflexivity].
Defined.

Lemma plan_views_agree_witness :
  ∃ r r', gr_planned_minutes r = 480 ∧ gr_days r = pr_days r' ∧
    gr_shift_plan_locked r = pr_shift_plan_locked r'.
Proof.
  destruct (portal_get_group_shift_plan_month lower vw_db ex_auth 1 2026 6) as [g|] eqn:Eg;
    [|by vm_compute in Eg].
  destruct (admin_get_shift_plan_month vw_db 2026 6) as [a|] eqn:Ea; [|by vm_compute in Ea].
  destruct (gp_rows g) as [|r rows] eqn:Er;
    [vm_compute in Eg; injection Eg as Eg; rewrite <- Eg in Er; discriminate Er|].
  destruct (pm_rows a) as [|r' rows'] eqn:Er';
    [vm_compute in Ea; injection Ea as Ea; rewrite <- Ea in Er'; discriminate Er'|].
  exists r, r'. split.
  - vm_compute in Eg. injection Eg as Eg. rewrite <- Eg in Er. injection Er as Er _.
    rewrite <- Er. reflexivity.
  - destruct (plan_views_agree lower vw_db ex_auth 1 2026 6 g a r r' vw_inv Eg Ea)
      as (Hd & _ & _ & Hl); [rewrite Er; left|rewrite Er'; left| |exact (conj Hd Hl)].
    vm_compute in Eg, Ea. injection Eg as Eg. injection Ea as Ea.
    rewrite <- Eg in Er. rewrite <- Ea in Er'. injection Er as Er _. injection Er' as Er' _.
    rewrite <- Er, <- Er'. reflexivity.
Defined.

Lemma csv_export_complete_witness :
  ∃ header rows content, csv_for_employment vw_db ex_employment 2026 6 = Ok content ∧
    read_csv content =
      Some ((λ row : list string, list_ascii_of_string <$> row) <$> (header :: rows)) ∧
    event_in_table vw_db (ex_event 21 6 9 16 0) header rows.
Proof.
  destruct (csv_export_complete vw_db ex_employment 2026 6 vw_inv eq_refl)
    as (out & header & rows & content & _ & _ & H1 & H2 & _ & H3).
  exists header, rows, content. split; [exact H1|]. split; [exact H2|]. apply H3.
  - apply (bool_decide_unpack _). vm_compute. exact I.
  - vm_compute. reflexivity.
Defined.

Lemma export_scope_witness :
  ∃ name content, export_csv_or_zip id vw_db ex_now "2026-06" (Some 7) false = Ok (CsvFile name content) ∧
    named_safely "2026-06" name.
Proof.
  destruct (export_csv_or_zip id vw_db ex_now "2026-06" (Some 7) false) as [[name content|]|] eqn:E;
    [|by vm_compute in E..].
  exists name, content. split; [reflexivity|].
  destruct (export_scope id vw_db ex_now "2026-06" (Some 7) false _ vw_inv E) as (y & m & _ & _ & e & He & _ & _ & _ & _ & Hn).
  exact Hn.
Defined.

Lemma report_spec_witness :
  ∃ report, build_shift_plan_report vw_db ex_now 2026 6 [7; 7] = Ok report ∧
    rr_employment_id <$> mjoin (rp_employments <$> rt_pages report) = [7].
Proof.
  destruct (report_spec vw_db ex_now 2026 6 [7; 7] vw_inv ltac:(lia) ltac:(lia)) as [_ H].
  destruct H as (report & Hr & _ & Hids & _).
  - discriminate.
  - intros i Hi. exists ex_employment. apply elem_of_cons in Hi as [Hi|Hi];
      [|apply list_elem_of_singleton in Hi]; rewrite Hi;
      (split; [|apply active_in_month_iff]; vm_compute; reflexivity).
  - exists report. split; [exact Hr|]. etransitivity; [exact Hids|vm_compute; reflexivity].
Defined.

(** Easter Monday of 2026 in an English report. *)
Example easter_monday_untranslated :
  report_holiday_label (mk_date 2026 4 6) = Some "Pohyblivý svátek" ∧
  print_text "Pohyblivý svátek" "en" = Ok "Pohyblivý svátek" ∧
  czech_public_holiday_label (mk_date 2026 4 6) = Some "Velikonoční pondělí" ∧
  print_text "Velikonoční pondělí" "en" = Ok "Easter Monday".
Proof. split_and!; vm_compute; reflexivity. Qed.

(** ** What the export lets through *)

(** The month is two integers to the code: a trailing line break is accepted
    and stands in the name sent in the Content-Disposition header. *)
Definition vw_month : string := ("2026-06" ++ String newline "")%string.

Example export_name_with_newline :
  export_month vw_month = Ok (2026, 6) ∧
  match export_csv_or_zip id vw_db ex_now vw_month (Some 7) false with
  | Ok (CsvFile name _) => mem newline (list_ascii_of_string name)
  | _ => false
  end = true.
Proof. split; vm_compute; reflexivity. Qed.

(** A year [date] does not know is not refused: the request crashes. *)
Example export_year_zero_crashes :
  export_csv_or_zip id vw_db ex_now "0000-06" (Some 7) false = Err (Crash "ValueError") ∧
  export_csv_or_zip id vw_db ex_now "9999-12" (Some 7) false = Err (Crash "ValueError").
Proof. split; vm_compute; reflexivity. Qed.

(** Two employments of one user with the same title and type get the same file
    name: unpacking the archive keeps only one of the two files. *)
Definition vw_second : Employment :=
  mk_employment 8 1 "Recepce" WORK_CONTRACT (em_workload_fraction ex_employment) true true false None true
    false false (mk_date 2026 6 1) None.

Example zip_names_collide :
  match export_csv_or_zip id (set_employments [ex_employment; vw_second] vw_db) ex_now "2026-06" None true with
  | Ok (ZipFile _ entries) => fst <$> entries
  | _ => []
  end = ["jana_-_work_contract_-_recepce_2026-06.csv"; "jana_-_work_contract_-_recepce_2026-06.csv"].
Proof. vm_compute. reflexivity. Qed.
