(* ===== verification/CmlExamples.v ===== *)
(** * KajovoCML in front of the company

    The theorems on the boundary applied to one company, with a key that signs
    by writing its name; and two requests that slip through or crash. *)

From stdpp Require Import list pretty relations strings.
From S2P Require Import Prelude Calendar TimeParse PragueTime Models DayStatus AttendanceEvents AttendanceApi Groups.
From S2P Require Import AdminEmployments Lockout Accounts Sessions Login AdminUsers SystemInvariant AccountsSafety.
From S2P Require Import Instances IpAddress Cursors UrlText ExternalProviders.
From S2P Require Import CmlWeb CmlSafety.
From S2P Require Import Examples SystemExamples AccountsExamples.
#[local] Open Scope string_scope.
#[local] Open Scope list_scope.
#[local] Open Scope Z_scope.

#[local] Existing Instance Prague2026.zone.

(** A digest of 64 characters. *)
#[local] Instance cm_crypto : Crypto := {|
  argon2_verify h password := Some (String.eqb h ("$argon2id$" +:+ password));
  bcrypt_check _ _ := None;
  argon2_needs_rehash _ := false;
  argon2_hash password := "$argon2id$" +:+ password;
  sha256 text := string_of_list_ascii (take 64 (list_ascii_of_string text ++ repeat "0"%char 64));
|}.

Lemma length_of_list l : String.length (string_of_list_ascii l) = length l.
Proof. by induction l as [|c l IH]; simpl; rewrite ?IH. Qed.

#[local] Instance cm_digests : DigestLaws cm_crypto.
Proof.
  constructor. intros s. unfold sha256, cm_crypto.
  rewrite length_of_list, length_take, length_app, repeat_length. lia.
Qed.

(** ** Assertions *)

Definition cm_time : Z := unix_time co_now.

Definition cm_id (n : ascii) : string :=
  string_of_list_ascii (repeat n 8 ++ "-"%char :: repeat n 4 ++ "-"%char :: repeat n 4 ++ "-"%char ::
    repeat n 4 ++ "-"%char :: repeat n 12).
Definition cm_csrf : string := string_of_list_ascii (repeat "a"%char 43).

Definition cm_claims (jti : string) (who : list (string * json)) (iat : Z) (method path body : string)
    : document :=
  [("iss", JString ISSUER); ("aud", JString "dochazka"); ("method", JString method);
   ("path", JString path); ("bodySha256", JString (sha256 body)); ("iat", JInt iat);
   ("exp", JInt (iat + 10)); ("jti", JString jti); ("sid", JString (cm_id "f")); ("epoch", JInt 1);
   ("csrf", JString cm_csrf)] ++ who.

Definition cm_owner : list (string * json) :=
  [("sub", JString OWNER); ("role", JString "admin"); ("nativeId", JNull);
   ("authzPolicy", JString "owner-no-additional-prompts/1")].
Definition cm_jana : list (string * json) :=
  [("sub", JString ("user:" +:+ cm_id "1")); ("role", JString "member"); ("nativeId", JString "1")].

(** The documents that are read below, by the text that holds them. *)
Definition cm_profile_body : json :=
  JObject [("operation_id", JString (cm_id "a")); ("central_user_id", JString (cm_id "b"));
    ("profile", JObject [("name", JString "Petr Novak"); ("email", JString "petr@example.com");
       ("role", JString "employee")])].
Definition cm_create : string := "/cml-web/api/profiles".
Definition cm_event : string := "/cml-web/api/v1/attendance/events".
Definition cm_change : string := "/cml-web/api/v1/admin/users/1".
Definition cm_documents : list (string * json) :=
  [("header", JObject [("typ", JString "cml-web+jwt"); ("alg", JString "EdDSA"); ("kid", JString "cml-web-1")]);
   ("create-1", JObject (cm_claims (cm_id "1") cm_owner cm_time "POST" cm_create "profile"));
   ("create-2", JObject (cm_claims (cm_id "2") cm_owner (cm_time + 60) "POST" cm_create "profile"));
   ("event", JObject (cm_claims (cm_id "3") cm_jana cm_time "POST" cm_event "event"));
   ("change", JObject (cm_claims (cm_id "4") cm_owner cm_time "PUT" cm_change "password"));
   ("profile", cm_profile_body);
   ("password", JObject [("password", JString "nove-heslo")])].

Definition cm_read (l : list Z) : option json := get_field (text_of l) cm_documents.
#[local] Instance cm_library : CmlLibrary := {|
  json_loads := cm_read;
  pydantic_json := cm_read;
  ed25519_verify key signature _ := bool_decide (signature = key);
|}.

Definition cm_key : list Z := octets_of "kajovocml".
Definition cm_segment (s : string) : string := string_of_list_ascii (b64_encode (octets_of s)).
Definition cm_token (claims : string) : string :=
  cm_segment "header" +:+ "." +:+ cm_segment claims +:+ "." +:+ cm_segment "kajovocml".

Definition cm_site : CmlSite := mk_site "dochazka" (Some cm_key) [] (λ _, false).

Definition cm_request (claims method path body content_type csrf : string) : WebRequest :=
  mk_web_request method path path ""
    [("Origin", ISSUER); ("X-CML-Web-Assertion", cm_token claims); ("X-CSRF-Token", csrf);
     ("X-CML-Web-Prefix", "/sections/dochazka/"); ("Content-Type", content_type)] body true.

Definition cm_state : CmlState := mk_cml ac_portal [] [].

Lemma cm_inv : cml_inv cm_state.
Proof.
  constructor; [exact ac_accounts| |apply NoDup_nil_2].
  constructor; try apply NoDup_nil_2. intros r Hr. by apply elem_of_nil in Hr.
Qed.

(** ** Witnesses *)

Definition cm_create_1 : WebRequest :=
  cm_request "create-1" "POST" cm_create "profile" "application/json" cm_csrf.
Definition cm_create_2 : WebRequest :=
  cm_request "create-2" "POST" cm_create "profile" "application/json" cm_csrf.
Definition cm_event_request : WebRequest :=
  cm_request "event" "POST" cm_event "event" "application/json" cm_csrf.
Definition cm_later : list cml_event :=
  [Elsewhere ac_portal; Arrives (co_now + 5000000) (co_now + 5000000) "inst-8" cm_event_request].

Lemma cml_assertion_single_use_witness :
  spends cm_site cm_state co_now cm_create_1 ∧
  ∃ e, boundary cm_site (cml_run cm_site cm_state (Arrives co_now co_now "inst-9" cm_create_1 :: cm_later))
    (co_now + 6000000) (co_now + 6000000) "inst-7" cm_create_1 =
    (cml_run cm_site cm_state (Arrives co_now co_now "inst-9" cm_create_1 :: cm_later), Err e).
Proof.
  assert (Hs : spends cm_site cm_state co_now cm_create_1).
  { exists (cm_claims (cm_id "1") cm_owner cm_time "POST" cm_create "profile"),
      [mk_nonce (cm_id "1") (cm_time + 10)]. split_and!; vm_compute; reflexivity. }
  split; [exact Hs|].
  apply (cml_assertion_single_use cm_site cm_state co_now co_now "inst-9" cm_create_1 cm_later
    (co_now + 6000000) (co_now + 6000000) "inst-7" cm_create_1 Hs); [vm_compute; reflexivity| |reflexivity].
  simpl. lia.
Defined.

Lemma cml_forward_confined_witness :
  ∃ f, (boundary cm_site cm_state co_now co_now "inst-9" cm_event_request).2 = Ok (CmlForward f) ∧
    fw_path f = "/api/v1/attendance/events" ∧
    starts_with "api/v1/" (suffix_of (wr_path cm_event_request)) = true.
Proof.
  destruct (boundary cm_site cm_state co_now co_now "inst-9" cm_event_request) as [w' a] eqn:E.
  assert (Ha : ∃ f, a = Ok (CmlForward f)).
  { apply (f_equal snd) in E. vm_compute in E. rewrite <- E. eexists. reflexivity. }
  destruct Ha as (f & ->). exists f. split; [reflexivity|].
  destruct (cml_forward_confined cm_site cm_state co_now co_now "inst-9" cm_event_request w' f eq_refl E)
    as (v & _ & _ & Hp & _ & _ & [[Hv _]|[Hroute _]] & _ & _).
  - vm_compute in Hv. discriminate Hv.
  - split; [exact Hp|vm_compute; reflexivity].
Defined.

Definition cm_base : HttpRequest := mk_request "POST" None None None None false None None true true.

Lemma cml_acts_as_witness :
  ∃ f u i, (boundary cm_site cm_state co_now co_now "inst-9" cm_event_request).2 = Ok (CmlForward f) ∧
    names_account ac_portal (fw_claims f) u i ∧
    require_portal_user_auth ac_portal (forwarded_request cm_base f) co_now = Ok (mk_auth u (inst_id i)).
Proof.
  destruct (boundary cm_site cm_state co_now co_now "inst-9" cm_event_request) as [w' a] eqn:E.
  assert (Ha : ∃ f, a = Ok (CmlForward f) ∧ cm_portal w' = ac_portal ∧ owner_or_central (fw_claims f) = false).
  { pose proof (f_equal snd E) as E2. pose proof (f_equal (λ x, cm_portal x.1) E) as E1.
    vm_compute in E2. simpl in E1. rewrite <- E1, <- E2. eexists. split; [reflexivity|].
    split; vm_compute; reflexivity. }
  destruct Ha as (f & -> & Hw & Ho).
  destruct (cml_acts_as cm_site cm_state co_now co_now "inst-9" cm_event_request w' f cm_base co_now E)
    as [(Hoc & _)|(_ & u & i & Hn & Hreq & _)]; [rewrite Ho in Hoc; discriminate Hoc|].
  rewrite Hw in Hn, Hreq. exists f, u, i. exact (conj eq_refl (conj Hn Hreq)).
Defined.

Lemma cml_profile_once_witness :
  ∃ w1 out w3 out',
    boundary cm_site cm_state co_now co_now "inst-9" cm_create_1 = (w1, Ok (CmlProfile (Some out))) ∧
    length (users (p_db (cm_portal w1))) = 2%nat ∧
    boundary cm_site w1 (co_now + 60000000) (co_now + 60000000) "inst-8" cm_create_2 =
      (w3, Ok (CmlProfile (Some out'))) ∧
    rs_native_id out' = rs_native_id out ∧ cm_portal w3 = cm_portal w1.
Proof.
  destruct (boundary cm_site cm_state co_now co_now "inst-9" cm_create_1) as [w1 a] eqn:E1.
  assert (H1 : ∃ out, a = Ok (CmlProfile (Some out)) ∧ rs_operation_id out = cm_id "a" ∧
      length (users (p_db (cm_portal w1))) = 2%nat).
  { pose proof (f_equal snd E1) as Ea. pose proof (f_equal (λ x, length (users (p_db (cm_portal x.1)))) E1) as El.
    vm_compute in Ea, El. rewrite <- Ea. eexists. split; [reflexivity|]. split; [vm_compute; reflexivity|].
    symmetry. exact El. }
  destruct H1 as (out & -> & Hop & Hlen).
  destruct (boundary cm_site w1 (co_now + 60000000) (co_now + 60000000) "inst-8" cm_create_2)
    as [w3 b] eqn:E3.
  assert (H3 : ∃ out', b = Ok (CmlProfile (Some out')) ∧ rs_operation_id out' = cm_id "a").
  { pose proof (f_equal fst E1) as Ew. vm_compute in Ew. simpl in Ew. rewrite <- Ew in E3.
    apply (f_equal snd) in E3. vm_compute in E3. rewrite <- E3. eexists. split; vm_compute; reflexivity. }
  destruct H3 as (out' & -> & Hop').
  destruct (cml_profile_once cm_site cm_state co_now co_now "inst-9" cm_create_1 w1 out []
    (co_now + 60000000) (co_now + 60000000) "inst-8" cm_create_2 w3 out' cm_inv E1 I E3)
    as (Hn & _ & _ & Hp & _); [rewrite Hop, Hop'; reflexivity|].
  exists w1, out, w3, out'. exact (conj eq_refl (conj Hlen (conj E3 (conj Hn Hp)))).
Defined.

(** ** What slips through *)

(** A CSRF header with a character outside ASCII: [compare_digest] raises a
    [TypeError], which no handler catches. *)
Example strange_csrf_header_crashes :
  (boundary cm_site cm_state co_now co_now "inst-9"
     (cm_request "event" "POST" cm_event "event" "application/json"
        (String (ascii_of_N 233) ""))).2 = Err (Crash "TypeError").
Proof. vm_compute. reflexivity. Qed.

(** The use of a reset link, the request for one of the administration and the
    start of an external sign-in pass the list of endings: whoever is admitted
    may call them. *)
Theorem reset_routes_forwarded site rq later claims identity suffix :
  st_audience site = "dochazka" →
  suffix ∈ ["api/v1/portal/reset"; "api/v1/admin/forgot-password"; "api/v1/auth/portal/google/start"] →
  ∃ f, forward site rq later claims identity suffix = Ok (CmlForward f) ∧ fw_path f = "/" +:+ suffix.
Proof.
  intros Hs Hin. unfold forward. rewrite Hs. repeat rewrite elem_of_cons in Hin.
  destruct Hin as [->|[->|[->|Hin]]]; [by eexists..|by apply elem_of_nil in Hin].
Qed.

(** The owner may not set a password from here, but the body is read only when
    its media type is exactly application/json; the application also reads
    JSON under another media type. *)
Example password_forwarded :
  (boundary cm_site cm_state co_now co_now "inst-9"
     (cm_request "change" "PUT" cm_change "password" "application/json" cm_csrf)).2 = Err denied ∧
  ∃ f, (boundary cm_site cm_state co_now co_now "inst-9"
     (cm_request "change" "PUT" cm_change "password" "application/merge-patch+json" cm_csrf)).2 =
       Ok (CmlForward f) ∧ fw_path f = "/api/v1/admin/users/1" ∧ fw_body f = "password".
Proof. split; [vm_compute; reflexivity|]. eexists. split; [vm_compute; reflexivity|]. by split. Qed.
